(* ===== verification/_CoqProject ===== *)
-Q . S2P
Prelude.v
GoStd.v
Decimal.v
Float64.v
Json.v
Ext.v
Codecs.v
GoPath.v
Base64.v
JsonFacts.v
PolicyMerge.v
PolicyMergeFacts.v
PolicyRoundtrip.v
PolicyResult.v
World.v
Hub.v
HubFacts.v
Auth.v
UsersAdmin.v
AuthFacts.v
AuditTrail.v
DeviceCommands.v
CommandFlow.v
CommandFacts.v
CommandDelivery.v
Sessions.v
Incidents.v
IncidentDesk.v
IncidentsApi.v
IncidentFacts.v
DeskFacts.v
IncidentAutomation.v
Compliance.v
ComplianceFacts.v
Alerting.v
AlertEngine.v
AlertFacts.v
AlertPass.v
Enrollment.v
EnrollmentFacts.v
AndroidPolicies.v
MdmDownlink.v
Telemetry.v
TelemetryFacts.v
TelemetryFlow.v
Packages.v
Scheduler.v
SchedulerFacts.v
Notifications.v
AlertsApi.v
AlertsApiFacts.v
AgentHost.v
AgentPolicy.v
AgentCommands.v
AgentFiles.v
AgentHandlers.v
FileProxy.v
Dashboard.v
TransferFacts.v
AgentFacts.v
CommandRoundTrip.v
AgentPolicyFacts.v
AgentScripts.v
DashboardFacts.v
Profiles.v
ProfilesFacts.v
AppFiles.v
AppPaths.v
CertAuthority.v
Backups.v
BackupFacts.v
AppCatalog.v
AppCatalogFacts.v
Records.v
AppFlow.v
Sample.v
AgentWitness.v
StorageWitness.v
ServerWitness.v
TelemetryWitness.v
