(* ===== verification/Prelude.v ===== *)
(** * ARX MDM: a verification library for the server and its agent

    ARX MDM manages devices.  Agents enroll with a one-time token, connect over a
    WebSocket (the hub), report telemetry and run commands; operators use a REST API
    behind a role check; an evaluator turns telemetry into alerts, alerts into
    incidents; configuration profiles are merged into one policy per device, and a
    device that fails to enforce it is quarantined.  This library models the server's
    core and the agent's command loop as executable functions and proves what each part
    promises, and what the two promise together.  File names below without a directory
    are files of this library; paths are under src/internal/ unless they begin with pkg/.

    ** How the model is built

    A handler, a database function or a background pass is a computation of type
    [go L A] ([World]): a function of the server's [World] -- tables, clock, id and
    number generators, agent link, events emitted -- to an error or a result and the
    next world.  A statement (SELECT, INSERT, UPDATE, DELETE, Begin, Commit) is one
    round trip; each takes the next entry of [w_faults], so that a theorem without the
    hypothesis [w_faults w = []] holds whichever statements fail.  A transaction that
    does not commit restores the tables.  Constraints of the schema (CHECK, UNIQUE,
    foreign keys, text PostgreSQL refuses) are tests the statements make.  A request is
    one computation: the races the code allows are stated as explicit interleavings
    (of statements for accounts and commands, of step relations for the hub and for
    enrollment).  Work the code hands to a goroutine (opening an incident, reporting
    fingerprints) is an [event], run later by [run_task].

    The agent is a computation of type [agent A] ([AgentHost]): a function of its state --
    the terminal, the uploads in progress, the outcome of its last policy, and what it has
    sent, written and asked of the system so far -- on a host, the class [Host], which is
    what each call of the operating system answers.  What the code starts in a goroutine
    is run where it is started.  [agent_steps] ([AgentFacts]) is the judgement the facts
    about it are walked with.

    Code that is not in the repository is a parameter: JSON text ([JsonCodec]), UUIDs,
    fmt's float and time verbs, PostgreSQL's avg and text order, the environment
    ([Json], [Ext]), JWT verification and signing, bcrypt, host:port splitting ([Auth], [Sessions]), the CMDB columns
    nobody writes ([IncidentDesk]), X.509, ECDSA,
    PEM and SHA-256 ([Enrollment], [CertAuthority]), pg_dump, tar and gzip ([Backups]), cron expressions ([Scheduler]), HTTP, SMTP and HMAC
    ([Notifications]).  [...Laws] classes state the documented behaviour theorems
    use; [Codecs] and [Sample] give computable instances that satisfy them.  Go's
    strings are bytes (Stdlib's [string]); [GoStd] models the functions of strings,
    unicode/utf8 and strconv the code calls: TrimSpace knows Unicode's spaces, ToLower
    its simple lower-case table (as of Unicode 14); ToUpper is only applied to a column
    the schema keeps ASCII.  float64 is SpecFloat's binary64 ([Float64]).  Times are Unix
    nanoseconds, and the clock stands still during one computation; a session token is checked
    against the time the request carries ([rq_time]).

    ** Parts

    - Policy merge (mdm/policy/merge.go): [PolicyMerge]; [MergeAssignedPayloads] and
      all it calls.  [PolicyMergeFacts]: which value wins for booleans, numbers,
      strings and arrays, and when a conflict is reported.  [PolicyRoundtrip]: a single profile comes out as it went in, and the flat report
      and the nested payload agree.  [PolicyResult]: the report's lists, maps and
      attributions are consistent; when merging fails.
    - World ([World]): the tables (database/migrations, models/), errors, the monad and
      the lemmas that walk a computation: [db_steps] (a relation every statement keeps
      is kept), [db_only] (only the tables change).
    - Agent hub (ws/hub.go, writePump and readPump of ws/handler.go): [Hub], sessions
      as heap objects, step relation over connects, disconnects, dispatches, drains.
      [HubFacts]: the registry invariant, reconnection, the only panic; [LiveHub], the
      hub as an instance of the interface [C2Dispatcher] with its laws [C2Laws], which
      is all the rest of the server assumes of the link.
    - Authentication, RBAC, audit, accounts (auth/, api/dashboard_auth.go,
      api/users_admin.go): [Auth], [UsersAdmin]; [AuthFacts]: what the middleware lets
      through, the handlers' check, the last administrator and the two ways around it.
      [Sessions] (api/auth_handlers.go, device_security.go, the signing half of
      auth/users.go): signing in and what the token is worth afterwards, the routes that
      lock and wipe a device; its facts are in the same file.
      [AuditTrail] (auth/audit.go, api/audit.go, database/audit_logs.go, the chain of
      handlers in cmd/server/serve.go): which mutations leave a record, and the listing.
    - Custodians, documents, the summary (api/device_assignments.go, knowledge.go,
      analytics.go): [Records].
    - Certificate authority (pki/): [CertAuthority], the four files and a restart, client
      certificates, the server's own.  [AppFiles] has the disk and the monad of
      computations that may fail.
    - Backups (backup/, api/backups.go): [Backups], over a file system of its own whose
      calls may fail and take time.  [BackupFacts]: what retention removes, what a finished
      backup holds, when one is made, and the mount that lets none be made.
    - Device commands (database/device_commands.go, api/device_commands.go,
      ws/pending_device_commands.go, ws/device_command_outcome.go): [DeviceCommands],
      [CommandFlow].  [CommandFacts]: table invariant, append-only history, ownership.
      [CommandDelivery]: creation and flushing against [C2Laws]; two lost outcomes.
    - Incidents (database/incidents.go, itsm/alert_bridge.go, api/incidents.go):
      [Incidents], [IncidentDesk] (what is shown, resolutions), [IncidentsApi].  [IncidentFacts]: table invariant, append-only
      journal.  [IncidentAutomation]: recovery, the life of an alert's incident, numbers
      and ranks at the edge of their widths.  [DeskFacts]: the list, the detail view and the
      tables agree; resolutions.
    - Compliance (mdm/compliance/, database/device_compliance.go, tenant_settings.go,
      mdm_configuration.go, api/compliance_routes.go): [Compliance];
      [ComplianceFacts]: one report, and a history of reports.  It calls the policy
      merge and the device commands.
    - Alerts (database/alerting.go, alerting/engine.go): [Alerting], [AlertEngine].
      [AlertFacts]: table invariant, the upsert on every branch, the notification
      cadence.  [AlertPass]: the watchdog's pass against its specification
      ([pass_result]), and the heartbeat with the incident task it starts.
    - Enrollment (auth/enrollment_*.go, auth/tokenhash.go, api/enroll.go):
      [Enrollment]; [EnrollmentFacts]: one token, one certificate, for all
      interleavings; one request on every branch.
    - Device configuration (api/android_policies.go; database/mdm_configuration.go,
      mdm_assignment_state.go, api/mdm_downlink.go, device_effective_policy.go,
      agent_profiles.go): [AndroidPolicies], [MdmDownlink].
    - Telemetry (api/telemetry.go, telemetry_process.go, device_metrics.go,
      database/device_metrics.go, ws/agent_telemetry.go, ws/dash_wire.go): [Telemetry].
      A report runs the compliance check, the heartbeat, the Android policy and the
      downlink.  [TelemetryFacts]: registration against its specification [registers],
      when it is refused, the type of the assets table, the ranges of the metrics and of their history.
      [TelemetryFlow]: a report with the watchdog after it; the wipe request a report
      over the socket loses.
    - Packages, deployments (api/packages.go, ws/package_outcome.go): [Packages].
      Scheduled automations (scheduler/cron.go, api/automations.go): [Scheduler].
      [SchedulerFacts]: the tables' invariant; the automation that never deploys.
    - Notifications (notifications/): [Notifications]; the alerting routes
      (api/alerts.go): [AlertsApi].  [AlertsApiFacts]: the secrets of a channel, the
      patch of a rule.
    - Libraries of Go the agent and the file proxy use: [GoPath] (path/filepath on Unix,
      strings.Fields, url.PathUnescape), [Base64] (encoding/base64 with its round trips),
      [JsonFacts] (what a message is after it has been encoded and decoded).
    - Agent (ws/agent_handlers.go, ws/agent_fs.go, agent/c2/, agent/mdm_*.go,
      pkg/packagemanager/runner.go, pkg/system/): [AgentHost], [AgentPolicy],
      [AgentCommands], [AgentFiles], [AgentHandlers].  [AgentFacts]: upload sessions.
      A policy is enforced on Linux (sysctl)
      and on Windows (registry, firewall, Wi-Fi), the calls being those of [Host].
      [AgentPolicyFacts]: what a policy may write on each platform; the payload enforced is the
      payload merged; what Linux leaves out.  [AgentScripts]: what is handed to a shell
      and to package managers.  [CommandRoundTrip]: a command from the server's message to
      the agent's one answer to the row it settles.
    - File proxy (api/files.go, ws/fs_bridge.go), and what agents say (readPump of
      ws/handler.go, ws/agent_uplink.go, ws/app_install_outcome.go): [FileProxy].
      [TransferFacts]: an upload and a download from the HTTP request to the agent's disk and back.
    - Dashboards (ws/dash_*.go): [Dashboard].  [DashboardFacts]: who can lock or wipe a
      device, across the server and the agent, and the message that gets around it.
    - Profiles, groups and assignments (api/configuration_profiles.go,
      principal_groups.go): [Profiles].  [ProfilesFacts]: the tables' invariant, what an
      assignment reaches, what a patch stores and answers, and the profile that stops a device's policy.
    - Application catalog (api/app_catalog.go, app_managed_config.go,
      agent_app_download.go): [AppFiles], the paths and the server's disk, [AppCatalog], the
      routes.  [AppPaths]: what safeAppsPath computes.  [AppCatalogFacts]: the tables'
      invariant.  [AppFlow]: the disk is touched below the applications' root only; an
      application from its upload to its installation by the agent and the row it settles.
    - [Sample]: a small server; [AgentWitness], [ServerWitness], [StorageWitness], [TelemetryWitness]: the theorems applied to it.

    ** Bounds and fuel

    Recursion is structural, on lists, JSON values or bytes.  These functions have fuel: the decimal printer, the binary size of its number, which is more than its
    digits ([dec_digits_fuel], [itoa_fuel] in [Decimal]), and the cutting of a text in lines
    of 120 bytes, its length, one round per byte ([chunk_lines_fuel] in [AgentScripts]),
    where more fuel gives the same text; the search for a PEM block, the length of the
    data, since each round takes a block off it; os.CreateTemp and os.MkdirTemp, their
    10000 attempts; the walk of a tree, the length of its longest path, since a level down
    takes a longer one ([walk_calm] in [BackupFacts]: it ends).  int16 conversion
    wraps explicitly; time differences saturate at int64 as time.Sub does.  The hub's
    queue holds 32 messages; a full queue ends a dispatch by its timer.  A dashboard's queue
    holds 64, a download's channel 8: what finds them full is dropped.

    ** Not modelled

    Start-up code and the web client; of the agent its start-up, its heartbeat, the collection
    of system facts, the commands that only Windows has, and the wipe worker.  When a schedule fires is left open.
    A nil pool, hub or logger, contexts and their timeouts, and log output are left out
    everywhere. *)

From Stdlib Require Export ZArith NArith Lia Ascii String.
From stdpp Require Export gmap strings list fin_maps sorting.
#[global] Set Warnings "-notation-overridden,-ambiguous-paths".
#[global] Open Scope Z_scope.
#[global] Open Scope list_scope.

(** ** Scope and automation shared by the components *)

Declare Scope arx_scope.
Delimit Scope arx_scope with arx.
#[global] Open Scope arx_scope.

Create HintDb arx.
Create Rewrite HintDb arx.

(** [case_goal] destructs the discriminee of the innermost-first [match] of the
    goal and keeps the equation; [case_hyp H] does it in a hypothesis. *)
Ltac case_goal :=
  match goal with
  | |- context [ match ?x with _ => _ end ] =>
      lazymatch x with
      | context [ match _ with _ => _ end ] => fail
      | _ => let E := fresh "E" in destruct x eqn:E
      end
  end.

Ltac case_hyp H :=
  match type of H with
  | context [ match ?x with _ => _ end ] =>
      lazymatch x with
      | context [ match _ with _ => _ end ] => fail
      | _ => let E := fresh "E" in destruct x eqn:E
      end
  end.

Ltac invert H := inversion H; subst; clear H.

(** ** Lists *)

Section lists.
Context {A : Type}.
Implicit Types (l : list A) (p : A -> bool).

(** [count_where p l]: the number of rows a predicate selects. *)
Definition count_where p l : nat := length (List.filter p l).

Lemma count_where_0 p l :
  count_where p l = 0%nat <-> forall x, In x l -> p x = false.
Proof.
  unfold count_where; split.
  - intros H x Hx. destruct (p x) eqn:E; [|done].
    assert (In x (List.filter p l)) as Hi by (apply filter_In; done).
    destruct (List.filter p l); done.
  - intros H. induction l as [|y l IH]; [done|]; simpl.
    rewrite (H y (or_introl eq_refl)). apply IH. intros x Hx; apply H; by right.
Qed.

Lemma filter_none p l : (forall x, In x l -> p x = false) -> List.filter p l = [].
Proof.
  induction l as [|x l IH]; [done|]. intros H. simpl. rewrite (H x) by (by left). apply IH. intros; apply H; by right.
Qed.

Lemma find_snoc p l x : List.find p l = None -> List.find p (l ++ [x]) = if p x then Some x else None.
Proof. induction l as [|y l IH]; [done|]. cbn. by destruct (p y). Qed.

Lemma take_In n l x : In x (take n l) -> In x l.
Proof. intros H. rewrite <- (take_drop n l). apply in_or_app. by left. Qed.

Lemma fold_left_inv {B} (P : B -> Prop) (f : B -> A -> B) l b :
  P b -> (forall b x, In x l -> P b -> P (f b x)) -> P (fold_left f l b).
Proof.
  revert b; induction l as [|x l IH]; intros b Hb Hf; simpl; [done|].
  apply IH; [apply Hf; [by left|done]|]. intros; apply Hf; [by right|done].
Qed.

Lemma fold_left_map {B C} (f : C -> B -> C) (g : A -> B) l c :
  fold_left f (map g l) c = fold_left (fun c x => f c (g x)) l c.
Proof. revert c; induction l as [|x l IH]; intros c; simpl; [done|]. apply IH. Qed.

Lemma fold_left_ext {B} (f g : B -> A -> B) l b :
  (forall b x, In x l -> f b x = g b x) -> fold_left f l b = fold_left g l b.
Proof.
  revert b; induction l as [|x l IH]; intros b H; simpl; [done|].
  rewrite H by (by left). apply IH. intros; apply H; by right.
Qed.
End lists.

(** ** Sorting

    [sort_slice less] is the insertion sort Go's [sort.Slice] runs on short
    slices: stable, comparing with the caller's [less]. *)
Section sort.
Context {A : Type} (less : A -> A -> bool).

Fixpoint insert_sorted (x : A) (l : list A) : list A :=
  match l with
  | [] => [x]
  | y :: l' => if less y x then y :: insert_sorted x l' else x :: l
  end.

Definition sort_slice (l : list A) : list A := fold_right insert_sorted [] l.

Lemma insert_sorted_perm x l : insert_sorted x l ≡ₚ x :: l.
Proof.
  induction l as [|y l IH]; simpl; [done|].
  destruct (less y x); [|done]. rewrite IH. apply perm_swap.
Qed.

Lemma sort_slice_perm l : sort_slice l ≡ₚ l.
Proof.
  induction l as [|x l IH]; simpl; [done|].
  by rewrite insert_sorted_perm, IH.
Qed.

Lemma sort_slice_In x l : In x (sort_slice l) <-> In x l.
Proof.
  rewrite <- !list_elem_of_In. by rewrite (sort_slice_perm l).
Qed.

(** The order the sort realises: [x] may stand before [y] unless [less y x]. *)
Definition may_precede (x y : A) : Prop := less y x = false.

Context (Htrans : forall x y z, may_precede x y -> may_precede y z -> may_precede x z)
        (Htotal : forall x y, may_precede x y \/ may_precede y x).

Lemma insert_sorted_sorted x l :
  StronglySorted may_precede l -> StronglySorted may_precede (insert_sorted x l).
Proof.
  induction 1 as [|y l Hs IH Hall]; simpl; [repeat constructor|].
  destruct (less y x) eqn:E.
  - constructor; [done|].
    assert (Hyx : may_precede y x).
    { destruct (Htotal y x) as [?|H]; [done|]. red in H. congruence. }
    rewrite (insert_sorted_perm x l). by constructor.
  - constructor; [by constructor|]. constructor; [done|].
    eapply Forall_impl; [exact Hall|]. intros z Hz. by eapply Htrans.
Qed.

Lemma sort_slice_sorted l : StronglySorted may_precede (sort_slice l).
Proof.
  induction l as [|x l IH]; simpl; [constructor|]. by apply insert_sorted_sorted.
Qed.
End sort.

#[export] Hint Resolve sort_slice_perm sort_slice_sorted : arx.

(** ** The lexicographic order on strings (Go's [<] on [string]) *)

Definition str_lt (a b : string) : bool := String.ltb a b.
Definition str_le (a b : string) : bool := String.leb a b.

Lemma ascii_compare_N a b : Ascii.compare a b = N.compare (N_of_ascii a) (N_of_ascii b).
Proof. done. Qed.

Lemma str_compare_refl a : String.compare a a = Eq.
Proof.
  induction a as [|x a IH]; simpl; [done|].
  by rewrite ascii_compare_N, N.compare_refl.
Qed.

Lemma str_compare_lt_trans a b c :
  String.compare a b = Lt -> String.compare b c = Lt -> String.compare a c = Lt.
Proof.
  revert b c; induction a as [|x a IH]; intros [|y b] [|z c]; simpl; try done.
  rewrite !ascii_compare_N.
  destruct (N.compare_spec (N_of_ascii x) (N_of_ascii y)) as [E1|E1|E1];
    destruct (N.compare_spec (N_of_ascii y) (N_of_ascii z)) as [E2|E2|E2]; intros H1 H2; try done;
    destruct (N.compare_spec (N_of_ascii x) (N_of_ascii z)) as [E3|E3|E3]; try done; try lia.
  by eapply IH.
Qed.

Lemma str_le_spec a b : str_le a b = true <-> a = b \/ String.compare a b = Lt.
Proof.
  unfold str_le, String.leb. destruct (String.compare a b) eqn:E.
  - apply String.compare_eq_iff in E. naive_solver.
  - naive_solver.
  - split; [done|]. intros [->|?]; [by rewrite str_compare_refl in E|done].
Qed.

Lemma str_lt_not_le a b : str_lt b a = false <-> str_le a b = true.
Proof.
  unfold str_lt, str_le, String.ltb, String.leb.
  rewrite (String.compare_antisym b a). by destruct (String.compare a b).
Qed.

Lemma str_le_refl a : str_le a a = true.
Proof. apply str_le_spec; by left. Qed.

Lemma str_le_trans a b c : str_le a b = true -> str_le b c = true -> str_le a c = true.
Proof.
  rewrite !str_le_spec. intros [->|H1] [->|H2]; auto.
  right. by eapply str_compare_lt_trans.
Qed.

Lemma str_le_total a b : str_le a b = true \/ str_le b a = true.
Proof. apply String.leb_total. Qed.

Lemma str_le_antisym a b : str_le a b = true -> str_le b a = true -> a = b.
Proof. apply String.leb_antisym. Qed.

Lemma str_lt_irrefl a : str_lt a a = false.
Proof. unfold str_lt, String.ltb. by rewrite str_compare_refl. Qed.

Lemma str_lt_le a b : str_lt a b = true -> str_le a b = true.
Proof. unfold str_lt, str_le, String.ltb, String.leb. by destruct (String.compare a b). Qed.

Lemma str_lt_trans a b c : str_lt a b = true -> str_lt b c = true -> str_lt a c = true.
Proof.
  unfold str_lt, String.ltb.
  destruct (String.compare a b) eqn:E1; try done.
  destruct (String.compare b c) eqn:E2; try done.
  by rewrite (str_compare_lt_trans _ _ _ E1 E2).
Qed.

Lemma str_lt_total a b : str_lt a b = true \/ a = b \/ str_lt b a = true.
Proof.
  unfold str_lt, String.ltb. rewrite (String.compare_antisym b a).
  destruct (String.compare a b) eqn:E; simpl; auto.
  right; left. by apply String.compare_eq_iff.
Qed.

#[export] Hint Resolve str_le_refl str_lt_irrefl : arx.

(** Go's [sort.Strings]. *)
Definition sort_strings (l : list string) : list string := sort_slice str_lt l.

Lemma sort_strings_sorted l : StronglySorted (fun a b => str_le a b = true) (sort_strings l).
Proof.
  eapply StronglySorted_ind with (P := StronglySorted (fun a b => str_le a b = true)).
  - constructor.
  - intros a l' _ IH Hall. constructor; [done|].
    eapply Forall_impl; [exact Hall|]. intros b. apply str_lt_not_le.
  - apply sort_slice_sorted; unfold may_precede.
    + intros x y z. rewrite !str_lt_not_le. apply str_le_trans.
    + intros x y. rewrite !str_lt_not_le. apply str_le_total.
Qed.

Lemma sort_strings_perm l : sort_strings l ≡ₚ l.
Proof. apply sort_slice_perm. Qed.

Lemma sort_strings_In x l : In x (sort_strings l) <-> In x l.
Proof. apply sort_slice_In. Qed.

(** ** Options *)

Definition is_some_b {A} (o : option A) : bool := match o with Some _ => true | None => false end.

