(* ===== verification/GoStd.v ===== *)
(** * The parts of Go's standard library the modelled code relies on

    Go strings are byte strings, as Rocq's [string] is.  [TrimSpace] is exact on
    UTF-8 (every [unicode.IsSpace] code point is listed by its encoding);
    [ToLower] maps runes through Unicode's simple lower-case table; [EqualFold] is exact
    against ASCII texts, which are the only ones the code compares with.  [Cal]: the dates of
    package time in UTC. *)

From S2P Require Import Prelude.
From Stdlib Require Import SpecFloat.

(** ** strings *)
Module Str.

Definition bytes (s : string) : list ascii := list_ascii_of_string s.
Definition of_bytes (l : list ascii) : string := string_of_list_ascii l.
Definition slen (s : string) : Z := Z.of_nat (String.length s).

(** unicode.IsSpace, by the number of bytes of the encoding. *)
Definition space1 (c : ascii) : bool :=
  let n := N_of_ascii c in (N.leb 9 n && N.leb n 13) || N.eqb n 32.

Definition space2 (c1 c2 : ascii) : bool :=
  N.eqb (N_of_ascii c1) 0xC2 && (N.eqb (N_of_ascii c2) 0x85 || N.eqb (N_of_ascii c2) 0xA0).

Definition space3 (c1 c2 c3 : ascii) : bool :=
  let a := N_of_ascii c1 in let b := N_of_ascii c2 in let c := N_of_ascii c3 in
  (N.eqb a 0xE1 && N.eqb b 0x9A && N.eqb c 0x80)
  || (N.eqb a 0xE2 && N.eqb b 0x80 && ((N.leb 0x80 c && N.leb c 0x8A) || N.eqb c 0xA8 || N.eqb c 0xA9 || N.eqb c 0xAF))
  || (N.eqb a 0xE2 && N.eqb b 0x81 && N.eqb c 0x9F)
  || (N.eqb a 0xE3 && N.eqb b 0x80 && N.eqb c 0x80).

Section trim.
Context (sp2 : ascii -> ascii -> bool) (sp3 : ascii -> ascii -> ascii -> bool).

Fixpoint trim_with (l : list ascii) : list ascii :=
  match l with
  | [] => []
  | c1 :: r1 =>
      if space1 c1 then trim_with r1 else
      match r1 with
      | [] => l
      | c2 :: r2 =>
          if sp2 c1 c2 then trim_with r2 else
          match r2 with
          | [] => l
          | c3 :: r3 => if sp3 c1 c2 c3 then trim_with r3 else l
          end
      end
  end.

Definition starts_space (l : list ascii) : bool :=
  match l with
  | [] => false
  | c1 :: r1 =>
      space1 c1 ||
      match r1 with
      | [] => false
      | c2 :: r2 => sp2 c1 c2 || match r2 with [] => false | c3 :: _ => sp3 c1 c2 c3 end
      end
  end.

Lemma trim_with_id l : starts_space l = false -> trim_with l = l.
Proof.
  destruct l as [|c1 [|c2 [|c3 r]]]; simpl; [done|..]; rewrite ?orb_false_iff.
  - intros [-> _]. done.
  - intros [-> [-> _]]. done.
  - intros [-> [-> ->]]. done.
Qed.

Lemma trim_with_starts l : starts_space (trim_with l) = false.
Proof.
  induction l as [l IH] using (induction_ltof1 _ (@List.length ascii)).
  destruct l as [|c1 r1]; [done|]; simpl.
  destruct (space1 c1) eqn:E1; [apply IH; unfold ltof; simpl; lia|].
  destruct r1 as [|c2 r2]; [simpl; by rewrite E1|].
  destruct (sp2 c1 c2) eqn:E2; [apply IH; unfold ltof; simpl; lia|].
  destruct r2 as [|c3 r3]; [simpl; by rewrite E1, E2|].
  destruct (sp3 c1 c2 c3) eqn:E3; [apply IH; unfold ltof; simpl; lia|].
  simpl. by rewrite E1, E2, E3.
Qed.

Lemma trim_with_suffix l : exists p, l = p ++ trim_with l.
Proof.
  induction l as [l IH] using (induction_ltof1 _ (@List.length ascii)).
  destruct l as [|c1 r1]; [by exists []|]; simpl.
  destruct (space1 c1) eqn:E1.
  { destruct (IH r1) as [p Hp]; [unfold ltof; simpl; lia|]. exists (c1 :: p). simpl. by f_equal. }
  destruct r1 as [|c2 r2]; [by exists []|].
  destruct (sp2 c1 c2) eqn:E2.
  { destruct (IH r2) as [p Hp]; [unfold ltof; simpl; lia|]. exists (c1 :: c2 :: p). simpl. by do 2 f_equal. }
  destruct r2 as [|c3 r3]; [by exists []|].
  destruct (sp3 c1 c2 c3) eqn:E3; [|by exists []].
  destruct (IH r3) as [p Hp]; [unfold ltof; simpl; lia|]. exists (c1 :: c2 :: c3 :: p). simpl. by do 3 f_equal.
Qed.

Lemma trim_with_idem l : trim_with (trim_with l) = trim_with l.
Proof. apply trim_with_id, trim_with_starts. Qed.

Lemma starts_space_app l1 l2 : starts_space l1 = true -> starts_space (l1 ++ l2) = true.
Proof.
  destruct l1 as [|c1 [|c2 [|c3 r]]]; simpl; rewrite ?orb_true_iff; try done.
  - intros [->|?]; [by left|done].
  - intros [->|[->|?]]; by auto.
Qed.
End trim.

Definition trim_left (l : list ascii) := trim_with space2 space3 l.
Definition trim_right (l : list ascii) :=
  rev (trim_with (fun c2 c1 => space2 c1 c2) (fun c3 c2 c1 => space3 c1 c2 c3) (rev l)).

(** strings.TrimSpace *)
Definition trim_space (s : string) : string := of_bytes (trim_right (trim_left (bytes s))).

Lemma trim_right_prefix l : exists s, l = trim_right l ++ s.
Proof.
  unfold trim_right.
  destruct (trim_with_suffix (fun c2 c1 => space2 c1 c2) (fun c3 c2 c1 => space3 c1 c2 c3) (rev l)) as [p Hp].
  exists (rev p). rewrite <- rev_app_distr, <- Hp. by rewrite rev_involutive.
Qed.

Lemma trim_right_idem l : trim_right (trim_right l) = trim_right l.
Proof. unfold trim_right. by rewrite rev_involutive, trim_with_idem. Qed.

Lemma trim_list_idem l :
  trim_right (trim_left (trim_right (trim_left l))) = trim_right (trim_left l).
Proof.
  assert (Hl : trim_left (trim_right (trim_left l)) = trim_right (trim_left l)).
  { unfold trim_left at 1. apply trim_with_id.
    destruct (starts_space space2 space3 (trim_right (trim_left l))) eqn:E; [|done].
    destruct (trim_right_prefix (trim_left l)) as [s Hs].
    apply (starts_space_app _ _ _ s) in E. rewrite <- Hs in E.
    unfold trim_left in E. by rewrite trim_with_starts in E. }
  by rewrite Hl, trim_right_idem.
Qed.

Lemma trim_space_idem s : trim_space (trim_space s) = trim_space s.
Proof.
  unfold trim_space, bytes, of_bytes. rewrite list_ascii_of_string_of_list_ascii.
  by rewrite trim_list_idem.
Qed.

(** ** Runes *)

(** unicode/utf8.ValidString *)
Definition cont (c : ascii) : bool := let n := N_of_ascii c in N.leb 0x80 n && N.leb n 0xBF.
Definition in_range (lo hi : N) (c : ascii) : bool := let n := N_of_ascii c in N.leb lo n && N.leb n hi.

Fixpoint valid_utf8_bytes (l : list ascii) : bool :=
  match l with
  | [] => true
  | c1 :: r1 =>
      let n := N_of_ascii c1 in
      if N.ltb n 0x80 then valid_utf8_bytes r1 else
      match r1 with
      | [] => false
      | c2 :: r2 =>
          if in_range 0xC2 0xDF c1 then cont c2 && valid_utf8_bytes r2 else
          match r2 with
          | [] => false
          | c3 :: r3 =>
              if N.eqb n 0xE0 then in_range 0xA0 0xBF c2 && cont c3 && valid_utf8_bytes r3
              else if N.eqb n 0xED then in_range 0x80 0x9F c2 && cont c3 && valid_utf8_bytes r3
              else if in_range 0xE1 0xEF c1 then cont c2 && cont c3 && valid_utf8_bytes r3
              else match r3 with
                   | [] => false
                   | c4 :: r4 =>
                       if N.eqb n 0xF0 then in_range 0x90 0xBF c2 && cont c3 && cont c4 && valid_utf8_bytes r4
                       else if N.eqb n 0xF4 then in_range 0x80 0x8F c2 && cont c3 && cont c4 && valid_utf8_bytes r4
                       else if in_range 0xF1 0xF3 c1 then cont c2 && cont c3 && cont c4 && valid_utf8_bytes r4
                       else false
                   end
          end
      end
  end.

Definition valid_utf8 (s : string) : bool := valid_utf8_bytes (bytes s).

(** What json.Marshal writes for a string: each byte that is not part of a
    well-formed rune becomes U+FFFD. *)
Definition two (c1 c2 : ascii) : bool := in_range 0xC2 0xDF c1 && cont c2.
Definition three (c1 c2 c3 : ascii) : bool :=
  let n := N_of_ascii c1 in
  (if N.eqb n 0xE0 then in_range 0xA0 0xBF c2 else
   if N.eqb n 0xED then in_range 0x80 0x9F c2 else in_range 0xE1 0xEF c1 && cont c2) && cont c3.
Definition four (c1 c2 c3 c4 : ascii) : bool :=
  let n := N_of_ascii c1 in
  (if N.eqb n 0xF0 then in_range 0x90 0xBF c2 else
   if N.eqb n 0xF4 then in_range 0x80 0x8F c2 else in_range 0xF1 0xF3 c1 && cont c2) && cont c3 && cont c4.

Definition replacement : list ascii := map ascii_of_N [0xEF; 0xBF; 0xBD]%N.

Fixpoint coerce_bytes (l : list ascii) : list ascii :=
  match l with
  | [] => []
  | c1 :: r1 =>
      if N.ltb (N_of_ascii c1) 0x80 then c1 :: coerce_bytes r1 else
      match r1 with
      | c2 :: r2 =>
          if two c1 c2 then c1 :: c2 :: coerce_bytes r2 else
          match r2 with
          | c3 :: r3 =>
              if three c1 c2 c3 then c1 :: c2 :: c3 :: coerce_bytes r3 else
              match r3 with
              | c4 :: r4 => if four c1 c2 c3 c4 then c1 :: c2 :: c3 :: c4 :: coerce_bytes r4
                            else replacement ++ coerce_bytes r1
              | [] => replacement ++ coerce_bytes r1
              end
          | [] => replacement ++ coerce_bytes r1
          end
      | [] => replacement
      end
  end.

(** The rune a well-formed sequence encodes, and the encoding of a rune (unicode/utf8). *)
Definition payload (c : ascii) : Z := Z.of_N (N.land (N_of_ascii c) 0x3F).
Definition rune2 (c1 c2 : ascii) : Z := Z.of_N (N.land (N_of_ascii c1) 0x1F) * 64 + payload c2.
Definition rune3 (c1 c2 c3 : ascii) : Z :=
  (Z.of_N (N.land (N_of_ascii c1) 0x0F) * 64 + payload c2) * 64 + payload c3.
Definition rune4 (c1 c2 c3 c4 : ascii) : Z :=
  ((Z.of_N (N.land (N_of_ascii c1) 0x07) * 64 + payload c2) * 64 + payload c3) * 64 + payload c4.

Definition byte (z : Z) : ascii := ascii_of_N (Z.to_N z).

Definition encode_rune (r : Z) : list ascii :=
  if r <? 0x80 then [byte r]
  else if r <? 0x800 then [byte (0xC0 + r / 64); byte (0x80 + r mod 64)]
  else if r <? 0x10000 then [byte (0xE0 + r / 4096); byte (0x80 + r / 64 mod 64); byte (0x80 + r mod 64)]
  else [byte (0xF0 + r / 262144); byte (0x80 + r / 4096 mod 64); byte (0x80 + r / 64 mod 64); byte (0x80 + r mod 64)].

(** Unicode's simple lower-case mapping outside ASCII: (first, last, step, offset).  Letters
    added after Unicode 14 are missing and map to themselves. *)
Definition case_ranges : list (Z * Z * Z * Z) := [
  (0xC0, 0xD6, 1, 32); (0xD8, 0xDE, 1, 32); (0x100, 0x12E, 2, 1); (0x130, 0x130, 1, (-199));
  (0x132, 0x136, 2, 1); (0x139, 0x147, 2, 1); (0x14A, 0x176, 2, 1); (0x178, 0x178, 1, (-121));
  (0x179, 0x17D, 2, 1); (0x181, 0x181, 1, 210); (0x182, 0x184, 2, 1); (0x186, 0x186, 1, 206);
  (0x187, 0x187, 1, 1); (0x189, 0x18A, 1, 205); (0x18B, 0x18B, 1, 1); (0x18E, 0x18E, 1, 79);
  (0x18F, 0x18F, 1, 202); (0x190, 0x190, 1, 203); (0x191, 0x191, 1, 1); (0x193, 0x193, 1, 205);
  (0x194, 0x194, 1, 207); (0x196, 0x196, 1, 211); (0x197, 0x197, 1, 209); (0x198, 0x198, 1, 1);
  (0x19C, 0x19C, 1, 211); (0x19D, 0x19D, 1, 213); (0x19F, 0x19F, 1, 214); (0x1A0, 0x1A4, 2, 1);
  (0x1A6, 0x1A6, 1, 218); (0x1A7, 0x1A7, 1, 1); (0x1A9, 0x1A9, 1, 218); (0x1AC, 0x1AC, 1, 1);
  (0x1AE, 0x1AE, 1, 218); (0x1AF, 0x1AF, 1, 1); (0x1B1, 0x1B2, 1, 217); (0x1B3, 0x1B5, 2, 1);
  (0x1B7, 0x1B7, 1, 219); (0x1B8, 0x1B8, 1, 1); (0x1BC, 0x1BC, 1, 1); (0x1C4, 0x1C4, 1, 2);
  (0x1C5, 0x1C5, 1, 1); (0x1C7, 0x1C7, 1, 2); (0x1C8, 0x1C8, 1, 1); (0x1CA, 0x1CA, 1, 2); (0x1CB, 0x1DB, 2, 1);
  (0x1DE, 0x1EE, 2, 1); (0x1F1, 0x1F1, 1, 2); (0x1F2, 0x1F4, 2, 1); (0x1F6, 0x1F6, 1, (-97));
  (0x1F7, 0x1F7, 1, (-56)); (0x1F8, 0x21E, 2, 1); (0x220, 0x220, 1, (-130)); (0x222, 0x232, 2, 1);
  (0x23A, 0x23A, 1, 10795); (0x23B, 0x23B, 1, 1); (0x23D, 0x23D, 1, (-163)); (0x23E, 0x23E, 1, 10792);
  (0x241, 0x241, 1, 1); (0x243, 0x243, 1, (-195)); (0x244, 0x244, 1, 69); (0x245, 0x245, 1, 71);
  (0x246, 0x24E, 2, 1); (0x370, 0x372, 2, 1); (0x376, 0x376, 1, 1); (0x37F, 0x37F, 1, 116);
  (0x386, 0x386, 1, 38); (0x388, 0x38A, 1, 37); (0x38C, 0x38C, 1, 64); (0x38E, 0x38F, 1, 63);
  (0x391, 0x3A1, 1, 32); (0x3A3, 0x3AB, 1, 32); (0x3CF, 0x3CF, 1, 8); (0x3D8, 0x3EE, 2, 1);
  (0x3F4, 0x3F4, 1, (-60)); (0x3F7, 0x3F7, 1, 1); (0x3F9, 0x3F9, 1, (-7)); (0x3FA, 0x3FA, 1, 1);
  (0x3FD, 0x3FF, 1, (-130)); (0x400, 0x40F, 1, 80); (0x410, 0x42F, 1, 32); (0x460, 0x480, 2, 1);
  (0x48A, 0x4BE, 2, 1); (0x4C0, 0x4C0, 1, 15); (0x4C1, 0x4CD, 2, 1); (0x4D0, 0x52E, 2, 1);
  (0x531, 0x556, 1, 48); (0x10A0, 0x10C5, 1, 7264); (0x10C7, 0x10C7, 1, 7264); (0x10CD, 0x10CD, 1, 7264);
  (0x13A0, 0x13EF, 1, 38864); (0x13F0, 0x13F5, 1, 8); (0x1C90, 0x1CBA, 1, (-3008));
  (0x1CBD, 0x1CBF, 1, (-3008)); (0x1E00, 0x1E94, 2, 1); (0x1E9E, 0x1E9E, 1, (-7615)); (0x1EA0, 0x1EFE, 2, 1);
  (0x1F08, 0x1F0F, 1, (-8)); (0x1F18, 0x1F1D, 1, (-8)); (0x1F28, 0x1F2F, 1, (-8)); (0x1F38, 0x1F3F, 1, (-8));
  (0x1F48, 0x1F4D, 1, (-8)); (0x1F59, 0x1F5F, 2, (-8)); (0x1F68, 0x1F6F, 1, (-8)); (0x1F88, 0x1F8F, 1, (-8));
  (0x1F98, 0x1F9F, 1, (-8)); (0x1FA8, 0x1FAF, 1, (-8)); (0x1FB8, 0x1FB9, 1, (-8)); (0x1FBA, 0x1FBB, 1, (-74));
  (0x1FBC, 0x1FBC, 1, (-9)); (0x1FC8, 0x1FCB, 1, (-86)); (0x1FCC, 0x1FCC, 1, (-9)); (0x1FD8, 0x1FD9, 1, (-8));
  (0x1FDA, 0x1FDB, 1, (-100)); (0x1FE8, 0x1FE9, 1, (-8)); (0x1FEA, 0x1FEB, 1, (-112));
  (0x1FEC, 0x1FEC, 1, (-7)); (0x1FF8, 0x1FF9, 1, (-128)); (0x1FFA, 0x1FFB, 1, (-126));
  (0x1FFC, 0x1FFC, 1, (-9)); (0x2126, 0x2126, 1, (-7517)); (0x212A, 0x212A, 1, (-8383));
  (0x212B, 0x212B, 1, (-8262)); (0x2132, 0x2132, 1, 28); (0x2160, 0x216F, 1, 16); (0x2183, 0x2183, 1, 1);
  (0x24B6, 0x24CF, 1, 26); (0x2C00, 0x2C2F, 1, 48); (0x2C60, 0x2C60, 1, 1); (0x2C62, 0x2C62, 1, (-10743));
  (0x2C63, 0x2C63, 1, (-3814)); (0x2C64, 0x2C64, 1, (-10727)); (0x2C67, 0x2C6B, 2, 1);
  (0x2C6D, 0x2C6D, 1, (-10780)); (0x2C6E, 0x2C6E, 1, (-10749)); (0x2C6F, 0x2C6F, 1, (-10783));
  (0x2C70, 0x2C70, 1, (-10782)); (0x2C72, 0x2C72, 1, 1); (0x2C75, 0x2C75, 1, 1); (0x2C7E, 0x2C7F, 1, (-10815));
  (0x2C80, 0x2CE2, 2, 1); (0x2CEB, 0x2CED, 2, 1); (0x2CF2, 0x2CF2, 1, 1); (0xA640, 0xA66C, 2, 1);
  (0xA680, 0xA69A, 2, 1); (0xA722, 0xA72E, 2, 1); (0xA732, 0xA76E, 2, 1); (0xA779, 0xA77B, 2, 1);
  (0xA77D, 0xA77D, 1, (-35332)); (0xA77E, 0xA786, 2, 1); (0xA78B, 0xA78B, 1, 1); (0xA78D, 0xA78D, 1, (-42280));
  (0xA790, 0xA792, 2, 1); (0xA796, 0xA7A8, 2, 1); (0xA7AA, 0xA7AA, 1, (-42308)); (0xA7AB, 0xA7AB, 1, (-42319));
  (0xA7AC, 0xA7AC, 1, (-42315)); (0xA7AD, 0xA7AD, 1, (-42305)); (0xA7AE, 0xA7AE, 1, (-42308));
  (0xA7B0, 0xA7B0, 1, (-42258)); (0xA7B1, 0xA7B1, 1, (-42282)); (0xA7B2, 0xA7B2, 1, (-42261));
  (0xA7B3, 0xA7B3, 1, 928); (0xA7B4, 0xA7C2, 2, 1); (0xA7C4, 0xA7C4, 1, (-48)); (0xA7C5, 0xA7C5, 1, (-42307));
  (0xA7C6, 0xA7C6, 1, (-35384)); (0xA7C7, 0xA7C9, 2, 1); (0xA7D0, 0xA7D0, 1, 1); (0xA7D6, 0xA7D8, 2, 1);
  (0xA7F5, 0xA7F5, 1, 1); (0xFF21, 0xFF3A, 1, 32); (0x10400, 0x10427, 1, 40); (0x104B0, 0x104D3, 1, 40);
  (0x10570, 0x1057A, 1, 39); (0x1057C, 0x1058A, 1, 39); (0x1058C, 0x10592, 1, 39); (0x10594, 0x10595, 1, 39);
  (0x10C80, 0x10CB2, 1, 64); (0x118A0, 0x118BF, 1, 32); (0x16E40, 0x16E5F, 1, 32); (0x1E900, 0x1E921, 1, 34)
].

(** unicode.ToLower outside ASCII *)
Definition lower_rune (r : Z) : Z :=
  match List.find (fun '(lo, hi, step, _) => (lo <=? r) && (r <=? hi) && ((r - lo) mod step =? 0)) case_ranges with
  | Some (_, _, _, offset) => r + offset
  | None => r
  end.

(** ** Letter case *)

Definition lower_ascii (c : ascii) : ascii :=
  let n := N_of_ascii c in
  if N.leb 65 n && N.leb n 90 then ascii_of_N (n + 32) else c.

Definition upper_ascii (c : ascii) : ascii :=
  let n := N_of_ascii c in
  if N.leb 97 n && N.leb n 122 then ascii_of_N (n - 32) else c.

(** strings.ToLower: rune by rune; a byte outside a well-formed rune becomes U+FFFD. *)
Fixpoint lower_bytes (l : list ascii) : list ascii :=
  match l with
  | [] => []
  | c1 :: r1 =>
      if N.ltb (N_of_ascii c1) 0x80 then lower_ascii c1 :: lower_bytes r1 else
      match r1 with
      | c2 :: r2 =>
          if two c1 c2 then encode_rune (lower_rune (rune2 c1 c2)) ++ lower_bytes r2 else
          match r2 with
          | c3 :: r3 =>
              if three c1 c2 c3 then encode_rune (lower_rune (rune3 c1 c2 c3)) ++ lower_bytes r3 else
              match r3 with
              | c4 :: r4 => if four c1 c2 c3 c4 then encode_rune (lower_rune (rune4 c1 c2 c3 c4)) ++ lower_bytes r4
                            else replacement ++ lower_bytes r1
              | [] => replacement ++ lower_bytes r1
              end
          | [] => replacement ++ lower_bytes r1
          end
      | [] => replacement
      end
  end.

Definition to_lower (s : string) : string := of_bytes (lower_bytes (bytes s)).

(** strings.ToUpper of an ASCII text. *)
Fixpoint to_upper (s : string) : string :=
  match s with EmptyString => EmptyString | String c r => String (upper_ascii c) (to_upper r) end.

(** strings.EqualFold against an ASCII text: besides the ASCII letters only U+212A (Kelvin
    sign) and U+017F (long s) fold to an ASCII letter. *)
Fixpoint fold_bytes (l : list ascii) : list ascii :=
  match l with
  | [] => []
  | c1 :: r1 =>
      match r1 with
      | c2 :: r2 =>
          if N.eqb (N_of_ascii c1) 0xC5 && N.eqb (N_of_ascii c2) 0xBF then "s"%char :: fold_bytes r2 else
          match r2 with
          | c3 :: r3 =>
              if N.eqb (N_of_ascii c1) 0xE2 && N.eqb (N_of_ascii c2) 0x84 && N.eqb (N_of_ascii c3) 0xAA
              then "k"%char :: fold_bytes r3 else lower_ascii c1 :: fold_bytes r1
          | [] => lower_ascii c1 :: fold_bytes r1
          end
      | [] => [lower_ascii c1]
      end
  end.

Definition equal_fold (a b : string) : bool :=
  String.eqb (of_bytes (fold_bytes (bytes a))) (of_bytes (fold_bytes (bytes b))).

Example lower_kelvin : to_lower (of_bytes (map ascii_of_N [0xE2; 0x84; 0xAA; 0xC4; 0xB0; 0xCE; 0xA3; 0xFF]%N)) =
  of_bytes (map ascii_of_N [107; 105; 0xCF; 0x83; 0xEF; 0xBF; 0xBD]%N).
Proof. vm_compute. reflexivity. Qed.

(** strings.HasPrefix, HasSuffix, Contains *)
Definition has_prefix (s p : string) : bool := String.prefix p s.

Definition has_suffix (s p : string) : bool :=
  String.prefix (of_bytes (rev (bytes p))) (of_bytes (rev (bytes s))).

Fixpoint contains (s sub : string) : bool :=
  String.prefix sub s ||
  match s with EmptyString => false | String _ r => contains r sub end.

(** strings.TrimSuffix *)
Definition trim_suffix (s p : string) : string :=
  if has_suffix s p then String.substring 0 (String.length s - String.length p) s else s.

(** strings.Split by a one-byte separator, and strings.Join. *)
Fixpoint split_on (sep : ascii) (s : string) : list string :=
  match s with
  | EmptyString => [""%string]
  | String c r =>
      if Ascii.eqb c sep then ""%string :: split_on sep r
      else match split_on sep r with
           | [] => [String c ""%string]
           | h :: t => String c h :: t
           end
  end.

Fixpoint join (sep : string) (l : list string) : string :=
  match l with
  | [] => ""%string
  | [x] => x
  | x :: r => x +:+ sep +:+ join sep r
  end.

Fixpoint has_byte (c : ascii) (s : string) : bool :=
  match s with EmptyString => false | String d r => Ascii.eqb d c || has_byte c r end.

Lemma split_on_nonempty sep s : split_on sep s <> [].
Proof. destruct s; simpl; [done|]. destruct (Ascii.eqb a sep); [done|]. by destruct (split_on sep s). Qed.

Lemma split_on_no_sep sep s : has_byte sep s = false -> split_on sep s = [s].
Proof.
  induction s as [|c s IH]; simpl; [done|]. rewrite orb_false_iff. intros [-> H].
  by rewrite (IH H).
Qed.

Lemma split_on_app sep x s :
  has_byte sep x = false ->
  split_on sep (x +:+ String sep s) = x :: split_on sep s.
Proof.
  induction x as [|c x IH]; simpl.
  - by rewrite Ascii.eqb_refl.
  - rewrite orb_false_iff. intros [-> H]. by rewrite (IH H).
Qed.

Lemma split_join sep l :
  l <> [] -> Forall (fun x => has_byte sep x = false) l ->
  split_on sep (join (String sep "") l) = l.
Proof.
  induction l as [|x l IH]; [done|]. intros _ Hall. invert Hall.
  destruct l as [|y l].
  - by apply split_on_no_sep.
  - change (join (String sep "") (x :: y :: l)) with (x +:+ String sep (join (String sep "") (y :: l))).
    rewrite split_on_app by done. by rewrite IH.
Qed.

(** strings.LastIndex for a one-byte needle, as an index. *)
Fixpoint last_index (c : ascii) (s : string) : option nat :=
  match s with
  | EmptyString => None
  | String d r =>
      match last_index c r with
      | Some i => Some (S i)
      | None => if Ascii.eqb d c then Some 0%nat else None
      end
  end.

Definition drop (n : nat) (s : string) : string := String.substring n (String.length s - n) s.
Definition take (n : nat) (s : string) : string := String.substring 0 n s.

Lemma length_append a b : String.length (a +:+ b) = (String.length a + String.length b)%nat.
Proof. induction a; simpl; [done|congruence]. Qed.

Lemma append_cons c a b : String c a +:+ b = String c (a +:+ b).
Proof. done. Qed.

Lemma append_nil_l b : "" +:+ b = b.
Proof. done. Qed.

Lemma append_assoc a b c : (a +:+ b) +:+ c = a +:+ (b +:+ c).
Proof. induction a; [done|]. by rewrite !append_cons, IHa. Qed.

Lemma append_inj_l a b c : a +:+ b = a +:+ c -> b = c.
Proof. induction a; [done|]. rewrite !append_cons. intros H; injection H; auto. Qed.

(** PostgreSQL's left(s, n): the first n characters. *)
Fixpoint left_bytes (n : nat) (l : list ascii) : list ascii :=
  match l with
  | [] => []
  | c :: r => if cont c then c :: left_bytes n r
              else match n with O => [] | S k => c :: left_bytes k r end
  end.

Definition left_chars (n : nat) (s : string) : string := of_bytes (left_bytes n (bytes s)).

(** utf8.RuneCountInString of valid UTF-8. *)
Definition rune_count (s : string) : Z := Z.of_nat (count_where (fun c => negb (cont c)) (bytes s)).

Definition coerce_utf8 (s : string) : string := of_bytes (coerce_bytes (bytes s)).

(** strconv.Itoa and %d *)
Definition digit (n : N) : ascii := ascii_of_N (48 + n).

Fixpoint dec_digits (fuel : nat) (n : N) (acc : string) : string :=
  match fuel with
  | O => acc
  | S f =>
      let acc' := String (digit (n mod 10)) acc in
      if N.eqb (n / 10) 0 then acc' else dec_digits f (n / 10) acc'
  end.

Definition itoa_N (n : N) : string := dec_digits (S (N.to_nat (N.log2 n))) n "".

Definition itoa (z : Z) : string :=
  match z with
  | Zneg p => "-" +:+ itoa_N (Npos p)
  | _ => itoa_N (Z.to_N z)
  end.

(** A decimal digit, the number a list of them spells, strconv.Atoi. *)
Definition is_digit (c : ascii) : bool := let n := N_of_ascii c in N.leb 48 n && N.leb n 57.

Definition digits_value (l : list ascii) : Z :=
  fold_left (fun n c => n * 10 + Z.of_N (N_of_ascii c - 48)) l 0.

Definition digits (l : list ascii) : option Z :=
  match l with [] => None | _ => if forallb is_digit l then Some (digits_value l) else None end.

Definition atoi (s : string) : option Z :=
  let l := bytes s in
  z ← match l with
      | "-"%char :: r => option_map Z.opp (digits r)
      | "+"%char :: r => digits r
      | _ => digits l
      end;
  if (- 2 ^ 63 <=? z) && (z <? 2 ^ 63) then Some z else None.

(** %0wd for a non-negative argument: pads, never truncates. *)
Fixpoint zeros (n : nat) : string := match n with O => ""%string | S k => String "0" (zeros k) end.

(** PostgreSQL's LPAD(s, w, '0'): pads, and cuts what is longer. *)
Definition lpad_zeros (w : nat) (s : string) : string :=
  if (w <? String.length s)%nat then take w s else zeros (w - String.length s) +:+ s.

Definition pad_zeros (w : nat) (s : string) : string := zeros (w - String.length s) +:+ s.
Lemma bytes_of_bytes l : bytes (of_bytes l) = l.
Proof. apply list_ascii_of_string_of_list_ascii. Qed.
End Str.

#[export] Hint Rewrite Str.trim_space_idem : arx.

Module Cal.

(** ** package time: dates of the proleptic Gregorian calendar, in UTC *)

Definition leap (y : Z) : bool := (y mod 4 =? 0) && (negb (y mod 100 =? 0) || (y mod 400 =? 0)).

Definition days_in (y m : Z) : Z :=
  if m =? 2 then (if leap y then 29 else 28) else if existsb (Z.eqb m) [4; 6; 9; 11] then 30 else 31.

(** The days before a year since 0000-01-01, and before a month of a year. *)
Definition days_before_year (y : Z) : Z := 365 * y + (y + 3) / 4 - (y + 99) / 100 + (y + 399) / 400.
Definition days_before_month (y m : Z) : Z :=
  fold_left (fun n k => n + days_in y k) (map Z.of_nat (seq 1 (Z.to_nat (m - 1)))) 0.

Definition epoch_days : Z := days_before_year 1970.
Definition day_ns : Z := 86400 * 1000000000.

(** The instant of a date at midnight; a day behind the end of the month is one of the next. *)
Definition date (y m d : Z) : Z := (days_before_year y + days_before_month y m + (d - 1) - epoch_days) * day_ns.

Definition year_of (n : Z) : Z := let y := 400 * n / 146097 in if days_before_year (y + 1) <=? n then y + 1 else if days_before_year y <=? n then y else y - 1.

Lemma leap_year y : days_before_year (y + 1) = days_before_year y + 365 + (if leap y then 1 else 0).
Proof.
  unfold days_before_year, leap.
  destruct (Z.eqb_spec (y mod 4) 0), (Z.eqb_spec (y mod 100) 0), (Z.eqb_spec (y mod 400) 0); cbn [andb orb negb];
    Z.div_mod_to_equations; lia.
Qed.

Lemma year_of_spec n : days_before_year (year_of n) <= n < days_before_year (year_of n + 1).
Proof.
  unfold year_of. set (y := 400 * n / 146097).
  destruct (Z.leb_spec (days_before_year (y + 1)) n); [|destruct (Z.leb_spec (days_before_year y) n)].
  - split; [done|]. unfold days_before_year, y in *. Z.div_mod_to_equations. lia.
  - lia.
  - split; [|by replace (y - 1 + 1) with y by lia]. unfold days_before_year, y in *. Z.div_mod_to_equations. lia.
Qed.

Definition month_of (y doy : Z) : Z :=
  Z.of_nat (count_where (fun m => days_before_month y m <=? doy) (map Z.of_nat (seq 1 12))).

(** Year, month and day of the n-th day. *)
Definition civil (n : Z) : Z * Z * Z :=
  let y := year_of n in let doy := n - days_before_year y in let m := month_of y doy in
  (y, m, doy - days_before_month y m + 1).

Definition day_of (t : Z) : Z := t / day_ns + epoch_days.

(** t.AddDate(k, 0, 0) *)
Definition add_years (k t : Z) : Z :=
  let '(y, m, d) := civil (day_of t) in date (y + k) m d + t mod day_ns.

Lemma days_before_month_shift k y m : 1 <= m <= 12 ->
  days_before_month (y + k) m - days_before_month y m
  = if 2 <? m then (if leap (y + k) then 1 else 0) - (if leap y then 1 else 0) else 0.
Proof.
  intros Hm. assert (H : In m (map Z.of_nat (seq 1 12))).
  { apply in_map_iff. exists (Z.to_nat m). split; [lia|]. apply in_seq. lia. }
  cbn in H. unfold days_before_month, days_in. generalize (leap (y + k)) (leap y). intros a b.
  repeat (destruct H as [<-|H]; [destruct a, b; reflexivity|]). done.
Qed.

Lemma month_of_range y doy : 0 <= doy -> 1 <= month_of y doy <= 12.
Proof.
  intros Hd. unfold month_of, count_where. split.
  - change (map Z.of_nat (seq 1 12)) with (1 :: map Z.of_nat (seq 2 11)). cbn [List.filter].
    replace (days_before_month y 1 <=? doy) with true by (symmetry; apply Z.leb_le; exact Hd). cbn [length]. lia.
  - pose proof (List.filter_length_le (fun m => days_before_month y m <=? doy) (map Z.of_nat (seq 1 12))) as H.
    rewrite length_map, length_seq in H. lia.
Qed.

(** What a number of years adds: whole years, and the leap day between. *)
Lemma add_years_shift k t : exists y (late : bool),
  add_years k t - t = (days_before_year (y + k) - days_before_year y
    + (if late then (if leap (y + k) then 1 else 0) - (if leap y then 1 else 0) else 0)) * day_ns.
Proof.
  unfold add_years, civil, date. cbv zeta. set (n := day_of t). set (y := year_of n).
  pose proof (year_of_spec n) as Hy. fold y in Hy.
  assert (Hm : 1 <= month_of y (n - days_before_year y) <= 12) by (apply month_of_range; lia).
  set (m := month_of _ _) in *. pose proof (days_before_month_shift k y m Hm) as Hs.
  assert (Et : t = (n - epoch_days) * day_ns + t mod day_ns).
  { unfold n, day_of. pose proof (Z.div_mod t day_ns ltac:(done)). lia. }
  set (r := t mod day_ns) in *. clearbody r. exists y, (2 <? m). rewrite Et. unfold day_ns in *. lia.
Qed.

(** A year later is 365 or 366 days later. *)
Lemma add_year_bounds t : 365 * day_ns <= add_years 1 t - t <= 366 * day_ns.
Proof.
  destruct (add_years_shift 1 t) as (y & late & ->). pose proof (leap_year y) as Hl. unfold day_ns in *.
  destruct late, (leap (y + 1)), (leap y); lia.
Qed.

Lemma days_before_years k y : 1 <= k -> days_before_year y + 365 * k + (if leap y then 1 else 0) <= days_before_year (y + k).
Proof.
  intros Hk. pose proof (leap_year y) as Hl.
  assert (days_before_year (y + 1) + 365 * (k - 1) <= days_before_year (y + k)); [|lia].
  unfold days_before_year. clear Hl. Z.div_mod_to_equations. lia.
Qed.

(** Years later, at least 365 days for each. *)
Lemma add_years_lower k t : 1 <= k -> 365 * k * day_ns <= add_years k t - t.
Proof.
  intros Hk. destruct (add_years_shift k t) as (y & late & ->). pose proof (days_before_years k y Hk) as Hl. unfold day_ns in *.
  destruct late, (leap (y + k)), (leap y); lia.
Qed.

Lemma add_years_0 t : add_years 0 t = t.
Proof.
  unfold add_years, civil, date. cbv zeta. rewrite Z.add_0_r. pose proof (Z.div_mod t day_ns ltac:(done)). unfold day_of. lia.
Qed.

(** time.ParseInLocation("2006-01-02", s, time.UTC) *)
Definition fixed_digits (n : nat) (l : list ascii) : option (Z * list ascii) :=
  if (n <=? length l)%nat then option_map (fun z => (z, skipn n l)) (Str.digits (firstn n l)) else None.

Definition parse_date (s : string) : option Z :=
  '(y, l) ← fixed_digits 4 (Str.bytes s);
  match l with
  | "-"%char :: l =>
      '(m, l) ← fixed_digits 2 l;
      match l with
      | "-"%char :: l =>
          '(d, l) ← fixed_digits 2 l;
          if negb (match l with [] => true | _ => false end) || (m <? 1) || (12 <? m) || (d <? 1) || (days_in y m <? d)
          then None else Some (date y m d)
      | _ => None
      end
  | _ => None
  end.

(** t.Format("20060102150405") *)
Definition stamp (t : Z) : string :=
  let '(y, m, d) := civil (day_of t) in
  let s := t mod day_ns / 1000000000 in
  let two n := Str.pad_zeros 2 (Str.itoa n) in
  Str.pad_zeros 4 (Str.itoa y) +:+ two m +:+ two d +:+ two (s / 3600) +:+ two (s / 60 mod 60) +:+ two (s mod 60).

Example date_epoch : parse_date "1970-01-01" = Some 0.
Proof. vm_compute. reflexivity. Qed.
Example date_leap_day : parse_date "2024-02-29" = Some (1709164800 * 1000000000).
Proof. vm_compute. reflexivity. Qed.
Example date_no_leap_day : parse_date "2023-02-29" = None.
Proof. vm_compute. reflexivity. Qed.
Example a_year_after_leap_day : option_map (add_years 1) (parse_date "2024-02-29") = parse_date "2025-03-01".
Proof. vm_compute. reflexivity. Qed.
Example stamp_leap_day : stamp (1709164800 * 1000000000 + 3661 * 1000000000) = "20240229010101"%string.
Proof. vm_compute. reflexivity. Qed.
End Cal.
