(* ===== verification/Decimal.v ===== *)
(** * Decimal numbers as text

    What [Str.itoa] prints, how long it is, and that reading it gives the number back. *)

From S2P Require Import Prelude GoStd.

Section digits.
Import Str.

Lemma dec_digits_acc f : forall n acc, dec_digits f n acc = dec_digits f n "" +:+ acc.
Proof.
  induction f as [|f IH]; intros n acc; [done|]. cbn [dec_digits].
  destruct (N.eqb (n / 10) 0); [done|]. rewrite IH, (IH _ (String _ "")), append_assoc. done.
Qed.

Lemma dec_digits_upper f : forall n k acc, (n < 10 ^ N.of_nat (S k))%N ->
  (String.length (dec_digits f n acc) <= S k + String.length acc)%nat.
Proof.
  induction f as [|f IH]; intros n k acc Hn; cbn [dec_digits]; [lia|].
  destruct (N.eqb_spec (n / 10) 0) as [E|E]; [simpl; lia|].
  destruct k as [|k].
  - exfalso. apply E. apply N.div_small. exact Hn.
  - etransitivity; [apply (IH _ k)|simpl; lia].
    apply N.Div0.div_lt_upper_bound. rewrite !Nat2N.inj_succ, !N.pow_succ_r' in *. lia.
Qed.

Lemma dec_digits_lower f : forall n k acc, (10 ^ N.of_nat k <= n)%N -> (k < f)%nat ->
  (S k + String.length acc <= String.length (dec_digits f n acc))%nat.
Proof.
  induction f as [|f IH]; intros n k acc Hn Hk; cbn [dec_digits]; [lia|].
  destruct (N.eqb_spec (n / 10) 0) as [E|E].
  - destruct k as [|k]; [simpl; lia|]. exfalso.
    apply N.div_small_iff in E; [|done]. rewrite Nat2N.inj_succ, N.pow_succ_r' in Hn.
    assert (0 < 10 ^ N.of_nat k)%N by (apply N.neq_0_lt_0, N.pow_nonzero; done). lia.
  - destruct k as [|k].
    + rewrite dec_digits_acc, length_append. simpl. lia.
    + etransitivity; [|apply (IH _ k); [|lia]]; [simpl; lia|].
      apply N.div_le_lower_bound; [done|]. by rewrite Nat2N.inj_succ, N.pow_succ_r' in Hn.
Qed.

(** The fuel of [itoa_N] always suffices. *)
Lemma dec_digits_fuel f : forall g n acc, (n < 2 ^ N.of_nat f)%N -> (n < 2 ^ N.of_nat g)%N -> n <> 0%N ->
  dec_digits f n acc = dec_digits g n acc.
Proof.
  induction f as [|f IH]; intros g n acc Hf Hg H0; [simpl in Hf; lia|].
  destruct g as [|g]; [simpl in Hg; lia|]. cbn [dec_digits].
  destruct (N.eqb_spec (n / 10) 0) as [|E]; [done|].
  rewrite !Nat2N.inj_succ, !N.pow_succ_r' in *.
  apply IH; [..|done]; apply N.Div0.div_lt_upper_bound; lia.
Qed.

Lemma itoa_fuel n : n <> 0%N -> (n < 2 ^ N.of_nat (S (N.to_nat (N.log2 n))))%N.
Proof.
  intros H. rewrite Nat2N.inj_succ, N2Nat.id. apply N.log2_spec. lia.
Qed.

Lemma itoa_snoc n : (10 <= n)%N -> itoa_N n = itoa_N (n / 10) +:+ String (digit (n mod 10)) "".
Proof.
  intros H. unfold itoa_N at 1. cbn [dec_digits].
  assert (Hd : (n / 10 <> 0)%N) by (intros E; apply N.div_small_iff in E; lia).
  rewrite (proj2 (N.eqb_neq _ _) Hd), dec_digits_acc. f_equal.
  apply dec_digits_fuel; [|by apply itoa_fuel|done].
  pose proof (itoa_fuel n ltac:(lia)) as Hn. rewrite Nat2N.inj_succ, N.pow_succ_r' in Hn.
  apply N.Div0.div_lt_upper_bound. lia.
Qed.

Lemma is_digit_digit n : (n < 10)%N -> is_digit (digit n) = true.
Proof.
  intros H. assert (n ∈ map N.of_nat (seq 0 10)) as Hi.
  { apply list_elem_of_In, in_map_iff. exists (N.to_nat n). rewrite N2Nat.id. split; [done|]. apply in_seq. lia. }
  clear H. revert n Hi. apply Forall_forall. repeat constructor.
Qed.

Lemma dec_digits_digits f : forall n acc, forallb is_digit (bytes acc) = true ->
  forallb is_digit (bytes (dec_digits f n acc)) = true.
Proof.
  induction f as [|f IH]; intros n acc H; [done|]. cbn [dec_digits].
  assert (Hs : forallb is_digit (bytes (String (digit (n mod 10)) acc)) = true).
  { cbn [bytes list_ascii_of_string forallb]. rewrite is_digit_digit by (apply N.mod_lt; done). exact H. }
  destruct (N.eqb _ _); [done|by apply IH].
Qed.

Lemma itoa_itoa_N n : 0 <= n -> itoa n = itoa_N (Z.to_N n).
Proof. by destruct n. Qed.

Lemma itoa_digits n : 0 <= n -> forallb is_digit (bytes (itoa n)) = true.
Proof. intros H. rewrite itoa_itoa_N by done. by apply dec_digits_digits. Qed.

(** Seven digits are enough exactly below ten million. *)
Lemma itoa_short n : 0 <= n < 10 ^ 7 -> (String.length (itoa n) <= 7)%nat.
Proof.
  intros H. rewrite itoa_itoa_N by lia. unfold itoa_N.
  etransitivity; [apply (dec_digits_upper _ _ 6)|]; [|done]. simpl. lia.
Qed.

Lemma itoa_long n : 10 ^ 7 <= n -> (8 <= String.length (itoa n))%nat.
Proof.
  intros H. rewrite itoa_itoa_N by lia. unfold itoa_N.
  apply (dec_digits_lower _ _ 7 ""); [simpl; lia|].
  assert (7 <= N.log2 (Z.to_N n))%N; [|lia]. apply N.log2_le_pow2; [lia|]. simpl. lia.
Qed.

Lemma length_zeros k : String.length (zeros k) = k.
Proof. induction k; simpl; congruence. Qed.

Lemma zeros_digits k : forallb is_digit (bytes (zeros k)) = true.
Proof. induction k; simpl; [done|]. by rewrite IHk. Qed.

Lemma bytes_append a b : bytes (a +:+ b) = bytes a ++ bytes b.
Proof. induction a as [|c a IH]; [done|]. unfold bytes in *. simpl. by rewrite IH. Qed.

Lemma take_append a b : take (String.length a) (a +:+ b) = a.
Proof.
  unfold take. induction a as [|c a IH]; [by destruct b|]. simpl. by rewrite IH.
Qed.

(** Printing a number and reading it back. *)
Lemma digits_value_snoc l c : digits_value (l ++ [c]) = digits_value l * 10 + Z.of_N (N_of_ascii c - 48).
Proof. unfold digits_value. by rewrite fold_left_app. Qed.

Lemma digit_value n : (n < 10)%N -> N_of_ascii (digit n) = (48 + n)%N.
Proof. intros H. unfold digit. rewrite N_ascii_embedding; lia. Qed.

Lemma itoa_N_value n : digits_value (bytes (itoa_N n)) = Z.of_N n.
Proof.
  induction n as [n IH] using (well_founded_induction N.lt_wf_0).
  destruct (N.le_gt_cases 10 n) as [H|H].
  - rewrite itoa_snoc, bytes_append by done. change (bytes (String ?c "")) with [c]. rewrite digits_value_snoc, IH.
    + rewrite digit_value, (N.add_comm 48), N.add_sub by (by apply N.mod_lt).
      rewrite (N.div_mod n 10) at 3 by done. generalize (n / 10)%N, (n mod 10)%N. intros; lia.
    + apply N.div_lt; lia.
  - assert (n ∈ map N.of_nat (seq 0 10)) as Hi.
    { apply list_elem_of_In, in_map_iff. exists (N.to_nat n). rewrite N2Nat.id. split; [done|]. apply in_seq. lia. }
    clear H IH. revert n Hi. apply Forall_forall. repeat constructor.
Qed.

Lemma dec_digits_ne f : forall n acc, acc <> ""%string \/ f <> 0%nat -> bytes (dec_digits f n acc) <> [].
Proof.
  induction f as [|f IH]; intros n acc H; cbn [dec_digits].
  - destruct H as [H|]; [by destruct acc|done].
  - destruct (N.eqb _ _); [done|]. apply IH. by left.
Qed.

Lemma digits_itoa n : 0 <= n -> digits (bytes (itoa n)) = Some n.
Proof.
  intros H. unfold digits. rewrite itoa_digits by done. rewrite itoa_itoa_N by done.
  destruct (bytes (itoa_N (Z.to_N n))) eqn:E; [by apply dec_digits_ne in E; [|right]|].
  rewrite <- E, itoa_N_value. f_equal. lia.
Qed.

Lemma digits_value_nonneg l : 0 <= digits_value l.
Proof.
  induction l as [|c l IH] using rev_ind; [done|]. rewrite digits_value_snoc. lia.
Qed.

Lemma digits_nonneg l n : digits l = Some n -> 0 <= n.
Proof.
  unfold digits. destruct l; [done|]. destruct (forallb _ _); [|done]. intros [= <-]. apply digits_value_nonneg.
Qed.
End digits.

Lemma substring_all s : String.substring 0 (String.length s) s = s.
Proof. induction s as [|c s IH]; [done|]. simpl. by rewrite IH. Qed.
