(* ===== verification/Float64.v ===== *)
(** * float64

    Go's float64 is IEEE-754 binary64 with round-to-nearest-even.  The Standard
    Library's [SpecFloat] gives the operations as ordinary functions, so they
    compute in proofs. *)

From S2P Require Import Prelude.
From Stdlib Require Import SpecFloat.

Definition float64 : Set := spec_float.

Module F64.
Definition prec : Z := 53.
Definition emax : Z := 1024.

Definition of_Z (z : Z) : float64 := binary_normalize prec emax z 0 false.
Definition add : float64 -> float64 -> float64 := SFadd prec emax.
Definition sub : float64 -> float64 -> float64 := SFsub prec emax.
Definition mul : float64 -> float64 -> float64 := SFmul prec emax.
Definition div : float64 -> float64 -> float64 := SFdiv prec emax.
Definition abs : float64 -> float64 := SFabs.
Definition ltb : float64 -> float64 -> bool := SFltb.
Definition leb : float64 -> float64 -> bool := SFleb.
Definition eqb : float64 -> float64 -> bool := SFeqb.

Definition one : float64 := of_Z 1.
(** The literals 1e-9, 1e-6 and 1e12: each is the correctly rounded quotient or
    integer, which is what the Go compiler stores. *)
Definition eps9 : float64 := div one (of_Z 1000000000).
Definition eps6 : float64 := div one (of_Z 1000000).
Definition e12 : float64 := of_Z 1000000000000.

Definition is_nan (f : float64) : bool := match f with S754_nan => true | _ => false end.
Definition is_inf (f : float64) : bool := match f with S754_infinity _ => true | _ => false end.
Definition is_finite (f : float64) : bool := negb (is_nan f) && negb (is_inf f).
(** A finite binary64 in the one representation its rounding gives it: the floats a
    JSON number decodes to. *)
Definition is_number (f : float64) : bool := is_finite f && valid_binary prec emax f.

(** The integer a float is, if it is one. *)
Definition to_Z (f : float64) : option Z :=
  match f with
  | S754_zero _ => Some 0
  | S754_finite s m e =>
      let sign z := if s then - z else z in
      if 0 <=? e then Some (sign (Z.pos m * 2 ^ e))
      else if Z.pos m mod 2 ^ (- e) =? 0 then Some (sign (Z.pos m / 2 ^ (- e))) else None
  | _ => None
  end.

(** math.Round: half away from zero. *)
Definition round (f : float64) : float64 :=
  match f with
  | S754_finite s m e =>
      if 0 <=? e then f
      else let q := (Z.pos m + 2 ^ (- e - 1)) / 2 ^ (- e) in
           if q =? 0 then S754_zero s else of_Z (if s then - q else q)
  | _ => f
  end.

(** math.Max *)
Definition max (x y : float64) : float64 :=
  match x, y with
  | S754_infinity false, _ | _, S754_infinity false => S754_infinity false
  | S754_nan, _ | _, S754_nan => S754_nan
  | S754_zero sx, S754_zero sy => if sx then y else x
  | _, _ => if ltb y x then x else y
  end.

(** ** The order on non-NaN floats

    [SFcompare] is the lexicographic order of a key, which makes it a total
    preorder: +0 and -0 share a key. *)
Definition key (f : float64) : Z * Z * Z :=
  match f with
  | S754_infinity true => (-2, 0, 0)
  | S754_finite true m e => (-1, - e, Zneg m)
  | S754_zero _ => (0, 0, 0)
  | S754_finite false m e => (1, e, Zpos m)
  | S754_infinity false => (2, 0, 0)
  | S754_nan => (0, 0, 0)
  end.

Definition lex (a b : Z * Z * Z) : comparison :=
  let '(a1, a2, a3) := a in let '(b1, b2, b3) := b in
  match Z.compare a1 b1 with
  | Eq => match Z.compare a2 b2 with Eq => Z.compare a3 b3 | c => c end
  | c => c
  end.

Lemma compare_key f g :
  is_nan f = false -> is_nan g = false -> SFcompare f g = Some (lex (key f) (key g)).
Proof.
  destruct f as [sf|sf| |sf mf ef], g as [sg|sg| |sg mg eg]; try done; intros _ _;
    try destruct sf; try destruct sg; try done; simpl.
  rewrite Z.compare_opp, (Z.compare_antisym ef eg).
  by destruct (Z.compare ef eg).
Qed.

Lemma lex_lt a b : lex a b = Lt <->
  a.1.1 < b.1.1 \/ (a.1.1 = b.1.1 /\ (a.1.2 < b.1.2 \/ (a.1.2 = b.1.2 /\ a.2 < b.2))).
Proof.
  destruct a as [[a1 a2] a3], b as [[b1 b2] b3]; simpl.
  destruct (Z.compare_spec a1 b1), (Z.compare_spec a2 b2), (Z.compare_spec a3 b3);
    split; intros; subst; try done; lia.
Qed.

Lemma ltb_key f g :
  is_nan f = false -> is_nan g = false -> ltb f g = true <-> lex (key f) (key g) = Lt.
Proof.
  intros Hf Hg. unfold ltb, SFltb. rewrite (compare_key _ _ Hf Hg).
  by destruct (lex (key f) (key g)).
Qed.

(** [f <= g] as the code's loops see it: not [g < f]. *)
Definition le (f g : float64) : Prop := ltb g f = false.

Lemma le_key f g : is_nan f = false -> is_nan g = false ->
  le f g <-> ~ lex (key g) (key f) = Lt.
Proof.
  intros Hf Hg. unfold le. rewrite <- (ltb_key _ _ Hg Hf).
  by destruct (ltb g f).
Qed.

Lemma le_refl f : le f f.
Proof.
  unfold le, ltb, SFltb. destruct (is_nan f) eqn:E; [by destruct f|].
  rewrite compare_key by done. destruct (key f) as [[a b] c]; simpl.
  by rewrite !Z.compare_refl.
Qed.

Lemma le_trans f g h :
  is_nan f = false -> is_nan g = false -> is_nan h = false -> le f g -> le g h -> le f h.
Proof. intros Hf Hg Hh. rewrite !le_key, !lex_lt by done. lia. Qed.

Lemma lt_le f g : is_nan f = false -> is_nan g = false -> ltb f g = true -> le f g.
Proof. intros Hf Hg. rewrite ltb_key, le_key, !lex_lt by done. lia. Qed.

(** Two floats that compare equal (the sign of zero is ignored). *)
End F64.

#[export] Hint Resolve F64.le_refl : arx.
