(* ===== verification/Json.v ===== *)
(** * JSON values as Go's [encoding/json] produces them in an [any]

    [json.Unmarshal] into [any] yields nil, bool, float64, string, []any or
    map[string]any and nothing else.  A Go map has no order: [JObj] lists its
    entries in ascending key order, which is also the order [json.Marshal] and
    the code's [sortedKeysMap] use, so equal maps are equal terms.

    The text format is the standard library's: [JsonCodec] names the two
    functions and [JsonCodecLaws] what the code relies on. *)

From S2P Require Import Prelude GoStd Float64.
From Stdlib Require Import SpecFloat.

Inductive json : Set :=
| JNull
| JBool (b : bool)
| JNum (f : float64)
| JStr (s : string)
| JArr (l : list json)
| JObj (m : list (string * json)).

Section json_ind.
Context (P : json -> Prop)
        (Hnull : P JNull) (Hbool : forall b, P (JBool b)) (Hnum : forall f, P (JNum f))
        (Hstr : forall s, P (JStr s))
        (Harr : forall l, Forall P l -> P (JArr l))
        (Hobj : forall m, Forall (fun kv => P kv.2) m -> P (JObj m)).

Fixpoint json_ind' (v : json) : P v :=
  match v with
  | JNull => Hnull
  | JBool b => Hbool b
  | JNum f => Hnum f
  | JStr s => Hstr s
  | JArr l =>
      Harr l ((fix go (l : list json) : Forall P l :=
                 match l with
                 | [] => Forall_nil_2 P
                 | x :: r => Forall_cons_2 P x r (json_ind' x) (go r)
                 end) l)
  | JObj m =>
      Hobj m ((fix go (m : list (string * json)) : Forall (fun kv => P kv.2) m :=
                 match m with
                 | [] => Forall_nil_2 _
                 | kv :: r => Forall_cons_2 (fun kv => P kv.2) kv r (json_ind' kv.2) (go r)
                 end) m)
  end.
End json_ind.

(** ** map[string]any *)

Fixpoint obj_get (k : string) (m : list (string * json)) : option json :=
  match m with
  | [] => None
  | (k', v) :: r => if String.eqb k k' then Some v else obj_get k r
  end.

Fixpoint obj_set (k : string) (v : json) (m : list (string * json)) : list (string * json) :=
  match m with
  | [] => [(k, v)]
  | (k', v') :: r =>
      if String.eqb k k' then (k, v) :: r
      else if str_lt k k' then (k, v) :: m
      else (k', v') :: obj_set k v r
  end.

(** Keys in strictly ascending order: the canonical listing of a Go map. *)
Definition keys_sorted (m : list (string * json)) : Prop :=
  StronglySorted (fun a b => str_lt a b = true) m.*1.

Lemma obj_get_set_eq k v m : obj_get k (obj_set k v m) = Some v.
Proof.
  induction m as [|[k' v'] m IH]; simpl; [by rewrite String.eqb_refl|].
  destruct (String.eqb_spec k k') as [->|Hn]; simpl; [by rewrite String.eqb_refl|].
  destruct (str_lt k k'); simpl; [by rewrite String.eqb_refl|].
  by rewrite (proj2 (String.eqb_neq _ _) Hn).
Qed.

Lemma obj_get_set_ne k k2 v m : k <> k2 -> obj_get k2 (obj_set k v m) = obj_get k2 m.
Proof.
  intros Hn. induction m as [|[k' v'] m IH]; simpl.
  - by rewrite (proj2 (String.eqb_neq k2 k)) by congruence.
  - destruct (String.eqb_spec k k') as [->|Hk]; simpl.
    + by rewrite (proj2 (String.eqb_neq k2 k')) by congruence.
    + destruct (str_lt k k'); simpl.
      * by rewrite (proj2 (String.eqb_neq k2 k)) by congruence.
      * by rewrite IH.
Qed.

Lemma obj_get_In k v m : obj_get k m = Some v -> In (k, v) m.
Proof.
  induction m as [|[k' v'] m IH]; simpl; [done|].
  destruct (String.eqb_spec k k') as [->|]; [|by eauto]. intros [= ->]. by left.
Qed.

Lemma obj_get_None k m : ~ In k m.*1 -> obj_get k m = None.
Proof.
  induction m as [|[k' v'] m IH]; simpl; [done|]. intros H.
  rewrite (proj2 (String.eqb_neq k k')) by (intros ->; tauto). apply IH. tauto.
Qed.

Lemma obj_set_keys k v m k2 : In k2 (obj_set k v m).*1 <-> k2 = k \/ In k2 m.*1.
Proof.
  induction m as [|[k' v'] m IH]; simpl; [naive_solver|].
  destruct (String.eqb_spec k k') as [->|]; simpl; [naive_solver|].
  destruct (str_lt k k'); simpl; [naive_solver|]. rewrite IH. naive_solver.
Qed.

Lemma keys_sorted_cons k v m :
  keys_sorted ((k, v) :: m) <-> keys_sorted m /\ (forall k', In k' m.*1 -> str_lt k k' = true).
Proof.
  unfold keys_sorted; simpl. split.
  - intros H; invert H. split; [done|]. intros k' Hk'.
    rewrite Forall_forall in H3. apply H3. by apply list_elem_of_In.
  - intros [Hs Hall]. constructor; [done|]. apply Forall_forall.
    intros x Hx. apply Hall. by apply list_elem_of_In.
Qed.

Lemma obj_set_sorted k v m : keys_sorted m -> keys_sorted (obj_set k v m).
Proof.
  induction m as [|[k' v'] m IH]; simpl; [repeat constructor|].
  rewrite keys_sorted_cons. intros [Hs Hall].
  destruct (String.eqb_spec k k') as [->|Hn]; [by rewrite keys_sorted_cons|].
  destruct (str_lt k k') eqn:E.
  - rewrite !keys_sorted_cons. split; [done|]. simpl. intros k2 [<-|H]; [done|].
    eapply str_lt_trans; eauto.
  - rewrite keys_sorted_cons. split; [by apply IH|].
    intros k2. rewrite obj_set_keys. intros [->|H]; [|by apply Hall].
    destruct (str_lt_total k k') as [?|[?|?]]; congruence.
Qed.

Lemma obj_ext m1 m2 :
  keys_sorted m1 -> keys_sorted m2 -> (forall k, obj_get k m1 = obj_get k m2) -> m1 = m2.
Proof.
  revert m2; induction m1 as [|[k1 v1] m1 IH]; intros [|[k2 v2] m2] H1 H2 Hg.
  - done.
  - specialize (Hg k2); simpl in Hg. by rewrite String.eqb_refl in Hg.
  - specialize (Hg k1); simpl in Hg. by rewrite String.eqb_refl in Hg.
  - rewrite keys_sorted_cons in H1, H2. destruct H1 as [H1 A1], H2 as [H2 A2].
    assert (N1 : forall k v, In (k, v) m1 -> str_lt k1 k = true).
    { intros k v Hi. apply A1. apply in_map_iff. by exists (k, v). }
    assert (N2 : forall k v, In (k, v) m2 -> str_lt k2 k = true).
    { intros k v Hi. apply A2. apply in_map_iff. by exists (k, v). }
    assert (k1 = k2) as ->.
    { pose proof (Hg k1) as G1. pose proof (Hg k2) as G2. simpl in G1, G2.
      rewrite String.eqb_refl in G1, G2.
      destruct (String.eqb_spec k1 k2) as [|Hn]; [done|].
      destruct (String.eqb_spec k2 k1) as [|_]; [done|].
      symmetry in G1. apply obj_get_In, N2 in G1. apply obj_get_In, N1 in G2.
      pose proof (str_lt_trans _ _ _ G1 G2) as C. by rewrite str_lt_irrefl in C. }
    pose proof (Hg k2) as G. simpl in G. rewrite String.eqb_refl in G. injection G as ->.
    f_equal. apply IH; [done..|]. intros k. specialize (Hg k). simpl in Hg.
    destruct (String.eqb_spec k k2) as [e|e]; [|done]. rewrite e.
    rewrite !obj_get_None; [done|..]; intros Hi; [apply A2 in Hi|apply A1 in Hi];
      by rewrite str_lt_irrefl in Hi.
Qed.

(** ** reflect.DeepEqual on decoded values: floats compare with [==]. *)

Fixpoint deep_equal (a b : json) {struct a} : bool :=
  match a, b with
  | JNull, JNull => true
  | JBool x, JBool y => Bool.eqb x y
  | JNum x, JNum y => F64.eqb x y
  | JStr x, JStr y => String.eqb x y
  | JArr l1, JArr l2 =>
      (fix go (l1 l2 : list json) : bool :=
         match l1, l2 with
         | [], [] => true
         | x :: r1, y :: r2 => deep_equal x y && go r1 r2
         | _, _ => false
         end) l1 l2
  | JObj m1, JObj m2 =>
      (fix go (m1 m2 : list (string * json)) : bool :=
         match m1, m2 with
         | [], [] => true
         | (k1, x) :: r1, (k2, y) :: r2 => String.eqb k1 k2 && deep_equal x y && go r1 r2
         | _, _ => false
         end) m1 m2
  | _, _ => false
  end.

(** ** Well-formed values: what [json.Unmarshal] can return *)

Fixpoint depth (v : json) : nat :=
  match v with
  | JArr l => S (fold_right (fun x n => Nat.max (depth x) n) 0%nat l)
  | JObj m => S (fold_right (fun kv n => Nat.max (depth kv.2) n) 0%nat m)
  | _ => 0%nat
  end.

Fixpoint sorted_keysb (l : list string) : bool :=
  match l with
  | [] => true
  | k :: r => match r with [] => true | k' :: _ => str_lt k k' end && sorted_keysb r
  end.

Fixpoint wf_shape (v : json) : bool :=
  match v with
  | JNull | JBool _ => true
  | JNum f => F64.is_number f
  | JStr s => Str.valid_utf8 s
  | JArr l => forallb wf_shape l
  | JObj m => sorted_keysb m.*1 && forallb (fun kv => Str.valid_utf8 kv.1 && wf_shape kv.2) m
  end.

(** The decoder refuses nesting deeper than 10000. *)
Definition json_wfb (v : json) : bool := wf_shape v && (Z.of_nat (depth v) <=? 10000).
Definition json_wf (v : json) : Prop := json_wfb v = true.

Lemma sorted_keysb_sorted l :
  sorted_keysb l = true -> StronglySorted (fun a b => str_lt a b = true) l.
Proof.
  induction l as [|k l IH]; simpl; [constructor|].
  rewrite andb_true_iff. intros [Hk Hl]. specialize (IH Hl). constructor; [done|].
  destruct l as [|k' l]; [constructor|]. invert IH. constructor; [done|].
  eapply Forall_impl; [eassumption|]. intros x. by apply str_lt_trans.
Qed.

Lemma wf_obj_sorted m : json_wf (JObj m) -> keys_sorted m.
Proof.
  unfold json_wf, json_wfb; simpl. rewrite !andb_true_iff. intros [[H _] _].
  by apply sorted_keysb_sorted.
Qed.

Lemma depth_obj_In k v m : In (k, v) m -> (depth v < depth (JObj m))%nat.
Proof.
  induction m as [|[k' v'] m IH]; [done|]. simpl in *. intros [[= -> ->]|H]; [lia|].
  specialize (IH H). lia.
Qed.

Lemma wf_obj_In k v m : json_wf (JObj m) -> In (k, v) m -> json_wf v.
Proof.
  unfold json_wf, json_wfb. rewrite !andb_true_iff, !Z.leb_le. intros [H Hd] Hi.
  simpl in H. rewrite andb_true_iff, forallb_forall in H. destruct H as [_ H].
  specialize (H _ Hi). rewrite andb_true_iff in H. split; [apply H|].
  apply depth_obj_In in Hi. lia.
Qed.

(** ** The codec *)

Class JsonCodec := {
  json_marshal : json -> string;
  json_unmarshal : string -> option json
}.

(** Documented behaviour of encoding/json on decoded values: a decoded value is
    well formed, encoding it and decoding the result gives it back, the empty string is
    no JSON, and null alone is encoded as null. *)
Class JsonCodecLaws `{JsonCodec} : Prop := {
  unmarshal_wf : forall s v, json_unmarshal s = Some v -> json_wf v;
  unmarshal_marshal : forall v, json_wf v -> json_unmarshal (json_marshal v) = Some v;
  unmarshal_empty : json_unmarshal "" = None;
  marshal_null : forall v, json_marshal v = "null"%string -> v = JNull
}.

(** Unmarshal into a [map[string]any]: null leaves an empty map, any other
    non-object is an error. *)
Definition unmarshal_map `{JsonCodec} (s : string) : option (list (string * json)) :=
  match json_unmarshal s with
  | Some (JObj m) => Some m
  | Some JNull => Some []
  | _ => None
  end.

(** ** Decoding into a struct, encoding a map literal *)

(** The members whose key matches a field name; encoding/json folds case. *)
Definition field (name : string) (m : list (string * json)) : list json :=
  map snd (List.filter (fun kv => Str.equal_fold kv.1 name) m).

(** A field of type string, bool or *string: null leaves it alone, another type is an
    error.  (Objects that spell one field twice are outside [json].) *)
Fixpoint dec_string (cur : string) (vs : list json) : option string :=
  match vs with
  | [] => Some cur
  | JNull :: r => dec_string cur r
  | JStr s :: r => dec_string s r
  | _ => None
  end.

Fixpoint dec_bool (cur : bool) (vs : list json) : option bool :=
  match vs with
  | [] => Some cur
  | JNull :: r => dec_bool cur r
  | JBool b :: r => dec_bool b r
  | _ => None
  end.

Fixpoint dec_opt_string (cur : option string) (vs : list json) : option (option string) :=
  match vs with
  | [] => Some cur
  | JNull :: r => dec_opt_string None r
  | JStr s :: r => dec_opt_string (Some s) r
  | _ => None
  end.

(** A field of type *int: an integral number in range.  (A literal with a fraction or an
    exponent is refused by encoding/json even when its value is integral.) *)
Fixpoint dec_opt_int (cur : option Z) (vs : list json) : option (option Z) :=
  match vs with
  | [] => Some cur
  | JNull :: r => dec_opt_int None r
  | JNum f :: r => match F64.to_Z f with
                   | Some z => if (- 2 ^ 63 <=? z) && (z <? 2 ^ 63) then dec_opt_int (Some z) r else None
                   | None => None
                   end
  | _ => None
  end.

Fixpoint dec_opt_bool (cur : option bool) (vs : list json) : option (option bool) :=
  match vs with
  | [] => Some cur
  | JNull :: r => dec_opt_bool None r
  | JBool b :: r => dec_opt_bool (Some b) r
  | _ => None
  end.

(** A field of another type: [dec] stores one value over the current one; null is left to it. *)
Fixpoint dec_field {A} (dec : A -> json -> option A) (cur : A) (vs : list json) : option A :=
  match vs with
  | [] => Some cur
  | v :: r => cur' ← dec cur v; dec_field dec cur' r
  end.

(** uint64, int, float64: null leaves the number alone.  (Numbers are float64 here, so that
    integers above 2^53 are those nearest them.) *)
Definition dec_uint64 (cur : Z) (v : json) : option Z :=
  match v with
  | JNull => Some cur
  | JNum f => match f, F64.to_Z f with
              | S754_zero true, _ => None                     (* ParseUint refuses "-0" *)
              | _, Some z => if (0 <=? z) && (z <? 2 ^ 64) then Some z else None
              | _, None => None
              end
  | _ => None
  end.

Definition dec_int (cur : Z) (v : json) : option Z :=
  match v with
  | JNull => Some cur
  | JNum f => z ← F64.to_Z f; if (- 2 ^ 63 <=? z) && (z <? 2 ^ 63) then Some z else None
  | _ => None
  end.

Definition dec_float (cur : float64) (v : json) : option float64 :=
  match v with JNull => Some cur | JNum f => Some f | _ => None end.

(** A struct decodes over its current value from the members of an object. *)
Definition dec_struct {A} (dec : A -> list (string * json) -> option A) (cur : A) (v : json) : option A :=
  match v with JNull => Some cur | JObj m => dec cur m | _ => None end.

(** *T: null is the nil pointer. *)
Definition dec_ptr {A} (zero : A) (dec : A -> json -> option A) (cur : option A) (v : json) : option (option A) :=
  match v with JNull => Some None | _ => x ← dec (default zero cur) v; Some (Some x) end.

(** []T: null is the nil slice, each element decodes from the zero value. *)
Definition dec_slice {A} (zero : A) (dec : A -> json -> option A) (cur : option (list A)) (v : json)
    : option (option (list A)) :=
  match v with
  | JNull => Some None
  | JArr l => xs ← mapM (dec zero) l; Some (Some xs)
  | _ => None
  end.

(** map[string]string *)
Definition dec_string_map (cur : list (string * string)) (v : json) : option (list (string * string)) :=
  match v with
  | JNull => Some []
  | JObj m => xs ← mapM (fun kv => s ← dec_string "" [kv.2]; Some (kv.1, s)) m; Some (cur ++ xs)
  | _ => None
  end.

(** A string as json.Marshal writes it, and a map literal. *)
Definition jstr (s : string) : json := JStr (Str.coerce_utf8 s).

Definition jmap (kvs : list (string * json)) : list (string * json) :=
  fold_left (fun m kv => obj_set kv.1 kv.2 m) kvs [].

(** A pointer field marked omitempty. *)
Definition opt_json {A} (k : string) (f : A -> json) (o : option A) : list (string * json) :=
  match o with None => [] | Some x => [(k, f x)] end.

(** PostgreSQL's jsonb refuses the escape \u0000. *)
Definition has_nul (s : string) : bool := Str.has_byte "000" s.

Fixpoint json_has_nul (v : json) : bool :=
  match v with
  | JStr s => has_nul s
  | JArr l => existsb json_has_nul l
  | JObj m => existsb (fun kv => has_nul kv.1 || json_has_nul kv.2) m
  | _ => false
  end.

(** ... and a text column refuses NUL bytes and invalid UTF-8. *)
Definition text_ok (s : string) : bool := Str.valid_utf8 s && negb (has_nul s).
