(* ===== verification/Ext.v ===== *)
(** * Interfaces to code outside the repository

    [google/uuid], PostgreSQL's [gen_random_uuid()] and the float and time
    verbs of [fmt] are not under src/: the model takes them as parameters.  The
    [...Laws] classes state the documented behaviour the theorems use. *)

From S2P Require Import Prelude GoStd Float64 Json.

(** ** Printable ASCII without spaces *)

Definition plain (c : ascii) : bool := (33 <=? N_of_ascii c)%N && (N_of_ascii c <? 127)%N.

Lemma plain_small a : plain a = true -> (33 <= N_of_ascii a < 127)%N.
Proof. unfold plain. rewrite andb_true_iff, N.ltb_lt, N.leb_le. tauto. Qed.

Lemma plain_space1 a : plain a = true -> Str.space1 a = false.
Proof. by destruct a as [[] [] [] [] [] [] [] []]. Qed.


Lemma starts_plain sp2 sp3 l :
  (forall a b, plain a = true -> plain b = true -> sp2 a b = false) ->
  (forall a b c, plain a = true -> plain b = true -> plain c = true -> sp3 a b c = false) ->
  forallb plain l = true -> Str.starts_space sp2 sp3 l = false.
Proof.
  intros H2 H3. destruct l as [|a [|b [|c l]]]; simpl; [done|..];
    rewrite ?andb_true_iff; intros H; rewrite !orb_false_iff; destruct_and?;
    rewrite ?H2, ?H3, plain_space1 by done; done.
Qed.

Lemma plain_space2 a b : plain a = true -> plain b = true -> Str.space2 a b = false.
Proof.
  intros Ha%plain_small _. unfold Str.space2. by rewrite (proj2 (N.eqb_neq (N_of_ascii a) 0xC2)) by lia.
Qed.

Lemma plain_space3 a b c : plain a = true -> plain b = true -> plain c = true -> Str.space3 a b c = false.
Proof.
  intros Ha%plain_small _ _. unfold Str.space3.
  rewrite (proj2 (N.eqb_neq (N_of_ascii a) 0xE1)), (proj2 (N.eqb_neq (N_of_ascii a) 0xE2)),
    (proj2 (N.eqb_neq (N_of_ascii a) 0xE3)) by lia. done.
Qed.

(** Text without spaces and outside UTF-8's multi-byte range is left alone. *)
Lemma trim_plain s : forallb plain (Str.bytes s) = true -> Str.trim_space s = s.
Proof.
  intros H. unfold Str.trim_space, Str.trim_left, Str.trim_right.
  rewrite (Str.trim_with_id _ _ (Str.bytes s)).
  2:{ apply starts_plain; [apply plain_space2|apply plain_space3|done]. }
  rewrite Str.trim_with_id.
  - rewrite rev_involutive. apply string_of_list_ascii_of_string.
  - apply starts_plain; [intros; by apply plain_space2|intros; by apply plain_space3|].
    apply forallb_forall. intros c Hc. rewrite forallb_forall in H. apply H. by apply in_rev.
Qed.

Lemma plain_text_ok s : forallb plain (Str.bytes s) = true -> text_ok s = true.
Proof.
  intros H. unfold text_ok, Str.valid_utf8. apply andb_true_iff. split.
  - induction (Str.bytes s) as [|c l IH]; [done|]. simpl in *. apply andb_true_iff in H as [Hc H].
    apply plain_small in Hc. rewrite (proj2 (N.ltb_lt _ _)) by lia. auto.
  - apply negb_true_iff. unfold has_nul. induction s as [|c s IH]; [done|].
    cbn [Str.bytes list_ascii_of_string forallb] in H. apply andb_true_iff in H as [Hc H].
    simpl. rewrite (IH H), orb_false_r. by destruct c as [[] [] [] [] [] [] [] []].
Qed.

(** ** google/uuid

    A UUID is the number its bytes spell; [uuid.Nil] is zero. *)
Definition uuid : Set := N.
Definition uuid_nil : uuid := 0%N.

Class UuidLib := {
  uuid_string : uuid -> string;          (* uuid.UUID.String *)
  uuid_parse : string -> option uuid;    (* uuid.Parse *)
  gen_random_uuid : nat -> uuid          (* the n-th id the database hands out *)
}.

Class UuidLaws `{UuidLib} : Prop := {
  uuid_parse_string : forall u, uuid_parse (uuid_string u) = Some u;
  uuid_string_plain : forall u, forallb plain (Str.bytes (uuid_string u)) = true;
  uuid_string_ne : forall u, uuid_string u <> ""%string;
  gen_random_uuid_inj : forall n m, gen_random_uuid n = gen_random_uuid m -> n = m;
  gen_random_uuid_nil : forall n, gen_random_uuid n <> uuid_nil
}.

Lemma uuid_string_trim `{UuidLaws} u : Str.trim_space (uuid_string u) = uuid_string u.
Proof. apply trim_plain, uuid_string_plain. Qed.

Lemma uuid_string_inj `{UuidLaws} u v : uuid_string u = uuid_string v -> u = v.
Proof.
  intros E. assert (Some u = Some v) by (rewrite <- !uuid_parse_string; by rewrite E).
  congruence.
Qed.

(** Verbs that only shape text: %.0f and %.2f of a float64, %q of a string, %v of a decoded JSON value
    that is a number, a slice or a map, RFC 3339 of
    an instant (Unix nanoseconds) to the second and, in JSON, to the nanosecond,
    time.Duration.String; time.Parse and the parser of JSON times. *)
Class GoFmt := {
  fmt_float : nat -> float64 -> string;
  fmt_quote : string -> string;
  fmt_value : json -> string;
  fmt_rfc3339 : Z -> string;
  fmt_time : Z -> string;
  parse_rfc3339 : string -> option Z;
  parse_time : string -> option Z;
  fmt_duration : Z -> string
}.

(** What PostgreSQL computes: lower() in the database's locale, avg() over the non-null values of a float8 column, and the
    order of ORDER BY on text (the database's collation). *)
Class PgLib := {
  pg_lower : string -> string;
  pg_avg : list float64 -> float64;
  pg_text_lt : string -> string -> bool
}.

(** The texts of the errors of encoding/json and of uuid.Parse: the Go type decoded into and the input. *)
Class JsonErrors := { json_error : string -> string -> string }.

(** os.Getenv *)
Class Environ := { getenv : string -> string }.
