(* ===== verification/Codecs.v ===== *)
(** * Concrete instances of the external interfaces

    The interfaces of [Json] and [Ext] are parameters of the model.  Here each is
    instantiated by a computable function that satisfies its laws, so that every
    theorem that assumes the laws can be applied to closed inputs: JSON values,
    UUIDs and floats are spelled as bit strings instead of in the library's own
    text format. *)

From S2P Require Import Prelude GoStd Float64 Json Ext.
From stdpp Require Import countable.
From Stdlib Require Import SpecFloat.

(** ** Bit strings *)

Fixpoint bits (p : positive) : string :=
  match p with
  | xH => ""%string
  | xO q => String "0" (bits q)
  | xI q => String "1" (bits q)
  end.

Fixpoint unbits (s : string) : option positive :=
  match s with
  | EmptyString => Some xH
  | String c r =>
      match unbits r with
      | None => None
      | Some p => if Ascii.eqb c "0" then Some (xO p) else if Ascii.eqb c "1" then Some (xI p) else None
      end
  end.

Lemma unbits_bits p : unbits (bits p) = Some p.
Proof. induction p as [p IH|p IH|]; simpl; [by rewrite IH..|done]. Qed.

Lemma bits_no_space p : forallb plain (Str.bytes (bits p)) = true.
Proof. induction p; simpl; done. Qed.

(** ** JSON *)

Definition leaf : Set := option (bool + ((bool + (bool + (unit + (bool * positive * Z)))) + string)).

Definition float_rep (f : float64) : bool + (bool + (unit + (bool * positive * Z))) :=
  match f with
  | S754_zero s => inl s
  | S754_infinity s => inr (inl s)
  | S754_nan => inr (inr (inl ()))
  | S754_finite s m e => inr (inr (inr (s, m, e)))
  end.

Definition rep_float (r : bool + (bool + (unit + (bool * positive * Z)))) : float64 :=
  match r with
  | inl s => S754_zero s
  | inr (inl s) => S754_infinity s
  | inr (inr (inl _)) => S754_nan
  | inr (inr (inr (s, m, e))) => S754_finite s m e
  end.

Fixpoint to_tree (v : json) : gen_tree leaf :=
  match v with
  | JNull => GenLeaf None
  | JBool b => GenLeaf (Some (inl b))
  | JNum f => GenLeaf (Some (inr (inl (float_rep f))))
  | JStr s => GenLeaf (Some (inr (inr s)))
  | JArr l => GenNode 0 (map to_tree l)
  | JObj m => GenNode 1 (map (fun kv => GenNode 2 [GenLeaf (Some (inr (inr kv.1))); to_tree kv.2]) m)
  end.

Fixpoint of_tree (t : gen_tree leaf) : json :=
  match t with
  | GenLeaf None => JNull
  | GenLeaf (Some (inl b)) => JBool b
  | GenLeaf (Some (inr (inl r))) => JNum (rep_float r)
  | GenLeaf (Some (inr (inr s))) => JStr s
  | GenNode 0 l => JArr (map of_tree l)
  | GenNode _ l =>
      JObj (map (fun e => match e with
                          | GenNode _ [GenLeaf (Some (inr (inr k))); x] => (k, of_tree x)
                          | _ => (""%string, JNull)
                          end) l)
  end.

Lemma of_to_tree v : of_tree (to_tree v) = v.
Proof.
  induction v as [|b|f|s|l IH|m IH] using json_ind'; simpl; try done.
  - f_equal. by destruct f as [| | |].
  - f_equal. rewrite map_map. induction IH; simpl; [done|]. by f_equal.
  - f_equal. rewrite map_map. induction IH as [|[k v] m Hv Hm IH]; simpl in *; [done|]. by rewrite Hv, IH.
Qed.

Definition bit_marshal (v : json) : string := String "J" (bits (encode (to_tree v))).

Definition bit_unmarshal (s : string) : option json :=
  match s with
  | String "J" r =>
      p ← unbits r; t ← decode (A := gen_tree leaf) p;
      if json_wfb (of_tree t) then Some (of_tree t) else None
  | _ => None
  end.

Definition bit_codec : JsonCodec := {| json_marshal := bit_marshal; json_unmarshal := bit_unmarshal |}.

Lemma bit_codec_laws : @JsonCodecLaws bit_codec.
Proof.
  split; simpl.
  - intros s v. unfold bit_unmarshal.
    destruct s as [|c r]; [done|]. destruct c as [[] [] [] [] [] [] [] []]; try done.
    destruct (unbits r) as [p|]; [|done]. simpl. destruct (decode p) as [t|]; [|done]. simpl.
    destruct (json_wfb (of_tree t)) eqn:E; [|done]. by intros [= <-].
  - intros v Hv. unfold bit_marshal, bit_unmarshal. rewrite unbits_bits. simpl.
    rewrite decode_encode. simpl. rewrite of_to_tree. by rewrite Hv.
  - done.
  - done.
Qed.

(** ** UUIDs *)

Definition bit_uuid_string (u : uuid) : string := String "u" (bits (N.succ_pos u)).

Definition bit_uuid_parse (s : string) : option uuid :=
  match Str.trim_space s with
  | String "u" r => option_map Pos.pred_N (unbits r)
  | _ => None
  end.

Definition bit_uuid : UuidLib := {|
  uuid_string := bit_uuid_string;
  uuid_parse := bit_uuid_parse;
  gen_random_uuid n := N.of_nat (S n) |}.

Lemma bit_uuid_plain u : forallb plain (Str.bytes (bit_uuid_string u)) = true.
Proof. exact (bits_no_space (N.succ_pos u)). Qed.

Lemma bit_uuid_trim u : Str.trim_space (bit_uuid_string u) = bit_uuid_string u.
Proof. apply trim_plain, bit_uuid_plain. Qed.

Lemma bit_uuid_laws : @UuidLaws bit_uuid.
Proof.
  split; simpl.
  - intros u. unfold bit_uuid_parse. rewrite bit_uuid_trim. unfold bit_uuid_string.
    cbn. rewrite unbits_bits. simpl. f_equal. apply N.pos_pred_succ.
  - apply bit_uuid_plain.
  - done.
  - intros n m H. lia.
  - intros n. unfold uuid_nil. lia.
Qed.

(** ** fmt *)

Definition bit_fmt : GoFmt := {|
  fmt_float digits f := Str.itoa (Z.of_nat digits) +:+ ":" +:+ bits (encode (float_rep f));
  fmt_quote s := s;
  fmt_value v := bit_marshal v;
  fmt_rfc3339 t := Str.itoa t;
  fmt_time t := Str.itoa t;
  parse_rfc3339 s := option_map (fun p => Z.pred (Z.pos p)) (unbits s);
  parse_time s := option_map (fun p => Z.pred (Z.pos p)) (unbits s);
  fmt_duration d := Str.itoa d |}.
