(* ===== verification/GoPath.v ===== *)
(** * path/filepath on Unix, strings.Fields, url.PathUnescape

    The lexical functions of path/filepath the agent calls (Clean, Join, IsAbs, Base), and
    that a cleaned path without ".." stays below its root. *)

From S2P Require Import Prelude GoStd.

#[local] Open Scope string_scope.
#[local] Open Scope list_scope.

Module Path.

(** The components of a cleaned path, last one first in [acc]. *)
Fixpoint clean_parts (rooted : bool) (acc l : list string) : list string :=
  match l with
  | [] => rev acc
  | x :: r =>
      if String.eqb x "" || String.eqb x "." then clean_parts rooted acc r
      else if String.eqb x ".." then
        match acc with
        | [] => if rooted then clean_parts rooted [] r else clean_parts rooted [x] r
        | y :: acc' => if String.eqb y ".." then clean_parts rooted (x :: acc) r else clean_parts rooted acc' r
        end
      else clean_parts rooted (x :: acc) r
  end.

Definition clean (s : string) : string :=
  let rooted := Str.has_prefix s "/" in
  let p := Str.join "/" (clean_parts rooted [] (Str.split_on "/" s)) in
  if rooted then "/" +:+ p else if String.eqb p "" then "." else p.

(** Empty elements in front are dropped. *)
Fixpoint join (l : list string) : string :=
  match l with
  | [] => ""
  | x :: r => if String.eqb x "" then join r else clean (Str.join "/" l)
  end.

Definition is_abs (s : string) : bool := Str.has_prefix s "/".

(** strings.TrimRight(s, "/") *)
Definition trim_slashes (s : string) : string :=
  let fix go l := match l with c :: r => if Ascii.eqb c "/" then go r else l | [] => [] end in
  Str.of_bytes (rev (go (rev (Str.bytes s)))).

Definition base (s : string) : string :=
  if String.eqb s "" then "." else
  match Str.split_on "/" (trim_slashes s) with
  | [] | [""] => "/"
  | l => List.last l ""
  end.

(** A name a path goes down by. *)
Definition plain_name (x : string) : Prop := x <> "" /\ x <> "." /\ x <> "..".

Definition no_slash (x : string) : Prop := Str.has_byte "/" x = false.

Lemma split_no_slash s : Forall no_slash (Str.split_on "/" s).
Proof.
  induction s as [|c s IH]; cbn [Str.split_on]; [by repeat constructor|].
  destruct (Ascii.eqb c "/") eqn:E; [by constructor|].
  pose proof (Str.split_on_nonempty "/" s). destruct (Str.split_on "/" s) as [|x l]; [done|].
  invert IH. constructor; [|done]. unfold no_slash in *. cbn. by rewrite E.
Qed.

(** Below a root the cleaned components go down only. *)
Lemma clean_parts_plain l : Forall no_slash l -> forall acc, Forall (fun x => plain_name x /\ no_slash x) acc ->
  Forall (fun x => plain_name x /\ no_slash x) (clean_parts true acc l).
Proof.
  induction 1 as [|x l Hx Hl IH]; intros acc Hacc; cbn [clean_parts]; [by apply Forall_rev|].
  destruct (String.eqb_spec x "") as [|H1]; [by apply IH|]. destruct (String.eqb_spec x ".") as [|H2]; [by apply IH|]. cbn [orb].
  destruct (String.eqb_spec x "..") as [->|H3].
  - destruct acc as [|y acc]; [by apply IH|]. invert Hacc. destruct (String.eqb_spec y "..") as [->|_]; [|by apply IH].
    exfalso. match goal with H : plain_name _ /\ _ |- _ => by destruct H as [(_ & _ & ?) _] end.
  - apply IH. constructor; [|done]. split; [by split_and!|done].
Qed.

Lemma clean_rooted s : Str.has_prefix s "/" = true ->
  exists ps, Forall (fun x => plain_name x /\ no_slash x) ps /\ clean s = "/" +:+ Str.join "/" ps.
Proof.
  intros Hs. unfold clean. rewrite Hs. eexists. split; [|reflexivity].
  apply clean_parts_plain; [apply split_no_slash|constructor].
Qed.

Lemma prefix_inv p s : Str.has_prefix s p = true -> exists r, s = p +:+ r.
Proof.
  unfold Str.has_prefix. revert s; induction p as [|c p IH]; intros s H; [by exists s|].
  destruct s as [|d s]; [done|]. cbn in H. destruct (ascii_dec c d) as [->|]; [|done].
  apply IH in H as [r ->]. by exists r.
Qed.

(** A cleaned path that starts with a root of two components is below it. *)
Lemma clean_below a b s : no_slash a -> no_slash b -> Str.has_prefix s "/" = true ->
  Str.has_prefix (clean s) ("/" +:+ a +:+ "/" +:+ b +:+ "/") = true ->
  exists names, names <> [] /\ Forall plain_name names /\ clean s = "/" +:+ a +:+ "/" +:+ b +:+ "/" +:+ Str.join "/" names.
Proof.
  intros Ha Hb Hs [r Hr]%prefix_inv. destruct (clean_rooted s Hs) as (ps & Hps & E). rewrite E in *.
  assert (Hsp : Str.split_on "/" ("/" +:+ Str.join "/" ps) = "" :: (if decide (ps = []) then [""] else ps)).
  { change ("/" +:+ Str.join "/" ps) with (String "/" (Str.join "/" ps)). cbn [Str.split_on]. f_equal.
    destruct (decide (ps = [])) as [->|Hn]; [done|]. apply Str.split_join; [done|].
    eapply Forall_impl; [exact Hps|]. by intros x [_ ?]. }
  rewrite Hr in Hsp. revert Hsp.
  replace (("/" +:+ a +:+ "/" +:+ b +:+ "/") +:+ r) with (String "/" (a +:+ String "/" (b +:+ String "/" r)))
    by (by rewrite !Str.append_assoc).
  cbn [Str.split_on Ascii.eqb]. cbn. rewrite !Str.split_on_app by done.
  destruct (decide (ps = [])) as [->|Hn]; [done|]. intros [= <-].
  exists (Str.split_on "/" r). split; [apply Str.split_on_nonempty|]. split.
  - invert Hps. match goal with H : Forall _ (b :: _) |- _ => invert H end.
    eapply Forall_impl; [eassumption|]. by intros x [? _].
  - pose proof (Str.split_on_nonempty "/" r). by destruct (Str.split_on "/" r).
Qed.
End Path.

(** ** strings.Fields: the runs of bytes between white space *)
Section fields.
Local Fixpoint fields_of (cur : list ascii) (l : list ascii) : list (list ascii) :=
  let flush := match cur with [] => [] | _ => [rev cur] end in
  match l with
  | [] => flush
  | c1 :: r1 =>
      if Str.space1 c1 then flush ++ fields_of [] r1 else
      match r1 with
      | c2 :: r2 =>
          if Str.space2 c1 c2 then flush ++ fields_of [] r2 else
          match r2 with
          | c3 :: r3 => if Str.space3 c1 c2 c3 then flush ++ fields_of [] r3 else fields_of (c1 :: cur) r1
          | [] => fields_of (c1 :: cur) r1
          end
      | [] => fields_of (c1 :: cur) r1
      end
  end.
End fields.

Definition fields (s : string) : list string := map Str.of_bytes (fields_of [] (Str.bytes s)).

(** strings.ReplaceAll with a one-byte needle. *)
Fixpoint replace_byte (c : ascii) (new s : string) : string :=
  match s with
  | EmptyString => ""
  | String d r => if Ascii.eqb c d then new +:+ replace_byte c new r else String d (replace_byte c new r)
  end.

(** url.PathUnescape: a malformed escape is an error. *)
Definition hex_value (c : ascii) : option N :=
  let n := N_of_ascii c in
  if N.leb 48 n && N.leb n 57 then Some (n - 48)%N
  else if N.leb 97 n && N.leb n 102 then Some (n - 87)%N
  else if N.leb 65 n && N.leb n 70 then Some (n - 55)%N
  else None.

Fixpoint path_unescape (s : string) : option string :=
  match s with
  | EmptyString => Some ""
  | String "%" (String a (String b r)) =>
      x ← hex_value a; y ← hex_value b; t ← path_unescape r; Some (String (ascii_of_N (x * 16 + y)) t)
  | String "%" _ => None
  | String c r => t ← path_unescape r; Some (String c t)
  end.

Example clean_ex1 : map Path.clean [""; "/"; "a//b/./c/.."; "/../a"; "../a"; "a/.."] = ["."; "/"; "a/b"; "/a"; "../a"; "."].
Proof. reflexivity. Qed.

Example fields_ex : fields "  /bin/sh  -c x " = ["/bin/sh"; "-c"; "x"].
Proof. reflexivity. Qed.
