(* ===== verification/Base64.v ===== *)
(** * encoding/base64 (StdEncoding)

    Encoding and decoding of byte strings, as far as the agent and the dashboards use them,
    and that decoding an encoded string gives it back. *)

From S2P Require Import Prelude GoStd Float64 Json Ext.

#[local] Open Scope string_scope.
#[local] Open Scope list_scope.

Module B64.

Definition sym (n : N) : ascii :=
  ascii_of_N (if N.ltb n 26 then n + 65 else if N.ltb n 52 then n + 71 else if N.ltb n 62 then n - 4
              else if N.eqb n 62 then 43 else 47)%N.

Definition val (c : ascii) : option N :=
  let n := N_of_ascii c in
  if N.leb 65 n && N.leb n 90 then Some (n - 65)%N
  else if N.leb 97 n && N.leb n 122 then Some (n - 71)%N
  else if N.leb 48 n && N.leb n 57 then Some (n + 4)%N
  else if N.eqb n 43 then Some 62%N
  else if N.eqb n 47 then Some 63%N
  else None.

Definition pad : ascii := "="%char.

Fixpoint encode_bytes (l : list ascii) : list ascii :=
  match l with
  | a :: b :: c :: r =>
      let n := (N_of_ascii a * 65536 + N_of_ascii b * 256 + N_of_ascii c)%N in
      sym (n / 262144) :: sym (n / 4096 mod 64) :: sym (n / 64 mod 64) :: sym (n mod 64) :: encode_bytes r
  | [a; b] =>
      let n := (N_of_ascii a * 65536 + N_of_ascii b * 256)%N in
      [sym (n / 262144); sym (n / 4096 mod 64); sym (n / 64 mod 64); pad]
  | [a] =>
      let n := (N_of_ascii a * 65536)%N in [sym (n / 262144); sym (n / 4096 mod 64); pad; pad]
  | [] => []
  end.

Definition encode (s : string) : string := Str.of_bytes (encode_bytes (Str.bytes s)).

(** One quantum of four symbols; padding only at the end. *)
Fixpoint decode_bytes (l : list ascii) : option (list ascii) :=
  match l with
  | [] => Some []
  | a :: b :: c :: d :: r =>
      x ← val a; y ← val b;
      if Ascii.eqb d pad then
        match r with
        | [] =>
            if Ascii.eqb c pad then Some [ascii_of_N ((x * 262144 + y * 4096) / 65536)]%N
            else z ← val c;
                 let n := (x * 262144 + y * 4096 + z * 64)%N in
                 Some [ascii_of_N (n / 65536); ascii_of_N (n / 256 mod 256)]%N
        | _ => None
        end
      else
        z ← val c; w ← val d;
        let n := (x * 262144 + y * 4096 + z * 64 + w)%N in
        rest ← decode_bytes r;
        Some (ascii_of_N (n / 65536) :: ascii_of_N (n / 256 mod 256) :: ascii_of_N (n mod 256) :: rest)%N
  | _ => None
  end.

Definition line_break (c : ascii) : bool := Ascii.eqb c "010" || Ascii.eqb c "013".

(** DecodeString skips line breaks. *)
Definition decode (s : string) : option string :=
  l ← decode_bytes (List.filter (fun c => negb (line_break c)) (Str.bytes s)); Some (Str.of_bytes l).

(** ** Facts *)

Lemma below_64 (P : N -> bool) : forallb P (map N.of_nat (seq 0 64)) = true -> forall n, (n < 64)%N -> P n = true.
Proof.
  intros H n Hn. rewrite forallb_forall in H. apply H, in_map_iff. exists (N.to_nat n). split; [lia|]. apply in_seq. lia.
Qed.

Lemma sym_ok n : (n < 64)%N -> val (sym n) = Some n /\ Ascii.eqb (sym n) pad = false /\ line_break (sym n) = false.
Proof.
  intros Hn.
  assert (H : (match val (sym n) with Some m => N.eqb m n | None => false end)
              && negb (Ascii.eqb (sym n) pad) && negb (line_break (sym n)) = true)
    by (revert n Hn; apply below_64; vm_compute; reflexivity).
  apply andb_true_iff in H as [H H3]. apply andb_true_iff in H as [H1 H2]. apply negb_true_iff in H2, H3.
  destruct (val (sym n)) as [m|]; [|done]. apply N.eqb_eq in H1. by subst m.
Qed.

Lemma byte_small c : (N_of_ascii c < 256)%N.
Proof. apply N_ascii_bounded. Qed.

Lemma byte_back n c : n = N_of_ascii c -> ascii_of_N n = c.
Proof. intros ->. apply ascii_N_embedding. Qed.

(** The three bytes of a 24-bit number, and its four 6-bit digits. *)
Lemma digits_small n : (n < 16777216)%N ->
  (n / 262144 < 64)%N /\ (n / 4096 mod 64 < 64)%N /\ (n / 64 mod 64 < 64)%N /\ (n mod 64 < 64)%N.
Proof.
  intros H. split; [apply N.Div0.div_lt_upper_bound; lia|]. split_and!; by apply N.mod_lt.
Qed.

Lemma digits_sum n : (n / 262144 * 262144 + n / 4096 mod 64 * 4096 + n / 64 mod 64 * 64 + n mod 64 = n)%N.
Proof.
  pose proof (N.div_mod n 64 ltac:(lia)). pose proof (N.div_mod (n / 64) 64 ltac:(lia)).
  pose proof (N.div_mod (n / 4096) 64 ltac:(lia)).
  assert (E1 : (n / 64 / 64 = n / 4096)%N) by (rewrite N.Div0.div_div; done).
  assert (E2 : (n / 4096 / 64 = n / 262144)%N) by (rewrite N.Div0.div_div; done). lia.
Qed.

Lemma bytes_of a b c : (a < 256 -> b < 256 -> c < 256 ->
  (a * 65536 + b * 256 + c) / 65536 = a /\ (a * 65536 + b * 256 + c) / 256 mod 256 = b /\
  (a * 65536 + b * 256 + c) mod 256 = c)%N.
Proof.
  intros Ha Hb Hc. set (n := (a * 65536 + b * 256 + c)%N).
  assert (E1 : (n / 256 = a * 256 + b)%N) by (symmetry; apply (N.div_unique n 256 _ c); unfold n; lia).
  split; [symmetry; apply (N.div_unique n 65536 _ (b * 256 + c)%N); unfold n; lia|]. split.
  - rewrite E1. symmetry. apply (N.mod_unique _ 256 a); lia.
  - symmetry. apply (N.mod_unique n 256 (a * 256 + b)%N); unfold n; lia.
Qed.

Lemma encode_ind (P : list ascii -> Prop) :
  P [] -> (forall a, P [a]) -> (forall a b, P [a; b]) -> (forall a b c r, P r -> P (a :: b :: c :: r)) -> forall l, P l.
Proof.
  intros H0 H1 H2 H3 l. induction l as [l IH] using (induction_ltof1 _ (@List.length ascii)).
  destruct l as [|a [|b [|c r]]]; [done|done|done|]. apply H3, IH. unfold ltof. simpl. lia.
Qed.

Lemma decode_encode_bytes l : decode_bytes (encode_bytes l) = Some l.
Proof.
  induction l as [|a|a b|a b c r IH] using encode_ind; cbn [encode_bytes decode_bytes]; [done|..].
  - pose proof (byte_small a) as Ha. set (n := (N_of_ascii a * 65536)%N).
    destruct (digits_small n ltac:(unfold n; lia)) as (H1 & H2 & _).
    destruct (sym_ok _ H1) as [-> _], (sym_ok _ H2) as [-> _]. cbn. do 2 f_equal. apply byte_back.
    pose proof (digits_sum n) as Hs. pose proof (bytes_of (N_of_ascii a) 0 0 Ha ltac:(lia) ltac:(lia)) as (Hb & _).
    assert (Hz : (n / 64 mod 64 = 0 /\ n mod 64 = 0)%N).
    { replace n with (N_of_ascii a * 1024 * 64)%N by (unfold n; lia). rewrite N.div_mul, N.Div0.mod_mul by lia. split; [|done].
      replace (N_of_ascii a * 1024)%N with (N_of_ascii a * 16 * 64)%N by lia. by rewrite N.Div0.mod_mul. }
    rewrite <- Hb. f_equal. unfold n in *. lia.
  - pose proof (byte_small a) as Ha. pose proof (byte_small b) as Hb. set (n := (N_of_ascii a * 65536 + N_of_ascii b * 256)%N).
    destruct (digits_small n ltac:(unfold n; lia)) as (H1 & H2 & H3 & _).
    destruct (sym_ok _ H1) as [-> _], (sym_ok _ H2) as [-> _], (sym_ok _ H3) as (-> & -> & _). cbn.
    pose proof (digits_sum n) as Hs. pose proof (bytes_of _ _ 0 Ha Hb ltac:(lia)) as (E1 & E2 & _).
    assert (Hz : (n mod 64 = 0)%N).
    { replace n with ((N_of_ascii a * 1024 + N_of_ascii b * 4) * 64)%N by (unfold n; lia). by rewrite N.Div0.mod_mul. }
    assert (Hn : (n / 262144 * 262144 + n / 4096 mod 64 * 4096 + n / 64 mod 64 * 64 =
      N_of_ascii a * 65536 + N_of_ascii b * 256 + 0)%N) by (unfold n in *; lia).
    rewrite Hn. do 2 f_equal; [by apply byte_back|]. f_equal. by apply byte_back.
  - pose proof (byte_small a) as Ha. pose proof (byte_small b) as Hb. pose proof (byte_small c) as Hc.
    set (n := (N_of_ascii a * 65536 + N_of_ascii b * 256 + N_of_ascii c)%N).
    destruct (digits_small n ltac:(unfold n; lia)) as (H1 & H2 & H3 & H4).
    destruct (sym_ok _ H1) as [-> _], (sym_ok _ H2) as [-> _], (sym_ok _ H3) as [-> _], (sym_ok _ H4) as (-> & -> & _).
    cbn [mbind option_bind]. rewrite IH. cbn [mbind option_bind]. rewrite digits_sum.
    destruct (bytes_of _ _ _ Ha Hb Hc) as (E1 & E2 & E3). fold n in E1, E2, E3.
    by rewrite (byte_back _ a E1), (byte_back _ b E2), (byte_back _ c E3).
Qed.

(** What holds of the symbols holds of every byte of an encoding. *)
Lemma encode_all (P : ascii -> bool) : (forall n, (n < 64)%N -> P (sym n) = true) -> P pad = true ->
  forall l, forallb P (encode_bytes l) = true.
Proof.
  intros Hs Hp l. induction l as [|a|a b|a b c r IH] using encode_ind; cbn [encode_bytes forallb]; [done|..].
  - pose proof (byte_small a) as Ha. destruct (digits_small (N_of_ascii a * 65536) ltac:(lia)) as (H1 & H2 & _).
    by rewrite !Hs, Hp.
  - pose proof (byte_small a) as Ha. pose proof (byte_small b) as Hb.
    destruct (digits_small (N_of_ascii a * 65536 + N_of_ascii b * 256) ltac:(lia)) as (H1 & H2 & H3 & _).
    by rewrite !Hs, Hp.
  - pose proof (byte_small a) as Ha. pose proof (byte_small b) as Hb. pose proof (byte_small c) as Hc.
    destruct (digits_small (N_of_ascii a * 65536 + N_of_ascii b * 256 + N_of_ascii c) ltac:(lia)) as (H1 & H2 & H3 & H4).
    by rewrite !Hs, IH.
Qed.

Lemma encode_no_break l : List.filter (fun c => negb (line_break c)) (encode_bytes l) = encode_bytes l.
Proof.
  assert (H : forallb (fun c => negb (line_break c)) (encode_bytes l) = true).
  { apply encode_all; [|done]. intros n Hn. by destruct (sym_ok n Hn) as (_ & _ & ->). }
  induction (encode_bytes l) as [|c r IH]; [done|]. simpl in *. apply andb_true_iff in H as [-> H]. by rewrite IH.
Qed.

(** Decoding an encoded string gives it back, whatever line breaks were put in between. *)
Lemma decode_broken s t : List.filter (fun c => negb (line_break c)) (Str.bytes t) = Str.bytes (encode s) -> decode t = Some s.
Proof.
  intros E. unfold decode. rewrite E. unfold encode. rewrite Str.bytes_of_bytes, decode_encode_bytes. cbn.
  f_equal. apply string_of_list_ascii_of_string.
Qed.

Lemma decode_encode s : decode (encode s) = Some s.
Proof. apply decode_broken. unfold encode. by rewrite Str.bytes_of_bytes, encode_no_break. Qed.

Lemma encode_plain s : forallb plain (Str.bytes (encode s)) = true.
Proof.
  unfold encode. rewrite Str.bytes_of_bytes. apply encode_all; [|done]. apply below_64. by vm_compute.
Qed.

Lemma encode_empty s : encode s = "" -> s = "".
Proof.
  intros E. pose proof (decode_encode s) as D. rewrite E in D. by injection D.
Qed.
End B64.
