(* ===== verification/JsonFacts.v ===== *)
(** * What a message is after it has been encoded and decoded

    json.Marshal's strings are valid UTF-8, a map literal of shallow values is well formed
    and comes back as it was, and the members a struct finds in it. *)

From S2P Require Import Prelude GoStd Float64 Json Ext.

#[local] Open Scope list_scope.

(** ** Strings *)
Module Utf8.
Import Str.

Lemma range_yes lo hi a : (lo <= N_of_ascii a <= hi)%N -> in_range lo hi a = true.
Proof. intros [H1 H2]. unfold in_range. apply andb_true_iff. by rewrite !N.leb_le. Qed.

Lemma range_no lo hi a : (N_of_ascii a < lo \/ hi < N_of_ascii a)%N -> in_range lo hi a = false.
Proof. intros H. unfold in_range. apply andb_false_iff. rewrite !N.leb_gt. lia. Qed.

Lemma range_inv lo hi a : in_range lo hi a = true -> (lo <= N_of_ascii a <= hi)%N.
Proof. unfold in_range. by intros [H1%N.leb_le H2%N.leb_le]%andb_true_iff. Qed.

(** Decides the comparisons on a lead byte whose range is known. *)
Ltac lead a :=
  repeat match goal with
  | |- context [N.ltb (N_of_ascii a) ?k] =>
      first [rewrite (proj2 (N.ltb_ge (N_of_ascii a) k)) by lia | rewrite (proj2 (N.ltb_lt (N_of_ascii a) k)) by lia]
  | |- context [N.eqb (N_of_ascii a) ?k] =>
      first [rewrite (proj2 (N.eqb_neq (N_of_ascii a) k)) by lia | rewrite (proj2 (N.eqb_eq (N_of_ascii a) k)) by lia]
  | |- context [in_range ?lo ?hi a] => first [rewrite (range_no lo hi a) by lia | rewrite (range_yes lo hi a) by lia]
  end.

Lemma two_inv a b : two a b = true -> (0xC2 <= N_of_ascii a <= 0xDF)%N /\ cont b = true.
Proof. unfold two. by intros [?%range_inv ?]%andb_true_iff. Qed.

Lemma three_inv a b c : three a b c = true -> cont c = true /\
  ((N_of_ascii a = 0xE0 /\ in_range 0xA0 0xBF b = true) \/ (N_of_ascii a = 0xED /\ in_range 0x80 0x9F b = true) \/
   (0xE1 <= N_of_ascii a <= 0xEF /\ N_of_ascii a <> 0xED /\ cont b = true))%N.
Proof.
  unfold three. intros [H Hc]%andb_true_iff. split; [done|].
  destruct (N.eqb_spec (N_of_ascii a) 0xE0); [by left|]. destruct (N.eqb_spec (N_of_ascii a) 0xED); [by right; left|].
  apply andb_true_iff in H as [H%range_inv Hb]. right; right. by split_and!; try lia.
Qed.

Lemma four_inv a b c d : four a b c d = true -> cont c = true /\ cont d = true /\
  ((N_of_ascii a = 0xF0 /\ in_range 0x90 0xBF b = true) \/ (N_of_ascii a = 0xF4 /\ in_range 0x80 0x8F b = true) \/
   (0xF1 <= N_of_ascii a <= 0xF3 /\ cont b = true))%N.
Proof.
  unfold four. intros [[H Hc]%andb_true_iff Hd]%andb_true_iff. split; [done|]. split; [done|].
  destruct (N.eqb_spec (N_of_ascii a) 0xF0); [by left|]. destruct (N.eqb_spec (N_of_ascii a) 0xF4); [by right; left|].
  apply andb_true_iff in H as [H%range_inv Hb]. right; right. by split_and!; try lia.
Qed.

Lemma one_ok a l : N.ltb (N_of_ascii a) 0x80 = true -> valid_utf8_bytes (a :: l) = valid_utf8_bytes l.
Proof. intros H. cbn [valid_utf8_bytes]. by rewrite H. Qed.

Lemma two_ok a b l : two a b = true -> valid_utf8_bytes (a :: b :: l) = valid_utf8_bytes l.
Proof. intros [Ha Hb]%two_inv. cbn [valid_utf8_bytes]. lead a. by rewrite Hb. Qed.

Lemma three_ok a b c l : three a b c = true -> valid_utf8_bytes (a :: b :: c :: l) = valid_utf8_bytes l.
Proof.
  intros (Hc & H)%three_inv. cbn [valid_utf8_bytes].
  destruct H as [[Ha Hb]|[[Ha Hb]|(Ha & Hn & Hb)]]; lead a; by rewrite Hb, Hc.
Qed.

Lemma four_ok a b c d l : four a b c d = true -> valid_utf8_bytes (a :: b :: c :: d :: l) = valid_utf8_bytes l.
Proof.
  intros (Hc & Hd & H)%four_inv. cbn [valid_utf8_bytes].
  destruct H as [[Ha Hb]|[[Ha Hb]|(Ha & Hb)]]; lead a; by rewrite Hb, Hc, Hd.
Qed.

Lemma replacement_ok l : valid_utf8_bytes (replacement ++ l) = valid_utf8_bytes l.
Proof. reflexivity. Qed.

Lemma valid_coerce_bytes n : forall l, (length l <= n)%nat -> valid_utf8_bytes (coerce_bytes l) = true.
Proof.
  induction n as [|n IH]; intros [|a l] Hl; try done; simpl in Hl; [lia|].
  cbn [coerce_bytes]. destruct (N.ltb (N_of_ascii a) 0x80) eqn:E1; [rewrite one_ok by done; apply IH; lia|].
  destruct l as [|b l]; [done|]. destruct (two a b) eqn:E2; [rewrite two_ok by done; apply IH; simpl in *; lia|].
  destruct l as [|c l]; [rewrite replacement_ok; apply IH; simpl in *; lia|].
  destruct (three a b c) eqn:E3; [rewrite three_ok by done; apply IH; simpl in *; lia|].
  destruct l as [|d l]; [rewrite replacement_ok; apply IH; simpl in *; lia|].
  destruct (four a b c d) eqn:E4; [rewrite four_ok by done|rewrite replacement_ok]; apply IH; simpl in *; lia.
Qed.

Lemma valid_coerce s : valid_utf8 (coerce_utf8 s) = true.
Proof. unfold valid_utf8, coerce_utf8. rewrite bytes_of_bytes. by eapply valid_coerce_bytes. Qed.

(** The next rune of a valid string. *)
Lemma valid_cases l : valid_utf8_bytes l = true ->
  l = [] \/
  (exists a r, l = a :: r /\ N.ltb (N_of_ascii a) 0x80 = true /\ valid_utf8_bytes r = true) \/
  (exists a b r, l = a :: b :: r /\ two a b = true /\ valid_utf8_bytes r = true) \/
  (exists a b c r, l = a :: b :: c :: r /\ three a b c = true /\ valid_utf8_bytes r = true) \/
  (exists a b c d r, l = a :: b :: c :: d :: r /\ four a b c d = true /\ valid_utf8_bytes r = true).
Proof.
  destruct l as [|a l]; [by left|]. cbn [valid_utf8_bytes].
  destruct (N.ltb (N_of_ascii a) 0x80) eqn:E1; [intros H; right; left; by exists a, l|].
  destruct l as [|b l]; [done|].
  destruct (in_range 0xC2 0xDF a) eqn:E2.
  { intros [H1 H2]%andb_true_iff. right; right; left. exists a, b, l. unfold two. by rewrite E2, H1. }
  destruct l as [|c l]; [done|]. unfold three, four.
  destruct (N.eqb (N_of_ascii a) 0xE0) eqn:E3.
  { intros [[H1 H2]%andb_true_iff H3]%andb_true_iff. right; right; right; left. exists a, b, c, l.
    split; [done|]. rewrite E3. by rewrite H1, H2. }
  destruct (N.eqb (N_of_ascii a) 0xED) eqn:E4.
  { intros [[H1 H2]%andb_true_iff H3]%andb_true_iff. right; right; right; left. exists a, b, c, l.
    split; [done|]. rewrite E3, E4. by rewrite H1, H2. }
  destruct (in_range 0xE1 0xEF a) eqn:E5.
  { intros [[H1 H2]%andb_true_iff H3]%andb_true_iff. right; right; right; left. exists a, b, c, l.
    split; [done|]. rewrite E3, E4, E5. by rewrite H1, H2. }
  destruct l as [|d l]; [done|].
  destruct (N.eqb (N_of_ascii a) 0xF0) eqn:E6;
    [|destruct (N.eqb (N_of_ascii a) 0xF4) eqn:E7; [|destruct (in_range 0xF1 0xF3 a) eqn:E8; [|done]]];
    intros [[[H1 H2]%andb_true_iff H3]%andb_true_iff H4]%andb_true_iff; right; right; right; right;
    exists a, b, c, d, l; rewrite ?E6, ?E7, ?E8; by rewrite H1, H2, H3.
Qed.

Lemma three_not_two a b c : three a b c = true -> two a b = false /\ N.ltb (N_of_ascii a) 0x80 = false.
Proof. intros (_ & H)%three_inv. unfold two. destruct H as [[Ha _]|[[Ha _]|(Ha & _)]]; lead a; done. Qed.

Lemma four_not_three a b c d : four a b c d = true ->
  two a b = false /\ three a b c = false /\ N.ltb (N_of_ascii a) 0x80 = false.
Proof. intros (_ & _ & H)%four_inv. unfold two, three. destruct H as [[Ha _]|[[Ha _]|(Ha & _)]]; lead a; done. Qed.

Lemma two_not_one a b : two a b = true -> N.ltb (N_of_ascii a) 0x80 = false.
Proof. intros [Ha _]%two_inv. by lead a. Qed.

Lemma coerce_valid_bytes n : forall l, (length l <= n)%nat -> valid_utf8_bytes l = true -> coerce_bytes l = l.
Proof.
  induction n as [|n IH]; intros l Hl Hv; [destruct l; [done|simpl in Hl; lia]|].
  apply valid_cases in Hv as [->|[(a & r & -> & E & Hr)|[(a & b & r & -> & E & Hr)|
    [(a & b & c & r & -> & E & Hr)|(a & b & c & d & r & -> & E & Hr)]]]]; simpl in Hl; [done|..];
    cbn [coerce_bytes]; apply IH in Hr; try lia.
  - rewrite E. by f_equal.
  - rewrite (two_not_one _ _ E), E. by do 2 f_equal.
  - destruct (three_not_two _ _ _ E) as [E2 E1]. rewrite E1, E2, E. by do 3 f_equal.
  - destruct (four_not_three _ _ _ _ E) as (E2 & E3 & E1). rewrite E1, E2, E3, E. by do 4 f_equal.
Qed.

Lemma coerce_valid s : valid_utf8 s = true -> coerce_utf8 s = s.
Proof.
  unfold valid_utf8, coerce_utf8. intros H. rewrite (coerce_valid_bytes (length (bytes s))) by done.
  apply string_of_list_ascii_of_string.
Qed.

Lemma coerce_idem s : coerce_utf8 (coerce_utf8 s) = coerce_utf8 s.
Proof. apply coerce_valid, valid_coerce. Qed.

Lemma high_not_nul a : N.ltb (N_of_ascii a) 0x80 = false -> Ascii.eqb a "000" = false.
Proof. intros Ha. by destruct (Ascii.eqb_spec a "000") as [->|]. Qed.

Lemma cont_not_nul a : cont a = true -> Ascii.eqb a "000" = false.
Proof. intros Ha. by destruct (Ascii.eqb_spec a "000") as [->|]. Qed.

(** Coercion neither makes NUL bytes nor hides them. *)
Lemma nul_coerce_bytes n : forall l, (length l <= n)%nat ->
  existsb (fun c => Ascii.eqb c "000") (coerce_bytes l) = existsb (fun c => Ascii.eqb c "000") l.
Proof.
  induction n as [|n IH]; intros [|a l] Hl; try done; simpl in Hl; [lia|].
  cbn [coerce_bytes]. destruct (N.ltb (N_of_ascii a) 0x80) eqn:E1; [cbn [existsb]; by rewrite IH by lia|].
  cbn [existsb]. rewrite high_not_nul by done. cbn [orb]. destruct l as [|b l]; [done|].
  assert (Hrep : forall k, existsb (fun c => Ascii.eqb c "000") (replacement ++ k) = existsb (fun c => Ascii.eqb c "000") k) by done.
  destruct (two a b) eqn:E2.
  { apply two_inv in E2 as [_ Hb]. cbn [existsb]. rewrite high_not_nul, cont_not_nul by done. apply IH. simpl in *; lia. }
  destruct l as [|c l]; [rewrite Hrep; apply IH; simpl in *; lia|].
  destruct (three a b c) eqn:E3.
  { apply three_inv in E3 as (Hc & H). assert (Hb : Ascii.eqb b "000" = false).
    { destruct (Ascii.eqb_spec b "000") as [->|]; [|done]. by destruct H as [[_ ?]|[[_ ?]|(_ & _ & ?)]]. }
    cbn [existsb]. rewrite high_not_nul, (cont_not_nul c), Hb by done. apply IH. simpl in *; lia. }
  destruct l as [|d l]; [rewrite Hrep; apply IH; simpl in *; lia|].
  destruct (four a b c d) eqn:E4; [|rewrite Hrep; apply IH; simpl in *; lia].
  apply four_inv in E4 as (Hc & Hd & H). assert (Hb : Ascii.eqb b "000" = false).
  { destruct (Ascii.eqb_spec b "000") as [->|]; [|done]. by destruct H as [[_ ?]|[[_ ?]|(_ & ?)]]. }
  cbn [existsb]. rewrite high_not_nul, (cont_not_nul c), (cont_not_nul d), Hb by done. apply IH. simpl in *; lia.
Qed.

Lemma small_valid l : forallb (fun c => N.ltb (N_of_ascii c) 0x80) l = true -> valid_utf8_bytes l = true.
Proof.
  induction l as [|a l IH]; [done|]. intros [Ha Hl]%andb_true_iff. rewrite one_ok by done. auto.
Qed.
End Utf8.

Lemma coerce_plain s : forallb plain (Str.bytes s) = true -> Str.coerce_utf8 s = s.
Proof. intros H. apply Utf8.coerce_valid. apply plain_text_ok in H. by apply andb_true_iff in H as [H _]. Qed.

Lemma has_nul_bytes s : has_nul s = existsb (fun c => Ascii.eqb c "000") (Str.bytes s).
Proof. unfold has_nul, Str.bytes. induction s as [|c s IH]; [done|]. cbn. by rewrite IH. Qed.

Lemma has_nul_coerce s : has_nul (Str.coerce_utf8 s) = has_nul s.
Proof.
  rewrite !has_nul_bytes. unfold Str.coerce_utf8. rewrite Str.bytes_of_bytes. by eapply Utf8.nul_coerce_bytes.
Qed.

(** ** Messages *)

#[local] Opaque Str.coerce_utf8.

Lemma sorted_keysb_complete l : StronglySorted (fun a b => str_lt a b = true) l -> sorted_keysb l = true.
Proof.
  induction 1 as [|k l Hl IH Hk]; simpl; [done|]. rewrite IH, andb_true_r. destruct l; [done|]. by invert Hk.
Qed.

(** A value a message carries: well formed and far from the depth limit. *)
Definition shallow (v : json) : bool := wf_shape v && (depth v <=? 4000)%nat.

Lemma shallow_str s : shallow (jstr s) = true.
Proof. unfold shallow, jstr. cbn. by rewrite Utf8.valid_coerce. Qed.

Lemma obj_set_In k v m k2 v2 : In (k2, v2) (obj_set k v m) -> (k2, v2) = (k, v) \/ In (k2, v2) m.
Proof.
  induction m as [|[k1 v1] m IH]; simpl; [intros [?|[]]; by left|].
  destruct (String.eqb k k1); [intros [?|?]; [by left|by right; right]|].
  destruct (str_lt k k1); [intros [?|?]; [by left|by right]|].
  intros [?|H]; [by right; left|]. apply IH in H as [?|?]; [by left|by right; right].
Qed.

Lemma fold_set_In kvs : forall m k v, In (k, v) (fold_left (fun m kv => obj_set kv.1 kv.2 m) kvs m) -> In (k, v) kvs \/ In (k, v) m.
Proof.
  induction kvs as [|[k1 v1] kvs IH]; simpl; intros m k v H; [by right|].
  apply IH in H as [?|H]; [by left; right|]. apply obj_set_In in H as [[= -> ->]|?]; [by left; left|by right].
Qed.

Lemma jmap_In kvs k v : In (k, v) (jmap kvs) -> In (k, v) kvs.
Proof. intros H. by apply fold_set_In in H as [?|[]]. Qed.

Lemma set_all_sorted kvs : forall m, keys_sorted m -> keys_sorted (fold_left (fun m kv => obj_set kv.1 kv.2 m) kvs m).
Proof. induction kvs as [|kv kvs IH]; simpl; intros m Hm; [done|]. by apply IH, obj_set_sorted. Qed.

Lemma jmap_sorted kvs : keys_sorted (jmap kvs).
Proof. apply set_all_sorted. constructor. Qed.

Lemma depth_bound (m : list (string * json)) n : (forall k v, In (k, v) m -> (depth v <= n)%nat) ->
  (fold_right (fun kv k => Nat.max (depth kv.2) k) 0%nat m <= n)%nat.
Proof.
  induction m as [|[k v] m IH]; simpl; [lia|]. intros H. apply Nat.max_lub; [by apply (H k v); left|].
  apply IH. intros ???. eapply H. by right.
Qed.

Lemma jmap_shape kvs : forallb (fun kv => Str.valid_utf8 kv.1 && shallow kv.2) kvs = true ->
  wf_shape (JObj (jmap kvs)) = true /\ (depth (JObj (jmap kvs)) <= 4001)%nat.
Proof.
  rewrite forallb_forall. intros H. split.
  - cbn [wf_shape]. apply andb_true_iff. split; [apply sorted_keysb_complete, jmap_sorted|].
    apply forallb_forall. intros [k v] Hi%jmap_In. specialize (H _ Hi). unfold shallow in H. simpl in *.
    by destruct (Str.valid_utf8 k), (wf_shape v).
  - cbn [depth]. apply le_n_S, depth_bound. intros k v Hi%jmap_In. specialize (H _ Hi). unfold shallow in H. simpl in H.
    rewrite !andb_true_iff, Nat.leb_le in H. tauto.
Qed.

Lemma jmap_wf kvs : forallb (fun kv => Str.valid_utf8 kv.1 && shallow kv.2) kvs = true -> json_wf (JObj (jmap kvs)).
Proof.
  intros [H1 H2]%jmap_shape. unfold json_wf, json_wfb. rewrite H1. apply Z.leb_le. lia.
Qed.

(** What a map literal of shallow values comes back as. *)
Lemma message_back `{JsonCodecLaws} kvs : forallb (fun kv => Str.valid_utf8 kv.1 && shallow kv.2) kvs = true ->
  unmarshal_map (json_marshal (JObj (jmap kvs))) = Some (jmap kvs).
Proof. intros Hk. unfold unmarshal_map. by rewrite unmarshal_marshal by by apply jmap_wf. Qed.

Lemma dec_jstr cur s : dec_string cur [jstr s] = Some (Str.coerce_utf8 s).
Proof. reflexivity. Qed.

#[export] Hint Rewrite shallow_str : arx.

(** Reads a field of a map literal in which one member at most matches; the values may be
    variables. *)
Ltac find_field k m :=
  match m with
  | (?k', ?v) :: ?t =>
      let b := eval vm_compute in (Str.equal_fold k' k) in
      match b with true => constr:([v]) | false => find_field k t end
  | _ => constr:(@nil json)
  end.

Ltac read_fields :=
  repeat match goal with
  | |- context [field ?k (jmap ?m)] =>
      let r := find_field k m in
      replace (field k (jmap m)) with r
        by (repeat match goal with |- context [jstr ?s] => generalize (jstr s); intro end; vm_compute; reflexivity)
  end.
