(* ===== verification/PolicyMerge.v ===== *)
(** * Policy merge (internal/mdm/policy)

    Several declarative profiles assigned to one device are flattened to dotted
    paths, the contributions to each path are merged so that the most restrictive
    value wins, and the merged leaves are folded back into one payload.

    [MergeAssignedPayloads] is [merge.go]'s entry point.  A Go [map] that is
    iterated through a sorted key slice is a [gmap] whose [sorted_keys] are
    visited; a JSON object is [JObj], already listed in key order.  Object leaves
    are shared in Go between the effective payload and the flat settings, and
    [setAtDottedPath] mutates them; [alias_view] reads the shared map back after
    the payload is complete. *)

From S2P Require Import Prelude GoStd Float64 Json Ext.
From Stdlib Require Import SpecFloat.

(** ** Data (types.go) *)

Record ProfileSource := { ps_ID : uuid; ps_Name : string }.
Record ConflictProfile := { cp_ID : uuid; cp_Name : string }.

Record SettingConflict := {
  sc_Path : string;
  sc_EffectiveValue : json;
  sc_ConflictingProfiles : list ConflictProfile;
  sc_ContributedNormalized : list json
}.

Record EffectiveSetting := {
  es_Path : string;
  es_Value : json;
  es_Conflict : bool;
  es_SourceProfiles : list ConflictProfile
}.

Record MergeResult := {
  mr_EffectivePayload : list (string * json);
  mr_FlatSettings : list EffectiveSetting;
  mr_Conflicts : list SettingConflict;
  mr_ConflictPaths : gset string;
  mr_ConflictProfiles : gset uuid
}.

Record AssignedPayload := { ap_Source : ProfileSource; ap_Payload : string }.

Record pathContribution := { pc_Source : ProfileSource; pc_Value : json }.

Inductive contribKind := kindUnknown | kindBool | kindNumber | kindString | kindArray | kindObject.

#[export] Instance contribKind_eq_dec : EqDecision contribKind.
Proof. solve_decision. Defined.

Section Merge.
Context `{JC : JsonCodec}.

(** ** Flattening *)

Definition append_at (acc : gmap string (list pathContribution)) (path : string)
    (c : pathContribution) : gmap string (list pathContribution) :=
  <[path := default [] (acc !! path) ++ [c]]> acc.

Definition next_prefix (prefix k : string) : string :=
  if String.eqb prefix "" then k else prefix +:+ "." +:+ k.

Fixpoint flattenContributions (prefix : string) (v : json) (src : ProfileSource)
    (acc : gmap string (list pathContribution)) {struct v} : gmap string (list pathContribution) :=
  match v with
  | JObj typed =>
      match typed with
      | [] => if String.eqb prefix "" then acc
              else append_at acc prefix {| pc_Source := src; pc_Value := v |}
      | _ =>
          (fix go (m : list (string * json)) acc :=
             match m with
             | [] => acc
             | (k, child) :: r => go r (flattenContributions (next_prefix prefix k) child src acc)
             end) typed acc
      end
  | _ => if String.eqb prefix "" then acc
         else append_at acc prefix {| pc_Source := src; pc_Value := v |}
  end.

Definition sorted_keys {V} (m : gmap string V) : list string :=
  sort_strings (elements (dom m)).

Definition pathLeaf (path : string) : string :=
  let path := Str.trim_space path in
  if String.eqb path "" then ""%string else
  match Str.last_index "." path with
  | None => path
  | Some idx => Str.drop (S idx) path
  end.

(** ** Kinds and scalars *)

Definition contributionKind (v : json) : contribKind :=
  match v with
  | JBool _ => kindBool
  | JNum _ => kindNumber
  | JStr _ => kindString
  | JArr _ => kindArray
  | JObj _ => kindObject
  | JNull => kindUnknown
  end.

Definition jsonScalarBool (v : json) : option bool :=
  match v with JBool b => Some b | _ => None end.

Definition jsonScalarFloat (v : json) : option float64 :=
  match v with JNum f => Some f | _ => None end.

Definition mergeBoolRestrictive (leafKey : string) (vals : list bool) : bool :=
  let key := Str.to_lower leafKey in
  if Str.has_suffix key "_disabled" || Str.has_suffix key "_blocked" || Str.has_suffix key "_denied"
  then fold_left (fun out v => if (v : bool) then true else out) vals false
  else fold_left (fun out v => if (v : bool) then out else false) vals true.

(** [vals[0]] and [vals[1:]] are two arguments: every caller passes at least one
    value. *)
Definition mergeNumericRestrictive (leafKey : string) (v0 : float64) (vals : list float64) : float64 :=
  let key := Str.to_lower leafKey in
  if Str.contains key "min_"
  then fold_left (fun max v => if F64.ltb max v then v else max) vals v0
  else fold_left (fun min v => if F64.ltb v min then v else min) vals v0.

(** [sort.Strings] sorts the caller's slice in place: the sorted slice is part of
    the result. *)
Definition mergeStringRestrictive (vals : list string) : string * list string :=
  let vals := sort_strings vals in (hd ""%string vals, vals).

Definition normalizeJSON (v : json) : json :=
  match json_unmarshal (json_marshal v) with Some out => out | None => v end.

Definition contributedNormalizedSlice (parts : list pathContribution) : list json :=
  map (fun p => normalizeJSON (pc_Value p)) parts.

Definition restrictivePickScalars (leafKey : string) (a b : json) : json :=
  let by_text := if str_le (json_marshal a) (json_marshal b) then a else b in
  match a, b with
  | JBool ba, JBool bb => JBool (mergeBoolRestrictive leafKey [ba; bb])
  | JNum fa, JNum fb => JNum (mergeNumericRestrictive leafKey fa [fb])
  | JStr sa, JStr sb => JStr (mergeStringRestrictive [sa; sb]).1
  | _, _ => by_text
  end.

Definition restrictivePickMixed (leafKey : string) (parts : list pathContribution) : json :=
  match contributedNormalizedSlice parts with
  | [] => JNull
  | n0 :: ns => fold_left (restrictivePickScalars leafKey) ns n0
  end.

(** ** Counting distinct contributions *)

Definition uniqueBools (vals : list bool) : nat :=
  let '(t, f) := fold_left (fun '(t, f) v => if (v : bool) then (true, f) else (t, true)) vals (false, false) in
  ((if t : bool then 1 else 0) + (if f : bool then 1 else 0))%nat.

Definition nearlyEqual (a b : float64) : bool :=
  F64.leb (F64.abs (F64.sub a b))
          (F64.mul F64.eps9 (F64.max F64.one (F64.max (F64.abs a) (F64.abs b)))).

Definition uniqueFloats (vals : list float64) : nat :=
  length (fold_left (fun uniq v => if existsb (nearlyEqual v) uniq then uniq else uniq ++ [v]) vals []).

Definition uniqueStrings (vals : list string) : nat :=
  size (list_to_set vals : gset string).

Definition uniqueMaps (vals : list (list (string * json))) : nat :=
  length (fold_left (fun norms v =>
            let b := json_marshal (JObj v) in
            if existsb (String.eqb b) norms then norms else norms ++ [b]) vals []).

Definition uniqueNormalizedValues (vals : list json) : nat :=
  if (length vals <=? 1)%nat then length vals
  else length (fold_left (fun seen v => if existsb (deep_equal v) seen then seen else seen ++ [v]) vals []).

(** ** Who takes part *)

Definition by_lower_name (a b : ConflictProfile) : bool :=
  str_lt (Str.to_lower (cp_Name a)) (Str.to_lower (cp_Name b)).

Definition to_profile (p : pathContribution) : ConflictProfile :=
  {| cp_ID := ps_ID (pc_Source p); cp_Name := ps_Name (pc_Source p) |}.

(** The loops over [parts] that keep the first contribution of each profile. *)
Fixpoint distinct_profiles (skip_nil : bool) (seen : gset uuid) (parts : list pathContribution) : list ConflictProfile :=
  match parts with
  | [] => []
  | p :: r =>
      let id := ps_ID (pc_Source p) in
      if skip_nil && N.eqb id uuid_nil then distinct_profiles skip_nil seen r
      else if decide (id ∈ seen) then distinct_profiles skip_nil seen r
      else to_profile p :: distinct_profiles skip_nil ({[id]} ∪ seen) r
  end.

Definition conflictParticipants (parts : list pathContribution) : list ConflictProfile :=
  sort_slice by_lower_name (distinct_profiles true ∅ parts).

Definition sourceProfiles (parts : list pathContribution) : list ConflictProfile :=
  sort_slice by_lower_name (distinct_profiles false ∅ parts).

(** ** Arrays and objects *)

Fixpoint union_strings (arr : list json) (union : list string) (seen : gset string)
    : bool * list string * gset string :=
  match arr with
  | [] => (true, union, seen)
  | JStr s :: r => if decide (s ∈ seen) then union_strings r union seen
                   else union_strings r (union ++ [s]) ({[s]} ∪ seen)
  | _ :: _ => (false, union, seen)
  end.

(** The loop of [mergeArrayRestrictive]: [None] is its early return on a value
    that is not an array, [Some (allStrings, union, conflict)] the state it leaves. *)
Fixpoint array_scan (firstNormalized : json) (parts : list pathContribution)
    (union : list string) (seen : gset string) (conflict : bool) : option (bool * list string * bool) :=
  match parts with
  | [] => Some (true, union, conflict)
  | p :: r =>
      match pc_Value p with
      | JArr arr =>
          let conflict := if deep_equal (normalizeJSON (JArr arr)) firstNormalized then conflict else true in
          match union_strings arr union seen with
          | (true, union, seen) => array_scan firstNormalized r union seen conflict
          | (false, union, _) => Some (false, union, conflict)
          end
      | _ => None
      end
  end.

Definition mergeArrayRestrictive (p0 : pathContribution) (rest : list pathContribution) : json * bool :=
  let parts := p0 :: rest in
  let firstNormalized := normalizeJSON (pc_Value p0) in
  match array_scan firstNormalized parts [] ∅ false with
  | None => (restrictivePickMixed "" parts, true)
  | Some (allStrings, union, conflict) =>
      if allStrings && conflict then (JArr (map JStr (sort_strings union)), true)
      else if negb conflict then (firstNormalized, false)
      else (fold_left (restrictivePickScalars "") (contributedNormalizedSlice rest)
              (normalizeJSON (pc_Value p0)), true)
  end.

Definition mergeObjectMapsRestrictive (objs : list (list (string * json))) : list (string * json) :=
  fold_left (fun out o =>
    fold_left (fun out '(k, v) =>
      let key := Str.to_lower (Str.trim_space k) in
      match obj_get k out with
      | None => obj_set k v out
      | Some cur => obj_set k (restrictivePickScalars key cur v) out
      end) o out) objs [].

(** ** One path *)

Record Merged := {
  m_effective : json;
  m_conflict : bool;
  m_profiles : list ConflictProfile;
  m_norms : list json
}.

Definition jsonString (v : json) : option string := match v with JStr s => Some s | _ => None end.
Definition jsonObject (v : json) : option (list (string * json)) := match v with JObj m => Some m | _ => None end.

Definition mergeContributions (fullPath leafKey : string) (parts : list pathContribution) : Merged :=
  let mixed :=
    {| m_effective := restrictivePickMixed leafKey parts; m_conflict := true;
       m_profiles := conflictParticipants parts; m_norms := contributedNormalizedSlice parts |} in
  let settle v (conflict : bool) norms :=
    {| m_effective := v; m_conflict := conflict;
       m_profiles := if conflict then conflictParticipants parts else []; m_norms := norms |} in
  match parts with
  | [] => {| m_effective := JNull; m_conflict := false; m_profiles := []; m_norms := [] |}
  | [p] => let v := normalizeJSON (pc_Value p) in
           {| m_effective := v; m_conflict := false; m_profiles := []; m_norms := [v] |}
  | p0 :: rest =>
      let firstKind := contributionKind (pc_Value p0) in
      if negb (forallb (fun p => bool_decide (contributionKind (pc_Value p) = firstKind)) rest) then mixed
      else match firstKind with
      | kindBool =>
          match mapM (fun p => jsonScalarBool (pc_Value p)) parts with
          | None => mixed
          | Some vals => settle (JBool (mergeBoolRestrictive leafKey vals))
                                (1 <? uniqueBools vals)%nat (map JBool vals)
          end
      | kindNumber =>
          match mapM (fun p => jsonScalarFloat (pc_Value p)) parts with
          | Some (v0 :: vs) => settle (JNum (mergeNumericRestrictive leafKey v0 vs))
                                      (1 <? uniqueFloats (v0 :: vs))%nat (map JNum (v0 :: vs))
          | _ => mixed
          end
      | kindString =>
          match mapM (fun p => jsonString (pc_Value p)) parts with
          | None => mixed
          | Some strs =>
              if (1 <? uniqueStrings strs)%nat
              then let '(effective, strs) := mergeStringRestrictive strs in
                   settle (JStr effective) true (map JStr strs)
              else settle (JStr (hd ""%string strs)) false (map JStr strs)
          end
      | kindArray =>
          let '(effective, conflictArr) := mergeArrayRestrictive p0 rest in
          settle effective conflictArr (contributedNormalizedSlice parts)
      | kindObject =>
          match mapM (fun p => jsonObject (pc_Value p)) parts with
          | None => mixed
          | Some objs =>
              if (1 <? uniqueMaps objs)%nat
              then settle (JObj (mergeObjectMapsRestrictive objs)) true (contributedNormalizedSlice parts)
              else settle (JObj (hd [] objs)) false (contributedNormalizedSlice parts)
          end
      | kindUnknown =>
          {| m_effective := restrictivePickMixed leafKey parts;
             m_conflict := (1 <? uniqueNormalizedValues (contributedNormalizedSlice parts))%nat;
             m_profiles := conflictParticipants parts; m_norms := contributedNormalizedSlice parts |}
      end
  end.

(** ** Rebuilding the payload *)

Fixpoint set_at (segs : list string) (val : json) (cur : list (string * json)) : list (string * json) :=
  match segs with
  | [] => cur
  | [s] => obj_set s val cur
  | s :: rest =>
      let next := match obj_get s cur with Some (JObj m) => m | _ => [] end in
      obj_set s (JObj (set_at rest val next)) cur
  end.

Definition setAtDottedPath (root : list (string * json)) (path : string) (val : json) : list (string * json) :=
  if String.eqb path "" then root else set_at (Str.split_on "." path) val root.

Definition unflattenLeaves (leaves : gmap string json) : list (string * json) :=
  fold_left (fun root p =>
    match leaves !! p with Some v => setAtDottedPath root p v | None => root end)
    (sorted_keys leaves) [].

Fixpoint get_at (segs : list string) (cur : list (string * json)) : option json :=
  match segs with
  | [] => None
  | [s] => obj_get s cur
  | s :: rest => match obj_get s cur with Some (JObj m) => get_at rest m | _ => None end
  end.

(** An object leaf is the very map stored in the payload: later writes through
    [setAtDottedPath] show in the flat settings too. *)
Definition alias_view (root : list (string * json)) (path : string) (v : json) : json :=
  match v with
  | JObj _ => default v (get_at (Str.split_on "." path) root)
  | _ => v
  end.

(** ** MergeAssignedPayloads *)

Inductive merge_outcome :=
| MergeErr (profile : uuid)
| MergeOk (r : MergeResult).

Definition payload_root (payload : string) : option (list (string * json)) :=
  if String.eqb payload "" || String.eqb payload "null" then Some []
  else unmarshal_map payload.

Fixpoint collect (inputs : list AssignedPayload) (acc : gmap string (list pathContribution))
    : uuid + gmap string (list pathContribution) :=
  match inputs with
  | [] => inr acc
  | i :: r =>
      if N.eqb (ps_ID (ap_Source i)) uuid_nil then collect r acc
      else match payload_root (ap_Payload i) with
           | None => inl (ps_ID (ap_Source i))
           | Some root => collect r (flattenContributions "" (JObj root) (ap_Source i) acc)
           end
  end.

Definition merge_path (contributors : gmap string (list pathContribution)) (path : string) : Merged :=
  mergeContributions path (pathLeaf path) (default [] (contributors !! path)).

Definition setting_of contributors path : EffectiveSetting :=
  let m := merge_path contributors path in
  {| es_Path := path; es_Value := m_effective m; es_Conflict := m_conflict m;
     es_SourceProfiles := sourceProfiles (default [] (contributors !! path)) |}.

Definition conflict_of contributors path : SettingConflict :=
  let m := merge_path contributors path in
  {| sc_Path := path; sc_EffectiveValue := m_effective m;
     sc_ConflictingProfiles := m_profiles m; sc_ContributedNormalized := m_norms m |}.

Definition merge_contributors (contributors : gmap string (list pathContribution)) : MergeResult :=
  let paths := sorted_keys contributors in
  let conflicted := filter (fun p => m_conflict (merge_path contributors p) = true) paths in
  let leaves := fold_left (fun acc p => <[p := m_effective (merge_path contributors p)]> acc) paths
                  (∅ : gmap string json) in
  let root := unflattenLeaves leaves in
  {| mr_EffectivePayload := root;
     mr_FlatSettings :=
       sort_slice (fun a b => str_lt (es_Path a) (es_Path b))
         (map (fun p => let s := setting_of contributors p in
                {| es_Path := es_Path s; es_Value := alias_view root p (es_Value s);
                   es_Conflict := es_Conflict s; es_SourceProfiles := es_SourceProfiles s |}) paths);
     mr_Conflicts :=
       map (fun p => let c := conflict_of contributors p in
              {| sc_Path := sc_Path c; sc_EffectiveValue := alias_view root p (sc_EffectiveValue c);
                 sc_ConflictingProfiles := sc_ConflictingProfiles c;
                 sc_ContributedNormalized := sc_ContributedNormalized c |}) conflicted;
     mr_ConflictPaths := list_to_set conflicted;
     mr_ConflictProfiles :=
       list_to_set (concat (map (fun p => map cp_ID (m_profiles (merge_path contributors p))) conflicted)) |}.

Definition MergeAssignedPayloads (inputs : list AssignedPayload) : merge_outcome :=
  match collect inputs ∅ with
  | inl bad => MergeErr bad
  | inr contributors => MergeOk (merge_contributors contributors)
  end.
End Merge.
