(* ===== verification/PolicyMergeFacts.v ===== *)
(** * Policy merge: what "restrictive wins" means, kind by kind

    Properties of [PolicyMerge.mergeContributions]: for contributions of one
    scalar kind the effective value, the conflict flag and the reported
    normalised values are given exactly; arrays of strings merge to their sorted
    union; and one gap of the array merge is stated as the code has it. *)

From S2P Require Import Prelude GoStd Float64 Json Ext PolicyMerge.
From Stdlib Require Import SpecFloat.

(** ** Helper lemmas *)

Lemma fold_or vals b :
  fold_left (fun out v => if (v : bool) then true else out) vals b = b || existsb id vals.
Proof. revert b; induction vals as [|[] r IH]; intros []; simpl; rewrite ?IH; done. Qed.

Lemma fold_and vals b :
  fold_left (fun out v => if (v : bool) then out else false) vals b = b && forallb id vals.
Proof. revert b; induction vals as [|[] r IH]; intros []; simpl; rewrite ?IH; done. Qed.

Lemma uniqueBools_spec vals :
  (1 <? uniqueBools vals)%nat = existsb id vals && existsb negb vals.
Proof.
  unfold uniqueBools.
  assert (H : forall t f, fold_left (fun '(t, f) v => if (v : bool) then (true, f) else (t, true)) vals (t, f)
                = (t || existsb id vals, f || existsb negb vals)).
  { induction vals as [|[] r IH]; intros [] []; simpl; rewrite ?IH; done. }
  rewrite H; simpl. by destruct (existsb id vals), (existsb negb vals).
Qed.

Section mapM.
Context {A B : Type} (g : B -> json) (f : json -> option B) (pc : A -> json)
        (Hf : forall b, f (g b) = Some b).

Lemma mapM_scalar (parts : list A) vals :
  map pc parts = map g vals -> mapM (fun p => f (pc p)) parts = Some vals.
Proof.
  revert vals; induction parts as [|p r IH]; intros [|v vs]; simpl; try done.
  intros [= Hp Hr]. by rewrite Hp, Hf, (IH vs Hr).
Qed.

Lemma mapped_kinds_agree k (rest : list A) vals :
  (forall b, contributionKind (g b) = k) -> map pc rest = map g vals ->
  forallb (fun p => bool_decide (contributionKind (pc p) = k)) rest = true.
Proof.
  intros Hk. revert vals; induction rest as [|p r IH]; intros [|v vs]; simpl; try done.
  intros [= Hp Hr]. rewrite Hp, Hk, bool_decide_true by done. by apply (IH vs).
Qed.
End mapM.

Lemma normalize_id `{JsonCodecLaws} v : json_wf v -> normalizeJSON v = v.
Proof. intros Hv. unfold normalizeJSON. by rewrite unmarshal_marshal. Qed.

Lemma fold_pick_min (vals : list float64) v0 :
  F64.is_nan v0 = false -> (forall v, In v vals -> F64.is_nan v = false) ->
  let m := fold_left (fun min v => if F64.ltb v min then v else min) vals v0 in
  In m (v0 :: vals) /\ F64.is_nan m = false /\ forall v, In v (v0 :: vals) -> F64.le m v.
Proof.
  revert v0; induction vals as [|x r IH]; intros v0 H0 Hr; simpl.
  - split; [by left|]. split; [done|]. intros v [<-|[]]. apply F64.le_refl.
  - destruct (F64.ltb x v0) eqn:E.
    + destruct (IH x) as (Hin & Hn & Hle); [by apply Hr; left|by intros; apply Hr; right|].
      split; [by simpl in *; tauto|]. split; [done|].
      intros v [<-|Hv]; [|by apply Hle].
      apply F64.le_trans with x; try done; [by apply Hr; left|by apply Hle; left|].
      apply F64.lt_le; [by apply Hr; left|done..].
    + destruct (IH v0) as (Hin & Hn & Hle); [done|by intros; apply Hr; right|].
      split; [by simpl in *; tauto|]. split; [done|].
      intros v [<-|[<-|Hv]]; [by apply Hle; left| |by apply Hle; right].
      apply F64.le_trans with v0; try done; [by apply Hr; left|by apply Hle; left].
Qed.

Lemma fold_pick_max (vals : list float64) v0 :
  F64.is_nan v0 = false -> (forall v, In v vals -> F64.is_nan v = false) ->
  let m := fold_left (fun max v => if F64.ltb max v then v else max) vals v0 in
  In m (v0 :: vals) /\ F64.is_nan m = false /\ forall v, In v (v0 :: vals) -> F64.le v m.
Proof.
  revert v0; induction vals as [|x r IH]; intros v0 H0 Hr; simpl.
  - split; [by left|]. split; [done|]. intros v [<-|[]]. apply F64.le_refl.
  - destruct (F64.ltb v0 x) eqn:E.
    + destruct (IH x) as (Hin & Hn & Hle); [by apply Hr; left|by intros; apply Hr; right|].
      split; [by simpl in *; tauto|]. split; [done|].
      intros v [<-|Hv]; [|by apply Hle].
      apply F64.le_trans with x; try done; [by apply Hr; left| |by apply Hle; left].
      apply F64.lt_le; [done|by apply Hr; left|done].
    + destruct (IH v0) as (Hin & Hn & Hle); [done|by intros; apply Hr; right|].
      split; [by simpl in *; tauto|]. split; [done|].
      intros v [<-|[<-|Hv]]; [by apply Hle; left| |by apply Hle; right].
      apply F64.le_trans with v0; try done; [by apply Hr; left|by apply Hle; left].
Qed.

(** The representative list of [uniqueFloats] only grows. *)
Lemma unique_floats_grows vals uniq :
  (length uniq <=
   length (fold_left (fun uniq v => if existsb (nearlyEqual v) uniq then uniq else uniq ++ [v]) vals uniq))%nat.
Proof.
  revert uniq; induction vals as [|x r IH]; intros uniq; simpl; [done|].
  destruct (existsb (nearlyEqual x) uniq); [apply IH|].
  etransitivity; [|apply IH]. rewrite length_app. lia.
Qed.

Lemma uniqueFloats_spec v0 vs :
  (1 <? uniqueFloats (v0 :: vs))%nat = existsb (fun v => negb (nearlyEqual v v0)) vs.
Proof.
  unfold uniqueFloats; simpl. induction vs as [|x r IH]; simpl; [done|].
  rewrite orb_false_r. destruct (nearlyEqual x v0); simpl; [apply IH|].
  apply Nat.ltb_lt. pose proof (unique_floats_grows r [v0; x]) as G. simpl in G. lia.
Qed.

Lemma uniqueStrings_spec s0 r :
  (1 <? uniqueStrings (s0 :: r))%nat = existsb (fun t => negb (String.eqb t s0)) r.
Proof.
  unfold uniqueStrings. destruct (existsb _ r) eqn:E.
  - apply existsb_exists in E. destruct E as (t & Ht & Hne).
    apply negb_true_iff, String.eqb_neq in Hne. apply Nat.ltb_lt.
    destruct (decide (size (list_to_set (s0 :: r) : gset string) = 0%nat)) as [Hz|Hz].
    { apply size_empty_inv in Hz. set_solver. }
    destruct (decide (size (list_to_set (s0 :: r) : gset string) = 1%nat)) as [Ho|Ho]; [|lia].
    exfalso. apply Hne. apply (size_singleton_inv (C := gset string)
      (list_to_set (s0 :: r)) t s0); [done|..].
    + apply elem_of_list_to_set, list_elem_of_In. by right.
    + set_solver.
  - apply Nat.ltb_ge.
    assert ((list_to_set (s0 :: r) : gset string) = {[s0]}) as ->; [|by rewrite size_singleton].
    apply set_eq. intros x. rewrite elem_of_list_to_set, elem_of_singleton, list_elem_of_In.
    split; [|by intros ->; left]. intros [<-|Hx]; [done|].
    destruct (String.eqb_spec x s0) as [|Hn]; [done|].
    assert (existsb (fun t => negb (String.eqb t s0)) r = true) by
      (apply existsb_exists; exists x; split; [done|]; by apply negb_true_iff, String.eqb_neq).
    congruence.
Qed.

Lemma sort_strings_min s0 r :
  exists m l, sort_strings (s0 :: r) = m :: l /\ In m (s0 :: r) /\
              forall t, In t (s0 :: r) -> str_le m t = true.
Proof.
  pose proof (sort_strings_sorted (s0 :: r)) as Hs.
  destruct (sort_strings (s0 :: r)) as [|m l] eqn:E.
  { pose proof (sort_strings_perm (s0 :: r)) as P. rewrite E in P.
    by apply Permutation_nil_cons in P. }
  exists m, l. split; [done|].
  assert (Hi : forall t, In t (s0 :: r) <-> In t (m :: l)) by (intros t; by rewrite <- E, sort_strings_In).
  split; [apply Hi; by left|]. intros t. rewrite Hi. invert Hs.
  intros [<-|Ht]; [apply str_le_refl|]. rewrite Forall_forall in H2. apply H2. by apply list_elem_of_In.
Qed.

Definition deny_key (leafKey : string) : bool :=
  let key := Str.to_lower leafKey in
  Str.has_suffix key "_disabled" || Str.has_suffix key "_blocked" || Str.has_suffix key "_denied".

Lemma mergeBool_spec leafKey vals :
  mergeBoolRestrictive leafKey vals = if deny_key leafKey then existsb id vals else forallb id vals.
Proof. unfold mergeBoolRestrictive, deny_key. by rewrite fold_or, fold_and. Qed.

(** A single contribution is taken as it is. *)
Lemma merge_single `{JsonCodecLaws} path leaf p :
  json_wf (pc_Value p) ->
  mergeContributions path leaf [p] =
  {| m_effective := pc_Value p; m_conflict := false; m_profiles := []; m_norms := [pc_Value p] |}.
Proof. intros Hw. simpl. by rewrite normalize_id. Qed.

(** ** Properties *)

(** Boolean contributions to one path merge restrictively: under a key that ends in
    [_disabled], [_blocked] or [_denied] any [true] wins, under any other key any [false]
    wins; a conflict is flagged exactly when both values were contributed, and then every
    contributing profile is named; the normalised contributions are the values in order. *)
Theorem merge_bool_restrictive_wins `{JsonCodecLaws} path leaf parts vals :
  vals <> [] -> map pc_Value parts = map JBool vals ->
  mergeContributions path leaf parts =
  let conflict := existsb id vals && existsb negb vals in
  {| m_effective := JBool (if deny_key leaf then existsb id vals else forallb id vals);
     m_conflict := conflict;
     m_profiles := if conflict then conflictParticipants parts else [];
     m_norms := map JBool vals |}.
Proof.
  intros Hne Hm. destruct parts as [|p0 [|p1 rest]], vals as [|b0 [|b1 vals]]; try done.
  - simpl in Hm. injection Hm as Hv. rewrite merge_single, Hv by (by rewrite Hv).
    simpl. by destruct b0, (deny_key leaf).
  - pose proof Hm as Hm'. simpl in Hm. injection Hm as E0 E1 Hr. unfold mergeContributions.
    rewrite E0; simpl contributionKind.
    rewrite (mapped_kinds_agree JBool pc_Value kindBool _ (b1 :: vals)) by (simpl; congruence); simpl negb.
    rewrite (mapM_scalar JBool _ _ (fun b => eq_refl) _ _ Hm').
    cbv beta iota. by rewrite mergeBool_spec, uniqueBools_spec.
Qed.

(** Numeric contributions to one path merge to one of the contributed numbers: the
    largest when the key contains [min_], the smallest otherwise; a conflict is flagged
    exactly when some contribution is not nearly equal to the first. *)
Theorem merge_number_restrictive_wins `{JsonCodecLaws} path leaf parts v0 vs :
  Forall (fun v => F64.is_number v = true) (v0 :: vs) ->
  map pc_Value parts = map JNum (v0 :: vs) ->
  let m := mergeContributions path leaf parts in
  (exists f, m_effective m = JNum f /\ In f (v0 :: vs) /\
     forall v, In v (v0 :: vs) ->
       if Str.contains (Str.to_lower leaf) "min_" then F64.le v f else F64.le f v) /\
  m_conflict m = existsb (fun v => negb (nearlyEqual v v0)) vs.
Proof.
  intros Hfin Hm. rewrite Forall_forall in Hfin.
  assert (Hnan : forall v, In v (v0 :: vs) -> F64.is_nan v = false).
  { intros v Hv. apply list_elem_of_In, Hfin in Hv. by destruct v. }
  assert (Hpick : exists f, JNum (mergeNumericRestrictive leaf v0 vs) = JNum f /\ In f (v0 :: vs) /\
     forall v, In v (v0 :: vs) ->
       if Str.contains (Str.to_lower leaf) "min_" then F64.le v f else F64.le f v).
  { eexists. split; [done|]. unfold mergeNumericRestrictive.
    destruct (Str.contains _ _);
      [destruct (fold_pick_max vs v0) as (? & _ & ?)|destruct (fold_pick_min vs v0) as (? & _ & ?)];
      try done; intros; apply Hnan; by simpl; auto. }
  destruct parts as [|p0 [|p1 rest]], vs as [|v1 vs]; try done.
  - simpl in Hm. injection Hm as Hv. rewrite merge_single; rewrite Hv.
    2:{ unfold json_wf, json_wfb; simpl. rewrite (Hfin v0); [done|]. by left. }
    split; [|done]. exists v0. split; [done|]. split; [by left|].
    intros v [<-|[]]. destruct (Str.contains _ _); apply F64.le_refl.
  - pose proof Hm as Hm'. simpl in Hm. injection Hm as E0 E1 Hr.
    unfold mergeContributions. rewrite E0; simpl contributionKind.
    rewrite (mapped_kinds_agree JNum pc_Value kindNumber _ (v1 :: vs)) by (simpl; congruence); simpl negb.
    rewrite (mapM_scalar JNum _ _ (fun b => eq_refl) _ _ Hm').
    cbv beta iota zeta. split; [apply Hpick|]. simpl m_conflict. apply uniqueFloats_spec.
Qed.

(** String contributions to one path merge to the lexicographically least one; a
    conflict is flagged exactly when two contributions differ, and then the reported
    contributions come back sorted (the merge sorts the slice it reports). *)
Theorem merge_string_least_wins `{JsonCodecLaws} path leaf parts s0 ss :
  Forall (fun s => Str.valid_utf8 s = true) (s0 :: ss) ->
  map pc_Value parts = map JStr (s0 :: ss) ->
  let m := mergeContributions path leaf parts in
  let conflict := existsb (fun t => negb (String.eqb t s0)) ss in
  (exists s, m_effective m = JStr s /\ In s (s0 :: ss) /\
     forall t, In t (s0 :: ss) -> str_le s t = true) /\
  m_conflict m = conflict /\
  m_norms m = map JStr (if conflict then sort_strings (s0 :: ss) else s0 :: ss).
Proof.
  intros Hutf Hm. destruct parts as [|p0 [|p1 rest]], ss as [|s1 ss]; try done.
  - simpl in Hm. injection Hm as Hv. apply Forall_cons in Hutf as [Hs0 _].
    rewrite merge_single; rewrite Hv.
    2:{ unfold json_wf, json_wfb; simpl. by rewrite Hs0. }
    simpl. split; [|done]. exists s0. split; [done|]. split; [by left|].
    intros t [<-|[]]. apply str_le_refl.
  - pose proof Hm as Hm'. simpl in Hm. injection Hm as E0 E1 Hr.
    unfold mergeContributions. rewrite E0; simpl contributionKind.
    rewrite (mapped_kinds_agree JStr pc_Value kindString _ (s1 :: ss)) by (simpl; congruence); simpl negb.
    rewrite (mapM_scalar JStr _ _ (fun b => eq_refl) _ _ Hm').
    rewrite uniqueStrings_spec. cbv zeta.
    destruct (existsb _ (s1 :: ss)) eqn:E.
    + unfold mergeStringRestrictive.
      destruct (sort_strings_min s0 (s1 :: ss)) as (m & l & -> & Hin & Hle).
      cbv beta iota zeta. split; [|done]. by exists m.
    + cbv beta iota zeta. split; [|done]. exists s0. split; [done|]. split; [by left|].
      intros t [<-|Ht]; [apply str_le_refl|].
      destruct (String.eqb_spec t s0) as [->|Hn]; [apply str_le_refl|].
      assert (existsb (fun t => negb (String.eqb t s0)) (s1 :: ss) = true); [|congruence].
      apply existsb_exists. exists t. split; [done|]. by apply negb_true_iff, String.eqb_neq.
Qed.

(** ** Arrays *)

Definition str_array (ss : list string) : json := JArr (map JStr ss).

Lemma deep_equal_str_array a b :
  deep_equal (str_array a) (str_array b) = bool_decide (a = b).
Proof.
  revert b; induction a as [|x a IH]; intros [|y b]; simpl in *; try done.
  rewrite IH. destruct (String.eqb_spec x y) as [->|Hn]; simpl.
  - apply bool_decide_ext. naive_solver.
  - rewrite bool_decide_false; naive_solver.
Qed.

Lemma eqb_refl_finite f : F64.is_nan f = false -> F64.eqb f f = true.
Proof.
  intros H. unfold F64.eqb, SFeqb. rewrite (F64.compare_key f f) by done.
  destruct (F64.key f) as [[a b] c]; simpl. by rewrite !Z.compare_refl.
Qed.

Lemma deep_equal_refl v : wf_shape v = true -> deep_equal v v = true.
Proof.
  induction v as [|b|f|s|l IH|m IH] using json_ind'; simpl; intros Hw.
  - done.
  - by destruct b.
  - apply eqb_refl_finite. by destruct f.
  - by rewrite String.eqb_refl.
  - induction IH as [|x l Hx Hl IHl]; [done|]. simpl in Hw.
    apply andb_true_iff in Hw as [W1 W2]. by rewrite (Hx W1), (IHl W2).
  - apply andb_true_iff in Hw as [_ Hw]. induction IH as [|[k x] m Hx Hm IHm]; [done|].
    simpl in *. rewrite !andb_true_iff in Hw. destruct Hw as [[_ W1] W2].
    by rewrite String.eqb_refl, (Hx W1), (IHm W2).
Qed.

(** [seen] is the set of the union so far. *)
Definition seen_ok (union : list string) (seen : gset string) : Prop :=
  forall x, x ∈ seen <-> In x union.

Lemma union_strings_spec ss union seen :
  seen_ok union seen -> List.NoDup union ->
  exists u s, union_strings (map JStr ss) union seen = (true, u, s) /\
    seen_ok u s /\ List.NoDup u /\ forall x, In x u <-> In x union \/ In x ss.
Proof.
  revert union seen; induction ss as [|t ss IH]; intros union seen Hs Hn; simpl.
  - exists union, seen. naive_solver.
  - destruct (decide (t ∈ seen)) as [Ht|Ht].
    + destruct (IH union seen Hs Hn) as (u & s & E & Hs' & Hn' & Hx).
      exists u, s. split; [done|]. split; [done|]. split; [done|].
      intros x. rewrite Hx. apply Hs in Ht. naive_solver.
    + destruct (IH (union ++ [t]) ({[t]} ∪ seen)) as (u & s & E & Hs' & Hn' & Hx).
      * intros x. rewrite elem_of_union, elem_of_singleton, in_app_iff, (Hs x). simpl. naive_solver.
      * apply List.NoDup_app; [done|by apply NoDup_ListNoDup, NoDup_singleton|].
        intros x Hx [<-|[]]. by apply Ht, Hs.
      * exists u, s. split; [done|]. split; [done|]. split; [done|].
        intros x. rewrite Hx, in_app_iff. simpl. naive_solver.
Qed.

Lemma array_scan_spec `{JsonCodecLaws} ss0 parts sss union seen conflict :
  map pc_Value parts = map str_array sss ->
  Forall (fun p => json_wf (pc_Value p)) parts ->
  seen_ok union seen -> List.NoDup union ->
  exists u, array_scan (str_array ss0) parts union seen conflict
    = Some (true, u, conflict || existsb (fun ss => negb (bool_decide (ss = ss0))) sss) /\
    List.NoDup u /\ forall x, In x u <-> In x union \/ exists ss, In ss sss /\ In x ss.
Proof.
  revert sss union seen conflict; induction parts as [|p r IH];
    intros [|ss sss] union seen conflict Hm Hw Hs Hn; try done; simpl.
  - exists union. rewrite orb_false_r. naive_solver.
  - simpl in Hm. injection Hm as Ep Er. apply Forall_cons in Hw as [Wp Wr].
    rewrite Ep. unfold str_array at 1. rewrite normalize_id by (unfold str_array in Ep; by rewrite <- Ep).
    fold (str_array ss). rewrite deep_equal_str_array.
    destruct (union_strings_spec ss union seen Hs Hn) as (u & s & -> & Hs' & Hn' & Hx).
    destruct (IH sss u s (if bool_decide (ss = ss0) then conflict else true)) as (u2 & E2 & Hn2 & Hx2);
      [done..|]. exists u2. rewrite E2. split; [|split; [done|]].
    + do 2 f_equal. destruct (bool_decide (ss = ss0)), conflict; done.
    + intros x. rewrite Hx2, Hx. naive_solver.
Qed.

Lemma sorted_nodup_strict l :
  StronglySorted (fun a b => str_le a b = true) l -> List.NoDup l ->
  StronglySorted (fun a b => str_lt a b = true) l.
Proof.
  induction 1 as [|a l Hs IH Hall]; [constructor|]. intros Hn. apply List.NoDup_cons_iff in Hn as [Ha Hn].
  constructor; [by apply IH|]. rewrite Forall_forall in *. intros b Hb.
  destruct (str_lt_total a b) as [?|[->|Hlt]]; [done| |].
  - by apply list_elem_of_In in Hb.
  - apply str_lt_le in Hlt. pose proof (str_le_antisym _ _ (Hall b Hb) Hlt) as ->.
    by apply list_elem_of_In in Hb.
Qed.

(** Arrays of strings contributed to one path merge to their union, sorted and
    without duplicates, with a conflict, as soon as two of them differ; equal arrays are
    kept as they are, without a conflict. *)
Theorem merge_string_arrays_union `{JsonCodecLaws} path leaf parts ss0 sss :
  map pc_Value parts = map str_array (ss0 :: sss) ->
  Forall (fun p => json_wf (pc_Value p)) parts ->
  let m := mergeContributions path leaf parts in
  let conflict := existsb (fun ss => negb (bool_decide (ss = ss0))) sss in
  m_conflict m = conflict /\
  if conflict
  then exists u, m_effective m = str_array u /\
         StronglySorted (fun a b => str_lt a b = true) u /\
         forall s, In s u <-> exists ss, In ss (ss0 :: sss) /\ In s ss
  else m_effective m = str_array ss0.
Proof.
  intros Hm Hw. destruct parts as [|p0 [|p1 rest]], sss as [|ss1 sss]; try done.
  - simpl in Hm. injection Hm as Hv. apply Forall_cons in Hw as [Hw _].
    by rewrite merge_single, Hv by done.
  - pose proof Hm as Hm'. simpl in Hm. injection Hm as E0 E1 Hr.
    destruct (array_scan_spec ss0 (p0 :: p1 :: rest) (ss0 :: ss1 :: sss) [] ∅ false)
      as (u & Es & Hn & Hx); [done|done|intros x; set_solver|constructor|].
    assert (Hself : negb (bool_decide (ss0 = ss0)) = false) by (by rewrite bool_decide_true).
    unfold mergeContributions. rewrite E0; simpl contributionKind.
    rewrite (mapped_kinds_agree str_array pc_Value kindArray _ (ss1 :: sss)) by (simpl; congruence); simpl negb.
    unfold mergeArrayRestrictive. apply Forall_cons in Hw as [W0 _].
    assert (Ec : forall f : list string -> bool, negb (f ss0) = true ->
      false || existsb f (ss0 :: ss1 :: sss) = existsb f (ss1 :: sss)).
    { intros f. simpl. by destruct (f ss0). }
    rewrite Ec in Es by (by rewrite Hself).
    rewrite normalize_id, E0 by done. rewrite Es.
    destruct (existsb _ (ss1 :: sss)); [|done]. split; [done|].
    exists (sort_strings u). split; [done|]. split.
    + apply sorted_nodup_strict; [apply sort_strings_sorted|].
      apply NoDup_ListNoDup. rewrite sort_strings_perm. by apply NoDup_ListNoDup.
    + intros s. rewrite sort_strings_In, Hx. naive_solver.
Qed.

Lemma union_strings_stops arr union seen :
  existsb (fun v => match v with JStr _ => false | _ => true end) arr = true ->
  exists u s, union_strings arr union seen = (false, u, s).
Proof.
  revert union seen; induction arr as [|v arr IH]; intros union seen; simpl; [done|].
  destruct v; simpl; eauto. intros H. destruct (decide (s ∈ seen)); by apply IH.
Qed.

(** The array merge stops comparing at the first array that holds a non-string.  When
    that is the first contribution, its array is the effective value and no conflict is
    reported, whatever the other profiles contributed: of two different lists of objects
    the first silently wins. *)
Theorem merge_object_arrays_first_wins `{JsonCodecLaws} path leaf p0 p1 rest arr :
  pc_Value p0 = JArr arr -> json_wf (JArr arr) ->
  existsb (fun v => match v with JStr _ => false | _ => true end) arr = true ->
  Forall (fun p => contributionKind (pc_Value p) = kindArray) (p1 :: rest) ->
  let m := mergeContributions path leaf (p0 :: p1 :: rest) in
  m_effective m = JArr arr /\ m_conflict m = false /\ m_profiles m = [].
Proof.
  intros E0 Hw Hns Hall. unfold mergeContributions. rewrite E0; simpl contributionKind.
  assert (Hk : forallb (fun p => bool_decide (contributionKind (pc_Value p) = kindArray)) (p1 :: rest) = true).
  { apply forallb_forall. intros p Hp. apply bool_decide_true.
    rewrite Forall_forall in Hall. by apply Hall, list_elem_of_In. }
  rewrite Hk; simpl negb. unfold mergeArrayRestrictive. simpl array_scan. rewrite E0.
  rewrite normalize_id by done.
  unfold json_wf, json_wfb in Hw. apply andb_true_iff in Hw as [Hw _].
  rewrite (deep_equal_refl _ Hw).
  by destruct (union_strings_stops arr [] ∅ Hns) as (u & s & ->).
Qed.
