(* ===== verification/PolicyRoundtrip.v ===== *)
(** * A single profile comes out as it went in

    What setting and reading dotted paths do to an object; then: the effective payload of one
    profile is that profile's, and the flat report and the nested payload agree. *)

From S2P Require Import Prelude GoStd Float64 Json Ext PolicyMerge PolicyMergeFacts.

Definition dot : ascii := "."%char.

(** ** Writing a list of leaves *)

Definition fold_set (L : list (list string * json)) (cur : list (string * json)) : list (string * json) :=
  fold_left (fun cur sv => set_at sv.1 sv.2 cur) L cur.

(** The writes that land under top-level key [k], with [k] removed. *)
Definition tails (k : string) (L : list (list string * json)) : list (list string * json) :=
  flat_map (fun sv => match sv.1 with
                      | h :: t => if String.eqb h k then [(t, sv.2)] else []
                      | [] => [] end) L.

Definition node_step (o : option json) (sv : list string * json) : option json :=
  match sv.1 with
  | [] => Some sv.2
  | _ => Some (JObj (set_at sv.1 sv.2 (match o with Some (JObj m) => m | _ => [] end)))
  end.

Lemma get_set_at k h t v cur :
  obj_get k (set_at (h :: t) v cur) =
  if String.eqb h k then node_step (obj_get k cur) (t, v) else obj_get k cur.
Proof.
  destruct (String.eqb_spec h k) as [->|Hn].
  - destruct t as [|t1 t]; [apply obj_get_set_eq|].
    change (set_at (k :: t1 :: t) v cur) with
      (obj_set k (JObj (set_at (t1 :: t) v (match obj_get k cur with Some (JObj m) => m | _ => [] end))) cur).
    by rewrite obj_get_set_eq.
  - destruct t as [|t1 t]; simpl; by apply obj_get_set_ne.
Qed.

Lemma get_fold_set k L cur :
  Forall (fun sv => sv.1 <> []) L ->
  obj_get k (fold_set L cur) = fold_left node_step (tails k L) (obj_get k cur).
Proof.
  revert cur; induction L as [|[[|h t] v] L IH]; intros cur Hne; [done|..];
    apply Forall_cons in Hne as [H0 Hne]; [done|].
  change (fold_set ((h :: t, v) :: L) cur) with (fold_set L (set_at (h :: t) v cur)).
  rewrite (IH _ Hne), get_set_at. simpl. by destruct (String.eqb h k).
Qed.

Lemma set_at_sorted segs v cur : keys_sorted cur -> keys_sorted (set_at segs v cur).
Proof. destruct segs as [|s [|s2 r]]; simpl; [done|..]; apply obj_set_sorted. Qed.

Lemma fold_set_sorted L cur : keys_sorted cur -> keys_sorted (fold_set L cur).
Proof.
  intros H. unfold fold_set. apply (fold_left_inv keys_sorted); [done|].
  intros; by apply set_at_sorted.
Qed.

Lemma fold_node_step L m :
  Forall (fun sv => sv.1 <> []) L ->
  fold_left node_step L (Some (JObj m)) = Some (JObj (fold_set L m)).
Proof.
  revert m; induction L as [|[[|h t] v] L IH]; intros m Hne; [done|..];
    apply Forall_cons in Hne as [H0 Hne]; [done|].
  change (fold_left node_step ((h :: t, v) :: L) (Some (JObj m)))
    with (fold_left node_step L (Some (JObj (set_at (h :: t) v m)))).
  by rewrite IH.
Qed.

Lemma fold_node_step_none L :
  L <> [] -> Forall (fun sv => sv.1 <> []) L ->
  fold_left node_step L None = Some (JObj (fold_set L [])).
Proof.
  destruct L as [|[[|h t] v] L]; intros Hn Hne; [done|..]; apply Forall_cons in Hne as [H0 Hne]; [done|].
  change (fold_left node_step ((h :: t, v) :: L) None)
    with (fold_left node_step L (Some (JObj (set_at (h :: t) v [])))).
  by rewrite fold_node_step.
Qed.

Lemma tails_In k L t v : In (t, v) (tails k L) <-> In (k :: t, v) L.
Proof.
  unfold tails. rewrite in_flat_map. split.
  - intros ([[|h t'] v'] & Hin & H); simpl in H; [done|].
    destruct (String.eqb_spec h k) as [->|]; [|done]. by destruct H as [[= -> ->]|[]].
  - intros H. exists (k :: t, v). split; [done|]. simpl. rewrite String.eqb_refl. by left.
Qed.

Lemma tails_perm k L1 L2 : L1 ≡ₚ L2 -> tails k L1 ≡ₚ tails k L2.
Proof. intros H. by apply Permutation_flat_map. Qed.

Lemma tails_nodup k L : List.NoDup L.*1 -> List.NoDup (tails k L).*1.
Proof.
  induction L as [|[[|h t] v] L IH]; simpl; intros Hn; apply List.NoDup_cons_iff in Hn as [Hi Hn] || constructor.
  - by apply IH.
  - destruct (String.eqb_spec h k) as [->|]; simpl; [|by apply IH].
    constructor; [|by apply IH]. intros Ht. apply Hi.
    apply in_map_iff in Ht as ([t' v'] & Et & Ht). simpl in Et; subst t'.
    apply tails_In in Ht. apply in_map_iff. by exists (k :: t, v').
Qed.

(** A set of paths none of which extends another. *)
Definition prefix_free (P : list (list string)) : Prop :=
  forall p q, In p P -> In q P -> p `prefix_of` q -> p = q.

Lemma tails_prefix_free k L : prefix_free L.*1 -> prefix_free (tails k L).*1.
Proof.
  intros H p q Hp Hq Hpq. apply in_map_iff in Hp as ([p' v] & Ep & Hp), Hq as ([q' w] & Eq & Hq).
  simpl in *; subst. apply tails_In in Hp, Hq.
  assert (k :: p = k :: q) as [= ->]; [|done].
  apply H; [apply in_map_iff; by exists (k :: p, v)|apply in_map_iff; by exists (k :: q, w)|].
  by apply prefix_cons.
Qed.

(** Every leaf written is read back at its path, in whatever order the leaves were
    written, provided no path extends another. *)
Lemma get_at_fold_set segs v L :
  segs <> [] -> In (segs, v) L -> List.NoDup L.*1 -> prefix_free L.*1 ->
  Forall (fun sv => sv.1 <> []) L ->
  get_at segs (fold_set L []) = Some v.
Proof.
  revert L; induction segs as [|k rest IH]; intros L Hne Hin Hnd Hpf Hall; [done|].
  pose proof (get_fold_set k L [] Hall) as G. simpl in G.
  apply tails_In in Hin.
  pose proof (tails_nodup k L Hnd) as Tn. pose proof (tails_prefix_free k L Hpf) as Tp.
  destruct rest as [|k2 rest].
  - simpl. rewrite G.
    assert (tails k L = [([], v)]) as ->; [|done].
    destruct (tails k L) as [|[t1 v1] T] eqn:ET; [done|].
    assert (t1 = []) as ->.
    { symmetry. apply Tp; [by apply (in_map fst _ _ Hin)|by left|apply prefix_nil]. }
    simpl in Tn. apply List.NoDup_cons_iff in Tn as [Ti Tn].
    destruct Hin as [[= ->]|Hin]; [|exfalso; apply Ti; by apply (in_map fst _ _ Hin)].
    destruct T as [|[t2 v2] T]; [done|]. exfalso. apply Ti. left.
    symmetry. apply Tp; [by left|by right; left|apply prefix_nil].
  - assert (Hne2 : Forall (fun sv => sv.1 <> []) (tails k L)).
    { apply Forall_forall. intros [t w] Ht. apply list_elem_of_In in Ht. simpl. intros ->.
      assert ([] = k2 :: rest); [|done].
      apply Tp; [by apply (in_map fst _ _ Ht)|by apply (in_map fst _ _ Hin)|apply prefix_nil]. }
    rewrite fold_node_step_none in G by (try (intros E; by rewrite E in Hin); done).
    change (get_at (k :: k2 :: rest) (fold_set L [])) with
      (match obj_get k (fold_set L []) with Some (JObj m) => get_at (k2 :: rest) m | _ => None end).
    rewrite G. by apply IH.
Qed.

(** ** The leaves of one payload *)

Fixpoint node_leaves (c : json) : list (list string * json) :=
  match c with
  | JObj ((_ :: _) as m) =>
      flat_map (fun kc => map (fun sv => (kc.1 :: sv.1, sv.2)) (node_leaves kc.2)) m
  | _ => [([], c)]
  end.

Definition obj_leaves (m : list (string * json)) : list (list string * json) :=
  flat_map (fun kc => map (fun sv => (kc.1 :: sv.1, sv.2)) (node_leaves kc.2)) m.

Lemma node_leaves_ne c : node_leaves c <> [].
Proof.
  induction c as [| | | | |m IH] using json_ind'; try done.
  destruct m as [|[k c] m]; [done|]. apply Forall_cons in IH as [Hc _]. simpl in *.
  by destruct (node_leaves c).
Qed.

Lemma obj_leaves_ne_segs m : Forall (fun sv => sv.1 <> []) (obj_leaves m).
Proof.
  apply Forall_forall. intros sv Hsv. apply list_elem_of_In, in_flat_map in Hsv as (kc & _ & H).
  apply in_map_iff in H as (sv' & <- & _). done.
Qed.

Lemma tails_obj_leaves k m :
  keys_sorted m ->
  tails k (obj_leaves m) = match obj_get k m with Some c => node_leaves c | None => [] end.
Proof.
  intros Hs. induction m as [|[k' c] m IH]; [done|].
  apply keys_sorted_cons in Hs as [Hs Hlt]. simpl obj_leaves. unfold tails in *.
  rewrite flat_map_app. fold (obj_leaves m). rewrite (IH Hs).
  assert (E : forall L, flat_map (fun sv : list string * json => match sv.1 with
            | h :: t => if String.eqb h k then [(t, sv.2)] else [] | [] => [] end)
            (map (fun sv => (k' :: sv.1, sv.2)) L) = if String.eqb k' k then L else []).
  { induction L as [|[s v] L IHL]; simpl; [by destruct (String.eqb k' k)|].
    rewrite IHL. by destruct (String.eqb k' k). }
  rewrite E. simpl. destruct (String.eqb_spec k' k) as [->|Hn].
  - rewrite String.eqb_refl. rewrite obj_get_None; [apply app_nil_r|].
    intros Hi. apply Hlt in Hi. by rewrite str_lt_irrefl in Hi.
  - by rewrite (proj2 (String.eqb_neq k k')) by congruence.
Qed.

(** Sorted at every level, as [json.Unmarshal] results are. *)
Fixpoint tree_sorted (v : json) : Prop :=
  match v with
  | JObj m => keys_sorted m /\ fold_right (fun kc P => tree_sorted kc.2 /\ P) True m
  | _ => True
  end.

Lemma tree_sorted_get k m c : tree_sorted (JObj m) -> obj_get k m = Some c -> tree_sorted c.
Proof.
  simpl. intros [_ H] G. apply obj_get_In in G. induction m as [|kc m IH]; [done|].
  simpl in *. destruct H as [H1 H2]. destruct G as [->|G]; [done|]. by apply IH.
Qed.

(** Writing the leaves of an object, in any order, into an empty object gives the
    object back. *)
Lemma fold_set_leaves m :
  tree_sorted (JObj m) -> forall L, L ≡ₚ obj_leaves m -> fold_set L [] = m.
Proof.
  enough (forall v, match v with JObj m => tree_sorted (JObj m) ->
            forall L, L ≡ₚ obj_leaves m -> fold_set L [] = m | _ => True end) as H by apply (H (JObj m)).
  clear m. intros v. induction v as [| | | | |m IH] using json_ind'; try done.
  intros Ht L HL. apply obj_ext; [apply fold_set_sorted; constructor|apply Ht|]. intros k.
  assert (Hne : Forall (fun sv => sv.1 <> []) L) by (rewrite HL; apply obj_leaves_ne_segs).
  rewrite get_fold_set by done. simpl.
  pose proof (tails_perm k _ _ HL) as HT. rewrite tails_obj_leaves in HT by apply Ht.
  destruct (obj_get k m) as [c|] eqn:G.
  2:{ apply Permutation_nil_r in HT. by rewrite HT. }
  assert (Hleaf : node_leaves c = [([], c)] -> fold_left node_step (tails k L) None = Some c).
  { intros E. rewrite E in HT. apply Permutation_singleton_r in HT. by rewrite HT. }
  destruct c as [| | | | |m'] eqn:Ec; try by apply Hleaf.
  destruct m' as [|kc0 m0]; [by apply Hleaf|]. set (m' := kc0 :: m0) in *.
  change (node_leaves (JObj m')) with (obj_leaves m') in HT.
  assert (HneT : Forall (fun sv => sv.1 <> []) (tails k L)) by (rewrite HT; apply obj_leaves_ne_segs).
  rewrite fold_node_step_none; [|intros E|done].
  2:{ rewrite E in HT. apply Permutation_nil_l in HT.
      by apply (node_leaves_ne (JObj m')). }
  rewrite Forall_forall in IH. do 2 f_equal.
  apply (IH (k, JObj m')); [by apply list_elem_of_In, obj_get_In| |done].
  by eapply tree_sorted_get.
Qed.

(** ** Keys that survive the dotted-path encoding *)

Definition good_key (k : string) : Prop := k <> ""%string /\ Str.has_byte dot k = false.

Fixpoint good_tree (v : json) : Prop :=
  match v with
  | JObj m => fold_right (fun kc P => (good_key kc.1 /\ good_tree kc.2) /\ P) True m
  | _ => True
  end.

Definition path_of (segs : list string) : string := Str.join (String dot "") segs.

Lemma path_of_cons s r : r <> [] -> path_of (s :: r) = s +:+ "." +:+ path_of r.
Proof. by destruct r. Qed.

Lemma path_of_snoc segs k : segs <> [] -> path_of (segs ++ [k]) = path_of segs +:+ "." +:+ k.
Proof.
  induction segs as [|s r IH]; [done|]. intros _. destruct r as [|s2 r].
  - done.
  - rewrite <- app_comm_cons, path_of_cons, IH by (by destruct r).
    rewrite (path_of_cons s (s2 :: r)) by done. by rewrite !Str.append_assoc.
Qed.

Lemma path_of_ne segs : segs <> [] -> Forall good_key segs -> path_of segs <> ""%string.
Proof.
  destruct segs as [|s r]; [done|]. intros _ H. apply Forall_cons in H as [[Hs _] _].
  destruct r; [done|]. rewrite path_of_cons by done. by destruct s.
Qed.

Lemma split_path_of segs :
  segs <> [] -> Forall good_key segs -> Str.split_on dot (path_of segs) = segs.
Proof.
  intros Hne H. apply Str.split_join; [done|]. eapply Forall_impl; [exact H|]. by intros ? [].
Qed.

Lemma next_prefix_path segs k :
  segs <> [] -> Forall good_key segs -> next_prefix (path_of segs) k = path_of (segs ++ [k]).
Proof.
  intros Hne H. unfold next_prefix. rewrite (proj2 (String.eqb_neq _ _)) by (by apply path_of_ne).
  by rewrite path_of_snoc.
Qed.

(** ** Flattening one payload *)

Definition add_leaf (src : ProfileSource) (segs : list string)
    (acc : gmap string (list pathContribution)) (sv : list string * json) :=
  append_at acc (path_of (segs ++ sv.1)) {| pc_Source := src; pc_Value := sv.2 |}.

Lemma fold_add_leaf_map src segs k L acc :
  fold_left (add_leaf src segs) (map (fun sv => (k :: sv.1, sv.2)) L) acc =
  fold_left (add_leaf src (segs ++ [k])) L acc.
Proof.
  revert acc; induction L as [|[s v] L IH]; intros acc; simpl; [done|].
  rewrite IH. unfold add_leaf; simpl. by rewrite <- app_assoc.
Qed.

Lemma flatten_object src segs m acc :
  Forall good_key segs ->
  Forall (fun kv => forall segs acc, segs <> [] -> Forall good_key segs -> good_tree kv.2 ->
            flattenContributions (path_of segs) kv.2 src acc =
            fold_left (add_leaf src segs) (node_leaves kv.2) acc) m ->
  good_tree (JObj m) ->
  (fix go (m : list (string * json)) acc :=
     match m with
     | [] => acc
     | (k, child) :: r => go r (flattenContributions (next_prefix (path_of segs) k) child src acc)
     end) m acc = fold_left (add_leaf src segs) (obj_leaves m) acc.
Proof.
  intros Hs HIH. revert acc. induction HIH as [|[k c] m Hc Hm IH]; intros acc Hg; [done|].
  simpl in Hg. destruct Hg as [[Hk Hgc] Hgm].
  assert (E : next_prefix (path_of segs) k = path_of (segs ++ [k])).
  { destruct segs; [done|]. by apply next_prefix_path. }
  assert (Hs' : Forall good_key (segs ++ [k])) by (apply Forall_app; split; [done|by constructor]).
  simpl in Hc. cbn [obj_leaves flat_map fst snd]. fold (obj_leaves m).
  rewrite fold_left_app, fold_add_leaf_map, E, Hc by (try done; by destruct segs).
  apply IH. done.
Qed.

Lemma flatten_node src v :
  forall segs acc, segs <> [] -> Forall good_key segs -> good_tree v ->
  flattenContributions (path_of segs) v src acc = fold_left (add_leaf src segs) (node_leaves v) acc.
Proof.
  induction v as [|b|f|s|l _|m IH] using json_ind'; intros segs acc Hne Hs Hg;
    pose proof (path_of_ne segs Hne Hs) as Hp; apply String.eqb_neq in Hp;
    try (simpl; unfold add_leaf; simpl; rewrite Hp, app_nil_r; done).
  destruct m as [|kc m]; [simpl; unfold add_leaf; simpl; rewrite Hp, app_nil_r; done|].
  change (node_leaves (JObj (kc :: m))) with (obj_leaves (kc :: m)).
  rewrite <- (flatten_object src segs (kc :: m) acc Hs IH Hg). by destruct kc.
Qed.

Lemma flatten_root src m acc :
  good_tree (JObj m) ->
  flattenContributions "" (JObj m) src acc = fold_left (add_leaf src []) (obj_leaves m) acc.
Proof.
  intros Hg. rewrite <- (flatten_object src [] m acc); [|constructor| |done].
  - by destruct m as [|[k c] m].
  - apply Forall_forall. intros kv _ segs acc'. apply flatten_node.
Qed.

(** The paths of a flattened payload are never empty, whatever its keys are. *)
Lemma flatten_nonempty src v :
  forall prefix acc, acc !! ""%string = None ->
  flattenContributions prefix v src acc !! ""%string = None.
Proof.
  assert (Hap : forall prefix acc c, acc !! ""%string = None ->
    (if String.eqb prefix "" then acc else append_at acc prefix c) !! ""%string = None).
  { intros prefix acc c Ha. destruct (String.eqb_spec prefix "") as [|Hn]; [done|].
    unfold append_at. by rewrite lookup_insert_ne. }
  induction v as [|b|f|s|l _|m IH] using json_ind'; intros prefix acc Ha; try by apply Hap.
  destruct m as [|kc m]; [by apply Hap|].
  assert (G : forall m acc, Forall (fun kv => forall prefix acc, acc !! ""%string = None ->
       flattenContributions prefix kv.2 src acc !! ""%string = None) m -> acc !! ""%string = None ->
     (fix go (m : list (string * json)) acc :=
       match m with
       | [] => acc
       | (k, child) :: r => go r (flattenContributions (next_prefix prefix k) child src acc)
       end) m acc !! ""%string = None).
  { clear. intros m; induction m as [|[k c] m IHm]; intros acc H Ha; [done|].
    apply Forall_cons in H as [Hc H]. apply IHm; [done|]. by apply Hc. }
  by apply (G (kc :: m)).
Qed.

Lemma collect_nonempty `{JsonCodec} inputs acc fc :
  acc !! ""%string = None -> collect inputs acc = inr fc -> fc !! ""%string = None.
Proof.
  revert acc; induction inputs as [|i r IH]; intros acc Ha; cbn [collect]; [by intros [= <-]|].
  destruct (N.eqb _ _); [by apply IH|]. destruct (payload_root _); [|done].
  apply IH. by apply flatten_nonempty.
Qed.

(** ** The merged leaves *)

Section leaves.
Context `{JC : JsonCodec} (fc : gmap string (list pathContribution)).

Definition merged_leaves : gmap string json :=
  fold_left (fun acc p => <[p := m_effective (merge_path fc p)]> acc) (sorted_keys fc) ∅.

Lemma sorted_keys_In {V} (m : gmap string V) p : In p (sorted_keys m) <-> p ∈ dom m.
Proof. unfold sorted_keys. by rewrite sort_strings_In, <- list_elem_of_In, elem_of_elements. Qed.

Lemma sorted_keys_NoDup {V} (m : gmap string V) : List.NoDup (sorted_keys m).
Proof.
  apply NoDup_ListNoDup. unfold sorted_keys. rewrite sort_strings_perm. apply NoDup_elements.
Qed.

Lemma fold_insert_lookup {V} (f : string -> V) (l : list string) (acc : gmap string V) p :
  fold_left (fun acc p => <[p := f p]> acc) l acc !! p =
  if decide (p ∈ l) then Some (f p) else acc !! p.
Proof.
  revert acc; induction l as [|x l IH]; intros acc; simpl; [done|].
  rewrite IH. destruct (decide (p ∈ l)) as [Hl|Hl].
  - by rewrite decide_True by set_solver.
  - destruct (decide (x = p)) as [->|Hx].
    + rewrite decide_True by set_solver. by rewrite lookup_insert_eq.
    + rewrite decide_False by set_solver. by rewrite lookup_insert_ne.
Qed.

Lemma merged_leaves_lookup p :
  merged_leaves !! p = if decide (p ∈ dom fc) then Some (m_effective (merge_path fc p)) else None.
Proof.
  unfold merged_leaves. rewrite fold_insert_lookup, lookup_empty.
  destruct (decide (p ∈ dom fc)) as [H|H].
  - by rewrite decide_True by (by apply list_elem_of_In, sorted_keys_In).
  - by rewrite decide_False by (by rewrite list_elem_of_In, sorted_keys_In).
Qed.

Lemma merged_leaves_keys : sorted_keys merged_leaves = sorted_keys fc.
Proof.
  unfold sorted_keys. do 2 f_equal. apply set_eq. intros p.
  rewrite elem_of_dom, merged_leaves_lookup. destruct (decide _) as [Hd|Hd].
  - split; eauto.
  - split; [by intros [? ?]|done].
Qed.

Lemma unflatten_fold_set :
  fc !! ""%string = None ->
  unflattenLeaves merged_leaves =
  fold_set (map (fun p => (Str.split_on dot p, m_effective (merge_path fc p))) (sorted_keys fc)) [].
Proof.
  intros H0. unfold unflattenLeaves, fold_set. rewrite merged_leaves_keys.
  rewrite fold_left_map. apply fold_left_ext. intros root p Hp.
  apply sorted_keys_In in Hp. rewrite merged_leaves_lookup, decide_True by done.
  unfold setAtDottedPath. destruct (String.eqb_spec p "") as [->|]; [|done].
  apply elem_of_dom in Hp as [? ?]. congruence.
Qed.
End leaves.

(** ** One profile alone *)

Definition from_leaf (src : ProfileSource) (sv : list string * json) : list pathContribution :=
  [{| pc_Source := src; pc_Value := sv.2 |}].

Lemma fold_add_leaf_lookup src L acc :
  List.NoDup (map (fun sv => path_of sv.1) L) ->
  (forall sv, In sv L -> acc !! path_of sv.1 = None) ->
  (forall sv, In sv L -> fold_left (add_leaf src []) L acc !! path_of sv.1 = Some (from_leaf src sv)) /\
  (forall p, ~ In p (map (fun sv => path_of sv.1) L) -> fold_left (add_leaf src []) L acc !! p = acc !! p).
Proof.
  revert acc; induction L as [|sv0 L IH]; intros acc Hn Ha; [done|].
  simpl in Hn. apply List.NoDup_cons_iff in Hn as [Hi Hn]. cbn [fold_left].
  assert (Eadd : add_leaf src [] acc sv0 = <[path_of sv0.1 := from_leaf src sv0]> acc).
  { unfold add_leaf, append_at. rewrite app_nil_l, (Ha sv0) by (by left). done. }
  destruct (IH (add_leaf src [] acc sv0) Hn) as [IH1 IH2].
  { intros sv Hsv. rewrite Eadd, lookup_insert_ne; [apply Ha; by right|].
    intros E. apply Hi. rewrite E. by apply (in_map (fun sv => path_of sv.1)). }
  split.
  - intros sv [<-|Hsv]; [|by apply IH1]. rewrite IH2 by done. by rewrite Eadd, lookup_insert_eq.
  - intros p Hp. rewrite IH2 by (intros ?; apply Hp; by right). rewrite Eadd, lookup_insert_ne; [done|].
    intros E. apply Hp. by left.
Qed.

Lemma good_segs v : good_tree v -> forall sv, In sv (node_leaves v) -> Forall good_key sv.1.
Proof.
  induction v as [| | | | |m IH] using json_ind'; intros Hg sv Hsv;
    try (destruct Hsv as [<-|[]]; constructor).
  destruct m as [|kc0 m0]; [destruct Hsv as [<-|[]]; constructor|].
  change (In sv (obj_leaves (kc0 :: m0))) in Hsv. set (m := kc0 :: m0) in *. clearbody m.
  induction IH as [|[k c] m Hc Hm IHm]; [done|]. simpl in Hg, Hsv, Hc.
  destruct Hg as [[Hk Hgc] Hgm]. apply in_app_or in Hsv as [H|H]; [|by apply IHm].
  apply in_map_iff in H as (sv' & <- & H). simpl. constructor; [done|]. by apply Hc.
Qed.

Lemma good_obj_segs m sv : good_tree (JObj m) -> In sv (obj_leaves m) -> sv.1 <> [] /\ Forall good_key sv.1.
Proof.
  intros Hg Hsv. split.
  - pose proof (obj_leaves_ne_segs m) as H. rewrite Forall_forall in H. by apply H, list_elem_of_In.
  - destruct m as [|kc m]; [done|]. by apply (good_segs (JObj (kc :: m))).
Qed.

Lemma tree_sorted_cons k c m :
  tree_sorted (JObj ((k, c) :: m)) <->
  tree_sorted c /\ tree_sorted (JObj m) /\ (forall k', In k' m.*1 -> str_lt k k' = true).
Proof. simpl. rewrite keys_sorted_cons. naive_solver. Qed.

Lemma node_leaves_nodup v : tree_sorted v -> List.NoDup (map fst (node_leaves v)).
Proof.
  assert (one : forall s : list string, List.NoDup [s]) by (intros; by apply NoDup_ListNoDup, NoDup_singleton).
  induction v as [| | | | |m IH] using json_ind'; intros Ht; try apply one.
  destruct m as [|kc0 m0]; [apply one|].
  change (List.NoDup (map fst (obj_leaves (kc0 :: m0)))). set (m := kc0 :: m0) in *. clearbody m.
  induction IH as [|[k c] m Hc Hm IHm]; [constructor|].
  apply tree_sorted_cons in Ht as (Hc' & Hm' & Hlt). cbn [obj_leaves flat_map fst snd].
  fold (obj_leaves m). rewrite map_app, map_map. simpl.
  apply List.NoDup_app; [|by apply IHm|].
  - rewrite <- (map_map fst (cons k)). apply NoDup_ListNoDup. apply (NoDup_fmap_2 (cons k)).
    by apply NoDup_ListNoDup, Hc.
  - intros s H1 H2. apply in_map_iff in H1 as (sv1 & <- & H1), H2 as (sv2 & E2 & H2).
    unfold obj_leaves in H2. apply in_flat_map in H2 as ([k2 c2] & Hin & H2).
    apply in_map_iff in H2 as (sv3 & <- & H3). simpl in E2. injection E2 as -> _.
    assert (str_lt k k = true) as C; [|by rewrite str_lt_irrefl in C].
    apply Hlt. by apply (in_map fst _ _ Hin).
Qed.

Lemma leaf_paths_nodup m :
  tree_sorted (JObj m) -> good_tree (JObj m) -> List.NoDup (map (fun sv => path_of sv.1) (obj_leaves m)).
Proof.
  intros Ht Hg. rewrite <- (map_map fst path_of).
  assert (Hn : List.NoDup (map fst (obj_leaves m))).
  { destruct m as [|kc m]; [constructor|]. by apply (node_leaves_nodup (JObj (kc :: m))). }
  assert (Hi : forall s, In s (map fst (obj_leaves m)) -> Str.split_on dot (path_of s) = s).
  { intros s Hs. apply in_map_iff in Hs as (sv & <- & Hsv).
    destruct (good_obj_segs m sv Hg Hsv). by apply split_path_of. }
  induction (map fst (obj_leaves m)) as [|s l IH]; [constructor|].
  apply List.NoDup_cons_iff in Hn as [Hs Hn]. simpl. constructor.
  - intros Hin. apply in_map_iff in Hin as (s' & E & Hin). apply Hs.
    rewrite <- (Hi s) by (by left). rewrite <- E, Hi by (by right). done.
  - apply IH; [done|]. intros s' Hs'. apply Hi. by right.
Qed.

Lemma wf_leaves v : json_wf v -> forall sv, In sv (node_leaves v) -> json_wf sv.2.
Proof.
  induction v as [| | | | |m IH] using json_ind'; intros Hw sv Hsv;
    try (destruct Hsv as [<-|[]]; done).
  destruct m as [|kc0 m0]; [destruct Hsv as [<-|[]]; done|].
  change (In sv (obj_leaves (kc0 :: m0))) in Hsv.
  unfold obj_leaves in Hsv. apply in_flat_map in Hsv as ([k c] & Hin & H).
  apply in_map_iff in H as (sv' & <- & H). rewrite Forall_forall in IH. simpl.
  apply (IH (k, c)); [by apply list_elem_of_In| |done]. by eapply wf_obj_In.
Qed.

Lemma wf_tree_sorted v : json_wf v -> tree_sorted v.
Proof.
  induction v as [| | | | |m IH] using json_ind'; intros Hw; try done. split; [by apply wf_obj_sorted|].
  assert (Hall : Forall (fun kc => tree_sorted kc.2) m).
  { rewrite Forall_forall in *. intros [k c] Hkc. apply (IH (k, c)); [done|].
    eapply wf_obj_In; [done|]. by apply list_elem_of_In. }
  clear -Hall. induction Hall; simpl; auto.
Qed.

Lemma payload_root_wf `{JsonCodecLaws} payload m : payload_root payload = Some m -> json_wf (JObj m).
Proof.
  unfold payload_root, unmarshal_map. destruct (_ || _); [by intros [= <-]|].
  destruct (json_unmarshal payload) as [[]|] eqn:E; try done; intros [= <-]; [done|].
  by eapply unmarshal_wf.
Qed.

Lemma filter_decide_none {A} (P : A -> Prop) `{forall x, Decision (P x)} l :
  (forall x, In x l -> ~ P x) -> filter P l = [].
Proof.
  intros Hl. induction l as [|x l IH]; [done|]. rewrite filter_cons, decide_False by (apply Hl; by left).
  apply IH. intros; apply Hl; by right.
Qed.

Lemma MergeAssigned_ok `{JsonCodec} inputs r :
  MergeAssignedPayloads inputs = MergeOk r ->
  exists fc, collect inputs ∅ = inr fc /\ r = merge_contributors fc /\ fc !! ""%string = None.
Proof.
  unfold MergeAssignedPayloads. destruct (collect inputs ∅) as [|fc] eqn:E; [done|].
  intros [= <-]. exists fc. split; [done|]. split; [done|].
  apply (collect_nonempty inputs ∅); [apply lookup_empty|done].
Qed.

(** C19: one profile assigned alone takes effect unchanged: when its keys are non-empty
    and hold no dot, the effective payload is the decoded payload itself, and there is no
    conflict.  Flattening to dotted paths and rebuilding is a round trip. *)
Theorem single_profile_unchanged `{JsonCodecLaws} src payload m :
  ps_ID src <> uuid_nil -> payload_root payload = Some m -> good_tree (JObj m) ->
  exists r, MergeAssignedPayloads [{| ap_Source := src; ap_Payload := payload |}] = MergeOk r /\
    mr_EffectivePayload r = m /\ mr_Conflicts r = [].
Proof.
  intros Hid Hp Hg. pose proof (payload_root_wf _ _ Hp) as Hw. pose proof (wf_tree_sorted _ Hw) as Ht.
  set (fc := flattenContributions "" (JObj m) src ∅).
  exists (merge_contributors fc). split.
  { unfold MergeAssignedPayloads. cbn [collect ap_Source ap_Payload].
    by rewrite (proj2 (N.eqb_neq _ _) Hid), Hp. }
  pose proof (leaf_paths_nodup m Ht Hg) as Hn.
  assert (Hfc : fc = fold_left (add_leaf src []) (obj_leaves m) ∅) by (unfold fc; by rewrite flatten_root).
  destruct (fold_add_leaf_lookup src (obj_leaves m) ∅ Hn) as [Hin Hout]; [intros; apply lookup_empty|].
  rewrite <- Hfc in Hin, Hout.
  assert (Hdom : forall p, p ∈ dom fc <-> In p (map (fun sv => path_of sv.1) (obj_leaves m))).
  { intros p. rewrite elem_of_dom. split.
    - intros [x Hx]. destruct (decide (p ∈ map (fun sv => path_of sv.1) (obj_leaves m))) as [Hd|Hd].
      + by apply list_elem_of_In in Hd.
      + rewrite list_elem_of_In in Hd. apply Hout in Hd. by rewrite Hd, lookup_empty in Hx.
    - intros Hx. apply in_map_iff in Hx as (sv & <- & Hsv). rewrite (Hin sv Hsv). eauto. }
  assert (Hwl : forall sv, In sv (obj_leaves m) -> json_wf sv.2).
  { destruct m as [|kc m']; [done|]. by apply (wf_leaves (JObj (kc :: m'))). }
  assert (Hm : forall sv, In sv (obj_leaves m) ->
    m_effective (merge_path fc (path_of sv.1)) = sv.2 /\ m_conflict (merge_path fc (path_of sv.1)) = false).
  { intros sv Hsv. unfold merge_path. rewrite (Hin sv Hsv). simpl default. unfold from_leaf.
    rewrite merge_single by (by apply Hwl). done. }
  split.
  - cbn [merge_contributors mr_EffectivePayload]. fold (merged_leaves fc).
    rewrite unflatten_fold_set by (by apply flatten_nonempty).
    apply fold_set_leaves; [done|].
    assert (P : sorted_keys fc ≡ₚ map (fun sv => path_of sv.1) (obj_leaves m)).
    { apply NoDup_Permutation; [apply NoDup_ListNoDup, sorted_keys_NoDup|by apply NoDup_ListNoDup|].
      intros p. by rewrite !list_elem_of_In, sorted_keys_In, Hdom. }
    rewrite P, map_map. rewrite (map_ext_in _ id), map_id; [done|].
    intros sv Hsv. destruct (good_obj_segs m sv Hg Hsv). rewrite split_path_of by done.
    rewrite (proj1 (Hm sv Hsv)). by destruct sv.
  - cbn [merge_contributors mr_Conflicts]. rewrite filter_decide_none; [done|].
    intros p Hpk. apply sorted_keys_In, Hdom, in_map_iff in Hpk as (sv & <- & Hsv).
    by rewrite (proj2 (Hm sv Hsv)).
Qed.

(** ** Reading settings back *)

Lemma join_split s : path_of (Str.split_on dot s) = s.
Proof.
  induction s as [|c s IH]; [done|]. simpl.
  destruct (Ascii.eqb_spec c dot) as [->|Hn].
  - rewrite path_of_cons by apply Str.split_on_nonempty. by rewrite IH.
  - destruct (Str.split_on dot s) as [|h t] eqn:E; [by apply Str.split_on_nonempty in E|].
    destruct t as [|t1 t]; [simpl in *; by rewrite <- IH|].
    rewrite path_of_cons in * by done. by rewrite <- IH.
Qed.

Lemma split_inj p q : Str.split_on dot p = Str.split_on dot q -> p = q.
Proof. intros E. rewrite <- (join_split p), <- (join_split q). by rewrite E. Qed.

Lemma path_of_app s r : s <> [] -> r <> [] -> path_of (s ++ r) = path_of s +:+ "." +:+ path_of r.
Proof.
  induction s as [|x s IH]; [done|]. intros _ Hr. destruct s as [|y s].
  - simpl. by rewrite path_of_cons.
  - rewrite <- app_comm_cons, path_of_cons, IH by done.
    rewrite (path_of_cons x (y :: s)) by done. by rewrite !Str.append_assoc.
Qed.

(** [q] is [p] or a dotted extension of [p]. *)
Lemma split_prefix p q :
  Str.split_on dot p `prefix_of` Str.split_on dot q -> p = q \/ exists x, q = p +:+ "." +:+ x.
Proof.
  intros [r Hr]. destruct r as [|r0 r].
  - left. rewrite app_nil_r in Hr. by apply split_inj.
  - right. exists (path_of (r0 :: r)). rewrite <- (join_split q), Hr.
    rewrite path_of_app by (try apply Str.split_on_nonempty; done). by rewrite join_split.
Qed.

Section readback.
Context `{JC : JsonCodec} (fc : gmap string (list pathContribution)) (H0 : fc !! ""%string = None).

Definition writes : list (list string * json) :=
  map (fun p => (Str.split_on dot p, m_effective (merge_path fc p))) (sorted_keys fc).

Lemma payload_is_writes : mr_EffectivePayload (merge_contributors fc) = fold_set writes [].
Proof. cbn [merge_contributors mr_EffectivePayload]. by apply unflatten_fold_set. Qed.

Lemma writes_ne : Forall (fun sv => sv.1 <> []) writes.
Proof.
  apply Forall_forall. intros sv Hsv. apply list_elem_of_In, in_map_iff in Hsv as (p & <- & _).
  apply Str.split_on_nonempty.
Qed.

Lemma writes_nodup : List.NoDup writes.*1.
Proof.
  unfold writes. rewrite <- list_fmap_compose. apply NoDup_ListNoDup. apply NoDup_fmap_2.
  - intros p q. apply split_inj.
  - apply NoDup_ListNoDup, sorted_keys_NoDup.
Qed.

Lemma flat_settings_In s :
  In s (mr_FlatSettings (merge_contributors fc)) <->
  exists p, p ∈ dom fc /\ es_Path s = p /\
    es_Value s = alias_view (mr_EffectivePayload (merge_contributors fc)) p (m_effective (merge_path fc p)) /\
    es_Conflict s = m_conflict (merge_path fc p) /\
    es_SourceProfiles s = sourceProfiles (default [] (fc !! p)).
Proof.
  cbn [merge_contributors mr_FlatSettings mr_EffectivePayload]. rewrite sort_slice_In, in_map_iff. split.
  - intros (p & <- & Hp). apply sorted_keys_In in Hp. exists p. done.
  - intros (p & Hp & E1 & E2 & E3 & E4). exists p. split; [|by apply sorted_keys_In].
    destruct s; simpl in *. by subst.
Qed.
End readback.

(** Every flat setting shown to the operator is what the effective payload holds at
    its path, when no setting's path is a dotted extension of another's. *)
Theorem flat_settings_match_payload `{JsonCodec} inputs r :
  MergeAssignedPayloads inputs = MergeOk r ->
  (forall s1 s2 x, In s1 (mr_FlatSettings r) -> In s2 (mr_FlatSettings r) ->
     es_Path s2 <> es_Path s1 +:+ "." +:+ x) ->
  forall s, In s (mr_FlatSettings r) ->
    get_at (Str.split_on "." (es_Path s)) (mr_EffectivePayload r) = Some (es_Value s).
Proof.
  intros Hr Hfree s Hs. apply MergeAssigned_ok in Hr as (fc & _ & -> & H0).
  pose proof Hs as Hs'. apply flat_settings_In in Hs as (p & Hp & Ep & Ev & _). subst p.
  assert (Hget : get_at (Str.split_on dot (es_Path s)) (mr_EffectivePayload (merge_contributors fc))
                 = Some (m_effective (merge_path fc (es_Path s)))).
  { rewrite payload_is_writes by done. apply get_at_fold_set.
    - apply Str.split_on_nonempty.
    - unfold writes. apply in_map_iff. exists (es_Path s). split; [done|]. by apply sorted_keys_In.
    - apply writes_nodup.
    - intros p q Hpi Hqi Hpq. unfold writes in *.
      apply in_map_iff in Hpi as (? & <- & Hpi), Hqi as (? & <- & Hqi).
      apply in_map_iff in Hpi as (a & <- & Ha), Hqi as (b & <- & Hb). simpl in *.
      apply split_prefix in Hpq as [->|[x Hx]]; [done|]. exfalso.
      assert (forall c, In c (sorted_keys fc) -> exists sc,
        In sc (mr_FlatSettings (merge_contributors fc)) /\ es_Path sc = c) as Hex.
      { intros c Hc. eexists {| es_Path := c |}. split; [|done]. apply flat_settings_In.
        exists c. split; [by apply sorted_keys_In|]. done. }
      destruct (Hex a Ha) as (sa & Hsa & Ea), (Hex b Hb) as (sb & Hsb & Eb).
      apply (Hfree sa sb x Hsa Hsb). by rewrite Ea, Eb.
    - apply writes_ne. }
  rewrite Ev. change (Str.split_on "." (es_Path s)) with (Str.split_on dot (es_Path s)).
  rewrite Hget. unfold alias_view. destruct (m_effective _); try done.
  change (Str.split_on "." (es_Path s)) with (Str.split_on dot (es_Path s)). by rewrite Hget.
Qed.
