(* ===== verification/PolicyResult.v ===== *)
(** * Policy merge: the report

    What [MergeAssignedPayloads] tells the operator besides the payload: which
    settings are flagged, which profiles disagree, when it refuses to merge, and
    what becomes of a value whose path is extended by another profile; and the theorems on
    the merge at concrete inputs. *)

From S2P Require Import Prelude GoStd Float64 Json Ext PolicyMerge PolicyMergeFacts PolicyRoundtrip.
From S2P Require Import PolicyRoundtrip.

(** ** Strictly sorted paths *)

Lemma sorted_keys_strict {V} (m : gmap string V) :
  StronglySorted (fun a b => str_lt a b = true) (sorted_keys m).
Proof.
  pose proof (sort_strings_sorted (elements (dom m))) as H.
  pose proof (sorted_keys_NoDup m) as Hn. unfold sorted_keys in *.
  induction H as [|a l Hs IH Hall]; constructor; apply List.NoDup_cons_iff in Hn as [Hi Hn]; [by apply IH|].
  rewrite Forall_forall in *. intros b Hb. specialize (Hall b Hb).
  destruct (str_lt_total a b) as [|[->|Hba]]; [done| |].
  - exfalso. apply Hi. by apply list_elem_of_In.
  - apply str_lt_not_le in Hall. congruence.
Qed.

(** A stable sort leaves a list that is already in order alone. *)
Lemma sort_slice_id {A} (less : A -> A -> bool) l :
  StronglySorted (may_precede less) l -> sort_slice less l = l.
Proof.
  induction 1 as [|x l Hs IH Hall]; [done|]. simpl. rewrite IH.
  destruct l as [|y l]; [done|]. simpl. apply Forall_cons in Hall as [Hy _].
  red in Hy. by rewrite Hy.
Qed.

Lemma StronglySorted_map {A B} (R : B -> B -> Prop) (f : A -> B) l :
  StronglySorted R (map f l) <-> StronglySorted (fun x y => R (f x) (f y)) l.
Proof.
  induction l as [|x l IH]; simpl; [split; constructor|]. split; intros H; invert H.
  - constructor; [by apply IH|]. by rewrite Forall_map in H3.
  - constructor; [by apply IH|]. by rewrite Forall_map.
Qed.

Lemma StronglySorted_weaken {A} (R S : A -> A -> Prop) l :
  (forall x y, R x y -> S x y) -> StronglySorted R l -> StronglySorted S l.
Proof. induction 2; constructor; [done|]. by eapply Forall_impl; [eassumption|]; auto. Qed.

Section report.
Context `{JC : JsonCodec} (fc : gmap string (list pathContribution)).

Definition reported (p : string) : EffectiveSetting :=
  {| es_Path := p;
     es_Value := alias_view (mr_EffectivePayload (merge_contributors fc)) p (m_effective (merge_path fc p));
     es_Conflict := m_conflict (merge_path fc p);
     es_SourceProfiles := sourceProfiles (default [] (fc !! p)) |}.

Lemma flat_settings_eq : mr_FlatSettings (merge_contributors fc) = map reported (sorted_keys fc).
Proof.
  cbn [merge_contributors mr_FlatSettings].
  change (sort_slice (fun a b => str_lt (es_Path a) (es_Path b)) (map reported (sorted_keys fc)) =
          map reported (sorted_keys fc)).
  apply sort_slice_id, StronglySorted_map.
  eapply StronglySorted_weaken, sorted_keys_strict. intros x y. unfold may_precede. simpl.
  intros H. apply str_lt_not_le. by apply str_lt_le.
Qed.

Definition reported_conflict (p : string) : SettingConflict :=
  {| sc_Path := p;
     sc_EffectiveValue := es_Value (reported p);
     sc_ConflictingProfiles := m_profiles (merge_path fc p);
     sc_ContributedNormalized := m_norms (merge_path fc p) |}.

Lemma conflicts_eq :
  mr_Conflicts (merge_contributors fc) =
  map reported_conflict (filter (fun p => m_conflict (merge_path fc p) = true) (sorted_keys fc)).
Proof. done. Qed.

Lemma conflicts_of_flagged ps :
  map (fun c => (sc_Path c, sc_EffectiveValue c))
    (map reported_conflict (filter (fun p => m_conflict (merge_path fc p) = true) ps)) =
  map (fun s => (es_Path s, es_Value s)) (List.filter es_Conflict (map reported ps)).
Proof.
  induction ps as [|p ps IH]; [done|]. rewrite filter_cons.
  change (map reported (p :: ps)) with (reported p :: map reported ps).
  cbn [List.filter]. change (es_Conflict (reported p)) with (m_conflict (merge_path fc p)).
  destruct (m_conflict (merge_path fc p)) eqn:E.
  - rewrite decide_True by done. cbn [map]. by rewrite IH.
  - by rewrite decide_False.
Qed.
End report.

(** The report is consistent: settings come in strictly ascending path order, the
    conflicts are listed for exactly the settings flagged as conflicting (same order, same
    effective value), and the path and profile sets are the ones those conflicts mention. *)
Theorem merge_result_consistent `{JsonCodec} inputs r :
  MergeAssignedPayloads inputs = MergeOk r ->
  StronglySorted (fun a b => str_lt a b = true) (map es_Path (mr_FlatSettings r)) /\
  map (fun c => (sc_Path c, sc_EffectiveValue c)) (mr_Conflicts r) =
    map (fun s => (es_Path s, es_Value s)) (List.filter es_Conflict (mr_FlatSettings r)) /\
  mr_ConflictPaths r = list_to_set (map sc_Path (mr_Conflicts r)) /\
  mr_ConflictProfiles r =
    list_to_set (concat (map (fun c => map cp_ID (sc_ConflictingProfiles c)) (mr_Conflicts r))).
Proof.
  intros Hr. apply MergeAssigned_ok in Hr as (fc & _ & -> & _).
  rewrite flat_settings_eq. split; [|split; [|split]].
  - rewrite map_map. simpl. rewrite map_id. apply sorted_keys_strict.
  - by rewrite conflicts_eq, conflicts_of_flagged.
  - cbn [merge_contributors mr_Conflicts mr_ConflictPaths]. rewrite map_map. simpl. by rewrite map_id.
  - cbn [merge_contributors mr_Conflicts mr_ConflictProfiles]. by rewrite map_map.
Qed.

(** ** Refusal *)

Definition decodable `{JsonCodec} (i : AssignedPayload) : bool :=
  N.eqb (ps_ID (ap_Source i)) uuid_nil || is_some_b (payload_root (ap_Payload i)).

Lemma collect_bad `{JsonCodec} inputs acc :
  (forall id, collect inputs acc = inl id <->
     option_map (fun i => ps_ID (ap_Source i)) (List.find (fun i => negb (decodable i)) inputs) = Some id).
Proof.
  revert acc; induction inputs as [|i r IH]; intros acc id; cbn [collect List.find]; [done|].
  unfold decodable at 1. destruct (N.eqb _ _); simpl; [apply IH|].
  destruct (payload_root _); simpl; [apply IH|]. naive_solver.
Qed.

(** The merge fails exactly when some assigned profile has a payload that is not a
    JSON object, and the error names the first such profile in assignment order; profiles
    with a nil id are skipped without being decoded. *)
Theorem merge_fails_on_first_undecodable `{JsonCodec} inputs :
  match MergeAssignedPayloads inputs with
  | MergeErr id =>
      option_map (fun i => ps_ID (ap_Source i)) (List.find (fun i => negb (decodable i)) inputs) = Some id
  | MergeOk _ => forallb decodable inputs = true
  end.
Proof.
  pose proof (collect_bad inputs ∅) as HB. unfold MergeAssignedPayloads.
  destruct (collect inputs ∅) as [id|fc]; [by apply HB|].
  apply forallb_forall. intros i Hi. destruct (decodable i) eqn:E; [done|]. exfalso.
  destruct (List.find (fun i => negb (decodable i)) inputs) as [j|] eqn:F.
  - pose proof (proj2 (HB (ps_ID (ap_Source j))) eq_refl); discriminate.
  - pose proof (List.find_none _ _ F _ Hi) as C. simpl in C. by rewrite E in C.
Qed.

(** ** Who is named *)

Definition assigned_profile (inputs : list AssignedPayload) (c : ConflictProfile) : Prop :=
  exists i, In i inputs /\ ps_ID (ap_Source i) <> uuid_nil /\
    cp_ID c = ps_ID (ap_Source i) /\ cp_Name c = ps_Name (ap_Source i).

Definition all_from (Q : ProfileSource -> Prop) (acc : gmap string (list pathContribution)) : Prop :=
  forall p l c, acc !! p = Some l -> In c l -> Q (pc_Source c).

Lemma append_at_from Q acc p c : all_from Q acc -> Q (pc_Source c) -> all_from Q (append_at acc p c).
Proof.
  intros Ha Hc p' l c'. unfold append_at. destruct (decide (p = p')) as [->|Hn].
  - rewrite lookup_insert_eq. intros [= <-] Hin. apply in_app_or in Hin as [Hin|[<-|[]]]; [|done].
    destruct (acc !! p') as [l'|] eqn:E; [by apply (Ha p' l')|done].
  - rewrite lookup_insert_ne by done. apply Ha.
Qed.

Lemma flatten_from (Q : ProfileSource -> Prop) src v :
  Q src -> forall prefix acc, all_from Q acc -> all_from Q (flattenContributions prefix v src acc).
Proof.
  intros Hq.
  assert (Hap : forall prefix acc v, all_from Q acc ->
    all_from Q (if String.eqb prefix "" then acc else append_at acc prefix {| pc_Source := src; pc_Value := v |})).
  { intros prefix acc w Ha. destruct (String.eqb prefix ""); [done|]. by apply append_at_from. }
  induction v as [|b|f|s|l _|m IH] using json_ind'; intros prefix acc Ha; try by apply Hap.
  destruct m as [|kc m]; [by apply Hap|].
  assert (G : forall m acc, Forall (fun kv => forall prefix acc, all_from Q acc ->
       all_from Q (flattenContributions prefix kv.2 src acc)) m -> all_from Q acc ->
     all_from Q ((fix go (m : list (string * json)) acc :=
       match m with
       | [] => acc
       | (k, child) :: r => go r (flattenContributions (next_prefix prefix k) child src acc)
       end) m acc)).
  { clear -Hq. intros m; induction m as [|[k c] m IHm]; intros acc H Ha; [done|].
    apply Forall_cons in H as [Hc H]. apply IHm; [done|]. by apply Hc. }
  by apply (G (kc :: m)).
Qed.

Lemma collect_from `{JsonCodec} (Q : ProfileSource -> Prop) inputs acc fc :
  (forall i, In i inputs -> ps_ID (ap_Source i) <> uuid_nil -> Q (ap_Source i)) ->
  all_from Q acc -> collect inputs acc = inr fc -> all_from Q fc.
Proof.
  revert acc; induction inputs as [|i r IH]; intros acc Hi Ha; cbn [collect]; [by intros [= <-]|].
  destruct (N.eqb_spec (ps_ID (ap_Source i)) uuid_nil) as [|Hn]; [apply IH; [|done]; intros; apply Hi; [by right|done]|].
  destruct (payload_root _); [|done]. apply IH; [intros; apply Hi; [by right|done]|].
  apply flatten_from; [|done]. apply Hi; [by left|done].
Qed.

Lemma distinct_profiles_In b parts seen c :
  In c (distinct_profiles b seen parts) -> exists p, In p parts /\ c = to_profile p.
Proof.
  revert seen; induction parts as [|p parts IH]; intros seen; simpl; [done|].
  assert (Hrec : forall s, In c (distinct_profiles b s parts) -> exists p0, (p = p0 \/ In p0 parts) /\ c = to_profile p0).
  { intros s H. destruct (IH s H) as (q & ? & ?). eauto. }
  destruct (_ && _); [apply Hrec|]. destruct (decide _); [apply Hrec|].
  intros [<-|H]; [eauto|]. by apply (Hrec ({[ps_ID (pc_Source p)]} ∪ seen)).
Qed.

Lemma distinct_profiles_NoDup b parts seen :
  List.NoDup (map cp_ID (distinct_profiles b seen parts)) /\
  (forall c, In c (distinct_profiles b seen parts) -> cp_ID c ∉ seen).
Proof.
  revert seen; induction parts as [|p parts IH]; intros seen; simpl; [by split; [constructor|]|].
  destruct (_ && _); [apply IH|]. destruct (decide _) as [|Hn]; [apply IH|].
  destruct (IH ({[ps_ID (pc_Source p)]} ∪ seen)) as [IH1 IH2]. split; simpl.
  - constructor; [|done]. intros Hi. apply in_map_iff in Hi as (c & E & Hc).
    apply IH2 in Hc. set_solver.
  - intros c [<-|Hc]; [done|]. apply IH2 in Hc. set_solver.
Qed.

Lemma sourceProfiles_ok parts :
  List.NoDup (map cp_ID (sourceProfiles parts)) /\
  forall c, In c (sourceProfiles parts) -> exists p, In p parts /\ c = to_profile p.
Proof.
  unfold sourceProfiles. split.
  - apply NoDup_ListNoDup. rewrite sort_slice_perm. apply NoDup_ListNoDup, distinct_profiles_NoDup.
  - intros c Hc. apply sort_slice_In in Hc. by apply distinct_profiles_In in Hc.
Qed.

(** Attribution: the profiles named as the sources of a setting are profiles that
    were assigned (with their own id and name, never the nil id), each named once. *)
Theorem settings_attributed_to_assigned_profiles `{JsonCodec} inputs r :
  MergeAssignedPayloads inputs = MergeOk r ->
  forall s, In s (mr_FlatSettings r) ->
    List.NoDup (map cp_ID (es_SourceProfiles s)) /\
    forall c, In c (es_SourceProfiles s) -> assigned_profile inputs c.
Proof.
  intros Hr s Hs. apply MergeAssigned_ok in Hr as (fc & Hc & -> & _).
  apply flat_settings_In in Hs as (p & Hp & _ & _ & _ & ->).
  split; [apply sourceProfiles_ok|]. intros c Hcin.
  apply sourceProfiles_ok in Hcin as (pc & Hpc & ->).
  set (Q := fun src => exists i, In i inputs /\ ps_ID (ap_Source i) <> uuid_nil /\ src = ap_Source i).
  assert (Hall : all_from Q fc).
  { apply (collect_from Q inputs ∅); [|by intros ???; rewrite lookup_empty|done].
    intros i Hi Hn. by exists i. }
  apply elem_of_dom in Hp as [l Hl]. rewrite Hl in Hpc. simpl in Hpc.
  destruct (Hall p l pc Hl Hpc) as (i & Hi & Hn & E). exists i. simpl. rewrite E. done.
Qed.

(** ** A path that extends another *)

Lemma str_lt_append a b : str_lt (a +:+ b) a = false.
Proof.
  induction a as [|c a IH]; [by destruct b|]. rewrite Str.append_cons.
  unfold str_lt, String.ltb in *. cbn [String.compare]. by rewrite ascii_compare_N, N.compare_refl.
Qed.

Lemma set_at_makes_obj p r v cur :
  p <> [] -> r <> [] -> exists m, get_at p (set_at (p ++ r) v cur) = Some (JObj m).
Proof.
  revert cur; induction p as [|k p IH]; intros cur Hp Hr; [done|]. destruct p as [|k2 p].
  - destruct r as [|r1 r]; [done|]. simpl app. cbn [get_at]. rewrite get_set_at, String.eqb_refl.
    unfold node_step; simpl fst. by eexists.
  - rewrite <- !app_comm_cons.
    change (exists m, match obj_get k (set_at (k :: k2 :: p ++ r) v cur) with
       | Some (JObj m') => get_at (k2 :: p) m' | _ => None end = Some (JObj m)).
    rewrite get_set_at, String.eqb_refl. unfold node_step; simpl fst; simpl snd. cbv iota.
    rewrite app_comm_cons. by apply IH.
Qed.

Lemma set_at_keeps_obj p q v cur m :
  q <> [] -> ~ q `prefix_of` p -> get_at p cur = Some (JObj m) ->
  exists m', get_at p (set_at q v cur) = Some (JObj m').
Proof.
  revert q cur; induction p as [|k p IH]; intros q cur Hq Hpre Hg; [done|].
  destruct q as [|h t]; [done|].
  assert (Hobj : obj_get k (set_at (h :: t) v cur) =
    if String.eqb h k then node_step (obj_get k cur) (t, v) else obj_get k cur) by apply get_set_at.
  destruct (String.eqb_spec h k) as [->|Hn].
  2:{ exists m. destruct p; cbn [get_at] in *; by rewrite Hobj. }
  destruct t as [|t1 t].
  { exfalso. apply Hpre. exists p. done. }
  unfold node_step in Hobj; simpl fst in Hobj; simpl snd in Hobj.
  destruct p as [|k2 p].
  - cbn [get_at]. rewrite Hobj. by eexists.
  - change (match obj_get k cur with Some (JObj m') => get_at (k2 :: p) m' | _ => None end = Some (JObj m)) in Hg.
    change (exists m', match obj_get k (set_at (k :: t1 :: t) v cur) with
       | Some (JObj m'') => get_at (k2 :: p) m'' | _ => None end = Some (JObj m')).
    rewrite Hobj. cbv iota. destruct (obj_get k cur) as [[| | | | |mc]|]; try done.
    apply IH; [done| |done]. intros Hp. apply Hpre. by apply prefix_cons.
Qed.

Lemma fold_set_keeps_obj p L cur m :
  Forall (fun sv => sv.1 <> [] /\ ~ sv.1 `prefix_of` p) L -> get_at p cur = Some (JObj m) ->
  exists m', get_at p (fold_set L cur) = Some (JObj m').
Proof.
  revert cur m; induction L as [|sv L IH]; intros cur m HL Hg; [by eexists|].
  apply Forall_cons in HL as [[H1 H2] HL]. unfold fold_set; cbn [fold_left].
  destruct (set_at_keeps_obj p sv.1 sv.2 cur m H1 H2 Hg) as [m' Hm']. by apply (IH _ m').
Qed.

Lemma prefix_not_after p x q :
  Str.split_on dot q `prefix_of` Str.split_on dot p -> str_lt (p +:+ "." +:+ x) q = false.
Proof.
  intros H. apply split_prefix in H as [->|[y ->]]; [apply str_lt_append|].
  rewrite !Str.append_assoc. apply str_lt_append.
Qed.

Lemma split_on_dot_app p x :
  Str.split_on dot (p +:+ "." +:+ x) = Str.split_on dot p ++ Str.split_on dot x.
Proof.
  induction p as [|c p IH]; [done|]. rewrite Str.append_cons. cbn [Str.split_on].
  rewrite IH. destruct (Ascii.eqb c dot); [done|].
  by destruct (Str.split_on dot p) as [|h t] eqn:E; [apply Str.split_on_nonempty in E|].
Qed.

(** When one setting's path is a dotted extension of another's, the shorter one's
    value is not in the effective payload: the object built for the longer path stands
    there, whatever the shorter path's profiles asked for. *)
Theorem extended_path_shadows_value `{JsonCodec} inputs r s1 s2 x :
  MergeAssignedPayloads inputs = MergeOk r ->
  In s1 (mr_FlatSettings r) -> In s2 (mr_FlatSettings r) ->
  es_Path s2 = es_Path s1 +:+ "." +:+ x ->
  exists m, get_at (Str.split_on "." (es_Path s1)) (mr_EffectivePayload r) = Some (JObj m).
Proof.
  intros Hr _ Hs2 Ex. apply MergeAssigned_ok in Hr as (fc & _ & -> & H0).
  apply flat_settings_In in Hs2 as (p2 & Hp2 & <- & _). rewrite Ex in Hp2.
  rewrite payload_is_writes by done. unfold writes.
  apply sorted_keys_In, in_split in Hp2 as (l1 & l2 & E).
  pose proof (sorted_keys_strict fc) as Hs. rewrite E in *.
  rewrite map_app. unfold fold_set. rewrite fold_left_app. cbn [map fold_left fst snd].
  set (cur := fold_left _ _ []). set (p := es_Path s1) in *.
  change (Str.split_on "." p) with (Str.split_on dot p). rewrite split_on_dot_app.
  destruct (set_at_makes_obj (Str.split_on dot p) (Str.split_on dot x)
    (m_effective (merge_path fc (p +:+ "." +:+ x))) cur) as [m Hm]; [apply Str.split_on_nonempty..|].
  eapply fold_set_keeps_obj, Hm.
  apply Forall_forall. intros sv Hsv. apply list_elem_of_In, in_map_iff in Hsv as (q & <- & Hq).
  split; [apply Str.split_on_nonempty|]. intros Hpre. apply (prefix_not_after p x) in Hpre.
  assert (str_lt (p +:+ "." +:+ x) q = true); [|congruence].
  clear -Hs Hq. induction l1 as [|a l1 IH]; simpl in Hs; invert Hs; [|by apply IH].
  rewrite Forall_forall in H2. by apply H2, list_elem_of_In.
Qed.

(** ** The theorems at concrete inputs

    Two profiles and the payloads they carry, with the codec of [Codecs]; each
    witness applies one theorem where its hypotheses hold. *)

From S2P Require Import Codecs.
From Stdlib Require Import SpecFloat.

#[local] Existing Instance bit_codec.
#[local] Existing Instance bit_codec_laws.
#[local] Open Scope string_scope.

Definition kiosk : ProfileSource := {| ps_ID := 1%N; ps_Name := "Kiosk" |}.
Definition lab : ProfileSource := {| ps_ID := 2%N; ps_Name := "lab" |}.

Definition by_kiosk (v : json) : pathContribution := {| pc_Source := kiosk; pc_Value := v |}.
Definition by_lab (v : json) : pathContribution := {| pc_Source := lab; pc_Value := v |}.

Definition num (z : Z) : json := JNum (F64.of_Z z).

Lemma merge_bool_restrictive_wins_witness :
  m_effective (mergeContributions "usb.storage_disabled" "storage_disabled"
                 [by_kiosk (JBool false); by_lab (JBool true)]) = JBool true.
Proof. by rewrite (merge_bool_restrictive_wins _ _ _ [false; true]). Defined.

Lemma merge_number_restrictive_wins_witness :
  m_conflict (mergeContributions "password.min_length" "min_length"
                [by_kiosk (num 8); by_lab (num 12)]) = true.
Proof.
  destruct (merge_number_restrictive_wins "password.min_length" "min_length"
    [by_kiosk (num 8); by_lab (num 12)] (F64.of_Z 8) [F64.of_Z 12]) as [_ ->].
  - repeat constructor.
  - reflexivity.
  - vm_compute. reflexivity.
Defined.

Lemma merge_string_least_wins_witness :
  m_norms (mergeContributions "theme" "theme" [by_kiosk (JStr "light"); by_lab (JStr "dark")])
    = [JStr "dark"; JStr "light"].
Proof.
  destruct (merge_string_least_wins "theme" "theme" [by_kiosk (JStr "light"); by_lab (JStr "dark")]
    "light" ["dark"]) as (_ & _ & ->).
  - repeat constructor.
  - reflexivity.
  - vm_compute. reflexivity.
Defined.

Lemma merge_string_arrays_union_witness :
  m_conflict (mergeContributions "apps" "apps" [by_kiosk (str_array ["b"; "a"]); by_lab (str_array ["c"])]) = true.
Proof.
  destruct (merge_string_arrays_union "apps" "apps" [by_kiosk (str_array ["b"; "a"]); by_lab (str_array ["c"])]
    ["b"; "a"] [["c"]]) as [-> _].
  - reflexivity.
  - repeat constructor.
  - vm_compute. reflexivity.
Defined.

Lemma merge_object_arrays_first_wins_witness :
  m_conflict (mergeContributions "firewall.rules" "rules"
    [by_kiosk (JArr [JObj [("port", num 22)]]); by_lab (JArr [JObj [("port", num 80)]])]) = false.
Proof.
  destruct (merge_object_arrays_first_wins "firewall.rules" "rules"
    (by_kiosk (JArr [JObj [("port", num 22)]])) (by_lab (JArr [JObj [("port", num 80)]])) []
    [JObj [("port", num 22)]]) as (_ & -> & _); try reflexivity.
  repeat constructor.
Defined.

Definition kiosk_object : list (string * json) :=
  [("password", JObj [("min_length", num 8)]); ("usb", JObj [("storage_disabled", JBool true)])].
Definition lab_object : list (string * json) := [("password", JObj [("min_length", num 12)])].
Definition kiosk_payload : string := Eval vm_compute in json_marshal (JObj kiosk_object).
Definition lab_payload : string := Eval vm_compute in json_marshal (JObj lab_object).
Definition scalar_payload : string := Eval vm_compute in json_marshal (JObj [("usb", JStr "off")]).

Definition assigned_kiosk : AssignedPayload := {| ap_Source := kiosk; ap_Payload := kiosk_payload |}.
Definition assigned_lab : AssignedPayload := {| ap_Source := lab; ap_Payload := lab_payload |}.
Definition assigned_scalar : AssignedPayload := {| ap_Source := lab; ap_Payload := scalar_payload |}.

Lemma single_profile_unchanged_witness :
  exists r, MergeAssignedPayloads [assigned_kiosk] = MergeOk r /\
    mr_EffectivePayload r = kiosk_object /\ mr_Conflicts r = [].
Proof.
  apply (single_profile_unchanged kiosk kiosk_payload kiosk_object).
  - done.
  - vm_compute. reflexivity.
  - simpl. unfold good_key. simpl. repeat split; done.
Defined.

Definition result_of (o : merge_outcome) : MergeResult :=
  match o with
  | MergeOk r => r
  | MergeErr _ => {| mr_EffectivePayload := []; mr_FlatSettings := []; mr_Conflicts := [];
                     mr_ConflictPaths := ∅; mr_ConflictProfiles := ∅ |}
  end.

Definition both : MergeResult := Eval vm_compute in result_of (MergeAssignedPayloads [assigned_kiosk; assigned_lab]).
Definition overlapped : MergeResult := Eval vm_compute in result_of (MergeAssignedPayloads [assigned_kiosk; assigned_scalar]).

Lemma both_result : MergeAssignedPayloads [assigned_kiosk; assigned_lab] = MergeOk both.
Proof. vm_compute. reflexivity. Qed.

Lemma overlapped_result : MergeAssignedPayloads [assigned_kiosk; assigned_scalar] = MergeOk overlapped.
Proof. vm_compute. reflexivity. Qed.

(** Executable form of the hypothesis that no path extends another. *)
Definition extends (p q : string) : bool := Str.has_prefix q (p +:+ ".").

Lemma extends_complete p x : extends p (p +:+ "." +:+ x) = true.
Proof.
  unfold extends, Str.has_prefix. rewrite <- Str.append_assoc.
  induction (p +:+ ".") as [|c a IH]; [by destruct x|]. rewrite Str.append_cons. simpl.
  by destruct (ascii_dec c c).
Qed.

Lemma flat_settings_match_payload_witness :
  In (hd {| es_Path := ""; es_Value := JNull; es_Conflict := false; es_SourceProfiles := [] |} (mr_FlatSettings both))
     (mr_FlatSettings both) /\
  forall s, In s (mr_FlatSettings both) ->
    get_at (Str.split_on "." (es_Path s)) (mr_EffectivePayload both) = Some (es_Value s).
Proof.
  split; [by left|].
  apply (flat_settings_match_payload [assigned_kiosk; assigned_lab] both both_result).
  intros s1 s2 x H1 H2 E.
  assert (C : extends (es_Path s1) (es_Path s2) = true) by (rewrite E; apply extends_complete).
  clear E. destruct H1 as [<-|[<-|[]]]; destruct H2 as [<-|[<-|[]]]; done.
Defined.

Lemma merge_result_consistent_witness :
  map (fun c => (sc_Path c, sc_EffectiveValue c)) (mr_Conflicts both) = [("password.min_length", num 12)].
Proof.
  destruct (merge_result_consistent [assigned_kiosk; assigned_lab] both both_result) as (_ & -> & _).
  vm_compute. reflexivity.
Defined.

Lemma settings_attributed_to_assigned_profiles_witness :
  exists s, In s (mr_FlatSettings both) /\ es_Path s = "password.min_length" /\
    List.NoDup (map cp_ID (es_SourceProfiles s)) /\
    Forall (assigned_profile [assigned_kiosk; assigned_lab]) (es_SourceProfiles s).
Proof.
  eexists. split; [by left|]. split; [reflexivity|].
  edestruct (settings_attributed_to_assigned_profiles [assigned_kiosk; assigned_lab] both both_result) as [Hn Ha].
  - left. reflexivity.
  - split; [exact Hn|]. apply List.Forall_forall. exact Ha.
Defined.

Lemma extended_path_shadows_value_witness :
  exists s1 s2, es_Path s1 = "usb" /\ es_Path s2 = "usb.storage_disabled" /\ es_Value s1 = JStr "off" /\
  exists m, get_at (Str.split_on "." (es_Path s1)) (mr_EffectivePayload overlapped) = Some (JObj m).
Proof.
  eexists {| es_Path := "usb"; es_Value := JStr "off"; es_Conflict := false;
             es_SourceProfiles := [{| cp_ID := 2%N; cp_Name := "lab" |}] |},
    {| es_Path := "usb.storage_disabled"; es_Value := JBool true; es_Conflict := false;
       es_SourceProfiles := [{| cp_ID := 1%N; cp_Name := "Kiosk" |}] |}.
  split; [done|]. split; [done|]. split; [done|].
  apply (extended_path_shadows_value [assigned_kiosk; assigned_scalar] overlapped _
    {| es_Path := "usb.storage_disabled"; es_Value := JBool true; es_Conflict := false;
       es_SourceProfiles := [{| cp_ID := 1%N; cp_Name := "Kiosk" |}] |} "storage_disabled" overlapped_result).
  - vm_compute. tauto.
  - vm_compute. tauto.
  - reflexivity.
Defined.
