(* ===== verification/World.v ===== *)
(** * The server's world: database, clock, agent link

    Everything the request handlers and background passes share.  A table is the
    list of its rows in insertion order; a statement is a function of the whole
    world that either fails or gives a result and the next world.  Every statement
    consumes one entry of [w_faults], so a theorem about an operation covers the
    runs in which PostgreSQL fails at any of its statements; a failed statement
    changes nothing, and a transaction that is not committed restores the tables
    (ids and sequence numbers already drawn stay drawn, as in PostgreSQL).

    Times are Unix nanoseconds; [now()] and [time.Now()] read the same clock, which
    stands still during one operation and moves between operations.  The agent link
    is a parameter with the interface [C2Dispatcher]: [Hub] implements it. *)

From S2P Require Import Prelude GoStd Float64 Json Ext.

(** ** Rows *)

(** models.DeviceCommand *)
Record DeviceCommand := {
  dc_ID : uuid; dc_DeviceID : uuid; dc_CommandType : string; dc_Payload : string;
  dc_Status : string; dc_Output : string; dc_CreatedAt : Z; dc_CompletedAt : option Z
}.
(** A device_commands row: the command and its incident_context_id. *)
Record CommandRow := { cr_cmd : DeviceCommand; cr_incident : option uuid }.

(** An assets row; the metadata is a JSON object. *)
Record Asset := {
  a_id : uuid; a_human_id : string; a_display_name : option string; a_hostname : option string;
  a_cert_serial : option string; a_os_type : string; a_last_seen : option Z; a_metadata : list (string * json);
  a_compliance_status : string; a_compliance_reason : string; a_quarantine_enabled : bool
}.

(** models.ActiveAlert *)
Record ActiveAlert := {
  aa_ID : uuid; aa_AlertRuleID : option uuid; aa_Fingerprint : string; aa_AlertKind : string;
  aa_DeviceID : option uuid; aa_Severity : string; aa_Title : string; aa_Message : string;
  aa_Details : json; aa_TriggeredAt : Z; aa_LastNotifiedAt : option Z; aa_ResolvedAt : option Z
}.

(** models.AlertRule; the duration is in seconds. *)
Record AlertRule := {
  ar_ID : uuid; ar_Name : string; ar_TargetType : string; ar_Metric : string; ar_Operator : string;
  ar_Threshold : float64; ar_DurationSeconds : Z; ar_Severity : string; ar_IsEnabled : bool;
  ar_TargetDeviceID : option uuid; ar_CreatedAt : Z; ar_UpdatedAt : Z
}.

(** models.DeviceMetric *)
Record DeviceMetric := {
  dm_DeviceID : uuid; dm_CPUUsage : float64; dm_RAMTotal : Z; dm_RAMUsed : Z;
  dm_DiskTotal : Z; dm_DiskUsed : Z; dm_CreatedAt : Z
}.

Record Incident := {
  in_id : uuid; in_number : string; in_caller : option uuid; in_assigned : option uuid;
  in_cmdb_ci : option uuid; in_state : string; in_impact : Z; in_urgency : Z;
  in_short_description : string; in_work_notes : list json; in_sla_due : Z;
  in_source_alert_fingerprint : option string; in_created_at : Z; in_updated_at : Z
}.

Record User := { u_id : uuid; u_username : string; u_password_hash : string; u_role : string; u_created : Z }.

Record AuditLog := {
  al_ID : uuid; al_UserID : option uuid; al_Action : string; al_ResourceType : string; al_ResourceID : option uuid;
  al_TargetAssetID : option uuid; al_Details : json; al_IPAddress : option string; al_CreatedAt : Z
}.

Record Profile := {
  pf_id : uuid; pf_name : string; pf_platform : string; pf_type : string; pf_payload : string; pf_created : Z
}.
Inductive target_kind := TargetDevice (device : uuid) | TargetGroup (group : uuid).
Record Assignment := {
  as_id : uuid; as_profile : uuid; as_target : target_kind; as_state : string; as_created : Z
}.
Record PrincipalGroup := { gr_id : uuid; gr_name : string; gr_description : string; gr_created : Z }.
Record GroupDevice := { gd_group : uuid; gd_device : uuid; gd_created : Z }.

Record Automation := {
  au_ID : uuid; au_Name : string; au_CronSchedule : string; au_ActionType : string; au_TargetOS : option string;
  au_TargetAssetID : option uuid; au_PayloadJSON : json; au_IsActive : bool; au_CreatedAt : Z; au_UpdatedAt : Z
}.
Record Package := {
  pk_ID : uuid; pk_Name : string; pk_Version : string; pk_Type : string; pk_InstallCmd : string;
  pk_CreatedAt : Z; pk_UpdatedAt : Z
}.
Record Deployment := {
  dp_id : uuid; dp_asset : uuid; dp_package : uuid; dp_status : string; dp_error : option string; dp_created : Z;
  dp_updated : Z
}.

Record EnrollmentToken := {
  et_id : uuid; et_token_hash : string; et_asset_id : option uuid; et_expires_at : Z;
  et_is_used : bool; et_used_at : option Z
}.

(** models.AndroidPolicy: one row per asset. *)
Record AndroidPolicy := { an_asset : uuid; an_camera : bool; an_lock_ms : Z; an_wipe : bool }.

Record AppCatalog := {
  ac_id : uuid; ac_name : string; ac_version : string; ac_target_os : string; ac_location : string;
  ac_install_args : string; ac_created : Z
}.
(** A device_apps row; its key is the pair. *)
Record DeviceApp := {
  da_device : uuid; da_app : uuid; da_status : string; da_updated : Z; da_error : option string
}.
Record AppConfig := {
  cf_id : uuid; cf_app : uuid; cf_package : string; cf_label : string; cf_kv : json; cf_created : Z
}.

Record NotificationChannel := {
  nc_id : uuid; nc_name : string; nc_type : string; nc_config : json; nc_secret : string;
  nc_active : bool; nc_created : Z; nc_updated : Z
}.

(** A device_assignments row: the user a device is handed to. *)
Record DeviceOwner := { do_asset : uuid; do_user : uuid; do_at : Z }.
Record Resolution := {
  re_id : uuid; re_incident : uuid; re_summary : string; re_markdown : string; re_details : json; re_resolved_at : Z
}.
Record Document := { kb_id : uuid; kb_title : string; kb_content : string; kb_author : option uuid; kb_created : Z }.

(** ** The tables *)

Record Tables := {
  t_assets : list Asset;
  t_commands : list CommandRow;
  t_alerts : list ActiveAlert;
  t_rules : list AlertRule;
  t_metrics : list DeviceMetric;
  t_incidents : list Incident;
  t_users : list User;
  t_audit : list AuditLog;
  t_tenant : list bool;
  t_profiles : list Profile;
  t_assignments : list Assignment;
  t_group_devices : list GroupDevice;
  t_automations : list Automation;
  t_packages : list Package;
  t_deployments : list Deployment;
  t_tokens : list EnrollmentToken;
  t_groups : list PrincipalGroup;
  t_android : list AndroidPolicy;
  t_catalog : list AppCatalog;
  t_device_apps : list DeviceApp;
  t_app_configs : list AppConfig;
  t_channels : list NotificationChannel;
  t_owners : list DeviceOwner;
  t_resolutions : list Resolution;
  t_documents : list Document
}.

Definition with_assets (v : list Asset) (t : Tables) : Tables :=
  {| t_assets := v; t_commands := t_commands t; t_alerts := t_alerts t; t_rules := t_rules t; t_metrics :=
     t_metrics t; t_incidents := t_incidents t; t_users := t_users t; t_audit := t_audit t; t_tenant :=
     t_tenant t; t_profiles := t_profiles t; t_assignments := t_assignments t; t_group_devices :=
     t_group_devices t; t_automations := t_automations t; t_packages := t_packages t; t_deployments :=
     t_deployments t; t_tokens := t_tokens t; t_groups := t_groups t; t_android := t_android t; t_catalog :=
     t_catalog t; t_device_apps := t_device_apps t; t_app_configs := t_app_configs t; t_channels := t_channels
     t; t_owners := t_owners t; t_resolutions := t_resolutions t; t_documents := t_documents t |}.
Definition with_commands (v : list CommandRow) (t : Tables) : Tables :=
  {| t_assets := t_assets t; t_commands := v; t_alerts := t_alerts t; t_rules := t_rules t; t_metrics :=
     t_metrics t; t_incidents := t_incidents t; t_users := t_users t; t_audit := t_audit t; t_tenant :=
     t_tenant t; t_profiles := t_profiles t; t_assignments := t_assignments t; t_group_devices :=
     t_group_devices t; t_automations := t_automations t; t_packages := t_packages t; t_deployments :=
     t_deployments t; t_tokens := t_tokens t; t_groups := t_groups t; t_android := t_android t; t_catalog :=
     t_catalog t; t_device_apps := t_device_apps t; t_app_configs := t_app_configs t; t_channels := t_channels
     t; t_owners := t_owners t; t_resolutions := t_resolutions t; t_documents := t_documents t |}.
Definition with_alerts (v : list ActiveAlert) (t : Tables) : Tables :=
  {| t_assets := t_assets t; t_commands := t_commands t; t_alerts := v; t_rules := t_rules t; t_metrics :=
     t_metrics t; t_incidents := t_incidents t; t_users := t_users t; t_audit := t_audit t; t_tenant :=
     t_tenant t; t_profiles := t_profiles t; t_assignments := t_assignments t; t_group_devices :=
     t_group_devices t; t_automations := t_automations t; t_packages := t_packages t; t_deployments :=
     t_deployments t; t_tokens := t_tokens t; t_groups := t_groups t; t_android := t_android t; t_catalog :=
     t_catalog t; t_device_apps := t_device_apps t; t_app_configs := t_app_configs t; t_channels := t_channels
     t; t_owners := t_owners t; t_resolutions := t_resolutions t; t_documents := t_documents t |}.
Definition with_rules (v : list AlertRule) (t : Tables) : Tables :=
  {| t_assets := t_assets t; t_commands := t_commands t; t_alerts := t_alerts t; t_rules := v; t_metrics :=
     t_metrics t; t_incidents := t_incidents t; t_users := t_users t; t_audit := t_audit t; t_tenant :=
     t_tenant t; t_profiles := t_profiles t; t_assignments := t_assignments t; t_group_devices :=
     t_group_devices t; t_automations := t_automations t; t_packages := t_packages t; t_deployments :=
     t_deployments t; t_tokens := t_tokens t; t_groups := t_groups t; t_android := t_android t; t_catalog :=
     t_catalog t; t_device_apps := t_device_apps t; t_app_configs := t_app_configs t; t_channels := t_channels
     t; t_owners := t_owners t; t_resolutions := t_resolutions t; t_documents := t_documents t |}.
Definition with_metrics (v : list DeviceMetric) (t : Tables) : Tables :=
  {| t_assets := t_assets t; t_commands := t_commands t; t_alerts := t_alerts t; t_rules := t_rules t;
     t_metrics := v; t_incidents := t_incidents t; t_users := t_users t; t_audit := t_audit t; t_tenant :=
     t_tenant t; t_profiles := t_profiles t; t_assignments := t_assignments t; t_group_devices :=
     t_group_devices t; t_automations := t_automations t; t_packages := t_packages t; t_deployments :=
     t_deployments t; t_tokens := t_tokens t; t_groups := t_groups t; t_android := t_android t; t_catalog :=
     t_catalog t; t_device_apps := t_device_apps t; t_app_configs := t_app_configs t; t_channels := t_channels
     t; t_owners := t_owners t; t_resolutions := t_resolutions t; t_documents := t_documents t |}.
Definition with_incidents (v : list Incident) (t : Tables) : Tables :=
  {| t_assets := t_assets t; t_commands := t_commands t; t_alerts := t_alerts t; t_rules := t_rules t;
     t_metrics := t_metrics t; t_incidents := v; t_users := t_users t; t_audit := t_audit t; t_tenant :=
     t_tenant t; t_profiles := t_profiles t; t_assignments := t_assignments t; t_group_devices :=
     t_group_devices t; t_automations := t_automations t; t_packages := t_packages t; t_deployments :=
     t_deployments t; t_tokens := t_tokens t; t_groups := t_groups t; t_android := t_android t; t_catalog :=
     t_catalog t; t_device_apps := t_device_apps t; t_app_configs := t_app_configs t; t_channels := t_channels
     t; t_owners := t_owners t; t_resolutions := t_resolutions t; t_documents := t_documents t |}.
Definition with_users (v : list User) (t : Tables) : Tables :=
  {| t_assets := t_assets t; t_commands := t_commands t; t_alerts := t_alerts t; t_rules := t_rules t;
     t_metrics := t_metrics t; t_incidents := t_incidents t; t_users := v; t_audit := t_audit t; t_tenant :=
     t_tenant t; t_profiles := t_profiles t; t_assignments := t_assignments t; t_group_devices :=
     t_group_devices t; t_automations := t_automations t; t_packages := t_packages t; t_deployments :=
     t_deployments t; t_tokens := t_tokens t; t_groups := t_groups t; t_android := t_android t; t_catalog :=
     t_catalog t; t_device_apps := t_device_apps t; t_app_configs := t_app_configs t; t_channels := t_channels
     t; t_owners := t_owners t; t_resolutions := t_resolutions t; t_documents := t_documents t |}.
Definition with_audit (v : list AuditLog) (t : Tables) : Tables :=
  {| t_assets := t_assets t; t_commands := t_commands t; t_alerts := t_alerts t; t_rules := t_rules t;
     t_metrics := t_metrics t; t_incidents := t_incidents t; t_users := t_users t; t_audit := v; t_tenant :=
     t_tenant t; t_profiles := t_profiles t; t_assignments := t_assignments t; t_group_devices :=
     t_group_devices t; t_automations := t_automations t; t_packages := t_packages t; t_deployments :=
     t_deployments t; t_tokens := t_tokens t; t_groups := t_groups t; t_android := t_android t; t_catalog :=
     t_catalog t; t_device_apps := t_device_apps t; t_app_configs := t_app_configs t; t_channels := t_channels
     t; t_owners := t_owners t; t_resolutions := t_resolutions t; t_documents := t_documents t |}.
Definition with_tenant (v : list bool) (t : Tables) : Tables :=
  {| t_assets := t_assets t; t_commands := t_commands t; t_alerts := t_alerts t; t_rules := t_rules t;
     t_metrics := t_metrics t; t_incidents := t_incidents t; t_users := t_users t; t_audit := t_audit t;
     t_tenant := v; t_profiles := t_profiles t; t_assignments := t_assignments t; t_group_devices :=
     t_group_devices t; t_automations := t_automations t; t_packages := t_packages t; t_deployments :=
     t_deployments t; t_tokens := t_tokens t; t_groups := t_groups t; t_android := t_android t; t_catalog :=
     t_catalog t; t_device_apps := t_device_apps t; t_app_configs := t_app_configs t; t_channels := t_channels
     t; t_owners := t_owners t; t_resolutions := t_resolutions t; t_documents := t_documents t |}.
Definition with_profiles (v : list Profile) (t : Tables) : Tables :=
  {| t_assets := t_assets t; t_commands := t_commands t; t_alerts := t_alerts t; t_rules := t_rules t;
     t_metrics := t_metrics t; t_incidents := t_incidents t; t_users := t_users t; t_audit := t_audit t;
     t_tenant := t_tenant t; t_profiles := v; t_assignments := t_assignments t; t_group_devices :=
     t_group_devices t; t_automations := t_automations t; t_packages := t_packages t; t_deployments :=
     t_deployments t; t_tokens := t_tokens t; t_groups := t_groups t; t_android := t_android t; t_catalog :=
     t_catalog t; t_device_apps := t_device_apps t; t_app_configs := t_app_configs t; t_channels := t_channels
     t; t_owners := t_owners t; t_resolutions := t_resolutions t; t_documents := t_documents t |}.
Definition with_assignments (v : list Assignment) (t : Tables) : Tables :=
  {| t_assets := t_assets t; t_commands := t_commands t; t_alerts := t_alerts t; t_rules := t_rules t;
     t_metrics := t_metrics t; t_incidents := t_incidents t; t_users := t_users t; t_audit := t_audit t;
     t_tenant := t_tenant t; t_profiles := t_profiles t; t_assignments := v; t_group_devices := t_group_devices
     t; t_automations := t_automations t; t_packages := t_packages t; t_deployments := t_deployments t;
     t_tokens := t_tokens t; t_groups := t_groups t; t_android := t_android t; t_catalog := t_catalog t;
     t_device_apps := t_device_apps t; t_app_configs := t_app_configs t; t_channels := t_channels t; t_owners
     := t_owners t; t_resolutions := t_resolutions t; t_documents := t_documents t |}.
Definition with_group_devices (v : list GroupDevice) (t : Tables) : Tables :=
  {| t_assets := t_assets t; t_commands := t_commands t; t_alerts := t_alerts t; t_rules := t_rules t;
     t_metrics := t_metrics t; t_incidents := t_incidents t; t_users := t_users t; t_audit := t_audit t;
     t_tenant := t_tenant t; t_profiles := t_profiles t; t_assignments := t_assignments t; t_group_devices :=
     v; t_automations := t_automations t; t_packages := t_packages t; t_deployments := t_deployments t;
     t_tokens := t_tokens t; t_groups := t_groups t; t_android := t_android t; t_catalog := t_catalog t;
     t_device_apps := t_device_apps t; t_app_configs := t_app_configs t; t_channels := t_channels t; t_owners
     := t_owners t; t_resolutions := t_resolutions t; t_documents := t_documents t |}.
Definition with_automations (v : list Automation) (t : Tables) : Tables :=
  {| t_assets := t_assets t; t_commands := t_commands t; t_alerts := t_alerts t; t_rules := t_rules t;
     t_metrics := t_metrics t; t_incidents := t_incidents t; t_users := t_users t; t_audit := t_audit t;
     t_tenant := t_tenant t; t_profiles := t_profiles t; t_assignments := t_assignments t; t_group_devices :=
     t_group_devices t; t_automations := v; t_packages := t_packages t; t_deployments := t_deployments t;
     t_tokens := t_tokens t; t_groups := t_groups t; t_android := t_android t; t_catalog := t_catalog t;
     t_device_apps := t_device_apps t; t_app_configs := t_app_configs t; t_channels := t_channels t; t_owners
     := t_owners t; t_resolutions := t_resolutions t; t_documents := t_documents t |}.
Definition with_packages (v : list Package) (t : Tables) : Tables :=
  {| t_assets := t_assets t; t_commands := t_commands t; t_alerts := t_alerts t; t_rules := t_rules t;
     t_metrics := t_metrics t; t_incidents := t_incidents t; t_users := t_users t; t_audit := t_audit t;
     t_tenant := t_tenant t; t_profiles := t_profiles t; t_assignments := t_assignments t; t_group_devices :=
     t_group_devices t; t_automations := t_automations t; t_packages := v; t_deployments := t_deployments t;
     t_tokens := t_tokens t; t_groups := t_groups t; t_android := t_android t; t_catalog := t_catalog t;
     t_device_apps := t_device_apps t; t_app_configs := t_app_configs t; t_channels := t_channels t; t_owners
     := t_owners t; t_resolutions := t_resolutions t; t_documents := t_documents t |}.
Definition with_deployments (v : list Deployment) (t : Tables) : Tables :=
  {| t_assets := t_assets t; t_commands := t_commands t; t_alerts := t_alerts t; t_rules := t_rules t;
     t_metrics := t_metrics t; t_incidents := t_incidents t; t_users := t_users t; t_audit := t_audit t;
     t_tenant := t_tenant t; t_profiles := t_profiles t; t_assignments := t_assignments t; t_group_devices :=
     t_group_devices t; t_automations := t_automations t; t_packages := t_packages t; t_deployments := v;
     t_tokens := t_tokens t; t_groups := t_groups t; t_android := t_android t; t_catalog := t_catalog t;
     t_device_apps := t_device_apps t; t_app_configs := t_app_configs t; t_channels := t_channels t; t_owners
     := t_owners t; t_resolutions := t_resolutions t; t_documents := t_documents t |}.
Definition with_tokens (v : list EnrollmentToken) (t : Tables) : Tables :=
  {| t_assets := t_assets t; t_commands := t_commands t; t_alerts := t_alerts t; t_rules := t_rules t;
     t_metrics := t_metrics t; t_incidents := t_incidents t; t_users := t_users t; t_audit := t_audit t;
     t_tenant := t_tenant t; t_profiles := t_profiles t; t_assignments := t_assignments t; t_group_devices :=
     t_group_devices t; t_automations := t_automations t; t_packages := t_packages t; t_deployments :=
     t_deployments t; t_tokens := v; t_groups := t_groups t; t_android := t_android t; t_catalog := t_catalog
     t; t_device_apps := t_device_apps t; t_app_configs := t_app_configs t; t_channels := t_channels t;
     t_owners := t_owners t; t_resolutions := t_resolutions t; t_documents := t_documents t |}.
Definition with_groups (v : list PrincipalGroup) (t : Tables) : Tables :=
  {| t_assets := t_assets t; t_commands := t_commands t; t_alerts := t_alerts t; t_rules := t_rules t;
     t_metrics := t_metrics t; t_incidents := t_incidents t; t_users := t_users t; t_audit := t_audit t;
     t_tenant := t_tenant t; t_profiles := t_profiles t; t_assignments := t_assignments t; t_group_devices :=
     t_group_devices t; t_automations := t_automations t; t_packages := t_packages t; t_deployments :=
     t_deployments t; t_tokens := t_tokens t; t_groups := v; t_android := t_android t; t_catalog := t_catalog
     t; t_device_apps := t_device_apps t; t_app_configs := t_app_configs t; t_channels := t_channels t;
     t_owners := t_owners t; t_resolutions := t_resolutions t; t_documents := t_documents t |}.
Definition with_android (v : list AndroidPolicy) (t : Tables) : Tables :=
  {| t_assets := t_assets t; t_commands := t_commands t; t_alerts := t_alerts t; t_rules := t_rules t;
     t_metrics := t_metrics t; t_incidents := t_incidents t; t_users := t_users t; t_audit := t_audit t;
     t_tenant := t_tenant t; t_profiles := t_profiles t; t_assignments := t_assignments t; t_group_devices :=
     t_group_devices t; t_automations := t_automations t; t_packages := t_packages t; t_deployments :=
     t_deployments t; t_tokens := t_tokens t; t_groups := t_groups t; t_android := v; t_catalog := t_catalog t;
     t_device_apps := t_device_apps t; t_app_configs := t_app_configs t; t_channels := t_channels t; t_owners
     := t_owners t; t_resolutions := t_resolutions t; t_documents := t_documents t |}.
Definition with_catalog (v : list AppCatalog) (t : Tables) : Tables :=
  {| t_assets := t_assets t; t_commands := t_commands t; t_alerts := t_alerts t; t_rules := t_rules t;
     t_metrics := t_metrics t; t_incidents := t_incidents t; t_users := t_users t; t_audit := t_audit t;
     t_tenant := t_tenant t; t_profiles := t_profiles t; t_assignments := t_assignments t; t_group_devices :=
     t_group_devices t; t_automations := t_automations t; t_packages := t_packages t; t_deployments :=
     t_deployments t; t_tokens := t_tokens t; t_groups := t_groups t; t_android := t_android t; t_catalog := v;
     t_device_apps := t_device_apps t; t_app_configs := t_app_configs t; t_channels := t_channels t; t_owners
     := t_owners t; t_resolutions := t_resolutions t; t_documents := t_documents t |}.
Definition with_device_apps (v : list DeviceApp) (t : Tables) : Tables :=
  {| t_assets := t_assets t; t_commands := t_commands t; t_alerts := t_alerts t; t_rules := t_rules t;
     t_metrics := t_metrics t; t_incidents := t_incidents t; t_users := t_users t; t_audit := t_audit t;
     t_tenant := t_tenant t; t_profiles := t_profiles t; t_assignments := t_assignments t; t_group_devices :=
     t_group_devices t; t_automations := t_automations t; t_packages := t_packages t; t_deployments :=
     t_deployments t; t_tokens := t_tokens t; t_groups := t_groups t; t_android := t_android t; t_catalog :=
     t_catalog t; t_device_apps := v; t_app_configs := t_app_configs t; t_channels := t_channels t; t_owners :=
     t_owners t; t_resolutions := t_resolutions t; t_documents := t_documents t |}.
Definition with_app_configs (v : list AppConfig) (t : Tables) : Tables :=
  {| t_assets := t_assets t; t_commands := t_commands t; t_alerts := t_alerts t; t_rules := t_rules t;
     t_metrics := t_metrics t; t_incidents := t_incidents t; t_users := t_users t; t_audit := t_audit t;
     t_tenant := t_tenant t; t_profiles := t_profiles t; t_assignments := t_assignments t; t_group_devices :=
     t_group_devices t; t_automations := t_automations t; t_packages := t_packages t; t_deployments :=
     t_deployments t; t_tokens := t_tokens t; t_groups := t_groups t; t_android := t_android t; t_catalog :=
     t_catalog t; t_device_apps := t_device_apps t; t_app_configs := v; t_channels := t_channels t; t_owners :=
     t_owners t; t_resolutions := t_resolutions t; t_documents := t_documents t |}.
Definition with_channels (v : list NotificationChannel) (t : Tables) : Tables :=
  {| t_assets := t_assets t; t_commands := t_commands t; t_alerts := t_alerts t; t_rules := t_rules t;
     t_metrics := t_metrics t; t_incidents := t_incidents t; t_users := t_users t; t_audit := t_audit t;
     t_tenant := t_tenant t; t_profiles := t_profiles t; t_assignments := t_assignments t; t_group_devices :=
     t_group_devices t; t_automations := t_automations t; t_packages := t_packages t; t_deployments :=
     t_deployments t; t_tokens := t_tokens t; t_groups := t_groups t; t_android := t_android t; t_catalog :=
     t_catalog t; t_device_apps := t_device_apps t; t_app_configs := t_app_configs t; t_channels := v; t_owners
     := t_owners t; t_resolutions := t_resolutions t; t_documents := t_documents t |}.
Definition with_owners (v : list DeviceOwner) (t : Tables) : Tables :=
  {| t_assets := t_assets t; t_commands := t_commands t; t_alerts := t_alerts t; t_rules := t_rules t;
     t_metrics := t_metrics t; t_incidents := t_incidents t; t_users := t_users t; t_audit := t_audit t;
     t_tenant := t_tenant t; t_profiles := t_profiles t; t_assignments := t_assignments t; t_group_devices :=
     t_group_devices t; t_automations := t_automations t; t_packages := t_packages t; t_deployments :=
     t_deployments t; t_tokens := t_tokens t; t_groups := t_groups t; t_android := t_android t; t_catalog :=
     t_catalog t; t_device_apps := t_device_apps t; t_app_configs := t_app_configs t; t_channels := t_channels
     t; t_owners := v; t_resolutions := t_resolutions t; t_documents := t_documents t |}.
Definition with_resolutions (v : list Resolution) (t : Tables) : Tables :=
  {| t_assets := t_assets t; t_commands := t_commands t; t_alerts := t_alerts t; t_rules := t_rules t;
     t_metrics := t_metrics t; t_incidents := t_incidents t; t_users := t_users t; t_audit := t_audit t;
     t_tenant := t_tenant t; t_profiles := t_profiles t; t_assignments := t_assignments t; t_group_devices :=
     t_group_devices t; t_automations := t_automations t; t_packages := t_packages t; t_deployments :=
     t_deployments t; t_tokens := t_tokens t; t_groups := t_groups t; t_android := t_android t; t_catalog :=
     t_catalog t; t_device_apps := t_device_apps t; t_app_configs := t_app_configs t; t_channels := t_channels
     t; t_owners := t_owners t; t_resolutions := v; t_documents := t_documents t |}.
Definition with_documents (v : list Document) (t : Tables) : Tables :=
  {| t_assets := t_assets t; t_commands := t_commands t; t_alerts := t_alerts t; t_rules := t_rules t;
     t_metrics := t_metrics t; t_incidents := t_incidents t; t_users := t_users t; t_audit := t_audit t;
     t_tenant := t_tenant t; t_profiles := t_profiles t; t_assignments := t_assignments t; t_group_devices :=
     t_group_devices t; t_automations := t_automations t; t_packages := t_packages t; t_deployments :=
     t_deployments t; t_tokens := t_tokens t; t_groups := t_groups t; t_android := t_android t; t_catalog :=
     t_catalog t; t_device_apps := t_device_apps t; t_app_configs := t_app_configs t; t_channels := t_channels
     t; t_owners := t_owners t; t_resolutions := t_resolutions t; t_documents := v |}.

(** ** Errors

    An error is a sentinel variable, a message, or a message wrapping another
    error; [errors.Is] looks through the wrapping. *)
Inductive err :=
| ErrVar (text : string)
| ErrMsg (text : string)
| ErrWrap (prefix : string) (e : err).

Definition ErrNoRows : err := ErrVar "no rows in result set".

Fixpoint err_text (e : err) : string :=
  match e with
  | ErrVar t | ErrMsg t => t
  | ErrWrap p e => p +:+ ": " +:+ err_text e
  end.

Fixpoint err_is (e : err) (target : string) : bool :=
  match e with
  | ErrVar t => String.eqb t target
  | ErrMsg _ => false
  | ErrWrap _ e => err_is e target
  end.

Definition is_no_rows (e : err) : bool := err_is e "no rows in result set".

(** ** What leaves the process or is handed to a goroutine *)
Inductive event :=
| Notify (type severity title message : string) (details : json)
| Broadcast (message : json)
| OpenIncident (fingerprint : string) (device : uuid) (title message : string)
| AlertsResolved (fingerprints : list string)
| IncidentsMutated
| IncidentCreated (number short_description : string) (asset : option uuid).

(** ** The agent link

    [DispatchJSON certSerial payload] of [ws.Hub], as the packages that import it
    through an interface see it. *)
Class C2Dispatcher (L : Type) := {
  dispatch_json : string -> json -> L -> bool * L;
  connected_serials : L -> list string;
  outbox : L -> list (string * json)     (* messages handed to agent sessions, oldest first *)
}.

(** A dispatch that returns true has queued exactly that message for that serial, which
    is connected; a dispatch that returns false has queued nothing.  The set of connected
    agents does not change. *)
Class C2Laws (L : Type) `{C2Dispatcher L} : Prop := {
  dispatch_true : forall s p l l', dispatch_json s p l = (true, l') ->
    outbox l' = outbox l ++ [(Str.trim_space s, p)] /\ In (Str.trim_space s) (connected_serials l);
  dispatch_false : forall s p l l', dispatch_json s p l = (false, l') -> outbox l' = outbox l;
  dispatch_serials : forall s p l, connected_serials (dispatch_json s p l).2 = connected_serials l
}.

(** ** The world *)
Record World (L : Type) := MkWorld {
  w_db : Tables;
  w_now : Z;
  w_next_id : nat;             (* ids drawn from gen_random_uuid() so far *)
  w_incident_seq : Z;          (* last value of incident_seq *)
  w_faults : list (option string);
  w_link : L;
  w_events : list event
}.
Arguments MkWorld {L}.
Arguments w_db {L}.
Arguments w_now {L}.
Arguments w_next_id {L}.
Arguments w_incident_seq {L}.
Arguments w_faults {L}.
Arguments w_link {L}.
Arguments w_events {L}.

Section world.
Context {L : Type}.
Implicit Types w : World L.

Definition set_db (db : Tables) w : World L :=
  MkWorld db (w_now w) (w_next_id w) (w_incident_seq w) (w_faults w) (w_link w) (w_events w).
Definition set_faults (fs : list (option string)) w : World L :=
  MkWorld (w_db w) (w_now w) (w_next_id w) (w_incident_seq w) fs (w_link w) (w_events w).
Definition set_link (l : L) w : World L :=
  MkWorld (w_db w) (w_now w) (w_next_id w) (w_incident_seq w) (w_faults w) l (w_events w).
Definition set_seq (n : Z) w : World L :=
  MkWorld (w_db w) (w_now w) (w_next_id w) n (w_faults w) (w_link w) (w_events w).
Definition draw_id w : World L :=
  MkWorld (w_db w) (w_now w) (S (w_next_id w)) (w_incident_seq w) (w_faults w) (w_link w) (w_events w).
Definition add_event (e : event) w : World L :=
  MkWorld (w_db w) (w_now w) (w_next_id w) (w_incident_seq w) (w_faults w) (w_link w) (w_events w ++ [e]).
Definition advance_clock (d : Z) w : World L :=
  MkWorld (w_db w) (w_now w + Z.max 0 d) (w_next_id w) (w_incident_seq w) (w_faults w) (w_link w) (w_events w).
End world.

(** ** The state and error monad *)

Definition go (L A : Type) : Type := World L -> (err + A) * World L.

#[export] Instance go_ret L : MRet (go L) := fun A x w => (inr x, w).
#[export] Instance go_bind L : MBind (go L) := fun A B k m w =>
  match m w with
  | (inl e, w') => (inl e, w')
  | (inr x, w') => k x w'
  end.

Section ops.
Context {L : Type}.

Definition fail {A} (e : err) : go L A := fun w => (inl e, w).

(** A Go call whose error is examined by the caller. *)
Definition attempt {A} (m : go L A) : go L (err + A) := fun w => let '(r, w') := m w in (inr r, w').

(** [if err != nil { return fmt.Errorf("...: %w", err) }] *)
Definition wrap {A} (prefix : string) (m : go L A) : go L A := fun w =>
  match m w with
  | (inl e, w') => (inl (ErrWrap prefix e), w')
  | r => r
  end.

Definition now : go L Z := fun w => (inr (w_now w), w).
Definition emit (e : event) : go L () := fun w => (inr (), add_event e w).
Definition links : go L L := fun w => (inr (w_link w), w).

(** The next fault, if the statement is to fail. *)
Definition next_fault (w : World L) : option string * World L :=
  match w_faults w with
  | [] => (None, w)
  | f :: fs => (f, set_faults fs w)
  end.

(** One round trip to PostgreSQL. *)
Definition stmt {A} (s : World L -> err + (A * World L)) : go L A := fun w =>
  match next_fault w with
  | (Some msg, w) => (inl (ErrMsg msg), w)
  | (None, w) => match s w with
                 | inl e => (inl e, w)
                 | inr (x, w') => (inr x, w')
                 end
  end.

(** SELECT: a function of the tables and the clock. *)
Definition select {A} (q : Tables -> Z -> err + A) : go L A :=
  stmt (fun w => match q (w_db w) (w_now w) with inl e => inl e | inr x => inr (x, w) end).

(** INSERT, UPDATE, DELETE: new tables and a result (rows affected or RETURNING). *)
Definition exec {A} (q : Tables -> Z -> err + (A * Tables)) : go L A :=
  stmt (fun w => match q (w_db w) (w_now w) with inl e => inl e | inr (x, db) => inr (x, set_db db w) end).

(** INSERT into a table whose id defaults to gen_random_uuid(). *)
Definition insert_id `{UuidLib} {A} (q : uuid -> Tables -> Z -> err + (A * Tables)) : go L A :=
  stmt (fun w => match q (gen_random_uuid (w_next_id w)) (w_db w) (w_now w) with
                 | inl e => inl e
                 | inr (x, db) => inr (x, set_db db (draw_id w)) end).

Definition nextval_incident : go L Z :=
  stmt (fun w => inr (w_incident_seq w + 1, set_seq (w_incident_seq w + 1) w)).

(** [pool.Begin ... defer tx.Rollback ... tx.Commit]: the body's early returns are [inl]
    results or errors, and leave the tables as they were at [Begin]. *)
Definition in_tx {R A} (body : go L (R + A)) : go L (R + A) := fun w =>
  match stmt (fun w => inr ((), w)) w with
  | (inl e, w0) => (inl e, w0)
  | (inr _, w0) =>
      match body w0 with
      | (inr (inr x), w1) =>
          match stmt (fun w => inr ((), w)) w1 with
          | (inl e, w2) => (inl e, set_db (w_db w0) w2)
          | (inr _, w2) => (inr (inr x), w2)
          end
      | (r, w1) => (r, set_db (w_db w0) w1)
      end
  end.

Definition dispatch `{C2Dispatcher L} (serial : string) (payload : json) : go L bool := fun w =>
  let '(ok, l) := dispatch_json serial payload (w_link w) in (inr ok, set_link l w).
End ops.

(** [for _, x := range l { ... }] whose body returns an error to stop. *)
Fixpoint for_each {L A} (l : list A) (f : A -> go L ()) : go L () :=
  match l with
  | [] => mret ()
  | x :: r => _ ← f x; for_each r f
  end.

(** A loop that accumulates. *)
Fixpoint for_fold {L A B} (l : list A) (b : B) (f : B -> A -> go L B) : go L B :=
  match l with
  | [] => mret b
  | x :: r => b' ← f b x; for_fold r b' f
  end.

(** A transaction whose only early returns are errors. *)
Definition transaction {L A} (body : go L A) : go L A :=
  r ← in_tx (x ← body; mret (inr x : Empty_set + A));
  match (r : Empty_set + A) with inr x => mret x | inl e => match e with end end.

(** ** Rows *)

Definition update_where {A} (p : A -> bool) (f : A -> A) (l : list A) : list A :=
  map (fun x => if p x then f x else x) l.

Definition delete_where {A} (p : A -> bool) (l : list A) : list A := List.filter (fun x => negb (p x)) l.

(** PostgreSQL's trim(): spaces only. *)
Definition pg_trim (s : string) : string :=
  let drop := fix drop (l : list ascii) := match l with " "%char :: r => drop r | _ => l end in
  Str.of_bytes (rev (drop (rev (drop (Str.bytes s))))).

Definition opt_eqb (a b : option uuid) : bool :=
  match a, b with Some x, Some y => N.eqb x y | None, None => true | _, _ => false end.

Section rows.
Context {A : Type} (p : A -> bool) (f : A -> A).

Lemma update_where_In x l : In x (update_where p f l) ->
  exists y, In y l /\ x = if p y then f y else y.
Proof. unfold update_where. rewrite in_map_iff. intros (y & <- & H). eauto. Qed.

(** An update that leaves a projection alone keeps the column. *)
Lemma update_where_column {B} (g : A -> B) l :
  (forall x, p x = true -> g (f x) = g x) -> map g (update_where p f l) = map g l.
Proof.
  intros H. unfold update_where. rewrite map_map. apply map_ext. intros x.
  destruct (p x) eqn:E; auto.
Qed.

Lemma update_where_none l : (forall x, In x l -> p x = false) -> update_where p f l = l.
Proof.
  intros H. unfold update_where. rewrite <- (map_id l) at 2. apply map_ext_in.
  intros x Hx. by rewrite (H x Hx).
Qed.

Lemma find_update_where (q : A -> bool) l :
  (forall x, p x = true -> q (f x) = q x) ->
  List.find q (update_where p f l) = option_map (fun x => if p x then f x else x) (List.find q l).
Proof.
  intros H. induction l as [|x l IH]; simpl; [done|].
  assert (q (if p x then f x else x) = q x) as -> by (destruct (p x) eqn:E; auto).
  by destruct (q x).
Qed.
End rows.

(** ** Keys of a table *)

Lemma NoDup_delete {A B} (f : A -> B) p l : NoDup (f <$> l) -> NoDup (f <$> delete_where p l).
Proof.
  unfold delete_where. induction l as [|x l IH]; [done|]. rewrite fmap_cons. intros [Hx Hl]%NoDup_cons. cbn [List.filter].
  destruct (p x); cbn [negb]; [by apply IH|]. rewrite fmap_cons. apply NoDup_cons. split; [|by apply IH].
  intros Hi. apply Hx. apply list_elem_of_fmap in Hi as (y & -> & Hy). apply list_elem_of_fmap. exists y. split; [done|].
  apply list_elem_of_In in Hy. apply filter_In in Hy as [Hy _]. by apply list_elem_of_In.
Qed.

Lemma NoDup_snoc {A B} (f : A -> B) l x : NoDup (f <$> l) -> (forall y, In y l -> f y <> f x) -> NoDup (f <$> (l ++ [x])).
Proof.
  intros Hl Hx. rewrite fmap_app. apply NoDup_app. split; [done|]. split; [|apply NoDup_singleton].
  intros y Hy Hi. apply list_elem_of_singleton in Hi. apply list_elem_of_fmap in Hy as (z & -> & Hz).
  apply list_elem_of_In in Hz. by apply (Hx z).
Qed.

Lemma fmap_update {A B} (f : A -> B) p g l : (forall x, f (g x) = f x) -> f <$> update_where p g l = f <$> l.
Proof.
  intros Hg. unfold update_where. induction l as [|x l IH]; [done|]. cbn [map]. rewrite !fmap_cons, IH. by destruct (p x); [rewrite Hg|].
Qed.

(** A key that names one row. *)
Lemma NoDup_unique {A B} (f : A -> B) l x y : NoDup (f <$> l) -> In x l -> In y l -> f x = f y -> x = y.
Proof.
  induction l as [|z l IH]; [done|]. rewrite fmap_cons. intros [Hz Hl]%NoDup_cons Hx Hy E.
  assert (Hn : forall u, In u l -> f u <> f z).
  { intros u Hu Eu. apply Hz. rewrite <- Eu. by apply list_elem_of_fmap_2, list_elem_of_In. }
  destruct Hx as [->|Hx], Hy as [->|Hy]; [done| | |by apply IH].
  - exfalso. by eapply Hn.
  - exfalso. by eapply Hn.
Qed.

(** One row gets a key no other row has. *)
Lemma NoDup_rekey {A B} (key : A -> B) p g k l : NoDup (key <$> l) ->
  (forall x y, In x l -> In y l -> p x = true -> p y = true -> x = y) ->
  (forall x, In x l -> if p x then key (g x) = k else key x <> k) -> NoDup (key <$> update_where p g l).
Proof.
  unfold update_where. induction l as [|x l IH]; [constructor|]. rewrite fmap_cons. intros [Hx Hl]%NoDup_cons Hone Hk.
  cbn [map]. rewrite fmap_cons. apply NoDup_cons.
  split; [|apply IH; [done|intros; apply Hone; by try right|intros; apply Hk; by right]].
  intros (y & E & Hy)%list_elem_of_fmap. apply list_elem_of_In, in_map_iff in Hy as (z & <- & Hz).
  pose proof (Hk x (or_introl eq_refl)) as Kx. pose proof (Hk z (or_intror Hz)) as Kz.
  assert (Hne : key z <> key x) by (intros Ez; apply Hx; rewrite <- Ez; by apply list_elem_of_fmap_2, list_elem_of_In).
  destruct (p x) eqn:Px, (p z) eqn:Pz; try congruence.
  assert (x = z) as -> by (apply Hone; try done; [by left|by right]). done.
Qed.

Lemma existsb_app_l {A} (p : A -> bool) l k : existsb p l = true -> existsb p (l ++ k) = true.
Proof. intros H. by rewrite existsb_app, H. Qed.

(** Whether a key is there does not depend on the other columns. *)
Lemma existsb_update {A} (q p : A -> bool) g l : (forall x, q (g x) = q x) -> existsb q (update_where p g l) = existsb q l.
Proof.
  intros Hg. unfold update_where. induction l as [|x l IH]; [done|]. cbn [map existsb]. rewrite IH. by destruct (p x); [rewrite Hg|].
Qed.

Lemma existsb_delete {A} (q p : A -> bool) l : existsb q l = true -> (forall x, q x = true -> p x = false) ->
  existsb q (delete_where p l) = true.
Proof.
  intros [x [Hx Hq]]%existsb_exists Hn. apply existsb_exists. exists x. split; [|done]. apply filter_In. split; [done|].
  by rewrite (Hn x Hq).
Qed.

(** ** What an operation can do to the tables

    [db_steps R m]: however [m] runs, whatever fails on the way, the tables before and
    after are related by [R].  With a preorder [R] the judgement composes. *)
Definition db_steps {L A} (R : Tables -> Tables -> Prop) (m : go L A) : Prop :=
  forall w, R (w_db w) (w_db (m w).2).

Section db_steps.
Context {L : Type} (R : Tables -> Tables -> Prop) `{!PreOrder R}.

Lemma steps_pure {A} (x : A) : db_steps R (mret x : go L A).
Proof. intros w. reflexivity. Qed.

Lemma steps_fail {A} e : db_steps R (fail e : go L A).
Proof. intros w. reflexivity. Qed.

Lemma steps_bind {A B} (m : go L A) (k : A -> go L B) :
  db_steps R m -> (forall x, db_steps R (k x)) -> db_steps R (x ← m; k x).
Proof.
  intros Hm Hk w. specialize (Hm w). unfold mbind, go_bind.
  destruct (m w) as [[e|x] w']; [done|]. etransitivity; [exact Hm|]. apply Hk.
Qed.

Lemma steps_attempt {A} (m : go L A) : db_steps R m -> db_steps R (attempt m).
Proof. intros Hm w. specialize (Hm w). unfold attempt. by destruct (m w). Qed.

Lemma steps_wrap {A} p (m : go L A) : db_steps R m -> db_steps R (wrap p m).
Proof. intros Hm w. specialize (Hm w). unfold wrap. by destruct (m w) as [[]]. Qed.

Lemma steps_now : db_steps R (now : go L Z).
Proof. intros w. reflexivity. Qed.

Lemma steps_emit e : db_steps R (emit e : go L ()).
Proof. intros w. reflexivity. Qed.

Lemma steps_links : db_steps R (links : go L L).
Proof. intros w. reflexivity. Qed.

Lemma next_fault_db (w : World L) : w_db (next_fault w).2 = w_db w.
Proof. unfold next_fault. by destruct (w_faults w). Qed.

Lemma steps_stmt {A} (s : World L -> err + (A * World L)) :
  (forall w x w', s w = inr (x, w') -> R (w_db w) (w_db w')) -> db_steps R (stmt s).
Proof.
  intros Hs w. unfold stmt. pose proof (next_fault_db w) as E.
  destruct (next_fault w) as [[msg|] w1]; simpl in *; [by rewrite E|].
  destruct (s w1) as [e|[x w2]] eqn:Es; simpl; rewrite <- E; [reflexivity|by eapply Hs].
Qed.

Lemma steps_select {A} (q : Tables -> Z -> err + A) : db_steps R (select q : go L A).
Proof.
  apply steps_stmt. intros w x w'. destruct (q _ _); [done|]. intros [= _ <-]. reflexivity.
Qed.

Lemma steps_exec {A} (q : Tables -> Z -> err + (A * Tables)) :
  (forall db t x db', q db t = inr (x, db') -> R db db') -> db_steps R (exec q : go L A).
Proof.
  intros Hq. apply steps_stmt. intros w x w'. destruct (q _ _) as [e|[y db]] eqn:E; [done|].
  intros [= _ <-]. by eapply Hq.
Qed.

Lemma steps_insert_id `{UuidLib} {A} (q : uuid -> Tables -> Z -> err + (A * Tables)) :
  (forall id db t x db', q id db t = inr (x, db') -> R db db') -> db_steps R (insert_id q : go L A).
Proof.
  intros Hq. apply steps_stmt. intros w x w'. destruct (q _ _ _) as [e|[y db]] eqn:E; [done|].
  intros [= _ <-]. by eapply Hq.
Qed.

Lemma steps_nextval : db_steps R (nextval_incident : go L Z).
Proof. apply steps_stmt. intros w x w' [= _ <-]. reflexivity. Qed.

Lemma steps_in_tx {X A} (body : go L (X + A)) : db_steps R body -> db_steps R (in_tx body).
Proof.
  intros Hb w. unfold in_tx.
  assert (Hn : forall v : World L, w_db (stmt (fun w => inr ((), w)) v).2 = w_db v).
  { intros v. unfold stmt. pose proof (next_fault_db v) as E. by destruct (next_fault v) as [[]]. }
  pose proof (Hn w) as E0. destruct (stmt _ w) as [[e|[]] w0]; simpl in *; [by rewrite E0|].
  pose proof (Hb w0) as H1. destruct (body w0) as [[e|[x|x]] w1]; simpl in *; [by rewrite E0..|].
  pose proof (Hn w1) as E1. destruct (stmt _ w1) as [[e|[]] w2]; simpl in *; [by rewrite E0|].
  by rewrite E1, <- E0.
Qed.

Lemma steps_transaction {A} (body : go L A) : db_steps R body -> db_steps R (transaction body).
Proof.
  intros Hb. unfold transaction. apply steps_bind; [|intros [[]|x]; apply steps_pure].
  apply steps_in_tx, steps_bind; [done|]. intros x. apply steps_pure.
Qed.

Lemma steps_dispatch `{C2Dispatcher L} s p : db_steps R (dispatch s p : go L bool).
Proof. intros w. unfold dispatch. destruct (dispatch_json _ _ _). reflexivity. Qed.

Lemma steps_for_each {A} (l : list A) (f : A -> go L ()) :
  (forall x, db_steps R (f x)) -> db_steps R (for_each l f).
Proof.
  intros Hf. induction l as [|x l IH]; simpl; [apply steps_pure|]. by apply steps_bind.
Qed.

Lemma steps_for_fold {A B} (l : list A) (b : B) (f : B -> A -> go L B) :
  (forall b x, db_steps R (f b x)) -> db_steps R (for_fold l b f).
Proof.
  intros Hf. revert b; induction l as [|x l IH]; intros b; simpl; [apply steps_pure|]. by apply steps_bind.
Qed.
End db_steps.

#[export] Hint Resolve steps_pure steps_fail steps_now steps_emit steps_links steps_select
  steps_nextval steps_dispatch : arx.

(** Walks a monadic definition; leaves the goals of the statements that write. *)
Ltac db_walk :=
  repeat first
    [ progress intros
    | solve [eauto with arx typeclass_instances]
    | apply steps_transaction; [typeclasses eauto|]
    | apply steps_in_tx; [typeclasses eauto|]
    | apply steps_attempt
    | apply steps_wrap
    | apply steps_bind; [typeclasses eauto| |]
    | apply steps_for_each; [typeclasses eauto|]
    | apply steps_for_fold; [typeclasses eauto|]
    | match goal with |- db_steps _ (match ?x with _ => _ end) => destruct x end
    | match goal with |- db_steps _ (let '(_, _) := ?x in _) => destruct x end ].

(** The same table before and after. *)
Definition same {B} (f : Tables -> B) (db db' : Tables) : Prop := f db = f db'.

#[export] Instance same_preorder {B} (f : Tables -> B) : PreOrder (same f).
Proof. split; [done|]. intros x y z H1 H2. unfold same in *. congruence. Qed.

(** An invariant of the tables is kept. *)
Definition keeps (I : Tables -> Prop) (db db' : Tables) : Prop := I db -> I db'.

#[export] Instance keeps_preorder (I : Tables -> Prop) : PreOrder (keeps I).
Proof. split; [by intros ? ?|]. intros x y z H1 H2 H. by apply H2, H1. Qed.

(** ** Reading one statement *)
Section statements.
Context {L : Type}.
Implicit Types w : World L.

Lemma select_db {A} (q : Tables -> Z -> err + A) w : w_db (select q w).2 = w_db w.
Proof. symmetry. apply (steps_select eq). Qed.

(** A statement that succeeds computed its result from the current tables. *)
Lemma select_inr {A} (q : Tables -> Z -> err + A) w x w' :
  select q w = (inr x, w') -> q (w_db w) (w_now w) = inr x.
Proof.
  unfold select, stmt, next_fault. destruct (w_faults w) as [|[msg|] fs]; simpl;
    destruct (q (w_db w) (w_now w)); by intros [= ->].
Qed.

(** One that fails either hit a fault or a constraint, and changed nothing. *)
Lemma select_inl {A} (q : Tables -> Z -> err + A) w e w' :
  select q w = (inl e, w') -> (exists msg, e = ErrMsg msg) \/ q (w_db w) (w_now w) = inl e.
Proof.
  unfold select, stmt, next_fault. destruct (w_faults w) as [|[msg|] fs]; simpl;
    try destruct (q (w_db w) (w_now w)); intros [= <-]; eauto.
Qed.

Lemma exec_inr {A} (q : Tables -> Z -> err + (A * Tables)) w x w' :
  exec q w = (inr x, w') -> q (w_db w) (w_now w) = inr (x, w_db w').
Proof.
  unfold exec, stmt, next_fault. destruct (w_faults w) as [|[msg|] fs]; simpl; [|done|];
    destruct (q (w_db w) (w_now w)) as [|[y db]]; by intros [= -> <-].
Qed.

Lemma exec_inl {A} (q : Tables -> Z -> err + (A * Tables)) w e w' :
  exec q w = (inl e, w') -> w_db w' = w_db w.
Proof.
  unfold exec, stmt, next_fault. destruct (w_faults w) as [|[msg|] fs]; simpl;
    try (destruct (q (w_db w) (w_now w)) as [|[y db]]); by intros [= _ <-].
Qed.

(** With no fault pending, a statement is its query. *)
Lemma select_ok {A} (q : Tables -> Z -> err + A) w :
  w_faults w = [] ->
  select q w = (match q (w_db w) (w_now w) with inl e => inl e | inr x => inr x end, w).
Proof. intros Hf. unfold select, stmt, next_fault. rewrite Hf. by destruct (q _ _). Qed.

Lemma exec_ok {A} (q : Tables -> Z -> err + (A * Tables)) w :
  w_faults w = [] ->
  exec q w = match q (w_db w) (w_now w) with
             | inl e => (inl e, w)
             | inr (x, db) => (inr x, set_db db w) end.
Proof. intros Hf. unfold exec, stmt, next_fault. rewrite Hf. by destruct (q _ _) as [|[]]. Qed.

Lemma insert_id_ok `{UuidLib} {A} (q : uuid -> Tables -> Z -> err + (A * Tables)) w :
  w_faults w = [] ->
  insert_id q w = match q (gen_random_uuid (w_next_id w)) (w_db w) (w_now w) with
                  | inl e => (inl e, w)
                  | inr (x, db) => (inr x, set_db db (draw_id w)) end.
Proof. intros Hf. unfold insert_id, stmt, next_fault. rewrite Hf. by destruct (q _ _ _) as [|[]]. Qed.

Lemma nextval_ok w : w_faults w = [] ->
  nextval_incident w = (inr (w_incident_seq w + 1), set_seq (w_incident_seq w + 1) w).
Proof. intros Hf. unfold nextval_incident, stmt, next_fault. by rewrite Hf. Qed.

Lemma in_tx_ok {R A} (body : go L (R + A)) w r w1 :
  w_faults w = [] -> body w = (r, w1) -> w_faults w1 = [] ->
  in_tx body w = match r with
                 | inr (inr x) => (inr (inr x), w1)
                 | _ => (r, set_db (w_db w) w1) end.
Proof.
  intros Hf Hb Hf1. unfold in_tx, stmt, next_fault. rewrite Hf, Hb.
  destruct r as [|[]]; [done|done|]. by rewrite Hf1.
Qed.

Lemma insert_id_inr `{UuidLib} {A} (q : uuid -> Tables -> Z -> err + (A * Tables)) w x w' :
  insert_id q w = (inr x, w') -> q (gen_random_uuid (w_next_id w)) (w_db w) (w_now w) = inr (x, w_db w').
Proof.
  unfold insert_id, stmt, next_fault. destruct (w_faults w) as [|[msg|] fs]; simpl; [|done|];
    destruct (q _ (w_db w) (w_now w)) as [|[y db]]; by intros [= -> <-].
Qed.

Lemma transaction_ok {A} (body : go L A) w w1 x :
  w_faults w = [] -> body w = (inr x, w1) -> w_faults w1 = [] -> transaction body w = (inr x, w1).
Proof.
  intros Hf Hb Hf1. unfold transaction. unfold mbind at 1, go_bind at 1.
  erewrite in_tx_ok; [|done|unfold mbind, go_bind; rewrite Hb; reflexivity|done]. done.
Qed.

(** A computation that returned a value came through each of its parts. *)
Lemma bind_inv {A B} (m : go L A) (k : A -> go L B) w y w' :
  (x ← m; k x) w = (inr y, w') -> exists x w1, m w = (inr x, w1) /\ k x w1 = (inr y, w').
Proof. unfold mbind, go_bind. destruct (m w) as [[e|x] w1]; [done|]. eauto. Qed.

Lemma wrap_inv {A} p (m : go L A) w x w' : wrap p m w = (inr x, w') -> m w = (inr x, w').
Proof. unfold wrap. by destruct (m w) as [[]]. Qed.

Lemma attempt_inv {A} (m : go L A) w r w' : attempt m w = (inr r, w') -> m w = (r, w').
Proof. unfold attempt. destruct (m w). by intros [= <- <-]. Qed.

(** A transaction that returned has committed what its body did; one that failed changed nothing. *)
Lemma transaction_inv {A} (body : go L A) w x w' : transaction body w = (inr x, w') ->
  exists w0 w1, w_db w0 = w_db w /\ w_now w0 = w_now w /\ w_next_id w0 = w_next_id w /\
    body w0 = (inr x, w1) /\ w_db w' = w_db w1.
Proof.
  unfold transaction, in_tx. intros (y & w2 & H & E)%bind_inv.
  assert (y = inr x /\ w2 = w') as [-> ->] by (destruct y as [[]|y]; by injection E as -> ->).
  unfold stmt, next_fault in H.
  destruct (w_faults w) as [|[m|] fs]; [|done|]; cbn [set_faults] in H;
    match type of H with context [mbind _ _ ?v] => exists v end;
    unfold mbind, go_bind in H; destruct (body _) as [[e|z] w1]; try done;
    cbn [mret go_ret] in H; exists w1; destruct (w_faults w1) as [|[|] ?]; try done; injection H as -> <-; by split_and!.
Qed.

Lemma in_tx_inv {R A} (body : go L (R + A)) w x w' : in_tx body w = (inr (inr x), w') ->
  exists w0 w1, w_db w0 = w_db w /\ w_now w0 = w_now w /\ body w0 = (inr (inr x), w1) /\ w_db w' = w_db w1.
Proof.
  unfold in_tx, stmt, next_fault. intros H.
  destruct (w_faults w) as [|[m|] fs]; [|done|]; cbn [set_faults] in H;
    match type of H with context [body ?v] => exists v end;
    destruct (body _) as [[e|[z|z]] w1]; try done;
    exists w1; destruct (w_faults w1) as [|[|] ?]; try done; injection H as -> <-; by split_and!.
Qed.

Lemma transaction_inl {A} (body : go L A) w e w' : transaction body w = (inl e, w') -> w_db w' = w_db w.
Proof.
  unfold transaction, in_tx, mbind at 1, go_bind at 1, stmt, next_fault. intros H.
  destruct (w_faults w) as [|[m|] fs]; [|by injection H as _ <-|]; cbn [set_faults] in H;
    unfold mbind, go_bind in H; destruct (body _) as [[e1|z] w1]; try (by injection H as _ <-);
    cbn [mret go_ret] in H; destruct (w_faults w1) as [|[|] ?]; try done; by injection H as _ <-.
Qed.

Lemma bind_inr {A B} (m : go L A) (k : A -> go L B) w x w' :
  m w = (inr x, w') -> (x ← m; k x) w = k x w'.
Proof. intros E. unfold mbind, go_bind. by rewrite E. Qed.

End statements.

(** ** Operations that only talk to the database

    Whatever they do to the tables, they leave the agent link, the clock and the
    outside world alone, and bring no fault of their own. *)
Definition db_only {L A} (m : go L A) : Prop := forall w,
  w_link (m w).2 = w_link w /\ w_now (m w).2 = w_now w /\ w_events (m w).2 = w_events w /\
  (w_faults w = [] -> w_faults (m w).2 = []).

Section db_only.
Context {L : Type}.

Lemma only_pure {A} (x : A) : db_only (mret x : go L A).
Proof. by intros w. Qed.

Lemma only_fail {A} e : db_only (fail e : go L A).
Proof. by intros w. Qed.

Lemma only_now : db_only (now : go L Z).
Proof. by intros w. Qed.

Lemma only_links : db_only (links : go L L).
Proof. by intros w. Qed.

Lemma only_bind {A B} (m : go L A) (k : A -> go L B) :
  db_only m -> (forall x, db_only (k x)) -> db_only (x ← m; k x).
Proof.
  intros Hm Hk w. specialize (Hm w). unfold mbind, go_bind.
  destruct (m w) as [[e|x] w']; [done|]. specialize (Hk x w'). simpl in Hm.
  destruct Hm as (E1 & E2 & E3 & F1), Hk as (G1 & G2 & G3 & F2).
  split_and!; [congruence..|auto].
Qed.

Lemma only_attempt {A} (m : go L A) : db_only m -> db_only (attempt m).
Proof. intros Hm w. specialize (Hm w). unfold attempt. by destruct (m w). Qed.

Lemma only_wrap {A} p (m : go L A) : db_only m -> db_only (wrap p m).
Proof. intros Hm w. specialize (Hm w). unfold wrap. by destruct (m w) as [[]]. Qed.

Lemma only_stmt {A} (s : World L -> err + (A * World L)) :
  (forall w x w', s w = inr (x, w') -> w_link w' = w_link w /\ w_now w' = w_now w /\
     w_events w' = w_events w /\ w_faults w' = w_faults w) -> db_only (stmt s).
Proof.
  intros Hs w. unfold stmt, next_fault. destruct (w_faults w) as [|[msg|] fs] eqn:Ef; simpl; try done.
  - destruct (s w) as [e|[x w']] eqn:E; [done|]. apply Hs in E as (? & ? & ? & ?).
    simpl. split_and!; congruence.
  - destruct (s _) as [e|[x w']] eqn:E; [done|]. apply Hs in E as (? & ? & ? & ?).
    simpl in *. split_and!; congruence.
Qed.

Lemma only_select {A} (q : Tables -> Z -> err + A) : db_only (select q : go L A).
Proof. apply only_stmt. intros w x w'. destruct (q _ _); [done|]. by intros [= _ <-]. Qed.

Lemma only_exec {A} (q : Tables -> Z -> err + (A * Tables)) : db_only (exec q : go L A).
Proof. apply only_stmt. intros w x w'. destruct (q _ _) as [|[]]; [done|]. by intros [= _ <-]. Qed.

Lemma only_insert_id `{UuidLib} {A} (q : uuid -> Tables -> Z -> err + (A * Tables)) :
  db_only (insert_id q : go L A).
Proof. apply only_stmt. intros w x w'. destruct (q _ _ _) as [|[]]; [done|]. by intros [= _ <-]. Qed.

Lemma only_nextval : db_only (nextval_incident : go L Z).
Proof. apply only_stmt. by intros w x w' [= _ <-]. Qed.

Lemma only_in_tx {X A} (body : go L (X + A)) : db_only body -> db_only (in_tx body).
Proof.
  intros Hb w. unfold in_tx.
  assert (Hu : db_only (stmt (fun w => inr ((), w)) : go L ())) by (apply only_stmt; by intros ??? [= _ <-]).
  pose proof (Hu w) as H0. destruct (stmt _ w) as [[e|[]] w0]; simpl in *; [done|].
  pose proof (Hb w0) as H1. destruct (body w0) as [[e|[x|x]] w1]; simpl in *;
    [destruct_and?; split_and!; congruence || naive_solver..|].
  pose proof (Hu w1) as H2. destruct (stmt _ w1) as [[e|[]] w2]; simpl in *;
    destruct_and?; split_and!; congruence || naive_solver.
Qed.

Lemma only_transaction {A} (body : go L A) : db_only body -> db_only (transaction body).
Proof.
  intros Hb. unfold transaction. apply only_bind; [|intros [[]|x]; apply only_pure].
  apply only_in_tx, only_bind; [done|]. intros x. apply only_pure.
Qed.

Lemma only_for_each {A} (l : list A) (f : A -> go L ()) : (forall x, db_only (f x)) -> db_only (for_each l f).
Proof. intros Hf. induction l; simpl; [apply only_pure|]. by apply only_bind. Qed.

Lemma only_for_fold {A B} (l : list A) (b : B) (f : B -> A -> go L B) :
  (forall b x, db_only (f b x)) -> db_only (for_fold l b f).
Proof. intros Hf. revert b; induction l; intros b; simpl; [apply only_pure|]. by apply only_bind. Qed.
End db_only.

#[export] Hint Resolve only_pure only_fail only_now only_links only_select only_exec only_insert_id
  only_nextval : arx.

Ltac only_walk :=
  repeat first
    [ progress intros
    | solve [eauto with arx]
    | apply only_transaction
    | apply only_in_tx
    | apply only_attempt
    | apply only_wrap
    | apply only_bind
    | apply only_for_each
    | apply only_for_fold
    | match goal with |- db_only (match ?x with _ => _ end) => destruct x end
    | match goal with |- db_only (let '(_, _) := ?x in _) => destruct x end ].

(** ** What an operation sends to agents

    [sends Q m]: whatever [m] does and whatever fails, every message it hands to the agent
    link satisfies [Q]; the clock stands still and no fault is added. *)
Definition sends {L A} `{C2Dispatcher L} (Q : string * json -> Prop) (m : go L A) : Prop := forall w,
  (exists l, outbox (w_link (m w).2) = outbox (w_link w) ++ l /\ Forall Q l) /\
  w_now (m w).2 = w_now w /\ (w_faults w = [] -> w_faults (m w).2 = []).

Section sends.
Context `{CL : C2Laws L} (Q : string * json -> Prop).

Lemma sends_db_only {A} (m : go L A) : db_only m -> sends Q m.
Proof.
  intros Hm w. destruct (Hm w) as (El & Et & _ & Hf). split; [|done]. exists []. by rewrite El, app_nil_r.
Qed.

Lemma sends_bind {A B} (m : go L A) (k : A -> go L B) : sends Q m -> (forall x, sends Q (k x)) -> sends Q (x ← m; k x).
Proof.
  intros Hm Hk w. specialize (Hm w). unfold mbind, go_bind. destruct (m w) as [[e|x] w1]; [done|].
  destruct Hm as ((l1 & E1 & F1) & T1 & G1), (Hk x w1) as ((l2 & E2 & F2) & T2 & G2). simpl in *.
  split; [|split; [congruence|auto]]. exists (l1 ++ l2). rewrite E2, E1, app_assoc. split; [done|]. by apply Forall_app.
Qed.

Lemma sends_attempt {A} (m : go L A) : sends Q m -> sends Q (attempt m).
Proof. intros Hm w. specialize (Hm w). unfold attempt. by destruct (m w). Qed.

Lemma sends_wrap {A} p (m : go L A) : sends Q m -> sends Q (wrap p m).
Proof. intros Hm w. specialize (Hm w). unfold wrap. by destruct (m w) as [[]]. Qed.

Lemma sends_emit e : sends Q (emit e : go L ()).
Proof. intros w. split; [|done]. exists []. by rewrite app_nil_r. Qed.

Lemma sends_dispatch s p : Q (Str.trim_space s, p) -> sends Q (dispatch s p : go L bool).
Proof.
  intros HQ w. unfold dispatch. destruct (dispatch_json s p (w_link w)) as [[] l] eqn:E; simpl; (split; [|done]).
  - apply dispatch_true in E as [E _]. eauto.
  - apply dispatch_false in E. exists []. by rewrite E, app_nil_r.
Qed.

Lemma sends_for_each {A} (l : list A) (f : A -> go L ()) : (forall x, sends Q (f x)) -> sends Q (for_each l f).
Proof. intros Hf. induction l; simpl; [apply sends_db_only, only_pure|]. by apply sends_bind. Qed.
End sends.

#[export] Hint Resolve sends_emit : arx.

Ltac send_walk :=
  repeat first
    [ progress intros
    | solve [eauto with arx]
    | apply sends_db_only; solve [only_walk]
    | apply sends_attempt
    | apply sends_wrap
    | apply sends_bind
    | apply sends_for_each
    | apply sends_dispatch
    | match goal with |- sends _ (match ?x with _ => _ end) => destruct x end
    | match goal with |- sends _ (let '(_, _) := ?x in _) => destruct x end ].
