(* ===== verification/Hub.v ===== *)
(** * The agent hub (internal/ws/hub.go, the pumps of internal/ws/handler.go)

    Sessions are heap objects: a reconnecting agent gets a new session while the
    goroutines of the old one still hold theirs.  [step] interleaves the goroutines at
    the points where the code takes or drops its lock or touches a channel; a send on a
    closed channel, or closing one twice, is a panic.  Run without interleaving, the hub
    is the [C2Dispatcher] the rest of the server uses. *)

From S2P Require Import Prelude GoStd Float64 Json Ext World.

Definition outboundQueueDepth : nat := 32.

(** ** State *)

Notation pointer := nat (only parsing).

Record agentSession := {
  s_serial : string;
  s_send : list json;       (* the channel's buffer *)
  s_closed : bool;          (* close(s.send) has run *)
  s_conn_open : bool
}.

Record Hub := {
  h_heap : gmap pointer agentSession;
  h_next : pointer;
  h_bySerial : gmap string pointer;
  h_queued : list (string * json)   (* every message put in a session's channel, oldest first *)
}.

Definition NewHub : Hub := {| h_heap := ∅; h_next := 0%nat; h_bySerial := ∅; h_queued := [] |}.

Definition set_session (p : pointer) (s : agentSession) (h : Hub) : Hub :=
  {| h_heap := <[p := s]> (h_heap h); h_next := h_next h; h_bySerial := h_bySerial h; h_queued := h_queued h |}.

Definition close_conn (s : agentSession) : agentSession :=
  {| s_serial := s_serial s; s_send := s_send s; s_closed := s_closed s; s_conn_open := false |}.

(** ** Registration *)

Definition register (serial : string) (h : Hub) : pointer * Hub :=
  let p := h_next h in
  let s := {| s_serial := serial; s_send := []; s_closed := false; s_conn_open := true |} in
  let prev := h_bySerial h !! serial in
  let heap := <[p := s]> (h_heap h) in
  let heap := match prev with
              | Some q => match h_heap h !! q with Some old => <[q := close_conn old]> heap | None => heap end
              | None => heap end in
  (p, {| h_heap := heap; h_next := S p; h_bySerial := <[serial := p]> (h_bySerial h); h_queued := h_queued h |}).

Inductive result := Done (h : Hub) | Panic.

(** The part of unregister under the lock. *)
Definition remove_current (p : pointer) (serial : string) (m : gmap string pointer) : gmap string pointer :=
  match m !! serial with
  | Some q => if Nat.eqb q p then delete serial m else m
  | None => m
  end.

Definition unregister (p : pointer) (h : Hub) : result :=
  match h_heap h !! p with
  | None => Done h
  | Some s =>
      let h := {| h_heap := h_heap h; h_next := h_next h;
                  h_bySerial := remove_current p (s_serial s) (h_bySerial h); h_queued := h_queued h |} in
      if s_closed s then Panic
      else Done (set_session p {| s_serial := s_serial s; s_send := s_send s; s_closed := true; s_conn_open := false |} h)
  end.

Definition ConnectedCertSerials (h : Hub) : list string := map fst (map_to_list (h_bySerial h)).

(** ** Dispatch

    The lookup is under the lock, the send is not. *)

Definition lookup_session (certSerial : string) (h : Hub) : option pointer :=
  let certSerial := Str.trim_space certSerial in
  if String.eqb certSerial "" then None else h_bySerial h !! certSerial.

Inductive send_result := Sent (h : Hub) | Blocked | SendPanic.

(** [s.send <- data], when the buffer has room; a full buffer blocks until the timer fires. *)
Definition try_send (p : pointer) (data : json) (h : Hub) : send_result :=
  match h_heap h !! p with
  | None => Blocked
  | Some s =>
      if s_closed s then SendPanic
      else if (length (s_send s) <? outboundQueueDepth)%nat
      then Sent {| h_heap := <[p := {| s_serial := s_serial s; s_send := s_send s ++ [data];
                                       s_closed := false; s_conn_open := s_conn_open s |}]> (h_heap h);
                   h_next := h_next h; h_bySerial := h_bySerial h;
                   h_queued := h_queued h ++ [(s_serial s, data)] |}
      else Blocked
  end.

(** Without interleaving: a blocked send ends in the timeout. *)
Definition dispatchRaw (certSerial : string) (data : json) (h : Hub) : option bool * Hub :=
  match lookup_session certSerial h with
  | None => (Some false, h)
  | Some p => match try_send p data h with
              | Sent h' => (Some true, h')
              | Blocked => (Some false, h)
              | SendPanic => (None, h)
              end
  end.

Definition DispatchJSON (certSerial : string) (payload : json) (h : Hub) : option bool * Hub :=
  dispatchRaw (Str.trim_space certSerial) payload h.

(** writePump: takes the oldest message of the channel. *)
Definition drain (p : pointer) (h : Hub) : option (json * Hub) :=
  match h_heap h !! p with
  | Some s =>
      match s_send s with
      | m :: r => Some (m, set_session p {| s_serial := s_serial s; s_send := r; s_closed := s_closed s;
                                            s_conn_open := s_conn_open s |} h)
      | [] => None
      end
  | None => None
  end.

(** ** Interleaving

    Goroutines in flight: one reader per session that will unregister it when it ends, and
    dispatches that have looked a session up and not yet sent. *)

Record Sys := {
  y_hub : Hub;
  y_readers : gset pointer;
  y_sending : list (pointer * json);
  y_panicked : bool
}.

Definition start : Sys := {| y_hub := NewHub; y_readers := ∅; y_sending := []; y_panicked := false |}.

Inductive step : Sys -> Sys -> Prop :=
| step_connect serial y p h :
    serial <> ""%string -> Str.trim_space serial = serial -> y_panicked y = false ->
    register serial (y_hub y) = (p, h) ->
    step y {| y_hub := h; y_readers := {[p]} ∪ y_readers y; y_sending := y_sending y; y_panicked := false |}
| step_read_end y p r :
    p ∈ y_readers y -> y_panicked y = false -> unregister p (y_hub y) = r ->
    step y {| y_hub := match r with Done h => h | Panic => y_hub y end;
              y_readers := y_readers y ∖ {[p]}; y_sending := y_sending y;
              y_panicked := match r with Done _ => false | Panic => true end |}
| step_lookup y serial data p :
    y_panicked y = false -> lookup_session serial (y_hub y) = Some p ->
    step y {| y_hub := y_hub y; y_readers := y_readers y; y_sending := y_sending y ++ [(p, data)]; y_panicked := false |}
| step_send y pre p data post :
    y_sending y = pre ++ (p, data) :: post -> y_panicked y = false ->
    try_send p data (y_hub y) <> Blocked ->
    step y {| y_hub := match try_send p data (y_hub y) with Sent h => h | _ => y_hub y end;
              y_readers := y_readers y; y_sending := pre ++ post;
              y_panicked := match try_send p data (y_hub y) with SendPanic => true | _ => false end |}
| step_timeout y pre p data post :
    y_sending y = pre ++ (p, data) :: post -> y_panicked y = false ->
    try_send p data (y_hub y) = Blocked ->
    step y {| y_hub := y_hub y; y_readers := y_readers y; y_sending := pre ++ post; y_panicked := false |}
| step_drain y p m h :
    y_panicked y = false -> drain p (y_hub y) = Some (m, h) ->
    step y {| y_hub := h; y_readers := y_readers y; y_sending := y_sending y; y_panicked := false |}.

Inductive reachable : Sys -> Prop :=
| reach_start : reachable start
| reach_step y y' : reachable y -> step y y' -> reachable y'.
