(* ===== verification/HubFacts.v ===== *)
(** * The agent hub: its registry, its interface, its race

    Properties of [Hub], and the [C2Dispatcher] it gives the server. *)

From S2P Require Import Prelude GoStd Float64 Json Ext World Hub.

(** ** Well-formed hubs *)

Record hub_wf (h : Hub) : Prop := {
  wf_registered : forall serial p, h_bySerial h !! serial = Some p ->
    exists s, h_heap h !! p = Some s /\ s_serial s = serial /\ s_closed s = false;
  wf_fresh : forall p, (h_next h <= p)%nat -> h_heap h !! p = None;
  wf_room : forall p s, h_heap h !! p = Some s -> (length (s_send s) <= outboundQueueDepth)%nat
}.

Lemma wf_new : hub_wf NewHub.
Proof. by split. Qed.

(** Replacing a session by one of the same serial, open if the other was, within its room. *)
Lemma wf_set_session p s s' h : hub_wf h -> h_heap h !! p = Some s -> s_serial s' = s_serial s ->
  s_closed s' = s_closed s -> (length (s_send s') <= outboundQueueDepth)%nat -> hub_wf (set_session p s' h).
Proof.
  intros [Hr Hf Hq] Hp Es Ec Hl. split; simpl.
  - intros serial q Hs. destruct (Hr serial q Hs) as (t & Ht & E1 & E2).
    destruct (decide (p = q)) as [->|Hn]; [rewrite lookup_insert_eq|rewrite lookup_insert_ne by done; eauto].
    exists s'. split; [done|]. split; congruence.
  - intros q Hq'. rewrite lookup_insert_ne; [auto|]. intros ->. by rewrite Hf in Hp.
  - intros q t. destruct (decide (p = q)) as [->|Hn]; [rewrite lookup_insert_eq; by intros [= <-]|].
    rewrite lookup_insert_ne by done. apply Hq.
Qed.

Lemma wf_queued h log : hub_wf h ->
  hub_wf {| h_heap := h_heap h; h_next := h_next h; h_bySerial := h_bySerial h; h_queued := log |}.
Proof. by intros []; split. Qed.

Lemma wf_try_send p data h h' : hub_wf h -> try_send p data h = Sent h' -> hub_wf h'.
Proof.
  intros Hwf. unfold try_send. destruct (h_heap h !! p) as [s|] eqn:Hp; [|done].
  destruct (s_closed s) eqn:Hc; [done|]. destruct (Nat.ltb_spec (length (s_send s)) outboundQueueDepth); [|done].
  intros [= <-]. apply (wf_queued (set_session p _ h)). apply (wf_set_session p s); [done|done|done|done|].
  simpl. rewrite length_app. simpl. lia.
Qed.

Lemma wf_dispatch serial data h : hub_wf h -> hub_wf (DispatchJSON serial data h).2.
Proof.
  intros Hwf. unfold DispatchJSON, dispatchRaw. destruct (lookup_session _ h); [|done].
  destruct (try_send _ _ _) eqn:E; try done. by eapply wf_try_send.
Qed.

Lemma wf_register serial h p h' : hub_wf h -> register serial h = (p, h') -> hub_wf h'.
Proof.
  intros [Hr Hf Hq]. unfold register. intros [= <- <-].
  set (new := {| s_serial := serial; s_send := []; s_closed := false; s_conn_open := true |}).
  assert (Hsub : forall q s, h_heap h !! q = Some s -> q <> h_next h) by (intros q s Hs ->; by rewrite Hf in Hs).
  split; cbn [h_heap h_next h_bySerial].
  - intros serial' q. destruct (decide (serial = serial')) as [->|Hn].
    + rewrite lookup_insert_eq. intros [= <-]. exists new. split; [|done].
      destruct (h_bySerial h !! serial') as [q|] eqn:Eq; [|by rewrite lookup_insert_eq].
      destruct (h_heap h !! q) as [old|] eqn:Eo; [|by rewrite lookup_insert_eq].
      rewrite lookup_insert_ne by (by eapply Hsub). by rewrite lookup_insert_eq.
    + rewrite lookup_insert_ne by done. intros Hs. destruct (Hr serial' q Hs) as (s & Es & E1 & E2).
      pose proof (Hsub q s Es) as Hq1.
      destruct (h_bySerial h !! serial) as [q'|] eqn:Eq; [|rewrite lookup_insert_ne by done; eauto].
      destruct (h_heap h !! q') as [old|] eqn:Eo; [|rewrite lookup_insert_ne by done; eauto].
      destruct (decide (q' = q)) as [->|Hd]; [rewrite lookup_insert_eq; eexists; split; [done|simpl; split; congruence]|].
      rewrite !lookup_insert_ne by done. eauto.
  - intros q Hle. assert (h_next h <> q) by lia.
    destruct (h_bySerial h !! serial) as [q'|] eqn:Eq; [|rewrite lookup_insert_ne by done; apply Hf; lia].
    destruct (h_heap h !! q') as [old|] eqn:Eo; [|rewrite lookup_insert_ne by done; apply Hf; lia].
    assert (q' <> q) by (intros ->; rewrite Hf in Eo by lia; done).
    rewrite !lookup_insert_ne by done. apply Hf. lia.
  - assert (H0 : forall q s, <[h_next h := new]> (h_heap h) !! q = Some s -> (length (s_send s) <= outboundQueueDepth)%nat).
    { intros q s. destruct (decide (h_next h = q)) as [->|Hn]; [rewrite lookup_insert_eq; intros [= <-]; simpl; lia|].
      rewrite lookup_insert_ne by done. apply Hq. }
    intros q s. destruct (h_bySerial h !! serial) as [q'|] eqn:Eq; [|apply H0].
    destruct (h_heap h !! q') as [old|] eqn:Eo; [|apply H0].
    destruct (decide (q' = q)) as [->|Hd]; [rewrite lookup_insert_eq; intros [= <-]; simpl; by eapply Hq|].
    rewrite lookup_insert_ne by done. apply H0.
Qed.

Lemma remove_current_lookup p serial m serial' q :
  remove_current p serial m !! serial' = Some q -> m !! serial' = Some q /\ (serial' = serial -> q <> p).
Proof.
  unfold remove_current. destruct (m !! serial) as [r|] eqn:E.
  - destruct (Nat.eqb_spec r p) as [->|Hn].
    + rewrite lookup_delete_Some. intros [Hne Hl]. split; [done|]. by intros ->.
    + intros Hl. split; [done|]. intros Es Eq. rewrite Es, E in Hl. by injection Hl as <-.
  - intros Hl. split; [done|]. intros Es. by rewrite Es, E in Hl.
Qed.

Lemma wf_unregister p h h' : hub_wf h -> unregister p h = Done h' -> hub_wf h'.
Proof.
  intros [Hr Hf Hq]. unfold unregister. destruct (h_heap h !! p) as [s|] eqn:Hp; [|intros [= <-]; by split].
  destruct (s_closed s) eqn:Hc; [done|]. intros [= <-]. split; cbn [h_heap h_next h_bySerial set_session].
  - intros serial q [Hl Hne]%remove_current_lookup. destruct (Hr serial q Hl) as (t & Ht & E1 & E2).
    assert (p <> q) by (intros ->; assert (t = s) as -> by congruence; by apply Hne).
    exists t. by rewrite lookup_insert_ne.
  - intros q Hle. rewrite lookup_insert_ne; [auto|]. intros ->. by rewrite Hf in Hp.
  - intros q t. destruct (decide (p = q)) as [->|Hn].
    + rewrite lookup_insert_eq. intros [= <-]. simpl. by eapply Hq.
    + rewrite lookup_insert_ne by done. apply Hq.
Qed.

Lemma wf_drain p h m h' : hub_wf h -> drain p h = Some (m, h') -> hub_wf h'.
Proof.
  intros Hwf. unfold drain. destruct (h_heap h !! p) as [s|] eqn:Hp; [|done].
  destruct (s_send s) as [|m0 r] eqn:Es; [done|]. intros [= <- <-].
  apply (wf_set_session p s); try done. simpl. pose proof (wf_room h Hwf p s Hp) as Hl. rewrite Es in Hl. simpl in Hl. lia.
Qed.

(** A registered session is open: looked up and sent to without interleaving, no panic. *)
Lemma lookup_open serial h p : hub_wf h -> lookup_session serial h = Some p ->
  exists s, h_heap h !! p = Some s /\ s_serial s = Str.trim_space serial /\ s_closed s = false.
Proof.
  intros Hwf. unfold lookup_session. destruct (String.eqb _ ""); [done|]. by apply wf_registered.
Qed.

Lemma dispatch_cases serial data h : hub_wf h ->
  (exists h', DispatchJSON serial data h = (Some true, h') /\
     h_queued h' = h_queued h ++ [(Str.trim_space serial, data)] /\ h_bySerial h' = h_bySerial h /\
     exists p, h_bySerial h !! Str.trim_space serial = Some p) \/
  DispatchJSON serial data h = (Some false, h).
Proof.
  intros Hwf. unfold DispatchJSON, dispatchRaw. destruct (lookup_session _ h) as [p|] eqn:El; [|by right].
  destruct (lookup_open _ _ _ Hwf El) as (s & Hs & E & Hc). rewrite Str.trim_space_idem in E.
  unfold try_send. rewrite Hs, Hc. destruct (_ <? _)%nat; [left|by right].
  eexists. split; [done|]. rewrite E. split; [done|]. split; [done|]. exists p.
  unfold lookup_session in El. rewrite Str.trim_space_idem in El. by destruct (String.eqb _ "").
Qed.

(** ** The interface: well-formed hubs implement [C2Dispatcher] *)

Definition LiveHub : Type := { h : Hub | hub_wf h }.

#[export] Instance hub_dispatcher : C2Dispatcher LiveHub := {|
  dispatch_json serial payload h :=
    (match (DispatchJSON serial payload (proj1_sig h)).1 with Some ok => ok | None => false end,
     exist _ _ (wf_dispatch serial payload (proj1_sig h) (proj2_sig h)));
  connected_serials h := ConnectedCertSerials (proj1_sig h);
  outbox h := h_queued (proj1_sig h)
|}.

#[export] Instance hub_laws : C2Laws LiveHub.
Proof.
  split.
  - intros s p [h Hwf] l' [= E <-]. simpl in *. destruct (dispatch_cases s p h Hwf) as [(h' & -> & Eq & _ & q & Hq)|E'].
    + split; [done|]. unfold ConnectedCertSerials. apply in_map_iff. exists (Str.trim_space s, q). split; [done|].
      by apply list_elem_of_In, elem_of_map_to_list.
    + rewrite E' in E. done.
  - intros s p [h Hwf] l' [= E <-]. simpl in *. destruct (dispatch_cases s p h Hwf) as [(h' & E' & _)|E'].
    + by rewrite E' in E.
    + by rewrite E'.
  - intros s p [h Hwf]. simpl. unfold ConnectedCertSerials. destruct (dispatch_cases s p h Hwf) as [(h' & -> & _ & Eb & _)|E'].
    + simpl. by rewrite Eb.
    + by rewrite E'.
Qed.

(** ** All interleavings *)

(** A session's reader runs exactly as long as its channel is open. *)
Record sys_ok (y : Sys) : Prop := {
  ok_wf : hub_wf (y_hub y);
  ok_readers : forall p, p ∈ y_readers y <-> exists s, h_heap (y_hub y) !! p = Some s /\ s_closed s = false;
  ok_sending : forall p data, In (p, data) (y_sending y) -> exists s, h_heap (y_hub y) !! p = Some s
}.

(** What a step does to sessions: none disappears, and only [closed] ones change their channel's state. *)
Definition same_sessions (closing : gset pointer) (h h' : Hub) : Prop :=
  forall p, match h_heap h !! p, h_heap h' !! p with
            | Some s, Some s' => s_closed s' = (s_closed s || bool_decide (p ∈ closing))
            | None, None => True
            | _, _ => False end.

Lemma same_set p s s' h : h_heap h !! p = Some s -> s_closed s' = s_closed s -> same_sessions ∅ h (set_session p s' h).
Proof.
  intros Hp Ec q. simpl. destruct (decide (p = q)) as [->|Hn].
  - rewrite Hp, lookup_insert_eq. by rewrite bool_decide_eq_false_2, orb_false_r by set_solver.
  - rewrite lookup_insert_ne by done. destruct (h_heap h !! q); [|done].
    by rewrite bool_decide_eq_false_2, orb_false_r by set_solver.
Qed.

Lemma same_try_send p data h h' : try_send p data h = Sent h' -> same_sessions ∅ h h'.
Proof.
  unfold try_send. destruct (h_heap h !! p) as [s|] eqn:Hp; [|done]. destruct (s_closed s) eqn:Hc; [done|].
  destruct (_ <? _)%nat; [|done]. intros [= <-]. by apply (same_set p s).
Qed.

Lemma same_drain p h m h' : drain p h = Some (m, h') -> same_sessions ∅ h h'.
Proof.
  unfold drain. destruct (h_heap h !! p) as [s|] eqn:Hp; [|done]. destruct (s_send s); [done|].
  intros [= _ <-]. by apply (same_set p s).
Qed.

Lemma ok_same y h' (sending : list (pointer * json)) : sys_ok y -> hub_wf h' -> same_sessions ∅ (y_hub y) h' ->
  (forall e, In e sending -> In e (y_sending y)) ->
  sys_ok {| y_hub := h'; y_readers := y_readers y; y_sending := sending; y_panicked := false |}.
Proof.
  intros [_ Hr Hs] Hwf Hsame Hsub. split; simpl; [done| |].
  - intros p. rewrite Hr. specialize (Hsame p).
    destruct (h_heap (y_hub y) !! p) as [s|], (h_heap h' !! p) as [s'|]; try done.
    rewrite bool_decide_eq_false_2, orb_false_r in Hsame by set_solver.
    split; intros (t & [= <-] & Hc); eexists; (split; [done|congruence]).
  - intros p data Hi. destruct (Hs p data (Hsub _ Hi)) as (s & Es). specialize (Hsame p). rewrite Es in Hsame.
    destruct (h_heap h' !! p); eauto. done.
Qed.

Lemma ok_connect serial y p h : sys_ok y -> register serial (y_hub y) = (p, h) ->
  sys_ok {| y_hub := h; y_readers := {[p]} ∪ y_readers y; y_sending := y_sending y; y_panicked := false |}.
Proof.
  intros [Hwf Hr Hs] Hreg. pose proof (wf_register _ _ _ _ Hwf Hreg) as Hwf'.
  unfold register in Hreg. injection Hreg as <- <-.
  set (new := {| s_serial := serial; s_send := []; s_closed := false; s_conn_open := true |}) in *.
  assert (Hold : forall q, q <> h_next (y_hub y) -> forall P : bool -> Prop,
    (exists s, (match h_bySerial (y_hub y) !! serial with
      | Some r => match h_heap (y_hub y) !! r with
                  | Some old => <[r := close_conn old]> (<[h_next (y_hub y) := new]> (h_heap (y_hub y)))
                  | None => <[h_next (y_hub y) := new]> (h_heap (y_hub y)) end
      | None => <[h_next (y_hub y) := new]> (h_heap (y_hub y)) end) !! q = Some s /\ P (s_closed s)) <->
    (exists s, h_heap (y_hub y) !! q = Some s /\ P (s_closed s))).
  { intros q Hq P. destruct (h_bySerial (y_hub y) !! serial) as [r|]; [|by rewrite lookup_insert_ne].
    destruct (h_heap (y_hub y) !! r) as [old|] eqn:Eo; [|by rewrite lookup_insert_ne].
    destruct (decide (r = q)) as [->|Hn]; [rewrite lookup_insert_eq, Eo; split; intros (s & [= <-] & HP); eauto|].
    by rewrite !lookup_insert_ne. }
  assert (Hnew : exists s, (match h_bySerial (y_hub y) !! serial with
      | Some r => match h_heap (y_hub y) !! r with
                  | Some old => <[r := close_conn old]> (<[h_next (y_hub y) := new]> (h_heap (y_hub y)))
                  | None => <[h_next (y_hub y) := new]> (h_heap (y_hub y)) end
      | None => <[h_next (y_hub y) := new]> (h_heap (y_hub y)) end) !! h_next (y_hub y) = Some s /\ s_closed s = false).
  { destruct (wf_registered _ Hwf' serial (h_next (y_hub y))) as (s & Es & _ & Ec); [cbn [h_bySerial]; by rewrite lookup_insert_eq|].
    by exists s. }
  split; cbn [y_hub y_readers y_sending]; [done| |].
  - intros q. rewrite elem_of_union, elem_of_singleton, Hr. cbn [h_heap].
    destruct (decide (q = h_next (y_hub y))) as [->|Hq]; [tauto|].
    rewrite (Hold q Hq (fun b => b = false)). tauto.
  - intros q data Hi. cbn [h_heap]. destruct (Hs q data Hi) as (s & Es).
    assert (Hq : q <> h_next (y_hub y)) by (intros ->; by rewrite (wf_fresh _ Hwf) in Es).
    destruct (proj2 (Hold q Hq (fun _ => True))) as (s' & Es' & _); eauto.
Qed.

Lemma unregister_open p h s : h_heap h !! p = Some s -> s_closed s = false -> exists h', unregister p h = Done h'.
Proof. intros Hp Hc. unfold unregister. rewrite Hp, Hc. eauto. Qed.

Lemma ok_read_end p y h' : sys_ok y -> p ∈ y_readers y -> unregister p (y_hub y) = Done h' ->
  sys_ok {| y_hub := h'; y_readers := y_readers y ∖ {[p]}; y_sending := y_sending y; y_panicked := false |}.
Proof.
  intros [Hwf Hr Hs] Hp Hun. pose proof (wf_unregister _ _ _ Hwf Hun) as Hwf'.
  destruct (proj1 (Hr p) Hp) as (s & Es & Ec). unfold unregister in Hun. rewrite Es, Ec in Hun. injection Hun as <-.
  split; cbn [y_hub y_readers y_sending set_session h_heap] in *; [done| |].
  - intros q. rewrite elem_of_difference, elem_of_singleton, Hr.
    destruct (decide (q = p)) as [->|Hn]; [rewrite lookup_insert_eq|rewrite lookup_insert_ne by done; tauto].
    split; [tauto|]. intros (t & [= <-] & Ht). done.
  - intros q data Hi. destruct (Hs q data Hi) as (t & Et).
    destruct (decide (p = q)) as [->|Hn]; [rewrite lookup_insert_eq|rewrite lookup_insert_ne by done]; eauto.
Qed.

(** Up to the first panic, every reachable state is in order. *)
Lemma reachable_ok y : reachable y -> y_panicked y = false -> sys_ok y.
Proof.
  induction 1 as [|y y' Hreach IH Hstep].
  - intros _. split; simpl; [apply wf_new| |done]. intros p. split; [set_solver|]. intros (s & Hs & _). done.
  - destruct Hstep as [serial y p h Hne Htr Hp Hreg|y p r Hin Hp Hun|y serial data p Hp Hl|y pre p data post Hs Hp Hb
                      |y pre p data post Hs Hp Hb|y p m h Hp Hd]; cbn [y_panicked]; intros Hnp; specialize (IH Hp).
    + by eapply ok_connect.
    + destruct r; [|done]. by eapply ok_read_end.
    + destruct IH as [Hwf Hr Hs]. split; simpl; [done|done|]. intros q d [Hi|[[= <- _]|[]]]%in_app_or; [by eapply Hs|].
      destruct (lookup_open _ _ _ Hwf Hl) as (s & Es & _). eauto.
    + destruct (try_send p data (y_hub y)) as [h| |] eqn:Et; try done.
      apply ok_same; [done|by (eapply wf_try_send; [apply IH|])|by eapply same_try_send|].
      intros e He. rewrite Hs. apply in_app_or in He as [He|He]; apply in_or_app; [by left|by right; right].
    + apply ok_same; [done|apply IH| |].
      * intros q. destruct (h_heap (y_hub y) !! q); [|done]. by rewrite bool_decide_eq_false_2, orb_false_r by set_solver.
      * intros e He. rewrite Hs. apply in_app_or in He as [He|He]; apply in_or_app; [by left|by right; right].
    + apply ok_same; [done|by (eapply wf_drain; [apply IH|])|by eapply same_drain|done].
Qed.

Lemma reconnected serial p h q h1 : hub_wf h -> h_bySerial h !! serial = Some p -> register serial h = (q, h1) ->
  exists h2, unregister p h1 = Done h2 /\ h_bySerial h2 !! serial = Some q /\
    exists s, h_heap h2 !! q = Some s /\ s_closed s = false /\ s_conn_open s = true.
Proof.
  intros Hwf Hp Hreg. destruct (wf_registered _ Hwf serial p Hp) as (s & Es & E & Ec).
  assert (Hne : p <> h_next h) by (intros ->; by rewrite (wf_fresh _ Hwf) in Es).
  unfold register in Hreg. rewrite Hp, Es in Hreg. injection Hreg as <- <-. unfold unregister. cbn [h_heap h_bySerial].
  rewrite lookup_insert_eq. cbn [close_conn s_closed s_serial]. rewrite Ec, E. eexists. split; [done|].
  cbn [set_session h_bySerial h_heap]. unfold remove_current. rewrite lookup_insert_eq.
  rewrite (proj2 (Nat.eqb_neq _ _)) by done. rewrite lookup_insert_eq. split; [done|].
  eexists. rewrite !lookup_insert_ne by done. by rewrite lookup_insert_eq.
Qed.

(** C27: in every state the hub's goroutines can reach without a panic, each registered serial
    leads to an open session of that very serial, a send to it made at once does not panic,
    no channel holds more than 32 messages, and a reader that ends closes its channel without a
    panic (no channel is closed twice).  When an agent reconnects, the later clean-up of
    its old session does not unregister the new one. *)
Theorem hub_registry_sound y : reachable y -> y_panicked y = false ->
  (forall serial p, h_bySerial (y_hub y) !! serial = Some p ->
     (exists s, h_heap (y_hub y) !! p = Some s /\ s_serial s = serial /\ s_closed s = false) /\ p ∈ y_readers y) /\
  (forall serial data, exists ok, (DispatchJSON serial data (y_hub y)).1 = Some ok) /\
  (forall p s, h_heap (y_hub y) !! p = Some s -> (length (s_send s) <= outboundQueueDepth)%nat) /\
  (forall p, p ∈ y_readers y -> exists h, unregister p (y_hub y) = Done h) /\
  (forall serial p q h1, h_bySerial (y_hub y) !! serial = Some p -> register serial (y_hub y) = (q, h1) ->
     exists h2, unregister p h1 = Done h2 /\ h_bySerial h2 !! serial = Some q).
Proof.
  intros Hr Hp. destruct (reachable_ok y Hr Hp) as [Hwf Hrd _]. split_and!.
  - intros serial p Hl. destruct (wf_registered _ Hwf serial p Hl) as (s & Es & E & Ec). split; [eauto|].
    apply Hrd. eauto.
  - intros serial data. destruct (dispatch_cases serial data _ Hwf) as [(h' & -> & _)|E]; [by eexists|].
    rewrite E. by eexists.
  - apply Hwf.
  - intros p (s & Es & Ec)%Hrd. by eapply unregister_open.
  - intros serial p q h1 Hl Hreg. destruct (reconnected _ _ _ _ _ Hwf Hl Hreg) as (h2 & E & E2 & _). eauto.
Qed.

(** A run that ends in a panic: an agent connects, a dispatch finds its session, the session
    ends, and only then the dispatch sends. *)
Definition racing_hub : Hub := (register "1" NewHub).2.

Lemma race_reachable (data : json) : exists y, reachable y /\ y_panicked y = true.
Proof.
  eexists. split.
  - eapply reach_step; [eapply reach_step; [eapply reach_step; [eapply reach_step; [apply reach_start|]|]|]|].
    + by eapply (step_connect "1" start 0%nat racing_hub).
    + by eapply (step_lookup _ "1" data 0%nat).
    + eapply (step_read_end _ 0%nat); [set_solver|done|reflexivity].
    + by eapply (step_send _ [] 0%nat data []).
  - reflexivity.
Qed.

(** C40: the dispatch path can bring the server down: it looks the session up under the lock and
    sends after releasing it, so a session that ends in between has its channel closed first.
    This is the only way a hub goroutine panics. *)
Theorem dispatch_race_panics :
  (exists y, reachable y /\ y_panicked y = true) /\
  (forall y y', reachable y -> step y y' -> y_panicked y' = true ->
     exists p data s, In (p, data) (y_sending y) /\ h_heap (y_hub y) !! p = Some s /\ s_closed s = true /\
       p ∉ y_readers y).
Proof.
  split; [apply (race_reachable JNull)|]. intros y y' Hr Hstep Hp.
  assert (Hnp : y_panicked y = false) by (by destruct Hstep).
  destruct (reachable_ok y Hr Hnp) as [Hwf Hrd Hsd]. destruct Hstep; cbn [y_panicked] in Hp; try done.
  - destruct (proj1 (Hrd p) H) as (s & Es & Ec). destruct (unregister_open _ _ _ Es Ec) as (h & E).
    rewrite E in H1. by subst r.
  - destruct (Hsd p data) as (s & Es); [rewrite H; apply in_or_app; right; by left|].
    exists p, data, s. split; [rewrite H; apply in_or_app; right; by left|]. split; [done|].
    assert (Hc : s_closed s = true).
    { unfold try_send in Hp. rewrite Es in Hp. destruct (s_closed s); [done|]. by destruct (_ <? _)%nat. }
    split; [done|]. intros (t & Et & Ect)%Hrd. congruence.
Qed.
