(* ===== verification/Auth.v ===== *)
(** * Dashboard authentication and authorisation (internal/auth, internal/api/dashboard_auth.go)

    Roles and their order, the JWT session, the RBAC middleware in front of /v1, the
    role check the handlers repeat, audit records and the admin accounts.  Signature
    and expiry checking is golang-jwt's: [JwtLib] gives the claims of a token that
    passes it.  bcrypt is [PasswordLib]. *)

From S2P Require Import Prelude GoStd Float64 Json Ext World.

(** ** HTTP *)

Record Principal := { p_UserID : uuid; p_Username : string; p_Role : string }.

(** The transport's view of the client: no TLS, TLS without a verified client certificate, or
    the serial number of the verified leaf in decimal (empty when it has none). *)
Inductive tls_state := NoTLS | TLSNoClient | TLSClient (serial : string).

(** The parts of an *http.Request the handlers read: the path's first and second wildcard, the
    query's values ([URL.Query().Get]), headers; an unreadable body is [None]; and when the request is
    served, in nanoseconds: the clock a session token is checked against. *)
Record Request := {
  rq_method : string; rq_path : string; rq_path_id : string; rq_path_id2 : string; rq_query : string -> string;
  rq_origin : string; rq_authorization : string; rq_request_id : string; rq_subprotocol : string;
  rq_forwarded_for : string; rq_remote_addr : string; rq_tls : tls_state;
  rq_body : option string; rq_principal : option Principal;
  rq_time : Z
}.

Record Response := { rs_status : Z; rs_body : json }.

Definition writeTicketsJSON (status : Z) (v : json) : Response := {| rs_status := status; rs_body := v |}.
Definition writeTicketsError (status : Z) (msg : string) : Response :=
  writeTicketsJSON status (JObj [("error"%string, jstr msg)]).

(** ** Roles (users.go) *)

Definition RoleAdmin : string := "admin".
Definition RoleOperator : string := "operator".
Definition RoleViewer : string := "viewer".

Definition ParseRole (s : string) : option string :=
  let r := Str.to_lower (Str.trim_space s) in
  if existsb (String.eqb r) [RoleAdmin; RoleOperator; RoleViewer] then Some r else None.

Definition RoleRank (role : string) : Z :=
  match ParseRole role with
  | None => 0
  | Some r => if String.eqb r RoleAdmin then 3 else if String.eqb r RoleOperator then 2
              else if String.eqb r RoleViewer then 1 else 0
  end.

Definition HasAtLeast (role minRole : string) : bool :=
  let a := RoleRank role in let b := RoleRank minRole in
  (0 <? a) && (0 <? b) && (b <=? a).

(** ** JWT sessions (users.go) *)

Record arxClaims := { cl_Username : string; cl_Role : string; cl_Subject : string }.

(** [jwt_parse t]: ParseWithClaims at the time [t], which refuses a token that is not valid yet
    or no longer. *)
Class JwtLib := { jwt_parse : Z -> string -> option arxClaims }.
Class PasswordLib := { bcrypt_hash : string -> option string }.
Class NetLib := { split_host_port : string -> option string }.

Section Jwt.
Context `{JwtLib} `{UuidLib}.

Definition JWTService_Parse (now : Z) (tokenString : string) : option Principal :=
  match jwt_parse now (Str.trim_space tokenString) with
  | None => None
  | Some claims =>
      match uuid_parse (Str.trim_space (cl_Subject claims)), ParseRole (cl_Role claims) with
      | Some uid, Some role =>
          let un := Str.trim_space (cl_Username claims) in
          if String.eqb un "" then None
          else Some {| p_UserID := uid; p_Username := un; p_Role := role |}
      | _, _ => None
      end
  end.

(** ** dashboard_http.go *)

Definition DashboardOriginOK (r : Request) (allowedOrigins : list string) : bool :=
  let origin := Str.trim_space (rq_origin r) in
  String.eqb origin "" || existsb (fun o => String.eqb (Str.trim_space o) origin) allowedOrigins.

Definition DashboardBearerToken (r : Request) : string :=
  let got := Str.trim_space (rq_query r "token") in
  if negb (String.eqb got "") then got else
  let h := rq_authorization r in
  if (7 <? Str.slen h) && Str.equal_fold (Str.take 7 h) "bearer " then Str.trim_space (Str.drop 7 h)
  else ""%string.

(** ** dashboard_auth.go *)

Definition real_principal (r : Request) : option Principal :=
  match rq_principal r with
  | Some p => if N.eqb (p_UserID p) uuid_nil then None else Some p
  | None => None
  end.

Definition RequirePrincipal (origins : list string) (r : Request) : Response + Principal :=
  if negb (DashboardOriginOK r origins) then inl (writeTicketsError 403 "forbidden") else
  match real_principal r with
  | Some p => inr p
  | None =>
      let tok := DashboardBearerToken r in
      if String.eqb tok "" then inl (writeTicketsError 401 "missing token") else
      match JWTService_Parse (rq_time r) tok with
      | None => inl (writeTicketsError 401 "invalid token")
      | Some p => inr p
      end
  end.

Definition RequireMinRole (origins : list string) (r : Request) (minRole : string) : Response + Principal :=
  match RequirePrincipal origins r with
  | inl resp => inl resp
  | inr p => if HasAtLeast (p_Role p) minRole then inr p else inl (writeTicketsError 403 "forbidden")
  end.

(** ** dashboard_rbac.go *)

Definition dashboardRBACPublic (method path : string) : bool :=
  (String.eqb method "POST" && String.eqb path "/v1/auth/login")
  || (String.eqb method "POST" && String.eqb path "/v1/enroll")
  || (String.eqb method "POST" && String.eqb path "/v1/telemetry")
  || (String.eqb method "GET" && String.eqb path "/v1/ws")
  || (String.eqb method "GET" && Str.has_prefix path "/v1/agent/").

Definition viewerSafeMethod (method : string) : bool :=
  String.eqb method "GET" || String.eqb method "HEAD".

Definition operatorForbidden (method path : string) : bool :=
  let p := Str.trim_suffix (Str.trim_space path) "/" in
  let p := if String.eqb p "" then "/"%string else p in
  if Str.has_prefix p "/v1/audit" then true
  else if Str.has_prefix p "/v1/backups" then true
  else if String.eqb p "/v1/users" && String.eqb method "GET" then true
  else if String.eqb p "/v1/users" && String.eqb method "POST" then true
  else if Str.has_prefix p "/v1/users/" && negb (String.eqb p "/v1/users/directory")
  then String.eqb method "PATCH" || String.eqb method "DELETE"
  else if Str.has_prefix p "/v1/alerts/"
  then negb (String.eqb p "/v1/alerts/active" && String.eqb method "GET")
  else if String.eqb method "DELETE" && Str.has_prefix p "/v1/packages/" then true
  else String.eqb method "POST" && Str.has_prefix p "/v1/devices/"
       && (Str.has_suffix p "/lock" || Str.has_suffix p "/wipe").

Definition with_principal (p : Principal) (r : Request) : Request :=
  {| rq_method := rq_method r; rq_path := rq_path r; rq_path_id := rq_path_id r; rq_path_id2 := rq_path_id2 r;
     rq_query := rq_query r; rq_origin := rq_origin r; rq_authorization := rq_authorization r;
     rq_request_id := rq_request_id r; rq_subprotocol := rq_subprotocol r;
     rq_forwarded_for := rq_forwarded_for r; rq_remote_addr := rq_remote_addr r; rq_tls := rq_tls r;
     rq_body := rq_body r; rq_principal := Some p; rq_time := rq_time r |}.

(** The middleware either answers or hands the request to the next handler. *)
Inductive rbac_outcome := Deny (status : Z) (msg : string) | Next (r : Request).

Definition DashboardRBACMiddleware (allowedOrigins : list string) (r : Request) : rbac_outcome :=
  let path := rq_path r in let method := rq_method r in
  if negb (Str.has_prefix path "/v1/") then Next r else
  if String.eqb method "OPTIONS" then Next r else
  if dashboardRBACPublic method path then Next r else
  if negb (DashboardOriginOK r allowedOrigins) then Deny 403 "forbidden" else
  let tok := DashboardBearerToken r in
  if String.eqb tok "" then Deny 401 "missing token" else
  match JWTService_Parse (rq_time r) tok with
  | None => Deny 401 "invalid token"
  | Some p =>
      if N.eqb (p_UserID p) uuid_nil then Deny 401 "invalid token" else
      let r := with_principal p r in
      if String.eqb (p_Role p) RoleViewer && negb (viewerSafeMethod method)
      then Deny 403 "read-only role cannot modify data" else
      if String.eqb (p_Role p) RoleOperator && operatorForbidden method path
      then Deny 403 "insufficient permissions" else
      Next r
  end.
End Jwt.

(** ** ip.go *)
Definition ClientIP `{NetLib} (r : Request) : string :=
  let xff := Str.trim_space (rq_forwarded_for r) in
  if negb (String.eqb xff "") then Str.trim_space (hd ""%string (Str.split_on "," xff))
  else match split_host_port (rq_remote_addr r) with
       | None => rq_remote_addr r
       | Some host => host
       end.

(** ** Audit records (audit.go, database/audit_logs.go) *)

Record AuditRecord := {
  rec_UserID : uuid; rec_Action : string; rec_ResourceType : string;
  rec_ResourceID : option uuid; rec_TargetAssetID : option uuid;
  rec_Details : list (string * json); rec_IPAddress : string
}.

Section audit.
Context `{UL : UuidLib} {L : Type}.

Definition fk_ok {A} (key : A -> uuid) (rows : list A) (ref : option uuid) : bool :=
  match ref with None => true | Some id => existsb (fun x => N.eqb (key x) id) rows end.

Definition InsertAuditLogRow (row : AuditLog) : go L () :=
  insert_id (fun id db now =>
    let uid := match al_UserID row with Some u => if N.eqb u uuid_nil then None else Some u | None => None end in
    let texts := map Str.trim_space (al_Action row :: al_ResourceType row :: option_list (al_IPAddress row)) in
    if json_has_nul (al_Details row) || negb (forallb text_ok texts)
    then inl (ErrMsg "invalid byte sequence for encoding UTF8") else
    if negb (fk_ok u_id (t_users db) uid && fk_ok a_id (t_assets db) (al_TargetAssetID row))
    then inl (ErrMsg "violates foreign key constraint") else
    inr ((), with_audit (t_audit db ++ [{|
      al_ID := id; al_UserID := uid; al_Action := Str.trim_space (al_Action row);
      al_ResourceType := Str.trim_space (al_ResourceType row); al_ResourceID := al_ResourceID row;
      al_TargetAssetID := al_TargetAssetID row; al_Details := al_Details row;
      al_IPAddress := match al_IPAddress row with
                      | Some ip => if String.eqb (Str.trim_space ip) "" then None else Some (Str.trim_space ip)
                      | None => None end;
      al_CreatedAt := now |}]) db)).

Definition InsertAuditRecord (rec : AuditRecord) : go L () :=
  if String.eqb (Str.trim_space (rec_Action rec)) "" then mret () else
  InsertAuditLogRow {|
    al_ID := uuid_nil; al_UserID := if N.eqb (rec_UserID rec) uuid_nil then None else Some (rec_UserID rec);
    al_Action := Str.trim_space (rec_Action rec);
    al_ResourceType := Str.trim_space (rec_ResourceType rec);
    al_ResourceID := rec_ResourceID rec; al_TargetAssetID := rec_TargetAssetID rec;
    al_Details := JObj (jmap (rec_Details rec));
    al_IPAddress := if String.eqb (Str.trim_space (rec_IPAddress rec)) "" then None
                    else Some (Str.trim_space (rec_IPAddress rec));
    al_CreatedAt := 0 |}.
End audit.

(** ** Accounts (users.go) *)
Section accounts.
Context `{PasswordLib} `{UuidLib} `{PgLib} {L : Type}.

Definition is_admin (u : User) : bool := String.eqb (u_role u) RoleAdmin.

Definition HashPassword (plain : string) : option string :=
  if String.eqb (Str.trim_space plain) "" then None else bcrypt_hash plain.

Definition GetUserByUsername (username : string) : go L User :=
  let u := Str.trim_space username in
  if String.eqb u "" then fail (ErrMsg "empty username") else
  select (fun db _ =>
    match List.find (fun x => String.eqb (pg_lower (u_username x)) (pg_lower u)) (t_users db) with
    | Some x => inr x
    | None => inl ErrNoRows
    end).

Definition CountUsers : go L Z := select (fun db _ => inr (Z.of_nat (length (t_users db)))).
Definition CountAdmins : go L Z := select (fun db _ => inr (Z.of_nat (count_where is_admin (t_users db)))).

Definition BootstrapAdminIfEmpty (username password : string) : go L () :=
  n ← CountUsers;
  if 0 <? n then mret () else
  let u := Str.trim_space username in
  if String.eqb u "" || String.eqb (Str.trim_space password) "" then mret () else
  match HashPassword password with
  | None => fail (ErrMsg "bcrypt")
  | Some hash =>
      insert_id (fun id db t =>
        if negb (text_ok u) then inl (ErrMsg "invalid byte sequence for encoding UTF8") else
        inr ((), with_users (t_users db ++
          [{| u_id := id; u_username := u; u_password_hash := hash; u_role := RoleAdmin; u_created := t |}]) db))
  end.

Definition IsLastAdmin (userID : uuid) : go L bool :=
  r ← attempt (select (fun db _ =>
        match List.find (fun u => N.eqb (u_id u) userID) (t_users db) with
        | Some u => inr (u_role u)
        | None => inl ErrNoRows
        end));
  match r with
  | inl e => if is_no_rows e then mret false else fail e
  | inr role => if negb (String.eqb role RoleAdmin) then mret false else
                n ← CountAdmins; mret (n =? 1)
  end.
End accounts.

(** ** Handlers

    A handler is a computation that always produces a response; [let? p := c in k] is
    the early return of a check that has already written one. *)
Notation "'let?' p := c 'in' k" := (match c with inl resp => mret resp | inr p => k end)
  (at level 200, p pattern, k at level 200) : arx_scope.

(** io.ReadAll(io.LimitReader(r.Body, limit)): a longer body is cut, not refused. *)
Definition read_body (limit : Z) (r : Request) : option string :=
  option_map (Str.take (Z.to_nat limit)) (rq_body r).

Definition err_resp {A} (status : Z) (msg : string) : Response + A := inl (writeTicketsError status msg).

Definition require_method (m : string) (r : Request) : Response + () :=
  if String.eqb (rq_method r) m then inr () else err_resp 405 "method not allowed".
