(* ===== verification/UsersAdmin.v ===== *)
(** * User administration (internal/api/users_admin.go)

    The admin-only account routes and the rule that one admin must remain. *)

From S2P Require Import Prelude GoStd Float64 Json Ext World Auth.

Definition maxUserAdminJSON : Z := 32 * 1024.

Record createUserRequest := { cu_Username : string; cu_Password : string; cu_Role : string }.
Record patchUserRequest := { pu_Role : option string; pu_Password : option string }.

Section handlers.
Context `{JC : JsonCodec} `{UL : UuidLib} `{JL : JwtLib} `{PL : PasswordLib} {L : Type}.
Context (origins : list string).

Definition parseUserUUID (r : Request) : option uuid :=
  let raw := Str.trim_space (rq_path_id r) in
  if String.eqb raw "" then None else uuid_parse raw.

Definition decode_create (body : string) : option createUserRequest :=
  m ← unmarshal_map body;
  u ← dec_string "" (field "username" m);
  p ← dec_string "" (field "password" m);
  ro ← dec_string "" (field "role" m);
  Some {| cu_Username := u; cu_Password := p; cu_Role := ro |}.

Definition decode_patch (body : string) : option patchUserRequest :=
  m ← unmarshal_map body;
  ro ← dec_opt_string None (field "role" m);
  p ← dec_opt_string None (field "password" m);
  Some {| pu_Role := ro; pu_Password := p |}.

Definition handleCreate (r : Request) : go L Response :=
  let? _ := require_method "POST" r in
  let? p := RequireMinRole origins r RoleAdmin in
  match read_body maxUserAdminJSON r with
  | None => mret (writeTicketsError 400 "could not read request body")
  | Some body =>
  match decode_create body with
  | None => mret (writeTicketsError 400 "invalid JSON body")
  | Some req =>
      let username := Str.trim_space (cu_Username req) in
      match ParseRole (cu_Role req) with
      | None => mret (writeTicketsError 400 "invalid role")
      | Some role =>
          if String.eqb username "" || String.eqb (Str.trim_space (cu_Password req)) ""
          then mret (writeTicketsError 400 "username and password are required") else
          match HashPassword (cu_Password req) with
          | None => mret (writeTicketsError 400 "bcrypt")
          | Some hash =>
              res ← attempt (insert_id (fun id db t =>
                if negb (text_ok username) then inl (ErrMsg "invalid byte sequence for encoding UTF8") else
                if existsb (fun u => String.eqb (u_username u) username) (t_users db)
                then inl (ErrMsg "duplicate key value violates unique constraint") else
                inr (id, with_users (t_users db ++
                  [{| u_id := id; u_username := username; u_password_hash := hash; u_role := role; u_created := t |}]) db)));
              match res with
              | inl e => mret (if Str.contains (Str.to_lower (err_text e)) "unique"
                               then writeTicketsError 409 "username already exists"
                               else writeTicketsError 500 "failed to create user")
              | inr id => mret (writeTicketsJSON 201 (JObj [("id"%string, jstr (uuid_string id))]))
              end
          end
      end
  end end.

Definition set_role (role : string) (u : User) : User :=
  {| u_id := u_id u; u_username := u_username u; u_password_hash := u_password_hash u; u_role := role;
     u_created := u_created u |}.
Definition set_hash (hash : string) (u : User) : User :=
  {| u_id := u_id u; u_username := u_username u; u_password_hash := hash; u_role := u_role u;
     u_created := u_created u |}.

(** UPDATE users SET ... WHERE id = $2, with the number of rows. *)
Definition update_user (id : uuid) (f : User -> User) : go L nat :=
  exec (fun db _ => let is_it := fun u => N.eqb (u_id u) id in
    inr (count_where is_it (t_users db), with_users (update_where is_it f (t_users db)) db)).

Definition updated_or_404 (res : err + nat) : Response + () :=
  match res with
  | inl _ => err_resp 500 "failed to update user"
  | inr n => if Nat.eqb n 0 then err_resp 404 "user not found" else inr ()
  end.

(** The two halves of handlePatch, in the order it runs them. *)
Definition patch_role (id : uuid) (role : option string) : go L (Response + ()) :=
  match role with
  | None => mret (inr ())
  | Some raw =>
      match ParseRole raw with
      | None => mret (err_resp 400 "invalid role")
      | Some newRole =>
          last ← attempt (IsLastAdmin id);
          match last with
          | inl _ => mret (err_resp 500 "failed to update user")
          | inr last =>
              if (last : bool) && negb (String.eqb newRole RoleAdmin)
              then mret (err_resp 400 "cannot demote the last admin") else
              res ← attempt (update_user id (set_role newRole));
              mret (updated_or_404 res)
          end
      end
  end.

Definition patch_password (id : uuid) (password : option string) : go L (Response + ()) :=
  match password with
  | None => mret (inr ())
  | Some raw =>
      let pw := Str.trim_space raw in
      if String.eqb pw "" then mret (err_resp 400 "password cannot be empty") else
      match HashPassword pw with
      | None => mret (err_resp 400 "bcrypt")
      | Some hash =>
          res ← attempt (update_user id (set_hash hash));
          mret (updated_or_404 res)
      end
  end.

Definition handlePatch (r : Request) : go L Response :=
  let? _ := require_method "PATCH" r in
  let? p := RequireMinRole origins r RoleAdmin in
  match parseUserUUID r with
  | None => mret (writeTicketsError 400 "invalid user id")
  | Some id =>
  match read_body maxUserAdminJSON r with
  | None => mret (writeTicketsError 400 "could not read request body")
  | Some body =>
  match decode_patch body with
  | None => mret (writeTicketsError 400 "invalid JSON body")
  | Some req =>
      if negb (is_some_b (pu_Role req)) && negb (is_some_b (pu_Password req))
      then mret (writeTicketsError 400 "no fields to update") else
      r1 ← patch_role id (pu_Role req);
      let? _ := r1 in
      r2 ← patch_password id (pu_Password req);
      let? _ := r2 in
      mret (writeTicketsJSON 200 (JObj [("status"%string, jstr "updated")]))
  end end end.

(** The foreign keys to users are ON DELETE SET NULL; a device handed to the user is handed to nobody. *)
Definition null_ref (id : uuid) (o : option uuid) : option uuid :=
  match o with Some x => if N.eqb x id then None else o | None => None end.

Definition forget_audit (id : uuid) (a : AuditLog) : AuditLog :=
  {| al_ID := al_ID a; al_UserID := null_ref id (al_UserID a); al_Action := al_Action a; al_ResourceType := al_ResourceType a;
     al_ResourceID := al_ResourceID a; al_TargetAssetID := al_TargetAssetID a; al_Details := al_Details a;
     al_IPAddress := al_IPAddress a; al_CreatedAt := al_CreatedAt a |}.

Definition forget_incident (id : uuid) (i : Incident) : Incident :=
  {| in_id := in_id i; in_number := in_number i; in_caller := null_ref id (in_caller i);
     in_assigned := null_ref id (in_assigned i); in_cmdb_ci := in_cmdb_ci i; in_state := in_state i;
     in_impact := in_impact i; in_urgency := in_urgency i; in_short_description := in_short_description i;
     in_work_notes := in_work_notes i; in_sla_due := in_sla_due i;
     in_source_alert_fingerprint := in_source_alert_fingerprint i;
     in_created_at := in_created_at i; in_updated_at := in_updated_at i |}.

Definition forget_document (id : uuid) (d : Document) : Document :=
  {| kb_id := kb_id d; kb_title := kb_title d; kb_content := kb_content d; kb_author := null_ref id (kb_author d);
     kb_created := kb_created d |}.

Definition owned_by (id : uuid) (o : DeviceOwner) : bool := N.eqb (do_user o) id.

Definition delete_user (id : uuid) : go L nat :=
  exec (fun db _ => let is_it := fun u => N.eqb (u_id u) id in
    inr (count_where is_it (t_users db),
         with_users (delete_where is_it (t_users db))
           (with_audit (map (forget_audit id) (t_audit db))
             (with_incidents (map (forget_incident id) (t_incidents db))
               (with_documents (map (forget_document id) (t_documents db))
                 (with_owners (delete_where (owned_by id) (t_owners db)) db)))))).


Definition handleDelete (r : Request) : go L Response :=
  let? _ := require_method "DELETE" r in
  let? p := RequireMinRole origins r RoleAdmin in
  match parseUserUUID r with
  | None => mret (writeTicketsError 400 "invalid user id")
  | Some id =>
      if N.eqb id (p_UserID p) then mret (writeTicketsError 400 "cannot delete your own account") else
      last ← attempt (IsLastAdmin id);
      match last with
      | inl _ => mret (writeTicketsError 500 "failed to delete user")
      | inr true => mret (writeTicketsError 400 "cannot delete the last admin")
      | inr false =>
          res ← attempt (delete_user id);
          match res with
          | inl _ => mret (writeTicketsError 500 "failed to delete user")
          | inr n => mret (if Nat.eqb n 0 then writeTicketsError 404 "user not found"
                           else writeTicketsJSON 204 JNull)
          end
      end
  end.
End handlers.
