(* ===== verification/AuthFacts.v ===== *)
(** * Who may do what

    Properties of the RBAC middleware, the role check and the account routes. *)

From S2P Require Import Prelude GoStd Float64 Json Ext World Auth UsersAdmin.

(** ** Roles *)

Lemma ParseRole_some s r :
  ParseRole s = Some r <-> r = Str.to_lower (Str.trim_space s) /\ In r [RoleAdmin; RoleOperator; RoleViewer].
Proof.
  unfold ParseRole. split.
  - destruct (existsb _ _) eqn:E; [|done]. intros [= <-]. split; [done|].
    apply existsb_exists in E as (x & Hx & E). apply String.eqb_eq in E. by rewrite E.
  - intros [-> Hr].
    assert (existsb (String.eqb (Str.to_lower (Str.trim_space s))) [RoleAdmin; RoleOperator; RoleViewer] = true)
      as ->; [|done].
    apply existsb_exists. eexists. split; [exact Hr|]. apply String.eqb_refl.
Qed.

Lemma JWT_parse_role `{JwtLib} `{UuidLib} t tok p :
  JWTService_Parse t tok = Some p -> In (p_Role p) [RoleAdmin; RoleOperator; RoleViewer].
Proof.
  unfold JWTService_Parse. destruct (jwt_parse _ _) as [cl|]; [|done].
  destruct (uuid_parse _); [|done]. destruct (ParseRole _) as [role|] eqn:E; [|done].
  destruct (String.eqb _ _); [done|]. intros [= <-]. simpl. by apply ParseRole_some in E as [_ ?].
Qed.

Section rbac.
Context `{JL : JwtLib} `{UL : UuidLib}.

(** What it takes to get through the middleware on a protected route. *)
Lemma rbac_protected origins r r' :
  Str.has_prefix (rq_path r) "/v1/" = true -> rq_method r <> "OPTIONS"%string ->
  dashboardRBACPublic (rq_method r) (rq_path r) = false ->
  DashboardRBACMiddleware origins r = Next r' ->
  exists p, JWTService_Parse (rq_time r) (DashboardBearerToken r) = Some p /\ p_UserID p <> uuid_nil /\
    DashboardOriginOK r origins = true /\ r' = with_principal p r /\
    (p_Role p = RoleViewer -> viewerSafeMethod (rq_method r) = true) /\
    (p_Role p = RoleOperator -> operatorForbidden (rq_method r) (rq_path r) = false).
Proof.
  intros Hp Hm Hpub. unfold DashboardRBACMiddleware. rewrite Hp, Hpub.
  rewrite (proj2 (String.eqb_neq _ _) Hm). simpl.
  destruct (DashboardOriginOK r origins) eqn:Ho; [|done]. simpl.
  destruct (String.eqb _ ""); [done|].
  destruct (JWTService_Parse _ _) as [p|]; [|done].
  destruct (N.eqb_spec (p_UserID p) uuid_nil) as [|Hn]; [done|].
  destruct (String.eqb_spec (p_Role p) RoleViewer) as [Hv|Hv];
    destruct (String.eqb_spec (p_Role p) RoleOperator) as [Hop|Hop];
    destruct (viewerSafeMethod _) eqn:Es; destruct (operatorForbidden _ _) eqn:Ef; simpl; try done;
    intros [= <-]; exists p; repeat split; try done.
Qed.
End rbac.

(** C35: on a protected route only an authenticated operator or admin gets a mutating
    request through the RBAC middleware, and an operator never gets one of the
    admin-only routes through; the handler sees exactly the principal of the token. *)
Theorem rbac_mutations_need_operator `{JwtLib} `{UuidLib} origins r r' :
  Str.has_prefix (rq_path r) "/v1/" = true -> rq_method r <> "OPTIONS"%string ->
  dashboardRBACPublic (rq_method r) (rq_path r) = false ->
  viewerSafeMethod (rq_method r) = false ->
  DashboardRBACMiddleware origins r = Next r' ->
  exists p, JWTService_Parse (rq_time r) (DashboardBearerToken r) = Some p /\ real_principal r' = Some p /\
    (p_Role p = RoleAdmin \/
     p_Role p = RoleOperator /\ operatorForbidden (rq_method r) (rq_path r) = false).
Proof.
  intros Hp Hm Hpub Hs Hn. apply rbac_protected in Hn as (p & Hj & Hid & _ & -> & Hv & Ho); [|done..].
  exists p. split; [done|]. split.
  - unfold real_principal. simpl. by rewrite (proj2 (N.eqb_neq _ _) Hid).
  - pose proof (JWT_parse_role _ _ _ Hj) as [E|[E|[E|[]]]]; [left; by rewrite <- E|right; rewrite <- E; auto|].
    symmetry in E. rewrite (Hv E) in Hs. done.
Qed.

(** After the middleware, a handler's role check decides by the token's role alone:
    it neither re-parses the token nor lets a lower role pass, so the two layers agree. *)
Theorem role_check_after_middleware `{JwtLib} `{UuidLib} origins r r' minRole :
  Str.has_prefix (rq_path r) "/v1/" = true -> rq_method r <> "OPTIONS"%string ->
  dashboardRBACPublic (rq_method r) (rq_path r) = false ->
  DashboardRBACMiddleware origins r = Next r' ->
  exists p, JWTService_Parse (rq_time r) (DashboardBearerToken r) = Some p /\
    RequireMinRole origins r' minRole =
      if HasAtLeast (p_Role p) minRole then inr p else inl (writeTicketsError 403 "forbidden").
Proof.
  intros Hp Hm Hpub Hn. apply rbac_protected in Hn as (p & Hj & Hid & Ho & -> & _); [|done..].
  exists p. split; [done|]. unfold RequireMinRole, RequirePrincipal.
  change (DashboardOriginOK (with_principal p r) origins) with (DashboardOriginOK r origins).
  rewrite Ho. unfold real_principal. simpl. by rewrite (proj2 (N.eqb_neq _ _) Hid).
Qed.

(** ** Accounts *)

Definition has_admin (db : Tables) : Prop := exists u, In u (t_users db) /\ is_admin u = true.
Definition user_ids_unique (db : Tables) : Prop := List.NoDup (map u_id (t_users db)).
Definition accounts_ok (db : Tables) : Prop := user_ids_unique db /\ has_admin db.

Section accounts.
Context `{JC : JsonCodec} `{UL : UuidLib} `{JL : JwtLib} `{PL : PasswordLib} {L : Type}.
Implicit Types w : World L.

Lemma steps_db_same {A} (m : go L A) : db_steps eq m -> forall w, w_db w = w_db (m w).2.
Proof. done. Qed.

Lemma IsLastAdmin_db id w : w_db (IsLastAdmin id w).2 = w_db w.
Proof.
  symmetry. apply (steps_db_same (IsLastAdmin id)). unfold IsLastAdmin, CountAdmins. db_walk.
Qed.

(** [false] means the user is not an admin, or is not the only one. *)
Lemma IsLastAdmin_false id w w' u :
  IsLastAdmin id w = (inr false, w') -> user_ids_unique (w_db w) -> In u (t_users (w_db w)) ->
  u_id u = id -> is_admin u = true -> count_where is_admin (t_users (w_db w)) <> 1%nat.
Proof.
  intros Hr Hu Hin Hid Hadm. unfold IsLastAdmin in Hr. unfold mbind, go_bind, attempt in Hr.
  set (q := fun (db : Tables) (_ : Z) => match List.find (fun u => N.eqb (u_id u) id) (t_users db) with
        | Some u => inr (u_role u) | None => inl ErrNoRows end) in Hr.
  assert (Hq : q (w_db w) (w_now w) = inr RoleAdmin).
  { unfold q. destruct (List.find _ _) as [v|] eqn:F.
    - apply find_some in F as [Hv E]. apply N.eqb_eq in E.
      assert (v = u) as ->; [|f_equal; by apply String.eqb_eq].
      revert Hu Hv Hin. rewrite <- Hid in E. revert E. unfold user_ids_unique. clear.
      induction (t_users (w_db w)) as [|x l IH]; [done|]. intros E Hn [->|Hv] [->|Hin]; [done|..];
        simpl in Hn; apply List.NoDup_cons_iff in Hn as [Hx Hn].
      + exfalso. apply Hx. rewrite E. by apply in_map.
      + exfalso. apply Hx. rewrite <- E. by apply in_map.
      + by apply IH.
    - pose proof (List.find_none _ _ F u Hin) as C. simpl in C. by rewrite Hid, N.eqb_refl in C. }
  destruct (select q w) as [[e|role] w1] eqn:E1; simpl in Hr.
  - apply select_inl in E1 as [[msg ->]|E1]; [done|]. by rewrite Hq in E1.
  - pose proof (select_inr _ _ _ _ E1) as E2. rewrite Hq in E2. injection E2 as <-.
    pose proof (select_db q w) as Edb. rewrite E1 in Edb. simpl in Edb.
    change (String.eqb RoleAdmin RoleAdmin) with true in Hr. simpl in Hr.
    destruct (CountAdmins w1) as [[e|n] w2] eqn:E3; [done|].
    apply select_inr in E3. injection E3 as <-. injection Hr as Hr _.
    rewrite Edb in Hr. apply Z.eqb_neq in Hr. intros C. apply Hr. by rewrite C.
Qed.

(** With another admin left, or none taken away, an admin remains. *)
Lemma other_admin users id :
  List.NoDup (map u_id users) ->
  (exists u, In u users /\ is_admin u = true) ->
  (forall u, In u users -> u_id u = id -> is_admin u = true -> count_where is_admin users <> 1%nat) ->
  exists u, In u users /\ is_admin u = true /\ u_id u <> id.
Proof.
  intros Hn (u & Hu & Ha) Hc. destruct (decide (u_id u = id)) as [Hid|]; [|eauto].
  specialize (Hc u Hu Hid Ha). unfold count_where in Hc.
  assert (Hnf : List.NoDup (map u_id (List.filter is_admin users))).
  { clear -Hn. induction users as [|x l IH]; [constructor|]. simpl in *.
    apply List.NoDup_cons_iff in Hn as [Hx Hn]. destruct (is_admin x); [|by apply IH]. simpl.
    constructor; [|by apply IH]. intros Hi. apply Hx. apply in_map_iff in Hi as (y & E & Hy).
    apply filter_In in Hy as [Hy _]. rewrite <- E. by apply in_map. }
  assert (Hin : In u (List.filter is_admin users)) by (by apply filter_In).
  destruct (List.filter is_admin users) as [|x [|y r]] eqn:F; [done|done|].
  assert (Hxy : forall z, In z [x; y] -> In z users /\ is_admin z = true).
  { intros z Hz. apply filter_In. rewrite F. simpl in *. tauto. }
  simpl in Hnf. apply List.NoDup_cons_iff in Hnf as [Hx _].
  destruct (decide (u_id x = id)) as [Ex|]; [|exists x; split; [|split]; try apply Hxy; simpl; auto].
  exists y. destruct (Hxy y) as [? ?]; [simpl; auto|]. split; [done|]. split; [done|].
  intros Ey. apply Hx. left. congruence.
Qed.

Lemma update_user_keeps id f w :
  (forall u, u_id (f u) = u_id u) ->
  (forall u, In u (t_users (w_db w)) -> u_id u = id -> is_admin (f u) = is_admin u \/
     exists v, In v (t_users (w_db w)) /\ is_admin v = true /\ u_id v <> id) ->
  accounts_ok (w_db w) -> accounts_ok (w_db (update_user id f w).2).
Proof.
  intros Hid Hadm [Hn (u & Hu & Ha)]. destruct (update_user id f w) as [[e|n] w'] eqn:E.
  { apply exec_inl in E. simpl. rewrite E. split; [done|]. by exists u. }
  apply exec_inr in E. injection E as _ E. simpl. rewrite <- E. clear E. split.
  - unfold user_ids_unique. simpl. rewrite update_where_column by (intros; apply Hid). done.
  - destruct (decide (u_id u = id)) as [Hi|Hi].
    + destruct (Hadm u Hu Hi) as [Hk|(v & Hv & Hav & Hvi)].
      * exists (f u). simpl. split; [|by rewrite Hk]. apply in_map_iff. exists u.
        by rewrite Hi, N.eqb_refl.
      * exists v. simpl. split; [|done]. apply in_map_iff. exists v.
        by rewrite (proj2 (N.eqb_neq _ _) Hvi).
    + exists u. simpl. split; [|done]. apply in_map_iff. exists u.
      by rewrite (proj2 (N.eqb_neq _ _) Hi).
Qed.

Lemma patch_role_ok id role w :
  accounts_ok (w_db w) -> accounts_ok (w_db (patch_role id role w).2).
Proof.
  intros Hok. unfold patch_role. destruct role as [raw|]; [|done].
  destruct (ParseRole raw) as [newRole|]; [|done].
  unfold mbind, go_bind, attempt. pose proof (IsLastAdmin_db id w) as Edb.
  destruct (IsLastAdmin id w) as [[e|last] w1] eqn:E1; simpl in Edb; [by simpl; rewrite Edb|].
  destruct (last && _) eqn:El; [by simpl; rewrite Edb|].
  assert (Hk : accounts_ok (w_db (update_user id (set_role newRole) w1).2)).
  { apply update_user_keeps; [done| |by rewrite Edb]. intros u Hu Hi.
    destruct (String.eqb_spec newRole RoleAdmin) as [->|Hr].
    - destruct (is_admin u) eqn:Ha; [by left|]. right. rewrite Edb in *.
      destruct Hok as [Hn (v & Hv & Hav)]. exists v. split; [done|]. split; [done|].
      intros Hvi. assert (u = v) as ->; [|congruence].
      revert Hn Hu Hv. rewrite <- Hvi in Hi. revert Hi. clear. unfold user_ids_unique.
      induction (t_users (w_db w)) as [|x l IH]; [done|]. simpl. intros E Hn [->|H1] [->|H2]; [done|..];
        apply List.NoDup_cons_iff in Hn as [Hx Hn].
      + exfalso. apply Hx. rewrite E. by apply in_map.
      + exfalso. apply Hx. rewrite <- E. by apply in_map.
      + by apply IH.
    - right. destruct last; [done|]. rewrite Edb. destruct Hok as [Hn Ha].
      apply other_admin; [done|done|]. intros. by eapply IsLastAdmin_false. }
  by destruct (update_user id (set_role newRole) w1) as [[] ?].
Qed.

Lemma patch_password_ok id password w :
  accounts_ok (w_db w) -> accounts_ok (w_db (patch_password id password w).2).
Proof.
  intros Hok. unfold patch_password. destruct password as [raw|]; [|done].
  destruct (String.eqb _ ""); [done|]. destruct (HashPassword _) as [hash|]; [|done].
  unfold mbind, go_bind, attempt.
  pose proof (update_user_keeps id (set_hash hash) w (fun _ => eq_refl) ltac:(by left) Hok).
  by destruct (update_user id (set_hash hash) w) as [[] ?].
Qed.

Lemma handleDelete_ok origins r w :
  accounts_ok (w_db w) -> accounts_ok (w_db (handleDelete origins r w).2).
Proof.
  intros Hok. unfold handleDelete. destruct (require_method _ _); [done|].
  destruct (RequireMinRole _ _ _) as [|p]; [done|]. destruct (parseUserUUID r) as [id|]; [|done].
  destruct (N.eqb id _); [done|]. unfold mbind, go_bind, attempt.
  pose proof (IsLastAdmin_db id w) as Edb.
  destruct (IsLastAdmin id w) as [[e|[]] w1] eqn:E1; simpl in Edb; try by simpl; rewrite Edb.
  assert (Hk : accounts_ok (w_db (delete_user id w1).2)).
  { destruct (delete_user id w1) as [[e|n] w2] eqn:E2.
    { apply exec_inl in E2. simpl. by rewrite E2, Edb. }
    apply exec_inr in E2. injection E2 as _ E2. simpl. rewrite <- E2, Edb. clear E2. split.
    - unfold user_ids_unique. simpl. destruct Hok as [Hn _]. revert Hn. unfold user_ids_unique, delete_where.
      clear. induction (t_users (w_db w)) as [|x l IH]; [done|]. simpl. intros Hn.
      apply List.NoDup_cons_iff in Hn as [Hx Hn]. destruct (negb _); [|by apply IH]. simpl. constructor; [|by apply IH].
      intros Hi. apply Hx. apply in_map_iff in Hi as (y & E & Hy). apply filter_In in Hy as [Hy _].
      rewrite <- E. by apply in_map.
    - destruct Hok as [Hn Ha]. destruct (other_admin (t_users (w_db w)) id Hn Ha) as (v & Hv & Hav & Hvi).
      { intros. by eapply IsLastAdmin_false. }
      exists v. split; [|done]. simpl. apply filter_In. split; [done|].
      by rewrite (proj2 (N.eqb_neq _ _) Hvi). }
  destruct (delete_user id w1) as [[e|[|n]] w2]; done.
Qed.

Lemma handleCreate_keeps_admin origins r : db_steps (keeps has_admin) (handleCreate (L := L) origins r).
Proof.
  unfold handleCreate. db_walk. apply steps_insert_id; [typeclasses eauto|]; intros id db t x db'.
  destruct (negb _); [done|]. destruct (existsb _ _); [done|]. intros [= _ <-] (adm & Hadm & Ha).
  exists adm. split; [|done]. simpl. apply in_or_app. by left.
Qed.
End accounts.

(** C34: with the account routes run one request at a time, an administrator always
    remains: whatever the request and whichever statements fail, editing and deleting
    accounts keep ids unique and at least one admin, and creating accounts keeps an admin. *)
Theorem an_admin_always_remains `{JsonCodec} `{UuidLib} `{JwtLib} `{PasswordLib} {L} origins r (w : World L) :
  accounts_ok (w_db w) ->
  accounts_ok (w_db (handlePatch origins r w).2) /\
  accounts_ok (w_db (handleDelete origins r w).2) /\
  has_admin (w_db (handleCreate origins r w).2).
Proof.
  intros Hok. split; [|split; [by apply handleDelete_ok|apply handleCreate_keeps_admin, Hok]].
  unfold handlePatch. destruct (require_method _ _); [done|]. destruct (RequireMinRole _ _ _); [done|].
  destruct (parseUserUUID r) as [id|]; [|done]. destruct (read_body _ _); [|done].
  destruct (decode_patch _) as [req|]; [|done]. destruct (_ && _); [done|].
  unfold mbind, go_bind. pose proof (patch_role_ok id (pu_Role req) w Hok) as Ok1.
  destruct (patch_role id (pu_Role req) w) as [[e|[resp|[]]] w1]; [done..|].
  pose proof (patch_password_ok id (pu_Password req) w1 Ok1) as Ok2.
  by destruct (patch_password id (pu_Password req) w1) as [[e|[resp|[]]] w2].
Qed.

(** The check and the update are separate statements, so two requests that each
    demote one of the last two admins can both pass the check before either updates:
    both are told the other admin exists, and afterwards there is no admin. *)
Theorem concurrent_demotions_leave_no_admin `{UuidLib} {L} a b (w : World L) :
  w_faults w = [] -> user_ids_unique (w_db w) -> a <> b ->
  (forall u, In u (t_users (w_db w)) -> is_admin u = true <-> u_id u = a \/ u_id u = b) ->
  In a (map u_id (t_users (w_db w))) -> In b (map u_id (t_users (w_db w))) ->
  let '(r, w') := (last_a ← IsLastAdmin a; last_b ← IsLastAdmin b;
                   _ ← update_user a (set_role RoleViewer); _ ← update_user b (set_role RoleViewer);
                   mret (last_a, last_b)) w in
  r = inr (false, false) /\ ~ has_admin (w_db w').
Proof.
  intros Hf Hu Hab Hadm Ha Hb.
  assert (Hlast : forall x (v : World L), w_faults v = [] -> w_db v = w_db w -> (x = a \/ x = b) ->
    IsLastAdmin x v = (inr false, v)).
  { intros x v Hv Edb Hx. unfold IsLastAdmin, CountAdmins, mbind, go_bind, attempt, select, stmt, next_fault.
    rewrite !Hv, !Edb. assert (Hxin : In x (map u_id (t_users (w_db w)))) by (destruct Hx as [->| ->]; done).
    destruct (List.find _ _) as [u|] eqn:F.
    - apply find_some in F as [Hin E]. apply N.eqb_eq in E.
      assert (is_admin u = true) as Hau by (apply Hadm; [done|]; rewrite E; done).
      unfold is_admin in Hau. rewrite Hau. cbn [negb].
      assert (2 <= count_where is_admin (t_users (w_db w)))%nat as Hc.
      { apply in_map_iff in Ha as (ua & Ea & Ha), Hb as (ub & Eb & Hb). unfold count_where.
        assert (In ua (List.filter is_admin (t_users (w_db w)))) as H1
          by (apply filter_In; split; [done|]; apply Hadm; auto).
        assert (In ub (List.filter is_admin (t_users (w_db w)))) as H2
          by (apply filter_In; split; [done|]; apply Hadm; auto).
        destruct (List.filter _ _) as [|x1 [|x2 r]]; [done| |simpl; lia].
        destruct H1 as [->|[]], H2 as [->|[]]. congruence. }
      rewrite !Hv, !Edb. unfold mret, go_ret. by rewrite (proj2 (Z.eqb_neq _ _)) by lia.
    - exfalso. apply in_map_iff in Hxin as (u & E & Hin).
      pose proof (List.find_none _ _ F u Hin) as C. simpl in C. by rewrite E, N.eqb_refl in C. }
  unfold mbind, go_bind. rewrite (Hlast a w), (Hlast b w) by auto.
  unfold update_user, exec, stmt, next_fault. rewrite Hf. simpl. rewrite Hf. simpl.
  split; [done|]. intros (u & Hin & Hau). simpl in Hin.
  apply update_where_In in Hin as (u1 & Hin & ->). apply update_where_In in Hin as (u0 & Hin & ->).
  assert (Ei : u_id (if N.eqb (u_id u0) a then set_role RoleViewer u0 else u0) = u_id u0)
    by (by destruct (N.eqb _ a)).
  rewrite Ei in Hau. destruct (N.eqb_spec (u_id u0) b) as [E|Hnb]; [done|].
  destruct (N.eqb_spec (u_id u0) a) as [E|Hna]; [done|]. apply Hadm in Hau; [|done]. tauto.
Qed.

(** Editing an account is not atomic: a request that carries a new role and a blank
    password is answered 400 although the role has already been changed. *)
Theorem rejected_patch_changes_role `{JsonCodec} `{UuidLib} `{JwtLib} `{PasswordLib} {L}
    origins r (w : World L) id p req raw newRole pw :
  w_faults w = [] -> rq_method r = "PATCH"%string -> RequireMinRole origins r RoleAdmin = inr p ->
  parseUserUUID r = Some id -> (body ← read_body maxUserAdminJSON r; decode_patch body) = Some req ->
  pu_Role req = Some raw -> ParseRole raw = Some newRole -> pu_Password req = Some pw ->
  Str.trim_space pw = ""%string -> In id (map u_id (t_users (w_db w))) ->
  IsLastAdmin id w = (inr false, w) ->
  let '(resp, w') := handlePatch origins r w in
  resp = inr (writeTicketsError 400 "password cannot be empty") /\
  t_users (w_db w') = update_where (fun u => N.eqb (u_id u) id) (set_role newRole) (t_users (w_db w)).
Proof.
  intros Hf Hm Hp Hid Hreq Hro Hpr Hpw Hblank Hin Hl. unfold handlePatch, require_method.
  rewrite Hm, Hp, Hid. simpl. destruct (read_body _ r) as [body|]; [|done]. simpl in Hreq. rewrite Hreq.
  rewrite Hro, Hpw. simpl. unfold mbind at 1, go_bind at 1. unfold patch_role. rewrite Hpr.
  unfold mbind at 1, go_bind at 1, attempt at 1. rewrite Hl. simpl.
  unfold mbind, go_bind, attempt, update_user, exec, stmt, next_fault. rewrite Hf. simpl.
  assert (Nat.eqb (count_where (fun u => N.eqb (u_id u) id) (t_users (w_db w))) 0 = false) as ->.
  { apply Nat.eqb_neq. intros C. rewrite count_where_0 in C. apply in_map_iff in Hin as (u & E & Hu).
    pose proof (C u Hu) as C'. simpl in C'. by rewrite E, N.eqb_refl in C'. }
  simpl. rewrite Hblank. simpl. done.
Qed.

(** What a refused request is told. *)
Lemma RequireMinRole_refused `{JwtLib} `{UuidLib} origins r role resp :
  RequireMinRole origins r role = inl resp -> rs_status resp = 401 \/ rs_status resp = 403.
Proof.
  unfold RequireMinRole, RequirePrincipal. destruct (negb _); [intros [= <-]; by right|].
  destruct (real_principal r) as [p|]; [destruct (HasAtLeast _ _); [done|intros [= <-]; by right]|].
  destruct (String.eqb _ ""); [intros [= <-]; by left|]. destruct (JWTService_Parse _ _); [|intros [= <-]; by left].
  destruct (HasAtLeast _ _); [done|intros [= <-]; by right].
Qed.
