(* ===== verification/AuditTrail.v ===== *)
(** * The audit trail of the dashboard's requests

    internal/auth/audit.go, internal/api/audit.go and internal/database/audit_logs.go: the
    middleware that records successful mutations, the chain of middlewares in front of the
    mux (cmd/server), the listing for administrators; then what is recorded and what is not,
    and that the pages of the listing are the matching records in their order. *)

From S2P Require Import Prelude GoStd Float64 Json Ext World Auth JsonFacts AuthFacts.

#[local] Open Scope string_scope.
#[local] Open Scope list_scope.
#[local] Open Scope Z_scope.

(** ** The paths *)

Definition hex_byte (c : ascii) : bool :=
  Str.is_digit c || Str.in_range 65 70 c || Str.in_range 97 102 c.

Fixpoint hex_groups (ns : list nat) (gs : list string) : bool :=
  match ns, gs with
  | [], [] => true
  | n :: ns, g :: gs => Nat.eqb (String.length g) n && forallb hex_byte (Str.bytes g) && hex_groups ns gs
  | _, _ => false
  end.

(** [0-9a-fA-F]{8}-[0-9a-fA-F]{4}-...: between two slashes, or a slash and the end. *)
Definition uuid_shaped (s : string) : bool := hex_groups [8; 4; 4; 4; 12]%nat (Str.split_on "-" s).

(** assetPathUUID.FindStringSubmatch *)
Definition assetPathUUID (path : string) : option string :=
  match Str.split_on "/" path with
  | "" :: "v1" :: "assets" :: id :: _ => if uuid_shaped id then Some id else None
  | _ => None
  end.

(** dedicatedRESTAuditSkip.MatchString: (?i) holds to the end of the group it is in. *)
Definition dedicatedRESTAuditSkip (path : string) : bool :=
  match Str.split_on "/" path with
  | ["" ; v; kind; id; verb] =>
      uuid_shaped id
      && ((String.eqb v "v1" && String.eqb kind "devices"
           && existsb (Str.equal_fold verb) ["commands"; "assign"; "unassign"; "lock"; "wipe"])
          || (Str.equal_fold v "v1" && Str.equal_fold kind "incidents" && Str.equal_fold verb "commands"))
  | _ => false
  end.

Definition skipHTTPAudit : list string := ["POST /v1/auth/login"; "POST /v1/enroll"; "POST /v1/telemetry"].

Definition skipMutatingHTTPAudit (method path : string) : bool :=
  let path := Str.trim_suffix path "/" in
  let path := if String.eqb path "" then "/" else path in
  existsb (String.eqb (method +:+ " " +:+ path)) skipHTTPAudit
  || (String.eqb method "POST" && dedicatedRESTAuditSkip path).

(** What is behind the first occurrence of a text: s[strings.Index(s, sub)+len(sub):]. *)
Fixpoint behind_first (sub s : string) : option string :=
  if Str.has_prefix s sub then Some (Str.drop (String.length sub) s)
  else match s with EmptyString => None | String _ r => behind_first sub r end.

Definition resource_prefixes : list (string * string) :=
  [("/v1/devices/", "device"); ("/v1/assets/", "asset"); ("/v1/incidents/", "incident"); ("/v1/users/", "user")].

Section paths.
Context `{UL : UuidLib}.

Definition parseOptionalAssetTarget (path : string) : option uuid := id ← assetPathUUID path; uuid_parse id.

Definition resource_at (path prefix : string) : option uuid :=
  rest ← behind_first prefix path;
  if String.eqb rest "" then None else uuid_parse (hd "" (Str.split_on "/" rest)).

Fixpoint first_resource (path : string) (l : list (string * string)) : string * option uuid :=
  match l with
  | [] => ("", None)
  | (prefix, typ) :: r =>
      match resource_at path prefix with
      | Some id => (typ, Some id)
      | None => first_resource path r
      end
  end.

Definition parsePathResource (path : string) : string * option uuid :=
  first_resource (Str.trim_suffix path "/") resource_prefixes.
End paths.

(** ** The middlewares *)

Definition mutating (method : string) : bool := existsb (String.eqb method) ["POST"; "PUT"; "PATCH"; "DELETE"].

Definition successful (status : Z) : bool := (200 <=? status) && (status <=? 299).

Section middleware.
Context `{UL : UuidLib} `{JL : JwtLib} `{NL : NetLib} {L : Type}.
Context (origins : list string) (next : Request -> go L Response).

(** The principal the request carries, or that of its token. *)
Definition adopt_principal (r : Request) : Request :=
  match real_principal r with
  | Some _ => r
  | None =>
      if negb (DashboardOriginOK r origins) then r else
      let tok := DashboardBearerToken r in
      if String.eqb tok "" then r else
      match JWTService_Parse (rq_time r) tok with
      | Some p => if N.eqb (p_UserID p) uuid_nil then r else with_principal p r
      | None => r
      end
  end.

Definition mutation_details (r : Request) (status : Z) : list (string * json) :=
  let rid := Str.trim_space (rq_request_id r) in
  [("http_method", jstr (rq_method r)); ("path", jstr (rq_path r)); ("http_status", JNum (F64.of_Z status))]
  ++ (if String.eqb rid "" then [] else [("request_id", jstr rid)]).

Definition mutation_target (path : string) : option uuid :=
  let '(resType, resID) := parsePathResource path in
  match parseOptionalAssetTarget path with
  | Some t => Some t
  | None => if String.eqb resType "device" then resID else None
  end.

Definition mutation_record (p : Principal) (r : Request) (status : Z) : AuditRecord :=
  let '(resType, resID) := parsePathResource (rq_path r) in
  {| rec_UserID := p_UserID p; rec_Action := "rest_mutation"; rec_ResourceType := resType; rec_ResourceID := resID;
     rec_TargetAssetID := mutation_target (rq_path r); rec_Details := mutation_details r status;
     rec_IPAddress := ClientIP r |}.

(** A failing insert is logged. *)
Definition MutatingAuditMiddleware (r : Request) : go L Response :=
  if negb (mutating (rq_method r)) then next r else
  if negb (Str.has_prefix (rq_path r) "/v1/") then next r else
  if skipMutatingHTTPAudit (rq_method r) (rq_path r) then next r else
  let r := adopt_principal r in
  resp ← next r;
  if negb (successful (rs_status resp)) then mret resp else
  match real_principal r with
  | None => mret resp
  | Some p => _ ← attempt (InsertAuditRecord (mutation_record p r (rs_status resp))); mret resp
  end.
End middleware.

(** withRequestID: a request without an id is given a new one. *)
Definition withRequestID (fresh : string) (r : Request) : Request :=
  {| rq_method := rq_method r; rq_path := rq_path r; rq_path_id := rq_path_id r; rq_path_id2 := rq_path_id2 r;
     rq_query := rq_query r; rq_origin := rq_origin r; rq_authorization := rq_authorization r;
     rq_request_id := if String.eqb (rq_request_id r) "" then fresh else rq_request_id r;
     rq_subprotocol := rq_subprotocol r; rq_forwarded_for := rq_forwarded_for r; rq_remote_addr := rq_remote_addr r;
     rq_tls := rq_tls r; rq_body := rq_body r; rq_principal := rq_principal r; rq_time := rq_time r |}.

(** The handler cmd/server gives to its http.Server: [fresh] is uuid.NewString(). *)
Definition serve `{UuidLib} `{JwtLib} `{NetLib} {L} (origins : list string) (mux : Request -> go L Response)
    (fresh : string) (r : Request) : go L Response :=
  match DashboardRBACMiddleware origins (withRequestID fresh r) with
  | Deny status msg => mret (writeTicketsError status msg)
  | Next r => MutatingAuditMiddleware origins mux r
  end.

(** ** PostgreSQL's ILIKE *)

(** The characters of a valid UTF-8 text. *)
Fixpoint characters (l : list ascii) : list (list ascii) :=
  match l with
  | [] => []
  | c :: r =>
      let cs := characters r in
      match r, cs with
      | d :: _, k :: t => if Str.cont d then (c :: k) :: t else [c] :: cs
      | _, _ => [c] :: cs
      end
  end.

Definition same_char (a b : list ascii) : bool := String.eqb (Str.of_bytes a) (Str.of_bytes b).

Fixpoint like (p : list (list ascii)) : list (list ascii) -> bool :=
  match p with
  | [] => fun s => match s with [] => true | _ => false end
  | ["%"%char] :: p =>
      fix anywhere s := like p s || match s with [] => false | _ :: r => anywhere r end
  | ["_"%char] :: p => fun s => match s with [] => false | _ :: r => like p r end
  | ["\"%char] :: c :: p => fun s => match s with d :: r => same_char c d && like p r | [] => false end
  | c :: p => fun s => match s with d :: r => same_char c d && like p r | [] => false end
  end.

Definition ilike `{PgLib} (s pattern : string) : bool :=
  like (characters (Str.bytes (pg_lower pattern))) (characters (Str.bytes (pg_lower s))).

(** ** The listing *)

Record AuditLogFilter := {
  af_UserID : option uuid; af_ActionSubstr : string; af_ResourceType : string; af_SortDesc : bool;
  af_FromTS : option Z; af_ToTS : option Z; af_Limit : Z; af_Offset : Z
}.

Definition ParseAuditLimit (s : string) (max : Z) : option Z :=
  match Str.atoi (Str.trim_space s) with
  | Some n => if n <=? 0 then None else Some (Z.min n max)
  | None => None
  end.

Section listing.
Context `{UL : UuidLib} `{PG : PgLib} {L : Type}.

(** The WHERE clause of both queries. *)
Definition audit_matches (f : AuditLogFilter) (a : AuditLog) : bool :=
  match af_UserID f with Some u => opt_eqb (al_UserID a) (Some u) | None => true end
  && (String.eqb (af_ActionSubstr f) "" || ilike (al_Action a) ("%" +:+ af_ActionSubstr f +:+ "%"))
  && (String.eqb (Str.trim_space (af_ResourceType f)) ""
      || String.eqb (al_ResourceType a) (Str.trim_space (af_ResourceType f)))
  && match af_FromTS f with Some t => t <=? al_CreatedAt a | None => true end
  && match af_ToTS f with Some t => al_CreatedAt a <? t | None => true end.

Definition audit_args_ok (f : AuditLogFilter) : bool :=
  text_ok (af_ActionSubstr f) && text_ok (Str.trim_space (af_ResourceType f)).

Definition CountAuditLogs (f : AuditLogFilter) : go L Z :=
  select (fun db _ =>
    if negb (audit_args_ok f) then inl (ErrMsg "invalid byte sequence for encoding UTF8") else
    inr (Z.of_nat (count_where (audit_matches f) (t_audit db)))).

Definition audit_order (f : AuditLogFilter) (a b : AuditLog) : bool :=
  if af_SortDesc f then al_CreatedAt b <? al_CreatedAt a else al_CreatedAt a <? al_CreatedAt b.

Definition audit_page (f : AuditLogFilter) (rows : list AuditLog) : list AuditLog :=
  firstn (Z.to_nat (af_Limit f)) (skipn (Z.to_nat (af_Offset f))
    (sort_slice (audit_order f) (List.filter (audit_matches f) rows))).

Definition ListAuditLogs (f : AuditLogFilter) : go L (list AuditLog) :=
  select (fun db _ =>
    if negb (audit_args_ok f) then inl (ErrMsg "invalid byte sequence for encoding UTF8") else
    inr (audit_page f (t_audit db))).

Definition names_by {A} (key : A -> uuid) (name : A -> string) (ids : list uuid) (rows : list A) : gmap uuid string :=
  list_to_map (map (fun x => (key x, name x)) (List.filter (fun x => existsb (N.eqb (key x)) ids) rows)).

Definition AuditLogUsernames (ids : list uuid) : go L (gmap uuid string) :=
  match ids with [] => mret ∅ | _ => select (fun db _ => inr (names_by u_id u_username ids (t_users db))) end.

Definition AuditLogHumanIDs (ids : list uuid) : go L (gmap uuid string) :=
  match ids with [] => mret ∅ | _ => select (fun db _ => inr (names_by a_id a_human_id ids (t_assets db))) end.
End listing.

Section list_route.
Context `{UL : UuidLib} `{PG : PgLib} `{GF : GoFmt} `{JL : JwtLib} {L : Type}.
Context (origins : list string).

(** The value of a parameter that is there and can be read, or the default. *)
Definition param_or {A} (r : Request) (k : string) (parse : string -> option A) (d : A) : A :=
  let v := Str.trim_space (rq_query r k) in
  if String.eqb v "" then d else match parse v with Some x => x | None => d end.

Definition lower_param (r : Request) (k : string) : string := Str.trim_space (Str.to_lower (rq_query r k)).

Definition audit_filter (r : Request) : AuditLogFilter :=
  let v := lower_param r "sort" in
  {| af_UserID := param_or r "user_id" (fun v => option_map Some (uuid_parse v)) None;
     af_ActionSubstr := Str.trim_space (rq_query r "action");
     af_ResourceType := Str.trim_space (rq_query r "resource_type");
     af_SortDesc := negb (String.eqb v "asc" || String.eqb v "created_at_asc" || String.eqb (lower_param r "order") "asc");
     af_FromTS := param_or r "from" (fun v => option_map Some (Cal.parse_date v)) None;
     af_ToTS := param_or r "to" (fun v => option_map (fun t => Some (t + Cal.day_ns)) (Cal.parse_date v)) None;
     af_Limit := param_or r "limit" (fun v => ParseAuditLimit v 200) 50;
     af_Offset := param_or r "offset" (fun v => ParseAuditLimit v (2 ^ 30)) 0 |}.

(** The ids in the order they first appear. *)
Definition first_seen (ids : list (option uuid)) : list uuid :=
  fold_left (fun seen o => match o with
                           | Some x => if existsb (N.eqb x) seen then seen else seen ++ [x]
                           | None => seen end) ids [].

Definition named (names : gmap uuid string) (id : option uuid) : option string :=
  i ← id; n ← names !! i; if String.eqb n "" then None else Some n.

Definition audit_item (unames humans : gmap uuid string) (a : AuditLog) : json :=
  let id u := jstr (uuid_string u) in
  JObj (jmap ([("id", id (al_ID a)); ("timestamp", jstr (fmt_time (al_CreatedAt a)))]
    ++ opt_json "user_id" id (al_UserID a) ++ opt_json "username" jstr (named unames (al_UserID a))
    ++ [("action", jstr (al_Action a))]
    ++ (if String.eqb (al_ResourceType a) "" then [] else [("resource_type", jstr (al_ResourceType a))])
    ++ opt_json "resource_id" id (al_ResourceID a) ++ opt_json "target_asset_id" id (al_TargetAssetID a)
    ++ opt_json "target_human_id" jstr (named humans (al_TargetAssetID a))
    ++ opt_json "ip_address" jstr (al_IPAddress a) ++ [("details", al_Details a)])).

Definition audit_handleList (r : Request) : go L Response :=
  let? _ := require_method "GET" r in
  let? _ := RequireMinRole origins r RoleAdmin in
  let f := audit_filter r in
  res ← attempt (
    total ← CountAuditLogs f;
    rows ← ListAuditLogs f;
    unames ← AuditLogUsernames (first_seen (map al_UserID rows));
    humans ← AuditLogHumanIDs (first_seen (map al_TargetAssetID rows));
    mret (total, map (audit_item unames humans) rows));
  mret match res with
       | inl _ => writeTicketsError 500 "failed to list audit logs"
       | inr (total, items) =>
           writeTicketsJSON 200 (JObj [("items", JArr items); ("total", JNum (F64.of_Z total))])
       end.
End list_route.

(** ** The record and the row *)

Section record.
Context `{UL : UuidLib} `{JL : JwtLib} `{NL : NetLib} {L : Type}.
Implicit Types w : World L.

Definition address (r : Request) : string := Str.trim_space (ClientIP r).

(** What PostgreSQL needs to take the record of a mutation: the user and the device it names
    are there, and what came from the client is text. *)
Definition recordable (db : Tables) (p : Principal) (r : Request) : bool :=
  negb (has_nul (rq_path r)) && negb (has_nul (Str.trim_space (rq_request_id r)))
  && text_ok (address r)
  && fk_ok u_id (t_users db) (Some (p_UserID p)) && fk_ok a_id (t_assets db) (mutation_target (rq_path r)).

Definition mutation_row (id : uuid) (now : Z) (p : Principal) (r : Request) (status : Z) : AuditLog :=
  {| al_ID := id; al_UserID := Some (p_UserID p); al_Action := "rest_mutation";
     al_ResourceType := (parsePathResource (rq_path r)).1; al_ResourceID := (parsePathResource (rq_path r)).2;
     al_TargetAssetID := mutation_target (rq_path r); al_Details := JObj (jmap (mutation_details r status));
     al_IPAddress := if String.eqb (address r) "" then None else Some (address r); al_CreatedAt := now |}.

Lemma resource_type_plain path : In (parsePathResource path).1 [""; "device"; "asset"; "incident"; "user"].
Proof.
  unfold parsePathResource, resource_prefixes. cbn [first_resource].
  repeat destruct (resource_at _ _); cbn [fst In]; tauto.
Qed.

Lemma resource_type_text path : let t := (parsePathResource path).1 in text_ok t = true /\ Str.trim_space t = t.
Proof.
  pose proof (resource_type_plain path) as H. cbn [In] in H.
  destruct H as [<-|[<-|[<-|[<-|[<-|[]]]]]]; by vm_compute.
Qed.

Lemma details_members a b c d : jmap [("http_method", a); ("path", b); ("http_status", c); ("request_id", d)] =
  [("http_method", a); ("http_status", c); ("path", b); ("request_id", d)].
Proof. reflexivity. Qed.

Lemma details_members_3 a b c : jmap [("http_method", a); ("path", b); ("http_status", c)] =
  [("http_method", a); ("http_status", c); ("path", b)].
Proof. reflexivity. Qed.

Lemma mutating_plain m : mutating m = true -> has_nul m = false.
Proof.
  intros (x & Hx & ->%String.eqb_eq)%existsb_exists. cbn [In] in Hx.
  by destruct Hx as [<-|[<-|[<-|[<-|[]]]]].
Qed.

Lemma details_nul r status : mutating (rq_method r) = true ->
  json_has_nul (JObj (jmap (mutation_details r status)))
  = has_nul (rq_path r) || has_nul (Str.trim_space (rq_request_id r)).
Proof.
  intros Hm%mutating_plain. unfold mutation_details. generalize (F64.of_Z status). intros n. cbv zeta.
  destruct (String.eqb_spec (Str.trim_space (rq_request_id r)) "") as [->|_]; cbn [app];
    rewrite ?details_members, ?details_members_3; cbn [json_has_nul existsb fst snd jstr];
    rewrite !has_nul_coerce, Hm; cbn; by rewrite ?orb_false_r.
Qed.

(** ** The insert *)

Lemma insert_mutation_exact p r status w :
  w_faults w = [] -> mutating (rq_method r) = true -> p_UserID p <> uuid_nil ->
  exists res, InsertAuditRecord (mutation_record p r status) w =
    (res, if recordable (w_db w) p r
          then set_db (with_audit (t_audit (w_db w) ++
                 [mutation_row (gen_random_uuid (w_next_id w)) (w_now w) p r status]) (w_db w)) (draw_id w)
          else w).
Proof.
  intros Hf Hm Hp%N.eqb_neq. unfold InsertAuditRecord, mutation_record.
  pose proof (resource_type_text (rq_path r)) as [Htext Htrim].
  destruct (parsePathResource (rq_path r)) as [ty res] eqn:E. cbn [fst] in *. cbn [rec_Action rec_UserID rec_ResourceType
    rec_ResourceID rec_TargetAssetID rec_Details rec_IPAddress].
  replace (String.eqb (Str.trim_space "rest_mutation") "") with false by reflexivity. cbn iota.
  unfold InsertAuditLogRow. rewrite insert_id_ok by done. cbn [al_UserID al_Action al_ResourceType al_ResourceID
    al_TargetAssetID al_Details al_IPAddress]. rewrite Hp. cbv zeta. rewrite details_nul by done.
  unfold recordable. fold (address r). rewrite !map_cons, !Htrim. cbn [forallb]. rewrite Htext.
  replace (text_ok (Str.trim_space (Str.trim_space "rest_mutation"))) with true by reflexivity.
  assert (Hip : forallb text_ok (map Str.trim_space (option_list (if String.eqb (address r) "" then None else Some (address r))))
    = text_ok (address r)).
  { destruct (String.eqb_spec (address r) "") as [->|_]; [done|]. cbn. unfold address. by rewrite Str.trim_space_idem, andb_true_r. }
  assert (Hrow : match (if String.eqb (address r) "" then None else Some (address r)) with
    | Some ip => if String.eqb (Str.trim_space ip) "" then None else Some (Str.trim_space ip) | None => None end
    = if String.eqb (address r) "" then None else Some (address r)).
  { destruct (String.eqb (address r) "") eqn:Ea; [done|]. unfold address in *. by rewrite Str.trim_space_idem, Ea. }
  rewrite Hip, Hrow, !Hp. set (db := w_db w). unfold mutation_row. rewrite E. cbn [fst snd].
  destruct (has_nul (rq_path r)), (has_nul (Str.trim_space (rq_request_id r))), (text_ok (address r)),
    (fk_ok u_id (t_users db) (Some (p_UserID p))), (fk_ok a_id (t_assets db) (mutation_target (rq_path r)));
    cbn [andb orb negb]; eexists; try reflexivity.
Qed.
End record.

(** ** The middlewares *)

Section trail.
Context `{UL : UuidLib} `{JL : JwtLib} `{NL : NetLib} {L : Type}.
Context (origins : list string) (mux : Request -> go L Response).
Implicit Types w : World L.

(** What the middleware records: a mutation on a protected route that does not record itself. *)
Definition dashboard_mutation (r : Request) : bool :=
  mutating (rq_method r) && Str.has_prefix (rq_path r) "/v1/"
  && negb (dashboardRBACPublic (rq_method r) (rq_path r)) && negb (skipMutatingHTTPAudit (rq_method r) (rq_path r)).

Lemma mutation_method r : dashboard_mutation r = true -> mutating (rq_method r) = true.
Proof. by intros [[[Hm _]%andb_true_iff _]%andb_true_iff _]%andb_true_iff. Qed.

Lemma adopt_known p r : p_UserID p <> uuid_nil -> adopt_principal origins (with_principal p r) = with_principal p r.
Proof. intros Hp%N.eqb_neq. unfold adopt_principal, real_principal. cbn. by rewrite Hp. Qed.

Lemma real_with_principal p r : p_UserID p <> uuid_nil -> real_principal (with_principal p r) = Some p.
Proof. intros Hp%N.eqb_neq. unfold real_principal. cbn. by rewrite Hp. Qed.

Lemma serve_mutation fresh r r' :
  dashboard_mutation r = true -> DashboardRBACMiddleware origins (withRequestID fresh r) = Next r' ->
  exists p, JWTService_Parse (rq_time r) (DashboardBearerToken r) = Some p /\ p_UserID p <> uuid_nil /\
    r' = with_principal p (withRequestID fresh r) /\
    serve origins mux fresh r =
      (resp ← mux r';
       if negb (successful (rs_status resp)) then mret resp else
       _ ← attempt (InsertAuditRecord (mutation_record p r' (rs_status resp))); mret resp).
Proof.
  intros [[[Hm Hp]%andb_true_iff Hpub%negb_true_iff]%andb_true_iff Hskip%negb_true_iff]%andb_true_iff Hr.
  destruct (rbac_protected origins (withRequestID fresh r) r') as (p & Hj & Hn & _ & -> & _); [done| |done|done|].
  { cbn. intros E. by rewrite E in Hm. }
  exists p. split; [done|]. split; [done|]. split; [done|]. unfold serve. rewrite Hr. unfold MutatingAuditMiddleware.
  rewrite adopt_known, real_with_principal by done. cbn [rq_method rq_path with_principal withRequestID].
  by rewrite Hm, Hp, Hskip.
Qed.

(** C13: the audit trail of the dashboard is complete.  Whatever the handlers behind the
    middlewares do with a mutating request that passes the RBAC check, on any route that does
    not record itself, the client gets their answer; and when its status is from 200 to 299, exactly one
    row is added behind what they left, naming the user of the token, the route, the resource,
    the status and the client's address, provided that user and the named device exist and the
    path, the request id and the address are texts PostgreSQL takes.  Otherwise, and for every
    answer that is not a success, nothing is added. *)
Theorem mutations_are_recorded fresh r r' w resp w1 :
  dashboard_mutation r = true ->
  DashboardRBACMiddleware origins (withRequestID fresh r) = Next r' ->
  mux r' w = (inr resp, w1) -> w_faults w1 = [] ->
  exists p, JWTService_Parse (rq_time r) (DashboardBearerToken r) = Some p /\ real_principal r' = Some p /\
    serve origins mux fresh r w =
      (inr resp,
       if (200 <=? rs_status resp) && (rs_status resp <=? 299) && recordable (w_db w1) p r'
       then set_db (with_audit (t_audit (w_db w1) ++
              [mutation_row (gen_random_uuid (w_next_id w1)) (w_now w1) p r' (rs_status resp)]) (w_db w1)) (draw_id w1)
       else w1).
Proof.
  intros Hd Hr Hw Hf. destruct (serve_mutation _ _ _ Hd Hr) as (p & Hj & Hn & -> & Hs). exists p.
  split; [done|]. split; [by apply real_with_principal|]. rewrite Hs, (bind_inr _ _ _ _ _ Hw).
  change ((200 <=? rs_status resp) && (rs_status resp <=? 299)) with (successful (rs_status resp)).
  destruct (successful (rs_status resp)); cbn [negb andb]; [|done].
  destruct (insert_mutation_exact p (with_principal p (withRequestID fresh r)) (rs_status resp) w1) as [res E]; [done| |done|].
  { exact (mutation_method r Hd). }
  unfold mbind at 1, go_bind at 1, attempt. by rewrite E.
Qed.

(** A success is not recorded when the account of its token has been deleted, or when the
    client forwards an address that is not UTF-8: the insert fails and only a warning is logged. *)
Lemma unrecorded_success fresh r r' w resp w1 p :
  dashboard_mutation r = true -> DashboardRBACMiddleware origins (withRequestID fresh r) = Next r' ->
  mux r' w = (inr resp, w1) -> w_faults w1 = [] -> JWTService_Parse (rq_time r) (DashboardBearerToken r) = Some p ->
  existsb (fun u => N.eqb (u_id u) (p_UserID p)) (t_users (w_db w1)) = false \/ Str.valid_utf8 (address r) = false ->
  serve origins mux fresh r w = (inr resp, w1).
Proof.
  intros Hd Hr Hw Hf Hj Hbad. destruct (serve_mutation _ _ _ Hd Hr) as (q & Hq & Hn & -> & Hs).
  rewrite Hj in Hq. injection Hq as <-. rewrite Hs, (bind_inr _ _ _ _ _ Hw).
  destruct (successful (rs_status resp)); cbn [negb]; [|done].
  destruct (insert_mutation_exact p (with_principal p (withRequestID fresh r)) (rs_status resp) w1) as [res E]; [done| |done|].
  { exact (mutation_method r Hd). }
  unfold mbind at 1, go_bind at 1, attempt. rewrite E.
  replace (recordable _ _ _) with false; [done|]. symmetry. unfold recordable, fk_ok, text_ok.
  change (address (with_principal p (withRequestID fresh r))) with (address r).
  destruct Hbad as [-> | ->]; rewrite ?andb_false_r; cbn [andb]; by rewrite ?andb_false_r.
Qed.

(** Reads, requests outside the API and the routes of the agents go straight through. *)
Lemma serve_unrecorded fresh r r' : mutating (rq_method r) = false \/ Str.has_prefix (rq_path r) "/v1/" = false \/
    skipMutatingHTTPAudit (rq_method r) (rq_path r) = true ->
  DashboardRBACMiddleware origins (withRequestID fresh r) = Next r' ->
  rq_method r' = rq_method r -> rq_path r' = rq_path r ->
  serve origins mux fresh r = mux r'.
Proof.
  intros H Hr Em Ep. unfold serve. rewrite Hr. unfold MutatingAuditMiddleware. rewrite Em, Ep.
  destruct H as [-> | [-> | ->]]; cbn [negb]; [done|by destruct (mutating _)|].
  by destruct (mutating _), (Str.has_prefix _ _).
Qed.
End trail.

(** ** The listing *)

Section pages.
Context `{UL : UuidLib} `{PG : PgLib}.

Definition at_page (n : Z) (k : nat) (f : AuditLogFilter) : AuditLogFilter :=
  {| af_UserID := af_UserID f; af_ActionSubstr := af_ActionSubstr f; af_ResourceType := af_ResourceType f;
     af_SortDesc := af_SortDesc f; af_FromTS := af_FromTS f; af_ToTS := af_ToTS f; af_Limit := n; af_Offset := n * Z.of_nat k |}.

Lemma pages_firstn {A} (l : list A) n K :
  concat (map (fun k => firstn n (skipn (n * k) l)) (seq 0 K)) = firstn (n * K) l.
Proof.
  induction K as [|K IH]; [by rewrite Nat.mul_0_r|]. rewrite seq_S, map_app, concat_app, IH. cbn [map concat].
  rewrite app_nil_r. replace (n * S K)%nat with (n * K + n)%nat by lia. cbn [Nat.add].
  apply take_take_drop.
Qed.

(** The pages of a listing, one after the other, are the matching records in their order. *)
Lemma audit_pages_partition f n K rows : 0 < n ->
  Z.of_nat (count_where (audit_matches f) rows) <= n * Z.of_nat K ->
  concat (map (fun k => audit_page (at_page n k f) rows) (seq 0 K))
  = sort_slice (audit_order f) (List.filter (audit_matches f) rows).
Proof.
  intros Hn Hall. unfold audit_page, at_page. cbn [af_Limit af_Offset].
  change (audit_order _) with (audit_order f). change (audit_matches _) with (audit_matches f).
  set (l := sort_slice _ _).
  rewrite (map_ext _ (fun k => firstn (Z.to_nat n) (skipn (Z.to_nat n * k) l)))
    by (intros k; do 2 f_equal; lia).
  rewrite pages_firstn. apply firstn_all2. unfold l. rewrite (Permutation_length (sort_slice_perm _ _)).
  unfold count_where in Hall. nia.
Qed.
End pages.
