(* ===== verification/DeviceCommands.v ===== *)
(** * Device commands (internal/database/device_commands.go)

    A device_commands row is one instruction for one device: it is inserted
    [pending], becomes [sent] when it has been handed to the agent's session, and
    [completed] or [failed] when the agent answers or cannot be reached. *)

From S2P Require Import Prelude GoStd Float64 Json Ext World.

Definition DeviceCommandTypePing : string := "ping".
Definition DeviceCommandTypeReboot : string := "reboot".
Definition DeviceCommandTypeScript : string := "script".
Definition DeviceCommandTypeRestartService : string := "restart_service".
Definition DeviceCommandTypePushConfig : string := "push_config".
Definition DeviceCommandTypeQuarantine : string := "quarantine".

Definition DeviceCommandStatusPending : string := "pending".
Definition DeviceCommandStatusSent : string := "sent".
Definition DeviceCommandStatusCompleted : string := "completed".
Definition DeviceCommandStatusFailed : string := "failed".

Definition maxDeviceCommandOutputLen : Z := 256 * 1024.

(** "\n…(output truncated)": the ellipsis is three bytes. *)
Definition truncated_suffix : string :=
  Str.of_bytes (map ascii_of_N [10; 226; 128; 166]%N) +:+ "(output truncated)".

Definition truncateOutput (s : string) : string :=
  if Str.slen s <=? maxDeviceCommandOutputLen then s
  else Str.take (Z.to_nat maxDeviceCommandOutputLen) s +:+ truncated_suffix.

Definition validateDeviceCommandType (t : string) : bool :=
  existsb (String.eqb t)
    [DeviceCommandTypePing; DeviceCommandTypeReboot; DeviceCommandTypeScript;
     DeviceCommandTypeRestartService; DeviceCommandTypePushConfig; DeviceCommandTypeQuarantine].

Definition validateDeviceCommandStatus (s : string) : bool :=
  existsb (String.eqb s)
    [DeviceCommandStatusPending; DeviceCommandStatusSent; DeviceCommandStatusCompleted; DeviceCommandStatusFailed].

(** ** The row *)

Definition with_status (status output : string) (completed : option Z) (r : CommandRow) : CommandRow :=
  let c := cr_cmd r in
  {| cr_cmd := {| dc_ID := dc_ID c; dc_DeviceID := dc_DeviceID c; dc_CommandType := dc_CommandType c;
                  dc_Payload := dc_Payload c; dc_Status := status; dc_Output := output;
                  dc_CreatedAt := dc_CreatedAt c; dc_CompletedAt := completed |};
     cr_incident := cr_incident r |}.

Definition is_command (id : uuid) (r : CommandRow) : bool := N.eqb (dc_ID (cr_cmd r)) id.
Definition asset_exists (db : Tables) (id : uuid) : bool := existsb (fun a => N.eqb (a_id a) id) (t_assets db).

Definition bad_text : err := ErrMsg "invalid byte sequence for encoding UTF8".

Section ops.
Context `{JC : JsonCodec} `{UL : UuidLib} `{GF : GoFmt} {L : Type}.

Definition validateQuarantineCommandPayload (payload : string) : bool :=
  match unmarshal_map payload with
  | Some m => is_some_b (dec_bool false (field "enabled" m))
  | None => false
  end.

Definition needs_payload (commandType : string) : bool :=
  existsb (String.eqb commandType)
    [DeviceCommandTypeScript; DeviceCommandTypeRestartService; DeviceCommandTypePushConfig; DeviceCommandTypeQuarantine].

Definition InsertDeviceCommand (deviceID : uuid) (commandType payload : string) (incidentContext : option uuid)
    : go L DeviceCommand :=
  let commandType := Str.trim_space (Str.to_lower commandType) in
  if negb (validateDeviceCommandType commandType)
  then fail (ErrMsg ("database: invalid command_type " +:+ commandType)) else
  let payload := Str.trim_space payload in
  if needs_payload commandType && String.eqb payload ""
  then fail (ErrMsg ("database: payload required for command_type " +:+ commandType)) else
  if negb (needs_payload commandType) && negb (String.eqb payload "")
  then fail (ErrMsg "database: payload only allowed for script, restart_service, push_config, and quarantine") else
  if String.eqb commandType DeviceCommandTypeQuarantine && negb (validateQuarantineCommandPayload payload)
  then fail (ErrMsg "database: quarantine payload must be JSON with enabled boolean") else
  wrap "database: insert device command" (insert_id (fun id db now =>
    if negb (text_ok payload) then inl bad_text else
    if negb (asset_exists db deviceID) then inl (ErrMsg "violates foreign key constraint device_id") else
    if negb match incidentContext with
            | None => true
            | Some i => existsb (fun r => N.eqb (in_id r) i) (t_incidents db) end
    then inl (ErrMsg "violates foreign key constraint incident_context_id") else
    let cmd := {| dc_ID := id; dc_DeviceID := deviceID; dc_CommandType := commandType; dc_Payload := payload;
                  dc_Status := DeviceCommandStatusPending; dc_Output := ""; dc_CreatedAt := now;
                  dc_CompletedAt := None |} in
    inr (cmd, with_commands (t_commands db ++ [{| cr_cmd := cmd; cr_incident := incidentContext |}]) db))).

Definition GetDeviceCommand (commandID deviceID : uuid) : go L DeviceCommand :=
  r ← attempt (select (fun db _ =>
    match List.find (fun r => is_command commandID r &&
                      (N.eqb deviceID uuid_nil || N.eqb (dc_DeviceID (cr_cmd r)) deviceID)) (t_commands db) with
    | Some r => inr (cr_cmd r)
    | None => inl ErrNoRows
    end));
  match r with
  | inr cmd => mret cmd
  | inl e => if is_no_rows e then fail (ErrMsg "database: device command not found")
             else fail (ErrWrap "database: get device command" e)
  end.

(** [ORDER BY created_at DESC LIMIT n]; rows created at the same instant come in
    insertion order. *)
Definition newest_first (a b : CommandRow) : bool :=
  dc_CreatedAt (cr_cmd b) <? dc_CreatedAt (cr_cmd a).
Definition oldest_first (a b : CommandRow) : bool :=
  dc_CreatedAt (cr_cmd a) <? dc_CreatedAt (cr_cmd b).

Definition list_limit (limit : Z) : Z :=
  let limit := if limit <=? 0 then 50 else limit in if 200 <? limit then 200 else limit.

Definition ListDeviceCommands (deviceID : uuid) (limit : Z) : go L (list DeviceCommand) :=
  wrap "database: list device commands" (select (fun db _ =>
    inr (map cr_cmd (take (Z.to_nat (list_limit limit))
      (sort_slice newest_first
        (List.filter (fun r => N.eqb (dc_DeviceID (cr_cmd r)) deviceID) (t_commands db))))))).

Definition updateDeviceCommandStatus (commandID : uuid) (status output : string) (setCompleted : bool) : go L () :=
  if negb (validateDeviceCommandStatus status) then fail (ErrMsg ("database: invalid status " +:+ status)) else
  wrap "database: update device command" (exec (fun db now =>
    if negb (text_ok output) then inl bad_text else
    inr ((), with_commands (update_where (is_command commandID)
               (fun r => with_status status output
                  (if setCompleted then Some now else dc_CompletedAt (cr_cmd r)) r) (t_commands db)) db))).

Definition MarkDeviceCommandSent (commandID : uuid) : go L () :=
  updateDeviceCommandStatus commandID DeviceCommandStatusSent "" false.

Definition owns_serial (certSerial : string) (a : Asset) : bool :=
  match a_cert_serial a with Some s => String.eqb s certSerial | None => false end.

Definition DeviceCommandOwnedByCertSerial (commandID : uuid) (certSerial : string) : go L bool :=
  let certSerial := Str.trim_space certSerial in
  wrap "database: verify device command ownership" (select (fun db _ =>
    inr (existsb (fun d => is_command commandID d &&
           existsb (fun a => N.eqb (a_id a) (dc_DeviceID (cr_cmd d)) && owns_serial certSerial a) (t_assets db))
         (t_commands db)))).

(** incidents.go: one note object appended to incidents.work_notes. *)
Definition with_note (note : json) (now : Z) (i : Incident) : Incident :=
  {| in_id := in_id i; in_number := in_number i; in_caller := in_caller i; in_assigned := in_assigned i;
     in_cmdb_ci := in_cmdb_ci i; in_state := in_state i; in_impact := in_impact i; in_urgency := in_urgency i;
     in_short_description := in_short_description i; in_work_notes := in_work_notes i ++ [note];
     in_sla_due := in_sla_due i; in_source_alert_fingerprint := in_source_alert_fingerprint i;
     in_created_at := in_created_at i; in_updated_at := now |}.

Definition bad_jsonb : err := ErrMsg "unsupported Unicode escape sequence".

Definition AppendIncidentWorkNoteJSON (incidentID : uuid) (note : json) : go L () :=
  if N.eqb incidentID uuid_nil then fail (ErrMsg "database: invalid append") else
  n ← exec (fun db now =>
    if json_has_nul note then inl bad_jsonb else
    let is_it := fun i => N.eqb (in_id i) incidentID in
    inr (count_where is_it (t_incidents db),
         with_incidents (update_where is_it (with_note note now) (t_incidents db)) db));
  if Nat.eqb n 0 then fail ErrNoRows else mret ().

Definition AppendIncidentJournalForTerminalCommand (commandID : uuid) (success : bool) (output : string)
    (operator : uuid) (operatorName : string) : go L () :=
  if N.eqb commandID uuid_nil then fail (ErrMsg "database: incident journal args invalid") else
  row ← select (fun db _ =>
    match List.find (is_command commandID) (t_commands db) with
    | Some r => inr r
    | None => inl ErrNoRows
    end);
  match cr_incident row with
  | None => mret ()
  | Some incidentID =>
      if N.eqb incidentID uuid_nil then mret () else
      t ← now;
      let note := jmap ([
        ("ts", jstr (fmt_rfc3339 t)); ("author_type", jstr "operator"); ("kind", jstr "c2_command");
        ("command_id", jstr (uuid_string commandID)); ("command_type", jstr (dc_CommandType (cr_cmd row)));
        ("success", JBool success); ("exit_state", jstr (dc_Status (cr_cmd row)));
        ("agent_output", jstr (truncateOutput (Str.trim_space output)))]%string
        ++ (if N.eqb operator uuid_nil then []
            else ("operator_user_id", jstr (uuid_string operator))%string ::
                 (if String.eqb (Str.trim_space operatorName) "" then []
                  else [("operator_username", jstr (Str.trim_space operatorName))%string]))) in
      AppendIncidentWorkNoteJSON incidentID (JObj note)
  end.

(** CompleteDeviceCommand and FailDeviceCommand differ in the status and flag. *)
Definition finish (status : string) (success : bool) (commandID : uuid) (output : string) : go L DeviceCommand :=
  let output := truncateOutput output in
  _ ← updateDeviceCommandStatus commandID status output true;
  cmd ← GetDeviceCommand commandID uuid_nil;
  _ ← attempt (AppendIncidentJournalForTerminalCommand (dc_ID cmd) success (dc_Output cmd) uuid_nil "");
  mret cmd.

Definition CompleteDeviceCommand : uuid -> string -> go L DeviceCommand := finish DeviceCommandStatusCompleted true.
Definition FailDeviceCommand : uuid -> string -> go L DeviceCommand := finish DeviceCommandStatusFailed false.

Definition FailDeviceCommandIfPending (commandID : uuid) (message : string) : go L () :=
  let message := truncateOutput message in
  n ← wrap "database: fail pending device command" (exec (fun db now =>
    if negb (text_ok message) then inl bad_text else
    let p := fun r => is_command commandID r && String.eqb (dc_Status (cr_cmd r)) DeviceCommandStatusPending in
    inr (count_where p (t_commands db),
         with_commands (update_where p (with_status DeviceCommandStatusFailed message (Some now)) (t_commands db)) db)));
  if Nat.eqb n 0 then fail (ErrMsg "database: command not in pending state") else
  _ ← attempt (AppendIncidentJournalForTerminalCommand commandID false message uuid_nil "");
  mret ().

Record PendingDeviceCommandDispatch := { pd_Command : DeviceCommand; pd_HumanID : string }.

Definition pending_limit (limit : Z) : Z :=
  let limit := if limit <=? 0 then 10 else limit in if 50 <? limit then 50 else limit.

(** The join yields one row per (command, asset) pair. *)
Definition ListPendingDeviceCommandsForCertSerial (certSerial : string) (limit : Z)
    : go L (list PendingDeviceCommandDispatch) :=
  let certSerial := Str.trim_space certSerial in
  if String.eqb certSerial "" then fail (ErrMsg "database: cert serial required") else
  wrap "database: list pending device commands" (select (fun db _ =>
    inr (take (Z.to_nat (pending_limit limit))
          (flat_map (fun r =>
             map (fun a => {| pd_Command := cr_cmd r; pd_HumanID := a_human_id a |})
               (List.filter (fun a => N.eqb (a_id a) (dc_DeviceID (cr_cmd r)) && owns_serial certSerial a)
                  (t_assets db)))
             (sort_slice oldest_first
               (List.filter (fun r => String.eqb (dc_Status (cr_cmd r)) DeviceCommandStatusPending)
                  (t_commands db))))))).
End ops.
