(* ===== verification/CommandFlow.v ===== *)
(** * Device commands end to end (internal/ws, internal/api/device_commands.go)

    The REST route that creates a command and tries to deliver it, the delivery of
    what is still pending when an agent reconnects, and the agent's answer. *)

From S2P Require Import Prelude GoStd Float64 Json Ext World Auth DeviceCommands.

Definition maxDeviceCommandPayloadBytes : Z := 64 * 1024.

Section flow.
Context `{JC : JsonCodec} `{UL : UuidLib} `{GF : GoFmt} `{JL : JwtLib} `{NL : NetLib} `{C2 : C2Dispatcher L}.

(** map[string]string{"action": "device_command", ...} *)
Definition downlink (id : uuid) (commandType payload : string) : json :=
  JObj (jmap [("action", jstr "device_command"); ("command_id", jstr (uuid_string id));
              ("command_type", jstr commandType); ("payload", jstr payload)]%string).

(** ** ws/pending_device_commands.go *)

Definition flush_one (certSerial : string) (row : PendingDeviceCommandDispatch) : go L () :=
  let cmd := pd_Command row in
  ok ← dispatch certSerial (downlink (dc_ID cmd) (dc_CommandType cmd) (dc_Payload cmd));
  if negb ok then mret () else
  _ ← attempt (MarkDeviceCommandSent (dc_ID cmd)); mret ().

Definition FlushPendingDeviceCommands (certSerial : string) : go L () :=
  pending ← attempt (ListPendingDeviceCommandsForCertSerial certSerial 25);
  match pending with
  | inl _ => mret ()
  | inr pending => for_each pending (flush_one certSerial)
  end.

(** ** ws/device_command_wire.go *)

Definition deviceCommandToWire (cmd : DeviceCommand) (targetArxID : string) : json :=
  let omitempty k s := if String.eqb s "" then [] else [(k, jstr s)] in
  JObj (jmap ([("id", jstr (uuid_string (dc_ID cmd))); ("device_id", jstr (uuid_string (dc_DeviceID cmd)));
               ("command_type", jstr (dc_CommandType cmd))]%string
    ++ omitempty "payload"%string (dc_Payload cmd)
    ++ [("status", jstr (dc_Status cmd))]%string
    ++ omitempty "output"%string (dc_Output cmd)
    ++ [("created_at", jstr (fmt_rfc3339 (dc_CreatedAt cmd)))]%string
    ++ match dc_CompletedAt cmd with
       | Some t => [("completed_at", jstr (fmt_rfc3339 t))]%string
       | None => [] end
    ++ [("target_arx_id", jstr (Str.trim_space targetArxID))]%string)).

Definition MarshalDeviceCommandUpdate (targetArxID : string) (cmd : DeviceCommand) : json :=
  JObj (jmap [("type", jstr "device_command_update"); ("command", deviceCommandToWire cmd targetArxID)]%string).

(** ** ws/agent_uplink.go *)
Definition humanIDByCertSerial (certSerial : string) : go L string :=
  let certSerial := Str.trim_space certSerial in
  if String.eqb certSerial "" then mret ""%string else
  select (fun db _ => match List.find (owns_serial certSerial) (t_assets db) with
                      | Some a => inr (a_human_id a)
                      | None => inl ErrNoRows end).

(** ** ws/device_command_outcome.go *)

Record agentDeviceCommandResult := {
  rs_Type : string; rs_CommandID : string; rs_OK : bool; rs_Output : string; rs_Error : string
}.

Definition decode_result (raw : string) : option agentDeviceCommandResult :=
  m ← unmarshal_map raw;
  t ← dec_string "" (field "type" m);
  c ← dec_string "" (field "command_id" m);
  ok ← dec_bool false (field "ok" m);
  o ← dec_string "" (field "output" m);
  e ← dec_string "" (field "error" m);
  Some {| rs_Type := t; rs_CommandID := c; rs_OK := ok; rs_Output := o; rs_Error := e |}.

Definition outcome_output (probe : agentDeviceCommandResult) : string :=
  let output := Str.trim_space (rs_Output probe) in
  let output := if String.eqb output "" && negb (rs_OK probe) then Str.trim_space (rs_Error probe) else output in
  let output := if String.eqb output "" && rs_OK probe then "ok"%string else output in
  if negb (rs_OK probe) && String.eqb output "" then "command failed"%string else output.

(** [true]: the message was a command result and needs no further routing.  [dash]
    says whether a dashboard hub is attached. *)
Definition ApplyDeviceCommandOutcome (dash : bool) (certSerial raw : string) : go L bool :=
  match decode_result raw with
  | None => mret false
  | Some probe =>
      if negb (String.eqb (Str.trim_space (rs_Type probe)) "device_command_result") then mret false else
      let cmdIDStr := Str.trim_space (rs_CommandID probe) in
      if String.eqb cmdIDStr "" then mret true else
      match uuid_parse cmdIDStr with
      | None => mret true
      | Some cmdID =>
          let certSerial := Str.trim_space certSerial in
          owned ← attempt (DeviceCommandOwnedByCertSerial cmdID certSerial);
          match owned with
          | inl _ | inr false => mret true
          | inr true =>
              updated ← attempt (if rs_OK probe then CompleteDeviceCommand cmdID (outcome_output probe)
                                 else FailDeviceCommand cmdID (outcome_output probe));
              match updated with
              | inl _ => mret true
              | inr cmd =>
                  if negb dash then mret true else
                  hid ← attempt (humanIDByCertSerial certSerial);
                  match hid with
                  | inr h => if String.eqb (Str.trim_space h) "" then mret true
                             else _ ← emit (Broadcast (MarshalDeviceCommandUpdate h cmd)); mret true
                  | inl _ => mret true
                  end
              end
          end
      end
  end.

(** ** api/device_commands.go *)

Context (origins : list string).

Definition parseDeviceID (r : Request) : Response + uuid :=
  match uuid_parse (Str.trim_space (rq_path_id r)) with
  | None => err_resp 400 "invalid device id"
  | Some id => inr id
  end.

Definition ensureAssetExists (deviceID : uuid) : go L () :=
  r ← attempt (select (fun db _ => inr (asset_exists db deviceID)));
  match r with
  | inl _ => fail (ErrMsg "device lookup failed")
  | inr false => fail (ErrMsg "device not found")
  | inr true => mret ()
  end.

Definition ResolveAssetCertSerial (deviceID : uuid) : go L string :=
  r ← attempt (select (fun db _ =>
        match List.find (fun a => N.eqb (a_id a) deviceID) (t_assets db) with
        | Some a => inr (a_cert_serial a)
        | None => inl ErrNoRows end));
  match r with
  | inl e => fail (if is_no_rows e then ErrMsg "device not found" else ErrMsg "device lookup failed")
  | inr cs =>
      match cs with
      | Some s => if String.eqb (Str.trim_space s) "" then fail (ErrMsg "device has no enrolled certificate")
                  else mret (Str.trim_space s)
      | None => fail (ErrMsg "device has no enrolled certificate")
      end
  end.

Definition command_json (cmd : DeviceCommand) (status : string) : json :=
  let omitempty k s := if String.eqb s "" then [] else [(k, jstr s)] in
  JObj (jmap ([("id", jstr (uuid_string (dc_ID cmd))); ("device_id", jstr (uuid_string (dc_DeviceID cmd)));
               ("command_type", jstr (dc_CommandType cmd)); ("status", jstr status);
               ("created_at", jstr (fmt_rfc3339 (dc_CreatedAt cmd)))]%string
    ++ omitempty "payload"%string (dc_Payload cmd) ++ omitempty "output"%string (dc_Output cmd)
    ++ match dc_CompletedAt cmd with
       | Some t => [("completed_at", jstr (fmt_rfc3339 t))]%string | None => [] end)).

Definition handleList (r : Request) : go L Response :=
  let? _ := require_method "GET" r in
  let? _ := RequireMinRole origins r RoleViewer in
  let? deviceID := parseDeviceID r in
  ex ← attempt (ensureAssetExists deviceID);
  match ex with
  | inl e => mret (writeTicketsError 404 (err_text e))
  | inr _ =>
      commands ← attempt (ListDeviceCommands deviceID 100);
      mret match commands with
           | inl _ => writeTicketsError 500 "failed to list commands"
           | inr cs => writeTicketsJSON 200 (JObj [("commands"%string,
                         JArr (map (fun c => command_json c (dc_Status c)) cs))])
           end
  end.

Definition decode_create_command (body : string) : option (string * string) :=
  m ← unmarshal_map body;
  t ← dec_string "" (field "command_type" m);
  p ← dec_string "" (field "payload" m);
  Some (t, p).

(** The switch on the command type: a refusal or the payload to send. *)
Definition check_payload (commandType payload : string) : Response + string :=
  if String.eqb commandType DeviceCommandTypeScript then
    if negb (Str.valid_utf8 payload) then err_resp 400 "script payload must be valid UTF-8"
    else if maxDeviceCommandPayloadBytes <? Str.slen payload then err_resp 400 "script payload exceeds 65536 bytes"
    else if String.eqb (Str.trim_space payload) "" then err_resp 400 "script payload is required"
    else inr payload
  else if String.eqb commandType DeviceCommandTypeRestartService then
    let payload := Str.trim_space payload in
    if String.eqb payload "" then err_resp 400 "restart_service requires service name payload"
    else if 256 <? Str.slen payload then err_resp 400 "restart_service payload too long"
    else inr payload
  else if String.eqb commandType DeviceCommandTypePushConfig then
    if String.eqb (Str.trim_space payload) "" then err_resp 400 "push_config requires JSON payload"
    else if maxDeviceCommandPayloadBytes <? Str.slen payload then err_resp 400 "push_config payload exceeds 65536 bytes"
    else if negb (is_some_b (unmarshal_map payload)) then err_resp 400 "push_config payload must be JSON"
    else inr payload
  else if String.eqb commandType DeviceCommandTypeQuarantine then
    if String.eqb (Str.trim_space payload) "" then err_resp 400 "quarantine requires JSON payload"
    else if maxDeviceCommandPayloadBytes <? Str.slen payload then err_resp 400 "quarantine payload exceeds 65536 bytes"
    else if negb (is_some_b (unmarshal_map payload)) then err_resp 400 "quarantine payload must be JSON"
    else inr payload
  else if String.eqb commandType DeviceCommandTypePing || String.eqb commandType DeviceCommandTypeReboot then
    if negb (String.eqb (Str.trim_space payload) "") then err_resp 400 "payload is not used for ping or reboot commands"
    else inr payload
  else err_resp 400 "unsupported command_type".

(** What follows a successful insert: resolve the certificate, hand the command to the
    session, record where it got to.  The incident console shares it. *)
Definition deliver (cmd : DeviceCommand) (commandType payload : string) (audit : string -> AuditRecord)
    : go L Response :=
  cs ← attempt (ResolveAssetCertSerial (dc_DeviceID cmd));
  match cs with
  | inl e =>
      _ ← attempt (FailDeviceCommandIfPending (dc_ID cmd) ("asset certificate not available: " +:+ err_text e));
      mret (writeTicketsError 409 (err_text e))
  | inr certSerial =>
      ok ← dispatch certSerial (downlink (dc_ID cmd) commandType payload);
      if negb ok then
        _ ← attempt (FailDeviceCommand (dc_ID cmd) "agent not connected");
        mret (writeTicketsError 409 "agent not connected")
      else
        _ ← attempt (MarkDeviceCommandSent (dc_ID cmd));
        _ ← attempt (InsertAuditRecord (audit (uuid_string (dc_ID cmd))));
        mret (writeTicketsJSON 201 (command_json cmd DeviceCommandStatusSent))
  end.

Definition rest_audit (p : Principal) (r : Request) (deviceID : uuid) (commandType : string) (cmdID : string)
    : AuditRecord :=
  {| rec_UserID := p_UserID p; rec_Action := "command_executed"; rec_ResourceType := "device";
     rec_ResourceID := Some deviceID; rec_TargetAssetID := Some deviceID;
     rec_Details := [("command_id", jstr cmdID); ("command_type", jstr commandType); ("channel", jstr "rest")]%string;
     rec_IPAddress := ClientIP r |}.

Definition handleCreate (r : Request) : go L Response :=
  let? _ := require_method "POST" r in
  let? principal := RequireMinRole origins r RoleOperator in
  let? deviceID := parseDeviceID r in
  match read_body (maxDeviceCommandPayloadBytes + 4096) r with
  | None => mret (writeTicketsError 400 "invalid request body")
  | Some body =>
  match decode_create_command body with
  | None => mret (writeTicketsError 400 "invalid JSON body")
  | Some (rawType, rawPayload) =>
      let commandType := Str.trim_space (Str.to_lower rawType) in
      if String.eqb commandType "" then mret (writeTicketsError 400 "command_type is required") else
      let? payload := check_payload commandType rawPayload in
      ex ← attempt (ensureAssetExists deviceID);
      match ex with
      | inl e => mret (writeTicketsError 404 (err_text e))
      | inr _ =>
          res ← attempt (InsertDeviceCommand deviceID commandType payload None);
          match res with
          | inl e => mret (writeTicketsError 400 (err_text e))
          | inr cmd => deliver cmd commandType payload (rest_audit principal r deviceID commandType)
          end
      end
  end end.
End flow.
