(* ===== verification/CommandFacts.v ===== *)
(** * Device commands: lifecycle and delivery

    Properties of [DeviceCommands] and [CommandFlow]. *)

From S2P Require Import Prelude GoStd Float64 Json Ext World Auth DeviceCommands CommandFlow.

(** ** The table invariant *)

Definition settled (status : string) : bool :=
  String.eqb status DeviceCommandStatusCompleted || String.eqb status DeviceCommandStatusFailed.

Definition wf_command `{JsonCodec} (c : DeviceCommand) : Prop :=
  validateDeviceCommandType (dc_CommandType c) = true /\
  (needs_payload (dc_CommandType c) = true <-> dc_Payload c <> ""%string) /\
  (dc_CommandType c = DeviceCommandTypeQuarantine -> validateQuarantineCommandPayload (dc_Payload c) = true) /\
  validateDeviceCommandStatus (dc_Status c) = true /\
  (settled (dc_Status c) = true -> dc_CompletedAt c <> None) /\
  text_ok (dc_Payload c) = true /\ text_ok (dc_Output c) = true.

Definition commands_wf `{JsonCodec} (db : Tables) : Prop :=
  forall r, In r (t_commands db) -> wf_command (cr_cmd r).

(** What never changes once a command exists. *)
Definition frozen (r : CommandRow) : uuid * uuid * string * string * Z * option uuid :=
  (dc_ID (cr_cmd r), dc_DeviceID (cr_cmd r), dc_CommandType (cr_cmd r), dc_Payload (cr_cmd r),
   dc_CreatedAt (cr_cmd r), cr_incident r).

Definition appends_only (db db' : Tables) : Prop :=
  map frozen (t_commands db) `prefix_of` map frozen (t_commands db').

#[export] Instance appends_only_preorder : PreOrder appends_only.
Proof. split; [by intros x; unfold appends_only|]. intros x y z H1 H2. unfold appends_only in *. by etransitivity. Qed.

Section invariants.
Context `{JC : JsonCodec} `{UL : UuidLib} `{GF : GoFmt} `{JL : JwtLib} `{NL : NetLib} `{C2 : C2Dispatcher L}.

(** An update of the status columns that writes a valid status keeps the invariant. *)
Lemma with_status_wf p status output completed db :
  validateDeviceCommandStatus status = true -> text_ok output = true ->
  (forall r, settled status = true -> completed r <> None) ->
  commands_wf db ->
  commands_wf (with_commands (update_where p (fun r => with_status status output (completed r) r) (t_commands db)) db).
Proof.
  intros Hs Ho Hc Hwf r Hr. simpl in Hr. apply update_where_In in Hr as (r0 & H0 & ->).
  destruct (p r0); [|by apply Hwf]. destruct (Hwf _ H0) as (H1 & H2 & H3 & _ & _ & H6 & _).
  repeat split; simpl; try done; try apply H2. by apply Hc.
Qed.

Lemma with_status_appends p status output completed db :
  appends_only db
    (with_commands (update_where p (fun r => with_status status output (completed r) r) (t_commands db)) db).
Proof.
  unfold appends_only. simpl. rewrite update_where_column by done. done.
Qed.

Section walk.
Context (R : Tables -> Tables -> Prop) `{!PreOrder R}.
Context (Hnote : forall id note now db, R db (with_incidents
  (update_where (fun i => N.eqb (in_id i) id) (with_note note now) (t_incidents db)) db)).
Context (Haudit : forall a db, R db (with_audit a db)).
Context (Hupd : forall p status output completed db,
  validateDeviceCommandStatus status = true -> text_ok output = true ->
  (forall r, settled status = true -> completed r <> None) ->
  R db (with_commands (update_where p (fun r => with_status status output (completed r) r) (t_commands db)) db)).

Lemma updateDeviceCommandStatus_steps id status output setCompleted :
  (settled status = true -> setCompleted = true) ->
  db_steps R (updateDeviceCommandStatus (L := L) id status output setCompleted).
Proof.
  intros Hset. unfold updateDeviceCommandStatus. destruct (negb _) eqn:E; [by apply steps_fail|].
  apply negb_false_iff in E. apply steps_wrap, steps_exec; [done|]. intros db t x db'.
  destruct (text_ok output) eqn:Et; [|done]. simpl. intros [= _ <-].
  apply (Hupd _ _ _ (fun r => if setCompleted then Some t else dc_CompletedAt (cr_cmd r))); [done..|].
  intros r Hs. by rewrite (Hset Hs).
Qed.

Lemma AppendIncidentWorkNoteJSON_steps id note : db_steps R (AppendIncidentWorkNoteJSON (L := L) id note).
Proof.
  unfold AppendIncidentWorkNoteJSON. db_walk. apply steps_exec; [done|]. intros db t x db'.
  destruct (json_has_nul note); [done|]. intros [= _ <-]. by apply Hnote.
Qed.

Lemma Append_journal_steps id ok out op name :
  db_steps R (AppendIncidentJournalForTerminalCommand (L := L) id ok out op name).
Proof. unfold AppendIncidentJournalForTerminalCommand. db_walk. apply AppendIncidentWorkNoteJSON_steps. Qed.

Lemma GetDeviceCommand_steps id dev : db_steps R (GetDeviceCommand (L := L) id dev).
Proof. unfold GetDeviceCommand. db_walk. Qed.

Lemma finish_steps status ok id out : db_steps R (finish (L := L) status ok id out).
Proof.
  unfold finish. apply steps_bind; [done|by apply updateDeviceCommandStatus_steps|]. intros _.
  apply steps_bind; [done|apply GetDeviceCommand_steps|]. intros cmd.
  apply steps_bind; [done|apply steps_attempt, Append_journal_steps|]. intros _. by apply steps_pure.
Qed.

Lemma FailIfPending_steps id msg : db_steps R (FailDeviceCommandIfPending (L := L) id msg).
Proof.
  unfold FailDeviceCommandIfPending. apply steps_bind; [done| |].
  - apply steps_wrap, steps_exec; [done|]. intros db t x db'.
    destruct (text_ok _) eqn:E; [|done]. simpl. intros [= _ <-].
    by apply (Hupd _ _ _ (fun _ => Some t)).
  - intros n. destruct (Nat.eqb n 0); [by apply steps_fail|].
    apply steps_bind; [done|apply steps_attempt, Append_journal_steps|]. intros _. by apply steps_pure.
Qed.

Lemma MarkSent_steps id : db_steps R (MarkDeviceCommandSent (L := L) id).
Proof. by apply updateDeviceCommandStatus_steps. Qed.

Lemma InsertAuditRecord_steps rec : db_steps R (InsertAuditRecord (L := L) rec).
Proof.
  unfold InsertAuditRecord. destruct (String.eqb _ _); [by apply steps_pure|].
  unfold InsertAuditLogRow. apply steps_insert_id; [done|]. intros id db t x db'. cbv zeta.
  destruct (_ || _); [done|]. destruct (negb _); [done|]. intros [= _ <-]. by apply Haudit.
Qed.

Lemma deliver_steps cmd ct pl audit : db_steps R (deliver (L := L) cmd ct pl audit).
Proof.
  unfold deliver, FailDeviceCommand.
  pose proof FailIfPending_steps. pose proof finish_steps. pose proof MarkSent_steps.
  pose proof InsertAuditRecord_steps. unfold ResolveAssetCertSerial. db_walk.
Qed.

Lemma Flush_steps cs : db_steps R (FlushPendingDeviceCommands (L := L) cs).
Proof.
  pose proof MarkSent_steps. unfold FlushPendingDeviceCommands, flush_one,
    ListPendingDeviceCommandsForCertSerial. db_walk.
Qed.

Lemma Outcome_steps dash cs raw : db_steps R (ApplyDeviceCommandOutcome (L := L) dash cs raw).
Proof.
  pose proof finish_steps. unfold ApplyDeviceCommandOutcome, DeviceCommandOwnedByCertSerial,
    humanIDByCertSerial, CompleteDeviceCommand, FailDeviceCommand. db_walk.
Qed.

Context (Hins : forall dev ct pl inc, db_steps R (InsertDeviceCommand (L := L) dev ct pl inc)).

Lemma handleCreate_steps origins r : db_steps R (handleCreate (L := L) origins r).
Proof.
  pose proof deliver_steps. unfold handleCreate, ensureAssetExists. db_walk.
Qed.
End walk.

Lemma Insert_steps (R : Tables -> Tables -> Prop) `{!PreOrder R} dev ct pl inc :
  (forall c db, wf_command c -> dc_DeviceID c = dev ->
     R db (with_commands (t_commands db ++ [{| cr_cmd := c; cr_incident := inc |}]) db)) ->
  db_steps R (InsertDeviceCommand (L := L) dev ct pl inc).
Proof.
  intros Hadd. unfold InsertDeviceCommand. cbv zeta.
  set (t := Str.trim_space (Str.to_lower ct)). set (p := Str.trim_space pl).
  destruct (validateDeviceCommandType t) eqn:Et; [|by apply steps_fail]. simpl negb.
  destruct (needs_payload t) eqn:En; destruct (String.eqb_spec p "") as [Ep|Ep];
    try (simpl; by apply steps_fail); cbn [negb andb];
    (destruct (String.eqb t DeviceCommandTypeQuarantine && negb (validateQuarantineCommandPayload p)) eqn:Eq;
     [by apply steps_fail|]); apply steps_wrap, steps_insert_id; try done;
    intros id db now x db'; (destruct (text_ok p) eqn:Etx; [|done]); simpl;
    repeat (case_match; try done); intros [= _ <-]; apply Hadd; try done;
    repeat split; simpl; try done; try (by rewrite Ep); try congruence;
    (intros E; apply andb_false_iff in Eq as [Eq|Eq]; [by rewrite E in Eq|by apply negb_false_iff in Eq]).
Qed.
End invariants.

(** Every row of device_commands is well formed and stays so: whatever is requested,
    reported or flushed, and whichever statement fails, the type is one of the six, the
    payload is present exactly for the types that take one (and decodes, for quarantine),
    the status is one of the four, and a settled command has a completion time. *)
Theorem command_table_invariant `{JsonCodec} `{UuidLib} `{GoFmt} `{JwtLib} `{NetLib} `{C2Dispatcher L}
    origins r serial dash raw (w : World L) :
  commands_wf (w_db w) ->
  commands_wf (w_db (handleCreate origins r w).2) /\
  commands_wf (w_db (FlushPendingDeviceCommands serial w).2) /\
  commands_wf (w_db (ApplyDeviceCommandOutcome dash serial raw w).2).
Proof.
  assert (Hn : forall id note now db, keeps commands_wf db (with_incidents
    (update_where (fun i => N.eqb (in_id i) id) (with_note note now) (t_incidents db)) db)) by (intros id note now db Hk; exact Hk).
  assert (Ha : forall a db, keeps commands_wf db (with_audit a db)) by (intros a db Hk; exact Hk).
  assert (Hu : forall p status output completed db,
    validateDeviceCommandStatus status = true -> text_ok output = true ->
    (forall r, settled status = true -> completed r <> None) ->
    keeps commands_wf db (with_commands
      (update_where p (fun r => with_status status output (completed r) r) (t_commands db)) db)).
  { intros. intros Hk. by apply with_status_wf. }
  intros Hwf. split; [|split].
  - revert Hwf. apply (handleCreate_steps (keeps commands_wf)); [done..|].
    intros. apply Insert_steps; [typeclasses eauto|]. intros c db Hc _ Hk row Hr.
    apply in_app_or in Hr as [Hr|[<-|[]]]; [by apply Hk|done].
  - revert Hwf. by apply (Flush_steps (keeps commands_wf)).
  - revert Hwf. by apply (Outcome_steps (keeps commands_wf)).
Qed.

(** The command history is append-only: no operation removes a command or changes
    its id, device, type, payload, creation time or incident; only the status columns move. *)
Theorem command_history_append_only `{JsonCodec} `{UuidLib} `{GoFmt} `{JwtLib} `{NetLib} `{C2Dispatcher L}
    origins r serial dash raw (w : World L) :
  appends_only (w_db w) (w_db (handleCreate origins r w).2) /\
  appends_only (w_db w) (w_db (FlushPendingDeviceCommands serial w).2) /\
  appends_only (w_db w) (w_db (ApplyDeviceCommandOutcome dash serial raw w).2).
Proof.
  assert (Hn : forall id note now db, appends_only db (with_incidents
    (update_where (fun i => N.eqb (in_id i) id) (with_note note now) (t_incidents db)) db)) by (intros; unfold appends_only; done).
  assert (Ha : forall a db, appends_only db (with_audit a db)) by (intros; unfold appends_only; done).
  assert (Hu : forall p status output completed db,
    validateDeviceCommandStatus status = true -> text_ok output = true ->
    (forall r, settled status = true -> completed r <> None) ->
    appends_only db (with_commands
      (update_where p (fun r => with_status status output (completed r) r) (t_commands db)) db)).
  { intros. apply with_status_appends. }
  split; [|split].
  - apply (handleCreate_steps appends_only); [done..|].
    intros. apply Insert_steps; [typeclasses eauto|]. intros c db _ _. unfold appends_only. simpl.
    rewrite map_app. apply prefix_app_r. done.
  - by apply (Flush_steps appends_only).
  - by apply (Outcome_steps appends_only).
Qed.

(** ** Only the owner settles a command *)

Definition owned_row (db : Tables) (serial : string) (r : CommandRow) : bool :=
  existsb (fun a => N.eqb (a_id a) (dc_DeviceID (cr_cmd r)) && owns_serial serial a) (t_assets db).

(** The rows of other agents' devices are as they were. *)
Definition others_same (serial : string) (db db' : Tables) : Prop :=
  t_assets db' = t_assets db /\
  Forall2 (fun r r' => owned_row db serial r = false -> r' = r) (t_commands db) (t_commands db').

Lemma update_others serial id (g : CommandRow -> CommandRow) db :
  (forall r, In r (t_commands db) -> is_command id r = true -> owned_row db serial r = true) ->
  Forall2 (fun r r' => owned_row db serial r = false -> r' = r)
    (t_commands db) (update_where (is_command id) g (t_commands db)).
Proof.
  intros Ho. induction (t_commands db) as [|r l IH]; [constructor|]. simpl. constructor.
  - intros Hn. destruct (is_command id r) eqn:E; [|done]. rewrite (Ho r) in Hn; [done|by left|done].
  - apply IH. intros; apply Ho; [by right|done].
Qed.

Lemma others_refl serial db : others_same serial db db.
Proof.
  split; [done|]. induction (t_commands db); constructor; [done|done].
Qed.

Section owner.
Context `{JC : JsonCodec} `{UL : UuidLib} `{GF : GoFmt} `{JL : JwtLib} `{NL : NetLib} `{C2 : C2Dispatcher L}.

Definition same_rows (db db' : Tables) : Prop := t_assets db = t_assets db' /\ t_commands db = t_commands db'.
#[local] Instance same_rows_preorder : PreOrder same_rows.
Proof. split; [done|]. intros x y z [] []. split; congruence. Qed.

Lemma journal_same id ok out op name w :
  same_rows (w_db w) (w_db (AppendIncidentJournalForTerminalCommand (L := L) id ok out op name w).2).
Proof.
  revert w. change (db_steps same_rows (AppendIncidentJournalForTerminalCommand (L := L) id ok out op name)).
  unfold AppendIncidentJournalForTerminalCommand, AppendIncidentWorkNoteJSON. db_walk.
  apply steps_exec; [typeclasses eauto|]. intros db t n db'. destruct (json_has_nul _); [done|].
  by intros [= _ <-].
Qed.

Lemma steps_db {A} (m : go L A) : db_steps eq m -> forall w, w_db w = w_db (m w).2.
Proof. done. Qed.

Lemma owned_check id serial w :
  let '(res, w') := DeviceCommandOwnedByCertSerial (L := L) id serial w in
  w_db w' = w_db w /\
  (res = inr true -> existsb (fun d => is_command id d &&
     owned_row (w_db w) (Str.trim_space serial) d) (t_commands (w_db w)) = true).
Proof.
  unfold DeviceCommandOwnedByCertSerial, wrap. set (q := fun db (_ : Z) => inr _).
  pose proof (select_db (L := L) q w) as E.
  destruct (select q w) as [[e|b] w'] eqn:Es; simpl in E; [done|]. split; [done|].
  intros [= ->]. apply select_inr in Es. injection Es as Es. exact Es.
Qed.

Lemma nodup_id_eq {A} (key : A -> uuid) (l : list A) x y :
  List.NoDup (map key l) -> In x l -> In y l -> key x = key y -> x = y.
Proof.
  intros Hn. induction l as [|z l IH]; [done|]. simpl in Hn. apply List.NoDup_cons_iff in Hn as [Hz Hn].
  intros [->|Hx] [->|Hy] E; [done|..|by apply IH].
  - exfalso. apply Hz. rewrite E. by apply in_map.
  - exfalso. apply Hz. rewrite <- E. by apply in_map.
Qed.

(** Settling a command rewrites exactly the rows with its id. *)
Lemma finish_db status ok id out w :
  let '(res, w') := finish (L := L) status ok id out w in
  same_rows (w_db w') (w_db w) \/
  exists t, same_rows (w_db w') (with_commands (update_where (is_command id)
     (fun r => with_status status (truncateOutput out) (Some t) r) (t_commands (w_db w))) (w_db w)).
Proof.
  unfold finish, mbind, go_bind.
  destruct (updateDeviceCommandStatus id status (truncateOutput out) true w) as [res1 w1] eqn:E1.
  assert (H1 : same_rows (w_db w1) (w_db w) \/ exists t, same_rows (w_db w1) (with_commands
    (update_where (is_command id) (fun r => with_status status (truncateOutput out) (Some t) r)
       (t_commands (w_db w))) (w_db w))).
  { unfold updateDeviceCommandStatus in E1. destruct (negb _); [injection E1 as _ <-; by left|].
    unfold wrap in E1. destruct (exec _ w) as [[e|x] w2] eqn:E2.
    - injection E1 as _ <-. apply exec_inl in E2. left. by rewrite E2.
    - injection E1 as _ <-. apply exec_inr in E2. destruct (negb _); [done|].
      destruct x. injection E2 as E2. right. exists (w_now w). by rewrite <- E2. }
  destruct res1 as [e|[]]; [done|].
  assert (H2 : w_db (GetDeviceCommand id uuid_nil w1).2 = w_db w1).
  { symmetry. apply (GetDeviceCommand_steps eq). }
  destruct (GetDeviceCommand id uuid_nil w1) as [[e|cmd] w2]; simpl in H2; [by rewrite H2|].
  unfold attempt. pose proof (journal_same (dc_ID cmd) ok (dc_Output cmd) uuid_nil "" w2) as H3.
  destruct (AppendIncidentJournalForTerminalCommand _ _ _ _ _ w2) as [res3 w3]; simpl in *.
  rewrite H2 in H3. unfold same_rows in *. destruct H3 as [<- <-]. done.
Qed.
End owner.

(** An agent can only settle its own commands: a command_result message received on
    the session of [serial] leaves every command of a device enrolled under another
    certificate exactly as it was, whatever id the message names. *)
Theorem outcome_touches_only_own_commands `{JsonCodec} `{UuidLib} `{GoFmt} `{JwtLib} `{NetLib}
    `{C2Dispatcher L} dash serial raw (w : World L) :
  List.NoDup (map (fun r => dc_ID (cr_cmd r)) (t_commands (w_db w))) ->
  others_same (Str.trim_space serial) (w_db w) (w_db (ApplyDeviceCommandOutcome dash serial raw w).2).
Proof.
  intros Hnd. unfold ApplyDeviceCommandOutcome. destruct (decode_result raw) as [probe|]; [|apply others_refl].
  destruct (negb _); [apply others_refl|]. destruct (String.eqb _ ""); [apply others_refl|].
  destruct (uuid_parse _) as [id|]; [|apply others_refl].
  set (s := Str.trim_space serial). unfold mbind, go_bind. unfold attempt at 1.
  pose proof (owned_check id s w) as Ho.
  destruct (DeviceCommandOwnedByCertSerial id s w) as [[e|[]] w1]; destruct Ho as [Edb Ho];
    [rewrite <- Edb; apply others_refl| |rewrite <- Edb; apply others_refl].
  set (fin := if rs_OK probe then CompleteDeviceCommand id (outcome_output probe)
              else FailDeviceCommand id (outcome_output probe)).
  assert (Hfin : others_same s (w_db w) (w_db (fin w1).2)).
  { assert (Hf : exists status ok, fin = finish status ok id (outcome_output probe))
      by (unfold fin, CompleteDeviceCommand, FailDeviceCommand; destruct (rs_OK probe); eauto).
    destruct Hf as (status & ok & ->). pose proof (finish_db status ok id (outcome_output probe) w1) as Hf.
    destruct (finish _ _ _ _ w1) as [res w2]. rewrite Edb in Hf. simpl.
    destruct Hf as [[Ha Hc]|(t & Ha & Hc)]; unfold others_same; rewrite Ha, Hc; [apply others_refl|].
    split; [done|]. apply update_others. intros r Hr Hid.
    specialize (Ho eq_refl). apply existsb_exists in Ho as (d & Hd & Ho).
    apply andb_true_iff in Ho as [Hdid Ho]. unfold s in Ho. rewrite Str.trim_space_idem in Ho. fold s in Ho.
    apply N.eqb_eq in Hid, Hdid. assert (r = d) as ->; [|done].
    by apply (nodup_id_eq (fun r => dc_ID (cr_cmd r)) (t_commands (w_db w))); [| | |congruence]. }
  unfold attempt at 1. destruct (fin w1) as [[e|cmd] w2]; [done|]. simpl in Hfin.
  destruct (negb dash); [done|]. unfold attempt.
  assert (Hh : w_db (humanIDByCertSerial (L := L) s w2).2 = w_db w2).
  { symmetry. apply (steps_db (humanIDByCertSerial s)). unfold humanIDByCertSerial. db_walk. }
  destruct (humanIDByCertSerial s w2) as [[e|h] w3]; simpl in *; rewrite <- Hh in Hfin; [done|].
  by destruct (String.eqb _ "").
Qed.
