(* ===== verification/CommandDelivery.v ===== *)
(** * Device commands: what a delivery attempt leaves behind

    The outcome of creating a command and of flushing the pending ones, when the
    database answers; and three ways the recorded status can differ from what
    happened on the device. *)

From S2P Require Import Prelude GoStd Float64 Json Ext World Auth AuthFacts DeviceCommands CommandFlow CommandFacts.

Definition fresh_command_id `{UuidLib} {L} (w : World L) : Prop :=
  forall r, In r (t_commands (w_db w)) -> dc_ID (cr_cmd r) <> gen_random_uuid (w_next_id w).

Lemma update_fresh_tail id g old row :
  (forall r, In r old -> dc_ID (cr_cmd r) <> id) -> dc_ID (cr_cmd row) = id ->
  update_where (is_command id) g (old ++ [row]) = old ++ [g row].
Proof.
  intros Hold Hrow. unfold update_where. rewrite map_app. simpl.
  assert (is_command id row = true) as -> by (unfold is_command; by rewrite Hrow, N.eqb_refl).
  f_equal. rewrite <- (map_id old) at 2. apply map_ext_in. intros r Hr.
  assert (is_command id r = false) as ->; [|done]. apply N.eqb_neq. by apply Hold.
Qed.

Section delivery.
Context `{JC : JsonCodec} `{UL : UuidLib} `{GF : GoFmt} `{JL : JwtLib} `{NL : NetLib} `{C2 : C2Dispatcher L}.
Implicit Types w : World L.

Lemma Resolve_ok dev w : w_faults w = [] ->
  exists r, ResolveAssetCertSerial dev w = (r, w) /\
    forall e, r = inl e -> text_ok (truncateOutput ("asset certificate not available: " +:+ err_text e)) = true.
Proof.
  intros Hf. unfold ResolveAssetCertSerial, mbind, go_bind, attempt. rewrite select_ok by done.
  destruct (List.find _ _) as [a|]; [|eexists; split; [reflexivity|]; by intros e [= <-]].
  destruct (a_cert_serial a) as [s|]; [|eexists; split; [reflexivity|]; by intros e [= <-]].
  destruct (String.eqb _ ""); eexists; (split; [reflexivity|]); by intros e [= <-].
Qed.

Lemma updateStatus_ok id status output setc w : w_faults w = [] ->
  validateDeviceCommandStatus status = true -> text_ok output = true ->
  updateDeviceCommandStatus id status output setc w =
    (inr (), set_db (with_commands (update_where (is_command id)
       (fun r => with_status status output (if setc then Some (w_now w) else dc_CompletedAt (cr_cmd r)) r)
       (t_commands (w_db w))) (w_db w)) w).
Proof.
  intros Hf Hs Ho. unfold updateDeviceCommandStatus. rewrite Hs. simpl. unfold wrap.
  rewrite exec_ok by done. by rewrite Ho.
Qed.

Lemma journal_only id ok out op name : db_only (AppendIncidentJournalForTerminalCommand (L := L) id ok out op name).
Proof. unfold AppendIncidentJournalForTerminalCommand, AppendIncidentWorkNoteJSON. only_walk. Qed.

Lemma audit_only rec : db_only (InsertAuditRecord (L := L) rec).
Proof. unfold InsertAuditRecord, InsertAuditLogRow. only_walk. Qed.

Lemma audit_commands rec w : t_commands (w_db (InsertAuditRecord (L := L) rec w).2) = t_commands (w_db w).
Proof. symmetry. by apply (InsertAuditRecord_steps (same t_commands)). Qed.

Lemma journal_commands id ok out op name w :
  t_commands (w_db (AppendIncidentJournalForTerminalCommand (L := L) id ok out op name w).2) = t_commands (w_db w).
Proof. symmetry. by apply (Append_journal_steps (same t_commands)). Qed.

(** The command row is the last one and the only one with its id. *)
Definition at_tail old row w : Prop :=
  t_commands (w_db w) = old ++ [row] /\ (forall r, In r old -> dc_ID (cr_cmd r) <> dc_ID (cr_cmd row)).

Lemma FailIfPending_tail old row msg w :
  w_faults w = [] -> at_tail old row w -> dc_Status (cr_cmd row) = DeviceCommandStatusPending ->
  text_ok (truncateOutput msg) = true ->
  let w' := (FailDeviceCommandIfPending (L := L) (dc_ID (cr_cmd row)) msg w).2 in
  t_commands (w_db w') = old ++ [with_status DeviceCommandStatusFailed (truncateOutput msg) (Some (w_now w)) row] /\
  w_link w' = w_link w.
Proof.
  intros Hf [Hc Hold] Hp Ht. unfold FailDeviceCommandIfPending, mbind, go_bind, wrap.
  rewrite exec_ok by done. rewrite Ht. cbn [negb]. rewrite Hc.
  set (p := fun r => is_command _ r && _).
  assert (Hn : Nat.eqb (count_where p (old ++ [row])) 0 = false).
  { apply Nat.eqb_neq. intros C. rewrite count_where_0 in C. specialize (C row).
    unfold p, is_command in C. rewrite N.eqb_refl, Hp in C. simpl in C.
    discriminate C. apply in_or_app. right. by left. }
  rewrite Hn. unfold attempt.
  set (w1 := set_db _ w).
  pose proof (journal_commands (dc_ID (cr_cmd row)) false (truncateOutput msg) uuid_nil "" w1) as Hj.
  pose proof (journal_only (dc_ID (cr_cmd row)) false (truncateOutput msg) uuid_nil "" w1) as (Hl & _).
  destruct (AppendIncidentJournalForTerminalCommand _ _ _ _ _ w1) as [? w2]. simpl in *.
  rewrite Hj. split; [|done]. unfold update_where. rewrite map_app. simpl.
  assert (p row = true) as -> by (unfold p, is_command; by rewrite N.eqb_refl, Hp).
  f_equal. rewrite <- (map_id old) at 2. apply map_ext_in. intros r Hr.
  assert (p r = false) as ->; [|done]. unfold p, is_command.
  by rewrite (proj2 (N.eqb_neq _ _) (Hold r Hr)).
Qed.

Lemma finish_tail old row status ok out w :
  w_faults w = [] -> at_tail old row w -> text_ok (truncateOutput out) = true ->
  validateDeviceCommandStatus status = true ->
  let w' := (finish (L := L) status ok (dc_ID (cr_cmd row)) out w).2 in
  t_commands (w_db w') = old ++ [with_status status (truncateOutput out) (Some (w_now w)) row] /\
  w_link w' = w_link w.
Proof.
  intros Hf [Hc Hold] Ht Hs. unfold finish, mbind, go_bind.
  rewrite updateStatus_ok by done. rewrite Hc. rewrite update_fresh_tail by done.
  set (w1 := set_db _ w).
  assert (Hg : db_only (GetDeviceCommand (L := L) (dc_ID (cr_cmd row)) uuid_nil)) by (unfold GetDeviceCommand; only_walk).
  destruct (Hg w1) as (Hl1 & _).
  assert (Hd : w_db (GetDeviceCommand (dc_ID (cr_cmd row)) uuid_nil w1).2 = w_db w1)
    by (symmetry; apply (GetDeviceCommand_steps eq)).
  destruct (GetDeviceCommand _ _ w1) as [[e|cmd] w2]; simpl in *; [by rewrite Hd, Hl1|].
  unfold attempt.
  pose proof (journal_commands (dc_ID cmd) ok (dc_Output cmd) uuid_nil "" w2) as Hj.
  pose proof (journal_only (dc_ID cmd) ok (dc_Output cmd) uuid_nil "" w2) as (Hl & _).
  destruct (AppendIncidentJournalForTerminalCommand _ _ _ _ _ w2) as [? w3]. simpl in *.
  by rewrite Hj, Hl, Hd, Hl1.
Qed.
End delivery.

(** The two ways a created command can end, as the operator sees them. *)
Definition create_effect `{UuidLib} `{C2Dispatcher L} (resp : Response) (w w' : World L) : Prop :=
  rs_status resp <> 201 /\ t_commands (w_db w') = t_commands (w_db w) /\
    outbox (w_link w') = outbox (w_link w) \/
  exists row, t_commands (w_db w') = t_commands (w_db w) ++ [row] /\
    (rs_status resp = 409 /\ dc_Status (cr_cmd row) = DeviceCommandStatusFailed /\
       outbox (w_link w') = outbox (w_link w) \/
     rs_status resp = 201 /\ dc_Status (cr_cmd row) = DeviceCommandStatusSent /\
       exists serial payload,
         outbox (w_link w') = outbox (w_link w) ++
           [(serial, downlink (dc_ID (cr_cmd row)) (dc_CommandType (cr_cmd row)) payload)] /\
         In serial (connected_serials (w_link w)) /\ Str.trim_space payload = dc_Payload (cr_cmd row)).

Section create.
Context `{JC : JsonCodec} `{UL : UuidLib} `{GF : GoFmt} `{JL : JwtLib} `{NL : NetLib} `{CL : C2Laws L}.
Implicit Types w : World L.

Lemma deliver_effect old row ct pl audit w0 w :
  w_faults w = [] -> at_tail old row w -> dc_Status (cr_cmd row) = DeviceCommandStatusPending ->
  dc_CommandType (cr_cmd row) = ct -> Str.trim_space pl = dc_Payload (cr_cmd row) ->
  t_commands (w_db w0) = old -> w_link w0 = w_link w ->
  exists resp w', deliver (cr_cmd row) ct pl audit w = (inr resp, w') /\ create_effect resp w0 w'.
Proof.
  intros Hf Ht Hp Hct Hpl Hold Hlink. unfold deliver, mbind, go_bind. unfold attempt at 1.
  destruct (Resolve_ok (dc_DeviceID (cr_cmd row)) w Hf) as (r & -> & Htext).
  destruct r as [e|serial].
  - unfold attempt.
    pose proof (FailIfPending_tail old row _ w Hf Ht Hp (Htext e eq_refl)) as [Hc Hl].
    destruct (FailDeviceCommandIfPending _ _ w) as [? w1]. simpl in Hc, Hl.
    eexists _, w1. split; [reflexivity|]. right. eexists. rewrite Hold, Hc. split; [done|]. left.
    simpl. by rewrite Hl, Hlink.
  - unfold dispatch. destruct (dispatch_json serial _ (w_link w)) as [[] l'] eqn:Ed; cbn [negb].
    + apply dispatch_true in Ed as [Eo Ein]. unfold attempt at 1.
      assert (Hf1 : w_faults (set_link l' w) = []) by done.
      unfold MarkDeviceCommandSent. rewrite updateStatus_ok by done.
      destruct Ht as [Hc Hfr]. cbn [set_link w_db w_now]. rewrite Hc, update_fresh_tail by done.
      set (w1 := set_db _ (set_link l' w)). unfold attempt.
      pose proof (audit_commands (audit (uuid_string (dc_ID (cr_cmd row)))) w1) as Ha.
      pose proof (audit_only (audit (uuid_string (dc_ID (cr_cmd row)))) w1) as (Hl & _).
      destruct (InsertAuditRecord _ w1) as [? w2]. simpl in *.
      eexists _, w2. split; [reflexivity|]. right. eexists. rewrite Ha, Hold. split; [done|]. right.
      split; [done|]. split; [done|]. exists (Str.trim_space serial), pl.
      rewrite Hl, Eo, Hlink. simpl. by rewrite Hct.
    + apply dispatch_false in Ed. unfold attempt, FailDeviceCommand.
      destruct (finish_tail old row DeviceCommandStatusFailed false "agent not connected" (set_link l' w)) as [Hc Hl];
        try done.
      destruct (finish _ _ _ _ _) as [? w1]. simpl in *.
      eexists _, w1. split; [reflexivity|]. right. eexists. rewrite Hold, Hc. split; [done|]. left.
      simpl. by rewrite Hl, Ed, Hlink.
Qed.

(** An insert that succeeds adds one pending row with the next id. *)
Lemma Insert_ok dev ct pl inc w : w_faults w = [] ->
  let '(r, w') := InsertDeviceCommand (L := L) dev ct pl inc w in
  match r with
  | inl _ => w' = w
  | inr cmd =>
      t_commands (w_db w') = t_commands (w_db w) ++ [{| cr_cmd := cmd; cr_incident := inc |}] /\
      w_faults w' = [] /\ w_link w' = w_link w /\
      dc_ID cmd = gen_random_uuid (w_next_id w) /\ dc_DeviceID cmd = dev /\
      dc_Status cmd = DeviceCommandStatusPending /\
      dc_CommandType cmd = Str.trim_space (Str.to_lower ct) /\ dc_Payload cmd = Str.trim_space pl
  end.
Proof.
  intros Hf. unfold InsertDeviceCommand.
  repeat match goal with |- context [if ?b then fail _ else _] => destruct b; [done|] end.
  unfold wrap. rewrite insert_id_ok by done.
  destruct (negb (text_ok _)); [done|]. destruct (negb (asset_exists _ _)); [done|].
  destruct (negb match inc with None => _ | Some _ => _ end); [done|]. done.
Qed.
End create.

Lemma check_payload_status `{JsonCodec} ct pl resp : check_payload ct pl = inl resp -> rs_status resp <> 201.
Proof.
  unfold check_payload, err_resp.
  repeat match goal with |- context [if ?b then _ else _] => destruct b end; by intros [= <-].
Qed.

(** A command type that passes the route's checks is one of the six, which normalising
    again leaves alone. *)
Lemma check_payload_type `{JsonCodec} ct pl x : check_payload ct pl = inr x -> Str.trim_space (Str.to_lower ct) = ct.
Proof.
  unfold check_payload, err_resp.
  repeat match goal with
  | |- context [String.eqb ct ?t] => destruct (String.eqb_spec ct t) as [->|_]; [intros _; vm_compute; reflexivity|]
  end.
  done.
Qed.

(** Creating a command tells the operator the truth: when the database answers, 201
    means that exactly this command was queued to the connected agent of the device (last
    in its outbox, payload as requested) and is recorded sent; a refusal either recorded
    nothing or recorded the command failed, and in both cases queued nothing. *)
Theorem create_command_effect `{JsonCodec} `{UuidLib} `{GoFmt} `{JwtLib} `{NetLib} `{C2Laws L}
    origins r (w : World L) :
  w_faults w = [] -> fresh_command_id w ->
  exists resp w', handleCreate origins r w = (inr resp, w') /\ create_effect resp w w'.
Proof.
  intros Hf Hfresh.
  assert (Hsame : forall resp, rs_status resp <> 201 -> create_effect resp w w) by (left; done).
  unfold handleCreate. unfold require_method. destruct (String.eqb _ "POST"); [|eexists _, _; split; [done|by apply Hsame]].
  destruct (RequireMinRole origins r RoleOperator) as [resp|p] eqn:Er.
  { eexists _, _; split; [done|]. apply Hsame. match goal with E : RequireMinRole _ _ _ = inl _ |- _ => by apply RequireMinRole_refused in E as [->| ->] end. }
  unfold parseDeviceID. destruct (uuid_parse _) as [dev|]; [|eexists _, _; split; [done|by apply Hsame]].
  destruct (read_body _ r) as [body|]; [|eexists _, _; split; [done|by apply Hsame]].
  destruct (decode_create_command body) as [[rawType rawPayload]|]; [|eexists _, _; split; [done|by apply Hsame]].
  set (ct := Str.trim_space (Str.to_lower rawType)).
  destruct (String.eqb ct ""); [eexists _, _; split; [done|by apply Hsame]|].
  destruct (check_payload ct rawPayload) as [resp|payload] eqn:Ec.
  { eexists _, _; split; [done|]. apply Hsame. by eapply check_payload_status. }
  unfold mbind, go_bind. unfold attempt at 1.
  assert (He : exists x, ensureAssetExists dev w = (x, w)).
  { unfold ensureAssetExists, mbind, go_bind, attempt. rewrite select_ok by done.
    destruct (asset_exists _ _); by eexists. }
  destruct He as [[e|[]] ->]; [eexists _, _; split; [done|by apply Hsame]|].
  unfold attempt. pose proof (Insert_ok dev ct payload None w Hf) as Hi.
  destruct (InsertDeviceCommand dev ct payload None w) as [[e|cmd] w1]; simpl in Hi.
  { subst w1. eexists _, _; split; [done|by apply Hsame]. }
  destruct Hi as (Hc & Hf1 & Hl & Hid & Hdev & Hst & Hct & Hpl).
  destruct (deliver_effect (t_commands (w_db w)) {| cr_cmd := cmd; cr_incident := None |} ct payload
    (rest_audit p r dev ct) w w1) as (resp & w' & E & Heff); try done.
  - split; [done|]. intros x Hx. simpl. rewrite Hid. by apply Hfresh.
  - simpl. rewrite Hct. by eapply check_payload_type.
  - simpl in E. eexists _, _. split; [exact E|exact Heff].
Qed.

(** ** Flushing *)

Definition mark_sent (r : CommandRow) : CommandRow :=
  with_status DeviceCommandStatusSent "" (dc_CompletedAt (cr_cmd r)) r.

Definition row_downlink `{UuidLib} (p : PendingDeviceCommandDispatch) : json :=
  let c := pd_Command p in downlink (dc_ID c) (dc_CommandType c) (dc_Payload c).

Definition ids_of (ps : list PendingDeviceCommandDispatch) : list uuid := map (fun p => dc_ID (pd_Command p)) ps.

Definition in_ids (ids : list uuid) (r : CommandRow) : bool := existsb (N.eqb (dc_ID (cr_cmd r))) ids.

Section flush.
Context `{JC : JsonCodec} `{UL : UuidLib} `{GF : GoFmt} `{CL : C2Laws L}.
Implicit Types w : World L.

Lemma mark_sent_twice id ids rows :
  update_where (is_command id) mark_sent (update_where (in_ids ids) mark_sent rows) =
  update_where (in_ids (ids ++ [id])) mark_sent rows.
Proof.
  unfold update_where. rewrite map_map. apply map_ext. intros r.
  assert (E : in_ids (ids ++ [id]) r = in_ids ids r || is_command id r).
  { unfold in_ids, is_command. rewrite existsb_app. simpl. by rewrite orb_false_r. }
  rewrite E. destruct (in_ids ids r); simpl.
  - change (is_command id (mark_sent r)) with (is_command id r). by destruct (is_command id r).
  - done.
Qed.

(** One round of the loop: either queued and marked, or nothing. *)
Lemma flush_one_ok serial p w : w_faults w = [] ->
  exists ok l', dispatch_json serial (row_downlink p) (w_link w) = (ok, l') /\
    flush_one serial p w = (inr (), if ok : bool
      then set_db (with_commands (update_where (is_command (dc_ID (pd_Command p))) mark_sent (t_commands (w_db w)))
                     (w_db w)) (set_link l' w)
      else set_link l' w).
Proof.
  intros Hf. destruct (dispatch_json serial (row_downlink p) (w_link w)) as [ok l'] eqn:Ed.
  exists ok, l'. split; [done|]. unfold flush_one, dispatch, mbind, go_bind. fold (row_downlink p).
  rewrite Ed. destruct ok; simpl; [|done]. unfold attempt, MarkDeviceCommandSent.
  by rewrite updateStatus_ok.
Qed.

Lemma flush_loop serial ps rows w done_ids :
  w_faults w = [] -> t_commands (w_db w) = update_where (in_ids done_ids) mark_sent rows ->
  exists sent w', for_each ps (flush_one serial) w = (inr (), w') /\
    sent `sublist_of` ps /\
    t_commands (w_db w') = update_where (in_ids (done_ids ++ ids_of sent)) mark_sent rows /\
    outbox (w_link w') = outbox (w_link w) ++ map (fun p => (Str.trim_space serial, row_downlink p)) sent.
Proof.
  revert w done_ids. induction ps as [|p ps IH]; intros w ids Hf Hc.
  - exists [], w. simpl. rewrite !app_nil_r. by repeat split.
  - destruct (flush_one_ok serial p w Hf) as (ok & l' & Ed & E1).
    cbn [for_each]. rewrite (bind_inr _ _ _ _ _ E1). destruct ok.
    + apply dispatch_true in Ed as [Eo _]. set (w1 := set_db _ (set_link l' w)).
      destruct (IH w1 (ids ++ [dc_ID (pd_Command p)])) as (sent & w' & E & Hs & Hc' & Ho); [done| |].
      { unfold w1. simpl. rewrite Hc. apply mark_sent_twice. }
      exists (p :: sent), w'. split; [exact E|]. split; [by apply sublist_skip|].
      rewrite Hc', Ho. unfold w1; simpl. rewrite Eo, <- !app_assoc. done.
    + apply dispatch_false in Ed.
      destruct (IH (set_link l' w) ids) as (sent & w' & E & Hs & Hc' & Ho); [done|done|].
      exists sent, w'. split; [exact E|]. split; [by apply sublist_cons|].
      rewrite Hc', Ho. simpl. by rewrite Ed.
Qed.
End flush.

(** The commands a reconnecting agent may get: its pending ones, oldest first. *)
Definition pending_queue (db : Tables) (serial : string) : list PendingDeviceCommandDispatch :=
  flat_map (fun r => map (fun a => {| pd_Command := cr_cmd r; pd_HumanID := a_human_id a |})
      (List.filter (fun a => N.eqb (a_id a) (dc_DeviceID (cr_cmd r)) && owns_serial serial a) (t_assets db)))
    (sort_slice oldest_first
      (List.filter (fun r => String.eqb (dc_Status (cr_cmd r)) DeviceCommandStatusPending) (t_commands db))).

(** Flushing on reconnect sends what it marks and marks what it sends: of the first 25
    pending commands of the certificate, oldest first, some subsequence is queued to the
    agent in that order, exactly those rows become [sent], and no other row changes. *)
Theorem flush_marks_exactly_what_it_sends `{JsonCodec} `{UuidLib} `{GoFmt} `{C2Laws L} serial (w : World L) :
  w_faults w = [] -> Str.trim_space serial <> ""%string ->
  exists sent w', FlushPendingDeviceCommands serial w = (inr (), w') /\
    sent `sublist_of` take 25 (pending_queue (w_db w) (Str.trim_space serial)) /\
    t_commands (w_db w') = update_where (in_ids (ids_of sent)) mark_sent (t_commands (w_db w)) /\
    outbox (w_link w') = outbox (w_link w) ++ map (fun p => (Str.trim_space serial, row_downlink p)) sent.
Proof.
  intros Hf Hs. unfold FlushPendingDeviceCommands, ListPendingDeviceCommandsForCertSerial.
  rewrite (proj2 (String.eqb_neq _ _) Hs). unfold mbind, go_bind. unfold attempt, wrap.
  rewrite select_ok by done. cbv iota beta.
  change (Z.to_nat (pending_limit 25)) with 25%nat. fold (pending_queue (w_db w) (Str.trim_space serial)).
  apply (flush_loop serial _ (t_commands (w_db w)) w []); [done|].
  symmetry. by apply update_where_none.
Qed.

(** ** What the status does not tell *)

(** An answer that cannot be stored is lost: when the output is longer than the limit
    and cutting it there splits a multi-byte character, the truncated text is not UTF-8,
    PostgreSQL refuses it, and the command stays as it was although the agent finished it. *)
Theorem split_rune_output_never_recorded `{JsonCodec} `{UuidLib} `{GoFmt} {L} id output (w : World L) :
  w_faults w = [] -> maxDeviceCommandOutputLen < Str.slen output ->
  Str.valid_utf8 (Str.take (Z.to_nat maxDeviceCommandOutputLen) output +:+ truncated_suffix) = false ->
  exists e, CompleteDeviceCommand id output w = (inl e, w) /\ FailDeviceCommand id output w = (inl e, w).
Proof.
  intros Hf Hlen Hbad. unfold CompleteDeviceCommand, FailDeviceCommand, finish.
  assert (Ht : text_ok (truncateOutput output) = false).
  { unfold text_ok, truncateOutput. rewrite (proj2 (Z.leb_gt _ _) Hlen). by rewrite Hbad. }
  unfold mbind, go_bind, updateDeviceCommandStatus, wrap. simpl.
  rewrite !exec_ok by done. rewrite Ht. simpl. by eexists.
Qed.

(** Marking a command sent is unconditional: when the agent answers between the
    dispatch and the update, the settled status and its output are overwritten and the
    command is shown as [sent], without output, for ever. *)
Theorem late_sent_mark_erases_outcome `{JsonCodec} `{UuidLib} `{GoFmt} {L} id output ok (w : World L) :
  w_faults w = [] -> text_ok (truncateOutput output) = true ->
  In id (map (fun r => dc_ID (cr_cmd r)) (t_commands (w_db w))) ->
  let w1 := ((if ok : bool then CompleteDeviceCommand id output else FailDeviceCommand id output) w).2 in
  let w2 := (MarkDeviceCommandSent id w1).2 in
  forall r, In r (t_commands (w_db w2)) -> is_command id r = true ->
    dc_Status (cr_cmd r) = DeviceCommandStatusSent /\ dc_Output (cr_cmd r) = ""%string.
Proof.
  intros Hf Ht Hin w1 w2 r Hr Hid.
  assert (Hf1 : w_faults w1 = []).
  { assert (Hfin : forall st b, w_faults (finish (L := L) st b id output w).2 = []).
    { intros st b. assert (Ho : db_only (finish (L := L) st b id output)); [|by apply Ho].
      unfold finish, updateDeviceCommandStatus, GetDeviceCommand. pose proof (journal_only (L := L)). only_walk. }
    unfold w1. destruct ok; apply Hfin. }
  unfold w2, MarkDeviceCommandSent in Hr. rewrite updateStatus_ok in Hr by done. simpl in Hr.
  apply update_where_In in Hr as (r0 & _ & ->). destruct (is_command id r0) eqn:E; [done|].
  unfold is_command in *. by rewrite E in Hid.
Qed.
