(* ===== verification/Sessions.v ===== *)
(** * Signing in, and the routes that lock and wipe a device

    internal/api/{auth_handlers,device_security}.go, the reading half of users_admin.go and the
    signing half of auth/users.go. *)

From S2P Require Import Prelude GoStd Float64 Json Ext World Auth AuthFacts UsersAdmin AuditTrail DeviceCommands CommandFlow CommandFacts.

#[local] Open Scope string_scope.
#[local] Open Scope list_scope.
#[local] Open Scope Z_scope.

(** ** Interfaces

    bcrypt's comparison, and golang-jwt's signature with HS256 under a secret: a signed token holds
    the claims. *)
Class BcryptLib := { bcrypt_compare : string -> string -> bool }.

Record sessionClaims := {
  sc_claims : arxClaims; sc_Issuer : string; sc_IssuedAt : Z; sc_NotBefore : Z; sc_ExpiresAt : Z; sc_ID : string
}.

Class JwtSigner := { jwt_sign : string -> sessionClaims -> option string }.

(** A password matches its own hash, which is a text of printable characters; another password of the length bcrypt reads
    does not. *)
Class BcryptLaws `{PasswordLib} `{BcryptLib} : Prop := {
  bcrypt_own : forall p h, bcrypt_hash p = Some h -> bcrypt_compare h p = true;
  bcrypt_text : forall p h, bcrypt_hash p = Some h -> h <> "";
  bcrypt_other : forall p q h, bcrypt_hash p = Some h -> has_nul p = false -> has_nul q = false -> Str.slen q <= 72 ->
    bcrypt_compare h q = true -> q = p
}.

(** A token signed with the server's secret is accepted, with the claims it was made of, from the second it is valid from
    until the one it expires at, and at no other time; it is printable. *)
Class JwtLaws `{JwtLib} `{JwtSigner} (secret : string) : Prop := {
  jwt_signed : forall c, exists tok, jwt_sign secret c = Some tok;
  jwt_parse_signed : forall c tok t, jwt_sign secret c = Some tok ->
    jwt_parse t tok = if (sc_NotBefore c <=? t) && (t <? sc_ExpiresAt c) then Some (sc_claims c) else None;
  jwt_plain : forall c tok, jwt_sign secret c = Some tok -> tok <> "" /\ forallb plain (Str.bytes tok) = true
}.

(** ** auth/users.go *)

Record JWTService := { jw_secret : string; jw_issuer : string; jw_ttl : Z }.

Definition NewJWTService (secret issuer : string) (ttl : Z) : string + JWTService :=
  let secret := Str.trim_space secret in
  if Str.slen secret <? 32 then inl "jwt secret must be at least 32 bytes" else
  let iss := Str.trim_space issuer in
  inr {| jw_secret := secret; jw_issuer := if String.eqb iss "" then "arx-mdm" else iss;
         jw_ttl := if ttl <=? 0 then 24 * (3600 * 1000000000) else ttl |}.

Definition CheckPassword `{BcryptLib} (hash plain : string) : bool :=
  if String.eqb hash "" || String.eqb plain "" then false else bcrypt_compare hash plain.

Section issue.
Context `{UL : UuidLib} `{JS : JwtSigner} {L : Type}.

(** jwt.NewNumericDate cuts a time to the second. *)
Definition NewNumericDate (t : Z) : Z := t / 1000000000 * 1000000000.

(** uuid.NewString() *)
Definition new_uuid : go L uuid := fun w => (inr (gen_random_uuid (w_next_id w)), draw_id w).

Definition Issue (j : JWTService) (p : Principal) : go L (string * Z) :=
  match ParseRole (p_Role p) with
  | None => fail (ErrMsg "invalid role")
  | Some _ =>
      if N.eqb (p_UserID p) uuid_nil then fail (ErrMsg "invalid user id") else
      t ← now;
      let exp := t + jw_ttl j in
      id ← new_uuid;
      match jwt_sign (jw_secret j)
        {| sc_claims := {| cl_Username := p_Username p; cl_Role := p_Role p; cl_Subject := uuid_string (p_UserID p) |};
           sc_Issuer := jw_issuer j; sc_IssuedAt := NewNumericDate t; sc_NotBefore := NewNumericDate t;
           sc_ExpiresAt := NewNumericDate exp; sc_ID := uuid_string id |} with
      | None => fail (ErrMsg "sign")
      | Some token => mret (token, exp)
      end
  end.
End issue.

(** ** api/auth_handlers.go *)

Definition maxAuthJSONBody : Z := 16 * 1024.

Record loginRequest := { lg_Username : string; lg_Password : string }.

Section handlers.
Context `{JC : JsonCodec} `{UL : UuidLib} `{GF : GoFmt} `{JL : JwtLib} `{JS : JwtSigner} `{PL : PasswordLib} `{BL : BcryptLib}.
Context `{NL : NetLib} `{PG : PgLib} `{C2 : C2Dispatcher L}.
Context (service : JWTService) (origins : list string).

Definition decode_login (body : string) : option loginRequest :=
  m ← unmarshal_map body;
  u ← dec_string "" (field "username" m); p ← dec_string "" (field "password" m);
  Some {| lg_Username := u; lg_Password := p |}.

Definition user_members (id : uuid) (username role : string) : list (string * json) :=
  [("id", jstr (uuid_string id)); ("username", jstr username); ("role", jstr role)].

Definition login_json (token : string) (exp : Z) (p : Principal) : json :=
  JObj (jmap [("token", jstr token); ("expires_at", jstr (fmt_time exp));
              ("user", JObj (jmap (user_members (p_UserID p) (p_Username p) (p_Role p))))]).

Definition login_audit (r : Request) (p : Principal) : AuditRecord :=
  {| rec_UserID := p_UserID p; rec_Action := "auth.login"; rec_ResourceType := "user"; rec_ResourceID := Some (p_UserID p);
     rec_TargetAssetID := None; rec_Details := [("username", jstr (p_Username p))]; rec_IPAddress := ClientIP r |}.

(** The credentials are good: who signs in. *)
Definition sign_in (username password : string) : go L (Response + Principal) :=
  found ← attempt (GetUserByUsername username);
  mret match found with
       | inl _ => err_resp 401 "invalid credentials"
       | inr u =>
           if negb (CheckPassword (u_password_hash u) password) then err_resp 401 "invalid credentials" else
           match ParseRole (u_role u) with
           | None => err_resp 500 "invalid user role"
           | Some roleNorm => inr {| p_UserID := u_id u; p_Username := username; p_Role := roleNorm |}
           end
       end.

Definition handleLogin (r : Request) : go L Response :=
  let? _ := require_method "POST" r in
  if negb (DashboardOriginOK r origins) then mret (writeTicketsError 403 "forbidden") else
  match read_body maxAuthJSONBody r with
  | None => mret (writeTicketsError 400 "could not read request body")
  | Some body =>
  match decode_login body with
  | None => mret (writeTicketsError 400 "invalid JSON body")
  | Some req =>
      let username := Str.trim_space (lg_Username req) in
      if String.eqb username "" || String.eqb (lg_Password req) ""
      then mret (writeTicketsError 400 "username and password are required") else
      who ← sign_in username (lg_Password req);
      let? p := who in
      issued ← attempt (Issue service p);
      match issued with
      | inl _ => mret (writeTicketsError 500 "could not issue token")
      | inr (token, exp) =>
          _ ← attempt (InsertAuditRecord (login_audit r p));
          mret (writeTicketsJSON 200 (login_json token exp p))
      end
  end end.

Definition handleMe (r : Request) : go L Response :=
  let? _ := require_method "GET" r in
  let? p := RequirePrincipal origins r in
  found ← attempt (select (fun db _ =>
    match List.find (fun u => N.eqb (u_id u) (p_UserID p)) (t_users db) with Some u => inr u | None => inl ErrNoRows end));
  mret match found with
       | inl e => if is_no_rows e then writeTicketsError 401 "user no longer exists"
                  else writeTicketsError 500 "failed to load user"
       | inr u => writeTicketsJSON 200 (JObj (jmap (user_members (u_id u) (u_username u) (default (u_role u) (ParseRole (u_role u))))))
       end.

(** ** users_admin.go: reading *)

(** ORDER BY username ASC *)
Definition users_by_name (db : Tables) : list User := sort_slice (fun a b => pg_text_lt (u_username a) (u_username b)) (t_users db).

Definition user_admin_json (u : User) : json :=
  JObj (jmap (user_members (u_id u) (u_username u) (u_role u) ++ [("created_at", jstr (fmt_time (u_created u)))])).

Definition users_handleList (r : Request) : go L Response :=
  let? _ := require_method "GET" r in
  let? _ := RequireMinRole origins r RoleAdmin in
  rows ← attempt (select (fun db _ => inr (users_by_name db)));
  mret match rows with
       | inl _ => writeTicketsError 500 "failed to list users"
       | inr us => writeTicketsJSON 200 (JArr (map user_admin_json us))
       end.

Definition directory_json (u : User) : json :=
  JObj (jmap [("id", jstr (uuid_string (u_id u))); ("username", jstr (u_username u))]).

Definition handleDirectory (r : Request) : go L Response :=
  let? _ := require_method "GET" r in
  let? _ := RequireMinRole origins r RoleOperator in
  rows ← attempt (select (fun db _ => inr (users_by_name db)));
  mret match rows with
       | inl _ => writeTicketsError 500 "failed to list users"
       | inr us => writeTicketsJSON 200 (JArr (map directory_json us))
       end.

(** ** device_security.go *)

Definition security_parseDeviceID (r : Request) : Response + uuid :=
  match uuid_parse (Str.trim_space (rq_path_id r)) with
  | None => err_resp 400 "invalid device id"
  | Some id => inr id
  end.

Definition security_audit (p : Principal) (r : Request) (deviceID : uuid) (action act : string) (last : string * string)
    : AuditRecord :=
  {| rec_UserID := p_UserID p; rec_Action := act; rec_ResourceType := "device"; rec_ResourceID := Some deviceID;
     rec_TargetAssetID := Some deviceID;
     rec_Details := [("transport_action", jstr action); ("channel", jstr "rest"); (last.1, jstr last.2)];
     rec_IPAddress := ClientIP r |}.

Definition dispatched_json (deviceID : uuid) (action : string) : json :=
  JObj (jmap [("ok", JBool true); ("device_id", jstr (uuid_string deviceID)); ("action", jstr action); ("dispatched", JBool true)]).

Definition dispatchSecurityAction (action auditAction : string) (r : Request) : go L Response :=
  let? _ := require_method "POST" r in
  let? principal := RequireMinRole origins r RoleAdmin in
  let? deviceID := security_parseDeviceID r in
  let audit act last := attempt (InsertAuditRecord (security_audit principal r deviceID action (auditAction +:+ act) last)) in
  _ ← audit "_request" ("phase", "request_received");
  there ← attempt (ensureAssetExists deviceID);
  match there with
  | inl e => mret (writeTicketsError 404 (err_text e))
  | inr _ =>
      cs ← attempt (ResolveAssetCertSerial deviceID);
      match cs with
      | inl e => mret (writeTicketsError 409 (err_text e))
      | inr certSerial =>
          ok ← dispatch certSerial (JObj [("action", jstr action)]);
          if negb ok then
            _ ← audit "_dispatch_failed" ("reason", "agent_not_connected");
            mret (writeTicketsError 409 "agent not connected")
          else
            _ ← audit "_dispatched" ("phase", "c2_dispatch_succeeded");
            mret (writeTicketsJSON 202 (dispatched_json deviceID action))
      end
  end.

Definition handleLock : Request -> go L Response := dispatchSecurityAction "lock" "device_remote_lock".
Definition handleWipe : Request -> go L Response := dispatchSecurityAction "wipe" "device_enterprise_wipe".
End handlers.

(** ** Signing in *)

(** Roles are stored as ParseRole gives them. *)
Lemma ParseRole_idem s r : ParseRole s = Some r -> ParseRole r = Some r.
Proof. intros [_ H]%ParseRole_some. cbn [In] in H. by destruct H as [<-|[<-|[<-|[]]]]. Qed.

Section signing_in.
Context `{JC : JsonCodec} `{UW : UuidLaws} `{GF : GoFmt} `{PL : PasswordLib} `{BL : BcryptLib} `{!BcryptLaws}.
Context `{JL : JwtLib} `{JS : JwtSigner} `{NL : NetLib} `{PG : PgLib} {L : Type}.
Context (service : JWTService) `{!JwtLaws (jw_secret service)} (origins : list string).
Implicit Types w : World L.

(** When a token issued at a time is good. *)
Definition lasts (issued t : Z) : bool := (NewNumericDate issued <=? t) && (t <? NewNumericDate (issued + jw_ttl service)).

(** What a token of the service means, whoever carries it. *)
Lemma issued_parses p w : ParseRole (p_Role p) = Some (p_Role p) -> p_UserID p <> uuid_nil ->
  Str.trim_space (p_Username p) = p_Username p -> p_Username p <> "" ->
  exists tok, Issue service p w = (inr (tok, w_now w + jw_ttl service), draw_id w) /\
    (forall t, JWTService_Parse t tok = if lasts (w_now w) t then Some p else None) /\
    Str.trim_space tok = tok /\ tok <> "".
Proof.
  intros Hr Hid Hu Hne. unfold Issue. rewrite Hr, (proj2 (N.eqb_neq _ _) Hid). unfold mbind at 1, go_bind at 1, now.
  unfold mbind at 1, go_bind at 1, new_uuid. set (c := {| sc_claims := _ |}). destruct (jwt_signed c) as [tok E]. rewrite E.
  exists tok. split; [done|]. destruct (jwt_plain c tok E) as [Htok Hp]. pose proof (trim_plain tok Hp) as Ht. split; [|done].
  intros t. unfold JWTService_Parse. rewrite Ht, (jwt_parse_signed c tok t E).
  change ((sc_NotBefore c <=? t) && (t <? sc_ExpiresAt c)) with (lasts (w_now w) t). destruct (lasts (w_now w) t); [|done].
  cbn [c sc_claims cl_Subject cl_Role cl_Username].
  rewrite uuid_string_trim, uuid_parse_string, Hr, Hu, (proj2 (String.eqb_neq _ _) Hne). by destruct p.
Qed.

(** The role check of a request that carries the token. *)
Lemma bearer_role q tok p minRole : JWTService_Parse (rq_time q) tok = Some p -> tok <> "" -> DashboardOriginOK q origins = true ->
  rq_principal q = None -> DashboardBearerToken q = tok ->
  RequireMinRole origins q minRole = if HasAtLeast (p_Role p) minRole then inr p else inl (writeTicketsError 403 "forbidden").
Proof.
  intros Hp Hne Ho Hn Ht. unfold RequireMinRole, RequirePrincipal, real_principal.
  by rewrite Ho, Hn, Ht, (proj2 (String.eqb_neq _ _) Hne), Hp.
Qed.

(** A login request with these credentials; the name may be padded. *)
Definition login_of (l : Request) (username password : string) : Prop :=
  rq_method l = "POST" /\ DashboardOriginOK l origins = true /\
  exists body req, read_body maxAuthJSONBody l = Some body /\ decode_login body = Some req /\
    Str.trim_space (lg_Username req) = username /\ lg_Password req = password.

Definition account (db : Tables) (username : string) : option User :=
  List.find (fun u => String.eqb (pg_lower (u_username u)) (pg_lower username)) (t_users db).

(** A login as the account the name stands for: who is signed in, or nobody. *)
Lemma login_exact l username password u w :
  login_of l username password -> username <> "" -> password <> "" -> w_faults w = [] ->
  account (w_db w) username = Some u -> u_id u <> uuid_nil -> ParseRole (u_role u) = Some (u_role u) ->
  let p := {| p_UserID := u_id u; p_Username := username; p_Role := u_role u |} in
  if CheckPassword (u_password_hash u) password
  then exists tok w', handleLogin service origins l w = (inr (writeTicketsJSON 200 (login_json tok (w_now w + jw_ttl service) p)), w')
         /\ (forall t, JWTService_Parse t tok = if lasts (w_now w) t then Some p else None) /\ tok <> ""
  else handleLogin service origins l w = (inr (writeTicketsError 401 "invalid credentials"), w).
Proof.
  intros (Hm & Ho & body & req & Hb & Hd & Hu & <-) Hne Hpw Hf Ha Hid Hr p.
  assert (Ht : Str.trim_space username = username) by (rewrite <- Hu; apply Str.trim_space_idem).
  assert (Hs : sign_in username (lg_Password req) w =
    (inr (if CheckPassword (u_password_hash u) (lg_Password req) then inr p else err_resp 401 "invalid credentials"), w)).
  { unfold sign_in, GetUserByUsername. rewrite Ht, (proj2 (String.eqb_neq _ _) Hne). unfold mbind at 1, go_bind at 1, attempt.
    rewrite select_ok by done. unfold account in Ha. rewrite Ha, Hr. by destruct (CheckPassword _ _). }
  unfold handleLogin, require_method. rewrite Hm, Ho, Hb, Hd. cbn [String.eqb Ascii.eqb Bool.eqb negb]. cbv zeta.
  rewrite Hu, (proj2 (String.eqb_neq _ _) Hne), (proj2 (String.eqb_neq _ _) Hpw). cbn [orb].
  destruct (CheckPassword (u_password_hash u) (lg_Password req)).
  - destruct (issued_parses p w Hr Hid Ht Hne) as (tok & E & Hp & _ & Htok). exists tok.
    destruct (InsertAuditRecord (login_audit l p) (draw_id w)) as [res w'] eqn:Ei. exists w'. split; [|done].
    rewrite (bind_inr _ _ _ _ _ Hs). unfold mbind at 1, go_bind at 1, attempt at 1. rewrite E.
    unfold mbind, go_bind, attempt. by rewrite Ei.
  - by rewrite (bind_inr _ _ _ _ _ Hs).
Qed.

Lemma check_own plain h : bcrypt_hash plain = Some h -> plain <> "" -> CheckPassword h plain = true.
Proof.
  intros Hh Hp. unfold CheckPassword. rewrite (proj2 (String.eqb_neq _ _) (bcrypt_text _ _ Hh)), (proj2 (String.eqb_neq _ _) Hp).
  by apply (bcrypt_own plain).
Qed.
(** C20: an account an administrator creates can be used.  A POST /v1/users that passes the checks stores the account, and the
    login that follows with the same credentials -- the name in any padding -- is answered with a token that the server itself
    takes for that account, from the second of the login until the service's lifetime later, cut to the second: while it lasts
    every role check lets a request with the token through exactly when the role given to the account reaches the role asked
    for, and at any other time answers 401. *)
Theorem created_account_signs_in r admin body req role hash l w :
  rq_method r = "POST" -> RequireMinRole origins r RoleAdmin = inr admin -> read_body maxUserAdminJSON r = Some body ->
  decode_create body = Some req -> ParseRole (cu_Role req) = Some role -> HashPassword (cu_Password req) = Some hash ->
  let username := Str.trim_space (cu_Username req) in
  username <> "" -> text_ok username = true -> account (w_db w) username = None ->
  login_of l username (cu_Password req) -> w_faults w = [] ->
  exists id w1 tok w2, let p := {| p_UserID := id; p_Username := username; p_Role := role |} in
    UsersAdmin.handleCreate origins r w = (inr (writeTicketsJSON 201 (JObj [("id", jstr (uuid_string id))])), w1) /\
    handleLogin service origins l w1 = (inr (writeTicketsJSON 200 (login_json tok (w_now w + jw_ttl service) p)), w2) /\
    forall q minRole, DashboardOriginOK q origins = true -> rq_principal q = None -> DashboardBearerToken q = tok ->
      RequireMinRole origins q minRole =
        if negb (lasts (w_now w) (rq_time q)) then inl (writeTicketsError 401 "invalid token") else
        if HasAtLeast role minRole then inr p else inl (writeTicketsError 403 "forbidden").
Proof.
  intros Hm Ha Hb Hd Hr Hh username Hne Ht Hnew Hl Hf. set (id := gen_random_uuid (w_next_id w)).
  set (u := {| u_id := id; u_username := username; u_password_hash := hash; u_role := role; u_created := w_now w |}).
  set (w1 := set_db (with_users (t_users (w_db w) ++ [u]) (w_db w)) (draw_id w)).
  assert (Hpw : String.eqb (Str.trim_space (cu_Password req)) "" = false).
  { unfold HashPassword in Hh. by destruct (String.eqb _ ""). }
  assert (Hpn : cu_Password req <> "") by (intros E; by rewrite E in Hpw).
  assert (Hfree : existsb (fun x => String.eqb (u_username x) username) (t_users (w_db w)) = false).
  { destruct (existsb _ _) eqn:E; [|done]. apply existsb_exists in E as (x & Hx & E). apply String.eqb_eq in E.
    unfold account in Hnew. apply (List.find_none _ _ Hnew) in Hx. by rewrite E, String.eqb_refl in Hx. }
  assert (Hc : UsersAdmin.handleCreate origins r w = (inr (writeTicketsJSON 201 (JObj [("id", jstr (uuid_string id))])), w1)).
  { unfold UsersAdmin.handleCreate, require_method. rewrite Hm, Ha, Hb, Hd, Hr, Hh. cbn [String.eqb Ascii.eqb Bool.eqb]. cbv zeta.
    fold username. rewrite Hpw, (proj2 (String.eqb_neq _ _) Hne). cbn [orb]. unfold mbind, go_bind, attempt.
    rewrite insert_id_ok by done. by rewrite Ht, Hfree. }
  assert (Hacc : account (w_db w1) username = Some u).
  { unfold account in *. cbn [w1 set_db w_db with_users t_users]. rewrite find_snoc by done. cbn [u u_username].
    by rewrite String.eqb_refl. }
  pose proof (login_exact l username (cu_Password req) u w1 Hl Hne Hpn Hf Hacc (gen_random_uuid_nil _) (ParseRole_idem _ _ Hr)) as Hlog.
  assert (Hhash : bcrypt_hash (cu_Password req) = Some hash) by (unfold HashPassword in Hh; by rewrite Hpw in Hh).
  cbv zeta in Hlog. cbn [u u_password_hash u_id u_role] in Hlog. rewrite (check_own _ _ Hhash Hpn) in Hlog.
  destruct Hlog as (tok & w2 & E & Hp & Htok). exists id, w1, tok, w2. split; [exact Hc|]. split; [exact E|].
  intros q minRole Ho Hn Hq. specialize (Hp (rq_time q)). change (w_now w1) with (w_now w) in Hp.
  destruct (lasts (w_now w) (rq_time q)); [by apply (bearer_role q tok _ minRole Hp)|].
  unfold RequireMinRole, RequirePrincipal, real_principal. by rewrite Ho, Hn, Hq, (proj2 (String.eqb_neq _ _) Htok), Hp.
Qed.
Lemma patch_password_exact r admin id body req pw hash w :
  rq_method r = "PATCH" -> RequireMinRole origins r RoleAdmin = inr admin -> parseUserUUID r = Some id ->
  read_body maxUserAdminJSON r = Some body -> decode_patch body = Some req -> pu_Role req = None -> pu_Password req = Some pw ->
  Str.trim_space pw <> "" -> HashPassword (Str.trim_space pw) = Some hash -> w_faults w = [] ->
  existsb (fun u => N.eqb (u_id u) id) (t_users (w_db w)) = true ->
  handlePatch origins r w =
    (inr (writeTicketsJSON 200 (JObj [("status", jstr "updated")])),
     set_db (with_users (update_where (fun u => N.eqb (u_id u) id) (set_hash hash) (t_users (w_db w))) (w_db w)) w).
Proof.
  intros Hm Ha Hid Hb Hd Hr Hp Hne Hh Hf Hu. unfold handlePatch, require_method. rewrite Hm, Ha, Hid, Hb, Hd, Hr, Hp.
  cbn [String.eqb Ascii.eqb Bool.eqb is_some_b negb andb patch_role]. unfold mbind at 1, go_bind at 1. cbn [mret go_ret].
  unfold patch_password. cbv zeta. rewrite (proj2 (String.eqb_neq _ _) Hne), Hh. unfold update_user.
  unfold mbind, go_bind, attempt. rewrite exec_ok by done. cbn [mret go_ret updated_or_404].
  destruct (Nat.eqb_spec (count_where (fun u => N.eqb (u_id u) id) (t_users (w_db w))) 0) as [E|]; [|done].
  exfalso. apply existsb_exists in Hu as (u & Hu & Hi). unfold count_where in E. apply length_zero_iff_nil in E.
  assert (In u (List.filter (fun u => N.eqb (u_id u) id) (t_users (w_db w)))) as Hin by (by apply filter_In). by rewrite E in Hin.
Qed.

(** C25: a password is hashed as it was typed when an account is created, but trimmed when it is changed, and a login compares
    it as typed.  So an administrator who sets a password with a space at either end is told that it was updated, and the
    account cannot sign in with the very password that was set: the login is refused, and only the trimmed one is taken. *)
Theorem padded_password_locks_out r admin id body req pw hash u username w :
  rq_method r = "PATCH" -> RequireMinRole origins r RoleAdmin = inr admin -> parseUserUUID r = Some id ->
  read_body maxUserAdminJSON r = Some body -> decode_patch body = Some req -> pu_Role req = None -> pu_Password req = Some pw ->
  Str.trim_space pw <> "" -> Str.trim_space pw <> pw -> has_nul pw = false -> has_nul (Str.trim_space pw) = false ->
  Str.slen pw <= 72 -> HashPassword (Str.trim_space pw) = Some hash -> w_faults w = [] ->
  username <> "" -> account (w_db w) username = Some u -> u_id u = id -> id <> uuid_nil -> ParseRole (u_role u) = Some (u_role u) ->
  exists w1, handlePatch origins r w = (inr (writeTicketsJSON 200 (JObj [("status", jstr "updated")])), w1) /\
    (forall l, login_of l username pw -> handleLogin service origins l w1 = (inr (writeTicketsError 401 "invalid credentials"), w1)) /\
    (forall l, login_of l username (Str.trim_space pw) -> exists tok w2,
       handleLogin service origins l w1 = (inr (writeTicketsJSON 200 (login_json tok (w_now w + jw_ttl service)
         {| p_UserID := id; p_Username := username; p_Role := u_role u |})), w2)).
Proof.
  intros Hm Ha Hid Hb Hd Hrole Hp Hne Hpad Hn1 Hn2 Hlen Hh Hf Hun Hacc Hu Hnil Hr.
  assert (Hex : existsb (fun u => N.eqb (u_id u) id) (t_users (w_db w)) = true).
  { apply existsb_exists. exists u. split; [by apply find_some in Hacc as [? _]|by apply N.eqb_eq]. }
  eexists. split; [by eapply patch_password_exact|]. set (w1 := set_db _ w).
  assert (Hacc1 : account (w_db w1) username = Some (set_hash hash u)).
  { unfold account in *. cbn [w1 set_db w_db with_users t_users]. rewrite find_update_where by done. rewrite Hacc. cbn [option_map].
    by rewrite Hu, N.eqb_refl. }
  assert (Hb64 : bcrypt_hash (Str.trim_space pw) = Some hash).
  { unfold HashPassword in Hh. by destruct (String.eqb _ ""). }
  assert (Hpw : pw <> "") by (intros ->; by apply Hne).
  split; intros l Hl.
  - pose proof (login_exact l username pw _ w1 Hl Hun Hpw Hf Hacc1 ltac:(by rewrite <- Hu in Hnil) Hr) as Hlog. cbv zeta in Hlog.
    assert (Hc : CheckPassword (u_password_hash (set_hash hash u)) pw = false); [|by rewrite Hc in Hlog].
    cbn [set_hash u_password_hash]. unfold CheckPassword. destruct (_ || _); [done|].
    destruct (bcrypt_compare hash pw) eqn:E; [|done]. exfalso. apply Hpad. symmetry. by eapply bcrypt_other.
  - pose proof (login_exact l username _ _ w1 Hl Hun Hne Hf Hacc1 ltac:(by rewrite <- Hu in Hnil) Hr) as Hlog. cbv zeta in Hlog.
    cbn [set_hash u_password_hash u_id u_role] in Hlog. rewrite (check_own _ _ Hb64 Hne) in Hlog.
    destruct Hlog as (tok & w2 & E & _). exists tok, w2. by rewrite Hu in E.
Qed.

(** Deleting an account does not end its sessions: until its token expires every role check lets it through, and only
    GET /v1/auth/me notices. *)
Lemma token_outlives_its_account q p w : JWTService_Parse (rq_time q) (DashboardBearerToken q) = Some p -> DashboardBearerToken q <> "" ->
  DashboardOriginOK q origins = true -> rq_principal q = None -> w_faults w = [] ->
  existsb (fun u => N.eqb (u_id u) (p_UserID p)) (t_users (w_db w)) = false ->
  (forall minRole, HasAtLeast (p_Role p) minRole = true -> RequireMinRole origins q minRole = inr p) /\
  (rq_method q = "GET" -> handleMe origins q w = (inr (writeTicketsError 401 "user no longer exists"), w)).
Proof.
  intros Hp Hne Ho Hn Hf Hu. split.
  - intros minRole Hr. by rewrite (bearer_role q _ _ minRole Hp), Hr by done.
  - intros Hm. unfold handleMe, require_method, RequirePrincipal, real_principal.
    rewrite Hm, Ho, Hn, Hp, (proj2 (String.eqb_neq _ _) Hne). cbn [String.eqb Ascii.eqb Bool.eqb negb]. unfold mbind, go_bind, attempt.
    rewrite select_ok by done. destruct (List.find _ _) as [u|] eqn:E; [|done]. apply find_some in E.
    assert (existsb (fun u => N.eqb (u_id u) (p_UserID p)) (t_users (w_db w)) = true); [|congruence].
    apply existsb_exists. by exists u.
Qed.
End signing_in.

(** ** Locking and wiping over REST *)
Section security.
Context `{JC : JsonCodec} `{UL : UuidLib} `{JL : JwtLib} `{NL : NetLib} `{CL : C2Laws L}.
Context (origins : list string).
Implicit Types w : World L.

(** Rows are added to the audit log, and nothing else is touched. *)
Definition audited (db db' : Tables) : Prop := exists rows, db' = with_audit (t_audit db ++ rows) db.

#[export] Instance audited_preorder : PreOrder audited.
Proof.
  split; [intros db; exists []; rewrite app_nil_r; by destruct db|].
  intros x y z [a ->] [b ->]. exists (a ++ b). by rewrite app_assoc.
Qed.

Lemma security_audited action act r : db_steps audited (dispatchSecurityAction (L := L) origins action act r).
Proof.
  assert (Hi : forall rec, db_steps audited (InsertAuditRecord (L := L) rec)).
  { intros rec. unfold InsertAuditRecord. destruct (String.eqb _ _); [by apply steps_pure; typeclasses eauto|].
    unfold InsertAuditLogRow. apply steps_insert_id; [typeclasses eauto|]. intros id db t x db'. cbv zeta.
    destruct (_ || _); [done|]. destruct (negb _); [done|]. intros [= _ <-]. by eexists. }
  unfold dispatchSecurityAction, ensureAssetExists, ResolveAssetCertSerial. db_walk.
Qed.

Lemma audit_inv rec w res w' : InsertAuditRecord rec w = (res, w') -> w_link w' = w_link w /\ t_assets (w_db w') = t_assets (w_db w).
Proof.
  assert (Ho : db_only (InsertAuditRecord (L := L) rec)) by (unfold InsertAuditRecord, InsertAuditLogRow; only_walk).
  assert (Hs : db_steps (same t_assets) (InsertAuditRecord (L := L) rec)) by (apply InsertAuditRecord_steps; [typeclasses eauto|done]).
  intros E. specialize (Ho w). specialize (Hs w). rewrite E in Ho, Hs. split; [by destruct Ho|by symmetry].
Qed.

Lemma resolve_serial id w s w' : ResolveAssetCertSerial id w = (inr s, w') ->
  exists a cs, In a (t_assets (w_db w)) /\ a_id a = id /\ a_cert_serial a = Some cs /\ s = Str.trim_space cs /\ s <> "".
Proof.
  unfold ResolveAssetCertSerial. unfold mbind at 1, go_bind at 1, attempt at 1.
  destruct (select _ w) as [[e|cs] w1] eqn:E; [by destruct (is_no_rows e)|]. apply select_inr in E.
  destruct (List.find _ _) as [a|] eqn:F; [|done]. injection E as <-. apply find_some in F as [Ha Hi]. apply N.eqb_eq in Hi.
  destruct (a_cert_serial a) as [cs|] eqn:Ec; [|done]. destruct (String.eqb_spec (Str.trim_space cs) "") as [|Hne]; [done|].
  intros [= <- _]. by exists a, cs.
Qed.

(** C24: the REST routes that lock and wipe a device do what they answer, whichever statements fail.  202 is only given to an
    administrator, for a device that is enrolled and connected, and then exactly one message, the action, has been queued for
    that device's agent; on any other answer nothing has been sent to any agent.  Either way the database only gains rows of
    the audit log. *)
Theorem lock_and_wipe_over_rest action auditAction r w resp w' :
  dispatchSecurityAction origins action auditAction r w = (inr resp, w') ->
  audited (w_db w) (w_db w') /\
  if rs_status resp =? 202 then
    exists p a cs, RequireMinRole origins r RoleAdmin = inr p /\ HasAtLeast (p_Role p) RoleAdmin = true /\
      In a (t_assets (w_db w)) /\ security_parseDeviceID r = inr (a_id a) /\ a_cert_serial a = Some cs /\ Str.trim_space cs <> "" /\
      In (Str.trim_space cs) (connected_serials (w_link w)) /\
      outbox (w_link w') = outbox (w_link w) ++ [(Str.trim_space cs, JObj [("action", jstr action)])]
  else outbox (w_link w') = outbox (w_link w).
Proof.
  intros E. split; [pose proof (security_audited action auditAction r w) as Hk; by rewrite E in Hk|]. revert E.
  unfold dispatchSecurityAction. destruct (require_method "POST" r) as [m|u] eqn:Em.
  { unfold require_method in Em. destruct (String.eqb _ _); [done|]. injection Em as <-. by intros [= <- <-]. }
  destruct (RequireMinRole origins r RoleAdmin) as [m|p] eqn:Ep.
  { assert (Hm : rs_status m =? 202 = false).
    { unfold RequireMinRole, RequirePrincipal in Ep. repeat case_match; simplify_eq; done. }
    intros [= <- <-]. by rewrite Hm. }
  destruct (security_parseDeviceID r) as [m|id] eqn:Ed.
  { unfold security_parseDeviceID in Ed. destruct (uuid_parse _); [done|]. injection Ed as <-. by intros [= <- <-]. }
  cbv zeta.
  intros (a1 & w1 & [L1 D1]%attempt_inv%audit_inv & E)%bind_inv.
  apply bind_inv in E as (there & w2 & E2%attempt_inv & E).
  assert (L2 : w_link w2 = w_link w1 /\ w_db w2 = w_db w1).
  { unfold ensureAssetExists in E2. unfold mbind, go_bind, attempt in E2. pose proof (only_select (fun db _ => inr (asset_exists db id)) w1) as (H1 & _).
    pose proof (select_db (fun db _ => inr (asset_exists db id)) w1) as H2.
    destruct (select _ w1) as [[e|[]] w0]; injection E2 as _ <-; done. }
  destruct L2 as [L2 D2]. destruct there as [e|u2]; [injection E as <- <-; by rewrite L2, L1|].
  apply bind_inv in E as (cs & w3 & E3%attempt_inv & E).
  assert (L3 : w_link w3 = w_link w2).
  { assert (Hk : db_only (ResolveAssetCertSerial (L := L) id)) by (unfold ResolveAssetCertSerial; only_walk).
    specialize (Hk w2). rewrite E3 in Hk. by destruct Hk. }
  destruct cs as [e|s]; [injection E as <- <-; by rewrite L3, L2, L1|].
  apply resolve_serial in E3 as (a & cs & Ha & Hid & Hcs & -> & Hne). rewrite D2, D1 in Ha.
  apply bind_inv in E as (ok & w4 & E4 & E). unfold dispatch in E4.
  destruct (dispatch_json _ _ (w_link w3)) as [ok' l] eqn:Edj. injection E4 as -> <-. rewrite L3, L2, L1 in Edj.
  destruct ok; cbn [negb] in E; apply bind_inv in E as (a5 & w5 & [L5 _]%attempt_inv%audit_inv & E); injection E as <- <-;
    cbn [w_link set_link] in L5.
  - cbn [rs_status writeTicketsJSON Z.eqb Pos.eqb]. apply dispatch_true in Edj as [Ho Hin]. rewrite Str.trim_space_idem in Ho, Hin.
    exists p, a, cs. rewrite L5. split_and!; try done; [|by rewrite Hid].
    unfold RequireMinRole in Ep. destruct (RequirePrincipal _ _); [done|]. destruct (HasAtLeast _ _) eqn:Eh; [|done]. by injection Ep as <-.
  - cbn [rs_status writeTicketsError writeTicketsJSON Z.eqb Pos.eqb]. rewrite L5. by apply dispatch_false in Edj.
Qed.
End security.
