(* ===== verification/Incidents.v ===== *)
(** * Incidents (internal/database/incidents.go, internal/itsm/alert_bridge.go)

    An incident is opened by an operator or by a critical alert; the alert that opened
    it is its fingerprint, and at most one incident carries a given fingerprint. *)

From S2P Require Import Prelude GoStd Float64 Json Ext World Auth DeviceCommands.

(** ** The row and its constraints (migration 000015) *)

Definition incident_states : list string := ["new"; "in_progress"; "on_hold"; "resolved"; "closed"]%string.

(** CHECK (incident_number ~ '^INC[0-9]{7}$') *)
Definition incident_number_ok (s : string) : bool :=
  Nat.eqb (String.length s) 10 && Str.has_prefix s "INC" && forallb Str.is_digit (Str.bytes (Str.drop 3 s)).

Definition rank_ok (n : Z) : bool := (1 <=? n) && (n <=? 3).

Definition same_fingerprint (fp : string) (i : Incident) : bool :=
  match in_source_alert_fingerprint i with Some f => String.eqb f fp | None => false end.

(** What the table refuses, in one place: UNIQUE and CHECK constraints, foreign keys,
    and text PostgreSQL cannot store. *)
Definition incident_row_ok (db : Tables) (i : Incident) : bool :=
  incident_number_ok (in_number i) &&
  negb (existsb (fun j => String.eqb (in_number j) (in_number i)) (t_incidents db)) &&
  existsb (String.eqb (in_state i)) incident_states && rank_ok (in_impact i) && rank_ok (in_urgency i) &&
  match in_source_alert_fingerprint i with
  | Some fp => negb (existsb (same_fingerprint fp) (t_incidents db)) && text_ok fp
  | None => true end &&
  fk_ok a_id (t_assets db) (in_cmdb_ci i) && fk_ok u_id (t_users db) (in_caller i) &&
  fk_ok u_id (t_users db) (in_assigned i) &&
  text_ok (in_short_description i) && forallb (fun n => negb (json_has_nul n)) (in_work_notes i).

Definition bad_row : err := ErrMsg "violates constraint".

Section incidents.
Context `{JC : JsonCodec} `{UL : UuidLib} `{GF : GoFmt} {L : Type}.

(** "INC%07d" *)
Definition format_incident_number (n : Z) : string := "INC" +:+ Str.pad_zeros 7 (Str.itoa n).

Definition NextIncidentHumanNumber : go L string :=
  n ← wrap "database: allocate incident seq" nextval_incident;
  mret (format_incident_number n).

Definition allocateIncidentNumTx : go L string := NextIncidentHumanNumber.

Definition severity_ranks (severity : string) : Z * Z :=
  let s := Str.to_lower (Str.trim_space severity) in
  if String.eqb s "critical" then (1, 1) else if String.eqb s "warning" then (2, 1) else (2, 2).

Definition hour : Z := 3600 * 1000000000.

Definition severity_sla (severity : string) : Z :=
  let s := Str.to_lower (Str.trim_space severity) in
  (if String.eqb s "critical" then 4 else if String.eqb s "warning" then 24 else 72) * hour.

Definition open_note (t : Z) (fp title alertMessage : string) (deviceID : uuid) : json :=
  JObj (jmap [("ts", jstr (fmt_rfc3339 t)); ("author_type", jstr "system"); ("kind", jstr "alert_open");
    ("text", jstr (Str.trim_space title +:+ " " +:+ Str.of_bytes (map ascii_of_N [194; 183]%N) +:+ " " +:+ Str.trim_space alertMessage));
    ("fingerprint", jstr fp); ("active_alert_summary", jstr (Str.trim_space alertMessage));
    ("cm_device_id", jstr (uuid_string deviceID))]%string).

Definition repeat_note (t : Z) (fp title alertMessage : string) (deviceID : uuid) : json :=
  JObj (jmap [("ts", jstr (fmt_rfc3339 t)); ("author_type", jstr "system"); ("kind", jstr "alert_repeat");
    ("text", jstr ("Alert re-triggered: " +:+ Str.trim_space alertMessage));
    ("fingerprint", jstr fp); ("short_title", jstr (Str.trim_space title));
    ("cm_device_id", jstr (uuid_string deviceID))]%string).

(** CASE WHEN state IN ('resolved','closed') THEN 'in_progress' ELSE state END *)
Definition reopened_state (state : string) : string :=
  if String.eqb state "resolved" || String.eqb state "closed" then "in_progress"%string else state.

Definition refresh_incident (note : json) (slaDue : Z) (title : string) (impact urgency : Z)
    (deviceID : uuid) (now : Z) (i : Incident) : Incident :=
  {| in_id := in_id i; in_number := in_number i; in_caller := in_caller i; in_assigned := in_assigned i;
     in_cmdb_ci := match in_cmdb_ci i with Some d => Some d | None => Some deviceID end;
     in_state := reopened_state (in_state i); in_impact := impact; in_urgency := urgency;
     in_short_description := Str.left_chars 500 title; in_work_notes := in_work_notes i ++ [note];
     in_sla_due := slaDue; in_source_alert_fingerprint := in_source_alert_fingerprint i;
     in_created_at := in_created_at i; in_updated_at := now |}.

Definition UpsertIncidentForCriticalFingerprint (fingerprint : string) (deviceID : uuid)
    (title alertMessage severity : string) : go L () :=
  let fp := Str.trim_space fingerprint in
  if String.eqb fp "" || N.eqb deviceID uuid_nil
  then fail (ErrMsg "database: fingerprint and device id required") else
  let '(impact, urgency) := severity_ranks severity in
  t ← now;
  let slaDue := t + severity_sla severity in
  r ← in_tx (
    found ← attempt (select (fun db _ =>
      match List.find (same_fingerprint fp) (t_incidents db) with
      | Some i => inr (in_id i)
      | None => inl ErrNoRows end));
    match found with
    | inl e =>
        if negb (is_no_rows e) then fail (ErrWrap "database: lookup incident fingerprint" e) else
        incNum ← allocateIncidentNumTx;
        wrap "database: insert incident" (insert_id (fun id db now =>
          let i := {| in_id := id; in_number := incNum; in_caller := None; in_assigned := None;
                      in_cmdb_ci := Some deviceID; in_state := "new"; in_impact := impact; in_urgency := urgency;
                      in_short_description := Str.left_chars 500 (Str.trim_space title);
                      in_work_notes := [open_note t fp title alertMessage deviceID];
                      in_sla_due := slaDue; in_source_alert_fingerprint := Some fp;
                      in_created_at := now; in_updated_at := now |} in
          if negb (text_ok (Str.trim_space title)) || negb (incident_row_ok db i) then inl bad_row
          else inr (inr (), with_incidents (t_incidents db ++ [i]) db)))
    | inr incidentID =>
        n ← exec (fun db now =>
          let is_it := fun i => N.eqb (in_id i) incidentID in
          let note := repeat_note t fp title alertMessage deviceID in
          if negb (text_ok (Str.trim_space title)) || json_has_nul note ||
             negb (fk_ok a_id (t_assets db) (Some deviceID) ||
                   negb (existsb (fun i => is_it i && negb (is_some_b (in_cmdb_ci i))) (t_incidents db)))
          then inl bad_row else
          inr (count_where is_it (t_incidents db),
               with_incidents (update_where is_it
                 (refresh_incident note slaDue (Str.trim_space title) impact urgency deviceID now)
                 (t_incidents db)) db));
        if Nat.eqb n 0 then fail (ErrMsg "database: incident fingerprint update missed row")
        else mret (inr () : () + ())
    end);
  mret ().

Definition recovery_note (t : Z) (fp : string) : json :=
  JObj (jmap [("ts", jstr (fmt_rfc3339 t)); ("author_type", jstr "system"); ("kind", jstr "alert_recovery");
    ("text", jstr ("Monitoring detected recovery for alert fingerprint " +:+ fp +:+ ". Incident resolved automatically."));
    ("fingerprint", jstr fp)]%string).

Definition recovered_state (state : string) : string :=
  if existsb (String.eqb state) ["new"; "in_progress"; "on_hold"]%string then "resolved"%string else state.

Definition recover_incident (note : json) (now : Z) (i : Incident) : Incident :=
  {| in_id := in_id i; in_number := in_number i; in_caller := in_caller i; in_assigned := in_assigned i;
     in_cmdb_ci := in_cmdb_ci i; in_state := recovered_state (in_state i); in_impact := in_impact i;
     in_urgency := in_urgency i; in_short_description := in_short_description i;
     in_work_notes := in_work_notes i ++ [note]; in_sla_due := in_sla_due i;
     in_source_alert_fingerprint := in_source_alert_fingerprint i;
     in_created_at := in_created_at i; in_updated_at := now |}.

(** The body of the loop for one fingerprint that is not blank and not seen before. *)
Definition auto_resolve_one (fp : string) : go L () :=
  t ← now;
  let note := recovery_note t fp in
  wrap "database: auto-resolve incidents" (exec (fun db now =>
    if json_has_nul note || negb (text_ok fp) then inl bad_row else
    inr ((), with_incidents (update_where
      (fun i => same_fingerprint fp i && negb (String.eqb (in_state i) "closed"))
      (recover_incident note now) (t_incidents db)) db))).

Fixpoint auto_resolve (fingerprints : list string) (seen : gset string) : go L () :=
  match fingerprints with
  | [] => mret ()
  | f :: r =>
      let fp := Str.trim_space f in
      if String.eqb fp "" then auto_resolve r seen
      else if decide (fp ∈ seen) then auto_resolve r seen
      else _ ← auto_resolve_one fp; auto_resolve r ({[fp]} ∪ seen)
  end.

Definition AutoResolveIncidentsForAlertFingerprints (fingerprints : list string) : go L () :=
  auto_resolve fingerprints ∅.

(** ** itsm/alert_bridge.go: the hooks log and drop the error. *)

Definition OnCriticalDeviceFingerprint (fingerprint severity : string) (deviceID : uuid) (title message : string)
    : go L () :=
  _ ← attempt (UpsertIncidentForCriticalFingerprint fingerprint deviceID title message severity); mret ().

Definition OnAlertFingerprintsResolved (fingerprints : list string) : go L () :=
  match fingerprints with
  | [] => mret ()
  | _ => _ ← attempt (AutoResolveIncidentsForAlertFingerprints fingerprints); mret ()
  end.

(** The goroutines the alert engine starts: [OnCriticalDeviceFingerprint] is always
    called with severity critical. *)
Definition run_task (e : event) : go L () :=
  match e with
  | OpenIncident fp dev title msg => OnCriticalDeviceFingerprint fp "critical" dev title msg
  | AlertsResolved fps => OnAlertFingerprintsResolved fps
  | _ => mret ()
  end.
End incidents.
