(* ===== verification/IncidentDesk.v ===== *)
(** * What the Service Desk shows (internal/api/incidents.go, internal/database/incidents.go)

    The list of incidents, one incident with its journal, its device and its resolutions, and
    the posting of a resolution. *)

From S2P Require Import Prelude GoStd Float64 Json Ext World Auth UsersAdmin DeviceCommands Incidents.

#[local] Open Scope string_scope.
#[local] Open Scope list_scope.
#[local] Open Scope Z_scope.

Definition is_incident (id : uuid) (i : Incident) : bool := N.eqb (in_id i) id.

(** incidents.priority is a generated column: incident_priority_rank of migration 15. *)
Definition incident_priority_rank (impact urgency : Z) : Z :=
  match impact * 10 + urgency with
  | 11 => 1 | 12 => 2 | 13 => 3 | 21 => 2 | 22 => 3 | 23 => 4 | 31 => 3 | 32 => 4 | 33 => 5 | _ => 3
  end.

(** ** One row of the list: the incident and the names it joins *)

Record IncidentListRow := {
  lr_row : Incident; lr_Priority : Z; lr_SourceAlertFingerprint : option string; lr_LinkedArxID : option string;
  lr_CallerUsername : option string; lr_AssignedToUsername : option string
}.

(** A nullable text, trimmed, when something is left of it. *)
Definition nonblank (s : option string) : option string :=
  s ← s; let s := Str.trim_space s in if String.eqb s "" then None else Some s.

Definition nonempty (s : option string) : option string :=
  s ← s; if String.eqb s "" then None else Some s.

Definition username_of (db : Tables) (user : option uuid) : option string :=
  u ← user; u_username <$> List.find (fun x => N.eqb (u_id x) u) (t_users db).

Definition incident_row (db : Tables) (i : Incident) : IncidentListRow := {|
  lr_row := i; lr_Priority := incident_priority_rank (in_impact i) (in_urgency i);
  lr_SourceAlertFingerprint := nonblank (in_source_alert_fingerprint i);
  lr_LinkedArxID := nonblank (d ← in_cmdb_ci i; a_human_id <$> List.find (fun a => N.eqb (a_id a) d) (t_assets db));
  lr_CallerUsername := nonempty (username_of db (in_caller i));
  lr_AssignedToUsername := nonempty (username_of db (in_assigned i)) |}.

(** ** The device as the CMDB knows it *)

(** The CMDB columns of assets, which no statement of the program writes. *)
Class CmdbColumns := {
  operational_status : uuid -> string; cost_center : uuid -> string; location : uuid -> string
}.

Record IncidentCMDBSnapshot := {
  sn_DeviceID : uuid; sn_HumanID : string; sn_Hostname : option string; sn_OperationalStatus : string;
  sn_CostCenter : string; sn_Location : string; sn_CertSerial : option string; sn_LastSeen : option Z;
  sn_CpuUsagePercent : option float64; sn_RAMPercent : option float64; sn_DiskPercent : option float64;
  sn_LatestMetricsAt : option Z; sn_RecentCommandTypes : list string
}.

Definition newest_sample (a b : DeviceMetric) : bool := dm_CreatedAt b <? dm_CreatedAt a.
Definition newest_command (a b : CommandRow) : bool := dc_CreatedAt (cr_cmd b) <? dc_CreatedAt (cr_cmd a).
Definition newest_incident (a b : Incident) : bool := in_created_at b <? in_created_at a.

(** 100.0 * float64(used) / float64(total) *)
Definition used_percent (used total : Z) : option float64 :=
  if 0 <? total then Some (F64.div (F64.mul (F64.of_Z 100) (F64.of_Z used)) (F64.of_Z total)) else None.

(** The device's row and its last sample. *)
Definition device_snapshot `{CmdbColumns} (db : Tables) (a : Asset) : IncidentCMDBSnapshot :=
  let dm := head (sort_slice newest_sample (List.filter (fun m => N.eqb (dm_DeviceID m) (a_id a)) (t_metrics db))) in
  {| sn_DeviceID := a_id a; sn_HumanID := pg_trim (a_human_id a); sn_Hostname := a_hostname a;
     sn_OperationalStatus := operational_status (a_id a); sn_CostCenter := cost_center (a_id a);
     sn_Location := location (a_id a); sn_CertSerial := a_cert_serial a; sn_LastSeen := a_last_seen a;
     sn_CpuUsagePercent := dm_CPUUsage <$> dm; sn_RAMPercent := (m ← dm; used_percent (dm_RAMUsed m) (dm_RAMTotal m));
     sn_DiskPercent := (m ← dm; used_percent (dm_DiskUsed m) (dm_DiskTotal m)); sn_LatestMetricsAt := dm_CreatedAt <$> dm;
     sn_RecentCommandTypes := [] |}.

Definition recent_commands (db : Tables) (device : uuid) : list string :=
  map (fun r => dc_CommandType (cr_cmd r))
    (take 12 (sort_slice newest_command (List.filter (fun r => N.eqb (dc_DeviceID (cr_cmd r)) device) (t_commands db)))).

Definition with_recent (types : list string) (s : IncidentCMDBSnapshot) : IncidentCMDBSnapshot :=
  {| sn_DeviceID := sn_DeviceID s; sn_HumanID := sn_HumanID s; sn_Hostname := sn_Hostname s;
     sn_OperationalStatus := sn_OperationalStatus s; sn_CostCenter := sn_CostCenter s; sn_Location := sn_Location s;
     sn_CertSerial := sn_CertSerial s; sn_LastSeen := sn_LastSeen s; sn_CpuUsagePercent := sn_CpuUsagePercent s;
     sn_RAMPercent := sn_RAMPercent s; sn_DiskPercent := sn_DiskPercent s; sn_LatestMetricsAt := sn_LatestMetricsAt s;
     sn_RecentCommandTypes := types |}.

Section snapshot.
Context `{CC : CmdbColumns} {L : Type}.

(** The recent commands are left out when they cannot be read. *)
Definition LoadIncidentCMDBSnapshot (deviceID : uuid) : go L IncidentCMDBSnapshot :=
  if N.eqb deviceID uuid_nil then fail (ErrMsg "database: snapshot args") else
  snap ← select (fun db _ => match List.find (fun a => N.eqb (a_id a) deviceID) (t_assets db) with
                             | Some a => inr (device_snapshot db a)
                             | None => inl ErrNoRows end);
  types ← attempt (select (fun db _ => inr (recent_commands db deviceID)));
  mret match types with
       | inl _ => snap
       | inr types => with_recent (omap (fun t => nonblank (Some t)) types) snap
       end.
End snapshot.

Record IncidentCMDBWire := {
  cw_snap : IncidentCMDBSnapshot; cw_C2Connected : bool; cw_C2Capabilities : list string
}.

Definition hubCertConnected (connected : list string) (certSerial : string) : bool :=
  let certSerial := Str.trim_space certSerial in
  negb (String.eqb certSerial "") && existsb (fun s => String.eqb (Str.trim_space s) certSerial) connected.

Definition buildCMDBWire (connected : list string) (snap : IncidentCMDBSnapshot) : IncidentCMDBWire := {|
  cw_snap := snap;
  cw_C2Connected := match nonblank (sn_CertSerial snap) with Some s => hubCertConnected connected s | None => false end;
  cw_C2Capabilities := [DeviceCommandTypePing; DeviceCommandTypeReboot; DeviceCommandTypeScript;
                        DeviceCommandTypeRestartService; DeviceCommandTypePushConfig] |}.

(** ** One incident *)

Record IncidentDetailResponse := {
  id_Incident : IncidentListRow; id_WorkNotes : list json; id_CMDBContext : option IncidentCMDBWire;
  id_Resolutions : list Resolution
}.

(** ORDER BY created_at, id; a resolution is created when it is resolved. *)
Definition oldest_resolution (a b : Resolution) : bool :=
  (re_resolved_at a <? re_resolved_at b) || (re_resolved_at a =? re_resolved_at b) && (re_id a <? re_id b)%N.

Definition is_resolution_of (id : uuid) (re : Resolution) : bool := N.eqb (re_incident re) id.

Definition resolutions_of (db : Tables) (id : uuid) : list Resolution :=
  sort_slice oldest_resolution (List.filter (is_resolution_of id) (t_resolutions db)).

(** ** The routes *)

Definition maxIncidentJSONBody : Z := 512 * 1024.

Record createResolutionRequest := { cr_Summary : string; cr_Markdown : string }.

Section wire.
Context `{UL : UuidLib} `{GF : GoFmt}.

Definition opt_field {A} (k : string) (f : A -> json) (v : option A) : list (string * json) :=
  match v with Some x => [(k, f x)] | None => [] end.

Definition json_int (n : Z) : json := JNum (F64.of_Z n).
Definition json_id (u : uuid) : json := jstr (uuid_string u).
Definition json_time (t : Z) : json := jstr (fmt_time t).

Definition incident_row_json (l : IncidentListRow) : json :=
  let i := lr_row l in
  JObj (jmap ([("id", json_id (in_id i)); ("incident_number", jstr (in_number i));
      ("short_description", jstr (in_short_description i)); ("state", jstr (in_state i));
      ("priority", json_int (lr_Priority l)); ("impact", json_int (in_impact i)); ("urgency", json_int (in_urgency i));
      ("sla_due", json_time (in_sla_due i)); ("created_at", json_time (in_created_at i));
      ("updated_at", json_time (in_updated_at i))]
    ++ opt_field "source_alert_fingerprint" jstr (lr_SourceAlertFingerprint l)
    ++ opt_field "linked_arx_id" jstr (lr_LinkedArxID l) ++ opt_field "cmdb_ci" json_id (in_cmdb_ci i)
    ++ opt_field "caller_id" json_id (in_caller i) ++ opt_field "caller_username" jstr (lr_CallerUsername l)
    ++ opt_field "assigned_to" json_id (in_assigned i)
    ++ opt_field "assigned_to_username" jstr (lr_AssignedToUsername l))).

Definition cmdb_json (w : IncidentCMDBWire) : json :=
  let s := cw_snap w in
  JObj (jmap ([("device_id", json_id (sn_DeviceID s)); ("human_id", jstr (sn_HumanID s));
      ("operational_status", jstr (sn_OperationalStatus s)); ("cost_center", jstr (sn_CostCenter s));
      ("location", jstr (sn_Location s)); ("c2_connected", JBool (cw_C2Connected w));
      ("c2_capabilities", JArr (map jstr (cw_C2Capabilities w)))]
    ++ opt_field "hostname" jstr (sn_Hostname s)
    ++ opt_field "last_seen" (fun t => jstr (fmt_rfc3339 t)) (sn_LastSeen s)
    ++ opt_field "cpu_usage_percent" JNum (sn_CpuUsagePercent s)
    ++ opt_field "ram_usage_percent" JNum (sn_RAMPercent s) ++ opt_field "disk_usage_percent" JNum (sn_DiskPercent s)
    ++ opt_field "latest_metrics_at" (fun t => jstr (fmt_rfc3339 t)) (sn_LatestMetricsAt s)
    ++ match sn_RecentCommandTypes s with [] => [] | ts => [("recent_c2_command_types", JArr (map jstr ts))] end)).

Definition resolution_json (re : Resolution) : json :=
  JObj (jmap [("id", json_id (re_id re)); ("incident_id", json_id (re_incident re)); ("summary", jstr (re_summary re));
              ("markdown", jstr (re_markdown re)); ("resolved_at", json_time (re_resolved_at re));
              ("created_at", json_time (re_resolved_at re))]).

(** No resolution is a nil slice: null. *)
Definition detail_json (d : IncidentDetailResponse) : json :=
  JObj (jmap ([("incident", incident_row_json (id_Incident d)); ("work_notes", JArr (id_WorkNotes d));
      ("resolutions", match id_Resolutions d with [] => JNull | rs => JArr (map resolution_json rs) end)]
    ++ opt_field "cmdb_context" cmdb_json (id_CMDBContext d))).
End wire.

Section views.
Context `{JC : JsonCodec} `{UL : UuidLib} `{GF : GoFmt} `{JL : JwtLib} `{CC : CmdbColumns} `{C2 : C2Dispatcher L}.
Context (origins : list string).

Definition parseIncidentUUID (r : Request) : option uuid := parseUserUUID r.

(** WHERE ($1::uuid IS NULL OR i.cmdb_ci = $1) ORDER BY i.created_at DESC LIMIT 1000 *)
Definition listed (filterArg : option uuid) (db : Tables) : list Incident :=
  take 1000 (sort_slice newest_incident (List.filter (fun i =>
    match filterArg with None => true | Some d => opt_eqb (in_cmdb_ci i) (Some d) end) (t_incidents db))).

Definition handleListIncidents (r : Request) : go L Response :=
  let? _ := require_method "GET" r in
  let? _ := RequireMinRole origins r RoleViewer in
  let q := Str.trim_space (rq_query r "device_id") in
  match (if String.eqb q "" then Some None else Some <$> uuid_parse q) with
  | None => mret (writeTicketsError 400 "invalid device_id query parameter")
  | Some filterArg =>
      rows ← attempt (select (fun db _ => inr (map (incident_row db) (listed filterArg db))));
      mret match rows with
           | inl _ => writeTicketsError 500 "failed to list incidents"
           | inr rows => writeTicketsJSON 200 (JArr (map incident_row_json rows))
           end
  end.

Definition loadIncidentDetail (id : uuid) : go L IncidentDetailResponse :=
  found ← select (fun db _ => match List.find (is_incident id) (t_incidents db) with
                              | Some i => inr (incident_row db i)
                              | None => inl ErrNoRows end);
  context ← match in_cmdb_ci (lr_row found) with
            | None => mret None
            | Some d =>
                if N.eqb d uuid_nil then mret None else
                l ← links;
                snap ← attempt (LoadIncidentCMDBSnapshot d);
                mret match snap with inl _ => None | inr snap => Some (buildCMDBWire (connected_serials l) snap) end
            end;
  rs ← select (fun db _ => inr (resolutions_of db id));
  mret {| id_Incident := found; id_WorkNotes := in_work_notes (lr_row found); id_CMDBContext := context;
          id_Resolutions := rs |}.

Definition handleGetIncident (r : Request) : go L Response :=
  let? _ := require_method "GET" r in
  let? _ := RequireMinRole origins r RoleViewer in
  match parseIncidentUUID r with
  | None => mret (writeTicketsError 400 "invalid incident id")
  | Some id =>
      detail ← attempt (loadIncidentDetail id);
      mret match detail with
           | inl e => if is_no_rows e then writeTicketsError 404 "incident not found"
                      else writeTicketsError 500 "failed to load incident"
           | inr d => writeTicketsJSON 200 (detail_json d)
           end
  end.

Definition decode_create_resolution (body : string) : option createResolutionRequest :=
  m ← unmarshal_map body;
  s ← dec_string "" (field "summary" m); md ← dec_string "" (field "markdown" m);
  Some {| cr_Summary := s; cr_Markdown := md |}.

Definition insert_resolution (id : uuid) (summary markdown : string) : go L uuid :=
  insert_id (fun nid db t =>
    if negb (text_ok summary && text_ok markdown) then inl (ErrMsg "invalid byte sequence for encoding UTF8") else
    if negb (existsb (is_incident id) (t_incidents db)) then inl (ErrMsg "violates foreign key constraint") else
    inr (nid, with_resolutions (t_resolutions db ++
      [{| re_id := nid; re_incident := id; re_summary := summary; re_markdown := markdown; re_details := JObj [];
          re_resolved_at := t |}]) db)).

Definition handlePostResolution (r : Request) : go L Response :=
  let? _ := require_method "POST" r in
  let? _ := RequireMinRole origins r RoleOperator in
  match parseIncidentUUID r with
  | None => mret (writeTicketsError 400 "invalid incident id")
  | Some id =>
  match read_body maxIncidentJSONBody r with
  | None => mret (writeTicketsError 400 "could not read request body")
  | Some body =>
  match decode_create_resolution body with
  | None => mret (writeTicketsError 400 "invalid JSON body")
  | Some req =>
      let summary := Str.trim_space (cr_Summary req) in
      if String.eqb summary "" then mret (writeTicketsError 400 "summary is required") else
      there ← attempt (select (fun db _ => inr (existsb (is_incident id) (t_incidents db))));
      if match there with inr b => negb b | inl _ => true end
      then mret (writeTicketsError 404 "incident not found") else
      res ← attempt (insert_resolution id summary (cr_Markdown req));
      match res with
      | inl _ => mret (writeTicketsError 500 "failed to create resolution")
      | inr resID => _ ← emit IncidentsMutated; mret (writeTicketsJSON 201 (JObj [("id", json_id resID)]))
      end
  end end end.
End views.
