(* ===== verification/IncidentsApi.v ===== *)
(** * The Service Desk REST surface (internal/api/incidents.go)

    Creating, editing and deleting incidents, and the incident console's device
    commands; the read routes and the resolutions are in [IncidentDesk]. *)

From S2P Require Import Prelude GoStd Float64 Json Ext World Auth UsersAdmin DeviceCommands CommandFlow.
From S2P Require Import Incidents IncidentDesk.

Record createIncidentRequest := {
  ci_ShortDescription : string; ci_State : string; ci_Impact : option Z; ci_Urgency : option Z;
  ci_LinkedAssetHumanID : string; ci_AssignedToUserID : string; ci_InitialNote : string; ci_SLADue : string
}.

Record patchIncidentRequest := {
  pi_ShortDescription : option string; pi_State : option string; pi_Impact : option Z; pi_Urgency : option Z;
  pi_LinkedAssetHumanID : option string; pi_AssignedToUserID : option string; pi_ClearAssignedTo : option bool;
  pi_AppendWorkNote : option string; pi_SLADue : option string
}.

Definition normalizeIncidentState (s : string) : string := Str.to_lower (Str.trim_space s).
Definition validateIncidentState (s : string) : bool := existsb (String.eqb s) incident_states.

(** Go's conversion int16(v). *)
Definition int16 (v : Z) : Z := (v + 32768) mod 65536 - 32768.

Definition impactUrgencyOrDefault (v : option Z) : Z :=
  match v with
  | None => 2
  | Some v => let x := int16 v in
              let x := if x <? 1 then 1 else x in
              if 3 <? x then 3 else x
  end.

(** UPDATE ... SET, column by column: what the generated statement assigns. *)
Record SetParts := {
  sp_short : option string; sp_state : option string; sp_impact : option Z; sp_urgency : option Z;
  sp_sla : option Z; sp_cmdb : option (option uuid); sp_assigned : option (option uuid)
}.

Definition no_parts (s : SetParts) : bool :=
  negb (is_some_b (sp_short s) || is_some_b (sp_state s) || is_some_b (sp_impact s) || is_some_b (sp_urgency s)
        || is_some_b (sp_sla s) || is_some_b (sp_cmdb s) || is_some_b (sp_assigned s)).

Definition apply_parts (s : SetParts) (now : Z) (i : Incident) : Incident :=
  {| in_id := in_id i; in_number := in_number i; in_caller := in_caller i;
     in_assigned := default (in_assigned i) (sp_assigned s); in_cmdb_ci := default (in_cmdb_ci i) (sp_cmdb s);
     in_state := default (in_state i) (sp_state s); in_impact := default (in_impact i) (sp_impact s);
     in_urgency := default (in_urgency i) (sp_urgency s);
     in_short_description := default (in_short_description i) (sp_short s);
     in_work_notes := in_work_notes i; in_sla_due := default (in_sla_due i) (sp_sla s);
     in_source_alert_fingerprint := in_source_alert_fingerprint i;
     in_created_at := in_created_at i; in_updated_at := now |}.

Section handlers.
Context `{JC : JsonCodec} `{UL : UuidLib} `{GF : GoFmt} `{JL : JwtLib} `{NL : NetLib} `{CC : CmdbColumns} `{C2 : C2Dispatcher L}.
Context (origins : list string).

Definition decode_create_incident (body : string) : option createIncidentRequest :=
  m ← unmarshal_map body;
  sd ← dec_string "" (field "short_description" m); st ← dec_string "" (field "state" m);
  im ← dec_opt_int None (field "impact" m); ur ← dec_opt_int None (field "urgency" m);
  la ← dec_string "" (field "linked_asset_human_id" m); au ← dec_string "" (field "assigned_to_user_id" m);
  nt ← dec_string "" (field "initial_work_note" m); sl ← dec_string "" (field "sla_due" m);
  Some {| ci_ShortDescription := sd; ci_State := st; ci_Impact := im; ci_Urgency := ur;
          ci_LinkedAssetHumanID := la; ci_AssignedToUserID := au; ci_InitialNote := nt; ci_SLADue := sl |}.

Definition decode_patch_incident (body : string) : option patchIncidentRequest :=
  m ← unmarshal_map body;
  sd ← dec_opt_string None (field "short_description" m); st ← dec_opt_string None (field "state" m);
  im ← dec_opt_int None (field "impact" m); ur ← dec_opt_int None (field "urgency" m);
  la ← dec_opt_string None (field "linked_asset_human_id" m);
  au ← dec_opt_string None (field "assigned_to_user_id" m);
  ca ← dec_opt_bool None (field "clear_assigned_to" m);
  nt ← dec_opt_string None (field "append_work_note" m); sl ← dec_opt_string None (field "sla_due" m);
  Some {| pi_ShortDescription := sd; pi_State := st; pi_Impact := im; pi_Urgency := ur;
          pi_LinkedAssetHumanID := la; pi_AssignedToUserID := au; pi_ClearAssignedTo := ca;
          pi_AppendWorkNote := nt; pi_SLADue := sl |}.

Definition manual_note (t : Z) (text : string) (p : Principal) : json :=
  JObj (jmap [("ts", jstr (fmt_rfc3339 t)); ("author_type", jstr "operator"); ("kind", jstr "manual");
              ("text", jstr text); ("user_id", jstr (uuid_string (p_UserID p)))]%string).

(** 'INC' || LPAD(nextval('incident_seq')::TEXT, 7, '0') *)
Definition lpad_incident_number (n : Z) : string := "INC" +:+ Str.lpad_zeros 7 (Str.itoa n).

(** SELECT id FROM assets WHERE human_id = $1 *)
Definition asset_by_human_id (hid : string) : go L uuid :=
  select (fun db _ => match List.find (fun a => String.eqb (a_human_id a) hid) (t_assets db) with
                      | Some a => inr (a_id a)
                      | None => inl ErrNoRows end).

Definition resolve_asset (hid : string) : go L (Response + uuid) :=
  r ← attempt (asset_by_human_id hid);
  mret match r with
       | inr id => inr id
       | inl e => if is_no_rows e then err_resp 400 "linked_asset_human_id not found"
                  else err_resp 500 "failed to resolve asset"
       end.

Definition resolve_assignee (au : string) : go L (Response + uuid) :=
  match uuid_parse au with
  | None => mret (err_resp 400 "invalid assigned_to_user_id")
  | Some aid =>
      r ← attempt (select (fun db _ => inr (existsb (fun u => N.eqb (u_id u) aid) (t_users db))));
      mret match r with
           | inr true => inr aid
           | _ => err_resp 400 "assigned_to_user_id not found"
           end
  end.

(** Inside a transaction an early return is an [inl] response. *)
Notation "'tx?' p := c 'in' k" := (r ← c; match r with inl resp => mret (inl resp) | inr p => k end)
  (at level 200, p pattern, k at level 200).

Definition optional_ref (s : string) (f : string -> go L (Response + uuid)) : go L (Response + option uuid) :=
  let s := Str.trim_space s in
  if String.eqb s "" then mret (inr None) else
  r ← f s; mret match r with inl resp => inl resp | inr id => inr (Some id) end.

Definition create_tx (p : Principal) (req : createIncidentRequest) (short st : string) (impact urgency : Z)
    : go L (Response + (uuid * string * option uuid)) :=
  in_tx (
    num ← attempt nextval_incident;
    match num with
    | inl _ => mret (err_resp 500 "failed to allocate incident number")
    | inr n =>
        let incNum := lpad_incident_number n in
        tx? cmdb := optional_ref (ci_LinkedAssetHumanID req) resolve_asset in
        tx? assignedTo := optional_ref (ci_AssignedToUserID req) resolve_assignee in
        t ← now;
        match (if String.eqb (Str.trim_space (ci_SLADue req)) "" then Some (t + 8 * hour)
               else parse_rfc3339 (Str.trim_space (ci_SLADue req))) with
        | None => mret (err_resp 400 "sla_due must be RFC3339")
        | Some sla =>
            let nt := Str.trim_space (ci_InitialNote req) in
            let notes := if String.eqb nt "" then [] else [manual_note t nt p] in
            res ← attempt (insert_id (fun id db now =>
              let i := {| in_id := id; in_number := incNum; in_caller := Some (p_UserID p);
                          in_assigned := assignedTo; in_cmdb_ci := cmdb; in_state := st;
                          in_impact := impact; in_urgency := urgency;
                          in_short_description := Str.left_chars 500 short; in_work_notes := notes;
                          in_sla_due := sla; in_source_alert_fingerprint := None;
                          in_created_at := now; in_updated_at := now |} in
              if negb (text_ok short) || negb (incident_row_ok db i) then inl bad_row
              else inr (id, with_incidents (t_incidents db ++ [i]) db)));
            mret match res with
                 | inl _ => err_resp 500 "failed to create incident"
                 | inr id => inr (id, incNum, cmdb)
                 end
        end
    end).

Definition handleCreateIncident (r : Request) : go L Response :=
  let? _ := require_method "POST" r in
  let? p := RequireMinRole origins r RoleOperator in
  match read_body maxIncidentJSONBody r with
  | None => mret (writeTicketsError 400 "could not read request body")
  | Some body =>
  match decode_create_incident body with
  | None => mret (writeTicketsError 400 "invalid JSON body")
  | Some req =>
      let short := Str.trim_space (ci_ShortDescription req) in
      if String.eqb short "" then mret (writeTicketsError 400 "short_description is required") else
      let st := normalizeIncidentState (ci_State req) in
      let st := if String.eqb st "" then "new"%string else st in
      if negb (validateIncidentState st) then mret (writeTicketsError 400 "invalid state") else
      let impact := impactUrgencyOrDefault (ci_Impact req) in
      let urgency := impactUrgencyOrDefault (ci_Urgency req) in
      res ← attempt (create_tx p req short st impact urgency);
      match res with
      | inl _ => mret (writeTicketsError 500 "failed to create incident")
      | inr (inl resp) => mret resp
      | inr (inr (newID, incNum, cmdb)) =>
          _ ← emit IncidentsMutated;
          _ ← emit (IncidentCreated incNum short cmdb);
          mret (writeTicketsJSON 201 (JObj (jmap [("id", jstr (uuid_string newID)); ("incident_number", jstr incNum)]%string)))
      end
  end end.

(** The work note of a PATCH, if it carries one: did it append? *)
Definition patch_note (p : Principal) (id : uuid) (req : patchIncidentRequest) : go L (Response + bool) :=
  match pi_AppendWorkNote req with
  | None => mret (inr false)
  | Some raw =>
      let text := Str.trim_space raw in
      if String.eqb text "" then mret (inr false) else
      t ← now;
      let note := manual_note t text p in
      n ← attempt (exec (fun db now =>
        let is_it := fun i => N.eqb (in_id i) id in
        if json_has_nul note then inl bad_jsonb else
        inr (count_where is_it (t_incidents db),
             with_incidents (update_where is_it (with_note note now) (t_incidents db)) db)));
      mret match n with
           | inl _ => err_resp 500 "failed to append work note"
           | inr n => if Nat.eqb n 0 then err_resp 404 "incident not found" else inr true
           end
  end.

Definition patch_sla (req : patchIncidentRequest) : Response + option Z :=
  match pi_SLADue req with
  | None => inr None
  | Some raw => match parse_rfc3339 (Str.trim_space raw) with
                | None => err_resp 400 "sla_due must be RFC3339"
                | Some t => inr (Some t) end
  end.

Definition patch_cmdb (req : patchIncidentRequest) : go L (Response + option (option uuid)) :=
  match pi_LinkedAssetHumanID req with
  | None => mret (inr None)
  | Some raw =>
      let hv := Str.trim_space raw in
      if String.eqb hv "" then mret (inr (Some None)) else
      r ← resolve_asset hv;
      mret match r with inl resp => inl resp | inr id => inr (Some (Some id)) end
  end.

Definition patch_assigned (req : patchIncidentRequest) : go L (Response + option (option uuid)) :=
  if default false (pi_ClearAssignedTo req) then mret (inr (Some None)) else
  match pi_AssignedToUserID req with
  | None => mret (inr None)
  | Some raw =>
      let at' := Str.trim_space raw in
      if String.eqb at' "" then mret (inr (Some None)) else
      r ← resolve_assignee at';
      mret match r with inl resp => inl resp | inr id => inr (Some (Some id)) end
  end.

(** [short] and [state] are the trimmed and normalised values. *)
Definition patch_tx (p : Principal) (id : uuid) (req : patchIncidentRequest) (short state : option string)
    : go L (Response + ()) :=
  in_tx (
    tx? hadManualAppend := patch_note p id req in
    match patch_sla req with
    | inl resp => mret (inl resp)
    | inr sla =>
        tx? cmdb := patch_cmdb req in
        tx? assigned := patch_assigned req in
        let parts := {| sp_short := short; sp_state := state;
                        sp_impact := option_map (fun v => impactUrgencyOrDefault (Some v)) (pi_Impact req);
                        sp_urgency := option_map (fun v => impactUrgencyOrDefault (Some v)) (pi_Urgency req);
                        sp_sla := sla; sp_cmdb := cmdb; sp_assigned := assigned |} in
        if no_parts parts
        then mret (if (hadManualAppend : bool) then inr () else err_resp 400 "no fields to update") else
        n ← attempt (exec (fun db now =>
          let is_it := fun i => N.eqb (in_id i) id in
          if negb (text_ok (default ""%string short)) then inl bad_row else
          inr (count_where is_it (t_incidents db),
               with_incidents (update_where is_it (apply_parts parts now) (t_incidents db)) db)));
        mret match n with
             | inl _ => err_resp 500 "failed to update incident"
             | inr n => if Nat.eqb n 0 then err_resp 404 "incident not found" else inr ()
             end
    end).

(** The answer is the incident as it is read back. *)
Definition handlePatchIncident (r : Request) : go L Response :=
  let? _ := require_method "PATCH" r in
  let? p := RequireMinRole origins r RoleOperator in
  match parseIncidentUUID r with
  | None => mret (writeTicketsError 400 "invalid incident id")
  | Some id =>
  match read_body maxIncidentJSONBody r with
  | None => mret (writeTicketsError 400 "could not read request body")
  | Some body =>
  match decode_patch_incident body with
  | None => mret (writeTicketsError 400 "invalid JSON body")
  | Some req =>
      if negb (is_some_b (pi_ShortDescription req) || is_some_b (pi_State req) || is_some_b (pi_Impact req)
               || is_some_b (pi_Urgency req) || is_some_b (pi_LinkedAssetHumanID req)
               || is_some_b (pi_AssignedToUserID req) || is_some_b (pi_ClearAssignedTo req)
               || is_some_b (pi_AppendWorkNote req) || is_some_b (pi_SLADue req))
      then mret (writeTicketsError 400 "no fields to update") else
      let short := option_map Str.trim_space (pi_ShortDescription req) in
      if match short with Some s => String.eqb s "" | None => false end
      then mret (writeTicketsError 400 "short_description cannot be empty") else
      let state := option_map normalizeIncidentState (pi_State req) in
      if match state with Some s => negb (validateIncidentState s) | None => false end
      then mret (writeTicketsError 400 "invalid state") else
      if default false (pi_ClearAssignedTo req) &&
         negb (String.eqb (Str.trim_space (default ""%string (pi_AssignedToUserID req))) "")
      then mret (writeTicketsError 400 "clear_assigned_to conflicts with assigned_to_user_id") else
      res ← attempt (patch_tx p id req short state);
      match res with
      | inl _ => mret (writeTicketsError 500 "failed to update incident")
      | inr (inl resp) => mret resp
      | inr (inr _) =>
          _ ← emit IncidentsMutated;
          out ← attempt (loadIncidentDetail id);
          mret (writeTicketsJSON 200 match out with
                                     | inl _ => JObj [("status"%string, jstr "updated")]
                                     | inr d => detail_json d
                                     end)
      end
  end end end.

(** device_commands.incident_context_id is ON DELETE SET NULL; resolutions.incident_id is ON DELETE CASCADE. *)
Definition forget_context (id : uuid) (r : CommandRow) : CommandRow :=
  {| cr_cmd := cr_cmd r; cr_incident := null_ref id (cr_incident r) |}.

Definition handleDeleteIncident (r : Request) : go L Response :=
  let? _ := require_method "DELETE" r in
  let? _ := RequireMinRole origins r RoleOperator in
  match parseIncidentUUID r with
  | None => mret (writeTicketsError 400 "invalid incident id")
  | Some id =>
      n ← attempt (exec (fun db _ =>
        let is_it := fun i => N.eqb (in_id i) id in
        inr (count_where is_it (t_incidents db),
             with_incidents (delete_where is_it (t_incidents db))
               (with_commands (map (forget_context id) (t_commands db))
                 (with_resolutions (delete_where (is_resolution_of id) (t_resolutions db)) db)))));
      match n with
      | inl _ => mret (writeTicketsError 500 "failed to delete incident")
      | inr n => if Nat.eqb n 0 then mret (writeTicketsError 404 "incident not found")
                 else _ ← emit IncidentsMutated; mret (writeTicketsJSON 204 JNull)
      end
  end.

Definition incident_audit (p : Principal) (r : Request) (incidentID deviceID : uuid) (commandType cmdID : string)
    : AuditRecord :=
  {| rec_UserID := p_UserID p; rec_Action := "incident_command_executed"; rec_ResourceType := "incident";
     rec_ResourceID := Some incidentID; rec_TargetAssetID := Some deviceID;
     rec_Details := [("command_id", jstr cmdID); ("command_type", jstr commandType);
                     ("channel", jstr "incident_console")]%string;
     rec_IPAddress := ClientIP r |}.

Definition handlePostIncidentCommand (r : Request) : go L Response :=
  let? _ := require_method "POST" r in
  let? principal := RequireMinRole origins r RoleOperator in
  match parseIncidentUUID r with
  | None => mret (writeTicketsError 400 "invalid incident id")
  | Some incidentID =>
  match read_body (maxDeviceCommandPayloadBytes + 4096) r with
  | None => mret (writeTicketsError 400 "invalid request body")
  | Some body =>
  match decode_create_command body with
  | None => mret (writeTicketsError 400 "invalid JSON body")
  | Some (rawType, payload) =>
      let commandType := Str.trim_space (Str.to_lower rawType) in
      if String.eqb commandType "" then mret (writeTicketsError 400 "command_type is required") else
      q ← attempt (select (fun db _ =>
            match List.find (fun i => N.eqb (in_id i) incidentID) (t_incidents db) with
            | Some i => inr (in_cmdb_ci i)
            | None => inl ErrNoRows end));
      match q with
      | inl _ => mret (writeTicketsError 404 "incident not found")
      | inr cmdb =>
          match cmdb with
          | None => mret (writeTicketsError 409 "incident must be linked to a CMDB CI before running C2")
          | Some deviceID =>
              if N.eqb deviceID uuid_nil
              then mret (writeTicketsError 409 "incident must be linked to a CMDB CI before running C2") else
              res ← attempt (InsertDeviceCommand deviceID commandType payload (Some incidentID));
              match res with
              | inl e => mret (writeTicketsError 400 (err_text e))
              | inr cmd => deliver cmd commandType payload
                             (incident_audit principal r incidentID deviceID commandType)
              end
          end
      end
  end end end.
End handlers.
