(* ===== verification/IncidentFacts.v ===== *)
(** * Incidents: invariants of the table, automation, numbers

    Properties of [Incidents] and [IncidentsApi]. *)

From S2P Require Import Prelude GoStd Float64 Json Ext World Auth UsersAdmin DeviceCommands CommandFlow.
From S2P Require Import CommandFacts Incidents IncidentDesk IncidentsApi.

(** ** The table invariant *)

Definition fingerprints (db : Tables) : list string :=
  omap in_source_alert_fingerprint (t_incidents db).

Definition wf_incident (i : Incident) : Prop :=
  incident_number_ok (in_number i) = true /\ In (in_state i) incident_states /\
  rank_ok (in_impact i) = true /\ rank_ok (in_urgency i) = true.

Definition incidents_ok (db : Tables) : Prop :=
  (forall i, In i (t_incidents db) -> wf_incident i) /\
  List.NoDup (map in_number (t_incidents db)) /\ List.NoDup (fingerprints db).

(** The journal of an incident only grows, and its identity is fixed. *)
Definition identity (i : Incident) : uuid * string * option string * Z :=
  (in_id i, in_number i, in_source_alert_fingerprint i, in_created_at i).

Definition journal_grows (i j : Incident) : Prop :=
  identity i = identity j /\ in_work_notes i `prefix_of` in_work_notes j.

Lemma existsb_false_notin {A} (key : A -> string) s l :
  existsb (fun x => String.eqb (key x) s) l = false -> ~ In s (map key l).
Proof.
  intros H Hi. apply in_map_iff in Hi as (x & <- & Hx).
  assert (existsb (fun x0 => String.eqb (key x0) (key x)) l = true); [|congruence].
  apply existsb_exists. exists x. split; [done|]. apply String.eqb_refl.
Qed.

Lemma incident_row_ok_wf db i : incident_row_ok db i = true ->
  wf_incident i /\ ~ In (in_number i) (map in_number (t_incidents db)) /\
  (forall fp, in_source_alert_fingerprint i = Some fp -> ~ In fp (fingerprints db)).
Proof.
  unfold incident_row_ok. rewrite !andb_true_iff. intros H. destruct_and?.
  repeat match goal with H : negb _ = true |- _ => apply negb_true_iff in H end.
  split; [|split].
  - repeat split; try done. apply existsb_exists in H9 as (x & Hx & E). apply String.eqb_eq in E. by rewrite E.
  - by apply existsb_false_notin.
  - intros fp Hfp. rewrite Hfp in *. apply andb_true_iff in H6 as [H6 _]. apply negb_true_iff in H6.
    intros Hi. unfold fingerprints in Hi. apply list_elem_of_In, list_elem_of_omap in Hi as (j & Hj & E).
    assert (existsb (same_fingerprint fp) (t_incidents db) = true); [|congruence].
    apply existsb_exists. exists j. split; [by apply list_elem_of_In|]. unfold same_fingerprint.
    rewrite E. apply String.eqb_refl.
Qed.

#[export] Instance journal_grows_preorder : PreOrder journal_grows.
Proof.
  split; [by intros i|]. intros i j k [E1 P1] [E2 P2]. split; [congruence|by etransitivity].
Qed.

(** Incidents are only added, and those that exist only gain notes. *)
Definition grows_only (db db' : Tables) : Prop :=
  exists old added, t_incidents db' = old ++ added /\ Forall2 journal_grows (t_incidents db) old.

#[export] Instance grows_only_preorder : PreOrder grows_only.
Proof.
  split.
  - intros db. exists (t_incidents db), []. rewrite app_nil_r. split; [done|].
    induction (t_incidents db); by constructor.
  - intros x y z (o1 & a1 & E1 & F1) (o2 & a2 & E2 & F2). rewrite E1 in F2.
    apply Forall2_app_inv_l in F2 as (o & a & Fo & Fa & ->).
    exists o, (a ++ a2). rewrite E2, <- app_assoc. split; [done|].
    clear -F1 Fo. revert o Fo. induction F1; intros o Fo; invert Fo; constructor; [by etransitivity|auto].
Qed.

Definition evolves (db db' : Tables) : Prop := keeps incidents_ok db db' /\ grows_only db db'.

#[export] Instance evolves_preorder : PreOrder evolves.
Proof.
  split; [by intros db; split|]. intros x y z [H1 G1] [H2 G2]. split; by etransitivity.
Qed.

Section steps.
Lemma omap_map_same {A} (f : A -> option string) (g : A -> A) l :
  (forall x, In x l -> f (g x) = f x) -> omap f (map g l) = omap f l.
Proof.
  induction l as [|x l IH]; [done|]. intros H. csimpl. rewrite (H x) by (by left).
  rewrite IH by (intros; apply H; by right). done.
Qed.

Lemma update_evolves p f db :
  (forall i, p i = true -> journal_grows i (f i) /\ (wf_incident i -> wf_incident (f i))) ->
  evolves db (with_incidents (update_where p f (t_incidents db)) db).
Proof.
  intros Hf. assert (Hg : forall i, journal_grows i (if p i then f i else i)).
  { intros i. destruct (p i) eqn:E; [by apply Hf|done]. }
  split.
  - intros (Hw & Hn & Hfp). repeat split; simpl.
    all: try (apply update_where_In in H as (j & Hj & ->); destruct (p j) eqn:E; [apply Hf; [done|]|]; by apply Hw).
    + rewrite update_where_column; [done|]. intros i Hi. destruct (Hf i Hi) as [[E _] _]. by injection E.
    + unfold fingerprints in *. simpl. unfold update_where. rewrite omap_map_same; [done|].
      intros i _. destruct (Hg i) as [E _]. by injection E.
  - exists (update_where p f (t_incidents db)), []. rewrite app_nil_r. split; [done|].
    unfold update_where. induction (t_incidents db); simpl; constructor; [apply Hg|done].
Qed.

Lemma add_evolves i db :
  incident_row_ok db i = true -> evolves db (with_incidents (t_incidents db ++ [i]) db).
Proof.
  intros Hok. apply incident_row_ok_wf in Hok as (Hwf & Hnum & Hfp). split.
  - intros (Hw & Hn & Hf). split; [|split]; simpl.
    + intros j Hj. apply in_app_or in Hj as [Hj|[<-|[]]]; [by apply Hw|done].
    + rewrite map_app. apply List.NoDup_app; [done|by repeat constructor; intros []|].
      intros s Hs [<-|[]]. done.
    + unfold fingerprints in *. simpl. rewrite omap_app. apply List.NoDup_app; [done| |].
      * simpl. destruct (in_source_alert_fingerprint i); simpl; repeat constructor; intros [].
      * intros s Hs. simpl. destruct (in_source_alert_fingerprint i) as [fp|]; [|by intros []].
        intros [<-|[]]. by apply (Hfp fp).
  - exists (t_incidents db), [i]. split; [done|]. induction (t_incidents db); by constructor.
Qed.

Lemma note_evolves p note now db :
  evolves db (with_incidents (update_where p (with_note note now) (t_incidents db)) db).
Proof.
  apply update_evolves. intros i _. split; [|done]. split; [done|]. simpl. by apply prefix_app_r.
Qed.

Lemma same_incidents_evolves db db' : t_incidents db = t_incidents db' -> evolves db db'.
Proof.
  intros E. split.
  - unfold keeps, incidents_ok, fingerprints. by rewrite E.
  - exists (t_incidents db'), []. rewrite app_nil_r. split; [done|]. rewrite E.
    induction (t_incidents db'); by constructor.
Qed.
End steps.

Lemma severity_ranks_ok s : rank_ok (severity_ranks s).1 = true /\ rank_ok (severity_ranks s).2 = true.
Proof. unfold severity_ranks. by repeat case_match. Qed.

Lemma impact_urgency_ok v : rank_ok (impactUrgencyOrDefault v) = true.
Proof.
  unfold rank_ok, impactUrgencyOrDefault. destruct v as [v|]; [|done]. cbv zeta.
  destruct (Z.ltb_spec (int16 v) 1); destruct (Z.ltb_spec 3 (if int16 v <? 1 then 1 else int16 v));
    repeat (case_match || rewrite andb_true_iff || rewrite !Z.leb_le); try lia;
    rewrite ?Z.ltb_lt, ?Z.ltb_ge in *; lia.
Qed.

Section ops.
Context `{JC : JsonCodec} `{UL : UuidLib} `{GF : GoFmt} `{JL : JwtLib} `{NL : NetLib} `{CC : CmdbColumns}
  `{C2 : C2Dispatcher L}.

Lemma Upsert_evolves fp dev title msg sev :
  db_steps evolves (UpsertIncidentForCriticalFingerprint (L := L) fp dev title msg sev).
Proof.
  unfold UpsertIncidentForCriticalFingerprint. destruct (_ || _); [db_walk|].
  pose proof (severity_ranks_ok sev) as [Hi Hu]. destruct (severity_ranks sev) as [impact urgency]. simpl in Hi, Hu.
  apply steps_bind; [typeclasses eauto|db_walk|]. intros t.
  apply steps_bind; [typeclasses eauto| |intros; db_walk].
  apply steps_in_tx; [typeclasses eauto|].
  apply steps_bind; [typeclasses eauto|db_walk|]. intros [e|id].
  - destruct (negb _); [db_walk|].
    apply steps_bind; [typeclasses eauto|unfold allocateIncidentNumTx, NextIncidentHumanNumber; db_walk|].
    intros num. apply steps_wrap, steps_insert_id; [typeclasses eauto|]. intros nid db now n db'.
    destruct (negb (text_ok _)); [done|]. cbn [orb]. destruct (incident_row_ok db _) eqn:E; [|done].
    intros [= _ <-]. by apply add_evolves.
  - apply steps_bind; [typeclasses eauto| |intros n; destruct (Nat.eqb n 0); [db_walk|db_walk]].
    apply steps_exec; [typeclasses eauto|]. intros db now n db'.
    destruct (_ || _); [done|]. intros [= _ <-]. apply update_evolves. intros i _. split.
    + split; [done|]. simpl. by apply prefix_app_r.
    + intros (H1 & H2 & _ & _). split; [done|]. split; [|done]. simpl. unfold reopened_state.
      case_match; [by right; left|done].
Qed.

Lemma auto_resolve_evolves fps seen : db_steps evolves (auto_resolve (L := L) fps seen).
Proof.
  revert seen; induction fps as [|f fps IH]; intros seen; simpl; [db_walk|].
  destruct (String.eqb _ ""); [apply IH|]. destruct (decide _); [apply IH|].
  apply steps_bind; [typeclasses eauto| |intros; apply IH]. unfold auto_resolve_one.
  apply steps_bind; [typeclasses eauto|db_walk|]. intros t.
  apply steps_wrap, steps_exec; [typeclasses eauto|]. intros db nw ret db'.
  destruct (_ || _); [done|]. intros [= _ <-]. apply update_evolves. intros i _. split.
  - split; [done|]. simpl. by apply prefix_app_r.
  - intros (H1 & H2 & H3 & H4). split; [done|]. split; [|done]. simpl. unfold recovered_state.
    case_match; [by right; right; right; left|done].
Qed.

Lemma run_task_evolves e : db_steps evolves (run_task (L := L) e).
Proof.
  pose proof auto_resolve_evolves. pose proof Upsert_evolves.
  destruct e; unfold run_task, OnCriticalDeviceFingerprint, OnAlertFingerprintsResolved,
    AutoResolveIncidentsForAlertFingerprints; db_walk.
Qed.

Lemma outcome_evolves dash serial raw : db_steps evolves (ApplyDeviceCommandOutcome (L := L) dash serial raw).
Proof.
  apply Outcome_steps; [typeclasses eauto|..]; intros.
  - apply note_evolves.
  - by apply same_incidents_evolves.
Qed.

Lemma incident_command_evolves origins r : db_steps evolves (handlePostIncidentCommand (L := L) origins r).
Proof.
  assert (Hd : forall cmd ct pl audit, db_steps evolves (deliver (L := L) cmd ct pl audit)).
  { intros. apply deliver_steps; [typeclasses eauto|..]; intros;
      [apply note_evolves|by apply same_incidents_evolves..]. }
  assert (Hi : forall d ct pl inc, db_steps evolves (InsertDeviceCommand (L := L) d ct pl inc)).
  { intros. apply Insert_steps; [typeclasses eauto|]. intros. by apply same_incidents_evolves. }
  unfold handlePostIncidentCommand. db_walk.
Qed.

Lemma create_incident_evolves origins r : db_steps evolves (handleCreateIncident (L := L) origins r).
Proof.
  unfold handleCreateIncident, create_tx, optional_ref, resolve_asset, resolve_assignee, asset_by_human_id. db_walk.
  apply steps_insert_id; [typeclasses eauto|]. intros nid db nw ret db'.
  destruct (negb (text_ok _)); [done|]. cbn [orb]. destruct (incident_row_ok db _) eqn:E; [|done].
  intros [= _ <-]. by apply add_evolves.
Qed.

Lemma patch_note_evolves p id req : db_steps evolves (patch_note (L := L) p id req).
Proof.
  unfold patch_note. db_walk. apply steps_exec; [typeclasses eauto|]. intros db nw ret db'.
  destruct (json_has_nul _); [done|]. intros [= _ <-]. apply note_evolves.
Qed.

Lemma patch_tx_evolves p id req short state :
  (forall s, state = Some s -> validateIncidentState s = true) ->
  db_steps evolves (patch_tx (L := L) p id req short state).
Proof.
  intros Hst. pose proof patch_note_evolves.
  unfold patch_tx, patch_cmdb, patch_assigned, resolve_asset, resolve_assignee, asset_by_human_id. db_walk.
  all: apply steps_exec; [typeclasses eauto|]; intros db nw ret db';
    (destruct (negb _); [done|]); intros [= _ <-]; apply update_evolves; intros i _; split;
    [split; [done|simpl; done]|].
  all: intros (H1 & H2 & H3 & H4); repeat split; simpl; try done.
  all: try (destruct state as [st|]; [|done]; specialize (Hst _ eq_refl);
    apply existsb_exists in Hst as (y & Hy & E); apply String.eqb_eq in E; by subst).
  all: try (destruct (pi_Impact req) as [v|]; [exact (impact_urgency_ok (Some v))|done]).
  all: try (destruct (pi_Urgency req) as [v|]; [exact (impact_urgency_ok (Some v))|done]).
Qed.

Lemma detail_steps R `{!PreOrder R} id : db_steps R (loadIncidentDetail (L := L) id).
Proof. unfold loadIncidentDetail, LoadIncidentCMDBSnapshot. db_walk. Qed.

Lemma patch_incident_evolves origins r : db_steps evolves (handlePatchIncident (L := L) origins r).
Proof.
  unfold handlePatchIncident. destruct (require_method _ _); [db_walk|].
  destruct (RequireMinRole _ _ _) as [|p]; [db_walk|]. destruct (parseIncidentUUID r) as [id|]; [|db_walk].
  destruct (read_body _ _) as [body|]; [|db_walk]. destruct (decode_patch_incident _) as [req|]; [|db_walk].
  destruct (negb _); [db_walk|]. cbv zeta. destruct (match option_map Str.trim_space _ with Some _ => _ | None => _ end); [db_walk|].
  destruct (match option_map normalizeIncidentState _ with Some _ => _ | None => _ end) eqn:E; [db_walk|].
  destruct (_ && _); [db_walk|].
  assert (Hp : forall short, db_steps evolves (patch_tx (L := L) p id req short
    (option_map normalizeIncidentState (pi_State req)))).
  { intros short. apply patch_tx_evolves. intros st Hs. rewrite Hs in E. by apply negb_false_iff in E. }
  pose proof (detail_steps evolves id). db_walk.
Qed.

Lemma delete_keeps origins r : db_steps (keeps incidents_ok) (handleDeleteIncident (L := L) origins r).
Proof.
  unfold handleDeleteIncident. db_walk. apply steps_exec; [typeclasses eauto|]. intros db nw ret db' [= _ <-].
  intros (Hw & Hn & Hf). unfold delete_where. split; [|split]; simpl.
  - intros i Hi. apply filter_In in Hi as [Hi _]. by apply Hw.
  - clear -Hn. induction (t_incidents db) as [|i l IH]; [done|]. simpl in *.
    apply List.NoDup_cons_iff in Hn as [Hi Hn]. destruct (negb _); [|by apply IH]. simpl. constructor; [|by apply IH].
    intros C. apply Hi. apply in_map_iff in C as (j & E & Hj). apply filter_In in Hj as [Hj _].
    rewrite <- E. by apply in_map.
  - unfold fingerprints in *. simpl. clear -Hf.
    assert (Hs : forall (q : Incident -> bool) l, omap in_source_alert_fingerprint (List.filter q l)
      `sublist_of` omap in_source_alert_fingerprint l).
    { intros q l. induction l as [|i l IH]; [done|]. simpl. destruct (q i); csimpl.
      - destruct (in_source_alert_fingerprint i); [by apply sublist_skip|done].
      - destruct (in_source_alert_fingerprint i); [by apply sublist_cons|done]. }
    apply NoDup_ListNoDup. eapply sublist_NoDup; [|apply Hs]. by apply NoDup_ListNoDup.
Qed.
End ops.

(** The incident table keeps its invariant through everything that writes it --
    operator requests, the alert automation, the agents' answers -- whatever fails:
    numbers are INC plus seven digits and unique, states and ranks are valid, and no two
    incidents share an alert fingerprint. *)
Theorem incident_table_invariant `{JsonCodec} `{UuidLib} `{GoFmt} `{JwtLib} `{NetLib} `{CmdbColumns} `{C2Dispatcher L}
    origins r task dash serial raw (w : World L) :
  incidents_ok (w_db w) ->
  incidents_ok (w_db (handleCreateIncident origins r w).2) /\
  incidents_ok (w_db (handlePatchIncident origins r w).2) /\
  incidents_ok (w_db (handleDeleteIncident origins r w).2) /\
  incidents_ok (w_db (handlePostIncidentCommand origins r w).2) /\
  incidents_ok (w_db (run_task task w).2) /\
  incidents_ok (w_db (ApplyDeviceCommandOutcome dash serial raw w).2).
Proof.
  intros Hok. split_and!.
  - by apply create_incident_evolves.
  - by apply patch_incident_evolves.
  - by apply delete_keeps.
  - by apply incident_command_evolves.
  - by apply run_task_evolves.
  - by apply outcome_evolves.
Qed.

(** An incident's journal is append-only: short of deleting the incident, no operation
    removes or alters a work note, and its id, number, fingerprint and creation time are fixed. *)
Theorem incident_journal_append_only `{JsonCodec} `{UuidLib} `{GoFmt} `{JwtLib} `{NetLib} `{CmdbColumns} `{C2Dispatcher L}
    origins r task dash serial raw (w : World L) :
  grows_only (w_db w) (w_db (handleCreateIncident origins r w).2) /\
  grows_only (w_db w) (w_db (handlePatchIncident origins r w).2) /\
  grows_only (w_db w) (w_db (handlePostIncidentCommand origins r w).2) /\
  grows_only (w_db w) (w_db (run_task task w).2) /\
  grows_only (w_db w) (w_db (ApplyDeviceCommandOutcome dash serial raw w).2).
Proof.
  split_and!.
  - apply create_incident_evolves.
  - apply patch_incident_evolves.
  - apply incident_command_evolves.
  - apply run_task_evolves.
  - apply outcome_evolves.
Qed.
