(* ===== verification/DeskFacts.v ===== *)
(** * The Service Desk's views agree with the tables

    Properties of [IncidentDesk] and of the deletion of an incident in [IncidentsApi]. *)

From S2P Require Import Prelude GoStd Float64 Json Ext World Auth UsersAdmin DeviceCommands CommandFlow.
From S2P Require Import CommandFacts Incidents IncidentDesk IncidentsApi IncidentFacts AuthFacts.

#[local] Open Scope string_scope.
#[local] Open Scope list_scope.
#[local] Open Scope Z_scope.

(** ** Sorted listings *)

(** What sorts behind everything is appended. *)
Lemma insert_sorted_snoc {A} (less : A -> A -> bool) x y l :
  less x y = false -> insert_sorted less y (l ++ [x]) = insert_sorted less y l ++ [x].
Proof.
  intros Hx. induction l as [|z l IH]; cbn [app insert_sorted]; [by rewrite Hx|]. destruct (less z y); [by rewrite IH|done].
Qed.

Lemma sort_slice_snoc {A} (less : A -> A -> bool) x l :
  (forall y, In y l -> less x y = false) -> sort_slice less (l ++ [x]) = sort_slice less l ++ [x].
Proof.
  induction l as [|y l IH]; [done|]. intros Hx. cbn [app sort_slice fold_right]. fold (sort_slice less (l ++ [x])) (sort_slice less l).
  rewrite IH by (intros; apply Hx; by right). apply insert_sorted_snoc, Hx. by left.
Qed.

(** In a sorted list everything dropped stands behind everything kept. *)
Lemma StronglySorted_take_drop {A} (R : A -> A -> Prop) n (l : list A) :
  StronglySorted R l -> StronglySorted R (take n l) /\ forall x y, In x (take n l) -> In y (drop n l) -> R x y.
Proof.
  intros H. revert n. induction H as [|x l Hs IH Hx]; intros n; [destruct n; by split; [constructor|]|].
  destruct n as [|n]; [by split; [constructor|]|]. cbn [take drop]. destruct (IH n) as [IH1 IH2].
  rewrite Forall_forall in Hx. split.
  - constructor; [done|]. apply Forall_forall. intros y Hy. apply Hx, list_elem_of_In. apply list_elem_of_In in Hy. by eapply take_In.
  - intros a b [<-|Ha] Hb; [|by apply IH2]. apply Hx. apply list_elem_of_In. rewrite <- (take_drop n l). apply in_or_app. by right.
Qed.

Lemma newest_incident_sorted l : StronglySorted (may_precede newest_incident) (sort_slice newest_incident l).
Proof.
  apply sort_slice_sorted; unfold may_precede, newest_incident; [intros x y z; rewrite !Z.ltb_ge; lia|].
  intros x y. destruct (Z.ltb_spec (in_created_at y) (in_created_at x)); [left|by right]. apply Z.ltb_ge. lia.
Qed.

(** The id names one row. *)
Lemma find_by_id (l : list Incident) i : NoDup (in_id <$> l) -> In i l -> List.find (is_incident (in_id i)) l = Some i.
Proof.
  intros Hn Hi. destruct (List.find (is_incident (in_id i)) l) as [j|] eqn:E.
  - apply find_some in E as [Hj E]. apply N.eqb_eq in E. f_equal. by apply (NoDup_unique in_id l).
  - exfalso. eapply find_none in E; [|exact Hi]. unfold is_incident in E. by rewrite N.eqb_refl in E.
Qed.

(** ** Reading *)
Section reading.
Context `{JC : JsonCodec} `{UL : UuidLib} `{GF : GoFmt} `{JL : JwtLib} `{CC : CmdbColumns} `{C2 : C2Dispatcher L}.
Context (origins : list string).

(** The device of an incident as it is shown. *)
Definition cmdb_view (db : Tables) (l : L) (i : Incident) : option IncidentCMDBWire :=
  d ← in_cmdb_ci i;
  if N.eqb d uuid_nil then None else
  a ← List.find (fun a => N.eqb (a_id a) d) (t_assets db);
  Some (buildCMDBWire (connected_serials l)
          (with_recent (omap (fun t => nonblank (Some t)) (recent_commands db d)) (device_snapshot db a))).

Definition detail_of (db : Tables) (l : L) (i : Incident) : IncidentDetailResponse :=
  {| id_Incident := incident_row db i; id_WorkNotes := in_work_notes i; id_CMDBContext := cmdb_view db l i;
     id_Resolutions := resolutions_of db (in_id i) |}.

Lemma snapshot_exact d (w : World L) : w_faults w = [] ->
  LoadIncidentCMDBSnapshot d w =
    (if N.eqb d uuid_nil then inl (ErrMsg "database: snapshot args") else
     match List.find (fun a => N.eqb (a_id a) d) (t_assets (w_db w)) with
     | Some a => inr (with_recent (omap (fun t => nonblank (Some t)) (recent_commands (w_db w) d)) (device_snapshot (w_db w) a))
     | None => inl ErrNoRows end, w).
Proof.
  intros Hf. unfold LoadIncidentCMDBSnapshot. destruct (N.eqb d uuid_nil); [done|].
  unfold mbind, go_bind. rewrite select_ok by done. destruct (List.find _ _); [|done].
  unfold attempt. by rewrite select_ok.
Qed.

Lemma detail_exact id (w : World L) : w_faults w = [] ->
  loadIncidentDetail id w =
    (match List.find (is_incident id) (t_incidents (w_db w)) with
     | Some i => inr (detail_of (w_db w) (w_link w) i) | None => inl ErrNoRows end, w).
Proof.
  intros Hf. unfold loadIncidentDetail. unfold mbind at 1, go_bind at 1. rewrite select_ok by done.
  destruct (List.find _ _) as [i|] eqn:E; [|done]. apply find_some in E as [_ E]. apply N.eqb_eq in E as <-.
  unfold mbind at 1, go_bind at 1. unfold detail_of, cmdb_view. cbn [incident_row lr_row].
  assert (Hend : forall ctx, (rs ← select (fun db _ => inr (resolutions_of db (in_id i)));
      mret {| id_Incident := incident_row (w_db w) i; id_WorkNotes := in_work_notes i; id_CMDBContext := ctx; id_Resolutions := rs |}) w
    = (inr {| id_Incident := incident_row (w_db w) i; id_WorkNotes := in_work_notes i; id_CMDBContext := ctx;
              id_Resolutions := resolutions_of (w_db w) (in_id i) |}, w)).
  { intros ctx. unfold mbind, go_bind. by rewrite select_ok. }
  destruct (in_cmdb_ci i) as [d|]; [|exact (Hend None)]. cbn [mbind option_bind].
  destruct (N.eqb d uuid_nil) eqn:Ed; [exact (Hend None)|].
  unfold mbind at 1, go_bind at 1, links. unfold mbind at 1, go_bind at 1, attempt. rewrite snapshot_exact, Ed by done.
  destruct (List.find _ (t_assets _)); [exact (Hend (Some _))|exact (Hend None)].
Qed.

(** A GET of one incident by anyone who may read. *)
Definition reads (id : uuid) (g : Request) : Prop :=
  rq_method g = "GET" /\ (exists p, RequireMinRole origins g RoleViewer = inr p) /\ parseIncidentUUID g = Some id.

Lemma get_exact id g (w : World L) : reads id g -> w_faults w = [] ->
  handleGetIncident origins g w =
    (inr match List.find (is_incident id) (t_incidents (w_db w)) with
         | Some i => writeTicketsJSON 200 (detail_json (detail_of (w_db w) (w_link w) i))
         | None => writeTicketsError 404 "incident not found" end, w).
Proof.
  intros (Hm & (p & Hp) & Hid) Hf. unfold handleGetIncident, require_method. rewrite Hm, Hp, Hid. cbn [String.eqb Ascii.eqb Bool.eqb].
  unfold mbind, go_bind, attempt. rewrite detail_exact by done. by destruct (List.find _ _).
Qed.

(** The resolutions an incident is shown with are in the order they were made. *)
Lemma oldest_first db id : StronglySorted (fun a b => re_resolved_at a <= re_resolved_at b) (resolutions_of db id).
Proof.
  unfold resolutions_of. set (l := sort_slice _ _).
  assert (H : StronglySorted (may_precede oldest_resolution) l).
  { apply sort_slice_sorted; unfold may_precede, oldest_resolution.
    - intros x y z. rewrite !orb_false_iff, !andb_false_iff, !Z.ltb_ge, !Z.eqb_neq, !N.ltb_ge. lia.
    - intros x y. rewrite !orb_false_iff, !andb_false_iff, !Z.ltb_ge, !Z.eqb_neq, !N.ltb_ge. lia. }
  clearbody l. induction H as [|x l _ IH Hx]; constructor; [done|]. eapply Forall_impl; [exact Hx|].
  intros y [Hy%Z.ltb_ge _]%orb_false_iff. exact Hy.
Qed.

Definition matches (filterArg : option uuid) (i : Incident) : bool :=
  match filterArg with None => true | Some d => opt_eqb (in_cmdb_ci i) (Some d) end.

(** The filter a request names: none, or a device. *)
Definition filter_of (r : Request) : option (option uuid) :=
  let q := Str.trim_space (rq_query r "device_id") in
  if String.eqb q "" then Some None else Some <$> uuid_parse q.

(** C21: the list and the detail view of the Service Desk tell the same story.  The list a viewer is given names incidents of
    the device asked for (all of them without one), newest first, at most 1000; those that match and are left out are no
    newer than any that is shown, and none is left out when at most 1000 match.  Opening a listed incident shows the very row
    the list showed -- number, state, priority, device, names -- with its whole journal, the device as the tables know it,
    and each of its resolutions, oldest first. *)
Theorem listed_incident_opens r p d (w : World L) :
  NoDup (in_id <$> t_incidents (w_db w)) -> w_faults w = [] ->
  rq_method r = "GET" -> RequireMinRole origins r RoleViewer = inr p -> filter_of r = Some d ->
  exists rows rest,
    handleListIncidents origins r w = (inr (writeTicketsJSON 200 (JArr (map incident_row_json rows))), w) /\
    (length rows <= 1000)%nat /\ (map lr_row rows) ++ rest ≡ₚ List.filter (matches d) (t_incidents (w_db w)) /\
    ((length rows < 1000)%nat -> rest = []) /\
    StronglySorted (fun i j => in_created_at j <= in_created_at i) (map lr_row rows) /\
    (forall row i, In row rows -> In i rest -> in_created_at i <= in_created_at (lr_row row)) /\
    forall row g, In row rows -> reads (in_id (lr_row row)) g ->
      exists detail, handleGetIncident origins g w = (inr (writeTicketsJSON 200 (detail_json detail)), w) /\
        id_Incident detail = row /\ id_WorkNotes detail = in_work_notes (lr_row row) /\
        id_CMDBContext detail = cmdb_view (w_db w) (w_link w) (lr_row row) /\
        id_Resolutions detail ≡ₚ List.filter (is_resolution_of (in_id (lr_row row))) (t_resolutions (w_db w)) /\
        StronglySorted (fun a b => re_resolved_at a <= re_resolved_at b) (id_Resolutions detail).
Proof.
  intros Hn Hf Hm Hp Hd. set (l := sort_slice newest_incident (List.filter (matches d) (t_incidents (w_db w)))).
  destruct (StronglySorted_take_drop _ 1000 l (newest_incident_sorted _)) as [Hs Hr].
  assert (Hrows : map lr_row (map (incident_row (w_db w)) (take 1000 l)) = take 1000 l).
  { rewrite map_map. apply map_id. }
  assert (Hin : forall i, In i (take 1000 l) -> In i (t_incidents (w_db w))).
  { intros i Hi. apply take_In in Hi. unfold l in Hi. apply sort_slice_In, filter_In in Hi. tauto. }
  exists (map (incident_row (w_db w)) (take 1000 l)), (drop 1000 l). rewrite Hrows. split_and!.
  - unfold handleListIncidents, require_method. rewrite Hm, Hp. cbn [String.eqb Ascii.eqb Bool.eqb]. unfold filter_of in Hd. rewrite Hd.
    unfold mbind, go_bind, attempt. by rewrite select_ok.
  - rewrite length_map, length_take. lia.
  - rewrite take_drop. apply sort_slice_perm.
  - rewrite length_map, length_take. intros Hl. apply drop_ge. lia.
  - eapply StronglySorted_ind with (l := take 1000 l); [constructor| |exact Hs]. intros x k _ IH Hx. constructor; [done|].
    eapply Forall_impl; [exact Hx|]. intros y Hy. by apply Z.ltb_ge.
  - intros row i (j & <- & Hj)%in_map_iff Hi. cbn [incident_row lr_row]. apply Z.ltb_ge. by apply Hr.
  - intros row g (i & <- & Hi)%in_map_iff Hg. cbn [incident_row lr_row] in *. exists (detail_of (w_db w) (w_link w) i).
    rewrite (get_exact (in_id i)), (find_by_id _ i) by (try done; by apply Hin). split_and!; try done.
    + apply sort_slice_perm.
    + apply oldest_first.
Qed.
End reading.

(** ** Resolutions *)
Section resolutions.
Context `{JC : JsonCodec} `{UL : UuidLib} `{GF : GoFmt} `{JL : JwtLib} `{NL : NetLib} `{CC : CmdbColumns}
  `{C2 : C2Dispatcher L}.
Context (origins : list string).

Lemma existsb_incident id (l : list Incident) :
  existsb (is_incident id) l = match List.find (is_incident id) l with Some _ => true | None => false end.
Proof. induction l as [|i l IH]; [done|]. cbn [existsb List.find]. by destruct (is_incident id i). Qed.

(** C22: a resolution an operator posts is the one the Service Desk shows.  The summary must not be blank and is stored
    trimmed, the text as it was sent; the answer names the new resolution, the dashboards are told, and the next GET of the
    incident shows it behind the older ones, resolved now, with the rest of the incident as it was. *)
Theorem resolution_read_back r p id body req g i (w : World L) :
  rq_method r = "POST" -> RequireMinRole origins r RoleOperator = inr p -> parseIncidentUUID r = Some id ->
  read_body maxIncidentJSONBody r = Some body -> decode_create_resolution body = Some req ->
  Str.trim_space (cr_Summary req) <> "" -> text_ok (Str.trim_space (cr_Summary req)) = true -> text_ok (cr_Markdown req) = true ->
  List.find (is_incident id) (t_incidents (w_db w)) = Some i -> w_faults w = [] ->
  (forall re, In re (t_resolutions (w_db w)) -> re_resolved_at re < w_now w) -> reads origins id g ->
  let nid := gen_random_uuid (w_next_id w) in
  exists w', handlePostResolution origins r w = (inr (writeTicketsJSON 201 (JObj [("id", json_id nid)])), w') /\
    w_events w' = w_events w ++ [IncidentsMutated] /\
    handleGetIncident origins g w' = (inr (writeTicketsJSON 200 (detail_json
      {| id_Incident := incident_row (w_db w) i; id_WorkNotes := in_work_notes i; id_CMDBContext := cmdb_view (w_db w) (w_link w) i;
         id_Resolutions := resolutions_of (w_db w) id ++
           [{| re_id := nid; re_incident := id; re_summary := Str.trim_space (cr_Summary req); re_markdown := cr_Markdown req;
               re_details := JObj []; re_resolved_at := w_now w |}] |})), w').
Proof.
  intros Hm Hp Hid Hb Hd Hs Ht Hmd Hi Hf Hold Hg nid. unfold handlePostResolution, require_method. rewrite Hm, Hp, Hid, Hb, Hd.
  cbn [String.eqb Ascii.eqb Bool.eqb]. rewrite (proj2 (String.eqb_neq _ _) Hs).
  set (re := {| re_id := nid |}). set (db := with_resolutions (t_resolutions (w_db w) ++ [re]) (w_db w)).
  exists (add_event IncidentsMutated (set_db db (draw_id w))).
  unfold mbind at 1, go_bind at 1, attempt at 1. rewrite select_ok, existsb_incident, Hi by done. cbn [negb].
  unfold mbind at 1, go_bind at 1, attempt at 1, insert_resolution. rewrite insert_id_ok, Ht, Hmd, existsb_incident, Hi by done.
  split; [done|]. split; [done|]. rewrite (get_exact origins id) by done. cbn [add_event set_db draw_id w_db w_link].
  change (t_incidents db) with (t_incidents (w_db w)). rewrite Hi. do 4 f_equal. unfold detail_of. f_equal.
  apply find_some in Hi as [_ Hi]. apply N.eqb_eq in Hi as ->. unfold resolutions_of. cbn [db t_resolutions with_resolutions].
  rewrite List.filter_app. cbn [List.filter].
  replace (is_resolution_of id re) with true by (symmetry; apply N.eqb_refl). apply sort_slice_snoc.
  intros x [Hx _]%filter_In. apply Hold in Hx. unfold oldest_resolution. change (re_resolved_at re) with (w_now w).
  rewrite (proj2 (Z.ltb_ge _ _)) by lia. by rewrite (proj2 (Z.eqb_neq _ _)) by lia.
Qed.
(** Every resolution is of an incident that is there. *)
Definition resolutions_ok (db : Tables) : Prop :=
  forall re, In re (t_resolutions db) -> existsb (is_incident (re_incident re)) (t_incidents db) = true.

(** What everything but a deletion does: incidents keep their ids, resolutions are only added, to incidents there are. *)
Definition adds_resolutions (db db' : Tables) : Prop :=
  (forall id, existsb (is_incident id) (t_incidents db) = true -> existsb (is_incident id) (t_incidents db') = true) /\
  exists added, t_resolutions db' = t_resolutions db ++ added /\
    forall re, In re added -> existsb (is_incident (re_incident re)) (t_incidents db') = true.

#[export] Instance adds_resolutions_preorder : PreOrder adds_resolutions.
Proof.
  split.
  - intros db. split; [done|]. exists []. rewrite app_nil_r. by split; [|intros re []].
  - intros x y z [I1 (a1 & E1 & A1)] [I2 (a2 & E2 & A2)]. split; [auto|]. exists (a1 ++ a2).
    rewrite E2, E1, app_assoc. split; [done|]. intros re [H|H]%in_app_or; auto.
Qed.

Lemma adds_keeps db db' : adds_resolutions db db' -> resolutions_ok db -> resolutions_ok db'.
Proof. intros [Hi (a & E & Ha)] Hok re. rewrite E. intros [H|H]%in_app_or; auto. Qed.

Lemma adds_same db db' : t_resolutions db' = t_resolutions db ->
  (forall id, existsb (is_incident id) (t_incidents db) = true -> existsb (is_incident id) (t_incidents db') = true) ->
  adds_resolutions db db'.
Proof. intros E Hi. split; [done|]. exists []. rewrite E, app_nil_r. by split; [|intros re []]. Qed.

Lemma adds_update p f db : (forall i, in_id (f i) = in_id i) ->
  adds_resolutions db (with_incidents (update_where p f (t_incidents db)) db).
Proof.
  intros Hf. apply adds_same; [done|]. intros id. cbn [t_incidents with_incidents]. unfold is_incident.
  rewrite (existsb_update (fun i => N.eqb (in_id i) id)); [done|]. intros i. by rewrite Hf.
Qed.

Lemma adds_append i db : adds_resolutions db (with_incidents (t_incidents db ++ [i]) db).
Proof. apply adds_same; [done|]. intros id H. by apply existsb_app_l. Qed.

#[local] Hint Resolve adds_update adds_append : core.
#[local] Hint Extern 1 (adds_resolutions _ _) => by apply adds_same : core.

Lemma create_adds r : db_steps adds_resolutions (handleCreateIncident (L := L) origins r).
Proof.
  unfold handleCreateIncident, create_tx, optional_ref, resolve_asset, resolve_assignee, asset_by_human_id. db_walk.
  apply steps_insert_id; [typeclasses eauto|]. intros nid db nw ret db'. destruct (_ || _); [done|]. intros [= _ <-]. auto.
Qed.

Lemma patch_adds r : db_steps adds_resolutions (handlePatchIncident (L := L) origins r).
Proof.
  assert (Hd : forall id, db_steps adds_resolutions (loadIncidentDetail (L := L) id)) by (intros; apply detail_steps; typeclasses eauto).
  unfold handlePatchIncident, patch_tx, patch_note, patch_cmdb, patch_assigned, resolve_asset, resolve_assignee, asset_by_human_id.
  db_walk.
  all: apply steps_exec; [typeclasses eauto|]; intros db nw ret db'; case_match; [done|]; intros [= _ <-]; by apply adds_update.
Qed.

Lemma console_adds r : db_steps adds_resolutions (handlePostIncidentCommand (L := L) origins r).
Proof.
  assert (Hd : forall cmd ct pl audit, db_steps adds_resolutions (deliver (L := L) cmd ct pl audit)).
  { intros. apply deliver_steps; [typeclasses eauto|..]; auto. }
  assert (Hi : forall d ct pl inc, db_steps adds_resolutions (InsertDeviceCommand (L := L) d ct pl inc)).
  { intros. apply Insert_steps; [typeclasses eauto|]. auto. }
  unfold handlePostIncidentCommand. db_walk.
Qed.

Lemma outcome_adds dash serial raw : db_steps adds_resolutions (ApplyDeviceCommandOutcome (L := L) dash serial raw).
Proof. apply Outcome_steps; [typeclasses eauto|..]; intros; auto. Qed.

Lemma auto_resolve_adds fps seen : db_steps adds_resolutions (auto_resolve (L := L) fps seen).
Proof.
  revert seen; induction fps as [|f fps IH]; intros seen; simpl; [db_walk|].
  destruct (String.eqb _ ""); [apply IH|]. destruct (decide _); [apply IH|].
  apply steps_bind; [typeclasses eauto| |intros; apply IH]. unfold auto_resolve_one.
  apply steps_bind; [typeclasses eauto|db_walk|]. intros t. apply steps_wrap, steps_exec; [typeclasses eauto|]. intros db nw ret db'. destruct (_ || _); [done|]. intros [= _ <-]. by apply adds_update.
Qed.

Lemma task_adds e : db_steps adds_resolutions (run_task (L := L) e).
Proof.
  pose proof auto_resolve_adds.
  destruct e; unfold run_task, OnCriticalDeviceFingerprint, OnAlertFingerprintsResolved, AutoResolveIncidentsForAlertFingerprints,
    UpsertIncidentForCriticalFingerprint, allocateIncidentNumTx, NextIncidentHumanNumber; db_walk.
  - apply steps_insert_id; [typeclasses eauto|]. intros nid db nw ret db'. destruct (_ || _); [done|]. intros [= _ <-]. auto.
  - apply steps_exec; [typeclasses eauto|]. intros db nw ret db'. destruct (_ || _); [done|]. intros [= _ <-]. by apply adds_update.
Qed.

Lemma post_adds r : db_steps adds_resolutions (handlePostResolution (L := L) origins r).
Proof.
  unfold handlePostResolution, insert_resolution. db_walk. apply steps_insert_id; [typeclasses eauto|].
  intros nid db nw ret db'. destruct (negb _); [done|]. destruct (existsb _ _) eqn:E; [|done]. intros [= _ <-].
  split; [done|]. eexists. split; [done|]. by intros re [<-|[]].
Qed.
(** A deletion that is answered with 204 takes the incident and its resolutions and nothing else: commands stay, without the
    incident they were sent from. *)
Definition forgets (id : uuid) (db db' : Tables) : Prop :=
  t_incidents db' = delete_where (is_incident id) (t_incidents db) /\
  t_resolutions db' = delete_where (is_resolution_of id) (t_resolutions db) /\
  map cr_cmd (t_commands db') = map cr_cmd (t_commands db) /\ (forall c, In c (t_commands db') -> cr_incident c <> Some id).

Lemma delete_effect r (w w' : World L) resp : handleDeleteIncident origins r w = (resp, w') ->
  w_db w' = w_db w \/ exists id, parseIncidentUUID r = Some id /\ forgets id (w_db w) (w_db w').
Proof.
  unfold handleDeleteIncident. destruct (require_method _ _); [intros [= _ <-]; by left|].
  destruct (RequireMinRole _ _ _); [intros [= _ <-]; by left|]. destruct (parseIncidentUUID r) as [id|]; [|intros [= _ <-]; by left].
  unfold mbind at 1, go_bind at 1, attempt at 1. destruct (exec _ w) as [[e|n] w1] eqn:E.
  - intros [= _ <-]. left. by apply exec_inl in E.
  - intros H. right. exists id. split; [done|]. apply exec_inr in E. injection E as _ Edb.
    assert (Hw : w_db w' = w_db w1) by (destruct (Nat.eqb n 0); by injection H as _ <-). rewrite Hw, <- Edb.
    split_and!; [done|done|cbn; by rewrite map_map|]. cbn. intros c (x & <- & _)%in_map_iff. cbn. unfold null_ref.
    destruct (cr_incident x) as [y|]; [|done]. destruct (N.eqb_spec y id); [done|]. congruence.
Qed.

Lemma forgets_ok id db db' : forgets id db db' -> resolutions_ok db -> resolutions_ok db'.
Proof.
  intros (Ei & Er & _) Hok re. rewrite Er, Ei. unfold delete_where at 1. intros [Hre Hn]%filter_In. apply existsb_delete; [by apply Hok|].
  unfold is_incident. intros i Hi%N.eqb_eq. apply negb_true_iff, N.eqb_neq in Hn. apply N.eqb_neq. congruence.
Qed.

Lemma forgets_nothing_left id db db' : forgets id db db' ->
  List.find (is_incident id) (t_incidents db') = None /\ resolutions_of db' id = [].
Proof.
  intros (Ei & Er & _). split.
  - destruct (List.find _ _) as [i|] eqn:E; [|done]. apply find_some in E as [Hi E]. rewrite Ei in Hi.
    apply filter_In in Hi as [_ Hi]. by rewrite E in Hi.
  - apply Permutation_nil. unfold resolutions_of. rewrite sort_slice_perm. rewrite (filter_none (is_resolution_of id)); [done|].
    intros re. rewrite Er. intros [_ Hn]%filter_In. by apply negb_true_iff.
Qed.

(** C23: resolutions live and die with their incident.  Whatever the Service Desk, the alert automation and the agents'
    answers do, and whichever statement fails, every stored resolution is of an incident that exists; short of a deletion
    the resolutions there are stay as they are and no incident disappears.  A deletion changes nothing, or takes exactly the
    incident named with its resolutions: no command is lost, none points to it any more, and reading it gives 404. *)
Theorem resolutions_follow_their_incident r task dash serial raw (w : World L) :
  (forall db', In db' [w_db (handleCreateIncident origins r w).2; w_db (handlePatchIncident origins r w).2;
                       w_db (handlePostResolution origins r w).2; w_db (handlePostIncidentCommand origins r w).2;
                       w_db (run_task task w).2; w_db (ApplyDeviceCommandOutcome dash serial raw w).2] ->
     adds_resolutions (w_db w) db' /\ (resolutions_ok (w_db w) -> resolutions_ok db')) /\
  let w' := (handleDeleteIncident origins r w).2 in
  (resolutions_ok (w_db w) -> resolutions_ok (w_db w')) /\
  (w_db w' = w_db w \/ exists id, parseIncidentUUID r = Some id /\ forgets id (w_db w) (w_db w') /\
     resolutions_of (w_db w') id = [] /\
     forall g, reads origins id g -> w_faults w' = [] -> handleGetIncident origins g w' = (inr (writeTicketsError 404 "incident not found"), w')).
Proof.
  split.
  - assert (H : forall db', adds_resolutions (w_db w) db' -> adds_resolutions (w_db w) db' /\ (resolutions_ok (w_db w) -> resolutions_ok db')).
    { intros db' Ha. split; [done|]. by apply adds_keeps. }
    intros db' Hin. repeat destruct Hin as [<-|Hin]; [..|done]; apply H;
      [apply create_adds|apply patch_adds|apply post_adds|apply console_adds|apply task_adds|apply outcome_adds].
  - destruct (handleDeleteIncident origins r w) as [resp w'] eqn:E. destruct (delete_effect _ _ _ _ E) as [Ed|(id & Hid & Hf)]; cbn [snd].
    + split; [by rewrite Ed|by left].
    + split; [by apply (forgets_ok id)|]. right. exists id. destruct (forgets_nothing_left _ _ _ Hf) as [Hn Hr]. split_and!; try done.
      intros g Hg Hw. by rewrite (get_exact origins id), Hn.
Qed.
End resolutions.
