(* ===== verification/IncidentAutomation.v ===== *)
(** * Incidents: what the alert automation does

    The life of an automatic incident, recovery, and the numbers and ranks at the edge
    of their ranges. *)


From S2P Require Import Prelude GoStd Float64 Json Ext World Auth UsersAdmin DeviceCommands CommandFlow Incidents IncidentsApi.
From S2P Require Import IncidentFacts Decimal.

(** ** Opening, recovering, re-opening *)

Section automation.
Context `{JC : JsonCodec} `{UL : UuidLib} `{GF : GoFmt} {L : Type}.
Implicit Types w : World L.

(** The row a first critical alert asks for. *)
Definition alert_incident w (fp : string) (dev : uuid) (title msg : string) : Incident :=
  {| in_id := gen_random_uuid (w_next_id w); in_number := format_incident_number (w_incident_seq w + 1);
     in_caller := None; in_assigned := None; in_cmdb_ci := Some dev; in_state := "new";
     in_impact := 1; in_urgency := 1; in_short_description := Str.left_chars 500 (Str.trim_space title);
     in_work_notes := [open_note (w_now w) (Str.trim_space fp) title msg dev];
     in_sla_due := w_now w + 4 * hour; in_source_alert_fingerprint := Some (Str.trim_space fp);
     in_created_at := w_now w; in_updated_at := w_now w |}.

Definition unused_fingerprint w (fp : string) : Prop :=
  forall i, In i (t_incidents (w_db w)) -> same_fingerprint (Str.trim_space fp) i = false.

(** What makes the insert acceptable to the table. *)
Record openable w (fp : string) (dev : uuid) (title msg : string) : Prop := {
  op_faults : w_faults w = [];
  op_fp : Str.trim_space fp <> ""%string;
  op_dev : dev <> uuid_nil;
  op_title : text_ok (Str.trim_space title) = true;
  op_row : incident_row_ok (w_db w) (alert_incident w fp dev title msg) = true;
  op_unused : unused_fingerprint w fp
}.

Lemma find_unused w fp : unused_fingerprint w fp ->
  List.find (same_fingerprint (Str.trim_space fp)) (t_incidents (w_db w)) = None.
Proof.
  intros H. destruct (List.find _ _) as [i|] eqn:F; [|done].
  apply find_some in F as [Hi E]. by rewrite (H i Hi) in E.
Qed.

Lemma open_new w fp dev title msg : openable w fp dev title msg ->
  run_task (OpenIncident fp dev title msg) w =
    (inr (), set_db (with_incidents (t_incidents (w_db w) ++ [alert_incident w fp dev title msg]) (w_db w))
               (draw_id (set_seq (w_incident_seq w + 1) w))).
Proof.
  intros [Hf Hfp Hdev Ht Hrow Hun].
  assert (Hu : UpsertIncidentForCriticalFingerprint fp dev title msg "critical" w =
    (inr (), set_db (with_incidents (t_incidents (w_db w) ++ [alert_incident w fp dev title msg]) (w_db w))
               (draw_id (set_seq (w_incident_seq w + 1) w)))).
  { unfold UpsertIncidentForCriticalFingerprint.
    rewrite (proj2 (String.eqb_neq _ _) Hfp), (proj2 (N.eqb_neq _ _) Hdev).
    change (severity_ranks "critical") with (1, 1). cbn [orb]. cbv iota beta.
    unfold mbind at 1, go_bind at 1. unfold now at 1.
    unfold mbind at 1, go_bind at 1. erewrite in_tx_ok; [|done| |].
    2:{ unfold mbind, go_bind, attempt. rewrite select_ok by done. rewrite find_unused by done.
        change (is_no_rows ErrNoRows) with true. cbn [negb].
        unfold allocateIncidentNumTx, NextIncidentHumanNumber, mbind, go_bind, wrap.
        rewrite nextval_ok by done. unfold mret, go_ret. rewrite insert_id_ok by done.
        cbn [set_seq w_db w_now w_next_id]. rewrite Ht. cbn [negb orb].
        match goal with |- context [incident_row_ok ?d ?i] =>
          replace (incident_row_ok d i) with true by (symmetry; exact Hrow) end. reflexivity. }
    - done.
    - done. }
  unfold run_task, OnCriticalDeviceFingerprint, mbind, go_bind, attempt. by rewrite Hu.
Qed.

(** A repeated alert refreshes the incident that carries the fingerprint. *)
Lemma open_existing w fp dev title msg i :
  w_faults w = [] -> Str.trim_space fp <> ""%string -> dev <> uuid_nil ->
  text_ok (Str.trim_space title) = true ->
  json_has_nul (repeat_note (w_now w) (Str.trim_space fp) title msg dev) = false ->
  asset_exists (w_db w) dev = true ->
  List.find (same_fingerprint (Str.trim_space fp)) (t_incidents (w_db w)) = Some i ->
  run_task (OpenIncident fp dev title msg) w =
    (inr (), set_db (with_incidents (update_where (fun j => N.eqb (in_id j) (in_id i))
      (refresh_incident (repeat_note (w_now w) (Str.trim_space fp) title msg dev) (w_now w + 4 * hour)
         (Str.trim_space title) 1 1 dev (w_now w)) (t_incidents (w_db w))) (w_db w)) w).
Proof.
  intros Hf Hfp Hdev Ht Hnul Has Hfind. unfold run_task, OnCriticalDeviceFingerprint, mbind at 1, go_bind at 1, attempt at 1.
  unfold UpsertIncidentForCriticalFingerprint.
  rewrite (proj2 (String.eqb_neq _ _) Hfp), (proj2 (N.eqb_neq _ _) Hdev).
  change (severity_ranks "critical") with (1, 1). cbn [orb]. cbv iota beta.
  unfold mbind at 1, go_bind at 1. unfold now at 1.
  unfold mbind at 1, go_bind at 1. erewrite in_tx_ok; [|done| |].
  2:{ unfold mbind, go_bind, attempt. rewrite select_ok by done. rewrite Hfind.
      rewrite exec_ok by done. rewrite Ht, Hnul. unfold fk_ok. unfold asset_exists in Has. rewrite Has. cbn [negb orb].
      assert (Nat.eqb (count_where (fun j => N.eqb (in_id j) (in_id i)) (t_incidents (w_db w))) 0 = false) as ->.
      { apply Nat.eqb_neq. intros C. rewrite count_where_0 in C. apply find_some in Hfind as [Hi _].
        specialize (C i Hi). simpl in C. by rewrite N.eqb_refl in C. }
      reflexivity. }
  - done.
  - done.
Qed.

(** Recovery: exactly the open incidents of the fingerprint are resolved. *)
Lemma auto_resolve_one_ok w fp :
  w_faults w = [] -> json_has_nul (recovery_note (w_now w) fp) = false -> text_ok fp = true ->
  auto_resolve_one fp w =
    (inr (), set_db (with_incidents (update_where
      (fun i => same_fingerprint fp i && negb (String.eqb (in_state i) "closed"))
      (recover_incident (recovery_note (w_now w) fp) (w_now w)) (t_incidents (w_db w))) (w_db w)) w).
Proof.
  intros Hf Hn Ht. unfold auto_resolve_one, mbind, go_bind, now, wrap.
  rewrite exec_ok by done. by rewrite Hn, Ht.
Qed.
End automation.

(** The kind of a work note. *)
Definition note_kind (n : json) : option json := match n with JObj m => obj_get "kind" m | _ => None end.

(** ** Recovery of many fingerprints *)

Definition recovers (fps : list string) (i : Incident) : option string :=
  match in_source_alert_fingerprint i with
  | Some fp => if existsb (fun f => String.eqb (Str.trim_space f) fp) fps && negb (String.eqb fp "")
                  && negb (String.eqb (in_state i) "closed")
               then Some fp else None
  | None => None
  end.

Definition recovered `{GoFmt} (t : Z) (fps : list string) (i : Incident) : Incident :=
  match recovers fps i with
  | Some fp => recover_incident (recovery_note t fp) t i
  | None => i
  end.

Definition storable_fp `{GoFmt} (t : Z) (f : string) : Prop :=
  text_ok (Str.trim_space f) = true /\ json_has_nul (recovery_note t (Str.trim_space f)) = false.

Section recovery.
Context `{GF : GoFmt} {L : Type}.

(** One more fingerprint, given those already handled. *)
Lemma recovered_snoc t done_ f l :
  Str.trim_space f <> ""%string -> existsb (fun g => String.eqb (Str.trim_space g) (Str.trim_space f)) done_ = false ->
  update_where (fun i => same_fingerprint (Str.trim_space f) i && negb (String.eqb (in_state i) "closed"))
    (recover_incident (recovery_note t (Str.trim_space f)) t) (map (recovered t done_) l) =
  map (recovered t (done_ ++ [f])) l.
Proof.
  intros Hne Hnew. unfold update_where. rewrite map_map. apply map_ext. intros i.
  unfold recovered, recovers. destruct (in_source_alert_fingerprint i) as [fp|] eqn:Efp.
  2:{ unfold same_fingerprint. by rewrite Efp. }
  rewrite existsb_app. cbn [existsb]. rewrite orb_false_r.
  destruct (String.eqb_spec (Str.trim_space f) fp) as [<-|Hd].
  - rewrite Hnew. cbn [orb andb]. unfold same_fingerprint. rewrite Efp, String.eqb_refl.
    rewrite (proj2 (String.eqb_neq _ _) Hne). cbn [negb andb].
    destruct (String.eqb (in_state i) "closed"); done.
  - rewrite orb_false_r. destruct (_ && negb (String.eqb (in_state i) "closed")).
    + unfold same_fingerprint. simpl. rewrite Efp. by rewrite (proj2 (String.eqb_neq fp _)) by congruence.
    + unfold same_fingerprint. rewrite Efp. by rewrite (proj2 (String.eqb_neq fp _)) by congruence.
Qed.

Lemma recovered_skip t done_ f l :
  (Str.trim_space f = ""%string \/
   existsb (fun g => String.eqb (Str.trim_space g) (Str.trim_space f)) done_ = true) ->
  map (recovered t (done_ ++ [f])) l = map (recovered t done_) l.
Proof.
  intros H. apply map_ext. intros i. unfold recovered, recovers.
  destruct (in_source_alert_fingerprint i) as [fp|]; [|done].
  rewrite existsb_app. cbn [existsb]. rewrite orb_false_r.
  destruct (String.eqb_spec (Str.trim_space f) fp) as [<-|Hd]; [|by rewrite orb_false_r].
  destruct H as [->| ->]; [|done]. by rewrite !andb_false_r.
Qed.

Lemma auto_resolve_ok fps : forall done_ seen l (w : World L),
  w_faults w = [] -> Forall (storable_fp (w_now w)) fps ->
  (forall s, s ∈ seen <-> s <> ""%string /\ existsb (fun g => String.eqb (Str.trim_space g) s) done_ = true) ->
  t_incidents (w_db w) = map (recovered (w_now w) done_) l ->
  exists w', auto_resolve fps seen w = (inr (), w') /\
    t_incidents (w_db w') = map (recovered (w_now w) (done_ ++ fps)) l.
Proof.
  induction fps as [|f fps IH]; intros done_ seen l w Hf Hst Hseen Hl.
  - exists w. rewrite app_nil_r. done.
  - apply Forall_cons in Hst as [[Ht Hn] Hst]. cbn [auto_resolve].
    assert (Eapp : done_ ++ f :: fps = (done_ ++ [f]) ++ fps) by (by rewrite <- app_assoc).
    assert (Hex : forall s, existsb (fun g => String.eqb (Str.trim_space g) s) (done_ ++ [f]) =
      existsb (fun g => String.eqb (Str.trim_space g) s) done_ || String.eqb (Str.trim_space f) s).
    { intros s. rewrite existsb_app. simpl. by rewrite orb_false_r. }
    destruct (String.eqb_spec (Str.trim_space f) "") as [E|E].
    + rewrite Eapp. apply IH; [done|done| |].
      * intros s. rewrite Hex, E, Hseen. destruct (String.eqb_spec "" s) as [<-|]; [naive_solver|].
        by rewrite orb_false_r.
      * rewrite recovered_skip by auto. done.
    + destruct (decide (Str.trim_space f ∈ seen)) as [Hs|Hs].
      * rewrite Eapp. apply Hseen in Hs as [_ Hs]. apply IH; [done|done| |].
        -- intros s. rewrite Hex, Hseen. destruct (String.eqb_spec (Str.trim_space f) s) as [<-|]; [|by rewrite orb_false_r].
           rewrite Hs. naive_solver.
        -- rewrite recovered_skip by auto. done.
      * assert (Hd : existsb (fun g => String.eqb (Str.trim_space g) (Str.trim_space f)) done_ = false).
        { destruct (existsb _ _) eqn:E2; [|done]. exfalso. apply Hs, Hseen. done. }
        pose proof (auto_resolve_one_ok w (Str.trim_space f) Hf Hn Ht) as E1.
        rewrite (bind_inr _ _ _ _ _ E1), Eapp.
        match goal with |- context [auto_resolve fps _ ?w1] => specialize (IH (done_ ++ [f]) ({[Str.trim_space f]} ∪ seen) l w1) end.
        apply IH; [done|done| |].
        -- intros s. rewrite Hex, elem_of_union, elem_of_singleton, Hseen.
           destruct (String.eqb_spec (Str.trim_space f) s) as [<-|]; [rewrite orb_true_r; naive_solver|].
           rewrite orb_false_r. naive_solver.
        -- simpl. rewrite Hl. by apply recovered_snoc.
Qed.
End recovery.

Definition open_states : list string := ["new"; "in_progress"; "on_hold"]%string.

(** What recovery of [fps] means for one incident. *)
Definition recovery_of `{GoFmt} (t : Z) (fps : list string) (i j : Incident) : Prop :=
  match in_source_alert_fingerprint i with
  | Some fp =>
      if existsb (fun f => String.eqb (Str.trim_space f) fp) fps && negb (String.eqb fp "")
         && negb (String.eqb (in_state i) "closed")
      then in_state j = (if existsb (String.eqb (in_state i)) open_states then "resolved"%string else in_state i) /\
           in_work_notes j = in_work_notes i ++ [recovery_note t fp] /\ in_updated_at j = t /\ identity j = identity i
      else j = i
  | None => j = i
  end.

Lemma recovery_exact `{GoFmt} {L : Type} (w : World L) fps :
  w_faults w = [] -> Forall (storable_fp (w_now w)) fps ->
  Forall2 (recovery_of (w_now w) fps) (t_incidents (w_db w))
          (t_incidents (w_db (OnAlertFingerprintsResolved fps w).2)).
Proof.
  intros Hf Hst. destruct fps as [|f fps].
  - simpl. apply Forall_Forall2_diag, Forall_true. intros i. unfold recovery_of. by destruct (in_source_alert_fingerprint i).
  - destruct (auto_resolve_ok (f :: fps) [] ∅ (t_incidents (w_db w)) w) as (w' & E & Ew); [done|done|set_solver| |].
    + rewrite <- (map_id (t_incidents (w_db w))) at 1. apply map_ext. intros i. unfold recovered, recovers.
      by destruct (in_source_alert_fingerprint i).
    + unfold OnAlertFingerprintsResolved, AutoResolveIncidentsForAlertFingerprints, mbind, go_bind, attempt.
      rewrite E. simpl. rewrite Ew. clear. induction (t_incidents (w_db w)) as [|i l IH]; simpl; constructor; [|done].
      unfold recovery_of, recovered, recovers. destruct (in_source_alert_fingerprint i) as [fp|] eqn:Efp; [|done].
      simpl. destruct (_ && _); [|done]. repeat split; by rewrite <- ?Efp.
Qed.

(** When the monitoring reports fingerprints as recovered, every incident of one of them
    that is not closed gets exactly one recovery note, however often the fingerprint is
    repeated in the report; open ones become resolved, and all other incidents are as before. *)
Theorem recovery_resolves_exactly `{GoFmt} {L : Type} (w : World L) fps :
  w_faults w = [] -> Forall (storable_fp (w_now w)) fps ->
  Forall2 (recovery_of (w_now w) fps) (t_incidents (w_db w))
          (t_incidents (w_db (OnAlertFingerprintsResolved fps w).2)).
Proof. apply recovery_exact. Qed.

(** ** The life of an automatic incident *)

Definition only_incident (old : list Incident) (i : Incident) {L} (w : World L) : Prop :=
  t_incidents (w_db w) = old ++ [i].

Definition journal_kinds (i : Incident) : list (option json) := map note_kind (in_work_notes i).

Lemma update_where_last {A} (p : A -> bool) (f : A -> A) (old : list A) i :
  (forall j, In j old -> p j = false) -> p i = true -> update_where p f (old ++ [i]) = old ++ [f i].
Proof.
  intros Ho Hi. unfold update_where. rewrite map_app. simpl. rewrite Hi. f_equal.
  by apply update_where_none.
Qed.

Section lifecycle.
Context `{JC : JsonCodec} `{UL : UuidLib} `{GF : GoFmt} {L : Type}.
Variables (old : list Incident) (fp : string) (dev : uuid).
Hypothesis Hold : forall j, In j old -> same_fingerprint (Str.trim_space fp) j = false.

Lemma recover_last (w : World L) i :
  w_faults w = [] -> storable_fp (w_now w) fp -> Str.trim_space fp <> ""%string ->
  only_incident old i w -> in_source_alert_fingerprint i = Some (Str.trim_space fp) ->
  in_state i <> "closed"%string ->
  let w' := (run_task (AlertsResolved [fp]) w).2 in
  only_incident old (recover_incident (recovery_note (w_now w) (Str.trim_space fp)) (w_now w) i) w' /\
  w_faults w' = [] /\ w_now w' = w_now w /\ t_assets (w_db w') = t_assets (w_db w).
Proof.
  intros Hf [Ht Hn] Hne Hi Hfp Hst. unfold run_task, OnAlertFingerprintsResolved,
    AutoResolveIncidentsForAlertFingerprints. cbn [auto_resolve].
  rewrite (proj2 (String.eqb_neq _ _) Hne). destruct (decide _) as [Hs|_]; [set_solver|].
  unfold mbind, go_bind, attempt. rewrite auto_resolve_one_ok by done. simpl.
  split; [|done]. unfold only_incident in *. simpl. rewrite Hi. apply update_where_last.
  - intros j Hj. by rewrite Hold.
  - unfold same_fingerprint. rewrite Hfp, String.eqb_refl. simpl. by rewrite (proj2 (String.eqb_neq _ _) Hst).
Qed.

Lemma reopen_last (w : World L) i title msg :
  w_faults w = [] -> Str.trim_space fp <> ""%string -> dev <> uuid_nil ->
  text_ok (Str.trim_space title) = true ->
  json_has_nul (repeat_note (w_now w) (Str.trim_space fp) title msg dev) = false ->
  asset_exists (w_db w) dev = true ->
  (forall j, In j old -> in_id j <> in_id i) ->
  only_incident old i w -> in_source_alert_fingerprint i = Some (Str.trim_space fp) ->
  only_incident old (refresh_incident (repeat_note (w_now w) (Str.trim_space fp) title msg dev) (w_now w + 4 * hour)
    (Str.trim_space title) 1 1 dev (w_now w) i) (run_task (OpenIncident fp dev title msg) w).2.
Proof.
  intros Hf Hne Hd Ht Hn Ha Hid Hi Hfp. rewrite (open_existing w fp dev title msg i); try done.
  - unfold only_incident in *. simpl. rewrite Hi. apply update_where_last; [|by apply N.eqb_refl].
    intros j Hj. by apply N.eqb_neq, Hid.
  - unfold only_incident in Hi. rewrite Hi. clear -Hold Hfp. induction old as [|j l IH]; simpl.
    + unfold same_fingerprint. by rewrite Hfp, String.eqb_refl.
    + rewrite (Hold j) by (by left). apply IH. intros; apply Hold; by right.
Qed.
End lifecycle.

(** C11: one critical alert, over its life, is one incident.  The alert opens it (new), its
    recovery resolves it, and the same alert again re-opens that very incident (in progress,
    with the new title) instead of opening another; the journal records the three in
    order, and no other incident is touched. *)
Theorem alert_incident_lifecycle `{JsonCodec} `{UuidLib} `{GoFmt} {L : Type} (w : World L) fp dev
    title msg title2 msg2 d1 d2 :
  openable w fp dev title msg ->
  (forall i, In i (t_incidents (w_db w)) -> in_id i <> gen_random_uuid (w_next_id w)) ->
  storable_fp (w_now w + Z.max 0 d1) fp ->
  text_ok (Str.trim_space title2) = true ->
  json_has_nul (repeat_note (w_now w + Z.max 0 d1 + Z.max 0 d2) (Str.trim_space fp) title2 msg2 dev) = false ->
  let w1 := (run_task (OpenIncident fp dev title msg) w).2 in
  let w2 := (run_task (AlertsResolved [fp]) (advance_clock d1 w1)).2 in
  let w3 := (run_task (OpenIncident fp dev title2 msg2) (advance_clock d2 w2)).2 in
  exists i1 i2 i3,
    only_incident (t_incidents (w_db w)) i1 w1 /\ in_state i1 = "new"%string /\
    only_incident (t_incidents (w_db w)) i2 w2 /\ in_state i2 = "resolved"%string /\
    only_incident (t_incidents (w_db w)) i3 w3 /\ in_state i3 = "in_progress"%string /\
    identity i1 = identity i2 /\ identity i2 = identity i3 /\
    in_short_description i3 = Str.left_chars 500 (Str.trim_space title2) /\
    journal_kinds i3 = [Some (jstr "alert_open"); Some (jstr "alert_recovery"); Some (jstr "alert_repeat")].
Proof.
  intros Ho Hfresh Hst Ht2 Hn2 w1 w2 w3. destruct (Ho) as [Hf Hfp Hdev _ Hrow Hun].
  assert (Ha : asset_exists (w_db w) dev = true).
  { unfold incident_row_ok in Hrow. rewrite !andb_true_iff in Hrow. destruct_and?. done. }
  assert (E1 : w1 = set_db (with_incidents (t_incidents (w_db w) ++ [alert_incident w fp dev title msg]) (w_db w))
                 (draw_id (set_seq (w_incident_seq w + 1) w))) by (unfold w1; by rewrite open_new).
  assert (P1 : only_incident (t_incidents (w_db w)) (alert_incident w fp dev title msg) (advance_clock d1 w1)) by (by rewrite E1).
  destruct (recover_last (t_incidents (w_db w)) fp Hun (advance_clock d1 w1) (alert_incident w fp dev title msg))
    as (P2 & F2 & N2 & A2); [by rewrite E1|by rewrite E1|done|done|done|done|].
  fold w2 in P2, F2, N2, A2.
  assert (N2' : w_now w2 = w_now w + Z.max 0 d1) by (rewrite N2, E1; done).
  assert (A2' : t_assets (w_db w2) = t_assets (w_db w)) by (rewrite A2, E1; done).
  eexists _, _, _. split; [exact P1|]. split; [done|]. split; [exact P2|]. split; [done|]. split.
  - apply (reopen_last (t_incidents (w_db w)) fp dev Hun (advance_clock d2 w2)); try done.
    + simpl. by rewrite N2'.
    + unfold asset_exists in *. simpl. by rewrite A2'.
    + exact Hfresh.
  - by repeat split.
Qed.

(** The table accepts INC followed by a string exactly when that is seven digits. *)
Lemma number_ok_inc s : forallb Str.is_digit (Str.bytes s) = true ->
  incident_number_ok ("INC" +:+ s) = Nat.eqb (String.length s) 7.
Proof.
  intros H. unfold incident_number_ok, Str.has_prefix, Str.drop. rewrite !Str.append_cons, Str.append_nil_l.
  cbn [String.length Nat.sub Nat.eqb String.prefix String.substring andb].
  replace (String.length s - 0)%nat with (String.length s) by lia. rewrite substring_all, H.
  assert (String.prefix "" s = true) as -> by (by destruct s).
  by rewrite !andb_true_r.
Qed.

Lemma format_number_ok n : 0 <= n -> incident_number_ok (format_incident_number n) = (n <? 10 ^ 7).
Proof.
  intros H. unfold format_incident_number, Str.pad_zeros. rewrite number_ok_inc.
  2:{ rewrite bytes_append, forallb_app, zeros_digits. by apply itoa_digits. }
  rewrite Str.length_append, length_zeros. destruct (Z.ltb_spec n (10 ^ 7)).
  - apply Nat.eqb_eq. pose proof (itoa_short n). lia.
  - apply Nat.eqb_neq. pose proof (itoa_long n). lia.
Qed.

Lemma itoa_eight n : 10 ^ 7 <= n < 10 ^ 8 -> String.length (Str.itoa n) = 8%nat.
Proof.
  intros H. apply Nat.le_antisymm; [|apply itoa_long; lia].
  rewrite itoa_itoa_N by lia. unfold Str.itoa_N. etransitivity; [apply (dec_digits_upper _ _ 7)|done]. simpl. lia.
Qed.

(** An eight-digit number loses its last digit. *)
Lemma lpad_eight n : 10 ^ 7 <= n < 10 ^ 8 -> Str.lpad_zeros 7 (Str.itoa n) = Str.itoa (n / 10).
Proof.
  intros H. unfold Str.lpad_zeros. pose proof (itoa_eight n H) as H8. rewrite H8. cbn [Nat.ltb Nat.leb].
  assert (Hq : 0 <= n / 10) by (apply Z.div_pos; lia).
  assert (E : Str.itoa n = Str.itoa_N (Z.to_N n / 10) +:+ String (Str.digit (Z.to_N n mod 10)) "").
  { rewrite itoa_itoa_N by lia. apply itoa_snoc. lia. }
  rewrite (itoa_itoa_N (n / 10)), Z2N.inj_div by lia. change (Z.to_N 10) with 10%N.
  rewrite E in *. rewrite Str.length_append in H8. cbn [String.length] in H8.
  replace 7%nat with (String.length (Str.itoa_N (Z.to_N n / 10))) by lia. apply take_append.
Qed.

Lemma itoa_seven n : 10 ^ 6 <= n < 10 ^ 7 -> String.length (Str.itoa n) = 7%nat.
Proof.
  intros H. apply Nat.le_antisymm; [apply itoa_short; lia|].
  rewrite itoa_itoa_N by lia. apply (dec_digits_lower _ _ 6 ""); [simpl; lia|].
  assert (6 <= N.log2 (Z.to_N n))%N; [|lia]. apply N.log2_le_pow2; [lia|]. simpl. lia.
Qed.

(** Incident numbers are allocated by two formats, %07d and LPAD.  They agree and fit
    the table's CHECK up to 9999999.  From ten million on, the automation's number is
    refused by the CHECK, and the API's is cut to the number of an earlier incident. *)
Theorem incident_number_formats n : 0 <= n ->
  (n < 10 ^ 7 -> lpad_incident_number n = format_incident_number n) /\
  incident_number_ok (format_incident_number n) = (n <? 10 ^ 7) /\
  (10 ^ 7 <= n < 10 ^ 8 ->
     incident_number_ok (lpad_incident_number n) = true /\
     lpad_incident_number n = format_incident_number (n / 10)).
Proof.
  intros H. split; [|split; [by apply format_number_ok|]].
  - intros Hn. unfold lpad_incident_number, format_incident_number, Str.lpad_zeros, Str.pad_zeros.
    pose proof (itoa_short n ltac:(lia)). by rewrite (proj2 (Nat.ltb_ge _ _)).
  - intros Hn. assert (Hq : 10 ^ 6 <= n / 10 < 10 ^ 7).
    { split; [apply Z.div_le_lower_bound|apply Z.div_lt_upper_bound]; lia. }
    assert (E : lpad_incident_number n = format_incident_number (n / 10)).
    { unfold lpad_incident_number, format_incident_number, Str.pad_zeros.
      by rewrite lpad_eight, itoa_seven by done. }
    split; [|done]. rewrite E, format_number_ok by lia. apply Z.ltb_lt. lia.
Qed.

(** An impact or urgency is clamped to 1..3 after a conversion to int16: inside the
    int16 range it is the nearest rank, outside it wraps, so that 65537 is rank 1 and
    40000, for which 3 is nearest, is rank 1 too. *)
Theorem ranks_clamped_after_wrapping v :
  impactUrgencyOrDefault (Some v) = Z.max 1 (Z.min 3 ((v + 32768) mod 65536 - 32768)) /\
  (-32768 <= v <= 32767 -> impactUrgencyOrDefault (Some v) = Z.max 1 (Z.min 3 v)) /\
  impactUrgencyOrDefault (Some (v + 65536)) = impactUrgencyOrDefault (Some v) /\
  impactUrgencyOrDefault None = 2 /\ impactUrgencyOrDefault (Some 40000) = 1.
Proof.
  assert (E : forall v, impactUrgencyOrDefault (Some v) = Z.max 1 (Z.min 3 (int16 v))).
  { intros u. unfold impactUrgencyOrDefault. cbv zeta.
    destruct (Z.ltb_spec (int16 u) 1); [by destruct (Z.ltb_spec 3 1); lia|].
    destruct (Z.ltb_spec 3 (int16 u)); lia. }
  split_and!; [by rewrite E| |rewrite !E; unfold int16|done|done].
  - intros Hv. rewrite E. unfold int16. rewrite Z.mod_small by lia. f_equal. lia.
  - by replace (v + 65536 + 32768) with (v + 32768 + 1 * 65536) by lia; rewrite Z_mod_plus_full.
Qed.
