(* ===== verification/Compliance.v ===== *)
(** * Compliance and quarantine

    internal/mdm/compliance, internal/database/{device_compliance,tenant_settings,
    mdm_configuration}.go and internal/api/compliance_routes.go: what an agent's
    enforcement report does to the device's status, when the device is isolated
    automatically, and the operator's switches. *)

From S2P Require Import Prelude GoStd Float64 Json Ext World PolicyMerge Auth DeviceCommands CommandFlow.

Definition ComplianceStatusCompliant : string := "compliant".
Definition ComplianceStatusNonCompliant : string := "non_compliant".
Definition ComplianceStatusEvaluating : string := "evaluating".

(** ** critical.go *)

Definition isEffectivelyEmpty (v : json) : bool :=
  match v with
  | JNull => true
  | JObj m => match m with [] => true | _ => false end
  | JArr l => match l with [] => true | _ => false end
  | JStr s => String.eqb (Str.trim_space s) ""
  | _ => false
  end.

Definition carries (root : list (string * json)) (key : string) : bool :=
  match obj_get key root with Some v => negb (isEffectivelyEmpty v) | None => false end.

Definition object_at (root : list (string * json)) (key : string) : option (list (string * json)) :=
  match obj_get key root with Some (JObj m) => Some m | _ => None end.

Definition PayloadCarriesCriticalSecurityControls (root : list (string * json)) : bool :=
  existsb (carries root) ["security"; "registry"; "windows_firewall"; "firewall"; "wifi"]%string
  || match obj_get "wifi_profile_xml" root with
     | Some (JStr s) => negb (String.eqb (Str.trim_space s) "") | _ => false end
  || match object_at root "windows" with
     | Some win => existsb (carries win) ["registry"; "windows_firewall"; "firewall"; "wifi"; "wifi_profile_xml"]%string
     | None => false end
  || match object_at root "linux" with
     | Some lx => existsb (carries lx) ["sysctl"; "linux_firewall"; "firewall"]%string | None => false end
  || match object_at root "linux_firewall" with Some u => negb (isEffectivelyEmpty (JObj u)) | None => false end
  || match object_at root "android" with Some ad => negb (isEffectivelyEmpty (JObj ad)) | None => false end.

(** ** quarantine_payload.go *)

(** strconv.ParseUint(s, 10, 16) *)
Definition parse_uint16 (s : string) : option Z :=
  n ← Str.digits (Str.bytes s); if n <=? 65535 then Some n else None.

(** The JSON text of QuarantineWire; hosts are null when there is none. *)
Definition BuildQuarantinePayloadJSON `{JsonCodec} `{Environ} (enabled : bool) : string :=
  let hosts := List.filter (fun h => negb (String.eqb h ""))
                 (map Str.trim_space (Str.split_on "," (Str.trim_space (getenv "ARX_MDM_PUBLIC_HOST")))) in
  let portStr := Str.trim_space (getenv "ARX_MDM_PUBLIC_PORT") in
  let port := if String.eqb portStr "" then 443
              else match parse_uint16 portStr with Some n => if 0 <? n then n else 443 | None => 443 end in
  json_marshal (JObj (jmap [("enabled", JBool enabled);
    ("allow_hosts", match hosts with [] => JNull | _ => JArr (map jstr hosts) end);
    ("allow_ports", JArr [JNum (F64.of_Z port)])]%string)).

(** ** The asset's columns *)

Record AssetComplianceRow := { cmp_Status : string; cmp_Reason : string; cmp_QuarantineEnabled : bool }.

Definition is_asset (id : uuid) (a : Asset) : bool := N.eqb (a_id a) id.

Definition set_compliance (status reason : string) (a : Asset) : Asset :=
  {| a_id := a_id a; a_human_id := a_human_id a; a_display_name := a_display_name a;
     a_hostname := a_hostname a; a_cert_serial := a_cert_serial a; a_os_type := a_os_type a;
     a_last_seen := a_last_seen a; a_metadata := a_metadata a; a_compliance_status := status;
     a_compliance_reason := reason; a_quarantine_enabled := a_quarantine_enabled a |}.

Definition set_quarantine (on : bool) (a : Asset) : Asset :=
  {| a_id := a_id a; a_human_id := a_human_id a; a_display_name := a_display_name a;
     a_hostname := a_hostname a; a_cert_serial := a_cert_serial a; a_os_type := a_os_type a;
     a_last_seen := a_last_seen a; a_metadata := a_metadata a; a_compliance_status := a_compliance_status a;
     a_compliance_reason := a_compliance_reason a; a_quarantine_enabled := on |}.

(** The stored reason: cut at 8192 bytes. *)
Definition cut_reason (reason : string) : string :=
  let reason := Str.trim_space reason in
  if 8192 <? Str.slen reason then Str.take 8192 reason else reason.

Section database.
Context `{JC : JsonCodec} `{UL : UuidLib} `{PG : PgLib} {L : Type}.

Definition SetAssetCompliance (assetID : uuid) (status reason : string) : go L () :=
  let status := Str.trim_space (Str.to_lower status) in
  if negb (existsb (String.eqb status)
             [ComplianceStatusCompliant; ComplianceStatusNonCompliant; ComplianceStatusEvaluating])
  then fail (ErrMsg ("database: invalid compliance_status " +:+ status)) else
  let reason := cut_reason reason in
  wrap "database: set compliance" (exec (fun db _ =>
    if negb (text_ok reason) then inl bad_text else
    inr ((), with_assets (update_where (is_asset assetID) (set_compliance status reason) (t_assets db)) db))).

Definition SetAssetQuarantineEnabled (assetID : uuid) (enabled : bool) : go L () :=
  wrap "database: set quarantine_enabled" (exec (fun db _ =>
    inr ((), with_assets (update_where (is_asset assetID) (set_quarantine enabled) (t_assets db)) db))).

Definition GetAssetCompliance (assetID : uuid) : go L AssetComplianceRow :=
  wrap "database: get compliance" (select (fun db _ =>
    match List.find (is_asset assetID) (t_assets db) with
    | Some a => inr {| cmp_Status := a_compliance_status a; cmp_Reason := a_compliance_reason a;
                       cmp_QuarantineEnabled := a_quarantine_enabled a |}
    | None => inl ErrNoRows end)).

(** tenant_settings has at most one row: [t_tenant]. *)
Definition TenantAutoQuarantine : go L bool :=
  wrap "database: tenant settings" (select (fun db _ =>
    match t_tenant db with on :: _ => inr on | [] => inl ErrNoRows end)).

Definition SetTenantAutoQuarantine (enabled : bool) : go L () :=
  wrap "database: update tenant settings" (exec (fun db _ => inr ((), with_tenant [enabled] db))).

(** ** Assigned profiles (mdm_configuration.go) *)

Definition targets (db : Tables) (assetID : uuid) (t : target_kind) : bool :=
  match t with
  | TargetDevice d => N.eqb d assetID
  | TargetGroup g => existsb (fun gd => N.eqb (gd_group gd) g && N.eqb (gd_device gd) assetID) (t_group_devices db)
  end.

Definition assigned (db : Tables) (assetID : uuid) (p : Profile) : bool :=
  existsb (fun a => N.eqb (as_profile a) (pf_id p) && targets db assetID (as_target a)) (t_assignments db).

Definition profile_by_name (a b : Profile) : bool := pg_text_lt (pf_name a) (pf_name b).

(** SELECT DISTINCT over rows that include the primary key: each profile once. *)
Definition ListAssignedProfilesForAsset (assetID : uuid) (platform : string) : go L (list Profile) :=
  let p := Str.to_lower (Str.trim_space platform) in
  if String.eqb p "" then fail (ErrMsg "platform is required") else
  wrap "list assigned profiles" (select (fun db _ =>
    inr (sort_slice profile_by_name
      (List.filter (fun c => String.eqb (pg_lower (pg_trim (pf_platform c))) p && assigned db assetID c)
         (t_profiles db))))).

(** ** merge.go *)

Definition assignedInputs (rows : list Profile) : list AssignedPayload :=
  map (fun r => {| ap_Source := {| ps_ID := pf_id r; ps_Name := pf_name r |};
                   ap_Payload := if String.eqb (pf_payload r) "" || String.eqb (pf_payload r) "null"
                                 then "{}"%string else pf_payload r |}) rows.

Definition EffectiveMergedPayload (assetID : uuid) (platformKey : string) : go L (list (string * json)) :=
  rows ← ListAssignedProfilesForAsset assetID (Str.to_lower (Str.trim_space platformKey));
  match MergeAssignedPayloads (assignedInputs rows) with
  | MergeErr _ => fail (ErrMsg "policy: merge")
  | MergeOk mr => mret (mr_EffectivePayload mr)
  end.
End database.

(** ** engine.go *)

Record EnforcementWire := { enf_State : string; enf_Detail : string; enf_CriticalFailed : bool }.

(** The new status and reason; [None] when a report without enforcement data leaves a
    settled verdict alone. *)
Definition verdict (prevStatus : string) (hasCritical : bool) (enf : option EnforcementWire) : option (string * string) :=
  match enf with
  | None => if negb (String.eqb prevStatus "") && negb (String.eqb prevStatus ComplianceStatusEvaluating) then None
            else Some (ComplianceStatusEvaluating, ""%string)
  | Some enf =>
      let st := Str.to_lower (Str.trim_space (enf_State enf)) in
      if existsb (String.eqb st) ["ok"; "success"; "applied"]%string then Some (ComplianceStatusCompliant, ""%string)
      else if existsb (String.eqb st) ["error"; "failed"]%string then
        if enf_CriticalFailed enf || hasCritical then
          let reason := Str.trim_space (enf_Detail enf) in
          Some (ComplianceStatusNonCompliant,
                if String.eqb reason "" then "critical security policy enforcement failed"%string else reason)
        else Some (ComplianceStatusCompliant, ""%string)
      else if hasCritical then Some (ComplianceStatusEvaluating, Str.trim_space (enf_Detail enf))
      else Some (ComplianceStatusCompliant, ""%string)
  end.

Section engine.
Context `{JC : JsonCodec} `{UL : UuidLib} `{PG : PgLib} `{EV : Environ} `{C2 : C2Dispatcher L}.

Definition auto_quarantine (assetID : uuid) (certSerial : string) : go L () :=
  let payload := BuildQuarantinePayloadJSON true in
  r ← attempt (InsertDeviceCommand assetID DeviceCommandTypeQuarantine payload None);
  match r with
  | inl _ => mret ()
  | inr cmd =>
      _ ← attempt (SetAssetQuarantineEnabled assetID true);
      dispatched ← dispatch certSerial (downlink (dc_ID cmd) DeviceCommandTypeQuarantine payload);
      if (dispatched : bool) then _ ← attempt (MarkDeviceCommandSent (dc_ID cmd)); mret () else mret ()
  end.

Definition EvaluateAfterTelemetry (assetID : uuid) (certSerial platformKey : string) (enf : option EnforcementWire)
    : go L () :=
  prev ← attempt (GetAssetCompliance assetID);
  let prevStatus := match prev with inr r => cmp_Status r | inl _ => ""%string end in
  eff ← attempt (EffectiveMergedPayload assetID platformKey);
  let hasCritical := match eff with inl _ => true | inr m => PayloadCarriesCriticalSecurityControls m end in
  match verdict prevStatus hasCritical enf with
  | None => mret ()
  | Some (status, reason) =>
      _ ← SetAssetCompliance assetID status reason;
      auto ← attempt TenantAutoQuarantine;
      let auto := match auto with inr b => b | inl _ => false end in
      if auto && String.eqb status ComplianceStatusNonCompliant
         && negb (String.eqb prevStatus ComplianceStatusNonCompliant) && negb (String.eqb certSerial "")
      then auto_quarantine assetID certSerial
      else mret ()
  end.

Definition QueueQuarantineCommand (deviceID : uuid) (certSerial : string) (enabled : bool)
    : go L (DeviceCommand * bool) :=
  let payload := BuildQuarantinePayloadJSON enabled in
  cmd ← InsertDeviceCommand deviceID DeviceCommandTypeQuarantine payload None;
  let down := downlink (dc_ID cmd) DeviceCommandTypeQuarantine payload in
  if String.eqb (Str.trim_space certSerial) "" then mret (cmd, false) else
  ok ← dispatch certSerial down;
  if (ok : bool) then _ ← MarkDeviceCommandSent (dc_ID cmd); mret (cmd, true) else mret (cmd, false).
End engine.

(** ** compliance_routes.go *)
Section routes.
Context `{JC : JsonCodec} `{UL : UuidLib} `{GF : GoFmt} `{PG : PgLib} `{EV : Environ} `{JL : JwtLib} `{C2 : C2Dispatcher L}.
Context (origins : list string).

Definition handleGetCompliance (r : Request) : go L Response :=
  let? _ := require_method "GET" r in
  let? _ := RequireMinRole origins r RoleViewer in
  on ← attempt TenantAutoQuarantine;
  mret match on with
       | inl _ => writeTicketsError 500 "failed to load tenant settings"
       | inr on => writeTicketsJSON 200 (JObj [("auto_quarantine_on_noncompliance"%string, JBool on)])
       end.

Definition handlePatchCompliance (r : Request) : go L Response :=
  let? _ := require_method "PATCH" r in
  let? _ := RequireMinRole origins r RoleOperator in
  match read_body 4096 r with
  | None => mret (writeTicketsError 400 "invalid request body")
  | Some body =>
      match (m ← unmarshal_map body; dec_opt_bool None (field "auto_quarantine_on_noncompliance" m)) with
      | None => mret (writeTicketsError 400 "invalid JSON body")
      | Some None => mret (writeTicketsError 400 "auto_quarantine_on_noncompliance is required")
      | Some (Some on) =>
          res ← attempt (SetTenantAutoQuarantine on);
          mret match res with
               | inl _ => writeTicketsError 500 "failed to update tenant settings"
               | inr _ => writeTicketsJSON 200 (JObj [("auto_quarantine_on_noncompliance"%string, JBool on)])
               end
      end
  end.

Definition handlePatchQuarantine (r : Request) : go L Response :=
  let? _ := require_method "PATCH" r in
  let? _ := RequireMinRole origins r RoleOperator in
  match uuid_parse (Str.trim_space (rq_path_id r)) with
  | None => mret (writeTicketsError 400 "invalid device id")
  | Some deviceID =>
  if N.eqb deviceID uuid_nil then mret (writeTicketsError 400 "invalid device id") else
  match read_body 4096 r with
  | None => mret (writeTicketsError 400 "invalid request body")
  | Some body =>
  match (m ← unmarshal_map body; dec_bool false (field "quarantine_enabled" m)) with
  | None => mret (writeTicketsError 400 "invalid JSON body")
  | Some on =>
      there ← attempt (select (fun db _ => inr (asset_exists db deviceID)));
      match there with
      | inl _ | inr false => mret (writeTicketsError 404 "device not found")
      | inr true =>
          res ← attempt (SetAssetQuarantineEnabled deviceID on);
          match res with
          | inl _ => mret (writeTicketsError 500 "failed to update device")
          | inr _ =>
              serial ← attempt (ResolveAssetCertSerial deviceID);
              match serial with
              | inl e => mret (writeTicketsError 409 (err_text e))
              | inr certSerial =>
                  q ← attempt (QueueQuarantineCommand deviceID certSerial on);
                  mret match q with
                       | inl e => writeTicketsError 400 (err_text e)
                       | inr (cmd, dispatched) =>
                           writeTicketsJSON 200 (JObj (jmap [("quarantine_enabled", JBool on);
                             ("command_id", jstr (uuid_string (dc_ID cmd))); ("dispatched", JBool dispatched)]%string))
                       end
              end
          end
      end
  end end end.
End routes.
