(* ===== verification/ComplianceFacts.v ===== *)
(** * Compliance: the effect of a report, and automatic quarantine once per failure

    Properties of [Compliance]. *)

From S2P Require Import Prelude GoStd Float64 Json Ext World PolicyMerge Auth DeviceCommands CommandFlow.
From S2P Require Import CommandFacts CommandDelivery Compliance.

(** ** What the database must be able to store *)

Definition quarantine_storable `{JsonCodec} `{Environ} : Prop :=
  let p := Str.trim_space (BuildQuarantinePayloadJSON true) in
  p <> ""%string /\ text_ok p = true /\ validateQuarantineCommandPayload p = true.

Definition reason_storable (reason : string) : Prop := text_ok (cut_reason reason) = true.

(** The status of the asset, as [GetAssetCompliance] reads it. *)
Definition status_of (db : Tables) (id : uuid) : string :=
  match List.find (is_asset id) (t_assets db) with Some a => a_compliance_status a | None => ""%string end.

Definition quarantine_row (id dev : uuid) (payload status : string) (now : Z) : CommandRow :=
  {| cr_cmd := {| dc_ID := id; dc_DeviceID := dev; dc_CommandType := DeviceCommandTypeQuarantine;
                  dc_Payload := payload; dc_Status := status; dc_Output := ""; dc_CreatedAt := now;
                  dc_CompletedAt := None |};
     cr_incident := None |}.

Section report.
Context `{JC : JsonCodec} `{UL : UuidLib} `{PG : PgLib} `{EV : Environ} `{CL : C2Laws L}.
Implicit Types w : World L.

Definition has_critical (id : uuid) (platform : string) w : bool :=
  match (EffectiveMergedPayload id platform w).1 with
  | inl _ => true
  | inr m => PayloadCarriesCriticalSecurityControls m end.

Lemma Effective_reads id platform w : w_faults w = [] ->
  EffectiveMergedPayload id platform w = ((EffectiveMergedPayload id platform w).1, w).
Proof.
  intros Hf. unfold EffectiveMergedPayload, ListAssignedProfilesForAsset, mbind, go_bind.
  destruct (String.eqb _ ""); [done|]. unfold wrap. rewrite select_ok by done. by destruct (MergeAssignedPayloads _).
Qed.

(** Whether a report makes the server isolate the device. *)
Definition isolates w (id : uuid) (serial status : string) : bool :=
  match t_tenant (w_db w) with on :: _ => on | [] => false end
  && String.eqb status ComplianceStatusNonCompliant
  && negb (String.eqb (status_of (w_db w) id) ComplianceStatusNonCompliant) && negb (String.eqb serial "").

(** The effect of one report whose verdict is [status], [reason]. *)
Record report_effect (id : uuid) (serial status reason : string) w w' : Prop := {
  re_assets : t_assets (w_db w') = update_where (is_asset id)
    (fun a => let b := set_compliance status (cut_reason reason) a in
              if isolates w id serial status then set_quarantine true b else b) (t_assets (w_db w));
  re_commands : if isolates w id serial status
    then exists sent : bool, t_commands (w_db w') = t_commands (w_db w) ++
           [quarantine_row (gen_random_uuid (w_next_id w)) id (Str.trim_space (BuildQuarantinePayloadJSON true))
              (if sent then DeviceCommandStatusSent else DeviceCommandStatusPending) (w_now w)] /\
         outbox (w_link w') = outbox (w_link w) ++
           (if sent then [(Str.trim_space serial, downlink (gen_random_uuid (w_next_id w)) DeviceCommandTypeQuarantine
                             (BuildQuarantinePayloadJSON true))] else []) /\
         w_next_id w' = S (w_next_id w)
    else t_commands (w_db w') = t_commands (w_db w) /\ w_link w' = w_link w /\ w_next_id w' = w_next_id w;
  re_rest : w_faults w' = [] /\ w_now w' = w_now w /\ t_tenant (w_db w') = t_tenant (w_db w) /\
            w_events w' = w_events w
}.

Lemma insert_quarantine_ok id w : w_faults w = [] -> quarantine_storable -> asset_exists (w_db w) id = true ->
  InsertDeviceCommand id DeviceCommandTypeQuarantine (BuildQuarantinePayloadJSON true) None w =
    (inr (cr_cmd (quarantine_row (gen_random_uuid (w_next_id w)) id (Str.trim_space (BuildQuarantinePayloadJSON true))
                    DeviceCommandStatusPending (w_now w))),
     set_db (with_commands (t_commands (w_db w) ++
       [quarantine_row (gen_random_uuid (w_next_id w)) id (Str.trim_space (BuildQuarantinePayloadJSON true))
          DeviceCommandStatusPending (w_now w)]) (w_db w)) (draw_id w)).
Proof.
  intros Hf (Hne & Ht & Hv) Ha. unfold InsertDeviceCommand.
  change (Str.trim_space (Str.to_lower DeviceCommandTypeQuarantine)) with DeviceCommandTypeQuarantine.
  change (validateDeviceCommandType DeviceCommandTypeQuarantine) with true.
  change (needs_payload DeviceCommandTypeQuarantine) with true. cbv zeta.
  rewrite (proj2 (String.eqb_neq _ _) Hne), Hv. cbn [negb andb]. rewrite String.eqb_refl. cbn [andb].
  unfold wrap. rewrite insert_id_ok by done. rewrite Ht, Ha. done.
Qed.

(** The automatic quarantine, given a device that exists. *)
Lemma auto_quarantine_ok id serial w :
  w_faults w = [] -> quarantine_storable -> asset_exists (w_db w) id = true -> fresh_command_id w ->
  exists (sent : bool) w', auto_quarantine id serial w = (inr (), w') /\
    t_assets (w_db w') = update_where (is_asset id) (set_quarantine true) (t_assets (w_db w)) /\
    t_commands (w_db w') = t_commands (w_db w) ++
      [quarantine_row (gen_random_uuid (w_next_id w)) id (Str.trim_space (BuildQuarantinePayloadJSON true))
         (if sent then DeviceCommandStatusSent else DeviceCommandStatusPending) (w_now w)] /\
    outbox (w_link w') = outbox (w_link w) ++
      (if sent then [(Str.trim_space serial, downlink (gen_random_uuid (w_next_id w)) DeviceCommandTypeQuarantine
                        (BuildQuarantinePayloadJSON true))] else []) /\
    w_next_id w' = S (w_next_id w) /\ w_faults w' = [] /\ w_now w' = w_now w /\
    t_tenant (w_db w') = t_tenant (w_db w) /\ w_events w' = w_events w.
Proof.
  intros Hf Hq Ha Hfresh. unfold auto_quarantine. unfold mbind, go_bind, attempt.
  rewrite insert_quarantine_ok by done. unfold SetAssetQuarantineEnabled, wrap. rewrite exec_ok by done.
  cbn [cr_cmd quarantine_row dc_ID].
  set (row := quarantine_row _ _ _ _ _). set (w1 := set_db _ (set_db _ _)).
  unfold dispatch. destruct (dispatch_json serial _ (w_link w1)) as [[] l'] eqn:Ed.
  - pose proof (dispatch_true _ _ _ _ Ed) as [Hout _].
    unfold MarkDeviceCommandSent. rewrite updateStatus_ok by done.
    exists true. eexists. split; [reflexivity|]. unfold w1.
    cbn [w_db set_db set_link draw_id t_commands with_commands t_assets with_assets w_link].
    split; [done|]. split; [|done]. rewrite update_fresh_tail; [done|exact Hfresh|done].
  - pose proof (dispatch_false _ _ _ _ Ed) as Hout. exists false. eexists. split; [reflexivity|].
    simpl in *. rewrite app_nil_r. done.
Qed.

Lemma set_compliance_ok id status reason w : w_faults w = [] -> reason_storable reason ->
  In status [ComplianceStatusCompliant; ComplianceStatusNonCompliant; ComplianceStatusEvaluating] ->
  SetAssetCompliance id status reason w =
    (inr (), set_db (with_assets (update_where (is_asset id) (set_compliance status (cut_reason reason))
                                    (t_assets (w_db w))) (w_db w)) w).
Proof.
  intros Hf Hr Hs. unfold SetAssetCompliance.
  assert (Str.trim_space (Str.to_lower status) = status) as -> by (by destruct Hs as [<-|[<-|[<-|[]]]]).
  assert (existsb (String.eqb status) [ComplianceStatusCompliant; ComplianceStatusNonCompliant; ComplianceStatusEvaluating]
          = true) as -> by (apply existsb_exists; exists status; split; [done|apply String.eqb_refl]).
  cbn [negb]. cbv zeta. unfold wrap. rewrite exec_ok by done. by rewrite Hr.
Qed.

Lemma verdict_status prev crit enf s r : verdict prev crit enf = Some (s, r) ->
  In s [ComplianceStatusCompliant; ComplianceStatusNonCompliant; ComplianceStatusEvaluating].
Proof. unfold verdict. intros Hv. simpl. repeat case_match; simplify_eq; auto. Qed.

Lemma status_read id w a : w_faults w = [] -> List.find (is_asset id) (t_assets (w_db w)) = Some a ->
  GetAssetCompliance id w = (inr {| cmp_Status := status_of (w_db w) id; cmp_Reason := a_compliance_reason a;
                                    cmp_QuarantineEnabled := a_quarantine_enabled a |}, w).
Proof. intros Hf Ha. unfold GetAssetCompliance, wrap, status_of. rewrite select_ok by done. by rewrite Ha. Qed.

Lemma tenant_read w : w_faults w = [] -> exists r, TenantAutoQuarantine w = (r, w) /\
  match r with inr b => b | inl _ => false end = match t_tenant (w_db w) with on :: _ => on | [] => false end.
Proof.
  intros Hf. unfold TenantAutoQuarantine, wrap. rewrite select_ok by done.
  destruct (t_tenant (w_db w)); eexists; split; reflexivity.
Qed.

Lemma asset_found (l : list Asset) id a f : List.find (is_asset id) l = Some a -> (forall b, a_id (f b) = a_id b) ->
  existsb (fun b => N.eqb (a_id b) id) (update_where (is_asset id) f l) = true.
Proof.
  intros [Ha Hid]%find_some Hf. apply existsb_exists. exists (f a). split; [|by rewrite Hf].
  unfold update_where. apply in_map_iff. exists a. by rewrite Hid.
Qed.

(** A report with verdict [status], [reason]. *)
Lemma report_ok id serial platform enf a status reason w :
  w_faults w = [] -> List.find (is_asset id) (t_assets (w_db w)) = Some a -> quarantine_storable ->
  reason_storable reason -> fresh_command_id w ->
  verdict (status_of (w_db w) id) (has_critical id platform w) enf = Some (status, reason) ->
  exists w', EvaluateAfterTelemetry id serial platform enf w = (inr (), w') /\
    report_effect id serial status reason w w'.
Proof.
  intros Hf Ha Hq Hr Hfresh Hv. unfold EvaluateAfterTelemetry.
  unfold mbind at 1, go_bind at 1, attempt at 1. rewrite (status_read id w a) by done. cbn [cmp_Status].
  unfold mbind at 1, go_bind at 1, attempt at 1. rewrite Effective_reads by done.
  fold (has_critical id platform w). rewrite Hv.
  pose proof (verdict_status _ _ _ _ _ Hv) as Hs.
  unfold mbind at 1, go_bind at 1. rewrite set_compliance_ok by done. set (w1 := set_db _ w).
  destruct (tenant_read w1) as (tr & Et & Eon); [done|].
  unfold mbind at 1, go_bind at 1, attempt at 1. rewrite Et, Eon.
  change (t_tenant (w_db w1)) with (t_tenant (w_db w)). fold (isolates w id serial status).
  destruct (isolates w id serial status) eqn:Ei.
  - destruct (auto_quarantine_ok id serial w1) as (sent & w' & E & Eas & Ec & Eo & En & Ef & Enow & Ett & Eev);
      [done|done|by eapply asset_found|exact Hfresh|].
    exists w'. split; [done|]. split; rewrite ?Ei; [|exists sent; done|done].
    rewrite Eas. unfold w1. cbn [w_db set_db t_assets with_assets]. unfold update_where. rewrite map_map.
    apply map_ext. intros b. destruct (is_asset id b) eqn:Eb; [|by rewrite Eb].
    assert (is_asset id (set_compliance status (cut_reason reason) b) = true) as -> by exact Eb. done.
  - exists w1. split; [done|]. split; rewrite ?Ei; done.
Qed.
End report.

(** One enforcement report, with no database fault: the device gets the verdict's status and
    (cut) reason, no other device changes, and nothing is queued -- except when the verdict is
    non-compliant, the device was not so before, and the tenant asked for it: then exactly one
    quarantine command is added, marked sent if the agent took it and pending otherwise, and
    the device is flagged quarantined.  A report without enforcement data about a device with a
    settled status changes nothing. *)
Theorem compliance_report_effect `{JsonCodec} `{UuidLib} `{PgLib} `{Environ} `{C2Laws L} id serial platform enf a
    (w : World L) :
  w_faults w = [] -> List.find (is_asset id) (t_assets (w_db w)) = Some a -> quarantine_storable ->
  (forall s r, verdict (status_of (w_db w) id) (has_critical id platform w) enf = Some (s, r) -> reason_storable r) ->
  fresh_command_id w ->
  exists w', EvaluateAfterTelemetry id serial platform enf w = (inr (), w') /\
    match verdict (status_of (w_db w) id) (has_critical id platform w) enf with
    | None => w' = w
    | Some (status, reason) => report_effect id serial status reason w w'
    end.
Proof.
  intros Hf Ha Hq Hr Hfresh. destruct (verdict _ _ _) as [[status reason]|] eqn:Hv.
  - eapply report_ok; try done. by eapply Hr.
  - exists w. split; [|done]. unfold EvaluateAfterTelemetry, mbind, go_bind, attempt.
    rewrite (status_read id w a), Effective_reads by done. cbn [cmp_Status].
    fold (has_critical id platform w). by rewrite Hv.
Qed.

(** ** A history of reports *)

Definition non_compliant (s : string) : bool := String.eqb s ComplianceStatusNonCompliant.

Section history.
Context `{JC : JsonCodec} `{UL : UuidLib} `{!UuidLaws} `{PG : PgLib} `{EV : Environ} `{CL : C2Laws L}.
Implicit Types w : World L.
Variables (id : uuid) (serial platform : string).

(** The statuses after each report, and the final world. *)
Fixpoint run_reports (reports : list (Z * option EnforcementWire)) w : list string * World L :=
  match reports with
  | [] => ([], w)
  | (gap, enf) :: rest =>
      let w1 := (EvaluateAfterTelemetry id serial platform enf (advance_clock gap w)).2 in
      let '(ss, w') := run_reports rest w1 in (status_of (w_db w1) id :: ss, w')
  end.

(** How often the device became non-compliant. *)
Fixpoint failures (prev : string) (ss : list string) : nat :=
  match ss with
  | [] => 0
  | s :: r => ((if non_compliant s && negb (non_compliant prev) then 1 else 0) + failures s r)%nat
  end.

Definition quarantines (db : Tables) : nat :=
  count_where (fun r => N.eqb (dc_DeviceID (cr_cmd r)) id &&
                        String.eqb (dc_CommandType (cr_cmd r)) DeviceCommandTypeQuarantine) (t_commands db).

(** Command ids come from the generator. *)
Definition ids_drawn w : Prop := forall r, In r (t_commands (w_db w)) ->
  exists n, (n < w_next_id w)%nat /\ dc_ID (cr_cmd r) = gen_random_uuid n.

Lemma drawn_fresh w : ids_drawn w -> fresh_command_id w.
Proof. intros Hd r Hr E. destruct (Hd r Hr) as (n & Hn & En). rewrite En in E. apply gen_random_uuid_inj in E. lia. Qed.

Record ready w : Prop := {
  rd_faults : w_faults w = [];
  rd_asset : exists a, List.find (is_asset id) (t_assets (w_db w)) = Some a;
  rd_ids : ids_drawn w;
  rd_tenant : t_tenant (w_db w) = [true]
}.

Definition storable_report (enf : option EnforcementWire) : Prop :=
  forall prev crit s r, verdict prev crit enf = Some (s, r) -> reason_storable r.

Lemma effect_status w w' status reason a :
  List.find (is_asset id) (t_assets (w_db w)) = Some a -> report_effect id serial status reason w w' ->
  exists a', List.find (is_asset id) (t_assets (w_db w')) = Some a' /\ a_compliance_status a' = status.
Proof.
  intros Ha Hre. rewrite (re_assets _ _ _ _ _ _ Hre), find_update_where by (intros; by destruct (isolates _ _ _ _)).
  rewrite Ha. simpl. apply find_some in Ha as [_ Hid]. rewrite Hid. eexists. split; [done|].
  by destruct (isolates _ _ _ _).
Qed.

Lemma effect_quarantines w w' status reason :
  serial <> ""%string -> t_tenant (w_db w) = [true] -> report_effect id serial status reason w w' ->
  quarantines (w_db w') = (quarantines (w_db w) +
    if non_compliant status && negb (non_compliant (status_of (w_db w) id)) then 1 else 0)%nat.
Proof.
  intros Hs Ht Hre. pose proof (re_commands _ _ _ _ _ _ Hre) as Hc.
  assert (Hi : isolates w id serial status = non_compliant status && negb (non_compliant (status_of (w_db w) id))).
  { unfold isolates, non_compliant. rewrite Ht, (proj2 (String.eqb_neq _ _) Hs). cbn [negb]. by rewrite andb_true_r. }
  rewrite Hi in Hc. destruct (non_compliant status && _).
  - destruct Hc as (sent & Hc & _). unfold quarantines, count_where. rewrite Hc, List.filter_app, length_app.
    cbn [List.filter quarantine_row cr_cmd dc_DeviceID dc_CommandType]. by rewrite N.eqb_refl, String.eqb_refl.
  - destruct Hc as (Hc & _). unfold quarantines. rewrite Hc. lia.
Qed.

Lemma effect_ready w w' status reason a : ready w ->
  List.find (is_asset id) (t_assets (w_db w)) = Some a -> report_effect id serial status reason w w' -> ready w'.
Proof.
  intros [Hf _ Hids Ht] Ha Hre. destruct (re_rest _ _ _ _ _ _ Hre) as (F & N & T & _).
  destruct (effect_status _ _ _ _ _ Ha Hre) as (a' & Ha' & _). split; [done|eauto| |congruence].
  pose proof (re_commands _ _ _ _ _ _ Hre) as Hc. intros r Hr. destruct (isolates _ _ _ _).
  - destruct Hc as (sent & Hc & _ & Hn). rewrite Hc in Hr. rewrite Hn.
    apply in_app_or in Hr as [Hr|[<-|[]]]; [destruct (Hids r Hr) as (n & ? & ?); exists n; split; [lia|done]|].
    exists (w_next_id w). split; [lia|done].
  - destruct Hc as (Hc & _ & Hn). rewrite Hc in Hr. rewrite Hn. by apply Hids.
Qed.

(** One report, whatever it says. *)
Lemma report_step enf w : quarantine_storable -> serial <> ""%string -> storable_report enf -> ready w ->
  let w' := (EvaluateAfterTelemetry id serial platform enf w).2 in
  ready w' /\ quarantines (w_db w') = (quarantines (w_db w) +
    if non_compliant (status_of (w_db w') id) && negb (non_compliant (status_of (w_db w) id)) then 1 else 0)%nat.
Proof.
  intros Hq Hs Hst Hrd w'. destruct (rd_asset w Hrd) as (a & Ha).
  destruct (verdict (status_of (w_db w) id) (has_critical id platform w) enf) as [[status reason]|] eqn:Hv.
  - destruct (report_ok id serial platform enf a status reason w) as (w1 & E & Hre);
      [apply Hrd|done|done|by eapply Hst|by apply drawn_fresh, Hrd|done|].
    assert (Ew : w' = w1) by (unfold w'; by rewrite E). clearbody w'. subst w'.
    split; [by eapply effect_ready|]. rewrite (effect_quarantines _ _ _ _ Hs (rd_tenant w Hrd) Hre).
    destruct (effect_status _ _ _ _ _ Ha Hre) as (a' & Ha' & <-).
    assert (status_of (w_db w1) id = a_compliance_status a') as -> by (unfold status_of; by rewrite Ha'). done.
  - assert (Ew : w' = w).
    { unfold w', EvaluateAfterTelemetry, mbind, go_bind, attempt. pose proof (rd_faults w Hrd) as Hf.
      rewrite (status_read id w a), Effective_reads by done. cbn [cmp_Status].
      fold (has_critical id platform w). by rewrite Hv. }
    clearbody w'. subst w'. split; [done|]. destruct (non_compliant _); simpl; lia.
Qed.

Lemma reports_count reports : forall w, quarantine_storable -> serial <> ""%string ->
  Forall (fun r => storable_report r.2) reports -> ready w ->
  let '(ss, w') := run_reports reports w in
  quarantines (w_db w') = (quarantines (w_db w) + failures (status_of (w_db w) id) ss)%nat.
Proof.
  induction reports as [|[gap enf] rest IH]; intros w Hq Hs Hall Hrd; cbn [run_reports]; [simpl; lia|].
  apply Forall_cons in Hall as [He Hall].
  assert (Hrd1 : ready (advance_clock gap w)) by (by destruct Hrd; split).
  destruct (report_step enf (advance_clock gap w) Hq Hs He Hrd1) as [Hrd2 Hcount].
  set (w1 := (EvaluateAfterTelemetry id serial platform enf (advance_clock gap w)).2) in *.
  specialize (IH w1 Hq Hs Hall Hrd2). destruct (run_reports rest w1) as [ss w'].
  rewrite IH, Hcount. cbn [failures]. change (w_db (advance_clock gap w)) with (w_db w). lia.
Qed.
End history.

(** C12: with automatic quarantine on and no database fault, over any history of reports of a
    device the number of quarantine commands queued for it is the number of times it became
    non-compliant: repeated failures do not isolate it again, and no new failure is missed. *)
Theorem quarantine_once_per_failure `{JsonCodec} `{UuidLib} `{!UuidLaws} `{PgLib} `{Environ} `{C2Laws L}
    id serial platform reports (w : World L) :
  quarantine_storable -> serial <> ""%string -> Forall (fun r => storable_report r.2) reports -> ready id w ->
  let '(ss, w') := run_reports id serial platform reports w in
  quarantines id (w_db w') = (quarantines id (w_db w) + failures (status_of (w_db w) id) ss)%nat.
Proof. apply reports_count. Qed.
