(* ===== verification/Alerting.v ===== *)
(** * Alerts: rules, active alerts, the evaluator

    internal/database/alerting.go and internal/alerting/engine.go.  The evaluator turns
    rules and telemetry into rows of active_alerts, one per fingerprint; opening one may
    notify the channels and open an incident, closing one reports its fingerprint. *)

From S2P Require Import Prelude GoStd Float64 Json Ext World Auth DeviceCommands Incidents.

Definition AlertKindBuiltinOffline : string := "builtin_offline".
Definition AlertKindRuleOffline : string := "rule_offline".
Definition AlertKindRuleMetric : string := "rule_metric".

(** ** Rows and constraints (migration 000013) *)

Definition alert_severities : list string := ["info"; "warning"; "critical"]%string.
Definition alert_kinds : list string := ["builtin_offline"; "rule_offline"; "rule_metric"; "event_fanout"]%string.
Definition rule_metrics : list string :=
  ["cpu_usage"; "offline_status"; "ram_usage_percent"; "disk_usage_percent"]%string.
Definition rule_operators : list string := [">"; "<"; ">="; "<="; "=="]%string.

Definition one_of (s : string) (l : list string) : bool := existsb (String.eqb s) l.

(** An INTERVAL holds microseconds in 64 bits. *)
Definition rule_row_ok (db : Tables) (r : AlertRule) : bool :=
  one_of (ar_TargetType r) ["device"; "system"]%string && one_of (ar_Operator r) rule_operators &&
  one_of (ar_Severity r) alert_severities && one_of (ar_Metric r) rule_metrics &&
  fk_ok a_id (t_assets db) (ar_TargetDeviceID r) && text_ok (ar_Name r)
  && (ar_DurationSeconds r * 1000000 <? 2 ^ 63).

(** Everything but the uniqueness of the fingerprint. *)
Definition alert_row_ok (db : Tables) (a : ActiveAlert) : bool :=
  one_of (aa_Severity a) alert_severities && one_of (aa_AlertKind a) alert_kinds &&
  fk_ok a_id (t_assets db) (aa_DeviceID a) && fk_ok ar_ID (t_rules db) (aa_AlertRuleID a) &&
  text_ok (aa_Fingerprint a) && text_ok (aa_Title a) && text_ok (aa_Message a) && negb (json_has_nul (aa_Details a)).

Definition has_fingerprint (fp : string) (a : ActiveAlert) : bool := String.eqb (aa_Fingerprint a) fp.
Definition is_alert (id : uuid) (a : ActiveAlert) : bool := N.eqb (aa_ID a) id.
Definition unresolved (a : ActiveAlert) : bool := match aa_ResolvedAt a with None => true | Some _ => false end.

Definition resolve_row (now : Z) (a : ActiveAlert) : ActiveAlert :=
  {| aa_ID := aa_ID a; aa_AlertRuleID := aa_AlertRuleID a; aa_Fingerprint := aa_Fingerprint a;
     aa_AlertKind := aa_AlertKind a; aa_DeviceID := aa_DeviceID a; aa_Severity := aa_Severity a;
     aa_Title := aa_Title a; aa_Message := aa_Message a; aa_Details := aa_Details a;
     aa_TriggeredAt := aa_TriggeredAt a; aa_LastNotifiedAt := aa_LastNotifiedAt a; aa_ResolvedAt := Some now |}.

Definition stamp_notified (now : Z) (a : ActiveAlert) : ActiveAlert :=
  {| aa_ID := aa_ID a; aa_AlertRuleID := aa_AlertRuleID a; aa_Fingerprint := aa_Fingerprint a;
     aa_AlertKind := aa_AlertKind a; aa_DeviceID := aa_DeviceID a; aa_Severity := aa_Severity a;
     aa_Title := aa_Title a; aa_Message := aa_Message a; aa_Details := aa_Details a;
     aa_TriggeredAt := aa_TriggeredAt a; aa_LastNotifiedAt := Some now; aa_ResolvedAt := aa_ResolvedAt a |}.

Definition without_rule (a : ActiveAlert) : ActiveAlert :=
  {| aa_ID := aa_ID a; aa_AlertRuleID := None; aa_Fingerprint := aa_Fingerprint a;
     aa_AlertKind := aa_AlertKind a; aa_DeviceID := aa_DeviceID a; aa_Severity := aa_Severity a;
     aa_Title := aa_Title a; aa_Message := aa_Message a; aa_Details := aa_Details a;
     aa_TriggeredAt := aa_TriggeredAt a; aa_LastNotifiedAt := aa_LastNotifiedAt a; aa_ResolvedAt := aa_ResolvedAt a |}.

Definition reopen_row (rule : option uuid) (kind : string) (dev : option uuid) (sev title msg : string)
    (details : json) (now : Z) (a : ActiveAlert) : ActiveAlert :=
  {| aa_ID := aa_ID a; aa_AlertRuleID := rule; aa_Fingerprint := aa_Fingerprint a; aa_AlertKind := kind;
     aa_DeviceID := dev; aa_Severity := sev; aa_Title := title; aa_Message := msg; aa_Details := details;
     aa_TriggeredAt := now; aa_LastNotifiedAt := None; aa_ResolvedAt := None |}.

Definition coalesce {A} (a b : option A) : option A := match a with Some _ => a | None => b end.

Definition refresh_row (rule dev : option uuid) (sev title msg : string) (details : json) (a : ActiveAlert)
    : ActiveAlert :=
  {| aa_ID := aa_ID a; aa_AlertRuleID := coalesce rule (aa_AlertRuleID a); aa_Fingerprint := aa_Fingerprint a;
     aa_AlertKind := aa_AlertKind a; aa_DeviceID := coalesce dev (aa_DeviceID a); aa_Severity := sev;
     aa_Title := title; aa_Message := msg; aa_Details := details; aa_TriggeredAt := aa_TriggeredAt a;
     aa_LastNotifiedAt := aa_LastNotifiedAt a; aa_ResolvedAt := aa_ResolvedAt a |}.

Definition second : Z := 1000000000.

(** Go's int64 arithmetic, and time.Time.Sub, which saturates. *)
Definition int64 (z : Z) : Z := (z + 2 ^ 63) mod 2 ^ 64 - 2 ^ 63.
Definition time_sub (t u : Z) : Z := Z.max (- 2 ^ 63) (Z.min (2 ^ 63 - 1) (t - u)).

(** time.Duration.Seconds *)
Definition duration_seconds (d : Z) : float64 :=
  F64.add (F64.of_Z (Z.quot d second)) (F64.div (F64.of_Z (Z.rem d second)) (F64.of_Z second)).

Record FireAlertOutcome := { fo_AlertID : uuid; fo_ShouldNotify : bool }.

Record AssetLastSeenRow := {
  ls_ID : uuid; ls_HumanID : string; ls_Hostname : string; ls_LastSeen : option Z
}.

Record AlertRuleMetricSample := { ms_AvgMetric : float64; ms_SampleRows : Z }.

Section database.
Context `{JC : JsonCodec} `{UL : UuidLib} `{GF : GoFmt} `{PG : PgLib} {L : Type}.

(** ** Rules.  [updated_at] is written and never read; it is left out. *)

Definition rule_newest_first (a b : AlertRule) : bool := ar_CreatedAt b <? ar_CreatedAt a.
Definition rule_oldest_first (a b : AlertRule) : bool := ar_CreatedAt a <? ar_CreatedAt b.

Definition ListAlertRules : go L (list AlertRule) :=
  wrap "database: list alert_rules" (select (fun db _ => inr (sort_slice rule_newest_first (t_rules db)))).

Definition trimmed_rule (id : uuid) (created updated : Z) (name : string) (r : AlertRule) : AlertRule :=
  {| ar_ID := id; ar_Name := name; ar_TargetType := Str.trim_space (ar_TargetType r);
     ar_Metric := Str.trim_space (ar_Metric r); ar_Operator := Str.trim_space (ar_Operator r);
     ar_Threshold := ar_Threshold r; ar_DurationSeconds := ar_DurationSeconds r;
     ar_Severity := Str.trim_space (ar_Severity r); ar_IsEnabled := ar_IsEnabled r;
     ar_TargetDeviceID := ar_TargetDeviceID r; ar_CreatedAt := created; ar_UpdatedAt := updated |}.

Definition InsertAlertRule (r : AlertRule) : go L uuid :=
  if ar_DurationSeconds r <=? 0 then fail (ErrMsg "database: duration_seconds must be positive") else
  let name := Str.trim_space (ar_Name r) in
  if String.eqb name "" then fail (ErrMsg "database: name is required") else
  wrap "database: insert alert_rule" (insert_id (fun id db now =>
    let row := trimmed_rule id now now name r in
    if negb (rule_row_ok db row) then inl bad_row
    else inr (id, with_rules (t_rules db ++ [row]) db))).

Definition is_rule (id : uuid) (r : AlertRule) : bool := N.eqb (ar_ID r) id.

Definition UpdateAlertRule (id : uuid) (r : AlertRule) : go L () :=
  if ar_DurationSeconds r <=? 0 then fail (ErrMsg "database: duration_seconds must be positive") else
  let name := Str.trim_space (ar_Name r) in
  if String.eqb name "" then fail (ErrMsg "database: name is required") else
  n ← wrap "database: update alert_rule" (exec (fun db now =>
    if existsb (is_rule id) (t_rules db) && negb (rule_row_ok db (trimmed_rule id 0 now name r)) then inl bad_row else
    inr (count_where (is_rule id) (t_rules db),
         with_rules (update_where (is_rule id) (fun o => trimmed_rule id (ar_CreatedAt o) now name r) (t_rules db)) db)));
  if Nat.eqb n 0 then fail ErrNoRows else mret ().

(** alert_rule_id REFERENCES alert_rules ON DELETE SET NULL *)
Definition DeleteAlertRule (id : uuid) : go L () :=
  n ← exec (fun db _ =>
    inr (count_where (is_rule id) (t_rules db),
         with_alerts (update_where (fun a => opt_eqb (aa_AlertRuleID a) (Some id)) without_rule (t_alerts db))
           (with_rules (delete_where (is_rule id) (t_rules db)) db)));
  if Nat.eqb n 0 then fail ErrNoRows else mret ().

Definition LoadAlertRule (id : uuid) : go L AlertRule :=
  select (fun db _ => match List.find (is_rule id) (t_rules db) with
                      | Some r => inr r | None => inl ErrNoRows end).

Definition ListAlertRulesEnabled : go L (list AlertRule) :=
  select (fun db _ => inr (sort_slice rule_oldest_first
    (List.filter (fun r => ar_IsEnabled r && String.eqb (ar_TargetType r) "device") (t_rules db)))).

(** ** Telemetry and heartbeats *)

(** 100.0 * used::float8 / total::float8, NULL when the total is not positive. *)
Definition percent (used total : Z) : option float64 :=
  if 0 <? total then Some (F64.div (F64.mul (F64.of_Z 100) (F64.of_Z used)) (F64.of_Z total)) else None.

Definition metric_expr (metricKey : string) : option (DeviceMetric -> option float64) :=
  let k := Str.trim_space metricKey in
  if String.eqb k "cpu_usage" then Some (fun m => Some (dm_CPUUsage m))
  else if String.eqb k "ram_usage_percent" then Some (fun m => percent (dm_RAMUsed m) (dm_RAMTotal m))
  else if String.eqb k "disk_usage_percent" then Some (fun m => percent (dm_DiskUsed m) (dm_DiskTotal m))
  else None.

(** COALESCE(AVG(expr)::float8, 0) *)
Definition coalesce_avg (values : list float64) : float64 :=
  match values with [] => F64.of_Z 0 | _ => pg_avg values end.

(** With no row in the window MIN(created_at) is NULL, which does not scan into a
    time.Time: the caller sees an error, not an empty sample. *)
Definition LoadAggregatedMetricInWindow (deviceID : uuid) (metricKey : string) (window : Z)
    : go L AlertRuleMetricSample :=
  if window <=? 0 then fail (ErrMsg "database: window must be positive") else
  t ← now;
  let cutoff := t - window in
  match metric_expr metricKey with
  | None => fail (ErrMsg "database: unknown metric")
  | Some expr =>
      wrap "database: metric window" (select (fun db _ =>
        let rows := List.filter (fun m => N.eqb (dm_DeviceID m) deviceID && (cutoff <=? dm_CreatedAt m)) (t_metrics db) in
        match rows with
        | [] => inl (ErrMsg "can't scan into dest[2]: cannot scan NULL into *time.Time")
        | _ => inr {| ms_AvgMetric := coalesce_avg (omap expr rows); ms_SampleRows := Z.of_nat (length rows) |}
        end))
  end.

Definition by_human_id (a b : Asset) : bool := pg_text_lt (a_human_id a) (a_human_id b).

Definition ListAssetsForAlerting (only : option uuid) : go L (list uuid) :=
  wrap "database: list assets for alerting" (select (fun db _ =>
    inr match only with
        | Some id => if negb (N.eqb id uuid_nil)
                     then map a_id (List.filter (fun a => N.eqb (a_id a) id) (t_assets db))
                     else map a_id (sort_slice by_human_id (t_assets db))
        | None => map a_id (sort_slice by_human_id (t_assets db)) end)).

Definition last_seen_row (a : Asset) : AssetLastSeenRow :=
  {| ls_ID := a_id a; ls_HumanID := pg_trim (a_human_id a);
     ls_Hostname := pg_trim (default ""%string (a_hostname a)); ls_LastSeen := a_last_seen a |}.

Definition offline_before (cutoff : Z) (a : Asset) : bool :=
  match a_last_seen a with None => true | Some t => t <? cutoff end.

Definition ScanAssetsOfflineBefore (cutoffUTC : Z) : go L (list AssetLastSeenRow) :=
  wrap "database: offline scan" (select (fun db _ =>
    inr (map last_seen_row (List.filter (offline_before cutoffUTC) (t_assets db))))).

Definition LoadAssetHeartbeatMeta (assetID : uuid) : go L (string * string * option Z) :=
  r ← attempt (select (fun db _ =>
    match List.find (fun a => N.eqb (a_id a) assetID) (t_assets db) with
    | Some a => let r := last_seen_row a in inr (ls_HumanID r, ls_Hostname r, ls_LastSeen r)
    | None => inl ErrNoRows end));
  match r with
  | inr x => mret x
  | inl e => if is_no_rows e then fail ErrNoRows else fail (ErrWrap "database: load asset meta" e)
  end.

Definition SecondsSinceLastSeen (last : option Z) : go L float64 :=
  match last with
  | None => mret F64.e12
  | Some u => t ← now; mret (duration_seconds (time_sub t u))
  end.
End database.

Section upsert.
Context `{UL : UuidLib} {L : Type}.

(** ** One alert per fingerprint *)

Definition new_alert (id : uuid) (fp kind : string) (dev rule : option uuid) (sev title msg : string)
    (details : json) (now : Z) : ActiveAlert :=
  {| aa_ID := id; aa_AlertRuleID := rule; aa_Fingerprint := fp; aa_AlertKind := kind; aa_DeviceID := dev;
     aa_Severity := sev; aa_Title := title; aa_Message := msg; aa_Details := details;
     aa_TriggeredAt := now; aa_LastNotifiedAt := Some now; aa_ResolvedAt := None |}.

Definition update_alert (id : uuid) (f : Z -> ActiveAlert -> ActiveAlert) : go L () :=
  exec (fun db now =>
    let rows := update_where (is_alert id) (f now) (t_alerts db) in
    if existsb (fun a => is_alert id a && negb (alert_row_ok db (f now a))) (t_alerts db) then inl bad_row
    else inr ((), with_alerts rows db)).

(** The closure [decideNotifyOnOpen]. *)
Definition decideNotifyOnOpen (reopened : bool) (lastNotify : option Z) (cooldown now : Z) : bool :=
  if reopened then true else
  match lastNotify with None => true | Some u => cooldown <=? time_sub now u end.

Definition UpsertUnresolvedAlert (fingerprint alertKind : string) (deviceID ruleID : option uuid)
    (severity title message : string) (details : json) (reopenNotifyCooldown : Z) : go L FireAlertOutcome :=
  let cooldown := if reopenNotifyCooldown <=? 0 then hour else reopenNotifyCooldown in
  let sev := Str.trim_space severity in
  let ttl := Str.trim_space title in
  let msg := Str.trim_space message in
  transaction (
    row ← attempt (select (fun db _ =>
      if negb (text_ok fingerprint) then inl bad_text else
      match List.find (has_fingerprint fingerprint) (t_alerts db) with
      | Some a => inr (aa_ID a, aa_LastNotifiedAt a, aa_ResolvedAt a)
      | None => inl ErrNoRows end));
    match row with
    | inl e =>
        if negb (is_no_rows e) then fail (ErrWrap "database: lock active alert" e) else
        id ← wrap "database: insert active alert" (insert_id (fun id db now =>
          let a := new_alert id fingerprint alertKind deviceID ruleID sev ttl msg details now in
          if negb (alert_row_ok db a) || existsb (has_fingerprint fingerprint) (t_alerts db) then inl bad_row
          else inr (id, with_alerts (t_alerts db ++ [a]) db)));
        mret {| fo_AlertID := id; fo_ShouldNotify := true |}
    | inr (id, lastNotify, resolved) =>
        let reopened := is_some_b resolved in
        _ ← wrap "database: refresh active alert"
          (update_alert id (fun now =>
             if reopened then reopen_row ruleID alertKind deviceID sev ttl msg details now
             else refresh_row ruleID deviceID sev ttl msg details));
        let lastNotify := if reopened then None else lastNotify in
        t ← now;
        let shouldNotify := decideNotifyOnOpen reopened lastNotify cooldown t in
        _ ← (if shouldNotify
             then wrap "database: stamp notify window" (update_alert id stamp_notified)
             else mret ());
        mret {| fo_AlertID := id; fo_ShouldNotify := shouldNotify |}
    end).

(** ** Resolution.  UPDATE ... RETURNING fingerprint gives the rows in table order; the
    callers use the list as a set. *)

Definition returned_fingerprints (rows : list ActiveAlert) : list string :=
  List.filter (fun fp => negb (String.eqb fp "")) (map (fun a => Str.trim_space (aa_Fingerprint a)) rows).

Definition resolve_where (p : ActiveAlert -> bool) : go L (list string) :=
  exec (fun db now =>
    inr (returned_fingerprints (List.filter (fun a => unresolved a && p a) (t_alerts db)),
         with_alerts (update_where (fun a => unresolved a && p a) (resolve_row now) (t_alerts db)) db)).

Definition of_device (id : uuid) (a : ActiveAlert) : bool := opt_eqb (aa_DeviceID a) (Some id).

Definition ResolveActiveAlertsKindsForDeviceReturning (deviceID : uuid) : go L (list string) :=
  if N.eqb deviceID uuid_nil then fail (ErrMsg "database: resolve offline args") else
  resolve_where (fun a => of_device deviceID a &&
    one_of (aa_AlertKind a) ["builtin_offline"; "rule_offline"]%string).

Definition ResolveActiveAlertsKindsForDevice (deviceID : uuid) : go L () :=
  _ ← ResolveActiveAlertsKindsForDeviceReturning deviceID; mret ().

Definition ResolveActiveAlertByID (id : uuid) : go L () :=
  n ← exec (fun db now =>
    let p := fun a => is_alert id a && unresolved a in
    inr (count_where p (t_alerts db), with_alerts (update_where p (resolve_row now) (t_alerts db)) db));
  if Nat.eqb n 0 then fail ErrNoRows else mret ().

Definition CloseAlertsKindsExceptReturning (alertKind : string) (desiredFingerprints : gset string)
    : go L (list string) :=
  let k := Str.trim_space alertKind in
  if String.eqb k "" then fail (ErrMsg "database: alert kind required") else
  let closeAll := resolve_where (fun a => String.eqb (aa_AlertKind a) k) in
  if decide (desiredFingerprints = ∅) then closeAll else
  let set := List.filter (fun fp => negb (String.eqb fp "")) (map Str.trim_space (elements desiredFingerprints)) in
  match set with
  | [] => closeAll
  | _ => resolve_where (fun a => String.eqb (aa_AlertKind a) k && negb (one_of (aa_Fingerprint a) set))
  end.

Definition CloseAlertsKindsExcept (alertKind : string) (desiredFingerprints : gset string) : go L () :=
  _ ← CloseAlertsKindsExceptReturning alertKind desiredFingerprints; mret ().

(** ORDER BY (resolved_at IS NULL) DESC, triggered_at DESC LIMIT n *)
Definition alert_listed_before (a b : ActiveAlert) : bool :=
  if Bool.eqb (unresolved a) (unresolved b) then aa_TriggeredAt b <? aa_TriggeredAt a
  else unresolved a.

Definition alert_limit (limit : Z) : Z :=
  let limit := if limit <? 1 then 50 else limit in if 200 <? limit then 200 else limit.

Definition ListActiveAlerts (limit : Z) (includeResolved : bool) : go L (list ActiveAlert) :=
  wrap "database: list active_alerts" (select (fun db _ =>
    let rows := if includeResolved then t_alerts db else List.filter unresolved (t_alerts db) in
    inr (take (Z.to_nat (alert_limit limit)) (sort_slice alert_listed_before rows)))).
End upsert.
