(* ===== verification/AlertEngine.v ===== *)
(** * The alert evaluator (internal/alerting/engine.go)

    One tick is [evaluate]: the built-in watchdog over silent assets, then the enabled
    rules; [OnHeartbeat] runs when an agent reports.  The engine is built with a
    dispatcher and with incident hooks (cmd/server/serve.go); what it hands to the
    notification queue and to the hook goroutines is recorded as events. *)

From S2P Require Import Prelude GoStd Float64 Json Ext World Auth DeviceCommands Incidents Alerting.

Definition offlineBuiltinGrace : Z := 300 * second.
Definition notifyDedupCooldown : Z := 3600 * second.

Definition EventDeviceOffline : string := "device_offline".
Definition EventRuleOffline : string := "alert_rule_offline".
Definition EventRuleMetric : string := "alert_rule_metric".

(** ** Comparing a sample with a threshold *)

Definition almostEqual (a b : float64) : bool := F64.leb (F64.abs (F64.sub a b)) F64.eps6.

Definition compareFloat (operator : string) (value threshold : float64) : bool :=
  if String.eqb operator ">" then F64.ltb threshold value
  else if String.eqb operator "<" then F64.ltb value threshold
  else if String.eqb operator ">=" then F64.leb threshold value
  else if String.eqb operator "<=" then F64.leb value threshold
  else if String.eqb operator "==" then almostEqual value threshold
  else false.

Definition sanitizeMetricSample (metric : string) (v : float64) : float64 :=
  if F64.is_nan v || F64.is_inf v then F64.of_Z 0 else
  if one_of (Str.trim_space metric) ["cpu_usage"; "ram_usage_percent"; "disk_usage_percent"]%string
  then (if F64.ltb v (F64.of_Z 0) then F64.of_Z 0 else v)
  else v.

Fixpoint dedupe (l : list string) (set : gset string) : list string :=
  match l with
  | [] => []
  | f :: r =>
      let fp := Str.trim_space f in
      if String.eqb fp "" then dedupe r set
      else if decide (fp ∈ set) then dedupe r set
      else fp :: dedupe r ({[fp]} ∪ set)
  end.

Definition dedupeFingerprints (l : list string) : list string := dedupe l ∅.

Section engine.
Context `{JC : JsonCodec} `{UL : UuidLib} `{GF : GoFmt} `{PG : PgLib} {L : Type}.

(** notifications.Dispatcher.Notify; the queue may still drop the event when 512 wait. *)
Definition notify (type severity title message : string) (details : json) : go L () :=
  if String.eqb (Str.trim_space type) "" || String.eqb (Str.trim_space title) "" then mret ()
  else emit (Notify type severity title message details).

Definition submitResolvedFingerprints (fps : list string) : go L () :=
  match fps with [] => mret () | _ => emit (AlertsResolved (dedupeFingerprints fps)) end.

Definition maybeOpenIncidentForCritical (fp severity : string) (deviceID : uuid) (title msg : string) : go L () :=
  if negb (String.eqb (Str.trim_space (Str.to_lower severity)) "critical") then mret ()
  else emit (OpenIncident (Str.trim_space fp) deviceID (Str.trim_space title) (Str.trim_space msg)).

Definition OnHeartbeat (deviceID : uuid) : go L () :=
  if N.eqb deviceID uuid_nil then mret () else
  r ← attempt (ResolveActiveAlertsKindsForDeviceReturning deviceID);
  match r with
  | inl _ | inr [] => mret ()
  | inr fps => emit (AlertsResolved (dedupeFingerprints fps))
  end.

(** ** The built-in watchdog *)

Definition builtin_fp (id : uuid) : string := "builtin-offline:" +:+ uuid_string id.
Definition rule_offline_fp (rule asset : uuid) : string :=
  "rule-offline:" +:+ uuid_string rule +:+ ":" +:+ uuid_string asset.
Definition rule_metric_fp (rule asset : uuid) : string :=
  "rule-metric:" +:+ uuid_string rule +:+ ":" +:+ uuid_string asset.

Definition watchdog_title (a : AssetLastSeenRow) : string := ls_HumanID a +:+ " offline (built-in watchdog)".

Definition watchdog_body (a : AssetLastSeenRow) : string :=
  "Asset " +:+ Str.trim_space (ls_HumanID a) +:+ " (" +:+ Str.trim_space (ls_Hostname a) +:+
  ") has not communicated for at least " +:+ fmt_float 0 (duration_seconds offlineBuiltinGrace) +:+ " seconds." +:+
  match ls_LastSeen a with Some t => " Last heartbeat at " +:+ fmt_rfc3339 t +:+ "." | None => "" end.

Definition watchdog_details (a : AssetLastSeenRow) (secs : float64) : json :=
  JObj (jmap [("asset_id", jstr (uuid_string (ls_ID a))); ("human_id", jstr (ls_HumanID a));
              ("hostname", jstr (ls_Hostname a)); ("offline_secs", JNum secs)]%string).

Definition watchdog_asset (desired : gset string) (a : AssetLastSeenRow) : go L (gset string) :=
  let fp := builtin_fp (ls_ID a) in
  secs ← SecondsSinceLastSeen (ls_LastSeen a);
  let title := watchdog_title a in
  let body := watchdog_body a in
  outcome ← UpsertUnresolvedAlert fp AlertKindBuiltinOffline (Some (ls_ID a)) None "critical" title body
              (watchdog_details a secs) notifyDedupCooldown;
  _ ← (if fo_ShouldNotify outcome
       then notify EventDeviceOffline "critical" title body
              (JObj (jmap [("fingerprint", jstr fp); ("human_id", jstr (ls_HumanID a));
                           ("offline_seconds", JNum (F64.round secs))]%string))
       else mret ());
  _ ← maybeOpenIncidentForCritical fp "critical" (ls_ID a) title body;
  mret ({[fp]} ∪ desired).

Definition evaluateBuiltinOffline : go L () :=
  t ← now;
  let cutoff := t - offlineBuiltinGrace in
  offlineRows ← ScanAssetsOfflineBefore cutoff;
  desired ← for_fold offlineRows ∅ watchdog_asset;
  fpsResolved ← CloseAlertsKindsExceptReturning AlertKindBuiltinOffline desired;
  submitResolvedFingerprints fpsResolved.

(** ** Rules *)

Definition fire (fp kind : string) (rule : AlertRule) (assetID : uuid) (title message : string)
    (details : json) (event : string) (event_details : json) : go L () :=
  let sev := Str.trim_space (ar_Severity rule) in
  r ← attempt (UpsertUnresolvedAlert fp kind (Some assetID) (Some (ar_ID rule)) sev title message details
                 notifyDedupCooldown);
  match r with
  | inl _ => mret ()
  | inr outcome =>
      _ ← (if fo_ShouldNotify outcome then notify event sev title message event_details else mret ());
      maybeOpenIncidentForCritical fp sev assetID title message
  end.

Definition offline_rule_asset (rule : AlertRule) (out : gset string) (assetID : uuid) : go L (gset string) :=
  meta ← attempt (LoadAssetHeartbeatMeta assetID);
  match meta with
  | inl _ => mret out
  | inr (human, host, last) =>
      sec ← SecondsSinceLastSeen last;
      if negb (compareFloat (Str.trim_space (ar_Operator rule)) sec (ar_Threshold rule)) then mret out else
      let fp := rule_offline_fp (ar_ID rule) assetID in
      let title := "[" +:+ Str.to_upper (ar_Severity rule) +:+ "] " +:+ Str.trim_space human +:+
                   " breached offline policy" in
      let message := "Rule " +:+ fmt_quote (ar_Name rule) +:+ " reports asset " +:+
        Str.trim_space (human +:+ " " +:+ host) +:+ " has been unreachable for " +:+ fmt_float 0 sec +:+
        " seconds (threshold " +:+ fmt_float 0 (ar_Threshold rule) +:+ ", operator " +:+
        Str.trim_space (ar_Operator rule) +:+ ")." in
      _ ← fire fp AlertKindRuleOffline rule assetID title message
        (JObj (jmap [("rule_id", jstr (uuid_string (ar_ID rule))); ("asset_id", jstr (uuid_string assetID));
                     ("offline_seconds", JNum sec)]%string))
        EventRuleOffline
        (JObj (jmap [("rule_id", jstr (uuid_string (ar_ID rule))); ("asset_id", jstr (uuid_string assetID))]%string));
      mret ({[fp]} ∪ out)
  end.

Definition handleOfflineRule (rule : AlertRule) (devices : list uuid) (out : gset string) : go L (gset string) :=
  for_fold devices out (offline_rule_asset rule).

Definition telemetry_rule_asset (rule : AlertRule) (window : Z) (out : gset string) (assetID : uuid)
    : go L (gset string) :=
  r ← attempt (LoadAggregatedMetricInWindow assetID (ar_Metric rule) window);
  match r with
  | inl _ => mret out
  | inr sample =>
      if ms_SampleRows sample =? 0 then mret out else
      let applied := sanitizeMetricSample (ar_Metric rule) (ms_AvgMetric sample) in
      if negb (compareFloat (Str.trim_space (ar_Operator rule)) applied (ar_Threshold rule)) then mret out else
      let fp := rule_metric_fp (ar_ID rule) assetID in
      let title := "[" +:+ Str.to_upper (ar_Severity rule) +:+ "] " +:+ ar_Name rule +:+ " triggered" in
      let message := "Metric " +:+ Str.trim_space (ar_Metric rule) +:+ " averaged " +:+ fmt_float 2 applied +:+
        " over " +:+ fmt_duration window +:+ " (threshold " +:+ fmt_float 2 (ar_Threshold rule) +:+ ", operator " +:+
        Str.trim_space (ar_Operator rule) +:+ ", samples " +:+ Str.itoa (ms_SampleRows sample) +:+ ")." in
      meta ← attempt (LoadAssetHeartbeatMeta assetID);
      let human := match meta with inr (h, _, _) => h | inl _ => ""%string end in
      let host := match meta with inr (_, h, _) => h | inl _ => ""%string end in
      _ ← fire fp AlertKindRuleMetric rule assetID title message
        (JObj (jmap [("rule_id", jstr (uuid_string (ar_ID rule))); ("asset_id", jstr (uuid_string assetID));
                     ("metric", jstr (Str.trim_space (ar_Metric rule))); ("window", jstr (fmt_duration window));
                     ("avg_value", JNum applied); ("human_id", jstr human); ("hostname", jstr host);
                     ("samples", JNum (F64.of_Z (ms_SampleRows sample)))]%string))
        EventRuleMetric
        (JObj (jmap [("rule_id", jstr (uuid_string (ar_ID rule))); ("asset_id", jstr (uuid_string assetID));
                     ("avg", JNum applied)]%string));
      mret ({[fp]} ∪ out)
  end.

Definition handleTelemetryRule (rule : AlertRule) (devices : list uuid) (window : Z) (out : gset string)
    : go L (gset string) := for_fold devices out (telemetry_rule_asset rule window).

Definition rule_window (rule : AlertRule) : Z :=
  let window := int64 (ar_DurationSeconds rule * second) in
  if window <=? 0 then 60 * second else window.

Definition evaluate_rule (acc : gset string * gset string) (rule : AlertRule) : go L (gset string * gset string) :=
  let '(desiredOffline, desiredMetric) := acc in
  devices ← ListAssetsForAlerting (ar_TargetDeviceID rule);
  if String.eqb (Str.trim_space (ar_Metric rule)) "offline_status"
  then out ← handleOfflineRule rule devices desiredOffline; mret (out, desiredMetric)
  else out ← handleTelemetryRule rule devices (rule_window rule) desiredMetric; mret (desiredOffline, out).

Definition evaluateDeviceRules : go L () :=
  rules ← ListAlertRulesEnabled;
  desired ← for_fold rules (∅, ∅) evaluate_rule;
  let '(desiredOffline, desiredMetric) := desired in
  fpsOffline ← CloseAlertsKindsExceptReturning AlertKindRuleOffline desiredOffline;
  fpsMetric ← CloseAlertsKindsExceptReturning AlertKindRuleMetric desiredMetric;
  submitResolvedFingerprints (dedupeFingerprints (fpsOffline ++ fpsMetric)).

(** One tick: the errors of the two passes are logged. *)
Definition evaluate : go L () :=
  _ ← attempt evaluateBuiltinOffline;
  _ ← attempt evaluateDeviceRules;
  mret ().
End engine.
