(* ===== verification/AlertFacts.v ===== *)
(** * Alerts: the table invariant, the notification cadence, one row per fingerprint

    Properties of [Alerting] and [AlertEngine]. *)

From S2P Require Import Prelude GoStd Float64 Json Ext World Auth DeviceCommands Incidents Alerting.
From S2P Require Import AlertEngine.

(** ** The table invariant *)

Definition valid_alert (db : Tables) (a : ActiveAlert) : Prop :=
  one_of (aa_Severity a) alert_severities = true /\ one_of (aa_AlertKind a) alert_kinds = true /\
  fk_ok ar_ID (t_rules db) (aa_AlertRuleID a) = true.

(** A rule the engine can evaluate. *)
Definition valid_rule (r : AlertRule) : Prop :=
  one_of (ar_Metric r) rule_metrics = true /\ one_of (ar_Operator r) rule_operators = true /\
  one_of (ar_Severity r) alert_severities = true /\ 0 < ar_DurationSeconds r /\ ar_Name r <> ""%string.

Definition alerts_ok (db : Tables) : Prop :=
  List.NoDup (map aa_Fingerprint (t_alerts db)) /\ (forall a, In a (t_alerts db) -> valid_alert db a) /\
  forall r, In r (t_rules db) -> valid_rule r.

Lemma alert_row_ok_valid db a : alert_row_ok db a = true -> valid_alert db a.
Proof. unfold alert_row_ok. rewrite !andb_true_iff. intros H. destruct_and?. by split. Qed.

Lemma rule_row_ok_valid db id t u name r : rule_row_ok db (trimmed_rule id t u name r) = true ->
  0 < ar_DurationSeconds r -> name <> ""%string -> forall id' t' u', valid_rule (trimmed_rule id' t' u' name r).
Proof. unfold rule_row_ok. rewrite !andb_true_iff. intros H Hd Hn id' t' u'. destruct_and?. by repeat split. Qed.

Section table.
(** An update that keeps fingerprints and validity. *)
Lemma alerts_update p f db :
  (forall a, p a = true -> aa_Fingerprint (f a) = aa_Fingerprint a) ->
  (forall a, In a (t_alerts db) -> p a = true -> valid_alert db a -> valid_alert db (f a)) ->
  keeps alerts_ok db (with_alerts (update_where p f (t_alerts db)) db).
Proof.
  intros Hfp Hv (Hn & Ha & Hr). split_and!; [|intros a Hin|exact Hr].
  - by rewrite <- (update_where_column p f aa_Fingerprint) in Hn.
  - apply update_where_In in Hin as (b & Hb & ->). destruct (p b) eqn:E; [by apply Hv; auto|by apply Ha].
Qed.

Lemma alerts_add a db :
  alert_row_ok db a = true -> existsb (has_fingerprint (aa_Fingerprint a)) (t_alerts db) = false ->
  keeps alerts_ok db (with_alerts (t_alerts db ++ [a]) db).
Proof.
  intros Hok Hnew (Hn & Ha & Hr). split_and!; [simpl| |exact Hr].
  - rewrite map_app. apply List.NoDup_app; [done|by repeat constructor; intros []|].
    intros s Hs [<-|[]]. apply in_map_iff in Hs as (b & Eb & Hb).
    assert (existsb (has_fingerprint (aa_Fingerprint a)) (t_alerts db) = true); [|congruence].
    apply existsb_exists. exists b. split; [done|]. by apply String.eqb_eq.
  - intros b [Hb|[<-|[]]]%in_app_or; [by apply Ha|]. by apply alert_row_ok_valid.
Qed.

(** A change of the rules under which every reference still resolves. *)
Lemma rules_change rules db :
  (forall id, fk_ok ar_ID (t_rules db) (Some id) = true -> fk_ok ar_ID rules (Some id) = true) ->
  (forall r, In r rules -> (forall r', In r' (t_rules db) -> valid_rule r') -> valid_rule r) ->
  keeps alerts_ok db (with_rules rules db).
Proof.
  intros Hfk Hv (Hn & Ha & Hr). split_and!; [exact Hn| |intros r Hin; by apply Hv].
  intros a Hin. destruct (Ha a Hin) as (H1 & H2 & H3). split_and!; [done..|].
  destruct (aa_AlertRuleID a) as [id|] eqn:E; [by apply Hfk|done].
Qed.

(** Deleting a rule clears the references to it. *)
Lemma rules_delete id db :
  keeps alerts_ok db (with_alerts (update_where (fun a => opt_eqb (aa_AlertRuleID a) (Some id)) without_rule (t_alerts db))
    (with_rules (delete_where (is_rule id) (t_rules db)) db)).
Proof.
  intros (Hn & Ha & Hr). split_and!; simpl.
  - by rewrite update_where_column.
  - intros a (b & Hb & ->)%update_where_In. destruct (Ha b Hb) as (H1 & H2 & H3).
    destruct (opt_eqb _ _) eqn:E; [by split_and!|]. split_and!; [done..|].
    unfold fk_ok in *. destruct (aa_AlertRuleID b) as [ref|]; [|done]. simpl in E.
    apply existsb_exists in H3 as (r & Hin & Eid). apply existsb_exists. exists r. split; [|done].
    apply filter_In. split; [done|]. unfold is_rule. apply N.eqb_eq in Eid. by rewrite Eid, E.
  - intros r Hin. apply filter_In in Hin as [Hin _]. by apply Hr.
Qed.
End table.

Section ops.
Context `{JC : JsonCodec} `{UL : UuidLib} `{GF : GoFmt} `{PG : PgLib} {L : Type}.
Notation kept := (db_steps (L := L) (keeps alerts_ok)).

Lemma update_alert_kept id f :
  (forall t a, aa_Fingerprint (f t a) = aa_Fingerprint a) -> kept (update_alert id f).
Proof.
  intros Hf. apply steps_exec; [typeclasses eauto|]. intros db t x db'. cbv zeta.
  destruct (existsb _ _) eqn:E; [done|]. intros [= _ <-]. apply alerts_update; [auto|].
  intros a Ha Hid _. destruct (alert_row_ok db (f t a)) eqn:R; [by eapply alert_row_ok_valid|].
  assert (existsb (fun a => is_alert id a && negb (alert_row_ok db (f t a))) (t_alerts db) = true); [|congruence].
  apply existsb_exists. exists a. by rewrite Hid, R.
Qed.

Lemma Upsert_kept fp kind dev rule sev title msg details cd :
  kept (UpsertUnresolvedAlert fp kind dev rule sev title msg details cd).
Proof.
  unfold UpsertUnresolvedAlert. cbv zeta. apply steps_transaction; [typeclasses eauto|].
  apply steps_bind; [typeclasses eauto|db_walk|]. intros [e|[[id lastN] res]].
  - destruct (negb _); [db_walk|]. apply steps_bind; [typeclasses eauto| |db_walk].
    apply steps_wrap, steps_insert_id; [typeclasses eauto|]. intros id db t x db'.
    destruct (negb _) eqn:R; [done|]. cbn [orb]. destruct (existsb _ _) eqn:E; [done|].
    intros [= _ <-]. apply negb_false_iff in R. by apply alerts_add.
  - apply steps_bind; [typeclasses eauto| |].
    + apply steps_wrap, update_alert_kept. by destruct (is_some_b res).
    + intros _. apply steps_bind; [typeclasses eauto|db_walk|]. intros t.
      apply steps_bind; [typeclasses eauto| |db_walk].
      destruct (decideNotifyOnOpen _ _ _ _); [|db_walk]. by apply steps_wrap, update_alert_kept.
Qed.

Lemma resolve_where_kept p : kept (resolve_where p).
Proof.
  apply steps_exec; [typeclasses eauto|]. intros db t x db' [= _ <-]. by apply alerts_update.
Qed.

Lemma close_kept kind set : kept (CloseAlertsKindsExceptReturning kind set).
Proof. pose proof resolve_where_kept. unfold CloseAlertsKindsExceptReturning. db_walk. Qed.

Lemma builtin_kept : kept evaluateBuiltinOffline.
Proof.
  pose proof Upsert_kept. pose proof close_kept.
  unfold evaluateBuiltinOffline, ScanAssetsOfflineBefore, watchdog_asset, SecondsSinceLastSeen,
    submitResolvedFingerprints, notify, maybeOpenIncidentForCritical. db_walk.
Qed.

Lemma fire_kept fp kind rule asset title msg d ev ed : kept (fire fp kind rule asset title msg d ev ed).
Proof. pose proof Upsert_kept. unfold fire, notify, maybeOpenIncidentForCritical. db_walk. Qed.

Lemma rules_kept : kept evaluateDeviceRules.
Proof.
  pose proof fire_kept. pose proof close_kept.
  unfold evaluateDeviceRules, ListAlertRulesEnabled, evaluate_rule, ListAssetsForAlerting, handleOfflineRule,
    handleTelemetryRule, offline_rule_asset, telemetry_rule_asset, LoadAssetHeartbeatMeta,
    LoadAggregatedMetricInWindow, SecondsSinceLastSeen, submitResolvedFingerprints. db_walk.
Qed.

Lemma evaluate_kept : kept evaluate.
Proof. pose proof builtin_kept. pose proof rules_kept. unfold evaluate. db_walk. Qed.

Lemma heartbeat_kept dev : kept (OnHeartbeat dev).
Proof.
  pose proof resolve_where_kept. unfold OnHeartbeat, ResolveActiveAlertsKindsForDeviceReturning. db_walk.
Qed.

Lemma resolve_by_id_kept id : kept (ResolveActiveAlertByID id).
Proof.
  unfold ResolveActiveAlertByID. db_walk. apply steps_exec; [typeclasses eauto|].
  intros db t x db' [= _ <-]. by apply alerts_update.
Qed.

Lemma delete_rule_kept id : kept (DeleteAlertRule id).
Proof.
  unfold DeleteAlertRule. db_walk. apply steps_exec; [typeclasses eauto|].
  intros db t x db' [= _ <-]. apply rules_delete.
Qed.

Lemma insert_rule_kept r : kept (InsertAlertRule r).
Proof.
  unfold InsertAlertRule. destruct (Z.leb_spec (ar_DurationSeconds r) 0); [db_walk|].
  destruct (String.eqb_spec (Str.trim_space (ar_Name r)) ""); [db_walk|].
  apply steps_wrap, steps_insert_id; [typeclasses eauto|]. intros id db t x db'. cbv zeta.
  destruct (negb _) eqn:E; [done|]. intros [= _ <-]. apply negb_false_iff in E. apply rules_change.
  - intros ref. unfold fk_ok. rewrite existsb_app. by intros ->.
  - intros r' [Hin|[<-|[]]]%in_app_or Hv; [by apply Hv|]. by eapply rule_row_ok_valid.
Qed.

Lemma update_rule_kept id r : kept (UpdateAlertRule id r).
Proof.
  unfold UpdateAlertRule. destruct (Z.leb_spec (ar_DurationSeconds r) 0); [db_walk|].
  destruct (String.eqb_spec (Str.trim_space (ar_Name r)) ""); [db_walk|]. db_walk.
  apply steps_exec; [typeclasses eauto|]. intros db t x db'.
  destruct (existsb (is_rule id) (t_rules db)) eqn:Ex; cbn [andb].
  - destruct (negb _) eqn:E; [done|]. intros [= _ <-]. apply negb_false_iff in E. apply rules_change.
    + intros ref. unfold fk_ok. rewrite !existsb_exists. intros (q & Hq & Eq).
      exists (if is_rule id q then trimmed_rule id (ar_CreatedAt q) t (Str.trim_space (ar_Name r)) r else q). split.
      * apply in_map_iff. by exists q.
      * destruct (is_rule id q) eqn:Ei; [|done]. simpl. apply N.eqb_eq in Ei. by rewrite <- Ei.
    + intros q (o & Ho & ->)%update_where_In Hv. destruct (is_rule id o); [by eapply rule_row_ok_valid|by apply Hv].
  - intros [= _ <-]. rewrite update_where_none; [by destruct db|].
    intros q Hq. destruct (is_rule id q) eqn:Ei; [|done]. rewrite <- Ex. symmetry. apply existsb_exists. by exists q.
Qed.
End ops.

(** No alert operation -- the evaluator's tick, a heartbeat, a manual resolution, the
    creation, edition or deletion of a rule -- ever leaves two alerts with one fingerprint,
    an alert whose severity or kind is not a known one or whose rule is gone, or a rule the
    engine cannot evaluate, whatever statement of it fails. *)
Theorem alert_table_invariant `{JsonCodec} `{UuidLib} `{GoFmt} `{PgLib} {L : Type} dev id r (w : World L) :
  alerts_ok (w_db w) ->
  alerts_ok (w_db (evaluate w).2) /\
  alerts_ok (w_db (OnHeartbeat dev w).2) /\
  alerts_ok (w_db (ResolveActiveAlertByID id w).2) /\
  alerts_ok (w_db (InsertAlertRule r w).2) /\
  alerts_ok (w_db (UpdateAlertRule id r w).2) /\
  alerts_ok (w_db (DeleteAlertRule id w).2).
Proof.
  intros Hok. split_and!; [by apply evaluate_kept|by apply heartbeat_kept|by apply resolve_by_id_kept|
    by apply insert_rule_kept|by apply update_rule_kept|by apply delete_rule_kept].
Qed.

(** ** What one upsert does *)

(** The values of an alert that the table accepts. *)
Record acceptable (db : Tables) (fp kind : string) (dev rule : option uuid) (sev title msg : string) (details : json)
    : Prop := {
  ac_fp : text_ok fp = true;
  ac_kind : one_of kind alert_kinds = true;
  ac_dev : fk_ok a_id (t_assets db) dev = true;
  ac_rule : fk_ok ar_ID (t_rules db) rule = true;
  ac_sev : one_of (Str.trim_space sev) alert_severities = true;
  ac_title : text_ok (Str.trim_space title) = true;
  ac_msg : text_ok (Str.trim_space msg) = true;
  ac_details : json_has_nul details = false
}.

(** Every row satisfies its constraints, and ids come from the database's generator. *)
Record alerts_wf `{UuidLib} {L} (w : World L) : Prop := {
  wf_rows : forall a, In a (t_alerts (w_db w)) -> alert_row_ok (w_db w) a = true;
  wf_fps : List.NoDup (map aa_Fingerprint (t_alerts (w_db w)));
  wf_ids : List.NoDup (map aa_ID (t_alerts (w_db w)));
  wf_drawn : forall a, In a (t_alerts (w_db w)) -> exists n, (n < w_next_id w)%nat /\ aa_ID a = gen_random_uuid n
}.

(** The row an upsert leaves for its fingerprint. *)
Definition upserted_row (t : Z) (cooldown : Z) (kind : string) (dev rule : option uuid) (sev title msg : string)
    (details : json) (a : ActiveAlert) : ActiveAlert * bool :=
  let reopened := is_some_b (aa_ResolvedAt a) in
  let b := if reopened then reopen_row rule kind dev sev title msg details t a
           else refresh_row rule dev sev title msg details a in
  if decideNotifyOnOpen reopened (aa_LastNotifiedAt b) cooldown t then (stamp_notified t b, true) else (b, false).

Section upsert.
Context `{UL : UuidLib} {L : Type}.

Lemma unique_id db a b : List.NoDup (map aa_ID (t_alerts db)) ->
  In a (t_alerts db) -> In b (t_alerts db) -> aa_ID a = aa_ID b -> a = b.
Proof.
  intros Hn Ha Hb E. induction (t_alerts db) as [|c l IH]; [done|].
  simpl in Hn. apply List.NoDup_cons_iff in Hn as [Hc Hn].
  destruct Ha as [->|Ha], Hb as [->|Hb]; [done| | |auto].
  - exfalso. apply Hc. rewrite E. by apply in_map.
  - exfalso. apply Hc. rewrite <- E. by apply in_map.
Qed.

Lemma update_alert_ok id f (w : World L) a :
  w_faults w = [] -> List.NoDup (map aa_ID (t_alerts (w_db w))) -> In a (t_alerts (w_db w)) -> aa_ID a = id ->
  alert_row_ok (w_db w) (f (w_now w) a) = true ->
  update_alert id f w = (inr (), set_db (with_alerts (update_where (is_alert id) (f (w_now w)) (t_alerts (w_db w)))
                                           (w_db w)) w).
Proof.
  intros Hf Hn Ha Hid Hok. unfold update_alert. rewrite exec_ok by done. cbv zeta.
  destruct (existsb _ _) eqn:E; [|done]. exfalso.
  apply existsb_exists in E as (b & Hb & [Hi Hr]%andb_true_iff). apply N.eqb_eq in Hi.
  assert (b = a) as -> by (eapply unique_id; [done..|congruence]). by rewrite Hok in Hr.
Qed.
End upsert.

Lemma update_where_const {A} (p : A -> bool) (f : A -> A) x l :
  (forall b, In b l -> p b = true -> f b = x) -> update_where p f l = update_where p (fun _ => x) l.
Proof.
  intros H. unfold update_where. apply map_ext_in. intros b Hb. destruct (p b) eqn:E; [by apply H|done].
Qed.

Lemma update_where_twice {A} (p : A -> bool) (f : A -> A) x l :
  p x = true -> update_where p f (update_where p (fun _ => x) l) = update_where p (fun _ => f x) l.
Proof.
  intros Hx. unfold update_where. rewrite map_map. apply map_ext. intros b.
  destruct (p b) eqn:E; [by rewrite Hx|by rewrite E].
Qed.

Section spec.
Context `{UL : UuidLib} {L : Type}.
Variables (fp kind : string) (dev rule : option uuid) (sev title msg : string) (details : json).
Notation upsert := (UpsertUnresolvedAlert (L := L) fp kind dev rule sev title msg details).
Notation trim := Str.trim_space.

(** A fingerprint that is not in the table. *)
Lemma upsert_new cd (w : World L) :
  w_faults w = [] -> acceptable (w_db w) fp kind dev rule sev title msg details ->
  List.find (has_fingerprint fp) (t_alerts (w_db w)) = None ->
  upsert cd w = (inr {| fo_AlertID := gen_random_uuid (w_next_id w); fo_ShouldNotify := true |},
    set_db (with_alerts (t_alerts (w_db w) ++
      [new_alert (gen_random_uuid (w_next_id w)) fp kind dev rule (trim sev) (trim title) (trim msg) details (w_now w)])
      (w_db w)) (draw_id w)).
Proof.
  intros Hf Hac Hnone. unfold UpsertUnresolvedAlert. cbv zeta. apply transaction_ok; [done| |done].
  unfold mbind, go_bind, attempt, wrap. rewrite select_ok by done. rewrite (ac_fp _ _ _ _ _ _ _ _ _ Hac).
  cbn [negb]. rewrite Hnone. change (is_no_rows ErrNoRows) with true. cbn [negb].
  rewrite insert_id_ok by done. cbv zeta.
  assert (existsb (has_fingerprint fp) (t_alerts (w_db w)) = false) as ->.
  { destruct (existsb _ _) eqn:E; [|done]. apply existsb_exists in E as (b & Hb & E).
    by rewrite (find_none _ _ Hnone b Hb) in E. }
  unfold alert_row_ok. cbn [new_alert aa_Severity aa_AlertKind aa_DeviceID aa_AlertRuleID aa_Fingerprint aa_Title aa_Message aa_Details].
  destruct Hac as [-> -> -> -> -> -> -> ->]. done.
Qed.

Lemma row_ok_upserted db t cd a :
  acceptable db fp kind dev rule sev title msg details -> alert_row_ok db a = true ->
  alert_row_ok db (if is_some_b (aa_ResolvedAt a) then reopen_row rule kind dev (trim sev) (trim title) (trim msg) details t a
                   else refresh_row rule dev (trim sev) (trim title) (trim msg) details a) = true /\
  alert_row_ok db (upserted_row t cd kind dev rule (trim sev) (trim title) (trim msg) details a).1 = true.
Proof.
  intros [Hfp Hk Hd Hr Hs Ht Hm Hj] Hok. unfold alert_row_ok in Hok. rewrite !andb_true_iff in Hok. destruct_and?.
  assert (Hc : fk_ok a_id (t_assets db) (coalesce dev (aa_DeviceID a)) = true /\
               fk_ok ar_ID (t_rules db) (coalesce rule (aa_AlertRuleID a)) = true).
  { split; unfold coalesce; [by destruct dev|by destruct rule]. }
  destruct Hc as [Hc1 Hc2].
  unfold upserted_row. destruct (is_some_b (aa_ResolvedAt a)).
  all: split; [|destruct (decideNotifyOnOpen _ _ _ _)]; unfold alert_row_ok;
    rewrite !andb_true_iff, negb_true_iff; split_and!; assumption.
Qed.

(** A fingerprint that is: the row is re-opened or refreshed, and stamped if due. *)
Lemma upsert_existing cd (w : World L) a :
  w_faults w = [] -> acceptable (w_db w) fp kind dev rule sev title msg details -> 0 < cd -> alerts_wf w ->
  List.find (has_fingerprint fp) (t_alerts (w_db w)) = Some a ->
  let '(row, due) := upserted_row (w_now w) cd kind dev rule (trim sev) (trim title) (trim msg) details a in
  upsert cd w = (inr {| fo_AlertID := aa_ID a; fo_ShouldNotify := due |},
    set_db (with_alerts (update_where (is_alert (aa_ID a)) (fun _ => row) (t_alerts (w_db w))) (w_db w)) w).
Proof.
  intros Hf Hac Hcd Hwf Hfind. pose proof (find_some _ _ Hfind) as [Ha _].
  destruct (row_ok_upserted (w_db w) (w_now w) cd a Hac (wf_rows w Hwf a Ha)) as [Hok1 Hok2].
  destruct (upserted_row _ _ _ _ _ _ _ _ _ a) as [row due] eqn:Eu. simpl in Hok2.
  unfold UpsertUnresolvedAlert. rewrite (proj2 (Z.leb_gt cd 0)) by lia. cbv zeta.
  apply transaction_ok; [done| |done].
  unfold mbind, go_bind, attempt, wrap, now, mret, go_ret. rewrite select_ok by done.
  rewrite (ac_fp _ _ _ _ _ _ _ _ _ Hac). cbn [negb]. rewrite Hfind.
  set (base := fun t => if is_some_b (aa_ResolvedAt a) then reopen_row rule kind dev (trim sev) (trim title) (trim msg) details t
                        else refresh_row rule dev (trim sev) (trim title) (trim msg) details).
  assert (Hb : alert_row_ok (w_db w) (base (w_now w) a) = true) by (unfold base; by destruct (is_some_b _)).
  rewrite (update_alert_ok (aa_ID a) base w a Hf (wf_ids w Hwf) Ha eq_refl Hb).
  assert (Hun : forall b, In b (t_alerts (w_db w)) -> is_alert (aa_ID a) b = true -> b = a).
  { intros b Hb1 Hb2. apply N.eqb_eq in Hb2. by eapply (unique_id (w_db w)); [apply Hwf|..]. }
  rewrite (update_where_const _ _ (base (w_now w) a)) by (intros b H1 H2; by rewrite (Hun b H1 H2)).
  assert (Hln : aa_LastNotifiedAt (base (w_now w) a) = (if is_some_b (aa_ResolvedAt a) then None else aa_LastNotifiedAt a))
    by (unfold base; by destruct (is_some_b _)).
  assert (Eu' : (if decideNotifyOnOpen (is_some_b (aa_ResolvedAt a)) (aa_LastNotifiedAt (base (w_now w) a)) cd (w_now w)
                 then (stamp_notified (w_now w) (base (w_now w) a), true) else (base (w_now w) a, false)) = (row, due)).
  { rewrite <- Eu. unfold upserted_row, base. by destruct (is_some_b _). }
  cbn [w_now set_db]. rewrite <- Hln. clear Eu.
  destruct (decideNotifyOnOpen _ _ _ _); injection Eu' as <- <-; [|done].
  set (w1 := set_db _ w).
  assert (Hin : In (base (w_now w) a) (t_alerts (w_db w1))).
  { simpl. unfold update_where. apply in_map_iff. exists a. split; [|done]. unfold is_alert. by rewrite N.eqb_refl. }
  rewrite (update_alert_ok (aa_ID a) stamp_notified w1 (base (w_now w) a)); [|done| |done|by unfold base; destruct (is_some_b _)|done].
  - unfold w1. cbn [w_db set_db t_alerts with_alerts w_now]. rewrite update_where_twice; [done|].
    apply N.eqb_eq. unfold base. by destruct (is_some_b _).
  - simpl. rewrite update_where_column; [apply Hwf|]. intros b Hb1%N.eqb_eq. rewrite Hb1. unfold base. by destruct (is_some_b _).
Qed.
End spec.

(** ** The effect of an upsert, on every branch *)

Record upsert_effect (cd : Z) (fp kind : string) (dev rule : option uuid) {L} (w w' : World L)
    (o : FireAlertOutcome) (row : ActiveAlert) : Prop := {
  ue_one : List.filter (has_fingerprint fp) (t_alerts (w_db w')) = [row];
  ue_rest : List.filter (fun a => negb (has_fingerprint fp a)) (t_alerts (w_db w')) =
            List.filter (fun a => negb (has_fingerprint fp a)) (t_alerts (w_db w));
  ue_id : aa_ID row = fo_AlertID o;
  ue_open : aa_ResolvedAt row = None;
  ue_dev : dev <> None -> aa_DeviceID row = dev;
  ue_notified : aa_LastNotifiedAt row = (if fo_ShouldNotify o then Some (w_now w)
    else match List.find (has_fingerprint fp) (t_alerts (w_db w)) with
         | Some a => aa_LastNotifiedAt a | None => None end);
  ue_kind : aa_AlertKind row = match List.find (has_fingerprint fp) (t_alerts (w_db w)) with
    | Some a => if unresolved a then aa_AlertKind a else kind | None => kind end;
  ue_due : fo_ShouldNotify o = match List.find (has_fingerprint fp) (t_alerts (w_db w)) with
    | Some a => match aa_ResolvedAt a, aa_LastNotifiedAt a with
                | None, Some u => cd <=? time_sub (w_now w) u
                | _, _ => true end
    | None => true end;
  ue_world : w_faults w' = [] /\ w_now w' = w_now w /\ w_events w' = w_events w /\ w_link w' = w_link w /\
             t_assets (w_db w') = t_assets (w_db w) /\ t_rules (w_db w') = t_rules (w_db w)
}.

Lemma filter_update_fp (p : ActiveAlert -> bool) row l :
  forall fp, aa_Fingerprint row = fp -> (forall b, In b l -> p b = true -> aa_Fingerprint b = fp) ->
  List.filter (fun a => negb (has_fingerprint fp a)) (update_where p (fun _ => row) l) =
  List.filter (fun a => negb (has_fingerprint fp a)) l.
Proof.
  intros fp Hr Hp. induction l as [|b l IH]; [done|]. cbn [update_where map List.filter].
  unfold update_where in *. rewrite IH by (intros; apply Hp; [by right|done]).
  destruct (p b) eqn:E; [|done]. unfold has_fingerprint. rewrite Hr, (Hp b (or_introl eq_refl) E).
  by rewrite String.eqb_refl.
Qed.

(** With unique fingerprints, one row carries the fingerprint a find returns. *)
Lemma filter_unique_fp fp l a : List.NoDup (map aa_Fingerprint l) -> In a l -> aa_Fingerprint a = fp ->
  List.filter (has_fingerprint fp) l = [a].
Proof.
  intros Hn Ha Hfp. induction l as [|b l IH]; [done|]. simpl in *. apply List.NoDup_cons_iff in Hn as [Hb Hn].
  destruct Ha as [->|Ha].
  - unfold has_fingerprint at 1. rewrite Hfp, String.eqb_refl. f_equal.
    assert (H : forall c, In c l -> has_fingerprint fp c = false).
    { intros c Hc. apply String.eqb_neq. intros E. apply Hb. rewrite Hfp, <- E. by apply in_map. }
    by rewrite filter_none.
  - unfold has_fingerprint at 1. destruct (String.eqb_spec (aa_Fingerprint b) fp) as [E|_]; [|by apply IH].
    exfalso. apply Hb. rewrite E, <- Hfp. by apply in_map.
Qed.

Section effect.
Context `{UL : UuidLib} `{!UuidLaws} {L : Type}.
Variables (fp kind : string) (dev rule : option uuid) (sev title msg : string) (details : json).
Notation upsert := (UpsertUnresolvedAlert (L := L) fp kind dev rule sev title msg details).

Lemma upsert_effect_new cd (w : World L) :
  w_faults w = [] -> acceptable (w_db w) fp kind dev rule sev title msg details -> alerts_wf w ->
  List.find (has_fingerprint fp) (t_alerts (w_db w)) = None ->
  exists o row w', upsert cd w = (inr o, w') /\ alerts_wf w' /\ upsert_effect cd fp kind dev rule w w' o row.
Proof.
  intros Hf Hac [Hrows Hfps Hids Hdrawn] Hnone. rewrite upsert_new by done.
  set (row := new_alert _ _ _ _ _ _ _ _ _ _). eexists _, row, _. split; [done|].
  assert (Hno : forall b, In b (t_alerts (w_db w)) -> has_fingerprint fp b = false) by (intros; by eapply find_none).
  assert (Hrok : alert_row_ok (w_db w) row = true).
  { destruct Hac. unfold alert_row_ok, row. rewrite !andb_true_iff, negb_true_iff. split_and!; assumption. }
  split; split; cbn [w_db set_db draw_id t_alerts with_alerts w_next_id fo_AlertID fo_ShouldNotify w_now].
  - intros a [Ha|[<-|[]]]%in_app_or; [exact (Hrows a Ha)|exact Hrok].
  - rewrite map_app. apply List.NoDup_app; [done|by repeat constructor; intros []|].
    intros s Hs [<-|[]]. apply in_map_iff in Hs as (b & Eb & Hb).
    specialize (Hno b Hb). apply String.eqb_neq in Hno. done.
  - rewrite map_app. apply List.NoDup_app; [done|by repeat constructor; intros []|].
    intros s Hs [<-|[]]. apply in_map_iff in Hs as (b & Eb & Hb).
    destruct (Hdrawn b Hb) as (n & Hn & En). rewrite En in Eb. apply gen_random_uuid_inj in Eb. lia.
  - intros a [Ha|[<-|[]]]%in_app_or; [destruct (Hdrawn a Ha) as (n & Hn & En); exists n; split; [lia|done]|].
    exists (w_next_id w). split; [lia|done].
  - rewrite List.filter_app, filter_none by done. cbn [List.filter app].
    change (has_fingerprint fp row) with (String.eqb fp fp). by rewrite String.eqb_refl.
  - rewrite List.filter_app. cbn [List.filter].
    change (has_fingerprint fp row) with (String.eqb fp fp). rewrite String.eqb_refl. by rewrite app_nil_r.
  - done.
  - done.
  - done.
  - done.
  - by rewrite Hnone.
  - by rewrite Hnone.
  - done.
Qed.

Lemma upserted_row_facts t cd s m ti d a r due :
  upserted_row t cd kind dev rule s ti m d a = (r, due) ->
  aa_ID r = aa_ID a /\ aa_Fingerprint r = aa_Fingerprint a /\ aa_ResolvedAt r = None /\
  (dev <> None -> aa_DeviceID r = dev) /\
  aa_LastNotifiedAt r = (if due then Some t else aa_LastNotifiedAt a) /\
  aa_AlertKind r = (if unresolved a then aa_AlertKind a else kind) /\
  due = match aa_ResolvedAt a, aa_LastNotifiedAt a with None, Some u => cd <=? time_sub t u | _, _ => true end.
Proof.
  unfold upserted_row, unresolved, decideNotifyOnOpen. destruct (aa_ResolvedAt a) as [u|] eqn:Er; cbn.
  - intros [= <- <-]. by repeat split.
  - destruct (aa_LastNotifiedAt a) as [u|] eqn:El; [destruct (cd <=? time_sub t u)|]; intros [= <- <-]; cbn;
      repeat split; try done; by destruct dev.
Qed.

Lemma upsert_effect_existing cd (w : World L) a :
  w_faults w = [] -> acceptable (w_db w) fp kind dev rule sev title msg details -> 0 < cd -> alerts_wf w ->
  List.find (has_fingerprint fp) (t_alerts (w_db w)) = Some a ->
  exists o row w', upsert cd w = (inr o, w') /\ alerts_wf w' /\ upsert_effect cd fp kind dev rule w w' o row.
Proof.
  intros Hf Hac Hcd Hwf Hfind. pose proof (upsert_existing _ _ _ _ _ _ _ _ cd w a Hf Hac Hcd Hwf Hfind) as Hup.
  destruct (find_some _ _ Hfind) as [Ha Hfp%String.eqb_eq].
  pose proof (row_ok_upserted _ _ _ _ _ _ _ _ _ (w_now w) cd a Hac (wf_rows w Hwf a Ha)) as [_ Hok].
  destruct (upserted_row _ _ _ _ _ _ _ _ _ a) as [row due] eqn:Eu. simpl in Hok.
  destruct (upserted_row_facts _ _ _ _ _ _ _ _ _ Eu) as (Eid & Efp & Eres & Edev & Eln & Ek & Edue).
  eexists _, row, _. split; [exact Hup|]. clear Hup Eu.
  assert (Hun : forall b, In b (t_alerts (w_db w)) -> is_alert (aa_ID a) b = true -> b = a).
  { intros b Hb1 Hb2%N.eqb_eq. by eapply (unique_id (w_db w)); [apply Hwf|..]. }
  assert (Hcol : map aa_Fingerprint (update_where (is_alert (aa_ID a)) (fun _ => row) (t_alerts (w_db w))) =
                 map aa_Fingerprint (t_alerts (w_db w))).
  { unfold update_where. rewrite map_map. apply map_ext_in. intros b Hb.
    destruct (is_alert (aa_ID a) b) eqn:E; [|done]. by rewrite (Hun b Hb E). }
  split; split; cbn [w_db set_db t_alerts with_alerts w_next_id fo_AlertID fo_ShouldNotify w_now].
  - intros b (c & Hc & ->)%update_where_In. destruct (is_alert _ c); [exact Hok|exact (wf_rows w Hwf c Hc)].
  - rewrite Hcol. apply Hwf.
  - rewrite update_where_column; [apply Hwf|]. intros b Hb%N.eqb_eq. congruence.
  - intros b (c & Hc & ->)%update_where_In. destruct (is_alert _ c); [|exact (wf_drawn w Hwf c Hc)].
    rewrite Eid. exact (wf_drawn w Hwf a Ha).
  - apply filter_unique_fp; [by rewrite Hcol; apply Hwf| |by rewrite Efp].
    unfold update_where. apply in_map_iff. exists a. unfold is_alert. by rewrite N.eqb_refl.
  - apply filter_update_fp; [by rewrite Efp|]. intros b Hb E. by rewrite (Hun b Hb E).
  - done.
  - done.
  - done.
  - by rewrite Hfind.
  - by rewrite Hfind.
  - by rewrite Hfind.
  - done.
Qed.

Lemma upsert_ok cd (w : World L) :
  w_faults w = [] -> acceptable (w_db w) fp kind dev rule sev title msg details -> 0 < cd -> alerts_wf w ->
  exists o row w', upsert cd w = (inr o, w') /\ alerts_wf w' /\ upsert_effect cd fp kind dev rule w w' o row.
Proof.
  intros. destruct (List.find (has_fingerprint fp) (t_alerts (w_db w))) eqn:E;
    [by eapply upsert_effect_existing|by apply upsert_effect_new].
Qed.
End effect.

(** ** The notification cadence

    A storm: the same alert raised again and again, [gap] nanoseconds apart. *)
Section storm.
Context `{UL : UuidLib} `{!UuidLaws} {L : Type}.
Variables (fp kind : string) (dev rule : option uuid) (sev title msg : string) (details : json) (cd : Z).

Fixpoint alert_storm (gaps : list Z) (w : World L) : list (Z * bool) :=
  match gaps with
  | [] => []
  | g :: gs =>
      let w := advance_clock g w in
      match UpsertUnresolvedAlert fp kind dev rule sev title msg details cd w with
      | (inr o, w') => (w_now w, fo_ShouldNotify o) :: alert_storm gs w'
      | (inl _, w') => alert_storm gs w'
      end
  end.

(** After a notification at [u], the next one comes at the first raise that is [cd] later. *)
Fixpoint cadence_from (u : Z) (l : list (Z * bool)) : Prop :=
  match l with
  | [] => True
  | (t, true) :: l => u + cd <= t /\ cadence_from t l
  | (t, false) :: l => t < u + cd /\ cadence_from u l
  end.

Hypothesis Hcd : 0 < cd < 2 ^ 63.

Lemma due_iff t u : cd <=? time_sub t u = (u + cd <=? t).
Proof. unfold time_sub. destruct (Z.leb_spec (u + cd) t); [apply Z.leb_le|apply Z.leb_gt]; lia. Qed.

Lemma acceptable_same db db' : t_assets db' = t_assets db -> t_rules db' = t_rules db ->
  acceptable db fp kind dev rule sev title msg details -> acceptable db' fp kind dev rule sev title msg details.
Proof. intros E1 E2 []. split; try done; by rewrite ?E1, ?E2. Qed.

Lemma wf_clock g (w : World L) : alerts_wf w -> alerts_wf (advance_clock g w).
Proof. by intros []; split. Qed.

Lemma find_one (w : World L) row : List.filter (has_fingerprint fp) (t_alerts (w_db w)) = [row] ->
  List.find (has_fingerprint fp) (t_alerts (w_db w)) = Some row.
Proof.
  intros E. pose proof (filter_In (has_fingerprint fp) row (t_alerts (w_db w))) as Hin. rewrite E in Hin.
  destruct (List.find _ _) as [b|] eqn:F.
  - apply find_some, filter_In in F. rewrite E in F. destruct F as [->|[]]. done.
  - exfalso. destruct Hin as [Hin _]. destruct (Hin (or_introl eq_refl)) as [H1 H2].
    by rewrite (find_none _ _ F row H1) in H2.
Qed.

Lemma storm_from gaps : forall (w : World L) row u,
  w_faults w = [] -> acceptable (w_db w) fp kind dev rule sev title msg details -> alerts_wf w ->
  List.filter (has_fingerprint fp) (t_alerts (w_db w)) = [row] -> aa_ResolvedAt row = None ->
  aa_LastNotifiedAt row = Some u -> cadence_from u (alert_storm gaps w).
Proof.
  induction gaps as [|g gs IH]; intros w row u Hf Hac Hwf Hone Hopen Hln; [done|]. cbn [alert_storm].
  set (w1 := advance_clock g w).
  destruct (upsert_ok fp kind dev rule sev title msg details cd w1) as (o & row' & w2 & E & Hwf2 & Hue);
    [done|done|lia|by apply wf_clock|]. rewrite E.
  assert (Hfind : List.find (has_fingerprint fp) (t_alerts (w_db w1)) = Some row) by (by apply find_one).
  pose proof (ue_world _ _ _ _ _ _ _ _ _ Hue) as (F2 & N2 & _ & _ & A2 & R2).
  pose proof (ue_due _ _ _ _ _ _ _ _ _ Hue) as Hdue. rewrite Hfind, Hopen, Hln, due_iff in Hdue.
  pose proof (ue_notified _ _ _ _ _ _ _ _ _ Hue) as Hn. rewrite Hfind in Hn.
  assert (Hac2 : acceptable (w_db w2) fp kind dev rule sev title msg details) by (by eapply acceptable_same).
  destruct (fo_ShouldNotify o); cbn [cadence_from]; (split; [lia|]);
    (apply (IH w2 row'); [done..|apply Hue|apply Hue|by rewrite Hn, ?Hln]).
Qed.

Lemma storm_length gaps : forall (w : World L),
  w_faults w = [] -> acceptable (w_db w) fp kind dev rule sev title msg details -> alerts_wf w ->
  length (alert_storm gaps w) = length gaps.
Proof.
  induction gaps as [|g gs IH]; intros w Hf Hac Hwf; [done|]. cbn [alert_storm].
  destruct (upsert_ok fp kind dev rule sev title msg details cd (advance_clock g w)) as (o & row & w2 & E & Hwf2 & Hue);
    [done|done|lia|by apply wf_clock|]. rewrite E.
  pose proof (ue_world _ _ _ _ _ _ _ _ _ Hue) as (F2 & _ & _ & _ & A2 & R2).
  simpl. f_equal. apply IH; [done|by eapply acceptable_same|done].
Qed.
End storm.

(** Raising an alert, with no database fault: whatever the table held for the fingerprint,
    afterwards exactly one row carries it and is open, and every other row is as before.  The
    outcome asks for a notification when the row is new, when it had been resolved, and
    otherwise exactly when the last notification is [cd] old or absent. *)
Theorem upsert_functional `{UuidLib} `{!UuidLaws} {L : Type} fp kind dev rule sev title msg details cd (w : World L) :
  w_faults w = [] -> acceptable (w_db w) fp kind dev rule sev title msg details -> 0 < cd -> alerts_wf w ->
  exists o row w', UpsertUnresolvedAlert fp kind dev rule sev title msg details cd w = (inr o, w') /\
    alerts_wf w' /\ upsert_effect cd fp kind dev rule w w' o row.
Proof. apply upsert_ok. Qed.

(** C26: however often and at whatever intervals one alert is raised while it is not resolved,
    the first raise notifies, and after a notification the next is sent at the first raise
    that comes [cd] (an hour, in the engine) or more later: never sooner, never skipped. *)
Theorem notification_cadence `{UuidLib} `{!UuidLaws} {L : Type} fp kind dev rule sev title msg details cd
    g gaps (w : World L) :
  0 < cd < 2 ^ 63 -> w_faults w = [] -> acceptable (w_db w) fp kind dev rule sev title msg details -> alerts_wf w ->
  (forall a, In a (t_alerts (w_db w)) -> aa_Fingerprint a = fp -> aa_ResolvedAt a <> None) ->
  exists t l, alert_storm fp kind dev rule sev title msg details cd (g :: gaps) w = (t, true) :: l /\
    t = w_now w + Z.max 0 g /\ length l = length gaps /\ cadence_from cd t l.
Proof.
  intros Hcd Hf Hac Hwf Hres. cbn [alert_storm]. set (w1 := advance_clock g w).
  destruct (upsert_ok fp kind dev rule sev title msg details cd w1) as (o & row & w2 & E & Hwf2 & Hue);
    [done|done|lia|by apply wf_clock|]. rewrite E.
  assert (Hdue : fo_ShouldNotify o = true).
  { rewrite (ue_due _ _ _ _ _ _ _ _ _ Hue). destruct (List.find _ _) as [a|] eqn:F; [|done].
    apply find_some in F as [Ha Hfp%String.eqb_eq]. specialize (Hres a Ha Hfp). by destruct (aa_ResolvedAt a). }
  pose proof (ue_world _ _ _ _ _ _ _ _ _ Hue) as (F2 & N2 & _ & _ & A2 & R2).
  assert (Hac2 : acceptable (w_db w2) fp kind dev rule sev title msg details) by (by eapply acceptable_same).
  rewrite Hdue. eexists _, _. split; [done|]. split; [done|]. split.
  - apply (storm_length _ _ _ _ _ _ _ _ _ Hcd); done.
  - apply (storm_from _ _ _ _ _ _ _ _ _ Hcd gaps w2 row); try done; [apply Hue|apply Hue|].
    rewrite (ue_notified _ _ _ _ _ _ _ _ _ Hue). by rewrite Hdue.
Qed.
