(* ===== verification/AlertPass.v ===== *)
(** * Alerts: what a pass of the watchdog and a heartbeat achieve

    Properties of [AlertEngine] as a whole: the open watchdog alerts are the silent
    assets, and a heartbeat closes the loop with the incidents. *)

From S2P Require Import Prelude GoStd Float64 Json Ext World Auth DeviceCommands Incidents IncidentsApi.
From S2P Require Import IncidentFacts IncidentAutomation Alerting AlertEngine AlertFacts.

Section fingerprints.
Context `{UL : UuidLib} `{!UuidLaws}.

Lemma bytes_app a b : Str.bytes (a +:+ b) = Str.bytes a ++ Str.bytes b.
Proof. induction a as [|c a IH]; [done|]. unfold Str.bytes in *. simpl. by rewrite IH. Qed.

Lemma builtin_fp_plain id : forallb plain (Str.bytes (builtin_fp id)) = true.
Proof. unfold builtin_fp. rewrite bytes_app, forallb_app, uuid_string_plain. reflexivity. Qed.

Lemma builtin_fp_trim id : Str.trim_space (builtin_fp id) = builtin_fp id.
Proof. apply trim_plain, builtin_fp_plain. Qed.

Lemma builtin_fp_inj i j : builtin_fp i = builtin_fp j -> i = j.
Proof. intros E%Str.append_inj_l. by apply uuid_string_inj. Qed.

End fingerprints.

(** ** The watchdog *)

Definition opened_by (e : event) : option (string * uuid) :=
  match e with OpenIncident fp d _ _ => Some (fp, d) | _ => None end.

Section watchdog.
Context `{JC : JsonCodec} `{UL : UuidLib} `{!UuidLaws} `{GF : GoFmt} `{PG : PgLib} {L : Type}.
Implicit Types w : World L.

Definition seconds_since (t : Z) (last : option Z) : float64 :=
  match last with None => F64.e12 | Some u => duration_seconds (time_sub t u) end.

(** The texts of an asset's watchdog alert can be stored. *)
Definition reportable (t : Z) (r : AssetLastSeenRow) : Prop :=
  text_ok (Str.trim_space (watchdog_title r)) = true /\ text_ok (Str.trim_space (watchdog_body r)) = true /\
  json_has_nul (watchdog_details r (seconds_since t (ls_LastSeen r))) = false.

(** The watchdog's fingerprints belong to its kind of alert. *)
Definition kinds_agree w : Prop := forall a id, In a (t_alerts (w_db w)) ->
  aa_Fingerprint a = builtin_fp id -> aa_AlertKind a = AlertKindBuiltinOffline.

Definition open_alert w (fp : string) : Prop :=
  exists a, In a (t_alerts (w_db w)) /\ aa_Fingerprint a = fp /\ unresolved a = true.

(** What the loop guarantees after the rows it has seen. *)
Record swept (rows : list AssetLastSeenRow) w w' : Prop := {
  sw_faults : w_faults w' = [];
  sw_now : w_now w' = w_now w;
  sw_assets : t_assets (w_db w') = t_assets (w_db w);
  sw_wf : alerts_wf w';
  sw_kinds : kinds_agree w';
  sw_open : forall r, In r rows -> open_alert w' (builtin_fp (ls_ID r));
  sw_rest : forall a, (forall r, In r rows -> aa_Fingerprint a <> builtin_fp (ls_ID r)) ->
    In a (t_alerts (w_db w')) <-> In a (t_alerts (w_db w));
  sw_events : exists evs, w_events w' = w_events w ++ evs /\
    omap opened_by evs = map (fun r => (builtin_fp (ls_ID r), ls_ID r)) rows
}.

Lemma watchdog_acceptable w r :
  In (ls_ID r) (map a_id (t_assets (w_db w))) -> reportable (w_now w) r ->
  acceptable (w_db w) (builtin_fp (ls_ID r)) AlertKindBuiltinOffline (Some (ls_ID r)) None "critical"
    (watchdog_title r) (watchdog_body r) (watchdog_details r (seconds_since (w_now w) (ls_LastSeen r))).
Proof.
  intros Hin (Ht & Hb & Hd). split; try done.
  - apply plain_text_ok, builtin_fp_plain.
  - simpl. apply existsb_exists. apply in_map_iff in Hin as (a & E & Ha). exists a. split; [done|].
    by apply N.eqb_eq.
Qed.

Lemma filter_In_fp (l l' : list ActiveAlert) fp a :
  List.filter (fun a => negb (has_fingerprint fp a)) l' = List.filter (fun a => negb (has_fingerprint fp a)) l ->
  aa_Fingerprint a <> fp -> In a l' <-> In a l.
Proof.
  intros E Hne. assert (Hk : negb (has_fingerprint fp a) = true) by (by apply negb_true_iff, String.eqb_neq).
  assert (Hboth : forall k : list ActiveAlert, In a k <-> In a (List.filter (fun a => negb (has_fingerprint fp a)) k)).
  { intros k. rewrite filter_In. tauto. }
  by rewrite (Hboth l'), (Hboth l), E.
Qed.

Lemma notify_event w ty sev title msg d :
  exists evs, notify ty sev title msg d w = (inr (), MkWorld (w_db w) (w_now w) (w_next_id w) (w_incident_seq w)
    (w_faults w) (w_link w) (w_events w ++ evs)) /\ omap opened_by evs = [].
Proof.
  unfold notify. destruct (_ || _).
  - exists []. rewrite app_nil_r. by destruct w.
  - by exists [Notify ty sev title msg d].
Qed.

(** One silent asset. *)
Lemma watchdog_asset_ok w r desired :
  w_faults w = [] -> alerts_wf w -> kinds_agree w -> reportable (w_now w) r ->
  In (ls_ID r) (map a_id (t_assets (w_db w))) ->
  exists w', watchdog_asset desired r w = (inr ({[builtin_fp (ls_ID r)]} ∪ desired), w') /\ swept [r] w w'.
Proof.
  intros Hf Hwf Hk Hr Hin. unfold watchdog_asset.
  assert (Hs : SecondsSinceLastSeen (ls_LastSeen r) w = (inr (seconds_since (w_now w) (ls_LastSeen r)), w))
    by (by destruct (ls_LastSeen r)).
  rewrite (bind_inr _ _ _ _ _ Hs). cbv zeta.
  destruct (upsert_ok (builtin_fp (ls_ID r)) AlertKindBuiltinOffline (Some (ls_ID r)) None "critical"
    (watchdog_title r) (watchdog_body r) (watchdog_details r (seconds_since (w_now w) (ls_LastSeen r)))
    notifyDedupCooldown w) as (o & row & w1 & E & Hwf1 & Hue); [done|by apply watchdog_acceptable|done|done|].
  rewrite (bind_inr _ _ _ _ _ E). pose proof (ue_world _ _ _ _ _ _ _ _ _ Hue) as (F1 & N1 & Ev1 & _ & A1 & _).
  assert (Hrow : aa_Fingerprint row = builtin_fp (ls_ID r) /\ In row (t_alerts (w_db w1))).
  { assert (Hi : In row [row]) by (by left). rewrite <- (ue_one _ _ _ _ _ _ _ _ _ Hue) in Hi.
    apply filter_In in Hi as [Hi Hfp%String.eqb_eq]. done. }
  assert (Hend : forall evs, omap opened_by evs = [] ->
    swept [r] w (MkWorld (w_db w1) (w_now w1) (w_next_id w1) (w_incident_seq w1) (w_faults w1) (w_link w1)
                   ((w_events w1 ++ evs) ++ [OpenIncident (Str.trim_space (builtin_fp (ls_ID r))) (ls_ID r)
                       (Str.trim_space (watchdog_title r)) (Str.trim_space (watchdog_body r))]))).
  { intros evs Hevs. split; cbn [w_faults w_now w_db w_events]; try done.
    - by destruct Hwf1; split.
    - intros a id Ha Efp. destruct (String.eqb_spec (aa_Fingerprint a) (builtin_fp (ls_ID r))) as [Eq|Ne].
      + assert (Ha' : In a (List.filter (has_fingerprint (builtin_fp (ls_ID r))) (t_alerts (w_db w1)))).
        { apply filter_In. split; [done|]. by apply String.eqb_eq. }
        rewrite (ue_one _ _ _ _ _ _ _ _ _ Hue) in Ha'. destruct Ha' as [<-|[]].
        rewrite (ue_kind _ _ _ _ _ _ _ _ _ Hue). destruct (List.find _ _) as [b|] eqn:Fb; [|done].
        apply find_some in Fb as [Hb Hbf%String.eqb_eq]. destruct (unresolved b); [|done]. by apply (Hk b (ls_ID r)).
      + apply (Hk a id); [|done]. by apply (filter_In_fp _ _ _ _ (ue_rest _ _ _ _ _ _ _ _ _ Hue)).
    - intros r' [<-|[]]. exists row. destruct Hrow. split; [done|]. split; [done|]. unfold unresolved.
      by rewrite (ue_open _ _ _ _ _ _ _ _ _ Hue).
    - intros a Ha. apply (filter_In_fp _ _ (builtin_fp (ls_ID r))); [apply Hue|]. apply Ha. by left.
    - exists (evs ++ [OpenIncident (Str.trim_space (builtin_fp (ls_ID r))) (ls_ID r)
                        (Str.trim_space (watchdog_title r)) (Str.trim_space (watchdog_body r))]).
      rewrite Ev1, <- app_assoc, omap_app, Hevs, builtin_fp_trim. done. }
  destruct (fo_ShouldNotify o).
  - match goal with |- context [notify ?t ?s ?ti ?m ?d] => destruct (notify_event w1 t s ti m d) as (evs & En & Hevs) end.
    rewrite (bind_inr _ _ _ _ _ En). eexists. split; [reflexivity|]. by apply Hend.
  - eexists. split; [reflexivity|]. specialize (Hend [] eq_refl). rewrite app_nil_r in Hend. by destruct w1.
Qed.
End watchdog.

(** ** Deduplication and closing *)

Lemma dedupe_In l : forall set s, In s (dedupe l set) <->
  s ∉ set /\ s <> ""%string /\ exists f, In f l /\ Str.trim_space f = s.
Proof.
  induction l as [|f l IH]; intros set s; [simpl; naive_solver|]. cbn [dedupe].
  destruct (String.eqb_spec (Str.trim_space f) "") as [E|E].
  - rewrite IH. split; [intros (? & ? & g & ? & ?); eauto 6 using in_cons|].
    intros (? & Hs & g & [->|Hg] & Eg); [congruence|eauto].
  - destruct (decide (Str.trim_space f ∈ set)) as [Hi|Hi].
    + rewrite IH. split; [intros (? & ? & g & ? & ?); eauto 6 using in_cons|].
      intros (Hn & Hs & g & [->|Hg] & Eg); [congruence|eauto].
    + simpl. rewrite IH, not_elem_of_union, not_elem_of_singleton. split.
      * intros [<-|((Hn & ?) & Hs & g & Hg & Eg)]; [by split_and!; eauto|]. split_and!; eauto.
      * intros (Hn & Hs & g & [->|Hg] & Eg); [by left|].
        destruct (decide (Str.trim_space f = s)) as [->|Hd]; [by left|]. right. split_and!; eauto.
Qed.

Section close.
Context {L : Type}.

Lemma resolve_where_ok p (w : World L) : w_faults w = [] ->
  resolve_where p w = (inr (returned_fingerprints (List.filter (fun a => unresolved a && p a) (t_alerts (w_db w)))),
    set_db (with_alerts (update_where (fun a => unresolved a && p a) (resolve_row (w_now w)) (t_alerts (w_db w)))
              (w_db w)) w).
Proof. intros Hf. unfold resolve_where. by rewrite exec_ok. Qed.

Lemma resolve_where_ext p q (w : World L) : w_faults w = [] -> (forall a, p a = q a) ->
  resolve_where p w = resolve_where q w.
Proof.
  intros Hf Hpq. rewrite !resolve_where_ok by done. unfold update_where.
  assert (E : forall a, (fun a => unresolved a && p a) a = (fun a => unresolved a && q a) a) by (intros; by rewrite Hpq).
  rewrite (List.filter_ext _ _ E). do 3 f_equal.
  match goal with |- map ?f ?l = map ?g ?l => apply (map_ext f g) | |- with_alerts (map ?f ?l) _ = _ =>
    rewrite (map_ext f (fun a => if unresolved a && q a then resolve_row (w_now w) a else a)); [done|] end.
  intros a. by rewrite Hpq.
Qed.

(** What stays open: alerts of other kinds, and those that are desired. *)
Definition closes (k : string) (desired : gset string) (a : ActiveAlert) : bool :=
  String.eqb (aa_AlertKind a) k && negb (bool_decide (aa_Fingerprint a ∈ desired)).

Lemma close_ok k desired (w : World L) :
  w_faults w = [] -> Str.trim_space k = k -> k <> ""%string ->
  (forall s, s ∈ desired -> Str.trim_space s = s /\ s <> ""%string) ->
  CloseAlertsKindsExceptReturning k desired w = resolve_where (closes k desired) w.
Proof.
  intros Hf Hk Hne Hd. unfold CloseAlertsKindsExceptReturning. rewrite Hk, (proj2 (String.eqb_neq _ _) Hne).
  cbv zeta. set (set := List.filter _ _).
  assert (Hset : forall s, In s set <-> s ∈ desired).
  { intros s. unfold set. rewrite filter_In, in_map_iff. split.
    - intros [(f & <- & Hf') _]. apply list_elem_of_In, elem_of_elements in Hf'.
      by destruct (Hd f Hf') as [-> _].
    - intros Hs. destruct (Hd s Hs) as [E1 E2]. split; [|by apply negb_true_iff, String.eqb_neq].
      exists s. split; [done|]. by apply list_elem_of_In, elem_of_elements. }
  assert (Hone : forall a, one_of (aa_Fingerprint a) set = bool_decide (aa_Fingerprint a ∈ desired)).
  { intros a. unfold one_of. destruct (bool_decide_reflect (aa_Fingerprint a ∈ desired)) as [Hi|Hi].
    - apply existsb_exists. exists (aa_Fingerprint a). split; [by apply Hset|apply String.eqb_refl].
    - destruct (existsb _ _) eqn:E; [|done]. apply existsb_exists in E as (s & Hs & <-%String.eqb_eq).
      by apply Hset in Hs. }
  assert (Hnil : desired = ∅ \/ set = [] -> resolve_where (fun a => String.eqb (aa_AlertKind a) k) w =
                   resolve_where (closes k desired) w).
  { intros Hn. apply resolve_where_ext; [done|]. intros a. unfold closes.
    rewrite bool_decide_eq_false_2; [by rewrite andb_true_r|].
    destruct Hn as [->|E]; [set_solver|]. intros Hi%Hset. by rewrite E in Hi. }
  destruct (decide (desired = ∅)); [auto|]. destruct set eqn:Es; [auto|].
  apply resolve_where_ext; [done|]. intros a. unfold closes. by rewrite Hone.
Qed.
End close.

Section pass.
Context `{JC : JsonCodec} `{UL : UuidLib} `{!UuidLaws} `{GF : GoFmt} `{PG : PgLib} {L : Type}.
Implicit Types w : World L.

Lemma swept_trans rows1 rows2 w w1 w2 :
  swept rows1 w w1 -> swept rows2 w1 w2 -> swept (rows1 ++ rows2) w w2.
Proof.
  intros [] []. split; try done; try congruence.
  - intros r [Hr|Hr]%in_app_or; [|auto]. destruct (sw_open0 r Hr) as (a & Ha & Efp & Hu).
    destruct (existsb (fun r' => String.eqb (builtin_fp (ls_ID r')) (builtin_fp (ls_ID r))) rows2) eqn:E.
    + apply existsb_exists in E as (r' & Hr' & <-%String.eqb_eq). auto.
    + exists a. split; [|done]. apply sw_rest1; [|done]. intros r' Hr' E2.
      assert (existsb (fun r' => String.eqb (builtin_fp (ls_ID r')) (builtin_fp (ls_ID r))) rows2 = true); [|congruence].
      apply existsb_exists. exists r'. split; [done|]. apply String.eqb_eq. congruence.
  - intros a Ha. rewrite sw_rest1, sw_rest0; [done|..]; intros r Hr; apply Ha, in_or_app; auto.
  - destruct sw_events0 as (e1 & E1 & O1), sw_events1 as (e2 & E2 & O2).
    exists (e1 ++ e2). by rewrite E2, E1, <- app_assoc, omap_app, O1, O2, map_app.
Qed.

Lemma swept_nil w : w_faults w = [] -> alerts_wf w -> kinds_agree w -> swept [] w w.
Proof. intros. split; try done. exists []. by rewrite app_nil_r. Qed.

Lemma sweep_ok rows : forall desired w,
  w_faults w = [] -> alerts_wf w -> kinds_agree w ->
  (forall r, In r rows -> reportable (w_now w) r /\ In (ls_ID r) (map a_id (t_assets (w_db w)))) ->
  exists desired' w', for_fold rows desired watchdog_asset w = (inr desired', w') /\ swept rows w w' /\
    (forall s, s ∈ desired' <-> s ∈ desired \/ exists r, In r rows /\ s = builtin_fp (ls_ID r)).
Proof.
  induction rows as [|r rows IH]; intros desired w Hf Hwf Hk Hr.
  - exists desired, w. split; [done|]. split; [by apply swept_nil|]. naive_solver.
  - cbn [for_fold]. destruct (Hr r (or_introl eq_refl)) as [Hrep Hin].
    destruct (watchdog_asset_ok w r desired Hf Hwf Hk Hrep Hin) as (w1 & E1 & S1).
    rewrite (bind_inr _ _ _ _ _ E1).
    destruct (IH ({[builtin_fp (ls_ID r)]} ∪ desired) w1) as (d' & w2 & E2 & S2 & Hd); [apply S1..| |].
    { intros r' Hr'. rewrite (sw_now _ _ _ S1), (sw_assets _ _ _ S1). apply Hr. by right. }
    exists d', w2. split; [done|]. split; [exact (swept_trans [r] rows _ _ _ S1 S2)|].
    intros s. rewrite Hd, elem_of_union, elem_of_singleton. simpl. naive_solver.
Qed.
End pass.

(** ** The pass as a whole *)

Definition silent (t : Z) (a : Asset) : bool := offline_before (t - offlineBuiltinGrace) a.

Definition watchdog_sees `{UuidLib} `{GoFmt} {L} (w : World L) (a : Asset) : Prop :=
  reportable (w_now w) (last_seen_row a).

(** What a pass leaves behind. *)
Record pass_result `{UuidLib} {L} (w w' : World L) : Prop := {
  pr_exact : forall a, In a (t_assets (w_db w)) ->
    open_alert w' (builtin_fp (a_id a)) <-> silent (w_now w) a = true;
  pr_only : forall al, In al (t_alerts (w_db w')) -> aa_AlertKind al = AlertKindBuiltinOffline -> unresolved al = true ->
    exists a, In a (t_assets (w_db w)) /\ silent (w_now w) a = true /\ aa_Fingerprint al = builtin_fp (a_id a);
  pr_others : forall al, aa_AlertKind al <> AlertKindBuiltinOffline ->
    In al (t_alerts (w_db w')) <-> In al (t_alerts (w_db w));
  pr_events : exists evs, w_events w' = w_events w ++ evs /\
    omap opened_by evs = map (fun a => (builtin_fp (a_id a), a_id a))
                             (List.filter (silent (w_now w)) (t_assets (w_db w))) /\
    forall a, In a (t_assets (w_db w)) -> silent (w_now w) a = false -> open_alert w (builtin_fp (a_id a)) ->
      exists fps, In (AlertsResolved fps) evs /\ In (builtin_fp (a_id a)) fps
}.

Section result.
Context `{JC : JsonCodec} `{UL : UuidLib} `{!UuidLaws} `{GF : GoFmt} `{PG : PgLib} {L : Type}.
Implicit Types w : World L.

Lemma asset_unique (l : list Asset) a b : List.NoDup (map a_id l) -> In a l -> In b l -> a_id a = a_id b -> a = b.
Proof.
  intros Hn Ha Hb E. induction l as [|c l IH]; [done|]. simpl in Hn. apply List.NoDup_cons_iff in Hn as [Hc Hn].
  destruct Ha as [->|Ha], Hb as [->|Hb]; [done| | |auto]; exfalso; apply Hc; [rewrite E|rewrite <- E]; by apply in_map.
Qed.

Lemma resolved_In (P : ActiveAlert -> bool) t l al :
  In al (update_where (fun a => unresolved a && P a) (resolve_row t) l) ->
  unresolved al = true -> In al l /\ P al = false.
Proof.
  intros (b & Hb & ->)%update_where_In Hu. destruct (unresolved b) eqn:Eu; simpl in *; [|congruence].
  destruct (P b) eqn:EP; [done|]. done.
Qed.

Lemma closed_other k desired t l al : aa_AlertKind al <> k ->
  In al (update_where (fun a => unresolved a && closes k desired a) (resolve_row t) l) <-> In al l.
Proof.
  intros Hk. split.
  - intros (b & Hb & E)%update_where_In. destruct (unresolved b && closes k desired b) eqn:Ec; [|by subst].
    apply andb_true_iff in Ec as [_ [Ec%String.eqb_eq _]%andb_true_iff]. by subst al.
  - intros Ha. unfold update_where. apply in_map_iff. exists al. split; [|done].
    unfold closes. rewrite (proj2 (String.eqb_neq _ _)) by done. by rewrite andb_false_r.
Qed.

Lemma returned_In rows s : In s (returned_fingerprints rows) <->
  s <> ""%string /\ exists a, In a rows /\ Str.trim_space (aa_Fingerprint a) = s.
Proof.
  unfold returned_fingerprints. rewrite filter_In, in_map_iff, negb_true_iff, String.eqb_neq. naive_solver.
Qed.
End result.

(** After the sweep [w1] and the closing of everything not desired. *)
Section after_sweep.
Context `{JC : JsonCodec} `{UL : UuidLib} `{!UuidLaws} `{GF : GoFmt} `{PG : PgLib} {L : Type}.
Variables (w w1 : World L) (desired : gset string).
Let rows : list AssetLastSeenRow := map last_seen_row (List.filter (silent (w_now w)) (t_assets (w_db w))).
Hypothesis (S1 : swept rows w w1) (Hk : kinds_agree w) (Hids : List.NoDup (map a_id (t_assets (w_db w)))).
Hypothesis Hdes : forall s, s ∈ desired <->
  exists a, In a (t_assets (w_db w)) /\ silent (w_now w) a = true /\ s = builtin_fp (a_id a).
Let closed : list ActiveAlert :=
  update_where (fun a => unresolved a && closes AlertKindBuiltinOffline desired a) (resolve_row (w_now w1))
    (t_alerts (w_db w1)).

Lemma row_of_silent r : In r rows -> exists a, In a (t_assets (w_db w)) /\ silent (w_now w) a = true /\ r = last_seen_row a.
Proof. unfold rows. intros (a & <- & [Ha Hs]%filter_In)%in_map_iff. eauto. Qed.

Lemma not_closed al : In al closed -> unresolved al = true -> aa_AlertKind al = AlertKindBuiltinOffline ->
  In al (t_alerts (w_db w1)) /\ aa_Fingerprint al ∈ desired.
Proof.
  intros Hal Hu Hki. apply resolved_In in Hal as [Hal Hc]; [|done]. split; [done|].
  unfold closes in Hc. rewrite Hki, String.eqb_refl in Hc. by apply negb_false_iff, bool_decide_eq_true in Hc.
Qed.

Lemma exact_after a : In a (t_assets (w_db w)) ->
  (exists al, In al closed /\ aa_Fingerprint al = builtin_fp (a_id a) /\ unresolved al = true) <->
  silent (w_now w) a = true.
Proof.
  intros Ha. split.
  - intros (al & Hal & Hfp & Hu). pose proof (resolved_In _ _ _ _ Hal Hu) as [Hal1 _].
    destruct (not_closed al Hal Hu) as [_ Hd]; [by apply (sw_kinds _ _ _ S1 al (a_id a))|].
    apply Hdes in Hd as (b & Hb & Hs & E). rewrite Hfp in E. apply builtin_fp_inj in E.
    by rewrite (asset_unique _ a b Hids Ha Hb E).
  - intros Hs. destruct (sw_open _ _ _ S1 (last_seen_row a)) as (al & Hal & Hfp & Hu).
    { unfold rows. apply in_map, filter_In. done. }
    exists al. split; [|done]. apply in_map_iff. exists al. split; [|done].
    unfold closes. rewrite bool_decide_eq_true_2; [by rewrite !andb_false_r|].
    rewrite Hfp. apply Hdes. eauto.
Qed.

Lemma others_after al : aa_AlertKind al <> AlertKindBuiltinOffline ->
  In al closed <-> In al (t_alerts (w_db w)).
Proof.
  intros Hki. unfold closed. rewrite closed_other by done.
  assert (Hno : In al (t_alerts (w_db w1)) \/ In al (t_alerts (w_db w)) ->
    forall r, In r rows -> aa_Fingerprint al <> builtin_fp (ls_ID r)).
  { intros [Hal|Hal] r _ E; apply Hki; [by apply (sw_kinds _ _ _ S1 al (ls_ID r))|by apply (Hk al (ls_ID r))]. }
  split; intros Hal; apply (sw_rest _ _ _ S1 al); auto.
Qed.

(** The alert of an asset that came back is among those the closing reports. *)
Lemma came_back a : In a (t_assets (w_db w)) -> silent (w_now w) a = false -> open_alert w (builtin_fp (a_id a)) ->
  In (builtin_fp (a_id a)) (returned_fingerprints
    (List.filter (fun al => unresolved al && closes AlertKindBuiltinOffline desired al) (t_alerts (w_db w1)))).
Proof.
  intros Ha Hs (al & Hal & Hfp & Hu).
  assert (Hne : forall b, In b (t_assets (w_db w)) -> silent (w_now w) b = true -> builtin_fp (a_id a) <> builtin_fp (a_id b)).
  { intros b Hb Hsb E%builtin_fp_inj. by rewrite <- (asset_unique _ a b Hids Ha Hb E), Hs in Hsb. }
  apply returned_In. split; [done|]. exists al. split; [|by rewrite Hfp, builtin_fp_trim].
  apply filter_In. split.
  - apply (sw_rest _ _ _ S1); [|done]. intros r (b & Hb & Hsb & ->)%row_of_silent. rewrite Hfp. by apply Hne.
  - rewrite Hu. unfold closes. rewrite (Hk al (a_id a) Hal Hfp), String.eqb_refl.
    apply negb_true_iff, bool_decide_eq_false. rewrite Hfp. intros (b & Hb & Hsb & E)%Hdes. by apply (Hne b).
Qed.
End after_sweep.

Lemma submit_ok `{UuidLib} {L} fps (w : World L) :
  exists evs, submitResolvedFingerprints fps w = (inr (), MkWorld (w_db w) (w_now w) (w_next_id w)
    (w_incident_seq w) (w_faults w) (w_link w) (w_events w ++ evs)) /\ omap opened_by evs = [] /\
    forall s, In s fps -> Str.trim_space s = s -> s <> ""%string -> exists l, In (AlertsResolved l) evs /\ In s l.
Proof.
  unfold submitResolvedFingerprints. destruct fps as [|f0 fr].
  - exists []. rewrite app_nil_r. by destruct w.
  - exists [AlertsResolved (dedupeFingerprints (f0 :: fr))]. split; [done|]. split; [done|].
    intros s Hs Ht Hn. eexists. split; [by left|]. apply dedupe_In. split; [set_solver|]. eauto.
Qed.

Lemma watchdog_pass_ok `{JsonCodec} `{UuidLib} `{!UuidLaws} `{GoFmt} `{PgLib} {L : Type} (w : World L) :
  w_faults w = [] -> alerts_wf w -> kinds_agree w -> List.NoDup (map a_id (t_assets (w_db w))) ->
  (forall a, In a (t_assets (w_db w)) -> watchdog_sees w a) ->
  exists w', evaluateBuiltinOffline w = (inr (), w') /\ pass_result w w'.
Proof.
  intros Hf Hwf Hk Hids Hsee. unfold evaluateBuiltinOffline, ScanAssetsOfflineBefore.
  set (rows := map last_seen_row (List.filter (silent (w_now w)) (t_assets (w_db w)))).
  destruct (sweep_ok rows ∅ w Hf Hwf Hk) as (desired & w1 & E1 & S1 & Hd).
  { intros r (a & Ha & _ & ->)%row_of_silent. split; [by apply Hsee|]. simpl. by apply in_map. }
  assert (Hdes : forall s, s ∈ desired <->
    exists a, In a (t_assets (w_db w)) /\ silent (w_now w) a = true /\ s = builtin_fp (a_id a)).
  { intros s. rewrite Hd. split.
    - intros [?|(r & (a & Ha & Hs & ->)%row_of_silent & ->)]; [set_solver|]. eauto.
    - intros (a & Ha & Hs & ->). right. exists (last_seen_row a). split; [|done]. by apply in_map, filter_In. }
  erewrite bind_inr by reflexivity. erewrite bind_inr by (unfold wrap; rewrite select_ok by done; reflexivity).
  fold rows. rewrite (bind_inr _ _ _ _ _ E1).
  assert (Hclose : CloseAlertsKindsExceptReturning AlertKindBuiltinOffline desired w1 =
                   resolve_where (closes AlertKindBuiltinOffline desired) w1).
  { apply close_ok; [apply S1|done|done|]. intros s (a & _ & _ & ->)%Hdes. by rewrite builtin_fp_trim. }
  rewrite resolve_where_ok in Hclose by apply S1. rewrite (bind_inr _ _ _ _ _ Hclose).
  match goal with |- context [submitResolvedFingerprints ?f ?v] =>
    destruct (submit_ok f v) as (evs & -> & Hopen & Hres) end.
  eexists. split; [done|]. split; cbn [w_db w_events set_db t_alerts with_alerts].
  - apply (exact_after w w1 desired S1 Hids Hdes).
  - intros al Hal Hki Hu. by apply Hdes, (not_closed w1 desired al).
  - apply (others_after w w1 desired S1 Hk).
  - destruct (sw_events _ _ _ S1) as (e1 & Ev & Ho). exists (e1 ++ evs). split; [by rewrite Ev, app_assoc|]. split.
    + rewrite omap_app, Ho, Hopen, app_nil_r. unfold rows. by rewrite map_map.
    + intros a Ha Hs Hop. destruct (Hres (builtin_fp (a_id a))) as (l & Hl & Hi);
        [by apply (came_back w w1 desired S1 Hk Hids Hdes)|apply builtin_fp_trim|done|].
      exists l. split; [apply in_or_app; auto|done].
Qed.

(** C1: with no database fault, a pass of the watchdog succeeds and is exact: of the watchdog's
    alerts, the open ones afterwards are those of the assets silent for more than five minutes,
    no more and no fewer (alerts of deleted assets are closed too); alerts of rules are not
    touched.  An incident is requested for every silent asset, and for every asset that came
    back the fingerprint of its alert is reported as resolved. *)
Theorem watchdog_pass_exact `{JsonCodec} `{UuidLib} `{!UuidLaws} `{GoFmt} `{PgLib} {L : Type} (w : World L) :
  w_faults w = [] -> alerts_wf w -> kinds_agree w -> List.NoDup (map a_id (t_assets (w_db w))) ->
  (forall a, In a (t_assets (w_db w)) -> watchdog_sees w a) ->
  exists w', evaluateBuiltinOffline w = (inr (), w') /\ pass_result w w'.
Proof. apply watchdog_pass_ok. Qed.

(** ** A heartbeat *)

Definition offline_of (dev : uuid) (a : ActiveAlert) : bool :=
  of_device dev a && one_of (aa_AlertKind a) ["builtin_offline"; "rule_offline"]%string.

Definition run_tasks `{JsonCodec} `{UuidLib} `{GoFmt} {L} (tasks : list event) (w : World L) : World L :=
  (for_each tasks run_task w).2.

(** The tasks an operation hands to goroutines. *)
Definition new_events {L} (w w' : World L) : list event := skipn (length (w_events w)) (w_events w').

Section heartbeat.
Context `{JC : JsonCodec} `{UL : UuidLib} `{GF : GoFmt} {L : Type}.
Implicit Types w : World L.

Lemma heartbeat_ok dev w : w_faults w = [] -> dev <> uuid_nil ->
  let fps := returned_fingerprints (List.filter (fun a => unresolved a && offline_of dev a) (t_alerts (w_db w))) in
  let w1 := set_db (with_alerts (update_where (fun a => unresolved a && offline_of dev a) (resolve_row (w_now w))
                                   (t_alerts (w_db w))) (w_db w)) w in
  OnHeartbeat dev w = (inr (), match fps with [] => w1 | _ => add_event (AlertsResolved (dedupeFingerprints fps)) w1 end).
Proof.
  intros Hf Hd. cbv zeta. unfold OnHeartbeat, ResolveActiveAlertsKindsForDeviceReturning.
  rewrite (proj2 (N.eqb_neq _ _) Hd). unfold mbind, go_bind, attempt. rewrite resolve_where_ok by done.
  change (fun a => unresolved a && (of_device dev a && one_of (aa_AlertKind a) ["builtin_offline"; "rule_offline"]%string))
    with (fun a => unresolved a && offline_of dev a).
  by destruct (returned_fingerprints _).
Qed.
End heartbeat.

(** A heartbeat, with no database fault, resolves every open offline alert of the device --
    the watchdog's and the rules' -- and touches no other alert; and once the task it hands out
    has run, every open incident raised by one of those alerts is resolved. *)
Theorem heartbeat_closes_the_loop `{JsonCodec} `{UuidLib} `{GoFmt} {L : Type} dev (w : World L) :
  w_faults w = [] -> dev <> uuid_nil ->
  (forall al, In al (t_alerts (w_db w)) -> offline_of dev al = true ->
     Str.trim_space (aa_Fingerprint al) <> ""%string /\ storable_fp (w_now w) (Str.trim_space (aa_Fingerprint al))) ->
  let w1 := (OnHeartbeat dev w).2 in
  let w2 := run_tasks (new_events w w1) w1 in
  Forall2 (fun al al' => if unresolved al && offline_of dev al then al' = resolve_row (w_now w) al else al' = al)
    (t_alerts (w_db w)) (t_alerts (w_db w1)) /\
  Forall2 (fun i j =>
      forall al, In al (t_alerts (w_db w)) -> unresolved al = true -> offline_of dev al = true ->
        in_source_alert_fingerprint i = Some (Str.trim_space (aa_Fingerprint al)) ->
        existsb (String.eqb (in_state i)) open_states = true ->
        identity j = identity i /\ in_state j = "resolved"%string)
    (t_incidents (w_db w)) (t_incidents (w_db w2)).
Proof.
  intros Hf Hd Hst w1 w2. unfold w2, w1, run_tasks, new_events. clear w1 w2. rewrite heartbeat_ok by done. cbv zeta.
  set (fps := returned_fingerprints _). set (v := set_db _ w).
  assert (Hfps : forall al, In al (t_alerts (w_db w)) -> unresolved al = true -> offline_of dev al = true ->
    In (Str.trim_space (aa_Fingerprint al)) fps).
  { intros al Hal Hu Ho. apply returned_In. split; [by apply Hst|]. exists al. split; [|done].
    apply filter_In. by rewrite Hu, Ho. }
  split.
  - assert (Et : t_alerts (w_db (inr () : err + (), match fps with [] => v
      | _ => add_event (AlertsResolved (dedupeFingerprints fps)) v end).2) = t_alerts (w_db v)) by (by destruct fps).
    rewrite Et. unfold v. simpl. clear. induction (t_alerts (w_db w)) as [|al l IH]; simpl; constructor; [|done].
    by destruct (unresolved al && offline_of dev al).
  - destruct fps as [|f0 fr] eqn:Ef.
    + simpl. rewrite skipn_all. simpl. apply Forall_Forall2_diag, List.Forall_forall. intros i _ al Hal Hu Ho.
      exfalso. by apply (Hfps al Hal Hu Ho).
    + cbn [snd add_event w_events]. change (w_events v) with (w_events w). rewrite skipn_app, skipn_all, Nat.sub_diag.
      cbn [skipn app for_each]. unfold mbind, go_bind, run_task.
      rewrite <- Ef in *. set (d := dedupeFingerprints fps). set (u := add_event (AlertsResolved d) v).
      assert (Hall : Forall (storable_fp (w_now u)) d).
      { apply List.Forall_forall. intros s Hs. apply dedupe_In in Hs as (_ & Hne & f & Hf' & <-).
        apply returned_In in Hf' as (_ & al & [Hal Hc]%filter_In & <-). apply andb_true_iff in Hc as [_ Ho].
        rewrite Str.trim_space_idem. by apply Hst. }
      pose proof (recovery_exact u d Hf Hall) as Hrec.
      destruct (OnAlertFingerprintsResolved d u) as [r w'] eqn:Er. simpl in Hrec.
      assert (r = inr ()) as -> by (unfold OnAlertFingerprintsResolved, mbind, go_bind, attempt in Er;
        destruct d; [by injection Er|]; destruct (AutoResolveIncidentsForAlertFingerprints _ u); by injection Er).
      cbn [fst snd mret go_ret]. change (t_incidents (w_db u)) with (t_incidents (w_db w)) in Hrec.
      eapply Forall2_impl; [exact Hrec|]. intros i j Hij al Hal Hu Ho Hfp Hstate.
      unfold recovery_of in Hij. rewrite Hfp in Hij.
      assert (existsb (fun f => String.eqb (Str.trim_space f) (Str.trim_space (aa_Fingerprint al))) d = true) as Hex.
      { apply existsb_exists. exists (Str.trim_space (aa_Fingerprint al)). rewrite Str.trim_space_idem, String.eqb_refl.
        split; [|done]. apply dedupe_In. split; [set_solver|]. split; [by apply Hst|].
        exists (Str.trim_space (aa_Fingerprint al)). rewrite Str.trim_space_idem. auto. }
      rewrite Hex, (proj2 (String.eqb_neq _ _)) in Hij by (by apply Hst).
      assert (String.eqb (in_state i) "closed" = false) as Hnc.
      { destruct (String.eqb_spec (in_state i) "closed") as [E|]; [|done]. by rewrite E in Hstate. }
      rewrite Hnc, Hstate in Hij. cbn [negb andb] in Hij. tauto.
Qed.
