(* ===== verification/Enrollment.v ===== *)
(** * Agent enrollment (internal/auth/enrollment_*.go, internal/api/enroll.go)

    An agent presents a one-time token and a certificate request; the server claims the
    token, signs, and answers, or gives the claim back.  Decoding and checking a
    certificate request, hashing the token and signing ([pki.Authority]) are
    cryptography: [CsrLib] and the outcome of the signing are parameters. *)

From S2P Require Import Prelude GoStd Float64 Json Ext World Auth.

(** crypto/x509, encoding/pem and SHA-256: what the code asks of them. *)
Class CsrLib := {
  csr : Type;
  parse_csr_pem : string -> option csr;      (* ParseCertificateRequestPEM *)
  csr_signature_ok : csr -> bool;            (* CertificateRequest.CheckSignature *)
  csr_dns_names : csr -> list string;
  csr_common_name : csr -> string;
  sha256_hex : string -> string
}.

Definition ErrEnrollmentTokenInvalid : err := ErrVar "auth: invalid, expired, or already used enrollment token".
Definition ErrEnrollmentCSRInvalid : err := ErrVar "auth: invalid certificate signing request".
Definition ErrEnrollmentSignEmpty : err := ErrVar "auth: empty certificate sign response".

(** pki.IssueClientCertificateResult; [None] is a nil pointer. *)
Record IssueClientCertificateResult := { ic_ClientChainPEM : string; ic_RootCAPEM : string }.
Record EnrollAPIResponse := { ea_ClientCert : string; ea_RootCA : string }.
Record EnrollOutcome := { eo_Response : EnrollAPIResponse; eo_TokenID : uuid }.
Record ClaimedEnrollmentToken := { ct_ID : uuid; ct_AssetID : option uuid }.

(** The result of IssueClientCertificate for one request: the signature uses randomness, so it
    is a value of the attempt and not a function of the request. *)
Definition signing : Type := err + option IssueClientCertificateResult.

Definition BuildEnrollAPIResponse (res : option IssueClientCertificateResult) : err + EnrollAPIResponse :=
  match res with
  | None => inl ErrEnrollmentSignEmpty
  | Some res =>
      if String.eqb (Str.trim_space (ic_ClientChainPEM res)) "" || String.eqb (Str.trim_space (ic_RootCAPEM res)) ""
      then inl (ErrMsg "auth: enrollment signing result missing PEM material")
      else inr {| ea_ClientCert := ic_ClientChainPEM res; ea_RootCA := ic_RootCAPEM res |}
  end.

Section csr.
Context `{CsrLib}.

Definition HostnameFromCSR (cr : csr) : string :=
  match csr_dns_names cr with
  | n :: _ => Str.trim_space n
  | [] => Str.trim_space (csr_common_name cr)
  end.

Definition ValidateCSRPEM (pem : string) : option err :=
  match parse_csr_pem pem with
  | None => Some (ErrWrap "" ErrEnrollmentCSRInvalid)
  | Some cr => if csr_signature_ok cr then None else Some (ErrWrap "" ErrEnrollmentCSRInvalid)
  end.

Definition EnrollmentPresentationHash (secret : string) : string := sha256_hex secret.
End csr.

(** ** The store (enrollment_store.go) *)

Definition claimable (hash : string) (now : Z) (t : EnrollmentToken) : bool :=
  String.eqb (et_token_hash t) hash && negb (et_is_used t) && (now <? et_expires_at t).

Definition mark_used (now : Z) (t : EnrollmentToken) : EnrollmentToken :=
  {| et_id := et_id t; et_token_hash := et_token_hash t; et_asset_id := et_asset_id t;
     et_expires_at := et_expires_at t; et_is_used := true; et_used_at := Some now |}.

Definition mark_unused (t : EnrollmentToken) : EnrollmentToken :=
  {| et_id := et_id t; et_token_hash := et_token_hash t; et_asset_id := et_asset_id t;
     et_expires_at := et_expires_at t; et_is_used := false; et_used_at := None |}.

Definition releasable (id : uuid) (t : EnrollmentToken) : bool := N.eqb (et_id t) id && et_is_used t.

Section store.
Context {L : Type}.

Definition EnrollmentTokenUnusedValid (hash : string) : go L bool :=
  wrap "auth: check enrollment token" (select (fun db now => inr (existsb (claimable hash now) (t_tokens db)))).

(** UPDATE ... RETURNING; token_hash is UNIQUE, so at most one row. *)
Definition ClaimByPresentationHash (hash : string) : go L ClaimedEnrollmentToken :=
  r ← attempt (exec (fun db now =>
    match List.find (claimable hash now) (t_tokens db) with
    | None => inl ErrNoRows
    | Some t => inr ({| ct_ID := et_id t; ct_AssetID := et_asset_id t |},
                     with_tokens (update_where (claimable hash now) (mark_used now) (t_tokens db)) db)
    end));
  match r with
  | inr c => mret c
  | inl e => if is_no_rows e then fail ErrEnrollmentTokenInvalid
             else fail (ErrWrap "auth: claim enrollment token" e)
  end.

Definition ReleaseClaim (id : uuid) : go L () :=
  n ← wrap "auth: release enrollment token claim" (exec (fun db _ =>
    inr (count_where (releasable id) (t_tokens db),
         with_tokens (update_where (releasable id) mark_unused (t_tokens db)) db)));
  if Nat.eqb n 1 then mret () else fail (ErrMsg "auth: release enrollment token claim: expected 1 row updated").
End store.

(** ** The coordinator (enrollment_service.go) *)
Section coordinator.
Context `{CSR : CsrLib} {L : Type}.

(** After a failed signing or an unusable result: give the claim back. *)
Definition give_back (prefix : string) (id : uuid) (e : err) : go L EnrollOutcome :=
  rel ← attempt (ReleaseClaim id);
  fail (ErrWrap prefix e).

(** From the signing on. *)
Definition finish_enroll (claimed : ClaimedEnrollmentToken) (signed : signing) : go L EnrollOutcome :=
  match signed with
  | inl e => give_back "auth: embedded ca sign failed" (ct_ID claimed) e
  | inr res =>
      match BuildEnrollAPIResponse res with
      | inl e => give_back "auth: build enroll response" (ct_ID claimed) e
      | inr resp => mret {| eo_Response := resp; eo_TokenID := ct_ID claimed |}
      end
  end.

(** [issue assetID hostname cr] is what the signing of this request comes to. *)
Definition ProcessEnroll (presentationSecret csrPEM : string) (issue : uuid -> string -> csr -> signing)
    : go L EnrollOutcome :=
  let secret := Str.trim_space presentationSecret in
  let pem := Str.trim_space csrPEM in
  if String.eqb secret "" || String.eqb pem ""
  then fail (ErrMsg "auth: presentation token and CSR are required") else
  match ValidateCSRPEM pem with
  | Some e => fail e
  | None =>
  match parse_csr_pem pem with
  | None => fail (ErrWrap "" ErrEnrollmentCSRInvalid)
  | Some cr =>
      let hostname := HostnameFromCSR cr in
      if String.eqb hostname "" then fail (ErrWrap "" ErrEnrollmentCSRInvalid) else
      claimed ← ClaimByPresentationHash (EnrollmentPresentationHash secret);
      finish_enroll claimed (issue (default uuid_nil (ct_AssetID claimed)) hostname cr)
  end end.

Definition MapProcessEnrollHTTP (e : err) : Z * string :=
  if err_is e (err_text ErrEnrollmentTokenInvalid) then (401, "invalid or expired enrollment token"%string)
  else if err_is e (err_text ErrEnrollmentCSRInvalid) then (400, "invalid certificate signing request"%string)
  else if err_is e (err_text ErrEnrollmentSignEmpty) then (502, "certificate authority returned an empty response"%string)
  else (502, "enrollment failed"%string).
End coordinator.

(** ** Routes (api/enroll.go) *)
Section routes.
Context `{JC : JsonCodec} `{CSR : CsrLib} `{UL : UuidLib} `{JL : JwtLib} `{EV : Environ} {L : Type}.

Definition handlePublicEnroll (r : Request) (issue : uuid -> string -> csr -> signing) : go L Response :=
  match read_body (2 ^ 20) r with
  | None => mret (writeTicketsError 400 "could not read request body")
  | Some body =>
  match (m ← unmarshal_map body; c ← dec_string "" (field "csr" m); t ← dec_string "" (field "token" m);
         Some (c, t)) with
  | None => mret (writeTicketsError 400 "invalid JSON body")
  | Some (c, t) =>
      if String.eqb (Str.trim_space t) "" || String.eqb (Str.trim_space c) ""
      then mret (writeTicketsError 400 "csr and token are required") else
      res ← attempt (ProcessEnroll t c issue);
      mret match res with
           | inl e => let '(status, msg) := MapProcessEnrollHTTP e in writeTicketsError status msg
           | inr o => writeTicketsJSON 201 (JObj (jmap [("client_cert", jstr (ea_ClientCert (eo_Response o)));
                                                        ("root_ca", jstr (ea_RootCA (eo_Response o)))]%string))
           end
  end end.

Record androidQRRequest := {
  qr_EnrollmentToken : string; qr_ServerURL : string; qr_Component : string; qr_Checksum : string
}.

Definition decode_qr (body : string) : option androidQRRequest :=
  m ← unmarshal_map body;
  t ← dec_string "" (field "enrollment_token" m);
  u ← dec_string "" (field "server_url" m);
  c ← dec_string "" (field "device_admin_component_name" m);
  s ← dec_string "" (field "device_admin_signature_checksum" m);
  Some {| qr_EnrollmentToken := t; qr_ServerURL := u; qr_Component := c; qr_Checksum := s |}.

Definition handleAndroidEnrollmentQR (origins : list string) (r : Request) : go L Response :=
  let? _ := require_method "POST" r in
  let? _ := RequireMinRole origins r RoleOperator in
  match read_body (64 * 1024) r with
  | None => mret (writeTicketsError 400 "could not read request body")
  | Some body =>
  match decode_qr body with
  | None => mret (writeTicketsError 400 "invalid JSON body")
  | Some req =>
      let token := Str.trim_space (qr_EnrollmentToken req) in
      if String.eqb token "" then mret (writeTicketsError 400 "enrollment_token is required") else
      valid ← attempt (EnrollmentTokenUnusedValid (EnrollmentPresentationHash token));
      match valid with
      | inl _ => mret (writeTicketsError 500 "failed to validate enrollment token")
      | inr false => mret (writeTicketsError 400 "enrollment token is unknown, expired, or already used")
      | inr true =>
          let serverURL := Str.trim_space (qr_ServerURL req) in
          let serverURL := if String.eqb serverURL "" then Str.trim_space (getenv "ARX_MDM_PUBLIC_BASE_URL") else serverURL in
          if String.eqb serverURL ""
          then mret (writeTicketsError 400 "server_url is required (or set ARX_MDM_PUBLIC_BASE_URL)") else
          let comp := Str.trim_space (qr_Component req) in
          let comp := if String.eqb comp "" then "com.arx.mdm/com.arx.mdm.ArxDeviceAdminReceiver"%string else comp in
          let sig := Str.trim_space (qr_Checksum req) in
          if String.eqb sig ""
          then mret (writeTicketsError 400 "device_admin_signature_checksum is required (SHA-256 of the DPC signing certificate per Android device owner provisioning)") else
          mret (writeTicketsJSON 200 (JObj (jmap [
            ("android.app.extra.PROVISIONING_DEVICE_ADMIN_COMPONENT_NAME", jstr comp);
            ("android.app.extra.PROVISIONING_DEVICE_ADMIN_SIGNATURE_CHECKSUM", jstr sig);
            ("android.app.extra.PROVISIONING_ADMIN_EXTRAS_BUNDLE",
               JObj (jmap [("com.arx.mdm.EXTRA_SERVER_URL", jstr serverURL);
                           ("com.arx.mdm.EXTRA_ENROLLMENT_TOKEN", jstr token)]))]%string)))
      end
  end end.
End routes.

(** ** Enrollments in flight

    Requests run concurrently; between its claim and its end a request holds a claimed token. *)

Record Enrolling (L : Type) := {
  n_world : World L;
  n_holding : list ClaimedEnrollmentToken;
  n_enrolled : list uuid          (* tokens answered with a certificate *)
}.
Arguments n_world {L}.
Arguments n_holding {L}.
Arguments n_enrolled {L}.

Inductive enroll_step {L} : Enrolling L -> Enrolling L -> Prop :=
| step_claim (n : Enrolling L) hash r w :
    ClaimByPresentationHash hash (n_world n) = (r, w) ->
    enroll_step n {| n_world := w;
                     n_holding := match r with inr c => n_holding n ++ [c] | inl _ => n_holding n end;
                     n_enrolled := n_enrolled n |}
| step_finish (n : Enrolling L) pre c post signed r w :
    n_holding n = pre ++ c :: post -> finish_enroll c signed (n_world n) = (r, w) ->
    enroll_step n {| n_world := w; n_holding := pre ++ post;
                     n_enrolled := match r with inr o => n_enrolled n ++ [eo_TokenID o] | inl _ => n_enrolled n end |}
| step_time (n : Enrolling L) d :
    enroll_step n {| n_world := advance_clock d (n_world n); n_holding := n_holding n; n_enrolled := n_enrolled n |}.

Inductive enrolls {L} (n : Enrolling L) : Enrolling L -> Prop :=
| enrolls_refl : enrolls n n
| enrolls_step m m' : enrolls n m -> enroll_step m m' -> enrolls n m'.
