(* ===== verification/EnrollmentFacts.v ===== *)
(** * Enrollment: a token enrolls one device, and a failure costs nothing

    Properties of [Enrollment]. *)

From S2P Require Import Prelude GoStd Float64 Json Ext World Auth Enrollment.

Definition tokens_unique (db : Tables) : Prop :=
  List.NoDup (map et_id (t_tokens db)) /\ List.NoDup (map et_token_hash (t_tokens db)).

(** A token that is not used has no time of use. *)
Definition tokens_clean (db : Tables) : Prop :=
  forall t, In t (t_tokens db) -> et_is_used t = false -> et_used_at t = None.

Definition used_in (db : Tables) (id : uuid) : Prop :=
  forall t, In t (t_tokens db) -> et_id t = id -> et_is_used t = true.

Lemma token_by_id (l : list EnrollmentToken) t u : List.NoDup (map et_id l) -> In t l -> In u l -> et_id t = et_id u -> t = u.
Proof.
  intros Hn Ht Hu E. induction l as [|c l IH]; [done|]. simpl in Hn. apply List.NoDup_cons_iff in Hn as [Hc Hn].
  destruct Ht as [->|Ht], Hu as [->|Hu]; [done| | |auto]; exfalso; apply Hc; [rewrite E|rewrite <- E]; by apply in_map.
Qed.

Lemma token_by_hash (l : list EnrollmentToken) t u :
  List.NoDup (map et_token_hash l) -> In t l -> In u l -> et_token_hash t = et_token_hash u -> t = u.
Proof.
  intros Hn Ht Hu E. induction l as [|c l IH]; [done|]. simpl in Hn. apply List.NoDup_cons_iff in Hn as [Hc Hn].
  destruct Ht as [->|Ht], Hu as [->|Hu]; [done| | |auto]; exfalso; apply Hc; [rewrite E|rewrite <- E]; by apply in_map.
Qed.

Section steps.
Context {L : Type}.
Implicit Types w : World L.

(** A claim either changes no token or marks one, unused until then. *)
Lemma claim_cases hash w r w' : ClaimByPresentationHash hash w = (r, w') ->
  match r with
  | inl _ => t_tokens (w_db w') = t_tokens (w_db w)
  | inr c => exists t, In t (t_tokens (w_db w)) /\ claimable hash (w_now w) t = true /\
               c = {| ct_ID := et_id t; ct_AssetID := et_asset_id t |} /\
               t_tokens (w_db w') = update_where (claimable hash (w_now w)) (mark_used (w_now w)) (t_tokens (w_db w))
  end.
Proof.
  unfold ClaimByPresentationHash, mbind, go_bind, attempt.
  match goal with |- context [exec ?q w] => destruct (exec q w) as [[e|c] w1] eqn:E end.
  - apply exec_inl in E. destruct (is_no_rows e); intros [= <- <-]; by rewrite E.
  - apply exec_inr in E. destruct (List.find _ _) as [t|] eqn:F; [|done]. injection E as Ec Edb.
    apply find_some in F as [Ht Hcl]. intros [= <- <-]. exists t. by rewrite <- Edb.
Qed.

Lemma release_cases id w r w' : ReleaseClaim id w = (r, w') ->
  t_tokens (w_db w') = t_tokens (w_db w) \/
  t_tokens (w_db w') = update_where (releasable id) mark_unused (t_tokens (w_db w)).
Proof.
  unfold ReleaseClaim, mbind, go_bind, wrap.
  match goal with |- context [exec ?q w] => destruct (exec q w) as [[e|n] w1] eqn:E end.
  - apply exec_inl in E. intros [= _ <-]. left. by rewrite E.
  - apply exec_inr in E. injection E as _ Edb. right.
    assert (w' = w1) as -> by (by destruct (Nat.eqb n 1); injection H). by rewrite <- Edb.
Qed.

Lemma finish_cases c signed w r w' : finish_enroll c signed w = (r, w') ->
  match r with
  | inr o => eo_TokenID o = ct_ID c /\ w' = w
  | inl _ => t_tokens (w_db w') = t_tokens (w_db w) \/
             t_tokens (w_db w') = update_where (releasable (ct_ID c)) mark_unused (t_tokens (w_db w))
  end.
Proof.
  unfold finish_enroll.
  assert (Hg : forall p e, give_back p (ct_ID c) e w = (r, w') ->
    match r with inr _ => False | inl _ =>
      t_tokens (w_db w') = t_tokens (w_db w) \/
      t_tokens (w_db w') = update_where (releasable (ct_ID c)) mark_unused (t_tokens (w_db w)) end).
  { intros p e. unfold give_back, mbind, go_bind, attempt, fail. destruct (ReleaseClaim (ct_ID c) w) as [x w1] eqn:E.
    intros [= <- <-]. by eapply release_cases. }
  destruct signed as [e|res]; [intros Hx%Hg; by destruct r|].
  destruct (BuildEnrollAPIResponse res) as [e|resp]; [intros Hx%Hg; by destruct r|].
  by intros [= <- <-].
Qed.

(** ** What runs in flight keep *)

Definition held (n : Enrolling L) : list uuid := map ct_ID (n_holding n) ++ n_enrolled n.

Definition enroll_inv (n : Enrolling L) : Prop :=
  tokens_unique (w_db (n_world n)) /\ List.NoDup (held n) /\
  (forall id, In id (held n) -> used_in (w_db (n_world n)) id).

Lemma unique_update p f db : (forall t, et_id (f t) = et_id t /\ et_token_hash (f t) = et_token_hash t) ->
  forall db', t_tokens db' = update_where p f (t_tokens db) -> tokens_unique db -> tokens_unique db'.
Proof.
  intros Hf db' E [H1 H2]. unfold tokens_unique. rewrite E.
  split; (rewrite update_where_column; [done|]); intros t _; apply Hf.
Qed.

Lemma inv_claim n hash r w : enroll_inv n -> ClaimByPresentationHash hash (n_world n) = (r, w) ->
  enroll_inv {| n_world := w; n_holding := match r with inr c => n_holding n ++ [c] | inl _ => n_holding n end;
                n_enrolled := n_enrolled n |}.
Proof.
  intros (Hu & Hnd & Hused) E%claim_cases. destruct r as [e|c].
  - unfold enroll_inv, tokens_unique, used_in in *. cbn [n_world]. rewrite E. done.
  - destruct E as (t & Ht & Hcl & -> & E). unfold enroll_inv. cbn [n_world].
    assert (Hfree : ~ In (et_id t) (held n)).
    { intros Hi. specialize (Hused _ Hi t Ht eq_refl). unfold claimable in Hcl. rewrite Hused in Hcl.
      by rewrite andb_false_r in Hcl. }
    assert (Hin : forall id, In id (held {| n_world := w; n_holding := n_holding n ++ [{| ct_ID := et_id t; ct_AssetID := et_asset_id t |}];
              n_enrolled := n_enrolled n |}) -> id = et_id t \/ In id (held n)).
    { unfold held. simpl. intros id. rewrite map_app, !in_app_iff. simpl. intuition. }
    split; [by (eapply unique_update; [|exact E|])|]. split.
    + unfold held in *. simpl. rewrite map_app, <- app_assoc. simpl. apply NoDup_ListNoDup in Hnd.
      apply NoDup_ListNoDup. rewrite <- Permutation_middle. apply NoDup_cons. by rewrite list_elem_of_In.
    + intros id Hid u Hu' <-. rewrite E in Hu'. apply update_where_In in Hu' as (v & Hv & ->).
      destruct (claimable hash (w_now (n_world n)) v) eqn:Ecl; [done|].
      destruct (Hin _ Hid) as [Eid|Hold]; [|by apply (Hused _ Hold v Hv)].
      assert (v = t) as -> by (by apply (token_by_id (t_tokens (w_db (n_world n)))); [apply Hu|..]). congruence.
Qed.

Lemma inv_finish n pre c post signed r w : enroll_inv n -> n_holding n = pre ++ c :: post ->
  finish_enroll c signed (n_world n) = (r, w) ->
  enroll_inv {| n_world := w; n_holding := pre ++ post;
                n_enrolled := match r with inr o => n_enrolled n ++ [eo_TokenID o] | inl _ => n_enrolled n end |}.
Proof.
  intros (Hu & Hnd & Hused) Eh E%finish_cases. unfold held in Hnd, Hused. rewrite Eh, map_app in Hnd, Hused. simpl in Hnd, Hused.
  apply NoDup_ListNoDup in Hnd.
  assert (Hperm : (map ct_ID pre ++ ct_ID c :: map ct_ID post) ++ n_enrolled n ≡ₚ
                  ct_ID c :: (map ct_ID (pre ++ post) ++ n_enrolled n)).
  { rewrite map_app, <- Permutation_middle. done. }
  rewrite Hperm in Hnd. apply NoDup_cons in Hnd as [Hc Hnd].
  assert (Hall : forall id, In id (ct_ID c :: (map ct_ID (pre ++ post) ++ n_enrolled n)) -> used_in (w_db (n_world n)) id).
  { intros id Hi. apply Hused. apply list_elem_of_In. rewrite Hperm. by apply list_elem_of_In. }
  destruct r as [e|o].
  - unfold enroll_inv, held. cbn [n_world n_holding n_enrolled]. split.
    { destruct E as [E|E]; [unfold tokens_unique in *; by rewrite E|by (eapply unique_update; [|exact E|])]. }
    split; [by apply NoDup_ListNoDup|]. intros id Hid t Ht Et.
    destruct E as [E|E]; rewrite E in Ht; [by apply (Hall id (or_intror Hid) t)|].
    apply update_where_In in Ht as (v & Hv & ->). destruct (releasable (ct_ID c) v) eqn:Er.
    + exfalso. apply Hc. apply andb_true_iff in Er as [Er%N.eqb_eq _]. simpl in Et. rewrite <- Er, Et. by apply list_elem_of_In.
    + by apply (Hall id (or_intror Hid) v).
  - destruct E as [Eo ->]. unfold enroll_inv, held. cbn [n_world n_holding n_enrolled]. rewrite Eo.
    assert (Hperm2 : map ct_ID (pre ++ post) ++ n_enrolled n ++ [ct_ID c] ≡ₚ
                     ct_ID c :: (map ct_ID (pre ++ post) ++ n_enrolled n)).
    { rewrite app_assoc. symmetry. apply Permutation_cons_append. }
    split; [done|]. split.
    + apply NoDup_ListNoDup. rewrite Hperm2. by apply NoDup_cons.
    + intros id Hi. apply Hall, list_elem_of_In. rewrite <- Hperm2. by apply list_elem_of_In.
Qed.

Lemma enrolls_inv n m : enrolls n m -> enroll_inv n -> enroll_inv m.
Proof.
  induction 1 as [|m m' _ IH Hstep]; [done|]. intros Hn. specialize (IH Hn). destruct Hstep.
  - by eapply inv_claim.
  - by eapply inv_finish.
  - exact IH.
Qed.
End steps.

(** C28: however enrollment requests interleave, and whatever fails in them, no token is ever
    answered with two certificates, and a token that was answered stays used.  (In particular a
    request that gives its claim back cannot free a token another request enrolled with.) *)
Theorem enrollment_single_use {L : Type} (n m : Enrolling L) :
  tokens_unique (w_db (n_world n)) -> n_holding n = [] -> n_enrolled n = [] -> enrolls n m ->
  List.NoDup (n_enrolled m) /\ forall id, In id (n_enrolled m) -> used_in (w_db (n_world m)) id.
Proof.
  intros Hu Hh He Hr. assert (Hn : enroll_inv n).
  { split; [done|]. unfold held. rewrite Hh, He. split; [constructor|done]. }
  destruct (enrolls_inv n m Hr Hn) as (_ & Hnd & Hused). unfold held in Hnd, Hused. split.
  - apply NoDup_ListNoDup in Hnd. apply NoDup_app in Hnd as (_ & _ & Hnd). by apply NoDup_ListNoDup.
  - intros id Hi. apply Hused, in_or_app. by right.
Qed.

(** ** One request *)

Definition usable (s : signing) : option EnrollAPIResponse :=
  match s with
  | inl _ => None
  | inr res => match BuildEnrollAPIResponse res with inl _ => None | inr x => Some x end
  end.

Record valid_request `{CsrLib} (secret pem : string) (cr : csr) : Prop := {
  vr_secret : Str.trim_space secret <> ""%string;
  vr_pem : parse_csr_pem (Str.trim_space pem) = Some cr;
  vr_nonblank : Str.trim_space pem <> ""%string;
  vr_signed : csr_signature_ok cr = true;
  vr_host : HostnameFromCSR cr <> ""%string
}.

Section request.
Context {L : Type}.
Implicit Types w : World L.

(** The row a claim marks is the one with the hash. *)
Lemma claim_row (l : list EnrollmentToken) hash now t : List.NoDup (map et_id l) -> List.NoDup (map et_token_hash l) ->
  List.find (claimable hash now) l = Some t ->
  forall u, In u l -> claimable hash now u = N.eqb (et_id u) (et_id t).
Proof.
  intros Hid Hh F u Hu. destruct (find_some _ _ F) as [Ht Hcl].
  destruct (N.eqb_spec (et_id u) (et_id t)) as [E|E]; [by rewrite (token_by_id l u t Hid Hu Ht E)|].
  destruct (claimable hash now u) eqn:Eu; [|done]. exfalso. apply E. f_equal. apply (token_by_hash l); [done..|].
  unfold claimable in *. rewrite !andb_true_iff in *. destruct_and?.
  repeat match goal with Hx : String.eqb _ _ = true |- _ => apply String.eqb_eq in Hx end. congruence.
Qed.

Lemma claim_ok hash w : w_faults w = [] -> tokens_unique (w_db w) ->
  ClaimByPresentationHash hash w =
    match List.find (claimable hash (w_now w)) (t_tokens (w_db w)) with
    | None => (inl ErrEnrollmentTokenInvalid, w)
    | Some t => (inr {| ct_ID := et_id t; ct_AssetID := et_asset_id t |},
        set_db (with_tokens (update_where (fun u => N.eqb (et_id u) (et_id t)) (mark_used (w_now w)) (t_tokens (w_db w)))
                  (w_db w)) w)
    end.
Proof.
  intros Hf [Hid Hh]. unfold ClaimByPresentationHash, mbind, go_bind, attempt. rewrite exec_ok by done.
  destruct (List.find _ _) as [t|] eqn:F; [|done]. unfold mret, go_ret.
  assert (E : update_where (claimable hash (w_now w)) (mark_used (w_now w)) (t_tokens (w_db w)) =
              update_where (fun u => N.eqb (et_id u) (et_id t)) (mark_used (w_now w)) (t_tokens (w_db w))).
  { unfold update_where. apply map_ext_in. intros u Hu. by rewrite (claim_row _ _ _ _ Hid Hh F u Hu). }
  by rewrite E.
Qed.

Lemma give_back_ok prefix t e w (l : list EnrollmentToken) now : w_faults w = [] ->
  List.NoDup (map et_id l) -> In t l -> et_is_used t = false -> et_used_at t = None ->
  t_tokens (w_db w) = update_where (fun u => N.eqb (et_id u) (et_id t)) (mark_used now) l ->
  exists w', give_back prefix (et_id t) e w = (inl (ErrWrap prefix e), w') /\ t_tokens (w_db w') = l.
Proof.
  intros Hf Hid Ht Hu Hua El. unfold give_back, mbind, go_bind, attempt, ReleaseClaim, wrap.
  unfold mbind, go_bind. rewrite exec_ok by done.
  assert (Hgoal : update_where (releasable (et_id t)) mark_unused (t_tokens (w_db w)) = l).
  { rewrite El. unfold update_where. rewrite map_map. transitivity (map (fun u => u) l); [|apply map_id]. apply map_ext_in. intros u Hu'.
    destruct (N.eqb_spec (et_id u) (et_id t)) as [E|E].
    - assert (u = t) as -> by (by apply (token_by_id l)). unfold releasable. simpl. rewrite N.eqb_refl. simpl.
      destruct t; simpl in *. by subst.
    - unfold releasable. by rewrite (proj2 (N.eqb_neq _ _) E). }
  destruct (Nat.eqb (count_where _ _) 1); eexists; (split; [reflexivity|exact Hgoal]).
Qed.
End request.

(** One well-formed request, with no database fault.  If no unused, unexpired token has the
    presented secret's hash the answer is 401 and nothing changes; if one has, and signing gives a
    usable certificate, the agent gets it and exactly that token is marked used; and if signing
    fails or gives nothing usable, the tokens are as they were: the secret can be presented
    again. *)
Theorem enrollment_request_effect `{CsrLib} {L : Type} secret pem issue cr (w : World L) :
  w_faults w = [] -> tokens_unique (w_db w) -> tokens_clean (w_db w) -> valid_request secret pem cr ->
  let '(r, w') := ProcessEnroll secret pem issue w in
  match List.find (claimable (EnrollmentPresentationHash (Str.trim_space secret)) (w_now w)) (t_tokens (w_db w)) with
  | None => (exists e, r = inl e /\ (MapProcessEnrollHTTP e).1 = 401) /\ t_tokens (w_db w') = t_tokens (w_db w)
  | Some t =>
      match usable (issue (default uuid_nil (et_asset_id t)) (HostnameFromCSR cr) cr) with
      | Some resp => r = inr {| eo_Response := resp; eo_TokenID := et_id t |} /\
          t_tokens (w_db w') = update_where (fun u => N.eqb (et_id u) (et_id t)) (mark_used (w_now w)) (t_tokens (w_db w))
      | None => (exists e, r = inl e) /\ t_tokens (w_db w') = t_tokens (w_db w)
      end
  end.
Proof.
  intros Hf Hu Hclean [Hs Hp Hn Hsig Hh]. unfold ProcessEnroll, ValidateCSRPEM. cbv zeta.
  rewrite (proj2 (String.eqb_neq _ _) Hs), (proj2 (String.eqb_neq _ _) Hn). cbn [orb].
  rewrite Hp, Hsig, (proj2 (String.eqb_neq _ _) Hh).
  unfold mbind, go_bind. rewrite claim_ok by done.
  destruct (List.find _ _) as [t|] eqn:F; [|by split; [eexists|]].
  destruct (find_some _ _ F) as [Ht Hcl]. cbn [ct_ID ct_AssetID].
  assert (Hunused : et_is_used t = false).
  { unfold claimable in Hcl. destruct (et_is_used t); [|done]. by rewrite andb_false_r in Hcl. }
  set (w1 := set_db _ w).
  assert (Hg : forall p e, exists w', give_back p (et_id t) e w1 = (inl (ErrWrap p e), w') /\ t_tokens (w_db w') = t_tokens (w_db w)).
  { intros p e. apply (give_back_ok p t e w1 (t_tokens (w_db w)) (w_now w)); try done; [apply Hu|by apply Hclean]. }
  unfold finish_enroll. cbn [ct_ID]. destruct (issue _ _ _) as [e|res]; cbn [usable].
  - destruct (Hg "auth: embedded ca sign failed"%string e) as (w' & -> & E). split; [by eexists|done].
  - destruct (BuildEnrollAPIResponse res) as [e|resp]; [|done].
    destruct (Hg "auth: build enroll response"%string e) as (w' & -> & E). split; [by eexists|done].
Qed.
