(* ===== verification/AndroidPolicies.v ===== *)
(** * Android device policies (internal/api/android_policies.go)

    One row per asset: camera, lock timeout and the remote-wipe latch, which an operator
    sets and the next telemetry answer takes down. *)

From S2P Require Import Prelude GoStd Float64 Json Ext World Auth UsersAdmin DeviceCommands.
From S2P Require Import Alerting AlertEngine.

Definition maxAndroidPolicyJSONBody : Z := 16 * 1024.

Record AndroidPolicyWire := { pw_Camera : bool; pw_LockMs : Z; pw_Wipe : bool }.

Definition no_policy : AndroidPolicyWire := {| pw_Camera := false; pw_LockMs := 0; pw_Wipe := false |}.

Definition policy_json (p : AndroidPolicyWire) : json :=
  JObj (jmap [("camera_disabled", JBool (pw_Camera p)); ("screen_lock_timeout_ms", JNum (F64.of_Z (pw_LockMs p)));
              ("wipe_requested", JBool (pw_Wipe p))]%string).

Record patchAndroidPolicyRequest := {
  pp_Camera : option bool; pp_LockMs : option Z; pp_Wipe : option bool
}.

Definition EventAndroidRemoteWipe : string := "android_remote_wipe".

Definition is_policy (id : uuid) (p : AndroidPolicy) : bool := N.eqb (an_asset p) id.

Definition wire_of (p : AndroidPolicy) : AndroidPolicyWire :=
  {| pw_Camera := an_camera p; pw_LockMs := an_lock_ms p; pw_Wipe := an_wipe p |}.

(** The values a patch leaves in the row. *)
Definition patched_policy (req : patchAndroidPolicyRequest) (cur : AndroidPolicyWire) : AndroidPolicyWire :=
  {| pw_Camera := default (pw_Camera cur) (pp_Camera req);
     pw_LockMs := match pp_LockMs req with Some ms => Z.max 0 ms | None => pw_LockMs cur end;
     pw_Wipe := default (pw_Wipe cur) (pp_Wipe req) |}.

Definition clear_wipe (p : AndroidPolicy) : AndroidPolicy :=
  {| an_asset := an_asset p; an_camera := an_camera p; an_lock_ms := an_lock_ms p; an_wipe := false |}.

Section policies.
Context `{JC : JsonCodec} `{UL : UuidLib} `{GF : GoFmt} `{PG : PgLib} `{JL : JwtLib} {L : Type}.
Context (origins : list string).

Definition assetExists (assetID : uuid) : go L bool :=
  r ← attempt (select (fun db _ => if asset_exists db assetID then inr () else inl ErrNoRows));
  mret match r with inr _ => true | inl _ => false end.

Definition humanIDForAsset (assetID : uuid) : go L string :=
  select (fun db _ => match List.find (fun a => N.eqb (a_id a) assetID) (t_assets db) with
                      | Some a => inr (a_human_id a)
                      | None => inl ErrNoRows end).

Definition select_policy (assetID : uuid) : go L AndroidPolicyWire :=
  select (fun db _ => match List.find (is_policy assetID) (t_android db) with
                      | Some p => inr (wire_of p)
                      | None => inl ErrNoRows end).

(** No row reads as the zero policy. *)
Definition loadAndroidPolicy (assetID : uuid) : go L AndroidPolicyWire :=
  r ← attempt (select_policy assetID);
  match r with
  | inr p => mret p
  | inl e => if is_no_rows e then mret no_policy else fail e
  end.

(** INSERT ... ON CONFLICT (asset_id) DO UPDATE *)
Definition upsert_policy (assetID : uuid) (p : AndroidPolicyWire) : go L () :=
  exec (fun db _ =>
    let row := {| an_asset := assetID; an_camera := pw_Camera p; an_lock_ms := pw_LockMs p; an_wipe := pw_Wipe p |} in
    if negb (asset_exists db assetID) then inl (ErrMsg "violates foreign key constraint asset_id") else
    inr ((), with_android
      (if existsb (is_policy assetID) (t_android db)
       then update_where (is_policy assetID) (fun _ => row) (t_android db)
       else t_android db ++ [row]) db)).

Definition mergeAndroidPolicy (assetID : uuid) (req : patchAndroidPolicyRequest) : go L AndroidPolicyWire :=
  transaction (
    cur ← loadAndroidPolicy assetID;
    let next := patched_policy req cur in
    _ ← upsert_policy assetID next;
    mret next).

Definition AppendAndroidPolicyToTelemetryResponse (assetID : uuid) (osType : string) (resp : list (string * json))
    : go L (list (string * json)) :=
  if negb (Str.equal_fold (Str.trim_space osType) "android") then mret resp else
  wire ← loadAndroidPolicy assetID;
  _ ← (if pw_Wipe wire
       then attempt (exec (fun db _ =>
              inr ((), with_android (update_where (fun p => is_policy assetID p && an_wipe p) clear_wipe (t_android db)) db)))
       else mret (inr ()));
  mret (obj_set "android_policy" (policy_json wire) resp).

(** ** Routes *)

Definition parseAssetUUID (r : Request) : option uuid := parseUserUUID r.

Definition decode_android_patch (body : string) : option patchAndroidPolicyRequest :=
  m ← unmarshal_map body;
  c ← dec_opt_bool None (field "camera_disabled" m);
  l ← dec_opt_int None (field "screen_lock_timeout_ms" m);
  wp ← dec_opt_bool None (field "wipe_requested" m);
  Some {| pp_Camera := c; pp_LockMs := l; pp_Wipe := wp |}.

Definition handleGetAndroidPolicy (r : Request) : go L Response :=
  let? _ := require_method "GET" r in
  let? _ := RequireMinRole origins r RoleViewer in
  match parseAssetUUID r with
  | None => mret (writeTicketsError 400 "invalid asset id")
  | Some assetID =>
      there ← assetExists assetID;
      if negb there then mret (writeTicketsError 404 "asset not found") else
      pol ← attempt (loadAndroidPolicy assetID);
      mret match pol with
           | inl _ => writeTicketsError 500 "failed to load policy"
           | inr pol => writeTicketsJSON 200 (policy_json pol)
           end
  end.

Definition policy_updated_json (assetID : uuid) (humanID : string) (p : AndroidPolicyWire) : json :=
  JObj (jmap [("type", jstr "android_policy_updated"); ("asset_id", jstr (uuid_string assetID));
              ("human_id", jstr humanID); ("policy", policy_json p)]%string).

(** serve.go's OnAndroidRemoteWipeRequested *)
Definition wipe_requested_event (assetID : uuid) (humanID : string) : go L () :=
  notify EventAndroidRemoteWipe "" "Android remote wipe requested"
    ("Remote wipe was requested for asset " +:+ humanID +:+ " (" +:+ uuid_string assetID +:+ ").")
    (JObj (jmap [("asset_id", jstr (uuid_string assetID)); ("human_id", jstr humanID)]%string)).

Definition handlePatchAndroidPolicy (r : Request) : go L Response :=
  let? _ := require_method "PATCH" r in
  let? _ := RequireMinRole origins r RoleOperator in
  match parseAssetUUID r with
  | None => mret (writeTicketsError 400 "invalid asset id")
  | Some assetID =>
  match read_body maxAndroidPolicyJSONBody r with
  | None => mret (writeTicketsError 400 "could not read body")
  | Some body =>
  match decode_android_patch body with
  | None => mret (writeTicketsError 400 "invalid JSON body")
  | Some req =>
      hid ← attempt (humanIDForAsset assetID);
      match hid with
      | inl e => mret (if is_no_rows e then writeTicketsError 404 "asset not found"
                       else writeTicketsError 500 "failed to resolve asset")
      | inr humanID =>
          prev ← attempt (loadAndroidPolicy assetID);
          match prev with
          | inl _ => mret (writeTicketsError 500 "failed to save policy")
          | inr prev =>
              out ← attempt (mergeAndroidPolicy assetID req);
              match out with
              | inl _ => mret (writeTicketsError 500 "failed to save policy")
              | inr out =>
                  _ ← (if pw_Wipe out && negb (pw_Wipe prev) && default false (pp_Wipe req)
                       then wipe_requested_event assetID humanID else mret ());
                  _ ← emit (Broadcast (policy_updated_json assetID humanID out));
                  mret (writeTicketsJSON 200 (policy_json out))
              end
          end
      end
  end end end.
End policies.
