(* ===== verification/MdmDownlink.v ===== *)
(** * The device's configuration: what a report or a request is answered with

    internal/database/{mdm_configuration,mdm_assignment_state}.go,
    internal/api/{mdm_downlink,agent_profiles,device_effective_policy}.go: the profiles
    assigned to a device, the managed app settings of an Android device, and the merged
    policy with the conflicts it marks on the assignments. *)

From S2P Require Import Prelude GoStd Float64 Json Ext World PolicyMerge Auth DeviceCommands CommandFlow.
From S2P Require Import Alerting Compliance Enrollment.

(** ** mdm_configuration.go *)

Record ManagedAndroidAppConfigWire := { mw_Package : string; mw_KV : json }.

Definition managed_json (m : ManagedAndroidAppConfigWire) : json :=
  JObj (jmap [("package_name", jstr (mw_Package m)); ("managed_config_kv", mw_KV m)]%string).

(** Unmarshal into a map[string]any: null leaves it nil, a value of another type makes it empty. *)
Definition kv_of (v : json) : json := match v with JObj m => JObj m | JNull => JNull | _ => JObj [] end.

Section configuration.
Context `{JC : JsonCodec} `{UL : UuidLib} `{PG : PgLib} `{CSR : CsrLib} {L : Type}.

Definition is_android (cat : AppCatalog) : bool := String.eqb (pg_lower (pg_trim (ac_target_os cat))) "android".

Definition config_by_package (a b : AppConfig) : bool := pg_text_lt (cf_package a) (cf_package b).

(** A device has at most one device_apps row per app, and an app one catalog row. *)
Definition config_deployed (db : Tables) (assetID : uuid) (c : AppConfig) : bool :=
  existsb (fun d => N.eqb (da_app d) (cf_app c) && N.eqb (da_device d) assetID
                    && one_of (da_status d) ["pending"; "installing"; "success"]%string) (t_device_apps db)
  && existsb (fun cat => N.eqb (ac_id cat) (cf_app c) && is_android cat) (t_catalog db).

Definition ListManagedAndroidConfigurationsForDevice (assetID : uuid) : go L (list ManagedAndroidAppConfigWire) :=
  wrap "list managed app configs" (select (fun db _ =>
    inr (map (fun c => {| mw_Package := cf_package c; mw_KV := kv_of (cf_kv c) |})
          (sort_slice config_by_package (List.filter (config_deployed db assetID) (t_app_configs db)))))).

Definition profile_wire (p : Profile) : option json :=
  payload ← (if String.eqb (pf_payload p) "" then Some (JObj []) else json_unmarshal (pf_payload p));
  Some (JObj (jmap [("id", jstr (uuid_string (pf_id p))); ("name", jstr (pf_name p));
                    ("profile_type", jstr (pf_type p)); ("platform", jstr (pf_platform p)); ("payload", payload)]%string)).

Fixpoint appendProfileWIRE (rows : list Profile) : option (list json) :=
  match rows with
  | [] => Some []
  | p :: r => x ← profile_wire p; xs ← appendProfileWIRE r; Some (x :: xs)
  end.

Definition BuildMDMProfilesWireForAsset (assetID : uuid) (platform : string)
    : go L (list json * list ManagedAndroidAppConfigWire) :=
  plist ← ListAssignedProfilesForAsset assetID platform;
  match appendProfileWIRE plist with
  | None => fail (ErrMsg "profile payload decode")
  | Some profiles =>
      if Str.equal_fold (Str.trim_space platform) "android"
      then managed ← ListManagedAndroidConfigurationsForDevice assetID; mret (profiles, managed)
      else mret (profiles, [])
  end.

(** ** mdm_downlink.go *)

Definition telemetryPlatformKey (osType : string) : string := Str.to_lower (Str.trim_space osType).

Definition profileRevisionStable (wires : list json) : string := sha256_hex (json_marshal (JArr wires)).

Definition AppendMDMDownlink (assetID : uuid) (osType : string) (resp : list (string * json))
    : go L (list (string * json)) :=
  x ← wrap "mdm downlink assemble" (BuildMDMProfilesWireForAsset assetID (telemetryPlatformKey osType));
  let '(profilesWire, managed) := x in
  let resp := match profilesWire with
              | [] => resp
              | _ => obj_set "mdm_profile_revision" (jstr (profileRevisionStable profilesWire))
                       (obj_set "mdm_configuration_profiles" (JArr profilesWire) resp)
              end in
  mret match managed with
       | [] => resp
       | _ => obj_set "mdm_managed_app_configs" (JArr (map managed_json managed)) resp
       end.

(** ** mdm_assignment_state.go *)

(** The assignments that reach the device with a profile of the platform. *)
Definition affected (db : Tables) (assetID : uuid) (platform : string) (a : Assignment) : bool :=
  targets db assetID (as_target a) &&
  existsb (fun p => N.eqb (pf_id p) (as_profile a)
                    && String.eqb (pg_lower (pg_trim (pf_platform p))) (pg_lower (pg_trim platform))) (t_profiles db).

Definition set_state (state : string) (a : Assignment) : Assignment :=
  {| as_id := as_id a; as_profile := as_profile a; as_target := as_target a; as_state := state;
     as_created := as_created a |}.

Definition mark_assignments (p : Tables -> Assignment -> bool) (state : string) : go L () :=
  exec (fun db _ => inr ((), with_assignments (update_where (p db) (set_state state) (t_assignments db)) db)).

Definition ReconcileProfileAssignmentStates (assetID : uuid) (platform : string) (conflicting : gset uuid) : go L () :=
  transaction (
    _ ← wrap "reset assignment states" (mark_assignments (fun db => affected db assetID platform) "ok");
    if decide (conflicting = ∅) then mret () else
    wrap "flag conflicting assignments"
      (mark_assignments (fun db a => affected db assetID platform a && bool_decide (as_profile a ∈ conflicting))
         "conflict")).

(** ** device_effective_policy.go *)

Definition assignedRowsToMergeInputs (rows : list Profile) : list AssignedPayload :=
  map (fun r => {| ap_Source := {| ps_ID := pf_id r; ps_Name := pf_name r |}; ap_Payload := pf_payload r |}) rows.

Definition effectiveRevisionHex (payload : list (string * json)) : string := sha256_hex (json_marshal (JObj payload)).

(** The result and whether any profile took part: with none the report's lists are empty, not null. *)
Definition computeMergedEffectivePolicy (assetID : uuid) (platformKey : string) : go L (bool * MergeResult) :=
  rows ← ListAssignedProfilesForAsset assetID platformKey;
  match MergeAssignedPayloads (assignedRowsToMergeInputs rows) with
  | MergeErr _ => fail (ErrMsg "profile payload")
  | MergeOk mr =>
      _ ← ReconcileProfileAssignmentStates assetID platformKey (mr_ConflictProfiles mr);
      mret (match rows with [] => false | _ => true end, mr)
  end.

Definition participant_json (p : ConflictProfile) : json :=
  JObj (jmap [("id", jstr (uuid_string (cp_ID p))); ("name", jstr (cp_Name p))]%string).

Definition setting_json (s : EffectiveSetting) : json :=
  JObj (jmap ([("path", jstr (es_Path s)); ("value", es_Value s); ("conflict", JBool (es_Conflict s))]%string
    ++ match es_SourceProfiles s with
       | [] => []
       | l => [("source_profiles"%string, JArr (map participant_json l))] end)).

Definition conflict_json (c : SettingConflict) : json :=
  JObj (jmap ([("path", jstr (sc_Path c)); ("effective_value", sc_EffectiveValue c);
               ("conflicting_profiles", JArr (map participant_json (sc_ConflictingProfiles c)))]%string
    ++ match sc_ContributedNormalized c with
       | [] => []
       | l => [("contributed_normalized"%string, JArr l)] end)).

(** A nil slice is null. *)
Definition slice_json {A} (f : A -> json) (nil_empty : bool) (l : list A) : json :=
  match l with [] => if nil_empty then JArr [] else JNull | _ => JArr (map f l) end.

Definition has_conflicts (mr : MergeResult) : bool := match mr_Conflicts mr with [] => false | _ => true end.
End configuration.

Section routes.
Context `{JC : JsonCodec} `{UL : UuidLib} `{PG : PgLib} `{CSR : CsrLib} `{JL : JwtLib} {L : Type}.
Context (origins : list string) (MTLSRequired : bool).

Definition handleDashboardEffectivePolicy (r : Request) : go L Response :=
  let? _ := require_method "GET" r in
  let? _ := RequireMinRole origins r RoleViewer in
  match uuid_parse (Str.trim_space (rq_path_id r)) with
  | None => mret (writeTicketsError 400 "invalid device id")
  | Some deviceID =>
  if N.eqb deviceID uuid_nil then mret (writeTicketsError 400 "invalid device id") else
  there ← attempt (select (fun db _ => if asset_exists db deviceID then inr () else inl ErrNoRows));
  match there with
  | inl _ => mret (writeTicketsError 404 "device not found")
  | inr _ =>
      os ← attempt (select (fun db _ => match List.find (is_asset deviceID) (t_assets db) with
                                        | Some a => inr (pg_lower (pg_trim (a_os_type a)))
                                        | None => inl ErrNoRows end));
      match os with
      | inl _ => mret (writeTicketsError 500 "failed to resolve device platform")
      | inr osType =>
          let platformKey := telemetryPlatformKey osType in
          mr ← attempt (computeMergedEffectivePolicy deviceID platformKey);
          mret match mr with
               | inl _ => writeTicketsError 500 "failed to compute effective policy"
               | inr (some, mr) =>
                   writeTicketsJSON 200 (JObj (jmap [("asset_id", jstr (uuid_string deviceID));
                     ("platform", jstr platformKey); ("effective_payload", JObj (mr_EffectivePayload mr));
                     ("settings", slice_json setting_json (negb some) (mr_FlatSettings mr));
                     ("conflicts", slice_json conflict_json false (mr_Conflicts mr));
                     ("has_conflict", JBool (has_conflicts mr));
                     ("revision", jstr (effectiveRevisionHex (mr_EffectivePayload mr)))]%string))
               end
      end
  end end.

(** The serial number of a verified client certificate, or the refusal. *)
Definition require_client_cert (r : Request) : Response + string :=
  match (if MTLSRequired then rq_tls r else NoTLS) with
  | TLSClient serial => if String.eqb serial "" then err_resp 400 "client certificate serial invalid" else inr serial
  | _ => err_resp 403 "mutual tls is required"
  end.

(** SELECT id, COALESCE(lower(trim(os_type)), 'unknown') FROM assets WHERE cert_serial = $1 *)
Definition asset_by_serial (serial : string) : go L (uuid * string) :=
  select (fun db _ => match List.find (owns_serial serial) (t_assets db) with
                      | Some a => inr (a_id a, pg_lower (pg_trim (a_os_type a)))
                      | None => inl ErrNoRows end).

Definition handleAgentEffectivePolicy (r : Request) : go L Response :=
  let? _ := require_method "GET" r in
  let? serial := require_client_cert r in
  a ← attempt (asset_by_serial serial);
  match a with
  | inl _ => mret (writeTicketsError 404 "device not enrolled")
  | inr (assetID, osType) =>
      let platformKey := telemetryPlatformKey osType in
      mr ← attempt (computeMergedEffectivePolicy assetID platformKey);
      mret match mr with
           | inl _ => writeTicketsError 500 "failed to compute effective policy"
           | inr (_, mr) =>
               writeTicketsJSON 200 (JObj (jmap [("asset_id", jstr (uuid_string assetID)); ("os_type", jstr osType);
                 ("platform", jstr platformKey); ("effective_payload", JObj (mr_EffectivePayload mr));
                 ("revision", jstr (effectiveRevisionHex (mr_EffectivePayload mr)));
                 ("has_conflict", JBool (has_conflicts mr))]%string))
           end
  end.

(** ** agent_profiles.go *)
Definition handlePull (r : Request) : go L Response :=
  let? _ := require_method "GET" r in
  let? serial := require_client_cert r in
  a ← attempt (asset_by_serial serial);
  match a with
  | inl _ => mret (writeTicketsError 404 "device not enrolled")
  | inr (assetID, osType) =>
      x ← attempt (BuildMDMProfilesWireForAsset assetID (telemetryPlatformKey osType));
      mret match x with
           | inl _ => writeTicketsError 500 "failed to assemble profiles"
           | inr (wires, managed) =>
               writeTicketsJSON 200 (JObj (jmap ([("revision", jstr (profileRevisionStable wires));
                   ("os_type", jstr osType); ("asset_id", jstr (uuid_string assetID));
                   ("profiles", JArr wires)]%string
                 ++ match managed with
                    | [] => []
                    | _ => [("managed_app_configs"%string, JArr (map managed_json managed))] end)))
           end
  end.
End routes.
