(* ===== verification/Telemetry.v ===== *)
(** * Telemetry ingestion

    internal/api/{telemetry,telemetry_process,device_metrics}.go, internal/ws/{agent_telemetry,
    dash_wire}.go, internal/database/device_metrics.go: a device's report registers the device
    or refreshes its row, appends a metrics row, runs the compliance check, takes down the
    device's offline alerts and is answered with the device's policies. *)

From Stdlib Require Import SpecFloat.
From S2P Require Import Prelude GoStd Float64 Json Ext World Auth DeviceCommands CommandFlow.
From S2P Require Import Alerting AlertEngine Compliance Enrollment AndroidPolicies MdmDownlink.

(** ** The payload *)

Record TelemetryInstalledApp := { ti_Name : string; ti_Version : string; ti_Source : string; ti_ID : string }.

(** [InstalledSoftware] is [None] for the nil slice. *)
Record TelemetryPayload := {
  tp_Hostname : string; tp_OsType : string; tp_OSFamily : string; tp_OSVersion : string;
  tp_TotalRAMBytes : Z; tp_CPUModel : string; tp_CPULogicalCores : Z; tp_CPUUsagePercent : float64;
  tp_MemoryUsedBytes : Z; tp_RootDiskTotalBytes : Z; tp_RootDiskUsedBytes : Z; tp_BatteryPercent : float64;
  tp_DeviceModel : string; tp_MACAddress : string; tp_InstalledSoftware : option (list TelemetryInstalledApp);
  tp_MDMPolicyEnforcement : option EnforcementWire
}.

Definition decode_app (cur : TelemetryInstalledApp) (m : list (string * json)) : option TelemetryInstalledApp :=
  n ← dec_string (ti_Name cur) (field "name" m);
  v ← dec_string (ti_Version cur) (field "version" m);
  s ← dec_string (ti_Source cur) (field "source" m);
  i ← dec_string (ti_ID cur) (field "id" m);
  Some {| ti_Name := n; ti_Version := v; ti_Source := s; ti_ID := i |}.

Definition decode_enforcement (cur : EnforcementWire) (m : list (string * json)) : option EnforcementWire :=
  s ← dec_string (enf_State cur) (field "state" m);
  d ← dec_string (enf_Detail cur) (field "detail" m);
  c ← dec_bool (enf_CriticalFailed cur) (field "critical_failed" m);
  Some {| enf_State := s; enf_Detail := d; enf_CriticalFailed := c |}.

Definition zero_app : TelemetryInstalledApp := {| ti_Name := ""; ti_Version := ""; ti_Source := ""; ti_ID := "" |}.
Definition zero_enforcement : EnforcementWire := {| enf_State := ""; enf_Detail := ""; enf_CriticalFailed := false |}.

Definition decode_telemetry (m : list (string * json)) : option TelemetryPayload :=
  hostname ← dec_string "" (field "hostname" m);
  os_type ← dec_string "" (field "os_type" m);
  os_family ← dec_string "" (field "os_family" m);
  os_version ← dec_string "" (field "os_version" m);
  ram ← dec_field dec_uint64 0 (field "total_ram_bytes" m);
  cpu_model ← dec_string "" (field "cpu_model" m);
  cores ← dec_field dec_int 0 (field "cpu_logical_cores" m);
  cpu ← dec_field dec_float (F64.of_Z 0) (field "cpu_usage_percent" m);
  used ← dec_field dec_uint64 0 (field "memory_used_bytes" m);
  disk ← dec_field dec_uint64 0 (field "root_disk_total_bytes" m);
  disk_used ← dec_field dec_uint64 0 (field "root_disk_used_bytes" m);
  battery ← dec_field dec_float (F64.of_Z 0) (field "battery_percent" m);
  model ← dec_string "" (field "device_model" m);
  mac ← dec_string "" (field "mac_address" m);
  apps ← dec_field (dec_slice zero_app (dec_struct decode_app)) None (field "installed_software" m);
  enf ← dec_field (dec_ptr zero_enforcement (dec_struct decode_enforcement)) None (field "mdm_policy_enforcement" m);
  Some {| tp_Hostname := hostname; tp_OsType := os_type; tp_OSFamily := os_family; tp_OSVersion := os_version;
          tp_TotalRAMBytes := ram; tp_CPUModel := cpu_model; tp_CPULogicalCores := cores; tp_CPUUsagePercent := cpu;
          tp_MemoryUsedBytes := used; tp_RootDiskTotalBytes := disk; tp_RootDiskUsedBytes := disk_used;
          tp_BatteryPercent := battery; tp_DeviceModel := model; tp_MACAddress := mac;
          tp_InstalledSoftware := apps; tp_MDMPolicyEnforcement := enf |}.

Definition with_hostname (h : string) (p : TelemetryPayload) : TelemetryPayload :=
  {| tp_Hostname := h; tp_OsType := tp_OsType p; tp_OSFamily := tp_OSFamily p; tp_OSVersion := tp_OSVersion p;
     tp_TotalRAMBytes := tp_TotalRAMBytes p; tp_CPUModel := tp_CPUModel p; tp_CPULogicalCores := tp_CPULogicalCores p;
     tp_CPUUsagePercent := tp_CPUUsagePercent p; tp_MemoryUsedBytes := tp_MemoryUsedBytes p;
     tp_RootDiskTotalBytes := tp_RootDiskTotalBytes p; tp_RootDiskUsedBytes := tp_RootDiskUsedBytes p;
     tp_BatteryPercent := tp_BatteryPercent p; tp_DeviceModel := tp_DeviceModel p; tp_MACAddress := tp_MACAddress p;
     tp_InstalledSoftware := tp_InstalledSoftware p; tp_MDMPolicyEnforcement := tp_MDMPolicyEnforcement p |}.

Definition maxTelemetryBody : Z := 256 * 1024.

Definition deriveAssetOsType (p : TelemetryPayload) : string :=
  let t := Str.to_lower (Str.trim_space (tp_OsType p)) in
  if one_of t ["android"; "windows"; "linux"; "darwin"; "ios"; "unknown"]%string then t else
  let f := Str.to_lower (Str.trim_space (tp_OSFamily p)) in
  if String.eqb f "android" then "android"
  else if String.eqb f "windows" then "windows"
  else if String.eqb f "linux" then "linux"
  else if one_of f ["darwin"; "macos"]%string then "darwin"
  else if one_of f ["ios"; "iphone"; "ipad"]%string then "ios"
  else "unknown".

Definition app_json (a : TelemetryInstalledApp) : json :=
  JObj (jmap ([("name", jstr (ti_Name a)); ("version", jstr (ti_Version a)); ("source", jstr (ti_Source a))]%string
    ++ if String.eqb (ti_ID a) "" then [] else [("id"%string, jstr (ti_ID a))])).

Definition apps_json (l : option (list TelemetryInstalledApp)) : json :=
  match l with None => JNull | Some l => JArr (map app_json l) end.

(** json.Marshal refuses a float that is not finite. *)
Definition floats_ok (p : TelemetryPayload) : bool :=
  F64.is_finite (tp_CPUUsagePercent p) && F64.is_finite (tp_BatteryPercent p).

(** ** The assets table (migrations 000001, 000003, 000018) *)

Definition os_types : list string := ["unknown"; "windows"; "linux"; "darwin"; "android"; "ios"]%string.
Definition compliance_statuses : list string :=
  [ComplianceStatusCompliant; ComplianceStatusNonCompliant; ComplianceStatusEvaluating].

Definition is_lower_alnum (c : ascii) : bool :=
  Str.is_digit c || let n := N_of_ascii c in N.leb 97 n && N.leb n 122.

Definition all_nonempty (p : ascii -> bool) (s : string) : bool :=
  negb (String.eqb s "") && forallb p (Str.bytes s).

(** CHECK (human_id ~ '^(arx-c-[0-9]+|arx-s-[0-9]+|arx-[a-z0-9]+-[a-z0-9]+-[0-9]+)$') *)
Definition human_id_ok (s : string) : bool :=
  match Str.split_on "-" s with
  | [arx; c; n] => String.eqb arx "arx" && one_of c ["c"; "s"]%string && all_nonempty Str.is_digit n
  | [arx; x; y; n] => String.eqb arx "arx" && all_nonempty is_lower_alnum x && all_nonempty is_lower_alnum y
                      && all_nonempty Str.is_digit n
  | _ => false
  end.

(** A partial unique index: NULL and the empty string do not count. *)
Definition same_text (a b : option string) : bool :=
  match a, b with
  | Some s, Some t => String.eqb s t && negb (String.eqb s "")
  | _, _ => false
  end.

Definition opt_text_ok (o : option string) : bool := match o with Some s => text_ok s | None => true end.

(** The row satisfies its own constraints ... *)
Definition asset_row_ok (a : Asset) : bool :=
  human_id_ok (a_human_id a) && one_of (a_os_type a) os_types && one_of (a_compliance_status a) compliance_statuses
  && opt_text_ok (a_display_name a) && opt_text_ok (a_hostname a) && opt_text_ok (a_cert_serial a)
  && negb (json_has_nul (JObj (a_metadata a))).

(** ... and clashes with no row of a list. *)
Definition assets_clash (a b : Asset) : bool :=
  N.eqb (a_id a) (a_id b) || String.eqb (a_human_id a) (a_human_id b)
  || same_text (a_hostname a) (a_hostname b) || same_text (a_cert_serial a) (a_cert_serial b).

Definition asset_storable (others : list Asset) (a : Asset) : bool :=
  asset_row_ok a && negb (existsb (assets_clash a) others).

(** ** upsertAssetFromTelemetry *)

(** CASE WHEN human_id ~ '^arx-c-[0-9]+$' THEN SUBSTRING(human_id FROM 7)::bigint END *)
Definition arx_c_number (a : Asset) : option Z :=
  if Str.has_prefix (a_human_id a) "arx-c-" then Str.digits (Str.bytes (Str.drop 6 (a_human_id a))) else None.

(** COALESCE(MAX(...), 0) + 1; bigint overflows are errors. *)
Definition next_arx_c (rows : list Asset) : err + Z :=
  let ns := omap arx_c_number rows in
  if existsb (fun n => 2 ^ 63 <=? n) ns then inl (ErrMsg "out of range for type bigint") else
  let next := match ns with [] => 0 | n :: r => fold_left Z.max r n end + 1 in
  if 2 ^ 63 <=? next then inl (ErrMsg "bigint out of range") else inr next.

Section upsert.
Context `{UL : UuidLib} `{GF : GoFmt} {L : Type}.

Definition telemetry_metadata (now : Z) (p : TelemetryPayload) (osType : string) : json :=
  JObj (jmap [("os_family", jstr (tp_OSFamily p)); ("os_version", jstr (tp_OSVersion p)); ("os_type", jstr osType);
    ("total_ram_bytes", JNum (F64.of_Z (tp_TotalRAMBytes p))); ("cpu_model", jstr (tp_CPUModel p));
    ("cpu_logical_cores", JNum (F64.of_Z (tp_CPULogicalCores p))); ("cpu_usage_percent", JNum (tp_CPUUsagePercent p));
    ("memory_used_bytes", JNum (F64.of_Z (tp_MemoryUsedBytes p))); ("battery_percent", JNum (tp_BatteryPercent p));
    ("device_model", jstr (tp_DeviceModel p)); ("mac_address", jstr (tp_MACAddress p));
    ("reported_hostname", jstr (tp_Hostname p)); ("reported_at_rfc3339", jstr (fmt_rfc3339 now));
    ("installed_software", apps_json (tp_InstalledSoftware p))]%string).

(** The row of a device seen for the first time. *)
Definition new_asset (id : uuid) (humanID serial : string) (p : TelemetryPayload) (osType : string) (meta : json) (t : Z) : Asset :=
  {| a_id := id; a_human_id := humanID; a_display_name := Some (tp_Hostname p); a_hostname := Some (tp_Hostname p);
     a_cert_serial := Some serial; a_os_type := osType; a_last_seen := Some t;
     a_metadata := [("telemetry"%string, meta)]; a_compliance_status := ComplianceStatusEvaluating;
     a_compliance_reason := ""; a_quarantine_enabled := false |}.

(** What a report does to the row of a known device. *)
Definition refreshed_asset (serial : string) (p : TelemetryPayload) (osType : string) (meta : json) (t : Z) (a : Asset) : Asset :=
  {| a_id := a_id a; a_human_id := a_human_id a;
     a_display_name := match a_display_name a with
                       | None => Some (tp_Hostname p)
                       | Some d => if String.eqb d "" then Some (tp_Hostname p) else Some d end;
     a_hostname := Some (tp_Hostname p); a_cert_serial := Some serial; a_os_type := osType; a_last_seen := Some t;
     a_metadata := obj_set "telemetry" meta (a_metadata a);
     a_compliance_status := a_compliance_status a; a_compliance_reason := a_compliance_reason a;
     a_quarantine_enabled := a_quarantine_enabled a |}.

Definition owns_hostname (h : string) (a : Asset) : bool :=
  match a_hostname a with Some s => String.eqb s h | None => false end.

(** SELECT id, human_id FROM assets WHERE <column> = $1 LIMIT 1 FOR UPDATE; no row is not an error here. *)
Definition lookup_asset (p : Asset -> bool) (arg : string) : go L (option (uuid * string)) :=
  select (fun db _ => if negb (text_ok arg) then inl bad_text else
    inr (option_map (fun a => (a_id a, a_human_id a)) (List.find p (t_assets db)))).

Definition insert_asset (serial : string) (p : TelemetryPayload) (osType : string) (meta : json) : go L (uuid * string) :=
  next ← wrap "next arx-c sequence" (select (fun db _ => next_arx_c (t_assets db)));
  let humanID := "arx-c-" +:+ Str.itoa next in
  wrap "insert asset" (insert_id (fun id db t =>
    let row := new_asset id humanID serial p osType meta t in
    if negb (asset_storable (t_assets db) row) then inl (ErrMsg "violates constraint") else
    inr ((id, humanID), with_assets (t_assets db ++ [row]) db))).

Definition update_asset (id : uuid) (serial : string) (p : TelemetryPayload) (osType : string) (meta : json) : go L () :=
  wrap "update asset" (exec (fun db t =>
    let f := refreshed_asset serial p osType meta t in
    let others := List.filter (fun a => negb (is_asset id a)) (t_assets db) in
    if existsb (fun a => is_asset id a && negb (asset_storable others (f a))) (t_assets db)
    then inl (ErrMsg "violates constraint") else
    inr ((), with_assets (update_where (is_asset id) f (t_assets db)) db))).

Definition upsertAssetFromTelemetry (certSerial : string) (p : TelemetryPayload) (osType : string)
    : go L (uuid * string) :=
  transaction (
    _ ← wrap "advisory lock" (select (fun _ _ => inr ()));
    t ← now;
    if negb (floats_ok p) then fail (ErrMsg "marshal metadata patch") else
    let meta := telemetry_metadata t p osType in
    bySerial ← wrap "lookup by cert_serial" (lookup_asset (owns_serial certSerial) certSerial);
    found ← match bySerial with
            | Some x => mret (Some x)
            | None => wrap "lookup by hostname" (lookup_asset (owns_hostname (tp_Hostname p)) (tp_Hostname p))
            end;
    match found with
    | None => insert_asset certSerial p osType meta
    | Some (id, humanID) => _ ← update_asset id certSerial p osType meta; mret (id, humanID)
    end).
End upsert.

(** ** device_metrics.go (database) *)

Definition sanitizeTelemetryFloat (v : float64) : float64 :=
  if negb (F64.is_finite v) then F64.of_Z 0
  else if F64.ltb v (F64.of_Z 0) then F64.of_Z 0
  else if F64.ltb (F64.of_Z 100) v then F64.of_Z 100 else v.

Definition nonNegativeInt64 (v : Z) : Z := if v <? 0 then 0 else v.

(** The row a report is stored as. *)
Definition metric_row (id : uuid) (cpu : float64) (ramTotal ramUsed diskTotal diskUsed t : Z) : DeviceMetric :=
  let ramTotal := nonNegativeInt64 ramTotal in let ramUsed := nonNegativeInt64 ramUsed in
  let diskTotal := nonNegativeInt64 diskTotal in let diskUsed := nonNegativeInt64 diskUsed in
  let diskUsed := if (diskTotal <? diskUsed) && (0 <? diskTotal) then diskTotal else diskUsed in
  let ramUsed := if (ramTotal <? ramUsed) && (0 <? ramTotal) then ramTotal else ramUsed in
  {| dm_DeviceID := id; dm_CPUUsage := sanitizeTelemetryFloat cpu; dm_RAMTotal := ramTotal; dm_RAMUsed := ramUsed;
     dm_DiskTotal := diskTotal; dm_DiskUsed := diskUsed; dm_CreatedAt := t |}.

Definition InsertDeviceMetric {L} (id : uuid) (cpu : float64) (ramTotal ramUsed diskTotal diskUsed : Z) : go L () :=
  wrap "database: insert device_metrics" (exec (fun db t =>
    if negb (asset_exists db id) then inl (ErrMsg "violates foreign key constraint device_id") else
    inr ((), with_metrics (t_metrics db ++ [metric_row id cpu ramTotal ramUsed diskTotal diskUsed t]) db))).

Definition deviceMetricsMaxHours : Z := 168.
Definition deviceMetricsMaxPoints : Z := 360.
Definition deviceMetricsMinBucketSecs : Z := 60.

Record DeviceMetricSeriesPoint := { sp_T : Z; sp_CPUUsage : float64; sp_RAMUsedPercent : float64 }.
Record DeviceMetricDiskSample := { ds_TotalBytes : Z; ds_UsedBytes : Z; ds_SampledAt : Z }.
Record DeviceMetricHistory := {
  mh_DeviceID : uuid; mh_Hours : Z; mh_BucketSeconds : Z;
  mh_Series : list DeviceMetricSeriesPoint; mh_Disk : option DeviceMetricDiskSample
}.

(** to_timestamp(floor(extract(epoch from created_at) / $1) * $1), in nanoseconds.  (PostgreSQL
    divides floats, but a microsecond next to a bucket's border is still told apart.) *)
Definition bucket_of (bucket : Z) (m : DeviceMetric) : Z :=
  let width := bucket * second in dm_CreatedAt m / width * width.

Definition clamp_hours (hours : Z) : Z :=
  let hours := if hours <? 1 then 24 else hours in
  if deviceMetricsMaxHours <? hours then deviceMetricsMaxHours else hours.

Definition bucket_seconds (hours : Z) : Z :=
  let bucket := hours * 3600 / deviceMetricsMaxPoints in
  if bucket <? deviceMetricsMinBucketSecs then deviceMetricsMinBucketSecs else bucket.

Definition clamp_percent (v : float64) : float64 :=
  let v := if negb (F64.is_finite v) then F64.of_Z 0 else v in
  let v := if F64.ltb v (F64.of_Z 0) then F64.of_Z 0 else v in
  if F64.ltb (F64.of_Z 100) v then F64.of_Z 100 else v.

Definition newest_metric (a b : DeviceMetric) : bool := dm_CreatedAt b <? dm_CreatedAt a.

Section history.
Context `{PG : PgLib} {L : Type}.

Definition in_window (deviceID : uuid) (cutoff : Z) (m : DeviceMetric) : bool :=
  N.eqb (dm_DeviceID m) deviceID && (cutoff <=? dm_CreatedAt m).

(** One group of the GROUP BY, aggregated and clamped. *)
Definition series_point (bucket : Z) (rows : list DeviceMetric) (start : Z) : DeviceMetricSeriesPoint :=
  let group := List.filter (fun m => bucket_of bucket m =? start) rows in
  {| sp_T := start; sp_CPUUsage := sanitizeTelemetryFloat (pg_avg (map dm_CPUUsage group));
     sp_RAMUsedPercent := clamp_percent (coalesce_avg (omap (fun m => percent (dm_RAMUsed m) (dm_RAMTotal m)) group)) |}.

Definition series (bucket : Z) (rows : list DeviceMetric) : list DeviceMetricSeriesPoint :=
  map (series_point bucket rows) (sort_slice Z.ltb (nodup Z.eq_dec (map (bucket_of bucket) rows))).

Definition disk_sample (m : DeviceMetric) : option DeviceMetricDiskSample :=
  let dt := dm_DiskTotal m in let du := dm_DiskUsed m in
  if (0 <? dt) || (0 <? du) then
    let du := if (dt <? du) && (0 <? dt) then dt else du in
    Some {| ds_TotalBytes := dt; ds_UsedBytes := du; ds_SampledAt := dm_CreatedAt m |}
  else None.

Definition LoadDeviceMetricHistory (deviceID : uuid) (hours : Z) : go L DeviceMetricHistory :=
  let hours := clamp_hours hours in
  let bucket := bucket_seconds hours in
  t ← now;
  let cutoff := t - hours * 3600 * second in
  points ← wrap "database: query device_metrics series" (select (fun db _ =>
    inr (series bucket (List.filter (in_window deviceID cutoff) (t_metrics db)))));
  disk ← wrap "database: query device_metrics disk" (select (fun db _ =>
    inr (match sort_slice newest_metric (List.filter (in_window deviceID cutoff) (t_metrics db)) with
         | [] => None
         | m :: _ => disk_sample m end)));
  mret {| mh_DeviceID := deviceID; mh_Hours := hours; mh_BucketSeconds := bucket; mh_Series := points; mh_Disk := disk |}.
End history.

(** ** MarshalTelemetryUpdate (dash_wire.go) *)
Section wire.
Context `{JC : JsonCodec} `{UL : UuidLib} `{GF : GoFmt} `{PG : PgLib} `{C2 : C2Dispatcher L}.

Definition opt_member (k v : string) : list (string * json) :=
  if String.eqb v "" then [] else [(k, jstr v)].

Definition MarshalTelemetryUpdate (certSerial humanID : string) (assetID : uuid) (p : TelemetryPayload) : go L json :=
  l ← links;
  t ← now;
  let c2On := existsb (String.eqb certSerial) (connected_serials l) in
  row ← (if N.eqb assetID uuid_nil then mret None
         else r ← attempt (GetAssetCompliance assetID);
              mret match r with inr row => Some row | inl _ => None end);
  let status := match row with Some r => Str.trim_space (cmp_Status r) | None => ""%string end in
  let reason := match row with Some r => Str.trim_space (cmp_Reason r) | None => ""%string end in
  let quarantined := match row with Some r => cmp_QuarantineEnabled r | None => false end in
  mret (JObj (jmap [("type", jstr "telemetry_update"); ("asset", JObj (jmap (
    (if N.eqb assetID uuid_nil then [] else [("id", jstr (uuid_string assetID))])
    ++ [("human_id", jstr humanID); ("hostname", jstr (tp_Hostname p))]
    ++ opt_member "os_type" (deriveAssetOsType p)
    ++ [("os", jstr (Str.trim_space (tp_OSFamily p +:+ " " +:+ tp_OSVersion p))); ("cpu_model", jstr (tp_CPUModel p));
        ("cpu_logical_cores", JNum (F64.of_Z (tp_CPULogicalCores p))); ("cpu_usage_percent", JNum (tp_CPUUsagePercent p));
        ("total_ram_bytes", JNum (F64.of_Z (tp_TotalRAMBytes p)));
        ("memory_used_bytes", JNum (F64.of_Z (tp_MemoryUsedBytes p)))]
    ++ opt_member "last_seen" (fmt_rfc3339 t)
    ++ [("c2_connected", JBool c2On); ("installed_software", apps_json (tp_InstalledSoftware p))]
    ++ opt_member "compliance_status" status ++ opt_member "compliance_reason" reason
    ++ [("quarantine_enabled", JBool quarantined)])))]%string)).

(** serve.go's onTelemetryAccepted: the dashboards see the refreshed row. *)
Definition onTelemetryAccepted (certSerial humanID : string) (assetID : uuid) (p : TelemetryPayload) : go L () :=
  msg ← MarshalTelemetryUpdate certSerial humanID assetID p; emit (Broadcast msg).
End wire.

(** ** ProcessTelemetry *)

Record TelemetryProcessResult := { tr_AssetID : uuid; tr_HumanID : string; tr_Response : list (string * json) }.

Definition u64ToMetricInt64 (u : Z) : Z := if 2 ^ 63 - 1 <? u then 2 ^ 63 - 1 else u.

Section process.
Context `{JC : JsonCodec} `{UL : UuidLib} `{GF : GoFmt} `{PG : PgLib} `{EV : Environ} `{CSR : CsrLib} `{JL : JwtLib}
        `{C2 : C2Dispatcher L}.

(** What follows the upsert: the metrics row, the compliance check, the heartbeat, the
    dashboards, the answer. *)
Definition persist_and_answer (certSerial : string) (payload : TelemetryPayload) (osType : string)
    (assetID : uuid) (humanID : string) : go L TelemetryProcessResult :=
  _ ← wrap "persist device metrics"
        (InsertDeviceMetric assetID (tp_CPUUsagePercent payload)
           (u64ToMetricInt64 (tp_TotalRAMBytes payload)) (u64ToMetricInt64 (tp_MemoryUsedBytes payload))
           (u64ToMetricInt64 (tp_RootDiskTotalBytes payload)) (u64ToMetricInt64 (tp_RootDiskUsedBytes payload)));
  let platformKey := Str.to_lower (Str.trim_space (deriveAssetOsType payload)) in
  _ ← wrap "compliance evaluation"
        (EvaluateAfterTelemetry assetID certSerial platformKey (tp_MDMPolicyEnforcement payload));
  _ ← OnHeartbeat assetID;
  _ ← onTelemetryAccepted certSerial humanID assetID payload;
  let resp := jmap [("status", jstr "ok"); ("asset_id", jstr (uuid_string assetID)); ("human_id", jstr humanID)]%string in
  resp ← wrap "android policy attachment" (AppendAndroidPolicyToTelemetryResponse assetID osType resp);
  resp ← wrap "mdm downlink attachment" (AppendMDMDownlink assetID osType resp);
  mret {| tr_AssetID := assetID; tr_HumanID := humanID; tr_Response := resp |}.

Definition ProcessTelemetry (certSerial : string) (payload : TelemetryPayload) : go L TelemetryProcessResult :=
  let payload := with_hostname (Str.trim_space (tp_Hostname payload)) payload in
  if String.eqb (tp_Hostname payload) "" then fail (ErrMsg "hostname is required") else
  let certSerial := Str.trim_space certSerial in
  if String.eqb certSerial "" then fail (ErrMsg "cert serial is required") else
  let osType := deriveAssetOsType payload in
  x ← upsertAssetFromTelemetry certSerial payload osType;
  persist_and_answer certSerial payload osType x.1 x.2.

(** ** POST /v1/telemetry *)
Definition NewTelemetryHandler (MTLSRequired : bool) (r : Request) : go L Response :=
  let? _ := require_method "POST" r in
  if negb MTLSRequired
  then mret (writeTicketsError 503 "telemetry requires ARX_TLS_CERT, ARX_TLS_KEY, and ARX_MTLS_CLIENT_CA_BUNDLE") else
  match rq_tls r with
  | NoTLS => mret (writeTicketsError 403 "tls is required for telemetry")
  | TLSNoClient => mret (writeTicketsError 403 "mutual tls with a verified client certificate is required for telemetry")
  | TLSClient serial =>
      match read_body maxTelemetryBody r with
      | None => mret (writeTicketsError 400 "could not read request body")
      | Some body =>
      match (m ← unmarshal_map body; decode_telemetry m) with
      | None => mret (writeTicketsError 400 "invalid JSON body")
      | Some payload =>
          if String.eqb (Str.trim_space (tp_Hostname payload)) ""
          then mret (writeTicketsError 400 "hostname is required") else
          if String.eqb serial "" then mret (writeTicketsError 400 "client certificate has no serial number") else
          result ← attempt (ProcessTelemetry serial payload);
          mret match result with
               | inl _ => writeTicketsError 500 "failed to persist telemetry"
               | inr res => writeTicketsJSON 200 (JObj (tr_Response res))
               end
      end end
  end.

(** ** Telemetry over the agent's WebSocket (ws/agent_telemetry.go)

    The answer [ProcessTelemetry] builds is not sent. *)
Definition agentMsgTelemetry : string := "telemetry".

Definition tryHandleAgentTelemetry (certSerial data : string) : go L bool :=
  match (m ← unmarshal_map data; t ← dec_string "" (field "type" m); Some (m, t)) with
  | None => mret false
  | Some (m, t) =>
      if negb (String.eqb (Str.trim_space t) agentMsgTelemetry) then mret false else
      match (_ ← dec_field dec_uint64 0 (field "uptime_seconds" m); decode_telemetry m) with
      | None => mret true
      | Some payload => _ ← attempt (ProcessTelemetry certSerial payload); mret true
      end
  end.
End process.

(** ** GET /v1/devices/{id}/metrics (api/device_metrics.go) *)
Section metrics_route.
Context `{UL : UuidLib} `{GF : GoFmt} `{PG : PgLib} `{JL : JwtLib} {L : Type}.
Context (origins : list string).

Definition parseMetricsHours (r : Request) : Z :=
  let q := Str.trim_space (rq_query r "hours") in
  if String.eqb q "" then 24 else
  match Str.atoi q with
  | Some n => if n <? 1 then 24 else n
  | None => 24
  end.

Definition point_json (p : DeviceMetricSeriesPoint) : json :=
  JObj (jmap [("t", jstr (fmt_time (sp_T p))); ("cpu_usage", JNum (sp_CPUUsage p));
              ("ram_used_percent", JNum (sp_RAMUsedPercent p))]%string).

Definition disk_json (d : DeviceMetricDiskSample) : json :=
  JObj (jmap [("total_bytes", JNum (F64.of_Z (ds_TotalBytes d))); ("used_bytes", JNum (F64.of_Z (ds_UsedBytes d)));
              ("sampled_at", jstr (fmt_time (ds_SampledAt d)))]%string).

Definition history_json (h : DeviceMetricHistory) : json :=
  JObj (jmap ([("device_id", jstr (uuid_string (mh_DeviceID h))); ("hours", JNum (F64.of_Z (mh_Hours h)));
               ("bucket_seconds", JNum (F64.of_Z (mh_BucketSeconds h)));
               ("series", JArr (map point_json (mh_Series h)))]%string
    ++ match mh_Disk h with None => [] | Some d => [("disk"%string, disk_json d)] end)).

Definition metrics_handleGet (r : Request) : go L Response :=
  let? _ := require_method "GET" r in
  let? _ := RequireMinRole origins r RoleViewer in
  match uuid_parse (Str.trim_space (rq_path_id r)) with
  | None => mret (writeTicketsError 400 "invalid device id")
  | Some deviceID =>
      there ← attempt (ensureAssetExists deviceID);
      match there with
      | inl e => mret (writeTicketsError 404 (err_text e))
      | inr _ =>
          h ← attempt (LoadDeviceMetricHistory deviceID (parseMetricsHours r));
          mret match h with
               | inl _ => writeTicketsError 500 "failed to load metrics"
               | inr h => writeTicketsJSON 200 (history_json h)
               end
      end
  end.
End metrics_route.
