(* ===== verification/TelemetryFacts.v ===== *)
(** * Telemetry: who a report belongs to, the assets table, what is stored and what is lost

    Properties of [Telemetry]. *)

From S2P Require Import Prelude GoStd Decimal Float64 Json Ext World Auth DeviceCommands CommandFlow.
From S2P Require Import CommandFacts Alerting AlertEngine Compliance Enrollment AndroidPolicies MdmDownlink Telemetry.

(** ** The table's constraints, as an invariant *)

Definition assets_ok (db : Tables) : Prop :=
  Forall (fun a => asset_row_ok a = true) (t_assets db) /\
  forall i j a b, t_assets db !! i = Some a -> t_assets db !! j = Some b -> assets_clash a b = true -> i = j.

Lemma same_text_sym a b : same_text a b = same_text b a.
Proof. destruct a as [s|], b as [t|]; simpl; try done. rewrite String.eqb_sym. destruct (String.eqb_spec t s) as [->|]; done. Qed.

Lemma clash_sym a b : assets_clash a b = assets_clash b a.
Proof.
  unfold assets_clash. by rewrite N.eqb_sym, String.eqb_sym, (same_text_sym (a_hostname a)), (same_text_sym (a_cert_serial a)).
Qed.

Lemma assets_ok_same db db' : t_assets db' = t_assets db -> keeps assets_ok db db'.
Proof. intros E. unfold keeps, assets_ok. by rewrite E. Qed.

Lemma assets_ok_add a db : asset_storable (t_assets db) a = true ->
  keeps assets_ok db (with_assets (t_assets db ++ [a]) db).
Proof.
  unfold asset_storable. rewrite andb_true_iff, negb_true_iff. intros [Hr Hc] [Hf Hu].
  assert (Hnew : forall i b, t_assets db !! i = Some b -> assets_clash a b = false).
  { intros i b Hi. destruct (assets_clash a b) eqn:E; [|done].
    rewrite <- Hc. symmetry. apply existsb_exists. exists b. split; [|done].
    by eapply list_elem_of_In, list_elem_of_lookup_2. }
  split; cbn [t_assets with_assets].
  - apply Forall_app. by repeat constructor.
  - intros i j x y. rewrite !lookup_app_Some, !list_lookup_singleton_Some.
    intros [Hi|(Hi & Ei & <-)] [Hj|(Hj & Ej & <-)] Hxy; [by eapply Hu| | |lia].
    + by rewrite clash_sym, (Hnew i) in Hxy.
    + by rewrite (Hnew j) in Hxy.
Qed.

(** An update of the rows of one id whose new rows are storable next to the others. *)
Lemma assets_ok_update id f db : (forall a, a_id (f a) = a_id a) ->
  existsb (fun a => is_asset id a
    && negb (asset_storable (List.filter (fun a => negb (is_asset id a)) (t_assets db)) (f a))) (t_assets db) = false ->
  keeps assets_ok db (with_assets (update_where (is_asset id) f (t_assets db)) db).
Proof.
  intros Hid Hst [Hf Hu].
  assert (Hs : forall i a, t_assets db !! i = Some a -> is_asset id a = true ->
    asset_row_ok (f a) = true /\ forall j b, t_assets db !! j = Some b -> is_asset id b = false -> assets_clash (f a) b = false).
  { intros i a Hi Ha. destruct (asset_storable (List.filter (fun a => negb (is_asset id a)) (t_assets db)) (f a)) eqn:E.
    - unfold asset_storable in E. apply andb_true_iff in E as [E1 E2]. split; [done|]. intros j b Hj Hb.
      apply negb_true_iff in E2. destruct (assets_clash (f a) b) eqn:C; [|done]. rewrite <- E2. symmetry.
      apply existsb_exists. exists b. split; [|done]. apply filter_In. rewrite Hb. split; [|done].
      by eapply list_elem_of_In, list_elem_of_lookup_2.
    - exfalso. rewrite <- Bool.not_true_iff_false in Hst. apply Hst, existsb_exists. exists a. rewrite Ha, E. split; [|done].
      by eapply list_elem_of_In, list_elem_of_lookup_2. }
  split; cbn [t_assets with_assets]; unfold update_where.
  - apply Forall_lookup. intros i b. rewrite list_lookup_fmap_Some. intros (a & -> & Hi).
    destruct (is_asset id a) eqn:E; [by eapply Hs|]. by eapply (Forall_lookup_1 _ _ _ _ Hf).
  - intros i j x y. rewrite !list_lookup_fmap_Some. intros (a & -> & Hi) (b & -> & Hj) Hc.
    destruct (is_asset id a) eqn:Ea, (is_asset id b) eqn:Eb.
    + apply (Hu i j a b Hi Hj). unfold is_asset in *. apply N.eqb_eq in Ea, Eb. unfold assets_clash. subst. by rewrite Eb, N.eqb_refl.
    + destruct (Hs i a Hi Ea) as [_ H]. by rewrite (H j b) in Hc.
    + rewrite clash_sym in Hc. destruct (Hs j b Hj Eb) as [_ H]. by rewrite (H i a) in Hc.
    + by eapply Hu.
Qed.

(** An update that leaves the unique columns alone and keeps the row's own constraints. *)
Lemma assets_ok_columns p f db :
  (forall a, assets_clash a = assets_clash (f a) /\ (forall b, assets_clash b (f a) = assets_clash b a)) ->
  (forall a, In a (t_assets db) -> asset_row_ok a = true -> asset_row_ok (f a) = true) ->
  keeps assets_ok db (with_assets (update_where p f (t_assets db)) db).
Proof.
  intros Hc Hr [Hf Hu]. split; cbn [t_assets with_assets]; unfold update_where.
  - apply Forall_lookup. intros i b. rewrite list_lookup_fmap_Some. intros (a & -> & Hi).
    assert (asset_row_ok a = true) by (by eapply (Forall_lookup_1 _ _ _ _ Hf)).
    destruct (p a); [|done]. apply Hr; [|done]. by eapply list_elem_of_In, list_elem_of_lookup_2.
  - intros i j x y. rewrite !list_lookup_fmap_Some. intros (a & -> & Hi) (b & -> & Hj) Hcl.
    apply (Hu i j a b Hi Hj). rewrite <- Hcl.
    destruct (p a), (p b); rewrite ?(proj2 (Hc b)), <- ?(proj1 (Hc a)); done.
Qed.

(** ** Who a report belongs to *)

(** The specification: a report changes the row that has its serial number, else the row
    that has its hostname, else a new one. *)
Inductive registers (serial : string) (p : TelemetryPayload) (osType : string) (meta : json) (t : Z) (fresh : uuid)
    (l : list Asset) : uuid * string -> list Asset -> Prop :=
| registers_serial a : In a l -> owns_serial serial a = true ->
    registers serial p osType meta t fresh l (a_id a, a_human_id a)
      (update_where (is_asset (a_id a)) (refreshed_asset serial p osType meta t) l)
| registers_hostname a : (forall b, In b l -> owns_serial serial b = false) ->
    In a l -> owns_hostname (tp_Hostname p) a = true ->
    registers serial p osType meta t fresh l (a_id a, a_human_id a)
      (update_where (is_asset (a_id a)) (refreshed_asset serial p osType meta t) l)
| registers_new n : (forall b, In b l -> owns_serial serial b = false /\ owns_hostname (tp_Hostname p) b = false) ->
    (forall b k, In b l -> arx_c_number b = Some k -> k < n) -> 0 < n < 2 ^ 63 ->
    registers serial p osType meta t fresh l (fresh, "arx-c-" +:+ Str.itoa n)
      (l ++ [new_asset fresh ("arx-c-" +:+ Str.itoa n) serial p osType meta t]).

(** ** The next number *)

Lemma fold_max_ge (l : list Z) m : m <= fold_left Z.max l m /\ forall n, In n l -> n <= fold_left Z.max l m.
Proof.
  revert m; induction l as [|x l IH]; intros m; simpl; [split; [lia|done]|].
  destruct (IH (Z.max m x)) as [H1 H2]. split; [lia|]. intros n [->|H]; [lia|by apply H2].
Qed.

Lemma next_arx_c_spec l n : next_arx_c l = inr n ->
  (forall b k, In b l -> arx_c_number b = Some k -> k < n) /\ 0 < n < 2 ^ 63.
Proof.
  unfold next_arx_c. destruct (existsb _ _); [done|]. cbv zeta.
  assert (Hin : forall b k, In b l -> arx_c_number b = Some k -> In k (omap arx_c_number l)).
  { intros b k Hb E. apply list_elem_of_In, list_elem_of_omap. exists b. by rewrite list_elem_of_In. }
  assert (Hpos : forall k, In k (omap arx_c_number l) -> 0 <= k).
  { intros k Hk. apply list_elem_of_In, list_elem_of_omap in Hk as (b & _ & E). unfold arx_c_number in E.
    destruct (Str.has_prefix _ _); [|done]. by eapply digits_nonneg. }
  destruct (omap arx_c_number l) as [|m r]; simpl in *.
  - destruct (Z.leb_spec (2 ^ 63) 1); [done|]. intros [= <-]. split; [|lia]. intros b k Hb E. by destruct (Hin b k).
  - destruct (fold_max_ge r m) as [H1 H2]. pose proof (Hpos m (or_introl eq_refl)).
    destruct (Z.leb_spec (2 ^ 63) (fold_left Z.max r m + 1)); [done|]. intros [= <-]. split; [|lia].
    intros b k Hb E. destruct (Hin b k Hb E) as [<-|Hk]; [lia|]. specialize (H2 k Hk). lia.
Qed.

Section upsert.
Context `{UL : UuidLib} `{GF : GoFmt} {L : Type}.
Implicit Types w : World L.

Lemma lookup_inv p arg w r w' : lookup_asset p arg w = (inr r, w') ->
  w_db w' = w_db w /\ match r with
    | Some (id, hid) => exists a, In a (t_assets (w_db w)) /\ p a = true /\ id = a_id a /\ hid = a_human_id a
    | None => forall a, In a (t_assets (w_db w)) -> p a = false end.
Proof.
  intros H. split; [by rewrite <- (select_db _ w : w_db (lookup_asset p arg w).2 = _), H|].
  apply select_inr in H. destruct (negb _); [done|]. injection H as <-.
  destruct (List.find p (t_assets (w_db w))) as [a|] eqn:E; simpl.
  - apply find_some in E as [Hi Hp]. eauto.
  - intros a. by apply find_none.
Qed.

Lemma select_keeps {A} (q : Tables -> Z -> err + A) w x w' : select q w = (inr x, w') ->
  w_db w' = w_db w /\ w_now w' = w_now w /\ w_next_id w' = w_next_id w.
Proof.
  unfold select, stmt, next_fault. destruct (w_faults w) as [|[msg|] fs]; simpl; [|done|];
    destruct (q (w_db w) (w_now w)); by intros [= _ <-].
Qed.

Lemma insert_asset_inv serial p osType meta w x w' : insert_asset serial p osType meta w = (inr x, w') ->
  (forall b, In b (t_assets (w_db w)) -> owns_serial serial b = false /\ owns_hostname (tp_Hostname p) b = false) ->
  exists l', registers serial p osType meta (w_now w) (gen_random_uuid (w_next_id w)) (t_assets (w_db w)) x l' /\
    w_db w' = with_assets l' (w_db w) /\ (assets_ok (w_db w) -> assets_ok (w_db w')).
Proof.
  intros (n & w1 & H1 & H2)%bind_inv Hnew. apply wrap_inv in H1, H2.
  destruct (select_keeps _ _ _ _ H1) as (Ed & Et & En). apply select_inr, next_arx_c_spec in H1 as [Hlt Hn].
  apply insert_id_inr in H2. rewrite Ed, Et, En in H2. cbv zeta in H2.
  destruct (asset_storable _ _) eqn:Es; [|done]. injection H2 as <- Edb.
  eexists. split_and!; [by constructor|done|]. rewrite <- Edb. by apply assets_ok_add.
Qed.

Lemma update_asset_inv a serial p osType meta w w' : update_asset (a_id a) serial p osType meta w = (inr (), w') ->
  let l' := update_where (is_asset (a_id a)) (refreshed_asset serial p osType meta (w_now w)) (t_assets (w_db w)) in
  w_db w' = with_assets l' (w_db w) /\ (assets_ok (w_db w) -> assets_ok (w_db w')).
Proof.
  intros H%wrap_inv%exec_inr. cbv zeta in *. destruct (existsb _ _) eqn:E; [done|]. injection H as <-.
  split; [done|]. by apply assets_ok_update.
Qed.

Lemma upsert_registers serial p osType w x w' : upsertAssetFromTelemetry serial p osType w = (inr x, w') ->
  exists l', registers serial p osType (telemetry_metadata (w_now w) p osType) (w_now w) (gen_random_uuid (w_next_id w))
      (t_assets (w_db w)) x l' /\
    w_db w' = with_assets l' (w_db w) /\ (assets_ok (w_db w) -> assets_ok (w_db w')).
Proof.
  intros (w0 & w1 & E0 & N0 & I0 & H & E1)%transaction_inv. rewrite E1, <- E0, <- N0, <- I0. clear E0 N0 I0 E1 w w'.
  apply bind_inv in H as ([] & w2 & H2%wrap_inv%select_keeps & H). destruct H2 as (E2 & N2 & I2).
  rewrite <- E2, <- N2, <- I2. clear E2 N2 I2 w0.
  apply bind_inv in H as (t & w3 & [= <- <-] & H). destruct (floats_ok p); [|done]. cbn [negb] in H. cbv zeta in H.
  apply bind_inv in H as (bySerial & w4 & H4%wrap_inv & H). pose proof H4 as K4. apply select_keeps in K4 as (E4 & N4 & I4).
  apply lookup_inv in H4 as [_ H4]. rewrite <- E4 in H4. rewrite <- N4 in H. rewrite <- E4, <- N4, <- I4. clear E4 N4 I4 w2.
  apply bind_inv in H as (found & w5 & H5 & H).
  assert (w_db w5 = w_db w4 /\ w_now w5 = w_now w4 /\ w_next_id w5 = w_next_id w4) as (E5 & N5 & I5).
  { destruct bySerial; [by injection H5 as _ <-|]. by apply wrap_inv, select_keeps in H5. }
  destruct bySerial as [[id hid]|].
  - injection H5 as <- <-. destruct H4 as (a & Ha & Ho & -> & ->).
    apply bind_inv in H as ([] & w6 & H6%update_asset_inv & [= <- <-]). destruct H6 as [E6 Hk].
    eexists. split; [by apply registers_serial|done].
  - apply wrap_inv, lookup_inv in H5 as [_ H5]. rewrite <- E5 in H4, H5. rewrite <- N5 in H. rewrite <- E5, <- N5, <- I5.
    destruct found as [[id hid]|].
    + destruct H5 as (a & Ha & Ho & -> & ->).
      apply bind_inv in H as ([] & w6 & H6%update_asset_inv & [= <- <-]). destruct H6 as [E6 Hk].
      eexists. split; [by apply registers_hostname|done].
    + apply (insert_asset_inv serial p osType _ w5); [done|]. auto.
Qed.
End upsert.

Section registration.
Context `{GF : GoFmt} {L : Type}.

(** Afterwards the serial number and the hostname are that device's, and no other's. *)
Lemma registers_owner serial p osType meta t fresh l x l' db : registers serial p osType meta t fresh l x l' ->
  serial <> ""%string -> tp_Hostname p <> ""%string -> assets_ok (with_assets l' db) ->
  (exists a, In a l' /\ a_id a = x.1 /\ a_human_id a = x.2 /\ a_cert_serial a = Some serial /\
     a_hostname a = Some (tp_Hostname p) /\ a_os_type a = osType /\ a_last_seen a = Some t) /\
  forall a, In a l' -> owns_serial serial a = true \/ owns_hostname (tp_Hostname p) a = true -> a_id a = x.1.
Proof.
  intros Hr Hs Hh [_ Hu]. cbn [t_assets with_assets] in Hu.
  assert (H : exists a, In a l' /\ a_id a = x.1 /\ a_human_id a = x.2 /\ a_cert_serial a = Some serial /\
     a_hostname a = Some (tp_Hostname p) /\ a_os_type a = osType /\ a_last_seen a = Some t).
  { destruct Hr as [a Ha _|a _ Ha _|n _ _ _].
    1, 2: exists (refreshed_asset serial p osType meta t a); split; [|done];
      apply in_map_iff; exists a; unfold is_asset; by rewrite N.eqb_refl.
    eexists. split; [apply in_or_app; right; by left|done]. }
  split; [done|]. destruct H as (a & Ha & Hid & _ & Es & Eh & _). intros b Hb Hown. rewrite <- Hid.
  apply list_elem_of_In, list_elem_of_lookup in Ha as [i Hi]. apply list_elem_of_In, list_elem_of_lookup in Hb as [j Hj].
  assert (i = j) as ->; [|congruence]. apply (Hu i j a b Hi Hj). unfold assets_clash. apply orb_true_iff.
  unfold owns_serial, owns_hostname in Hown. destruct Hown as [H|H].
  - right. rewrite Es. destruct (a_cert_serial b); [|done]. simpl. apply String.eqb_eq in H as ->.
    by rewrite String.eqb_refl, (proj2 (String.eqb_neq _ _)).
  - left. apply orb_true_iff. right. rewrite Eh. destruct (a_hostname b); [|done]. simpl. apply String.eqb_eq in H as ->.
    by rewrite String.eqb_refl, (proj2 (String.eqb_neq _ _)).
Qed.
End registration.

(** C2: the transaction with which the handling of a report begins, upsertAssetFromTelemetry,
    changes the assets table as the specification [registers] says -- the row that has the serial
    number, else the row that has the hostname, else a new row with the next free arx-c number --
    and nothing else in the database; when it fails the database is as it was.  Afterwards the
    serial number and the hostname belong to that device alone, so that its next report finds it
    again.  (What ProcessTelemetry stores after it, metrics, commands and alerts, is not undone
    by a later failure and is not part of this.) *)
Theorem registration_refines_identity `{UuidLib} `{GoFmt} {L : Type} serial p osType (w : World L) :
  assets_ok (w_db w) -> serial <> ""%string -> tp_Hostname p <> ""%string ->
  match upsertAssetFromTelemetry serial p osType w with
  | (inl _, w') => w_db w' = w_db w
  | (inr x, w') => exists l',
      registers serial p osType (telemetry_metadata (w_now w) p osType) (w_now w) (gen_random_uuid (w_next_id w))
        (t_assets (w_db w)) x l' /\
      w_db w' = with_assets l' (w_db w) /\ assets_ok (w_db w') /\
      (exists a, In a l' /\ a_id a = x.1 /\ a_human_id a = x.2 /\ a_cert_serial a = Some serial /\
         a_hostname a = Some (tp_Hostname p) /\ a_os_type a = osType /\ a_last_seen a = Some (w_now w)) /\
      (forall a, In a l' -> owns_serial serial a = true \/ owns_hostname (tp_Hostname p) a = true -> a_id a = x.1)
  end.
Proof.
  intros Hok Hs Hh. destruct (upsertAssetFromTelemetry serial p osType w) as [[e|x] w'] eqn:E.
  - by eapply transaction_inl.
  - apply upsert_registers in E as (l' & Hr & Ed & Hk). specialize (Hk Hok). exists l'. rewrite Ed in *.
    destruct (registers_owner _ _ _ _ _ _ _ _ _ _ Hr Hs Hh Hk). by split_and!.
Qed.

(** ** Which reports are refused *)

Lemma clash_apart (l : list Asset) i j a b : (forall i j a b, l !! i = Some a -> l !! j = Some b -> assets_clash a b = true -> i = j) ->
  l !! i = Some a -> l !! j = Some b -> a_id a <> a_id b -> assets_clash a b = false.
Proof.
  intros Hu Hi Hj Hne. destruct (assets_clash a b) eqn:E; [|done]. pose proof (Hu i j a b Hi Hj E) as ->. congruence.
Qed.

Lemma obj_set_nul k v m : has_nul k = false -> json_has_nul v = false -> json_has_nul (JObj m) = false ->
  json_has_nul (JObj (obj_set k v m)) = false.
Proof.
  intros Hk Hv. cbn [json_has_nul]. induction m as [|[k' v'] m IH]; cbn [obj_set existsb fst snd].
  - by rewrite Hk, Hv.
  - intros H. pose proof H as H'. apply orb_false_iff in H' as [H1 H2].
    destruct (String.eqb k k'); [cbn [existsb fst snd]; by rewrite Hk, Hv, H2|].
    destruct (str_lt k k'); cbn [existsb fst snd]; [by rewrite Hk, Hv, H1, H2|]. by rewrite H1, IH.
Qed.

Lemma fold_max_in (l : list Z) m : fold_left Z.max l m = m \/ In (fold_left Z.max l m) l.
Proof.
  revert m. induction l as [|x l IH]; intros m; [by left|]. cbn [fold_left In]. destruct (IH (Z.max m x)) as [->|H]; [|by auto].
  destruct (Z.max_spec m x) as [[_ ->]|[_ ->]]; auto.
Qed.

(** The numbers are used up. *)
Definition exhausted (l : list Asset) : Prop := exists a n, In a l /\ arx_c_number a = Some n /\ 2 ^ 63 - 1 <= n.

Lemma next_arx_c_refused l : (exists e, next_arx_c l = inl e) <-> exhausted l.
Proof.
  assert (Hin : forall n, In n (omap arx_c_number l) <-> exists a, In a l /\ arx_c_number a = Some n).
  { intros n. rewrite <- list_elem_of_In, list_elem_of_omap. by setoid_rewrite list_elem_of_In. }
  unfold next_arx_c, exhausted. destruct (existsb _ _) eqn:Ex.
  - split; [|by eexists]. intros _. apply existsb_exists in Ex as (n & Hn & Hle%Z.leb_le). apply Hin in Hn as (a & Ha & E).
    exists a, n. split_and!; [done|done|lia].
  - cbv zeta. assert (Hsmall : forall n, In n (omap arx_c_number l) -> n < 2 ^ 63).
    { intros n Hn. destruct (Z.leb_spec (2 ^ 63) n) as [Hle|]; [|done]. rewrite <- Bool.not_true_iff_false in Ex. destruct Ex.
      apply existsb_exists. exists n. split; [done|]. by apply Z.leb_le. }
    destruct (omap arx_c_number l) as [|m r] eqn:Eo.
    + split; [by intros [e ?]|]. intros (a & n & Ha & E & _). by destruct (proj2 (Hin n) (ex_intro _ a (conj Ha E))).
    + destruct (fold_max_ge r m) as [H1 H2]. destruct (Z.leb_spec (2 ^ 63) (fold_left Z.max r m + 1)) as [Hle|Hlt].
      * split; [|by eexists]. intros _.
        assert (Hmax : In (fold_left Z.max r m) (m :: r)) by (destruct (fold_max_in r m) as [->|H]; [by left|by right]).
        apply Hin in Hmax as (a & Ha & E). exists a, (fold_left Z.max r m). split_and!; [done|done|lia].
      * split; [by intros [e ?]|]. intros (a & n & Ha & E & Hn).
        assert (Hn' : In n (m :: r)) by (apply Hin; by exists a). exfalso. destruct Hn' as [->|Hn']; [lia|]. specialize (H2 n Hn'). lia.
Qed.

Lemma digits_no_dash s : forallb Str.is_digit (Str.bytes s) = true -> Str.has_byte "-" s = false.
Proof.
  induction s as [|c s IH]; [done|]. cbn. intros [Hc Hs]%andb_true_iff. rewrite IH by done. rewrite orb_false_r.
  destruct (Ascii.eqb_spec c "-") as [->|]; [done|done].
Qed.

Lemma made_human_id n : 0 <= n -> human_id_ok ("arx-c-" +:+ Str.itoa n) = true.
Proof.
  intros Hn. pose proof (itoa_digits n Hn) as Hd. unfold human_id_ok.
  change ("arx-c-" +:+ Str.itoa n)%string with ("arx" +:+ String "-" ("c" +:+ String "-" (Str.itoa n)))%string.
  rewrite !Str.split_on_app, Str.split_on_no_sep by (done || by apply digits_no_dash).
  unfold all_nonempty. rewrite Hd. pose proof (digits_itoa n Hn) as H. by destruct (Str.itoa n).
Qed.

Lemma made_number n b : 0 <= n -> a_human_id b = ("arx-c-" +:+ Str.itoa n)%string -> arx_c_number b = Some n.
Proof.
  intros Hn E. unfold arx_c_number. rewrite E.
  change (Str.has_prefix ("arx-c-" +:+ Str.itoa n) "arx-c-") with (Str.has_prefix (Str.itoa n) "").
  replace (Str.has_prefix (Str.itoa n) "") with true by (by destruct (Str.itoa n)).
  replace (Str.drop 6 ("arx-c-" +:+ Str.itoa n)) with (Str.itoa n); [by apply digits_itoa|].
  change (Str.drop 6 ("arx-c-" +:+ Str.itoa n)) with (String.substring 0 (String.length (Str.itoa n) - 0) (Str.itoa n)).
  by rewrite Nat.sub_0_r, substring_all.
Qed.

Section refused.
Context `{UL : UuidLib} `{GF : GoFmt} {L : Type}.
Context (serial : string) (p : TelemetryPayload) (osType : string).
Implicit Types w : World L.

(** A report PostgreSQL can take. *)
Definition clean_report w : Prop :=
  serial <> ""%string /\ tp_Hostname p <> ""%string /\ text_ok serial = true /\ text_ok (tp_Hostname p) = true /\
  floats_ok p = true /\ one_of osType os_types = true /\ json_has_nul (telemetry_metadata (w_now w) p osType) = false.

(** The serial number is one device's and the hostname another's. *)
Definition torn (l : list Asset) : Prop :=
  exists a b, In a l /\ In b l /\ owns_serial serial a = true /\ owns_hostname (tp_Hostname p) b = true /\ a_id a <> a_id b.

Definition unknown_device (l : list Asset) : Prop :=
  forall a, In a l -> owns_serial serial a = false /\ owns_hostname (tp_Hostname p) a = false.

Lemma refreshed_ok w meta t a : clean_report w -> meta = telemetry_metadata (w_now w) p osType -> asset_row_ok a = true ->
  asset_row_ok (refreshed_asset serial p osType meta t a) = true.
Proof.
  intros (_ & _ & Hs & Hh & _ & Ho & Hm) -> Ha. unfold asset_row_ok in *. cbn [refreshed_asset a_human_id a_os_type
    a_compliance_status a_display_name a_hostname a_cert_serial a_metadata]. rewrite !andb_true_iff, negb_true_iff in *.
  destruct_and?. split_and!; try done.
  - destruct (a_display_name a) as [d|]; [|done]. by destruct (String.eqb d "").
  - by apply obj_set_nul.
Qed.

Lemma new_ok w meta t id n : clean_report w -> meta = telemetry_metadata (w_now w) p osType -> 0 <= n ->
  asset_row_ok (new_asset id ("arx-c-" +:+ Str.itoa n) serial p osType meta t) = true.
Proof.
  intros (_ & _ & Hs & Hh & _ & Ho & Hm) -> Hn. unfold asset_row_ok. cbn [new_asset a_human_id a_os_type
    a_compliance_status a_display_name a_hostname a_cert_serial a_metadata]. rewrite made_human_id by done. cbn [opt_text_ok].
  rewrite Ho, Hs, Hh. cbn [andb]. rewrite !andb_true_l. apply negb_true_iff. cbn [json_has_nul existsb fst snd].
  by rewrite Hm.
Qed.

(** Two rows that do not clash: the refreshed one clashes with the other when that owns its
    serial number or its hostname. *)
Lemma refreshed_clash w meta t a b : clean_report w -> assets_clash a b = false ->
  assets_clash (refreshed_asset serial p osType meta t a) b = owns_hostname (tp_Hostname p) b || owns_serial serial b.
Proof.
  intros (Hs & Hh & _) Hc. unfold assets_clash in *. cbn [refreshed_asset a_id a_human_id a_hostname a_cert_serial].
  rewrite !orb_false_iff in Hc. destruct Hc as [[[-> ->] _] _]. cbn [orb]. unfold same_text, owns_hostname, owns_serial.
  rewrite (proj2 (String.eqb_neq _ _) Hs), (proj2 (String.eqb_neq _ _) Hh). cbn [negb]. 
  destruct (a_hostname b), (a_cert_serial b); rewrite ?andb_true_r, ?(String.eqb_sym (tp_Hostname p)), ?(String.eqb_sym serial); done.
Qed.

Definition is_left {A B} (x : A + B) : bool := match x with inl _ => true | inr _ => false end.

(** The row [a] of the table cannot be refreshed. *)
Definition update_clashes (meta : json) (t : Z) (a : Asset) (l : list Asset) : bool :=
  existsb (fun x => is_asset (a_id a) x &&
    negb (asset_storable (List.filter (fun y => negb (is_asset (a_id a) y)) l) (refreshed_asset serial p osType meta t x))) l.

Lemma update_refused w meta a : assets_ok (w_db w) -> clean_report w -> meta = telemetry_metadata (w_now w) p osType ->
  In a (t_assets (w_db w)) ->
  update_clashes meta (w_now w) a (t_assets (w_db w)) = true <->
  exists b, In b (t_assets (w_db w)) /\ a_id b <> a_id a /\ (owns_hostname (tp_Hostname p) b = true \/ owns_serial serial b = true).
Proof.
  intros [Hf Hu] Hc Hm Ha. unfold update_clashes. rewrite existsb_exists. apply list_elem_of_In, list_elem_of_lookup in Ha as [i Hi].
  assert (Hsame : forall x, In x (t_assets (w_db w)) -> is_asset (a_id a) x = true -> x = a).
  { intros x Hx Ex%N.eqb_eq. apply list_elem_of_In, list_elem_of_lookup in Hx as [j Hj].
    assert (j = i) as ->; [|congruence]. apply (Hu j i x a Hj Hi). unfold assets_clash. by rewrite Ex, N.eqb_refl. }
  assert (Hrow : asset_row_ok (refreshed_asset serial p osType meta (w_now w) a) = true).
  { apply (refreshed_ok w); [done|done|]. by eapply (Forall_lookup_1 _ _ _ _ Hf). }
  assert (Hcl : forall b, In b (t_assets (w_db w)) -> a_id b <> a_id a ->
    assets_clash (refreshed_asset serial p osType meta (w_now w) a) b = owns_hostname (tp_Hostname p) b || owns_serial serial b).
  { intros b Hb Hne. apply list_elem_of_In, list_elem_of_lookup in Hb as [j Hj]. apply (refreshed_clash w); [done|].
    by eapply clash_apart. }
  split.
  - intros (x & Hx & [Ex Hst]%andb_true_iff). apply Hsame in Ex as ->; [|done]. unfold asset_storable in Hst. rewrite Hrow in Hst.
    cbn [andb] in Hst. rewrite negb_involutive in Hst. apply existsb_exists in Hst as (b & [Hb Hne]%filter_In & Hbc).
    apply negb_true_iff, N.eqb_neq in Hne. rewrite Hcl in Hbc by done. apply orb_true_iff in Hbc. by exists b.
  - intros (b & Hb & Hne & Ho). exists a. split; [by eapply list_elem_of_In, list_elem_of_lookup_2|].
    unfold is_asset at 1. rewrite N.eqb_refl. unfold asset_storable. rewrite Hrow. cbn [andb]. rewrite negb_involutive.
    apply existsb_exists. exists b. split; [apply filter_In; split; [done|]; apply negb_true_iff; by apply N.eqb_neq|].
    rewrite Hcl by done. by apply orb_true_iff.
Qed.

(** A new row with the next number, the fresh id and names nobody has clashes with none. *)
Lemma new_storable w meta n : clean_report w -> meta = telemetry_metadata (w_now w) p osType ->
  unknown_device (t_assets (w_db w)) -> next_arx_c (t_assets (w_db w)) = inr n ->
  (forall a, In a (t_assets (w_db w)) -> a_id a <> gen_random_uuid (w_next_id w)) ->
  asset_storable (t_assets (w_db w))
    (new_asset (gen_random_uuid (w_next_id w)) ("arx-c-" +:+ Str.itoa n) serial p osType meta (w_now w)) = true.
Proof.
  intros Hc Hm Hun Hnext Hfresh. apply next_arx_c_spec in Hnext as [Hlt Hn]. unfold asset_storable.
  rewrite (new_ok w) by (done || lia). cbn [andb]. apply negb_true_iff. destruct (existsb _ _) eqn:Ex; [|done].
  apply existsb_exists in Ex as (b & Hb & Hcl). destruct (Hun b Hb) as [Hs Hh].
  unfold assets_clash in Hcl. cbn [new_asset a_id a_human_id a_hostname a_cert_serial] in Hcl.
  rewrite !orb_true_iff in Hcl. destruct Hcl as [[[E|E]|E]|E].
  - apply N.eqb_eq in E. by destruct (Hfresh b Hb).
  - apply String.eqb_eq in E. symmetry in E. apply made_number in E; [|lia]. specialize (Hlt b n Hb E). lia.
  - unfold same_text, owns_hostname in *. destruct (a_hostname b) as [h|]; [|done]. apply andb_true_iff in E as [E _].
    by rewrite String.eqb_sym, Hh in E.
  - unfold same_text, owns_serial in *. destruct (a_cert_serial b) as [h|]; [|done]. apply andb_true_iff in E as [E _].
    by rewrite String.eqb_sym, Hs in E.
Qed.

Lemma transaction_refused {A} (body : go L A) w : w_faults w = [] ->
  (forall w1 x, body w = (inr x, w1) -> w_faults w1 = []) -> is_left (transaction body w).1 = is_left (body w).1.
Proof.
  intros Hf Hk. destruct (body w) as [[e|x] w1] eqn:E.
  - unfold transaction, in_tx, stmt, next_fault, mbind, go_bind. rewrite Hf, E. done.
  - by rewrite (transaction_ok body w w1 x Hf E (Hk _ _ eq_refl)).
Qed.

(** A result that is an error exactly when [r], and otherwise leaves no failure behind. *)
Definition comes_to {E A} (r : bool) (x : (E + A) * World L) : Prop :=
  is_left x.1 = r /\ forall y, x.1 = inr y -> w_faults x.2 = [].

Lemma update_comes_to w meta a (k : go L (uuid * string)) : w_faults w = [] -> meta = telemetry_metadata (w_now w) p osType ->
  (forall w1, is_left (k w1).1 = false /\ w_faults (k w1).2 = w_faults w1) ->
  comes_to (update_clashes meta (w_now w) a (t_assets (w_db w))) ((_ ← update_asset (a_id a) serial p osType meta; k) w).
Proof.
  intros Hf -> Hk. unfold update_asset, wrap, mbind, go_bind. rewrite exec_ok by done. cbv zeta.
  fold (update_clashes (telemetry_metadata (w_now w) p osType) (w_now w) a (t_assets (w_db w))).
  destruct (update_clashes _ _ _ _); [done|]. split; [apply Hk|]. intros y _. rewrite (proj2 (Hk _)). done.
Qed.

(** What the transaction comes to, whoever the report belongs to. *)
Lemma upsert_refused w : w_faults w = [] -> clean_report w ->
  is_left (upsertAssetFromTelemetry serial p osType w).1 =
  let l := t_assets (w_db w) in let meta := telemetry_metadata (w_now w) p osType in
  match List.find (owns_serial serial) l with
  | Some a => update_clashes meta (w_now w) a l
  | None =>
      match List.find (owns_hostname (tp_Hostname p)) l with
      | Some a => update_clashes meta (w_now w) a l
      | None => match next_arx_c l with
                | inl _ => true
                | inr n => negb (asset_storable l (new_asset (gen_random_uuid (w_next_id w)) ("arx-c-" +:+ Str.itoa n) serial p osType
                                                     meta (w_now w))) end
      end
  end.
Proof.
  intros Hf (_ & _ & Hs & Hh & Hfl & _). cbv zeta. unfold upsertAssetFromTelemetry.
  set (meta := telemetry_metadata (w_now w) p osType).
  assert (Hbody : forall (b : go L (uuid * string)) r, comes_to r (b w) -> is_left (transaction b w).1 = r).
  { intros b r [<- Hb]. apply transaction_refused; [done|]. intros w1 x E. rewrite E in Hb. by apply (Hb x). }
  apply Hbody. clear Hbody. unfold lookup_asset, wrap.
  unfold mbind at 1, go_bind at 1. rewrite select_ok by done. unfold mbind at 1, go_bind at 1, now.
  rewrite Hfl. cbn [negb]. unfold mbind at 1, go_bind at 1. rewrite select_ok by done. rewrite Hs. cbn [negb].
  destruct (List.find (owns_serial serial) (t_assets (w_db w))) as [a|]; cbn [option_map].
  { unfold mbind at 1, go_bind at 1. cbn [mret go_ret]. by apply (update_comes_to w meta a (mret (a_id a, a_human_id a))). }
  unfold mbind at 1, go_bind at 1. rewrite select_ok by done. rewrite Hh. cbn [negb].
  destruct (List.find (owns_hostname (tp_Hostname p)) (t_assets (w_db w))) as [a|]; cbn [option_map].
  { by apply (update_comes_to w meta a (mret (a_id a, a_human_id a))). }
  unfold insert_asset, wrap, mbind, go_bind. rewrite select_ok by done. destruct (next_arx_c _) as [e|n]; [done|]. cbv zeta.
  rewrite insert_id_ok by done. cbv zeta. destruct (asset_storable _ _); [|done]. split; [done|]. by intros y _.
Qed.

(** A serial number, and a hostname, is one device's. *)
Lemma owner_unique w a b : assets_ok (w_db w) -> clean_report w -> In a (t_assets (w_db w)) -> In b (t_assets (w_db w)) ->
  owns_serial serial a = true -> owns_serial serial b = true -> a_id a = a_id b.
Proof.
  intros [_ Hu] (Hs & _) Ha Hb Oa Ob. apply list_elem_of_In, list_elem_of_lookup in Ha as [i Hi].
  apply list_elem_of_In, list_elem_of_lookup in Hb as [j Hj]. assert (i = j) as ->; [|congruence]. apply (Hu i j a b Hi Hj).
  unfold assets_clash, owns_serial, same_text in *. destruct (a_cert_serial a), (a_cert_serial b); try done.
  apply String.eqb_eq in Oa as ->, Ob as ->. rewrite String.eqb_refl, (proj2 (String.eqb_neq _ _) Hs). by rewrite orb_true_r.
Qed.

Lemma name_unique w a b : assets_ok (w_db w) -> clean_report w -> In a (t_assets (w_db w)) -> In b (t_assets (w_db w)) ->
  owns_hostname (tp_Hostname p) a = true -> owns_hostname (tp_Hostname p) b = true -> a_id a = a_id b.
Proof.
  intros [_ Hu] (_ & Hs & _) Ha Hb Oa Ob. apply list_elem_of_In, list_elem_of_lookup in Ha as [i Hi].
  apply list_elem_of_In, list_elem_of_lookup in Hb as [j Hj]. assert (i = j) as ->; [|congruence]. apply (Hu i j a b Hi Hj).
  unfold assets_clash, owns_hostname, same_text in *. destruct (a_hostname a), (a_hostname b); try done.
  apply String.eqb_eq in Oa as ->, Ob as ->. rewrite String.eqb_refl, (proj2 (String.eqb_neq _ _) Hs). by rewrite orb_true_r.
Qed.

(** C38: the rows the registration of a report computes meet the table's constraints.  A report
    PostgreSQL can take, by its texts, floats and os_type, is refused while no statement fails and
    the fresh id is new exactly in two cases: its serial number belongs to one device and its
    hostname to another, so that a device renamed to the name of another is refused from then on;
    or nobody has either and the arx-c numbers are used up. *)
Theorem registration_refused_exactly w :
  assets_ok (w_db w) -> clean_report w -> w_faults w = [] ->
  (forall a, In a (t_assets (w_db w)) -> a_id a <> gen_random_uuid (w_next_id w)) ->
  ((exists e w', upsertAssetFromTelemetry serial p osType w = (inl e, w')) <->
   torn (t_assets (w_db w)) \/ unknown_device (t_assets (w_db w)) /\ exhausted (t_assets (w_db w))).
Proof.
  intros Hok Hc Hf Hfresh. pose proof (upsert_refused w Hf Hc) as Hu. cbv zeta in Hu.
  assert (Hl : (exists e w', upsertAssetFromTelemetry serial p osType w = (inl e, w')) <->
    is_left (upsertAssetFromTelemetry serial p osType w).1 = true).
  { destruct (upsertAssetFromTelemetry serial p osType w) as [[e|x] w']; cbn; split; try done; [eauto|by intros (? & ? & ?)]. }
  rewrite Hl, Hu. clear Hl Hu. set (l := t_assets (w_db w)) in *.
  destruct (List.find (owns_serial serial) l) as [a|] eqn:Es.
  { apply find_some in Es as [Ha Hs]. unfold l. rewrite (update_refused w) by done. fold l. split.
    - intros (b & Hb & Hne & [Ho|Ho]); left; [exists a, b; by split_and!|].
      exfalso. by apply Hne, (owner_unique w).
    - intros [(a' & b & Ha' & Hb & Hs' & Hh & Hne)|[Hun _]].
      + assert (a_id a' = a_id a) as E by (by apply (owner_unique w)). exists b. split_and!; [done|congruence|by left].
      + destruct (Hun a Ha). congruence. }
  pose proof (find_none _ _ Es) as Hns.
  destruct (List.find (owns_hostname (tp_Hostname p)) l) as [a|] eqn:Eh.
  { apply find_some in Eh as [Ha Hh]. unfold l. rewrite (update_refused w) by done. fold l. split.
    - intros (b & Hb & Hne & [Ho|Ho]); [|by rewrite Hns in Ho]. exfalso. by apply Hne, (name_unique w).
    - intros [(a' & b & Ha' & _ & Hs' & _)|[Hun _]]; [by rewrite Hns in Hs'|]. destruct (Hun a Ha). congruence. }
  pose proof (find_none _ _ Eh) as Hnh. assert (Hun : unknown_device l) by (split; auto).
  pose proof (next_arx_c_refused l) as Hn. destruct (next_arx_c l) as [e|n] eqn:En.
  - split; [|done]. intros _. right. split; [done|]. apply Hn. by exists e.
  - rewrite (new_storable w) by done. split; [done|].
    intros [(a & b & Ha & _ & Hs & _)|[_ Hex]]; [by rewrite Hns in Hs|]. apply Hn in Hex as [e He]. done.
Qed.
End refused.

(** ** What a report writes

    A relation that holds over the statements on the assets and metrics tables, and over any
    change of the commands, alerts and Android policies, holds over a report. *)

(** A statement that writes a table [R] does not look at. *)
Ltac other_table :=
  lazymatch goal with
  | |- db_steps _ (exec _) => apply steps_exec; [typeclasses eauto|]
  | |- db_steps _ (insert_id _) => apply steps_insert_id; [typeclasses eauto|]
  end;
  intros;
  match goal with H : _ = inr _ |- _ =>
    cbv zeta in H; repeat (case_hyp H; try discriminate H); injection H as _ <- || injection H as <-; auto
  end.

Section walk.
Context `{JC : JsonCodec} `{UL : UuidLib} `{GF : GoFmt} `{PG : PgLib} `{EV : Environ} `{CSR : CsrLib} `{JL : JwtLib}
        `{C2 : C2Dispatcher L}.
Context (R : Tables -> Tables -> Prop) `{!PreOrder R}.
Context (Hcommands : forall v db, R db (with_commands v db)) (Halerts : forall v db, R db (with_alerts v db))
        (Handroid : forall v db, R db (with_android v db)).
Context (Hstatus : forall id status reason, db_steps R (SetAssetCompliance (L := L) id status reason))
        (Hquarantine : forall id on, db_steps R (SetAssetQuarantineEnabled (L := L) id on))
        (Hupsert : forall serial p osType, db_steps R (upsertAssetFromTelemetry (L := L) serial p osType))
        (Hmetric : forall id cpu a b c d, db_steps R (InsertDeviceMetric (L := L) id cpu (u64ToMetricInt64 a)
           (u64ToMetricInt64 b) (u64ToMetricInt64 c) (u64ToMetricInt64 d))).

Lemma InsertDeviceCommand_walk dev ct pl inc : db_steps R (InsertDeviceCommand (L := L) dev ct pl inc).
Proof. by apply Insert_steps. Qed.

Lemma MarkSent_walk id : db_steps R (MarkDeviceCommandSent (L := L) id).
Proof. by apply MarkSent_steps. Qed.

Lemma Evaluate_walk id serial platform enf : db_steps R (EvaluateAfterTelemetry (L := L) id serial platform enf).
Proof.
  unfold EvaluateAfterTelemetry, auto_quarantine, GetAssetCompliance, EffectiveMergedPayload, ListAssignedProfilesForAsset,
    TenantAutoQuarantine. cbv zeta. pose proof InsertDeviceCommand_walk. pose proof MarkSent_walk. db_walk.
Qed.

Lemma Queue_walk dev serial on : db_steps R (QueueQuarantineCommand (L := L) dev serial on).
Proof. unfold QueueQuarantineCommand. pose proof InsertDeviceCommand_walk. pose proof MarkSent_walk. db_walk. Qed.

Lemma patch_quarantine_walk origins r : db_steps R (handlePatchQuarantine (L := L) origins r).
Proof. unfold handlePatchQuarantine, ResolveAssetCertSerial. pose proof Queue_walk. db_walk. Qed.

Lemma heartbeat_walk id : db_steps R (OnHeartbeat (L := L) id).
Proof. unfold OnHeartbeat, ResolveActiveAlertsKindsForDeviceReturning, resolve_where. db_walk. other_table. Qed.

Lemma android_attachment_walk id os resp : db_steps R (AppendAndroidPolicyToTelemetryResponse (L := L) id os resp).
Proof. unfold AppendAndroidPolicyToTelemetryResponse, loadAndroidPolicy, select_policy. db_walk; other_table. Qed.

Lemma mdm_downlink_walk id os resp : db_steps R (AppendMDMDownlink (L := L) id os resp).
Proof.
  unfold AppendMDMDownlink, BuildMDMProfilesWireForAsset, ListAssignedProfilesForAsset,
    ListManagedAndroidConfigurationsForDevice. db_walk.
Qed.

Lemma accepted_walk s h id p : db_steps R (onTelemetryAccepted (L := L) s h id p).
Proof. unfold onTelemetryAccepted, MarshalTelemetryUpdate, GetAssetCompliance. db_walk. Qed.

Lemma persist_walk serial p os id hid : db_steps R (persist_and_answer (L := L) serial p os id hid).
Proof.
  unfold persist_and_answer. cbv zeta. pose proof Evaluate_walk. pose proof heartbeat_walk. pose proof accepted_walk.
  pose proof android_attachment_walk. pose proof mdm_downlink_walk. db_walk.
Qed.

Lemma ProcessTelemetry_walk serial p : db_steps R (ProcessTelemetry (L := L) serial p).
Proof. unfold ProcessTelemetry. cbv zeta. pose proof persist_walk. db_walk. Qed.

Lemma telemetry_route_walk mtls r : db_steps R (NewTelemetryHandler (L := L) mtls r).
Proof. unfold NewTelemetryHandler. pose proof ProcessTelemetry_walk. db_walk. Qed.

Lemma telemetry_socket_walk serial data : db_steps R (tryHandleAgentTelemetry (L := L) serial data).
Proof. unfold tryHandleAgentTelemetry. pose proof ProcessTelemetry_walk. db_walk. Qed.
End walk.

(** ** The assets table *)
Section writers.
Context `{JC : JsonCodec} `{UL : UuidLib} `{GF : GoFmt} `{PG : PgLib} `{EV : Environ} `{CSR : CsrLib} `{JL : JwtLib}
        `{C2 : C2Dispatcher L}.
Notation kept := (db_steps (L := L) (keeps assets_ok)).

Lemma SetAssetCompliance_kept id status reason : kept (SetAssetCompliance id status reason).
Proof.
  unfold SetAssetCompliance. cbv zeta. set (s := Str.trim_space (Str.to_lower status)).
  destruct (existsb (String.eqb s) _) eqn:Es; [|apply steps_fail; typeclasses eauto]. cbn [negb].
  apply steps_wrap, steps_exec; [typeclasses eauto|]. intros db t x db'. destruct (negb _); [done|]. intros [= _ <-].
  apply assets_ok_columns; [done|]; intros a _. unfold asset_row_ok. rewrite !andb_true_iff. intros H. destruct_and?.
  by split_and!.
Qed.

Lemma SetAssetQuarantine_kept id on : kept (SetAssetQuarantineEnabled id on).
Proof.
  unfold SetAssetQuarantineEnabled. apply steps_wrap, steps_exec; [typeclasses eauto|]. intros db t x db' [= _ <-].
  by apply assets_ok_columns.
Qed.

Lemma upsert_kept serial p osType : kept (upsertAssetFromTelemetry serial p osType).
Proof.
  intros w Hok. destruct (upsertAssetFromTelemetry serial p osType w) as [[e|x] w'] eqn:E; simpl.
  - apply transaction_inl in E. by rewrite E.
  - apply upsert_registers in E as (_ & _ & _ & Hk). by apply Hk.
Qed.

Lemma metric_kept id cpu a b c d : kept (InsertDeviceMetric id cpu a b c d).
Proof. unfold InsertDeviceMetric. apply steps_wrap. other_table. by apply assets_ok_same. Qed.
End writers.

(** The assets table keeps its type.  Whatever a device reports, over HTTP or over its socket,
    whatever an operator switches, and whichever statement fails: human ids have one of the three
    forms and are unique, as are ids, hostnames and serial numbers; the os_type and the compliance
    status are among the declared ones; and no stored text is one PostgreSQL would refuse. *)
Theorem assets_table_typed `{JsonCodec} `{UuidLib} `{GoFmt} `{PgLib} `{Environ} `{CsrLib} `{JwtLib} `{C2Dispatcher L}
    mtls origins r serial data id status reason on platform enf :
  let kept {A} (m : go L A) := db_steps (keeps assets_ok) m in
  kept (NewTelemetryHandler mtls r) /\ kept (tryHandleAgentTelemetry serial data) /\
  kept (EvaluateAfterTelemetry id serial platform enf) /\ kept (handlePatchQuarantine origins r) /\
  kept (SetAssetCompliance id status reason) /\ kept (SetAssetQuarantineEnabled id on).
Proof.
  cbv zeta. split_and!; [apply telemetry_route_walk|apply telemetry_socket_walk|apply Evaluate_walk
    |apply patch_quarantine_walk|apply SetAssetCompliance_kept|apply SetAssetQuarantine_kept];
    first [by apply assets_ok_same|typeclasses eauto|apply SetAssetCompliance_kept|apply SetAssetQuarantine_kept
          |apply upsert_kept|intros; apply metric_kept|intros; by apply assets_ok_same].
Qed.

(** ** Stored metrics *)

Definition metric_ok (m : DeviceMetric) : Prop :=
  (F64.is_finite (dm_CPUUsage m) = true /\ F64.ltb (dm_CPUUsage m) (F64.of_Z 0) = false /\
   F64.ltb (F64.of_Z 100) (dm_CPUUsage m) = false) /\
  0 <= dm_RAMUsed m < 2 ^ 63 /\ 0 <= dm_RAMTotal m < 2 ^ 63 /\ 0 <= dm_DiskUsed m < 2 ^ 63 /\ 0 <= dm_DiskTotal m < 2 ^ 63 /\
  (0 < dm_RAMTotal m -> dm_RAMUsed m <= dm_RAMTotal m) /\ (0 < dm_DiskTotal m -> dm_DiskUsed m <= dm_DiskTotal m).

(** Every row is in range and belongs to a device that exists. *)
Definition metrics_ok (db : Tables) : Prop :=
  forall m, In m (t_metrics db) -> metric_ok m /\ asset_exists db (dm_DeviceID m) = true.

Lemma sanitize_range v : F64.is_finite (sanitizeTelemetryFloat v) = true /\
  F64.ltb (sanitizeTelemetryFloat v) (F64.of_Z 0) = false /\ F64.ltb (F64.of_Z 100) (sanitizeTelemetryFloat v) = false.
Proof.
  unfold sanitizeTelemetryFloat. destruct (F64.is_finite v) eqn:Ef; [|done]. cbn [negb].
  destruct (F64.ltb v (F64.of_Z 0)) eqn:E0; [done|]. destruct (F64.ltb (F64.of_Z 100) v) eqn:E1; done.
Qed.

Lemma metric_row_ok id cpu a b c d t : a < 2 ^ 63 -> b < 2 ^ 63 -> c < 2 ^ 63 -> d < 2 ^ 63 ->
  metric_ok (metric_row id cpu a b c d t).
Proof.
  intros Ha Hb Hc Hd. split; [apply sanitize_range|]. unfold metric_row, nonNegativeInt64. cbv zeta. simpl.
  destruct (Z.ltb_spec a 0), (Z.ltb_spec b 0), (Z.ltb_spec c 0), (Z.ltb_spec d 0); simpl;
    repeat match goal with |- context [Z.ltb ?x ?y] => destruct (Z.ltb_spec x y) end; simpl; lia.
Qed.

Lemma u64_small u : u64ToMetricInt64 u < 2 ^ 63.
Proof. unfold u64ToMetricInt64. destruct (Z.ltb_spec (2 ^ 63 - 1) u); lia. Qed.

(** The same metrics, and no device lost. *)
Lemma metrics_ok_same db db' : t_metrics db' = t_metrics db ->
  (forall id, asset_exists db id = true -> asset_exists db' id = true) -> keeps metrics_ok db db'.
Proof. intros E H Hok m. rewrite E. intros Hm. destruct (Hok m Hm). auto. Qed.

Lemma exists_update p f db id : (forall a, a_id (f a) = a_id a) ->
  asset_exists (with_assets (update_where p f (t_assets db)) db) id = asset_exists db id.
Proof.
  intros Hf. unfold asset_exists, update_where. simpl. induction (t_assets db) as [|a l IH]; [done|]. simpl.
  rewrite IH. by destruct (p a); rewrite ?Hf.
Qed.

Section metrics.
Context `{JC : JsonCodec} `{UL : UuidLib} `{GF : GoFmt} `{PG : PgLib} `{C2 : C2Dispatcher L}.
Notation kept := (db_steps (L := L) (keeps metrics_ok)).

Lemma metrics_status id status reason : kept (SetAssetCompliance id status reason).
Proof.
  unfold SetAssetCompliance. cbv zeta. destruct (negb _); [apply steps_fail; typeclasses eauto|].
  apply steps_wrap. other_table. apply metrics_ok_same; [done|]. intros i Hi. by rewrite exists_update.
Qed.

Lemma metrics_quarantine id on : kept (SetAssetQuarantineEnabled id on).
Proof.
  unfold SetAssetQuarantineEnabled. apply steps_wrap. other_table. apply metrics_ok_same; [done|].
  intros i Hi. by rewrite exists_update.
Qed.

Lemma metrics_upsert serial p osType : kept (upsertAssetFromTelemetry serial p osType).
Proof.
  intros w. destruct (upsertAssetFromTelemetry serial p osType w) as [[e|x] w'] eqn:E; cbn [snd].
  - apply transaction_inl in E. rewrite E. by intros H.
  - apply upsert_registers in E as (l' & Hr & -> & _). apply metrics_ok_same; [done|]. intros i Hi.
    destruct Hr; [by rewrite exists_update|by rewrite exists_update|].
    unfold asset_exists in *. simpl. by rewrite existsb_app, Hi.
Qed.

Lemma metrics_insert id cpu a b c d : kept (InsertDeviceMetric id cpu (u64ToMetricInt64 a) (u64ToMetricInt64 b)
  (u64ToMetricInt64 c) (u64ToMetricInt64 d)).
Proof.
  unfold InsertDeviceMetric. apply steps_wrap, steps_exec; [typeclasses eauto|]. intros db t x db'.
  destruct (asset_exists db id) eqn:E; [|done]. intros [= _ <-] Hok m [Hm|[<-|[]]]%in_app_or; [by apply Hok|].
  split; [|done]. apply metric_row_ok; apply u64_small.
Qed.
End metrics.

(** C39: every metrics row belongs to a device that exists and is in range, whatever a device
    reports: the CPU usage is a finite number between 0 and 100, the sizes are int64 (uint64
    values above are cut to the largest), and what is used does not exceed a known total. *)
Theorem stored_metrics_in_range `{JsonCodec} `{UuidLib} `{GoFmt} `{PgLib} `{Environ} `{CsrLib} `{JwtLib} `{C2Dispatcher L}
    mtls r serial data :
  db_steps (keeps metrics_ok) (NewTelemetryHandler (L := L) mtls r) /\
  db_steps (keeps metrics_ok) (tryHandleAgentTelemetry (L := L) serial data).
Proof.
  split; [apply telemetry_route_walk|apply telemetry_socket_walk];
    first [typeclasses eauto|apply metrics_status|apply metrics_quarantine|apply metrics_upsert|apply metrics_insert
          |intros; by apply metrics_ok_same].
Qed.

(** ** The history of a device *)

Definition point_ok (p : DeviceMetricSeriesPoint) : Prop :=
  F64.ltb (sp_CPUUsage p) (F64.of_Z 0) = false /\ F64.ltb (F64.of_Z 100) (sp_CPUUsage p) = false /\
  F64.ltb (sp_RAMUsedPercent p) (F64.of_Z 0) = false /\ F64.ltb (F64.of_Z 100) (sp_RAMUsedPercent p) = false.

Lemma clamp_percent_range v : F64.ltb (clamp_percent v) (F64.of_Z 0) = false /\ F64.ltb (F64.of_Z 100) (clamp_percent v) = false.
Proof.
  unfold clamp_percent. cbv zeta. set (u := if negb (F64.is_finite v) then F64.of_Z 0 else v).
  destruct (F64.ltb u (F64.of_Z 0)) eqn:E0; [done|]. destruct (F64.ltb (F64.of_Z 100) u) eqn:E1; done.
Qed.

Lemma clamp_hours_range h : 1 <= clamp_hours h <= 168.
Proof.
  unfold clamp_hours, deviceMetricsMaxHours. cbv zeta.
  destruct (Z.ltb_spec h 1); [destruct (Z.ltb_spec 168 24)|destruct (Z.ltb_spec 168 h)]; lia.
Qed.

Lemma bucket_covers h : 1 <= h -> 0 < bucket_seconds h /\ h * 3600 <= 360 * bucket_seconds h.
Proof.
  intros H. unfold bucket_seconds, deviceMetricsMaxPoints, deviceMetricsMinBucketSecs. cbv zeta.
  replace (h * 3600) with (h * 10 * 360) by lia. rewrite Z.div_mul by lia. destruct (Z.ltb_spec (h * 10) 60); lia.
Qed.

Lemma buckets_bounded bucket lo hi (rows : list DeviceMetric) : 0 < bucket -> hi - lo <= 360 * (bucket * second) ->
  (forall m, In m rows -> lo <= dm_CreatedAt m <= hi) ->
  (length (nodup Z.eq_dec (map (bucket_of bucket) rows)) <= 361)%nat.
Proof.
  intros Hb Hw Hrows. set (width := bucket * second). assert (0 < width) by (unfold width, second; lia).
  replace 361%nat with (length (map (fun i => (lo / width + Z.of_nat i) * width) (seq 0 361)))
    by (by rewrite length_map, length_seq).
  apply NoDup_incl_length; [apply NoDup_nodup|]. intros x Hx%nodup_In. apply in_map_iff in Hx as (m & <- & Hm).
  apply Hrows in Hm. unfold bucket_of. cbv zeta. fold width.
  assert (Hl : lo / width <= dm_CreatedAt m / width) by (apply Z.div_le_mono; lia).
  assert (Hh : dm_CreatedAt m / width <= lo / width + 360).
  { replace (lo / width + 360) with ((lo + 360 * width) / width) by (by rewrite Z.div_add by lia).
    apply Z.div_le_mono; lia. }
  apply in_map_iff. exists (Z.to_nat (dm_CreatedAt m / width - lo / width)). split; [f_equal; lia|]. apply in_seq. lia.
Qed.

Lemma sorted_strict (l : list Z) : List.NoDup l -> StronglySorted Z.lt (sort_slice Z.ltb l).
Proof.
  intros Hn. assert (Hs : StronglySorted (may_precede Z.ltb) (sort_slice Z.ltb l)).
  { apply sort_slice_sorted; unfold may_precede; intros x y; [intros z|]; rewrite !Z.ltb_ge; lia. }
  assert (Hn' : NoDup (sort_slice Z.ltb l)) by (rewrite sort_slice_perm; by apply NoDup_ListNoDup).
  clear Hn. induction Hs as [|x l' Hs IH Hall]; [constructor|]. apply NoDup_cons in Hn' as [Hx Hn'].
  constructor; [by apply IH|]. apply Forall_forall. intros y Hy. rewrite Forall_forall in Hall. specialize (Hall y Hy).
  unfold may_precede in Hall. apply Z.ltb_ge in Hall. assert (x <> y) by (by intros ->). lia.
Qed.

(** The history of a device has at most 361 points whatever window is asked for (1 to 168
    hours), in strictly ascending time; every value is a percentage; each metrics row of the
    device in the window is counted in the one point its bucket gives, and no point is empty. *)
Theorem history_bounded `{PgLib} {L : Type} deviceID hours (w w' : World L) h :
  (forall m, In m (t_metrics (w_db w)) -> dm_CreatedAt m <= w_now w) ->
  LoadDeviceMetricHistory deviceID hours w = (inr h, w') ->
  1 <= mh_Hours h <= 168 /\ (length (mh_Series h) <= 361)%nat /\
  StronglySorted Z.lt (map sp_T (mh_Series h)) /\ Forall point_ok (mh_Series h) /\
  let rows := List.filter (in_window deviceID (w_now w - mh_Hours h * 3600 * second)) (t_metrics (w_db w)) in
  forall t, In t (map sp_T (mh_Series h)) <-> exists m, In m rows /\ t = bucket_of (mh_BucketSeconds h) m.
Proof.
  intros Hpast Hh. unfold LoadDeviceMetricHistory in Hh. cbv zeta in Hh.
  apply bind_inv in Hh as (t & w1 & [= <- <-] & Hh).
  apply bind_inv in Hh as (points & w2 & H1%wrap_inv%select_inr & Hh). injection H1 as <-.
  apply bind_inv in Hh as (disk & w3 & _ & [= <- <-]). cbn [mh_Hours mh_Series mh_BucketSeconds].
  pose proof (clamp_hours_range hours) as Hc. set (hrs := clamp_hours hours) in *.
  destruct (bucket_covers hrs ltac:(lia)) as [Hb Hcov]. unfold series. rewrite map_map.
  assert (Em : forall l, map (fun x => sp_T (series_point (bucket_seconds hrs)
     (List.filter (in_window deviceID (w_now w - hrs * 3600 * second)) (t_metrics (w_db w))) x)) l = l).
  { intros l. simpl. apply map_id. }
  rewrite Em. set (rows := List.filter _ _). split; [done|]. split_and!.
  - rewrite length_map. rewrite (Permutation_length (sort_slice_perm _ _)).
    apply (buckets_bounded _ (w_now w - hrs * 3600 * second) (w_now w)); [done|unfold second; lia|].
    intros m [Hm Hw]%filter_In. apply andb_true_iff in Hw as [_ Hw]. apply Z.leb_le in Hw. by apply Hpast in Hm.
  - apply sorted_strict, NoDup_nodup.
  - apply Forall_forall. intros p Hp. apply list_elem_of_In, in_map_iff in Hp as (x & <- & _).
    unfold point_ok. cbn [series_point sp_CPUUsage sp_RAMUsedPercent].
    pose proof (sanitize_range (pg_avg (map dm_CPUUsage (List.filter (fun m => bucket_of (bucket_seconds hrs) m =? x) rows)))).
    split_and!; apply clamp_percent_range || tauto.
  - intros t. rewrite sort_slice_In, nodup_In, in_map_iff. naive_solver.
Qed.
