(* ===== verification/TelemetryFlow.v ===== *)
(** * Telemetry: what a report sets in motion

    The components a report runs through, together: the messages it sends, the wipe request
    it takes down, and the watchdog it holds off. *)

From S2P Require Import Prelude GoStd Float64 Json Ext World Auth DeviceCommands CommandFlow.
From S2P Require Import CommandFacts Alerting AlertEngine AlertFacts AlertPass Compliance Enrollment AndroidPolicies.
From S2P Require Import MdmDownlink Telemetry TelemetryFacts.

Section flow.
Context `{JC : JsonCodec} `{UL : UuidLib} `{GF : GoFmt} `{PG : PgLib} `{EV : Environ} `{CSR : CsrLib} `{JL : JwtLib}
        `{CL : C2Laws L}.
Implicit Types w : World L.

(** ** Messages *)

(** The one kind of message a report can send: the quarantine of the device that reports. *)
Definition quarantine_message (serial : string) (m : string * json) : Prop :=
  exists id, m = (Str.trim_space serial, downlink id DeviceCommandTypeQuarantine (BuildQuarantinePayloadJSON true)).

Notation says serial := (sends (L := L) (quarantine_message serial)).

Lemma upsert_only serial p os : db_only (upsertAssetFromTelemetry (L := L) serial p os).
Proof. unfold upsertAssetFromTelemetry, insert_asset, update_asset, lookup_asset. cbv zeta. only_walk. Qed.

Lemma insert_command_only dev ct pl inc : db_only (InsertDeviceCommand (L := L) dev ct pl inc).
Proof. unfold InsertDeviceCommand. cbv zeta. only_walk. Qed.

Lemma mark_sent_only id : db_only (MarkDeviceCommandSent (L := L) id).
Proof. unfold MarkDeviceCommandSent, updateDeviceCommandStatus. only_walk. Qed.

Lemma set_status_only id s r : db_only (SetAssetCompliance (L := L) id s r).
Proof. unfold SetAssetCompliance. cbv zeta. only_walk. Qed.

Lemma set_quarantine_only id on : db_only (SetAssetQuarantineEnabled (L := L) id on).
Proof. unfold SetAssetQuarantineEnabled. only_walk. Qed.

Lemma profiles_only id platform : db_only (ListAssignedProfilesForAsset (L := L) id platform).
Proof. unfold ListAssignedProfilesForAsset. only_walk. Qed.

Lemma Evaluate_says id serial platform enf : says serial (EvaluateAfterTelemetry id serial platform enf).
Proof.
  unfold EvaluateAfterTelemetry, auto_quarantine, GetAssetCompliance, EffectiveMergedPayload, TenantAutoQuarantine. cbv zeta.
  pose proof insert_command_only. pose proof mark_sent_only. pose proof set_status_only. pose proof set_quarantine_only.
  pose proof profiles_only. send_walk. by eexists.
Qed.

Lemma heartbeat_says id serial : says serial (OnHeartbeat id).
Proof. unfold OnHeartbeat, ResolveActiveAlertsKindsForDeviceReturning, resolve_where. send_walk. Qed.

Lemma accepted_says s h id p serial : says serial (onTelemetryAccepted s h id p).
Proof. unfold onTelemetryAccepted, MarshalTelemetryUpdate, GetAssetCompliance. send_walk. Qed.

Lemma android_only id os resp : db_only (AppendAndroidPolicyToTelemetryResponse (L := L) id os resp).
Proof. unfold AppendAndroidPolicyToTelemetryResponse, loadAndroidPolicy, select_policy. only_walk. Qed.

Lemma downlink_only id os resp : db_only (AppendMDMDownlink (L := L) id os resp).
Proof.
  unfold AppendMDMDownlink, BuildMDMProfilesWireForAsset, ListManagedAndroidConfigurationsForDevice.
  pose proof profiles_only. only_walk.
Qed.

Lemma persist_says serial p os id hid : says serial (persist_and_answer serial p os id hid).
Proof.
  unfold persist_and_answer, InsertDeviceMetric. cbv zeta. pose proof Evaluate_says. pose proof heartbeat_says.
  pose proof accepted_says. pose proof android_only. pose proof downlink_only. send_walk.
Qed.

Lemma Process_says serial p : says serial (ProcessTelemetry serial p).
Proof.
  assert (Hp : forall p os id hid, says serial (persist_and_answer (Str.trim_space serial) p os id hid)).
  { intros. pose proof (persist_says (Str.trim_space serial) p0 os id hid) as H1. unfold quarantine_message in H1.
    by rewrite Str.trim_space_idem in H1. }
  unfold ProcessTelemetry. cbv zeta. pose proof upsert_only. send_walk.
Qed.

(** A report that is answered went through the upsert and what follows it. *)
Lemma Process_inv serial p w res w' : ProcessTelemetry serial p w = (inr res, w') ->
  let p' := with_hostname (Str.trim_space (tp_Hostname p)) p in
  tp_Hostname p' <> ""%string /\ Str.trim_space serial <> ""%string /\
  exists x w1, upsertAssetFromTelemetry (Str.trim_space serial) p' (deriveAssetOsType p) w = (inr x, w1) /\
    persist_and_answer (Str.trim_space serial) p' (deriveAssetOsType p) x.1 x.2 w1 = (inr res, w') /\ tr_AssetID res = x.1.
Proof.
  unfold ProcessTelemetry. cbv zeta. set (p' := with_hostname _ p). change (deriveAssetOsType p') with (deriveAssetOsType p).
  destruct (String.eqb_spec (tp_Hostname p') "") as [|Hh]; [done|].
  destruct (String.eqb_spec (Str.trim_space serial) "") as [|Hs]; [done|].
  intros (x & w1 & E1 & Hp)%bind_inv. split_and!; [done..|]. exists x, w1. split_and!; [done..|].
  unfold persist_and_answer in Hp. cbv zeta in Hp. repeat apply bind_inv in Hp as (? & ? & _ & Hp). by injection Hp as <- _.
Qed.

(** ** Runs without a fault *)

Lemma says_quiet {A} serial (m : go L A) w r w' : says serial m -> m w = (r, w') -> w_faults w = [] ->
  w_faults w' = [] /\ w_now w' = w_now w.
Proof. intros Hm E Hf. destruct (Hm w) as (_ & Ht & Hq). rewrite E in *. auto. Qed.

Lemma only_quiet {A} (m : go L A) w r w' : db_only m -> m w = (r, w') -> w_faults w = [] ->
  w_faults w' = [] /\ w_now w' = w_now w.
Proof. intros Hm E Hf. destruct (Hm w) as (_ & Ht & _ & Hq). rewrite E in *. auto. Qed.

(** ** The wipe request *)

Lemma load_policy_ok id w row : w_faults w = [] -> List.find (is_policy id) (t_android (w_db w)) = Some row ->
  loadAndroidPolicy id w = (inr (wire_of row), w).
Proof.
  intros Hf E. unfold loadAndroidPolicy, select_policy, mbind, go_bind, attempt. rewrite select_ok by done. by rewrite E.
Qed.

Lemma android_attachment_ok id os resp w row : w_faults w = [] ->
  Str.equal_fold (Str.trim_space os) "android" = true ->
  List.find (is_policy id) (t_android (w_db w)) = Some row -> an_wipe row = true ->
  exists w', AppendAndroidPolicyToTelemetryResponse id os resp w
      = (inr (obj_set "android_policy" (policy_json (wire_of row)) resp), w') /\
    forall x, In x (t_android (w_db w')) -> is_policy id x = true -> an_wipe x = false.
Proof.
  intros Hf Hos Hrow Hw. unfold AppendAndroidPolicyToTelemetryResponse. rewrite Hos. cbn [negb].
  rewrite (bind_inr _ _ _ _ _ (load_policy_ok id w row Hf Hrow)). change (pw_Wipe (wire_of row)) with (an_wipe row). rewrite Hw.
  unfold mbind, go_bind, attempt. rewrite exec_ok by done. eexists. split; [done|].
  intros x (y & _ & ->)%update_where_In Hx. destruct (is_policy id y && an_wipe y) eqn:E; [done|].
  rewrite Hx in E. by destruct (an_wipe y).
Qed.

Lemma downlink_response id os resp w r w' : AppendMDMDownlink id os resp w = (inr r, w') ->
  w_db w' = w_db w /\ obj_get "android_policy" r = obj_get "android_policy" resp.
Proof.
  intros E. split.
  - assert (Hs : db_steps eq (AppendMDMDownlink (L := L) id os resp)) by (apply mdm_downlink_walk; typeclasses eauto).
    specialize (Hs w). by rewrite E in Hs.
  - unfold AppendMDMDownlink in E. apply bind_inv in E as ([wires managed] & w1 & _ & [= <- _]).
    destruct wires, managed; rewrite ?obj_get_set_ne by done; done.
Qed.

(** The android_policies rows are not touched before the answer is assembled. *)
Lemma upsert_android serial p os : db_steps (same t_android) (upsertAssetFromTelemetry (L := L) serial p os).
Proof.
  intros w. destruct (upsertAssetFromTelemetry serial p os w) as [[e|x] w'] eqn:E; cbn [snd].
  - apply transaction_inl in E. unfold same. by rewrite E.
  - apply upsert_registers in E as (l' & _ & -> & _). done.
Qed.

Lemma status_android id s r : db_steps (same t_android) (SetAssetCompliance (L := L) id s r).
Proof. unfold SetAssetCompliance. cbv zeta. db_walk. other_table. done. Qed.

Lemma quarantine_android id on : db_steps (same t_android) (SetAssetQuarantineEnabled (L := L) id on).
Proof. unfold SetAssetQuarantineEnabled. db_walk. other_table. done. Qed.

Lemma metric_android id cpu a b c d : db_steps (same t_android) (InsertDeviceMetric (L := L) id cpu a b c d).
Proof. unfold InsertDeviceMetric. db_walk. other_table. done. Qed.

(** A part of the report before the answer: no fault added, the policies as they were. *)
Lemma quiet_step {A} serial (m : go L A) w r w' : says serial m -> db_steps (same t_android) m -> m w = (r, w') ->
  w_faults w = [] -> w_faults w' = [] /\ t_android (w_db w') = t_android (w_db w).
Proof.
  intros Hs Hd E Hf. destruct (says_quiet _ _ _ _ _ Hs E Hf) as [F _]. specialize (Hd w). rewrite E in Hd. done.
Qed.

Lemma metric_quiet serial id cpu a b c d : says serial (InsertDeviceMetric id cpu (u64ToMetricInt64 a) (u64ToMetricInt64 b)
  (u64ToMetricInt64 c) (u64ToMetricInt64 d)).
Proof. apply sends_db_only. unfold InsertDeviceMetric. only_walk. Qed.

Lemma evaluate_android id serial platform enf : db_steps (same t_android) (EvaluateAfterTelemetry (L := L) id serial platform enf).
Proof. apply Evaluate_walk; try done; [typeclasses eauto|apply status_android|apply quarantine_android]. Qed.

Lemma heartbeat_android id : db_steps (same t_android) (OnHeartbeat (L := L) id).
Proof. by apply heartbeat_walk; [typeclasses eauto|]. Qed.

Lemma accepted_android s h id p : db_steps (same t_android) (onTelemetryAccepted (L := L) s h id p).
Proof. apply accepted_walk; typeclasses eauto. Qed.

Lemma persist_wipe serial p os id hid w res w' row : w_faults w = [] ->
  Str.equal_fold (Str.trim_space os) "android" = true ->
  List.find (is_policy id) (t_android (w_db w)) = Some row -> an_wipe row = true ->
  persist_and_answer serial p os id hid w = (inr res, w') ->
  tr_AssetID res = id /\ obj_get "android_policy" (tr_Response res) = Some (policy_json (wire_of row)) /\
  forall x, In x (t_android (w_db w')) -> is_policy id x = true -> an_wipe x = false.
Proof.
  intros Hf Hos Hrow Hw Hp. unfold persist_and_answer in Hp. cbv zeta in Hp.
  apply bind_inv in Hp as ([] & w1 & E1%wrap_inv & Hp).
  destruct (quiet_step serial _ _ _ _ (metric_quiet _ _ _ _ _ _ _) (metric_android _ _ _ _ _ _) E1 Hf) as [F1 A1].
  apply bind_inv in Hp as ([] & w2 & E2%wrap_inv & Hp).
  destruct (quiet_step _ _ _ _ _ (Evaluate_says _ serial _ _) (evaluate_android _ _ _ _) E2 F1) as [F2 A2].
  apply bind_inv in Hp as ([] & w3 & E3 & Hp).
  destruct (quiet_step _ _ _ _ _ (heartbeat_says _ serial) (heartbeat_android _) E3 F2) as [F3 A3].
  apply bind_inv in Hp as ([] & w4 & E4 & Hp).
  destruct (quiet_step _ _ _ _ _ (accepted_says _ _ _ _ serial) (accepted_android _ _ _ _) E4 F3) as [F4 A4].
  rewrite <- A1, <- A2, <- A3, <- A4 in Hrow. clear A1 A2 A3 A4.
  apply bind_inv in Hp as (r5 & w5 & E5%wrap_inv & Hp).
  match type of E5 with _ _ _ ?resp _ = _ => destruct (android_attachment_ok id os resp w4 row F4 Hos Hrow Hw) as (v & Ev & Hv) end.
  rewrite E5 in Ev. injection Ev as -> ->.
  apply bind_inv in Hp as (r6 & w6 & E6%wrap_inv & [= <- <-]). apply downlink_response in E6 as [Ed Eg]. cbn [tr_AssetID tr_Response].
  rewrite Ed, Eg. auto.
Qed.
End flow.

(** C32: while no statement of the database fails, a report takes a pending wipe request of its
    Android device down and puts it into its answer; a report over the agent's socket runs these
    steps and sends nothing but, at most, a quarantine command, so the request is lost. *)
Theorem socket_report_loses_the_wipe `{JsonCodec} `{UuidLib} `{GoFmt} `{PgLib} `{Environ} `{CsrLib} `{JwtLib} `{C2Laws L}
    serial data m p res row (w w' : World L) :
  w_faults w = [] -> deriveAssetOsType p = "android"%string -> ProcessTelemetry serial p w = (inr res, w') ->
  List.find (is_policy (tr_AssetID res)) (t_android (w_db w)) = Some row -> an_wipe row = true ->
  unmarshal_map data = Some m -> dec_string "" (field "type" m) = Some agentMsgTelemetry ->
  dec_field dec_uint64 0 (field "uptime_seconds" m) <> None -> decode_telemetry m = Some p ->
  (forall x, In x (t_android (w_db w')) -> is_policy (tr_AssetID res) x = true -> an_wipe x = false) /\
  obj_get "android_policy" (tr_Response res) = Some (policy_json (wire_of row)) /\
  tryHandleAgentTelemetry serial data w = (inr true, w') /\
  exists l, outbox (w_link w') = outbox (w_link w) ++ l /\ Forall (quarantine_message serial) l.
Proof.
  intros Hf Hos Hp Hrow Hw Hm Ht Hup Hdec.
  destruct (Process_says serial p w) as [Hout _]. rewrite Hp in Hout.
  assert (Hsock : tryHandleAgentTelemetry serial data w = (inr true, w')).
  { unfold tryHandleAgentTelemetry. rewrite Hm. cbn [mbind option_bind]. rewrite Ht. cbn [mbind option_bind].
    cbv beta iota zeta. change (negb (String.eqb (Str.trim_space agentMsgTelemetry) agentMsgTelemetry)) with false.
    cbv iota. rewrite Hdec.
    destruct (dec_field dec_uint64 0 (field "uptime_seconds" m)) as [u|]; [|done].
    unfold mbind, option_bind, go_bind, attempt. by rewrite Hp. }
  destruct (Process_inv _ _ _ _ _ Hp) as (_ & _ & x & w1 & E1 & Hpa & Hid).
  destruct (only_quiet _ _ _ _ (upsert_only _ _ _) E1 Hf) as [F1 _].
  pose proof (upsert_android (Str.trim_space serial) (with_hostname (Str.trim_space (tp_Hostname p)) p) (deriveAssetOsType p) w) as A1.
  rewrite E1 in A1. unfold same in A1. cbn [snd] in A1. rewrite A1 in Hrow.
  assert (Ha : Str.equal_fold (Str.trim_space (deriveAssetOsType p)) "android" = true) by (by rewrite Hos).
  rewrite Hid in *. destruct (persist_wipe _ _ _ _ _ _ _ _ row F1 Ha Hrow Hw Hpa) as (_ & Hr & Hx).
  by split_and!.
Qed.

(** ** The watchdog *)

Section watchdog.
Context `{JC : JsonCodec} `{UL : UuidLib} `{GF : GoFmt} `{PG : PgLib} `{EV : Environ} `{CSR : CsrLib} `{JL : JwtLib}
        `{CL : C2Laws L}.

(** Ids and the time each device was last seen. *)
Definition sightings (db : Tables) : list (uuid * option Z) := map (fun a => (a_id a, a_last_seen a)) (t_assets db).

Lemma status_sightings id s r : db_steps (same sightings) (SetAssetCompliance (L := L) id s r).
Proof.
  unfold SetAssetCompliance. cbv zeta. db_walk. other_table. unfold same, sightings. simpl. by rewrite update_where_column.
Qed.

Lemma quarantine_sightings id on : db_steps (same sightings) (SetAssetQuarantineEnabled (L := L) id on).
Proof.
  unfold SetAssetQuarantineEnabled. db_walk. other_table. unfold same, sightings. simpl. by rewrite update_where_column.
Qed.

Lemma metric_sightings id cpu a b c d : db_steps (same sightings) (InsertDeviceMetric (L := L) id cpu a b c d).
Proof. unfold InsertDeviceMetric. db_walk. other_table. done. Qed.

(** A device that has reported is in the table, seen now. *)
Lemma report_seen serial p (w w' : World L) res : assets_ok (w_db w) -> ProcessTelemetry serial p w = (inr res, w') ->
  w_now w' = w_now w /\ exists a, In a (t_assets (w_db w')) /\ a_id a = tr_AssetID res /\ a_last_seen a = Some (w_now w).
Proof.
  intros Hok Hp. destruct (Process_says serial p w) as (_ & Ht & _). rewrite Hp in Ht. split; [done|].
  destruct (Process_inv _ _ _ _ _ Hp) as (Hh & Hs & x & w1 & E1%upsert_registers & Hpa & Hid'). destruct E1 as (l' & Hr & Ed & Hk).
  specialize (Hk Hok). rewrite Ed in Hk.
  destruct (registers_owner _ _ _ _ _ _ _ _ _ _ Hr Hs Hh Hk) as [(a & Ha & Hid & _ & _ & _ & _ & Hl) _].
  assert (Hrest : same sightings (w_db w1) (w_db w')).
  { rewrite <- (f_equal snd Hpa : _ = w'). apply persist_walk; try done;
      first [typeclasses eauto|apply status_sightings|apply quarantine_sightings|intros; apply metric_sightings]. }
  assert (Hin : In (x.1, Some (w_now w)) (sightings (w_db w'))).
  { rewrite <- Hrest, Ed. unfold sightings. apply in_map_iff. exists a. by rewrite Hid, Hl. }
  apply in_map_iff in Hin as (b & [= Eb1 Eb2] & Hb). exists b. by rewrite Hid'.
Qed.
End watchdog.

(** A device that has reported is not raised as offline.  A watchdog pass up to five minutes
    after the report -- if the texts of the alerts it has to raise can be stored -- ends with no
    open watchdog alert for the device, whatever was open before. *)
Theorem report_holds_off_the_watchdog `{JsonCodec} `{UuidLib} `{!UuidLaws} `{GoFmt} `{PgLib} `{Environ} `{CsrLib} `{JwtLib}
    `{C2Laws L} serial p res d (w w1 : World L) :
  assets_ok (w_db w) -> ProcessTelemetry serial p w = (inr res, w1) -> 0 <= d <= offlineBuiltinGrace ->
  let v := advance_clock d w1 in
  w_faults v = [] -> alerts_wf v -> kinds_agree v -> (forall a, In a (t_assets (w_db v)) -> watchdog_sees v a) ->
  assets_ok (w_db v) ->
  exists v', evaluateBuiltinOffline v = (inr (), v') /\ ~ open_alert v' (builtin_fp (tr_AssetID res)).
Proof.
  intros Hok Hp Hd v Hf Hwf Hk Hsee Hok1.
  assert (Hids : List.NoDup (map a_id (t_assets (w_db v)))).
  { apply NoDup_ListNoDup, NoDup_alt. intros i j x. rewrite !list_lookup_fmap_Some. intros (a & -> & Hi) (b & E & Hj).
    destruct Hok1 as [_ Hu]. apply (Hu i j a b Hi Hj). unfold assets_clash. by rewrite E, N.eqb_refl. }
  destruct (report_seen serial p w w1 res Hok Hp) as (Ht & a & Ha & Hid & Hl).
  destruct (watchdog_pass_ok v Hf Hwf Hk Hids Hsee) as (v' & E & R). exists v'. split; [done|].
  rewrite <- Hid. intros Ho. apply (pr_exact _ _ R a Ha) in Ho. unfold silent, offline_before in Ho. rewrite Hl in Ho.
  unfold v in Ho. simpl in Ho. rewrite Ht, Z.max_r in Ho by lia. apply Z.ltb_lt in Ho. lia.
Qed.
