(* ===== verification/Packages.v ===== *)
(** * Packages and deployments

    internal/api/packages.go, internal/ws/package_outcome.go, and the hub's
    DispatchJSONByHumanID: the catalog of packages, a deployment of one to one device, its
    dispatch and the outcome the agent reports. *)

From S2P Require Import Prelude GoStd Float64 Json Ext World Auth UsersAdmin DeviceCommands CommandFlow.
From S2P Require Import Alerting.

Definition maxPackageJSONBody : Z := 256 * 1024.

(** CHECK (packages_type_values) and [allowedPackageTypes]; CHECK (deployments_status_values) *)
Definition allowedPackageTypes : list string := ["winget"; "apt"; "dnf"; "choco"; "custom"]%string.
Definition deployment_statuses : list string := ["pending"; "dispatched"; "in_progress"; "succeeded"; "failed"]%string.

Definition is_package (id : uuid) (p : Package) : bool := N.eqb (pk_ID p) id.
Definition is_deployment (id : uuid) (d : Deployment) : bool := N.eqb (dp_id d) id.

(** A deployments row references rows that exist. *)
Definition deployment_refs_ok (db : Tables) (asset package : uuid) : bool :=
  asset_exists db asset && existsb (is_package package) (t_packages db).

Definition package_row_ok (p : Package) : bool :=
  one_of (pk_Type p) allowedPackageTypes && text_ok (pk_Name p) && text_ok (pk_Version p) && text_ok (pk_InstallCmd p).

Definition set_deployment (status : string) (msg : option string) (t : Z) (d : Deployment) : Deployment :=
  {| dp_id := dp_id d; dp_asset := dp_asset d; dp_package := dp_package d; dp_status := status; dp_error := msg;
     dp_created := dp_created d; dp_updated := t |}.

(** ** DispatchJSONByHumanID (ws/hub.go) *)
Section dispatch.
Context `{GF : GoFmt} `{C2 : C2Dispatcher L}.

(** The column is scanned into a string: NULL is an error too. *)
Definition DispatchJSONByHumanID (humanID : string) (payload : json) : go L () :=
  let humanID := Str.trim_space humanID in
  if String.eqb humanID "" then fail (ErrMsg "ws: humanID is required") else
  r ← attempt (select (fun db _ =>
        if negb (text_ok humanID) then inl bad_text else
        match List.find (fun a => String.eqb (a_human_id a) humanID) (t_assets db) with
        | None => inl ErrNoRows
        | Some a => match a_cert_serial a with
                    | Some s => inr s
                    | None => inl (ErrMsg "cannot scan NULL into *string") end
        end));
  match r with
  | inl e => if is_no_rows e then fail (ErrMsg ("ws: no asset for human_id " +:+ fmt_quote humanID))
             else fail (ErrWrap "ws: lookup cert_serial" e)
  | inr serial =>
      let certSerial := Str.trim_space serial in
      if String.eqb certSerial "" then fail (ErrMsg ("ws: asset " +:+ fmt_quote humanID +:+ " has no cert_serial")) else
      ok ← dispatch certSerial payload;
      if (ok : bool) then mret ()
      else fail (ErrMsg ("ws: agent not connected for human_id " +:+ fmt_quote humanID +:+ " (cert_serial "
                         +:+ fmt_quote certSerial +:+ ")"))
  end.
End dispatch.

(** ** Statements shared with the scheduler *)
Section statements.
Context `{UL : UuidLib} {L : Type}.

Definition asset_by_human_id (humanID : string) : go L uuid :=
  select (fun db _ => if negb (text_ok humanID) then inl bad_text else
    match List.find (fun a => String.eqb (a_human_id a) humanID) (t_assets db) with
    | Some a => inr (a_id a)
    | None => inl ErrNoRows end).

Definition load_package (id : uuid) : go L Package :=
  select (fun db _ => match List.find (is_package id) (t_packages db) with
                      | Some p => inr p
                      | None => inl ErrNoRows end).

(** INSERT INTO deployments (asset_id, package_id, status) VALUES ($1, $2, 'pending') RETURNING id *)
Definition insert_deployment (asset package : uuid) : go L uuid :=
  insert_id (fun id db t =>
    if negb (deployment_refs_ok db asset package) then inl (ErrMsg "violates foreign key constraint") else
    inr (id, with_deployments (t_deployments db ++
      [{| dp_id := id; dp_asset := asset; dp_package := package; dp_status := "pending"; dp_error := None;
          dp_created := t; dp_updated := t |}]) db)).

Definition fail_deployment (id : uuid) (msg : string) : go L () :=
  exec (fun db t => if negb (text_ok msg) then inl bad_text else
    inr ((), with_deployments (update_where (is_deployment id) (set_deployment "failed" (Some msg) t) (t_deployments db)) db)).

(** The error message stays as it is. *)
Definition mark_dispatched (id : uuid) : go L () :=
  exec (fun db t => inr ((), with_deployments
    (update_where (is_deployment id) (fun d => set_deployment "dispatched" (dp_error d) t d) (t_deployments db)) db)).

Definition deploy_message (depID : uuid) (op : string) (pkg : Package) : json :=
  JObj (jmap [("action", jstr "deploy_package"); ("deployment_id", jstr (uuid_string depID)); ("operation", jstr op);
              ("package_type", jstr (pk_Type pkg)); ("name", jstr (pk_Name pkg)); ("version", jstr (pk_Version pkg));
              ("install_cmd", jstr (pk_InstallCmd pkg))]%string).
End statements.

(** ** Routes *)
Section routes.
Context `{JC : JsonCodec} `{UL : UuidLib} `{GF : GoFmt} `{PG : PgLib} `{JL : JwtLib} `{C2 : C2Dispatcher L}.
Context (origins : list string).

Definition parsePackageUUIDParam (r : Request) : option uuid :=
  let raw := Str.trim_space (rq_path_id r) in
  if String.eqb raw "" then None else uuid_parse raw.

Definition package_json (p : Package) : json :=
  JObj (jmap [("id", jstr (uuid_string (pk_ID p))); ("name", jstr (pk_Name p)); ("version", jstr (pk_Version p));
              ("type", jstr (pk_Type p)); ("install_cmd", jstr (pk_InstallCmd p));
              ("created_at", jstr (fmt_time (pk_CreatedAt p))); ("updated_at", jstr (fmt_time (pk_UpdatedAt p)))]%string).

(** ORDER BY a, then by the rest. *)
Definition text_then (a b : string) (rest : bool) : bool :=
  if pg_text_lt a b then true else if pg_text_lt b a then false else rest.

Definition package_order (p q : Package) : bool :=
  text_then (pk_Name p) (pk_Name q) (text_then (pk_Type p) (pk_Type q) (pg_text_lt (pk_Version p) (pk_Version q))).

Definition handleListPackages (r : Request) : go L Response :=
  let? _ := require_method "GET" r in
  let? _ := RequireMinRole origins r RoleViewer in
  rows ← attempt (select (fun db _ => inr (sort_slice package_order (t_packages db))));
  mret match rows with
       | inl _ => writeTicketsError 500 "failed to list packages"
       | inr rows => writeTicketsJSON 200 (JArr (map package_json rows))
       end.

Record createPackageRequest := { cp_Name : string; cp_Version : string; cp_Type : string; cp_InstallCmd : string }.

Definition decode_create_package (body : string) : option createPackageRequest :=
  m ← unmarshal_map body;
  n ← dec_string "" (field "name" m);
  v ← dec_string "" (field "version" m);
  t ← dec_string "" (field "type" m);
  c ← dec_string "" (field "install_cmd" m);
  Some {| cp_Name := Str.trim_space n; cp_Version := Str.trim_space v; cp_Type := Str.to_lower (Str.trim_space t);
          cp_InstallCmd := Str.trim_space c |}.

Definition insert_package (req : createPackageRequest) : go L uuid :=
  insert_id (fun id db t =>
    let row := {| pk_ID := id; pk_Name := cp_Name req; pk_Version := cp_Version req; pk_Type := cp_Type req;
                  pk_InstallCmd := cp_InstallCmd req; pk_CreatedAt := t; pk_UpdatedAt := t |} in
    if negb (package_row_ok row) then inl (ErrMsg "violates constraint") else
    inr (id, with_packages (t_packages db ++ [row]) db)).

Definition handleCreatePackage (r : Request) : go L Response :=
  let? _ := require_method "POST" r in
  let? _ := RequireMinRole origins r RoleOperator in
  match read_body maxPackageJSONBody r with
  | None => mret (writeTicketsError 400 "could not read request body")
  | Some body =>
  match decode_create_package body with
  | None => mret (writeTicketsError 400 "invalid JSON body")
  | Some req =>
      if String.eqb (cp_Name req) "" then mret (writeTicketsError 400 "name is required") else
      if negb (one_of (cp_Type req) allowedPackageTypes) then mret (writeTicketsError 400 "invalid type") else
      if String.eqb (cp_Type req) "custom" && String.eqb (cp_InstallCmd req) ""
      then mret (writeTicketsError 400 "install_cmd is required for custom packages") else
      id ← attempt (insert_package req);
      mret match id with
           | inl _ => writeTicketsError 500 "failed to create package"
           | inr id => writeTicketsJSON 201 (JObj [("id"%string, jstr (uuid_string id))])
           end
  end end.

Definition handleGetPackage (r : Request) : go L Response :=
  let? _ := require_method "GET" r in
  let? _ := RequireMinRole origins r RoleViewer in
  match parsePackageUUIDParam r with
  | None => mret (writeTicketsError 400 "invalid package id")
  | Some id =>
      p ← attempt (load_package id);
      mret match p with
           | inl e => if is_no_rows e then writeTicketsError 404 "package not found"
                      else writeTicketsError 500 "failed to load package"
           | inr p => writeTicketsJSON 200 (package_json p)
           end
  end.

Record patchPackageRequest := {
  qp_Name : option string; qp_Version : option string; qp_Type : option string; qp_InstallCmd : option string
}.

Definition decode_patch_package (body : string) : option patchPackageRequest :=
  m ← unmarshal_map body;
  n ← dec_opt_string None (field "name" m);
  v ← dec_opt_string None (field "version" m);
  t ← dec_opt_string None (field "type" m);
  c ← dec_opt_string None (field "install_cmd" m);
  Some {| qp_Name := n; qp_Version := v; qp_Type := t; qp_InstallCmd := c |}.

(** The checks in front of the UPDATE; they leave the fields as they are stored. *)
Definition check_patch_package (req : patchPackageRequest) : Response + patchPackageRequest :=
  match req with
  | {| qp_Name := None; qp_Version := None; qp_Type := None; qp_InstallCmd := None |} =>
      err_resp 400 "no fields to update"
  | _ =>
      if match qp_Name req with Some n => String.eqb (Str.trim_space n) "" | None => false end
      then err_resp 400 "name cannot be empty" else
      if match qp_Type req with
         | Some t => negb (one_of (Str.to_lower (Str.trim_space t)) allowedPackageTypes)
         | None => false end
      then err_resp 400 "invalid type" else
      inr {| qp_Name := option_map Str.trim_space (qp_Name req); qp_Version := option_map Str.trim_space (qp_Version req);
             qp_Type := option_map (fun t => Str.to_lower (Str.trim_space t)) (qp_Type req);
             qp_InstallCmd := option_map Str.trim_space (qp_InstallCmd req) |}
  end.

Definition patched_package (req : patchPackageRequest) (t : Z) (p : Package) : Package :=
  {| pk_ID := pk_ID p; pk_Name := default (pk_Name p) (qp_Name req); pk_Version := default (pk_Version p) (qp_Version req);
     pk_Type := default (pk_Type p) (qp_Type req); pk_InstallCmd := default (pk_InstallCmd p) (qp_InstallCmd req);
     pk_CreatedAt := pk_CreatedAt p; pk_UpdatedAt := t |}.

(** The rows affected. *)
Definition update_package (id : uuid) (req : patchPackageRequest) : go L nat :=
  exec (fun db t =>
    if existsb (fun p => is_package id p && negb (package_row_ok (patched_package req t p))) (t_packages db)
    then inl (ErrMsg "violates constraint") else
    inr (count_where (is_package id) (t_packages db),
         with_packages (update_where (is_package id) (patched_package req t) (t_packages db)) db)).

Definition handlePatchPackage (r : Request) : go L Response :=
  let? _ := require_method "PATCH" r in
  let? _ := RequireMinRole origins r RoleOperator in
  match parsePackageUUIDParam r with
  | None => mret (writeTicketsError 400 "invalid package id")
  | Some id =>
  match read_body maxPackageJSONBody r with
  | None => mret (writeTicketsError 400 "could not read request body")
  | Some body =>
  match decode_patch_package body with
  | None => mret (writeTicketsError 400 "invalid JSON body")
  | Some req =>
      let? req := check_patch_package req in
      n ← attempt (update_package id req);
      match n with
      | inl _ => mret (writeTicketsError 500 "failed to update package")
      | inr O => mret (writeTicketsError 404 "package not found")
      | inr _ =>
          p ← attempt (load_package id);
          mret match p with
               | inl _ => writeTicketsJSON 200 (JObj [("status"%string, jstr "updated")])
               | inr p => writeTicketsJSON 200 (package_json p)
               end
      end
  end end end.

(** DELETE FROM packages: the deployments of the package go with it. *)
Definition delete_package (id : uuid) : go L nat :=
  exec (fun db _ =>
    inr (count_where (is_package id) (t_packages db),
         with_deployments (delete_where (fun d => N.eqb (dp_package d) id) (t_deployments db))
           (with_packages (delete_where (is_package id) (t_packages db)) db))).

Definition handleDeletePackage (r : Request) : go L Response :=
  let? _ := require_method "DELETE" r in
  let? _ := RequireMinRole origins r RoleAdmin in
  match parsePackageUUIDParam r with
  | None => mret (writeTicketsError 400 "invalid package id")
  | Some id =>
      n ← attempt (delete_package id);
      mret match n with
           | inl _ => writeTicketsError 500 "failed to delete package"
           | inr O => writeTicketsError 404 "package not found"
           | inr _ => writeTicketsJSON 204 JNull
           end
  end.

(** A row of the listing: the deployment with its asset and its package. *)
Definition deployment_row (db : Tables) (d : Deployment) : option (Deployment * Asset * Package) :=
  a ← List.find (fun a => N.eqb (a_id a) (dp_asset d)) (t_assets db);
  p ← List.find (is_package (dp_package d)) (t_packages db);
  Some (d, a, p).

Definition deployment_json (x : Deployment * Asset * Package) : json :=
  let '(d, a, p) := x in
  JObj (jmap ([("id", jstr (uuid_string (dp_id d))); ("asset_id", jstr (uuid_string (dp_asset d)));
               ("asset_human_id", jstr (a_human_id a)); ("package_id", jstr (uuid_string (dp_package d)));
               ("package_name", jstr (pk_Name p)); ("package_type", jstr (pk_Type p));
               ("package_version", jstr (pk_Version p)); ("status", jstr (dp_status d))]%string
    ++ match dp_error d with None => [] | Some e => [("error_message"%string, jstr e)] end
    ++ [("created_at", jstr (fmt_time (dp_created d))); ("updated_at", jstr (fmt_time (dp_updated d)))]%string)).

Definition newest_deployment (x y : Deployment * Asset * Package) : bool := dp_created y.1.1 <? dp_created x.1.1.

Definition handleListDeployments (r : Request) : go L Response :=
  let? _ := require_method "GET" r in
  let? _ := RequireMinRole origins r RoleViewer in
  let assetHID := Str.trim_space (rq_query r "asset_human_id") in
  rows ← attempt (select (fun db _ =>
    if negb (text_ok assetHID) then inl bad_text else
    let rows := omap (deployment_row db) (t_deployments db) in
    let rows := if String.eqb assetHID "" then rows
                else List.filter (fun x => String.eqb (a_human_id x.1.2) assetHID) rows in
    inr (take 500 (sort_slice newest_deployment rows))));
  mret match rows with
       | inl _ => writeTicketsError 500 "failed to list deployments"
       | inr rows => writeTicketsJSON 200 (JArr (map deployment_json rows))
       end.

Record createDeploymentRequest := {
  cd_AssetHumanID : string; cd_PackageID : string; cd_TriggerDeploy : bool; cd_Operation : string
}.

Definition decode_create_deployment (body : string) : option createDeploymentRequest :=
  m ← unmarshal_map body;
  a ← dec_string "" (field "asset_human_id" m);
  p ← dec_string "" (field "package_id" m);
  t ← dec_bool false (field "trigger_deploy" m);
  o ← dec_string "" (field "operation" m);
  Some {| cd_AssetHumanID := Str.trim_space a; cd_PackageID := Str.trim_space p; cd_TriggerDeploy := t; cd_Operation := o |}.

Definition nullIfEmpty (s : string) : json := if String.eqb (Str.trim_space s) "" then JNull else jstr s.

(** Whether the message was handed over, and the error text. *)
Definition trigger (humanID : string) (depID : uuid) (op : string) (pkg : Package) : go L (bool * string) :=
  r ← attempt (DispatchJSONByHumanID humanID (deploy_message depID op pkg));
  match r with
  | inl e => _ ← attempt (fail_deployment depID (err_text e)); mret (false, err_text e)
  | inr _ => _ ← attempt (mark_dispatched depID); mret (true, ""%string)
  end.

Definition handleCreateDeployment (r : Request) : go L Response :=
  let? _ := require_method "POST" r in
  let? _ := RequireMinRole origins r RoleOperator in
  match read_body maxPackageJSONBody r with
  | None => mret (writeTicketsError 400 "could not read request body")
  | Some body =>
  match decode_create_deployment body with
  | None => mret (writeTicketsError 400 "invalid JSON body")
  | Some req =>
      if String.eqb (cd_AssetHumanID req) "" || String.eqb (cd_PackageID req) ""
      then mret (writeTicketsError 400 "asset_human_id and package_id are required") else
      let op := Str.to_lower (Str.trim_space (cd_Operation req)) in
      let op := if String.eqb op "" then "install"%string else op in
      if negb (one_of op ["install"; "uninstall"]%string)
      then mret (writeTicketsError 400 "operation must be install or uninstall") else
      match uuid_parse (cd_PackageID req) with
      | None => mret (writeTicketsError 400 "invalid package_id")
      | Some pkgID =>
          asset ← attempt (asset_by_human_id (cd_AssetHumanID req));
          match asset with
          | inl e => mret (if is_no_rows e then writeTicketsError 400 "asset not found"
                           else writeTicketsError 500 "failed to resolve asset")
          | inr assetID =>
          pkg ← attempt (load_package pkgID);
          match pkg with
          | inl e => mret (if is_no_rows e then writeTicketsError 400 "package not found"
                           else writeTicketsError 500 "failed to load package")
          | inr pkg =>
          dep ← attempt (insert_deployment assetID (pk_ID pkg));
          match dep with
          | inl _ => mret (writeTicketsError 500 "failed to create deployment")
          | inr depID =>
              out ← (if cd_TriggerDeploy req then trigger (cd_AssetHumanID req) depID op pkg else mret (false, ""%string));
              mret (writeTicketsJSON 201 (JObj (jmap [("id", jstr (uuid_string depID));
                ("triggered", JBool (cd_TriggerDeploy req)); ("dispatch_succeeded", JBool out.1);
                ("dispatch_error", nullIfEmpty out.2)]%string)))
          end end end
      end
  end end.
End routes.

(** ** package_outcome.go *)

Definition agentMsgPackageResult : string := "package_result".

Record agentPackageResult := { pr_Type : string; pr_DeploymentID : string; pr_OK : bool; pr_Error : string }.

Section outcome.
Context `{JC : JsonCodec} `{UL : UuidLib} {L : Type}.

Definition decode_package_result (raw : string) : option agentPackageResult :=
  m ← unmarshal_map raw;
  t ← dec_string "" (field "type" m);
  d ← dec_string "" (field "deployment_id" m);
  _ ← dec_string "" (field "request_id" m);
  ok ← dec_bool false (field "ok" m);
  e ← dec_string "" (field "error" m);
  _ ← dec_string "" (field "operation" m);
  _ ← dec_string "" (field "package_type" m);
  Some {| pr_Type := t; pr_DeploymentID := d; pr_OK := ok; pr_Error := e |}.

(** The status and message a result is stored as. *)
Definition package_outcome (probe : agentPackageResult) : string * option string :=
  if pr_OK probe then ("succeeded"%string, None)
  else let em := Str.trim_space (pr_Error probe) in
       ("failed"%string, Some (if String.eqb em "" then "operation failed"%string else em)).

(** d.asset_id = a.id AND a.cert_serial = $2 *)
Definition of_serial (db : Tables) (serial : string) (asset : uuid) : bool :=
  existsb (fun a => N.eqb (a_id a) asset && owns_serial serial a) (t_assets db).

Definition apply_outcome (id : uuid) (serial status : string) (msg : option string) : go L nat :=
  exec (fun db t =>
    if negb (text_ok serial && match msg with Some m => text_ok m | None => true end) then inl bad_text else
    let p d := is_deployment id d && of_serial db serial (dp_asset d) in
    inr (count_where p (t_deployments db),
         with_deployments (update_where p (set_deployment status msg t) (t_deployments db)) db)).

Definition ApplyPackageDeploymentOutcome (certSerial raw : string) : go L bool :=
  match decode_package_result raw with
  | None => mret false
  | Some probe =>
      if negb (String.eqb (Str.trim_space (pr_Type probe)) agentMsgPackageResult) then mret false else
      let depID := Str.trim_space (pr_DeploymentID probe) in
      if String.eqb depID "" then mret true else
      match uuid_parse depID with
      | None => mret true
      | Some id =>
          let certSerial := Str.trim_space certSerial in
          if String.eqb certSerial "" then mret true else
          let out := package_outcome probe in
          _ ← attempt (apply_outcome id certSerial out.1 out.2);
          mret true
      end
  end.
End outcome.
