(* ===== verification/Scheduler.v ===== *)
(** * Scheduled automations

    internal/scheduler/cron.go, internal/api/automations.go.  Parsing cron expressions and
    deciding when a job is due is robfig/cron's ([CronLib]); the model has the jobs that are
    registered, what a reload does to them, and what a job does when it fires. *)

From S2P Require Import Prelude GoStd Float64 Json Ext World Auth UsersAdmin DeviceCommands CommandFlow.
From S2P Require Import Alerting Packages Telemetry.

(** cron.ParseStandard, and Parse of the parser with optional seconds: its error text, if any. *)
Class CronLib := { cron_standard : string -> bool; cron_extended : string -> option string }.

Section cron.
Context `{CronLib}.

(** The error of [ValidateCronSchedule]. *)
Definition parseCronSpec (spec : string) : option string :=
  let spec := Str.trim_space spec in
  if String.eqb spec "" then Some "empty cron expression"%string
  else if cron_standard spec then None
  else cron_extended spec.

Definition ValidateCronSchedule (spec : string) : option string := parseCronSpec spec.
End cron.

Definition automation_actions : list string := ["shutdown"; "deploy_package"]%string.
Definition is_automation (id : uuid) (a : Automation) : bool := N.eqb (au_ID a) id.

(** fmt.Sprint of a member that may be absent. *)
Definition sprint `{GoFmt} (v : option json) : string :=
  match v with
  | None | Some JNull => "<nil>"
  | Some (JStr s) => s
  | Some (JBool true) => "true"
  | Some (JBool false) => "false"
  | Some v => fmt_value v
  end.

(** A device has presented a certificate. *)
Definition reachable_asset (a : Asset) : bool :=
  match a_cert_serial a with Some s => negb (String.eqb (pg_trim s) "") | None => false end.

Section dispatch.
Context `{UL : UuidLib} `{GF : GoFmt} `{C2 : C2Dispatcher L}.

Definition load_automation (id : uuid) : go L Automation :=
  select (fun db _ => match List.find (is_automation id) (t_automations db) with
                      | Some a => inr a
                      | None => inl ErrNoRows end).

Definition resolveTargetHumanIDs (row : Automation) : go L (list string) :=
  match au_TargetAssetID row with
  | Some target =>
      r ← attempt (select (fun db _ =>
            match List.find (fun a => N.eqb (a_id a) target && reachable_asset a) (t_assets db) with
            | Some a => inr (a_human_id a)
            | None => inl ErrNoRows end));
      match r with
      | inl e => if is_no_rows e then mret [] else fail e
      | inr hid => mret [Str.trim_space hid]
      end
  | None =>
      match au_TargetOS row with
      | None => fail (ErrMsg "target_os and target_asset_id unset")
      | Some os =>
          let os := Str.trim_space (Str.to_lower os) in
          select (fun db _ => if negb (text_ok os) then inl bad_text else
            inr (List.filter (fun t => negb (String.eqb t ""))
                   (map (fun a => Str.trim_space (a_human_id a))
                      (List.filter (fun a => String.eqb (a_os_type a) os && reachable_asset a) (t_assets db)))))
      end
  end.

Definition auditDispatch (humanID action : string) (details : list (string * json)) : go L () :=
  id ← attempt (asset_by_human_id humanID);
  let assetID := match id with inr id => Some id | inl _ => None end in
  _ ← attempt (InsertAuditRecord {| rec_UserID := uuid_nil; rec_Action := action; rec_ResourceType := "device";
                 rec_ResourceID := assetID; rec_TargetAssetID := assetID; rec_Details := details; rec_IPAddress := "" |});
  mret ().

Definition automation_details (row : Automation) (humanID : string) : list (string * json) :=
  [("automation_id", jstr (uuid_string (au_ID row))); ("automation_name", jstr (au_Name row));
   ("target_human_id", jstr humanID)]%string.

Definition dispatchShutdown (row : Automation) (humanID : string) : go L () :=
  r ← attempt (DispatchJSONByHumanID humanID (JObj [("action"%string, jstr "shutdown")]));
  match r with
  | inl _ => mret ()
  | inr _ => auditDispatch humanID "automation.shutdown" (automation_details row humanID)
  end.

(** payload_json into a map[string]any. *)
Definition automation_payload (v : json) : option (list (string * json)) :=
  match v with JObj m => Some m | JNull => Some [] | _ => None end.

Definition deploy_operation (payload : list (string * json)) : string :=
  let op := Str.to_lower (Str.trim_space (sprint (obj_get "operation" payload))) in
  if String.eqb op "" then "install" else op.

Definition dispatchDeploy (row : Automation) (humanID : string) : go L () :=
  match automation_payload (au_PayloadJSON row) with
  | None => mret ()
  | Some payload =>
      let rawPkg := match obj_get "package_id" payload with Some (JStr s) => s | _ => ""%string end in
      match uuid_parse (Str.trim_space rawPkg) with
      | None => mret ()
      | Some pkgID =>
          let op := deploy_operation payload in
          if negb (one_of op ["install"; "uninstall"]%string) then mret () else
          asset ← attempt (asset_by_human_id humanID);
          match asset with
          | inl _ => mret ()
          | inr assetID =>
          pkg ← attempt (load_package pkgID);
          match pkg with
          | inl _ => mret ()
          | inr pkg =>
          dep ← attempt (insert_deployment assetID (pk_ID pkg));
          match dep with
          | inl _ => mret ()
          | inr depID =>
              sent ← trigger humanID depID op pkg;
              if (sent.1 : bool) then
                auditDispatch humanID "automation.deploy_package"
                  (automation_details row humanID ++ [("deployment_id", jstr (uuid_string depID));
                                                      ("package_id", jstr (uuid_string (pk_ID pkg)))]%string)
              else mret ()
          end end end
      end
  end.

(** A registered job fires. *)
Definition dispatchAutomation (automationID : uuid) : go L () :=
  r ← attempt (load_automation automationID);
  match r with
  | inl _ => mret ()
  | inr row =>
      if negb (au_IsActive row) then mret () else
      ids ← attempt (resolveTargetHumanIDs row);
      match ids with
      | inl _ | inr [] => mret ()
      | inr humanIDs =>
          let action := Str.trim_space (Str.to_lower (au_ActionType row)) in
          for_each humanIDs (fun hid =>
            if String.eqb action "shutdown" then dispatchShutdown row hid
            else if String.eqb action "deploy_package" then dispatchDeploy row hid
            else mret ())
      end
  end.

Definition loadActive : go L (list Automation) :=
  select (fun db _ => inr (List.filter au_IsActive (t_automations db))).
End dispatch.

(** ** The scheduler

    Its state is the jobs registered with the current cron.Cron: one per automation. *)
Definition jobs : Type := list uuid.

(** A reload that cannot read the table keeps the jobs it has. *)
Definition reload `{CronLib} {L} (cur : jobs) : go L jobs :=
  rows ← attempt loadActive;
  mret match rows with
       | inl _ => cur
       | inr rows => map au_ID (List.filter (fun a => negb (is_some_b (parseCronSpec (au_CronSchedule a)))) rows)
       end.

Record Scheduler (L : Type) := { sc_world : World L; sc_jobs : jobs }.
Arguments sc_world {L}.
Arguments sc_jobs {L}.

(** What can happen next: the ticker reloads, a registered job fires, time passes, or another part
    of the server changes the world and leaves the automations it does not own as [R] says. *)
Inductive sched_step `{UuidLib} `{GoFmt} `{CronLib} `{C2Dispatcher L} (R : World L -> World L -> Prop)
    : Scheduler L -> Scheduler L -> Prop :=
| sched_reload s r w : reload (sc_jobs s) (sc_world s) = (inr r, w) ->
    sched_step R s {| sc_world := w; sc_jobs := r |}
| sched_fire s id r w : In id (sc_jobs s) -> dispatchAutomation id (sc_world s) = (r, w) ->
    sched_step R s {| sc_world := w; sc_jobs := sc_jobs s |}
| sched_time s d : sched_step R s {| sc_world := advance_clock d (sc_world s); sc_jobs := sc_jobs s |}
| sched_other s w : R (sc_world s) w -> sched_step R s {| sc_world := w; sc_jobs := sc_jobs s |}.

(** ** Routes (api/automations.go) *)

Definition maxAutomationJSONBody : Z := 64 * 1024.
Definition allowedAutomationTargetOS : list string := os_types.

Section routes.
Context `{JC : JsonCodec} `{UL : UuidLib} `{GF : GoFmt} `{PG : PgLib} `{JL : JwtLib} `{CR : CronLib} {L : Type}.
Context (origins : list string).

Definition automation_json (a : Automation) : json :=
  JObj (jmap ([("id", jstr (uuid_string (au_ID a))); ("name", jstr (au_Name a));
               ("cron_schedule", jstr (au_CronSchedule a)); ("action_type", jstr (au_ActionType a))]%string
    ++ match au_TargetOS a with None => [] | Some os => [("target_os"%string, jstr os)] end
    ++ match au_TargetAssetID a with None => [] | Some id => [("target_asset_id"%string, jstr (uuid_string id))] end
    ++ [("payload_json", au_PayloadJSON a); ("is_active", JBool (au_IsActive a));
        ("created_at", jstr (fmt_time (au_CreatedAt a))); ("updated_at", jstr (fmt_time (au_UpdatedAt a)))]%string)).

Definition newest_automation (a b : Automation) : bool := au_CreatedAt b <? au_CreatedAt a.

Definition automations_handleList (r : Request) : go L Response :=
  let? _ := require_method "GET" r in
  let? _ := RequireMinRole origins r RoleViewer in
  rows ← attempt (select (fun db _ => inr (take 500 (sort_slice newest_automation (t_automations db)))));
  mret match rows with
       | inl _ => writeTicketsError 500 "failed to list automations"
       | inr rows => writeTicketsJSON 200 (JArr (map automation_json rows))
       end.

(** The payload is kept as the JSON value it is; [None]: the member is absent. *)
Record createAutomationRequest := {
  ca_Name : string; ca_CronSchedule : string; ca_ActionType : string; ca_TargetOS : option string;
  ca_TargetAssetID : option string; ca_PayloadJSON : option json; ca_IsActive : option bool
}.

Definition decode_create_automation (body : string) : option createAutomationRequest :=
  m ← unmarshal_map body;
  n ← dec_string "" (field "name" m);
  c ← dec_string "" (field "cron_schedule" m);
  a ← dec_string "" (field "action_type" m);
  o ← dec_opt_string None (field "target_os" m);
  t ← dec_opt_string None (field "target_asset_id" m);
  act ← dec_opt_bool None (field "is_active" m);
  Some {| ca_Name := Str.trim_space n; ca_CronSchedule := Str.trim_space c; ca_ActionType := Str.to_lower (Str.trim_space a);
          ca_TargetOS := o; ca_TargetAssetID := t; ca_PayloadJSON := last (field "payload_json" m); ca_IsActive := act |}.

Definition given (o : option string) : option string :=
  match o with Some s => if String.eqb (Str.trim_space s) "" then None else Some (Str.trim_space s) | None => None end.

(** The target: an asset, else an operating system. *)
Definition automation_target (req : createAutomationRequest) : Response + (option string * option uuid) :=
  match given (ca_TargetAssetID req) with
  | Some a => match uuid_parse a with
              | None => err_resp 400 "invalid target_asset_id"
              | Some id => inr (None, Some id) end
  | None =>
      match given (ca_TargetOS req) with
      | Some os => let os := Str.to_lower os in
                   if negb (one_of os allowedAutomationTargetOS) then err_resp 400 "invalid target_os"
                   else inr (Some os, None)
      | None => err_resp 400 "target_asset_id or target_os is required"
      end
  end.

(** json.Unmarshal into struct{ PackageID string `json:"package_id"` } *)
Definition probe_package_id (payload : json) : option string :=
  m ← automation_payload payload; dec_string "" (field "package_id" m).

Definition check_automation (req : createAutomationRequest) : Response + (option string * option uuid * json) :=
  if String.eqb (ca_Name req) "" || String.eqb (ca_CronSchedule req) "" || String.eqb (ca_ActionType req) ""
  then err_resp 400 "name, cron_schedule, and action_type are required" else
  if negb (one_of (ca_ActionType req) automation_actions)
  then err_resp 400 "action_type must be shutdown or deploy_package" else
  match ValidateCronSchedule (ca_CronSchedule req) with
  | Some e => err_resp 400 ("invalid cron_schedule: " +:+ e)
  | None =>
  if 200 <? Str.rune_count (ca_Name req) then err_resp 400 "name too long" else
  match automation_target req with
  | inl resp => inl resp
  | inr (os, asset) =>
      let payload := default (JObj []) (ca_PayloadJSON req) in
      if String.eqb (ca_ActionType req) "deploy_package"
         && match probe_package_id payload with
            | None => true
            | Some id => String.eqb (Str.trim_space id) "" end
      then err_resp 400 "deploy_package requires payload_json.package_id"
      else inr (os, asset, payload)
  end end.

(** CHECK automations_action_type_values, automations_target_os_values, automations_target_scope; the reference. *)
Definition automation_row_ok (db : Tables) (a : Automation) : bool :=
  one_of (au_ActionType a) automation_actions
  && match au_TargetOS a with Some os => one_of os os_types | None => is_some_b (au_TargetAssetID a) end
  && fk_ok a_id (t_assets db) (au_TargetAssetID a)
  && text_ok (au_Name a) && text_ok (au_CronSchedule a) && negb (json_has_nul (au_PayloadJSON a)).

Definition insert_automation (req : createAutomationRequest) (os : option string) (asset : option uuid) (payload : json)
    : go L uuid :=
  insert_id (fun id db t =>
    let row := {| au_ID := id; au_Name := ca_Name req; au_CronSchedule := ca_CronSchedule req;
                  au_ActionType := ca_ActionType req; au_TargetOS := os; au_TargetAssetID := asset;
                  au_PayloadJSON := payload; au_IsActive := default true (ca_IsActive req);
                  au_CreatedAt := t; au_UpdatedAt := t |} in
    if negb (automation_row_ok db row) then inl (ErrMsg "violates constraint") else
    inr (id, with_automations (t_automations db ++ [row]) db)).

Definition automations_handleCreate (r : Request) : go L Response :=
  let? _ := require_method "POST" r in
  let? _ := RequireMinRole origins r RoleOperator in
  match read_body maxAutomationJSONBody r with
  | None => mret (writeTicketsError 400 "could not read request body")
  | Some body =>
  match decode_create_automation body with
  | None => mret (writeTicketsError 400 "invalid JSON body")
  | Some req =>
      let? (os, asset, payload) := check_automation req in
      id ← attempt (insert_automation req os asset payload);
      mret match id with
           | inl _ => writeTicketsError 500 "failed to create automation"
           | inr id => writeTicketsJSON 201 (JObj [("id"%string, jstr (uuid_string id))])
           end
  end end.

Definition set_active (on : bool) (t : Z) (a : Automation) : Automation :=
  {| au_ID := au_ID a; au_Name := au_Name a; au_CronSchedule := au_CronSchedule a; au_ActionType := au_ActionType a;
     au_TargetOS := au_TargetOS a; au_TargetAssetID := au_TargetAssetID a; au_PayloadJSON := au_PayloadJSON a;
     au_IsActive := on; au_CreatedAt := au_CreatedAt a; au_UpdatedAt := t |}.

Definition automations_handlePatch (r : Request) : go L Response :=
  let? _ := require_method "PATCH" r in
  let? _ := RequireMinRole origins r RoleOperator in
  match uuid_parse (Str.trim_space (rq_path_id r)) with
  | None => mret (writeTicketsError 400 "invalid id")
  | Some id =>
  if N.eqb id uuid_nil then mret (writeTicketsError 400 "invalid id") else
  match read_body maxAutomationJSONBody r with
  | None => mret (writeTicketsError 400 "could not read request body")
  | Some body =>
  match (m ← unmarshal_map body; dec_opt_bool None (field "is_active" m)) with
  | None => mret (writeTicketsError 400 "invalid JSON body")
  | Some None => mret (writeTicketsError 400 "is_active is required")
  | Some (Some on) =>
      n ← attempt (exec (fun db t =>
            inr (count_where (is_automation id) (t_automations db),
                 with_automations (update_where (is_automation id) (set_active on t) (t_automations db)) db)));
      mret match n with
           | inl _ => writeTicketsError 500 "failed to update automation"
           | inr O => writeTicketsError 404 "automation not found"
           | inr _ => writeTicketsJSON 200 (JObj [("ok"%string, JBool true)])
           end
  end end end.
End routes.
