(* ===== verification/SchedulerFacts.v ===== *)
(** * Deployments and automations: the tables, who may settle what, what a firing job does

    Properties of [Packages] and [Scheduler]. *)

From S2P Require Import Prelude GoStd Float64 Json Ext World Auth UsersAdmin DeviceCommands CommandFlow.
From S2P Require Import CommandFacts Alerting Packages Telemetry Scheduler.

(** ** The tables *)

Definition valid_deployment (db : Tables) (d : Deployment) : Prop :=
  one_of (dp_status d) deployment_statuses = true /\ deployment_refs_ok db (dp_asset d) (dp_package d) = true /\
  (dp_status d = "failed"%string -> dp_error d <> None).

Definition packages_ok (db : Tables) : Prop :=
  (forall p, In p (t_packages db) -> package_row_ok p = true) /\
  (forall d, In d (t_deployments db) -> valid_deployment db d).

(** A change of status that keeps the row's identity. *)
Lemma deployments_update p f db :
  (forall d, dp_asset (f d) = dp_asset d /\ dp_package (f d) = dp_package d /\
     one_of (dp_status (f d)) deployment_statuses = true /\ (dp_status (f d) = "failed"%string -> dp_error (f d) <> None)) ->
  keeps packages_ok db (with_deployments (update_where p f (t_deployments db)) db).
Proof.
  intros Hf [Hp Hd]. split; [exact Hp|]. intros d (e & He & ->)%update_where_In. destruct (Hd e He) as (H1 & H2 & H3).
  destruct (p e); [|by split_and!]. destruct (Hf e) as (E1 & E2 & E3 & E4). split_and!; [done| |done]. by rewrite E1, E2.
Qed.

Lemma refs_weaken db db' a p : t_assets db' = t_assets db -> t_packages db' = t_packages db ->
  deployment_refs_ok db' a p = deployment_refs_ok db a p.
Proof. intros E1 E2. unfold deployment_refs_ok, asset_exists. by rewrite E1, E2. Qed.

(** Other tables do not matter. *)
Lemma packages_ok_same db db' : t_assets db' = t_assets db -> t_packages db' = t_packages db ->
  t_deployments db' = t_deployments db -> keeps packages_ok db db'.
Proof.
  intros E1 E2 E3 [Hp Hd]. split; [by rewrite E2|]. rewrite E3. intros d Hin. destruct (Hd d Hin) as (H1 & H2 & H3).
  split_and!; [done| |done]. by rewrite (refs_weaken db).
Qed.

Section writers.
Context `{JC : JsonCodec} `{UL : UuidLib} `{GF : GoFmt} `{PG : PgLib} `{JL : JwtLib} `{C2 : C2Dispatcher L}.
Notation kept := (db_steps (L := L) (keeps packages_ok)).

Lemma insert_deployment_kept a p : kept (insert_deployment a p).
Proof.
  apply steps_insert_id; [typeclasses eauto|]. intros id db t x db'. destruct (deployment_refs_ok db a p) eqn:E; [|done].
  intros [= _ <-] [Hp Hd]. split; [done|]. intros d [Hin|[<-|[]]]%in_app_or; [by apply Hd|]. by split_and!.
Qed.

Lemma fail_deployment_kept id msg : kept (fail_deployment id msg).
Proof.
  apply steps_exec; [typeclasses eauto|]. intros db t x db'. destruct (negb _); [done|]. intros [= _ <-].
  by apply deployments_update.
Qed.

Lemma mark_dispatched_kept id : kept (mark_dispatched id).
Proof. apply steps_exec; [typeclasses eauto|]. intros db t x db' [= _ <-]. by apply deployments_update. Qed.

Lemma apply_outcome_kept id serial probe :
  kept (apply_outcome id serial (package_outcome probe).1 (package_outcome probe).2).
Proof.
  apply steps_exec; [typeclasses eauto|]. intros db t x db'. destruct (negb _); [done|]. cbv zeta. intros [= _ <-].
  apply deployments_update. intros d. unfold package_outcome. by destruct (pr_OK probe).
Qed.

Lemma insert_package_kept req : kept (insert_package req).
Proof.
  apply steps_insert_id; [typeclasses eauto|]. intros id db t x db'. cbv zeta.
  destruct (package_row_ok _) eqn:E; [|done]. intros [= _ <-] [Hp Hd]. split.
  - intros p [Hin|[<-|[]]]%in_app_or; [by apply Hp|done].
  - intros d Hin. destruct (Hd d Hin) as (H1 & H2 & H3). split_and!; [done| |done].
    unfold deployment_refs_ok, asset_exists in *. simpl. rewrite existsb_app. apply andb_true_iff in H2 as [-> ->]. done.
Qed.

Lemma update_package_kept id req : kept (update_package id req).
Proof.
  apply steps_exec; [typeclasses eauto|]. intros db t x db'. destruct (existsb _ _) eqn:E; [done|].
  intros [= _ <-] [Hp Hd]. split.
  - intros p (q & Hq & ->)%update_where_In. destruct (is_package id q) eqn:Eq; [|by apply Hp].
    destruct (package_row_ok (patched_package req t q)) eqn:R; [done|]. rewrite <- E. apply existsb_exists.
    exists q. by rewrite Eq, R.
  - intros d Hin. destruct (Hd d Hin) as (H1 & H2 & H3). split_and!; [done| |done].
    unfold deployment_refs_ok, asset_exists in *. simpl. apply andb_true_iff in H2 as [-> H2]. simpl.
    apply existsb_exists in H2 as (q & Hq & Eq). apply existsb_exists.
    exists (if is_package id q then patched_package req t q else q). split; [by apply (in_map (fun x => if is_package id x then patched_package req t x else x))|].
    by destruct (is_package id q).
Qed.

Lemma delete_package_kept id : kept (delete_package id).
Proof.
  apply steps_exec; [typeclasses eauto|]. intros db t x db' [= _ <-] [Hp Hd]. split; simpl.
  - intros p [Hin _]%filter_In. by apply Hp.
  - intros d [Hin Hne]%filter_In. destruct (Hd d Hin) as (H1 & H2 & H3). split_and!; [done| |done].
    unfold deployment_refs_ok, asset_exists in *. simpl. apply andb_true_iff in H2 as [-> H2]. simpl.
    apply existsb_exists in H2 as (q & Hq & Eq). apply existsb_exists. exists q. split; [|done].
    apply filter_In. split; [done|]. unfold is_package in *. apply N.eqb_eq in Eq as ->. by apply negb_true_iff in Hne as ->.
Qed.

Lemma dispatch_human_kept hid msg : kept (DispatchJSONByHumanID hid msg).
Proof. unfold DispatchJSONByHumanID. cbv zeta. db_walk. Qed.

Lemma trigger_kept hid dep op pkg : kept (trigger hid dep op pkg).
Proof.
  unfold trigger. pose proof dispatch_human_kept. pose proof fail_deployment_kept. pose proof mark_dispatched_kept. db_walk.
Qed.

Lemma audit_kept hid action details : kept (auditDispatch hid action details).
Proof.
  unfold auditDispatch, asset_by_human_id. cbv zeta. db_walk. apply InsertAuditRecord_steps; [typeclasses eauto|].
  intros. by apply packages_ok_same.
Qed.

Lemma dispatchDeploy_kept row hid : kept (dispatchDeploy row hid).
Proof.
  unfold dispatchDeploy, asset_by_human_id, load_package. cbv zeta. pose proof insert_deployment_kept.
  pose proof trigger_kept. pose proof audit_kept. db_walk.
Qed.

Lemma dispatchAutomation_kept id : kept (dispatchAutomation id).
Proof.
  unfold dispatchAutomation, load_automation, resolveTargetHumanIDs, dispatchShutdown. cbv zeta.
  pose proof dispatch_human_kept. pose proof audit_kept. pose proof dispatchDeploy_kept. db_walk.
Qed.
End writers.

(** The packages and deployments tables stay well formed whatever operators, the scheduler and
    agents do and whichever statement fails: a package's type is one of the five; a deployment
    belongs to a device and a package that exist, its status is one of the declared ones, and a
    failed one says why. *)
Theorem deployments_table_invariant `{JsonCodec} `{UuidLib} `{GoFmt} `{PgLib} `{JwtLib} `{C2Dispatcher L}
    origins r serial data id :
  let kept {A} (m : go L A) := db_steps (keeps packages_ok) m in
  kept (handleCreatePackage origins r) /\ kept (handlePatchPackage origins r) /\ kept (handleDeletePackage origins r) /\
  kept (handleCreateDeployment origins r) /\ kept (ApplyPackageDeploymentOutcome serial data) /\ kept (dispatchAutomation id).
Proof.
  cbv zeta. pose proof (insert_package_kept (L := L)). pose proof (update_package_kept (L := L)). pose proof (delete_package_kept (L := L)).
  pose proof (insert_deployment_kept (L := L)). pose proof (trigger_kept (L := L)). pose proof (apply_outcome_kept (L := L)). split_and!.
  - unfold handleCreatePackage. db_walk.
  - unfold handlePatchPackage, load_package. db_walk.
  - unfold handleDeletePackage. db_walk.
  - unfold handleCreateDeployment, asset_by_human_id, load_package. db_walk.
  - unfold ApplyPackageDeploymentOutcome. cbv zeta. db_walk.
  - apply dispatchAutomation_kept.
Qed.

(** ** What a firing job does *)

Section inert.
Context `{UL : UuidLib} `{GF : GoFmt} `{C2 : C2Dispatcher L}.
Implicit Types w : World L.

(** Nothing but a read: no table, no message, no event. *)
Definition without_effect {A} (m : go L A) : Prop := forall w,
  w_db (m w).2 = w_db w /\ w_link (m w).2 = w_link w /\ w_events (m w).2 = w_events w.

Lemma quiet_select {A} (q : Tables -> Z -> err + A) : without_effect (select q).
Proof.
  intros w. unfold select, stmt, next_fault. destruct (w_faults w) as [|[m|] fs]; simpl; try done;
    by destruct (q (w_db w) (w_now w)).
Qed.

Lemma quiet_pure {A} (x : A) : without_effect (mret x).
Proof. by intros w. Qed.

Lemma quiet_fail {A} e : without_effect (fail e : go L A).
Proof. by intros w. Qed.

Lemma quiet_bind {A B} (m : go L A) (k : A -> go L B) :
  without_effect m -> (forall x, without_effect (k x)) -> without_effect (x ← m; k x).
Proof.
  intros Hm Hk w. specialize (Hm w). unfold mbind, go_bind. destruct (m w) as [[e|x] w1]; [done|].
  destruct Hm as (E1 & E2 & E3), (Hk x w1) as (F1 & F2 & F3). simpl in *. split_and!; congruence.
Qed.

Lemma quiet_attempt {A} (m : go L A) : without_effect m -> without_effect (attempt m).
Proof. intros Hm w. specialize (Hm w). unfold attempt. by destruct (m w). Qed.

Lemma quiet_for_each {A} (l : list A) (f : A -> go L ()) :
  (forall x, without_effect (f x)) -> without_effect (for_each l f).
Proof. intros Hf. induction l; simpl; [apply quiet_pure|]. by apply quiet_bind. Qed.

(** The same for the runs from one world. *)
Definition without_effect_at {A} (m : go L A) w : Prop :=
  w_db (m w).2 = w_db w /\ w_link (m w).2 = w_link w /\ w_events (m w).2 = w_events w.

Lemma quiet_bind_at {A B} (m : go L A) (k : A -> go L B) w : without_effect_at m w ->
  (forall x w1, m w = (inr x, w1) -> without_effect_at (k x) w1) -> without_effect_at (x ← m; k x) w.
Proof.
  unfold without_effect_at. intros Hm Hk. unfold mbind, go_bind. destruct (m w) as [[e|x] w1]; [done|].
  specialize (Hk x w1 eq_refl). simpl in *. destruct_and?. split_and!; congruence.
Qed.

Lemma targets_quiet row : without_effect (resolveTargetHumanIDs row).
Proof.
  unfold resolveTargetHumanIDs. destruct (au_TargetAssetID row).
  - apply quiet_bind; [by apply quiet_attempt, quiet_select|]. intros [e|hid]; [|apply quiet_pure].
    destruct (is_no_rows e); [apply quiet_pure|apply quiet_fail].
  - destruct (au_TargetOS row); [apply quiet_select|apply quiet_fail].
Qed.

Lemma deploy_quiet row hid : (forall payload, automation_payload (au_PayloadJSON row) = Some payload ->
    one_of (deploy_operation payload) ["install"; "uninstall"]%string = false) ->
  without_effect (dispatchDeploy row hid).
Proof.
  intros Hop. unfold dispatchDeploy. destruct (automation_payload _) as [payload|]; [|apply quiet_pure].
  destruct (uuid_parse _); [|apply quiet_pure]. cbv zeta. rewrite (Hop payload eq_refl). apply quiet_pure.
Qed.

(** A payload that does not name an operation has the operation "<nil>". *)
Lemma no_operation payload : obj_get "operation" payload = None \/ obj_get "operation" payload = Some JNull ->
  deploy_operation payload = "<nil>"%string.
Proof. intros [E|E]; unfold deploy_operation; by rewrite E. Qed.
End inert.

(** Deploying by schedule needs an operation, which nothing asks for: the create route accepts a
    deploy_package automation whose payload has only the package id -- where POST /v1/deployments
    would install -- but the scheduler reads the missing member as the text <nil>, refuses it, and
    the automation never does anything, whatever the world. *)
Theorem automation_without_operation_never_deploys `{UuidLib} `{GoFmt} `{CronLib} `{C2Dispatcher L} id row payload (w : World L) :
  List.find (is_automation id) (t_automations (w_db w)) = Some row -> au_ActionType row = "deploy_package"%string ->
  au_PayloadJSON row = JObj payload ->
  obj_get "operation" payload = None \/ obj_get "operation" payload = Some JNull ->
  without_effect_at (dispatchAutomation id) w /\
  forall name schedule target pkg,
    let req := {| ca_Name := name; ca_CronSchedule := schedule; ca_ActionType := "deploy_package"; ca_TargetOS := None;
                  ca_TargetAssetID := Some (uuid_string target); ca_PayloadJSON := Some (JObj [("package_id"%string, JStr pkg)]);
                  ca_IsActive := None |} in
    name <> ""%string -> Str.rune_count name <= 200 -> schedule <> ""%string -> parseCronSpec schedule = None ->
    Str.trim_space (uuid_string target) = uuid_string target -> uuid_string target <> ""%string ->
    uuid_parse (uuid_string target) = Some target -> Str.trim_space pkg <> ""%string ->
    check_automation req = inr (None, Some target, JObj [("package_id"%string, JStr pkg)]).
Proof.
  intros Hrow Hact Hp Hop. split.
  - unfold dispatchAutomation. apply quiet_bind_at; [by apply quiet_attempt, quiet_select|]. intros r w1 E%attempt_inv.
    destruct r as [e|row']; [by apply quiet_pure|]. apply select_inr in E. rewrite Hrow in E. injection E as <-.
    destruct (au_IsActive row); [|by apply quiet_pure]. cbn [negb].
    apply quiet_bind; [apply quiet_attempt, targets_quiet|]. intros [e|[|h ids]]; [apply quiet_pure..|]. rewrite Hact.
    change (Str.trim_space (Str.to_lower "deploy_package")) with "deploy_package"%string. cbv zeta.
    apply quiet_for_each. intros hid. change (String.eqb "deploy_package" "shutdown") with false.
    change (String.eqb "deploy_package" "deploy_package") with true. cbv iota.
    apply deploy_quiet. rewrite Hp. intros p [= <-]. by rewrite (no_operation payload Hop).
  - intros name schedule target pkg req Hn Hl Hs Hc Ht1 Ht2 Ht3 Hpk.
    assert (Hprobe : probe_package_id (JObj [("package_id"%string, JStr pkg)]) = Some pkg) by reflexivity.
    unfold check_automation, req.
    cbn [ca_Name ca_CronSchedule ca_ActionType ca_PayloadJSON ca_TargetAssetID ca_TargetOS default].
    rewrite (proj2 (String.eqb_neq name "") Hn), (proj2 (String.eqb_neq schedule "") Hs).
    change (one_of "deploy_package" automation_actions) with true. change (String.eqb "deploy_package" "") with false.
    change (String.eqb "deploy_package" "deploy_package") with true. cbn [orb negb andb].
    unfold ValidateCronSchedule. rewrite Hc, (proj2 (Z.ltb_ge _ _) Hl). unfold automation_target, given.
    cbn [ca_TargetAssetID]. rewrite Ht1, (proj2 (String.eqb_neq _ "") Ht2), Ht3. cbv zeta.
    unfold default, from_option, Datatypes.id. rewrite Hprobe. by rewrite (proj2 (String.eqb_neq _ "") Hpk).
Qed.

(** ** Two more things the code allows *)

(** The outcome of a deployment that arrives between the dispatch and the update that records
    it is overwritten: the deployment stays dispatched. *)
Theorem late_dispatched_mark_erases_outcome `{UuidLib} {L : Type} id (w : World L) :
  w_faults w = [] ->
  forall d, In d (t_deployments (w_db (mark_dispatched id w).2)) -> dp_id d = id -> dp_status d = "dispatched"%string.
Proof.
  intros Hf d. unfold mark_dispatched. rewrite exec_ok by done. simpl.
  intros (e & _ & ->)%update_where_In. unfold is_deployment. destruct (N.eqb_spec (dp_id e) id); [done|]. congruence.
Qed.

(** A package cannot be created as custom without an install command, but can be patched into one. *)
Theorem patch_makes_empty_custom_package t :
  exists req p, check_patch_package req = inr req /\ pk_Type p = "apt"%string /\
    pk_Type (patched_package req t p) = "custom"%string /\ pk_InstallCmd (patched_package req t p) = ""%string /\
    package_row_ok (patched_package req t p) = true.
Proof.
  exists {| qp_Name := None; qp_Version := None; qp_Type := Some "custom"%string; qp_InstallCmd := None |},
    {| pk_ID := 1%N; pk_Name := "vim"; pk_Version := ""; pk_Type := "apt"; pk_InstallCmd := ""; pk_CreatedAt := 0; pk_UpdatedAt := 0 |}.
  split; [vm_compute; reflexivity|]. by split_and!.
Qed.
