(* ===== verification/Notifications.v ===== *)
(** * Outbound notifications (internal/notifications)

    The dispatcher's queue and what it sends to each active channel: a signed webhook, a
    Slack message, a mail.  The transports are outside the repository: a delivery is a value,
    and [Transport] says with which error, if any, it ended. *)

From S2P Require Import Prelude GoStd Float64 Json Ext World Auth DeviceCommands CommandFlow.
From S2P Require Import Alerting.

Definition TypeSMTP : string := "smtp".
Definition TypeWebhook : string := "webhook".
Definition TypeSlackIncoming : string := "slack".

(** ** Events and the queue *)

Record AlertEvent := {
  ev_Type : string; ev_Severity : string; ev_Title : string; ev_Message : string; ev_Details : list (string * json)
}.

Definition queue_depth : nat := 512.

(** Notify: a full queue drops the event. *)
Definition Notify_enqueue (ev : AlertEvent) (q : list AlertEvent) : list AlertEvent :=
  if String.eqb (Str.trim_space (ev_Type ev)) "" || String.eqb (Str.trim_space (ev_Title ev)) "" then q
  else if (length q <? queue_depth)%nat then q ++ [ev] else q.

Definition event_json (ev : AlertEvent) : json :=
  JObj (jmap ([("type", jstr (ev_Type ev))]%string
    ++ (if String.eqb (ev_Severity ev) "" then [] else [("severity"%string, jstr (ev_Severity ev))])
    ++ [("title", jstr (ev_Title ev)); ("message", jstr (ev_Message ev))]%string
    ++ match ev_Details ev with [] => [] | d => [("details"%string, JObj d)] end)).

(** ** Deliveries *)

(** A request to a webhook: the configured headers in the order they are set, then the
    timestamp and signature, if there is a secret; or a mail. *)
Inductive delivery :=
| HttpPost (url : string) (headers : list (string * string)) (signature : option (string * string)) (body : string)
| Mail (host : string) (port : Z) (username password from : string) (recipients : list string)
       (implicit_tls insecure : bool) (subject body : string).

(** HMAC-SHA256 in hex, and what net/http and go-mail make of a delivery. *)
Class Transport := { hmac_sha256_hex : string -> string -> string; deliver : delivery -> option string }.

Record webhookChannelConfig := { wc_URL : string; wc_Headers : list (string * string) }.

Definition decode_webhook_config (v : json) : option webhookChannelConfig :=
  m ← match v with JObj m => Some m | JNull => Some [] | _ => None end;
  u ← dec_string "" (field "url" m);
  h ← dec_field dec_string_map [] (field "headers" m);
  Some {| wc_URL := u; wc_Headers := h |}.

Record smtpDeliveryConfig := {
  sm_Host : string; sm_Port : Z; sm_Username : string; sm_User : string; sm_Password : string; sm_From : string;
  sm_To : option (list string); sm_UseImplicitTLS : bool; sm_InsecureSkipVerify : bool
}.

Definition dec_str (cur : string) (v : json) : option string := dec_string cur [v].

Definition decode_smtp_config (v : json) : option smtpDeliveryConfig :=
  m ← match v with JObj m => Some m | JNull => Some [] | _ => None end;
  host ← dec_string "" (field "host" m);
  port ← dec_field dec_int 0 (field "port" m);
  username ← dec_string "" (field "username" m);
  user ← dec_string "" (field "user" m);
  password ← dec_string "" (field "password" m);
  from ← dec_string "" (field "from" m);
  to ← dec_field (dec_slice ""%string dec_str) None (field "to" m);
  tls ← dec_bool false (field "use_implicit_tls" m);
  skip ← dec_bool false (field "insecure_skip_verify" m);
  Some {| sm_Host := host; sm_Port := port; sm_Username := username; sm_User := user; sm_Password := password;
          sm_From := from; sm_To := to; sm_UseImplicitTLS := tls; sm_InsecureSkipVerify := skip |}.

(** strings.NewReplacer("&", "&amp;", "<", "&lt;", ">", "&gt;") *)
Fixpoint escapeSlackItalic (s : string) : string :=
  match s with
  | EmptyString => ""
  | String "&" r => "&amp;" +:+ escapeSlackItalic r
  | String "<" r => "&lt;" +:+ escapeSlackItalic r
  | String ">" r => "&gt;" +:+ escapeSlackItalic r
  | String c r => String c (escapeSlackItalic r)
  end.

Section deliveries.
Context `{JC : JsonCodec} `{TR : Transport}.

(** dispatchSignedWebhook: the custom headers are set first, so that the signature wins. *)
Definition signed_webhook (now : Z) (url : string) (headers : list (string * string)) (secret body : string) : delivery :=
  let ts := Str.itoa (now / second) in
  let headers := List.filter (fun kv => negb (String.eqb kv.1 "")) (map (fun kv => (Str.trim_space kv.1, kv.2)) headers) in
  let secret := Str.trim_space secret in
  HttpPost url headers
    (if String.eqb secret "" then None else Some (ts, "sha256=" +:+ hmac_sha256_hex secret (ts +:+ "." +:+ body)))
    body.

Definition postOutboundHook (now : Z) (row : NotificationChannel) (ev : AlertEvent) : err + delivery :=
  match decode_webhook_config (nc_config row) with
  | None => inl (ErrMsg "webhook JSON")
  | Some cfg =>
      let url := Str.trim_space (wc_URL cfg) in
      if String.eqb url "" then inl (ErrMsg "webhook: url is required")
      else inr (signed_webhook now url (wc_Headers cfg) (nc_secret row) (json_marshal (event_json ev)))
  end.

Definition postSlackHook (now : Z) (row : NotificationChannel) (ev : AlertEvent) : err + delivery :=
  match decode_webhook_config (nc_config row) with
  | None => inl (ErrMsg "slack JSON")
  | Some cfg =>
      let url := Str.trim_space (wc_URL cfg) in
      if String.eqb url "" then inl (ErrMsg "slack: url is required") else
      let text := "*" +:+ escapeSlackItalic (ev_Title ev) +:+ "*" +:+ String "010" "" +:+ escapeSlackItalic (ev_Message ev) in
      inr (signed_webhook now url (wc_Headers cfg) (nc_secret row)
             (json_marshal (JObj (jmap [("text", jstr text); ("mrkdwn", JBool true)]%string))))
  end.

Definition sendSMTPWithGoMail (row : NotificationChannel) (ev : AlertEvent) : err + delivery :=
  match decode_smtp_config (nc_config row) with
  | None => inl (ErrMsg "smtp JSON")
  | Some cfg =>
      let username := if String.eqb (Str.trim_space (sm_Username cfg)) "" then Str.trim_space (sm_User cfg) else sm_Username cfg in
      let host := Str.trim_space (sm_Host cfg) in
      let from := Str.trim_space (sm_From cfg) in
      if String.eqb host "" || String.eqb from "" || (sm_Port cfg <=? 0)
      then inl (ErrMsg "smtp: host, from, and positive port are required") else
      let recipients := List.filter (fun a => negb (String.eqb a "")) (map Str.trim_space (default [] (sm_To cfg))) in
      match recipients with
      | [] => inl (ErrMsg "smtp: at least one recipient is required")
      | _ =>
          let subject := Str.trim_space (ev_Title ev) in
          let body := Str.trim_space (ev_Message ev) in
          let body := if String.eqb body "" then subject else body in
          inr (Mail host (sm_Port cfg) username (sm_Password cfg) from recipients (sm_UseImplicitTLS cfg)
                 (sm_InsecureSkipVerify cfg) subject body)
      end
  end.

(** The delivery a channel gets for an event. *)
Definition channel_delivery (now : Z) (row : NotificationChannel) (ev : AlertEvent) : err + delivery :=
  let t := Str.trim_space (nc_type row) in
  if String.eqb t TypeSMTP then sendSMTPWithGoMail row ev
  else if String.eqb t TypeWebhook then postOutboundHook now row ev
  else if String.eqb t TypeSlackIncoming then postSlackHook now row ev
  else inl (ErrMsg "notifications: unsupported channel type").

Section ops.
Context `{UL : UuidLib} {L : Type}.

Definition oldest_channel (a b : NotificationChannel) : bool := nc_created a <? nc_created b.

Definition ListActiveNotificationChannels : go L (list NotificationChannel) :=
  wrap "database: list notification_channels" (select (fun db _ =>
    inr (sort_slice oldest_channel (List.filter nc_active (t_channels db))))).

Definition is_channel (id : uuid) (c : NotificationChannel) : bool := N.eqb (nc_id c) id.

Definition LoadNotificationChannelByID (id : uuid) : go L NotificationChannel :=
  select (fun db _ => match List.find (is_channel id) (t_channels db) with
                      | Some c => inr c
                      | None => inl ErrNoRows end).

(** deliverOnce: the deliveries attempted, in order; a failing channel does not stop the next. *)
Definition deliverOnce (ev : AlertEvent) : go L (list delivery) :=
  rows ← attempt ListActiveNotificationChannels;
  t ← now;
  mret match rows with
       | inl _ => []
       | inr rows => omap (fun row => match channel_delivery t row ev with inl _ => None | inr d => Some d end) rows
       end.

Definition test_event (channelID : uuid) : AlertEvent :=
  {| ev_Type := "test"; ev_Severity := "info"; ev_Title := "ARX MDM connectivity test";
     ev_Message := "Synthetic alert validating outbound routing for this channel.";
     ev_Details := [("channel_id"%string, jstr (uuid_string channelID))] |}.

(** The delivery made; an error of the transport is the caller's. *)
Definition SendTestChannel (channelID : uuid) : go L delivery :=
  row ← wrap "notifications: missing channel row" (LoadNotificationChannelByID channelID);
  t ← now;
  match channel_delivery t row (test_event channelID) with
  | inl e => fail e
  | inr d => match deliver d with None => mret d | Some e => fail (ErrMsg e) end
  end.
End ops.
End deliveries.
