(* ===== verification/AlertsApi.v ===== *)
(** * The alerting REST API (internal/api/alerts.go)

    Notification channels, alert rules, the list of alerts and their manual resolution. *)

From S2P Require Import Prelude GoStd Float64 Json Ext World Auth UsersAdmin DeviceCommands CommandFlow.
From S2P Require Import Alerting Packages Notifications MdmDownlink.

Definition maxAlertJSONBody : Z := 64 * 1024.

Definition writeAlertsPayload : Z -> json -> Response := writeTicketsJSON.
Definition writeAlertsErr : Z -> string -> Response := writeTicketsError.

(** ** Channels *)

(** map[string]any; null is the nil map, and an object decodes into the map that is there. *)
Definition dec_map (cur : option (list (string * json))) (v : json) : option (option (list (string * json))) :=
  match v with
  | JNull => Some None
  | JObj m => Some (Some (fold_left (fun acc kv => obj_set kv.1 kv.2 acc) m (default [] cur)))
  | _ => None
  end.

Record notificationChannelPayload := {
  cl_Name : string; cl_Type : string; cl_ChannelType : string; cl_Config : option (list (string * json));
  cl_SigningSecret : string; cl_IsActive : option bool
}.

Definition parseChannelPayload (p : notificationChannelPayload) : option (string * string) :=
  let name := Str.trim_space (cl_Name p) in
  let name := if String.eqb name "" then "Notification channel"%string else name in
  let t := Str.to_lower (Str.trim_space (cl_ChannelType p)) in
  let t := if String.eqb t "" then Str.to_lower (Str.trim_space (cl_Type p)) else t in
  if one_of t [TypeSMTP; TypeWebhook; TypeSlackIncoming] then Some (name, t) else None.

Definition maskChannelPublicConfig (typ : string) (cfg : list (string * json)) : list (string * json) :=
  if Str.equal_fold typ TypeSMTP && is_some_b (obj_get "password" cfg) then obj_set "password" (JStr "") cfg else cfg.

Definition string_member (k : string) (m : list (string * json)) : string :=
  match obj_get k m with Some (JStr s) => s | _ => ""%string end.

Definition mergeSMTPPasswordPreserve (existing patch : list (string * json)) : list (string * json) :=
  let oldPass := string_member "password" existing in
  let out := fold_left (fun acc kv => obj_set kv.1 kv.2 acc) patch existing in
  match obj_get "password" out with
  | Some (JStr s) => if String.eqb (Str.trim_space s) "" && negb (String.eqb oldPass "")
                     then obj_set "password" (JStr oldPass) out else out
  | _ => out
  end.

Definition mergeSigningSecretPreserve (existing patch : string) : string :=
  let p := Str.trim_space patch in if String.eqb p "" then Str.trim_space existing else p.

Definition curNameOrDefault (name : string) : string :=
  if String.eqb (Str.trim_space name) "" then "Notification channel" else Str.trim_space name.

(** config_json read into a map[string]any: null is nil. *)
Definition config_map (v : json) : option (option (list (string * json))) := dec_map None v.

Section channels.
Context `{JC : JsonCodec} `{UL : UuidLib} `{GF : GoFmt} `{PG : PgLib} `{JL : JwtLib} `{TR : Transport} {L : Type}.
Context (origins : list string).

Definition requireAdmin (r : Request) : Response + Principal := RequireMinRole origins r RoleAdmin.

Definition channel_listed_before (a b : NotificationChannel) : bool :=
  text_then (nc_type a) (nc_type b) (nc_created a <? nc_created b).

Definition channel_json (c : NotificationChannel) : json :=
  let cfg := match config_map (nc_config c) with Some (Some m) => m | _ => [] end in
  JObj (jmap [("id", jstr (uuid_string (nc_id c))); ("name", jstr (pg_trim (nc_name c)));
              ("channel_type", jstr (nc_type c)); ("config", JObj (maskChannelPublicConfig (nc_type c) cfg));
              ("is_active", JBool (nc_active c)); ("signing_secret_configured", JBool (negb (String.eqb (nc_secret c) "")));
              ("created_at", jstr (fmt_time (nc_created c))); ("updated_at", jstr (fmt_time (nc_updated c)))]%string).

Definition handleListChannels (r : Request) : go L Response :=
  let? _ := require_method "GET" r in
  let? _ := requireAdmin r in
  rows ← attempt (select (fun db _ => inr (sort_slice channel_listed_before (t_channels db))));
  mret match rows with
       | inl _ => writeAlertsErr 500 "failed to list channels"
       | inr rows => writeAlertsPayload 200 (JArr (map channel_json rows))
       end.

Definition decode_channel (body : string) : option notificationChannelPayload :=
  m ← unmarshal_map body;
  n ← dec_string "" (field "name" m);
  t ← dec_string "" (field "type" m);
  c ← dec_string "" (field "channel_type" m);
  cfg ← dec_field dec_map None (field "config" m);
  s ← dec_string "" (field "signing_secret" m);
  a ← dec_opt_bool None (field "is_active" m);
  Some {| cl_Name := n; cl_Type := t; cl_ChannelType := c; cl_Config := cfg; cl_SigningSecret := s; cl_IsActive := a |}.

(** CHECK notification_channels_type_chk, and what PostgreSQL refuses. *)
Definition channel_row_ok (c : NotificationChannel) : bool :=
  one_of (nc_type c) [TypeSMTP; TypeWebhook; TypeSlackIncoming] && text_ok (nc_name c) && text_ok (nc_secret c)
  && negb (json_has_nul (nc_config c)).

Definition insert_channel (name ctype : string) (cfg : list (string * json)) (secret : string) (active : bool) : go L uuid :=
  insert_id (fun id db t =>
    let row := {| nc_id := id; nc_name := name; nc_type := ctype; nc_config := JObj cfg; nc_secret := secret;
                  nc_active := active; nc_created := t; nc_updated := t |} in
    if negb (channel_row_ok row) then inl bad_text else
    inr (id, with_channels (t_channels db ++ [row]) db)).

Definition handleCreateChannel (r : Request) : go L Response :=
  let? _ := require_method "POST" r in
  let? _ := requireAdmin r in
  match read_body maxAlertJSONBody r with
  | None => mret (writeAlertsErr 400 "could not read body")
  | Some body =>
  match decode_channel body with
  | None | Some {| cl_Config := None |} => mret (writeAlertsErr 400 "invalid JSON body")
  | Some ({| cl_Config := Some cfg |} as req) =>
      match parseChannelPayload req with
      | None => mret (writeAlertsErr 400 "channel_type must be smtp, webhook, or slack")
      | Some (name, ctype) =>
          id ← attempt (insert_channel name ctype cfg (Str.trim_space (cl_SigningSecret req)) (default true (cl_IsActive req)));
          mret match id with
               | inl _ => writeAlertsErr 500 "failed to save channel"
               | inr id => writeAlertsPayload 201 (JObj [("id"%string, jstr (uuid_string id))])
               end
      end
  end end.

Record notificationChannelPatch := {
  ch_Name : string; ch_Config : option (list (string * json)); ch_IsActive : option bool; ch_SigningSecret : string
}.

Definition decode_channel_patch (body : string) : option notificationChannelPatch :=
  m ← unmarshal_map body;
  n ← dec_string "" (field "name" m);
  cfg ← dec_field dec_map None (field "config" m);
  a ← dec_opt_bool None (field "is_active" m);
  s ← dec_string "" (field "signing_secret" m);
  Some {| ch_Name := n; ch_Config := cfg; ch_IsActive := a; ch_SigningSecret := s |}.

Definition patch_empty (req : notificationChannelPatch) : bool :=
  negb (is_some_b (ch_Config req)) && negb (is_some_b (ch_IsActive req))
  && String.eqb (Str.trim_space (ch_SigningSecret req)) "" && String.eqb (Str.trim_space (ch_Name req)) "".

(** The row a patch leaves, from the row it has read. *)
Definition patched_channel (req : notificationChannelPatch) (cur : NotificationChannel) (t : Z) (c : NotificationChannel)
    : NotificationChannel :=
  let nextName := if String.eqb (Str.trim_space (ch_Name req)) "" then Str.trim_space (pg_trim (nc_name cur))
                  else Str.trim_space (ch_Name req) in
  let nextCfg := match config_map (nc_config cur) with Some (Some m) => m | _ => [] end in
  let nextCfg := match ch_Config req with
                 | None => nextCfg
                 | Some cfg => if String.eqb (nc_type cur) TypeSMTP then mergeSMTPPasswordPreserve nextCfg cfg else cfg
                 end in
  {| nc_id := nc_id c; nc_name := curNameOrDefault nextName; nc_type := nc_type c; nc_config := JObj nextCfg;
     nc_secret := mergeSigningSecretPreserve (nc_secret cur) (ch_SigningSecret req);
     nc_active := default (nc_active cur) (ch_IsActive req); nc_created := nc_created c; nc_updated := t |}.

Definition update_channel (id : uuid) (req : notificationChannelPatch) (cur : NotificationChannel) : go L () :=
  exec (fun db t =>
    if existsb (fun c => is_channel id c && negb (channel_row_ok (patched_channel req cur t c))) (t_channels db)
    then inl bad_text else
    inr ((), with_channels (update_where (is_channel id) (patched_channel req cur t) (t_channels db)) db)).

Definition handlePatchChannel (r : Request) : go L Response :=
  let? _ := require_method "PATCH" r in
  let? _ := requireAdmin r in
  match uuid_parse (Str.trim_space (rq_path_id r)) with
  | None => mret (writeAlertsErr 400 "invalid id")
  | Some id =>
  match read_body maxAlertJSONBody r with
  | None => mret (writeAlertsErr 400 "could not read body")
  | Some body =>
  match decode_channel_patch body with
  | None => mret (writeAlertsErr 400 "invalid JSON body")
  | Some req =>
      if patch_empty req then mret (writeAlertsErr 400 "no fields supplied") else
      cur ← attempt (LoadNotificationChannelByID id);
      match cur with
      | inl e => mret (if is_no_rows e then writeAlertsErr 404 "channel not found"
                       else writeAlertsErr 500 "failed to load channel")
      | inr cur =>
          res ← attempt (update_channel id req cur);
          mret match res with
               | inl _ => writeAlertsErr 500 "failed to update channel"
               | inr _ => writeAlertsPayload 200 (JObj [("status"%string, jstr "updated")])
               end
      end
  end end end.

Definition handleTestChannel (r : Request) : go L Response :=
  let? _ := require_method "POST" r in
  let? _ := requireAdmin r in
  match uuid_parse (Str.trim_space (rq_path_id r)) with
  | None => mret (writeAlertsErr 400 "invalid id")
  | Some id =>
      res ← attempt (SendTestChannel id);
      mret match res with
           | inl e => writeAlertsErr 400 (err_text e)
           | inr _ => writeAlertsPayload 200 (JObj [("status"%string, jstr "sent")])
           end
  end.
End channels.

(** ** Rules *)
Section rules.
Context `{JC : JsonCodec} `{UL : UuidLib} `{GF : GoFmt} `{PG : PgLib} `{JL : JwtLib} {L : Type}.
Context (origins : list string).

Definition rule_json (r : AlertRule) : json :=
  JObj (jmap ([("id", jstr (uuid_string (ar_ID r))); ("name", jstr (ar_Name r)); ("target_type", jstr (ar_TargetType r));
               ("metric", jstr (ar_Metric r)); ("operator", jstr (ar_Operator r)); ("threshold", JNum (ar_Threshold r));
               ("duration_seconds", JNum (F64.of_Z (ar_DurationSeconds r))); ("severity", jstr (ar_Severity r));
               ("is_enabled", JBool (ar_IsEnabled r))]%string
    ++ match ar_TargetDeviceID r with None => [] | Some d => [("target_device_id"%string, jstr (uuid_string d))] end
    ++ [("created_at", jstr (fmt_time (ar_CreatedAt r))); ("updated_at", jstr (fmt_time (ar_UpdatedAt r)))]%string)).

Definition handleListRules (r : Request) : go L Response :=
  let? _ := require_method "GET" r in
  let? _ := requireAdmin origins r in
  rules ← attempt ListAlertRules;
  mret match rules with
       | inl _ => writeAlertsErr 500 "failed to list rules"
       | inr rules => writeAlertsPayload 200 (slice_json rule_json false rules)
       end.

(** uuid.UUID and time.Time decode from text; null leaves them. *)
Definition dec_uuid (cur : uuid) (v : json) : option uuid :=
  match v with JNull => Some cur | JStr s => uuid_parse s | _ => None end.
Definition dec_time (cur : Z) (v : json) : option Z :=
  match v with JNull => Some cur | JStr s => parse_time s | _ => None end.

Definition decode_rule (m : list (string * json)) : option AlertRule :=
  id ← dec_field dec_uuid uuid_nil (field "id" m);
  name ← dec_string "" (field "name" m);
  target ← dec_string "" (field "target_type" m);
  metric ← dec_string "" (field "metric" m);
  op ← dec_string "" (field "operator" m);
  threshold ← dec_field dec_float (F64.of_Z 0) (field "threshold" m);
  dur ← dec_field dec_int 0 (field "duration_seconds" m);
  sev ← dec_string "" (field "severity" m);
  en ← dec_bool false (field "is_enabled" m);
  dev ← dec_field (dec_ptr uuid_nil dec_uuid) None (field "target_device_id" m);
  created ← dec_field dec_time 0 (field "created_at" m);
  updated ← dec_field dec_time 0 (field "updated_at" m);
  Some {| ar_ID := id; ar_Name := name; ar_TargetType := target; ar_Metric := metric; ar_Operator := op;
          ar_Threshold := threshold; ar_DurationSeconds := dur; ar_Severity := sev; ar_IsEnabled := en;
          ar_TargetDeviceID := dev; ar_CreatedAt := created; ar_UpdatedAt := updated |}.

Definition with_target (dev : option uuid) (r : AlertRule) : AlertRule :=
  {| ar_ID := ar_ID r; ar_Name := ar_Name r; ar_TargetType := ar_TargetType r; ar_Metric := ar_Metric r;
     ar_Operator := ar_Operator r; ar_Threshold := ar_Threshold r; ar_DurationSeconds := ar_DurationSeconds r;
     ar_Severity := ar_Severity r; ar_IsEnabled := ar_IsEnabled r; ar_TargetDeviceID := dev;
     ar_CreatedAt := ar_CreatedAt r; ar_UpdatedAt := ar_UpdatedAt r |}.

Definition with_threshold (f : float64) (r : AlertRule) : AlertRule :=
  {| ar_ID := ar_ID r; ar_Name := ar_Name r; ar_TargetType := ar_TargetType r; ar_Metric := ar_Metric r;
     ar_Operator := ar_Operator r; ar_Threshold := f; ar_DurationSeconds := ar_DurationSeconds r;
     ar_Severity := ar_Severity r; ar_IsEnabled := ar_IsEnabled r; ar_TargetDeviceID := ar_TargetDeviceID r;
     ar_CreatedAt := ar_CreatedAt r; ar_UpdatedAt := ar_UpdatedAt r |}.

Definition with_enabled (on : bool) (r : AlertRule) : AlertRule :=
  {| ar_ID := ar_ID r; ar_Name := ar_Name r; ar_TargetType := ar_TargetType r; ar_Metric := ar_Metric r;
     ar_Operator := ar_Operator r; ar_Threshold := ar_Threshold r; ar_DurationSeconds := ar_DurationSeconds r;
     ar_Severity := ar_Severity r; ar_IsEnabled := on; ar_TargetDeviceID := ar_TargetDeviceID r;
     ar_CreatedAt := ar_CreatedAt r; ar_UpdatedAt := ar_UpdatedAt r |}.

(** target_device_id by its exact key, after the struct has decoded it: a string that is not blank. *)
Definition create_target (m : list (string * json)) (rr : AlertRule) : Response + AlertRule :=
  match obj_get "target_device_id" m with
  | Some (JStr s) =>
      let ts := Str.trim_space s in
      if (Str.slen s <? 3) || String.eqb ts "" then inr rr else
      match uuid_parse ts with
      | None => err_resp 400 "invalid target_device_id"
      | Some idu => inr (if N.eqb idu uuid_nil then rr else with_target (Some idu) rr)
      end
  | _ => inr rr
  end.

Definition handleCreateRule (r : Request) : go L Response :=
  let? _ := require_method "POST" r in
  let? _ := requireAdmin origins r in
  match read_body maxAlertJSONBody r with
  | None => mret (writeAlertsErr 400 "could not read body")
  | Some raw =>
  match unmarshal_map raw with
  | None => mret (writeAlertsErr 400 "invalid JSON body")
  | Some tmp =>
  match decode_rule tmp with
  | None => mret (writeAlertsErr 400 "invalid rule json")
  | Some rr =>
      let rr := match obj_get "threshold" tmp with
                | Some v => match dec_float (F64.of_Z 0) v with Some f => with_threshold f rr | None => rr end
                | None => rr end in
      let? rr := create_target tmp rr in
      if ar_DurationSeconds rr <=? 0 then mret (writeAlertsErr 400 "duration_seconds must be > 0") else
      let isEnabled := match obj_get "is_enabled" tmp with Some (JBool b) => b | _ => true end in
      id ← attempt (InsertAlertRule (with_enabled isEnabled rr));
      mret match id with
           | inl e => writeAlertsErr 400 (err_text e)
           | inr id => writeAlertsPayload 201 (JObj [("id"%string, jstr (uuid_string id))])
           end
  end end end.

Definition present (k : string) (m : list (string * json)) : bool := is_some_b (obj_get k m).

(** The patched target_device_id: null or a blank string clears it. *)
Definition patch_target (m : list (string * json)) (cur : option uuid) : Response + option uuid :=
  match obj_get "target_device_id" m with
  | None => inr cur
  | Some JNull => inr None
  | Some (JStr s) =>
      let sid := Str.trim_space s in
      if String.eqb sid "" then inr None else
      match uuid_parse sid with
      | None => err_resp 400 "invalid target_device_id"
      | Some idu => inr (Some idu)
      end
  | Some _ => err_resp 400 "target_device_id must be a string UUID or null"
  end.

(** The rule a patch leaves: each member that is present replaces its field. *)
Definition merge_rule (id : uuid) (tmp : list (string * json)) (base patch : AlertRule) : Response + AlertRule :=
  match match obj_get "threshold" tmp with
        | Some v => match dec_float (F64.of_Z 0) v with Some f => inr f | None => err_resp 400 "invalid threshold" end
        | None => inr (ar_Threshold base) end with
  | inl resp => inl resp
  | inr threshold =>
      if present "duration_seconds" tmp && (ar_DurationSeconds patch <=? 0)
      then err_resp 400 "duration_seconds must be positive" else
      match patch_target tmp (ar_TargetDeviceID base) with
      | inl resp => inl resp
      | inr target =>
          inr {| ar_ID := id;
                 ar_Name := if present "name" tmp then Str.trim_space (ar_Name patch) else ar_Name base;
                 ar_TargetType := if present "target_type" tmp then Str.trim_space (ar_TargetType patch) else ar_TargetType base;
                 ar_Metric := if present "metric" tmp then Str.trim_space (ar_Metric patch) else ar_Metric base;
                 ar_Operator := if present "operator" tmp then Str.trim_space (ar_Operator patch) else ar_Operator base;
                 ar_Threshold := threshold;
                 ar_DurationSeconds := if present "duration_seconds" tmp then ar_DurationSeconds patch else ar_DurationSeconds base;
                 ar_Severity := if present "severity" tmp then Str.trim_space (ar_Severity patch) else ar_Severity base;
                 ar_IsEnabled := match obj_get "is_enabled" tmp with Some (JBool b) => b | _ => ar_IsEnabled base end;
                 ar_TargetDeviceID := target; ar_CreatedAt := ar_CreatedAt base; ar_UpdatedAt := ar_UpdatedAt base |}
      end
  end.

Definition handlePatchRule (r : Request) : go L Response :=
  let? _ := require_method "PATCH" r in
  let? _ := requireAdmin origins r in
  match uuid_parse (Str.trim_space (rq_path_id r)) with
  | None => mret (writeAlertsErr 400 "invalid id")
  | Some id =>
  match read_body maxAlertJSONBody r with
  | None => mret (writeAlertsErr 400 "could not read body")
  | Some raw =>
  match unmarshal_map raw with
  | None => mret (writeAlertsErr 400 "invalid JSON body")
  | Some [] => mret (writeAlertsErr 400 "no mutable fields supplied")
  | Some tmp =>
      base ← attempt (LoadAlertRule id);
      match base with
      | inl e => mret (if is_no_rows e then writeAlertsErr 404 "rule not found" else writeAlertsErr 500 "failed to load rule")
      | inr base =>
          match decode_rule tmp with
          | None => mret (writeAlertsErr 400 "invalid rule json")
          | Some patch =>
              let? merged := merge_rule id tmp base patch in
              res ← attempt (UpdateAlertRule id merged);
              mret match res with
                   | inl e => if is_no_rows e then writeAlertsErr 404 "rule not found" else writeAlertsErr 400 (err_text e)
                   | inr _ => writeAlertsPayload 200 (JObj [("status"%string, jstr "updated")])
                   end
          end
      end
  end end end.

Definition handleDeleteRule (r : Request) : go L Response :=
  let? _ := require_method "DELETE" r in
  let? _ := requireAdmin origins r in
  match uuid_parse (Str.trim_space (rq_path_id r)) with
  | None => mret (writeAlertsErr 400 "invalid id")
  | Some id =>
      res ← attempt (DeleteAlertRule id);
      mret match res with
           | inl e => if is_no_rows e then writeAlertsErr 404 "rule not found" else writeAlertsErr 500 "failed to delete rule"
           | inr _ => writeTicketsJSON 204 JNull
           end
  end.

(** ** Alerts *)

Definition alert_json (a : ActiveAlert) : json :=
  let time t := jstr (fmt_time t) in
  JObj (jmap ([("id", jstr (uuid_string (aa_ID a)))]%string
    ++ opt_json "alert_rule_id" (fun id => jstr (uuid_string id)) (aa_AlertRuleID a)
    ++ [("fingerprint", jstr (aa_Fingerprint a)); ("alert_kind", jstr (aa_AlertKind a))]%string
    ++ opt_json "device_id" (fun id => jstr (uuid_string id)) (aa_DeviceID a)
    ++ [("severity", jstr (aa_Severity a)); ("title", jstr (aa_Title a)); ("message", jstr (aa_Message a));
        ("details", aa_Details a); ("triggered_at", time (aa_TriggeredAt a))]%string
    ++ opt_json "last_notified_at" time (aa_LastNotifiedAt a) ++ opt_json "resolved_at" time (aa_ResolvedAt a))).

Definition handleListActiveAlerts (r : Request) : go L Response :=
  let? _ := require_method "GET" r in
  let? _ := RequireMinRole origins r RoleViewer in
  let limit := match Str.atoi (Str.trim_space (rq_query r "limit")) with Some v => v | None => 50 end in
  let inc := Str.equal_fold (Str.trim_space (rq_query r "include_resolved")) "true"
             || String.eqb (rq_query r "include_resolved") "1" in
  rows ← attempt (ListActiveAlerts limit inc);
  mret match rows with
       | inl _ => writeAlertsErr 500 "failed to list alerts"
       | inr rows => writeAlertsPayload 200 (JArr (map alert_json rows))
       end.

Definition handleResolveActiveAlert (r : Request) : go L Response :=
  let? _ := require_method "POST" r in
  let? _ := requireAdmin origins r in
  match uuid_parse (Str.trim_space (rq_path_id r)) with
  | None => mret (writeAlertsErr 400 "invalid id")
  | Some id =>
      res ← attempt (ResolveActiveAlertByID id);
      mret match res with
           | inl e => if is_no_rows e then writeAlertsErr 404 "alert not found" else writeAlertsErr 500 "failed to resolve alert"
           | inr _ => writeAlertsPayload 200 (JObj [("status"%string, jstr "resolved")])
           end
  end.
End rules.
