(* ===== verification/AlertsApiFacts.v ===== *)
(** * The alerting API: secrets stay where they are, a patch changes what it names

    Properties of [AlertsApi] and [Notifications]. *)

From S2P Require Import Prelude GoStd Float64 Json Ext World Auth UsersAdmin DeviceCommands CommandFlow.
From S2P Require Import Alerting AlertEngine AlertFacts Packages Notifications AlertsApi.

(** ** Secrets *)

(** What of a channel an operator may see: everything but the secret and the mail password. *)
Record same_public (c d : NotificationChannel) : Prop := {
  sp_id : nc_id c = nc_id d; sp_name : nc_name c = nc_name d; sp_type : nc_type c = nc_type d;
  sp_active : nc_active c = nc_active d; sp_created : nc_created c = nc_created d; sp_updated : nc_updated c = nc_updated d;
  sp_secret : nc_secret c = ""%string <-> nc_secret d = ""%string;
  sp_config : nc_config c = nc_config d \/
    Str.equal_fold (nc_type c) TypeSMTP = true /\ exists m p q, keys_sorted m /\
      nc_config c = JObj (obj_set "password" p m) /\ nc_config d = JObj (obj_set "password" q m)
}.

Lemma obj_set_twice k v u m : obj_set k v (obj_set k u m) = obj_set k v m.
Proof.
  induction m as [|[k' v'] m IH]; simpl; [by rewrite String.eqb_refl|].
  destruct (String.eqb_spec k k') as [->|Hn]; simpl; [by rewrite String.eqb_refl|].
  destruct (str_lt k k') eqn:E; simpl; [by rewrite String.eqb_refl|].
  by rewrite (proj2 (String.eqb_neq _ _) Hn), E, IH.
Qed.

Lemma fold_obj_set_sorted (m acc : list (string * json)) :
  keys_sorted acc -> keys_sorted (fold_left (fun acc kv => obj_set kv.1 kv.2 acc) m acc).
Proof. revert acc; induction m as [|kv m IH]; intros acc H; simpl; [done|]. by apply IH, obj_set_sorted. Qed.

Lemma fold_obj_set_get k (m acc : list (string * json)) : List.NoDup m.*1 ->
  obj_get k (fold_left (fun acc kv => obj_set kv.1 kv.2 acc) m acc) =
  match obj_get k m with Some v => Some v | None => obj_get k acc end.
Proof.
  revert acc; induction m as [|[k' v'] m IH]; intros acc Hn; simpl; [done|].
  apply List.NoDup_cons_iff in Hn as [Hi Hn]. rewrite IH by done. destruct (String.eqb_spec k k') as [->|Hk].
  - rewrite obj_get_set_eq. destruct (obj_get k' m) eqn:E; [|done]. apply obj_get_In in E.
    exfalso. apply Hi. apply in_map_iff. by exists (k', j).
  - by rewrite obj_get_set_ne.
Qed.

Lemma sorted_nodup m : keys_sorted m -> List.NoDup m.*1.
Proof.
  unfold keys_sorted. induction 1 as [|k l Hs IH Hall]; constructor; [|done]. intros Hi.
  rewrite List.Forall_forall in Hall. apply Hall in Hi. by rewrite str_lt_irrefl in Hi.
Qed.

(** Reading a stored object back gives it. *)
Lemma config_map_obj m : keys_sorted m -> config_map (JObj m) = Some (Some m).
Proof.
  intros Hs. unfold config_map, dec_map. cbn [default]. do 2 f_equal. apply obj_ext; [|done|].
  - apply fold_obj_set_sorted. constructor.
  - intros k. rewrite fold_obj_set_get by (by apply sorted_nodup). by destruct (obj_get k m).
Qed.

(** The mail password never shows in the masked configuration. *)
Lemma mask_password typ p q m : Str.equal_fold typ TypeSMTP = true ->
  maskChannelPublicConfig typ (obj_set "password" p m) = maskChannelPublicConfig typ (obj_set "password" q m).
Proof. intros E. unfold maskChannelPublicConfig. by rewrite E, !obj_get_set_eq, !obj_set_twice. Qed.

Section listing.
Context `{JC : JsonCodec} `{UL : UuidLib} `{GF : GoFmt} `{PG : PgLib}.

Lemma channel_json_public c d : same_public c d -> channel_json c = channel_json d.
Proof.
  intros [E1 E2 E3 E4 E5 E6 Es Ec]. unfold channel_json. rewrite <- E1, <- E2, <- E3, <- E4, <- E5, <- E6.
  assert (String.eqb (nc_secret c) "" = String.eqb (nc_secret d) "") as ->.
  { destruct (String.eqb_spec (nc_secret c) ""), (String.eqb_spec (nc_secret d) ""); tauto. }
  destruct Ec as [->|(Et & m & p & q & Hm & -> & ->)]; [done|].
  rewrite !config_map_obj by (by apply obj_set_sorted). by rewrite (mask_password _ p q m Et).
Qed.

Lemma insert_public c d (l k : list NotificationChannel) : same_public c d -> Forall2 same_public l k ->
  Forall2 same_public (insert_sorted channel_listed_before c l) (insert_sorted channel_listed_before d k).
Proof.
  intros Hc. induction 1 as [|x y l k Hxy Hlk IH]; simpl; [by constructor; [|constructor]|].
  assert (channel_listed_before x c = channel_listed_before y d) as ->.
  { unfold channel_listed_before. destruct Hc, Hxy. congruence. }
  destruct (channel_listed_before y d); constructor; auto.
Qed.

Lemma sort_public (l k : list NotificationChannel) : Forall2 same_public l k ->
  Forall2 same_public (sort_slice channel_listed_before l) (sort_slice channel_listed_before k).
Proof. induction 1; simpl; [constructor|]. by apply insert_public. Qed.
End listing.

(** The signing secret and the password after a patch. *)
Definition password_of (c : NotificationChannel) : option json :=
  match nc_config c with JObj m => obj_get "password" m | _ => None end.

Definition blank_password (cfg : list (string * json)) : Prop :=
  obj_get "password" cfg = None \/ exists s, obj_get "password" cfg = Some (JStr s) /\ Str.trim_space s = ""%string.

Lemma preserve_password existing patch old : keys_sorted existing -> keys_sorted patch ->
  obj_get "password" existing = Some (JStr old) -> old <> ""%string -> blank_password patch ->
  obj_get "password" (mergeSMTPPasswordPreserve existing patch) = Some (JStr old).
Proof.
  intros He Hp Hold Hne Hb. unfold mergeSMTPPasswordPreserve, string_member. cbv zeta. rewrite Hold.
  pose proof (fold_obj_set_get "password" patch existing (sorted_nodup _ Hp)) as Hg.
  destruct Hb as [Hb|(s & Hb & Hs)]; rewrite Hb, ?Hold in Hg; rewrite Hg.
  - by destruct (String.eqb (Str.trim_space old) "" && negb (String.eqb old "")); [apply obj_get_set_eq|].
  - rewrite Hs. rewrite (proj2 (String.eqb_neq old "") Hne). cbn. apply obj_get_set_eq.
Qed.

(** The secrets of a notification channel never leave the server by its API and survive a patch
    that does not name them: two databases that differ only in signing secrets and mail passwords
    list the same; a patch without a signing secret keeps the stored one; a patch of a mail
    channel's configuration without a password, or with a blank one, keeps the stored password. *)
Theorem channel_secrets_kept `{JsonCodec} `{UuidLib} `{GoFmt} `{PgLib} `{JwtLib} {L : Type} origins r (w v : World L) :
  (w_faults w = [] -> w_faults v = [] -> Forall2 same_public (t_channels (w_db w)) (t_channels (w_db v)) ->
   (handleListChannels origins r w).1 = (handleListChannels origins r v).1) /\
  forall req cur t c,
    (Str.trim_space (ch_SigningSecret req) = ""%string ->
       nc_secret (patched_channel req cur t c) = Str.trim_space (nc_secret cur)) /\
    (forall m old, nc_type cur = TypeSMTP -> nc_config cur = JObj m -> keys_sorted m ->
       obj_get "password" m = Some (JStr old) -> old <> ""%string ->
       match ch_Config req with None => True | Some cfg => keys_sorted cfg /\ blank_password cfg end ->
       password_of (patched_channel req cur t c) = Some (JStr old)).
Proof.
  split.
  - intros Hw Hv Hp. unfold handleListChannels. destruct (require_method "GET" r); [done|].
    destruct (requireAdmin origins r); [done|]. unfold mbind, go_bind, attempt. rewrite !select_ok by done. cbn.
    do 3 f_equal. apply sort_public in Hp. induction Hp as [|x y l k Hxy Hlk IH]; [done|]. simpl.
    by rewrite (channel_json_public x y Hxy), IH.
  - intros req cur t c. split.
    + intros E. simpl. unfold mergeSigningSecretPreserve. by rewrite E.
    + intros m old Ht Hm Hs Hold Hne Hcfg. unfold password_of, patched_channel. cbn [nc_config].
      rewrite Hm, (config_map_obj m Hs). destruct (ch_Config req) as [cfg|]; [|done]. destruct Hcfg as [Hk Hb].
      rewrite Ht. change (String.eqb TypeSMTP TypeSMTP) with true. cbv iota. by apply preserve_password.
Qed.

(** ** Rules *)

Section rules.
Context `{JC : JsonCodec} `{UL : UuidLib} `{GF : GoFmt} `{PG : PgLib} `{JL : JwtLib} {L : Type}.

Lemma merge_rule_fields id tmp base patch merged : merge_rule id tmp base patch = inr merged ->
  ar_ID merged = id /\ ar_CreatedAt merged = ar_CreatedAt base /\
  (present "name" tmp = false -> ar_Name merged = ar_Name base) /\
  (present "target_type" tmp = false -> ar_TargetType merged = ar_TargetType base) /\
  (present "metric" tmp = false -> ar_Metric merged = ar_Metric base) /\
  (present "operator" tmp = false -> ar_Operator merged = ar_Operator base) /\
  (present "threshold" tmp = false -> ar_Threshold merged = ar_Threshold base) /\
  (present "duration_seconds" tmp = false -> ar_DurationSeconds merged = ar_DurationSeconds base) /\
  (present "severity" tmp = false -> ar_Severity merged = ar_Severity base) /\
  (present "is_enabled" tmp = false -> ar_IsEnabled merged = ar_IsEnabled base) /\
  (present "target_device_id" tmp = false -> ar_TargetDeviceID merged = ar_TargetDeviceID base).
Proof.
  unfold merge_rule, patch_target, present. intros E.
  destruct (obj_get "threshold" tmp) as [v|]; [destruct (dec_float _ v); [|done]|];
    (destruct (_ && _) eqn:Ed; [done|]);
    (destruct (obj_get "target_device_id" tmp) as [[| | |s| |]|]; try done;
     [| destruct (String.eqb _ ""); [|destruct (uuid_parse _); [|done]]|]);
    injection E as <-; cbn [ar_ID ar_CreatedAt ar_Name ar_TargetType ar_Metric ar_Operator ar_Threshold
      ar_DurationSeconds ar_Severity ar_IsEnabled ar_TargetDeviceID];
    split_and!; try done; try (by intros ->); (destruct (obj_get "is_enabled" tmp); done).
Qed.

Lemma blank_target_undecodable m s : obj_get "target_device_id" m = Some (JStr s) -> uuid_parse s = None ->
  decode_rule m = None.
Proof.
  intros Hg Hp.
  assert (Hf : In (JStr s) (field "target_device_id" m)).
  { unfold field. apply in_map_iff. exists ("target_device_id"%string, JStr s). split; [done|]. apply filter_In.
    split; [by apply obj_get_In|]. vm_compute. reflexivity. }
  assert (Hd : forall cur vs, In (JStr s) vs -> dec_field (dec_ptr uuid_nil dec_uuid) cur vs = None).
  { intros cur vs. revert cur. induction vs as [|v vs IH]; intros cur; [done|]. intros [->|Hi]; simpl.
    - by rewrite Hp.
    - destruct (dec_ptr _ _ _ _); [|done]. by apply IH. }
  unfold decode_rule. rewrite (Hd None _ Hf).
  repeat match goal with |- (x ← ?m; _) = None => destruct m as [?|]; [cbn [mbind option_bind]|done] end. done.
Qed.
End rules.

(** A patch of a rule changes the fields it names and no other: the stored rule differs from the
    loaded one at most in the members present in the body, and the rules stay ones the evaluator
    can evaluate.  Clearing the target device with an empty string, which the handler spells out,
    never happens: the body is refused before. *)
Theorem rule_patch_changes_only_named_fields `{JsonCodec} `{UuidLib} `{GoFmt} `{PgLib} `{JwtLib} {L : Type}
    origins r (w : World L) :
  db_steps (keeps alerts_ok) (handlePatchRule (L := L) origins r) /\
  db_steps (keeps alerts_ok) (handleCreateRule (L := L) origins r) /\
  db_steps (keeps alerts_ok) (handleDeleteRule (L := L) origins r) /\
  (forall id tmp base patch merged, merge_rule id tmp base patch = inr merged ->
     ar_ID merged = id /\ ar_CreatedAt merged = ar_CreatedAt base /\
     (present "name" tmp = false -> ar_Name merged = ar_Name base) /\
     (present "target_type" tmp = false -> ar_TargetType merged = ar_TargetType base) /\
     (present "metric" tmp = false -> ar_Metric merged = ar_Metric base) /\
     (present "operator" tmp = false -> ar_Operator merged = ar_Operator base) /\
     (present "threshold" tmp = false -> ar_Threshold merged = ar_Threshold base) /\
     (present "duration_seconds" tmp = false -> ar_DurationSeconds merged = ar_DurationSeconds base) /\
     (present "severity" tmp = false -> ar_Severity merged = ar_Severity base) /\
     (present "is_enabled" tmp = false -> ar_IsEnabled merged = ar_IsEnabled base) /\
     (present "target_device_id" tmp = false -> ar_TargetDeviceID merged = ar_TargetDeviceID base)) /\
  (forall id raw tmp p s, rq_method r = "PATCH"%string -> requireAdmin origins r = inr p ->
     uuid_parse (Str.trim_space (rq_path_id r)) = Some id -> read_body maxAlertJSONBody r = Some raw ->
     unmarshal_map raw = Some tmp -> obj_get "target_device_id" tmp = Some (JStr s) -> uuid_parse s = None ->
     w_faults w = [] -> existsb (is_rule id) (t_rules (w_db w)) = true ->
     handlePatchRule origins r w = (inr (writeAlertsErr 400 "invalid rule json"), w)).
Proof.
  split_and!.
  - unfold handlePatchRule, LoadAlertRule. pose proof (update_rule_kept (L := L)). db_walk.
  - unfold handleCreateRule. pose proof (insert_rule_kept (L := L)). db_walk.
  - unfold handleDeleteRule. pose proof (delete_rule_kept (L := L)). db_walk.
  - apply merge_rule_fields.
  - intros id raw tmp p s Hm Hp Hid Hraw Htmp Ht Hs Hf Hrule. unfold handlePatchRule, require_method.
    rewrite Hm. change (String.eqb "PATCH" "PATCH") with true. cbv iota. rewrite Hp, Hid, Hraw, Htmp.
    destruct tmp as [|kv tmp]; [discriminate Ht|]. pose proof (blank_target_undecodable _ _ Ht Hs) as Hd.
    unfold mbind, go_bind, attempt, LoadAlertRule. rewrite select_ok by done.
    apply existsb_exists in Hrule as (q & Hq & Eq).
    destruct (List.find (is_rule id) (t_rules (w_db w))) eqn:E; [by rewrite Hd|].
    apply (find_none _ _ E) in Hq. congruence.
Qed.
