(* ===== verification/AgentHost.v ===== *)
(** * The agent: its host, its state, its computations

    The endpoint program (internal/agent, internal/ws/agent_*.go, pkg/) on its operating
    system.  What the system answers is the class [Host]; what the agent keeps and what it has
    done is [Agent]; a computation of the agent is a state transformer. *)

From S2P Require Import Prelude GoStd Float64 Json Compliance.

(** What running a program left: its output streams and its error, if any. *)
Record process := { pc_Stdout : string; pc_Stderr : string; pc_Error : option string }.

(** A value of the Windows registry: its name, type and data. *)
Record RegistryValue := { rv_ValueName : string; rv_Type : string; rv_Data : string }.

(** What mdm_enforce_windows.go does to the registry: the root of a key, a value's data. *)
Inductive RegistryRoot := LOCAL_MACHINE | CURRENT_USER.
Inductive RegistryData := SZ (s : string) | EXPAND_SZ (s : string) | DWORD (z : Z) | QWORD (z : Z).

(** The operating system: what each call returns.  An [option string] is the error of a call;
    [_ + string] a result or the error.  (Calls the code makes by way of a per-platform file are
    here too: quarantine_windows.go, lock_*.go, pkg/system.) *)
Class Host := {
  goos : string;                                            (* runtime.GOOS *)
  write_file : string -> string -> option string;           (* os.WriteFile(path, content) *)
  mkdir_all : string -> option string;
  open_trunc : string -> option string;                     (* os.OpenFile(path, O_CREATE|O_WRONLY|O_TRUNC) *)
  write_handle : string -> string -> option string;         (* Write on a handle: its path, the data *)
  close_handle : string -> option string;                   (* Sync and Close *)
  is_file : string -> bool;                                 (* os.Stat succeeds and it is no directory *)
  glob : string -> list string;                             (* filepath.Glob *)
  host_env : string -> string;                              (* os.Getenv *)
  temp_dir : option string;                                 (* os.MkdirTemp *)
  run_script : string -> process + string;                  (* bash or powershell on a script; writing the file may fail *)
  run_argv : list string -> string * option string;         (* exec.Cmd: the combined output, the error *)
  run_installer : string -> string -> Z * option string;    (* executeInstallerNative: the exit code, the error *)
  download : string -> string + string;                     (* downloadArtifact: the local path *)
  parse_url : string -> string + string;                    (* url.Parse and String *)
  reboot : option string;
  shutdown : option string;
  lock : option string;
  create_key : RegistryRoot -> string -> option string;     (* registry.CreateKey *)
  set_value : RegistryRoot -> string -> string -> RegistryData -> option string;  (* Key.Set...Value(name, data) *)
  close_key : RegistryRoot -> string -> option string;      (* Key.Close *)
  platform_quarantine : bool -> list string -> list Z -> string + string;  (* Linux has none: see [executeQuarantine] *)
  is_abs : string -> bool;                                  (* filepath.IsAbs of the platform *)
  join_path : list string -> string;                        (* filepath.Join of the platform *)
  pty_write : string -> option string;
  read_file : string -> Z -> list (string * option (option string)) + string;
    (* os.Open, then what each Read into a buffer of that size gives: bytes and nil, io.EOF
       ([Some None]) or another error *)
  registry_read : string -> string -> RegistryValue + string;
  registry_write : string -> RegistryValue -> option string;
  registry_delete : string -> string -> bool -> option string;
  spawn_pty : Z -> Z -> list string -> option string;
  list_dir : string -> json + string;
  list_net : json + string;
  set_hostname : string -> option string;
  iterate : list (string * string) -> list (string * string)  (* the order a range over a map takes *)
}.

(** A range over a map visits each entry once. *)
Class HostLaws `{Host} : Prop := { iterate_perm : forall m, Permutation (iterate m) m }.

(** An upload in progress: the file it writes and what it has written. *)
Record upload := { up_Path : string; up_Data : string; up_Written : Z }.

(** What has been asked of the system apart from files, messages and installations. *)
Inductive host_action :=
| Shutdown | Reboot | Lock | Wipe
| Script (body : string) | Quarantine (on : bool) (hosts : list string) (ports : list Z)
| RegistryWrite (key : string) (v : RegistryValue) | RegistryDelete (key value : string) (whole : bool)
| CreateKey (root : RegistryRoot) (path : string) | SetValue (root : RegistryRoot) (path name : string) (data : RegistryData)
| PtyStart (cols rows : Z) (argv : list string) | PtyData (data : string) | PtyResize (cols rows : Z) | PtyClose
| SetHostname (name : string) | Execute (argv : list string) | Install (path args : string).

Record Agent := {
  ag_enforcement : option EnforcementWire;      (* mdmPolicyEnfLatest *)
  ag_files : list (string * string);            (* files written, oldest first *)
  ag_sent : list json;                          (* messages to the server, oldest first *)
  ag_pty : bool;                                (* a terminal is open *)
  ag_uploads : gmap string upload;              (* globalFsUpload *)
  ag_actions : list host_action                 (* what was asked of the system, oldest first *)
}.

Definition fresh_agent : Agent :=
  {| ag_enforcement := None; ag_files := []; ag_sent := []; ag_pty := false; ag_uploads := ∅; ag_actions := [] |}.

Definition with_enforcement (e : option EnforcementWire) (g : Agent) : Agent :=
  {| ag_enforcement := e; ag_files := ag_files g; ag_sent := ag_sent g; ag_pty := ag_pty g;
     ag_uploads := ag_uploads g; ag_actions := ag_actions g |}.
Definition with_files (l : list (string * string)) (g : Agent) : Agent :=
  {| ag_enforcement := ag_enforcement g; ag_files := l; ag_sent := ag_sent g; ag_pty := ag_pty g;
     ag_uploads := ag_uploads g; ag_actions := ag_actions g |}.
Definition with_sent (l : list json) (g : Agent) : Agent :=
  {| ag_enforcement := ag_enforcement g; ag_files := ag_files g; ag_sent := l; ag_pty := ag_pty g;
     ag_uploads := ag_uploads g; ag_actions := ag_actions g |}.
Definition with_pty (t : bool) (g : Agent) : Agent :=
  {| ag_enforcement := ag_enforcement g; ag_files := ag_files g; ag_sent := ag_sent g; ag_pty := t;
     ag_uploads := ag_uploads g; ag_actions := ag_actions g |}.
Definition with_uploads (u : gmap string upload) (g : Agent) : Agent :=
  {| ag_enforcement := ag_enforcement g; ag_files := ag_files g; ag_sent := ag_sent g; ag_pty := ag_pty g;
     ag_uploads := u; ag_actions := ag_actions g |}.
Definition with_actions (l : list host_action) (g : Agent) : Agent :=
  {| ag_enforcement := ag_enforcement g; ag_files := ag_files g; ag_sent := ag_sent g; ag_pty := ag_pty g;
     ag_uploads := ag_uploads g; ag_actions := l |}.

(** ** Computations of the agent *)

Definition agent (A : Type) : Type := Agent -> A * Agent.

#[export] Instance agent_ret : MRet agent := fun _ x g => (x, g).
#[export] Instance agent_bind : MBind agent := fun _ _ k m g => let '(x, g') := m g in k x g'.

(** os.WriteFile: the error, if any. *)
Definition write_to `{Host} (path content : string) : agent (option string) := fun g =>
  match write_file path content with
  | Some e => (Some e, g)
  | None => (None, with_files (ag_files g ++ [(path, content)]) g)
  end.

Definition say (v : json) : agent () := fun g => ((), with_sent (ag_sent g ++ [v]) g).
Definition act (a : host_action) : agent () := fun g => ((), with_actions (ag_actions g ++ [a]) g).
Definition modify (f : Agent -> Agent) : agent () := fun g => ((), f g).
Definition asks {A} (f : Agent -> A) : agent A := fun g => (f g, g).

(** errors.Join *)
Definition errors_join (errs : list string) : option string :=
  match errs with [] => None | _ => Some (Str.join (String "010" "") errs) end.
