(* ===== verification/AgentPolicy.v ===== *)
(** * The agent enforces its policy

    internal/agent/{mdm_enforcement_report,mdm_declarative_merge,mdm_sync,mdm_enforce_linux,
    mdm_enforce_windows,mdm_platform_enforce_*}.go: the profiles or the merged policy the agent is sent, what it
    makes of them on its platform, and the report its next telemetry carries. *)

From S2P Require Import Prelude GoStd GoPath Float64 Json Ext World PolicyMerge Compliance AgentHost.

#[local] Open Scope string_scope.
#[local] Open Scope list_scope.

(** ** mdm_enforcement_report.go *)

Definition noteMDMPolicyEnforcement (err : option string) (criticalFailed : bool) : agent () :=
  modify (with_enforcement (Some match err with
    | Some e => {| enf_State := "error"; enf_Detail := e; enf_CriticalFailed := criticalFailed |}
    | None => {| enf_State := "ok"; enf_Detail := ""; enf_CriticalFailed := false |}
    end)).

Definition telemetryMDMPolicyEnforcementWire : agent (option EnforcementWire) := asks ag_enforcement.

(** ** mdm_enforce_linux.go *)

Record linuxProfileUnion := {
  lp_Sysctl : list (string * string);
  lp_LinuxFirewall : option (list (string * string));      (* the sysctl member of the block *)
  lp_Firewall : option (list (string * string))
}.

Definition decode_fw_block (cur : list (string * string)) (m : list (string * json)) : option (list (string * string)) :=
  dec_field dec_string_map cur (field "sysctl" m).

Definition decode_linux_union (m : list (string * json)) : option linuxProfileUnion :=
  s ← dec_field dec_string_map [] (field "sysctl" m);
  l ← dec_field (dec_ptr [] (dec_struct decode_fw_block)) None (field "linux_firewall" m);
  f ← dec_field (dec_ptr [] (dec_struct decode_fw_block)) None (field "firewall" m);
  Some {| lp_Sysctl := s; lp_LinuxFirewall := l; lp_Firewall := f |}.

(** Later writes of a key win. *)
Definition put_string (k v : string) (m : list (string * string)) : list (string * string) :=
  List.filter (fun kv => negb (String.eqb kv.1 k)) m ++ [(k, v)].

Definition mergeStringMaps `{Host} (base extra : list (string * string)) : list (string * string) :=
  let put := fold_left (fun out kv => put_string (Str.trim_space kv.1) kv.2 out) in
  put (iterate extra) (put (iterate base) []).

Definition file_byte (c : ascii) : bool :=
  Str.is_digit c || (let n := N_of_ascii c in N.leb 97 n && N.leb n 122) || Ascii.eqb c "-" || Ascii.eqb c "_".

Definition sanitizeMDMFilename (s : string) : string :=
  let s := Str.to_lower (Str.trim_space s) in
  let out := Str.of_bytes (firstn 96 (List.filter file_byte (Str.bytes s))) in
  if String.eqb out "" then "unknown" else out.

Definition sysctl_root : string := "/proc/sys".

Definition sysctlKeyToProcPath (key : string) : string :=
  Path.join [sysctl_root; replace_byte "." "/" (Str.trim_space key)].

Definition sysctlWriteValidated `{Host} (fullPath value : string) : agent (option string) :=
  let clean := Path.clean fullPath in
  if negb (Str.has_prefix clean (sysctl_root +:+ "/")) || String.eqb clean sysctl_root
  then mret (Some ("sysctl path outside /proc/sys: " +:+ fullPath))
  else write_to clean (value +:+ String "010" "").

Fixpoint apply_sysctls `{Host} (kvs : list (string * string)) : agent (option string) :=
  match kvs with
  | [] => mret None
  | (k, v) :: r =>
      let keyPath := sysctlKeyToProcPath (Str.trim_space k) in
      e ← sysctlWriteValidated keyPath (Str.trim_space v);
      match e with
      | Some e => mret (Some (keyPath +:+ ": " +:+ e))
      | None => apply_sysctls r
      end
  end.

Definition applyLinuxSysctl `{Host} (values : list (string * string)) : agent (option string) :=
  apply_sysctls (iterate values).

Definition state_dir : string := "/var/lib/arx-mdm".

(** ** mdm_enforce_windows.go *)

Record registryCell := { rc_Name : string; rc_Kind : string; rc_Data : string; rc_DWord : option Z; rc_QWord : option Z }.
Record registryHiveBlock := { rh_Hive : string; rh_Path : string; rh_Values : list registryCell }.
Record windowsFirewallBlock := { wf_DomainProfileEnableFirewall : bool; wf_StandardProfileEnableFirewall : bool }.
Record windowsSubtree := {
  ws_Registry : list registryHiveBlock;
  ws_WiFi : option string;                          (* the profile_xml of the block *)
  ws_WiFiProfileXML : string;
  ws_WindowsFirewall : option windowsFirewallBlock;
  ws_Firewall : option windowsFirewallBlock
}.
Record windowsDeclarativeEnvelope := { we_Windows : option windowsSubtree; we_Root : windowsSubtree }.

Definition dec_uint32 (cur : Z) (v : json) : option Z :=
  n ← dec_uint64 cur v; if (n <? 2 ^ 32)%Z then Some n else None.

Definition decode_cell (cur : registryCell) (m : list (string * json)) : option registryCell :=
  n ← dec_string (rc_Name cur) (field "name" m);
  k ← dec_string (rc_Kind cur) (field "kind" m);
  d ← dec_string (rc_Data cur) (field "data" m);
  dw ← dec_field (dec_ptr 0%Z dec_uint32) (rc_DWord cur) (field "uint32" m);
  qw ← dec_field (dec_ptr 0%Z dec_uint64) (rc_QWord cur) (field "uint64" m);
  Some {| rc_Name := n; rc_Kind := k; rc_Data := d; rc_DWord := dw; rc_QWord := qw |}.

Definition no_cell : registryCell := {| rc_Name := ""; rc_Kind := ""; rc_Data := ""; rc_DWord := None; rc_QWord := None |}.

Definition decode_hive (cur : registryHiveBlock) (m : list (string * json)) : option registryHiveBlock :=
  h ← dec_string (rh_Hive cur) (field "hive" m);
  p ← dec_string (rh_Path cur) (field "path" m);
  vs ← dec_field (dec_slice no_cell (dec_struct decode_cell)) (Some (rh_Values cur)) (field "values" m);
  Some {| rh_Hive := h; rh_Path := p; rh_Values := default [] vs |}.

Definition no_hive : registryHiveBlock := {| rh_Hive := ""; rh_Path := ""; rh_Values := [] |}.

Definition decode_win_firewall (cur : windowsFirewallBlock) (m : list (string * json)) : option windowsFirewallBlock :=
  d ← dec_bool (wf_DomainProfileEnableFirewall cur) (field "domain_profile_enable_firewall" m);
  s ← dec_bool (wf_StandardProfileEnableFirewall cur) (field "standard_profile_enable_firewall" m);
  Some {| wf_DomainProfileEnableFirewall := d; wf_StandardProfileEnableFirewall := s |}.

Definition no_firewall : windowsFirewallBlock :=
  {| wf_DomainProfileEnableFirewall := false; wf_StandardProfileEnableFirewall := false |}.

(** The members that the envelope and its windows subtree share. *)
Definition decode_win_subtree (cur : windowsSubtree) (m : list (string * json)) : option windowsSubtree :=
  r ← dec_field (dec_slice no_hive (dec_struct decode_hive)) (Some (ws_Registry cur)) (field "registry" m);
  w ← dec_field (dec_ptr "" (dec_struct (fun xml b => dec_string xml (field "profile_xml" b)))) (ws_WiFi cur) (field "wifi" m);
  x ← dec_string (ws_WiFiProfileXML cur) (field "wifi_profile_xml" m);
  wf ← dec_field (dec_ptr no_firewall (dec_struct decode_win_firewall)) (ws_WindowsFirewall cur) (field "windows_firewall" m);
  f ← dec_field (dec_ptr no_firewall (dec_struct decode_win_firewall)) (ws_Firewall cur) (field "firewall" m);
  Some {| ws_Registry := default [] r; ws_WiFi := w; ws_WiFiProfileXML := x; ws_WindowsFirewall := wf; ws_Firewall := f |}.

Definition no_subtree : windowsSubtree :=
  {| ws_Registry := []; ws_WiFi := None; ws_WiFiProfileXML := ""; ws_WindowsFirewall := None; ws_Firewall := None |}.

Definition decode_win_envelope (m : list (string * json)) : option windowsDeclarativeEnvelope :=
  w ← dec_field (dec_ptr no_subtree (dec_struct decode_win_subtree)) None (field "windows" m);
  r ← decode_win_subtree no_subtree m;
  Some {| we_Windows := w; we_Root := r |}.

Definition mergeWindowsFirewall (primary overlay : option windowsFirewallBlock) : option windowsFirewallBlock :=
  match primary, overlay with
  | None, _ => overlay
  | _, None => primary
  | Some p, Some o =>
      Some {| wf_DomainProfileEnableFirewall := wf_DomainProfileEnableFirewall o || wf_DomainProfileEnableFirewall p;
              wf_StandardProfileEnableFirewall := wf_StandardProfileEnableFirewall o || wf_StandardProfileEnableFirewall p |}
  end.

(** strings.ToUpper, as far as it gives ASCII letters: besides the small ones, U+0131 (dotless
    i) and U+017F (long s) have an ASCII capital. *)
Fixpoint upper_bytes (l : list ascii) : list ascii :=
  match l with
  | [] => []
  | c1 :: r1 =>
      match r1 with
      | c2 :: r2 =>
          if N.eqb (N_of_ascii c1) 0xC4 && N.eqb (N_of_ascii c2) 0xB1 then "I"%char :: upper_bytes r2 else
          if N.eqb (N_of_ascii c1) 0xC5 && N.eqb (N_of_ascii c2) 0xBF then "S"%char :: upper_bytes r2 else
          Str.upper_ascii c1 :: upper_bytes r1
      | [] => [Str.upper_ascii c1]
      end
  end.

Definition upper_word (s : string) : string := Str.of_bytes (upper_bytes (Str.bytes (Str.trim_space s))).

Definition resolveHive (raw : string) : RegistryRoot :=
  if existsb (String.eqb (upper_word raw)) ["HKCU"; "HKEY_CURRENT_USER"] then CURRENT_USER else LOCAL_MACHINE.

(** What a cell writes; [None]: it is passed over. *)
Definition cell_data (cell : registryCell) : option RegistryData :=
  let kind := upper_word (rc_Kind cell) in
  if existsb (String.eqb kind) [""; "SZ"; "REG_SZ"] then Some (SZ (Str.trim_space (rc_Data cell)))
  else if existsb (String.eqb kind) ["DWORD"; "REG_DWORD"] then DWORD <$> rc_DWord cell
  else if existsb (String.eqb kind) ["QWORD"; "REG_QWORD"] then QWORD <$> rc_QWord cell
  else if existsb (String.eqb kind) ["EXPAND_SZ"; "REG_EXPAND_SZ"] then Some (EXPAND_SZ (Str.trim_space (rc_Data cell)))
  else None.

Definition make_key `{Host} (root : RegistryRoot) (path : string) : agent (option string) :=
  _ ← act (CreateKey root path); mret (create_key root path).

Definition put_value `{Host} (root : RegistryRoot) (path name : string) (d : RegistryData) : agent (option string) :=
  _ ← act (SetValue root path name d); mret (set_value root path name d).

Fixpoint apply_cells `{Host} (root : RegistryRoot) (path : string) (cells : list registryCell) : agent (option string) :=
  match cells with
  | [] => mret None
  | c :: r =>
      match cell_data c with
      | None => apply_cells root path r
      | Some d =>
          e ← put_value root path (Str.trim_space (rc_Name c)) d;
          match e with Some e => mret (Some e) | None => apply_cells root path r end
      end
  end.

Definition applyRegistryHiveBlock `{Host} (blk : registryHiveBlock) : agent (option string) :=
  let sub := Str.trim_space (rh_Path blk) in
  if String.eqb sub "" then mret None else
  let rootKey := resolveHive (rh_Hive blk) in
  e ← make_key rootKey sub;
  match e with Some e => mret (Some e) | None => apply_cells rootKey sub (rh_Values blk) end.

Definition firewall_key : string := "SOFTWARE\Policies\Microsoft\WindowsFirewall".

(** Create the profile's key, set EnableFirewall, close the key. *)
Definition enable_profile `{Host} (profile : string) : agent (option string) :=
  let path := firewall_key +:+ "\" +:+ profile in
  e ← make_key LOCAL_MACHINE path;
  match e with
  | Some e => mret (Some e)
  | None =>
      e ← put_value LOCAL_MACHINE path "EnableFirewall" (DWORD 1);
      mret match e with Some e => Some e | None => close_key LOCAL_MACHINE path end
  end.

Definition applyWindowsFirewallPolicy `{Host} (block : option windowsFirewallBlock) : agent (option string) :=
  match block with
  | None => mret None
  | Some b =>
      if negb (wf_DomainProfileEnableFirewall b) && negb (wf_StandardProfileEnableFirewall b) then mret None else
      e ← make_key LOCAL_MACHINE firewall_key;
      match e with
      | Some e => mret (Some e)
      | None =>
          e ← (if wf_DomainProfileEnableFirewall b then enable_profile "DomainProfile" else mret None);
          match e with
          | Some e => mret (Some e)
          | None => if wf_StandardProfileEnableFirewall b then enable_profile "StandardProfile" else mret None
          end
      end
  end.

Definition wifi_dir `{Host} : string :=
  let base := host_env "ProgramData" in
  let base := if String.eqb base "" then join_path [host_env "SystemDrive" +:+ "\"; "ProgramData"] else base in
  join_path [base; "arx-mdm"; "wifi-managed"].

Definition persistWindowsWiFiProfile `{Host} (xml : string) : agent (option string) :=
  let xml := Str.trim_space xml in
  if String.eqb xml "" then mret None else
  match mkdir_all wifi_dir with
  | Some e => mret (Some e)
  | None => write_to (join_path [wifi_dir; "managed-profile.xml"]) xml
  end.

(** The blocks of an envelope: the subtree's first, then those at the root over them. *)
Definition nonblank_or (s cur : string) : string := if String.eqb (Str.trim_space s) "" then cur else Str.trim_space s.

Definition windows_xml (env : windowsDeclarativeEnvelope) : string :=
  let x := match we_Windows env with
           | Some root => nonblank_or (ws_WiFiProfileXML root) (match ws_WiFi root with Some p => Str.trim_space p | None => "" end)
           | None => "" end in
  let x := match ws_WiFi (we_Root env) with Some p => nonblank_or p x | None => x end in
  nonblank_or (ws_WiFiProfileXML (we_Root env)) x.

Definition windows_firewall (env : windowsDeclarativeEnvelope) : option windowsFirewallBlock :=
  let fw := match we_Windows env with
            | Some root => mergeWindowsFirewall (ws_WindowsFirewall root) (ws_Firewall root)
            | None => None end in
  mergeWindowsFirewall (mergeWindowsFirewall fw (ws_WindowsFirewall (we_Root env))) (ws_Firewall (we_Root env)).

Definition windows_registry (env : windowsDeclarativeEnvelope) : list registryHiveBlock :=
  match we_Windows env with Some root => ws_Registry root | None => [] end ++ ws_Registry (we_Root env).

(** The registry blocks one by one: a block that fails does not stop the next. *)
Fixpoint apply_blocks `{Host} (blocks : list registryHiveBlock) : agent (list string) :=
  match blocks with
  | [] => mret []
  | b :: r => e ← applyRegistryHiveBlock b; es ← apply_blocks r; mret (match e with Some e => e :: es | None => es end)
  end.

Definition err_list (e : option string) : list string := match e with Some e => [e] | None => [] end.

Section enforce.
Context `{HO : Host} `{JC : JsonCodec} `{JE : JsonErrors} `{UL : UuidLib}.

Definition handleLinuxDeclarative (declaredType raw : string) : agent (option string) :=
  let raw := if String.eqb raw "" then "{}" else raw in
  match (m ← unmarshal_map raw; decode_linux_union m) with
  | None => mret (Some (json_error "linuxProfileUnion" raw))
  | Some obj =>
      let fw := match lp_LinuxFirewall obj with Some b => Some b | None => lp_Firewall obj end in
      let sysctl := if String.eqb declaredType "firewall"
                    then match fw with
                         | Some ((_ :: _) as b) => mergeStringMaps (lp_Sysctl obj) b
                         | _ => lp_Sysctl obj end
                    else lp_Sysctl obj in
      e1 ← match sysctl with [] => mret None | _ => applyLinuxSysctl sysctl end;
      let errs := match e1 with Some e => [e] | None => [] end in
      let errs := match mkdir_all state_dir with
                  | Some e => errs ++ ["mdm linux cannot ensure state dir: " +:+ e]
                  | None => errs end in
      if String.eqb declaredType "" then mret (errors_join errs) else
      let path := Path.join [state_dir; "last-declared-profile-type-" +:+ sanitizeMDMFilename declaredType +:+ ".txt"] in
      e3 ← write_to path declaredType;
      mret (errors_join (match e3 with
                         | Some e => errs ++ ["mdm linux persisted profile marker failed: " +:+ e]
                         | None => errs end))
  end.

Definition handleWindowsDeclarative (declared raw : string) : agent (option string) :=
  let raw := if String.eqb raw "" then "{}" else raw in
  match (m ← unmarshal_map raw; decode_win_envelope m) with
  | None => mret (Some (json_error "windowsDeclarativeEnvelope" raw))
  | Some env =>
      let xmlPayload := windows_xml env in
      e1 ← (if String.eqb declared "wifi" || negb (String.eqb xmlPayload "")
            then persistWindowsWiFiProfile xmlPayload else mret None);
      e2 ← applyWindowsFirewallPolicy (windows_firewall env);
      es ← apply_blocks (windows_registry env);
      mret (errors_join (err_list e1 ++ err_list e2 ++ es))
  end.

(** ** mdm_platform_enforce_{linux,windows,stub}.go

    Neither Linux nor Windows: nothing is enforced and nothing fails. *)
Definition platformEnforceMergedPayload (raw : string) : agent (option string) :=
  if String.eqb goos "linux" then handleLinuxDeclarative "restrictions" raw
  else if String.eqb goos "windows" then handleWindowsDeclarative "custom" raw
  else mret None.

(** ** mdm_declarative_merge.go *)

(** [None]: the payload member is absent. *)
Record telemetryProfileEnvelope := { te_ID : string; te_Name : string; te_Payload : option json }.

Definition enforceEffectiveMergedPayload (payload : string) (criticalPayload : bool) : agent () :=
  err ← platformEnforceMergedPayload payload;
  noteMDMPolicyEnforcement err (criticalPayload && match err with Some _ => true | None => false end).

Definition profile_input (p : telemetryProfileEnvelope) : string + AssignedPayload :=
  match uuid_parse (Str.trim_space (te_ID p)) with
  | None => inl ("configuration profile id: " +:+ json_error "uuid.UUID" (Str.trim_space (te_ID p)))
  | Some pid =>
      if N.eqb pid uuid_nil then inl "configuration profile id is empty" else
      inr {| ap_Source := {| ps_ID := pid; ps_Name := te_Name p |};
             ap_Payload := match te_Payload p with Some v => json_marshal v | None => "{}" end |}
  end.

Fixpoint profile_inputs (profiles : list telemetryProfileEnvelope) : string + list AssignedPayload :=
  match profiles with
  | [] => inr []
  | p :: r => match profile_input p with
              | inl e => inl e
              | inr x => match profile_inputs r with inl e => inl e | inr xs => inr (x :: xs) end
              end
  end.

(** The merge's error names the first input that does not decode. *)
Definition payload_error (inputs : list AssignedPayload) (bad : uuid) : string :=
  "profile " +:+ uuid_string bad +:+ " payload: " +:+
  json_error "map[string]interface {}"
    match List.find (fun i => N.eqb (ps_ID (ap_Source i)) bad && negb (is_some_b (payload_root (ap_Payload i)))) inputs with
    | Some i => ap_Payload i | None => "" end.

Definition enforceDeclarativeProfiles (profiles : list telemetryProfileEnvelope) : agent () :=
  _ ← noteMDMPolicyEnforcement None false;
  match profiles with
  | [] => mret ()
  | _ =>
      match profile_inputs profiles with
      | inl e => noteMDMPolicyEnforcement (Some e) true
      | inr inputs =>
          match MergeAssignedPayloads inputs with
          | MergeErr bad => noteMDMPolicyEnforcement (Some (payload_error inputs bad)) true
          | MergeOk mr =>
              enforceEffectiveMergedPayload (json_marshal (JObj (mr_EffectivePayload mr)))
                (PayloadCarriesCriticalSecurityControls (mr_EffectivePayload mr))
          end
      end
  end.

(** ** mdm_sync.go *)

Definition decode_envelope (cur : telemetryProfileEnvelope) (m : list (string * json)) : option telemetryProfileEnvelope :=
  i ← dec_string (te_ID cur) (field "id" m);
  n ← dec_string (te_Name cur) (field "name" m);
  _ ← dec_string "" (field "profile_type" m);
  _ ← dec_string "" (field "platform" m);
  Some {| te_ID := i; te_Name := n; te_Payload := match List.last (map Some (field "payload" m)) None with
                                                 | Some v => Some v | None => te_Payload cur end |}.

Definition ApplyMDMTelemetryAck (body : string) : agent () :=
  match (m ← unmarshal_map body;
         dec_field (dec_slice {| te_ID := ""; te_Name := ""; te_Payload := None |} (dec_struct decode_envelope)) None
           (field "mdm_configuration_profiles" m)) with
  | Some (Some ((_ :: _) as profiles)) => enforceDeclarativeProfiles profiles
  | _ => mret ()
  end.

(** The raw effective_payload: absent and null are the empty object. *)
Definition raw_payload (m : list (string * json)) : json :=
  match List.last (map Some (field "effective_payload" m)) None with
  | None | Some JNull => JObj []
  | Some v => v
  end.

Definition applyEffectivePolicyHTTPBody (body : string) : agent () :=
  _ ← noteMDMPolicyEnforcement None false;
  match unmarshal_map body with
  | None => noteMDMPolicyEnforcement (Some (json_error "agentEffectivePolicyPullResponse" body)) true
  | Some m =>
      let raw := json_marshal (raw_payload m) in
      match unmarshal_map raw with
      | None => noteMDMPolicyEnforcement (Some (json_error "map[string]interface {}" raw)) true
      | Some root => enforceEffectiveMergedPayload raw (PayloadCarriesCriticalSecurityControls root)
      end
  end.

Definition maxBodyBytes : Z := Z.shiftl 4 20.

(** util.go *)
Definition truncateForLog (b : string) : string :=
  if (Str.slen b <=? 512)%Z then b else Str.take 512 b +:+ "…".

Definition checked (status : Z) (body : string) : string + string :=
  if Z.eqb status 200 then inr body
  else inl ("agent: effective policy pull failed: status=" +:+ Str.itoa status +:+ " body=" +:+ truncateForLog body).

(** What the pull of the policy is answered with: the status, the body as far as it could be
    read, and the error that ended the reading early. *)
Record pull_answer := { pa_Status : Z; pa_Body : string; pa_ReadError : option string }.

(** [inl]: the client, the URL or the request failed.  A reading that fails within the first
    4 MiB is an error; what lies beyond is not read. *)
Definition fetchEffectivePolicy (answer : string + pull_answer) : string + string :=
  match answer with
  | inl err => inl err
  | inr resp =>
      let cut := (maxBodyBytes <=? Str.slen (pa_Body resp))%Z in
      let body := if cut then Str.take (Z.to_nat maxBodyBytes) (pa_Body resp) else pa_Body resp in
      match (if cut then None else pa_ReadError resp) with
      | Some err => inl err
      | None => checked (pa_Status resp) body
      end
  end.

(** One round of runMDMDeclarativeSyncLoop. *)
Definition doFetch (answer : string + pull_answer) : agent () :=
  match fetchEffectivePolicy answer with
  | inl ferr => noteMDMPolicyEnforcement (Some ("effective policy fetch: " +:+ ferr)) true
  | inr body => applyEffectivePolicyHTTPBody body
  end.
End enforce.
