(* ===== verification/AgentCommands.v ===== *)
(** * The agent executes what the server sends

    internal/ws/agent_handlers.go (handleDownlink and its handlers), internal/agent/c2/
    {dispatcher,advanced_commands,script,quarantine_exec,catalog_install}.go and
    pkg/packagemanager/runner.go.  A handler's goroutine is run where it is started; the error
    a handler returns is logged and nothing else. *)

From S2P Require Import Prelude GoStd GoPath Base64 Float64 Json Ext AgentHost.

#[local] Open Scope string_scope.
#[local] Open Scope list_scope.

Definition nl : string := String "010" "".

(** ** packagemanager/runner.go *)
Section runner.
Context `{HO : Host} `{GF : GoFmt}.

Definition resolve (path missing : string) : string + string :=
  if is_file path then inl path else inr ("packagemanager: " +:+ missing +:+ " not found").

Definition resolveAPT : string + string := resolve "/usr/bin/apt-get" "/usr/bin/apt-get".
Definition resolveDNF : string + string := resolve "/usr/bin/dnf" "/usr/bin/dnf".
Definition resolveChoco : string + string := resolve "C:\ProgramData\chocolatey\bin\choco.exe" "choco.exe".

Definition resolveWinget : string + string :=
  if negb (String.eqb goos "windows") then inr "packagemanager: winget is only available on Windows" else
  let pf := if String.eqb (host_env "ProgramFiles") "" then "C:\Program Files" else host_env "ProgramFiles" in
  match glob (join_path [pf; "WindowsApps"; "Microsoft.DesktopAppInstaller_*"; "winget.exe"]) with
  | m :: _ => inl m
  | [] =>
      let ld := host_env "LocalAppData" in
      let candidate := join_path [ld; "Microsoft"; "WindowsApps"; "winget.exe"] in
      if negb (String.eqb ld "") && is_file candidate then inl candidate
      else inr "packagemanager: winget.exe not found"
  end.

Definition argvFromInstallCmd (installCmd : string) : list string + string :=
  let installCmd := Str.trim_space installCmd in
  if String.eqb installCmd "" then inr "packagemanager: custom requires install_cmd" else
  match fields installCmd with
  | [] => inr "packagemanager: invalid install_cmd"
  | (p :: _) as parts =>
      if negb (is_abs p) then inr "packagemanager: custom install_cmd must start with an absolute path" else
      if negb (is_file p) then inr ("packagemanager: custom binary not found: " +:+ p) else inl parts
  end.

Definition with_tool (tool : string + string) (args : list string) : list string + string :=
  match tool with inl w => inl (w :: args) | inr e => inr e end.

Definition winget_selector (name : string) : bool * list string :=
  if Str.has_prefix name "wingetname:" then (true, ["--name"; Str.trim_space (Str.drop 11 name)]) else (false, ["--id"; name]).

Definition argvInstall (typ name version installCmd : string) : list string + string :=
  let typ := Str.to_lower (Str.trim_space typ) in
  let name := Str.trim_space name in
  let version := Str.trim_space version in
  if String.eqb typ "winget" then
    let '(by_name, sel) := winget_selector name in
    with_tool resolveWinget (["install"] ++ sel ++ ["--accept-package-agreements"; "--accept-source-agreements"; "--silent"]
      ++ if by_name || String.eqb version "" then [] else ["--version"; version])
  else if String.eqb typ "choco" then with_tool resolveChoco ["install"; name; "-y"]
  else if String.eqb typ "apt" then with_tool resolveAPT ["install"; "-y"; name]
  else if String.eqb typ "dnf" then with_tool resolveDNF ["install"; "-y"; name]
  else if String.eqb typ "custom" then argvFromInstallCmd installCmd
  else inr ("packagemanager: unsupported type " +:+ fmt_quote typ).

Definition argvUninstall (typ name version installCmd : string) : list string + string :=
  let typ := Str.to_lower (Str.trim_space typ) in
  let name := Str.trim_space name in
  if String.eqb typ "winget" then
    with_tool resolveWinget (["uninstall"] ++ (winget_selector name).2 ++ ["--silent"; "--accept-source-agreements"])
  else if String.eqb typ "choco" then with_tool resolveChoco ["uninstall"; name; "-y"]
  else if String.eqb typ "apt" then with_tool resolveAPT ["remove"; "-y"; name]
  else if String.eqb typ "dnf" then with_tool resolveDNF ["remove"; "-y"; name]
  else if String.eqb typ "custom" then argvFromInstallCmd installCmd
  else inr ("packagemanager: unsupported type " +:+ fmt_quote typ).

(** More than 4000 bytes are cut. *)
Definition truncateOut (b : string) : string :=
  let s := Str.trim_space b in
  if (4000 <? Str.slen s)%Z then Str.take 4000 s +:+ "…" else s.

Definition runArgv (argv : list string) : agent (option string) :=
  match argv with
  | [] => mret (Some "packagemanager: empty argv")
  | _ =>
      _ ← act (Execute argv);
      mret match run_argv argv with
           | (out, Some e) => Some (e +:+ ": " +:+ truncateOut out)
           | (_, None) => None
           end
  end.

Definition run_package (argv : list string + string) : agent (option string) :=
  match argv with inr e => mret (Some e) | inl argv => runArgv argv end.
End runner.

(** ** c2/advanced_commands.go *)

Definition service_byte (c : ascii) : bool :=
  Str.is_digit c || (let n := N_of_ascii c in (N.leb 65 n && N.leb n 90) || (N.leb 97 n && N.leb n 122))
  || existsb (Ascii.eqb c) (Str.bytes "_.@-").

(** ^[a-zA-Z0-9_.@-]{1,96}$ *)
Definition serviceNameRe (s : string) : bool :=
  forallb service_byte (Str.bytes s) && (1 <=? Str.slen s)%Z && (Str.slen s <=? 96)%Z.

Definition quote_char : ascii := "'"%char.
Definition dquote : string := String (ascii_of_nat 34) "".

Definition BuildRestartServiceScript `{Host} (serviceName : string) : string + string :=
  let serviceName := Str.trim_space serviceName in
  if negb (serviceNameRe serviceName) then inr "invalid restart_service service name" else
  if String.eqb goos "windows" then
    let esc := replace_byte quote_char "''" serviceName in
    inl ("$ErrorActionPreference = 'Stop'" +:+ nl +:+ "Restart-Service -Name '" +:+ esc +:+ "' -Force" +:+ nl
         +:+ "Write-Output " +:+ dquote +:+ "restart_service completed for '" +:+ esc +:+ "'" +:+ dquote)
  else if String.eqb goos "linux" then
    let safe := replace_byte quote_char "'\''" serviceName in
    inl ("set -euo pipefail" +:+ nl +:+ "systemctl restart '" +:+ safe +:+ "'" +:+ nl
         +:+ "printf 'restart_service completed for " +:+ safe +:+ "\n'" +:+ nl)
  else inr ("restart_service unsupported on " +:+ goos).

(** The lines of 120 bytes; fuel: a byte per round is more than enough. *)
Definition chunk_step : nat := 120%nat.

Fixpoint chunk_lines (fuel : nat) (b64 : string) : list string :=
  match fuel with
  | O => [b64]
  | S f => if Nat.leb (String.length b64) chunk_step then [b64]
           else Str.take chunk_step b64 :: chunk_lines f (Str.drop chunk_step b64)
  end.

Definition chunkBase64Lines (b64 : string) : string := Str.join nl (chunk_lines (String.length b64) b64).

Definition push_config_target : string := "/var/lib/arx-mdm/push-config.json".

(** The Linux script around the lines of the here-document. *)
Definition push_config_head : string :=
  "set -euo pipefail" +:+ nl +:+ "install -d -m 0750 '" +:+ "/var/lib/arx-mdm" +:+ "'" +:+ nl
  +:+ "tmp=" +:+ dquote +:+ "$(mktemp)" +:+ dquote +:+ nl
  +:+ "base64 -d <<'ARB64' > " +:+ dquote +:+ "$tmp" +:+ dquote +:+ nl.

Definition push_config_tail : string :=
  let target := Path.clean push_config_target in
  nl +:+ "ARB64" +:+ nl
  +:+ "install -m 0640 " +:+ dquote +:+ "$tmp" +:+ dquote +:+ " '" +:+ target +:+ "'" +:+ nl
  +:+ "rm -f " +:+ dquote +:+ "$tmp" +:+ dquote +:+ nl
  +:+ "printf 'push_config completed for " +:+ target +:+ "\n'" +:+ nl.

Definition BuildPushConfigScript `{Host} `{JsonCodec} (jsonPayload : string) : string + string :=
  match json_unmarshal (Str.trim_space jsonPayload) with
  | None => inr "push_config payload must be valid JSON"
  | Some probe =>
      let b64 := B64.encode (json_marshal probe) in
      if String.eqb goos "windows" then
        inl ("$ErrorActionPreference = 'Stop'" +:+ nl
             +:+ "$p = Join-Path $env:ProgramData 'arx-mdm\managed-config.json'" +:+ nl
             +:+ "$dir = Split-Path -LiteralPath $p" +:+ nl
             +:+ "New-Item -ItemType Directory -Force -Path $dir | Out-Null" +:+ nl
             +:+ "$bytes = [Convert]::FromBase64String('" +:+ b64 +:+ "')" +:+ nl
             +:+ "[IO.File]::WriteAllBytes($p, $bytes)" +:+ nl
             +:+ "Write-Output " +:+ dquote +:+ "push_config wrote $($bytes.Length) bytes to $p" +:+ dquote +:+ nl)
      else if String.eqb goos "linux" then
        inl (push_config_head +:+ chunkBase64Lines b64 +:+ push_config_tail)
      else inr ("push_config unsupported on " +:+ goos)
  end.

(** ** c2/script.go *)

(** The two streams under their titles. *)
Definition script_output (p : process) : string :=
  let out := if String.eqb (pc_Stdout p) "" then "" else "stdout:" +:+ nl +:+ pc_Stdout p in
  Str.trim_space (if String.eqb (pc_Stderr p) "" then out
                  else (if String.eqb out "" then "" else out +:+ nl) +:+ "stderr:" +:+ nl +:+ pc_Stderr p).

(** The output and the error, as the code returns both. *)
Definition outcome : Type := string * option string.

Definition executeScript `{Host} (payload : string) : agent outcome :=
  let payload := Str.trim_space payload in
  if String.eqb payload "" then mret ("", Some "script payload is empty") else
  if has_nul payload then mret ("", Some "script payload contains invalid characters") else
  match temp_dir with
  | Some e => mret ("", Some ("create temp dir: " +:+ e))
  | None =>
      if negb (String.eqb goos "windows" || String.eqb goos "linux")
      then mret ("", Some ("script execution is not supported on " +:+ goos)) else
      match run_script payload with
      | inr e => mret ("", Some ("write script file: " +:+ e))
      | inl p =>
          _ ← act (Script payload);
          let out := script_output p in
          mret match pc_Error p with
               | Some e => (if String.eqb out "" then e else out +:+ nl +:+ e, Some "script exited with error")
               | None => (if String.eqb out "" then "script completed with no output" else out, None)
               end
      end
  end.

(** ** c2/quarantine_exec.go *)
Section commands.
Context `{HO : Host} `{JC : JsonCodec} `{JE : JsonErrors} `{GF : GoFmt}.

Definition dec_uint16 (cur : Z) (v : json) : option Z :=
  n ← dec_uint64 cur v; if (n <? 2 ^ 16)%Z then Some n else None.

Definition dec_string1 (cur : string) (v : json) : option string := dec_string cur [v].

Record quarantineWire := { qw_Enabled : bool; qw_AllowHosts : list string; qw_AllowPorts : list Z }.

Definition decode_quarantine (raw : string) : option quarantineWire :=
  m ← unmarshal_map raw;
  e ← dec_bool false (field "enabled" m);
  h ← dec_field (dec_slice "" dec_string1) None (field "allow_hosts" m);
  p ← dec_field (dec_slice 0%Z dec_uint16) None (field "allow_ports" m);
  Some {| qw_Enabled := e; qw_AllowHosts := default [] h; qw_AllowPorts := default [] p |}.

(** The Linux build has no platformApplyQuarantine: [platform_quarantine] is the function of
    the other builds. *)
Definition executeQuarantine (payload : string) : agent outcome :=
  let payload := Str.trim_space payload in
  if String.eqb payload "" then mret ("", Some "quarantine payload is required") else
  match decode_quarantine payload with
  | None => mret ("", Some ("quarantine payload JSON: " +:+ json_error "c2.quarantineWire" payload))
  | Some w =>
      _ ← act (Quarantine (qw_Enabled w) (qw_AllowHosts w) (qw_AllowPorts w));
      mret match platform_quarantine (qw_Enabled w) (qw_AllowHosts w) (qw_AllowPorts w) with
           | inr e => ("", Some e)
           | inl out => (out, None)
           end
  end.

(** ** c2/dispatcher.go *)

Definition reportResult (commandID : string) (ok : bool) (output errMsg : string) : agent () :=
  let output := if negb ok && String.eqb output "" then errMsg else output in
  say (JObj (jmap [("type", jstr "device_command_result"); ("command_id", jstr commandID); ("ok", JBool ok);
                   ("output", jstr output); ("error", jstr errMsg)])).

Definition report_outcome (commandID : string) (r : outcome) : agent () :=
  match r.2 with
  | Some e => reportResult commandID false r.1 e
  | None => reportResult commandID true r.1 ""
  end.

(** A script the agent builds itself; an error building it is reported at once. *)
Definition run_built (commandID : string) (body : string + string) : agent () :=
  match body with
  | inr berr => reportResult commandID false "" berr
  | inl body => r ← executeScript body; report_outcome commandID r
  end.

Definition executePing : agent outcome := mret ("pong", None).

(** The reboot is answered before it is tried. *)
Definition HandleDownlink_command (commandID commandType payload : string) : agent () :=
  if String.eqb commandType "ping" then r ← executePing; report_outcome commandID r
  else if String.eqb commandType "reboot" then
    _ ← reportResult commandID true "reboot scheduled" ""; act Reboot
  else if String.eqb commandType "script" then r ← executeScript payload; report_outcome commandID r
  else if String.eqb commandType "restart_service" then run_built commandID (BuildRestartServiceScript payload)
  else if String.eqb commandType "push_config" then run_built commandID (BuildPushConfigScript payload)
  else if String.eqb commandType "quarantine" then r ← executeQuarantine payload; report_outcome commandID r
  else reportResult commandID false "" ("unsupported command_type " +:+ fmt_quote commandType).

Record deviceCommandDownlink := { dd_CommandID : string; dd_CommandType : string; dd_Payload : string }.

Definition decode_downlink (raw : string) : option deviceCommandDownlink :=
  m ← unmarshal_map raw;
  _ ← dec_string "" (field "action" m);
  i ← dec_string "" (field "command_id" m);
  t ← dec_string "" (field "command_type" m);
  p ← dec_string "" (field "payload" m);
  Some {| dd_CommandID := i; dd_CommandType := t; dd_Payload := p |}.

Definition HandleDownlink (raw : string) : agent () :=
  match decode_downlink raw with
  | None => mret ()
  | Some cmd =>
      let commandID := Str.trim_space (dd_CommandID cmd) in
      let commandType := Str.trim_space (Str.to_lower (dd_CommandType cmd)) in
      if String.eqb commandID "" then mret () else
      if String.eqb commandType "" then reportResult commandID false "" "command_type is required"
      else HandleDownlink_command commandID commandType (dd_Payload cmd)
  end.

(** ** c2/catalog_install.go *)

Record InstallBridge := { ib_ServerURL : string; ib_CertDir : string }.

Definition reportInstall (appID : string) (ok : bool) (exitCode : Z) (errStr : string) : agent () :=
  say (JObj (jmap [("type", jstr "install_app_result"); ("app_id", jstr (Str.trim_space appID)); ("ok", JBool ok);
                   ("exit_code", JNum (F64.of_Z exitCode)); ("error", jstr errStr)])).

Definition resolveArtifactURL (serverBase artifactPath : string) : string + string :=
  let artifactPath := Str.trim_space artifactPath in
  if String.eqb artifactPath "" then inr "empty artifact path" else
  let low := Str.to_lower artifactPath in
  if Str.has_prefix low "https://" || Str.has_prefix low "http://" then inl artifactPath else
  let sb := Path.trim_slashes (Str.trim_space serverBase) in
  if String.eqb sb "" then inr "server base url missing" else
  parse_url (sb +:+ if Str.has_prefix artifactPath "/" then artifactPath else "/" +:+ artifactPath).

Definition decode_install_app (raw : string) : option (string * string * string) :=
  m ← unmarshal_map raw;
  _ ← dec_string "" (field "action" m);
  i ← dec_string "" (field "app_id" m);
  p ← dec_string "" (field "artifact_path" m);
  a ← dec_string "" (field "install_args" m);
  Some (Str.trim_space i, Str.trim_space p, Str.trim_space a).

Definition RunCatalogInstall (bridge : option InstallBridge) (raw : string) : agent () :=
  match decode_install_app raw with
  | None => mret ()
  | Some (appID, pathOrURL, args) =>
      if String.eqb appID "" || String.eqb pathOrURL ""
      then reportInstall appID false (-2) "missing app_id or artifact_path" else
      let server := match bridge with Some b => ib_ServerURL b | None => "" end in
      if String.eqb (Str.trim_space server) ""
      then reportInstall appID false (-3) "agent install bridge not configured" else
      match resolveArtifactURL server pathOrURL with
      | inr e => reportInstall appID false (-4) e
      | inl fullURL =>
          match download fullURL with
          | inr e => reportInstall appID false (-5) e
          | inl tmpPath =>
              _ ← act (Install tmpPath args);
              let '(exitCode, runErr) := run_installer tmpPath args in
              reportInstall appID (match runErr with None => true | _ => false end) exitCode (default "" runErr)
          end
      end
  end.
End commands.
