(* ===== verification/AgentFiles.v ===== *)
(** * The agent's files: listings, downloads, uploads (internal/ws/agent_fs.go, pkg/system/files.go)

    A handler's goroutine is run where it is started; a file being uploaded is the bytes
    written through its handle, and is listed with the agent's files when it is closed. *)

From S2P Require Import Prelude GoStd GoPath Base64 Float64 Json AgentHost.

#[local] Open Scope string_scope.
#[local] Open Scope list_scope.

Definition maxAgentUploadBytes : Z := 512 * 2 ^ 20.
Definition defaultFSDownloadChunkSize : Z := 256 * 1024.

(** ** pkg/system/files.go *)

(** inl: the error.  filepath.Clean is the one of Unix systems. *)
Definition SanitizePath (p : string) : string + string :=
  if String.eqb (Str.trim_space p) "" then inl "path is required" else
  if has_nul p then inl "path contains NUL" else inr (Path.clean p).

Section files.
Context `{HO : Host} `{JC : JsonCodec}.

Definition ListDir (path : string) : json + string :=
  match SanitizePath path with inl e => inr e | inr p => list_dir p end.

(** The path opened, or the error. *)
Definition OpenFileWriteTrunc (path : string) : string + string :=
  match SanitizePath path with
  | inl e => inl e
  | inr p => match open_trunc p with Some e => inl e | None => inr p end
  end.

(** ** Decoding: one string member, or two *)

Definition decode1 (k raw : string) : option string := m ← unmarshal_map raw; dec_string "" (field k m).
Definition decode2 (k1 k2 raw : string) : option (string * string) :=
  m ← unmarshal_map raw; x ← dec_string "" (field k1 m); y ← dec_string "" (field k2 m); Some (x, y).

(** A reply of the agent: its type and its members. *)
Definition reply (type : string) (members : list (string * json)) : agent () :=
  say (JObj (jmap (("type", jstr type) :: members))).

(** The answer to a request: its result or its error. *)
Definition answer (type rid : string) (r : list (string * json) + string) : agent () :=
  reply type (("request_id", jstr (Str.trim_space rid)) ::
    match r with
    | inl members => ("ok", JBool true) :: members
    | inr e => [("ok", JBool false); ("error", jstr e)]
    end).

Definition handleFsListDir (data : string) : agent () :=
  match decode2 "request_id" "path" data with
  | None => mret ()
  | Some (rid, path) =>
      answer "fs_listdir_result" rid
        match ListDir path with
        | inr e => inr e
        | inl ents => inl [("path", jstr (Str.trim_space path)); ("entries", ents)]
        end
  end.

Definition handleNetList (data : string) : agent () :=
  answer "net_list_result" (default "" (decode1 "request_id" data))
    match list_net with inr e => inr e | inl ifs => inl [("interfaces", ifs)] end.

Definition handleHostnameSet (data : string) : agent () :=
  match decode2 "request_id" "hostname" data with
  | None => mret ()
  | Some (rid, hostname) =>
      let host := Str.trim_space hostname in
      _ ← act (SetHostname host);
      answer "hostname_set_result" rid match set_hostname host with Some e => inr e | None => inl [("hostname", jstr host)] end
  end.

(** ** Downloads *)

Record fsDownloadCmd := { fd_RequestID : string; fd_Path : string; fd_ChunkSize : Z }.

Definition decode_fs_download (data : string) : option fsDownloadCmd :=
  m ← unmarshal_map data;
  _ ← dec_string "" (field "action" m);
  r ← dec_string "" (field "request_id" m);
  p ← dec_string "" (field "path" m);
  c ← dec_field dec_int 0%Z (field "chunk_size" m);
  Some {| fd_RequestID := r; fd_Path := p; fd_ChunkSize := c |}.

Definition download_chunk (rid data : string) (eof : bool) : agent () :=
  reply "fs_download_chunk" [("request_id", jstr rid); ("data_b64", jstr (B64.encode data)); ("eof", JBool eof)].
Definition download_error (rid e : string) : agent () :=
  reply "fs_download_error" [("request_id", jstr rid); ("error", jstr e)].

Fixpoint send_chunks (rid : string) (reads : list (string * option (option string))) : agent () :=
  match reads with
  | [] => mret ()
  | (data, err) :: rest =>
      if negb (String.eqb data "") then
        let eof := match err with Some None => true | _ => false end in
        _ ← download_chunk rid data eof;
        if eof then mret () else send_chunks rid rest
      else
        match err with
        | Some None => download_chunk rid "" true
        | Some (Some e) => download_error rid e
        | None => send_chunks rid rest
        end
  end.

Definition download_chunk_size (n : Z) : Z :=
  if (n <=? 0)%Z || (1024 * 1024 <? n)%Z then defaultFSDownloadChunkSize else n.

Definition runFsDownload (cmd : fsDownloadCmd) : agent () :=
  let rid := Str.trim_space (fd_RequestID cmd) in
  match read_file (Str.trim_space (fd_Path cmd)) (download_chunk_size (fd_ChunkSize cmd)) with
  | inr e => download_error rid e
  | inl reads => send_chunks rid reads
  end.

Definition handleFsDownload (data : string) : agent () :=
  match decode_fs_download data with None => mret () | Some cmd => runFsDownload cmd end.

(** ** Uploads: [fsUploadState] *)

Definition ErrInvalid : string := "invalid argument".

(** The file handle's file as it is when the handle is closed. *)
Definition close_upload (rid : string) : agent () :=
  modify (fun g => match ag_uploads g !! rid with
                   | Some u => with_uploads (delete rid (ag_uploads g)) (with_files (ag_files g ++ [(up_Path u, up_Data u)]) g)
                   | None => g end).

Definition upload_begin (rid path : string) : agent (option string) := fun g =>
  match ag_uploads g !! rid with
  | Some _ => (Some "upload session already active for request_id", g)
  | None =>
      match OpenFileWriteTrunc path with
      | inl e => (Some e, g)
      | inr p => (None, with_uploads (<[rid := {| up_Path := p; up_Data := ""; up_Written := 0 |}]> (ag_uploads g)) g)
      end
  end.

(** The bytes are written before they are counted. *)
Definition upload_chunk (rid data : string) : agent (option string) := fun g =>
  match ag_uploads g !! rid with
  | None => (Some ErrInvalid, g)
  | Some u =>
      match write_handle (up_Path u) data with
      | Some e => (Some e, g)
      | None =>
          let written := (up_Written u + Str.slen data)%Z in
          let u' := {| up_Path := up_Path u; up_Data := up_Data u +:+ data; up_Written := written |} in
          (if (maxAgentUploadBytes <? written)%Z then Some ErrInvalid else None,
           with_uploads (<[rid := u']> (ag_uploads g)) g)
      end
  end.

Definition upload_finish (rid : string) : agent (option string) := fun g =>
  match ag_uploads g !! rid with
  | None => (Some ErrInvalid, g)
  | Some u => (close_handle (up_Path u), (close_upload rid g).2)
  end.

Definition upload_abort (rid : string) : agent () := close_upload rid.

Definition fsUploadReply (requestID : string) (ok : bool) (errMsg : string) : agent () :=
  reply "fs_upload_result" [("request_id", jstr requestID); ("ok", JBool ok); ("error", jstr errMsg)].

Definition handleFsUploadBegin (data : string) : agent () :=
  match decode2 "request_id" "path" data with
  | None => mret ()
  | Some (rid, path) =>
      let rid := Str.trim_space rid in
      let path := Str.trim_space path in
      if String.eqb rid "" || String.eqb path "" then fsUploadReply rid false "request_id and path are required" else
      e ← upload_begin rid path;
      match e with Some e => fsUploadReply rid false e | None => mret () end
  end.

(** The text of base64's error names the offending byte; it is not modelled. *)
Definition base64_error : string := "illegal base64 data".

Definition handleFsUploadChunk (data : string) : agent () :=
  match decode2 "request_id" "data_b64" data with
  | None => mret ()
  | Some (rid, b64) =>
      let rid := Str.trim_space rid in
      match B64.decode b64 with
      | None => _ ← upload_abort rid; fsUploadReply rid false ("invalid base64: " +:+ base64_error)
      | Some raw =>
          e ← upload_chunk rid raw;
          match e with
          | Some e => _ ← upload_abort rid; fsUploadReply rid false e
          | None => mret ()
          end
      end
  end.

Definition handleFsUploadFinish (data : string) : agent () :=
  match decode1 "request_id" data with
  | None => mret ()
  | Some rid =>
      let rid := Str.trim_space rid in
      e ← upload_finish rid;
      match e with Some e => fsUploadReply rid false e | None => fsUploadReply rid true "" end
  end.

Definition handleFsUploadAbort (data : string) : agent () :=
  upload_abort (Str.trim_space (default "" (decode1 "request_id" data))).
End files.
