(* ===== verification/AgentHandlers.v ===== *)
(** * The agent's command loop (internal/ws/agent_handlers.go)

    One message from the server: the registry, the terminal, package deployments, and the
    dispatch on its action.  The error a handler returns is logged and nothing else; the
    connection is up. *)

From S2P Require Import Prelude GoStd GoPath Base64 Float64 Json Ext AgentHost AgentCommands AgentFiles.

#[local] Open Scope string_scope.
#[local] Open Scope list_scope.

Section handlers.
Context `{HO : Host} `{JC : JsonCodec} `{JE : JsonErrors} `{GF : GoFmt}.

(** ** pkg/system/registry_stub.go

    Anything but Windows refuses. *)
Definition ErrRegistryUnsupported : string := "system: registry operations are only supported on Windows".
Definition on_windows {A} (x y : A) : A := if String.eqb goos "windows" then x else y.
Definition RegistryRead (key value : string) : RegistryValue + string :=
  on_windows (registry_read key value) (inr ErrRegistryUnsupported).
Definition RegistryWriteOp (key : string) (v : RegistryValue) : option string :=
  on_windows (registry_write key v) (Some ErrRegistryUnsupported).
Definition RegistryDeleteOp (key value : string) (whole : bool) : option string :=
  on_windows (registry_delete key value whole) (Some ErrRegistryUnsupported).

(** Every registry answer starts alike. *)
Definition registry_result (rid : string) (ok : bool) (members : list (string * json)) : agent () :=
  reply "registry_result" (("request_id", jstr rid) :: ("ok", JBool ok) :: members).

Definition handleRegistryRead (data : string) : agent () :=
  match (m ← unmarshal_map data; _ ← dec_string "" (field "action" m); r ← dec_string "" (field "request_id" m);
         k ← dec_string "" (field "key_path" m); v ← dec_string "" (field "value_name" m); Some (r, k, v)) with
  | None => mret ()
  | Some (rid, key, value) =>
      match RegistryRead key value with
      | inr e => registry_result rid false [("error", jstr e); ("key_path", jstr key); ("value_name", jstr value)]
      | inl v => registry_result rid true [("key_path", jstr key); ("value_name", jstr (rv_ValueName v));
                                           ("value_type", jstr (rv_Type v)); ("data", jstr (rv_Data v))]
      end
  end.

Definition decode_registry_write (data : string) : option (string * string * RegistryValue) :=
  m ← unmarshal_map data;
  _ ← dec_string "" (field "action" m);
  r ← dec_string "" (field "request_id" m);
  k ← dec_string "" (field "key_path" m);
  n ← dec_string "" (field "value_name" m);
  t ← dec_string "" (field "type" m);
  d ← dec_string "" (field "data" m);
  Some (r, k, {| rv_ValueName := n; rv_Type := t; rv_Data := d |}).

Definition handleRegistryWrite (data : string) : agent () :=
  match decode_registry_write data with
  | None => mret ()
  | Some (rid, key, v) =>
      _ ← act (RegistryWrite key v);
      match RegistryWriteOp key v with
      | Some e => registry_result rid false [("error", jstr e); ("key_path", jstr key); ("value_name", jstr (rv_ValueName v))]
      | None => registry_result rid true [("key_path", jstr key); ("value_name", jstr (rv_ValueName v));
                                          ("message", jstr "value written")]
      end
  end.

Definition handleRegistryDelete (data : string) : agent () :=
  match (m ← unmarshal_map data; _ ← dec_string "" (field "action" m); r ← dec_string "" (field "request_id" m);
         k ← dec_string "" (field "key_path" m); v ← dec_string "" (field "value_name" m);
         d ← dec_bool false (field "delete_key" m); Some (r, k, v, d)) with
  | None => mret ()
  | Some (rid, key, value, whole) =>
      _ ← act (RegistryDelete key value whole);
      match RegistryDeleteOp key value whole with
      | Some e => registry_result rid false [("error", jstr e)]
      | None => registry_result rid true [("message", jstr "delete completed")]
      end
  end.

(** ** The terminal *)

Definition close_pty : agent () := fun g =>
  if ag_pty g then (_ ← act PtyClose; modify (with_pty false)) g else (tt, g).

Definition pty_exit (rid : string) (code : Z) (members : list (string * json)) : agent () :=
  reply "pty_exit" (("request_id", jstr rid) :: ("code", JNum (F64.of_Z code)) :: members).

(** What each Read of the terminal gives: bytes, and whether it ended in an error. *)
Fixpoint ptyReadLoop (requestID : string) (reads : list (string * bool)) : agent () :=
  match reads with
  | [] => mret ()
  | (out, ended) :: rest =>
      _ ← (if String.eqb out "" then mret ()
           else reply "pty_output" [("request_id", jstr requestID); ("data_b64", jstr (B64.encode out))]);
      if ended then pty_exit requestID 0 [] else ptyReadLoop requestID rest
  end.

Definition decode_pty_start (data : string) : option (string * Z * Z * list string) :=
  m ← unmarshal_map data;
  _ ← dec_string "" (field "action" m);
  r ← dec_string "" (field "request_id" m);
  c ← dec_field dec_uint16 0%Z (field "cols" m);
  w ← dec_field dec_uint16 0%Z (field "rows" m);
  a ← dec_field (dec_slice "" dec_string1) None (field "argv" m);
  Some (r, c, w, default [] a).

(** One terminal per connection: a running one is closed first.  Its read loop is
    [ptyReadLoop], started after the answer is queued or before it. *)
Definition handlePTYStart (data : string) : agent () :=
  match decode_pty_start data with
  | None => mret ()
  | Some (rid, cols, rows, argv) =>
      _ ← close_pty;
      match spawn_pty cols rows argv with
      | Some e => pty_exit rid 1 [("error", jstr e)]
      | None =>
          _ ← act (PtyStart cols rows argv);
          _ ← modify (with_pty true);
          reply "pty_started" [("request_id", jstr rid); ("ok", JBool true)]
      end
  end.

Definition when_pty (m : agent ()) : agent () := fun g => if ag_pty g then m g else (tt, g).

Definition handlePTYData (data : string) : agent () :=
  match decode2 "action" "data_b64" data with
  | None => mret ()
  | Some (_, b64) => match B64.decode b64 with None => mret () | Some raw => when_pty (act (PtyData raw)) end
  end.

Definition handlePTYResize (data : string) : agent () :=
  match (m ← unmarshal_map data; _ ← dec_string "" (field "action" m);
         c ← dec_field dec_uint16 0%Z (field "cols" m); w ← dec_field dec_uint16 0%Z (field "rows" m); Some (c, w)) with
  | None => mret ()
  | Some (cols, rows) => when_pty (act (PtyResize cols rows))
  end.

Definition handlePTYClose : agent () := close_pty.

(** ** Package deployments *)

Record deployPackageCmd := {
  dp_DeploymentID : string; dp_RequestID : string; dp_Operation : string; dp_PackageType : string;
  dp_Name : string; dp_Version : string; dp_InstallCmd : string
}.

Definition decode_deploy (data : string) : option deployPackageCmd :=
  m ← unmarshal_map data;
  _ ← dec_string "" (field "action" m);
  d ← dec_string "" (field "deployment_id" m);
  r ← dec_string "" (field "request_id" m);
  o ← dec_string "" (field "operation" m);
  t ← dec_string "" (field "package_type" m);
  n ← dec_string "" (field "name" m);
  v ← dec_string "" (field "version" m);
  i ← dec_string "" (field "install_cmd" m);
  Some {| dp_DeploymentID := d; dp_RequestID := r; dp_Operation := o; dp_PackageType := t; dp_Name := n;
          dp_Version := v; dp_InstallCmd := i |}.

Definition runDeployPackage (cmd : deployPackageCmd) (op : string) : agent () :=
  err ← (if String.eqb op "install"
         then run_package (argvInstall (dp_PackageType cmd) (dp_Name cmd) (dp_Version cmd) (dp_InstallCmd cmd))
         else if String.eqb op "uninstall"
         then run_package (argvUninstall (dp_PackageType cmd) (dp_Name cmd) (dp_Version cmd) (dp_InstallCmd cmd))
         else mret (Some ("unsupported operation " +:+ fmt_quote op)));
  reply "package_result"
    [("deployment_id", jstr (Str.trim_space (dp_DeploymentID cmd))); ("request_id", jstr (Str.trim_space (dp_RequestID cmd)));
     ("ok", JBool (match err with None => true | _ => false end)); ("error", jstr (default "" err));
     ("operation", jstr op); ("package_type", jstr (dp_PackageType cmd))].

Definition handleDeployPackage (data : string) : agent () :=
  match decode_deploy data with
  | None => mret ()
  | Some cmd =>
      let op := Str.trim_space (Str.to_lower (dp_Operation cmd)) in
      runDeployPackage cmd (if String.eqb op "" then "install" else op)
  end.

(** ** The dispatch *)

(** How the agent reads a message's action. *)
Definition message_action (data : string) : option string :=
  m ← unmarshal_map data; a ← dec_string "" (field "action" m); Some (Str.trim_space (Str.to_lower a)).

Context (bridge : option InstallBridge).

Definition handlers : list (string * (string -> agent ())) :=
  [("shutdown", fun _ => act Shutdown); ("registry_read", handleRegistryRead); ("registry_write", handleRegistryWrite);
   ("registry_delete", handleRegistryDelete); ("pty_start", handlePTYStart); ("pty_data", handlePTYData);
   ("pty_resize", handlePTYResize); ("pty_close", fun _ => handlePTYClose); ("deploy_package", handleDeployPackage);
   ("fs_listdir", handleFsListDir); ("fs_download", handleFsDownload); ("fs_upload_begin", handleFsUploadBegin);
   ("fs_upload_chunk", handleFsUploadChunk); ("fs_upload_finish", handleFsUploadFinish);
   ("fs_upload_abort", handleFsUploadAbort); ("net_list", handleNetList); ("hostname_set", handleHostnameSet);
   ("install_app", RunCatalogInstall bridge); ("lock", fun _ => act Lock); ("wipe", fun _ => act Wipe);
   ("device_command", HandleDownlink)].

Definition handleDownlink (data : string) : agent () :=
  match message_action data with
  | None => mret ()
  | Some action =>
      match List.find (fun h => String.eqb h.1 action) handlers with
      | Some (_, h) => h data
      | None => mret ()
      end
  end.

(** The messages of one connection, in order; runAgentCommandLoop starts without a terminal,
    whatever became of the last connection's. *)
Fixpoint handle_all (messages : list string) : agent () :=
  match messages with
  | [] => mret ()
  | data :: rest => _ ← handleDownlink data; handle_all rest
  end.

Definition runAgentCommandLoop (messages : list string) : agent () :=
  _ ← modify (with_pty false); handle_all messages.
End handlers.
