(* ===== verification/FileProxy.v ===== *)
(** * Files of a device over HTTP, and the uplinks (internal/api/files.go, internal/ws)

    A download and an upload: the requests the server sends the agent, the channels on which
    the agent's answers reach the waiting HTTP handler, and the response.  Channels are
    bounded and a delivery that finds one full is dropped. *)

From S2P Require Import Prelude GoStd GoPath Base64 Float64 Json Ext World Auth DeviceCommands CommandFlow.

#[local] Open Scope string_scope.
#[local] Open Scope list_scope.

Definition maxFileProxyChunk : Z := 256 * 1024.
Definition maxUploadBytesPerCall : Z := 512 * 2 ^ 20.

(** ** filetransfer_types.go *)

Record C2FileChunk := { fc_Data : string; fc_EOF : bool; fc_Err : string }.
Record C2FileUploadResult := { ur_OK : bool; ur_Error : string }.

(** ** fs_bridge.go *)

(** The channels' buffers, by serial and request. *)
Record FsWaiters := { fw_down : gmap string (list C2FileChunk); fw_up : gmap string (list C2FileUploadResult) }.

Definition no_waiters : FsWaiters := {| fw_down := ∅; fw_up := ∅ |}.
Definition set_down (m : gmap string (list C2FileChunk)) (w : FsWaiters) : FsWaiters := {| fw_down := m; fw_up := fw_up w |}.
Definition set_up (m : gmap string (list C2FileUploadResult)) (w : FsWaiters) : FsWaiters := {| fw_down := fw_down w; fw_up := m |}.

Definition fsWaitKey (certSerial requestID : string) : string :=
  Str.trim_space certSerial +:+ String "030" "" +:+ Str.trim_space requestID.

Definition download_depth : nat := 8%nat.
Definition upload_depth : nat := 1%nat.

Definition RegisterFSDownloadWaiter (certSerial requestID : string) (w : FsWaiters) : FsWaiters :=
  set_down (<[fsWaitKey certSerial requestID := []]> (fw_down w)) w.
Definition RegisterFSUploadResultWaiter (certSerial requestID : string) (w : FsWaiters) : FsWaiters :=
  set_up (<[fsWaitKey certSerial requestID := []]> (fw_up w)) w.
Definition cancel_download (certSerial requestID : string) (w : FsWaiters) : FsWaiters :=
  set_down (delete (fsWaitKey certSerial requestID) (fw_down w)) w.
Definition cancel_upload (certSerial requestID : string) (w : FsWaiters) : FsWaiters :=
  set_up (delete (fsWaitKey certSerial requestID) (fw_up w)) w.

(** A send that does not wait. *)
Definition try_put {A} (depth : nat) (x : A) (l : list A) : list A := if (length l <? depth)%nat then l ++ [x] else l.

Definition trySendFSDownload (key : string) (c : C2FileChunk) (w : FsWaiters) : FsWaiters :=
  match fw_down w !! key with
  | Some l => set_down (<[key := try_put download_depth c l]> (fw_down w)) w
  | None => w
  end.

Definition error_chunk (e : string) : C2FileChunk := {| fc_Data := ""; fc_EOF := false; fc_Err := e |}.

(** The texts of the decoding errors are only logged: they are not modelled, beyond not
    being empty. *)
Definition decode_error : string := "decode error".

(** The chunk a download message carries. *)
Definition download_message (type : string) (m : list (string * json)) : C2FileChunk :=
  if String.eqb type "fs_download_chunk" then
    match (b ← dec_string "" (field "data_b64" m); e ← dec_bool false (field "eof" m); Some (b, e)) with
    | None => error_chunk decode_error
    | Some (b64, eof) =>
        if String.eqb (Str.trim_space b64) "" then {| fc_Data := ""; fc_EOF := eof; fc_Err := "" |} else
        match B64.decode b64 with
        | None => error_chunk decode_error
        | Some raw => {| fc_Data := raw; fc_EOF := eof; fc_Err := "" |}
        end
    end
  else if String.eqb type "fs_download_done" then {| fc_Data := ""; fc_EOF := true; fc_Err := "" |}
  else error_chunk (Str.trim_space (default "" (dec_string "" (field "error" m)))).

Definition deliverFSDownload (certSerial requestID msgType : string) (m : list (string * json)) (w : FsWaiters) : FsWaiters :=
  trySendFSDownload (fsWaitKey certSerial requestID) (download_message msgType m) w.

Definition deliverFSUploadResult (certSerial requestID : string) (m : list (string * json)) (w : FsWaiters) : FsWaiters :=
  let key := fsWaitKey certSerial requestID in
  let res := {| ur_OK := default false (dec_bool false (field "ok" m));
                ur_Error := Str.trim_space (default "" (dec_string "" (field "error" m))) |} in
  match fw_up w !! key with
  | Some l => set_up (<[key := try_put upload_depth res l]> (fw_up w)) w
  | None => w
  end.

(** Whether the message was for a waiter, and the channels after it. *)
Definition TryDeliverFileTransfer `{JsonCodec} (certSerial data : string) (w : FsWaiters) : bool * FsWaiters :=
  match (m ← unmarshal_map data; t ← dec_string "" (field "type" m); r ← dec_string "" (field "request_id" m);
         Some (m, Str.trim_space t, Str.trim_space r)) with
  | None => (false, w)
  | Some (m, t, rid) =>
      if existsb (String.eqb t) ["fs_download_chunk"; "fs_download_done"; "fs_download_error"] then
        if String.eqb rid "" then (false, w) else (true, deliverFSDownload certSerial rid t m w)
      else if String.eqb t "fs_upload_result" then
        if String.eqb rid "" then (false, w) else (true, deliverFSUploadResult certSerial rid m w)
      else (false, w)
  end.

(** A waiting download: messages of the agent arrive, the handler takes what is in the
    channel. *)
Inductive download_event := Arrives (data : string) | Takes.

Definition download_step `{JsonCodec} (certSerial requestID : string) (st : FsWaiters * list C2FileChunk) (ev : download_event)
    : FsWaiters * list C2FileChunk :=
  let '(w, taken) := st in
  match ev with
  | Arrives data => ((TryDeliverFileTransfer certSerial data w).2, taken)
  | Takes =>
      let key := fsWaitKey certSerial requestID in
      match fw_down w !! key with
      | Some (c :: r) => (set_down (<[key := r]> (fw_down w)) w, taken ++ [c])
      | _ => st
      end
  end.

(** What the handler has taken, in order. *)
Definition download_run `{JsonCodec} (certSerial requestID : string) (evs : list download_event) (w : FsWaiters)
    : list C2FileChunk :=
  (fold_left (download_step certSerial requestID) evs (RegisterFSDownloadWaiter certSerial requestID w, [])).2.

(** ** files.go *)
Section routes.
Context `{UL : UuidLib} `{GF : GoFmt} `{JL : JwtLib} `{C2 : C2Dispatcher L}.
Context (origins : list string).

(** uuid.NewString() *)
Definition NewString : go L string := fun w => (inr (uuid_string (gen_random_uuid (w_next_id w))), draw_id w).

Definition resolveAsset (assetID : string) : go L string :=
  match uuid_parse (Str.trim_space assetID) with
  | None => fail (ErrMsg "invalid asset id")
  | Some id =>
      r ← attempt (select (fun db _ =>
            match List.find (fun a => N.eqb (a_id a) id) (t_assets db) with
            | Some a => inr (a_cert_serial a)
            | None => inl ErrNoRows end));
      match r with
      | inl e => fail (if is_no_rows e then ErrMsg "asset not found" else ErrMsg "asset lookup failed")
      | inr (Some s) => if String.eqb (Str.trim_space s) "" then fail (ErrMsg "asset has no certificate serial")
                        else mret (Str.trim_space s)
      | inr None => fail (ErrMsg "asset has no certificate serial")
      end
  end.

(** The query's path, unescaped once more. *)
Definition file_path (r : Request) : Response + string :=
  let rawPath := Str.trim_space (rq_query r "path") in
  if String.eqb rawPath "" then err_resp 400 "path query parameter is required" else
  match path_unescape rawPath with
  | None => err_resp 400 "invalid path encoding"
  | Some path => inr path
  end.

(** What both routes check before they look the asset up. *)
Definition file_request (method : string) (r : Request) : Response + string :=
  match require_method method r with
  | inl resp => inl resp
  | inr _ => match RequireMinRole origins r RoleOperator with inl resp => inl resp | inr _ => file_path r end
  end.

Definition download_filename (path : string) : string :=
  let base := Path.base path in if String.eqb base "." || String.eqb base "/" then "download" else base.

(** What the handler has written, and whether it has returned. *)
Definition take_chunk (st : string * bool) (c : C2FileChunk) : string * bool :=
  let '(body, over) := st in
  if over then st
  else if negb (String.eqb (fc_Err c) "") then (body, true)
  else (body +:+ fc_Data c, fc_EOF c).

Definition received_body (chunks : list C2FileChunk) : string := (fold_left take_chunk chunks ("", false)).1.

Definition download_request (requestID path : string) : json :=
  JObj (jmap [("action", jstr "fs_download"); ("request_id", jstr requestID); ("path", jstr path);
              ("chunk_size", JNum (F64.of_Z maxFileProxyChunk))]).

(** The file's name in the header, and the body: everything received until the handler returns. *)
Definition download_header (path : string) : string := "attachment; filename=" +:+ fmt_quote (download_filename path).

(** [chunks]: what the channel gives before it is over or the deadline passes. *)
Definition handleDownload (r : Request) (chunks : list C2FileChunk) : go L (Response + (string * string)) :=
  let stop (resp : Response) : go L (Response + (string * string)) := mret (inl resp) in
  match file_request "GET" r with
  | inl resp => stop resp
  | inr path =>
      cs ← attempt (resolveAsset (rq_path_id r));
      match cs with
      | inl e => stop (writeTicketsError 404 (err_text e))
      | inr certSerial =>
          requestID ← NewString;
          ok ← dispatch certSerial (download_request requestID path);
          if negb ok then stop (writeTicketsError 503 "agent is not connected")
          else mret (inr (download_header path, received_body chunks))
      end
  end.

Definition upload_message (action requestID : string) (members : list (string * json)) : json :=
  JObj (jmap (("action", jstr action) :: ("request_id", jstr requestID) :: members)).

(** One Read of the body: bytes and nil, io.EOF ([Some None]) or another error.  inl: the
    response of an early return. *)
Fixpoint upload_body (certSerial requestID : string) (total : Z) (reads : list (string * option (option string)))
    : go L (Response + Z) :=
  let send action members := dispatch certSerial (upload_message action requestID members) in
  match reads with
  | [] => mret (inr total)
  | (data, err) :: rest =>
      let n := Str.slen data in
      if (0 <? n)%Z && (maxUploadBytesPerCall - total <? n)%Z then
        _ ← send "fs_upload_abort" []; mret (inl (writeTicketsError 413 "upload exceeds limit"))
      else
        ok ← (if (0 <? n)%Z then send "fs_upload_chunk" [("data_b64", jstr (B64.encode data))] else mret true);
        if negb (ok : bool) then mret (inl (writeTicketsError 503 "agent send failed")) else
        match err with
        | None => upload_body certSerial requestID (total + n) rest
        | Some None => mret (inr (total + n)%Z)
        | Some (Some _) => _ ← send "fs_upload_abort" []; mret (inl (writeTicketsError 400 "could not read request body"))
        end
  end.

Definition upload_response (total : Z) (res : option C2FileUploadResult) : Response :=
  match res with
  | None => writeTicketsError 408 "upload timed out"
  | Some res =>
      if ur_OK res
      then writeTicketsJSON 200 (JObj (jmap [("ok", JBool true); ("bytes_written", JNum (F64.of_Z total))]))
      else let msg := Str.trim_space (ur_Error res) in
           writeTicketsError 502 (if String.eqb msg "" then "upload failed" else msg)
  end.

(** [res]: what the channel gives before the deadline. *)
Definition handleUpload (r : Request) (reads : list (string * option (option string))) (res : option C2FileUploadResult)
    : go L Response :=
  let? path := file_request "POST" r in
      cs ← attempt (resolveAsset (rq_path_id r));
      match cs with
      | inl e => mret (writeTicketsError 404 (err_text e))
      | inr certSerial =>
          requestID ← NewString;
          ok ← dispatch certSerial (upload_message "fs_upload_begin" requestID [("path", jstr path)]);
          if negb ok then mret (writeTicketsError 503 "agent is not connected") else
          sent ← upload_body certSerial requestID 0 reads;
          match sent with
          | inl resp => mret resp
          | inr total =>
              ok ← dispatch certSerial (upload_message "fs_upload_finish" requestID []);
              mret (if (ok : bool) then upload_response total res else writeTicketsError 503 "agent send failed")
          end
      end.
End routes.

(** * What an agent says to the server (internal/ws/{handler,agent_uplink,app_install_outcome}.go)

    readPump's routing of one message: telemetry, results, file transfers, and what is passed
    on to the dashboards. *)

From S2P Require Import Alerting AlertEngine Compliance Enrollment AndroidPolicies MdmDownlink Telemetry Packages.


(** ** app_install_outcome.go *)

Record agentInstallAppResult := { ia_Type : string; ia_AppID : string; ia_OK : bool; ia_Error : string }.

Definition decode_install_result `{JsonCodec} (raw : string) : option agentInstallAppResult :=
  m ← unmarshal_map raw;
  t ← dec_string "" (field "type" m);
  a ← dec_string "" (field "app_id" m);
  ok ← dec_bool false (field "ok" m);
  _ ← dec_field dec_int 0%Z (field "exit_code" m);
  e ← dec_string "" (field "error" m);
  Some {| ia_Type := t; ia_AppID := a; ia_OK := ok; ia_Error := e |}.

Definition install_outcome (probe : agentInstallAppResult) : string * option string :=
  if ia_OK probe then ("success", None)
  else let em := Str.trim_space (ia_Error probe) in ("failed", Some (if String.eqb em "" then "install failed" else em)).

Definition set_device_app (status : string) (msg : option string) (t : Z) (d : DeviceApp) : DeviceApp :=
  {| da_device := da_device d; da_app := da_app d; da_status := status; da_updated := t; da_error := msg |}.

Section uplinks.
Context `{JC : JsonCodec} `{UL : UuidLib} `{GF : GoFmt} `{PG : PgLib} `{EV : Environ} `{CSR : CsrLib} `{JL : JwtLib}
        `{NL : NetLib} `{C2 : C2Dispatcher L}.

Definition update_device_app (appID : uuid) (serial : string) (out : string * option string) : go L () :=
  exec (fun db t =>
    if negb (text_ok serial && match out.2 with Some m => text_ok m | None => true end) then inl bad_text else
    let p d := N.eqb (da_app d) appID && of_serial db serial (da_device d) in
    inr ((), with_device_apps (update_where p (set_device_app out.1 out.2 t) (t_device_apps db)) db)).

Definition ApplyInstallAppOutcome (certSerial raw : string) : go L bool :=
  match decode_install_result raw with
  | None => mret false
  | Some probe =>
      if negb (String.eqb (Str.trim_space (ia_Type probe)) "install_app_result") then mret false else
      match uuid_parse (Str.trim_space (ia_AppID probe)) with
      | None => mret true
      | Some appID =>
          let certSerial := Str.trim_space certSerial in
          if String.eqb certSerial "" then mret true else
          _ ← attempt (update_device_app appID certSerial (install_outcome probe));
          mret true
      end
  end.

(** ** agent_uplink.go *)

Definition broadcast_types : list string :=
  ["registry_result"; "pty_output"; "pty_exit"; "pty_started"; "package_result"; "fs_listdir_result"; "net_list_result";
   "hostname_set_result"; "device_command_result"; "install_app_result"].

Definition message_type (data : string) : option string :=
  m ← unmarshal_map data; t ← dec_string "" (field "type" m); Some (Str.trim_space t).

Definition tryBroadcastAgentUplink (certSerial data : string) : go L bool :=
  match message_type data with
  | None => mret false
  | Some t =>
      if negb (existsb (String.eqb t) broadcast_types) then mret false else
      hid ← attempt (humanIDByCertSerial certSerial);
      match hid with
      | inl _ => mret true
      | inr hid =>
          if String.eqb (Str.trim_space hid) "" then mret true else
          match unmarshal_map data with
          | None => mret true
          | Some m => _ ← emit (Broadcast (JObj (obj_set "target_arx_id" (jstr hid) m))); mret true
          end
      end
  end.

(** ** readPump (handler.go): one message

    A package result is stored and then routed on; every other result ends the routing. *)
Definition route_uplink (certSerial data : string) (fs : FsWaiters) : go L FsWaiters :=
  t ← tryHandleAgentTelemetry certSerial data;
  if (t : bool) then mret fs else
  i ← ApplyInstallAppOutcome certSerial data;
  if (i : bool) then mret fs else
  _ ← ApplyPackageDeploymentOutcome certSerial data;
  d ← ApplyDeviceCommandOutcome true certSerial data;
  if (d : bool) then mret fs else
  let '(handled, fs) := TryDeliverFileTransfer certSerial data fs in
  if handled then mret fs else
  _ ← tryBroadcastAgentUplink certSerial data;
  mret fs.
End uplinks.
