(* ===== verification/Dashboard.v ===== *)
(** * Dashboards: the snapshot and the commands of an operator's session

    internal/ws/{dash_session,dash_snapshot,dash_incidents,dash_wire,dash_hub}.go: what a
    dashboard is shown when it connects, which of its messages reach an agent, and the
    broadcast queue of each client. *)

From S2P Require Import Prelude GoStd Float64 Json Ext World Auth DeviceCommands CommandFlow Incidents IncidentDesk Telemetry Packages.

#[local] Open Scope string_scope.
#[local] Open Scope list_scope.

(** ** The broadcast hub (dash_hub.go) *)

Definition dashOutboundQueueDepth : nat := 64.

Record dashboardClient := { dc_principal : Principal; dc_send : list json }.

(** The clients, by the address of their record, and the next address. *)
Record DashboardHub := { dh_clients : gmap nat dashboardClient; dh_next : nat }.

Definition NewDashboardHub : DashboardHub := {| dh_clients := ∅; dh_next := 0%nat |}.

Definition dash_register (p : Principal) (h : DashboardHub) : nat * DashboardHub :=
  (dh_next h, {| dh_clients := <[dh_next h := {| dc_principal := p; dc_send := [] |}]> (dh_clients h);
                 dh_next := S (dh_next h) |}).

Definition dash_unregister (c : nat) (h : DashboardHub) : DashboardHub :=
  {| dh_clients := delete c (dh_clients h); dh_next := dh_next h |}.

(** A client whose queue is full misses the message; the others do not. *)
Definition offer (data : json) (c : dashboardClient) : dashboardClient :=
  if (length (dc_send c) <? dashOutboundQueueDepth)%nat
  then {| dc_principal := dc_principal c; dc_send := dc_send c ++ [data] |} else c.

Definition dash_broadcast (data : json) (h : DashboardHub) : DashboardHub :=
  {| dh_clients := offer data <$> dh_clients h; dh_next := dh_next h |}.

(** dashWritePump takes the oldest message. *)
Definition dash_drain (c : nat) (h : DashboardHub) : option (json * DashboardHub) :=
  x ← dh_clients h !! c;
  match dc_send x with
  | m :: r => Some (m, {| dh_clients := <[c := {| dc_principal := dc_principal x; dc_send := r |}]> (dh_clients h);
                          dh_next := dh_next h |})
  | [] => None
  end.

(** ** The asset snapshot (dash_snapshot.go, dash_wire.go) *)

Record AssetWire := {
  aw_ID : string; aw_HumanID : string; aw_Hostname : string; aw_OsType : string; aw_OS : string; aw_CPUModel : string;
  aw_CPULogicalCores : Z; aw_CPUUsagePercent : float64; aw_TotalRAMBytes : Z; aw_MemoryUsedBytes : Z;
  aw_LastSeen : string; aw_C2Connected : bool; aw_InstalledSoftware : option (list TelemetryInstalledApp);
  aw_ComplianceStatus : string; aw_ComplianceReason : string; aw_QuarantineEnabled : bool
}.

Definition asset_wire_json (a : AssetWire) : json :=
  JObj (jmap (opt_member "id" (aw_ID a)
    ++ [("human_id", jstr (aw_HumanID a)); ("hostname", jstr (aw_Hostname a))]
    ++ opt_member "os_type" (aw_OsType a)
    ++ [("os", jstr (aw_OS a)); ("cpu_model", jstr (aw_CPUModel a));
        ("cpu_logical_cores", JNum (F64.of_Z (aw_CPULogicalCores a))); ("cpu_usage_percent", JNum (aw_CPUUsagePercent a));
        ("total_ram_bytes", JNum (F64.of_Z (aw_TotalRAMBytes a)));
        ("memory_used_bytes", JNum (F64.of_Z (aw_MemoryUsedBytes a)))]
    ++ opt_member "last_seen" (aw_LastSeen a)
    ++ [("c2_connected", JBool (aw_C2Connected a)); ("installed_software", apps_json (aw_InstalledSoftware a))]
    ++ opt_member "compliance_status" (aw_ComplianceStatus a) ++ opt_member "compliance_reason" (aw_ComplianceReason a)
    ++ [("quarantine_enabled", JBool (aw_QuarantineEnabled a))])).

(** Decoding stores what it can and the error is ignored: a member of another type leaves
    its field at zero. *)
Definition lax {A} (zero : A) (dec : A -> json -> option A) (vs : list json) : A :=
  fold_left (fun cur v => default cur (dec cur v)) vs zero.

Definition lax_string (vs : list json) : string := lax "" (fun c v => dec_string c [v]) vs.

Definition lax_app (v : json) : TelemetryInstalledApp :=
  match v with
  | JObj m => {| ti_Name := lax_string (field "name" m); ti_Version := lax_string (field "version" m);
                 ti_Source := lax_string (field "source" m); ti_ID := lax_string (field "id" m) |}
  | _ => zero_app
  end.

Definition lax_apps (cur : option (list TelemetryInstalledApp)) (v : json) : option (option (list TelemetryInstalledApp)) :=
  match v with JNull => Some None | JArr l => Some (Some (map lax_app l)) | _ => None end.

Definition telemetry_members (metadata : list (string * json)) : list (string * json) :=
  lax [] (fun c v => match v with JObj m => Some m | JNull => Some [] | _ => None end) (field "telemetry" metadata).

Definition opt_text (s : option string) : string := match s with Some s => Str.trim_space s | None => "" end.

Definition assetWireFromDB `{UuidLib} `{GoFmt} (connected : list string) (r : Asset) : AssetWire :=
  let t := telemetry_members (a_metadata r) in
  let text k := Str.trim_space (lax_string (field k t)) in
  let serial := opt_text (a_cert_serial r) in
  let reported := text "reported_at_rfc3339" in
  {| aw_ID := uuid_string (a_id r); aw_HumanID := a_human_id r;
     aw_Hostname := if String.eqb (text "reported_hostname") "" then opt_text (a_hostname r) else text "reported_hostname";
     aw_OsType := Str.trim_space (a_os_type r);
     aw_OS := match field "os_version" t with
              | [] => text "os_family"
              | _ => Str.trim_space (text "os_family" +:+ " " +:+ text "os_version") end;
     aw_CPUModel := text "cpu_model";
     aw_CPULogicalCores := lax 0%Z dec_int (field "cpu_logical_cores" t);
     aw_CPUUsagePercent := lax (F64.of_Z 0) dec_float (field "cpu_usage_percent" t);
     aw_TotalRAMBytes := lax 0%Z dec_uint64 (field "total_ram_bytes" t);
     aw_MemoryUsedBytes := lax 0%Z dec_uint64 (field "memory_used_bytes" t);
     aw_LastSeen := match a_last_seen r with
                    | Some at_ => if String.eqb reported "" then fmt_rfc3339 at_ else reported
                    | None => reported end;
     aw_C2Connected := existsb (fun s => String.eqb (Str.trim_space s) serial) connected;
     aw_InstalledSoftware := lax None lax_apps (field "installed_software" t);
     aw_ComplianceStatus := Str.trim_space (a_compliance_status r);
     aw_ComplianceReason := Str.trim_space (a_compliance_reason r);
     aw_QuarantineEnabled := a_quarantine_enabled r |}.

Section session.
Context `{JC : JsonCodec} `{UL : UuidLib} `{GF : GoFmt} `{PG : PgLib} `{NL : NetLib} `{C2 : C2Dispatcher L}.

Definition LoadAssetSnapshot : go L (list AssetWire) :=
  rows ← select (fun db _ => inr (sort_slice (fun a b => pg_text_lt (a_human_id a) (a_human_id b)) (t_assets db)));
  l ← links;
  mret (map (assetWireFromDB (connected_serials l)) rows).

(** ** The incident snapshot (dash_incidents.go) *)

Definition incident_wire (db : Tables) (i : Incident) : json :=
  let linked := d ← in_cmdb_ci i; a ← List.find (fun a => N.eqb (a_id a) d) (t_assets db);
                if String.eqb (Str.trim_space (a_human_id a)) "" then None else Some (Str.trim_space (a_human_id a)) in
  JObj (jmap ([("id", jstr (uuid_string (in_id i))); ("incident_number", jstr (in_number i));
               ("short_description", jstr (in_short_description i)); ("state", jstr (in_state i));
               ("priority", JNum (F64.of_Z (incident_priority_rank (in_impact i) (in_urgency i))));
               ("sla_due", jstr (fmt_rfc3339 (in_sla_due i)))]
    ++ match linked with Some h => [("linked_arx_id", jstr h)] | None => [] end
    ++ [("created_at", jstr (fmt_rfc3339 (in_created_at i)))])).

Definition LoadIncidentSnapshot : go L (list json) :=
  select (fun db _ =>
    inr (map (incident_wire db) (take 500 (sort_slice (fun a b => (in_created_at b <? in_created_at a)%Z) (t_incidents db))))).

(** ** Commands (dash_session.go) *)

Definition command_result (ok : bool) (message : string) : json :=
  JObj (jmap ([("type", jstr "command_result"); ("ok", JBool ok)] ++ opt_member "message" message)).

Definition refused (message : string) : json := command_result false message.

Definition auditDashboardDispatch (r : Request) (userID : uuid) (transportAction targetHuman : string) : go L () :=
  if N.eqb userID uuid_nil then mret () else
  let transportAction := Str.trim_space (Str.to_lower transportAction) in
  if String.eqb transportAction "" then mret () else
  found ← attempt (select (fun db _ =>
            if negb (text_ok targetHuman) then inl bad_text else
            match List.find (fun a => String.eqb (a_human_id a) targetHuman) (t_assets db) with
            | Some a => inr (a_id a) | None => inl ErrNoRows end));
  let assetID := match found with inr id => Some id | inl _ => None end in
  _ ← attempt (InsertAuditRecord {|
        rec_UserID := userID; rec_Action := "command_executed"; rec_ResourceType := "device";
        rec_ResourceID := assetID; rec_TargetAssetID := assetID;
        rec_Details := [("target_arx_id", jstr targetHuman); ("channel", jstr "dashboard_websocket");
                        ("transport_action", jstr transportAction)];
        rec_IPAddress := ClientIP r |});
  mret ().

(** Hands the message over and says how that went. *)
Definition dash_dispatch (r : Request) (p : Principal) (action target : string) (payload : json) : go L json :=
  res ← attempt (DispatchJSONByHumanID target payload);
  match res with
  | inl e => mret (refused (err_text e))
  | inr _ => _ ← auditDashboardDispatch r (p_UserID p) action target; mret (command_result true (action +:+ " dispatched"))
  end.

Definition forwarded_actions : list string :=
  ["registry_read"; "registry_write"; "registry_delete"; "pty_start"; "pty_data"; "pty_resize"; "pty_close";
   "deploy_package"; "install_app"; "fs_listdir"; "fs_download"; "fs_upload_begin"; "fs_upload_chunk"; "fs_upload_finish";
   "fs_upload_abort"; "net_list"; "hostname_set"].

(** delete(raw, k) *)
Definition obj_delete (k : string) (m : list (string * json)) : list (string * json) :=
  List.filter (fun kv => negb (String.eqb kv.1 k)) m.

(** A message is the members of its object in the order of the text, repeated names
    included: a struct keeps the last of the members that match a field, a map the last of
    each name.  [None]: no JSON, or no object. *)
Definition dash_message : Type := option (list (string * json)).

Definition decode_dash (ms : list (string * json)) : option (string * string) :=
  a ← dec_string "" (field "action" ms);
  t ← dec_string "" (field "target_arx_id" ms);
  Some (Str.trim_space (Str.to_lower a), Str.trim_space t).

Definition handle_dash_message (r : Request) (p : Principal) (data : dash_message) : go L json :=
  match (ms ← data; c ← decode_dash ms; Some (ms, c)) with
  | None => mret (refused "invalid JSON command")
  | Some (ms, (action, target)) =>
      if String.eqb action "" then mret (refused "action is required") else
      if String.eqb target "" then mret (refused "target_arx_id is required") else
      if String.eqb (p_Role p) RoleViewer then mret (refused "viewer role cannot dispatch commands") else
      if String.eqb action "shutdown" then
        dash_dispatch r p "shutdown" target (JObj [("action", jstr "shutdown")])
      else if String.eqb action "lock" || String.eqb action "wipe" then
        if negb (String.eqb (p_Role p) RoleAdmin) then mret (refused "admin role required")
        else dash_dispatch r p action target (JObj [("action", jstr action)])
      else if existsb (String.eqb action) forwarded_actions then
        dash_dispatch r p action target (JObj (obj_delete "target_arx_id" (jmap ms)))
      else mret (refused "unknown action")
  end.

(** The messages of a session in order: what is sent back.  Replies that find the queue
    full are dropped by the client's [offer]. *)
Fixpoint dash_loop (r : Request) (p : Principal) (messages : list dash_message) : go L (list json) :=
  match messages with
  | [] => mret []
  | data :: rest =>
      reply ← handle_dash_message r p data;
      replies ← dash_loop r p rest;
      mret (reply :: replies)
  end.

Definition RunDashboardSession (r : Request) (p : Principal) (messages : list dash_message) : go L (list json) :=
  assets ← attempt LoadAssetSnapshot;
  match assets with
  | inl _ => mret [refused "snapshot query failed"]
  | inr assets =>
      if negb (forallb (fun a => F64.is_finite (aw_CPUUsagePercent a)) assets)
      then mret [refused "snapshot encode failed"] else
      let snap := JObj (jmap [("type", jstr "asset_snapshot"); ("assets", JArr (map asset_wire_json assets))]) in
      incidents ← attempt LoadIncidentSnapshot;
      match incidents with
      | inl _ => mret [snap; refused "incident snapshot query failed"]
      | inr incidents =>
          replies ← dash_loop r p messages;
          mret (snap :: JObj (jmap [("type", jstr "incident_snapshot"); ("incidents", JArr incidents)]) :: replies)
      end
  end.
End session.
