(* ===== verification/TransferFacts.v ===== *)
(** * Files end to end

    What the agent is sent and what it makes of it: an upload that is answered 200 is on the
    agent's disk byte for byte, a download gives the file back, upload sessions stay within
    their bounds. *)

From S2P Require Import Prelude GoStd GoPath Base64 Float64 Json Ext JsonFacts World Auth AuthFacts DeviceCommands CommandFlow.
From S2P Require Import AgentHost AgentCommands AgentFiles AgentHandlers FileProxy.

#[local] Open Scope string_scope.
#[local] Open Scope list_scope.
#[local] Open Scope Z_scope.

Fixpoint concat_all (l : list string) : string := match l with [] => "" | x :: r => x +:+ concat_all r end.

(** What a reader gives up to its end or its error. *)
Fixpoint read_all (reads : list (string * option (option string))) : string :=
  match reads with
  | [] => ""
  | (data, None) :: rest => data +:+ read_all rest
  | (data, Some _) :: _ => data
  end.

Lemma slen_append a b : Str.slen (a +:+ b) = Str.slen a + Str.slen b.
Proof. unfold Str.slen. rewrite Str.length_append. lia. Qed.

Lemma slen_nonneg a : 0 <= Str.slen a.
Proof. unfold Str.slen. lia. Qed.

Lemma append_nil_r (a : string) : a +:+ "" = a.
Proof. induction a as [|c a IH]; [done|]. by rewrite Str.append_cons, IH. Qed.

(** ** The server's messages *)
Section server.
Context `{CL : C2Laws L} `{UL : UuidLib}.

Definition chunk_message (rid data : string) : json := upload_message "fs_upload_chunk" rid [("data_b64", jstr (B64.encode data))].

Lemma dispatch_inv serial msg (w w' : World L) :
  dispatch serial msg w = (inr true, w') ->
  outbox (w_link w') = outbox (w_link w) ++ [(Str.trim_space serial, msg)] /\
  In (Str.trim_space serial) (connected_serials (w_link w)) /\
  connected_serials (w_link w') = connected_serials (w_link w).
Proof.
  unfold dispatch. destruct (dispatch_json serial msg (w_link w)) as [ok l] eqn:E. intros [= -> <-]. simpl.
  pose proof (dispatch_serials serial msg (w_link w)) as Es. rewrite E in Es.
  apply dispatch_true in E as [? ?]. by split_and!.
Qed.

(** A body that was sent in full: its non-empty reads, in order, within the limit. *)
Lemma upload_body_ok serial rid reads : forall total (w : World L) n w',
  upload_body serial rid total reads w = (inr (inr n), w') -> 0 <= total <= maxUploadBytesPerCall ->
  exists chunks, concat_all chunks = read_all reads /\ n = total + Str.slen (read_all reads) /\ n <= maxUploadBytesPerCall /\
    outbox (w_link w') = outbox (w_link w) ++ map (fun c => (Str.trim_space serial, chunk_message rid c)) chunks.
Proof.
  induction reads as [|[data err] rest IH]; intros total w n w'; cbn [upload_body].
  { intros [= <- <-] Hb. exists []. rewrite app_nil_r. cbn [concat_all read_all map]. change (Str.slen "") with 0.
    split_and!; lia || done. }
  pose proof (slen_nonneg data) as Hn.
  destruct ((0 <? Str.slen data) && (maxUploadBytesPerCall - total <? Str.slen data)) eqn:Elim.
  { intros (? & ? & _ & [=])%bind_inv. }
  intros (ok & w1 & H1 & H2)%bind_inv Hb.
  assert (Hlim : total + Str.slen data <= maxUploadBytesPerCall).
  { apply andb_false_iff in Elim. rewrite !Z.ltb_ge in Elim. lia. }
  destruct ok; [|done].
  assert (Hd : exists cs, concat_all cs = data /\ outbox (w_link w1) =
    outbox (w_link w) ++ map (fun c => (Str.trim_space serial, chunk_message rid c)) cs).
  { destruct (Z.ltb_spec 0 (Str.slen data)) as [Hp|Hz].
    - apply dispatch_inv in H1 as (E & _). exists [data]. cbn. by rewrite append_nil_r.
    - injection H1 as <-. exists []. rewrite app_nil_r. split; [|done].
      destruct data; [done|]. exfalso. unfold Str.slen in Hz. simpl in Hz. lia. }
  destruct Hd as (cs & <- & E1).
  destruct err as [[e|]|].
  - apply bind_inv in H2 as (? & ? & _ & [=]).
  - injection H2 as <- <-. exists cs. by split_and!.
  - apply IH in H2 as (cs' & Ec & -> & Hle & E2); [|lia]. exists (cs ++ cs'). cbn [read_all]. rewrite slen_append.
    rewrite E2, E1, map_app, app_assoc. split_and!; try lia; try done.
    rewrite <- Ec. clear. induction cs as [|x cs IH]; [done|]. simpl. rewrite IH. by rewrite Str.append_assoc.
Qed.
End server.

(** ** The agent on those messages *)
Section agent_side.
Context `{HO : Host} `{JC : JsonCodec} `{JE : JsonErrors} `{GF : GoFmt} `{UL : UuidLib}.
Context `{!JsonCodecLaws} `{!UuidLaws}.
Context (bridge : option InstallBridge).

(** A map literal and what the agent decodes from it. *)
Definition sendable (kvs : list (string * json)) : Prop :=
  forallb (fun kv => Str.valid_utf8 kv.1 && shallow kv.2) kvs = true.

Lemma upload_message_sendable action rid members : sendable members -> Str.valid_utf8 action = true ->
  sendable (("action", jstr action) :: ("request_id", jstr rid) :: members).
Proof. unfold sendable. intros Hm Ha. cbn [forallb fst snd]. by rewrite !shallow_str, Hm. Qed.

Lemma downlink_is data action h : message_action data = Some action ->
  List.find (fun h => String.eqb h.1 action) (handlers bridge) = Some (action, h) ->
  handleDownlink bridge data = h data.
Proof. unfold handleDownlink. intros -> ->. done. Qed.

Lemma rid_back u : Str.trim_space (Str.coerce_utf8 (uuid_string u)) = uuid_string u.
Proof. by rewrite (coerce_plain _ (uuid_string_plain u)), uuid_string_trim. Qed.

Lemma encoded_back data : B64.decode (Str.coerce_utf8 (B64.encode data)) = Some data.
Proof. by rewrite (coerce_plain _ (B64.encode_plain data)), B64.decode_encode. Qed.

(** Runs the handler of one of the server's upload messages on what it decodes. *)
Tactic Notation "receive" reference(handler) constr(kvs) :=
  let Hs := fresh in let Hb := fresh "Hb" in
  assert (Hs : sendable kvs) by (apply upload_message_sendable; [unfold sendable; cbn; by rewrite ?shallow_str|done]);
  assert (Hb : unmarshal_map (json_marshal (JObj (jmap kvs))) = Some (jmap kvs)) by (by apply message_back);
  unfold chunk_message, upload_message;
  match kvs with (_, jstr ?a) :: _ => erewrite (downlink_is _ a) end;
  [|unfold message_action; rewrite Hb; cbn [mbind option_bind]; read_fields; rewrite dec_jstr; by vm_compute
   |reflexivity];
  unfold handler, decode2, decode1; rewrite Hb; cbn [mbind option_bind]; read_fields; rewrite !dec_jstr;
  cbn [mbind option_bind]; rewrite rid_back.

(** Beginning: the request and the path are read back. *)
Lemma begin_downlink u path g :
  let path' := Str.trim_space (Str.coerce_utf8 path) in
  handleDownlink bridge (json_marshal (upload_message "fs_upload_begin" (uuid_string u) [("path", jstr path)])) g =
  (if String.eqb path' "" then fsUploadReply (uuid_string u) false "request_id and path are required" else
   e ← upload_begin (uuid_string u) path';
   match e with Some e => fsUploadReply (uuid_string u) false e | None => mret () end) g.
Proof.
  intros path'.
  receive handleFsUploadBegin [("action", jstr "fs_upload_begin"); ("request_id", jstr (uuid_string u)); ("path", jstr path)].
  fold path'. destruct (String.eqb_spec (uuid_string u) ""); [by eapply uuid_string_ne in e|]. done.
Qed.

Lemma chunk_downlink u data g :
  handleDownlink bridge (json_marshal (chunk_message (uuid_string u) data)) g =
  (e ← upload_chunk (uuid_string u) data;
   match e with Some e => _ ← upload_abort (uuid_string u); fsUploadReply (uuid_string u) false e | None => mret () end) g.
Proof.
  receive handleFsUploadChunk [("action", jstr "fs_upload_chunk"); ("request_id", jstr (uuid_string u));
    ("data_b64", jstr (B64.encode data))].
  by rewrite encoded_back.
Qed.

Lemma finish_downlink u g :
  handleDownlink bridge (json_marshal (upload_message "fs_upload_finish" (uuid_string u) [])) g =
  (e ← upload_finish (uuid_string u);
   match e with Some e => fsUploadReply (uuid_string u) false e | None => fsUploadReply (uuid_string u) true "" end) g.
Proof.
  by receive handleFsUploadFinish [("action", jstr "fs_upload_finish"); ("request_id", jstr (uuid_string u))].
Qed.

(** The chunks of an upload, one after the other, on a disk that takes them. *)
Lemma chunks_stored u chunks : forall g up, ag_uploads g !! uuid_string u = Some up ->
  (forall d, write_handle (up_Path up) d = None) -> up_Written up + Str.slen (concat_all chunks) <= maxAgentUploadBytes ->
  handle_all bridge (map (fun c => json_marshal (chunk_message (uuid_string u) c)) chunks) g =
  (tt, with_uploads (<[uuid_string u := {| up_Path := up_Path up; up_Data := up_Data up +:+ concat_all chunks;
         up_Written := up_Written up + Str.slen (concat_all chunks) |}]> (ag_uploads g)) g).
Proof.
  induction chunks as [|c chunks IH]; intros g up Hg Hw Hmax; cbn [map handle_all concat_all].
  { rewrite append_nil_r. change (Str.slen "") with 0. rewrite Z.add_0_r, fin_maps.insert_id by (by destruct up). by destruct g. }
  cbn [concat_all] in Hmax. rewrite slen_append in Hmax. pose proof (slen_nonneg (concat_all chunks)).
  unfold mbind, agent_bind. rewrite chunk_downlink. unfold mbind, agent_bind, upload_chunk. rewrite Hg, Hw.
  rewrite (proj2 (Z.ltb_ge _ _)) by lia. cbn [mret agent_ret].
  erewrite IH; [|cbn; by rewrite lookup_insert_eq|done|cbn; lia]. cbn [ag_uploads with_uploads up_Path up_Data up_Written].
  f_equal. unfold with_uploads. cbn. f_equal. rewrite insert_insert_eq, slen_append, Str.append_assoc. do 2 f_equal. lia.
Qed.
End agent_side.

(** ** The whole upload *)
Section upload.
Context `{HO : Host} `{JC : JsonCodec} `{JE : JsonErrors} `{GF : GoFmt} `{UL : UuidLib} `{JL : JwtLib} `{CL : C2Laws L}.
Context `{!JsonCodecLaws} `{!UuidLaws}.
Context (origins : list string) (bridge : option InstallBridge).

(** The messages of a successful upload. *)
Definition upload_messages (u : uuid) (path : string) (chunks : list string) : list json :=
  upload_message "fs_upload_begin" (uuid_string u) [("path", jstr path)] ::
  map (chunk_message (uuid_string u)) chunks ++ [upload_message "fs_upload_finish" (uuid_string u) []].

Lemma resolveAsset_inv id (w : World L) serial w' : resolveAsset id w = (inr serial, w') ->
  Str.trim_space serial = serial /\ w_link w' = w_link w.
Proof.
  intros Hr. assert (Ho : db_only (resolveAsset (L := L) id)).
  { unfold resolveAsset. destruct (uuid_parse _); only_walk. }
  specialize (Ho w). rewrite Hr in Ho. split; [|apply Ho]. revert Hr. unfold resolveAsset.
  destruct (uuid_parse _); [|done]. intros (x & w1 & _ & Hx)%bind_inv.
  destruct x as [e|[s|]]; [done| |done]. destruct (String.eqb _ _); [done|]. injection Hx as <- _. apply Str.trim_space_idem.
Qed.

Lemma file_request_refused m r resp : file_request origins m r = inl resp -> rs_status resp <> 200.
Proof.
  unfold file_request, require_method. destruct (String.eqb _ _); [|by intros [= <-]].
  destruct (RequireMinRole origins r RoleOperator) as [e|p] eqn:Er.
  { intros [= <-]. by apply RequireMinRole_refused in Er as [->| ->]. }
  unfold file_path. destruct (String.eqb _ _); [by intros [= <-]|]. destruct (path_unescape _); [done|]. by intros [= <-].
Qed.

Lemma file_request_path m r path : file_request origins m r = inr path -> file_path r = inr path.
Proof. unfold file_request. destruct (require_method _ _); [done|]. by destruct (RequireMinRole _ _ _). Qed.

Lemma upload_body_refused serial rid reads : forall total (w : World L) resp w',
  upload_body serial rid total reads w = (inr (inl resp), w') -> rs_status resp <> 200.
Proof.
  induction reads as [|[data err] rest IH]; intros total w resp w'; cbn [upload_body]; [done|].
  destruct ((0 <? _) && _).
  { intros (ok & w1 & _ & Hx)%bind_inv. by injection Hx as <- _. }
  intros (ok & w1 & _ & Hx)%bind_inv. destruct ok; cbn [negb] in Hx; [|by injection Hx as <- _].
  destruct err as [[e|]|]; [|done|by eapply IH in Hx].
  apply bind_inv in Hx as (? & ? & _ & Hx). by injection Hx as <- _.
Qed.

(** A 200: what was sent, to whom, and what the response says. *)
Lemma upload_sent r reads res (w : World L) resp w' :
  handleUpload origins r reads res w = (inr resp, w') -> rs_status resp = 200 ->
  exists serial u path chunks, file_path r = inr path /\ Str.trim_space serial = serial /\
    In serial (connected_serials (w_link w)) /\
    outbox (w_link w') = outbox (w_link w) ++ map (pair serial) (upload_messages u path chunks) /\
    concat_all chunks = read_all reads /\ Str.slen (read_all reads) <= maxUploadBytesPerCall /\
    resp = writeTicketsJSON 200 (JObj (jmap [("ok", JBool true); ("bytes_written", JNum (F64.of_Z (Str.slen (read_all reads))))])).
Proof.
  unfold handleUpload. intros Hu Hs.
  destruct (file_request origins "POST" r) as [e|path] eqn:Ep.
  { injection Hu as <- _. by apply file_request_refused in Ep. }
  apply file_request_path in Ep. apply bind_inv in Hu as (cs & w1 & Hr%attempt_inv & Hu).
  destruct cs as [e|serial]; [by injection Hu as <- _|]. apply resolveAsset_inv in Hr as [Ht El].
  apply bind_inv in Hu as (rid & w2 & Hn & Hu). injection Hn as <- <-.
  apply bind_inv in Hu as (ok & w3 & Hb & Hu). destruct ok; cbn [negb] in Hu; [|by injection Hu as <- _].
  apply dispatch_inv in Hb as (Eb & Hin & _). cbn [w_link draw_id] in Eb, Hin. rewrite El, Ht in *.
  apply bind_inv in Hu as (sent & w4 & Hc & Hu).
  destruct sent as [resp'|total]; [injection Hu as <- _; by apply upload_body_refused in Hc|].
  apply upload_body_ok in Hc as (chunks & Ec & -> & Hmax & E4); [|by vm_compute].
  apply bind_inv in Hu as (ok & w5 & Hf & Hu). destruct ok; cbn [negb] in Hu; [|by injection Hu as <- _].
  apply dispatch_inv in Hf as (Ef & _). injection Hu as <- <-. rewrite Ht in *.
  exists serial, (gen_random_uuid (w_next_id w1)), path, chunks. split_and!; try done.
  - rewrite Ef, E4, Eb. unfold upload_messages. cbn [map]. by rewrite map_app, map_map, <- !app_assoc.
  - unfold upload_response in *. destruct res as [res|]; [|done]. by destruct (ur_OK res).
Qed.

Lemma handle_all_app l1 l2 g : handle_all bridge (l1 ++ l2) g = handle_all bridge l2 (handle_all bridge l1 g).2.
Proof.
  revert g. induction l1 as [|d l1 IH]; intros g; [done|]. cbn [app handle_all]. unfold mbind, agent_bind.
  destruct (handleDownlink bridge d g). by rewrite IH.
Qed.

(** The reply to a finished upload, as the server's waiter gets it. *)
Definition upload_reply (u : uuid) : json :=
  JObj (jmap [("type", jstr "fs_upload_result"); ("request_id", jstr (uuid_string u)); ("ok", JBool true); ("error", jstr "")]).

Lemma upload_reply_delivered serial u fs :
  fw_up (TryDeliverFileTransfer serial (json_marshal (upload_reply u))
           (RegisterFSUploadResultWaiter serial (uuid_string u) fs)).2 !! fsWaitKey serial (uuid_string u) =
  Some [{| ur_OK := true; ur_Error := "" |}].
Proof.
  unfold TryDeliverFileTransfer, upload_reply.
  rewrite message_back by (cbn; by rewrite !shallow_str). cbn [mbind option_bind]. read_fields. rewrite !dec_jstr.
  cbn [mbind option_bind]. rewrite rid_back, (coerce_plain "fs_upload_result") by done. cbn [existsb].
  change (Str.trim_space "fs_upload_result") with "fs_upload_result". cbn.
  destruct (String.eqb_spec (uuid_string u) "") as [e|_]; [by eapply uuid_string_ne in e|].
  unfold deliverFSUploadResult, RegisterFSUploadResultWaiter. cbn [fw_up set_up snd].
  rewrite lookup_insert_eq. cbn [fw_up set_up]. rewrite lookup_insert_eq. read_fields. by vm_compute.
Qed.

(** The agent takes the messages of an upload: the file, the session and the answer. *)
Lemma upload_received u path p chunks g :
  SanitizePath (Str.trim_space (Str.coerce_utf8 path)) = inr p -> ag_uploads g !! uuid_string u = None ->
  open_trunc p = None -> (forall d, write_handle p d = None) -> close_handle p = None ->
  Str.slen (concat_all chunks) <= maxUploadBytesPerCall ->
  handle_all bridge (map json_marshal (upload_messages u path chunks)) g =
  (tt, with_sent (ag_sent g ++ [upload_reply u]) (with_files (ag_files g ++ [(p, concat_all chunks)]) g)).
Proof.
  intros Hp Hg Ho Hw Hc Hmax. unfold upload_messages. cbn [map handle_all]. unfold mbind at 1, agent_bind at 1.
  rewrite begin_downlink. assert (Hne : Str.trim_space (Str.coerce_utf8 path) <> "").
  { intros E. rewrite E in Hp. by vm_compute in Hp. }
  rewrite (proj2 (String.eqb_neq _ _) Hne). unfold mbind at 1, agent_bind at 1, upload_begin, OpenFileWriteTrunc.
  rewrite Hg, Hp, Ho. cbn [mret agent_ret]. rewrite map_app, handle_all_app, map_map.
  rewrite (chunks_stored _ _ _ _ {| up_Path := p; up_Data := ""; up_Written := 0 |});
    [|cbn; by rewrite lookup_insert_eq|done|done].
  cbn [snd map handle_all up_Path up_Data up_Written]. unfold mbind at 1, agent_bind at 1. rewrite finish_downlink.
  unfold mbind at 1, agent_bind at 1, upload_finish. cbn [ag_uploads with_uploads].
  rewrite lookup_insert_eq. unfold close_upload, modify. cbn [ag_uploads with_uploads]. rewrite lookup_insert_eq.
  cbn [up_Path up_Data]. rewrite Hc. unfold fsUploadReply, reply, say, with_sent, with_files, with_uploads. cbn.
  rewrite !insert_insert_eq, delete_insert_id by done. done.
Qed.

(** C5: an upload that is answered 200 went to the agent of an asset that was connected, and
    the response counts the bytes of the body, which are at most 512 MiB; an agent that takes
    the messages sent has the file under the cleaned path with exactly these bytes, no open
    session, and answers with the success the HTTP handler was waiting for. *)
Theorem upload_reaches_the_disk r reads res (w : World L) resp w' :
  handleUpload origins r reads res w = (inr resp, w') -> rs_status resp = 200 ->
  exists serial u path chunks,
    file_path r = inr path /\ In serial (connected_serials (w_link w)) /\
    outbox (w_link w') = outbox (w_link w) ++ map (pair serial) (upload_messages u path chunks) /\
    Str.slen (read_all reads) <= maxUploadBytesPerCall /\
    resp = writeTicketsJSON 200 (JObj (jmap [("ok", JBool true); ("bytes_written", JNum (F64.of_Z (Str.slen (read_all reads))))])) /\
    forall g p, SanitizePath (Str.trim_space (Str.coerce_utf8 path)) = inr p -> ag_uploads g !! uuid_string u = None ->
      open_trunc p = None -> (forall d, write_handle p d = None) -> close_handle p = None ->
      exists g' answer, handle_all bridge (map json_marshal (upload_messages u path chunks)) g = (tt, g') /\
        ag_files g' = ag_files g ++ [(p, read_all reads)] /\ ag_uploads g' = ag_uploads g /\
        ag_sent g' = ag_sent g ++ [answer] /\
        forall fs, fw_up (TryDeliverFileTransfer serial (json_marshal answer)
                           (RegisterFSUploadResultWaiter serial (uuid_string u) fs)).2 !! fsWaitKey serial (uuid_string u) =
                   Some [{| ur_OK := true; ur_Error := "" |}].
Proof.
  intros Hu Hs. destruct (upload_sent _ _ _ _ _ _ Hu Hs) as (serial & u & path & chunks & Hp & _ & Hin & Ho & Ec & Hmax & Hr).
  exists serial, u, path, chunks. split_and!; try done. intros g p Hsan Hg Hopen Hw Hc.
  eexists _, (upload_reply u). rewrite (upload_received _ _ p) by (done || by rewrite Ec).
  split_and!; [done| |done|done|intros fs; apply upload_reply_delivered]. cbn. by rewrite Ec.
Qed.
End upload.

(** ** The whole download *)

(** A read that ends at the end of the file. *)
Fixpoint clean_reads (reads : list (string * option (option string))) : bool :=
  match reads with
  | [] => false
  | (_, None) :: rest => clean_reads rest
  | (_, Some None) :: _ => true
  | (_, Some (Some _)) :: _ => false
  end.

(** The chunks the agent cuts a file into. *)
Fixpoint file_chunks (reads : list (string * option (option string))) : list (string * bool) :=
  match reads with
  | [] => []
  | (data, None) :: rest => if String.eqb data "" then file_chunks rest else (data, false) :: file_chunks rest
  | (data, Some _) :: _ => [(data, true)]
  end.

Definition chunk_reply (u : uuid) `{UuidLib} (c : string * bool) : json :=
  JObj (jmap [("type", jstr "fs_download_chunk"); ("request_id", jstr (uuid_string u)); ("data_b64", jstr (B64.encode c.1));
              ("eof", JBool c.2)]).

Definition as_chunk (c : string * bool) : C2FileChunk := {| fc_Data := c.1; fc_EOF := c.2; fc_Err := "" |}.

(** The messages that arrive; whether the channel has room each time; what is left in it. *)
Definition arrivals (evs : list download_event) : list string :=
  flat_map (fun ev => match ev with Arrives data => [data] | Takes => [] end) evs.

Fixpoint keeps_up (n : nat) (evs : list download_event) : bool :=
  match evs with
  | [] => Nat.eqb n 0
  | Arrives _ :: r => (n <? download_depth)%nat && keeps_up (S n) r
  | Takes :: r => keeps_up (Nat.pred n) r
  end.

Section download.
Context `{HO : Host} `{JC : JsonCodec} `{JE : JsonErrors} `{GF : GoFmt} `{UL : UuidLib} `{JL : JwtLib} `{CL : C2Laws L}.
Context `{!JsonCodecLaws} `{!UuidLaws}.
Context (origins : list string) (bridge : option InstallBridge).

Lemma send_chunks_ok u reads : clean_reads reads = true -> forall g,
  send_chunks (uuid_string u) reads g = (tt, with_sent (ag_sent g ++ map (chunk_reply u) (file_chunks reads)) g).
Proof.
  induction reads as [|[data err] rest IH]; [done|]. intros Hc g. cbn [send_chunks file_chunks clean_reads] in *.
  destruct (String.eqb_spec data "") as [->|Hne]; destruct err as [[e|]|]; try done; cbn [negb].
  - by apply IH.
  - unfold mbind, agent_bind. cbn [download_chunk reply say]. rewrite (IH Hc). cbn [ag_sent with_sent map].
    unfold with_sent. cbn. by rewrite <- app_assoc.
Qed.

Lemma file_chunks_body reads : clean_reads reads = true -> forall b,
  fold_left take_chunk (map as_chunk (file_chunks reads)) (b, false) = (b +:+ read_all reads, true).
Proof.
  induction reads as [|[data err] rest IH]; [done|]. intros Hc b. cbn [clean_reads file_chunks read_all] in *.
  destruct err as [[e|]|]; [done|done|]. destruct (String.eqb_spec data "") as [->|Hne]; [by apply IH|].
  cbn [map fold_left]. cbn [take_chunk as_chunk fc_Err fc_Data fc_EOF fst snd String.eqb negb].
  rewrite IH by done. by rewrite Str.append_assoc.
Qed.

Lemma chunk_arrives serial u c fs q :
  fw_down fs !! fsWaitKey serial (uuid_string u) = Some q -> (length q < download_depth)%nat ->
  (TryDeliverFileTransfer serial (json_marshal (chunk_reply u c)) fs).2 =
  set_down (<[fsWaitKey serial (uuid_string u) := q ++ [as_chunk c]]> (fw_down fs)) fs.
Proof.
  intros Hq Hl. unfold TryDeliverFileTransfer, chunk_reply.
  rewrite message_back by (cbn; by rewrite !shallow_str). cbn [mbind option_bind]. read_fields. rewrite !dec_jstr.
  cbn [mbind option_bind]. rewrite rid_back, (coerce_plain "fs_download_chunk") by done.
  change (Str.trim_space "fs_download_chunk") with "fs_download_chunk".
  change (existsb (String.eqb "fs_download_chunk") ["fs_download_chunk"; "fs_download_done"; "fs_download_error"]) with true.
  destruct (String.eqb_spec (uuid_string u) "") as [e|_]; [by eapply uuid_string_ne in e|]. cbn [snd].
  unfold deliverFSDownload, trySendFSDownload. rewrite Hq. unfold try_put. rewrite (proj2 (Nat.ltb_lt _ _) Hl).
  do 3 f_equal. unfold download_message. change (String.eqb "fs_download_chunk" "fs_download_chunk") with true. cbv iota.
  read_fields. rewrite dec_jstr. cbn [mbind option_bind dec_bool]. destruct c as [data eof]. cbn [fst snd].
  rewrite (coerce_plain _ (B64.encode_plain data)), (trim_plain _ (B64.encode_plain data)), B64.decode_encode.
  destruct (String.eqb_spec (B64.encode data) "") as [->%B64.encode_empty|_]; done.
Qed.

(** A handler that keeps up takes every chunk. *)
Lemma run_takes_all serial u evs : forall cs fs q taken,
  fw_down fs !! fsWaitKey serial (uuid_string u) = Some q -> keeps_up (length q) evs = true ->
  arrivals evs = map (fun c => json_marshal (chunk_reply u c)) cs ->
  (fold_left (download_step serial (uuid_string u)) evs (fs, taken)).2 = taken ++ q ++ map as_chunk cs.
Proof.
  induction evs as [|ev evs IH]; intros cs fs q taken Hq Hk Ha; cbn [keeps_up] in Hk.
  - apply Nat.eqb_eq in Hk. destruct q; [|done]. destruct cs; [|done]. cbn. by rewrite app_nil_r.
  - destruct ev as [data|].
    + apply andb_true_iff in Hk as [Hl%Nat.ltb_lt Hk]. cbn [arrivals flat_map] in Ha. destruct cs as [|c cs]; [done|].
      cbn [map app] in Ha. injection Ha as -> Ha. cbn [fold_left download_step]. rewrite (chunk_arrives _ _ _ _ q) by done.
      rewrite (IH cs _ (q ++ [as_chunk c])); [|cbn; by rewrite lookup_insert_eq|by rewrite length_app, Nat.add_1_r|done].
      cbn [map]. by rewrite <- !app_assoc.
    + cbn [fold_left download_step]. rewrite Hq. destruct q as [|c q]; [by apply IH|].
      rewrite (IH cs _ q); [|cbn; by rewrite lookup_insert_eq|done|done]. by rewrite <- !app_assoc.
Qed.

Lemma download_downlink u path g :
  handleDownlink bridge (json_marshal (download_request (uuid_string u) path)) g =
  runFsDownload {| fd_RequestID := uuid_string u; fd_Path := Str.coerce_utf8 path; fd_ChunkSize := maxFileProxyChunk |} g.
Proof.
  unfold download_request. set (kvs := [_; _; _; _]).
  assert (Hb : unmarshal_map (json_marshal (JObj (jmap kvs))) = Some (jmap kvs)).
  { apply message_back. unfold kvs. cbn [forallb fst snd]. rewrite !shallow_str. by vm_compute. }
  erewrite (downlink_is bridge _ "fs_download"); [| |reflexivity].
  - unfold handleFsDownload, decode_fs_download. rewrite Hb. unfold kvs. cbn [mbind option_bind]. read_fields. rewrite !dec_jstr.
    cbn [mbind option_bind]. rewrite (coerce_plain _ (uuid_string_plain u)). done.
  - unfold message_action. rewrite Hb. unfold kvs. cbn [mbind option_bind]. read_fields. rewrite dec_jstr. by vm_compute.
Qed.

Lemma download_sent r chunks (w : World L) header body w' :
  handleDownload origins r chunks w = (inr (inr (header, body)), w') ->
  exists serial u path, file_path r = inr path /\ In serial (connected_serials (w_link w)) /\
    outbox (w_link w') = outbox (w_link w) ++ [(serial, download_request (uuid_string u) path)] /\ body = received_body chunks.
Proof.
  unfold handleDownload. intros Hd. destruct (file_request origins "GET" r) as [e|path] eqn:Ep; [done|].
  apply file_request_path in Ep. apply bind_inv in Hd as (cs & w1 & Hr%attempt_inv & Hd).
  destruct cs as [e|serial]; [done|]. apply resolveAsset_inv in Hr as [Ht El].
  apply bind_inv in Hd as (rid & w2 & Hn & Hd). injection Hn as <- <-.
  apply bind_inv in Hd as (ok & w3 & Hb & Hd). destruct ok; [|done].
  apply dispatch_inv in Hb as (Eb & Hin & _). cbn [w_link draw_id] in Eb, Hin. rewrite El, Ht in *.
  injection Hd as _ <- <-. exists serial, (gen_random_uuid (w_next_id w1)), path. by split_and!.
Qed.

(** C6: a download asks the agent of an asset that is connected for the file; when the agent
    can read it to its end, it answers with chunks whose data in order is the file, and when
    each finds room in the channel and the HTTP handler takes them all, the body of the
    response is the file. *)
Theorem download_returns_the_file r chunks (w : World L) header body w' :
  handleDownload origins r chunks w = (inr (inr (header, body)), w') ->
  exists serial u path, file_path r = inr path /\ In serial (connected_serials (w_link w)) /\
    outbox (w_link w') = outbox (w_link w) ++ [(serial, download_request (uuid_string u) path)] /\
    forall g reads, read_file (Str.trim_space (Str.coerce_utf8 path)) maxFileProxyChunk = inl reads -> clean_reads reads = true ->
      exists answers, handleDownlink bridge (json_marshal (download_request (uuid_string u) path)) g =
                      (tt, with_sent (ag_sent g ++ answers) g) /\
        forall fs evs, arrivals evs = map json_marshal answers -> keeps_up 0 evs = true ->
          chunks = download_run serial (uuid_string u) evs fs -> body = read_all reads.
Proof.
  intros Hd. apply download_sent in Hd as (serial & u & path & Hp & Hin & Ho & ->).
  exists serial, u, path. split_and!; try done. intros g reads Hr Hc.
  exists (map (chunk_reply u) (file_chunks reads)). split.
  - rewrite download_downlink. unfold runFsDownload. cbn [fd_Path fd_RequestID fd_ChunkSize].
    change (download_chunk_size maxFileProxyChunk) with maxFileProxyChunk.
    rewrite Hr, uuid_string_trim. by apply send_chunks_ok.
  - intros fs evs Ha Hk ->. unfold download_run, received_body. rewrite map_map in Ha.
    erewrite (run_takes_all serial u evs (file_chunks reads)); [|cbn; by rewrite lookup_insert_eq|done|done].
    cbn [app]. by rewrite file_chunks_body.
Qed.
End download.
