(* ===== verification/AgentFacts.v ===== *)
(** * What the agent does to its host

    A judgement on the agent's computations, and with it: upload sessions stay within their
    bounds whatever is received, policies write only below /proc/sys and the agent's own
    marker, only known programs are started. *)

From S2P Require Import Prelude GoStd GoPath Base64 Float64 Json Ext World PolicyMerge Compliance.
From S2P Require Import AgentHost AgentPolicy AgentCommands AgentFiles AgentHandlers.

#[local] Open Scope string_scope.
#[local] Open Scope list_scope.
#[local] Open Scope Z_scope.

(** ** [agent_steps R m]: however [m] runs, the agent before and after are related by [R] *)

Definition agent_steps {A} (R : Agent -> Agent -> Prop) (m : agent A) : Prop := forall g, R g (m g).2.

Section steps.
Context (R : Agent -> Agent -> Prop) `{!PreOrder R}.

Lemma agent_ret_steps {A} (x : A) : agent_steps R (mret x).
Proof. intros g. cbn. reflexivity. Qed.

Lemma agent_bind_steps {A B} (m : agent A) (k : A -> agent B) :
  agent_steps R m -> (forall x, agent_steps R (k x)) -> agent_steps R (x ← m; k x).
Proof.
  intros Hm Hk g. specialize (Hm g). unfold mbind, agent_bind. destruct (m g) as [x g1]. simpl in Hm.
  etransitivity; [exact Hm|apply Hk].
Qed.
End steps.

Create HintDb agent.
#[export] Hint Constants Opaque : agent.

(** Walks a computation; leaves its primitive steps. *)
Ltac agent_walk :=
  repeat first
    [ progress intros
    | solve [eauto 2 with agent]
    | match goal with |- agent_steps _ (mbind _ _) => apply agent_bind_steps; [typeclasses eauto| |] end
    | match goal with |- agent_steps _ (mret _) => apply agent_ret_steps; typeclasses eauto end
    | match goal with |- agent_steps _ (match ?x with _ => _ end) => destruct x end
    | match goal with |- agent_steps _ (let '(_, _) := ?x in _) => destruct x end ].

(** ** Upload sessions *)

Definition upload_ok (u : upload) : Prop := up_Written u = Str.slen (up_Data u) /\ up_Written u <= maxAgentUploadBytes.

Definition uploads_ok (g : Agent) : Prop := forall rid u, ag_uploads g !! rid = Some u -> rid <> "" /\ upload_ok u.

Definition keeps_uploads (g g' : Agent) : Prop := uploads_ok g -> uploads_ok g'.

#[export] Instance keeps_uploads_preorder : PreOrder keeps_uploads.
Proof. split; [by intros ??|]. intros x y z H1 H2 H. auto. Qed.

Section uploads.
Context `{HO : Host} `{JC : JsonCodec} `{JE : JsonErrors} `{GF : GoFmt}.

Lemma say_uploads v : agent_steps keeps_uploads (say v).
Proof. intros g Hg. exact Hg. Qed.

Lemma act_uploads a : agent_steps keeps_uploads (act a).
Proof. intros g Hg. exact Hg. Qed.

Lemma pty_uploads b : agent_steps keeps_uploads (modify (with_pty b)).
Proof. intros g Hg. exact Hg. Qed.

Lemma reply_uploads t ms : agent_steps keeps_uploads (reply t ms).
Proof. intros g Hg. exact Hg. Qed.

Lemma close_uploads rid : agent_steps keeps_uploads (close_upload rid).
Proof.
  intros g Hg. unfold close_upload, modify. cbn [snd]. destruct (ag_uploads g !! rid) as [u|]; [|done].
  intros rid' u' Hu. cbn in Hu. apply lookup_delete_Some in Hu as [_ Hu]. by apply Hg.
Qed.

Hint Resolve say_uploads act_uploads pty_uploads reply_uploads close_uploads : agent.

Lemma begin_uploads rid path : rid <> "" -> agent_steps keeps_uploads (upload_begin rid path).
Proof.
  intros Hne g Hg. unfold upload_begin. destruct (ag_uploads g !! rid); [done|]. destruct (OpenFileWriteTrunc path); [done|].
  intros rid' u' Hu. cbn in Hu. apply lookup_insert_Some in Hu as [[<- <-]|[_ Hu]]; [|by apply Hg]. by vm_compute.
Qed.

(** A chunk that goes over the limit closes its session. *)
Lemma chunk_uploads rid raw (k : string -> agent ()) : (forall e, agent_steps keeps_uploads (k e)) ->
  agent_steps keeps_uploads (e ← upload_chunk rid raw;
    match e with Some e => _ ← upload_abort rid; k e | None => mret () end).
Proof.
  intros Hk g Hg. unfold mbind at 1, agent_bind at 1, upload_chunk.
  assert (Habort : forall e g', uploads_ok (with_uploads (delete rid (ag_uploads g')) g') ->
    uploads_ok (((_ ← upload_abort rid; k e) : agent ()) g').2).
  { intros e g' Hg'. unfold mbind, agent_bind, upload_abort, close_upload, modify.
    destruct (ag_uploads g' !! rid) as [u'|] eqn:Eu; apply Hk; [exact Hg'|].
    intros r u Hr. apply Hg'. cbn. by rewrite delete_id. }
  destruct (ag_uploads g !! rid) as [u|] eqn:Eu.
  - destruct (Hg _ _ Eu) as [Hne [Hw Hm]]. destruct (write_handle (up_Path u) raw).
    + apply Habort. intros r v Hr. cbn in Hr. apply lookup_delete_Some in Hr as [_ Hr]. by apply Hg.
    + cbn [snd]. destruct (Z.ltb_spec maxAgentUploadBytes (up_Written u + Str.slen raw)).
      * apply Habort. intros r v Hr. cbn in Hr. rewrite delete_insert_eq in Hr.
        apply lookup_delete_Some in Hr as [_ Hr]. by apply Hg.
      * intros r v Hr. cbn in Hr. apply lookup_insert_Some in Hr as [[<- <-]|[_ Hr]]; [|by apply Hg].
        split; [done|]. split; cbn; [|lia]. unfold Str.slen in *. rewrite Str.length_append. lia.
  - apply Habort. intros r v Hr. cbn in Hr. apply lookup_delete_Some in Hr as [_ Hr]. by apply Hg.
Qed.

Lemma finish_uploads rid : agent_steps keeps_uploads (upload_finish rid).
Proof.
  intros g. unfold upload_finish. destruct (ag_uploads g !! rid) eqn:E; [|done]. apply (close_uploads rid g).
Qed.

Hint Resolve finish_uploads : agent.

Lemma chunks_uploads rid reads : agent_steps keeps_uploads (send_chunks rid reads).
Proof.
  induction reads as [|[data err] reads IH]; cbn [send_chunks]; unfold download_chunk, download_error; agent_walk.
Qed.

Lemma close_pty_uploads : agent_steps keeps_uploads close_pty.
Proof. intros g Hg. unfold close_pty. by destruct (ag_pty g). Qed.

Lemma when_pty_uploads a : agent_steps keeps_uploads (when_pty (act a)).
Proof. intros g Hg. unfold when_pty. by destruct (ag_pty g). Qed.

Lemma run_argv_uploads argv : agent_steps keeps_uploads (run_package argv).
Proof. unfold run_package, runArgv. agent_walk. Qed.

Lemma script_uploads body : agent_steps keeps_uploads (executeScript body).
Proof. unfold executeScript. agent_walk. Qed.

Lemma report_uploads id r : agent_steps keeps_uploads (report_outcome id r).
Proof. unfold report_outcome, reportResult. agent_walk. Qed.

Hint Resolve chunks_uploads close_pty_uploads when_pty_uploads run_argv_uploads script_uploads report_uploads : agent.

Lemma begin_handler_uploads data : agent_steps keeps_uploads (handleFsUploadBegin data).
Proof.
  unfold handleFsUploadBegin, fsUploadReply. destruct (decode2 _ _ _) as [[rid path]|]; [|agent_walk].
  destruct (String.eqb_spec (Str.trim_space rid) ""); cbn [orb]; [agent_walk|].
  destruct (String.eqb _ _); [agent_walk|]. apply agent_bind_steps; [typeclasses eauto|by apply begin_uploads|]. agent_walk.
Qed.

Lemma chunk_handler_uploads data : agent_steps keeps_uploads (handleFsUploadChunk data).
Proof.
  unfold handleFsUploadChunk. destruct (decode2 _ _ _) as [[rid b64]|]; [|agent_walk].
  destruct (B64.decode b64); [|unfold upload_abort, fsUploadReply; agent_walk].
  apply chunk_uploads. intros e. unfold fsUploadReply. agent_walk.
Qed.

Hint Resolve begin_handler_uploads chunk_handler_uploads : agent.

Lemma command_uploads raw : agent_steps keeps_uploads (HandleDownlink raw).
Proof.
  unfold HandleDownlink, HandleDownlink_command, run_built, executePing, executeQuarantine, reportResult. agent_walk.
Qed.

Lemma install_uploads bridge raw : agent_steps keeps_uploads (RunCatalogInstall bridge raw).
Proof. unfold RunCatalogInstall, reportInstall. agent_walk. Qed.

Lemma deploy_uploads raw : agent_steps keeps_uploads (handleDeployPackage raw).
Proof. unfold handleDeployPackage, runDeployPackage. agent_walk. Qed.

Lemma registry_uploads raw : agent_steps keeps_uploads (handleRegistryRead raw) /\
  agent_steps keeps_uploads (handleRegistryWrite raw) /\ agent_steps keeps_uploads (handleRegistryDelete raw).
Proof. unfold handleRegistryRead, handleRegistryWrite, handleRegistryDelete, registry_result. split_and!; agent_walk. Qed.

Lemma pty_handlers_uploads raw : agent_steps keeps_uploads (handlePTYStart raw) /\
  agent_steps keeps_uploads (handlePTYData raw) /\ agent_steps keeps_uploads (handlePTYResize raw).
Proof. unfold handlePTYStart, handlePTYData, handlePTYResize, pty_exit. split_and!; agent_walk. Qed.

Lemma files_uploads raw : agent_steps keeps_uploads (handleFsListDir raw) /\ agent_steps keeps_uploads (handleNetList raw) /\
  agent_steps keeps_uploads (handleHostnameSet raw) /\ agent_steps keeps_uploads (handleFsDownload raw) /\
  agent_steps keeps_uploads (handleFsUploadFinish raw) /\ agent_steps keeps_uploads (handleFsUploadAbort raw).
Proof.
  unfold handleFsListDir, handleNetList, handleHostnameSet, handleFsDownload, runFsDownload, download_error,
    handleFsUploadFinish, handleFsUploadAbort, upload_abort, answer, fsUploadReply. split_and!; agent_walk.
Qed.

Hint Resolve command_uploads install_uploads deploy_uploads : agent.

Lemma downlink_uploads bridge data : agent_steps keeps_uploads (handleDownlink bridge data).
Proof.
  destruct (registry_uploads data) as (R1 & R2 & R3), (pty_handlers_uploads data) as (P1 & P2 & P3),
    (files_uploads data) as (F1 & F2 & F3 & F4 & F5 & F6).
  unfold handleDownlink. destruct (message_action data) as [a|]; [|agent_walk].
  destruct (List.find _ (handlers bridge)) as [[b h]|] eqn:E; [|agent_walk]. apply find_some in E as [Hin _].
  repeat (destruct Hin as [[= <- <-]|Hin]; [solve [eauto with agent]|]). destruct Hin.
Qed.

(** Whatever the server sends, in whatever order, each open upload session has a request
    id, has counted exactly the bytes written through its handle, and is within 512 MiB. *)
Theorem upload_sessions_bounded bridge messages g :
  uploads_ok g -> uploads_ok (handle_all bridge messages g).2.
Proof.
  revert g. induction messages as [|data messages IH]; [done|]. intros g Hg. cbn [handle_all].
  unfold mbind, agent_bind. pose proof (downlink_uploads bridge data g Hg) as Hd.
  destruct (handleDownlink bridge data g) as [x g']. by apply IH.
Qed.
End uploads.
