(* ===== verification/CommandRoundTrip.v ===== *)
(** * A command from the server to the agent and back

    The message the server sends for a command row, the agent's one answer to it, and the
    row that answer settles. *)

From S2P Require Import Prelude GoStd GoPath Base64 Float64 Json Ext JsonFacts World Auth AuthFacts DeviceCommands CommandFlow.
From S2P Require Import CommandFacts CommandDelivery AgentHost AgentCommands AgentFiles AgentHandlers AgentFacts FileProxy TransferFacts.

#[local] Open Scope string_scope.
#[local] Open Scope list_scope.
#[local] Open Scope Z_scope.
#[local] Opaque Str.coerce_utf8 Str.to_lower Str.trim_space.

(** ** The agent says one thing *)

Definition result_json `{UuidLib} (id : uuid) (ok : bool) (output errMsg : string) : json :=
  JObj (jmap [("type", jstr "device_command_result"); ("command_id", jstr (uuid_string id)); ("ok", JBool ok);
              ("output", jstr output); ("error", jstr errMsg)]).

Definition silent (g g' : Agent) : Prop := ag_sent g' = ag_sent g.

#[export] Instance silent_preorder : PreOrder silent.
Proof. split; [done|]. intros x y z H1 H2. unfold silent in *. congruence. Qed.

Section agent_side.
Context `{HO : Host} `{JC : JsonCodec} `{JE : JsonErrors} `{GF : GoFmt} `{UL : UuidLib}.
Context `{!JsonCodecLaws} `{!UuidLaws}.
Context (bridge : option InstallBridge).

Lemma act_silent a : agent_steps silent (act a).
Proof. done. Qed.

Hint Resolve act_silent : agent.

Lemma script_silent body : agent_steps silent (executeScript body).
Proof. unfold executeScript. agent_walk. Qed.

Lemma quarantine_silent payload : agent_steps silent (executeQuarantine payload).
Proof. unfold executeQuarantine. agent_walk. Qed.

(** One message more, a result of [id], and nothing is taken back. *)
Definition answers (id : uuid) (m : agent ()) : Prop := forall g, exists ok output errMsg,
  (m g).1 = tt /\ ag_sent (m g).2 = ag_sent g ++ [result_json id ok output errMsg] /\
  (ok = true -> errMsg = "") /\ (ok = false -> output = "" -> errMsg = "").

Lemma report_answers id ok output errMsg : (ok = true -> errMsg = "") -> answers id (reportResult (uuid_string id) ok output errMsg).
Proof.
  intros Hok g. exists ok, (if negb ok && String.eqb output "" then errMsg else output), errMsg. split_and!; try done.
  intros ->. cbn [negb andb]. destruct (String.eqb_spec output ""); [done|]. intros ->. done.
Qed.

Lemma outcome_answers id r : answers id (report_outcome (uuid_string id) r).
Proof. unfold report_outcome. destruct r.2; by apply report_answers. Qed.

Lemma silent_answers {A} id (m : agent A) k : agent_steps silent m -> (forall x, answers id (k x)) -> answers id (x ← m; k x).
Proof.
  intros Hm Hk g. specialize (Hm g). unfold mbind, agent_bind. destruct (m g) as [x g1].
  destruct (Hk x g1) as (ok & o & e & H1 & H2 & H3). exists ok, o, e. split; [done|]. rewrite H2. unfold silent in Hm.
  simpl in Hm. by rewrite Hm.
Qed.

Lemma built_answers id body : answers id (run_built (uuid_string id) body).
Proof.
  unfold run_built. destruct body; [|by apply report_answers].
  apply silent_answers; [apply script_silent|apply outcome_answers].
Qed.

Lemma command_answers id commandType payload : answers id (HandleDownlink_command (uuid_string id) commandType payload).
Proof.
  unfold HandleDownlink_command.
  destruct (String.eqb _ "ping"); [by apply silent_answers; [by intros g|apply outcome_answers]|].
  destruct (String.eqb _ "reboot").
  { intros g. destruct (report_answers id true "reboot scheduled" "" ltac:(done) g) as (ok & o & e & H1 & H2 & H3).
    exists ok, o, e. unfold mbind, agent_bind. destruct (reportResult _ _ _ _ g). by split_and!; try apply H3. }
  destruct (String.eqb _ "script"); [apply silent_answers; [apply script_silent|apply outcome_answers]|].
  destruct (String.eqb _ "restart_service"); [apply built_answers|].
  destruct (String.eqb _ "push_config"); [apply built_answers|].
  destruct (String.eqb _ "quarantine"); [apply silent_answers; [apply quarantine_silent|apply outcome_answers]|].
  by apply report_answers.
Qed.

(** What the agent makes of the server's message. *)
Lemma downlink_handled id commandType payload :
  Str.trim_space (Str.to_lower (Str.coerce_utf8 commandType)) <> "" ->
  handleDownlink bridge (json_marshal (downlink id commandType payload)) =
  HandleDownlink_command (uuid_string id) (Str.trim_space (Str.to_lower (Str.coerce_utf8 commandType))) (Str.coerce_utf8 payload).
Proof.
  intros Ht. unfold downlink. set (kvs := [_; _; _; _]).
  assert (Hb : unmarshal_map (json_marshal (JObj (jmap kvs))) = Some (jmap kvs)).
  { apply message_back. unfold kvs. cbn [forallb fst snd]. by rewrite !shallow_str. }
  erewrite (downlink_is bridge _ "device_command"); [| |reflexivity].
  - unfold HandleDownlink, decode_downlink. rewrite Hb. unfold kvs. cbn [mbind option_bind]. read_fields. rewrite !dec_jstr.
    cbn [mbind option_bind dd_CommandID dd_CommandType dd_Payload]. rewrite rid_back.
    destruct (String.eqb_spec (uuid_string id) "") as [e|_]; [by eapply uuid_string_ne in e|].
    by rewrite (proj2 (String.eqb_neq _ _) Ht).
  - unfold message_action. rewrite Hb. unfold kvs. cbn [mbind option_bind]. read_fields. rewrite dec_jstr. by vm_compute.
Qed.
End agent_side.

(** ** The server settles the row *)
Section server_side.
Context `{JC : JsonCodec} `{UL : UuidLib} `{GF : GoFmt} `{JL : JwtLib} `{NL : NetLib} `{C2 : C2Dispatcher L}.
Context `{!JsonCodecLaws} `{!UuidLaws}.

Definition settled (id : uuid) (status output : string) (w : World L) : list CommandRow :=
  update_where (is_command id) (fun r => with_status status output (Some (w_now w)) r) (t_commands (w_db w)).

Lemma finish_commands status ok id out (w : World L) : w_faults w = [] -> validateDeviceCommandStatus status = true ->
  t_commands (w_db (finish status ok id out w).2) =
  if text_ok (truncateOutput out) then settled id status (truncateOutput out) w else t_commands (w_db w).
Proof.
  intros Hf Hs. destruct (text_ok (truncateOutput out)) eqn:Ho.
  2: { unfold finish, mbind, go_bind, updateDeviceCommandStatus, wrap. rewrite Hs. cbn [negb]. rewrite exec_ok by done. by rewrite Ho. }
  unfold finish, mbind, go_bind. rewrite updateStatus_ok by done. set (w1 := set_db _ w).
  assert (E1 : t_commands (w_db w1) = settled id status (truncateOutput out) w) by done.
  assert (E2 : w_db w1 = w_db (GetDeviceCommand id uuid_nil w1).2) by apply (GetDeviceCommand_steps eq).
  destruct (GetDeviceCommand id uuid_nil w1) as [[e|cmd] w2]; cbn [snd] in E2; [cbn [snd]; by rewrite <- E2|]. unfold attempt.
  pose proof (journal_commands (dc_ID cmd) ok (dc_Output cmd) uuid_nil "" w2) as E3.
  destruct (AppendIncidentJournalForTerminalCommand _ _ _ _ _ w2) as [x w3]. cbn [snd mret go_ret] in *. by rewrite E3, <- E2.
Qed.

Lemma owned_ok id serial (w : World L) : w_faults w = [] ->
  existsb (fun d => is_command id d && owned_row (w_db w) (Str.trim_space serial) d) (t_commands (w_db w)) = true ->
  DeviceCommandOwnedByCertSerial id serial w = (inr true, w).
Proof.
  intros Hf Ho. unfold DeviceCommandOwnedByCertSerial, wrap. rewrite select_ok by done. unfold owned_row in Ho. by rewrite Ho.
Qed.

Lemma decode_result_of raw m t c ok o e : unmarshal_map raw = Some m -> field "type" m = [jstr t] ->
  field "command_id" m = [jstr c] -> field "ok" m = [JBool ok] -> field "output" m = [jstr o] -> field "error" m = [jstr e] ->
  decode_result raw = Some {| rs_Type := Str.coerce_utf8 t; rs_CommandID := Str.coerce_utf8 c; rs_OK := ok;
                              rs_Output := Str.coerce_utf8 o; rs_Error := Str.coerce_utf8 e |}.
Proof. unfold decode_result. intros -> Et Ec Eok Eo Ee. cbn [mbind option_bind]. by rewrite Et, Ec, Eok, Eo, Ee. Qed.

Lemma result_fields t c k o e :
  let m := jmap [("type", t); ("command_id", c); ("ok", k); ("output", o); ("error", e)] in
  field "type" m = [t] /\ field "command_id" m = [c] /\ field "ok" m = [k] /\ field "output" m = [o] /\ field "error" m = [e].
Proof. vm_compute. by split_and!. Qed.

Lemma result_decoded id ok output errMsg :
  decode_result (json_marshal (result_json id ok output errMsg)) =
  Some {| rs_Type := "device_command_result"; rs_CommandID := uuid_string id; rs_OK := ok;
          rs_Output := Str.coerce_utf8 output; rs_Error := Str.coerce_utf8 errMsg |}.
Proof.
  destruct (result_fields (jstr "device_command_result") (jstr (uuid_string id)) (JBool ok) (jstr output) (jstr errMsg))
    as (Et & Ec & Eok & Eo & Ee).
  erewrite decode_result_of; [|unfold result_json; apply message_back|exact Et|exact Ec|exact Eok|exact Eo|exact Ee].
  - by rewrite (coerce_plain "device_command_result"), (coerce_plain _ (uuid_string_plain id)).
  - cbn [forallb fst snd]. by rewrite !shallow_str.
Qed.

Definition outcome_status (ok : bool) : string := if ok then DeviceCommandStatusCompleted else DeviceCommandStatusFailed.

(** The text a result is stored as. *)
Definition stored_text (ok : bool) (output errMsg : string) : string :=
  truncateOutput (outcome_output {| rs_Type := "device_command_result"; rs_CommandID := ""; rs_OK := ok;
                                    rs_Output := Str.coerce_utf8 output; rs_Error := Str.coerce_utf8 errMsg |}).

Lemma outcome_settles dash serial id ok output errMsg (w : World L) : w_faults w = [] ->
  existsb (fun d => is_command id d && owned_row (w_db w) (Str.trim_space serial) d) (t_commands (w_db w)) = true ->
  t_commands (w_db (ApplyDeviceCommandOutcome dash serial (json_marshal (result_json id ok output errMsg)) w).2) =
  if text_ok (stored_text ok output errMsg) then settled id (outcome_status ok) (stored_text ok output errMsg) w
  else t_commands (w_db w).
Proof.
  intros Hf Ho. unfold ApplyDeviceCommandOutcome. rewrite result_decoded. cbn [rs_Type rs_CommandID rs_OK].
  rewrite uuid_string_trim, uuid_parse_string.
  change (negb (String.eqb (Str.trim_space "device_command_result") "device_command_result")) with false. cbv iota.
  destruct (String.eqb_spec (uuid_string id) "") as [e|_]; [by eapply uuid_string_ne in e|].
  unfold mbind at 1, go_bind at 1, attempt at 1. rewrite owned_ok by by rewrite ?Str.trim_space_idem.
  set (out := outcome_output _). unfold mbind at 1, go_bind at 1, attempt at 1.
  assert (E : t_commands (w_db ((if ok then CompleteDeviceCommand id out else FailDeviceCommand id out) w).2) =
    if text_ok (stored_text ok output errMsg) then settled id (outcome_status ok) (stored_text ok output errMsg) w
    else t_commands (w_db w)).
  { destruct ok; by apply finish_commands. }
  set (fin := if ok then CompleteDeviceCommand (L := L) id out else FailDeviceCommand id out) in *.
  destruct (fin w) as [[e|cmd] w1]; cbn [snd] in *; [done|]. destruct (negb dash); [done|].
  rewrite <- E. symmetry.
  assert (Hd : db_steps (same t_commands) (hid ← attempt (humanIDByCertSerial (L := L) (Str.trim_space serial));
    match hid with
    | inr h => if String.eqb (Str.trim_space h) "" then mret true
               else _ ← emit (Broadcast (MarshalDeviceCommandUpdate h cmd)); mret true
    | inl _ => mret true end)).
  { unfold humanIDByCertSerial. db_walk. }
  apply Hd.
Qed.
End server_side.

