(* ===== verification/AgentPolicyFacts.v ===== *)
(** * What a policy does to the host

    On Linux policies write below /proc/sys and the agent's own marker only, on Windows the
    registry values, the firewall profiles and the Wi-Fi file they name, elsewhere nothing; the
    agent enforces the payload the server merged; on Linux the blocks the server counts as critical are never
    applied. *)

From S2P Require Import Prelude GoStd GoPath Base64 Float64 Json Ext JsonFacts World PolicyMerge Auth AuthFacts DeviceCommands Enrollment Compliance MdmDownlink.
From S2P Require Import AgentHost AgentPolicy AgentCommands AgentFiles AgentHandlers AgentFacts.

#[local] Open Scope string_scope.
#[local] Open Scope list_scope.
#[local] Open Scope Z_scope.

(** ** Where policies write *)

Definition marker_file : string := "/var/lib/arx-mdm/last-declared-profile-type-restrictions.txt".

Section effects.
Context `{HO : Host} `{JC : JsonCodec} `{JE : JsonErrors} `{UL : UuidLib}.

(** On Linux the marker and files below /proc/sys, on Windows the managed Wi-Fi profile. *)
Definition policy_file (f : string * string) : Prop :=
  goos = "linux" /\ (f = (marker_file, "restrictions") \/
     exists names, names <> [] /\ Forall Path.plain_name names /\ f.1 = "/proc/sys/" +:+ Str.join "/" names) \/
  goos = "windows" /\ f.1 = join_path [wifi_dir; "managed-profile.xml"].

(** What an envelope asks of the registry: the firewall switched on where one of its firewall
    blocks says so, and the keys and values of its registry blocks. *)
Definition requested (env : windowsDeclarativeEnvelope) (a : host_action) : Prop :=
  match a with
  | CreateKey root path =>
      (root = LOCAL_MACHINE /\ windows_firewall env <> None /\
       (path = firewall_key \/ exists name, In name ["DomainProfile"; "StandardProfile"] /\ path = firewall_key +:+ "\" +:+ name)) \/
      exists blk, In blk (windows_registry env) /\ root = resolveHive (rh_Hive blk) /\ path = Str.trim_space (rh_Path blk)
  | SetValue root path name data =>
      (root = LOCAL_MACHINE /\ windows_firewall env <> None /\ name = "EnableFirewall" /\ data = DWORD 1 /\
       exists name, In name ["DomainProfile"; "StandardProfile"] /\ path = firewall_key +:+ "\" +:+ name) \/
      exists blk cell, In blk (windows_registry env) /\ root = resolveHive (rh_Hive blk) /\ path = Str.trim_space (rh_Path blk) /\
        In cell (rh_Values blk) /\ name = Str.trim_space (rc_Name cell) /\ cell_data cell = Some data
  | _ => False
  end.

(** The envelope the agent reads in a payload. *)
Definition envelope_of (payload : string) : option windowsDeclarativeEnvelope :=
  m ← unmarshal_map (if String.eqb payload "" then "{}" else payload); decode_win_envelope m.

(** What a merged payload asks of the system: nothing, except on Windows. *)
Definition asked_by (payload : string) (a : host_action) : Prop :=
  goos = "windows" /\ exists env, envelope_of payload = Some env /\ requested env a.

(** Policy files are added and actions [ok] taken; nothing else but the note of the last
    enforcement changes. *)
Definition only_policy_effects (ok : host_action -> Prop) (g g' : Agent) : Prop :=
  (exists new, ag_files g' = ag_files g ++ new /\ Forall policy_file new) /\
  (exists acts, ag_actions g' = ag_actions g ++ acts /\ Forall ok acts) /\
  ag_sent g' = ag_sent g /\ ag_uploads g' = ag_uploads g /\ ag_pty g' = ag_pty g.

#[export] Instance only_policy_effects_preorder ok : PreOrder (only_policy_effects ok).
Proof.
  split.
  - intros g. split; [exists []; by rewrite app_nil_r|]. split; [exists []; by rewrite app_nil_r|done].
  - intros x y z ((l1 & E1 & F1) & (a1 & A1 & G1) & H1) ((l2 & E2 & F2) & (a2 & A2 & G2) & H2). destruct_and?.
    split; [exists (l1 ++ l2); rewrite E2, E1, app_assoc; split; [done|by apply Forall_app]|].
    split; [exists (a1 ++ a2); rewrite A2, A1, app_assoc; split; [done|by apply Forall_app]|split_and!; congruence].
Qed.
End effects.

Section confined.
Context `{HO : Host} `{JC : JsonCodec} `{JE : JsonErrors} `{UL : UuidLib}.
Context (ok : host_action -> Prop).
Notation confined := (agent_steps (only_policy_effects ok)).

Lemma write_confined path content : policy_file (path, content) -> confined (write_to path content).
Proof.
  intros Hp g. unfold write_to. destruct (write_file path content); cbn [snd]; [reflexivity|].
  split; [|split; [exists []; by rewrite app_nil_r|done]]. exists [(path, content)]. split; [done|]. constructor; [done|constructor].
Qed.

Lemma act_confined a : ok a -> confined (act a).
Proof.
  intros Ha g. split; [exists []; by rewrite app_nil_r|]. split; [|done]. exists [a]. split; [done|]. by constructor.
Qed.

Lemma note_confined err c : confined (noteMDMPolicyEnforcement err c).
Proof. intros g. split; [exists []; cbn; by rewrite app_nil_r|]. split; [exists []; cbn; by rewrite app_nil_r|done]. Qed.

Lemma key_path_rooted key : Str.has_prefix (sysctlKeyToProcPath key) "/" = true.
Proof.
  change (sysctlKeyToProcPath key) with (Path.clean (sysctl_root +:+ "/" +:+ replace_byte "." "/" (Str.trim_space key))).
  unfold Path.clean. generalize (replace_byte "." "/" (Str.trim_space key)). intros x.
  replace (Str.has_prefix (sysctl_root +:+ "/" +:+ x) "/") with true by (by destruct x).
  cbv iota zeta. match goal with |- context ["/" +:+ Str.join "/" ?ps] => generalize (Str.join "/" ps) end.
  intros y. by destruct y.
Qed.

Lemma sysctl_confined key value : goos = "linux" -> confined (sysctlWriteValidated (sysctlKeyToProcPath key) value).
Proof.
  intros Hg. unfold sysctlWriteValidated. destruct (negb _ || _) eqn:E; [apply agent_ret_steps; typeclasses eauto|].
  apply orb_false_iff in E as [Hp%negb_false_iff _]. apply write_confined. left. split; [done|]. right.
  change (sysctl_root +:+ "/") with ("/" +:+ "proc" +:+ "/" +:+ "sys" +:+ "/") in Hp.
  apply Path.clean_below in Hp as (names & Hn & Hf & E); [|done|done|apply key_path_rooted]. exists names. by split_and!.
Qed.

Hint Resolve note_confined sysctl_confined : agent.

Lemma sysctls_confined kvs : goos = "linux" -> confined (apply_sysctls kvs).
Proof.
  intros Hg. induction kvs as [|[k v] kvs IH]; cbn [apply_sysctls]; [agent_walk|].
  apply agent_bind_steps; [typeclasses eauto|by apply sysctl_confined|]. agent_walk.
Qed.

Hint Resolve sysctls_confined : agent.

Lemma restrictions_confined raw : goos = "linux" -> confined (handleLinuxDeclarative "restrictions" raw).
Proof.
  intros Hg. unfold handleLinuxDeclarative, applyLinuxSysctl.
  destruct (m ← unmarshal_map _; decode_linux_union m) as [obj|]; [|agent_walk].
  apply agent_bind_steps; [typeclasses eauto|agent_walk|]. intros e1. cbv zeta. change (String.eqb "restrictions" "") with false.
  cbv iota. apply agent_bind_steps; [typeclasses eauto| |agent_walk]. apply write_confined. left. split; [done|]. by left.
Qed.

Hint Resolve restrictions_confined : agent.

(** ** Windows *)

Lemma make_key_confined root path : ok (CreateKey root path) -> confined (make_key root path).
Proof. intros H. unfold make_key. pose proof (act_confined _ H). agent_walk. Qed.

Lemma put_value_confined root path name d : ok (SetValue root path name d) -> confined (put_value root path name d).
Proof. intros H. unfold put_value. pose proof (act_confined _ H). agent_walk. Qed.

Lemma cells_confined root path cells :
  (forall c d, In c cells -> cell_data c = Some d -> ok (SetValue root path (Str.trim_space (rc_Name c)) d)) ->
  confined (apply_cells root path cells).
Proof.
  induction cells as [|c cells IH]; intros Hok; cbn [apply_cells]; [agent_walk|].
  assert (IH' : confined (apply_cells root path cells)) by (apply IH; intros; apply Hok; [by right|done]).
  destruct (cell_data c) as [d|] eqn:Ed; [|done]. apply agent_bind_steps; [typeclasses eauto| |agent_walk].
  apply put_value_confined, Hok; [by left|done].
Qed.

Lemma wifi_confined xml : goos = "windows" -> confined (persistWindowsWiFiProfile xml).
Proof.
  intros Hg. unfold persistWindowsWiFiProfile. cbv zeta. destruct (String.eqb _ _); [agent_walk|].
  destruct (mkdir_all wifi_dir); [agent_walk|]. apply write_confined. by right.
Qed.

Section envelope.
Context (env : windowsDeclarativeEnvelope) (Hok : forall a, requested env a -> ok a).

Lemma block_confined blk : In blk (windows_registry env) -> confined (applyRegistryHiveBlock blk).
Proof.
  intros Hin. unfold applyRegistryHiveBlock. cbv zeta. destruct (String.eqb _ _); [agent_walk|].
  apply agent_bind_steps; [typeclasses eauto|apply make_key_confined, Hok; right; by exists blk|].
  intros [e|]; [agent_walk|]. apply cells_confined. intros c d Hc Hd. apply Hok. right. by exists blk, c.
Qed.

Lemma blocks_confined blocks : (forall b, In b blocks -> In b (windows_registry env)) -> confined (apply_blocks blocks).
Proof.
  induction blocks as [|b blocks IH]; intros Hin; cbn [apply_blocks]; [agent_walk|].
  apply agent_bind_steps; [typeclasses eauto|apply block_confined, Hin; by left|]. intros e.
  apply agent_bind_steps; [typeclasses eauto|apply IH; intros; apply Hin; by right|]. agent_walk.
Qed.

Lemma firewall_confined : confined (applyWindowsFirewallPolicy (windows_firewall env)).
Proof.
  assert (Hp : windows_firewall env <> None -> forall name, In name ["DomainProfile"; "StandardProfile"] -> confined (enable_profile name)).
  { intros Hn name Hin. unfold enable_profile. cbv zeta. apply agent_bind_steps; [typeclasses eauto| |].
    - apply make_key_confined, Hok. left. split_and!; [done..|]. right. by exists name.
    - intros [e|]; [agent_walk|]. apply agent_bind_steps; [typeclasses eauto| |agent_walk].
      apply put_value_confined, Hok. left. split_and!; [done..|]. by exists name. }
  unfold applyWindowsFirewallPolicy. destruct (windows_firewall env) as [b|] eqn:Eb; [|agent_walk].
  specialize (Hp ltac:(done)). pose proof (Hp "DomainProfile" ltac:(by left)). pose proof (Hp "StandardProfile" ltac:(by right; left)).
  destruct (negb _ && _); [agent_walk|]. apply agent_bind_steps; [typeclasses eauto| |agent_walk].
  apply make_key_confined, Hok. left. rewrite Eb. by split_and!; [..|left].
Qed.
End envelope.

Lemma windows_confined raw : goos = "windows" -> (forall a, asked_by raw a -> ok a) -> confined (handleWindowsDeclarative "custom" raw).
Proof.
  intros Hg Hok. unfold handleWindowsDeclarative. cbv zeta. fold (envelope_of raw).
  destruct (envelope_of raw) as [env|] eqn:Ee; [|agent_walk].
  assert (Hr : forall a, requested env a -> ok a) by (intros a Ha; apply Hok; split; [done|]; by exists env).
  pose proof (wifi_confined (windows_xml env) Hg). pose proof (firewall_confined env Hr).
  pose proof (blocks_confined env Hr (windows_registry env) ltac:(done)). agent_walk.
Qed.

Lemma effective_confined payload c : (forall a, asked_by payload a -> ok a) -> confined (enforceEffectiveMergedPayload payload c).
Proof.
  intros Hok. unfold enforceEffectiveMergedPayload, platformEnforceMergedPayload.
  apply agent_bind_steps; [typeclasses eauto| |agent_walk].
  destruct (String.eqb_spec goos "linux"); [by apply restrictions_confined|].
  destruct (String.eqb_spec goos "windows"); [by apply windows_confined|agent_walk].
Qed.
End confined.

(** The payload that is enforced: the merge of the profiles in a telemetry answer, when they
    decode and can be merged... *)
Definition ack_payload `{JsonCodec} `{JsonErrors} `{UuidLib} (body : string) : option string :=
  match (m ← unmarshal_map body;
         dec_field (dec_slice {| te_ID := ""; te_Name := ""; te_Payload := None |} (dec_struct decode_envelope)) None
           (field "mdm_configuration_profiles" m)) with
  | Some (Some profiles) =>
      match profile_inputs profiles with
      | inl _ => None
      | inr inputs => match MergeAssignedPayloads inputs with
                      | MergeErr _ => None
                      | MergeOk mr => Some (json_marshal (JObj (mr_EffectivePayload mr))) end
      end
  | _ => None
  end.

(** ... or the effective payload of the answer to a pull, when it is an object. *)
Definition pull_payload `{JsonCodec} (answer : string + pull_answer) : option string :=
  match fetchEffectivePolicy answer with
  | inl _ => None
  | inr body =>
      m ← unmarshal_map body; let raw := json_marshal (raw_payload m) in
      match unmarshal_map raw with None => None | Some _ => Some raw end
  end.

Definition asked `{Host} `{JsonCodec} (payload : option string) (a : host_action) : Prop :=
  exists raw, payload = Some raw /\ asked_by raw a.

Lemma ack_confined `{HO : Host} `{JC : JsonCodec} `{JE : JsonErrors} `{UL : UuidLib} body :
  agent_steps (only_policy_effects (asked (ack_payload body))) (ApplyMDMTelemetryAck body).
Proof.
  pose proof (note_confined (asked (ack_payload body))) as Hn. unfold ApplyMDMTelemetryAck, ack_payload in *.
  destruct (mbind _ (unmarshal_map body)) as [[[|pr profiles]|]|]; try agent_walk.
  unfold enforceDeclarativeProfiles. destruct (profile_inputs (pr :: profiles)) as [|inputs]; [agent_walk|].
  destruct (MergeAssignedPayloads inputs) as [|mr]; [agent_walk|]. apply agent_bind_steps; [typeclasses eauto|apply Hn|]. intros _.
  apply effective_confined. intros a Ha. by eexists.
Qed.

Lemma pull_confined `{HO : Host} `{JC : JsonCodec} `{JE : JsonErrors} `{UL : UuidLib} pull :
  agent_steps (only_policy_effects (asked (pull_payload pull))) (doFetch pull).
Proof.
  pose proof (note_confined (asked (pull_payload pull))) as Hn. unfold doFetch, pull_payload in *.
  destruct (fetchEffectivePolicy pull) as [|body]; [agent_walk|]. unfold applyEffectivePolicyHTTPBody.
  destruct (unmarshal_map body) as [m|]; [|agent_walk]. cbn [mbind option_bind] in *. cbv zeta in *.
  destruct (unmarshal_map (json_marshal (raw_payload m))); [|agent_walk]. apply agent_bind_steps; [typeclasses eauto|apply Hn|]. intros _.
  apply effective_confined. intros a Ha. by eexists.
Qed.


(** ** The agent enforces what the server merged *)

Definition noted_ok (g : Agent) : Agent :=
  with_enforcement (Some {| enf_State := "ok"; enf_Detail := ""; enf_CriticalFailed := false |}) g.

(** The profiles that take part, as the database lists them. *)
Definition assigned_profiles `{PgLib} (db : Tables) (assetID : uuid) (platform : string) : list Profile :=
  let p := Str.to_lower (Str.trim_space platform) in
  sort_slice profile_by_name
    (List.filter (fun c => String.eqb (pg_lower (pg_trim (pf_platform c))) p && assigned db assetID c) (t_profiles db)).

Lemma list_profiles_inv `{PgLib} {L} id platform (w : World L) rows w' :
  ListAssignedProfilesForAsset id platform w = (inr rows, w') -> rows = assigned_profiles (w_db w) id platform.
Proof.
  unfold ListAssignedProfilesForAsset. destruct (String.eqb _ ""); [done|]. intros Hw%wrap_inv%select_inr.
  by injection Hw as <-.
Qed.

(** What the server answers a device's pull with. *)
Lemma policy_pull_inv `{JsonCodec} `{UuidLib} `{PgLib} `{CsrLib} {L} MTLSRequired r (w : World L) resp w' :
  handleAgentEffectivePolicy MTLSRequired r w = (inr resp, w') -> rs_status resp = 200 ->
  exists serial a mr members, require_client_cert MTLSRequired r = inr serial /\
    List.find (owns_serial serial) (t_assets (w_db w)) = Some a /\ In a (t_assets (w_db w)) /\ owns_serial serial a = true /\
    MergeAssignedPayloads (assignedRowsToMergeInputs
      (assigned_profiles (w_db w) (a_id a) (telemetryPlatformKey (pg_lower (pg_trim (a_os_type a)))))) = MergeOk mr /\
    rs_body resp = JObj (jmap members) /\ field "effective_payload" (jmap members) = [JObj (mr_EffectivePayload mr)].
Proof.
  unfold handleAgentEffectivePolicy. intros Hh Hs.
  destruct (require_method "GET" r) as [e|[]] eqn:Em.
  { injection Hh as <- _. unfold require_method in Em. destruct (String.eqb _ _); [done|]. by injection Em as <-. }
  destruct (require_client_cert MTLSRequired r) as [e|serial] eqn:Ec.
  { injection Hh as <- _. unfold require_client_cert in Ec. destruct (if MTLSRequired then _ else _); try by injection Ec as <-.
    destruct (String.eqb _ _); [by injection Ec as <-|done]. }
  apply bind_inv in Hh as (x & w1 & Hx%attempt_inv & Hh). destruct x as [e|[id os]]; [by injection Hh as <- _|].
  assert (Edb : w_db w1 = w_db w).
  { assert (E : db_steps eq (asset_by_serial (L := L) serial)) by apply steps_select, _.
    specialize (E w). by rewrite Hx in E. }
  apply select_inr in Hx. destruct (List.find _ _) as [a|] eqn:Ef; [|done]. injection Hx as <- <-.
  destruct (find_some _ _ Ef) as [Hin Hown]. apply bind_inv in Hh as (y & w2 & Hy%attempt_inv & Hh).
  destruct y as [e|[some mr]]; [by injection Hh as <- _|]. injection Hh as <- _.
  unfold computeMergedEffectivePolicy in Hy. apply bind_inv in Hy as (rows & w3 & Hl & Hy).
  apply list_profiles_inv in Hl as ->. rewrite Edb in Hy. destruct (MergeAssignedPayloads _) as [|mr'] eqn:Em'; [done|].
  apply bind_inv in Hy as ([] & w4 & _ & Hy). injection Hy as _ <- _.
  eexists serial, a, mr', _. split_and!; try done.
Qed.

(** C8: the body the server answers a device's pull with is enforced by the agent as exactly
    the payload merged from the profiles assigned to that device for its platform, with the
    same judgement of whether it is critical, when the answer is shorter than the 4 MiB the
    agent reads. *)
Theorem agent_enforces_the_merge `{HO : Host} `{JsonCodecLaws} `{JE : JsonErrors} `{UuidLib} `{PgLib} `{CsrLib} {L}
    MTLSRequired r (w : World L) resp w' g :
  handleAgentEffectivePolicy MTLSRequired r w = (inr resp, w') -> rs_status resp = 200 -> json_wf (rs_body resp) ->
  Str.slen (json_marshal (rs_body resp)) < maxBodyBytes ->
  exists serial a mr, require_client_cert MTLSRequired r = inr serial /\ In a (t_assets (w_db w)) /\
    owns_serial serial a = true /\
    MergeAssignedPayloads (assignedRowsToMergeInputs
      (assigned_profiles (w_db w) (a_id a) (telemetryPlatformKey (pg_lower (pg_trim (a_os_type a)))))) = MergeOk mr /\
    doFetch (inr {| pa_Status := rs_status resp; pa_Body := json_marshal (rs_body resp); pa_ReadError := None |}) g =
    enforceEffectiveMergedPayload (json_marshal (JObj (mr_EffectivePayload mr)))
      (PayloadCarriesCriticalSecurityControls (mr_EffectivePayload mr)) (noted_ok g).
Proof.
  intros Hh Hs Hwf Hl. destruct (policy_pull_inv _ _ _ _ _ Hh Hs) as (serial & a & mr & ms & Hc & _ & Hin & Ho & Hm & Eb & Ef).
  exists serial, a, mr. split_and!; try done. unfold doFetch, fetchEffectivePolicy. cbn [pa_Status pa_Body pa_ReadError].
  rewrite Hs, (proj2 (Z.leb_gt _ _) Hl). cbv iota zeta. unfold checked. cbn [Z.eqb Pos.eqb].
  rewrite Eb in *. unfold applyEffectivePolicyHTTPBody.
  assert (Hp : json_wf (JObj (mr_EffectivePayload mr))).
  { assert (Hi : In (JObj (mr_EffectivePayload mr)) (field "effective_payload" (jmap ms))) by (rewrite Ef; by left).
    unfold field in Hi. apply in_map_iff in Hi as ([k v] & E & [Hi _]%filter_In). cbn in E. subst v. by eapply wf_obj_In. }
  unfold mbind, agent_bind, unmarshal_map at 1. cbn [noteMDMPolicyEnforcement modify]. rewrite unmarshal_marshal by done.
  unfold raw_payload. rewrite Ef. cbn [map List.last]. unfold unmarshal_map. by rewrite unmarshal_marshal.
Qed.

(** ** What Linux leaves out *)

(** A Linux agent that is sent a policy without a sysctl table of its own, whatever
    firewall, Wi-Fi or security blocks it carries, writes its marker and nothing else,
    reports success, and the server records the device as compliant. *)
Theorem linux_leaves_critical_blocks_out `{HO : Host} `{JsonCodecLaws} `{JE : JsonErrors} `{UuidLib} m critical prevStatus g :
  goos = "linux" -> json_wf (JObj m) -> field "sysctl" m = [] -> is_some_b (decode_linux_union m) = true ->
  mkdir_all state_dir = None -> write_file marker_file "restrictions" = None ->
  let g' := (enforceEffectiveMergedPayload (json_marshal (JObj m)) critical g).2 in
  ag_files g' = ag_files g ++ [(marker_file, "restrictions")] /\
  ag_enforcement g' = Some {| enf_State := "ok"; enf_Detail := ""; enf_CriticalFailed := false |} /\
  verdict prevStatus critical (ag_enforcement g') = Some (ComplianceStatusCompliant, "").
Proof.
  intros Hg Hwf Hs Hd Hm Hw.
  assert (E : handleLinuxDeclarative "restrictions" (json_marshal (JObj m)) g =
    (None, with_files (ag_files g ++ [(marker_file, "restrictions")]) g)).
  { unfold handleLinuxDeclarative. destruct (String.eqb_spec (json_marshal (JObj m)) "") as [E|_].
    { pose proof (unmarshal_marshal _ Hwf) as Hu. rewrite E, unmarshal_empty in Hu. done. }
    unfold unmarshal_map. rewrite unmarshal_marshal by done. cbn [mbind option_bind].
    destruct (decode_linux_union m) as [obj|] eqn:Ed; [|done].
    assert (lp_Sysctl obj = []) as El.
    { unfold decode_linux_union in Ed. rewrite Hs in Ed. cbn [dec_field mbind option_bind] in Ed.
      destruct (dec_field _ _ (field "linux_firewall" m)) as [x|]; cbn [mbind option_bind] in Ed; [|discriminate Ed].
      destruct (dec_field _ _ (field "firewall" m)) as [y|]; cbn [mbind option_bind] in Ed; [|discriminate Ed].
      by injection Ed as <-. }
    change (String.eqb "restrictions" "firewall") with false. change (String.eqb "restrictions" "") with false. cbv iota.
    rewrite El. unfold mbind, agent_bind. cbn [mret agent_ret]. rewrite Hm.
    change (Path.join _) with marker_file. unfold write_to. by rewrite Hw. }
  unfold enforceEffectiveMergedPayload, platformEnforceMergedPayload. rewrite Hg.
  change (String.eqb "linux" "linux") with true. cbv iota. unfold mbind, agent_bind. by rewrite E.
Qed.
