(* ===== verification/AgentScripts.v ===== *)
(** * What the agent hands to a shell and to package managers

    The lines of a pushed configuration end, decode to it and never end their here-document
    early; a deployment starts at most one program, and only a known one. *)

From S2P Require Import Prelude GoStd Decimal GoPath Base64 Float64 Json Ext JsonFacts AgentHost AgentCommands AgentFiles AgentHandlers AgentFacts.
From S2P Require Import World TransferFacts.

#[local] Open Scope string_scope.
#[local] Open Scope list_scope.

(** ** Cutting a string *)

Lemma take_drop n s : Str.take n s +:+ Str.drop n s = s.
Proof.
  unfold Str.take, Str.drop. revert s; induction n as [|n IH]; intros s.
  - rewrite Nat.sub_0_r, substring_all. by destruct s.
  - destruct s as [|c s]; [done|]. cbn [String.substring String.length Nat.sub]. rewrite Str.append_cons. by rewrite IH.
Qed.

Lemma take_length n s : (n <= String.length s)%nat -> String.length (Str.take n s) = n.
Proof.
  unfold Str.take. revert s; induction n as [|n IH]; intros s H; [by destruct s|].
  destruct s as [|c s]; simpl in *; [lia|]. by rewrite IH by lia.
Qed.

Lemma drop_length n s : (n <= String.length s)%nat -> String.length (Str.drop n s) = (String.length s - n)%nat.
Proof.
  intros H. pose proof (take_drop n s) as E. apply (f_equal String.length) in E.
  rewrite Str.length_append, take_length in E by done. lia.
Qed.

(** A line of a text cut in lines of 120: no longer than that, and as long modulo four as the
    text if the text is a multiple of four. *)
Definition line_ok (l : string) : Prop := (String.length l <= 120)%nat /\ (String.length l mod 4 = 0)%nat.

Lemma chunk_lines_spec fuel : forall s, (String.length s <= fuel)%nat -> (String.length s mod 4 = 0)%nat ->
  concat_all (chunk_lines fuel s) = s /\ Forall line_ok (chunk_lines fuel s).
Proof.
  induction fuel as [|fuel IH]; intros s Hl Hm; cbn [chunk_lines].
  { cbn [concat_all]. rewrite append_nil_r. split; [done|]. constructor; [|constructor]. split; lia. }
  destruct (Nat.leb_spec (String.length s) chunk_step) as [Hs|Hs].
  { cbn [concat_all]. rewrite append_nil_r. split; [done|]. constructor; [|constructor]. by split. }
  unfold chunk_step in *. destruct (IH (Str.drop 120 s)) as [Ec Hf].
  - rewrite drop_length; lia.
  - rewrite drop_length by lia. replace (String.length s) with (String.length s - 120 + 30 * 4)%nat in Hm by lia.
    by rewrite Nat.Div0.mod_add in Hm.
  - split; [cbn [concat_all]; by rewrite Ec, take_drop|]. constructor; [|done]. unfold line_ok. by rewrite take_length by lia.
Qed.

(** One round per byte is enough: more rounds change nothing. *)
Lemma chunk_lines_fuel fuel : forall fuel' s, (String.length s <= fuel)%nat -> (String.length s <= fuel')%nat ->
  chunk_lines fuel s = chunk_lines fuel' s.
Proof.
  induction fuel as [|fuel IH]; intros [|fuel'] s H1 H2; cbn [chunk_lines]; [done| | |].
  - by rewrite (proj2 (Nat.leb_le _ _)) by (unfold chunk_step; lia).
  - by rewrite (proj2 (Nat.leb_le _ _)) by (unfold chunk_step; lia).
  - destruct (Nat.leb_spec (String.length s) chunk_step); [done|]. f_equal. unfold chunk_step in *.
    apply IH; rewrite drop_length; lia.
Qed.

Lemma encode_length l : (List.length (B64.encode_bytes l) mod 4 = 0)%nat.
Proof.
  induction l as [|a|a b|a b c r IH] using B64.encode_ind; cbn [B64.encode_bytes List.length]; [done..|].
  replace (S (S (S (S (List.length (B64.encode_bytes r)))))) with (List.length (B64.encode_bytes r) + 1 * 4)%nat by lia.
  by rewrite Nat.Div0.mod_add.
Qed.

Lemma bytes_length s : List.length (Str.bytes s) = String.length s.
Proof. unfold Str.bytes. induction s as [|c s IH]; [done|]. cbn. by f_equal. Qed.

Lemma encode_text_length s : (String.length (B64.encode s) mod 4 = 0)%nat.
Proof. rewrite <- (bytes_length (B64.encode s)). unfold B64.encode. rewrite Str.bytes_of_bytes. apply encode_length. Qed.

(** Line breaks aside, joined lines are the text that was cut. *)
Lemma join_lines l : List.filter (fun c => negb (B64.line_break c)) (Str.bytes (Str.join nl l)) =
  List.filter (fun c => negb (B64.line_break c)) (Str.bytes (concat_all l)).
Proof.
  induction l as [|x [|y l] IH]; [done| |].
  - cbn [concat_all Str.join]. by rewrite append_nil_r.
  - change (Str.join nl (x :: y :: l)) with (x +:+ nl +:+ Str.join nl (y :: l)).
    change (concat_all (x :: y :: l)) with (x +:+ concat_all (y :: l)).
    rewrite !bytes_append, !List.filter_app, IH. by cbn.
Qed.

Lemma encode_no_quote s : Str.has_byte quote_char (B64.encode s) = false.
Proof.
  assert (H : forallb (fun c => negb (Ascii.eqb c quote_char)) (Str.bytes (B64.encode s)) = true).
  { unfold B64.encode. rewrite Str.bytes_of_bytes. apply B64.encode_all; [|done]. apply B64.below_64. by vm_compute. }
  induction (B64.encode s) as [|c r IH]; [done|]. cbn in H. apply andb_true_iff in H as [Hc%negb_true_iff H].
  cbn [Str.has_byte]. by rewrite IH, Hc.
Qed.

(** The PowerShell script around the text of the file. *)
Definition powershell_script (b64 : string) : string :=
  "$ErrorActionPreference = 'Stop'" +:+ nl
  +:+ "$p = Join-Path $env:ProgramData 'arx-mdm\managed-config.json'" +:+ nl
  +:+ "$dir = Split-Path -LiteralPath $p" +:+ nl
  +:+ "New-Item -ItemType Directory -Force -Path $dir | Out-Null" +:+ nl
  +:+ "$bytes = [Convert]::FromBase64String('" +:+ b64 +:+ "')" +:+ nl
  +:+ "[IO.File]::WriteAllBytes($p, $bytes)" +:+ nl
  +:+ "Write-Output " +:+ dquote +:+ "push_config wrote $($bytes.Length) bytes to $p" +:+ dquote +:+ nl.

(** C31: a pushed configuration becomes a script on Linux and on Windows only.  On Linux it is a
    here-document whose lines, however many rounds the loop is given beyond one per byte, are the
    same, have at most 120 bytes, are never the word that ends it, and decode to the compact JSON
    of the payload.  On Windows it is a PowerShell script with that JSON as one literal, which
    decodes to it and in which no character ends the literal early. *)
Theorem push_config_lines `{Host} `{JsonCodec} payload script :
  BuildPushConfigScript payload = inl script ->
  exists v, json_unmarshal (Str.trim_space payload) = Some v /\
  let b64 := B64.encode (json_marshal v) in
  (goos = "linux" /\ exists lines,
     script = push_config_head +:+ Str.join nl lines +:+ push_config_tail /\
     (forall fuel, (String.length b64 <= fuel)%nat -> chunk_lines fuel b64 = lines) /\
     Forall (fun l => (String.length l <= 120)%nat /\ l <> "ARB64") lines /\
     B64.decode (Str.join nl lines) = Some (json_marshal v)) \/
  (goos = "windows" /\ script = powershell_script b64 /\ B64.decode b64 = Some (json_marshal v) /\
   Str.has_byte quote_char b64 = false).
Proof.
  unfold BuildPushConfigScript. destruct (json_unmarshal (Str.trim_space payload)) as [v|]; [|done]. cbv zeta.
  intros Hs. exists v. split; [done|]. set (b64 := B64.encode (json_marshal v)) in *.
  destruct (String.eqb_spec goos "windows") as [Hg|_].
  { right. injection Hs as <-. split_and!; [done|done| |apply encode_no_quote]. apply B64.decode_encode. }
  destruct (String.eqb_spec goos "linux") as [Hg|]; [|done]. left. split; [done|]. injection Hs as <-.
  exists (chunk_lines (String.length b64) b64).
  destruct (chunk_lines_spec (String.length b64) b64 (Nat.le_refl _) (encode_text_length _)) as [Ec Hf].
  split_and!; [done| | |].
  - intros fuel Hl. by apply chunk_lines_fuel.
  - eapply Forall_impl; [exact Hf|]. intros l [Hl Hm]. split; [done|]. by intros ->.
  - apply B64.decode_broken. rewrite join_lines, Ec. unfold b64, B64.encode. rewrite Str.bytes_of_bytes.
    apply B64.encode_no_break.
Qed.

(** ** Deployments *)
Section deployments.
Context `{HO : Host} `{JC : JsonCodec} `{JE : JsonErrors} `{GF : GoFmt}.

(** winget.exe: the first that the installation's directory holds, else that of the user. *)
Definition winget_path (p : string) : Prop :=
  let pf := if String.eqb (host_env "ProgramFiles") "" then "C:\Program Files" else host_env "ProgramFiles" in
  let installed := glob (join_path [pf; "WindowsApps"; "Microsoft.DesktopAppInstaller_*"; "winget.exe"]) in
  goos = "windows" /\
  (hd_error installed = Some p \/
   installed = [] /\ host_env "LocalAppData" <> "" /\ is_file p = true /\
   p = join_path [host_env "LocalAppData"; "Microsoft"; "WindowsApps"; "winget.exe"]).

Definition type_of (cmd : deployPackageCmd) : string := Str.to_lower (Str.trim_space (dp_PackageType cmd)).
Definition name_of (cmd : deployPackageCmd) : string := Str.trim_space (dp_Name cmd).
Definition operation_of (cmd : deployPackageCmd) : string :=
  let op := Str.trim_space (Str.to_lower (dp_Operation cmd)) in if String.eqb op "" then "install" else op.

(** The version a winget installation asks for: one given by name takes none. *)
Definition winget_version (cmd : deployPackageCmd) : list string :=
  if Str.has_prefix (name_of cmd) "wingetname:" || String.eqb (Str.trim_space (dp_Version cmd)) "" then []
  else ["--version"; Str.trim_space (dp_Version cmd)].

(** What a deployment may start: per package type its package manager, where it is installed,
    with the arguments of the operation; or the words of the custom command, the first of which
    is the absolute path of a file. *)
Inductive may_start (cmd : deployPackageCmd) : list string -> Prop :=
| apt_install : type_of cmd = "apt" -> operation_of cmd = "install" -> is_file "/usr/bin/apt-get" = true ->
    may_start cmd ["/usr/bin/apt-get"; "install"; "-y"; name_of cmd]
| apt_remove : type_of cmd = "apt" -> operation_of cmd = "uninstall" -> is_file "/usr/bin/apt-get" = true ->
    may_start cmd ["/usr/bin/apt-get"; "remove"; "-y"; name_of cmd]
| dnf_install : type_of cmd = "dnf" -> operation_of cmd = "install" -> is_file "/usr/bin/dnf" = true ->
    may_start cmd ["/usr/bin/dnf"; "install"; "-y"; name_of cmd]
| dnf_remove : type_of cmd = "dnf" -> operation_of cmd = "uninstall" -> is_file "/usr/bin/dnf" = true ->
    may_start cmd ["/usr/bin/dnf"; "remove"; "-y"; name_of cmd]
| choco : type_of cmd = "choco" -> In (operation_of cmd) ["install"; "uninstall"] ->
    is_file "C:\ProgramData\chocolatey\bin\choco.exe" = true ->
    may_start cmd ["C:\ProgramData\chocolatey\bin\choco.exe"; operation_of cmd; name_of cmd; "-y"]
| winget_install p : type_of cmd = "winget" -> operation_of cmd = "install" -> winget_path p ->
    may_start cmd ([p; "install"] ++ (winget_selector (name_of cmd)).2 ++
      ["--accept-package-agreements"; "--accept-source-agreements"; "--silent"] ++ winget_version cmd)
| winget_uninstall p : type_of cmd = "winget" -> operation_of cmd = "uninstall" -> winget_path p ->
    may_start cmd ([p; "uninstall"] ++ (winget_selector (name_of cmd)).2 ++ ["--silent"; "--accept-source-agreements"])
| custom p args : type_of cmd = "custom" -> In (operation_of cmd) ["install"; "uninstall"] ->
    fields (Str.trim_space (dp_InstallCmd cmd)) = p :: args -> is_abs p = true -> is_file p = true -> may_start cmd (p :: args).

Lemma resolve_known p missing w : resolve p missing = inl w -> w = p /\ is_file p = true.
Proof. unfold resolve. destruct (is_file p) eqn:E; [|done]. by intros [= <-]. Qed.

Lemma winget_known w : resolveWinget = inl w -> winget_path w.
Proof.
  unfold resolveWinget, winget_path. destruct (String.eqb_spec goos "windows") as [Hg|]; [|done]. cbn [negb]. cbv zeta.
  destruct (glob _) as [|m l] eqn:E.
  - destruct (negb _ && is_file _) eqn:Ef; [|done]. intros [= <-]. apply andb_true_iff in Ef as [Hl%negb_true_iff Hf].
    apply String.eqb_neq in Hl. split; [done|]. by right.
  - intros [= <-]. split; [done|]. by left.
Qed.

Lemma with_tool_inv tool args argv : with_tool tool args = inl argv -> exists w, tool = inl w /\ argv = w :: args.
Proof. destruct tool as [w|]; [|done]. intros [= <-]. by exists w. Qed.

Lemma custom_known cmd argv : type_of cmd = "custom" -> In (operation_of cmd) ["install"; "uninstall"] ->
  argvFromInstallCmd (dp_InstallCmd cmd) = inl argv -> may_start cmd argv.
Proof.
  intros Ht Ho. unfold argvFromInstallCmd. destruct (String.eqb _ _); [done|].
  destruct (fields _) as [|p args] eqn:Ef; [done|]. destruct (is_abs p) eqn:Ea; [|done]. destruct (is_file p) eqn:Ei; [|done].
  intros [= <-]. by apply custom.
Qed.

Lemma selects_by_name name : (winget_selector name).1 = Str.has_prefix name "wingetname:".
Proof. unfold winget_selector. by destruct (Str.has_prefix name "wingetname:"). Qed.

(** A package manager's case: the tool was found. *)
Ltac tool_case := intros (w & Hw & ->)%with_tool_inv; first [apply winget_known in Hw|apply resolve_known in Hw as [-> Hw]].

Lemma install_known cmd argv : operation_of cmd = "install" ->
  argvInstall (dp_PackageType cmd) (dp_Name cmd) (dp_Version cmd) (dp_InstallCmd cmd) = inl argv -> may_start cmd argv.
Proof.
  intros Ho. unfold argvInstall. cbv zeta. fold (type_of cmd) (name_of cmd).
  pose proof (selects_by_name (name_of cmd)) as Hs.
  destruct (String.eqb_spec (type_of cmd) "winget").
  { destruct (winget_selector (name_of cmd)) as [by_name sel] eqn:E. cbn [fst] in Hs. subst by_name. tool_case.
    pose proof (winget_install cmd w ltac:(done) Ho Hw) as H. by rewrite E in H. }
  destruct (String.eqb_spec (type_of cmd) "choco").
  { tool_case. rewrite <- Ho. apply choco; [done| |done]. rewrite Ho. by left. }
  destruct (String.eqb_spec (type_of cmd) "apt"); [tool_case; by apply apt_install|].
  destruct (String.eqb_spec (type_of cmd) "dnf"); [tool_case; by apply dnf_install|].
  destruct (String.eqb_spec (type_of cmd) "custom"); [|done]. apply custom_known; [done|]. rewrite Ho. by left.
Qed.

Lemma uninstall_known cmd argv : operation_of cmd = "uninstall" ->
  argvUninstall (dp_PackageType cmd) (dp_Name cmd) (dp_Version cmd) (dp_InstallCmd cmd) = inl argv -> may_start cmd argv.
Proof.
  intros Ho. unfold argvUninstall. cbv zeta. fold (type_of cmd) (name_of cmd).
  destruct (String.eqb_spec (type_of cmd) "winget"); [tool_case; by apply (winget_uninstall cmd w)|].
  destruct (String.eqb_spec (type_of cmd) "choco").
  { tool_case. rewrite <- Ho. apply choco; [done| |done]. rewrite Ho. by right; left. }
  destruct (String.eqb_spec (type_of cmd) "apt"); [tool_case; by apply apt_remove|].
  destruct (String.eqb_spec (type_of cmd) "dnf"); [tool_case; by apply dnf_remove|].
  destruct (String.eqb_spec (type_of cmd) "custom"); [|done]. apply custom_known; [done|]. rewrite Ho. by right; left.
Qed.

(** [run_package] does nothing, or starts the program and nothing else. *)
Lemma run_package_spec argv g :
  (exists e, run_package argv g = (Some e, g) /\ forall p args, argv <> inl (p :: args)) \/
  (exists p args, argv = inl (p :: args) /\
     (run_package argv g).2 = with_actions (ag_actions g ++ [Execute (p :: args)]) g /\
     ((run_package argv g).1 = None <-> (run_argv (p :: args)).2 = None)).
Proof.
  destruct argv as [[|p args]|e]; cbn [run_package]; [left; by eexists| |left; by eexists].
  right. exists p, args. split; [done|]. unfold runArgv, mbind, agent_bind, act. cbn [fst snd mret agent_ret].
  split; [done|]. unfold mret, agent_ret. cbn [fst]. by destruct (run_argv (p :: args)) as [out [e|]].
Qed.

Definition deployment_done (cmd : deployPackageCmd) (g g' : Agent) (ok : bool) : Prop :=
  ag_files g' = ag_files g /\
  (ag_actions g' = ag_actions g /\ ok = false \/
   exists argv, may_start cmd argv /\ ag_actions g' = ag_actions g ++ [Execute argv] /\
     (ok = true <-> (run_argv argv).2 = None)).

(** C30: whatever deploy_package message an agent receives, it starts at most one program.  For
    apt, dnf, choco and winget that is the package manager of the message's own type, found where
    it is installed, called with the arguments of the message's operation, install or uninstall,
    on the package it names; for custom the words of the given command, the first of which is the
    absolute path of a file.  Nothing is written, one answer is sent, and the answer says ok
    exactly if a program was started and succeeded. *)
Theorem deployments_start_known_programs data g :
  let g' := (handleDeployPackage data g).2 in
  (decode_deploy data = None /\ g' = g) \/
  exists cmd ok members, decode_deploy data = Some cmd /\
    ag_sent g' = ag_sent g ++ [JObj (jmap (("type", jstr "package_result") :: members))] /\
    members !! 2%nat = Some ("ok", JBool ok) /\ deployment_done cmd g g' ok.
Proof.
  cbv zeta. unfold handleDeployPackage. destruct (decode_deploy data) as [cmd|]; [|by left]. right. exists cmd.
  change (if String.eqb (Str.trim_space (Str.to_lower (dp_Operation cmd))) "" then "install"
          else Str.trim_space (Str.to_lower (dp_Operation cmd))) with (operation_of cmd).
  unfold runDeployPackage, mbind, agent_bind, reply, say.
  set (r := (if String.eqb (operation_of cmd) "install" then _ else _) : agent (option string)).
  assert (Hr : forall e g1, r g = (e, g1) -> ag_sent g1 = ag_sent g /\
    deployment_done cmd g g1 (match e with None => true | _ => false end)).
  { assert (Hp : forall argv, (forall a, argv = inl a -> may_start cmd a) -> forall e g1, run_package argv g = (e, g1) ->
      ag_sent g1 = ag_sent g /\ deployment_done cmd g g1 (match e with None => true | _ => false end)).
    { intros argv Ha e g1 E. destruct (run_package_spec argv g) as [(x & E' & _)|(p & args & -> & E2 & E1)].
      - rewrite E' in E. injection E as <- <-. split; [done|]. split; [done|]. by left.
      - rewrite E in E1, E2. simpl in E1, E2. subst g1. split; [done|]. split; [done|]. right. exists (p :: args).
        split; [by apply Ha|]. split; [done|]. rewrite <- E1. by destruct e. }
    intros e g1. unfold r. destruct (String.eqb_spec (operation_of cmd) "install"); [apply Hp; intros a; by apply install_known|].
    destruct (String.eqb_spec (operation_of cmd) "uninstall"); [apply Hp; intros a; by apply uninstall_known|]. intros [= <- <-].
    split; [done|]. split; [done|]. by left. }
  destruct (r g) as [e g1] eqn:E. destruct (Hr _ _ eq_refl) as [Hs [Hf Hd]]. eexists _, _. split; [done|].
  split; [cbn [snd ag_sent with_sent]; rewrite Hs; reflexivity|]. split; [reflexivity|]. by split.
Qed.
End deployments.
