(* ===== verification/DashboardFacts.v ===== *)
(** * Who can lock or wipe a device from a dashboard

    The role check of the dashboard's session and the dispatch of the agent, together: they
    read one message twice, the server as a struct and the agent after it was a map. *)

From S2P Require Import Prelude GoStd Float64 Json Ext JsonFacts World Auth DeviceCommands CommandFlow Telemetry Packages.
From S2P Require Import AgentHost AgentCommands AgentFiles AgentHandlers AgentFacts Dashboard.

#[local] Open Scope string_scope.
#[local] Open Scope list_scope.

(** ** One field of a message *)

Lemma obj_get_jmap k kvs : obj_get k (jmap kvs) = last (map snd (List.filter (fun kv => String.eqb kv.1 k) kvs)).
Proof.
  induction kvs as [|[k1 v1] kvs IH] using rev_ind; [done|]. unfold jmap in *.
  rewrite fold_left_app, List.filter_app, map_app. cbn [fold_left fst snd List.filter].
  destruct (String.eqb_spec k1 k) as [->|Hn]; cbn [map].
  - by rewrite obj_get_set_eq, last_snoc.
  - by rewrite obj_get_set_ne, app_nil_r.
Qed.

(** In a sorted object the members of one name are one at most. *)
Lemma sorted_get k m : keys_sorted m ->
  map snd (List.filter (fun kv => String.eqb kv.1 k) m) = match obj_get k m with Some v => [v] | None => [] end.
Proof.
  induction m as [|[k1 v1] m IH]; [done|]. rewrite keys_sorted_cons. intros [Hs Hlt]. cbn [List.filter obj_get fst].
  rewrite (String.eqb_sym k k1). destruct (String.eqb_spec k1 k) as [->|Hn]; [|by apply IH].
  cbn [map snd]. rewrite IH by done. rewrite obj_get_None; [done|]. intros Hi. apply Hlt in Hi. by rewrite str_lt_irrefl in Hi.
Qed.

(** [name] is spelled one way in the message. *)
Definition one_spelling (name : string) (ms : list (string * json)) : Prop :=
  exists k, forall k' v, In (k', v) ms -> Str.equal_fold k' name = true -> k' = k.

Lemma filter_spelling name k (ms : list (string * json)) :
  (forall k' v, In (k', v) ms -> Str.equal_fold k' name = true -> k' = k) -> Str.equal_fold k name = true ->
  List.filter (fun kv => Str.equal_fold kv.1 name) ms = List.filter (fun kv => String.eqb kv.1 k) ms.
Proof.
  intros Hk Hf. apply List.filter_ext_in. intros [k' v] Hi. cbn [fst].
  destruct (String.eqb_spec k' k) as [->|Hn]; [done|]. apply not_true_is_false. intros E. by apply Hn, (Hk k' v).
Qed.

(** The map keeps the last of the members a struct reads. *)
Lemma field_jmap name ms : one_spelling name ms ->
  field name (jmap ms) = match last (field name ms) with Some v => [v] | None => [] end.
Proof.
  intros [k Hk]. unfold field. destruct (Str.equal_fold k name) eqn:Ef.
  - assert (Hj : forall k' v, In (k', v) (jmap ms) -> Str.equal_fold k' name = true -> k' = k)
      by (intros k' v Hi; by apply (Hk k' v), jmap_In).
    rewrite (filter_spelling name k (jmap ms)) by done.
    by rewrite (filter_spelling name k ms), sorted_get, obj_get_jmap by first [done | apply jmap_sorted].
  - assert (Hn : forall l : list (string * json), (forall e, In e l -> In e ms) ->
      List.filter (fun kv => Str.equal_fold kv.1 name) l = []).
    { induction l as [|[k' v] l IH]; intros Hl; [done|]. cbn [List.filter fst]. destruct (Str.equal_fold k' name) eqn:E.
      - exfalso. assert (k' = k) as -> by (apply (Hk k' v); [by apply Hl; left|done]). congruence.
      - apply IH. intros e He. apply Hl. by right. }
    rewrite !Hn; [done|auto|]. intros [k' v]. apply jmap_In.
Qed.

(** What the struct has read, if the last member is a string it is that string. *)
Lemma dec_string_last vs : forall cur s, dec_string cur vs = Some s ->
  match last vs with
  | Some v => dec_string "" [v] = Some s \/ dec_string "" [v] = Some ""
  | None => True
  end.
Proof.
  induction vs as [|v vs IH]; intros cur s H; [done|]. destruct vs as [|v' vs].
  - cbn in *. destruct v; try done; [by right|]. injection H as <-. by left.
  - rewrite last_cons_cons. cbn [dec_string] in H. destruct v; try done; by eapply IH.
Qed.

(** ** Which messages make the agent lock or wipe *)

Definition locks_or_wipes (a : host_action) : Prop := a = Lock \/ a = Wipe.

(** Nothing was locked or wiped between two states of an agent. *)
Definition spares (g g' : Agent) : Prop :=
  exists l, ag_actions g' = ag_actions g ++ l /\ Forall (fun a => ~ locks_or_wipes a) l.

#[export] Instance spares_preorder : PreOrder spares.
Proof.
  split; [intros x; exists []; by rewrite app_nil_r|].
  intros x y z (l1 & E1 & F1) (l2 & E2 & F2). exists (l1 ++ l2). rewrite E2, E1, app_assoc. split; [done|]. by apply Forall_app.
Qed.

Section agent_side.
Context `{HO : Host} `{JC : JsonCodec} `{JE : JsonErrors} `{GF : GoFmt}.

Lemma no_action {A} (m : agent A) : (forall g, ag_actions (m g).2 = ag_actions g) -> agent_steps spares m.
Proof. intros H g. exists []. by rewrite H, app_nil_r. Qed.

Lemma act_spares a : ~ locks_or_wipes a -> agent_steps spares (act a).
Proof. intros Ha g. exists [a]. split; [done|]. by constructor. Qed.

Lemma say_spares v : agent_steps spares (say v).
Proof. by apply no_action. Qed.

Lemma reply_spares t ms : agent_steps spares (reply t ms).
Proof. by apply no_action. Qed.

Lemma pty_spares b : agent_steps spares (modify (with_pty b)).
Proof. by apply no_action. Qed.

Lemma close_spares rid : agent_steps spares (close_upload rid).
Proof. apply no_action. intros g. unfold close_upload, modify. by destruct (ag_uploads g !! rid). Qed.

Lemma begin_spares rid path : agent_steps spares (upload_begin rid path).
Proof.
  apply no_action. intros g. unfold upload_begin. destruct (ag_uploads g !! rid); [done|].
  by destruct (OpenFileWriteTrunc path).
Qed.

Lemma chunk_spares rid raw : agent_steps spares (upload_chunk rid raw).
Proof.
  apply no_action. intros g. unfold upload_chunk. destruct (ag_uploads g !! rid); [|done].
  destruct (write_handle _ _); [done|]. by destruct (_ <? _)%Z.
Qed.
End agent_side.

(** An action that is neither. *)
Ltac harmless := first [apply act_spares; intros [H|H]; discriminate H].

#[export] Hint Extern 3 (agent_steps spares (act _)) => harmless : agent.
#[export] Hint Resolve say_spares reply_spares pty_spares close_spares begin_spares chunk_spares : agent.

Section handlers_spare.
Context `{HO : Host} `{JC : JsonCodec} `{JE : JsonErrors} `{GF : GoFmt}.

Lemma finish_spares rid : agent_steps spares (upload_finish rid).
Proof. intros g. unfold upload_finish. destruct (ag_uploads g !! rid); [apply (close_spares rid g)|reflexivity]. Qed.

Lemma chunks_spares rid reads : agent_steps spares (send_chunks rid reads).
Proof. induction reads as [|[data err] reads IH]; cbn [send_chunks]; unfold download_chunk, download_error; agent_walk. Qed.

Lemma close_pty_spares : agent_steps spares close_pty.
Proof.
  intros g. unfold close_pty. destruct (ag_pty g); [|reflexivity].
  assert (H : agent_steps spares (_ ← act PtyClose; modify (with_pty false))) by agent_walk. apply H.
Qed.

Lemma when_pty_spares m : agent_steps spares m -> agent_steps spares (when_pty m).
Proof. intros Hm g. unfold when_pty. destruct (ag_pty g); [apply Hm|reflexivity]. Qed.

Lemma package_spares argv : agent_steps spares (run_package argv).
Proof. unfold run_package, runArgv. agent_walk. Qed.

Lemma script_spares body : agent_steps spares (executeScript body).
Proof. unfold executeScript. agent_walk. Qed.

Hint Resolve finish_spares chunks_spares close_pty_spares when_pty_spares package_spares script_spares : agent.

Lemma command_spares raw : agent_steps spares (HandleDownlink raw).
Proof.
  unfold HandleDownlink, HandleDownlink_command, run_built, executePing, executeQuarantine, report_outcome, reportResult. agent_walk.
Qed.

Lemma install_spares bridge raw : agent_steps spares (RunCatalogInstall bridge raw).
Proof. unfold RunCatalogInstall, reportInstall. agent_walk. Qed.

Lemma deploy_spares raw : agent_steps spares (handleDeployPackage raw).
Proof. unfold handleDeployPackage, runDeployPackage. agent_walk. Qed.

Lemma registry_spares raw : agent_steps spares (handleRegistryRead raw) /\
  agent_steps spares (handleRegistryWrite raw) /\ agent_steps spares (handleRegistryDelete raw).
Proof. unfold handleRegistryRead, handleRegistryWrite, handleRegistryDelete, registry_result. split_and!; agent_walk. Qed.

Lemma pty_handlers_spares raw : agent_steps spares (handlePTYStart raw) /\
  agent_steps spares (handlePTYData raw) /\ agent_steps spares (handlePTYResize raw).
Proof. unfold handlePTYStart, handlePTYData, handlePTYResize, pty_exit. split_and!; agent_walk. Qed.

Lemma files_spares raw : agent_steps spares (handleFsListDir raw) /\ agent_steps spares (handleNetList raw) /\
  agent_steps spares (handleHostnameSet raw) /\ agent_steps spares (handleFsDownload raw) /\
  agent_steps spares (handleFsUploadBegin raw) /\ agent_steps spares (handleFsUploadChunk raw) /\
  agent_steps spares (handleFsUploadFinish raw) /\ agent_steps spares (handleFsUploadAbort raw).
Proof.
  unfold handleFsListDir, handleNetList, handleHostnameSet, handleFsDownload, runFsDownload, download_error, handleFsUploadBegin,
    handleFsUploadChunk, handleFsUploadFinish, handleFsUploadAbort, upload_abort, answer, fsUploadReply. split_and!; agent_walk.
Qed.

Hint Resolve command_spares install_spares deploy_spares : agent.

(** Any other action leaves the device as it is. *)
Lemma other_actions_spare bridge data : message_action data <> Some "lock" -> message_action data <> Some "wipe" ->
  agent_steps spares (handleDownlink bridge data).
Proof.
  intros Hl Hw.
  destruct (registry_spares data) as (R1 & R2 & R3), (pty_handlers_spares data) as (P1 & P2 & P3),
    (files_spares data) as (F1 & F2 & F3 & F4 & F5 & F6 & F7 & F8).
  unfold handleDownlink. destruct (message_action data) as [a|] eqn:Ea; [|agent_walk].
  destruct (List.find _ (handlers bridge)) as [[b h]|] eqn:E; [|agent_walk]. apply find_some in E as [Hin Hb].
  apply String.eqb_eq in Hb. simpl in Hb. subst b.
  repeat (destruct Hin as [[= <- <-]|Hin]; [solve [eauto with agent | by destruct Hl | by destruct Hw]|]). destruct Hin.
Qed.
End handlers_spare.

(** ** The forwarded message *)

Lemma filter_sorted (P : string * json -> bool) m : keys_sorted m -> keys_sorted (List.filter P m).
Proof.
  induction m as [|[k v] m IH]; [done|]. rewrite keys_sorted_cons. intros [Hs Hlt]. cbn [List.filter].
  destruct (P (k, v)); [|by apply IH]. apply keys_sorted_cons. split; [by apply IH|].
  intros k' Hi. apply Hlt. apply in_map_iff in Hi as ([k1 v1] & <- & [Hi _]%filter_In). by apply (in_map fst) in Hi.
Qed.

Lemma filter_depth (P : string * json -> bool) m : (depth (JObj (List.filter P m)) <= depth (JObj m))%nat.
Proof.
  cbn [depth]. apply le_n_S. induction m as [|kv m IH]; [done|]. cbn [List.filter fold_right].
  destruct (P kv); cbn [fold_right]; lia.
Qed.

Lemma obj_delete_wf k m : json_wf (JObj m) -> json_wf (JObj (obj_delete k m)).
Proof.
  intros Hw. pose proof (wf_obj_sorted _ Hw) as Hs. unfold json_wf, json_wfb in *. apply andb_true_iff in Hw as [Hsh Hd].
  apply andb_true_iff. split.
  - cbn [wf_shape] in *. apply andb_true_iff in Hsh as [_ Hsh]. apply andb_true_iff. split.
    + by apply sorted_keysb_complete, filter_sorted.
    + rewrite forallb_forall in *. intros e He. apply Hsh. by apply filter_In in He as [He _].
  - apply Z.leb_le. apply Z.leb_le in Hd. pose proof (filter_depth (fun kv => negb (String.eqb kv.1 k)) m). unfold obj_delete. lia.
Qed.

Lemma field_delete name k m : Str.equal_fold k name = false -> field name (obj_delete k m) = field name m.
Proof.
  intros Hk. unfold field, obj_delete. induction m as [|[k1 v1] m IH]; [done|]. cbn [List.filter fst].
  destruct (String.eqb_spec k1 k) as [->|Hn]; cbn [negb List.filter fst]; [by rewrite Hk|].
  destruct (Str.equal_fold k1 name); cbn [map]; by rewrite IH.
Qed.

(** ** The session *)
Section session_facts.
Context `{HO : Host} `{JC : JsonCodec} `{JE : JsonErrors} `{GF : GoFmt} `{UL : UuidLib} `{PG : PgLib} `{NL : NetLib} `{C2L : C2Laws L}.
Context `{!JsonCodecLaws}.

(** Whatever agent gets the message, it neither locks nor wipes on it. *)
Definition spared (m : string * json) : Prop :=
  forall bridge, agent_steps spares (handleDownlink bridge (json_marshal m.2)).

(** The agent's reading of the forwarded message: the server's, or no action at all. *)
Lemma forwarded_action ms action target : json_wf (JObj (jmap ms)) -> one_spelling "action" ms ->
  decode_dash ms = Some (action, target) ->
  forall a, message_action (json_marshal (JObj (obj_delete "target_arx_id" (jmap ms)))) = Some a -> a = action \/ a = "".
Proof.
  intros Hw Ho Hd a. unfold message_action, unmarshal_map. rewrite unmarshal_marshal by by apply obj_delete_wf.
  cbn [mbind option_bind]. rewrite field_delete by reflexivity. rewrite field_jmap by done.
  unfold decode_dash in Hd. destruct (dec_string "" (field "action" ms)) as [s|] eqn:Es; [|done]. cbn [mbind option_bind] in Hd.
  destruct (dec_string "" (field "target_arx_id" ms)); [|done]. cbn [mbind option_bind] in Hd. injection Hd as <- _.
  pose proof (dec_string_last _ _ _ Es) as Hl. destruct (last _) as [v|]; [|intros [= <-]; by right].
  destruct Hl as [-> | ->]; cbn [mbind option_bind]; intros [= <-]; [by left|by right].
Qed.

Lemma plain_action_spared serial a : a <> "lock" -> a <> "wipe" -> forallb plain (Str.bytes a) = true ->
  Str.trim_space (Str.to_lower a) = a -> spared (serial, JObj [("action", jstr a)]).
Proof.
  intros Hl Hw Hp Ht bridge. cbn [snd]. change [("action", jstr a)] with (jmap [("action", jstr a)]).
  assert (E : message_action (json_marshal (JObj (jmap [("action", jstr a)]))) = Some a).
  { unfold message_action. rewrite message_back by (cbn [forallb fst snd]; by rewrite shallow_str). cbn [mbind option_bind].
    read_fields. rewrite dec_jstr, coerce_plain by done. cbn [mbind option_bind]. by rewrite Ht. }
  apply other_actions_spare; rewrite E; congruence.
Qed.

Lemma dash_dispatch_sends Q r p action target payload :
  (forall serial, Q (serial, payload)) -> sends Q (dash_dispatch (L := L) r p action target payload).
Proof.
  intros HQ. unfold dash_dispatch, DispatchJSONByHumanID, auditDashboardDispatch, InsertAuditRecord. cbv zeta. send_walk.
Qed.

(** A message whose object is well formed and spells its action one way. *)
Definition decent (data : dash_message) : Prop :=
  forall ms, data = Some ms -> json_wf (JObj (jmap ms)) /\ one_spelling "action" ms.

Lemma message_spared r p data : p_Role p <> RoleAdmin -> decent data ->
  sends spared (handle_dash_message (L := L) r p data).
Proof.
  intros Hr Hd. unfold handle_dash_message. destruct data as [ms|]; [|send_walk]. destruct (Hd ms eq_refl) as [Hw Ho].
  cbn [mbind option_bind]. destruct (decode_dash ms) as [[action target]|] eqn:Ed; [|send_walk]. cbn [mbind option_bind].
  destruct (String.eqb_spec action ""); [send_walk|]. destruct (String.eqb target ""); [send_walk|].
  destruct (String.eqb (p_Role p) RoleViewer); [send_walk|].
  destruct (String.eqb_spec action "shutdown"); [apply dash_dispatch_sends; intros serial; by apply plain_action_spared|].
  destruct (String.eqb_spec action "lock"); cbn [orb]; [rewrite (proj2 (String.eqb_neq _ _) Hr); send_walk|].
  destruct (String.eqb_spec action "wipe"); [rewrite (proj2 (String.eqb_neq _ _) Hr); send_walk|].
  destruct (existsb _ _); [|send_walk]. apply dash_dispatch_sends. intros serial bridge. cbn [snd].
  apply other_actions_spare; intros E; destruct (forwarded_action _ _ _ Hw Ho Ed _ E); congruence.
Qed.

Lemma loop_sends Q r p messages : Forall (fun data => sends Q (handle_dash_message (L := L) r p data)) messages ->
  sends Q (dash_loop (L := L) r p messages).
Proof. induction 1 as [|data ms Hd Hs IH]; cbn [dash_loop]; send_walk. Qed.

Lemma session_sends Q r p messages : Forall (fun data => sends Q (handle_dash_message (L := L) r p data)) messages ->
  sends Q (RunDashboardSession (L := L) r p messages).
Proof.
  intros Hm. unfold RunDashboardSession, LoadAssetSnapshot, LoadIncidentSnapshot. pose proof (loop_sends _ _ _ _ Hm). send_walk.
Qed.

(** C4: whatever messages a dashboard session sends, if it is not an administrator's and each
    message spells its action in one way, no agent that gets a message of the session locks or
    wipes on it, and a viewer's session sends agents nothing. *)
Theorem lock_wipe_admin_only r p messages : p_Role p <> RoleAdmin -> Forall decent messages ->
  sends spared (RunDashboardSession (L := L) r p messages) /\
  (p_Role p = RoleViewer -> sends (fun _ => False) (RunDashboardSession (L := L) r p messages)).
Proof.
  intros Hr Hd. split.
  - apply session_sends. eapply Forall_impl; [exact Hd|]. intros data. by apply message_spared.
  - intros Hv. apply session_sends. apply Forall_true. intros data. unfold handle_dash_message.
    rewrite Hv. change (String.eqb RoleViewer RoleViewer) with true. send_walk.
Qed.

(** The device an operator names and its connected agent. *)
Definition reachable_device (serial human : string) (w : World L) : Prop :=
  exists a l', List.find (fun x => String.eqb (a_human_id x) human) (t_assets (w_db w)) = Some a /\
    a_cert_serial a = Some serial /\ Str.trim_space serial = serial /\ serial <> "" /\
    dispatch_json serial (JObj [("ACTION", jstr "pty_close"); ("action", jstr "wipe")]) (w_link w) = (true, l').

Lemma two_spellings_forwarded a b c :
  obj_delete "target_arx_id" (jmap [("action", a); ("ACTION", b); ("target_arx_id", c)]) = jmap [("ACTION", b); ("action", a)] /\
  field "action" [("action", a); ("ACTION", b); ("target_arx_id", c)] = [a; b] /\
  field "target_arx_id" [("action", a); ("ACTION", b); ("target_arx_id", c)] = [c] /\
  field "action" (jmap [("ACTION", b); ("action", a)]) = [b; a].
Proof. by vm_compute. Qed.

(** The audit row of a message the dashboard dispatched as [action]. *)
Definition dispatch_row (userID : uuid) (action target : string) (row : AuditLog) : Prop :=
  al_UserID row = Some userID /\ al_Action row = "command_executed" /\
  al_Details row = JObj (jmap [("target_arx_id", jstr target); ("channel", jstr "dashboard_websocket");
                               ("transport_action", jstr action)]).

Definition at_most_one_row (P : AuditLog -> Prop) (db db' : Tables) : Prop :=
  db' = db \/ exists row, P row /\ db' = with_audit (t_audit db ++ [row]) db.

Lemma insert_record_row rec (w : World L) : rec_UserID rec <> uuid_nil ->
  at_most_one_row (fun row => al_UserID row = Some (rec_UserID rec) /\ al_Action row = Str.trim_space (rec_Action rec) /\
      al_Details row = JObj (jmap (rec_Details rec)))
    (w_db w) (w_db (InsertAuditRecord rec w).2).
Proof.
  intros Hu. unfold InsertAuditRecord. destruct (String.eqb _ ""); [by left|]. rewrite (proj2 (N.eqb_neq _ _) Hu).
  unfold InsertAuditLogRow. match goal with |- context [insert_id ?q w] => destruct (insert_id q w) as [[e|[]] w'] eqn:E end.
  - left. cbn [snd]. unfold insert_id, stmt, next_fault in E.
    destruct (w_faults w) as [|[msg|] fs]; simpl in E; [|by injection E as _ <-|]; repeat (case_hyp E; try discriminate E); by injection E as _ <-.
  - right. cbn [snd]. apply insert_id_inr in E. cbv zeta in E. cbn [al_UserID al_Action al_Details] in E.
    rewrite (proj2 (N.eqb_neq _ _) Hu) in E. destruct (_ || _); [done|]. destruct (negb _); [done|]. injection E as <-.
    eexists. split; [|reflexivity]. cbn [al_UserID al_Action al_Details]. by rewrite Str.trim_space_idem.
Qed.

Lemma audit_answers r userID action target (w : World L) : Str.trim_space (Str.to_lower action) = action -> exists w',
  auditDashboardDispatch r userID action target w = (inr (), w') /\ w_link w' = w_link w /\
  at_most_one_row (dispatch_row userID action target) (w_db w) (w_db w').
Proof.
  intros Ha. assert (Ho : db_only (auditDashboardDispatch (L := L) r userID action target)).
  { unfold auditDashboardDispatch, InsertAuditRecord. cbv zeta. only_walk. }
  destruct (Ho w) as (El & _). unfold auditDashboardDispatch in *. cbv zeta in *. rewrite Ha in *.
  destruct (N.eqb_spec userID uuid_nil) as [|Hu]; [by exists w; split_and!; [..|left]|].
  destruct (String.eqb _ ""); [by exists w; split_and!; [..|left]|].
  unfold mbind, go_bind, attempt in *. match type of El with context [select ?q w] => destruct (select q w) as [x w1] eqn:E1 end.
  match type of El with context [InsertAuditRecord ?rec w1] => pose proof (insert_record_row rec w1 Hu) as Hrow;
    destruct (InsertAuditRecord rec w1) as [y w2] end.
  exists w2. split; [done|]. split; [done|]. cbn [snd rec_Action rec_UserID rec_Details] in Hrow.
  assert (Edb : w_db w1 = w_db w).
  { assert (E : db_steps (L := L) eq (select (fun db (_ : Z) =>
            if negb (text_ok target) then inl bad_text else
            match List.find (fun a => String.eqb (a_human_id a) target) (t_assets db) with
            | Some a => inr (a_id a) | None => inl ErrNoRows end))) by apply steps_select, _.
    specialize (E w). by rewrite E1 in E. }
  rewrite Edb in Hrow. exact Hrow.
Qed.

Lemma two_spellings_read m : m = JObj (jmap [("ACTION", jstr "pty_close"); ("action", jstr "wipe")]) ->
  message_action (json_marshal m) = Some "wipe".
Proof.
  intros ->. unfold message_action. rewrite message_back by (cbn [forallb fst snd]; by rewrite !shallow_str).
  cbn [mbind option_bind]. destruct (two_spellings_forwarded (jstr "wipe") (jstr "pty_close") JNull) as (_ & _ & _ & ->). by vm_compute.
Qed.

Lemma dispatch_reaches human serial payload a l' (w : World L) : w_faults w = [] ->
  Str.trim_space human = human -> forallb plain (Str.bytes human) = true -> human <> "" ->
  List.find (fun x => String.eqb (a_human_id x) human) (t_assets (w_db w)) = Some a -> a_cert_serial a = Some serial ->
  Str.trim_space serial = serial -> serial <> "" -> dispatch_json serial payload (w_link w) = (true, l') ->
  DispatchJSONByHumanID human payload w = (inr (), set_link l' w).
Proof.
  intros Hf Ht Hp Hn Ha Hs Hts Hne Hd. unfold DispatchJSONByHumanID. cbv zeta. rewrite Ht, (proj2 (String.eqb_neq _ _) Hn).
  unfold mbind, go_bind, attempt. rewrite select_ok by done. rewrite (plain_text_ok _ Hp). cbn [negb]. rewrite Ha, Hs. cbv iota beta.
  rewrite Hts, (proj2 (String.eqb_neq _ _) Hne). unfold dispatch. by rewrite Hd.
Qed.

(** C29: an operator, who may not wipe, sends a message that spells its action twice: the
    server reads the last spelling and forwards both in alphabetical order, the agent then
    reads the other: it is the agent's command to wipe.  The operator is told that pty_close was
    dispatched; and of the database at most the audit log changes, by one row, which names
    pty_close as the action. *)
Theorem two_spellings_wipe r p human serial (w : World L) :
  p_Role p <> RoleViewer -> w_faults w = [] -> Str.trim_space human = human -> forallb plain (Str.bytes human) = true ->
  human <> "" -> reachable_device serial human w ->
  exists m w', outbox (w_link w') = outbox (w_link w) ++ [(serial, m)] /\
    handle_dash_message r p (Some [("action", jstr "wipe"); ("ACTION", jstr "pty_close"); ("target_arx_id", jstr human)]) w
    = (inr (command_result true "pty_close dispatched"), w') /\
    at_most_one_row (dispatch_row (p_UserID p) "pty_close" human) (w_db w) (w_db w') /\
    forall bridge g, ag_actions (handleDownlink bridge (json_marshal m) g).2 = ag_actions g ++ [Wipe].
Proof.
  intros Hr Hf Ht Hp Hn (a & l' & Ha & Hs & Hts & Hne & Hd).
  destruct (two_spellings_forwarded (jstr "wipe") (jstr "pty_close") (jstr human)) as (E1 & E2 & E3 & _).
  pose proof (proj1 (dispatch_true _ _ _ _ Hd)) as Ho. rewrite Hts in Ho.
  destruct (audit_answers r (p_UserID p) "pty_close" human (set_link l' w) eq_refl) as (w' & Ew & El & Hrow).
  exists (JObj (jmap [("ACTION", jstr "pty_close"); ("action", jstr "wipe")])), w'. split_and!.
  - by rewrite El.
  - unfold handle_dash_message, decode_dash. cbn [mbind option_bind]. rewrite E2, E3, dec_jstr, coerce_plain by done.
    change (dec_string "" [jstr "wipe"; jstr "pty_close"]) with (Some "pty_close"). cbn [mbind option_bind].
    change (Str.trim_space (Str.to_lower "pty_close")) with "pty_close". rewrite Ht.
    change (String.eqb "pty_close" "") with false. rewrite (proj2 (String.eqb_neq _ _) Hn), (proj2 (String.eqb_neq _ _) Hr).
    change (existsb (String.eqb "pty_close") forwarded_actions) with true. cbn [String.eqb Ascii.eqb Bool.eqb orb].
    rewrite E1. unfold dash_dispatch, mbind, go_bind, attempt. erewrite dispatch_reaches by done. by rewrite Ew.
  - exact Hrow.
  - intros bridge g. unfold handleDownlink. by rewrite two_spellings_read.
Qed.
End session_facts.
