(* ===== verification/Profiles.v ===== *)
(** * Configuration profiles and device groups

    internal/api/{configuration_profiles,principal_groups}.go: the profiles, the groups with
    their devices, and what is assigned to which. *)

From S2P Require Import Prelude GoStd Float64 Json Ext World PolicyMerge Auth UsersAdmin DeviceCommands Alerting Compliance.

#[local] Open Scope string_scope.
#[local] Open Scope list_scope.

Definition maxConfigurationProfileJSON : Z := 768 * 1024.
Definition maxPrincipalGroupJSONBody : Z := 64 * 1024.

Definition profile_platforms : list string := ["windows"; "linux"; "android"].

Definition is_profile (id : uuid) (p : Profile) : bool := N.eqb (pf_id p) id.
Definition is_assignment (id : uuid) (a : Assignment) : bool := N.eqb (as_id a) id.
Definition is_group (id : uuid) (g : PrincipalGroup) : bool := N.eqb (gr_id g) id.
Definition is_member (group device : uuid) (m : GroupDevice) : bool := N.eqb (gd_group m) group && N.eqb (gd_device m) device.

#[export] Instance target_kind_eq : EqDecision target_kind.
Proof. unfold EqDecision, Decision. decide equality; apply N.eq_dec. Defined.

Definition same_target (profile : uuid) (t : target_kind) (a : Assignment) : bool :=
  N.eqb (as_profile a) profile && bool_decide (as_target a = t).

(** The CHECKs of configuration_profiles. *)
Definition profile_row_ok (p : Profile) : bool :=
  one_of (pf_platform p) profile_platforms && negb (String.eqb (pg_trim (pf_type p)) "")
  && text_ok (pf_name p) && text_ok (pf_type p).

(** The rows a new assignment references. *)
Definition target_exists (db : Tables) (t : target_kind) : bool :=
  match t with
  | TargetDevice d => asset_exists db d
  | TargetGroup g => existsb (is_group g) (t_groups db)
  end.

(** The unique index on lower(trim(name)). *)
Definition group_name `{PgLib} (name : string) : string := pg_lower (pg_trim name).

Definition bad_constraint : err := ErrMsg "violates constraint".

Section routes.
Context `{JC : JsonCodec} `{JE : JsonErrors} `{UL : UuidLib} `{GF : GoFmt} `{PG : PgLib} `{JL : JwtLib} {L : Type}.
Context (origins : list string).

(** ** configuration_profiles.go *)

Definition parseProfileUUID (r : Request) : string + uuid :=
  let raw := Str.trim_space (rq_path_id r) in
  if String.eqb raw "" then inl "missing profile id" else
  match uuid_parse raw with Some id => inr id | None => inl (json_error "uuid.UUID" raw) end.

(** [None]: the payload member is absent. *)
Record createProfileRequest := { cf_Name : string; cf_Platform : string; cf_Type : string; cf_Payload : option json }.
Record patchProfileRequest := {
  qf_Name : option string; qf_Type : option string; qf_Payload : option json; qf_Platform : option string }.
Record assignProfileRequest := { af_TargetKind : string; af_DeviceID : string; af_PrincipalGroupID : string }.

Definition raw_member (k : string) (m : list (string * json)) : option json := List.last (map Some (field k m)) None.

Definition decode_create_profile (body : string) : option createProfileRequest :=
  m ← unmarshal_map body;
  n ← dec_string "" (field "name" m);
  p ← dec_string "" (field "platform" m);
  t ← dec_string "" (field "type" m);
  Some {| cf_Name := Str.trim_space n; cf_Platform := p; cf_Type := Str.trim_space t; cf_Payload := raw_member "payload" m |}.

Definition decode_patch_profile (body : string) : option patchProfileRequest :=
  m ← unmarshal_map body;
  n ← dec_opt_string None (field "name" m);
  t ← dec_opt_string None (field "type" m);
  p ← dec_opt_string None (field "platform" m);
  Some {| qf_Name := n; qf_Type := t; qf_Payload := raw_member "payload" m; qf_Platform := p |}.

Definition decode_assign (body : string) : option assignProfileRequest :=
  m ← unmarshal_map body;
  k ← dec_string "" (field "target_kind" m);
  d ← dec_string "" (field "device_id" m);
  g ← dec_string "" (field "principal_group_id" m);
  Some {| af_TargetKind := k; af_DeviceID := d; af_PrincipalGroupID := g |}.

Definition allowedPlatform (s : string) : option string :=
  let s := Str.to_lower (Str.trim_space s) in if one_of s profile_platforms then Some s else None.

(** The payload as the column gives it back; what depends on it decodes it. *)
Definition profile_json (p : Profile) : json :=
  JObj (jmap [("id", jstr (uuid_string (pf_id p))); ("name", jstr (pf_name p)); ("platform", jstr (pf_platform p));
              ("type", jstr (pf_type p));
              ("payload", if String.eqb (pf_payload p) "" then JObj [] else default JNull (json_unmarshal (pf_payload p)));
              ("created_at", jstr (fmt_time (pf_created p)))]).

Definition newest_profile (a b : Profile) : bool := (pf_created b <? pf_created a)%Z.

Definition handleListProfiles (r : Request) : go L Response :=
  let? _ := require_method "GET" r in
  let? _ := RequireMinRole origins r RoleViewer in
  rows ← attempt (select (fun db _ => inr (take 800 (sort_slice newest_profile (t_profiles db)))));
  mret match rows with
       | inl _ => writeTicketsError 500 "failed to list profiles"
       | inr rows => writeTicketsJSON 200 (JArr (map profile_json rows))
       end.

Definition insert_profile (name platform ptype : string) (payload : json) : go L uuid :=
  insert_id (fun id db t =>
    let row := {| pf_id := id; pf_name := name; pf_platform := platform; pf_type := ptype;
                  pf_payload := json_marshal payload; pf_created := t |} in
    if json_has_nul payload then inl bad_jsonb else
    if negb (profile_row_ok row) then inl bad_constraint else
    inr (id, with_profiles (t_profiles db ++ [row]) db)).

Definition bad_name (name : string) : bool := String.eqb name "" || (200 <? Str.rune_count name)%Z.

Definition handleCreateProfile (r : Request) : go L Response :=
  let? _ := require_method "POST" r in
  let? _ := RequireMinRole origins r RoleOperator in
  match read_body maxConfigurationProfileJSON r with
  | None => mret (writeTicketsError 400 "unable to read body")
  | Some body =>
  match decode_create_profile body with
  | None => mret (writeTicketsError 400 "invalid JSON body")
  | Some req =>
      if bad_name (cf_Name req) || String.eqb (cf_Type req) "" then mret (writeTicketsError 400 "name and type are required") else
      match allowedPlatform (cf_Platform req) with
      | None => mret (writeTicketsError 400 "platform must be windows, linux, or android")
      | Some platform =>
          id ← attempt (insert_profile (cf_Name req) platform (cf_Type req) (default (JObj []) (cf_Payload req)));
          mret match id with
               | inl _ => writeTicketsError 500 "failed to create profile"
               | inr id => writeTicketsJSON 201 (JObj [("id", jstr (uuid_string id))])
               end
      end
  end end.

Definition load_profile (id : uuid) : go L Profile :=
  select (fun db _ => match List.find (is_profile id) (t_profiles db) with Some p => inr p | None => inl ErrNoRows end).

Definition handleGetProfile (r : Request) : go L Response :=
  let? _ := require_method "GET" r in
  let? _ := RequireMinRole origins r RoleViewer in
  match parseProfileUUID r with
  | inl e => mret (writeTicketsError 400 e)
  | inr pid =>
      p ← attempt (load_profile pid);
      mret match p with
           | inl _ => writeTicketsError 404 "profile not found"
           | inr p => writeTicketsJSON 200 (profile_json p)
           end
  end.

Definition set_pf_name (s : string) (p : Profile) : Profile :=
  {| pf_id := pf_id p; pf_name := s; pf_platform := pf_platform p; pf_type := pf_type p; pf_payload := pf_payload p;
     pf_created := pf_created p |}.
Definition set_pf_type (s : string) (p : Profile) : Profile :=
  {| pf_id := pf_id p; pf_name := pf_name p; pf_platform := pf_platform p; pf_type := s; pf_payload := pf_payload p;
     pf_created := pf_created p |}.
Definition set_pf_platform (s : string) (p : Profile) : Profile :=
  {| pf_id := pf_id p; pf_name := pf_name p; pf_platform := s; pf_type := pf_type p; pf_payload := pf_payload p;
     pf_created := pf_created p |}.
Definition set_pf_payload (v : json) (p : Profile) : Profile :=
  {| pf_id := pf_id p; pf_name := pf_name p; pf_platform := pf_platform p; pf_type := pf_type p; pf_payload := json_marshal v;
     pf_created := pf_created p |}.

(** UPDATE configuration_profiles SET one column; the rows affected. *)
Definition update_profile (id : uuid) (refused : bool) (f : Profile -> Profile) : go L nat :=
  exec (fun db _ =>
    if refused then inl bad_jsonb else
    if existsb (fun p => is_profile id p && negb (profile_row_ok (f p))) (t_profiles db) then inl bad_constraint else
    inr (count_where (is_profile id) (t_profiles db),
         with_profiles (update_where (is_profile id) f (t_profiles db)) db)).

(** One field of the patch, when it is given: its value is refused, or its column is set. *)
Definition patch_column {A} (id : uuid) (v : option A) (check : A -> string + (bool * (Profile -> Profile)))
    (k : go L Response) : go L Response :=
  match v with
  | None => k
  | Some x =>
      match check x with
      | inl msg => mret (writeTicketsError 400 msg)
      | inr (refused, f) =>
          n ← attempt (update_profile id refused f);
          match n with
          | inl _ | inr O => mret (writeTicketsError 404 "profile not found")
          | inr _ => k
          end
      end
  end.

Definition check_name (s : string) : string + (bool * (Profile -> Profile)) :=
  let name := Str.trim_space s in if bad_name name then inl "invalid name" else inr (false, set_pf_name name).
Definition check_type (s : string) : string + (bool * (Profile -> Profile)) :=
  let t := Str.trim_space s in if String.eqb t "" then inl "invalid type" else inr (false, set_pf_type t).
Definition check_platform (s : string) : string + (bool * (Profile -> Profile)) :=
  match allowedPlatform s with None => inl "invalid platform" | Some p => inr (false, set_pf_platform p) end.
Definition check_profile_payload (v : json) : string + (bool * (Profile -> Profile)) := inr (json_has_nul v, set_pf_payload v).

Definition status_ok : Response := writeTicketsJSON 200 (JObj [("status", jstr "ok")]).

Definition handlePatchProfile (r : Request) : go L Response :=
  let? _ := require_method "PATCH" r in
  let? _ := RequireMinRole origins r RoleOperator in
  match parseProfileUUID r with
  | inl e => mret (writeTicketsError 400 e)
  | inr pid =>
  match read_body maxConfigurationProfileJSON r with
  | None => mret (writeTicketsError 400 "unable to read body")
  | Some body =>
  match decode_patch_profile body with
  | None => mret (writeTicketsError 400 "invalid JSON body")
  | Some patch =>
      patch_column pid (qf_Name patch) check_name
      (patch_column pid (qf_Type patch) check_type
      (patch_column pid (qf_Platform patch) check_platform
      (patch_column pid (qf_Payload patch) check_profile_payload (mret status_ok))))
  end end end.

(** The assignments of a profile go with it. *)
Definition delete_profile (id : uuid) : go L nat :=
  exec (fun db _ =>
    inr (count_where (is_profile id) (t_profiles db),
         with_assignments (delete_where (fun a => N.eqb (as_profile a) id) (t_assignments db))
           (with_profiles (delete_where (is_profile id) (t_profiles db)) db))).

(** A DELETE's error, no row, or done. *)
Definition deleted (n : err + nat) (failed missing : string) : Response :=
  match n with
  | inl _ => writeTicketsError 500 failed
  | inr O => writeTicketsError 404 missing
  | inr _ => status_ok
  end.

Definition handleDeleteProfile (r : Request) : go L Response :=
  let? _ := require_method "DELETE" r in
  let? _ := RequireMinRole origins r RoleOperator in
  match parseProfileUUID r with
  | inl e => mret (writeTicketsError 400 e)
  | inr pid => n ← attempt (delete_profile pid); mret (deleted n "failed to delete profile" "profile not found")
  end.

(** ** Assignments *)

Definition target_members (t : target_kind) : list (string * json) :=
  match t with
  | TargetDevice d => [("target_kind", jstr "device"); ("device_id", jstr (uuid_string d))]
  | TargetGroup g => [("target_kind", jstr "principal_group"); ("principal_group_id", jstr (uuid_string g))]
  end.

Definition assignment_json (a : Assignment) : json :=
  JObj (jmap ([("id", jstr (uuid_string (as_id a))); ("profile_id", jstr (uuid_string (as_profile a)))]
    ++ target_members (as_target a)
    ++ [("created_at", jstr (fmt_time (as_created a))); ("assignment_state", jstr (as_state a))])).

Definition newest_assignment (a b : Assignment) : bool := (as_created b <? as_created a)%Z.

Definition handleListAssignments (r : Request) : go L Response :=
  let? _ := require_method "GET" r in
  let? _ := RequireMinRole origins r RoleViewer in
  match parseProfileUUID r with
  | inl e => mret (writeTicketsError 400 e)
  | inr pid =>
      rows ← attempt (select (fun db _ => inr (List.firstn (Z.to_nat 8000) (sort_slice newest_assignment
               (List.filter (fun a => N.eqb (as_profile a) pid) (t_assignments db))))));
      mret match rows with
           | inl _ => writeTicketsError 500 "failed to list assignments"
           | inr rows => writeTicketsJSON 200 (JArr (map assignment_json rows))
           end
  end.

(** INSERT ... ON CONFLICT DO NOTHING RETURNING id: no row when there is one already. *)
Definition insert_assignment (pid : uuid) (t : target_kind) : go L uuid :=
  insert_id (fun id db now =>
    if existsb (same_target pid t) (t_assignments db) then inl ErrNoRows else
    if negb (existsb (is_profile pid) (t_profiles db) && target_exists db t) then inl bad_constraint else
    inr (id, with_assignments (t_assignments db ++
      [{| as_id := id; as_profile := pid; as_target := t; as_state := "ok"; as_created := now |}]) db)).

Definition existing_assignment (pid : uuid) (t : target_kind) : go L uuid :=
  select (fun db _ => match List.find (same_target pid t) (t_assignments db) with
                      | Some a => inr (as_id a) | None => inl ErrNoRows end).

(** Links the target, or finds the link there is: its id, or the status and the text. *)
Definition link_target (pid : uuid) (t : target_kind) (failed duplicate : string) : go L Response :=
  let answer (id : uuid) := writeTicketsJSON 201 (JObj [("assignment_id", jstr (uuid_string id))]) in
  id ← attempt (insert_assignment pid t);
  match id with
  | inr id => mret (answer id)
  | inl e =>
      if negb (is_no_rows e) then mret (writeTicketsError 500 failed) else
      id ← attempt (existing_assignment pid t);
      mret match id with inr id => answer id | inl _ => writeTicketsError 409 duplicate end
  end.

(** A UUID that is given and is not nil. *)
Definition given_uuid (s : string) : option uuid :=
  match uuid_parse (Str.trim_space s) with Some id => if N.eqb id uuid_nil then None else Some id | None => None end.

Definition handleAssignProfile (r : Request) : go L Response :=
  let? _ := require_method "POST" r in
  let? _ := RequireMinRole origins r RoleOperator in
  match parseProfileUUID r with
  | inl e => mret (writeTicketsError 400 e)
  | inr pid =>
  match read_body maxConfigurationProfileJSON r with
  | None => mret (writeTicketsError 400 "unable to read body")
  | Some body =>
  match decode_assign body with
  | None => mret (writeTicketsError 400 "invalid JSON body")
  | Some req =>
      let target := Str.trim_space (Str.to_lower (af_TargetKind req)) in
      if negb (one_of target ["device"; "principal_group"])
      then mret (writeTicketsError 400 "target_kind must be device or principal_group") else
      p ← attempt (load_profile pid);
      match p with
      | inl _ => mret (writeTicketsError 404 "profile not found")
      | inr _ =>
          if String.eqb target "device" then
            match given_uuid (af_DeviceID req) with
            | None => mret (writeTicketsError 400 "device_id is required")
            | Some did => link_target pid (TargetDevice did) "failed to link device assignment"
                            "duplicate assignment or invalid asset"
            end
          else
            match given_uuid (af_PrincipalGroupID req) with
            | None => mret (writeTicketsError 400 "principal_group_id is required")
            | Some gid => link_target pid (TargetGroup gid) "failed to link cohort assignment"
                            "duplicate assignment or invalid cohort"
            end
      end
  end end end.

Definition delete_assignment (id : uuid) : go L nat :=
  exec (fun db _ => inr (count_where (is_assignment id) (t_assignments db),
    with_assignments (delete_where (is_assignment id) (t_assignments db)) db)).

Definition handleRemoveAssignment (r : Request) : go L Response :=
  let? _ := require_method "DELETE" r in
  let? _ := RequireMinRole origins r RoleOperator in
  match given_uuid (rq_path_id r) with
  | None => mret (writeTicketsError 400 "assignment id invalid")
  | Some id => n ← attempt (delete_assignment id); mret (deleted n "failed to remove assignment" "assignment missing")
  end.

(** ** principal_groups.go *)

(** The groups' routes do not take the nil id. *)
Definition parseGroupID (r : Request) : option uuid := given_uuid (rq_path_id r).

Definition group_json (g : PrincipalGroup) : json :=
  JObj (jmap [("id", jstr (uuid_string (gr_id g))); ("name", jstr (gr_name g)); ("description", jstr (gr_description g));
              ("created_at", jstr (fmt_time (gr_created g)))]).

Definition group_by_name (a b : PrincipalGroup) : bool := pg_text_lt (pg_lower (gr_name a)) (pg_lower (gr_name b)).

Definition groups_handleList (r : Request) : go L Response :=
  let? _ := require_method "GET" r in
  let? _ := RequireMinRole origins r RoleViewer in
  rows ← attempt (select (fun db _ => inr (take 500 (sort_slice group_by_name (t_groups db)))));
  mret match rows with
       | inl _ => writeTicketsError 500 "failed to load groups"
       | inr rows => writeTicketsJSON 200 (JArr (map group_json rows))
       end.

Definition decode_create_group (body : string) : option (string * string) :=
  m ← unmarshal_map body;
  n ← dec_string "" (field "name" m);
  d ← dec_string "" (field "description" m);
  Some (Str.trim_space n, Str.trim_space d).

(** The name of another group. *)
Definition name_taken (db : Tables) (id : uuid) (name : string) : bool :=
  existsb (fun g => negb (is_group id g) && String.eqb (group_name (gr_name g)) (group_name name)) (t_groups db).

Definition insert_group (name description : string) : go L uuid :=
  insert_id (fun id db t =>
    if negb (text_ok name && text_ok description) then inl bad_text else
    if existsb (is_group id) (t_groups db) || name_taken db id name then inl bad_constraint else
    inr (id, with_groups (t_groups db ++
      [{| gr_id := id; gr_name := name; gr_description := description; gr_created := t |}]) db)).

Definition groups_handleCreate (r : Request) : go L Response :=
  let? _ := require_method "POST" r in
  let? _ := RequireMinRole origins r RoleOperator in
  match read_body maxPrincipalGroupJSONBody r with
  | None => mret (writeTicketsError 400 "unable to read body")
  | Some body =>
  match decode_create_group body with
  | None => mret (writeTicketsError 400 "invalid JSON body")
  | Some (name, description) =>
      if bad_name name then mret (writeTicketsError 400 "name is required") else
      id ← attempt (insert_group name description);
      mret match id with
           | inl _ => writeTicketsError 500 "failed to create group"
           | inr id => writeTicketsJSON 201 (JObj [("id", jstr (uuid_string id))])
           end
  end end.

Definition load_group (id : uuid) : go L PrincipalGroup :=
  select (fun db _ => match List.find (is_group id) (t_groups db) with Some g => inr g | None => inl ErrNoRows end).

Definition newest_member (a b : GroupDevice) : bool := (gd_created b <? gd_created a)%Z.

Definition groups_handleGet (r : Request) : go L Response :=
  let? _ := require_method "GET" r in
  let? _ := RequireMinRole origins r RoleViewer in
  match parseGroupID r with
  | None => mret (writeTicketsError 400 "missing group id")
  | Some gid =>
      g ← attempt (load_group gid);
      match g with
      | inl _ => mret (writeTicketsError 404 "group not found")
      | inr g =>
          ms ← attempt (select (fun db _ => inr (take 5000 (sort_slice newest_member
                 (List.filter (fun m => N.eqb (gd_group m) gid) (t_group_devices db))))));
          mret match ms with
               | inl _ => writeTicketsError 500 "failed to enumerate members"
               | inr ms => writeTicketsJSON 200 (JObj (jmap [("group", group_json g);
                   ("device_ids", JArr (map (fun m => jstr (uuid_string (gd_device m))) ms))]))
               end
      end
  end.

Definition set_gr_name (s : string) (g : PrincipalGroup) : PrincipalGroup :=
  {| gr_id := gr_id g; gr_name := s; gr_description := gr_description g; gr_created := gr_created g |}.
Definition set_gr_description (s : string) (g : PrincipalGroup) : PrincipalGroup :=
  {| gr_id := gr_id g; gr_name := gr_name g; gr_description := s; gr_created := gr_created g |}.

Definition decode_patch_group (body : string) : option (option string * option string) :=
  m ← unmarshal_map body;
  n ← dec_opt_string None (field "name" m);
  d ← dec_opt_string None (field "description" m);
  Some (n, d).

Definition rename_group (id : uuid) (name : string) : go L nat :=
  exec (fun db _ =>
    if negb (text_ok name) then inl bad_text else
    if existsb (is_group id) (t_groups db) && name_taken db id name then inl bad_constraint else
    inr (count_where (is_group id) (t_groups db),
         with_groups (update_where (is_group id) (set_gr_name name) (t_groups db)) db)).

Definition describe_group (id : uuid) (description : string) : go L nat :=
  exec (fun db _ =>
    if negb (text_ok description) then inl bad_text else
    inr (count_where (is_group id) (t_groups db),
         with_groups (update_where (is_group id) (set_gr_description description) (t_groups db)) db)).

(** An UPDATE of the group: its error, no row, or on with the next. *)
Definition then_updated (m : go L nat) (k : go L Response) : go L Response :=
  n ← attempt m;
  match n with
  | inl _ => mret (writeTicketsError 500 "failed to update group")
  | inr O => mret (writeTicketsError 404 "group not found")
  | inr _ => k
  end.

Definition groups_handlePatch (r : Request) : go L Response :=
  let? _ := require_method "PATCH" r in
  let? _ := RequireMinRole origins r RoleOperator in
  match parseGroupID r with
  | None => mret (writeTicketsError 400 "missing group id")
  | Some gid =>
  match read_body maxPrincipalGroupJSONBody r with
  | None => mret (writeTicketsError 400 "unable to read body")
  | Some body =>
  match decode_patch_group body with
  | None => mret (writeTicketsError 400 "invalid JSON body")
  | Some (name, description) =>
      let describe := match description with
                      | None => mret status_ok
                      | Some d => then_updated (describe_group gid (Str.trim_space d)) (mret status_ok)
                      end in
      match name with
      | None => describe
      | Some n => if bad_name (Str.trim_space n) then mret (writeTicketsError 400 "invalid name")
                  else then_updated (rename_group gid (Str.trim_space n)) describe
      end
  end end end.

(** The memberships and the assignments of a group go with it. *)
Definition delete_group (id : uuid) : go L nat :=
  exec (fun db _ =>
    inr (count_where (is_group id) (t_groups db),
         with_assignments (delete_where (fun a => bool_decide (as_target a = TargetGroup id)) (t_assignments db))
           (with_group_devices (delete_where (fun m => N.eqb (gd_group m) id) (t_group_devices db))
             (with_groups (delete_where (is_group id) (t_groups db)) db)))).

Definition groups_handleDelete (r : Request) : go L Response :=
  let? _ := require_method "DELETE" r in
  let? _ := RequireMinRole origins r RoleOperator in
  match parseGroupID r with
  | None => mret (writeTicketsError 400 "missing group id")
  | Some gid => n ← attempt (delete_group gid); mret (deleted n "failed to delete group" "group not found")
  end.

Definition dec_item (cur : string) (v : json) : option string := dec_string cur [v].

Definition decode_devices (body : string) : option (list string) :=
  m ← unmarshal_map body;
  l ← dec_field (dec_slice "" dec_item) None (field "device_ids" m);
  Some (default [] l).

(** ON CONFLICT DO NOTHING: the rows inserted. *)
Definition insert_member (gid did : uuid) : go L Z :=
  exec (fun db t =>
    if existsb (is_member gid did) (t_group_devices db) then inr (0%Z, db) else
    if negb (existsb (is_group gid) (t_groups db) && asset_exists db did) then inl bad_constraint else
    inr (1%Z, with_group_devices (t_group_devices db ++ [{| gd_group := gid; gd_device := did; gd_created := t |}]) db)).

(** One statement per device: an error leaves the devices before it in the group. *)
Definition groups_handleAddDevices (r : Request) : go L Response :=
  let? _ := require_method "POST" r in
  let? _ := RequireMinRole origins r RoleOperator in
  match parseGroupID r with
  | None => mret (writeTicketsError 400 "missing group id")
  | Some gid =>
  match read_body maxPrincipalGroupJSONBody r with
  | None => mret (writeTicketsError 400 "unable to read body")
  | Some body =>
  match decode_devices body with
  | None => mret (writeTicketsError 400 "invalid JSON body")
  | Some [] => mret (writeTicketsError 400 "device_ids is required")
  | Some raw =>
  match mapM (fun s => uuid_parse (Str.trim_space s)) raw with
  | None => mret (writeTicketsError 400 "invalid device id")
  | Some devices =>
      g ← attempt (load_group gid);
      match g with
      | inl _ => mret (writeTicketsError 404 "group not found")
      | inr _ =>
          n ← attempt (for_fold devices 0%Z (fun n did => k ← insert_member gid did; mret (n + k)%Z));
          mret match n with
               | inl _ => writeTicketsError 500 "failed to add devices"
               | inr n => writeTicketsJSON 200 (JObj (jmap [("status", jstr "ok"); ("memberships_inserted", JNum (F64.of_Z n))]))
               end
      end
  end end end end.

Definition delete_member (gid did : uuid) : go L nat :=
  exec (fun db _ => inr (count_where (is_member gid did) (t_group_devices db),
    with_group_devices (delete_where (is_member gid did) (t_group_devices db)) db)).

Definition groups_handleRemoveDevice (r : Request) : go L Response :=
  let? _ := require_method "DELETE" r in
  let? _ := RequireMinRole origins r RoleOperator in
  match parseGroupID r with
  | None => mret (writeTicketsError 400 "missing group id")
  | Some gid =>
  match given_uuid (rq_path_id2 r) with
  | None => mret (writeTicketsError 400 "invalid device id")
  | Some did => n ← attempt (delete_member gid did); mret (deleted n "failed to detach device" "membership not found")
  end end.
End routes.
