(* ===== verification/ProfilesFacts.v ===== *)
(** * Profiles, groups, assignments: the tables, and what a device gets

    Properties of [Profiles], some together with the merged policy the device pulls. *)

From S2P Require Import Prelude GoStd Float64 Json Ext JsonFacts World PolicyMerge Auth UsersAdmin DeviceCommands Alerting Compliance.
From S2P Require Import PolicyResult AuthFacts Enrollment MdmDownlink AgentPolicyFacts Profiles.

#[local] Open Scope string_scope.
#[local] Open Scope list_scope.

(** ** The tables *)

Definition refers (db : Tables) (a : Assignment) : bool :=
  existsb (is_profile (as_profile a)) (t_profiles db) && target_exists db (as_target a).

Definition member_refers (db : Tables) (m : GroupDevice) : bool :=
  existsb (is_group (gd_group m)) (t_groups db) && asset_exists db (gd_device m).

Definition assignment_key (a : Assignment) : uuid * target_kind := (as_profile a, as_target a).
Definition member_key (m : GroupDevice) : uuid * uuid := (gd_group m, gd_device m).

Record policy_tables_ok `{PgLib} (db : Tables) : Prop := {
  ok_profiles : forall p, In p (t_profiles db) -> profile_row_ok p = true;
  ok_group_ids : NoDup (gr_id <$> t_groups db);
  ok_group_names : NoDup ((fun g => group_name (gr_name g)) <$> t_groups db);
  ok_assignments : forall a, In a (t_assignments db) -> refers db a = true;
  ok_assignment_keys : NoDup (assignment_key <$> t_assignments db);
  ok_members : forall m, In m (t_group_devices db) -> member_refers db m = true;
  ok_member_keys : NoDup (member_key <$> t_group_devices db)
}.

Section writers.
Context `{JC : JsonCodec} `{JE : JsonErrors} `{UL : UuidLib} `{GF : GoFmt} `{PG : PgLib} `{JL : JwtLib} {L : Type}.
Notation kept := (db_steps (L := L) (keeps policy_tables_ok)).

Lemma insert_profile_kept name platform ptype payload : kept (insert_profile name platform ptype payload).
Proof.
  apply steps_insert_id; [typeclasses eauto|]. intros id db t x db'. cbv zeta. destruct (json_has_nul payload); [done|].
  destruct (profile_row_ok _) eqn:E; [|done]. intros [= _ <-] [H1 H2 H3 H4 H5 H6 H7]. split; try done.
  - intros p [Hin|[<-|[]]]%in_app_or; [by apply H1|done].
  - intros a Ha. apply H4 in Ha. unfold refers in *. apply andb_true_iff in Ha as [Hp Ht]. apply andb_true_iff.
    split; [by apply existsb_app_l|]. by destruct (as_target a).
Qed.

Lemma update_profile_kept id refused f : (forall p, pf_id (f p) = pf_id p) -> kept (update_profile id refused f).
Proof.
  intros Hf. apply steps_exec; [typeclasses eauto|]. intros db t x db'. destruct refused; [done|].
  destruct (existsb _ _) eqn:E; [done|]. intros [= _ <-] [H1 H2 H3 H4 H5 H6 H7]. split; try done.
  - intros p (q & Hq & ->)%update_where_In. destruct (is_profile id q) eqn:Eq; [|by apply H1].
    destruct (profile_row_ok (f q)) eqn:R; [done|]. rewrite <- E. apply existsb_exists. exists q. by rewrite Eq, R.
  - intros a Ha. apply H4 in Ha. unfold refers in *. cbn [t_profiles with_profiles]. rewrite existsb_update; [by destruct (as_target a)|].
    intros p. unfold is_profile. by rewrite Hf.
Qed.

Lemma delete_profile_kept id : kept (delete_profile id).
Proof.
  apply steps_exec; [typeclasses eauto|]. intros db t x db' [= _ <-] [H1 H2 H3 H4 H5 H6 H7]. split; try done; simpl.
  - intros p [Hin _]%filter_In. by apply H1.
  - intros a [Hin Hne]%filter_In. apply H4 in Hin. unfold refers in *. apply andb_true_iff in Hin as [Hp Ht].
    apply andb_true_iff. split; [|by destruct (as_target a)]. apply existsb_delete; [done|].
    intros q Hq. unfold is_profile in *. apply N.eqb_eq in Hq as ->. by apply negb_true_iff in Hne.
  - by apply NoDup_delete.
Qed.

Lemma insert_assignment_kept pid t : kept (insert_assignment pid t).
Proof.
  apply steps_insert_id; [typeclasses eauto|]. intros id db now x db'. destruct (existsb (same_target _ _) _) eqn:E; [done|].
  destruct (existsb (is_profile pid) _ && _) eqn:R; [|done]. intros [= _ <-] [H1 H2 H3 H4 H5 H6 H7]. split; try done; simpl.
  - intros a [Hin|[<-|[]]]%in_app_or; [by apply H4|]. exact R.
  - apply NoDup_snoc; [done|]. intros a Ha [= Ep Et]. apply not_true_iff_false in E. apply E. apply existsb_exists.
    exists a. split; [done|]. unfold same_target. cbn in Ep, Et. rewrite Ep, N.eqb_refl. by rewrite bool_decide_eq_true_2.
Qed.

Lemma delete_assignment_kept id : kept (delete_assignment id).
Proof.
  apply steps_exec; [typeclasses eauto|]. intros db t x db' [= _ <-] [H1 H2 H3 H4 H5 H6 H7]. split; try done; simpl.
  - intros a [Hin _]%filter_In. by apply H4.
  - by apply NoDup_delete.
Qed.

Lemma insert_group_kept name description : kept (insert_group name description).
Proof.
  apply steps_insert_id; [typeclasses eauto|]. intros id db t x db'. destruct (negb _); [done|].
  destruct (existsb (is_group id) _ || _) eqn:E; [done|]. apply orb_false_iff in E as [Ei En].
  assert (Hid : forall g, In g (t_groups db) -> gr_id g <> id).
  { intros g Hg Eg. apply not_true_iff_false in Ei. apply Ei, existsb_exists. exists g. split; [done|]. by apply N.eqb_eq. }
  intros [= _ <-] [H1 H2 H3 H4 H5 H6 H7]. split; try done; simpl.
  - apply NoDup_snoc; [done|]. intros g Hg. by apply Hid.
  - apply NoDup_snoc; [done|]. intros g Hg Eg. apply not_true_iff_false in En. apply En, existsb_exists. exists g.
    split; [done|]. apply andb_true_iff. split; [|by apply String.eqb_eq]. apply negb_true_iff, N.eqb_neq. by apply Hid.
  - intros a Ha. apply H4 in Ha. unfold refers in *. apply andb_true_iff in Ha as [Hp Ht]. apply andb_true_iff.
    split; [done|]. destruct (as_target a); [done|]. by apply existsb_app_l.
  - intros m Hm. apply H6 in Hm. unfold member_refers in *. apply andb_true_iff in Hm as [Hg Hd]. apply andb_true_iff.
    split; [by apply existsb_app_l|done].
Qed.

(** A column of a group that is no key changes. *)
Lemma groups_update p f db : (forall g, gr_id (f g) = gr_id g) ->
  NoDup ((fun g => group_name (gr_name g)) <$> update_where p f (t_groups db)) ->
  keeps policy_tables_ok db (with_groups (update_where p f (t_groups db)) db).
Proof.
  intros Hf Hn [H1 H2 H3 H4 H5 H6 H7].
  assert (Hg : forall g, existsb (is_group g) (update_where p f (t_groups db)) = existsb (is_group g) (t_groups db)).
  { intros g. apply existsb_update. intros x. unfold is_group. by rewrite Hf. }
  split; try done; simpl.
  - by rewrite fmap_update.
  - intros a Ha. apply H4 in Ha. unfold refers in *. destruct (as_target a); [done|]. simpl in *. by rewrite Hg.
  - intros m Hm. apply H6 in Hm. unfold member_refers in *. simpl. by rewrite Hg.
Qed.

(** Nobody else has the new name, and one row is renamed. *)
Lemma renamed_distinct id name l : NoDup (gr_id <$> l) -> NoDup ((fun g => group_name (gr_name g)) <$> l) ->
  (forall g, In g l -> gr_id g <> id -> group_name (gr_name g) <> group_name name) ->
  NoDup ((fun g => group_name (gr_name g)) <$> update_where (is_group id) (set_gr_name name) l).
Proof.
  intros Hi Hn Ho. apply NoDup_rekey with (k := group_name name); [done| |].
  - intros x y Hx Hy Ex%N.eqb_eq Ey%N.eqb_eq. apply (NoDup_unique gr_id l); [done..|congruence].
  - intros x Hx. destruct (is_group id x) eqn:E; [done|]. apply Ho; [done|]. by apply N.eqb_neq in E.
Qed.

Lemma rename_group_kept id name : kept (rename_group id name).
Proof.
  apply steps_exec; [typeclasses eauto|]. intros db t x db'. destruct (negb _); [done|].
  destruct (existsb (is_group id) _ && _) eqn:E; [done|]. intros [= _ <-] Hok. apply groups_update; [done| |done].
  destruct (existsb (is_group id) (t_groups db)) eqn:Ei.
  - apply renamed_distinct; [apply Hok..|]. intros g Hg Hne En. simpl in E. apply not_true_iff_false in E. apply E, existsb_exists.
    exists g. split; [done|]. apply andb_true_iff. split; [by apply negb_true_iff, N.eqb_neq|by apply String.eqb_eq].
  - assert (Eu : update_where (is_group id) (set_gr_name name) (t_groups db) = t_groups db); [|rewrite Eu; apply Hok].
    apply update_where_none. intros g Hg. apply not_true_iff_false. intros Eg. apply not_true_iff_false in Ei. apply Ei, existsb_exists. eauto.
Qed.

Lemma describe_group_kept id d : kept (describe_group id d).
Proof.
  apply steps_exec; [typeclasses eauto|]. intros db t x db'. destruct (negb _); [done|]. intros [= _ <-] Hok.
  apply groups_update; [done| |done]. rewrite fmap_update by done. apply Hok.
Qed.

Lemma delete_group_kept id : kept (delete_group id).
Proof.
  apply steps_exec; [typeclasses eauto|]. intros db t x db' [= _ <-] [H1 H2 H3 H4 H5 H6 H7]. split; simpl; try done.
  - by apply NoDup_delete.
  - by apply NoDup_delete.
  - intros a [Ha Hne]%filter_In. apply H4 in Ha. unfold refers in *. apply andb_true_iff in Ha as [Hp Ht]. apply andb_true_iff.
    split; [done|]. destruct (as_target a) as [d|g] eqn:Et; [done|]. simpl in *. apply existsb_delete; [done|].
    intros y Hy. unfold is_group in *. apply N.eqb_eq in Hy as ->. apply N.eqb_neq. intros ->.
    rewrite bool_decide_eq_true_2 in Hne; done.
  - by apply NoDup_delete.
  - intros m [Hm Hne]%filter_In. apply H6 in Hm. unfold member_refers in *. apply andb_true_iff in Hm as [Hg Hd]. apply andb_true_iff.
    split; [|done]. apply existsb_delete; [done|]. intros y Hy. unfold is_group in *. apply N.eqb_eq in Hy as ->.
    by apply negb_true_iff in Hne.
  - by apply NoDup_delete.
Qed.

Lemma insert_member_kept gid did : kept (insert_member gid did).
Proof.
  apply steps_exec; [typeclasses eauto|]. intros db t x db'. destruct (existsb (is_member gid did) _) eqn:E; [by intros [= _ <-]|].
  destruct (existsb (is_group gid) _ && _) eqn:R; [|done]. intros [= _ <-] [H1 H2 H3 H4 H5 H6 H7]. split; try done; simpl.
  - intros m [Hin|[<-|[]]]%in_app_or; [by apply H6|]. exact R.
  - apply NoDup_snoc; [done|]. intros m Hm [= Eg Ed]. apply not_true_iff_false in E. apply E, existsb_exists. exists m.
    split; [done|]. unfold is_member. by rewrite Eg, Ed, !N.eqb_refl.
Qed.

Lemma delete_member_kept gid did : kept (delete_member gid did).
Proof.
  apply steps_exec; [typeclasses eauto|]. intros db t x db' [= _ <-] [H1 H2 H3 H4 H5 H6 H7]. split; try done; simpl.
  - intros m [Hin _]%filter_In. by apply H6.
  - by apply NoDup_delete.
Qed.
End writers.

#[export] Hint Resolve insert_profile_kept delete_profile_kept insert_assignment_kept delete_assignment_kept insert_group_kept
  rename_group_kept describe_group_kept delete_group_kept insert_member_kept delete_member_kept : arx.

Section routes_keep.
Context `{JC : JsonCodec} `{JE : JsonErrors} `{UL : UuidLib} `{GF : GoFmt} `{PG : PgLib} `{JL : JwtLib} {L : Type}.
Notation kept := (db_steps (L := L) (keeps policy_tables_ok)).

Lemma patch_column_kept {A} id (v : option A) check k :
  (forall x refused f, check x = inr (refused, f) -> forall p, pf_id (f p) = pf_id p) -> kept k -> kept (patch_column id v check k).
Proof.
  intros Hc Hk. unfold patch_column. destruct v as [x|]; [|done]. destruct (check x) as [msg|[refused f]] eqn:E; [db_walk|].
  pose proof (update_profile_kept (L := L) id refused f (Hc _ _ _ E)). db_walk.
Qed.

Lemma link_target_kept pid t f d : kept (link_target pid t f d).
Proof. unfold link_target, existing_assignment. cbv zeta. db_walk. Qed.

Lemma patch_profile_kept origins r : kept (handlePatchProfile origins r).
Proof.
  unfold handlePatchProfile. destruct (require_method "PATCH" r); [db_walk|]. destruct (RequireMinRole _ _ _); [db_walk|].
  destruct (parseProfileUUID r); [db_walk|]. destruct (read_body _ _) as [body|]; [|db_walk].
  destruct (decode_patch_profile body) as [patch|]; [|db_walk].
  repeat apply patch_column_kept; [..|db_walk]; intros x refused f.
  - unfold check_name. destruct (bad_name _); [done|]. by intros [= _ <-].
  - unfold check_type. destruct (String.eqb _ _); [done|]. by intros [= _ <-].
  - unfold check_platform. destruct (allowedPlatform x); [|done]. by intros [= _ <-].
  - unfold check_profile_payload. by intros [= _ <-].
Qed.
End routes_keep.

#[export] Hint Resolve link_target_kept patch_profile_kept : arx.

(** Whatever operators do to profiles, groups, memberships and assignments, and whichever
    statement fails, the tables stay well formed: a profile's platform is one of the three and
    its type is not blank, group names differ in more than case and outer blanks, an assignment
    belongs to a profile and a device or group that exist, a membership to a group and a
    device, and there is at most one of each. *)
Theorem policy_tables_invariant `{JsonCodec} `{JsonErrors} `{UuidLib} `{GoFmt} `{PgLib} `{JwtLib} {L} origins r :
  let kept (m : go L Response) := db_steps (keeps policy_tables_ok) m in
  kept (handleCreateProfile origins r) /\ kept (handlePatchProfile origins r) /\ kept (handleDeleteProfile origins r) /\
  kept (handleAssignProfile origins r) /\ kept (handleRemoveAssignment origins r) /\
  kept (groups_handleCreate origins r) /\ kept (groups_handlePatch origins r) /\ kept (groups_handleDelete origins r) /\
  kept (groups_handleAddDevices origins r) /\ kept (groups_handleRemoveDevice origins r).
Proof.
  cbv zeta. split_and!.
  - unfold handleCreateProfile. db_walk.
  - apply patch_profile_kept.
  - unfold handleDeleteProfile. db_walk.
  - unfold handleAssignProfile, load_profile. cbv zeta. db_walk.
  - unfold handleRemoveAssignment. db_walk.
  - unfold groups_handleCreate. db_walk.
  - unfold groups_handlePatch, then_updated. cbv zeta. db_walk.
  - unfold groups_handleDelete. db_walk.
  - unfold groups_handleAddDevices, load_group. db_walk.
  - unfold groups_handleRemoveDevice. db_walk.
Qed.

(** ** What an assignment does *)
Section effect.
Context `{JC : JsonCodec} `{JE : JsonErrors} `{UL : UuidLib} `{GF : GoFmt} `{PG : PgLib} `{JL : JwtLib} {L : Type}.
Context (origins : list string).

(** The tables after [t] was linked to the profile: as they were, or with one assignment more. *)
Definition linked (pid : uuid) (t : target_kind) (db db' : Tables) (a : Assignment) : Prop :=
  as_profile a = pid /\ as_target a = t /\ In a (t_assignments db') /\ t_profiles db' = t_profiles db /\
  t_group_devices db' = t_group_devices db /\ t_assets db' = t_assets db /\
  (t_assignments db' = t_assignments db \/ t_assignments db' = t_assignments db ++ [a]).

Lemma same_target_spec pid t a : same_target pid t a = true -> as_profile a = pid /\ as_target a = t.
Proof. unfold same_target. by intros [Hp%N.eqb_eq Ht%bool_decide_eq_true]%andb_true_iff. Qed.

Lemma insert_assignment_failed pid t (w : World L) e w' : insert_assignment pid t w = (inl e, w') -> w_db w' = w_db w.
Proof.
  unfold insert_assignment, insert_id, stmt, next_fault. destruct (w_faults w) as [|[msg|] fs]; simpl;
    destruct (existsb (same_target pid t) (t_assignments (w_db w))), (existsb (is_profile pid) (t_profiles (w_db w)) && target_exists (w_db w) t);
    by intros [= _ <-].
Qed.

Lemma link_target_inv pid t failed duplicate (w : World L) resp w' :
  link_target pid t failed duplicate w = (inr resp, w') -> rs_status resp = 201%Z ->
  exists a, linked pid t (w_db w) (w_db w') a /\ rs_body resp = JObj [("assignment_id", jstr (uuid_string (as_id a)))].
Proof.
  unfold link_target. cbv zeta. intros (x & w1 & Hx%attempt_inv & Hk)%bind_inv Hs. destruct x as [e|id].
  - apply insert_assignment_failed in Hx. destruct (is_no_rows e); cbn [negb] in Hk; [|by injection Hk as <- _].
    apply bind_inv in Hk as (y & w2 & Hy%attempt_inv & Hk). destruct y as [e'|id]; [by injection Hk as <- _|].
    injection Hk as <- <-. assert (Edb : w_db w2 = w_db w1).
    { assert (E : db_steps eq (existing_assignment (L := L) pid t)) by apply steps_select, _. specialize (E w1). by rewrite Hy in E. }
    apply select_inr in Hy. destruct (List.find _ _) as [a|] eqn:Ef; [|done]. injection Hy as <-.
    apply find_some in Ef as [Hin Hst]. apply same_target_spec in Hst as [Hp Ht].
    exists a. split; [|done]. rewrite Hx in *. rewrite Edb. split_and!; try done. by left.
  - injection Hk as <- <-. apply insert_id_inr in Hx. destruct (existsb (same_target pid t) _); [done|].
    destruct (existsb _ _ && _); [|done]. injection Hx as <- <-. eexists. split; [split_and!; [..|right; reflexivity]|]; try done.
    simpl. apply in_or_app. right. by left.
Qed.

Lemma linked_assigned pid t db db' a d p : linked pid t db db' a ->
  assigned db' d p = assigned db d p || (N.eqb pid (pf_id p) && targets db d t).
Proof.
  intros (Hp & Ht & Hin & _ & Eg & _ & Ha). unfold assigned.
  assert (Et : forall x, targets db' d x = targets db d x) by (intros []; simpl; by rewrite ?Eg).
  assert (Ea : forall l, existsb (fun x => N.eqb (as_profile x) (pf_id p) && targets db' d (as_target x)) l =
    existsb (fun x => N.eqb (as_profile x) (pf_id p) && targets db d (as_target x)) l).
  { induction l as [|x l IH]; [done|]. cbn [existsb]. by rewrite Et, IH. }
  rewrite Ea. destruct Ha as [E|E]; rewrite E in *.
  - destruct (N.eqb pid (pf_id p) && targets db d t) eqn:Ex; [|by rewrite orb_false_r].
    rewrite orb_true_r. apply existsb_exists. exists a. split; [done|]. by rewrite Hp, Ht.
  - rewrite existsb_app. cbn [existsb]. by rewrite orb_false_r, Hp, Ht.
Qed.

Lemma assign_inv r (w : World L) resp w' : handleAssignProfile origins r w = (inr resp, w') -> rs_status resp = 201%Z ->
  exists pid t a, parseProfileUUID r = inr pid /\ linked pid t (w_db w) (w_db w') a /\
    rs_body resp = JObj [("assignment_id", jstr (uuid_string (as_id a)))] /\
    (forall body req, read_body maxConfigurationProfileJSON r = Some body -> decode_assign body = Some req ->
       t = if String.eqb (Str.trim_space (Str.to_lower (af_TargetKind req))) "device"
           then TargetDevice (default uuid_nil (given_uuid (af_DeviceID req)))
           else TargetGroup (default uuid_nil (given_uuid (af_PrincipalGroupID req)))).
Proof.
  unfold handleAssignProfile. intros Hh Hs.
  destruct (require_method "POST" r) as [e|[]] eqn:Em.
  { injection Hh as <- _. unfold require_method in Em. destruct (String.eqb _ _); [done|]. by injection Em as <-. }
  destruct (RequireMinRole origins r RoleOperator) as [e|p] eqn:Er.
  { injection Hh as <- _. apply RequireMinRole_refused in Er. by destruct Er; congruence. }
  destruct (parseProfileUUID r) as [e|pid]; [by injection Hh as <- _|].
  destruct (read_body _ r) as [body|]; [|by injection Hh as <- _].
  destruct (decode_assign body) as [req|] eqn:Ed; [|by injection Hh as <- _]. cbv zeta in Hh.
  destruct (one_of _ _); cbn [negb] in Hh; [|by injection Hh as <- _].
  apply bind_inv in Hh as (x & w1 & Hx%attempt_inv & Hh). destruct x as [e|prof]; [by injection Hh as <- _|].
  assert (Edb : w_db w1 = w_db w).
  { assert (E : db_steps eq (load_profile (L := L) pid)) by apply steps_select, _. specialize (E w). by rewrite Hx in E. }
  exists pid. destruct (String.eqb _ "device") eqn:Et.
  - destruct (given_uuid (af_DeviceID req)) as [did|] eqn:Eg; [|by injection Hh as <- _].
    apply link_target_inv in Hh as (a & Hl & Hb); [|done]. rewrite Edb in Hl. exists (TargetDevice did), a. split_and!; try done.
    intros b2 q2 [= <-] Hq. rewrite Ed in Hq. injection Hq as <-. by rewrite Et, Eg.
  - destruct (given_uuid (af_PrincipalGroupID req)) as [gid|] eqn:Eg; [|by injection Hh as <- _].
    apply link_target_inv in Hh as (a & Hl & Hb); [|done]. rewrite Edb in Hl. exists (TargetGroup gid), a. split_and!; try done.
    intros b2 q2 [= <-] Hq. rewrite Ed in Hq. injection Hq as <-. by rewrite Et, Eg.
Qed.
End effect.

(** An assignment that is answered 201 gives the profile to the device, or to each device of
    the group, and to no other; the answer is the id of the one assignment of the pair, which
    is new unless it was there, and the profiles and the groups are as they were. *)
Theorem assignment_reaches_its_devices `{JsonCodec} `{JsonErrors} `{UuidLib} `{GoFmt} `{PgLib} `{JwtLib} {L}
    origins r (w : World L) resp w' :
  handleAssignProfile origins r w = (inr resp, w') -> rs_status resp = 201%Z ->
  exists pid t a, parseProfileUUID r = inr pid /\ linked pid t (w_db w) (w_db w') a /\
    rs_body resp = JObj [("assignment_id", jstr (uuid_string (as_id a)))] /\
    forall device p, assigned (w_db w') device p =
                     assigned (w_db w) device p || (N.eqb pid (pf_id p) && targets (w_db w) device t).
Proof.
  intros Hh Hs. destruct (assign_inv _ _ _ _ _ Hh Hs) as (pid & t & a & Hp & Hl & Hb & _).
  exists pid, t, a. split_and!; try done. intros device p. by eapply linked_assigned.
Qed.

(** ** A payload that is no object *)

(** What strings.TrimSpace leaves has no blank for trim() to take. *)
Lemma pg_trim_trimmed s : pg_trim (Str.trim_space s) = Str.trim_space s.
Proof.
  unfold pg_trim. set (drop := fix drop (l : list ascii) := match l with " "%char :: r => drop r | _ => l end).
  assert (Hd : forall l, (forall c r, l = c :: r -> Str.space1 c = false) -> drop l = l).
  { intros [|c r] Hc; [done|]. specialize (Hc c r eq_refl). destruct c as [[] [] [] [] [] [] [] []]; try done. }
  set (l := Str.bytes (Str.trim_space s)).
  assert (El : l = Str.trim_right (Str.trim_left (Str.bytes s))) by apply Str.bytes_of_bytes.
  assert (H1 : drop l = l).
  { apply Hd. intros c r E. destruct (Str.trim_right_prefix (Str.trim_left (Str.bytes s))) as [t Ht]. rewrite <- El, E in Ht.
    pose proof (Str.trim_with_starts Str.space2 Str.space3 (Str.bytes s)) as Hs. fold (Str.trim_left (Str.bytes s)) in Hs.
    rewrite Ht in Hs. destruct r as [|c2 [|c3 r]], t as [|t1 [|t2 t]]; cbn in Hs; rewrite ?orb_false_iff in Hs; tauto. }
  assert (H2 : drop (rev l) = rev l).
  { apply Hd. intros c r E. rewrite El in E. unfold Str.trim_right in E. rewrite rev_involutive in E.
    match type of E with Str.trim_with ?s2 ?s3 ?x = _ => pose proof (Str.trim_with_starts s2 s3 x) as Hs end. rewrite E in Hs.
    destruct r as [|c2 [|c3 r]]; cbn in Hs; rewrite ?orb_false_iff in Hs; tauto. }
  rewrite H1, H2, rev_involutive. unfold l. apply string_of_list_ascii_of_string.
Qed.

Section blocked.
Context `{JC : JsonCodec} `{JE : JsonErrors} `{UL : UuidLib} `{GF : GoFmt} `{PG : PgLib} `{JL : JwtLib} `{CSR : CsrLib} {L : Type}.
Context (origins : list string).

Lemma create_profile_inv r (w : World L) resp w' body req :
  handleCreateProfile origins r w = (inr resp, w') -> rs_status resp = 201%Z ->
  read_body maxConfigurationProfileJSON r = Some body -> decode_create_profile body = Some req ->
  exists p, In p (t_profiles (w_db w')) /\ resp = writeTicketsJSON 201 (JObj [("id", jstr (uuid_string (pf_id p)))]) /\
    allowedPlatform (cf_Platform req) = Some (pf_platform p) /\
    pf_payload p = json_marshal (default (JObj []) (cf_Payload req)) /\ pf_id p = gen_random_uuid (w_next_id w) /\
    t_assets (w_db w') = t_assets (w_db w).
Proof.
  unfold handleCreateProfile. intros Hh Hs Hb Hd.
  destruct (require_method "POST" r) as [e|[]] eqn:Em.
  { injection Hh as <- _. unfold require_method in Em. destruct (String.eqb _ _); [done|]. by injection Em as <-. }
  destruct (RequireMinRole origins r RoleOperator) as [e|pr] eqn:Er.
  { injection Hh as <- _. apply RequireMinRole_refused in Er. by destruct Er; congruence. }
  rewrite Hb, Hd in Hh. destruct (bad_name _ || _); [by injection Hh as <- _|].
  destruct (allowedPlatform _) as [platform|]; [|by injection Hh as <- _].
  apply bind_inv in Hh as (x & w1 & Hx%attempt_inv & Hh). destruct x as [e|id]; [by injection Hh as <- _|].
  injection Hh as <- <-. apply insert_id_inr in Hx. cbv zeta in Hx. destruct (json_has_nul _); [done|].
  destruct (profile_row_ok _); [|done]. injection Hx as <- <-.
  eexists. split; [simpl; apply in_or_app; right; by left|]. by split_and!.
Qed.

(** ... and one that passes the checks is stored. *)
Definition creates (r : Request) (q : createProfileRequest) (platform : string) : Prop :=
  rq_method r = "POST" /\ (exists p, RequireMinRole origins r RoleOperator = inr p) /\
  (exists body, read_body maxConfigurationProfileJSON r = Some body /\ decode_create_profile body = Some q) /\
  cf_Name q <> "" /\ (Str.rune_count (cf_Name q) <= 200)%Z /\ cf_Type q <> "" /\ allowedPlatform (cf_Platform q) = Some platform /\
  text_ok (cf_Name q) = true /\ text_ok (cf_Type q) = true /\ json_has_nul (default (JObj []) (cf_Payload q)) = false.

Definition created_row (q : createProfileRequest) (platform : string) (w : World L) : Profile :=
  {| pf_id := gen_random_uuid (w_next_id w); pf_name := cf_Name q; pf_platform := platform; pf_type := cf_Type q;
     pf_payload := json_marshal (default (JObj []) (cf_Payload q)); pf_created := w_now w |}.

Lemma decoded_type_trimmed body q : decode_create_profile body = Some q -> pg_trim (cf_Type q) = cf_Type q.
Proof.
  unfold decode_create_profile. destruct (unmarshal_map body) as [m|]; [|done]. cbn [mbind option_bind].
  destruct (dec_string _ (field "name" m)); [|done]. destruct (dec_string _ (field "platform" m)); [|done].
  destruct (dec_string _ (field "type" m)); [|done]. intros [= <-]. apply pg_trim_trimmed.
Qed.

Lemma create_profile_ok r q platform (w : World L) : creates r q platform -> w_faults w = [] ->
  handleCreateProfile origins r w =
    (inr (writeTicketsJSON 201 (JObj [("id", jstr (uuid_string (gen_random_uuid (w_next_id w))))])),
     set_db (with_profiles (t_profiles (w_db w) ++ [created_row q platform w]) (w_db w)) (draw_id w)).
Proof.
  intros (Hm & [p Hp] & (body & Hb & Hd) & Hn & Hl & Ht & Ha & Hn2 & Ht2 & Hj) Hf. pose proof (decoded_type_trimmed _ _ Hd) as Htr.
  unfold handleCreateProfile, require_method, bad_name. rewrite Hm, Hp, Hb, Hd, Ha. cbn [String.eqb Ascii.eqb Bool.eqb].
  rewrite (proj2 (String.eqb_neq _ _) Hn), (proj2 (String.eqb_neq _ _) Ht), (proj2 (Z.ltb_ge _ _) Hl). cbn [orb].
  unfold insert_profile, mbind, go_bind, attempt. rewrite insert_id_ok by done. cbv zeta. rewrite Hj.
  fold (created_row q platform w). assert (Hr : profile_row_ok (created_row q platform w) = true); [|by rewrite Hr].
  unfold profile_row_ok. cbn [created_row pf_platform pf_type pf_name]. rewrite Htr, (proj2 (String.eqb_neq _ _) Ht), Hn2, Ht2.
  unfold allowedPlatform in Ha. destruct (one_of _ _) eqn:Eo in Ha; [|done]. injection Ha as <-. by rewrite Eo.
Qed.

(** An assignment to a device that passes the checks is there afterwards. *)
Definition assigns (r : Request) (pid device : uuid) : Prop :=
  rq_method r = "POST" /\ (exists p, RequireMinRole origins r RoleOperator = inr p) /\ parseProfileUUID r = inr pid /\
  exists body q, read_body maxConfigurationProfileJSON r = Some body /\ decode_assign body = Some q /\
    Str.trim_space (Str.to_lower (af_TargetKind q)) = "device" /\ given_uuid (af_DeviceID q) = Some device.

Lemma assign_device_ok r pid device (w : World L) : assigns r pid device -> w_faults w = [] ->
  existsb (is_profile pid) (t_profiles (w_db w)) = true -> asset_exists (w_db w) device = true ->
  exists a w', handleAssignProfile origins r w = (inr (writeTicketsJSON 201 (JObj [("assignment_id", jstr (uuid_string (as_id a)))])), w') /\
    w_faults w' = [] /\ linked pid (TargetDevice device) (w_db w) (w_db w') a.
Proof.
  intros (Hm & [p Hp] & Hid & body & q & Hb & Hd & Hk & Hg) Hf He Ha.
  unfold handleAssignProfile, require_method. rewrite Hm, Hp, Hid, Hb, Hd. cbn [String.eqb Ascii.eqb Bool.eqb]. cbv zeta.
  rewrite Hk. change (one_of "device" ["device"; "principal_group"]) with true. cbn [negb]. unfold load_profile.
  unfold mbind at 1, go_bind at 1, attempt at 1. rewrite select_ok by done.
  destruct (List.find (is_profile pid) (t_profiles (w_db w))) as [prof|] eqn:Ef.
  2: { apply existsb_exists in He as (x & Hx & Ex). by rewrite (find_none _ _ Ef x Hx) in Ex. }
  change (String.eqb "device" "device") with true. cbv iota. rewrite Hg. unfold link_target, insert_assignment, existing_assignment. cbv zeta.
  unfold mbind at 1, go_bind at 1, attempt at 1. rewrite insert_id_ok by done. destruct (existsb (same_target _ _) _) eqn:Es.
  - apply existsb_exists in Es as (x & Hx & Ex). cbv iota beta. change (negb (is_no_rows ErrNoRows)) with false. cbv iota. unfold mbind, go_bind, attempt. rewrite select_ok by done.
    destruct (List.find (same_target pid (TargetDevice device)) (t_assignments (w_db w))) as [a|] eqn:Ea.
    2: { by rewrite (find_none _ _ Ea x Hx) in Ex. }
    apply find_some in Ea as [Hin Hst]. apply same_target_spec in Hst as [Hap Hat]. exists a, w. split; [done|]. split; [done|].
    split_and!; try done. by left.
  - cbn [target_exists]. rewrite He, Ha. cbn [andb negb]. eexists {| as_id := _ |}, _. split; [reflexivity|]. split; [done|].
    split_and!; try done; [|by right]. apply in_or_app. right. by left.
Qed.

(** One profile that does not decode is enough to refuse the whole policy. *)
Lemma undecodable_pull MTLSRequired r serial a p (w : World L) :
  rq_method r = "GET" -> require_client_cert MTLSRequired r = inr serial ->
  List.find (owns_serial serial) (t_assets (w_db w)) = Some a -> w_faults w = [] ->
  In p (assigned_profiles (w_db w) (a_id a) (telemetryPlatformKey (pg_lower (pg_trim (a_os_type a))))) ->
  pf_id p <> uuid_nil -> payload_root (pf_payload p) = None ->
  handleAgentEffectivePolicy MTLSRequired r w = (inr (writeTicketsError 500 "failed to compute effective policy"), w).
Proof.
  intros Hm Hc Ha Hf Hin Hne Hr. set (key := telemetryPlatformKey _) in *.
  assert (Hmerge : exists bad, MergeAssignedPayloads (assignedRowsToMergeInputs (assigned_profiles (w_db w) (a_id a) key)) = MergeErr bad).
  { pose proof (merge_fails_on_first_undecodable (assignedRowsToMergeInputs (assigned_profiles (w_db w) (a_id a) key))) as Hd.
    destruct (MergeAssignedPayloads _) as [bad|mr]; [by exists bad|]. rewrite forallb_forall in Hd.
    specialize (Hd {| ap_Source := {| ps_ID := pf_id p; ps_Name := pf_name p |}; ap_Payload := pf_payload p |}).
    unfold decodable in Hd. cbn [ap_Source ap_Payload ps_ID] in Hd. rewrite Hr, (proj2 (N.eqb_neq _ _) Hne) in Hd.
    discriminate Hd. unfold assignedRowsToMergeInputs. apply in_map_iff. by exists p. }
  destruct Hmerge as [bad Hmerge].
  unfold handleAgentEffectivePolicy, require_method, asset_by_serial. rewrite Hm, Hc. cbn [String.eqb Ascii.eqb Bool.eqb].
  unfold mbind at 1, go_bind at 1, attempt at 1. rewrite select_ok, Ha by done. fold key.
  unfold computeMergedEffectivePolicy, ListAssignedProfilesForAsset, mbind, go_bind, attempt. cbv zeta.
  destruct (String.eqb _ ""); [done|]. unfold wrap. rewrite select_ok by done. fold (assigned_profiles (w_db w) (a_id a) key).
  by rewrite Hmerge.
Qed.
End blocked.

(** Neither an object nor null. *)
Definition no_object (v : json) : Prop := v <> JNull /\ forall m, v <> JObj m.

Lemma no_object_root `{JsonCodecLaws} v : json_wf v -> no_object v -> payload_root (json_marshal v) = None.
Proof.
  intros Hw [Hn Ho]. pose proof (unmarshal_marshal v Hw) as Hu. unfold payload_root.
  destruct (String.eqb_spec (json_marshal v) "") as [E|_]; [by rewrite E, unmarshal_empty in Hu|].
  destruct (String.eqb_spec (json_marshal v) "null") as [E|_]; [by apply marshal_null in E|]. cbn [orb].
  unfold unmarshal_map. rewrite Hu. destruct v; try done. by edestruct Ho.
Qed.


(** ** What a patch does *)
Section patch.
Context `{JC : JsonCodec} `{JE : JsonErrors} `{UL : UuidLib} `{GF : GoFmt} `{PG : PgLib} `{JL : JwtLib} {L : Type}.
Context (origins : list string).
Implicit Types (w : World L) (q : patchProfileRequest).

(** The fields of a patch that may be stored: a name of 1 to 200 characters, a type that is not
    blank, one of the three platforms. *)
Definition name_fits q : bool :=
  match qf_Name q with
  | Some s => negb (String.eqb (Str.trim_space s) "") && (Str.rune_count (Str.trim_space s) <=? 200)%Z
  | None => true end.
Definition type_fits q : bool := match qf_Type q with Some s => negb (String.eqb (Str.trim_space s) "") | None => true end.
Definition platform_fits q : bool :=
  match qf_Platform q with
  | Some s => existsb (String.eqb (Str.to_lower (Str.trim_space s))) ["windows"; "linux"; "android"] | None => true end.

(** The row after the fields of a patch. *)
Definition patched q (p : Profile) : Profile :=
  {| pf_id := pf_id p;
     pf_name := match qf_Name q with Some s => Str.trim_space s | None => pf_name p end;
     pf_platform := match qf_Platform q with Some s => Str.to_lower (Str.trim_space s) | None => pf_platform p end;
     pf_type := match qf_Type q with Some s => Str.trim_space s | None => pf_type p end;
     pf_payload := match qf_Payload q with Some v => json_marshal v | None => pf_payload p end;
     pf_created := pf_created p |}.

(** What of a patch is carried out, and what it is refused for: the fields are taken in the order
    name, type, platform, payload, up to the first that does not fit. *)
Definition carried_out q : patchProfileRequest * option string :=
  if negb (name_fits q) then ({| qf_Name := None; qf_Type := None; qf_Payload := None; qf_Platform := None |}, Some "invalid name") else
  if negb (type_fits q) then ({| qf_Name := qf_Name q; qf_Type := None; qf_Payload := None; qf_Platform := None |}, Some "invalid type") else
  if negb (platform_fits q)
  then ({| qf_Name := qf_Name q; qf_Type := qf_Type q; qf_Payload := None; qf_Platform := None |}, Some "invalid platform") else
  (q, None).

(** The texts are ones PostgreSQL takes. *)
Definition patch_text_ok q : bool :=
  forallb text_ok (map Str.trim_space (option_list (qf_Name q) ++ option_list (qf_Type q)))
  && negb (existsb json_has_nul (option_list (qf_Payload q))).

(** The profile [pid] rewritten. *)
Definition rewritten (pid : uuid) (f : Profile -> Profile) w : World L :=
  set_db (with_profiles (update_where (is_profile pid) f (t_profiles (w_db w))) (w_db w)) w.

Definition there (pid : uuid) w : Prop :=
  existsb (is_profile pid) (t_profiles (w_db w)) = true /\ w_faults w = [] /\
  forall p, In p (t_profiles (w_db w)) -> profile_row_ok p = true.

Lemma rewritten_twice pid f g w : (forall p, pf_id (f p) = pf_id p) ->
  rewritten pid g (rewritten pid f w) = rewritten pid (fun p => g (f p)) w.
Proof.
  intros Hf. transitivity (set_db (with_profiles (update_where (is_profile pid) g
    (update_where (is_profile pid) f (t_profiles (w_db w)))) (w_db w)) w); [done|].
  unfold rewritten, update_where. rewrite map_map. f_equal. f_equal. apply map_ext. intros p. unfold is_profile. destruct (N.eqb (pf_id p) pid) eqn:E; rewrite ?Hf, E; done.
Qed.

Lemma rewritten_id pid f w : (forall p, f p = p) -> rewritten pid f w = w.
Proof.
  intros Hf. unfold rewritten. assert (E : update_where (is_profile pid) f (t_profiles (w_db w)) = t_profiles (w_db w)).
  { unfold update_where. rewrite <- (map_id (t_profiles (w_db w))) at 2. apply map_ext. intros p. by destruct (is_profile pid p). }
  rewrite E. destruct w as [db]. by destruct db.
Qed.

Lemma rewritten_ext pid f g w : (forall p, f p = g p) -> rewritten pid f w = rewritten pid g w.
Proof. intros Hf. unfold rewritten, update_where. f_equal. f_equal. apply map_ext. intros p. by rewrite Hf. Qed.

Lemma rewritten_there pid f w : there pid w -> (forall p, pf_id (f p) = pf_id p) ->
  (forall p, profile_row_ok p = true -> profile_row_ok (f p) = true) -> there pid (rewritten pid f w).
Proof.
  intros (He & Hf & Hr) Hi Ho. split; [|split; [done|]].
  - cbn. rewrite existsb_update; [done|]. intros p. unfold is_profile. by rewrite Hi.
  - intros p (x & Hx & ->)%update_where_In. destruct (is_profile pid x); auto.
Qed.

(** A column that is given and fits is stored, and the next is looked at. *)
Lemma column_stored {A} pid (v : option A) check f k w : there pid w ->
  (forall x, v = Some x -> check x = inr (false, f)) -> (v = None -> forall p, f p = p) ->
  (forall p, profile_row_ok p = true -> profile_row_ok (f p) = true) ->
  patch_column pid v check k w = k (rewritten pid f w).
Proof.
  intros (He & Hf & Hr) Hs Hn Ho. destruct v as [x|]; cbn [patch_column]; [|by rewrite rewritten_id by auto].
  rewrite (Hs x eq_refl). unfold update_profile, mbind, go_bind, attempt. rewrite exec_ok by done.
  destruct (existsb (fun p => is_profile pid p && _) _) eqn:Ex.
  - apply existsb_exists in Ex as (p & Hp & [_ E]%andb_true_iff). by rewrite Ho in E by auto.
  - fold (rewritten pid f w). destruct (count_where (is_profile pid) (t_profiles (w_db w))) eqn:Ec; [|done].
    apply existsb_exists in He as (p & Hp & E). pose proof (proj1 (count_where_0 _ _) Ec p Hp). congruence.
Qed.

(** One field of a patch. *)
Definition name_only (n : option string) : patchProfileRequest :=
  {| qf_Name := n; qf_Type := None; qf_Payload := None; qf_Platform := None |}.
Definition type_only (t : option string) : patchProfileRequest :=
  {| qf_Name := None; qf_Type := t; qf_Payload := None; qf_Platform := None |}.
Definition platform_only (v : option string) : patchProfileRequest :=
  {| qf_Name := None; qf_Type := None; qf_Payload := None; qf_Platform := v |}.
Definition payload_only (v : option json) : patchProfileRequest :=
  {| qf_Name := None; qf_Type := None; qf_Payload := v; qf_Platform := None |}.

Lemma patched_nothing p : patched (name_only None) p = p.
Proof. by destruct p. Qed.

(** A row keeps to the table's checks when the fields fit. *)
Lemma patched_row_ok q p : type_fits q = true -> platform_fits q = true -> patch_text_ok q = true ->
  profile_row_ok p = true -> profile_row_ok (patched q p) = true.
Proof.
  unfold type_fits, platform_fits, patch_text_ok, profile_row_ok. rewrite map_app, forallb_app, !andb_true_iff.
  intros Ht Hp [[Hn Hy] _] H. destruct_and?. cbn [patched pf_platform pf_type pf_name]. split_and!.
  - by destruct (qf_Platform q).
  - destruct (qf_Type q); [by rewrite pg_trim_trimmed|done].
  - destruct (qf_Name q); [|done]. cbn in Hn. by apply andb_true_iff in Hn as [? _].
  - destruct (qf_Type q); [|done]. cbn in Hy. by apply andb_true_iff in Hy as [? _].
Qed.

Lemma name_column pid n k w : there pid w -> patch_text_ok (name_only n) = true ->
  patch_column pid n check_name k w =
  if name_fits (name_only n) then k (rewritten pid (patched (name_only n)) w) else (inr (writeTicketsError 400 "invalid name"), w).
Proof.
  intros Hw Ht. destruct n as [s|]; [|by cbn; rewrite rewritten_id by apply patched_nothing].
  assert (E : name_fits (name_only (Some s)) = negb (bad_name (Str.trim_space s))).
  { unfold name_fits, bad_name. cbn [name_only qf_Name]. rewrite Z.leb_antisym. by rewrite negb_orb. }
  rewrite E. destruct (bad_name (Str.trim_space s)) eqn:Eb; cbn [negb].
  - cbn [patch_column]. unfold check_name. by rewrite Eb.
  - apply column_stored; [done| |done|intros ?; by apply patched_row_ok]. intros x [= <-]. unfold check_name. rewrite Eb. done.
Qed.

Lemma type_column pid t k w : there pid w -> patch_text_ok (type_only t) = true ->
  patch_column pid t check_type k w =
  if type_fits (type_only t) then k (rewritten pid (patched (type_only t)) w) else (inr (writeTicketsError 400 "invalid type"), w).
Proof.
  intros Hw Ht. destruct t as [s|]; [|by cbn; rewrite rewritten_id by apply patched_nothing].
  unfold type_fits at 1. cbn [type_only qf_Type]. destruct (String.eqb (Str.trim_space s) "") eqn:Eb; cbn [negb].
  - cbn [patch_column]. unfold check_type. by rewrite Eb.
  - apply column_stored; [done| |done|]. { intros x [= <-]. unfold check_type. by rewrite Eb. }
    intros p. apply patched_row_ok; [|done..]. unfold type_fits. cbn [type_only qf_Type]. by rewrite Eb.
Qed.

Lemma platform_column pid v k w : there pid w ->
  patch_column pid v check_platform k w =
  if platform_fits (platform_only v) then k (rewritten pid (patched (platform_only v)) w)
  else (inr (writeTicketsError 400 "invalid platform"), w).
Proof.
  intros Hw. destruct v as [s|]; [|by cbn; rewrite rewritten_id by apply patched_nothing].
  destruct (platform_fits (platform_only (Some s))) eqn:Eb.
  - apply column_stored; [done| |done|intros ?; by apply patched_row_ok]. intros x [= <-]. unfold check_platform, allowedPlatform.
    change (one_of (Str.to_lower (Str.trim_space s)) profile_platforms) with (platform_fits (platform_only (Some s))). by rewrite Eb.
  - cbn [patch_column]. unfold check_platform, allowedPlatform.
    change (one_of (Str.to_lower (Str.trim_space s)) profile_platforms) with (platform_fits (platform_only (Some s))). by rewrite Eb.
Qed.

Lemma payload_column pid v k w : there pid w -> patch_text_ok (payload_only v) = true ->
  patch_column pid v check_profile_payload k w = k (rewritten pid (patched (payload_only v)) w).
Proof.
  intros Hw Ht. destruct v as [x|]; [|by cbn; rewrite rewritten_id by apply patched_nothing].
  apply column_stored; [done| |done|intros ?; by apply patched_row_ok]. intros y [= <-]. unfold check_profile_payload. cbn in Ht.
  destruct (json_has_nul x); [done|]. done.
Qed.

(** C37: PATCH of a profile, exactly.  With the checks of the request passed, no statement failing
    and texts PostgreSQL takes, the fields that are given are looked at in the order name, type,
    platform, payload: each that fits -- a name of 1 to 200 characters, a type that is not blank, a
    platform that is one of the three -- is stored trimmed, the platform in lower case; the first
    that does not is answered 400, and what was stored before it stays stored; with none the
    answer is 200 and the profile has exactly the new fields.  Nothing else in the database changes.
    No constraint of the table is ever violated. *)
Theorem profile_patch_exact r p pid body q w :
  rq_method r = "PATCH" -> RequireMinRole origins r RoleOperator = inr p -> parseProfileUUID r = inr pid ->
  read_body maxConfigurationProfileJSON r = Some body -> decode_patch_profile body = Some q -> patch_text_ok q = true ->
  there pid w ->
  handlePatchProfile origins r w =
    (inr match (carried_out q).2 with
         | Some msg => writeTicketsError 400 msg
         | None => writeTicketsJSON 200 (JObj [("status", jstr "ok")]) end,
     rewritten pid (patched (carried_out q).1) w).
Proof.
  intros Hm Hp Hid Hb Hd Ht Hw. unfold handlePatchProfile, require_method. rewrite Hm, Hp, Hid, Hb, Hd.
  cbn [String.eqb Ascii.eqb Bool.eqb]. destruct q as [n t v pl]. cbn [qf_Name qf_Type qf_Payload qf_Platform].
  unfold patch_text_ok in Ht. cbn [qf_Name qf_Type qf_Payload] in Ht. rewrite map_app, forallb_app in Ht.
  apply andb_true_iff in Ht as [[Hn Hy]%andb_true_iff Hnul].
  assert (Tn : patch_text_ok (name_only n) = true) by (unfold patch_text_ok; cbn; by rewrite app_nil_r, Hn).
  assert (Tt : patch_text_ok (type_only t) = true) by (unfold patch_text_ok; cbn; by rewrite Hy).
  assert (Tv : patch_text_ok (payload_only v) = true) by (unfold patch_text_ok; cbn; by rewrite Hnul).
  rewrite name_column by done. unfold carried_out. cbn [qf_Name qf_Type qf_Payload qf_Platform].
  change (name_fits {| qf_Name := n; qf_Type := t; qf_Payload := v; qf_Platform := pl |}) with (name_fits (name_only n)).
  change (type_fits {| qf_Name := n; qf_Type := t; qf_Payload := v; qf_Platform := pl |}) with (type_fits (type_only t)).
  change (platform_fits {| qf_Name := n; qf_Type := t; qf_Payload := v; qf_Platform := pl |}) with (platform_fits (platform_only pl)).
  destruct (name_fits (name_only n)); cbn [negb fst snd]; [|by rewrite rewritten_id by apply patched_nothing].
  apply (rewritten_there pid (patched (name_only n))) in Hw; [|done|by intros; apply patched_row_ok].
  rewrite type_column by done. destruct (type_fits (type_only t)) eqn:Et; cbn [negb fst snd]; [|done].
  apply (rewritten_there pid (patched (type_only t))) in Hw; [|done|by intros; apply patched_row_ok].
  rewrite platform_column by done. destruct (platform_fits (platform_only pl)) eqn:Ep; cbn [negb fst snd].
  - apply (rewritten_there pid (patched (platform_only pl))) in Hw; [|done|by intros; apply patched_row_ok].
    rewrite payload_column by done. by rewrite !rewritten_twice by done.
  - by rewrite !rewritten_twice by done.
Qed.
End patch.
