(* ===== verification/AppPaths.v ===== *)
(** * The paths of uploaded applications

    What [safeAppsPath] computes: the elements of the stored path below those of the root, and
    that the names of uploads are single elements. *)

From S2P Require Import Prelude GoStd GoPath AppFiles.

#[local] Open Scope string_scope.
#[local] Open Scope list_scope.

Notation name x := (Path.plain_name x /\ Path.no_slash x).

(** The absolute path of a list of elements. *)
Definition rooted (ps : list string) : string := "/" +:+ Str.join "/" ps.

(** The elements Clean keeps when there is no "..". *)
Definition names_of (s : string) : list string :=
  List.filter (fun x => negb (String.eqb x "" || String.eqb x ".")) (Str.split_on "/" s).

(** os.Getwd answers an absolute path. *)
Class CwdLaws `{Cwd} : Prop := { getwd_abs : forall d, getwd = inl d -> Str.has_prefix d "/" = true }.

(** ** Splitting *)

Lemma split_on_concat sep a b : Str.split_on sep (a +:+ String sep b) = Str.split_on sep a ++ Str.split_on sep b.
Proof.
  induction a as [|c a IH]; simpl; [by rewrite Ascii.eqb_refl|]. destruct (Ascii.eqb c sep); [by rewrite IH|].
  rewrite IH. pose proof (Str.split_on_nonempty sep a). by destruct (Str.split_on sep a).
Qed.

Lemma split_rooted ps : Forall Path.no_slash ps -> Str.split_on "/" (rooted ps) = "" :: (match ps with [] => [""] | _ => ps end).
Proof.
  intros Hps. unfold rooted. change ("/" +:+ Str.join "/" ps) with ("" +:+ String "/" (Str.join "/" ps)).
  rewrite split_on_concat. cbn [Str.split_on app]. f_equal. destruct ps as [|p ps]; [done|]. by apply Str.split_join.
Qed.

Lemma slash_prefix s : Str.has_prefix (String "/" s) "/" = true.
Proof. unfold Str.has_prefix. cbn. by destruct s. Qed.

Lemma rooted_prefix ps : Str.has_prefix (rooted ps) "/" = true.
Proof. apply slash_prefix. Qed.

Lemma contains_split s : Str.contains s ".." = false -> Forall (fun x => Str.contains x ".." = false) (Str.split_on "/" s).
Proof.
  induction s as [|c s IH]; intros Hc; [by repeat constructor|]. cbn [Str.contains] in Hc. apply orb_false_iff in Hc as [Hp Hc].
  specialize (IH Hc). cbn [Str.split_on]. destruct (Ascii.eqb c "/"); [by constructor|].
  assert (Hh : String.prefix ".." (String c (hd "" (Str.split_on "/" s))) = false).
  { clear IH Hc. destruct s as [|d s]; [cbn [Str.split_on hd String.prefix]; by destruct (ascii_dec "." c)|]. cbn [Str.split_on].
    cbn [String.prefix] in Hp.
    destruct (Ascii.eqb d "/"); [|destruct (Str.split_on "/" s)]; cbn [hd String.prefix] in *;
      destruct (ascii_dec "." c), (ascii_dec "." d); try done; by destruct s. }
  destruct (Str.split_on "/" s) as [|h t]; [constructor; [|constructor]; cbn [Str.contains]; apply orb_false_iff; by split|].
  apply Forall_cons in IH as [Hx Ht].
  constructor; [|done]. cbn [Str.contains]. apply orb_false_iff. by split.
Qed.

Lemma contains_not_dots x : Str.contains x ".." = false -> x <> "..".
Proof. by intros H ->. Qed.

Lemma names_ok s : Str.contains s ".." = false -> Forall (fun x => name x /\ Str.contains x ".." = false) (names_of s).
Proof.
  intros Hc%contains_split. pose proof (Path.split_no_slash s) as Hs. unfold names_of.
  induction (Str.split_on "/" s) as [|x l IH]; [constructor|]. apply Forall_cons in Hc as [Hx Hc]. apply Forall_cons in Hs as [Hxs Hs].
  cbn [List.filter]. destruct (String.eqb_spec x "") as [->|Hn]; [by apply IH|]. destruct (String.eqb_spec x ".") as [->|Hd]; [by apply IH|].
  cbn [orb negb]. constructor; [|by apply IH]. split; [|done]. split; [|done]. split_and!; [done|done|by apply contains_not_dots].
Qed.

(** ** Clean *)

Lemma clean_parts_names acc l : Forall (fun x => x <> "..") l ->
  Path.clean_parts true acc l = rev acc ++ List.filter (fun x => negb (String.eqb x "" || String.eqb x ".")) l.
Proof.
  intros Hl. revert acc. induction Hl as [|x l Hx Hl IH]; intros acc; cbn [Path.clean_parts List.filter]; [by rewrite app_nil_r|].
  destruct (String.eqb x "" || String.eqb x ".") eqn:E; cbn [negb]; [apply IH|]. rewrite (proj2 (String.eqb_neq _ _) Hx), IH.
  cbn [rev]. by rewrite <- app_assoc.
Qed.

Lemma filter_names ps : Forall (fun x => name x) ps ->
  List.filter (fun x => negb (String.eqb x "" || String.eqb x ".")) ps = ps.
Proof.
  induction 1 as [|x ps [(H1 & H2 & _) _] Hps IH]; [done|]. cbn [List.filter].
  by rewrite (proj2 (String.eqb_neq _ _) H1), (proj2 (String.eqb_neq _ _) H2), IH.
Qed.

Lemma names_slash ps : Forall (fun x => name x) ps -> Forall Path.no_slash ps.
Proof. intros H. eapply Forall_impl; [exact H|]. by intros x [_ ?]. Qed.

Lemma names_dots ps : Forall (fun x => name x) ps -> Forall (fun x => x <> "..") ps.
Proof. intros H. eapply Forall_impl; [exact H|]. by intros x [(_ & _ & ?) _]. Qed.

Lemma clean_names ps : Forall (fun x => name x) ps -> Path.clean (rooted ps) = rooted ps.
Proof.
  intros Hps. unfold Path.clean. rewrite rooted_prefix, split_rooted by (by apply names_slash).
  rewrite clean_parts_names; [|constructor; [done|]; destruct ps; [by repeat constructor|by apply names_dots]].
  unfold rooted. do 2 f_equal. cbn [rev app List.filter String.eqb orb negb]. destruct ps as [|p ps]; [done|]. by apply filter_names.
Qed.

(** A path without ".." is walked down from the root it is joined to. *)
Lemma join_names ps s : Forall (fun x => name x) ps -> s <> "" -> Str.contains s ".." = false ->
  Path.join [rooted ps; s] = rooted (ps ++ names_of s).
Proof.
  intros Hps Hs Hc. change (Path.join [rooted ps; s]) with (Path.clean (rooted ps +:+ String "/" s)).
  unfold Path.clean. replace (Str.has_prefix (rooted ps +:+ String "/" s) "/") with true
    by (symmetry; apply slash_prefix).
  rewrite split_on_concat, split_rooted by (by apply names_slash). rewrite clean_parts_names.
  - unfold rooted. do 2 f_equal. rewrite List.filter_app. cbn [rev app List.filter String.eqb orb negb]. f_equal.
    destruct ps as [|p ps]; [done|]. by apply filter_names.
  - apply Forall_app. split; [constructor; [done|]; destruct ps; [by repeat constructor|by apply names_dots]|].
    eapply Forall_impl; [by apply contains_split|]. intros x. apply contains_not_dots.
Qed.

Lemma clean_rooted_names s : Str.has_prefix s "/" = true ->
  exists ps, Forall (fun x => name x) ps /\ Path.clean s = rooted ps.
Proof. apply Path.clean_rooted. Qed.

Lemma abs_rooted `{CwdLaws} p a : abs p = inl a -> exists ps, Forall (fun x => name x) ps /\ a = rooted ps.
Proof.
  unfold abs, Path.is_abs. destruct (Str.has_prefix p "/") eqn:E.
  - intros [= <-]. by apply clean_rooted_names.
  - destruct getwd as [d|] eqn:Ed; [|done]. intros [= <-]. apply getwd_abs in Ed.
    assert (Hd : d <> "") by (by intros ->). cbn [Path.join]. rewrite (proj2 (String.eqb_neq _ _) Hd). apply clean_rooted_names.
    apply Path.prefix_inv in Ed as [r ->]. apply slash_prefix.
Qed.

(** ** The directory of a path *)

Lemma last_index_none c s : Str.has_byte c s = false -> Str.last_index c s = None.
Proof.
  induction s as [|d s IH]; [done|]. cbn [Str.has_byte Str.last_index]. intros [Hd Hs]%orb_false_iff.
  by rewrite (IH Hs), Hd.
Qed.

Lemma last_index_app c a b : Str.has_byte c b = false -> Str.last_index c (a +:+ String c b) = Some (String.length a).
Proof.
  intros Hb. induction a as [|d a IH].
  - change (Str.last_index c (String c b) = Some 0%nat). cbn [Str.last_index]. by rewrite last_index_none, Ascii.eqb_refl.
  - change (Str.last_index c (String d (a +:+ String c b)) = Some (S (String.length a))). cbn [Str.last_index]. by rewrite IH.
Qed.

Lemma take_app a b : Str.take (String.length a) (a +:+ b) = a.
Proof.
  unfold Str.take. induction a as [|c a IH]; [by destruct b|]. rewrite Str.append_cons. cbn [String.length substring]. by rewrite IH.
Qed.

(** What is above the last element: the root has no name. *)
Definition above (ps : list string) : string := match ps with [] => "" | _ => rooted ps end.

Lemma join_last p ps x : Str.join "/" ((p :: ps) ++ [x]) = Str.join "/" (p :: ps) +:+ String "/" x.
Proof.
  revert p. induction ps as [|q ps IH]; intros p; [done|]. cbn [app Str.join] in *. rewrite IH. by rewrite !Str.append_assoc.
Qed.

Lemma rooted_snoc ps x : rooted (ps ++ [x]) = above ps +:+ String "/" x.
Proof. destruct ps as [|p ps]; [done|]. unfold above, rooted. rewrite join_last. by rewrite Str.append_assoc. Qed.

Lemma clean_above ps : Forall (fun x => name x) ps -> Path.clean (above ps +:+ "/") = rooted ps.
Proof.
  intros Hps. destruct ps as [|p ps]; [done|]. cbn [above]. unfold Path.clean.
  replace (Str.has_prefix (rooted (p :: ps) +:+ "/") "/") with true by (symmetry; apply slash_prefix).
  rewrite (split_on_concat "/" _ ""), split_rooted by (by apply names_slash). rewrite clean_parts_names.
  - unfold rooted. do 2 f_equal. rewrite List.filter_app. cbn [rev app List.filter String.eqb orb negb Str.split_on].
    rewrite app_nil_r. exact (filter_names (p :: ps) Hps).
  - apply Forall_app. split; [constructor; [done|]; by apply names_dots|by repeat constructor].
Qed.

Lemma dir_rooted ps x : Forall (fun x => name x) ps -> Path.no_slash x -> dir (rooted (ps ++ [x])) = rooted ps.
Proof.
  intros Hps Hx. unfold dir. rewrite rooted_snoc, last_index_app by done.
  replace (above ps +:+ String "/" x) with ((above ps +:+ "/") +:+ x) by (by rewrite Str.append_assoc).
  replace (S (String.length (above ps))) with (String.length (above ps +:+ "/")) by (rewrite Str.length_append; simpl; lia).
  rewrite take_app. by apply clean_above.
Qed.

(** What ends in a name does not end in a slash. *)
Lemma no_trailing a x : x <> "" -> Path.no_slash x -> Str.has_suffix (a +:+ x) "/" = false.
Proof.
  intros Hx Hs. unfold Str.has_suffix, Str.bytes.
  replace (list_ascii_of_string (a +:+ x)) with (list_ascii_of_string a ++ list_ascii_of_string x).
  2:{ clear. induction a as [|c a IH]; [done|]. cbn [app list_ascii_of_string append]. by rewrite IH. }
  rewrite rev_app_distr. destruct (rev (list_ascii_of_string x)) as [|c l] eqn:E.
  - apply (f_equal (@length _)) in E. rewrite length_rev in E. by destruct x.
  - assert (Hc : In c (list_ascii_of_string x)) by (rewrite in_rev, E; by left). clear -Hc Hs.
    change (String.prefix "/" (String c (Str.of_bytes (l ++ rev (list_ascii_of_string a)))) = false). cbn [String.prefix].
    destruct (Ascii.ascii_dec "/" c) as [<-|]; [|done]. exfalso. unfold Path.no_slash in Hs.
    induction x as [|d x IH]; [done|]. cbn in Hc, Hs. apply orb_false_iff in Hs as [Hd Hs]. destruct Hc as [->|Hc]; [done|by apply IH].
Qed.

(** The directories above a path, and it. *)
Lemma ancestors_last q l : l <> [] -> In (q +:+ "/" +:+ Str.join "/" l) (ancestors q l).
Proof.
  revert q. induction l as [|x l IH]; intros q; [done|]. intros _. cbn [ancestors]. destruct l as [|y l]; [by left|]. right.
  replace (q +:+ "/" +:+ Str.join "/" (x :: y :: l)) with ((q +:+ "/" +:+ x) +:+ "/" +:+ Str.join "/" (y :: l))
    by (by rewrite !Str.append_assoc). by apply IH.
Qed.

Lemma ancestors_short q l r : In r (ancestors q l) -> (String.length r <= String.length (q +:+ "/" +:+ Str.join "/" l))%nat.
Proof.
  revert q. induction l as [|x l IH]; intros q; [done|]. cbn [ancestors]. intros [<-|Hr].
  - rewrite !Str.length_append. destruct l; cbn [Str.join]; rewrite ?Str.length_append; lia.
  - destruct l as [|y l]; [done|]. apply IH in Hr. rewrite !Str.length_append in *. cbn [Str.join].
    rewrite !Str.length_append. simpl in *. lia.
Qed.

(** ** Rel *)

Lemma strip_common_app l r : strip_common l (l ++ r) = ([], r).
Proof. induction l as [|x l IH]; cbn [strip_common app]; [done|]. by rewrite String.eqb_refl. Qed.

Lemma rooted_inj ps qs : Forall (fun x => name x) ps -> Forall (fun x => name x) qs -> rooted ps = rooted qs -> ps = qs.
Proof.
  intros Hp Hq E. apply (f_equal (Str.split_on "/")) in E. rewrite !split_rooted in E by (by apply names_slash).
  injection E as E. destruct ps as [|p ps], qs as [|q qs]; [done|..|done].
  - injection E as <- <-. apply Forall_cons in Hq as [[(Hn & _) _] _]. done.
  - injection E as -> ->. apply Forall_cons in Hp as [[(Hn & _) _] _]. done.
Qed.

Lemma elements_rooted ps : Forall (fun x => name x) ps -> elements (rooted ps) = "" :: ps.
Proof.
  intros Hps. unfold elements. destruct ps as [|p ps]; [done|]. rewrite split_rooted by (by apply names_slash).
  destruct (String.eqb_spec (rooted (p :: ps)) "/") as [E|]; [|done].
  change "/" with (rooted []) in E. apply rooted_inj in E; [done|done|constructor].
Qed.

Lemma no_dots_prefix x r : name x -> Str.contains x ".." = false -> Str.has_prefix (Str.join "/" (x :: r)) ".." = false.
Proof.
  intros [(Hn & Hd & _) _] Hc. destruct x as [|c [|d x]]; [done| |].
  - destruct r as [|y r].
    + change (Str.join "/" [String c ""]) with (String c ""). unfold Str.has_prefix. cbn [String.prefix]. by destruct (ascii_dec "." c).
    + change (Str.join "/" (String c "" :: y :: r)) with (String c (String "/" (Str.join "/" (y :: r)))).
      unfold Str.has_prefix. cbn [String.prefix]. by destruct (ascii_dec "." c).
  - cbn [Str.contains] in Hc. apply orb_false_iff in Hc as [Hp _]. unfold Str.has_prefix.
    assert (E : exists t, Str.join "/" (String c (String d x) :: r) = String c (String d t)).
    { destruct r as [|y r]; [by exists x|]. by eexists. }
    destruct E as [t ->]. cbn [String.prefix] in *. destruct (ascii_dec "." c), (ascii_dec "." d); try done. by destruct x.
Qed.

Lemma rel_below ps ns : Forall (fun x => name x) ps -> Forall (fun x => name x /\ Str.contains x ".." = false) ns ->
  exists r, rel (rooted ps) (rooted (ps ++ ns)) = Some r /\ Str.has_prefix r ".." = false.
Proof.
  intros Hps Hns. assert (Hn : Forall (fun x => name x) ns) by (eapply Forall_impl; [exact Hns|]; by intros x [? _]).
  unfold rel. rewrite !clean_names by (try apply Forall_app; done).
  destruct (String.eqb_spec (rooted (ps ++ ns)) (rooted ps)) as [|Hne]; [by exists "."|].
  replace (String.eqb (rooted ps) ".") with false by done. rewrite !rooted_prefix. cbn [xorb].
  replace (String.eqb (rooted ps) "") with false by done. rewrite !elements_rooted by (try apply Forall_app; done).
  change ("" :: ps ++ ns) with (("" :: ps) ++ ns). rewrite strip_common_app. eexists. split; [reflexivity|].
  destruct ns as [|n ns]; [by rewrite app_nil_r in Hne|]. apply Forall_cons in Hns as [[Hx Hc] _]. by apply no_dots_prefix.
Qed.

(** ** safeAppsPath *)

Definition stored_path (stored : string) : string := trim_slash (backslashes stored).

Definition acceptable (stored : string) : bool :=
  negb (String.eqb (stored_path stored) "" || Str.contains (stored_path stored) "..").

Theorem safeAppsPath_exact `{CwdLaws} rootDir stored a : abs (Path.clean (Str.trim_space rootDir)) = inl a ->
  exists ps, Forall (fun x => name x) ps /\ a = rooted ps /\
    safeAppsPath rootDir stored =
      (if acceptable stored then Some (rooted (ps ++ names_of (stored_path stored))) else None).
Proof.
  intros Ha. destruct (abs_rooted _ _ Ha) as (ps & Hps & ->). exists ps. split_and!; [done|done|].
  unfold safeAppsPath. fold (stored_path stored). cbv zeta. unfold acceptable.
  destruct (String.eqb_spec (stored_path stored) "") as [|Hs]; [done|].
  destruct (Str.contains (stored_path stored) "..") eqn:Hc; [done|]. cbn [orb negb]. rewrite Ha.
  rewrite join_names by done.
  pose proof (names_ok _ Hc) as Hns.
  assert (Hn : Forall (fun x => name x) (names_of (stored_path stored))) by (eapply Forall_impl; [exact Hns|]; by intros x [? _]).
  rewrite clean_names by (by apply Forall_app). destruct (rel_below ps _ Hps Hns) as (r & -> & ->). done.
Qed.

(** ** Trimming stops at a byte that is in no space *)

Lemma trim_with_stops sp2 sp3 c r l : Str.space1 c = false -> (forall a, sp2 a c = false /\ sp2 c a = false) ->
  (forall a b, sp3 a b c = false /\ sp3 a c b = false /\ sp3 c a b = false) ->
  exists l', Str.trim_with sp2 sp3 (l ++ c :: r) = l' ++ c :: r.
Proof.
  intros H1 H2 H3. induction l as [l IH] using (induction_ltof1 _ (@List.length ascii)).
  assert (Hl : forall k : list ascii, (List.length k < List.length l)%nat -> exists l', Str.trim_with sp2 sp3 (k ++ c :: r) = l' ++ c :: r)
    by (intros k Hk; by apply IH).
  clear IH. destruct l as [|c1 [|c2 [|c3 l]]]; cbn [app Str.trim_with].
  - rewrite H1. exists []. destruct r as [|a [|b r]]; [done|..]; destruct (H2 a) as [_ ->]; [done|]. by destruct (H3 a b) as (_ & _ & ->).
  - destruct (Str.space1 c1); [apply (Hl []); simpl; lia|]. destruct (H2 c1) as [-> _]. exists [c1].
    destruct r as [|b r]; [done|]. by destruct (H3 c1 b) as (_ & -> & _).
  - destruct (Str.space1 c1); [apply (Hl [c2]); simpl; lia|]. destruct (sp2 c1 c2); [apply (Hl []); simpl; lia|].
    exists [c1; c2]. by destruct (H3 c1 c2) as (-> & _ & _).
  - destruct (Str.space1 c1); [apply (Hl (c2 :: c3 :: l)); simpl; lia|].
    destruct (sp2 c1 c2); [apply (Hl (c3 :: l)); simpl; lia|]. destruct (sp3 c1 c2 c3); [apply Hl; simpl; lia|].
    by exists (c1 :: c2 :: c3 :: l).
Qed.

Lemma trim_blobs s : exists r, Str.trim_space ("blobs/" +:+ s) = "blobs/" +:+ r.
Proof.
  unfold Str.trim_space. assert (E : Str.bytes ("blobs/" +:+ s) = Str.bytes "blobs/" ++ Str.bytes s) by done. rewrite E.
  replace (Str.trim_left (Str.bytes "blobs/" ++ Str.bytes s)) with (Str.bytes "blobs/" ++ Str.bytes s)
    by (symmetry; apply Str.trim_with_id; done).
  unfold Str.trim_right. rewrite rev_app_distr.
  destruct (trim_with_stops (fun c2 c1 => Str.space2 c1 c2) (fun c3 c2 c1 => Str.space3 c1 c2 c3) "/" (rev (Str.bytes "blobs"))
    (rev (Str.bytes s))) as [l' E'].
  - done.
  - intros a. unfold Str.space2. split; [done|]. by rewrite andb_false_r.
  - intros a b. unfold Str.space3. rewrite !andb_false_r. split_and!; by rewrite ?andb_false_r.
  - change (rev (Str.bytes "blobs/")) with ("/"%char :: rev (Str.bytes "blobs")). rewrite E', rev_app_distr.
    exists (Str.of_bytes (rev l')). done.
Qed.

Lemma prefix_self p r : Str.has_prefix (p +:+ r) p = true.
Proof.
  unfold Str.has_prefix. induction p as [|c p IH]; [by destruct r|]. rewrite Str.append_cons. cbn [String.prefix].
  by destruct (ascii_dec c c).
Qed.

Lemma has_byte_append c a b : Str.has_byte c (a +:+ b) = Str.has_byte c a || Str.has_byte c b.
Proof. induction a as [|d a IH]; [done|]. rewrite Str.append_cons. cbn [Str.has_byte]. by rewrite IH, orb_assoc. Qed.

Lemma prefix_self_inv s p : Str.has_prefix s p = true -> exists r, s = p +:+ r.
Proof.
  unfold Str.has_prefix. revert s. induction p as [|c p IH]; intros s; [by exists s|]. destruct s as [|d s]; [done|].
  cbn [String.prefix]. destruct (Ascii.ascii_dec c d) as [->|]; [|done]. intros [r ->]%IH. by exists r.
Qed.

(** ** Paths in a folder *)

Lemma join_name ps x : Forall (fun x => name x) ps -> name x -> Path.join [rooted ps; x] = rooted (ps ++ [x]).
Proof.
  intros Hps Hx. change (Path.join [rooted ps; x]) with (Path.clean (rooted ps +:+ String "/" x)).
  unfold Path.clean. replace (Str.has_prefix (rooted ps +:+ String "/" x) "/") with true by (symmetry; apply slash_prefix).
  rewrite split_on_concat, split_rooted by (by apply names_slash). rewrite (Str.split_on_no_sep "/" x) by apply Hx.
  rewrite clean_parts_names.
  - unfold rooted. do 2 f_equal. rewrite List.filter_app. cbn [rev app].
    rewrite (filter_names [x]) by (by constructor; [|constructor]). cbn [List.filter String.eqb orb negb]. f_equal.
    destruct ps as [|q ps]; [done|]. by apply filter_names.
  - apply Forall_app. split; [constructor; [done|]; destruct ps; [by repeat constructor|by apply names_dots]|].
    constructor; [apply Hx|constructor].
Qed.

Lemma snoc_names ps x : Forall (fun x => name x) ps -> name x -> Forall (fun x => name x) (ps ++ [x]).
Proof. intros Hps Hx. apply Forall_app. split; [done|]. by constructor; [|constructor]. Qed.

Lemma trim_slashes_name a x : x <> "" -> Path.no_slash x -> Path.trim_slashes (a +:+ x) = a +:+ x.
Proof.
  intros Hx Hs. pose proof (no_trailing a x Hx Hs) as Hn. unfold Str.has_suffix in Hn. unfold Path.trim_slashes.
  destruct (rev (Str.bytes (a +:+ x))) as [|c l] eqn:E.
  { apply (f_equal (@length _)) in E. rewrite length_rev in E. by destruct (a +:+ x). }
  change (Str.of_bytes (c :: l)) with (String c (Str.of_bytes l)) in Hn. cbn [Str.bytes list_ascii_of_string rev app Str.of_bytes string_of_list_ascii String.prefix] in Hn.
  destruct (Ascii.ascii_dec "/" c) as [<-|Hc]; [by destruct l|]. rewrite (proj2 (Ascii.eqb_neq _ _)) by congruence.
  rewrite <- E, rev_involutive. apply string_of_list_ascii_of_string.
Qed.

Lemma base_rooted ps x : Forall (fun x => name x) ps -> name x -> Path.base (rooted (ps ++ [x])) = x.
Proof.
  intros Hps Hx. unfold Path.base. change (String.eqb (rooted (ps ++ [x])) "") with false. cbv iota.
  replace (Path.trim_slashes (rooted (ps ++ [x]))) with (rooted (ps ++ [x])).
  2:{ rewrite rooted_snoc. replace (above ps +:+ String "/" x) with ((above ps +:+ "/") +:+ x) by (by rewrite Str.append_assoc).
      symmetry. apply trim_slashes_name; apply Hx. }
  rewrite split_rooted by (by apply names_slash, snoc_names). assert (E : exists q l, ps ++ [x] = q :: l) by (destruct ps; eauto).
  destruct E as (q & l & E). rewrite E. change (List.last (q :: l) "" = x). rewrite <- E. apply List.last_last.
Qed.

Lemma base_name x : name x -> Path.base x = x.
Proof.
  intros [(Hn & _) Hs]. unfold Path.base. rewrite (proj2 (String.eqb_neq _ _) Hn).
  rewrite (trim_slashes_name "" x Hn Hs : Path.trim_slashes x = x), (Str.split_on_no_sep "/" x Hs). by destruct x.
Qed.

Lemma rooted_snoc_inj ps qs x y : Forall (fun x => name x) ps -> Forall (fun x => name x) qs -> name x -> name y ->
  rooted (ps ++ [x]) = rooted (qs ++ [y]) -> ps = qs /\ x = y.
Proof. intros Hps Hqs Hx Hy E. apply rooted_inj in E; [|by apply snoc_names..]. by apply app_inj_tail in E. Qed.

Lemma rel_under ks rest : Forall (fun x => name x) ks -> Forall (fun x => name x) rest -> exists r, rel (rooted ks) (rooted (ks ++ rest)) = Some r.
Proof.
  intros Hks Hr. assert (Hall : Forall (fun x => name x) (ks ++ rest)) by (by apply Forall_app). unfold rel. rewrite !clean_names by done.
  destruct (String.eqb _ _); [by eexists|]. replace (String.eqb (rooted ks) ".") with false by done. rewrite !rooted_prefix. cbn [xorb].
  replace (String.eqb (rooted ks) "") with false by done. rewrite !elements_rooted by done.
  change ("" :: ks ++ rest) with (("" :: ks) ++ rest). rewrite strip_common_app. by eexists.
Qed.

Lemma longer ps x : name x -> (S (String.length (rooted ps)) <= String.length (rooted (ps ++ [x])))%nat.
Proof.
  intros [(Hx & _) _]. rewrite rooted_snoc, Str.length_append. destruct x as [|a x]; [done|]. destruct ps as [|p ps]; simpl; lia.
Qed.
