(* ===== verification/CertAuthority.v ===== *)
(** * The embedded certificate authority

    internal/pki/{ca,server_tls}.go: the two-tier authority on the server's disk, the client
    certificates of enrolling agents and the server's own.  X.509, ECDSA, PEM and the parsing
    of addresses are the class [X509]; the disk is that of [AppFiles], randomness a number of
    draws, the clock stands still during one operation. *)

From S2P Require Import Prelude GoStd GoPath Float64 Json Ext World Auth Enrollment AppFiles AppPaths.

#[local] Open Scope string_scope.
#[local] Open Scope list_scope.
#[local] Open Scope Z_scope.

Definition rootCertFile : string := "root-ca.pem".
Definition rootKeyFile : string := "root-ca.key".
Definition intermediateCertFile : string := "intermediate-ca.pem".
Definition intermediateKeyFile : string := "intermediate-ca.key".
Definition mtlsClientBundleFile : string := "mtls-client-ca-bundle.pem".
Definition serverCertFile : string := "server-cert.pem".
Definition serverKeyFile : string := "server-key.pem".

(** ** Keys and certificates *)

Inductive curve := P224 | P256 | P384 | P521.
Inductive public_key := ECDSA (c : curve) (point : string) | RSA (bits : Z) (modulus : string) | OtherKey (type : string).

(** *ecdsa.PrivateKey: the curve, the point, the secret. *)
Record ec_key := { ek_Curve : curve; ek_Point : string; ek_D : string }.
Definition public_of (k : ec_key) : public_key := ECDSA (ek_Curve k) (ek_Point k).

Inductive SignatureAlgorithm := ECDSAWithSHA256 | ECDSAWithSHA384 | ECDSAWithSHA512 | SHA256WithRSA.
Inductive KeyUsage := DigitalSignature | KeyEncipherment | CertSign | CRLSign.
Inductive ExtKeyUsage := ClientAuth | ServerAuth.

Record Name := { nm_Organization : list string; nm_CommonName : string }.

(** The fields of x509.Certificate the code sets or reads. *)
Record Certificate := {
  ct_SerialNumber : Z; ct_Subject : Name; ct_NotBefore : Z; ct_NotAfter : Z; ct_KeyUsage : list KeyUsage;
  ct_ExtKeyUsage : list ExtKeyUsage; ct_BasicConstraintsValid : bool; ct_IsCA : bool; ct_MaxPathLen : Z; ct_MaxPathLenZero : bool;
  ct_SubjectKeyId : string; ct_AuthorityKeyId : string; ct_SignatureAlgorithm : SignatureAlgorithm; ct_DNSNames : list string;
  ct_IPAddresses : list string; ct_URIs : list string; ct_PublicKey : public_key; ct_Raw : string
}.

(** crypto/ecdsa, crypto/rand, crypto/sha256, crypto/x509, encoding/pem and net.ParseIP: what the
    code asks of them.  A [nat] is the position in the random source. *)
Class X509 `{CsrLib} := {
  ec_generate : nat -> option ec_key;                                   (* ecdsa.GenerateKey(elliptic.P384()) *)
  rand_int : nat -> Z -> option Z;                                      (* rand.Int: below the bound *)
  temp_suffix : nat -> string;                                          (* what os.CreateTemp puts for the star *)
  marshal_pkix : public_key -> option string;
  sha256_sum : string -> string;
  create_certificate : nat -> Certificate -> Certificate -> public_key -> ec_key -> option string;
  parse_certificate : string -> option Certificate;
  verify_chain : Z -> Certificate -> Certificate -> bool;               (* Verify at an instant: roots, certificate *)
  marshal_pkcs8 : ec_key -> option string;
  parse_pkcs8 : string -> option (string + ec_key);                     (* a key of another type, by its name *)
  parse_ec_key : string -> option ec_key;
  pem_encode : string -> string -> string;
  pem_decode : string -> option (string * string * string);             (* type, bytes, rest *)
  parse_ip : string -> option string;                                   (* the address in its canonical form *)
  csr_public_key : csr -> public_key;
  csr_ip_addresses : csr -> list string;
  csr_organization : csr -> list string
}.

(** ** Operations on the disk, with randomness *)

Record Store := { st_disk : Disk; st_draw : nat; st_now : Z }.

Notation pki := (fallible Store).
#[local] Existing Instance fallible_ret.
#[local] Existing Instance fallible_bind.

Definition clock : pki Z := fun st => (inr (st_now st), st).

Definition on_disk {A} (f : Disk -> A * Disk) : pki A := fun st =>
  let '(x, d) := f (st_disk st) in (inr x, {| st_disk := d; st_draw := st_draw st; st_now := st_now st |}).

(** The next draw, of a function that may fail. *)
Definition draw {A} (msg : string) (f : nat -> option A) : pki A := fun st =>
  let st' := {| st_disk := st_disk st; st_draw := S (st_draw st); st_now := st_now st |} in
  match f (st_draw st) with Some x => (inr x, st') | None => (inl (ErrMsg msg), st') end.

(** An operation that only succeeds or fails: Sync, Close, Chmod. *)
Definition touch : Disk -> bool * Disk := disk_op Some.

(** os.Stat *)
Definition fileReadable (path : string) : pki bool :=
  x ← on_disk (os_open path);
  mret match x with Content _ => true | _ => false end.

(** a && b && c && d: the first that is not readable ends it. *)
Fixpoint all_readable (paths : list string) : pki bool :=
  match paths with
  | [] => mret true
  | p :: r => ok ← fileReadable p; if (ok : bool) then all_readable r else mret false
  end.

Definition read_whole (msg path : string) : pki string :=
  x ← on_disk (os_open path);
  match x with Content s => mret s | _ => refuse msg end.

Section files.
Context `{XL : X509}.

(** os.CreateTemp(dir, ".arx-pki-*"): a name that is not taken, in 10000 attempts. *)
Definition temp_name (d : string) (k : nat) : string :=
  (if Str.has_suffix d "/" then d else d +:+ "/") +:+ ".arx-pki-" +:+ temp_suffix k.

Fixpoint create_temp (tries : nat) (d : string) : pki string :=
  match tries with
  | O => refuse "file exists"
  | S n =>
      name ← draw "" (fun k => Some (temp_name d k));
      taken ← on_disk (fun d => (has_file d name || is_dir d name, d));
      if (taken : bool) then create_temp n d else
      ok ← on_disk (os_open_trunc name);
      if (ok : bool) then mret name else refuse "open"
  end.

Definition temp_tries : nat := Z.to_nat 10000.

(** The steps after the file is there; [false] is an error. *)
Definition write_steps (tmp path data : string) : pki bool :=
  ok ← on_disk (os_write tmp data);
  if negb ok then mret false else
  ok ← on_disk touch;
  if negb ok then mret false else
  ok ← on_disk touch;
  if negb ok then mret false else
  ok ← on_disk touch;
  if negb ok then mret false else
  _ ← on_disk (os_remove path);
  on_disk (os_rename tmp path).

Definition writeFileExclusive (msg path data : string) : pki () :=
  tmp ← create_temp temp_tries (dir path);
  ok ← write_steps tmp path data;
  if (ok : bool) then mret () else
  _ ← on_disk (os_remove tmp);
  refuse msg.
End files.

(** ** ca.go *)

Record Authority := {
  au_storageDir : string; au_rootCert : Certificate; au_rootKey : ec_key; au_intermediateCert : Certificate;
  au_intermediateKey : ec_key; au_rootPEM : string; au_intermediatePEM : string
}.

Section authority.
Context `{XL : X509}.

Definition pemEncodeCertificate (der : string) : string := pem_encode "CERTIFICATE" der.

Definition marshalECPrivateKeyPEM (key : ec_key) : pki string :=
  der ← obtain "pki: marshal pkcs8" (marshal_pkcs8 key);
  mret (pem_encode "PRIVATE KEY" der).

(** The first block of one of the types: each round takes a block off the data. *)
Fixpoint find_block (fuel : nat) (types : list string) (data : string) : option (string * string) :=
  match fuel with
  | O => None
  | S n =>
      match pem_decode data with
      | None => None
      | Some (t, b, rest) => if existsb (String.eqb t) types then Some (t, b) else find_block n types rest
      end
  end.

Definition first_block (types : list string) (data : string) : option (string * string) :=
  find_block (S (String.length data)) types data.

Definition parseFirstCertificatePEM (data : string) : pki Certificate :=
  match first_block ["CERTIFICATE"] data with
  | None => refuse "pki: no certificate pem block"
  | Some (_, b) => obtain "pki: parse certificate" (parse_certificate b)
  end.

Definition parseECPrivateKeyPEM (data : string) : pki ec_key :=
  match first_block ["EC PRIVATE KEY"; "PRIVATE KEY"] data with
  | None => refuse "pki: no private key pem block"
  | Some (t, b) =>
      if String.eqb t "EC PRIVATE KEY" then obtain "pki: parse ec private key" (parse_ec_key b) else
      match parse_pkcs8 b with
      | None => refuse "pki: parse pkcs8 private key"
      | Some (inl t) => refuse ("pki: expected ecdsa private key, got " +:+ t)
      | Some (inr k) => mret k
      end
  end.

Definition parseECCertAndKey (certPEM keyPEM : string) : pki (Certificate * ec_key) :=
  cert ← parseFirstCertificatePEM certPEM;
  key ← parseECPrivateKeyPEM keyPEM;
  mret (cert, key).

Definition verifyHierarchy (root intermediate : Certificate) : pki () :=
  if negb (ct_IsCA root) then refuse "pki: root certificate is not a CA" else
  if negb (ct_IsCA intermediate) then refuse "pki: intermediate certificate is not a CA" else
  now ← clock;
  check_ok "pki: intermediate does not chain to root" (verify_chain now root intermediate).

Definition subjectKeyID (pub : public_key) : pki string :=
  b ← obtain "pki: marshal public key" (marshal_pkix pub);
  mret (Str.take 20 (sha256_sum b)).

Definition serialBits : Z := 159.

Definition randomSerial : pki Z :=
  n ← draw "pki: serial" (fun k => rand_int k (2 ^ serialBits));
  if n <=? 0 then refuse "pki: invalid serial" else mret n.

Definition two_minutes : Z := 2 * 60 * 1000000000.

Definition root_template (serial now : Z) (skid : string) : Certificate := {|
  ct_SerialNumber := serial;
  ct_Subject := {| nm_Organization := ["ARX MDM"]; nm_CommonName := "ARX MDM Embedded Root CA" |};
  ct_NotBefore := now - two_minutes; ct_NotAfter := Cal.add_years 20 now; ct_KeyUsage := [CertSign; CRLSign; DigitalSignature];
  ct_ExtKeyUsage := []; ct_BasicConstraintsValid := true; ct_IsCA := true; ct_MaxPathLen := 1; ct_MaxPathLenZero := false;
  ct_SubjectKeyId := skid; ct_AuthorityKeyId := ""; ct_SignatureAlgorithm := ECDSAWithSHA384; ct_DNSNames := [];
  ct_IPAddresses := []; ct_URIs := []; ct_PublicKey := OtherKey "nil"; ct_Raw := "" |}.

Definition intermediate_template (serial now : Z) (skid akid : string) : Certificate := {|
  ct_SerialNumber := serial;
  ct_Subject := {| nm_Organization := ["ARX MDM"]; nm_CommonName := "ARX MDM Embedded Intermediate CA" |};
  ct_NotBefore := now - two_minutes; ct_NotAfter := Cal.add_years 10 now; ct_KeyUsage := [CertSign; CRLSign; DigitalSignature];
  ct_ExtKeyUsage := []; ct_BasicConstraintsValid := true; ct_IsCA := true; ct_MaxPathLen := 0; ct_MaxPathLenZero := true;
  ct_SubjectKeyId := skid; ct_AuthorityKeyId := akid; ct_SignatureAlgorithm := ECDSAWithSHA384; ct_DNSNames := [];
  ct_IPAddresses := []; ct_URIs := []; ct_PublicKey := OtherKey "nil"; ct_Raw := "" |}.

(** The four files of the authority. *)
Definition rootCertPath (d : string) : string := Path.join [d; rootCertFile].
Definition rootKeyPath (d : string) : string := Path.join [d; rootKeyFile].
Definition intCertPath (d : string) : string := Path.join [d; intermediateCertFile].
Definition intKeyPath (d : string) : string := Path.join [d; intermediateKeyFile].

Definition loadFromDisk (d : string) : pki Authority :=
  rootPEM ← read_whole "pki: read root cert" (rootCertPath d);
  rootKeyPEM ← read_whole "pki: read root key" (rootKeyPath d);
  intPEM ← read_whole "pki: read intermediate cert" (intCertPath d);
  intKeyPEM ← read_whole "pki: read intermediate key" (intKeyPath d);
  '(rootCert, rootKey) ← parseECCertAndKey rootPEM rootKeyPEM;
  '(intCert, intKey) ← parseECCertAndKey intPEM intKeyPEM;
  _ ← verifyHierarchy rootCert intCert;
  mret {| au_storageDir := d; au_rootCert := rootCert; au_rootKey := rootKey; au_intermediateCert := intCert;
          au_intermediateKey := intKey; au_rootPEM := pemEncodeCertificate (ct_Raw rootCert);
          au_intermediatePEM := pemEncodeCertificate (ct_Raw intCert) |}.

(** The DER of a certificate, and what parsing it gives. *)
Definition issue (what : string) (tpl parent : Certificate) (pub : public_key) (signer : ec_key) : pki (string * Certificate) :=
  der ← draw ("pki: create " +:+ what ++ " certificate") (fun k => create_certificate k tpl parent pub signer);
  cert ← obtain ("pki: parse generated " +:+ what) (parse_certificate der);
  mret (der, cert).

Definition generate : pki (Authority * string * string) :=
  now ← clock;
  rootKey ← draw "pki: generate root key" ec_generate;
  rootSKID ← subjectKeyID (public_of rootKey);
  rootSerial ← randomSerial;
  let rootTpl := root_template rootSerial now rootSKID in
  '(rootDER, rootCert) ← issue "root" rootTpl rootTpl (public_of rootKey) rootKey;
  intKey ← draw "pki: generate intermediate key" ec_generate;
  intSKID ← subjectKeyID (public_of intKey);
  intSerial ← randomSerial;
  let intTpl := intermediate_template intSerial now intSKID (ct_SubjectKeyId rootCert) in
  '(intDER, intCert) ← issue "intermediate" intTpl rootCert (public_of intKey) rootKey;
  rootKeyOut ← marshalECPrivateKeyPEM rootKey;
  intKeyOut ← marshalECPrivateKeyPEM intKey;
  mret ({| au_storageDir := ""; au_rootCert := rootCert; au_rootKey := rootKey; au_intermediateCert := intCert;
           au_intermediateKey := intKey; au_rootPEM := pemEncodeCertificate rootDER;
           au_intermediatePEM := pemEncodeCertificate intDER |}, rootKeyOut, intKeyOut).

Definition generateAndPersist (d : string) : pki Authority :=
  '(a, rootKeyOut, intKeyOut) ← generate;
  _ ← writeFileExclusive "pki: write root cert" (rootCertPath d) (au_rootPEM a);
  _ ← writeFileExclusive "pki: write root key" (rootKeyPath d) rootKeyOut;
  _ ← writeFileExclusive "pki: write intermediate cert" (intCertPath d) (au_intermediatePEM a);
  _ ← writeFileExclusive "pki: write intermediate key" (intKeyPath d) intKeyOut;
  mret {| au_storageDir := d; au_rootCert := au_rootCert a; au_rootKey := au_rootKey a; au_intermediateCert := au_intermediateCert a;
          au_intermediateKey := au_intermediateKey a; au_rootPEM := au_rootPEM a; au_intermediatePEM := au_intermediatePEM a |}.

Definition MTLSClientCABundlePath (d : string) : string := Path.join [d; mtlsClientBundleFile].

Definition LoadOrInitialize (storageDir : string) : pki Authority :=
  let d := Str.trim_space storageDir in
  if String.eqb d "" then refuse "pki: storage directory is required" else
  ok ← on_disk (os_mkdir_all d);
  if negb ok then refuse "pki: create storage directory" else
  present ← all_readable [rootCertPath d; rootKeyPath d; intCertPath d; intKeyPath d];
  a ← (if (present : bool) then loadFromDisk d else generateAndPersist d);
  _ ← writeFileExclusive "pki: write mtls-client-ca-bundle.pem" (MTLSClientCABundlePath d) (au_intermediatePEM a +:+ au_rootPEM a);
  mret a.
(** ** Client certificates *)

Definition validateCSRPublicKey (pub : public_key) : pki () :=
  match pub with
  | ECDSA (P256 | P384 | P521) _ => mret ()
  | ECDSA P224 _ => refuse "pki: unsupported ecdsa curve P-224"
  | RSA bits _ => if bits <? 2048 then refuse "pki: rsa public key must be at least 2048 bits" else mret ()
  | OtherKey t => refuse ("pki: unsupported public key type " +:+ t)
  end.

Definition signatureAlgorithmForPub (pub : public_key) : pki SignatureAlgorithm :=
  match pub with
  | ECDSA P521 _ => mret ECDSAWithSHA512
  | ECDSA P384 _ => mret ECDSAWithSHA384
  | ECDSA _ _ => mret ECDSAWithSHA256
  | RSA _ _ => mret SHA256WithRSA
  | OtherKey t => refuse ("pki: unsupported public key " +:+ t)
  end.

Definition hostIsDNS (host : string) : bool :=
  if String.eqb host "" then false else match parse_ip host with Some _ => false | None => true end.

(** Trimmed, not empty, each once, in the order they first come. *)
Definition add_unique (out : list string) (s : string) : list string :=
  if String.eqb s "" || existsb (String.eqb s) out then out else out ++ [s].
Definition unique_strings (l : list string) : list string := fold_left (fun out s => add_unique out (Str.trim_space s)) l [].
(** Addresses are in their canonical form; none is nil. *)
Definition uniqueIPs (l : list string) : list string :=
  fold_left (fun out ip => if existsb (String.eqb ip) out then out else out ++ [ip]) l [].

Definition leaf_dns (hostname : string) (cr : csr) : list string :=
  let names := unique_strings (csr_dns_names cr) in
  if hostIsDNS hostname then unique_strings (hostname :: names) else names.

Definition leaf_ips (hostname : string) (cr : csr) : list string :=
  match parse_ip hostname with Some ip => uniqueIPs (ip :: csr_ip_addresses cr) | None => csr_ip_addresses cr end.

Definition asset_uri `{UuidLib} (id : uuid) : list string :=
  if N.eqb id uuid_nil then [] else ["urn:uuid:" +:+ uuid_string id].

Definition leaf_template `{UuidLib} (a : Authority) (serial now : Z) (skid : string) (alg : SignatureAlgorithm) (id : uuid)
    (hostname : string) (cr : csr) : Certificate := {|
  ct_SerialNumber := serial; ct_Subject := {| nm_Organization := csr_organization cr; nm_CommonName := hostname |};
  ct_NotBefore := now - two_minutes; ct_NotAfter := Cal.add_years 1 now; ct_KeyUsage := [DigitalSignature; KeyEncipherment];
  ct_ExtKeyUsage := [ClientAuth]; ct_BasicConstraintsValid := true; ct_IsCA := false; ct_MaxPathLen := 0; ct_MaxPathLenZero := false;
  ct_SubjectKeyId := skid; ct_AuthorityKeyId := ct_SubjectKeyId (au_intermediateCert a); ct_SignatureAlgorithm := alg;
  ct_DNSNames := leaf_dns hostname cr; ct_IPAddresses := leaf_ips hostname cr; ct_URIs := asset_uri id;
  ct_PublicKey := csr_public_key cr; ct_Raw := "" |}.

(** The request's context is not done before the signature. *)
Definition IssueClientCertificate `{UuidLib} (a : Authority) (id : uuid) (hostname : string) (cr : csr)
    : pki IssueClientCertificateResult :=
  let hostname := Str.trim_space hostname in
  if String.eqb hostname "" then refuse "pki: hostname is required" else
  if negb (csr_signature_ok cr) then refuse "pki: invalid csr signature" else
  let pub := csr_public_key cr in
  _ ← validateCSRPublicKey pub;
  alg ← signatureAlgorithmForPub pub;
  serial ← randomSerial;
  skid ← subjectKeyID pub;
  now ← clock;
  der ← draw "pki: sign client certificate" (fun k => create_certificate k (leaf_template a serial now skid alg id hostname cr)
          (au_intermediateCert a) pub (au_intermediateKey a));
  mret {| ic_ClientChainPEM := pemEncodeCertificate der +:+ au_intermediatePEM a; ic_RootCAPEM := au_rootPEM a |}.

(** What the enrollment coordinator is given ([ProcessEnroll]): the outcome of signing now. *)
Definition issuer `{UuidLib} (a : Authority) (st : Store) (id : uuid) (hostname : string) (cr : csr) : signing :=
  match (IssueClientCertificate a id hostname cr st).1 with inl e => inl e | inr r => inr (Some r) end.

(** ** server_tls.go *)

Definition serverCertPath (a : Authority) : string := Path.join [au_storageDir a; serverCertFile].
Definition serverKeyPath (a : Authority) : string := Path.join [au_storageDir a; serverKeyFile].

Definition mustAbs `{Cwd} (p : string) : string := match abs (Path.clean p) with inl s => s | inr _ => Path.clean p end.

Definition server_names (extraDNS : list string) : list string := unique_strings ("localhost" :: extraDNS).

(** The first name that is not localhost. *)
Definition server_common_name (names : list string) : string :=
  default "localhost" (List.find (fun d => negb (String.eqb d "localhost")) names).

Definition server_template (a : Authority) (serial now : Z) (skid : string) (extraDNS : list string) (pub : public_key) : Certificate := {|
  ct_SerialNumber := serial;
  ct_Subject := {| nm_Organization := ["ARX MDM"]; nm_CommonName := server_common_name (server_names extraDNS) |};
  ct_NotBefore := now - two_minutes; ct_NotAfter := Cal.add_years 1 now; ct_KeyUsage := [DigitalSignature; KeyEncipherment];
  ct_ExtKeyUsage := [ServerAuth]; ct_BasicConstraintsValid := true; ct_IsCA := false; ct_MaxPathLen := 0; ct_MaxPathLenZero := false;
  ct_SubjectKeyId := skid; ct_AuthorityKeyId := ct_SubjectKeyId (au_intermediateCert a); ct_SignatureAlgorithm := ECDSAWithSHA384;
  ct_DNSNames := server_names extraDNS; ct_IPAddresses := uniqueIPs ["127.0.0.1"]; ct_URIs := []; ct_PublicKey := pub; ct_Raw := "" |}.

(** Both paths, and whether new material was written. *)
Definition EnsureServerTLSMaterial `{Cwd} (a : Authority) (extraDNS : list string) : pki (string * string * bool) :=
  let certPath := serverCertPath a in let keyPath := serverKeyPath a in
  there ← all_readable [certPath; keyPath];
  if (there : bool) then mret (mustAbs certPath, mustAbs keyPath, false) else
  serverKey ← draw "pki: generate server tls key" ec_generate;
  skid ← subjectKeyID (public_of serverKey);
  serial ← randomSerial;
  now ← clock;
  leafDER ← draw "pki: sign server tls certificate" (fun k => create_certificate k
              (server_template a serial now skid extraDNS (public_of serverKey)) (au_intermediateCert a) (public_of serverKey)
              (au_intermediateKey a));
  serverKeyOut ← marshalECPrivateKeyPEM serverKey;
  _ ← writeFileExclusive "pki: write server-cert.pem" certPath (pemEncodeCertificate leafDER);
  _ ← writeFileExclusive "pki: write server-key.pem" keyPath serverKeyOut;
  mret (mustAbs certPath, mustAbs keyPath, true).

Definition NormalizeExtraTLSDNS (raw : string) : list string :=
  let raw := Str.trim_space raw in
  if String.eqb raw "" then [] else
  unique_strings (List.filter (fun s => negb (String.eqb s "")) (map Str.trim_space (Str.split_on "," raw))).
End authority.

(** ** The laws of the libraries *)

Definition second : Z := 1000000000.

Class X509Laws `{XL : X509} : Prop := {
  (* Decode finds the block Encode wrote, and nothing behind it *)
  pem_decode_encode : forall t b, In t ["CERTIFICATE"; "PRIVATE KEY"] -> pem_decode (pem_encode t b) = Some (t, b, "");
  parse_marshalled : forall k der, marshal_pkcs8 k = Some der -> parse_pkcs8 der = Some (inr k);
  parsed_raw : forall der c, parse_certificate der = Some c -> ct_Raw c = der;
  created_ca : forall n tpl parent pub key der c, create_certificate n tpl parent pub key = Some der ->
    parse_certificate der = Some c -> ct_BasicConstraintsValid tpl = true -> ct_IsCA c = ct_IsCA tpl;
  (* an algorithm of another kind of key than the signer's is an error *)
  rsa_algorithm_refused : forall n tpl parent pub key, ct_SignatureAlgorithm tpl = SHA256WithRSA ->
    create_certificate n tpl parent pub key = None;
  temp_no_slash : forall k, Path.no_slash (temp_suffix k);
  rand_below : forall n b z, rand_int n b = Some z -> 0 <= z < b;
  (* a certificate authority's certificate, self-signed, vouches for the one its key has signed, while both are valid *)
  issued_chain : forall n m root int rder rc ider ic pub key t,
    create_certificate n root root (public_of key) key = Some rder -> parse_certificate rder = Some rc ->
    create_certificate m int rc pub key = Some ider -> parse_certificate ider = Some ic ->
    ct_IsCA root = true -> ct_IsCA int = true -> In CertSign (ct_KeyUsage root) -> In CertSign (ct_KeyUsage int) ->
    1 <= ct_MaxPathLen root -> ct_NotBefore root <= t -> ct_NotBefore int <= t ->
    t + second <= ct_NotAfter root -> t + second <= ct_NotAfter int -> verify_chain t rc ic = true
}.

(** ** Walking a computation *)

Lemma on_disk_inv {A} (f : Disk -> A * Disk) st x st' : on_disk f st = (inr x, st') ->
  f (st_disk st) = (x, st_disk st') /\ st_now st' = st_now st /\ st_draw st' = st_draw st.
Proof. unfold on_disk. destruct (f _). by intros [= -> <-]. Qed.

Lemma draw_inv {A} msg (f : nat -> option A) st x st' : draw msg f st = (inr x, st') ->
  f (st_draw st) = Some x /\ st_disk st' = st_disk st /\ st_now st' = st_now st.
Proof. unfold draw. destruct (f _); [|done]. by intros [= -> <-]. Qed.

(** What leaves the disk and the clock alone. *)
Definition quiet {A} (m : pki A) : Prop := forall st, st_disk (m st).2 = st_disk st /\ st_now (m st).2 = st_now st.

Lemma quiet_seq {A B} (m : pki A) (k : A -> pki B) : quiet m -> (forall x, quiet (k x)) -> quiet (x ← m; k x).
Proof.
  intros Hm Hk st. specialize (Hm st). unfold mbind, fallible_bind. destruct (m st) as [[e|x] st1]; [done|].
  destruct (Hk x st1) as [-> ->]. done.
Qed.
Lemma quiet_ret {A} (x : A) : quiet (mret x).
Proof. done. Qed.
Lemma quiet_refuse {A} msg : quiet (refuse (A := A) msg).
Proof. done. Qed.
Lemma quiet_clock : quiet clock.
Proof. done. Qed.
Lemma quiet_draw {A} msg (f : nat -> option A) : quiet (draw msg f).
Proof. intros st. unfold draw. by destruct (f _). Qed.
Lemma quiet_obtain {A} msg (o : option A) : quiet (obtain msg o).
Proof. by destruct o. Qed.
Lemma quiet_check msg ok : quiet (check_ok msg ok).
Proof. by destruct ok. Qed.

Create HintDb pki.
#[export] Hint Resolve @quiet_ret @quiet_refuse @quiet_clock @quiet_draw @quiet_obtain @quiet_check : pki.

Ltac quiet_walk := repeat first
  [ progress intros
  | solve [eauto with pki]
  | apply quiet_seq
  | match goal with |- quiet (match ?x with _ => _ end) => destruct x end
  | match goal with |- quiet (let '(_, _) := ?x in _) => destruct x end ].

Lemma quiet_inv {A} (m : pki A) st x st' : quiet m -> m st = (inr x, st') -> st_disk st' = st_disk st /\ st_now st' = st_now st.
Proof. intros Hm E. specialize (Hm st). by rewrite E in Hm. Qed.

(** ** A file that was written *)

Section written.
Context `{XL : X509}.

Lemma disk_op_true f d d' : disk_op f d = (true, d') -> exists d0, dk_files d0 = dk_files d /\ dk_dirs d0 = dk_dirs d /\ f d0 = Some d'.
Proof.
  unfold disk_op, disk_fault. destruct (dk_faults d) as [|[] fs]; [|done|].
  - destruct (f d) eqn:E; [|done]. intros [= <-]. by exists d.
  - destruct (f _) eqn:E; [|done]. intros [= <-]. eexists. split; [|split; [|exact E]]; done.
Qed.

Lemma create_temp_inv n d st name st' : create_temp n d st = (inr name, st') ->
  dk_files (st_disk st) !! name = None /\ dk_files (st_disk st') = <[name := ""]> (dk_files (st_disk st)) /\ st_now st' = st_now st.
Proof.
  revert st. induction n as [|n IH]; intros st; [done|]. cbn [create_temp]. intros E.
  apply fallible_inv in E as (x & st1 & E1 & E). apply draw_inv in E1 as (_ & Ed1 & En1).
  apply fallible_inv in E as (taken & st2 & E2 & E). apply on_disk_inv in E2 as (E2 & En2 & _). injection E2 as Et Ed2.
  destruct taken.
  { apply IH in E. rewrite <- Ed2, Ed1 in E. by rewrite En2, En1 in E. }
  apply fallible_inv in E as (ok & st3 & E3 & E). apply on_disk_inv in E3 as (E3 & En3 & _). destruct ok; [|done].
  apply mret_inv in E as [-> ->]. apply disk_op_true in E3 as (d0 & Ef & _ & E3). case_match; [done|]. injection E3 as E3.
  apply orb_false_iff in Et as [Et _]. unfold has_file in Et. apply bool_decide_eq_false in Et. rewrite <- E3. cbn [dk_files with_files].
  rewrite Ef, <- Ed2, Ed1. rewrite Ed1 in Et. split; [by apply eq_None_not_Some|]. split; [done|]. congruence.
Qed.

Lemma touch_inv d d' : touch d = (true, d') -> dk_files d' = dk_files d.
Proof. intros (d0 & E & _ & [= ->])%disk_op_true. done. Qed.

Lemma write_inv p s d d' : os_write p s d = (true, d') -> dk_files d' = <[p := s]> (dk_files d).
Proof. unfold os_write, disk_fault. destruct (dk_faults d) as [|[] fs]; [|done|]; by intros [= <-]. Qed.

Lemma disk_op_false f d d' : disk_op f d = (false, d') -> dk_files d' = dk_files d.
Proof.
  unfold disk_op, disk_fault. destruct (dk_faults d) as [|[] fs]; [| |]; try (destruct (f _) eqn:E; [done|]); by intros [= <-].
Qed.

Lemma remove_cases p d ok d' : os_remove p d = (ok, d') -> dk_files d' = dk_files d \/ dk_files d' = delete p (dk_files d).
Proof.
  unfold os_remove. destruct ok.
  - intros (d0 & Ef & _ & E)%disk_op_true. rewrite <- Ef. destruct (has_file d0 p); [injection E as <-; by right|].
    destruct (_ && _); [|done]. injection E as <-. by left.
  - intros E%disk_op_false. by left.
Qed.

Lemma write_exclusive_inv msg path data st st' : writeFileExclusive msg path data st = (inr tt, st') ->
  dk_files (st_disk st') = <[path := data]> (dk_files (st_disk st)) /\ st_now st' = st_now st.
Proof.
  unfold writeFileExclusive. intros E. apply fallible_inv in E as (tmp & st1 & E1 & E). apply create_temp_inv in E1 as (Hnew & Ef1 & En1).
  apply fallible_inv in E as (ok & st2 & E2 & E). destruct ok.
  2:{ apply fallible_inv in E as (? & ? & _ & E). done. }
  injection E as <-. unfold write_steps in E2.
  apply fallible_inv in E2 as (ok & s2 & Hw & E). apply on_disk_inv in Hw as (Hw & Nw & _). destruct ok; [|done]. cbn [negb] in E.
  apply fallible_inv in E as (ok & s3 & H3 & E). apply on_disk_inv in H3 as (H3 & N3 & _). destruct ok; [|done]. cbn [negb] in E.
  apply fallible_inv in E as (ok & s4 & H4 & E). apply on_disk_inv in H4 as (H4 & N4 & _). destruct ok; [|done]. cbn [negb] in E.
  apply fallible_inv in E as (ok & s5 & H5 & E). apply on_disk_inv in H5 as (H5 & N5 & _). destruct ok; [|done]. cbn [negb] in E.
  apply fallible_inv in E as (ok & s6 & H6 & E). apply on_disk_inv in H6 as (H6 & N6 & _). apply on_disk_inv in E as (E & N7 & _).
  apply write_inv in Hw. apply touch_inv in H3, H4, H5. apply disk_op_true in E as (d0 & Ef & _ & E).
  assert (Eall : dk_files (st_disk s5) = <[tmp := data]> (dk_files (st_disk st))).
  { rewrite H5, H4, H3, Hw, Ef1. by rewrite insert_insert_eq. }
  split; [|congruence]. rewrite Ef in E. apply remove_cases in H6.
  destruct (dk_files (st_disk s6) !! tmp) as [s|] eqn:Es; [|done]. destruct (is_dir d0 path); [done|]. injection E as E. rewrite <- E.
  cbn [dk_files with_files]. clear -Hnew Eall H6 Es. rewrite Eall in H6. apply map_eq. intros p.
  destruct (decide (p = path)) as [->|Hp].
  - rewrite !lookup_insert_eq. destruct H6 as [E|E]; rewrite E in Es.
    + rewrite lookup_insert_eq in Es. done.
    + apply lookup_delete_Some in Es as [_ Es]. by rewrite lookup_insert_eq in Es.
  - rewrite !lookup_insert_ne by done. destruct (decide (p = tmp)) as [->|Ht].
    + by rewrite lookup_delete_eq, Hnew.
    + rewrite lookup_delete_ne by done. destruct H6 as [-> | ->]; rewrite ?lookup_delete_ne by done; by rewrite lookup_insert_ne.
Qed.
End written.

(** ** What stays of an authority on the disk *)

Section stored.
Context `{XL : X509}.

Lemma settled_parse certPEM keyPEM : settled (parseECCertAndKey certPEM keyPEM).
Proof. unfold parseECCertAndKey, parseFirstCertificatePEM, parseECPrivateKeyPEM, obtain. settled_walk. Qed.

Definition authority_files (d : string) : list string := [rootCertPath d; rootKeyPath d; intCertPath d; intKeyPath d].

(** The four files hold the authority. *)
Record stored (d : string) (files : gmap string string) (a : Authority) : Prop := {
  so_dir : au_storageDir a = d;
  so_root : exists c k, files !! rootCertPath d = Some c /\ files !! rootKeyPath d = Some k /\
    forall st, parseECCertAndKey c k st = (inr (au_rootCert a, au_rootKey a), st);
  so_intermediate : exists c k, files !! intCertPath d = Some c /\ files !! intKeyPath d = Some k /\
    forall st, parseECCertAndKey c k st = (inr (au_intermediateCert a, au_intermediateKey a), st);
  so_pems : au_rootPEM a = pemEncodeCertificate (ct_Raw (au_rootCert a)) /\
    au_intermediatePEM a = pemEncodeCertificate (ct_Raw (au_intermediateCert a));
  so_cas : ct_IsCA (au_rootCert a) = true /\ ct_IsCA (au_intermediateCert a) = true
}.

Lemma stored_agree d files files' a : (forall p, In p (authority_files d) -> files' !! p = files !! p) ->
  stored d files a -> stored d files' a.
Proof.
  intros Hf [H1 (c & k & Hc & Hk & E) (c' & k' & Hc' & Hk' & E') H4 H5].
  split; [done|exists c, k|exists c', k'|done|done]; rewrite !Hf by (cbn; tauto); done.
Qed.

Lemma read_whole_inv msg p st s st' : read_whole msg p st = (inr s, st') ->
  dk_files (st_disk st) !! p = Some s /\ dk_files (st_disk st') = dk_files (st_disk st) /\ st_now st' = st_now st.
Proof.
  unfold read_whole. intros (x & st1 & E1 & E)%fallible_inv. apply on_disk_inv in E1 as (E1 & En & _).
  destruct x; [done|done|]. apply mret_inv in E as [-> ->]. revert E1. unfold os_open, disk_fault.
  destruct (dk_faults (st_disk st)) as [|[] fs]; [|done|]; cbn [dk_files];
    destruct (_ !! p) eqn:Ep; try (destruct (is_dir _ _); done); intros [= -> <-]; done.
Qed.

Lemma verify_inv r i st x st' : verifyHierarchy r i st = (inr x, st') -> st' = st /\ ct_IsCA r = true /\ ct_IsCA i = true.
Proof.
  unfold verifyHierarchy. destruct (ct_IsCA r); [|done]. destruct (ct_IsCA i); [|done]. cbn [negb].
  unfold mbind, fallible_bind, clock, check_ok. destruct (verify_chain _ _ _); [|done]. by intros [= <- ->].
Qed.

(** What was loaded is stored. *)
Lemma loaded_stored d st a st' : loadFromDisk d st = (inr a, st') ->
  stored d (dk_files (st_disk st)) a /\ dk_files (st_disk st') = dk_files (st_disk st).
Proof.
  unfold loadFromDisk. intros (rc & s1 & (R1 & F1 & _)%read_whole_inv & E)%fallible_inv.
  apply fallible_inv in E as (rk & s2 & (R2 & F2 & _)%read_whole_inv & E).
  apply fallible_inv in E as (ic & s3 & (R3 & F3 & _)%read_whole_inv & E).
  apply fallible_inv in E as (ik & s4 & (R4 & F4 & _)%read_whole_inv & E).
  apply fallible_inv in E as ([rootCert rootKey] & s5 & [-> Pr]%(settled_inr _ _ _ _ (settled_parse _ _)) & E).
  apply fallible_inv in E as ([intCert intKey] & s6 & [-> Pi]%(settled_inr _ _ _ _ (settled_parse _ _)) & E).
  apply fallible_inv in E as (u & s7 & (-> & Hr & Hi)%verify_inv & E). apply mret_inv in E as [<- <-].
  rewrite F1 in R2. rewrite F2, F1 in R3. rewrite F3, F2, F1 in R4. split; [|congruence].
  split; cbn; [done|by exists rc, rk|by exists ic, ik|done|done].
Qed.
End stored.

(** ** What was generated *)

Section generated.
Context `{XLaws : X509Laws}.

Lemma first_block_encoded types t b : In t ["CERTIFICATE"; "PRIVATE KEY"] -> In t types ->
  first_block types (pem_encode t b) = Some (t, b).
Proof.
  intros Ht Hin. unfold first_block. cbn [find_block]. rewrite (pem_decode_encode t b Ht).
  replace (existsb (String.eqb t) types) with true; [done|]. symmetry. apply existsb_exists. exists t. by rewrite String.eqb_refl.
Qed.

Lemma parse_written der c k kd : parse_certificate der = Some c -> marshal_pkcs8 k = Some kd -> forall st,
  parseECCertAndKey (pemEncodeCertificate der) (pem_encode "PRIVATE KEY" kd) st = (inr (c, k), st).
Proof.
  intros Hc Hk st. unfold parseECCertAndKey, parseFirstCertificatePEM, parseECPrivateKeyPEM, pemEncodeCertificate.
  rewrite !first_block_encoded by (cbn; tauto). cbn [String.eqb]. rewrite Hc, (parse_marshalled k kd Hk). done.
Qed.

Lemma quiet_skid pub : quiet (subjectKeyID pub).
Proof. unfold subjectKeyID. quiet_walk. Qed.
Lemma quiet_serial : quiet randomSerial.
Proof. unfold randomSerial. quiet_walk. Qed.
Lemma quiet_issue what tpl parent pub key : quiet (issue what tpl parent pub key).
Proof. unfold issue. quiet_walk. Qed.
Lemma quiet_marshal k : quiet (marshalECPrivateKeyPEM k).
Proof. unfold marshalECPrivateKeyPEM. quiet_walk. Qed.
#[local] Hint Resolve quiet_skid quiet_serial quiet_issue quiet_marshal : pki.

Lemma quiet_generate : quiet generate.
Proof. unfold generate. quiet_walk. Qed.

Lemma quiet_client `{UuidLib} a id hostname cr : quiet (IssueClientCertificate a id hostname cr).
Proof. unfold IssueClientCertificate, validateCSRPublicKey, signatureAlgorithmForPub. quiet_walk. Qed.

Lemma issue_inv what tpl parent pub key st der c st' : issue what tpl parent pub key st = (inr (der, c), st') ->
  (exists n, create_certificate n tpl parent pub key = Some der) /\ parse_certificate der = Some c.
Proof.
  unfold issue. intros (x & s1 & (E1 & _)%draw_inv & E)%fallible_inv. apply fallible_inv in E as (y & s2 & [Hy ->]%obtain_inv & E).
  apply mret_inv in E as [E <-]. injection E as -> ->. eauto.
Qed.

Lemma marshal_inv k st out st' : marshalECPrivateKeyPEM k st = (inr out, st') ->
  exists kd, marshal_pkcs8 k = Some kd /\ out = pem_encode "PRIVATE KEY" kd.
Proof.
  unfold marshalECPrivateKeyPEM. intros (kd & s1 & [Hk ->]%obtain_inv & E)%fallible_inv. apply mret_inv in E as [<- _]. eauto.
Qed.

(** What the two certificates of a generated authority are. *)
Definition made (now : Z) (a : Authority) (rootKeyOut intKeyOut : string) : Prop :=
  exists n m rs ins rskid iskid rder ider rkd ikd,
    let rootTpl := root_template rs now rskid in
    let intTpl := intermediate_template ins now iskid (ct_SubjectKeyId (au_rootCert a)) in
    create_certificate n rootTpl rootTpl (public_of (au_rootKey a)) (au_rootKey a) = Some rder /\
    parse_certificate rder = Some (au_rootCert a) /\
    create_certificate m intTpl (au_rootCert a) (public_of (au_intermediateKey a)) (au_rootKey a) = Some ider /\
    parse_certificate ider = Some (au_intermediateCert a) /\
    marshal_pkcs8 (au_rootKey a) = Some rkd /\ rootKeyOut = pem_encode "PRIVATE KEY" rkd /\
    marshal_pkcs8 (au_intermediateKey a) = Some ikd /\ intKeyOut = pem_encode "PRIVATE KEY" ikd /\
    au_rootPEM a = pemEncodeCertificate rder /\ au_intermediatePEM a = pemEncodeCertificate ider.

Lemma generated_made st a rk ik st' : generate st = (inr (a, rk, ik), st') -> made (st_now st) a rk ik.
Proof.
  unfold generate. intros (now & s0 & E0 & E)%fallible_inv. injection E0 as <- <-.
  apply fallible_inv in E as (rootKey & s1 & _ & E). apply fallible_inv in E as (rskid & s2 & _ & E).
  apply fallible_inv in E as (rs & s3 & _ & E). apply fallible_inv in E as ([rder rc] & s4 & [[n Hr] Pr]%issue_inv & E).
  apply fallible_inv in E as (intKey & s5 & _ & E). apply fallible_inv in E as (iskid & s6 & _ & E).
  apply fallible_inv in E as (ins & s7 & _ & E). apply fallible_inv in E as ([ider ic] & s8 & [[m Hi] Pi]%issue_inv & E).
  apply fallible_inv in E as (ro & s9 & (rkd & Hrk & Ero)%marshal_inv & E).
  apply fallible_inv in E as (io & s10 & (ikd & Hik & Eio)%marshal_inv & E).
  apply mret_inv in E as [E _]. injection E as <- <- <-.
  exists n, m, rs, ins, rskid, iskid, rder, ider, rkd, ikd. cbn. split_and!; done.
Qed.

(** The chain of a generated authority, from two minutes before, for ten years. *)
Lemma generated_chain a now rk ik t : made now a rk ik -> now - two_minutes <= t -> t + second <= now + 3650 * Cal.day_ns ->
  verify_chain t (au_rootCert a) (au_intermediateCert a) = true.
Proof.
  intros (n & m & rs & ins & rskid & iskid & rder & ider & rkd & ikd & Hr & Pr & Hi & Pi & _) Hlo Hhi.
  pose proof (Cal.add_years_lower 20 now ltac:(lia)) as H20. pose proof (Cal.add_years_lower 10 now ltac:(lia)) as H10.
  unfold Cal.day_ns in *.
  eapply (issued_chain n m _ _ rder _ ider _ _ (au_rootKey a) t Hr Pr Hi Pi);
    cbn [root_template intermediate_template ct_IsCA ct_KeyUsage ct_MaxPathLen ct_NotBefore ct_NotAfter];
    try done; try (by left); lia.
Qed.

Lemma made_stored d now a rk ik files : made now a rk ik -> au_storageDir a = d ->
  files !! rootCertPath d = Some (au_rootPEM a) -> files !! rootKeyPath d = Some rk ->
  files !! intCertPath d = Some (au_intermediatePEM a) -> files !! intKeyPath d = Some ik -> stored d files a.
Proof.
  intros (n & m & rs & ins & rskid & iskid & rder & ider & rkd & ikd & Hr & Pr & Hi & Pi & Krk & -> & Kik & -> & Er & Ei) Hd F1 F2 F3 F4.
  split; [done|..].
  - do 2 eexists. split; [exact F1|split; [exact F2|]]. rewrite Er. by apply parse_written.
  - do 2 eexists. split; [exact F3|split; [exact F4|]]. rewrite Ei. by apply parse_written.
  - rewrite Er, Ei. by rewrite (parsed_raw _ _ Pr), (parsed_raw _ _ Pi).
  - by rewrite (created_ca _ _ _ _ _ _ _ Hr Pr), (created_ca _ _ _ _ _ _ _ Hi Pi).
Qed.

(** ** The paths of the files *)

Lemma store_path ps x : Forall (fun x => name x) ps -> x <> "" -> Str.contains x ".." = false -> names_of x = [x] ->
  Path.join [rooted ps; x] = rooted (ps ++ [x]).
Proof. intros Hps Hx Hc Hn. by rewrite join_names, Hn. Qed.

Lemma store_paths ps : Forall (fun x => name x) ps ->
  authority_files (rooted ps) = map (fun x => rooted (ps ++ [x])) [rootCertFile; rootKeyFile; intermediateCertFile; intermediateKeyFile]
  /\ MTLSClientCABundlePath (rooted ps) = rooted (ps ++ [mtlsClientBundleFile]).
Proof.
  intros Hps. unfold authority_files, rootCertPath, rootKeyPath, intCertPath, intKeyPath, MTLSClientCABundlePath.
  split; [cbn [map]; repeat f_equal|]; by apply store_path.
Qed.

Lemma store_names : Forall (fun x => name x)
  [rootCertFile; rootKeyFile; intermediateCertFile; intermediateKeyFile; mtlsClientBundleFile].
Proof. repeat constructor; done. Qed.

Lemma store_path_inj ps x y : Forall (fun x => name x) ps -> name x -> name y -> rooted (ps ++ [x]) = rooted (ps ++ [y]) -> x = y.
Proof.
  intros Hps Hx Hy E. apply rooted_inj in E; [|apply Forall_app; split; [done|by constructor; [|constructor]]..].
  by apply app_inv_head in E as [= ->].
Qed.

(** Five files of their own. *)
Lemma store_distinct ps : Forall (fun x => name x) ps ->
  NoDup (authority_files (rooted ps) ++ [MTLSClientCABundlePath (rooted ps)]).
Proof.
  intros Hps. destruct (store_paths ps Hps) as [-> ->].
  change (NoDup (fmap (fun x => rooted (ps ++ [x]))
    [rootCertFile; rootKeyFile; intermediateCertFile; intermediateKeyFile; mtlsClientBundleFile])).
  pose proof store_names as Hn. rewrite Forall_forall in Hn.
  apply NoDup_fmap_2_strong; [|apply (bool_decide_unpack _); vm_compute; done].
  intros x y Hx%Hn Hy%Hn. by apply store_path_inj.
Qed.

Lemma four_inserts (m : gmap string string) p1 p2 p3 p4 p5 a b c d : NoDup [p1; p2; p3; p4; p5] ->
  let m' := <[p4 := d]> (<[p3 := c]> (<[p2 := b]> (<[p1 := a]> m))) in
  m' !! p1 = Some a /\ m' !! p2 = Some b /\ m' !! p3 = Some c /\ m' !! p4 = Some d.
Proof.
  intros Hd. rewrite !NoDup_cons, !not_elem_of_cons in Hd. destruct_and!. cbv zeta.
  split_and!; repeat (rewrite lookup_insert_ne by congruence); by rewrite lookup_insert_eq.
Qed.

(** What was generated and written is stored. *)
Lemma persisted_stored ps st a st' : Forall (fun x => name x) ps -> generateAndPersist (rooted ps) st = (inr a, st') ->
  stored (rooted ps) (dk_files (st_disk st')) a.
Proof.
  intros Hps. unfold generateAndPersist. intros ([[b rk] ik] & s1 & Hm & E)%fallible_inv. apply generated_made in Hm.
  apply fallible_inv in E as ([] & s2 & [F2 _]%write_exclusive_inv & E). apply fallible_inv in E as ([] & s3 & [F3 _]%write_exclusive_inv & E).
  apply fallible_inv in E as ([] & s4 & [F4 _]%write_exclusive_inv & E). apply fallible_inv in E as ([] & s5 & [F5 _]%write_exclusive_inv & E).
  apply mret_inv in E as [<- <-]. pose proof (store_distinct ps Hps) as Hd. unfold authority_files in Hd. cbn [app] in Hd.
  destruct (four_inserts (dk_files (st_disk s1)) _ _ _ _ _ (au_rootPEM b) rk (au_intermediatePEM b) ik Hd) as (L1 & L2 & L3 & L4).
  rewrite <- F2, <- F3, <- F4, <- F5 in L1, L2, L3, L4. by apply (made_stored (rooted ps) (st_now st) _ rk ik).
Qed.
End generated.

(** ** A disk without faults *)

Section restart.
Context `{XLaws : X509Laws}.

Lemma temp_rooted ps k : Forall (fun x => name x) ps -> temp_name (rooted ps) k = rooted (ps ++ [".arx-pki-" +:+ temp_suffix k]).
Proof.
  intros Hps. unfold temp_name. destruct ps as [|q qs]; [done|].
  assert (Hn : Str.has_suffix (rooted (q :: qs)) "/" = false).
  { destruct (exists_last (l := q :: qs) ltac:(done)) as (l & x & E). rewrite E in *. apply Forall_app in Hps as [_ Hx].
    apply Forall_cons in Hx as [[(Hn & _) Hs] _]. rewrite rooted_snoc.
    replace (above l +:+ String "/" x) with ((above l +:+ "/") +:+ x) by (by rewrite Str.append_assoc). by apply no_trailing. }
  rewrite Hn, rooted_snoc. cbn [above]. by rewrite Str.append_assoc.
Qed.

Lemma disk_op_calm f d d' : dk_faults d = [] -> f d = Some d' -> disk_op f d = (true, d').
Proof. intros Hc Hf. unfold disk_op, disk_fault. by rewrite Hc, Hf. Qed.

Lemma on_disk_true f st d' : f (st_disk st) = (true, d') ->
  on_disk f st = (inr true, {| st_disk := d'; st_draw := st_draw st; st_now := st_now st |}).
Proof. intros E. unfold on_disk. by rewrite E. Qed.

Lemma create_temp_calm n d st : dk_faults (st_disk st) = [] -> let t := temp_name d (st_draw st) in
  has_file (st_disk st) t = false -> is_dir (st_disk st) t = false -> is_dir (st_disk st) (dir t) = true ->
  create_temp (S n) d st = (inr t, {| st_disk := with_files (<[t := ""]> (dk_files (st_disk st))) (st_disk st);
                                      st_draw := S (st_draw st); st_now := st_now st |}).
Proof.
  intros Hc t Hf Hd Hp. cbn [create_temp]. set (s1 := {| st_disk := st_disk st; st_draw := S (st_draw st); st_now := st_now st |}).
  rewrite (fallible_step _ _ st t s1) by reflexivity.
  rewrite (fallible_step _ _ s1 false s1) by (unfold on_disk; cbn [st_disk s1]; rewrite Hf, Hd; reflexivity).
  erewrite (fallible_step _ _ s1 true); [reflexivity|]. unfold on_disk, os_open_trunc. cbn [st_disk s1].
  erewrite disk_op_calm; [reflexivity|done|]. by rewrite Hd, Hp.
Qed.

Lemma remove_calm q d : dk_faults d = [] -> is_dir d q = false ->
  exists ok, os_remove q d = (ok, with_files (delete q (dk_files d)) d).
Proof.
  intros Hc Hd. unfold os_remove, disk_op, disk_fault. rewrite Hc. destruct (has_file d q) eqn:E; [by eexists|].
  rewrite Hd. cbn [andb]. exists false. f_equal. unfold has_file in E. apply bool_decide_eq_false, eq_None_not_Some in E.
  rewrite delete_id by done. by destruct d.
Qed.

Lemma write_steps_calm t path data st : dk_faults (st_disk st) = [] -> t <> path -> is_dir (st_disk st) path = false ->
  exists st', write_steps t path data st = (inr true, st').
Proof.
  intros Hc Ht Hd. unfold write_steps. erewrite fallible_step by (apply on_disk_true; unfold os_write, disk_fault; by rewrite Hc).
  cbn [negb]. do 3 (erewrite fallible_step by (apply on_disk_true; by apply disk_op_calm); cbn [negb]).
  set (s := {| st_disk := _; st_draw := _; st_now := _ |}).
  destruct (remove_calm path (st_disk s)) as [ok Hr]; [done|done|].
  erewrite fallible_step by (unfold on_disk; rewrite Hr; done). eexists. apply on_disk_true. apply disk_op_calm; [done|].
  cbn [st_disk dk_files with_files s]. rewrite lookup_delete_ne by done. rewrite lookup_insert_eq.
  change (is_dir _ path) with (is_dir (st_disk st) path). by rewrite Hd.
Qed.

(** With a free name for the temporary file and its directory there, a file is written. *)
Lemma write_calm msg path data st : dk_faults (st_disk st) = [] -> let t := temp_name (dir path) (st_draw st) in t <> path ->
  has_file (st_disk st) t = false -> is_dir (st_disk st) t = false -> is_dir (st_disk st) (dir t) = true ->
  is_dir (st_disk st) path = false -> exists st', writeFileExclusive msg path data st = (inr tt, st').
Proof.
  intros Hc t Ht Hf Hd Hp Hdp. unfold writeFileExclusive. replace temp_tries with (S (Z.to_nat 9999)) by (vm_compute; done).
  erewrite fallible_step by (by apply create_temp_calm). fold t.
  match goal with |- exists st', (_ ← write_steps _ _ _; _) ?s = _ => destruct (write_steps_calm t path data s) as [s' Hs] end; try done.
  erewrite fallible_step by exact Hs. by eexists.
Qed.

Lemma open_calm p s st : dk_faults (st_disk st) = [] -> dk_files (st_disk st) !! p = Some s ->
  on_disk (os_open p) st = (inr (Content s), st).
Proof. intros Hc Hp. unfold on_disk, os_open, disk_fault. rewrite Hc, Hp. by destruct st. Qed.

Lemma readable_calm ps st : dk_faults (st_disk st) = [] -> Forall (fun p => is_Some (dk_files (st_disk st) !! p)) ps ->
  all_readable ps st = (inr true, st).
Proof.
  intros Hc. induction 1 as [|p ps [s Hp] _ IH]; [done|]. cbn [all_readable].
  erewrite (fallible_step _ _ st true st); [exact IH|]. unfold fileReadable. by erewrite fallible_step by by apply open_calm.
Qed.

Lemma read_calm msg p s st : dk_faults (st_disk st) = [] -> dk_files (st_disk st) !! p = Some s -> read_whole msg p st = (inr s, st).
Proof. intros Hc Hp. unfold read_whole. by erewrite fallible_step by by apply open_calm. Qed.

(** What is stored is loaded. *)
Lemma load_calm d a st : stored d (dk_files (st_disk st)) a -> dk_faults (st_disk st) = [] ->
  verify_chain (st_now st) (au_rootCert a) (au_intermediateCert a) = true -> loadFromDisk d st = (inr a, st).
Proof.
  intros [Hd (c & k & Hc & Hk & E) (c' & k' & Hc' & Hk' & E') [Er Ei] [Cr Ci]] Hcalm Hv. unfold loadFromDisk.
  do 4 (erewrite fallible_step by (by apply read_calm)).
  rewrite (fallible_step _ _ _ _ _ (E st)). rewrite (fallible_step _ _ _ _ _ (E' st)).
  rewrite (fallible_step _ _ _ tt st); [|by unfold verifyHierarchy; rewrite Cr, Ci; cbn [negb]; unfold mbind, fallible_bind, clock, check_ok; rewrite Hv].
  unfold mret, fallible_ret. rewrite <- Er, <- Ei, <- Hd. by destruct a.
Qed.

(** A disk the directory can be made on, without faults, and with room for the temporary file. *)
Record calm (ps : list string) (st : Store) : Prop := {
  ca_faults : dk_faults (st_disk st) = [];
  ca_above : existsb (has_file (st_disk st)) (dirs_to (rooted ps)) = false;
  ca_temp : forall p, p = temp_name (rooted ps) (st_draw st) -> has_file (st_disk st) p = false /\ is_dir (st_disk st) p = false;
  ca_bundle : is_dir (st_disk st) (MTLSClientCABundlePath (rooted ps)) = false
}.

Lemma dirs_to_rooted ps : Forall (fun x => name x) ps -> dirs_to (rooted ps) = match ps with [] => ["/"] | _ => ancestors "" ps end.
Proof. intros Hps. unfold dirs_to. rewrite split_rooted by (by apply names_slash). by destruct ps. Qed.

(** What is in the directory is none of those made for it. *)
Lemma below_new_dirs ps x d : Forall (fun x => name x) ps -> name x -> is_dir d (rooted (ps ++ [x])) = false ->
  is_dir (with_dirs (dirs_to (rooted ps) ++ dk_dirs d) d) (rooted (ps ++ [x])) = false.
Proof.
  intros Hps [(Hx & _) _]. unfold is_dir. intros [Hr Hd]%orb_false_iff. rewrite Hr. cbn [orb dk_dirs with_dirs].
  rewrite existsb_app, Hd, orb_false_r. apply not_true_iff_false. intros E.
  apply existsb_exists in E as (q & Hq & <-%String.eqb_eq). rewrite dirs_to_rooted in Hq by done. destruct ps as [|p ps].
  - destruct Hq as [E|[]]. rewrite <- E in Hr. by rewrite String.eqb_refl in Hr.
  - apply ancestors_short in Hq. rewrite rooted_snoc in Hq. unfold above, rooted in Hq. rewrite !Str.length_append in Hq. simpl in Hq. lia.
Qed.

Lemma own_new_dir ps d : Forall (fun x => name x) ps -> is_dir (with_dirs (dirs_to (rooted ps) ++ dk_dirs d) d) (rooted ps) = true.
Proof.
  intros Hps. unfold is_dir. destruct ps as [|p ps]; [done|]. apply orb_true_iff. right. cbn [dk_dirs with_dirs].
  apply existsb_exists. exists (rooted (p :: ps)). rewrite String.eqb_refl. split; [|done]. apply in_or_app. left.
  rewrite dirs_to_rooted by done. by apply (ancestors_last "" (p :: ps)).
Qed.

(** The bundle can be written on a disk like that once the directory is made. *)
Lemma bundle_calm ps data st : Forall (fun x => name x) ps -> calm ps st ->
  let s := {| st_disk := with_dirs (dirs_to (rooted ps) ++ dk_dirs (st_disk st)) (st_disk st); st_draw := st_draw st; st_now := st_now st |} in
  exists s', writeFileExclusive "pki: write mtls-client-ca-bundle.pem" (MTLSClientCABundlePath (rooted ps)) data s = (inr tt, s').
Proof.
  intros Hps [Hc _ Htemp Hb] s. pose proof (store_paths ps Hps) as [_ Ebundle].
  assert (Hbn : name mtlsClientBundleFile) by done.
  assert (Htn : name (".arx-pki-" +:+ temp_suffix (st_draw st))) by (split; [split_and!; intros [=]|apply temp_no_slash]).
  destruct (Htemp _ eq_refl) as [Hfile Hdir]. rewrite temp_rooted in Hfile, Hdir by done.
  rewrite Ebundle in *.
  apply write_calm; rewrite ?(dir_rooted ps _ Hps (proj2 Hbn)), ?temp_rooted by done; cbn [st_draw s].
  - done.
  - intros E%store_path_inj; done.
  - done.
  - by apply below_new_dirs.
  - rewrite (dir_rooted ps _ Hps (proj2 Htn)). by apply own_new_dir.
  - by apply below_new_dirs.
Qed.

Lemma os_open_files p d x d' : os_open p d = (x, d') -> dk_files d' = dk_files d /\
  (dk_files d !! p = None -> forall s, x <> Content s).
Proof.
  unfold os_open, disk_fault. destruct (dk_faults d) as [|[] fs]; cbn [dk_files]; intros [= <- <-]; (split; [done|]);
    intros Hp s; [| done |]; try rewrite Hp; destruct (is_dir _ _); done.
Qed.

Lemma readable_inv ps st b st' : all_readable ps st = (inr b, st') ->
  dk_files (st_disk st') = dk_files (st_disk st) /\ st_now st' = st_now st /\
  (Exists (fun p => dk_files (st_disk st) !! p = None) ps -> b = false).
Proof.
  revert st. induction ps as [|p ps IH]; intros st.
  { intros [= <- <-]. split_and!; [done..|]. intros E. by apply Exists_nil in E. }
  cbn [all_readable]. intros (ok & s1 & E1 & E)%fallible_inv. unfold fileReadable in E1. apply fallible_inv in E1 as (x & s2 & E2 & E1).
  apply on_disk_inv in E2 as (E2 & En & _). apply os_open_files in E2 as [Ef Hx]. apply mret_inv in E1 as [<- <-].
  destruct x as [| |s]; try (apply mret_inv in E as [<- <-]; done).
  apply IH in E as (Ef' & En' & Hb). split; [congruence|]. split; [congruence|]. intros [Hp|Hp]%Exists_cons.
  - by destruct (Hx Hp s).
  - apply Hb. by rewrite Ef.
Qed.

Lemma generate_persist_made d st a st' : generateAndPersist d st = (inr a, st') -> exists rk ik, made (st_now st) a rk ik.
Proof.
  unfold generateAndPersist. intros ([[b rk] ik] & s1 & Hm & E)%fallible_inv. apply generated_made in Hm.
  do 4 (apply fallible_inv in E as (? & ? & _ & E)). apply mret_inv in E as [<- _]. by exists rk, ik.
Qed.

(** After a start the authority is on the disk; one that was not there before is new. *)
Lemma initialized storageDir ps st a st1 : Str.trim_space storageDir = rooted ps -> Forall (fun x => name x) ps ->
  LoadOrInitialize storageDir st = (inr a, st1) ->
  stored (rooted ps) (dk_files (st_disk st1)) a /\
  (Exists (fun p => dk_files (st_disk st) !! p = None) (authority_files (rooted ps)) -> exists rk ik, made (st_now st) a rk ik).
Proof.
  intros Ht Hps. unfold LoadOrInitialize. rewrite Ht. change (String.eqb (rooted ps) "") with false. cbv iota.
  intros (ok & s1 & (Ed & En & _)%on_disk_inv & E)%fallible_inv. destruct ok; [|done].
  assert (Ef : dk_files (st_disk s1) = dk_files (st_disk st)) by (by rewrite <- (mkdir_files (rooted ps) (st_disk st)), Ed).
  cbn [negb] in E. apply fallible_inv in E as (there & s2 & (Ef2 & En2 & Hb)%readable_inv & E).
  apply fallible_inv in E as (b & s3 & E3 & E). apply fallible_inv in E as ([] & s4 & [Ef4 _]%write_exclusive_inv & E).
  apply mret_inv in E as [<- <-]. rewrite <- Ef, <- En, <- En2. split.
  - eapply stored_agree; [|destruct there; [apply loaded_stored in E3 as [E3 F3]; rewrite <- F3 in E3; exact E3|
      apply persisted_stored in E3; [exact E3|done]]].
    intros p Hp. rewrite Ef4. apply lookup_insert_ne. intros <-. pose proof (store_distinct ps Hps) as Hd.
    apply NoDup_app in Hd as (_ & Hd & _). apply list_elem_of_In in Hp. specialize (Hd _ Hp). set_solver.
  - intros Hx. fold (authority_files (rooted ps)) in Hb. rewrite (Hb Hx) in E3. by apply generate_persist_made in E3.
Qed.

(** C14: an authority the server has started with is the one it has after a restart, as long as its four files stay and its
    chain is valid: the restarted server loads the very keys and certificates, leaves the files as they are and writes the
    bundle again.  The chain of an authority that was made at the first start is valid for ten years of 365 days. *)
Theorem authority_survives_restart storageDir ps st a st1 st2 :
  Str.trim_space storageDir = rooted ps -> Forall (fun x => name x) ps -> LoadOrInitialize storageDir st = (inr a, st1) ->
  (forall p, In p (authority_files (rooted ps)) -> dk_files (st_disk st2) !! p = dk_files (st_disk st1) !! p) -> calm ps st2 ->
  verify_chain (st_now st2) (au_rootCert a) (au_intermediateCert a) = true
  \/ Exists (fun p => dk_files (st_disk st) !! p = None) (authority_files (rooted ps))
     /\ st_now st - two_minutes <= st_now st2 /\ st_now st2 + second <= st_now st + 3650 * Cal.day_ns ->
  exists st3, LoadOrInitialize storageDir st2 = (inr a, st3) /\
    dk_files (st_disk st3) = <[MTLSClientCABundlePath (rooted ps) := au_intermediatePEM a +:+ au_rootPEM a]> (dk_files (st_disk st2)).
Proof.
  intros Ht Hps E Hf [Hc Ha Htemp Hb] Hv. destruct (initialized _ _ _ _ _ Ht Hps E) as [Hs Hm]. clear E.
  assert (Hv' : verify_chain (st_now st2) (au_rootCert a) (au_intermediateCert a) = true).
  { destruct Hv as [Hv|(Hx & Hlo & Hhi)]; [done|]. destruct (Hm Hx) as (rk & ik & Hmade). by eapply generated_chain. }
  apply (stored_agree _ _ _ _ Hf) in Hs. unfold LoadOrInitialize. rewrite Ht. change (String.eqb (rooted ps) "") with false. cbv iota.
  erewrite fallible_step by (apply on_disk_true, disk_op_calm; [done|by rewrite Ha]). cbn [negb].
  set (s := {| st_disk := _; st_draw := _; st_now := _ |}).
  rewrite (fallible_step _ _ s true s).
  2:{ apply readable_calm; [done|]. destruct Hs as [_ (c & k & Hc1 & Hk & _) (c' & k' & Hc' & Hk' & _) _ _]. repeat constructor; eauto. }
  rewrite (fallible_step _ _ s a s) by (by apply load_calm).
  destruct (bundle_calm ps (au_intermediatePEM a +:+ au_rootPEM a) st2 Hps) as [s' Hw]; [done|].
  rewrite (fallible_step _ _ _ _ _ Hw). exists s'. split; [done|]. by apply write_exclusive_inv in Hw as [-> _].
Qed.
End restart.

(** ** Client certificates *)

Section issuing.
Context `{XLaws : X509Laws} `{UuidLib}.

Lemma add_unique_spec out s : NoDup out -> ~ In "" out ->
  NoDup (add_unique out s) /\ ~ In "" (add_unique out s) /\ (forall x, In x (add_unique out s) <-> In x out \/ x = s /\ s <> "").
Proof.
  intros Hd He. unfold add_unique. destruct (String.eqb_spec s "") as [->|Hs]; cbn [orb]; [split_and!; [done..|naive_solver]|].
  destruct (existsb (String.eqb s) out) eqn:E.
  - apply existsb_exists in E as (y & Hy & <-%String.eqb_eq). split_and!; [done..|naive_solver].
  - assert (Hn : ~ In s out).
    { intros Hin. assert (existsb (String.eqb s) out = true); [|congruence]. apply existsb_exists. exists s. by rewrite String.eqb_refl. }
    split_and!.
    + apply NoDup_app. split_and!; [done| |apply NoDup_singleton]. intros x Hx%list_elem_of_In ->%list_elem_of_singleton. done.
    + rewrite in_app_iff. cbn. naive_solver.
    + intros x. rewrite in_app_iff. cbn. naive_solver.
Qed.

(** uniqueStrings: every name once, none empty, each as trimmed. *)
Lemma unique_strings_spec l :
  NoDup (unique_strings l) /\ ~ In "" (unique_strings l) /\ forall x, In x (unique_strings l) <-> x <> "" /\ In x (map Str.trim_space l).
Proof.
  unfold unique_strings.
  assert (G : forall out, NoDup out -> ~ In "" out -> let r := fold_left (fun out s => add_unique out (Str.trim_space s)) l out in
    NoDup r /\ ~ In "" r /\ forall x, In x r <-> In x out \/ x <> "" /\ In x (map Str.trim_space l)).
  - induction l as [|s l IH]; intros out Hd He; cbn [fold_left map]; [split_and!; [done..|cbn; naive_solver]|].
    destruct (add_unique_spec out (Str.trim_space s) Hd He) as (Hd' & He' & Hin). destruct (IH _ Hd' He') as (R1 & R2 & R3).
    split_and!; [done..|]. intros x. rewrite R3, Hin. cbn. naive_solver.
  - destruct (G [] (NoDup_nil_2) (fun x => x)) as (R1 & R2 & R3). split_and!; [done..|]. intros x. rewrite R3. cbn. naive_solver.
Qed.

(** validateCSRPublicKey lets these through. *)
Definition accepted_key (pub : public_key) : Prop :=
  match pub with ECDSA c _ => c <> P224 | RSA bits _ => 2048 <= bits | OtherKey _ => False end.

Lemma validate_exact pub st : validateCSRPublicKey pub st = (inr tt, st) <-> accepted_key pub.
Proof.
  destruct pub as [c m|bits m|t]; cbn.
  - destruct c; split; intros E; done.
  - destruct (Z.ltb_spec bits 2048); split; intros E; try done; lia.
  - split; intros E; done.
Qed.

Lemma algorithm_inv pub st alg st' : signatureAlgorithmForPub pub st = (inr alg, st') ->
  st' = st /\ match pub with RSA _ _ => alg = SHA256WithRSA | _ => True end.
Proof. destruct pub as [[]|bits m|t]; cbn; try done; by intros [= <- <-]. Qed.

Lemma serial_inv st z st' : randomSerial st = (inr z, st') -> 0 < z < 2 ^ serialBits.
Proof.
  unfold randomSerial. intros (n & s1 & (E1 & _)%draw_inv & E)%fallible_inv. apply rand_below in E1.
  destruct (Z.leb_spec n 0); [done|]. apply mret_inv in E as [-> _]. lia.
Qed.

Lemma validate_inv pub st x st' : validateCSRPublicKey pub st = (inr x, st') -> st' = st /\ accepted_key pub.
Proof.
  intros E. assert (st' = st) as ->; [|split; [done|]; destruct x; by apply (validate_exact pub st)].
  revert E. destruct pub as [[]|bits m|t]; cbn; try done; try (by intros [= _ ->]). destruct (bits <? 2048); [done|]. by intros [= _ ->].
Qed.

(** The template of a client's certificate, as the claim below states it of the certificate made. *)
Lemma leaf_dns_spec host cr : host <> "" ->
  NoDup (leaf_dns host cr) /\ ~ In "" (leaf_dns host cr) /\
  (Str.trim_space host = host -> parse_ip host = None -> In host (leaf_dns host cr)).
Proof.
  intros Hhost. unfold leaf_dns. destruct (hostIsDNS host) eqn:D; (split; [apply unique_strings_spec|split; [apply unique_strings_spec|]]); intros Ht Hip.
  - apply unique_strings_spec. split; [done|]. left. exact Ht.
  - unfold hostIsDNS in D. by rewrite (proj2 (String.eqb_neq _ _) Hhost), Hip in D.
Qed.

(** C33: a client certificate is only made for a request that is signed, whose key is an ECDSA key on P-256, P-384 or
    P-521, and for a host name that is not blank.  It is signed with the intermediate's key and is no authority, good for
    the client's side of TLS alone, named after the host and the asset, with each DNS name once; its serial number is
    positive and below 2^159 and it is valid from two minutes before the clock for 365 or 366 days.  The agent is given it
    with the intermediate behind it, and the root; the authority's disk is not touched.  RSA keys, which the validation
    accepts from 2048 bits, never get a certificate. *)
Theorem client_certificate_issued (a : Authority) (id : uuid) hostname (cr : csr) st :
  match IssueClientCertificate a id hostname cr st with
  | (inl _, st') => st_disk st' = st_disk st
  | (inr r, st') =>
      st_disk st' = st_disk st /\ csr_signature_ok cr = true /\ Str.trim_space hostname <> "" /\
      (exists c point, csr_public_key cr = ECDSA c point /\ c <> P224) /\
      exists n tpl der, create_certificate n tpl (au_intermediateCert a) (csr_public_key cr) (au_intermediateKey a) = Some der /\
        ic_ClientChainPEM r = pemEncodeCertificate der +:+ au_intermediatePEM a /\ ic_RootCAPEM r = au_rootPEM a /\
        ct_IsCA tpl = false /\ ct_BasicConstraintsValid tpl = true /\ ct_ExtKeyUsage tpl = [ClientAuth] /\
        ct_KeyUsage tpl = [DigitalSignature; KeyEncipherment] /\ nm_CommonName (ct_Subject tpl) = Str.trim_space hostname /\
        ct_URIs tpl = asset_uri id /\ NoDup (ct_DNSNames tpl) /\ ~ In "" (ct_DNSNames tpl) /\
        (parse_ip (Str.trim_space hostname) = None -> In (Str.trim_space hostname) (ct_DNSNames tpl)) /\
        0 < ct_SerialNumber tpl < 2 ^ serialBits /\ ct_NotBefore tpl = st_now st - two_minutes /\
        365 * Cal.day_ns <= ct_NotAfter tpl - st_now st <= 366 * Cal.day_ns
  end.
Proof.
  pose proof (quiet_client a id hostname cr st) as [Hq _]. destruct (IssueClientCertificate a id hostname cr st) as [[e|r] st'] eqn:E; [done|].
  split; [done|]. revert E. unfold IssueClientCertificate. set (host := Str.trim_space hostname).
  destruct (String.eqb_spec host "") as [|Hhost]; [done|]. destruct (csr_signature_ok cr); [|done]. cbn [negb].
  intros (u & s1 & [-> Hk]%validate_inv & E)%fallible_inv. apply fallible_inv in E as (alg & s2 & [-> Halg]%algorithm_inv & E).
  apply fallible_inv in E as (serial & s3 & E3 & E). pose proof (quiet_inv _ _ _ _ quiet_serial E3) as [_ N3]. apply serial_inv in E3.
  apply fallible_inv in E as (skid & s4 & E4 & E). pose proof (quiet_inv _ _ _ _ (quiet_skid _) E4) as [_ N4].
  apply fallible_inv in E as (now & s5 & E5 & E). injection E5 as <- <-. rewrite N4, N3 in E.
  apply fallible_inv in E as (der & s6 & (E6 & _)%draw_inv & E). apply mret_inv in E as [<- _].
  split; [done|]. split; [done|]. split.
  { destruct (csr_public_key cr) as [c point|bits m|t]; [by exists c, point|exfalso|done]. by rewrite rsa_algorithm_refused in E6. }
  do 3 eexists. split; [exact E6|]. destruct (leaf_dns_spec _ cr Hhost) as (D1 & D2 & D3).
  specialize (D3 (Str.trim_space_idem hostname)). do 8 (split; [reflexivity|]).
  split; [exact D1|]. split; [exact D2|]. split; [exact D3|]. split; [exact E3|]. split; [reflexivity|]. apply Cal.add_year_bounds.
Qed.
End issuing.

(** ** The server's own certificate *)

Section server.
Context `{XLaws : X509Laws} `{Cwd}.

(** Files that are there are kept, whatever names are asked for now and however old they are. *)
Lemma server_material_kept a extraDNS st : dk_faults (st_disk st) = [] ->
  is_Some (dk_files (st_disk st) !! serverCertPath a) -> is_Some (dk_files (st_disk st) !! serverKeyPath a) ->
  EnsureServerTLSMaterial a extraDNS st = (inr (mustAbs (serverCertPath a), mustAbs (serverKeyPath a), false), st).
Proof.
  intros Hc H1 H2. unfold EnsureServerTLSMaterial. rewrite (fallible_step _ _ st true st); [done|].
  apply readable_calm; [done|]. by repeat constructor.
Qed.

(** Otherwise both are written anew. *)
Lemma server_material_minted a extraDNS st p q st' : EnsureServerTLSMaterial a extraDNS st = (inr (p, q, true), st') ->
  exists n tpl key der kd, create_certificate n tpl (au_intermediateCert a) (public_of key) (au_intermediateKey a) = Some der /\
    ct_ExtKeyUsage tpl = [ServerAuth] /\ In "localhost" (ct_DNSNames tpl) /\ NoDup (ct_DNSNames tpl) /\
    (forall x, In x extraDNS -> Str.trim_space x <> "" -> In (Str.trim_space x) (ct_DNSNames tpl)) /\
    marshal_pkcs8 key = Some kd /\
    dk_files (st_disk st') = <[serverKeyPath a := pem_encode "PRIVATE KEY" kd]>
      (<[serverCertPath a := pemEncodeCertificate der]> (dk_files (st_disk st))).
Proof.
  unfold EnsureServerTLSMaterial. intros (there & s1 & (F1 & _)%readable_inv & E)%fallible_inv.
  destruct there; [by apply mret_inv in E as [[= ] _]|].
  apply fallible_inv in E as (key & s2 & (_ & D2 & _)%draw_inv & E). apply fallible_inv in E as (skid & s3 & [D3 _]%quiet_inv & E); [|apply quiet_skid].
  apply fallible_inv in E as (serial & s4 & [D4 _]%quiet_inv & E); [|apply quiet_serial]. apply fallible_inv in E as (now & s5 & E5 & E). injection E5 as <- <-.
  apply fallible_inv in E as (der & s6 & (Hder & D6 & _)%draw_inv & E). apply fallible_inv in E as (out & s7 & E7 & E).
  pose proof (quiet_inv _ _ _ _ (quiet_marshal _) E7) as [D7 _]. apply marshal_inv in E7 as (kd & Hkd & ->).
  apply fallible_inv in E as ([] & s8 & [F8 _]%write_exclusive_inv & E). apply fallible_inv in E as ([] & s9 & [F9 _]%write_exclusive_inv & E).
  apply mret_inv in E as [_ <-]. do 5 eexists. split; [exact Hder|]. cbn [server_template ct_ExtKeyUsage ct_DNSNames]. unfold server_names.
  destruct (unique_strings_spec ("localhost" :: extraDNS)) as (U1 & _ & U3). split_and!; try done.
  - apply U3. split; [done|]. by left.
  - intros x Hx Hne. apply U3. split; [done|]. right. by apply in_map.
  - by rewrite F9, F8, D7, D6, D4, D3, D2, F1.
Qed.
End server.
