(* ===== verification/Backups.v ===== *)
(** * Backups

    internal/backup/{config,engine}.go and internal/api/backups.go: the archives of the
    database and of the authority's directory, their listing, their names and their
    retention.  The file system is a map from absolute paths to nodes; every call meets the
    next of a list of faults and takes a moment of the clock.  pg_dump, the text of an
    archive and what os.TempDir names are the class [Tools].  Symbolic links are left out. *)

From S2P Require Import Prelude GoStd GoPath Float64 Json Ext World Auth AppFiles AppPaths.

#[local] Open Scope string_scope.
#[local] Open Scope list_scope.
#[local] Open Scope Z_scope.
#[local] Existing Instance fallible_ret.
#[local] Existing Instance fallible_bind.

(** ** config.go *)

Definition EnvBackupStoragePath : string := "ARX_BACKUP_STORAGE_PATH".
Definition EnvBackupCronSpec : string := "ARX_BACKUP_CRON_SPEC".
Definition EnvBackupRetentionDays : string := "ARX_BACKUP_RETENTION_DAYS".
Definition EnvPgDumpBinary : string := "ARX_PG_DUMP_PATH".
Definition defaultBackupRelPath : string := "data/backups".
Definition defaultCronStandard : string := "0 2 * * *".
Definition defaultRetentionDays : Z := 7.
Definition defaultPgDumpBinary : string := "pg_dump".
Definition maxRetentionDaysCeiling : Z := 3650.

Record Config := {
  cf_StorageDir : string; cf_PKIRootAbs : string; cf_DatabaseURL : string; cf_PgDumpPath : string; cf_CronExpr : string;
  cf_RetentionDays : Z
}.

Definition firstNonEmpty (a b : string) : string :=
  if String.eqb (Str.trim_space a) "" then Str.trim_space b else Str.trim_space a.

Definition parseRetentionDays (raw : string) : Z :=
  let raw := Str.trim_space raw in
  if String.eqb raw "" then defaultRetentionDays else
  match Str.atoi raw with
  | None => defaultRetentionDays
  | Some n => if n <? 1 then defaultRetentionDays else if maxRetentionDaysCeiling <? n then maxRetentionDaysCeiling else n
  end.

(** s, or its default when it is blank. *)
Definition trimmed_or (d s : string) : string := if String.eqb (Str.trim_space s) "" then d else Str.trim_space s.

(** An error is that of os.Getwd. *)
Definition LoadConfigFromEnv `{Environ} `{Cwd} (pkiRootAbs : string) : Config + string :=
  match abs (trimmed_or defaultBackupRelPath (getenv EnvBackupStoragePath)) with
  | inr e => inr e
  | inl absStorage =>
      match (if String.eqb (Str.trim_space pkiRootAbs) "" then abs (trimmed_or "certs" (getenv "ARX_PKI_STORAGE_PATH"))
             else inl (Str.trim_space pkiRootAbs)) with
      | inr e => inr e
      | inl pki => inl {|
          cf_StorageDir := absStorage; cf_PKIRootAbs := pki; cf_DatabaseURL := Str.trim_space (getenv "ARX_DATABASE_URL");
          cf_PgDumpPath := firstNonEmpty (getenv EnvPgDumpBinary) defaultPgDumpBinary;
          cf_CronExpr := trimmed_or defaultCronStandard (getenv EnvBackupCronSpec);
          cf_RetentionDays := parseRetentionDays (getenv EnvBackupRetentionDays) |}
      end
  end.

(** A Duration wraps at 64 bits. *)
Definition int64_of (z : Z) : Z := (z + 2 ^ 63) mod 2 ^ 64 - 2 ^ 63.

Definition RetentionCutoff (c : Config) (now : Z) : Z :=
  if cf_RetentionDays c <=? 0 then now - defaultRetentionDays * Cal.day_ns
  else now + int64_of (int64_of (- cf_RetentionDays c * 24) * 3600000000000).

(** ** The file system *)

Inductive NodeKind := File (data : string) | Folder | Special.
Record Node := { nd_Kind : NodeKind; nd_Mode : Z; nd_ModTime : Z }.
Notation Nodes := (gmap string Node).

Record TarEntry := { te_Dir : bool; te_Name : string; te_Mode : Z; te_Size : Z; te_ModTime : Z; te_Data : string }.

Class Tools := {
  instant : nat -> Z;                                            (* the clock at a moment *)
  temp_dir : string;                                             (* os.TempDir() *)
  staging_suffix : nat -> string;                                (* what os.MkdirTemp puts for the star *)
  device_of : string -> N;                                       (* the file system a path is on *)
  pg_dump : string -> string -> nat -> bool * option string;     (* binary, database: exit status, what it left in the file *)
  archive_text : list TarEntry -> string                         (* tar and gzip *)
}.

Record Machine := { mc_nodes : Nodes; mc_faults : list bool; mc_tick : nat }.
Notation run := (fallible Machine).

Section engine.
Context `{Tools}.

(** One call of the system. *)
Definition call {A} (msg : string) (f : Z -> Nodes -> option (A * Nodes)) : run A := fun m =>
  let failed := hd false (mc_faults m) in
  let after ns := {| mc_nodes := ns; mc_faults := tl (mc_faults m); mc_tick := S (mc_tick m) |} in
  match (if failed then None else f (instant (mc_tick m)) (mc_nodes m)) with
  | Some (x, ns) => (inr x, after ns)
  | None => (inl (ErrMsg msg), after (mc_nodes m))
  end.

(** An error the code looks at, or ignores. *)
Definition caught {A} (m : run A) : run (err + A) := fun st => let '(r, st) := m st in (inr r, st).
Definition thrown {A} (r : err + A) : run A := fun st => (r, st).

Definition time_now : run Z := fun m =>
  (inr (instant (mc_tick m)), {| mc_nodes := mc_nodes m; mc_faults := mc_faults m; mc_tick := S (mc_tick m) |}).

Definition is_folder (nd : Node) : bool := match nd_Kind nd with Folder => true | _ => false end.
Definition is_regular (nd : Node) : bool := match nd_Kind nd with File _ => true | _ => false end.
Definition folder_at (ns : Nodes) (p : string) : bool := match ns !! p with Some nd => is_folder nd | None => false end.

Definition os_stat (msg p : string) : run Node := call msg (fun _ ns => nd ← ns !! p; Some (nd, ns)).

(** The names in a folder, in order. *)
Definition children (ns : Nodes) (p : string) : list string :=
  sort_strings (map Path.base (List.filter (fun q => String.eqb (dir q) p && negb (String.eqb q p)) (map_to_list ns).*1)).

(** A path in a folder. *)
Definition in_folder (p name : string) : string := Path.join [p; name].

Definition os_read_dir (msg p : string) : run (list (string * Node)) := call msg (fun _ ns =>
  if folder_at ns p then Some (omap (fun x => nd ← ns !! in_folder p x; Some (x, nd)) (children ns p), ns) else None).

Definition mode_700 : Z := 448.
Definition mode_600 : Z := 384.
Definition mode_750 : Z := 488.

Definition folder (mode now : Z) : Node := {| nd_Kind := Folder; nd_Mode := mode; nd_ModTime := now |}.
Definition file (mode now : Z) (data : string) : Node := {| nd_Kind := File data; nd_Mode := mode; nd_ModTime := now |}.

(** MkdirAll: what is above must be folders. *)
Definition make_folder (mode now : Z) (ns : option Nodes) (p : string) : option Nodes :=
  ns ← ns; match ns !! p with
  | None => Some (<[p := folder mode now]> ns)
  | Some nd => if is_folder nd then Some ns else None
  end.
Definition mkdir_all (msg p : string) (mode : Z) : run () := call msg (fun now ns =>
  ns ← fold_left (make_folder mode now) (dirs_to (Path.clean p)) (Some ns); Some (tt, ns)).

Definition os_mkdir (msg p : string) : run () := call msg (fun now ns =>
  match ns !! p with
  | None => if folder_at ns (dir p) then Some (tt, <[p := folder mode_700 now]> ns) else None
  | Some _ => None
  end).

(** os.MkdirTemp: a name that is not taken, in 10000 attempts. *)
Fixpoint mkdir_temp (tries : nat) (msg : string) : run string :=
  match tries with
  | O => refuse msg
  | S n => fun m =>
      let p := in_folder temp_dir ("arx-backup-staging-" +:+ staging_suffix (mc_tick m)) in
      match mc_nodes m !! p with
      | Some _ => mkdir_temp n msg {| mc_nodes := mc_nodes m; mc_faults := mc_faults m; mc_tick := S (mc_tick m) |}
      | None => (_ ← os_mkdir msg p; mret p) m
      end
  end.

Definition inside (p q : string) : bool := String.eqb q p || Str.has_prefix q (p +:+ "/").
Definition remove_all (msg p : string) : run () := call msg (fun _ ns => Some (tt, filter (fun x => inside p x.1 = false) ns)).

(** os.Remove: a folder is removed when nothing is in it. *)
Definition remove_node (msg p : string) : run () := call msg (fun _ ns =>
  match ns !! p with
  | None => None
  | Some nd => if is_folder nd && negb (match children ns p with [] => true | _ => false end) then None else Some (tt, delete p ns)
  end).

(** os.Rename of a file: to the same file system only. *)
Definition rename_node (msg p q : string) : run () := call msg (fun _ ns =>
  match ns !! p with
  | None => None
  | Some nd =>
      if negb (N.eqb (device_of p) (device_of q)) || folder_at ns q || negb (folder_at ns (dir q)) then None
      else Some (tt, <[q := nd]> (delete p ns))
  end).

(** os.OpenFile(p, O_CREATE|O_WRONLY|O_TRUNC, mode) *)
Definition open_trunc (msg p : string) (mode : Z) : run () := call msg (fun now ns =>
  match ns !! p with
  | None => if folder_at ns (dir p) then Some (tt, <[p := file mode now ""]> ns) else None
  | Some nd => if is_folder nd then None else Some (tt, <[p := file (nd_Mode nd) now ""]> ns)
  end).

(** What was given to the writers reaches the file when they are closed. *)
Definition close_with (msg p data : string) : run () := call msg (fun now ns =>
  nd ← ns !! p; Some (tt, <[p := file (nd_Mode nd) now data]> ns)).

Definition read_file (msg p : string) : run string := call msg (fun _ ns =>
  nd ← ns !! p; match nd_Kind nd with File s => Some (s, ns) | _ => None end).

(** ** engine.go: names, listing, retention *)

(** ^arx-backup-[0-9]{14}UTC\.tar\.gz$ *)
Definition artifact_prefix : string := "arx-backup-".
Definition artifact_suffix : string := "UTC.tar.gz".
Definition backupArtifactNameRX (s : string) : bool :=
  Str.has_prefix s artifact_prefix &&
  (let rest := Str.drop (String.length artifact_prefix) s in
   let stamp := Str.take 14 rest in
   Nat.eqb (String.length stamp) 14 && forallb Str.is_digit (Str.bytes stamp) && String.eqb (Str.drop 14 rest) artifact_suffix).

Record Entry := { en_Filename : string; en_SizeBytes : Z; en_CreatedAt : Z; en_PathRelRoot : string }.

Definition node_size (nd : Node) : Z := match nd_Kind nd with File s => Z.of_nat (String.length s) | _ => 0 end.

Definition NewEngine (c : Config) : run Config :=
  _ ← mkdir_all "create backup dir" (cf_StorageDir c) mode_750;
  if String.eqb (cf_PKIRootAbs c) "" then refuse "pki root directory is unset" else mret c.

(** Newest first, then by name from the last. *)
Definition entry_less (a b : Entry) : bool :=
  if en_CreatedAt a =? en_CreatedAt b then str_lt (en_Filename b) (en_Filename a) else en_CreatedAt b <? en_CreatedAt a.

(** The archives among the items of the folder; Info is a call of its own. *)
Fixpoint list_rows (c : Config) (items : list (string * Node)) : run (list Entry) :=
  match items with
  | [] => mret []
  | (name, nd) :: r =>
      if negb (backupArtifactNameRX name) || is_folder nd then list_rows c r else
      let path := Path.join [cf_StorageDir c; name] in
      info ← os_stat "lstat" path;
      rows ← list_rows c r;
      mret ({| en_Filename := name; en_SizeBytes := node_size info; en_CreatedAt := nd_ModTime info; en_PathRelRoot := path |} :: rows)
  end.

Definition List_ (c : Config) : run (list Entry) :=
  items ← os_read_dir "read backup dir" (cf_StorageDir c);
  rows ← list_rows c items;
  mret (sort_slice entry_less rows).

Definition ResolveSafePath `{Cwd} (c : Config) (filename : string) : run string :=
  let name := Path.base (Str.trim_space filename) in
  if negb (String.eqb name filename) || negb (backupArtifactNameRX name) then refuse "invalid backup archive name" else
  let fullPath := Path.clean (Path.join [Path.clean (cf_StorageDir c); name]) in
  match abs (cf_StorageDir c), abs fullPath with
  | inl storageRootAbs, inl fullAbs =>
      match rel storageRootAbs fullAbs with
      | None => refuse "path escapes backup root"
      | Some r =>
          if Str.has_prefix r ".." then refuse "path escapes backup root" else
          st ← os_stat "stat" fullAbs;
          if is_regular st then mret fullAbs else refuse "backup path is not a regular file"
      end
  | inr e, _ | _, inr e => refuse e
  end.

(** The archives of the folder, one after the other: how many were removed, and the first failure. *)
Fixpoint prune_each `{Cwd} (c : Config) (cutoff : Z) (items : list string) (removed : Z) (failed : option err) : run (Z * option err) :=
  match items with
  | [] => mret (removed, failed)
  | raw :: rest =>
      if negb (backupArtifactNameRX raw) then prune_each c cutoff rest removed failed else
      p ← caught (ResolveSafePath c raw);
      match p with
      | inl _ => prune_each c cutoff rest removed failed
      | inr fullAbs =>
          st ← caught (os_stat "stat" fullAbs);
          match st with
          | inl _ => prune_each c cutoff rest removed failed
          | inr nd =>
              if negb (is_regular nd) || negb (nd_ModTime nd <? cutoff) then prune_each c cutoff rest removed failed else
              r ← caught (remove_node "remove" fullAbs);
              match r with
              | inr _ => prune_each c cutoff rest (removed + 1) failed
              | inl e => prune_each c cutoff rest removed (match failed with Some e' => Some e' | None => Some e end)
              end
          end
      end
  end.

Definition PruneOlderThan `{Cwd} (c : Config) (now : Z) : run (Z * option err) :=
  items ← caught (os_read_dir "open" (cf_StorageDir c));
  match items with
  | inl e => mret (0, Some e)
  | inr items => prune_each c (RetentionCutoff c now) (map fst items) 0 None
  end.

(** ** engine.go: making an archive *)

Definition execPgDump (c : Config) (outfile : string) : run () := fun m =>
  let '(ok, left_behind) := pg_dump (cf_PgDumpPath c) (cf_DatabaseURL c) (mc_tick m) in
  let write := match left_behind with
               | Some s => call "pg_dump failed" (fun now ns => Some (tt, <[outfile := file mode_600 now s]> ns))
               | None => call "pg_dump failed" (fun _ ns => Some (tt, ns))
               end in
  (_ ← write;
   _ ← check_ok "pg_dump failed" ok;
   _ ← os_stat "pg_dump output missing after success" outfile;
   mret tt) m.

Definition dump_entry (pgDumpAbs : string) (nd : Node) (data : string) : TarEntry := {|
  te_Dir := false; te_Name := Path.join ["postgres"; Path.base pgDumpAbs]; te_Mode := mode_600; te_Size := node_size nd;
  te_ModTime := nd_ModTime nd; te_Data := data |}.

(** What the walk does with one path. *)
Definition visit (root path : string) (d : Node) : run (list TarEntry) :=
  match rel root path with
  | None => refuse "rel"
  | Some r =>
      if String.eqb r "." && is_folder d then mret [] else
      let hdrName := Path.join ["embedded_pki"; r] in
      info ← os_stat "lstat" path;
      match nd_Kind d with
      | Folder => mret [{| te_Dir := true; te_Name := hdrName +:+ "/"; te_Mode := mode_750; te_Size := 0; te_ModTime := nd_ModTime info; te_Data := "" |}]
      | File _ =>
          stat ← os_stat "stat" path;
          bin ← read_file "open" path;
          mret [{| te_Dir := false; te_Name := hdrName; te_Mode := if nd_Mode stat =? 0 then mode_600 else nd_Mode stat;
                   te_Size := node_size stat; te_ModTime := nd_ModTime stat; te_Data := bin |}]
      | Special => mret []
      end
  end.

Fixpoint each {A B} (f : A -> run (list B)) (l : list A) : run (list B) :=
  match l with
  | [] => mret []
  | x :: r => xs ← f x; ys ← each f r; mret (xs ++ ys)
  end.

(** filepath.WalkDir: a folder before what is in it.  A level down takes a longer path. *)
Fixpoint walk (depth : nat) (root path : string) (d : Node) : run (list TarEntry) :=
  match depth with
  | O => refuse "depth"
  | S n =>
      es ← visit root path d;
      if is_folder d then
        items ← os_read_dir "open" path;
        below ← each (fun x => walk n root (in_folder path x.1) x.2) items;
        mret (es ++ below)
      else mret es
  end.

(** Longer than every path. *)
Definition depth_of (ns : Nodes) : nat := S (list_max (map String.length (map_to_list ns).*1)).

Definition WalkDir (root : string) : run (list TarEntry) := fun m =>
  (d ← os_stat "walk PKI tree" root; walk (depth_of (mc_nodes m)) root root d) m.

Definition writeBackupArchive (absOutPath pgDumpAbs pkiRootAbs : string) : run () :=
  _ ← open_trunc "open bundle target" absOutPath mode_600;
  dumpInfo ← os_stat "stat dump file" pgDumpAbs;
  dump ← read_file "open pg_dump output" pgDumpAbs;
  pki ← WalkDir pkiRootAbs;
  close_with "close bundle" absOutPath (archive_text (dump_entry pgDumpAbs dumpInfo dump :: pki)).

Definition archive_name (now : Z) : string := artifact_prefix +:+ Cal.stamp now +:+ artifact_suffix.

(** The run inside its staging folder. *)
Definition backup_in `{Cwd} (c : Config) (workDir : string) : run string :=
  let dumpFile := Path.join [workDir; "database.dump"] in
  _ ← execPgDump c dumpFile;
  pkiFi ← os_stat "stat pki root" (cf_PKIRootAbs c);
  if negb (is_folder pkiFi) then refuse "pki root is not a directory" else
  now ← time_now;
  let rawName := archive_name now in
  if negb (backupArtifactNameRX rawName) then refuse "internal backup naming mismatch" else
  let stagingTar := Path.join [workDir; "bundle.part"] in
  let outFile := Path.join [cf_StorageDir c; rawName] in
  _ ← writeBackupArchive stagingTar dumpFile (cf_PKIRootAbs c);
  _ ← rename_node "publish backup bundle" stagingTar outFile;
  _ ← os_stat "published backup unreadable" outFile;
  now ← time_now;
  _ ← PruneOlderThan c now;
  mret (Path.base outFile).

Definition RunOnce `{Cwd} (c : Config) : run string :=
  if String.eqb (Str.trim_space (cf_DatabaseURL c)) "" then refuse "ARX_DATABASE_URL is required before creating backups" else
  workDir ← mkdir_temp (Z.to_nat 10000) "temp staging dir";
  r ← caught (backup_in c workDir);
  _ ← caught (remove_all "cleanup" workDir);
  thrown r.

(** ** api/backups.go *)

(** The error is logged. *)
Definition or_error (status : Z) (msg : string) (m : run Response) : Machine -> Response * Machine := fun st =>
  match m st with
  | (inr r, st) => (r, st)
  | (inl _, st) => (writeTicketsError status msg, st)
  end.

Section routes.
Context `{UuidLib} `{JwtLib} `{NetLib} `{GoFmt} `{Cwd} (origins : list string) (c : Config).

(** The route's method and the administrator's role. *)
Definition admin_only (method : string) (r : Request) : Response + () :=
  match require_method method r with
  | inl e => inl e
  | inr _ => match RequireMinRole origins r RoleAdmin with inl e => inl e | inr _ => inr tt end
  end.

Definition backup_entry_json (e : Entry) : json :=
  JObj (jmap [("filename", jstr (en_Filename e)); ("size_bytes", JNum (F64.of_Z (en_SizeBytes e)));
              ("created_at", jstr (fmt_time (en_CreatedAt e)))]).

(** A nil slice is null. *)
Definition entries_json (l : list Entry) : json := match l with [] => JNull | _ => JArr (map backup_entry_json l) end.

Definition backups_handleList (r : Request) (m : Machine) : Response * Machine :=
  match admin_only "GET" r with
  | inl e => (e, m)
  | inr _ => or_error 500 "could not enumerate backups" (items ← List_ c; mret (writeTicketsJSON 200 (entries_json items))) m
  end.

Definition handleTrigger (r : Request) (m : Machine) : Response * Machine :=
  match admin_only "POST" r with
  | inl e => (e, m)
  | inr _ => or_error 500 "backup failed" (name ← RunOnce c; mret (writeTicketsJSON 200 (JObj [("filename", jstr name)]))) m
  end.

(** The second is what http.ServeFile sends. *)
Definition backups_handleDownload (r : Request) (m : Machine) : (Response + string) * Machine :=
  match admin_only "GET" r with
  | inl e => (inl e, m)
  | inr _ =>
      let raw := Str.trim_space (rq_path_id r) in
      if String.eqb raw "" then (err_resp 400 "missing backup filename", m) else
      if negb (String.eqb (Path.base raw) raw) then (err_resp 400 "invalid backup filename", m) else
      match ResolveSafePath c raw m with
      | (inl _, m) => (err_resp 404 "backup not available", m)
      | (inr fullAbs, m) =>
          match read_file "404 page not found" fullAbs m with
          | (inl _, m) => (err_resp 404 "404 page not found", m)
          | (inr s, m) => (inr s, m)
          end
      end
  end.
End routes.
End engine.
