(* ===== verification/BackupFacts.v ===== *)
(** * What the backups promise

    The names of archives, the retention, a run: what it makes, when it succeeds, and when it
    cannot. *)

From S2P Require Import Prelude GoStd GoPath Float64 Json Ext World Auth AppFiles AppPaths Decimal PolicyMergeFacts.
From S2P Require Import Backups.

#[local] Open Scope string_scope.
#[local] Open Scope list_scope.
#[local] Open Scope Z_scope.
#[local] Existing Instance fallible_ret.
#[local] Existing Instance fallible_bind.

(** ** The names of archives *)

Lemma drop_app a b : Str.drop (String.length a) (a +:+ b) = b.
Proof.
  unfold Str.drop. rewrite Str.length_append. replace (_ + _ - _)%nat with (String.length b) by lia.
  induction a as [|c a IH]; [apply substring_all|]. rewrite Str.append_cons. exact IH.
Qed.

Lemma split_string n s : s = Str.take n s +:+ Str.drop n s.
Proof.
  unfold Str.take, Str.drop. revert n. induction s as [|c s IH]; intros n; [by destruct n|].
  destruct n as [|n]; [by rewrite Nat.sub_0_r, substring_all|]. cbn [String.substring String.length Nat.sub].
  rewrite Str.append_cons. f_equal. apply IH.
Qed.

Lemma archive_inv x : backupArtifactNameRX x = true ->
  exists d, x = artifact_prefix +:+ d +:+ artifact_suffix /\ String.length d = 14%nat /\ forallb Str.is_digit (Str.bytes d) = true.
Proof.
  unfold backupArtifactNameRX. intros [[r ->]%prefix_self_inv Hr]%andb_true_iff. rewrite drop_app in Hr. cbv zeta in Hr.
  apply andb_true_iff in Hr as [[Hl Hd]%andb_true_iff Hs]. apply Nat.eqb_eq in Hl. apply String.eqb_eq in Hs.
  exists (Str.take 14 r). split; [|done]. f_equal. by rewrite <- Hs, <- split_string.
Qed.

Lemma digits_no_byte c d : Str.is_digit c = false -> forallb Str.is_digit (Str.bytes d) = true -> Str.has_byte c d = false.
Proof.
  intros Hc. induction d as [|x d IH]; [done|]. cbn [Str.bytes list_ascii_of_string forallb Str.has_byte]. intros [Hx Hd]%andb_true_iff.
  rewrite (IH Hd), orb_false_r. apply Ascii.eqb_neq. intros ->. congruence.
Qed.

Lemma archive_name_plain x : backupArtifactNameRX x = true -> Path.plain_name x /\ Path.no_slash x.
Proof.
  intros (d & -> & Hl & Hd)%archive_inv. split.
  - split_and!; intros E; apply (f_equal String.length) in E; rewrite !Str.length_append, Hl in E; done.
  - unfold Path.no_slash. by rewrite !has_byte_append, (digits_no_byte "/" d).
Qed.

Lemma contains_past a b : Str.has_byte "." a = false -> Str.contains b ".." = false -> Str.contains (a +:+ b) ".." = false.
Proof.
  induction a as [|c a IH]; [done|]. cbn [Str.has_byte]. intros [Hc Ha]%orb_false_iff Hb. rewrite Str.append_cons.
  cbn [Str.contains]. rewrite (IH Ha Hb), orb_false_r. cbn [String.prefix]. destruct (Ascii.ascii_dec "." c) as [<-|]; done.
Qed.

Lemma archive_no_dots x : backupArtifactNameRX x = true -> Str.contains x ".." = false.
Proof.
  intros (d & -> & _ & Hd)%archive_inv. apply contains_past; [done|]. by apply contains_past; [apply digits_no_byte|].
Qed.

Lemma archive_trimmed x : backupArtifactNameRX x = true -> Str.trim_space x = x.
Proof.
  intros (d & -> & _ & Hd)%archive_inv. unfold Str.trim_space, Str.trim_right, Str.trim_left.
  set (l := Str.bytes _). assert (El : Str.trim_with Str.space2 Str.space3 l = l) by (by apply Str.trim_with_id). rewrite El.
  assert (E : exists r, rev l = ("z" :: "g" :: "." :: r)%char).
  { subst l. unfold Str.bytes. assert (G : forall a b, list_ascii_of_string (a +:+ b) = list_ascii_of_string a ++ list_ascii_of_string b).
    { intros a b. induction a as [|c a IH]; [done|exact (f_equal (cons c) IH)]. }
    rewrite !G, !rev_app_distr. eexists. reflexivity. }
  destruct E as [r E]. rewrite E, Str.trim_with_id by done. rewrite <- E, rev_involutive. apply string_of_list_ascii_of_string.
Qed.

Section resolve.
Context `{Tools} `{Cwd}.
Variables (ps : list string) (c : Config).
Hypothesis Hps : Forall (fun x => name x) ps.
Hypothesis Hdir : cf_StorageDir c = rooted ps.

(** The archive of a name is looked for in the storage, by a call of Stat. *)
Lemma resolve_archive x m : backupArtifactNameRX x = true ->
  ResolveSafePath c x m = (st ← os_stat "stat" (rooted (ps ++ [x]));
                           if is_regular st then mret (rooted (ps ++ [x])) else refuse "backup path is not a regular file") m.
Proof.
  intros Hx. pose proof (archive_name_plain x Hx) as Hn. unfold ResolveSafePath. rewrite (archive_trimmed x Hx), (base_name x Hn).
  rewrite String.eqb_refl, Hx, Hdir. cbn [negb orb]. rewrite (clean_names ps Hps), (join_name ps x Hps Hn).
  rewrite (clean_names (ps ++ [x])) by (by apply snoc_names). unfold abs, Path.is_abs.
  rewrite !rooted_prefix, (clean_names ps Hps), (clean_names (ps ++ [x])) by (by apply snoc_names).
  destruct (rel_below ps [x]) as (r & -> & ->); [done|constructor; [|constructor]; split; [exact Hn|by apply archive_no_dots]|done].
Qed.

Lemma resolve_other x m : backupArtifactNameRX x = false -> ResolveSafePath c x m = (inl (ErrMsg "invalid backup archive name"), m).
Proof.
  intros Hx. unfold ResolveSafePath. destruct (String.eqb_spec (Path.base (Str.trim_space x)) x) as [->|]; [|done]. by rewrite Hx.
Qed.
End resolve.

(** ** Calls *)

Section calls.
Context `{Tools}.

Definition stepped (m : Machine) (ns : Nodes) : Machine :=
  {| mc_nodes := ns; mc_faults := tl (mc_faults m); mc_tick := S (mc_tick m) |}.

Lemma call_inv {A} msg (f : Z -> Nodes -> option (A * Nodes)) m r m' : call msg f m = (r, m') ->
  (exists e, r = inl e /\ m' = stepped m (mc_nodes m) /\ (mc_faults m = [] -> f (instant (mc_tick m)) (mc_nodes m) = None))
  \/ exists x ns, r = inr x /\ m' = stepped m ns /\ f (instant (mc_tick m)) (mc_nodes m) = Some (x, ns).
Proof.
  unfold call. destruct (hd false (mc_faults m)) eqn:Eh.
  - intros [= <- <-]. left. eexists. split_and!; [done..|]. intros E. by rewrite E in Eh.
  - destruct (f _ _) as [[x ns]|] eqn:E; intros [= <- <-]; [right; by exists x, ns|left; by eexists].
Qed.

Lemma call_calm {A} msg (f : Z -> Nodes -> option (A * Nodes)) m x ns : mc_faults m = [] ->
  f (instant (mc_tick m)) (mc_nodes m) = Some (x, ns) -> call msg f m = (inr x, stepped m ns).
Proof. intros Hc Hf. unfold call, stepped. rewrite Hc. cbn [hd]. by rewrite Hf. Qed.

Lemma stat_inv msg p m r m' : os_stat msg p m = (r, m') -> m' = stepped m (mc_nodes m) /\
  match r with inr nd => mc_nodes m !! p = Some nd | inl _ => mc_faults m = [] -> mc_nodes m !! p = None end.
Proof.
  unfold os_stat. intros [(e & -> & -> & Hf)|(nd & ns & -> & -> & Hf)]%call_inv.
  - split; [done|]. intros E. apply Hf in E. by destruct (_ !! p).
  - destruct (_ !! p); [|done]. by injection Hf as -> ->.
Qed.

Lemma remove_inv msg p m r m' : remove_node msg p m = (r, m') ->
  match r with
  | inl _ => m' = stepped m (mc_nodes m) /\ forall nd, mc_faults m = [] -> mc_nodes m !! p = Some nd -> is_folder nd = true
  | inr _ => is_Some (mc_nodes m !! p) /\ m' = stepped m (delete p (mc_nodes m))
  end.
Proof.
  unfold remove_node. intros [(e & -> & -> & Hf)|([] & ns & -> & -> & Hf)]%call_inv.
  - split; [done|]. intros nd E Hp. apply Hf in E. rewrite Hp in E. destruct (is_folder nd); [done|]. by cbn [andb] in E.
  - destruct (_ !! p) as [nd|]; [|done]. destruct (is_folder nd && _); [done|]. injection Hf as <-. eauto.
Qed.

Lemma caught_inv {A} (f : run A) m r m' : caught f m = (r, m') -> exists x, r = inr x /\ f m = (x, m').
Proof. unfold caught. destruct (f m) as [x m1]. intros [= <- <-]. eauto. Qed.

Lemma caught_bind {A B} (f : run A) (k : err + A -> run B) m : (x ← caught f; k x) m = let '(x, m1) := f m in k x m1.
Proof. unfold caught, mbind, fallible_bind. by destruct (f m). Qed.
End calls.

(** ** Retention *)

Section retention.
Context `{Tools} `{Cwd}.
Variables (ps : list string) (c : Config).
Hypothesis Hps : Forall (fun x => name x) ps.
Hypothesis Hdir : cf_StorageDir c = rooted ps.

(** An archive of the storage that was last written before the cutoff. *)
Definition expired (cutoff : Z) (q : string) (nd : Node) : bool :=
  String.eqb q (in_folder (cf_StorageDir c) (Path.base q)) && backupArtifactNameRX (Path.base q) && is_regular nd && (nd_ModTime nd <? cutoff).

Lemma expired_archive cutoff x nd : backupArtifactNameRX x = true ->
  expired cutoff (rooted (ps ++ [x])) nd = is_regular nd && (nd_ModTime nd <? cutoff).
Proof.
  intros Hx. pose proof (archive_name_plain x Hx) as Hn. unfold expired, in_folder.
  rewrite Hdir, (base_rooted ps x Hps Hn), (join_name ps x Hps Hn), String.eqb_refl, Hx. done.
Qed.

Lemma expired_inv cutoff q nd : expired cutoff q nd = true -> exists x, q = rooted (ps ++ [x]) /\ backupArtifactNameRX x = true.
Proof.
  unfold expired. intros [[[Hq%String.eqb_eq Hx]%andb_true_iff _]%andb_true_iff _]%andb_true_iff. exists (Path.base q). split; [|done].
  rewrite Hq at 1. unfold in_folder. rewrite Hdir. apply join_name; [done|by apply archive_name_plain].
Qed.

(** Some of the expired are gone, everything else is as it was. *)
Definition pruned (cutoff : Z) (ns ns' : Nodes) : Prop :=
  forall q, ns' !! q = ns !! q \/ ns' !! q = None /\ exists nd, ns !! q = Some nd /\ expired cutoff q nd = true.

Lemma pruned_refl cutoff ns : pruned cutoff ns ns.
Proof. intros q. by left. Qed.

Lemma pruned_delete cutoff ns q nd ns' : ns !! q = Some nd -> expired cutoff q nd = true -> pruned cutoff (delete q ns) ns' -> pruned cutoff ns ns'.
Proof.
  intros Hq He Hp r. destruct (decide (r = q)) as [->|Hr].
  - right. split; [|by exists nd]. destruct (Hp q) as [->|[-> _]]; [by rewrite lookup_delete_eq|done].
  - destruct (Hp r) as [->|(-> & nd' & Hl & He')]; [left; by rewrite lookup_delete_ne|].
    right. split; [done|]. rewrite lookup_delete_ne in Hl by done. eauto.
Qed.

(** One name: it is passed over or its file is removed. *)
Lemma prune_one cutoff raw rest removed failed m res : prune_each c cutoff (raw :: rest) removed failed m = res -> exists m1,
  (res = prune_each c cutoff rest removed failed m1 /\ mc_nodes m1 = mc_nodes m /\
   (mc_faults m = [] -> mc_faults m1 = [] /\ (backupArtifactNameRX raw = true ->
      forall nd, mc_nodes m !! rooted (ps ++ [raw]) = Some nd -> expired cutoff (rooted (ps ++ [raw])) nd = false)))
  \/ (exists e, res = prune_each c cutoff rest removed e m1 /\ mc_nodes m1 = mc_nodes m /\ mc_faults m <> [])
  \/ (res = prune_each c cutoff rest (removed + 1) failed m1 /\ (mc_faults m = [] -> mc_faults m1 = []) /\
      exists nd, mc_nodes m !! rooted (ps ++ [raw]) = Some nd /\ expired cutoff (rooted (ps ++ [raw])) nd = true /\
                 mc_nodes m1 = delete (rooted (ps ++ [raw])) (mc_nodes m)).
Proof.
  cbn [prune_each]. destruct (backupArtifactNameRX raw) eqn:Hx; cbn [negb]; intros Hres.
  2:{ exists m. left. by split_and!. }
  rewrite caught_bind, (resolve_archive ps c Hps Hdir raw m Hx) in Hres. set (p := rooted (ps ++ [raw])) in *.
  destruct (os_stat "stat" p m) as [[e|nd] m1] eqn:E1.
  { exists m1. left. unfold mbind at 1, fallible_bind at 1 in Hres. rewrite E1 in Hres. apply stat_inv in E1 as [-> Hl].
    split_and!; [done..|]. intros Hc. split; [cbn; by rewrite Hc|]. intros _ nd Hnd. by rewrite (Hl Hc) in Hnd. }
  rewrite (fallible_step _ _ _ _ _ E1) in Hres. apply stat_inv in E1 as [-> Hl]. destruct (is_regular nd) eqn:Hr.
  2:{ exists (stepped m (mc_nodes m)). left. split_and!; [done..|]. intros Hc. split; [cbn; by rewrite Hc|]. intros _ nd' Hnd.
      rewrite Hl in Hnd. injection Hnd as <-. unfold p. by rewrite expired_archive, Hr. }
  unfold mret at 1, fallible_ret at 1 in Hres. rewrite caught_bind in Hres.
  destruct (os_stat "stat" p _) as [[e|nd'] m2] eqn:E2; apply stat_inv in E2 as [-> Hl2]; cbn [stepped mc_faults mc_nodes] in Hl2.
  { eexists. left. split_and!; [by rewrite <- Hres|done|]. intros Hc. rewrite Hc in Hl2. specialize (Hl2 eq_refl). congruence. }
  rewrite Hl in Hl2. injection Hl2 as <-. rewrite Hr in Hres. cbn [negb orb] in Hres.
  destruct (nd_ModTime nd <? cutoff) eqn:Ht; cbn [negb] in Hres.
  2:{ eexists. left. split_and!; [by rewrite <- Hres|done|]. intros Hc. split; [cbn; by rewrite Hc|]. intros _ nd' Hnd.
      rewrite Hl in Hnd. injection Hnd as <-. unfold p. by rewrite expired_archive, Ht, andb_false_r. }
  rewrite caught_bind in Hres. destruct (remove_node "remove" p _) as [[e|[]] m3] eqn:E3; apply remove_inv in E3.
  - destruct E3 as [-> Hf]. eexists. right. left. eexists. split_and!; [by rewrite <- Hres|done|]. intros Hc.
    specialize (Hf nd). cbn in Hf. rewrite Hc in Hf. specialize (Hf eq_refl Hl). unfold is_regular in Hr. unfold is_folder in Hf. by destruct (nd_Kind nd).
  - destruct E3 as [_ ->]. eexists. right. right. split_and!; [by rewrite <- Hres|intros Hc; cbn; by rewrite Hc|].
    exists nd. split_and!; [done| |done]. unfold p. by rewrite expired_archive, Hr, Ht.
Qed.

(** All the names: what was counted is what is gone, and without faults every expired archive among them. *)
Lemma prune_each_spec cutoff items : forall removed failed m, exists n e m',
  prune_each c cutoff items removed failed m = (inr (n, e), m') /\ pruned cutoff (mc_nodes m) (mc_nodes m') /\
  n - removed = Z.of_nat (size (mc_nodes m)) - Z.of_nat (size (mc_nodes m')) /\
  (mc_faults m = [] -> mc_faults m' = [] /\ e = failed /\
     forall x nd, In x items -> backupArtifactNameRX x = true -> mc_nodes m' !! rooted (ps ++ [x]) = Some nd ->
       expired cutoff (rooted (ps ++ [x])) nd = false).
Proof.
  induction items as [|raw rest IH]; intros removed failed m.
  { exists removed, failed, m. split_and!; [done|apply pruned_refl|lia|done]. }
  destruct (prune_one cutoff raw rest removed failed m _ eq_refl) as (m1 & [(E & En & Hc)|[(e & E & En & Hc)|(E & Hc & nd & Hl & He & En)]]); rewrite E.
  - destruct (IH removed failed m1) as (n & e & m' & E' & Hp & Hn & Hc'). exists n, e, m'. rewrite En in Hp, Hn. split_and!; [done..|].
    intros Hf. destruct (Hc Hf) as [Hf1 Hraw]. destruct (Hc' Hf1) as (Hf' & -> & Hall). split_and!; [done..|].
    intros x nd [<-|Hx] Hrx Hl; [|by apply (Hall x nd)]. apply Hraw; [done|]. destruct (Hp (rooted (ps ++ [raw]))) as [<-|[Hno _]]; [done|congruence].
  - destruct (IH removed e m1) as (n & e' & m' & E' & Hp & Hn & _). exists n, e', m'. rewrite En in Hp, Hn. split_and!; [done..|]. by intros Hf.
  - destruct (IH (removed + 1) failed m1) as (n & e & m' & E' & Hp & Hn & Hc'). exists n, e, m'. rewrite En in Hp, Hn. split_and!; [done| | |].
    + by eapply pruned_delete.
    + rewrite map_size_delete_Some in Hn by done. assert (size (mc_nodes m) <> 0%nat); [|lia].
      intros Hz. apply map_size_empty_inv in Hz. by rewrite Hz in Hl.
    + intros Hf. destruct (Hc' (Hc Hf)) as (Hf' & -> & Hall). split_and!; [done..|]. intros x nd' [<-|Hx] Hrx Hl'; [|by apply (Hall x nd')].
      exfalso. destruct (Hp (rooted (ps ++ [raw]))) as [E2|[E2 _]]; rewrite Hl' in E2; [|done]. by rewrite lookup_delete_eq in E2.
Qed.
End retention.

(** ** What is in a folder *)

(** Every path is the root or goes down from it by plain names. *)
Definition sound (ns : Nodes) : Prop := forall q, is_Some (ns !! q) -> exists qs, Forall (fun x => name x) qs /\ q = rooted qs.

Section folders.
Context `{Tools}.

Lemma children_spec ns ps x : sound ns -> Forall (fun x => name x) ps ->
  In x (children ns (rooted ps)) <-> name x /\ is_Some (ns !! rooted (ps ++ [x])).
Proof.
  intros Hs Hps. unfold children. rewrite sort_strings_In, in_map_iff. split.
  - intros (q & <- & [Hq Hd]%filter_In). apply andb_true_iff in Hd as [Hd%String.eqb_eq Hne].
    assert (Hi : is_Some (ns !! q)).
    { apply list_elem_of_In, list_elem_of_fmap in Hq as ([q' nd] & -> & Hq). apply elem_of_map_to_list in Hq. by exists nd. }
    destruct (Hs q Hi) as (qs & Hqs & ->). destruct qs as [|z zs] using rev_ind.
    { rewrite <- Hd in Hne. by vm_compute in Hne. }
    apply Forall_app in Hqs as [Hqs Hz]. apply Forall_cons in Hz as [Hz _]. rewrite dir_rooted in Hd by (first [done|apply Hz]).
    apply rooted_inj in Hd; [|done..]. subst zs. rewrite base_rooted by done. done.
  - intros [Hx [nd Hl]]. exists (rooted (ps ++ [x])). split; [by apply base_rooted|]. apply filter_In. split.
    + apply list_elem_of_In, list_elem_of_fmap. exists (rooted (ps ++ [x]), nd). split; [done|]. by apply elem_of_map_to_list.
    + rewrite dir_rooted, String.eqb_refl by (first [done|apply Hx]). cbn [andb]. apply negb_true_iff, String.eqb_neq.
      intros E. apply rooted_inj in E; [|by apply snoc_names|done]. apply (f_equal length) in E. rewrite length_app in E. simpl in E. lia.
Qed.

Lemma read_dir_inv msg p m r m' : os_read_dir msg p m = (r, m') -> m' = stepped m (mc_nodes m) /\
  match r with
  | inr items => folder_at (mc_nodes m) p = true /\
      items = omap (fun x => nd ← mc_nodes m !! in_folder p x; Some (x, nd)) (children (mc_nodes m) p)
  | inl _ => mc_faults m = [] -> folder_at (mc_nodes m) p = false
  end.
Proof.
  unfold os_read_dir. intros [(e & -> & -> & Hf)|(items & ns & -> & -> & Hf)]%call_inv.
  - split; [done|]. intros E. apply Hf in E. by destruct (folder_at _ _).
  - destruct (folder_at _ _); [|done]. injection Hf as <- <-. done.
Qed.

(** The items of a folder are what is directly below it. *)
Lemma items_spec ns ps x nd : sound ns -> Forall (fun x => name x) ps ->
  In (x, nd) (omap (fun x => nd ← ns !! in_folder (rooted ps) x; Some (x, nd)) (children ns (rooted ps)))
  <-> name x /\ ns !! rooted (ps ++ [x]) = Some nd.
Proof.
  intros Hs Hps. rewrite <- list_elem_of_In, list_elem_of_omap. split.
  - intros (y & Hy & E). apply list_elem_of_In, children_spec in Hy; [|done..]. unfold in_folder in E. rewrite join_name in E by (done || apply Hy).
    destruct (ns !! _) eqn:El; [|done]. injection E as <- <-. by split; [apply Hy|].
  - intros [Hx Hl]. exists x. split; [apply list_elem_of_In, children_spec; [done..|]; by split; [|eexists]|].
    unfold in_folder. by rewrite join_name, Hl.
Qed.
End folders.

(** ** Pruning *)

Section pruning.
Context `{Tools} `{CwdLaws} `{Environ}.

Lemma retention_days raw : 1 <= parseRetentionDays raw <= maxRetentionDaysCeiling.
Proof.
  unfold parseRetentionDays, defaultRetentionDays, maxRetentionDaysCeiling. destruct (String.eqb _ _); [lia|].
  destruct (Str.atoi _) as [n|]; [|lia]. destruct (Z.ltb_spec n 1); [lia|]. destruct (Z.ltb_spec 3650 n); lia.
Qed.

Lemma loaded_config pki c : LoadConfigFromEnv pki = inl c ->
  1 <= cf_RetentionDays c <= maxRetentionDaysCeiling /\ exists ps, Forall (fun x => name x) ps /\ cf_StorageDir c = rooted ps.
Proof.
  unfold LoadConfigFromEnv. destruct (abs _) as [s|e] eqn:Es; [|done]. destruct (if String.eqb _ _ then _ else _) as [p|e]; [|done].
  intros [= <-]. split; [apply retention_days|]. by apply abs_rooted in Es.
Qed.

(** The cutoff lies the days of the configuration before now. *)
Lemma cutoff_days c now : 1 <= cf_RetentionDays c <= maxRetentionDaysCeiling -> RetentionCutoff c now = now - cf_RetentionDays c * Cal.day_ns.
Proof.
  unfold RetentionCutoff, maxRetentionDaysCeiling, int64_of, Cal.day_ns. intros Hd. destruct (Z.leb_spec (cf_RetentionDays c) 0); [lia|].
  rewrite !Z.mod_small by (rewrite ?Z.mod_small; lia). lia.
Qed.

Lemma prune_spec ps c now m : Forall (fun x => name x) ps -> cf_StorageDir c = rooted ps -> exists n e m',
  PruneOlderThan c now m = (inr (n, e), m') /\ pruned c (RetentionCutoff c now) (mc_nodes m) (mc_nodes m') /\
  n = Z.of_nat (size (mc_nodes m)) - Z.of_nat (size (mc_nodes m')) /\
  (mc_faults m = [] -> folder_at (mc_nodes m) (cf_StorageDir c) = true -> sound (mc_nodes m) ->
     e = None /\ mc_faults m' = [] /\ forall q nd, mc_nodes m' !! q = Some nd -> expired c (RetentionCutoff c now) q nd = false).
Proof.
  intros Hps Hdir. unfold PruneOlderThan. rewrite caught_bind. set (cutoff := RetentionCutoff c now).
  destruct (os_read_dir "open" (cf_StorageDir c) m) as [[e|items] m1] eqn:E; apply read_dir_inv in E as [-> Hi].
  { exists 0, (Some e), (stepped m (mc_nodes m)). split_and!; [done|by left|cbn; lia|]. intros Hc Hf. by rewrite (Hi Hc) in Hf. }
  destruct Hi as [_ ->]. set (l := map fst _).
  destruct (prune_each_spec ps c Hps Hdir cutoff l 0 None (stepped m (mc_nodes m))) as (n & e & m' & -> & Hp & Hn & Hc).
  exists n, e, m'. split_and!; [done|exact Hp|cbn in Hn; lia|]. intros Hf _ Hs. destruct (Hc) as (Hf' & -> & Hall); [cbn; by rewrite Hf|].
  split_and!; [done..|]. intros q nd Hq. destruct (expired c cutoff q nd) eqn:He; [|done]. rewrite <- He. symmetry.
  destruct (expired_inv ps c Hps Hdir cutoff q nd He) as (x & -> & Hx). symmetry. apply (Hall x nd); [|done..].
  assert (Hl : mc_nodes m !! rooted (ps ++ [x]) = Some nd) by (destruct (Hp (rooted (ps ++ [x]))) as [E|[E _]]; cbn in E; congruence).
  apply in_map_iff. exists (x, nd). split; [done|]. rewrite Hdir. apply items_spec; [done..|]. by split; [apply archive_name_plain|].
Qed.

(** C16: pruning removes regular files directly in the storage folder whose name is an archive's and which were last
    written more than the days of the configuration ago, nothing else, whatever calls fail; it answers how many are gone.
    When no call fails all of those are gone. *)
Theorem retention_exact pki c now m : LoadConfigFromEnv pki = inl c -> sound (mc_nodes m) ->
  let cutoff := now - cf_RetentionDays c * Cal.day_ns in
  exists n e m', PruneOlderThan c now m = (inr (n, e), m') /\
    (forall q, mc_nodes m' !! q = mc_nodes m !! q
       \/ mc_nodes m' !! q = None /\ exists nd, mc_nodes m !! q = Some nd /\ expired c cutoff q nd = true) /\
    n = Z.of_nat (size (mc_nodes m)) - Z.of_nat (size (mc_nodes m')) /\
    (mc_faults m = [] -> folder_at (mc_nodes m) (cf_StorageDir c) = true ->
       e = None /\ forall q nd, mc_nodes m' !! q = Some nd -> expired c cutoff q nd = false).
Proof.
  intros (Hd & ps & Hps & Hdir)%loaded_config Hs cutoff. unfold cutoff. rewrite <- (cutoff_days c now Hd).
  destruct (prune_spec ps c now m Hps Hdir) as (n & e & m' & E & Hp & Hn & Hc). exists n, e, m'. split_and!; [done..|].
  intros Hf Hfold. destruct (Hc Hf Hfold Hs) as (He & _ & Hq). done.
Qed.
End pruning.

(** ** The walk of a tree *)

Section walking.
Context `{Tools}.

Lemma each_inv {A B} (f : A -> run (list B)) (I : Machine -> Prop) l : forall m out m', I m ->
  (forall x m out m', In x l -> I m -> f x m = (inr out, m') -> I m') -> each f l m = (inr out, m') ->
  I m' /\ forall x, In x l -> exists m1 xs m2, I m1 /\ f x m1 = (inr xs, m2) /\ incl xs out.
Proof.
  induction l as [|x l IH]; intros m out m' Hm Hf E; cbn [each] in E.
  { apply mret_inv in E as [_ <-]. done. }
  apply fallible_inv in E as (xs & m1 & E1 & E). apply fallible_inv in E as (ys & m2 & E2 & E). apply mret_inv in E as [<- <-].
  assert (Hm1 : I m1) by (eapply Hf; [by left|done|done]).
  destruct (IH m1 ys m2 Hm1) as [Hm2 Hall]; [intros; eapply Hf; [by right|done|done]|done|]. split; [done|].
  intros y [<-|Hy]; [exists m, xs, m1; split_and!; [done..|apply incl_appl, incl_refl]|].
  destruct (Hall y Hy) as (m3 & zs & m4 & H1 & H2 & H3). exists m3, zs, m4. split_and!; [done..|by apply incl_appr].
Qed.

Lemma read_inv msg p m r m' : read_file msg p m = (r, m') -> m' = stepped m (mc_nodes m) /\
  match r with inr s => exists nd, mc_nodes m !! p = Some nd /\ nd_Kind nd = File s | inl _ => True end.
Proof.
  unfold read_file. intros [(e & -> & -> & Hf)|(s & ns & -> & -> & Hf)]%call_inv; [done|].
  destruct (mc_nodes m !! p) as [nd|]; [|done]. cbn [mbind option_bind] in Hf. destruct (nd_Kind nd) eqn:E; try done.
  injection Hf as <- <-. split; [done|]. by exists nd.
Qed.

(** A visit only reads; a file's entry has its contents. *)
Lemma visit_inv root path d m es m' : visit root path d m = (inr es, m') -> mc_nodes m !! path = Some d ->
  mc_nodes m' = mc_nodes m /\
  (forall s, nd_Kind d = File s -> exists r, rel root path = Some r /\ In {| te_Dir := false; te_Name := Path.join ["embedded_pki"; r];
     te_Mode := if nd_Mode d =? 0 then mode_600 else nd_Mode d; te_Size := Z.of_nat (String.length s); te_ModTime := nd_ModTime d; te_Data := s |} es).
Proof.
  unfold visit. intros E Hd. destruct (rel root path) as [r|] eqn:Er; [|done].
  destruct (String.eqb r "." && is_folder d) eqn:Eq.
  { apply mret_inv in E as [_ <-]. split; [done|]. intros s Es. unfold is_folder in Eq. rewrite Es, andb_false_r in Eq. done. }
  apply fallible_inv in E as (info & m1 & [-> Hinfo]%stat_inv & E). rewrite Hd in Hinfo. injection Hinfo as <-.
  destruct (nd_Kind d) as [s| |] eqn:Ek; [|apply mret_inv in E as [_ <-]; done..].
  apply fallible_inv in E as (st & m2 & [-> Hst]%stat_inv & E). cbn [stepped mc_nodes] in Hst. rewrite Hd in Hst. injection Hst as <-.
  apply fallible_inv in E as (bin & m3 & [-> (nd & Hnd & Ek')]%read_inv & E). cbn [stepped mc_nodes] in Hnd. rewrite Hd in Hnd.
  injection Hnd as <-. apply mret_inv in E as [<- <-]. split; [done|]. intros s' [= ->]. exists r. split; [done|]. left.
  rewrite Ek in Ek'. injection Ek' as <-. unfold node_size. by rewrite Ek.
Qed.

(** The walk only reads, and the entries of what is below a folder are among its own. *)
Lemma walk_reads n : forall root ps d m es m', sound (mc_nodes m) -> Forall (fun x => name x) ps ->
  mc_nodes m !! rooted ps = Some d -> walk n root (rooted ps) d m = (inr es, m') -> mc_nodes m' = mc_nodes m.
Proof.
  induction n as [|n IH]; intros root ps d m es m' Hs Hps Hd E; [done|]. cbn [walk] in E.
  apply fallible_inv in E as (xs & m1 & [En1 _]%visit_inv & E); [|done]. destruct (is_folder d); [|by apply mret_inv in E as [_ <-]].
  apply fallible_inv in E as (items & m2 & [-> [_ ->]]%read_dir_inv & E). rewrite <- En1 in Hs.
  apply fallible_inv in E as (ys & m3 & E3 & E). apply mret_inv in E as [_ <-].
  apply (each_inv _ (fun m' => mc_nodes m' = mc_nodes m)) in E3 as [E3 _]; [done|by cbn|].
  intros [x nd] m4 out m5 Hx Hm4 E4. rewrite <- Hm4. cbn [fst snd] in E4. apply items_spec in Hx as [Hx Hl]; [|done..].
  unfold in_folder in E4. rewrite join_name in E4 by done. eapply IH; [..|exact E4].
  - by rewrite Hm4, <- En1.
  - by apply snoc_names.
  - by rewrite Hm4, <- En1.
Qed.

Lemma walk_complete rest : forall n root ps d m es m' nd s, sound (mc_nodes m) -> Forall (fun x => name x) ps ->
  Forall (fun x => name x) rest -> mc_nodes m !! rooted ps = Some d -> walk n root (rooted ps) d m = (inr es, m') ->
  (forall l x r, rest = l ++ x :: r -> folder_at (mc_nodes m) (rooted (ps ++ l)) = true) ->
  mc_nodes m !! rooted (ps ++ rest) = Some nd -> nd_Kind nd = File s ->
  exists r, rel root (rooted (ps ++ rest)) = Some r /\ In {| te_Dir := false; te_Name := Path.join ["embedded_pki"; r];
     te_Mode := if nd_Mode nd =? 0 then mode_600 else nd_Mode nd; te_Size := Z.of_nat (String.length s); te_ModTime := nd_ModTime nd; te_Data := s |} es.
Proof.
  induction rest as [|x rest IH]; intros n root ps d m es m' nd s Hs Hps Hrest Hd E Hf Hnd Hk; (destruct n as [|n]; [done|]); cbn [walk] in E;
    apply fallible_inv in E as (xs & m1 & [En1 Hfile]%visit_inv & E); try done.
  - rewrite app_nil_r in *. rewrite Hd in Hnd. injection Hnd as <-. destruct (Hfile s Hk) as (r & Hr & Hin). exists r. split; [done|].
    replace (is_folder d) with false in E by (unfold is_folder; by rewrite Hk). by apply mret_inv in E as [<- _].
  - assert (Hfd : is_folder d = true).
    { pose proof (Hf [] x rest eq_refl) as Hr. rewrite app_nil_r in Hr. unfold folder_at in Hr. by rewrite Hd in Hr. }
    rewrite Hfd in E. apply Forall_cons in Hrest as [Hx Hrest].
    apply fallible_inv in E as (items & m2 & [-> [_ ->]]%read_dir_inv & E). rewrite En1 in E.
    apply fallible_inv in E as (ys & m3 & E3 & E). apply mret_inv in E as [<- _].
    assert (Hx' : exists nd', mc_nodes m !! rooted (ps ++ [x]) = Some nd').
    { destruct rest as [|y rest]; [by exists nd|]. specialize (Hf [x] y rest eq_refl). unfold folder_at in Hf.
      destruct (_ !! rooted (ps ++ [x])) as [nd'|]; [by exists nd'|done]. }
    destruct Hx' as [nd' Hnd']. apply (each_inv _ (fun m' => mc_nodes m' = mc_nodes m)) in E3 as [_ Hall]; [|by cbn|].
    2:{ intros [y nd2] m4 out m5 Hy Hm4 E4. rewrite <- Hm4. cbn [fst snd] in E4. apply items_spec in Hy as [Hy Hl]; [|done..].
        unfold in_folder in E4. rewrite join_name in E4 by done. eapply walk_reads; [..|exact E4];
          [by rewrite Hm4|by apply snoc_names|by rewrite Hm4]. }
    destruct (Hall (x, nd')) as (m4 & zs & m5 & Hm4 & E4 & Hincl); [by apply items_spec|]. cbn [fst snd] in E4.
    unfold in_folder in E4. rewrite join_name in E4 by done. replace (ps ++ x :: rest) with ((ps ++ [x]) ++ rest) in * by (by rewrite <- app_assoc).
    destruct (IH n root (ps ++ [x]) nd' m4 zs m5 nd s) as (r & Hr & Hin); try done.
    + by rewrite Hm4.
    + by apply snoc_names.
    + by rewrite Hm4.
    + intros l y r ->. rewrite Hm4, <- app_assoc. by apply (Hf (x :: l) y r).
    + by rewrite Hm4.
    + exists r. split; [done|]. apply in_or_app. right. by apply Hincl.
Qed.
End walking.

(** The clock does not go back, and a staging folder's name is one name. *)
Class ToolsLaws `{Tools} : Prop := {
  instant_mono : forall i j, (i <= j)%nat -> instant i <= instant j;
  suffix_no_slash : forall k, Path.no_slash (staging_suffix k)
}.

(** ** Time goes on *)

Section ticking.
Context `{Tools}.

Definition ticking {A} (f : run A) : Prop := forall m, (mc_tick m <= mc_tick (f m).2)%nat.

Lemma ticking_bind {A B} (f : run A) (k : A -> run B) : ticking f -> (forall x, ticking (k x)) -> ticking (x ← f; k x).
Proof.
  intros Hf Hk m. specialize (Hf m). unfold mbind, fallible_bind. destruct (f m) as [[e|x] m1]; [done|].
  specialize (Hk x m1). cbn in *. lia.
Qed.
Lemma ticking_ret {A} (x : A) : ticking (mret (M := run) x).
Proof. intros m. cbn. lia. Qed.
Lemma ticking_refuse {A} msg : ticking (refuse (A := A) msg).
Proof. intros m. cbn. lia. Qed.
Lemma ticking_call {A} msg (f : Z -> Nodes -> option (A * Nodes)) : ticking (call msg f).
Proof. intros m. unfold call. destruct (hd false (mc_faults m)); [cbn; lia|]. destruct (f _ _) as [[x ns]|]; cbn; lia. Qed.
Lemma ticking_caught {A} (f : run A) : ticking f -> ticking (caught f).
Proof. intros Hf m. specialize (Hf m). unfold caught. by destruct (f m). Qed.
Lemma ticking_now : ticking time_now.
Proof. intros m. cbn. lia. Qed.
Lemma ticking_each {A B} (f : A -> run (list B)) l : (forall x, ticking (f x)) -> ticking (each f l).
Proof. intros Hf. induction l as [|x l IH]; cbn [each]; [apply ticking_ret|]. repeat (apply ticking_bind; intros); auto using ticking_ret. Qed.

Lemma ticking_inv {A} (f : run A) m r m' : ticking f -> f m = (r, m') -> (mc_tick m <= mc_tick m')%nat.
Proof. intros Hf E. specialize (Hf m). by rewrite E in Hf. Qed.
End ticking.

#[export] Hint Resolve ticking_ret ticking_refuse ticking_call ticking_now : ticks.
Ltac ticks_walk := repeat first
  [ progress intros
  | solve [eauto with ticks]
  | apply ticking_bind
  | apply ticking_caught
  | apply ticking_each
  | match goal with |- ticking (match ?x with _ => _ end) => destruct x end ].

Section runs.
Context `{Tools}.

Lemma ticking_walk n root path d : ticking (walk n root path d).
Proof.
  revert path d. induction n as [|n IH]; intros path d; cbn [walk]; [apply ticking_refuse|].
  unfold visit, os_stat, read_file, os_read_dir. ticks_walk.
Qed.

Lemma ticking_prune `{Cwd} c cutoff items : forall removed failed, ticking (prune_each c cutoff items removed failed).
Proof.
  induction items as [|x items IH]; intros removed failed; cbn [prune_each]; [apply ticking_ret|].
  unfold ResolveSafePath, os_stat, remove_node. ticks_walk.
Qed.

Lemma prune_ticks `{Cwd} c now : ticking (PruneOlderThan c now).
Proof. unfold PruneOlderThan, os_read_dir. ticks_walk. apply ticking_prune. Qed.

Lemma ticking_archive out dump root : ticking (writeBackupArchive out dump root).
Proof.
  unfold writeBackupArchive, open_trunc, os_stat, read_file, close_with, WalkDir. ticks_walk.
  intros m. apply ticking_bind; [apply ticking_call|]. intros d. apply ticking_walk.
Qed.

(** ** Paths that are apart *)

Lemma inside_prefix ws qs : Forall (fun x => name x) ws -> ws <> [] -> Forall (fun x => name x) qs ->
  inside (rooted ws) (rooted qs) = true -> exists r, qs = ws ++ r.
Proof.
  intros Hws Hn Hqs. unfold inside. intros [E%String.eqb_eq|E]%orb_true_iff.
  - apply rooted_inj in E; [|done..]. exists []. by rewrite app_nil_r.
  - apply prefix_self_inv in E as [r E]. rewrite Str.append_assoc in E. apply (f_equal (Str.split_on "/")) in E.
    change ("/" +:+ r) with (String "/" r) in E. rewrite split_on_concat, !split_rooted in E by (by apply names_slash).
    destruct ws as [|w ws]; [done|]. cbn [app] in E. injection E as E. destruct qs as [|q qs]; [|by eexists].
    destruct ws; cbn in E; injection E as <- E; apply Forall_cons in Hws as [[(Hw & _) _] _]; done.
Qed.

(** No path of the first is in the folder of the second. *)
Definition apart (qs ts : list string) : Prop := forall r, qs <> ts ++ r.

Lemma apart_snoc ps ts x y : apart ps ts -> apart (ps ++ [x]) (ts ++ [y]).
Proof.
  intros Ha r E. destruct r as [|z r _] using rev_ind.
  - rewrite app_nil_r in E. apply app_inj_tail in E as [E _]. apply (Ha []). by rewrite app_nil_r.
  - rewrite app_assoc in E. apply app_inj_tail in E as [E _]. apply (Ha (y :: r)). by rewrite E, <- app_assoc.
Qed.

(** ** The steps of a run *)

Lemma mkdir_temp_inv n : forall msg m p m1, mkdir_temp n msg m = (inr p, m1) -> exists k now,
  p = in_folder temp_dir ("arx-backup-staging-" +:+ staging_suffix k) /\ mc_nodes m !! p = None /\
  mc_nodes m1 = <[p := folder mode_700 now]> (mc_nodes m) /\ (mc_tick m <= mc_tick m1)%nat.
Proof.
  induction n as [|n IH]; intros msg m p m1 E; [done|]. cbn [mkdir_temp] in E. destruct (_ !! _) as [nd|] eqn:Ep.
  - apply IH in E as (k & now & E1 & E2 & E3 & E4). exists k, now. cbn in *. split_and!; [done..|lia].
  - apply fallible_inv in E as ([] & m2 & E & E'). apply mret_inv in E' as [<- <-]. unfold os_mkdir in E.
    apply call_inv in E as [(e & ? & _)|([] & ns & _ & -> & E)]; [done|]. rewrite Ep in E. destruct (folder_at _ _); [|done].
    injection E as <-. do 2 eexists. split_and!; [reflexivity|done|reflexivity|cbn; lia].
Qed.

Lemma dump_inv c out m u m1 : execPgDump c out m = (inr u, m1) -> mc_nodes m !! out = None -> exists dump now k,
  pg_dump (cf_PgDumpPath c) (cf_DatabaseURL c) k = (true, Some dump) /\ mc_nodes m1 = <[out := file mode_600 now dump]> (mc_nodes m) /\
  (mc_tick m <= mc_tick m1)%nat.
Proof.
  unfold execPgDump. intros E Hn. destruct (pg_dump _ _ _) as [ok [s|]] eqn:Ed.
  - apply fallible_inv in E as ([] & m2 & E2 & E). apply call_inv in E2 as [(e & ? & _)|([] & ns & _ & -> & E2)]; [done|]. injection E2 as <-.
    apply fallible_inv in E as ([] & m3 & E3 & E). destruct ok; [|done]. apply mret_inv in E3 as [_ <-].
    apply fallible_inv in E as (nd & m4 & [-> _]%stat_inv & E). apply mret_inv in E as [_ <-].
    exists s. do 2 eexists. split_and!; [exact Ed|reflexivity|cbn; lia].
  - apply fallible_inv in E as ([] & m2 & E2 & E). apply call_inv in E2 as [(e & ? & _)|([] & ns & _ & -> & E2)]; [done|]. injection E2 as <-.
    apply fallible_inv in E as ([] & m3 & E3 & E). destruct ok; [|done]. apply mret_inv in E3 as [_ <-].
    apply fallible_inv in E as (nd & m4 & [-> Hnd]%stat_inv & E). cbn in Hnd. congruence.
Qed.

Lemma sound_insert ns qs nd : sound ns -> Forall (fun x => name x) qs -> sound (<[rooted qs := nd]> ns).
Proof.
  intros Hs Hq q. destruct (decide (q = rooted qs)) as [->|Hne]; [by intros _; exists qs|]. rewrite lookup_insert_ne by done. apply Hs.
Qed.

(** Writing an archive leaves every other file as it is; the entries are those of a walk. *)
Lemma archive_steps bs dump ks m u m1 : writeBackupArchive (rooted bs) dump (rooted ks) m = (inr u, m1) ->
  sound (mc_nodes m) -> Forall (fun x => name x) bs -> Forall (fun x => name x) ks -> mc_nodes m !! rooted bs = None -> dump <> rooted bs ->
  exists nd s d k m2 m3 es t i, mc_nodes m !! dump = Some nd /\ nd_Kind nd = File s /\
    mc_nodes m2 = <[rooted bs := file mode_600 t ""]> (mc_nodes m) /\ mc_nodes m2 !! rooted ks = Some d /\
    walk k (rooted ks) (rooted ks) d m2 = (inr es, m3) /\ (mc_tick m <= i <= mc_tick m1)%nat /\
    mc_nodes m1 = <[rooted bs := file mode_600 (instant i) (archive_text (dump_entry dump nd s :: es))]> (mc_nodes m).
Proof.
  intros E Hs Hbs Hks Hn Hne. pose proof (ticking_inv _ _ _ _ (ticking_archive (rooted bs) dump (rooted ks)) E) as Htick. unfold writeBackupArchive in E.
  apply fallible_inv in E as ([] & m2 & E2 & E). apply call_inv in E2 as [(e & ? & _)|([] & ns2 & _ & -> & E2)]; [done|].
  rewrite Hn in E2. destruct (folder_at _ _); [|done]. injection E2 as <-.
  apply fallible_inv in E as (nd & m3 & [-> Hnd]%stat_inv & E). cbn [stepped mc_nodes] in Hnd. rewrite lookup_insert_ne in Hnd by done.
  apply fallible_inv in E as (s & m4 & [-> (nd' & Hnd' & Hk)]%read_inv & E). cbn [stepped mc_nodes] in Hnd'. rewrite lookup_insert_ne in Hnd' by done.
  rewrite Hnd in Hnd'. injection Hnd' as <-.
  apply fallible_inv in E as (es & m5 & E5 & E). unfold WalkDir in E5. apply fallible_inv in E5 as (d & m6 & [-> Hd]%stat_inv & E5).
  pose proof (ticking_inv _ _ _ _ (ticking_walk _ _ _ _) E5) as Ht5.
  cbn [stepped mc_nodes] in Hd.
  assert (En5 : mc_nodes m5 = <[rooted bs := file mode_600 (instant (mc_tick m)) ""]> (mc_nodes m)).
  { match type of E5 with walk ?k _ _ _ ?x = _ => apply (walk_reads k (rooted ks) ks d x es m5) end; try done. by apply sound_insert. }
  apply call_inv in E as [(e & ? & _)|([] & ns7 & _ & -> & E)]; [done|]. rewrite En5, lookup_insert_eq in E. injection E as <-.
  match type of E5 with walk ?k _ _ _ ?x = _ => exists nd, s, d, k, x, m5, es, (instant (mc_tick m)), (mc_tick m5) end.
  split; [exact Hnd|]. split; [exact Hk|]. split; [reflexivity|]. split; [exact Hd|]. split; [exact E5|]. split.
  - cbn in Ht5, Htick |- *. lia.
  - cbn [stepped mc_nodes]. rewrite insert_insert_eq. reflexivity.
Qed.

(** A run inside its staging folder. *)
Lemma backup_steps `{CwdLaws} c ps ks ws m nm m1 : backup_in c (rooted ws) m = (inr nm, m1) -> sound (mc_nodes m) ->
  cf_StorageDir c = rooted ps -> cf_PKIRootAbs c = rooted ks -> Forall (fun x => name x) ps -> Forall (fun x => name x) ks ->
  Forall (fun x => name x) ws ->
  let D := rooted (ws ++ ["database.dump"]) in let B := rooted (ws ++ ["bundle.part"]) in
  mc_nodes m !! D = None -> mc_nodes m !! B = None ->
  exists dump tick t t' d k m2 m3 es i j,
    pg_dump (cf_PgDumpPath c) (cf_DatabaseURL c) tick = (true, Some dump) /\ backupArtifactNameRX nm = true /\
    mc_nodes m2 = <[B := file mode_600 t' ""]> (<[D := file mode_600 t dump]> (mc_nodes m)) /\
    mc_nodes m2 !! rooted ks = Some d /\ walk k (rooted ks) (rooted ks) d m2 = (inr es, m3) /\
    (mc_tick m <= i)%nat /\ (i <= j)%nat /\ (j <= mc_tick m1)%nat /\
    pruned c (RetentionCutoff c (instant j))
      (<[rooted (ps ++ [nm]) := file mode_600 (instant i) (archive_text (dump_entry D (file mode_600 t dump) dump :: es))]>
        (<[D := file mode_600 t dump]> (mc_nodes m))) (mc_nodes m1).
Proof.
  intros E Hs Hdir Hpki Hps Hks Hws D B HD HB. assert (HnD : name "database.dump") by done. assert (HnB : name "bundle.part") by done.
  assert (HDB : D <> B) by (intros EDB; apply rooted_snoc_inj in EDB as [_ EDB]; done).
  unfold backup_in in E. rewrite !join_name in E by done. fold D B in E.
  apply fallible_inv in E as (u & ma & Ea & E). pose proof Ea as (dump & t & tick & Hdump & Na & Ta)%dump_inv; [|done].
  apply fallible_inv in E as (fi & mb & [-> Hfi]%stat_inv & E). destruct (is_folder fi); [|done]. cbn [negb] in E.
  apply fallible_inv in E as (now & mc & Enow & E). injection Enow as <- <-.
  destruct (backupArtifactNameRX (archive_name _)) eqn:Hrx; [|done]. cbn [negb] in E. set (x := archive_name _) in *.
  pose proof (archive_name_plain x Hrx) as Hx. rewrite Hdir, Hpki in E. rewrite !join_name, base_rooted in E by done.
  apply fallible_inv in E as (u2 & md & Ed & E).
  apply archive_steps in Ed as (dn & s & d & k & m2 & m3 & es & t' & i & Hdn & Hkd & N2 & Hd & Hw & [Hi1 Hi2] & Nd); try done.
  2:{ cbn. rewrite Na. by apply sound_insert; [|apply snoc_names]. }
  2:{ by apply snoc_names. }
  2:{ cbn. rewrite Na. by rewrite lookup_insert_ne. }
  cbn [stepped mc_nodes] in Hdn, N2, Nd. fold B in N2, Nd. rewrite Na in Hdn, N2, Nd. rewrite lookup_insert_eq in Hdn. injection Hdn as <-.
  injection Hkd as <-. cbn [stepped mc_tick] in Hi1.
  apply fallible_inv in E as ([] & me & Ee & E). apply call_inv in Ee as [(e & ? & _)|([] & ns & _ & -> & Ee)]; [done|].
  rewrite Nd, lookup_insert_eq in Ee. destruct (_ || _); [done|]. injection Ee as <-.
  apply fallible_inv in E as (nd & mf & [-> _]%stat_inv & E). apply fallible_inv in E as (now & mg & Enow & E). injection Enow as <- <-.
  apply fallible_inv in E as ([n e] & mh & Eh & E). apply mret_inv in E as [<- <-].
  pose proof (ticking_inv _ _ _ _ (prune_ticks c _) Eh) as Th.
  match type of Eh with PruneOlderThan _ ?t0 ?m0 = _ => destruct (prune_spec ps c t0 m0 Hps Hdir) as (n' & e' & mh' & Eh' & Hp & _) end. rewrite Eh in Eh'. injection Eh' as -> -> ->.
  cbn [stepped mc_nodes mc_tick] in Hp, Th.
  exists dump, tick, t, t', d, k, m2, m3, es, i, (S (S (mc_tick md))). split_and!; try done; try lia.
  rewrite delete_insert_id in Hp by (by rewrite lookup_insert_ne). exact Hp.
Qed.
End runs.

(** ** A finished backup *)

(** A file system: what is in it goes down from the root, folder by folder. *)
Record tree (ns : Nodes) : Prop := {
  tr_sound : sound ns;
  tr_folders : forall qs x, Forall (fun x => name x) qs -> name x -> is_Some (ns !! rooted (qs ++ [x])) -> folder_at ns (rooted qs) = true
}.

(** A regular file somewhere below a folder, with its contents. *)
Definition file_below (ns : Nodes) (root rest : list string) (nd : Node) (s : string) : Prop :=
  Forall (fun x => name x) rest /\ (forall l x r, rest = l ++ x :: r -> folder_at ns (rooted (root ++ l)) = true) /\
  ns !! rooted (root ++ rest) = Some nd /\ nd_Kind nd = File s.

Definition pki_entry (r : string) (nd : Node) (s : string) : TarEntry := {|
  te_Dir := false; te_Name := Path.join ["embedded_pki"; r]; te_Mode := if nd_Mode nd =? 0 then mode_600 else nd_Mode nd;
  te_Size := Z.of_nat (String.length s); te_ModTime := nd_ModTime nd; te_Data := s |}.

Definition database_entry (t : Z) (dump : string) : TarEntry := {|
  te_Dir := false; te_Name := "postgres/database.dump"; te_Mode := mode_600; te_Size := Z.of_nat (String.length dump);
  te_ModTime := t; te_Data := dump |}.

Section finished.
Context `{ToolsLaws} `{CwdLaws} `{Environ}.

Lemma staging_name k : name ("arx-backup-staging-" +:+ staging_suffix k).
Proof. split; [split_and!; intros [=]|apply suffix_no_slash]. Qed.

Lemma walk_lookup (ns ns' : Nodes) D B q (f g : Node) : ns !! D = None -> ns !! B = None -> ns' = <[B := g]> (<[D := f]> ns) ->
  is_Some (ns !! q) -> ns' !! q = ns !! q.
Proof. intros HD HB -> [nd Hq]. rewrite !lookup_insert_ne by congruence. done. Qed.

(** Everything below the folder is among the entries of a walk over a disk with two more files. *)
Lemma walk_takes_all (ns : Nodes) D B f g k ks d m2 m3 es : sound ns -> Forall (fun x => name x) ks -> ns !! D = None -> ns !! B = None ->
  sound (mc_nodes m2) -> mc_nodes m2 = <[B := g]> (<[D := f]> ns) -> mc_nodes m2 !! rooted ks = Some d ->
  walk k (rooted ks) (rooted ks) d m2 = (inr es, m3) ->
  forall rest nd s, file_below ns ks rest nd s -> exists r, rel (rooted ks) (rooted (ks ++ rest)) = Some r /\ In (pki_entry r nd s) es.
Proof.
  intros Hs Hks HD HB Hs2 E2 Hd Hw rest nd s (Hrest & Hf & Hnd & Hk).
  assert (G := fun q => walk_lookup ns (mc_nodes m2) D B q f g HD HB E2).
  eapply (walk_complete rest k (rooted ks) ks d m2 es m3 nd s); try done.
  - intros l x r E. specialize (Hf l x r E). assert (Hsome : is_Some (ns !! rooted (ks ++ l))).
    { unfold folder_at in Hf. destruct (ns !! rooted (ks ++ l)); [by eexists|done]. }
    unfold folder_at in *. by rewrite (G _ Hsome).
  - rewrite G; [done|by eexists].
Qed.

Lemma file_below_insert (ns : Nodes) p x root rest nd s : ns !! p = None -> file_below ns root rest nd s -> file_below (<[p := x]> ns) root rest nd s.
Proof.
  intros Hp (Hrest & Hf & Hnd & Hk). split_and!; [done| |by rewrite lookup_insert_ne by congruence|done].
  intros l y r E. specialize (Hf l y r E). unfold folder_at in *. rewrite lookup_insert_ne; [done|]. intros E'. by rewrite <- E', Hp in Hf.
Qed.

Lemma dump_as_entry ws t dump : Forall (fun x => name x) ws ->
  dump_entry (rooted (ws ++ ["database.dump"])) (file mode_600 t dump) dump = database_entry t dump.
Proof. intros Hws. unfold dump_entry. by rewrite base_rooted. Qed.

(** The staging folder is removed, and nothing else. *)
Lemma cleanup_inv msg ws m r m' : remove_all msg (rooted ws) m = (r, m') -> Forall (fun x => name x) ws -> ws <> [] ->
  (mc_tick m <= mc_tick m')%nat /\
  (forall qs, Forall (fun x => name x) qs -> apart qs ws -> mc_nodes m' !! rooted qs = mc_nodes m !! rooted qs).
Proof.
  intros E Hws Hn. split; [by eapply ticking_inv; [apply ticking_call|exact E]|]. intros qs Hqs Ha.
  apply call_inv in E as [(e & _ & -> & _)|([] & ns & _ & -> & E)]; [done|]. injection E as <-. cbn [stepped mc_nodes].
  destruct (mc_nodes m !! rooted qs) as [nd|] eqn:Eq.
  - apply map_lookup_filter_Some. split; [done|]. cbn [fst]. apply not_true_iff_false. intros Hi.
    apply inside_prefix in Hi as [r' ->]; [by destruct (Ha r')|done..].
  - apply map_lookup_filter_None. by left.
Qed.

Lemma apart_below qs ts w : apart qs ts -> apart qs (ts ++ [w]).
Proof. intros Ha r ->. apply (Ha (w :: r)). by rewrite <- app_assoc. Qed.

(** C15: a backup that is answered is an archive in the storage folder, named so, of the dump and of every file below the
    authority's folder, with their contents; the retention that follows at once leaves it there, as long as making it took no
    longer than archives are kept.  Outside the temporary folder nothing else has changed but archives that had expired. *)
Theorem finished_backup_kept pki c ps ks ts m nm m' : LoadConfigFromEnv pki = inl c ->
  cf_StorageDir c = rooted ps -> cf_PKIRootAbs c = rooted ks -> temp_dir = rooted ts ->
  Forall (fun x => name x) ps -> Forall (fun x => name x) ks -> Forall (fun x => name x) ts -> apart ps ts ->
  tree (mc_nodes m) -> RunOnce c m = (inr nm, m') ->
  instant (mc_tick m') - instant (mc_tick m) <= cf_RetentionDays c * Cal.day_ns ->
  backupArtifactNameRX nm = true /\ exists tick dump t0 t entries now,
    pg_dump (cf_PgDumpPath c) (cf_DatabaseURL c) tick = (true, Some dump) /\
    mc_nodes m' !! rooted (ps ++ [nm]) = Some (file mode_600 t (archive_text (database_entry t0 dump :: entries))) /\
    (forall rest nd s, file_below (mc_nodes m) ks rest nd s ->
       exists r, rel (rooted ks) (rooted (ks ++ rest)) = Some r /\ In (pki_entry r nd s) entries) /\
    now <= instant (mc_tick m') /\
    (forall qs, Forall (fun x => name x) qs -> apart qs ts -> qs <> ps ++ [nm] ->
       mc_nodes m' !! rooted qs = mc_nodes m !! rooted qs
       \/ mc_nodes m' !! rooted qs = None /\ exists nd, mc_nodes m !! rooted qs = Some nd /\
            expired c (now - cf_RetentionDays c * Cal.day_ns) (rooted qs) nd = true).
Proof.
  intros [Hdays _]%loaded_config Hdir Hpki Htemp Hps Hks Hts Hap [Hs Hfold] E Hspan. unfold RunOnce in E. destruct (String.eqb _ ""); [done|].
  apply fallible_inv in E as (W & m1 & (k0 & now0 & -> & Wnone & N1 & T1)%mkdir_temp_inv & E). set (w := "arx-backup-staging-" +:+ staging_suffix k0) in *.
  assert (Hw : name w) by apply staging_name. unfold in_folder in *. rewrite Htemp, join_name in * by done.
  apply fallible_inv in E as (r & m2 & (x & [= <-] & E2)%caught_inv & E). apply fallible_inv in E as (r' & m3 & (y & [= <-] & E3)%caught_inv & E).
  injection E as -> <-. assert (Hws : Forall (fun x => name x) (ts ++ [w])) by (by apply snoc_names).
  assert (Hnone : forall x, name x -> mc_nodes m1 !! rooted ((ts ++ [w]) ++ [x]) = None).
  { intros x Hx. rewrite N1, lookup_insert_ne.
    - apply eq_None_not_Some. intros Hx'. apply Hfold in Hx'; [|done..]. unfold folder_at in Hx'. by rewrite Wnone in Hx'.
    - intros Eq. apply rooted_inj in Eq; [|done|by apply snoc_names]. apply (f_equal length) in Eq. rewrite !length_app in Eq. simpl in Eq. lia. }
  assert (Hs1 : sound (mc_nodes m1)) by (rewrite N1; by apply sound_insert).
  assert (HnD : name "database.dump") by done. assert (HnB : name "bundle.part") by done.
  pose proof E2 as (dump & tick & t0 & t' & d & k & m4 & m5 & es & i & j & Hdump & Hrx & N4 & Hd & Hwalk & Hi & Hij & Hj & Hp)%(backup_steps c ps ks);
    try done; [|by apply Hnone..].
  set (D := rooted ((ts ++ [w]) ++ ["database.dump"])) in *. set (B := rooted ((ts ++ [w]) ++ ["bundle.part"])) in *.
  pose proof (archive_name_plain nm Hrx) as Hnm. split; [done|].
  apply cleanup_inv in E3 as [T3 N3]; [|done|by destruct ts].
  assert (Hcut : RetentionCutoff c (instant j) = instant j - cf_RetentionDays c * Cal.day_ns) by (by apply cutoff_days). rewrite Hcut in Hp.
  assert (Hlo : instant (mc_tick m) <= instant i) by (apply instant_mono; lia).
  assert (Hhi : instant j <= instant (mc_tick m3)) by (apply instant_mono; lia).
  exists tick, dump, t0, (instant i), es, (instant j). split_and!; [done| | |done|].
  - rewrite N3; [|by apply snoc_names|by apply apart_snoc].
    destruct (Hp (rooted (ps ++ [nm]))) as [->|(_ & nd & Hnd & He)]; [by rewrite lookup_insert_eq; unfold D; rewrite dump_as_entry|exfalso].
    rewrite lookup_insert_eq in Hnd. injection Hnd as <-. rewrite (expired_archive ps c Hps Hdir) in He by done.
    cbn [is_regular nd_Kind nd_ModTime file andb] in He. apply Z.ltb_lt in He. lia.
  - intros rest nd s Hb. eapply (walk_takes_all (mc_nodes m1) D B _ _ _ _ d m4 m5 es); [exact Hs1|exact Hks|by apply Hnone|by apply Hnone| |exact N4|exact Hd|exact Hwalk|].
    + rewrite N4. apply sound_insert; [|by apply snoc_names]. apply sound_insert; [done|by apply snoc_names].
    + rewrite N1. by apply file_below_insert.
  - intros qs Hqs Hq Hne. rewrite N3; [|done|by apply apart_below].
    assert (Eq : (<[rooted (ps ++ [nm]) := file mode_600 (instant i) (archive_text (dump_entry D (file mode_600 t0 dump) dump :: es))]>
      (<[D := file mode_600 t0 dump]> (mc_nodes m1))) !! rooted qs = mc_nodes m !! rooted qs).
    { rewrite !lookup_insert_ne, N1, lookup_insert_ne; [done|..]; intros Er; apply rooted_inj in Er; try done; try (by apply snoc_names).
      - apply (Hq [w]). by rewrite Er.
      - apply (Hq [w; "database.dump"]). rewrite <- Er. by rewrite <- app_assoc. }
    destruct (Hp (rooted qs)) as [->|(-> & nd & Hnd & He)]; [by left|right]. split; [done|]. exists nd. by rewrite <- Eq.
Qed.

End finished.

(** ** Another file system *)

Section devices.
Context `{ToolsLaws} `{CwdLaws}.
Variables (ps ts : list string) (c : Config).
Hypothesis Hps : Forall (fun x => name x) ps.
Hypothesis Hts : Forall (fun x => name x) ts.
Hypothesis Hdir : cf_StorageDir c = rooted ps.
Hypothesis Htemp : temp_dir = rooted ts.

(** What does not touch paths outside the temporary folder. *)
Definition same_outside (ns ns' : Nodes) : Prop := forall qs, Forall (fun x => name x) qs -> apart qs ts -> ns' !! rooted qs = ns !! rooted qs.
Definition confined {A} (f : run A) : Prop := forall m, same_outside (mc_nodes m) (mc_nodes (f m).2).

Lemma confined_bind {A B} (f : run A) (k : A -> run B) : confined f -> (forall x, confined (k x)) -> confined (x ← f; k x).
Proof.
  intros Hf Hk m qs Hqs Ha. specialize (Hf m qs Hqs Ha). unfold mbind, fallible_bind. destruct (f m) as [[e|x] m1]; [done|].
  rewrite (Hk x m1 qs Hqs Ha). exact Hf.
Qed.
Lemma confined_ret {A} (x : A) : confined (mret (M := fallible Machine) x).
Proof. intros m qs _ _. done. Qed.
Lemma confined_refuse {A} msg : confined (refuse (S := Machine) (A := A) msg).
Proof. intros m qs _ _. done. Qed.
Lemma confined_caught {A} (f : run A) : confined f -> confined (caught f).
Proof. intros Hf m. specialize (Hf m). unfold caught. by destruct (f m). Qed.
Lemma confined_now : confined time_now.
Proof. intros m qs _ _. done. Qed.
Lemma confined_call {A} msg (f : Z -> Nodes -> option (A * Nodes)) :
  (forall t ns x ns', f t ns = Some (x, ns') -> same_outside ns ns') -> confined (call msg f).
Proof.
  intros Hf m. destruct (call msg f m) as [r m'] eqn:E. apply call_inv in E as [(e & _ & -> & _)|(x & ns & _ & -> & E)]; [intros qs _ _; done|].
  by apply Hf in E.
Qed.

Lemma confined_read {A} msg (f : Nodes -> option A) : confined (call msg (fun _ ns => x ← f ns; Some (x, ns))).
Proof. apply confined_call. intros t ns x ns'. destruct (f ns); [|done]. intros [= _ <-] qs _ _. done. Qed.

Lemma insert_outside ns w x nd : name w -> name x -> same_outside ns (<[rooted (ts ++ [w; x]) := nd]> ns).
Proof.
  intros Hw Hx qs Hqs Ha. apply lookup_insert_ne. intros E. apply rooted_inj in E; [by destruct (Ha [w; x])| |done].
  apply Forall_app. split; [done|]. by repeat (constructor; [done|]).
Qed.

Lemma confined_stat msg p : confined (os_stat msg p).
Proof. apply confined_call. intros t ns x ns'. destruct (ns !! p); [|done]. intros [= _ <-] qs _ _. done. Qed.
Lemma confined_read_file msg p : confined (read_file msg p).
Proof. apply confined_call. intros t ns x ns'. destruct (ns !! p) as [nd|]; [|done]. cbn. destruct (nd_Kind nd); try done. intros [= _ <-] qs _ _. done. Qed.
Lemma confined_read_dir msg p : confined (os_read_dir msg p).
Proof. apply confined_call. intros t ns x ns'. destruct (folder_at ns p); [|done]. intros [= _ <-] qs _ _. done. Qed.

Lemma confined_each {A B} (f : A -> run (list B)) l : (forall x, confined (f x)) -> confined (each f l).
Proof. intros Hf. induction l as [|x l IH]; cbn [each]; [apply confined_ret|]. repeat (apply confined_bind; intros); auto using confined_ret. Qed.

Lemma confined_walk n root path d : confined (walk n root path d).
Proof.
  revert path d. induction n as [|n IH]; intros path d; cbn [walk]; [apply confined_refuse|]. apply confined_bind.
  - unfold visit. destruct (rel root path); [|apply confined_refuse]. destruct (_ && _); [apply confined_ret|].
    apply confined_bind; [apply confined_stat|intros info]. destruct (nd_Kind d); [|apply confined_ret..].
    apply confined_bind; [apply confined_stat|intros st]. apply confined_bind; [apply confined_read_file|intros b]. apply confined_ret.
  - intros es. destruct (is_folder d); [|apply confined_ret]. apply confined_bind; [apply confined_read_dir|intros items].
    apply confined_bind; [|intros l; apply confined_ret]. apply confined_each. intros [x nd]. apply IH.
Qed.

Lemma confined_archive w dump root : name w -> confined (writeBackupArchive (rooted (ts ++ [w; "bundle.part"])) dump root).
Proof.
  intros Hw. assert (HB : name "bundle.part") by done. unfold writeBackupArchive. apply confined_bind.
  { apply confined_call. intros t ns x ns'. destruct (ns !! _) as [nd|]; [destruct (is_folder nd)|destruct (folder_at ns _)]; try done;
      intros [= _ <-]; by apply insert_outside. }
  intros _. apply confined_bind; [apply confined_stat|intros nd]. apply confined_bind; [apply confined_read_file|intros s].
  apply confined_bind.
  { intros m. apply confined_bind; [apply confined_stat|]. intros d. apply confined_walk. }
  intros es. apply confined_call. intros t ns x ns'. destruct (ns !! _); [|done]. intros [= _ <-]. by apply insert_outside.
Qed.

Lemma confined_dump w : name w -> confined (execPgDump c (rooted (ts ++ [w; "database.dump"]))).
Proof.
  intros Hw. assert (HD : name "database.dump") by done. intros m. unfold execPgDump. destruct (pg_dump _ _ _) as [ok left_behind].
  refine (confined_bind _ _ _ _ m).
  - destruct left_behind as [s|]; apply confined_call; intros t ns x ns' [= _ <-]; [by apply insert_outside|by intros qs _ _].
  - intros _. apply confined_bind; [destruct ok; [apply confined_ret|apply confined_refuse]|intros _].
    apply confined_bind; [apply confined_stat|intros _; apply confined_ret].
Qed.

(** The archive cannot be moved to the storage. *)
Definition other_device : Prop := forall w nm, device_of (rooted (ts ++ [w; "bundle.part"])) <> device_of (rooted (ps ++ [nm])).

Definition fails {A} (f : run A) : Prop := confined f /\ forall m, exists e m', f m = (inl e, m').

Lemma fails_after {A B} (f : run A) (k : A -> run B) : confined f -> (forall x, fails (k x)) -> fails (x ← f; k x).
Proof.
  intros Hf Hk. split; [apply confined_bind; [done|intros x; apply Hk]|]. intros m. unfold mbind, fallible_bind.
  destruct (f m) as [[e|x] m1]; [by exists e, m1|]. apply Hk.
Qed.
Lemma fails_first {A B} (f : run A) (k : A -> run B) : fails f -> fails (x ← f; k x).
Proof.
  intros [Hc Hf]. split.
  - intros m. specialize (Hc m). destruct (Hf m) as (e & m' & E). unfold mbind, fallible_bind. rewrite E in *. exact Hc.
  - intros m. destruct (Hf m) as (e & m' & E). exists e, m'. unfold mbind, fallible_bind. by rewrite E.
Qed.
Lemma fails_refuse {A} msg : fails (refuse (S := Machine) (A := A) msg).
Proof. split; [apply confined_refuse|]. intros m. by do 2 eexists. Qed.

Lemma fails_call {A} msg (f : Z -> Nodes -> option (A * Nodes)) : (forall t ns, f t ns = None) -> fails (call msg f).
Proof.
  intros Hf. split; [apply confined_call; intros t ns x ns' E; by rewrite Hf in E|]. intros m. unfold call. rewrite Hf.
  destruct (hd false (mc_faults m)); eauto.
Qed.

Lemma rename_fails msg w nm : other_device -> fails (rename_node msg (rooted (ts ++ [w; "bundle.part"])) (rooted (ps ++ [nm]))).
Proof.
  intros Hdev. apply fails_call. intros t ns. destruct (ns !! _); [|done]. by rewrite (proj2 (N.eqb_neq _ _) (Hdev w nm)).
Qed.

Lemma staging_fails w : name w -> other_device -> fails (backup_in c (rooted (ts ++ [w]))).
Proof.
  intros Hw Hdev. assert (HD : name "database.dump") by done. assert (HB : name "bundle.part") by done.
  assert (Hws : Forall (fun x => name x) (ts ++ [w])) by (by apply snoc_names). unfold backup_in.
  rewrite !join_name by done. rewrite <- !app_assoc. cbn [app]. apply fails_after; [by apply confined_dump|intros _].
  apply fails_after; [apply confined_stat|intros fi]. destruct (is_folder fi); [|apply fails_refuse]. cbn [negb].
  apply fails_after; [apply confined_now|intros now]. destruct (backupArtifactNameRX (archive_name now)) eqn:Hrx; [|apply fails_refuse]. cbn [negb].
  apply fails_after; [by apply confined_archive|intros _]. apply fails_first. rewrite Hdir, join_name by (done || by apply archive_name_plain).
  by apply rename_fails.
Qed.

(** Everything that RemoveAll removes is in the staging folder. *)
Lemma confined_cleanup msg w : name w -> confined (remove_all msg (rooted (ts ++ [w]))).
Proof.
  intros Hw m qs Hqs Ha. destruct (remove_all msg _ m) as [r m'] eqn:E. apply cleanup_inv in E as [_ E]; [|by apply snoc_names|by destruct ts].
  apply E; [done|by apply apart_below].
Qed.

Lemma confined_mkdir_temp n msg : confined (mkdir_temp n msg) /\ forall m p m1, mkdir_temp n msg m = (inr p, m1) -> exists w, name w /\ p = rooted (ts ++ [w]).
Proof.
  split.
  - induction n as [|n IH]; [apply confined_refuse|]. intros m. cbn [mkdir_temp]. destruct (_ !! _).
    + intros qs Hqs Ha. by rewrite (IH _ qs Hqs Ha).
    + refine (confined_bind _ _ _ (fun _ => confined_ret _) m). apply confined_call. intros t ns x ns'.
      destruct (ns !! _); [done|]. destruct (folder_at _ _); [|done]. intros [= _ <-] qs Hqs Ha. unfold in_folder.
      rewrite Htemp, join_name by (done || apply staging_name). apply lookup_insert_ne. intros E.
      apply rooted_inj in E; [|apply snoc_names; [done|apply staging_name]|done]. by destruct (Ha [_] (eq_sym E)).
  - intros m p m1 (k & now & -> & _)%mkdir_temp_inv. eexists. split; [apply (staging_name k)|]. unfold in_folder.
    rewrite Htemp. by rewrite join_name by (done || apply staging_name).
Qed.

(** C18: when the temporary folder and the storage are on different file systems no backup is ever made, whatever the dump and
    the calls answer: the archive cannot be renamed into the storage.  Nothing outside the temporary folder changes, so
    expired archives are not removed either. *)
Theorem no_backup_across_devices : other_device -> forall m, exists e m', RunOnce c m = (inl e, m') /\
  forall qs, Forall (fun x => name x) qs -> apart qs ts -> mc_nodes m' !! rooted qs = mc_nodes m !! rooted qs.
Proof.
  intros Hdev m. assert (G : fails (RunOnce c)); [|destruct G as [Hc Hf]; destruct (Hf m) as (e & m' & E); exists e, m'; split; [done|];
    specialize (Hc m); by rewrite E in Hc].
  unfold RunOnce. destruct (String.eqb _ ""); [apply fails_refuse|]. destruct (confined_mkdir_temp (Z.to_nat 10000) "temp staging dir") as [Hm1 Hm2].
  assert (Hrest : forall p, (exists w, name w /\ p = rooted (ts ++ [w])) ->
    fails (r ← caught (backup_in c p); _ ← caught (remove_all "cleanup" p); thrown r)).
  { intros p (w & Hw & ->). pose proof (staging_fails w Hw Hdev) as [Hc Hf]. split.
    - apply confined_bind; [by apply confined_caught|]. intros r. apply confined_bind; [by apply confined_caught, confined_cleanup|].
      intros _ m1 qs _ _. done.
    - intros m1. rewrite caught_bind. destruct (Hf m1) as (e & m2 & E). rewrite E, caught_bind. destruct (remove_all _ _ m2) as [r m3]. by exists e, m3. }
  set (mk := mkdir_temp _ _) in *. clearbody mk. split.
  - intros m1 qs Hqs Ha. destruct (mk m1) as [[e|p] m2] eqn:E.
    + unfold mbind, fallible_bind. rewrite E. specialize (Hm1 m1 qs Hqs Ha). by rewrite E in Hm1.
    + rewrite (fallible_step _ _ _ _ _ E). destruct (Hrest p (Hm2 _ _ _ E)) as [Hc _]. rewrite (Hc m2 qs Hqs Ha).
      specialize (Hm1 m1 qs Hqs Ha). by rewrite E in Hm1.
  - intros m1. destruct (mk m1) as [[e|p] m2] eqn:E.
    + exists e, m2. unfold mbind, fallible_bind. by rewrite E.
    + rewrite (fallible_step _ _ _ _ _ E). by apply Hrest, (Hm2 _ _ _ E).
Qed.
End devices.

(** ** The stamp in a name *)

Lemma padded k n : 0 <= n < 10 ^ Z.of_nat (S k) ->
  String.length (Str.pad_zeros (S k) (Str.itoa n)) = S k /\ forallb Str.is_digit (Str.bytes (Str.pad_zeros (S k) (Str.itoa n))) = true.
Proof.
  intros Hn. assert (Hl : (String.length (Str.itoa n) <= S k)%nat).
  { rewrite itoa_itoa_N by lia. unfold Str.itoa_N. etransitivity; [apply (dec_digits_upper _ _ k)|simpl; lia].
    rewrite <- (Z2N.id (10 ^ Z.of_nat (S k))) in Hn by lia. replace (10 ^ N.of_nat (S k))%N with (Z.to_N (10 ^ Z.of_nat (S k))); [lia|].
    rewrite Z2N.inj_pow by lia. f_equal; lia. }
  unfold Str.pad_zeros. rewrite Str.length_append, length_zeros. split; [lia|].
  rewrite bytes_append, forallb_app, zeros_digits, itoa_digits by lia. done.
Qed.

Definition day_check (b : bool) : bool := forallb (fun doy =>
    let days_in k := if k =? 2 then (if b then 29 else 28) else if existsb (Z.eqb k) [4; 6; 9; 11] then 30 else 31 in
    let before m := fold_left (fun n k => n + days_in k) (map Z.of_nat (seq 1 (Z.to_nat (m - 1)))) 0 in
    let m := Z.of_nat (count_where (fun m => before m <=? doy) (map Z.of_nat (seq 1 12))) in
    (0 <=? doy - before m + 1) && (doy - before m + 1 <? 100)) (map Z.of_nat (seq 0 366)).

Lemma day_of_month y doy : 0 <= doy < 366 -> 0 <= doy - Cal.days_before_month y (Cal.month_of y doy) + 1 < 100.
Proof.
  intros Hd. assert (Hc : day_check (Cal.leap y) = true) by (destruct (Cal.leap y); vm_compute; done).
  unfold day_check in Hc. rewrite forallb_forall in Hc. specialize (Hc doy). cbv zeta in Hc.
  apply andb_true_iff in Hc as [H1 H2].
  - apply Z.leb_le in H1. apply Z.ltb_lt in H2. exact (conj H1 H2).
  - apply in_map_iff. exists (Z.to_nat doy). split; [lia|]. apply in_seq. lia.
Qed.

(** The first instant of the year 10000. *)
Definition last_stamp : Z := (Cal.days_before_year 10000 - Cal.epoch_days) * Cal.day_ns.

Lemma year_range t : 0 <= t < last_stamp -> 0 <= Cal.year_of (Cal.day_of t) < 10000.
Proof.
  intros Ht. pose proof (Cal.year_of_spec (Cal.day_of t)) as Hy. set (y := Cal.year_of _) in *. clearbody y.
  assert (Hn : 0 <= Cal.day_of t < Cal.days_before_year 10000).
  { unfold Cal.day_of, last_stamp, Cal.epoch_days, Cal.day_ns in *. change (Cal.days_before_year 1970) with 719528 in *.
    change (Cal.days_before_year 10000) with 3652425 in *. Z.div_mod_to_equations. lia. }
  change (Cal.days_before_year 10000) with 3652425 in Hn. unfold Cal.days_before_year in Hy. Z.div_mod_to_equations. lia.
Qed.

Lemma stamp_digits t : 0 <= t < last_stamp -> String.length (Cal.stamp t) = 14%nat /\ forallb Str.is_digit (Str.bytes (Cal.stamp t)) = true.
Proof.
  intros Ht. pose proof (year_range t Ht) as Hy. unfold Cal.stamp, Cal.civil. cbv zeta.
  pose proof (Cal.year_of_spec (Cal.day_of t)) as Hs. set (n := Cal.day_of t) in *. set (y := Cal.year_of n) in *.
  pose proof (Cal.leap_year y) as Hl. assert (Hd : 0 <= n - Cal.days_before_year y < 366) by (destruct (Cal.leap y); lia).
  set (doy := n - Cal.days_before_year y) in *. pose proof (Cal.month_of_range y doy ltac:(lia)) as Hm. pose proof (day_of_month y doy Hd) as Hday.
  set (s := t mod Cal.day_ns / 1000000000). assert (Hsec : 0 <= s < 86400) by (unfold s, Cal.day_ns; Z.div_mod_to_equations; lia).
  assert (Hh : 0 <= s / 3600 < 100) by (Z.div_mod_to_equations; lia).
  assert (Hmin : 0 <= s / 60 mod 60 < 100) by (Z.div_mod_to_equations; lia).
  assert (Hss : 0 <= s mod 60 < 100) by (Z.div_mod_to_equations; lia).
  destruct (padded 3 y) as [L1 D1]; [lia|]. destruct (padded 1 (Cal.month_of y doy)) as [L2 D2]; [lia|].
  destruct (padded 1 _ Hday) as [L3 D3]. destruct (padded 1 _ Hh) as [L4 D4]. destruct (padded 1 _ Hmin) as [L5 D5]. destruct (padded 1 _ Hss) as [L6 D6].
  rewrite !Str.length_append, !bytes_append, !forallb_app. rewrite L1, L2, L3, L4, L5, L6, D1, D2, D3, D4, D5, D6. done.
Qed.

(** Up to the year 9999 the name given to an archive is one the engine knows again. *)
Lemma archive_named t : 0 <= t < last_stamp -> backupArtifactNameRX (archive_name t) = true.
Proof.
  intros [Hl Hd]%stamp_digits. unfold archive_name, backupArtifactNameRX. rewrite prefix_self, drop_app. cbv zeta.
  assert (Ht : Str.take 14 (Cal.stamp t +:+ artifact_suffix) = Cal.stamp t) by (rewrite <- Hl; apply take_append).
  assert (Hr : Str.drop 14 (Cal.stamp t +:+ artifact_suffix) = artifact_suffix) by (rewrite <- Hl; apply drop_app).
  by rewrite Ht, Hr, Hl, Hd.
Qed.

(** ** A backup is made *)

Section made.
Context `{ToolsLaws} `{CwdLaws} `{Environ}.

Lemma stat_calm msg p nd m : mc_faults m = [] -> mc_nodes m !! p = Some nd -> os_stat msg p m = (inr nd, stepped m (mc_nodes m)).
Proof. intros Hc Hp. apply call_calm; [done|]. by rewrite Hp. Qed.

Lemma read_calm_file msg p nd s m : mc_faults m = [] -> mc_nodes m !! p = Some nd -> nd_Kind nd = File s ->
  read_file msg p m = (inr s, stepped m (mc_nodes m)).
Proof. intros Hc Hp Hk. apply call_calm; [done|]. rewrite Hp. cbn. by rewrite Hk. Qed.

Lemma prefix_depth (ns : Nodes) q : is_Some (ns !! q) -> (String.length q < depth_of ns)%nat.
Proof.
  intros [nd Hq]. unfold depth_of. assert (Hin : In (String.length q) (map String.length (map_to_list ns).*1)).
  { apply in_map, list_elem_of_In, list_elem_of_fmap. exists (q, nd). split; [done|]. by apply elem_of_map_to_list. }
  pose proof (proj1 (list_max_le _ _) (Nat.le_refl (list_max (map String.length (map_to_list ns).*1)))) as Hm.
  rewrite List.Forall_forall in Hm. specialize (Hm _ Hin). lia.
Qed.

Lemma each_calm {A B} (f : A -> run (list B)) (I : Machine -> Prop) l : (forall x m, In x l -> I m -> exists out m', f x m = (inr out, m') /\ I m') ->
  forall m, I m -> exists out m', each f l m = (inr out, m') /\ I m'.
Proof.
  induction l as [|x l IH]; intros Hf m Hm; cbn [each]; [by exists [], m|].
  destruct (Hf x m (or_introl eq_refl) Hm) as (xs & m1 & E1 & Hm1). destruct (IH (fun y m' Hy => Hf y m' (or_intror Hy)) m1 Hm1) as (ys & m2 & E2 & Hm2).
  rewrite (fallible_step _ _ _ _ _ E1), (fallible_step _ _ _ _ _ E2). by exists (xs ++ ys), m2.
Qed.

Lemma visit_calm ks rest d m : Forall (fun x => name x) ks -> Forall (fun x => name x) rest -> mc_faults m = [] ->
  mc_nodes m !! rooted (ks ++ rest) = Some d ->
  exists es m', visit (rooted ks) (rooted (ks ++ rest)) d m = (inr es, m') /\ mc_nodes m' = mc_nodes m /\ mc_faults m' = [].
Proof.
  intros Hks Hr Hc Hd. unfold visit. destruct (rel_under ks rest Hks Hr) as [r ->]. destruct (_ && _); [by exists [], m|].
  rewrite (fallible_step _ _ _ _ _ (stat_calm "lstat" _ d m Hc Hd)). set (m1 := stepped m (mc_nodes m)).
  assert (Hc1 : mc_faults m1 = []) by (cbn; by rewrite Hc). destruct (nd_Kind d) as [s| |] eqn:Ek; [|by do 2 eexists..].
  rewrite (fallible_step _ _ _ _ _ (stat_calm "stat" _ d m1 Hc1 Hd)). set (m2 := stepped m1 (mc_nodes m1)).
  assert (Hc2 : mc_faults m2 = []) by (cbn; by rewrite Hc).
  rewrite (fallible_step _ _ _ _ _ (read_calm_file "open" _ d s m2 Hc2 Hd Ek)). do 2 eexists. split_and!; [reflexivity|done|cbn; by rewrite Hc].
Qed.

(** With enough depth, and no faults, the walk ends. *)
Lemma walk_calm ks (ns : Nodes) : sound ns -> Forall (fun x => name x) ks -> forall n rest d m, Forall (fun x => name x) rest ->
  mc_nodes m = ns -> mc_faults m = [] -> ns !! rooted (ks ++ rest) = Some d ->
  (depth_of ns <= n + String.length (rooted (ks ++ rest)))%nat ->
  exists es m', walk n (rooted ks) (rooted (ks ++ rest)) d m = (inr es, m') /\ mc_nodes m' = ns /\ mc_faults m' = [].
Proof.
  intros Hs Hks. induction n as [|n IH]; intros rest d m Hr Hn Hc Hd Hdepth.
  { pose proof (prefix_depth ns _ (mk_is_Some _ _ Hd)). lia. }
  cbn [walk]. assert (Hd' := Hd). rewrite <- Hn in Hd'. destruct (visit_calm ks rest d m Hks Hr Hc Hd') as (es & m1 & E1 & N1 & C1).
  rewrite (fallible_step _ _ _ _ _ E1). destruct (is_folder d) eqn:Ed; [|exists es, m1; split_and!; [done|congruence|done]].
  assert (Hall : Forall (fun x => name x) (ks ++ rest)) by (by apply Forall_app).
  erewrite fallible_step; [|apply call_calm; [done|]; rewrite N1, Hn; unfold folder_at; rewrite Hd, Ed; reflexivity].
  match goal with |- context [each ?f ?l] => destruct (each_calm f (fun m => mc_nodes m = ns /\ mc_faults m = []) l) with (m := stepped m1 ns)
    as (ys & m2 & E2 & N2 & C2) end.
  - intros [x nd] m2 Hx [N2 C2]. apply items_spec in Hx as [Hx Hl]; [|done..]. cbn [fst snd]. unfold in_folder. rewrite join_name by done.
    rewrite <- app_assoc in Hl |- *. pose proof (longer (ks ++ rest) x Hx) as Hlen. rewrite <- app_assoc in Hlen.
    destruct (IH (rest ++ [x]) nd m2) as (out & m3 & E3 & N3 & C3); [by apply snoc_names|done|done|done|lia|]. eauto.
  - split; [done|cbn; by rewrite C1].
  - rewrite (fallible_step _ _ _ _ _ E2). do 2 eexists. split_and!; [reflexivity|done|done].
Qed.

(** An archive of a folder is written. *)
Lemma archive_calm bs ks dump nd s d m : sound (mc_nodes m) -> Forall (fun x => name x) bs -> Forall (fun x => name x) ks ->
  mc_faults m = [] -> mc_nodes m !! rooted bs = None -> folder_at (mc_nodes m) (dir (rooted bs)) = true ->
  mc_nodes m !! dump = Some nd -> nd_Kind nd = File s -> mc_nodes m !! rooted ks = Some d ->
  exists m', writeBackupArchive (rooted bs) dump (rooted ks) m = (inr tt, m') /\ mc_faults m' = [] /\
    exists x, mc_nodes m' = <[rooted bs := x]> (mc_nodes m).
Proof.
  intros Hs Hbs Hks Hc Hn Hp Hdump Hk Hd. unfold writeBackupArchive.
  set (ns1 := <[rooted bs := file mode_600 (instant (mc_tick m)) ""]> (mc_nodes m)). set (m1 := stepped m ns1).
  rewrite (fallible_step _ _ _ tt m1) by (apply call_calm; [done|]; by rewrite Hn, Hp).
  assert (Hc1 : mc_faults m1 = []) by (cbn; by rewrite Hc).
  assert (Hdump1 : ns1 !! dump = Some nd) by (unfold ns1; rewrite lookup_insert_ne; [done|]; intros <-; congruence).
  assert (Hd1 : ns1 !! rooted ks = Some d) by (unfold ns1; rewrite lookup_insert_ne; [done|]; intros E; congruence).
  rewrite (fallible_step _ _ _ _ _ (stat_calm "stat dump file" dump nd m1 Hc1 Hdump1)). set (m2 := stepped m1 (mc_nodes m1)).
  assert (Hc2 : mc_faults m2 = []) by (cbn; by rewrite Hc).
  rewrite (fallible_step _ _ _ _ _ (read_calm_file "open pg_dump output" dump nd s m2 Hc2 Hdump1 Hk)). set (m3 := stepped m2 (mc_nodes m2)).
  assert (Hc3 : mc_faults m3 = []) by (cbn; by rewrite Hc). set (m4 := stepped m3 (mc_nodes m3)).
  assert (Hc4 : mc_faults m4 = []) by (cbn; by rewrite Hc).
  destruct (walk_calm ks ns1 (sound_insert _ _ _ Hs Hbs) Hks (depth_of ns1) [] d m4) as (es & m5 & E5 & N5 & C5);
    [constructor|done|done|by rewrite app_nil_r|lia|]. rewrite app_nil_r in E5.
  rewrite (fallible_step _ _ m3 es m5).
  2:{ unfold WalkDir. rewrite (fallible_step _ _ _ _ _ (stat_calm "walk PKI tree" (rooted ks) d m3 Hc3 Hd1)). exact E5. }
  eexists. split; [apply call_calm; [done|]; rewrite N5; unfold ns1; rewrite lookup_insert_eq; reflexivity|].
  split; [cbn; by rewrite C5|]. cbn [stepped mc_nodes]. unfold ns1. eexists. by rewrite insert_insert_eq.
Qed.

Lemma caught_calm {A} (f : run A) m x m' : f m = (inr x, m') -> caught f m = (inr (inr x), m').
Proof. intros E. unfold caught. by rewrite E. Qed.

(** Everything a run needs. *)
Record ready (c : Config) (ps ks ts : list string) (m : Machine) : Prop := {
  re_calm : mc_faults m = [];
  re_tree : tree (mc_nodes m);
  re_storage : folder_at (mc_nodes m) (rooted ps) = true;
  re_pki : folder_at (mc_nodes m) (rooted ks) = true;
  re_temp : folder_at (mc_nodes m) (rooted ts) = true;
  re_url : Str.trim_space (cf_DatabaseURL c) <> "";
  re_free : mc_nodes m !! in_folder temp_dir ("arx-backup-staging-" +:+ staging_suffix (mc_tick m)) = None;
  re_dump : forall t, exists s, pg_dump (cf_PgDumpPath c) (cf_DatabaseURL c) t = (true, Some s);
  re_clock : forall t, 0 <= instant t < last_stamp;
  re_device : forall p q, device_of p = device_of q;
  re_names : forall x, backupArtifactNameRX x = true -> folder_at (mc_nodes m) (rooted (ps ++ [x])) = false
}.

Lemma folder_insert (ns : Nodes) p q x : ns !! p = None -> folder_at ns q = true -> folder_at (<[p := x]> ns) q = true.
Proof.
  intros Hp Hq. unfold folder_at in *. rewrite lookup_insert_ne; [done|]. intros E. by rewrite <- E, Hp in Hq.
Qed.

Lemma no_folder_insert (ns : Nodes) p q x : p <> q -> folder_at ns q = false -> folder_at (<[p := x]> ns) q = false.
Proof. intros Hp Hq. unfold folder_at in *. by rewrite lookup_insert_ne. Qed.

Lemma dump_calm c out m : mc_faults m = [] -> mc_nodes m !! out = None ->
  (forall t, exists s, pg_dump (cf_PgDumpPath c) (cf_DatabaseURL c) t = (true, Some s)) ->
  exists m' nd s, execPgDump c out m = (inr tt, m') /\ mc_faults m' = [] /\ mc_nodes m' = <[out := nd]> (mc_nodes m) /\ nd_Kind nd = File s.
Proof.
  intros Hc Hn Hdump. unfold execPgDump. destruct (Hdump (mc_tick m)) as [s ->].
  set (nd := file mode_600 (instant (mc_tick m)) s). set (m1 := stepped m (<[out := nd]> (mc_nodes m))).
  rewrite (fallible_step _ _ m tt m1) by (by apply call_calm). assert (Hc1 : mc_faults m1 = []) by (cbn; by rewrite Hc).
  rewrite (fallible_step _ _ m1 tt m1) by done. rewrite (fallible_step _ _ m1 nd (stepped m1 (mc_nodes m1))).
  - exists (stepped m1 (mc_nodes m1)), nd, s. split_and!; [done|cbn; by rewrite Hc|done|done].
  - apply stat_calm; [done|]. apply lookup_insert_eq.
Qed.

Lemma prune_calm c ps now m : Forall (fun x => name x) ps -> cf_StorageDir c = rooted ps -> exists r m', PruneOlderThan c now m = (inr r, m').
Proof. intros Hps Hdir. destruct (prune_spec ps c now m Hps Hdir) as (n & e & m' & E & _). by exists (n, e), m'. Qed.

Lemma staged_calm c ps ks ws m : cf_StorageDir c = rooted ps -> cf_PKIRootAbs c = rooted ks ->
  Forall (fun x => name x) ps -> Forall (fun x => name x) ks -> Forall (fun x => name x) ws -> apart ps ws ->
  (forall x y, ps ++ [x] <> ws ++ [y]) -> mc_faults m = [] -> sound (mc_nodes m) ->
  folder_at (mc_nodes m) (rooted ps) = true -> folder_at (mc_nodes m) (rooted ks) = true -> folder_at (mc_nodes m) (rooted ws) = true ->
  (forall x, name x -> mc_nodes m !! rooted (ws ++ [x]) = None) ->
  (forall t, exists s, pg_dump (cf_PgDumpPath c) (cf_DatabaseURL c) t = (true, Some s)) ->
  (forall t, 0 <= instant t < last_stamp) -> (forall p q, device_of p = device_of q) ->
  (forall x, backupArtifactNameRX x = true -> folder_at (mc_nodes m) (rooted (ps ++ [x])) = false) ->
  exists nm m', backup_in c (rooted ws) m = (inr nm, m').
Proof.
  intros Hdir Hpki Hps Hks Hws Hap Hne Hc Hs Hsto Hpk Hwf Hnone Hdump Hclock Hdev Hnames.
  assert (HnD : name "database.dump") by done. assert (HnB : name "bundle.part") by done. unfold backup_in. rewrite !join_name by done.
  set (D := rooted (ws ++ ["database.dump"])). set (B := rooted (ws ++ ["bundle.part"])).
  assert (HDB : D <> B) by (intros E; apply rooted_snoc_inj in E as [_ E]; done).
  destruct (dump_calm c D m Hc (Hnone _ HnD) Hdump) as (m1 & nd & s & E1 & C1 & N1 & Hk). rewrite (fallible_step _ _ _ _ _ E1).
  assert (Hpk1 : folder_at (mc_nodes m1) (rooted ks) = true) by (rewrite N1; apply folder_insert; [by apply Hnone|done]).
  unfold folder_at in Hpk1. destruct (mc_nodes m1 !! rooted ks) as [fi|] eqn:Efi; [|done]. rewrite Hpki.
  rewrite (fallible_step _ _ _ _ _ (stat_calm "stat pki root" _ fi m1 C1 Efi)), Hpk1. cbn [negb]. set (m2 := stepped m1 (mc_nodes m1)).
  set (m3 := {| mc_nodes := mc_nodes m2; mc_faults := mc_faults m2; mc_tick := S (mc_tick m2) |}).
  rewrite (fallible_step _ _ m2 (instant (mc_tick m2)) m3) by done. pose proof (archive_named _ (Hclock (mc_tick m2))) as Hrx. rewrite Hrx. cbn [negb].
  set (x := archive_name _) in *. pose proof (archive_name_plain x Hrx) as Hx. rewrite Hdir, !join_name by done.
  assert (C3 : mc_faults m3 = []) by (cbn; by rewrite C1). assert (HB1 : mc_nodes m3 !! rooted (ws ++ ["bundle.part"]) = None).
  { cbn. rewrite N1, lookup_insert_ne by done. by apply Hnone. }
  destruct (archive_calm (ws ++ ["bundle.part"]) ks D nd s fi m3) as (m4 & E4 & C4 & y & N4); try done.
  { cbn. rewrite N1. by apply sound_insert; [|apply snoc_names]. }
  { by apply snoc_names. }
  { rewrite dir_rooted by (first [done|apply HnB]). cbn. rewrite N1. by apply folder_insert; [apply Hnone|]. }
  { cbn. rewrite N1. apply lookup_insert_eq. }
  rewrite (fallible_step _ _ _ _ _ E4). fold B in N4. cbn [m3 m2 stepped mc_nodes] in N4. rewrite N1 in N4.
  set (O := rooted (ps ++ [x])). set (m5 := stepped m4 (<[O := y]> (delete B (mc_nodes m4)))).
  rewrite (fallible_step _ _ m4 tt m5).
  2:{ apply call_calm; [done|]. rewrite N4, lookup_insert_eq, (Hdev B O), N.eqb_refl. unfold O. rewrite (dir_rooted ps x Hps (proj2 Hx)). cbn [negb orb].
      rewrite no_folder_insert; [|intros E; by apply rooted_inj in E; [destruct (Hne x "bundle.part")|apply snoc_names..]|].
      2:{ apply no_folder_insert; [|by apply Hnames]. intros E; by apply rooted_inj in E; [destruct (Hne x "database.dump")|apply snoc_names..]. }
      rewrite folder_insert; [done|rewrite lookup_insert_ne by done; by apply Hnone|by apply folder_insert; [apply Hnone|]]. }
  assert (C5 : mc_faults m5 = []) by (cbn; by rewrite C4).
  rewrite (fallible_step _ _ _ _ _ (stat_calm "published backup unreadable" O y m5 C5 (lookup_insert_eq _ _ _))).
  set (m6 := stepped m5 (mc_nodes m5)). set (m7 := {| mc_nodes := mc_nodes m6; mc_faults := mc_faults m6; mc_tick := S (mc_tick m6) |}).
  rewrite (fallible_step _ _ m6 (instant (mc_tick m6)) m7) by done.
  destruct (prune_calm c ps (instant (mc_tick m6)) m7 Hps Hdir) as (r & m8 & E8). rewrite (fallible_step _ _ _ _ _ E8). by do 2 eexists.
Qed.
(** C17: when no call fails, the database URL is not blank, the folders are there on one file system and the storage is not
    below the temporary folder, pg_dump writes a dump and the clock shows a year before 10000, a backup is made and its name is
    answered. *)
Theorem backup_made c ps ks ts m : cf_StorageDir c = rooted ps -> cf_PKIRootAbs c = rooted ks -> temp_dir = rooted ts ->
  Forall (fun x => name x) ps -> Forall (fun x => name x) ks -> Forall (fun x => name x) ts -> apart ps ts ->
  ready c ps ks ts m -> exists nm m', RunOnce c m = (inr nm, m').
Proof.
  intros Hdir Hpki Htemp Hps Hks Hts Hap [Hc [Hs Hfold] Hsto Hpk Htmp Hurl Hfree Hdump Hclock Hdev Hnames].
  unfold RunOnce. rewrite (proj2 (String.eqb_neq _ _) Hurl). set (w := "arx-backup-staging-" +:+ staging_suffix (mc_tick m)) in *.
  assert (Hw : name w) by apply staging_name. unfold in_folder in Hfree. rewrite Htemp, join_name in Hfree by done.
  set (ns1 := <[rooted (ts ++ [w]) := folder mode_700 (instant (mc_tick m))]> (mc_nodes m)). set (m1 := stepped m ns1).
  assert (Hws : Forall (fun x => name x) (ts ++ [w])) by (by apply snoc_names).
  rewrite (fallible_step _ _ m (rooted (ts ++ [w])) m1).
  2:{ replace (Z.to_nat 10000) with (S (Z.to_nat 9999)) by (vm_compute; done). cbn [mkdir_temp]. fold w. unfold in_folder.
      rewrite Htemp, join_name, Hfree by done. rewrite (fallible_step _ _ m tt m1); [done|]. apply call_calm; [done|].
      by rewrite Hfree, (dir_rooted ts w Hts (proj2 Hw)), Htmp. }
  assert (Hfresh : forall x, name x -> ns1 !! rooted ((ts ++ [w]) ++ [x]) = None).
  { intros x Hx. unfold ns1. rewrite lookup_insert_ne.
    - apply eq_None_not_Some. intros Hx'. apply Hfold in Hx'; [|done..]. unfold folder_at in Hx'. by rewrite Hfree in Hx'.
    - intros Eq. apply rooted_inj in Eq; [|done|by apply snoc_names]. apply (f_equal length) in Eq. rewrite !length_app in Eq. simpl in Eq. lia. }
  destruct (staged_calm c ps ks (ts ++ [w]) m1) as (nm & m2 & E2); try done.
  - by apply apart_below.
  - intros x y E. apply app_inj_tail in E as [E _]. by destruct (Hap [w]).
  - cbn. by rewrite Hc.
  - by apply sound_insert.
  - by apply folder_insert.
  - by apply folder_insert.
  - cbn. unfold ns1, folder_at. by rewrite lookup_insert_eq.
  - intros x Hx. apply no_folder_insert; [|by apply Hnames]. intros E. apply rooted_inj in E; [|done|by apply snoc_names, archive_name_plain].
    apply app_inj_tail in E as [E _]. destruct (Hap []). by rewrite app_nil_r.
  - rewrite caught_bind, E2, caught_bind. destruct (remove_all _ _ m2) as [r m3]. by exists nm, m3.
Qed.
End made.
