(* ===== verification/AppCatalog.v ===== *)
(** * The application catalog

    internal/api/{app_catalog,app_managed_config,agent_app_download}.go: the entries and their
    uploads, the installation of one on a device, the managed configurations, and the file a
    device fetches. *)

From S2P Require Import Prelude GoStd GoPath Float64 Json Ext World Auth UsersAdmin DeviceCommands CommandFlow Alerting Compliance.
From S2P Require Import Enrollment MdmDownlink Packages FileProxy Profiles AppFiles.

#[local] Open Scope string_scope.
#[local] Open Scope list_scope.

Definition maxAppCatalogJSON : Z := 64 * 1024.
Definition maxAppUploadBytes : Z := 512 * 1024 * 1024.
Definition maxManagedAppConfigJSONBody : Z := 64 * 1024.

Definition target_systems : list string := ["windows"; "linux"; "android"].
Definition device_app_statuses : list string := ["pending"; "installing"; "success"; "failed"].

Definition is_catalog (id : uuid) (a : AppCatalog) : bool := N.eqb (ac_id a) id.
Definition is_device_app (device app : uuid) (d : DeviceApp) : bool := N.eqb (da_device d) device && N.eqb (da_app d) app.
Definition is_config (app id : uuid) (c : AppConfig) : bool := N.eqb (cf_id c) id && N.eqb (cf_app c) app.

Definition normalizeTargetOS (s : string) : option string :=
  let s := Str.to_lower (Str.trim_space s) in if one_of s target_systems then Some s else None.

Definition assetOsMatchesTarget (deviceOS target : string) : bool :=
  let deviceOS := Str.to_lower (Str.trim_space deviceOS) in
  let target := Str.to_lower (Str.trim_space target) in
  one_of target target_systems && String.eqb deviceOS target.

Definition catalog_by_id (db : Tables) (id : uuid) : err + AppCatalog :=
  match List.find (is_catalog id) (t_catalog db) with Some a => inr a | None => inl ErrNoRows end.

(** What app_catalog's columns take. *)
Definition catalog_texts_ok (name version target location args : string) : bool :=
  one_of target target_systems && text_ok name && text_ok version && text_ok location && text_ok args.

Section routes.
Context `{JC : JsonCodec} `{JE : JsonErrors} `{UL : UuidLib} `{GF : GoFmt} `{PG : PgLib} `{JL : JwtLib} `{WD : Cwd}
        `{C2 : C2Dispatcher L}.
Context (origins : list string) (AppsRoot : string).

Definition parseAppCatalogUUIDParam (r : Request) : option uuid :=
  let raw := Str.trim_space (rq_path_id r) in if String.eqb raw "" then None else uuid_parse raw.

Definition parseDeviceAssignmentUUID (r : Request) : Response + uuid :=
  match uuid_parse (Str.trim_space (rq_path_id r)) with Some id => inr id | None => err_resp 400 "invalid device id" end.

Definition catalog_json (a : AppCatalog) : json :=
  JObj (jmap [("id", jstr (uuid_string (ac_id a))); ("name", jstr (ac_name a)); ("version", jstr (ac_version a));
              ("target_os", jstr (ac_target_os a)); ("file_path_or_url", jstr (ac_location a));
              ("install_args", jstr (ac_install_args a)); ("created_at", jstr (fmt_time (ac_created a)))]).

Definition newest_catalog (a b : AppCatalog) : bool := (ac_created b <? ac_created a)%Z.

Definition handleListCatalog (r : Request) : go L Response :=
  let? _ := require_method "GET" r in
  let? _ := RequireMinRole origins r RoleViewer in
  rows ← attempt (select (fun db _ => inr (sort_slice newest_catalog (t_catalog db))));
  mret match rows with
       | inl _ => writeTicketsError 500 "failed to list catalog"
       | inr rows => writeTicketsJSON 200 (JArr (map catalog_json rows))
       end.

(** ** Entries *)

Record createCatalogJSONRequest := {
  cc_Name : string; cc_Version : string; cc_TargetOS : string; cc_FilePathOrURL : string; cc_InstallArgs : string }.
Record patchCatalogRequest := {
  pc_Name : option string; pc_Version : option string; pc_TargetOS : option string; pc_FilePathOrURL : option string;
  pc_InstallArgs : option string }.

Definition decode_create_catalog (body : string) : option createCatalogJSONRequest :=
  m ← unmarshal_map body;
  n ← dec_string "" (field "name" m);
  v ← dec_string "" (field "version" m);
  t ← dec_string "" (field "target_os" m);
  f ← dec_string "" (field "file_path_or_url" m);
  a ← dec_string "" (field "install_args" m);
  Some {| cc_Name := Str.trim_space n; cc_Version := Str.trim_space v; cc_TargetOS := t;
          cc_FilePathOrURL := Str.trim_space f; cc_InstallArgs := Str.trim_space a |}.

Definition decode_patch_catalog (body : string) : option patchCatalogRequest :=
  m ← unmarshal_map body;
  n ← dec_opt_string None (field "name" m);
  v ← dec_opt_string None (field "version" m);
  t ← dec_opt_string None (field "target_os" m);
  f ← dec_opt_string None (field "file_path_or_url" m);
  a ← dec_opt_string None (field "install_args" m);
  Some {| pc_Name := n; pc_Version := v; pc_TargetOS := t; pc_FilePathOrURL := f; pc_InstallArgs := a |}.

Definition insert_catalog (name version target location args : string) : go L uuid :=
  insert_id (fun id db t =>
    if negb (catalog_texts_ok name version target location args) || existsb (is_catalog id) (t_catalog db) then inl bad_constraint else
    inr (id, with_catalog (t_catalog db ++
      [{| ac_id := id; ac_name := name; ac_version := version; ac_target_os := target; ac_location := location;
          ac_install_args := args; ac_created := t |}]) db)).

Definition handleCreateCatalogJSON (r : Request) : go L Response :=
  let? _ := require_method "POST" r in
  let? _ := RequireMinRole origins r RoleOperator in
  match read_body maxAppCatalogJSON r with
  | None => mret (writeTicketsError 400 "could not read request body")
  | Some body =>
  match decode_create_catalog body with
  | None => mret (writeTicketsError 400 "invalid JSON body")
  | Some req =>
      if String.eqb (cc_Name req) "" then mret (writeTicketsError 400 "name is required") else
      match normalizeTargetOS (cc_TargetOS req) with
      | None => mret (writeTicketsError 400 "invalid target_os")
      | Some tos =>
          if String.eqb (cc_FilePathOrURL req) "" then mret (writeTicketsError 400 "file_path_or_url is required") else
          if negb (looksLikeHTTPSURL (cc_FilePathOrURL req))
          then mret (writeTicketsError 400 "file_path_or_url must be https:// URL for metadata-only catalog entries") else
          id ← attempt (insert_catalog (cc_Name req) (cc_Version req) tos (cc_FilePathOrURL req) (cc_InstallArgs req));
          mret match id with
               | inl _ => writeTicketsError 500 "failed to create catalog row"
               | inr id => writeTicketsJSON 201 (JObj [("id", jstr (uuid_string id))])
               end
      end
  end end.

(** The form ParseMultipartForm makes of a body: its values, and the part named file with its
    size and what reading it gives before the end or an error. *)
Record FilePart := { fp_Filename : string; fp_Size : Z; fp_Data : string; fp_Error : bool }.
Record MultipartForm := { mf_value : string -> string; mf_file : option FilePart }.

Definition upload_name (id base : string) : string := "blobs/" +:+ id +:+ "_" +:+ base.

(** The file is written beside its place and moved there: [None] when it is there, or the answer. *)
Definition store_upload (absPath : string) (f : FilePart) (d : Disk) : option Response * Disk :=
  let '(ok, d) := os_mkdir_all (dir absPath) d in
  if negb ok then (Some (writeTicketsError 500 "failed to persist upload"), d) else
  let tmp := absPath +:+ ".partial" in
  let '(ok, d) := os_open_trunc tmp d in
  if negb ok then (Some (writeTicketsError 500 "failed to persist upload"), d) else
  let '(ok, d) := os_write tmp (fp_Data f) d in
  if negb ok || (fp_Error f && (Str.slen (fp_Data f) <? maxAppUploadBytes)%Z)
  then (Some (writeTicketsError 400 "failed to stream upload body"), (os_remove tmp d).2) else
  if (maxAppUploadBytes <=? Str.slen (fp_Data f))%Z
  then (Some (writeTicketsError 400 "file too large"), (os_remove tmp d).2) else
  let '(ok, d) := os_rename tmp absPath d in
  if negb ok then (Some (writeTicketsError 500 "finalize upload failed"), (os_remove tmp d).2) else (None, d).

Definition handleUploadCatalog (r : Request) (form : option MultipartForm) (d : Disk) : go L (Response * Disk) :=
  match require_method "POST" r with inl e => mret (e, d) | inr _ =>
  match RequireMinRole origins r RoleOperator with inl e => mret (e, d) | inr _ =>
  match form with
  | None => mret (writeTicketsError 400 "invalid multipart form", d)
  | Some form =>
      let name := Str.trim_space (mf_value form "name") in
      let version := Str.trim_space (mf_value form "version") in
      match normalizeTargetOS (mf_value form "target_os") with
      | None => mret (writeTicketsError 400 "invalid target_os", d)
      | Some tos =>
      let installArgs := Str.trim_space (mf_value form "install_args") in
      if String.eqb name "" then mret (writeTicketsError 400 "name is required", d) else
      match mf_file form with
      | None => mret (writeTicketsError 400 "file field is required", d)
      | Some f =>
          if (maxAppUploadBytes <? fp_Size f)%Z then mret (writeTicketsError 400 "file too large", d) else
          fileID ← NewString;
          let relName := upload_name fileID (sanitizeUploadBaseName (fp_Filename f)) in
          match safeAppsPath AppsRoot relName with
          | None => mret (writeTicketsError 500 "storage path error", d)
          | Some absPath =>
              let '(answer, d) := store_upload absPath f d in
              match answer with
              | Some answer => mret (answer, d)
              | None =>
                  id ← attempt (insert_catalog name version tos relName installArgs);
                  mret (match id with
                        | inl _ => writeTicketsError 500 "failed to persist catalog row"
                        | inr id => writeTicketsJSON 201 (JObj [("id", jstr (uuid_string id))])
                        end, d)
              end
          end
      end end
  end end end.

(** No row and another error of a lookup are told apart. *)
Definition lookup_failed (e : err) (missing : string) : Response :=
  if is_no_rows e then writeTicketsError 404 missing else writeTicketsError 500 "lookup failed".

Definition handleGetCatalog (r : Request) : go L Response :=
  let? _ := require_method "GET" r in
  let? _ := RequireMinRole origins r RoleViewer in
  match parseAppCatalogUUIDParam r with
  | None => mret (writeTicketsError 400 "invalid id")
  | Some id =>
      a ← attempt (select (fun db _ => catalog_by_id db id));
      mret match a with
           | inl e => lookup_failed e "catalog entry not found"
           | inr a => writeTicketsJSON 200 (catalog_json a)
           end
  end.

Definition set_catalog (name version target location args : string) (a : AppCatalog) : AppCatalog :=
  {| ac_id := ac_id a; ac_name := name; ac_version := version; ac_target_os := target; ac_location := location;
     ac_install_args := args; ac_created := ac_created a |}.

Definition update_catalog (id : uuid) (name version target location args : string) : go L () :=
  exec (fun db _ =>
    if existsb (is_catalog id) (t_catalog db) && negb (catalog_texts_ok name version target location args) then inl bad_constraint else
    inr ((), with_catalog (update_where (is_catalog id) (set_catalog name version target location args) (t_catalog db)) db)).

Definition trimmed (o : option string) (cur : string) : string :=
  match o with Some s => Str.trim_space s | None => cur end.

Definition handlePatchCatalog (r : Request) : go L Response :=
  let? _ := require_method "PATCH" r in
  let? _ := RequireMinRole origins r RoleOperator in
  match parseAppCatalogUUIDParam r with
  | None => mret (writeTicketsError 400 "invalid id")
  | Some id =>
  match read_body maxAppCatalogJSON r with
  | None => mret (writeTicketsError 400 "could not read request body")
  | Some body =>
  match decode_patch_catalog body with
  | None => mret (writeTicketsError 400 "invalid JSON body")
  | Some req =>
      cur ← attempt (select (fun db _ => catalog_by_id db id));
      match cur with
      | inl e => mret (lookup_failed e "catalog entry not found")
      | inr cur =>
          let name := trimmed (pc_Name req) (ac_name cur) in
          let ver := trimmed (pc_Version req) (ac_version cur) in
          let loc := trimmed (pc_FilePathOrURL req) (ac_location cur) in
          let args := trimmed (pc_InstallArgs req) (ac_install_args cur) in
          match (match pc_TargetOS req with Some t => normalizeTargetOS t | None => Some (ac_target_os cur) end) with
          | None => mret (writeTicketsError 400 "invalid target_os")
          | Some tos =>
              if (match pc_FilePathOrURL req with Some _ => true | None => false end) && negb (String.eqb loc "")
                 && negb (looksLikeHTTPSURL loc) && negb (looksLikeUploadedBlobPath loc)
              then mret (writeTicketsError 400 "file_path_or_url must remain a staged blobs/ path or an https:// URL") else
              if String.eqb name "" then mret (writeTicketsError 400 "name is required") else
              if String.eqb loc "" then mret (writeTicketsError 400 "file_path_or_url is required") else
              n ← attempt (update_catalog id name ver tos loc args);
              mret match n with inl _ => writeTicketsError 500 "update failed" | inr _ => status_ok end
          end
      end
  end end end.

(** The deployments and the configurations of an entry go with it. *)
Definition delete_catalog (id : uuid) : go L nat :=
  exec (fun db _ =>
    inr (count_where (is_catalog id) (t_catalog db),
         with_app_configs (delete_where (fun c => N.eqb (cf_app c) id) (t_app_configs db))
           (with_device_apps (delete_where (fun x => N.eqb (da_app x) id) (t_device_apps db))
             (with_catalog (delete_where (is_catalog id) (t_catalog db)) db)))).

(** The blob of a deleted entry; an error is only logged. *)
Definition unlink_blob (loc : string) (d : Disk) : Disk :=
  if looksLikeUploadedBlobPath loc then
    match safeAppsPath AppsRoot loc with Some p => (os_remove p d).2 | None => d end
  else d.

Definition handleDeleteCatalog (r : Request) (d : Disk) : go L (Response * Disk) :=
  match require_method "DELETE" r with inl e => mret (e, d) | inr _ =>
  match RequireMinRole origins r RoleOperator with inl e => mret (e, d) | inr _ =>
  match parseAppCatalogUUIDParam r with
  | None => mret (writeTicketsError 400 "invalid id", d)
  | Some id =>
      a ← attempt (select (fun db _ => catalog_by_id db id));
      match a with
      | inl e => mret (lookup_failed e "catalog entry not found", d)
      | inr a =>
          n ← attempt (delete_catalog id);
          mret match n with
               | inl _ => (writeTicketsError 500 "delete failed", d)
               | inr O => (writeTicketsError 404 "catalog entry not found", d)
               | inr _ => (writeTicketsJSON 204 JNull, unlink_blob (ac_location a) d)
               end
      end
  end end end.

(** ** Installations *)

Definition device_app_json (x : DeviceApp * AppCatalog) : json :=
  let '(d, a) := x in
  JObj (jmap ([("device_id", jstr (uuid_string (da_device d))); ("app_id", jstr (uuid_string (da_app d)));
               ("app_name", jstr (ac_name a)); ("app_version", jstr (ac_version a)); ("target_os", jstr (ac_target_os a));
               ("status", jstr (da_status d))]
    ++ match da_error d with Some e => [("error_message", jstr e)] | None => [] end
    ++ [("last_updated", jstr (fmt_time (da_updated d)))])).

Definition latest_device_app (x y : DeviceApp * AppCatalog) : bool := (da_updated y.1 <? da_updated x.1)%Z.

Definition device_apps_of (db : Tables) (device : uuid) : list (DeviceApp * AppCatalog) :=
  sort_slice latest_device_app
    (flat_map (fun d => if N.eqb (da_device d) device
                        then map (fun a => (d, a)) (List.filter (is_catalog (da_app d)) (t_catalog db)) else []) (t_device_apps db)).

Definition handleListDeviceApps (r : Request) : go L Response :=
  let? _ := require_method "GET" r in
  let? _ := RequireMinRole origins r RoleViewer in
  let? device := parseDeviceAssignmentUUID r in
  e ← attempt (select (fun db _ => inr (asset_exists db device)));
  match e with
  | inl _ => mret (writeTicketsError 500 "lookup failed")
  | inr false => mret (writeTicketsError 404 "device not found")
  | inr true =>
      rows ← attempt (select (fun db _ => inr (device_apps_of db device)));
      mret match rows with
           | inl _ => writeTicketsError 500 "list failed"
           | inr rows => writeTicketsJSON 200 (JArr (map device_app_json rows))
           end
  end.

Definition decode_assign_app (body : string) : option string :=
  m ← unmarshal_map body; a ← dec_string "" (field "app_id" m); Some (Str.trim_space a).

(** INSERT ... 'pending' ON CONFLICT DO UPDATE *)
Definition upsert_device_app (device app : uuid) : go L () :=
  exec (fun db t =>
    if negb (asset_exists db device && existsb (is_catalog app) (t_catalog db)) then inl bad_constraint else
    inr ((), with_device_apps
      (if existsb (is_device_app device app) (t_device_apps db)
       then update_where (is_device_app device app) (set_device_app "pending" None t) (t_device_apps db)
       else t_device_apps db ++
            [{| da_device := device; da_app := app; da_status := "pending"; da_updated := t; da_error := None |}]) db)).

Definition fail_device_app (device app : uuid) (msg : string) : go L () :=
  exec (fun db t =>
    if existsb (is_device_app device app) (t_device_apps db) && negb (text_ok msg) then inl bad_text else
    inr ((), with_device_apps (update_where (is_device_app device app) (set_device_app "failed" (Some msg) t) (t_device_apps db)) db)).

(** The message is left as it is. *)
Definition mark_installing (device app : uuid) : go L () :=
  exec (fun db t =>
    inr ((), with_device_apps (update_where (is_device_app device app)
      (fun x => set_device_app "installing" (da_error x) t x) (t_device_apps db)) db)).

Definition install_message (app : uuid) (artifactPath args target : string) : json :=
  JObj (jmap [("action", jstr "install_app"); ("app_id", jstr (uuid_string app)); ("artifact_path", jstr artifactPath);
              ("install_args", jstr args); ("target_os_hint", jstr (Str.to_lower (Str.trim_space target)))]).

(** Where the agent gets the file. *)
Definition artifact_path (app : uuid) (location : string) : option string :=
  let location := Str.trim_space location in
  if looksLikeHTTPSURL location then Some location
  else if looksLikeUploadedBlobPath location then Some ("/v1/agent/app-artifacts/" +:+ uuid_string app)
  else None.

Definition dispatch_outcome (e : option string) : Response :=
  match e with
  | Some em => writeTicketsJSON 200 (JObj (jmap [("status", jstr "queued"); ("dispatch_error", jstr em); ("dispatch_succeeded", JBool false)]))
  | None => writeTicketsJSON 201 (JObj (jmap [("status", jstr "dispatched"); ("dispatch_succeeded", JBool true); ("dispatch_error", JNull)]))
  end.

Definition install_on (device : uuid) (a : Asset) (app : AppCatalog) : go L Response :=
  n ← attempt (upsert_device_app device (ac_id app));
  match n with
  | inl _ => mret (writeTicketsError 500 "failed to schedule deployment")
  | inr _ =>
      match artifact_path (ac_id app) (ac_location app) with
      | None => mret (writeTicketsError 400 "catalog entry missing staged blob or HTTPS URL")
      | Some path =>
          sent ← attempt (DispatchJSONByHumanID (a_human_id a) (install_message (ac_id app) path (ac_install_args app) (ac_target_os app)));
          match sent with
          | inl e => _ ← attempt (fail_device_app device (ac_id app) (err_text e)); mret (dispatch_outcome (Some (err_text e)))
          | inr _ => _ ← attempt (mark_installing device (ac_id app)); mret (dispatch_outcome None)
          end
      end
  end.

Definition blank (s : string) : bool := String.eqb (Str.trim_space s) "".

Definition handleAssignApp (r : Request) : go L Response :=
  let? _ := require_method "POST" r in
  let? _ := RequireMinRole origins r RoleOperator in
  let? device := parseDeviceAssignmentUUID r in
  match read_body maxAppCatalogJSON r with
  | None => mret (writeTicketsError 400 "could not read request body")
  | Some body =>
  match decode_assign_app body with
  | None => mret (writeTicketsError 400 "invalid JSON body")
  | Some raw =>
  match uuid_parse raw with
  | None => mret (writeTicketsError 400 "invalid app_id")
  | Some appID =>
      a ← attempt (select (fun db _ => match List.find (fun a => N.eqb (a_id a) device) (t_assets db) with
                                       | Some a => inr a | None => inl ErrNoRows end));
      match a with
      | inl e => mret (lookup_failed e "device not found")
      | inr a =>
          if blank (a_human_id a) then mret (writeTicketsError 400 "device has no human_id") else
          if blank (default "" (a_cert_serial a))
          then mret (writeTicketsError 400 "device is not enrolled with a certificate serial") else
          app ← attempt (select (fun db _ => catalog_by_id db appID));
          match app with
          | inl e => mret (lookup_failed e "catalog entry not found")
          | inr app =>
              if negb (assetOsMatchesTarget (a_os_type a) (ac_target_os app))
              then mret (writeTicketsError 400 "device os_type does not match catalog target_os") else
              install_on device a app
          end
      end
  end end end.

(** ** agent_app_download.go *)

Definition waiting (d : DeviceApp) : bool := one_of (da_status d) ["pending"; "installing"].

(** The stored path of an application that is to be installed on a device of the serial. *)
Definition authorized_location (db : Tables) (app : uuid) (serial : string) : err + string :=
  match List.find (is_catalog app) (t_catalog db) with
  | Some a => if existsb (fun d => N.eqb (da_app d) app && of_serial db serial (da_device d) && waiting d) (t_device_apps db)
              then inr (ac_location a) else inl ErrNoRows
  | None => inl ErrNoRows
  end.

Definition handleArtifact (MTLSRequired : bool) (r : Request) (d : Disk) : go L ((Response + string) * Disk) :=
  match require_method "GET" r with inl e => mret (inl e, d) | inr _ =>
  match (if MTLSRequired then rq_tls r else NoTLS) with
  | TLSClient serial =>
      match uuid_parse (Str.trim_space (rq_path_id r)) with
      | None => mret (err_resp 400 "invalid app id", d)
      | Some appID =>
          if String.eqb serial "" then mret (err_resp 400 "client certificate serial invalid", d) else
          row ← attempt (select (fun db _ => authorized_location db appID serial));
          match row with
          | inl _ => mret (err_resp 404 "artifact not authorized or unavailable", d)
          | inr location =>
              if looksLikeHTTPSURL location
              then mret (err_resp 404 "this catalog entry references an external url; configure direct download metadata on the endpoint", d) else
              match safeAppsPath AppsRoot location with
              | None => mret (err_resp 500 "storage path rejected", d)
              | Some p =>
                  let '(o, d) := os_open p d in
                  mret (match o with
                        | NoFile => err_resp 404 "file not found"
                        | Directory => err_resp 404 "artifact missing"
                        | Content s => inr s
                        end, d)
              end
          end
      end
  | _ => mret (err_resp 403 "mutual tls is required", d)
  end end.

(** ** app_managed_config.go *)

Definition parseCatalogUUIDParamCatalog (key raw : string) : string + uuid :=
  let raw := Str.trim_space raw in
  if String.eqb raw "" then inl ("missing " +:+ key) else
  match uuid_parse raw with Some id => inr id | None => inl (json_error "uuid.UUID" raw) end.

Record createManagedConfigRequest := { mc_Package : string; mc_Label : string; mc_ConfigKV : option json }.
Record patchManagedConfigRequest := { mp_Package : option string; mp_Label : option string; mp_ConfigKV : option json }.

Definition decode_create_managed (body : string) : option createManagedConfigRequest :=
  m ← unmarshal_map body;
  p ← dec_string "" (field "managed_package_name" m);
  l ← dec_string "" (field "managed_app_label" m);
  Some {| mc_Package := Str.trim_space p; mc_Label := Str.trim_space l; mc_ConfigKV := raw_member "config_kv" m |}.

Definition decode_patch_managed (body : string) : option patchManagedConfigRequest :=
  m ← unmarshal_map body;
  p ← dec_opt_string None (field "managed_package_name" m);
  l ← dec_opt_string None (field "managed_app_label" m);
  Some {| mp_Package := p; mp_Label := l; mp_ConfigKV := raw_member "config_kv" m |}.

Definition app_config_json (c : AppConfig) : json :=
  JObj (jmap [("id", jstr (uuid_string (cf_id c))); ("catalog_app_id", jstr (uuid_string (cf_app c)));
              ("managed_package_name", jstr (cf_package c)); ("managed_app_label", jstr (cf_label c));
              ("config_kv", cf_kv c); ("created_at", jstr (fmt_time (cf_created c)))]).

Definition config_name_order (a b : AppConfig) : bool := pg_text_lt (pg_lower (cf_package a)) (pg_lower (cf_package b)).

Definition managed_handleList (r : Request) : go L Response :=
  let? _ := require_method "GET" r in
  let? _ := RequireMinRole origins r RoleViewer in
  match parseCatalogUUIDParamCatalog "catalogId" (rq_path_id r) with
  | inl e => mret (writeTicketsError 400 e)
  | inr cat =>
      rows ← attempt (select (fun db _ => inr (take 250 (sort_slice config_name_order
               (List.filter (fun c => N.eqb (cf_app c) cat) (t_app_configs db))))));
      mret match rows with
           | inl _ => writeTicketsError 500 "failed to list configs"
           | inr rows => writeTicketsJSON 200 (JArr (map app_config_json rows))
           end
  end.

(** The unique pair, and the texts the columns take. *)
Definition same_package (app : uuid) (package : string) (c : AppConfig) : bool :=
  N.eqb (cf_app c) app && String.eqb (cf_package c) package.

Definition package_ok (package : string) : bool := text_ok package && negb (String.eqb (pg_trim package) "").

Definition insert_config (app : uuid) (package label : string) (kv : json) : go L uuid :=
  insert_id (fun id db t =>
    if negb (package_ok package && text_ok label) || json_has_nul kv then inl bad_text else
    if existsb (fun c => N.eqb (cf_id c) id || same_package app package c) (t_app_configs db)
       || negb (existsb (is_catalog app) (t_catalog db)) then inl bad_constraint else
    inr (id, with_app_configs (t_app_configs db ++
      [{| cf_id := id; cf_app := app; cf_package := package; cf_label := label; cf_kv := kv; cf_created := t |}]) db)).

Definition managed_handleCreate (r : Request) : go L Response :=
  let? _ := require_method "POST" r in
  let? _ := RequireMinRole origins r RoleOperator in
  match parseCatalogUUIDParamCatalog "catalogId" (rq_path_id r) with
  | inl e => mret (writeTicketsError 400 e)
  | inr cat =>
  match read_body maxManagedAppConfigJSONBody r with
  | None => mret (writeTicketsError 400 "unable to read body")
  | Some body =>
  match decode_create_managed body with
  | None => mret (writeTicketsError 400 "invalid JSON body")
  | Some req =>
      if String.eqb (mc_Package req) "" || (512 <? Str.rune_count (mc_Package req))%Z
      then mret (writeTicketsError 400 "managed_package_name is required") else
      e ← attempt (select (fun db _ => catalog_by_id db cat));
      match e with
      | inl _ => mret (writeTicketsError 404 "catalog entry missing")
      | inr _ =>
          id ← attempt (insert_config cat (mc_Package req) (mc_Label req) (default (JObj []) (mc_ConfigKV req)));
          mret match id with
               | inl _ => writeTicketsError 409 "package mapping already registered for this catalog app"
               | inr id => writeTicketsJSON 201 (JObj [("id", jstr (uuid_string id))])
               end
      end
  end end end.

Definition set_package (p : string) (c : AppConfig) : AppConfig :=
  {| cf_id := cf_id c; cf_app := cf_app c; cf_package := p; cf_label := cf_label c; cf_kv := cf_kv c; cf_created := cf_created c |}.
Definition set_label (l : string) (c : AppConfig) : AppConfig :=
  {| cf_id := cf_id c; cf_app := cf_app c; cf_package := cf_package c; cf_label := l; cf_kv := cf_kv c; cf_created := cf_created c |}.
Definition set_kv (v : json) (c : AppConfig) : AppConfig :=
  {| cf_id := cf_id c; cf_app := cf_app c; cf_package := cf_package c; cf_label := cf_label c; cf_kv := v; cf_created := cf_created c |}.

(** UPDATE app_configurations SET one column; the rows affected. *)
Definition update_config (app id : uuid) (refused : Tables -> bool) (f : AppConfig -> AppConfig) : go L nat :=
  exec (fun db _ =>
    if existsb (is_config app id) (t_app_configs db) && refused db then inl bad_constraint else
    inr (count_where (is_config app id) (t_app_configs db),
         with_app_configs (update_where (is_config app id) f (t_app_configs db)) db)).

Definition package_refused (app id : uuid) (package : string) (db : Tables) : bool :=
  negb (package_ok package)
  || existsb (fun c => same_package app package c && negb (is_config app id c)) (t_app_configs db).

(** One column of the patch, when it is given. *)
Definition patch_config (given : option (go L nat)) (failed : Response) (k : go L Response) : go L Response :=
  match given with
  | None => k
  | Some m =>
      n ← attempt m;
      match n with
      | inl _ => mret failed
      | inr O => mret (writeTicketsError 404 "configuration missing")
      | inr _ => k
      end
  end.

Definition managed_handlePatch (r : Request) : go L Response :=
  let? _ := require_method "PATCH" r in
  let? _ := RequireMinRole origins r RoleOperator in
  match parseCatalogUUIDParamCatalog "catalogId" (rq_path_id r) with
  | inl e => mret (writeTicketsError 400 e)
  | inr cat =>
  match given_uuid (rq_path_id2 r) with
  | None => mret (writeTicketsError 400 "missing configuration id")
  | Some id =>
  match read_body maxManagedAppConfigJSONBody r with
  | None => mret (writeTicketsError 400 "unable to read body")
  | Some body =>
  match decode_patch_managed body with
  | None => mret (writeTicketsError 400 "invalid JSON body")
  | Some patch =>
      if match mp_Package patch with Some p => blank p | None => false end
      then mret (writeTicketsError 400 "managed_package_name invalid") else
      patch_config (option_map (fun p => update_config cat id (package_refused cat id (Str.trim_space p)) (set_package (Str.trim_space p))) (mp_Package patch))
        (writeTicketsError 500 "failed to rename configuration")
      (patch_config (option_map (fun l => update_config cat id (fun _ => negb (text_ok (Str.trim_space l))) (set_label (Str.trim_space l))) (mp_Label patch))
        (writeTicketsError 404 "configuration missing")
      (patch_config (option_map (fun v => update_config cat id (fun _ => json_has_nul v) (set_kv v)) (mp_ConfigKV patch))
        (writeTicketsError 404 "configuration missing")
        (mret status_ok)))
  end end end end.

Definition delete_config (app id : uuid) : go L nat :=
  exec (fun db _ => inr (count_where (is_config app id) (t_app_configs db),
    with_app_configs (delete_where (is_config app id) (t_app_configs db)) db)).

Definition managed_handleDelete (r : Request) : go L Response :=
  let? _ := require_method "DELETE" r in
  let? _ := RequireMinRole origins r RoleOperator in
  match parseCatalogUUIDParamCatalog "catalogId" (rq_path_id r) with
  | inl e => mret (writeTicketsError 400 e)
  | inr cat =>
  match given_uuid (rq_path_id2 r) with
  | None => mret (writeTicketsError 400 "missing configuration id")
  | Some id => n ← attempt (delete_config cat id); mret (deleted n "failed to delete configuration" "configuration missing")
  end end.
End routes.
