(* ===== verification/AppCatalogFacts.v ===== *)
(** * The application catalog: its tables, its files, and an installation

    Properties of [AppCatalog], some together with the agent that installs ([AgentCommands]). *)

From S2P Require Import Prelude GoStd GoPath Float64 Json Ext JsonFacts World PolicyMerge Auth AuthFacts UsersAdmin DeviceCommands.
From S2P Require Import CommandFlow Alerting Compliance Enrollment MdmDownlink Packages FileProxy Profiles ProfilesFacts.
From S2P Require Import AppFiles AppPaths AppCatalog.

#[local] Open Scope string_scope.
#[local] Open Scope list_scope.

(** ** The tables *)

(** An entry names a program of a known system and says where it is. *)
Definition catalog_ok (a : AppCatalog) : Prop :=
  one_of (ac_target_os a) target_systems = true /\ ac_name a <> "" /\
  (looksLikeHTTPSURL (ac_location a) || looksLikeUploadedBlobPath (ac_location a)) = true.

(** The rows it refers to are there, and a failure says why. *)
Definition device_app_ok (db : Tables) (d : DeviceApp) : Prop :=
  asset_exists db (da_device d) = true /\ existsb (is_catalog (da_app d)) (t_catalog db) = true /\
  one_of (da_status d) device_app_statuses = true /\ (da_status d = "failed" -> is_Some (da_error d)).

Definition config_ok (db : Tables) (c : AppConfig) : Prop :=
  existsb (is_catalog (cf_app c)) (t_catalog db) = true /\ package_ok (cf_package c) = true.

Definition device_app_key (d : DeviceApp) : uuid * uuid := (da_device d, da_app d).
Definition config_key (c : AppConfig) : uuid * string := (cf_app c, cf_package c).

Record app_tables_ok (db : Tables) : Prop := {
  ok_catalog : forall a, In a (t_catalog db) -> catalog_ok a;
  ok_catalog_ids : NoDup (ac_id <$> t_catalog db);
  ok_device_apps : forall d, In d (t_device_apps db) -> device_app_ok db d;
  ok_device_app_keys : NoDup (device_app_key <$> t_device_apps db);
  ok_configs : forall c, In c (t_app_configs db) -> config_ok db c;
  ok_config_ids : NoDup (cf_id <$> t_app_configs db);
  ok_config_keys : NoDup (config_key <$> t_app_configs db)
}.

Lemma normalized s t : normalizeTargetOS s = Some t -> one_of t target_systems = true.
Proof. unfold normalizeTargetOS. destruct (one_of _ _) eqn:E; [|done]. by intros [= <-]. Qed.

Section writers.
Context `{JC : JsonCodec} `{JE : JsonErrors} `{UL : UuidLib} `{GF : GoFmt} `{PG : PgLib} `{JL : JwtLib} `{EV : Environ}
        `{CSR : CsrLib} `{NL : NetLib} `{WD : Cwd} `{C2 : C2Dispatcher L}.
Notation kept := (db_steps (L := L) (keeps app_tables_ok)).

(** Entries and configurations come and go; what refers to entries that stay is fine. *)
Lemma insert_catalog_kept name version target location args :
  one_of target target_systems = true -> name <> "" -> (looksLikeHTTPSURL location || looksLikeUploadedBlobPath location) = true ->
  kept (insert_catalog name version target location args).
Proof.
  intros Ht Hn Hl. apply steps_insert_id; [typeclasses eauto|]. intros id db t x db'. destruct (negb _ || _) eqn:E; [done|].
  apply orb_false_iff in E as [_ Ei]. intros [= _ <-] [H1 H2 H3 H4 H5 H6 H7]. split; try done; simpl.
  - intros a [Hin|[<-|[]]]%in_app_or; [by apply H1|]. by split_and!.
  - apply NoDup_snoc; [done|]. intros a Ha Ea. apply not_true_iff_false in Ei. apply Ei, existsb_exists. exists a.
    split; [done|]. by apply N.eqb_eq.
  - intros d (Ha & Hc & Hs)%H3. split_and!; [done|by apply existsb_app_l|apply Hs..].
  - intros c (Hc & Hp)%H5. split; [by apply existsb_app_l|done].
Qed.

Lemma update_catalog_kept id name version target location args :
  one_of target target_systems = true -> name <> "" -> (looksLikeHTTPSURL location || looksLikeUploadedBlobPath location) = true ->
  kept (update_catalog id name version target location args).
Proof.
  intros Ht Hn Hl. apply steps_exec; [typeclasses eauto|]. intros db t x db'. destruct (existsb _ _ && _); [done|].
  assert (Hids : forall k p f l, (forall a, ac_id (f a) = ac_id a) ->
    existsb (is_catalog k) (update_where p f l) = existsb (is_catalog k) l).
  { intros k p f l Hf. apply existsb_update. intros a. unfold is_catalog. by rewrite Hf. }
  intros [= _ <-] [H1 H2 H3 H4 H5 H6 H7]. split; try done; simpl.
  - intros a (b & Hb & ->)%update_where_In. destruct (is_catalog id b); [by split_and!|by apply H1].
  - by rewrite fmap_update.
  - intros d (Ha & Hc & Hs)%H3. split_and!; [done|by simpl; rewrite Hids|apply Hs..].
  - intros c (Hc & Hp)%H5. split; [by simpl; rewrite Hids|done].
Qed.

Lemma delete_catalog_kept id : kept (delete_catalog id).
Proof.
  apply steps_exec; [typeclasses eauto|]. intros db t x db' [= _ <-] [H1 H2 H3 H4 H5 H6 H7].
  assert (Hleft : forall k, existsb (is_catalog k) (t_catalog db) = true -> negb (N.eqb k id) = true ->
    existsb (is_catalog k) (delete_where (is_catalog id) (t_catalog db)) = true).
  { intros k Hk Hne. apply existsb_delete; [done|]. intros a Ha. unfold is_catalog in *. apply N.eqb_eq in Ha as ->.
    by apply negb_true_iff in Hne. }
  split; simpl.
  - intros a [Ha _]%filter_In. by apply H1.
  - by apply NoDup_delete.
  - intros d [Hd Hne]%filter_In. apply H3 in Hd as (Ha & Hc & Hs). split_and!; [done|by apply Hleft|apply Hs..].
  - by apply NoDup_delete.
  - intros c [Hc Hne]%filter_In. apply H5 in Hc as (Hc & Hp). split; [by apply Hleft|done].
  - by apply NoDup_delete.
  - by apply NoDup_delete.
Qed.

(** A status and its message are replaced. *)
Lemma set_statuses p f db : (forall d, device_app_key (f d) = device_app_key d) ->
  (forall d, one_of (da_status (f d)) device_app_statuses = true /\ (da_status (f d) = "failed" -> is_Some (da_error (f d)))) ->
  keeps app_tables_ok db (with_device_apps (update_where p f (t_device_apps db)) db).
Proof.
  intros Hk Hf [H1 H2 H3 H4 H5 H6 H7]. split; try done; simpl.
  - intros d (e & He & ->)%update_where_In. destruct (p e); [|by apply H3]. apply H3 in He as (Ha & Hc & _).
    specialize (Hk e). injection Hk as Ed Ea. destruct (Hf e). unfold device_app_ok. rewrite Ed, Ea. by split_and!.
  - by rewrite fmap_update.
Qed.

Lemma upsert_device_app_kept device app : kept (upsert_device_app device app).
Proof.
  apply steps_exec; [typeclasses eauto|]. intros db t x db'. destruct (asset_exists db device && _) eqn:R; cbn [negb]; [|done].
  destruct (existsb (is_device_app device app) _) eqn:E; intros [= _ <-]; [by apply set_statuses|].
  apply andb_true_iff in R as [Ra Rc]. intros [H1 H2 H3 H4 H5 H6 H7]. split; try done; simpl.
  - intros d [Hin|[<-|[]]]%in_app_or; [by apply H3|]. by split_and!.
  - apply NoDup_snoc; [done|]. intros d Hd [= Ed Ea]. apply not_true_iff_false in E. apply E, existsb_exists. exists d.
    split; [done|]. unfold is_device_app. by rewrite Ed, Ea, !N.eqb_refl.
Qed.

Lemma fail_device_app_kept device app msg : kept (fail_device_app device app msg).
Proof.
  apply steps_exec; [typeclasses eauto|]. intros db t x db'. destruct (existsb _ _ && _); [done|]. intros [= _ <-].
  by apply set_statuses.
Qed.

Lemma mark_installing_kept device app : kept (mark_installing device app).
Proof. apply steps_exec; [typeclasses eauto|]. intros db t x db' [= _ <-]. by apply set_statuses. Qed.

Lemma update_device_app_kept app serial probe : kept (update_device_app app serial (install_outcome probe)).
Proof.
  apply steps_exec; [typeclasses eauto|]. intros db t x db'. destruct (negb _); [done|]. intros [= _ <-].
  apply set_statuses; [done|]. intros d. unfold install_outcome. by destruct (ia_OK probe).
Qed.

Lemma insert_config_kept app package label kv : kept (insert_config app package label kv).
Proof.
  apply steps_insert_id; [typeclasses eauto|]. intros id db t x db'. destruct (negb _ || _) eqn:E; [done|].
  apply orb_false_iff in E as [[Hp _]%negb_false_iff%andb_true_iff _].
  destruct (existsb _ (t_app_configs db) || _) eqn:R; [done|]. apply orb_false_iff in R as [Rs Rc%negb_false_iff].
  assert (Hno : forall c, In c (t_app_configs db) -> cf_id c <> id /\ same_package app package c = false).
  { intros c Hc. apply not_true_iff_false in Rs. destruct (N.eqb (cf_id c) id || same_package app package c) eqn:Ec.
    - exfalso. apply Rs, existsb_exists. by exists c.
    - apply orb_false_iff in Ec as [Hi%N.eqb_neq Hs]. done. }
  intros [= _ <-] [H1 H2 H3 H4 H5 H6 H7]. split; try done; simpl.
  - intros c [Hin|[<-|[]]]%in_app_or; [by apply H5|]. by split.
  - apply NoDup_snoc; [done|]. intros c Hc Ec. destruct (Hno c Hc) as [Hi _]. by apply Hi.
  - apply NoDup_snoc; [done|]. intros c Hc [= Ea Ep]. destruct (Hno c Hc) as [_ Hs]. unfold same_package in Hs.
    by rewrite Ea, Ep, N.eqb_refl, String.eqb_refl in Hs.
Qed.

(** A column of a configuration that is no key changes. *)
Lemma update_config_kept app id refused f : (forall c, cf_id (f c) = cf_id c /\ config_key (f c) = config_key c) -> kept (update_config app id refused f).
Proof.
  intros Hf. apply steps_exec; [typeclasses eauto|]. intros db t x db'. destruct (existsb _ _ && _); [done|].
  intros [= _ <-] [H1 H2 H3 H4 H5 H6 H7]. split; try done; simpl.
  - intros c (e & He & ->)%update_where_In. destruct (is_config app id e); [|by apply H5]. apply H5 in He.
    destruct (Hf e) as [_ E]. injection E as Ea Ep. unfold config_ok. by rewrite Ea, Ep.
  - rewrite fmap_update; [done|]. intros c. apply Hf.
  - rewrite fmap_update; [done|]. intros c. apply Hf.
Qed.

Lemma delete_config_kept app id : kept (delete_config app id).
Proof.
  apply steps_exec; [typeclasses eauto|]. intros db t x db' [= _ <-] [H1 H2 H3 H4 H5 H6 H7]. split; try done; simpl.
  - intros c [Hc _]%filter_In. by apply H5.
  - by apply NoDup_delete.
  - by apply NoDup_delete.
Qed.
End writers.

Section more_writers.
Context `{JC : JsonCodec} `{JE : JsonErrors} `{UL : UuidLib} `{GF : GoFmt} `{PG : PgLib} `{JL : JwtLib} `{EV : Environ}
        `{CSR : CsrLib} `{NL : NetLib} `{WD : Cwd} `{C2 : C2Dispatcher L}.
Notation kept := (db_steps (L := L) (keeps app_tables_ok)).

Lemma rename_config_kept app id p : kept (update_config app id (package_refused app id p) (set_package p)).
Proof.
  apply steps_exec; [typeclasses eauto|]. intros db t x db'. destruct (existsb (is_config app id) _ && _) eqn:E; [done|].
  intros [= _ <-] [H1 H2 H3 H4 H5 H6 H7].
  assert (Hr : forall c, In c (t_app_configs db) -> is_config app id c = true -> package_refused app id p db = false).
  { intros c Hc Ec. apply andb_false_iff in E as [E|E]; [|done]. exfalso. apply not_true_iff_false in E. apply E, existsb_exists.
    by exists c. }
  assert (Happ : forall c, is_config app id c = true -> cf_app c = app /\ cf_id c = id).
  { intros c [Hi%N.eqb_eq Ha%N.eqb_eq]%andb_true_iff. done. }
  split; try done; simpl.
  - intros c (e & He & ->)%update_where_In. destruct (is_config app id e) eqn:Ec; [|by apply H5].
    destruct (H5 e He) as [Hc _]. split; [done|]. simpl. by apply Hr, orb_false_iff in Ec as [?%negb_false_iff _].
  - by rewrite fmap_update.
  - destruct (existsb (is_config app id) (t_app_configs db)) eqn:Ex.
    + apply existsb_exists in Ex as (c0 & Hc0 & Ec0). apply Hr in Ec0; [|done]. apply orb_false_iff in Ec0 as [_ Ho].
      apply NoDup_rekey with (k := (app, p)); [done| |].
      * intros c d Hc Hd [_ Ec]%Happ [_ Ed]%Happ. apply (NoDup_unique cf_id (t_app_configs db)); [done..|congruence].
      * intros c Hc. destruct (is_config app id c) eqn:Ec; [apply Happ in Ec as [<- _]; done|].
        intros [= Ea Ep]. apply not_true_iff_false in Ho. apply Ho, existsb_exists. exists c. split; [done|].
        rewrite Ec. unfold same_package. by rewrite Ea, Ep, N.eqb_refl, String.eqb_refl.
    + rewrite update_where_none; [done|]. intros c Hc. apply not_true_iff_false. intros Ec.
      apply not_true_iff_false in Ex. apply Ex, existsb_exists. eauto.
Qed.

Lemma patch_config_kept given failed k : (forall m, given = Some m -> kept m) -> kept k -> kept (patch_config given failed k).
Proof. intros Hm Hk. unfold patch_config. destruct given as [m|]; [|done]. specialize (Hm m eq_refl). db_walk. Qed.

Lemma managed_patch_kept origins r : kept (managed_handlePatch origins r).
Proof.
  unfold managed_handlePatch. destruct (require_method "PATCH" r); [db_walk|]. destruct (RequireMinRole _ _ _); [db_walk|].
  destruct (parseCatalogUUIDParamCatalog _ _) as [|cat]; [db_walk|]. destruct (given_uuid _) as [id|]; [|db_walk].
  destruct (read_body _ _) as [body|]; [|db_walk]. destruct (decode_patch_managed body) as [patch|]; [|db_walk].
  destruct (match mp_Package patch with Some p => blank p | None => false end); [db_walk|].
  repeat apply patch_config_kept; [..|db_walk]; intros m.
  - destruct (mp_Package patch); [|done]. intros [= <-]. apply rename_config_kept.
  - destruct (mp_Label patch); [|done]. intros [= <-]. by apply update_config_kept.
  - destruct (mp_ConfigKV patch); [|done]. intros [= <-]. by apply update_config_kept.
Qed.

Lemma install_on_kept device a app : kept (install_on device a app).
Proof.
  unfold install_on, DispatchJSONByHumanID. cbv zeta. pose proof (upsert_device_app_kept (L := L)).
  pose proof (fail_device_app_kept (L := L)). pose proof (mark_installing_kept (L := L)). db_walk.
Qed.

Lemma create_catalog_kept origins r : kept (handleCreateCatalogJSON origins r).
Proof.
  unfold handleCreateCatalogJSON. destruct (require_method "POST" r); [db_walk|]. destruct (RequireMinRole _ _ _); [db_walk|].
  destruct (read_body _ _) as [body|]; [|db_walk]. destruct (decode_create_catalog body) as [req|]; [|db_walk].
  destruct (String.eqb_spec (cc_Name req) "") as [|Hn]; [db_walk|]. destruct (normalizeTargetOS _) as [tos|] eqn:Et; [|db_walk].
  destruct (String.eqb _ _); [db_walk|]. destruct (looksLikeHTTPSURL _) eqn:El; cbn [negb]; [|db_walk].
  pose proof (insert_catalog_kept (L := L) (cc_Name req) (cc_Version req) tos (cc_FilePathOrURL req) (cc_InstallArgs req)
    (normalized _ _ Et) Hn ltac:(by rewrite El)). db_walk.
Qed.
End more_writers.

(** A row that was loaded is one of the invariant's. *)
Lemma keeps_loaded {L A B} (I : Tables -> Prop) (q : Tables -> Z -> err + A) (P : A -> Prop) (k : err + A -> go L B) :
  (forall db t x, I db -> q db t = inr x -> P x) ->
  (forall e, db_steps (keeps I) (k (inl e))) -> (forall x, P x -> db_steps (keeps I) (k (inr x))) ->
  db_steps (keeps I) (x ← attempt (select q); k x).
Proof.
  intros Hq He Hx w Hw. pose proof (steps_select (keeps I) q w Hw) as Hs.
  unfold mbind, go_bind, attempt in *. destruct (select q w) as [[e|x] w1] eqn:E; cbn [fst snd] in *; [by apply He|].
  apply Hx; [|done]. apply select_inr in E. exact (Hq _ _ _ Hw E).
Qed.

(** The path of an upload looks like one. *)
Lemma upload_name_blob id base : looksLikeUploadedBlobPath (upload_name id base) = true.
Proof.
  unfold looksLikeUploadedBlobPath, backslashes. change (replace_byte _ _ _) with ("blobs/" +:+ replace_byte "\" "/" (id +:+ "_" +:+ base)).
  destruct (trim_blobs (replace_byte "\" "/" (id +:+ "_" +:+ base))) as [r ->]. apply prefix_self.
Qed.

Lemma upload_name_no_url id base : looksLikeHTTPSURL (upload_name id base) = false.
Proof. unfold looksLikeHTTPSURL, upload_name. destruct (trim_blobs (id +:+ "_" +:+ base)) as [r ->]. done. Qed.

Section routes_keep.
Context `{JC : JsonCodec} `{JE : JsonErrors} `{UL : UuidLib} `{GF : GoFmt} `{PG : PgLib} `{JL : JwtLib} `{EV : Environ}
        `{CSR : CsrLib} `{NL : NetLib} `{WD : Cwd} `{C2 : C2Dispatcher L}.
Notation kept := (db_steps (L := L) (keeps app_tables_ok)).

Lemma patch_catalog_kept origins r : kept (handlePatchCatalog origins r).
Proof.
  unfold handlePatchCatalog. destruct (require_method "PATCH" r); [db_walk|]. destruct (RequireMinRole _ _ _); [db_walk|].
  destruct (parseAppCatalogUUIDParam r) as [id|]; [|db_walk]. destruct (read_body _ _) as [body|]; [|db_walk].
  destruct (decode_patch_catalog body) as [req|]; [|db_walk].
  apply (keeps_loaded app_tables_ok _ catalog_ok); [|intros e; db_walk|].
  { unfold catalog_by_id. intros db t x Hok. destruct (List.find _ _) as [a|] eqn:E; [|done]. intros [= <-].
    apply find_some in E as [Hin _]. by apply (ok_catalog db Hok). }
  intros cur (Ht & Hn & Hl). cbv zeta.
  destruct (match pc_TargetOS req with Some t => normalizeTargetOS t | None => _ end) as [tos|] eqn:Et; [|db_walk].
  destruct (_ && negb (looksLikeUploadedBlobPath _)) eqn:Eloc; [db_walk|].
  destruct (String.eqb_spec (trimmed (pc_Name req) (ac_name cur)) "") as [|En]; [db_walk|].
  destruct (String.eqb_spec (trimmed (pc_FilePathOrURL req) (ac_location cur)) "") as [|Enl]; [db_walk|].
  assert (Hok : one_of tos target_systems = true).
  { destruct (pc_TargetOS req); [by eapply normalized|by injection Et as <-]. }
  assert (Hloc : looksLikeHTTPSURL (trimmed (pc_FilePathOrURL req) (ac_location cur))
    || looksLikeUploadedBlobPath (trimmed (pc_FilePathOrURL req) (ac_location cur)) = true).
  { destruct (pc_FilePathOrURL req) as [s|]; [|done]. cbn [trimmed] in *.
    destruct (looksLikeHTTPSURL (Str.trim_space s)); [done|]. destruct (looksLikeUploadedBlobPath (Str.trim_space s)); [done|].
    discriminate Eloc. }
  pose proof (update_catalog_kept (L := L) id _ (trimmed (pc_Version req) (ac_version cur)) tos _
    (trimmed (pc_InstallArgs req) (ac_install_args cur)) Hok En Hloc). db_walk.
Qed.

Lemma new_string_kept : kept NewString.
Proof. by intros w. Qed.

Lemma upload_kept origins root r form d : kept (handleUploadCatalog origins root r form d).
Proof.
  unfold handleUploadCatalog. destruct (require_method "POST" r); [db_walk|]. destruct (RequireMinRole _ _ _); [db_walk|].
  destruct form as [form|]; [|db_walk]. cbv zeta. destruct (normalizeTargetOS _) as [tos|] eqn:Et; [|db_walk].
  destruct (String.eqb_spec (Str.trim_space (mf_value form "name")) "") as [|Hn]; [db_walk|].
  destruct (mf_file form) as [f|]; [|db_walk]. destruct (_ <? _)%Z; [db_walk|].
  apply steps_bind; [typeclasses eauto|apply new_string_kept|]. intros fileID.
  destruct (safeAppsPath _ _) as [path|]; [|db_walk]. destruct (store_upload path f d) as [[answer|] d']; [db_walk|].
  pose proof (insert_catalog_kept (L := L) _ (Str.trim_space (mf_value form "version")) tos
    (upload_name fileID (sanitizeUploadBaseName (fp_Filename f))) (Str.trim_space (mf_value form "install_args"))
    (normalized _ _ Et) Hn ltac:(by rewrite upload_name_blob, orb_true_r)). db_walk.
Qed.
End routes_keep.

(** Whatever operators do to the catalog, to managed configurations and to installations,
    whatever agents report of these, and whichever statement fails, the tables stay well formed:
    an entry has a name, a known system and a location that is a URL or an upload; an
    installation is of an entry that exists on a device that exists, its status is one of the
    four, and a failed one says why; a configuration is of an entry that exists; and there is
    at most one installation per device and entry, one configuration per entry and package. *)
Theorem app_tables_invariant `{JsonCodec} `{JsonErrors} `{UuidLib} `{GoFmt} `{PgLib} `{JwtLib} `{Cwd} `{C2Dispatcher L}
    origins root r form d serial data :
  let kept {A} (m : go L A) := db_steps (keeps app_tables_ok) m in
  kept (handleCreateCatalogJSON origins r) /\ kept (handleUploadCatalog origins root r form d) /\
  kept (handlePatchCatalog origins r) /\ kept (handleDeleteCatalog origins root r d) /\ kept (handleAssignApp origins r) /\
  kept (managed_handleCreate origins r) /\ kept (managed_handlePatch origins r) /\ kept (managed_handleDelete origins r) /\
  kept (ApplyInstallAppOutcome serial data).
Proof.
  cbv zeta. pose proof (delete_catalog_kept (L := L)). pose proof (insert_config_kept (L := L)).
  pose proof (delete_config_kept (L := L)). pose proof (update_device_app_kept (L := L)). pose proof (install_on_kept (L := L)).
  split_and!.
  - apply create_catalog_kept.
  - apply upload_kept.
  - apply patch_catalog_kept.
  - unfold handleDeleteCatalog. db_walk.
  - unfold handleAssignApp. db_walk.
  - unfold managed_handleCreate. db_walk.
  - apply managed_patch_kept.
  - unfold managed_handleDelete. db_walk.
  - unfold ApplyInstallAppOutcome. cbv zeta. db_walk.
Qed.
