(* ===== verification/Records.v ===== *)
(** * Custodians, documents and the summary

    internal/api/{device_assignments,knowledge,analytics}.go: the user a device is handed to,
    the documents of the knowledge base, and the numbers of the overview. *)


From S2P Require Import Prelude GoStd Float64 Json Ext World Auth Compliance AppCatalog JsonFacts AuthFacts UsersAdmin.
From S2P Require Import DeviceCommands CommandFacts AppCatalogFacts.

#[local] Open Scope string_scope.
#[local] Open Scope list_scope.
#[local] Open Scope Z_scope.

Definition maxAssignmentJSONBody : Z := 8 * 1024.
Definition maxDocumentJSONBody : Z := 512 * 1024.
Definition max_document_runes : Z := 512000.
Definition analyticsOnlineThresholdSeconds : Z := 300.

Definition is_user (id : uuid) (u : User) : bool := N.eqb (u_id u) id.
Definition is_owner_of (id : uuid) (o : DeviceOwner) : bool := N.eqb (do_asset o) id.
Definition is_document (id : uuid) (d : Document) : bool := N.eqb (kb_id d) id.

(** ** device_assignments.go *)

(** The row and the user it joins. *)
Record DeviceAssignmentWire := { dw_UserID : uuid; dw_Username : string; dw_AssignedAt : Z }.

Definition current_assignment (db : Tables) (device : uuid) : option DeviceAssignmentWire :=
  o ← List.find (is_owner_of device) (t_owners db);
  u ← List.find (is_user (do_user o)) (t_users db);
  Some {| dw_UserID := do_user o; dw_Username := u_username u; dw_AssignedAt := do_at o |}.

Section custodians.
Context `{JC : JsonCodec} `{UL : UuidLib} `{GF : GoFmt} `{JL : JwtLib} `{NL : NetLib} {L : Type}.
Context (origins : list string).

Definition assignment_wire_json (a : DeviceAssignmentWire) : json :=
  JObj (jmap [("user_id", jstr (uuid_string (dw_UserID a))); ("username", jstr (dw_Username a));
              ("assigned_at", jstr (fmt_time (dw_AssignedAt a)))]).

Definition assignment_answer (a : option DeviceAssignmentWire) : Response :=
  writeTicketsJSON 200 (JObj [("assignment", match a with Some a => assignment_wire_json a | None => JNull end)]).

Definition ensureAsset (id : uuid) : go L () :=
  there ← wrap "device lookup failed" (select (fun db _ => inr (existsb (is_asset id) (t_assets db))));
  if (there : bool) then mret () else fail ErrNoRows.

(** What a handler answers when the device is not there, or cannot be looked up. *)
Definition asset_or (msg : string) (e : err + ()) : Response + () :=
  match e with
  | inl e => if is_no_rows e then err_resp 404 "device not found" else err_resp 500 msg
  | inr _ => inr ()
  end.

Definition read_assignment (id : uuid) : go L DeviceAssignmentWire :=
  select (fun db _ => match current_assignment db id with Some a => inr a | None => inl ErrNoRows end).

Definition handleGetAssignment (r : Request) : go L Response :=
  let? _ := require_method "GET" r in
  let? _ := RequireMinRole origins r RoleViewer in
  let? id := parseDeviceAssignmentUUID r in
  found ← attempt (ensureAsset id);
  let? _ := asset_or "failed to load assignment" found in
  a ← attempt (read_assignment id);
  mret match a with
       | inr a => assignment_answer (Some a)
       | inl e => if is_no_rows e then assignment_answer None else writeTicketsError 500 "failed to load assignment"
       end.

Definition decode_custodian (body : string) : option string := m ← unmarshal_map body; dec_string "" (field "user_id" m).

(** INSERT ... ON CONFLICT (asset_id) DO UPDATE *)
Definition upsert_owner (device user : uuid) : go L () :=
  exec (fun db t =>
    if negb (existsb (is_asset device) (t_assets db) && existsb (is_user user) (t_users db))
    then inl (ErrMsg "violates foreign key constraint") else
    let row := {| do_asset := device; do_user := user; do_at := t |} in
    inr ((), with_owners (if existsb (is_owner_of device) (t_owners db)
                          then update_where (is_owner_of device) (fun _ => row) (t_owners db)
                          else t_owners db ++ [row]) db)).

Definition assign_tx (device user : uuid) : go L (Response + DeviceAssignmentWire) :=
  there ← select (fun db _ => inr (existsb (is_user user) (t_users db)));
  if negb there then mret (inl (writeTicketsError 400 "user_id not found")) else
  _ ← upsert_owner device user;
  a ← read_assignment device;
  mret (inr a).

Definition custodian_audit (r : Request) (p : Principal) (action : string) (device : uuid) (details : list (string * json)) : AuditRecord :=
  {| rec_UserID := p_UserID p; rec_Action := action; rec_ResourceType := "device"; rec_ResourceID := Some device;
     rec_TargetAssetID := Some device; rec_Details := details; rec_IPAddress := ClientIP r |}.

Definition handleAssign (r : Request) : go L Response :=
  let? _ := require_method "POST" r in
  let? p := RequireMinRole origins r RoleOperator in
  let? id := parseDeviceAssignmentUUID r in
  match read_body maxAssignmentJSONBody r with
  | None => mret (writeTicketsError 400 "could not read request body")
  | Some body =>
  match decode_custodian body with
  | None => mret (writeTicketsError 400 "invalid JSON body")
  | Some raw =>
      match uuid_parse (Str.trim_space raw) with
      | None => mret (writeTicketsError 400 "user_id must be a non-empty UUID")
      | Some user =>
          if N.eqb user uuid_nil then mret (writeTicketsError 400 "user_id must be a non-empty UUID") else
          found ← attempt (ensureAsset id);
          let? _ := asset_or "failed to assign device" found in
          res ← attempt (in_tx (assign_tx id user));
          match res with
          | inl _ => mret (writeTicketsError 500 "failed to assign device")
          | inr (inl resp) => mret resp
          | inr (inr a) =>
              _ ← attempt (InsertAuditRecord (custodian_audit r p "device_assigned" id
                    [("assigned_user_id", jstr (uuid_string (dw_UserID a))); ("assigned_username", jstr (dw_Username a))]));
              mret (assignment_answer (Some a))
          end
      end
  end end.

Definition delete_owner (device : uuid) : go L nat :=
  exec (fun db _ => inr (count_where (is_owner_of device) (t_owners db),
                         with_owners (delete_where (is_owner_of device) (t_owners db)) db)).

Definition handleUnassign (r : Request) : go L Response :=
  let? _ := require_method "POST" r in
  let? p := RequireMinRole origins r RoleOperator in
  let? id := parseDeviceAssignmentUUID r in
  found ← attempt (ensureAsset id);
  let? _ := asset_or "failed to unassign device" found in
  n ← attempt (delete_owner id);
  match n with
  | inl _ => mret (writeTicketsError 500 "failed to unassign device")
  | inr 0%nat =>
      mret (writeTicketsJSON 200 (JObj (jmap [("assignment", JNull); ("status", jstr "already_unassigned")])))
  | inr _ =>
      _ ← attempt (InsertAuditRecord (custodian_audit r p "device_unassigned" id []));
      mret (assignment_answer None)
  end.
End custodians.

(** ** knowledge.go *)

Record createDocumentRequest := { cd_Title : string; cd_ContentMarkdown : string }.
Record patchDocumentRequest := { pd_Title : option string; pd_ContentMarkdown : option string }.

Definition newest_document (a b : Document) : bool := kb_created b <? kb_created a.

Section documents.
Context `{JC : JsonCodec} `{UL : UuidLib} `{GF : GoFmt} `{JL : JwtLib} {L : Type}.
Context (origins : list string).

Definition document_wire (d : Document) : json :=
  JObj (jmap ([("id", jstr (uuid_string (kb_id d))); ("title", jstr (kb_title d)); ("content_markdown", jstr (kb_content d))]
    ++ opt_json "uploaded_by" (fun u => jstr (uuid_string u)) (kb_author d) ++ [("created_at", jstr (fmt_time (kb_created d)))])).

Definition parseDocUUID (r : Request) : option uuid :=
  let raw := Str.trim_space (rq_path_id r) in if String.eqb raw "" then None else uuid_parse raw.

Definition documents_handleList (r : Request) : go L Response :=
  let? _ := require_method "GET" r in
  let? _ := RequireMinRole origins r RoleViewer in
  rows ← attempt (select (fun db _ => inr (firstn (Z.to_nat 2000) (sort_slice newest_document (t_documents db)))));
  mret match rows with
       | inl _ => writeTicketsError 500 "failed to list documents"
       | inr rows => writeTicketsJSON 200 (JArr (map document_wire rows))
       end.

Definition decode_create_document (body : string) : option createDocumentRequest :=
  m ← unmarshal_map body;
  t ← dec_string "" (field "title" m);
  c ← dec_string "" (field "content_markdown" m);
  Some {| cd_Title := Str.trim_space t; cd_ContentMarkdown := c |}.

Definition decode_patch_document (body : string) : option patchDocumentRequest :=
  m ← unmarshal_map body;
  t ← dec_opt_string None (field "title" m);
  c ← dec_opt_string None (field "content_markdown" m);
  Some {| pd_Title := t; pd_ContentMarkdown := c |}.

Definition insert_document (title content : string) (author : uuid) : go L uuid :=
  insert_id (fun id db t =>
    if negb (text_ok title && text_ok content) then inl (ErrMsg "invalid byte sequence for encoding UTF8") else
    if negb (existsb (is_user author) (t_users db)) then inl (ErrMsg "violates foreign key constraint") else
    if existsb (is_document id) (t_documents db) then inl (ErrMsg "duplicate key value violates unique constraint") else
    inr (id, with_documents (t_documents db ++
      [{| kb_id := id; kb_title := title; kb_content := content; kb_author := Some author; kb_created := t |}]) db)).

Definition documents_handleCreate (r : Request) : go L Response :=
  let? _ := require_method "POST" r in
  let? p := RequireMinRole origins r RoleOperator in
  match read_body maxDocumentJSONBody r with
  | None => mret (writeTicketsError 400 "could not read request body")
  | Some body =>
  match decode_create_document body with
  | None => mret (writeTicketsError 400 "invalid JSON body")
  | Some req =>
      if String.eqb (cd_Title req) "" then mret (writeTicketsError 400 "title is required") else
      if max_document_runes <? Str.rune_count (cd_ContentMarkdown req)
      then mret (writeTicketsError 400 "content_markdown too large") else
      id ← attempt (insert_document (cd_Title req) (cd_ContentMarkdown req) (p_UserID p));
      mret match id with
           | inl _ => writeTicketsError 500 "failed to create document"
           | inr id => writeTicketsJSON 201 (JObj [("id", jstr (uuid_string id))])
           end
  end end.

Definition documents_handleGet (r : Request) : go L Response :=
  let? _ := require_method "GET" r in
  let? _ := RequireMinRole origins r RoleViewer in
  match parseDocUUID r with
  | None => mret (writeTicketsError 400 "invalid document id")
  | Some id =>
      d ← attempt (select (fun db _ =>
            match List.find (is_document id) (t_documents db) with Some d => inr d | None => inl ErrNoRows end));
      mret match d with
           | inr d => writeTicketsJSON 200 (document_wire d)
           | inl e => if is_no_rows e then writeTicketsError 404 "document not found"
                      else writeTicketsError 500 "failed to load document"
           end
  end.

Definition opt_or {A} (o : option A) (d : A) : A := match o with Some x => x | None => d end.

(** The columns an UPDATE with these parts sets. *)
Definition set_document (title content : option string) (d : Document) : Document :=
  {| kb_id := kb_id d; kb_title := opt_or title (kb_title d); kb_content := opt_or content (kb_content d);
     kb_author := kb_author d; kb_created := kb_created d |}.

Definition update_document (id : uuid) (title content : option string) : go L nat :=
  exec (fun db _ =>
    if negb (forallb text_ok (option_list title ++ option_list content))
    then inl (ErrMsg "invalid byte sequence for encoding UTF8") else
    inr (count_where (is_document id) (t_documents db),
         with_documents (update_where (is_document id) (set_document title content) (t_documents db)) db)).

Definition documents_handlePatch (r : Request) : go L Response :=
  let? _ := require_method "PATCH" r in
  let? _ := RequireMinRole origins r RoleOperator in
  match parseDocUUID r with
  | None => mret (writeTicketsError 400 "invalid document id")
  | Some id =>
  match read_body maxDocumentJSONBody r with
  | None => mret (writeTicketsError 400 "could not read request body")
  | Some body =>
  match decode_patch_document body with
  | None => mret (writeTicketsError 400 "invalid JSON body")
  | Some req =>
      match pd_Title req, pd_ContentMarkdown req with
      | None, None => mret (writeTicketsError 400 "no fields to update")
      | t, c =>
          let t := option_map Str.trim_space t in
          if match t with Some t => String.eqb t "" | None => false end
          then mret (writeTicketsError 400 "title cannot be empty") else
          if match c with Some c => max_document_runes <? Str.rune_count c | None => false end
          then mret (writeTicketsError 400 "content_markdown too large") else
          n ← attempt (update_document id t c);
          mret match n with
               | inl _ => writeTicketsError 500 "failed to update document"
               | inr 0%nat => writeTicketsError 404 "document not found"
               | inr _ => writeTicketsJSON 200 (JObj [("status", jstr "updated")])
               end
      end
  end end end.

Definition documents_handleDelete (r : Request) : go L Response :=
  let? _ := require_method "DELETE" r in
  let? _ := RequireMinRole origins r RoleOperator in
  match parseDocUUID r with
  | None => mret (writeTicketsError 400 "invalid document id")
  | Some id =>
      n ← attempt (exec (fun db _ => inr (count_where (is_document id) (t_documents db),
            with_documents (delete_where (is_document id) (t_documents db)) db)));
      mret match n with
           | inl _ => writeTicketsError 500 "failed to delete document"
           | inr 0%nat => writeTicketsError 404 "document not found"
           | inr _ => writeTicketsJSON 204 JNull
           end
  end.
End documents.

(** ** analytics.go *)

Section analytics.
Context `{UL : UuidLib} `{JL : JwtLib} {L : Type}.
Context (origins : list string).

Definition seen_within (t seconds : Z) (a : Asset) : bool :=
  match a_last_seen a with Some s => t - seconds * 1000000000 <=? s | None => false end.

Definition incident_unresolved (i : Incident) : bool := negb (existsb (String.eqb (in_state i)) ["resolved"; "closed"]).

(** SELECT os_type, COUNT( * ) ... GROUP BY os_type, into a map *)
Definition os_distribution (assets : list Asset) : gmap string Z :=
  fold_right (fun a m => <[a_os_type a := Z.of_nat (count_where (fun b => String.eqb (a_os_type b) (a_os_type a)) assets)]> m) ∅ assets.

Definition jint (n : Z) : json := JNum (F64.of_Z n).

Definition summary_json (total online unresolved : Z) (os : gmap string Z) : json :=
  JObj (jmap [
    ("online_threshold_seconds", jint analyticsOnlineThresholdSeconds);
    ("assets", JObj (jmap [("total", jint total); ("online", jint online);
                           ("offline", jint (if online <=? total then total - online else 0))]));
    ("os_distribution", JObj (jmap (map (fun kv => (Str.coerce_utf8 kv.1, jint kv.2)) (map_to_list os))));
    ("incidents", JObj [("unresolved", jint unresolved)])]).

Definition handleSummary (r : Request) : go L Response :=
  let? _ := require_method "GET" r in
  let? _ := RequireMinRole origins r RoleViewer in
  res ← attempt (
    counts ← select (fun db t => inr (Z.of_nat (length (t_assets db)),
               Z.of_nat (count_where (seen_within t analyticsOnlineThresholdSeconds) (t_assets db)),
               Z.of_nat (count_where incident_unresolved (t_incidents db))));
    os ← select (fun db _ => inr (os_distribution (t_assets db)));
    mret (counts, os));
  mret match res with
       | inl _ => writeTicketsError 500 "failed to load analytics"
       | inr ((total, online, open), os) => writeTicketsJSON 200 (summary_json total online open os)
       end.
End analytics.

(** ** The tables *)

Definition owner_ok (db : Tables) (o : DeviceOwner) : Prop :=
  existsb (is_asset (do_asset o)) (t_assets db) = true /\ existsb (is_user (do_user o)) (t_users db) = true.

Definition title_ok (s : string) : Prop := s <> "" /\ Str.trim_space s = s.

Definition document_ok (db : Tables) (d : Document) : Prop :=
  title_ok (kb_title d) /\ forall u, kb_author d = Some u -> existsb (is_user u) (t_users db) = true.

Record records_ok (db : Tables) : Prop := {
  ok_owners : forall o, In o (t_owners db) -> owner_ok db o;
  ok_owner_keys : NoDup (do_asset <$> t_owners db);
  ok_documents : forall d, In d (t_documents db) -> document_ok db d;
  ok_document_ids : NoDup (kb_id <$> t_documents db)
}.

Lemma trimmed_title s : Str.trim_space s <> "" -> title_ok (Str.trim_space s).
Proof. intros H. split; [done|apply Str.trim_space_idem]. Qed.

Section writers.
Context `{JC : JsonCodec} `{UL : UuidLib} `{GF : GoFmt} `{JL : JwtLib} `{NL : NetLib} `{PL : PasswordLib} {L : Type}.
Notation kept := (db_steps (L := L) (keeps records_ok)).

Lemma upsert_owner_kept device user : kept (upsert_owner device user).
Proof.
  apply steps_exec; [typeclasses eauto|]. intros db t x db'. destruct (_ && _) eqn:R; [|done]. apply andb_true_iff in R.
  cbn [negb]. cbv zeta. destruct (existsb (is_owner_of device) _) eqn:E; intros [= _ <-] [H1 H2 H3 H4]; split; try done; simpl.
  - intros o (y & Hy & ->)%update_where_In. destruct (is_owner_of device y); [done|by apply H1].
  - apply (NoDup_rekey do_asset _ _ device); [done| |].
    + intros y z Hy Hz Ey%N.eqb_eq Ez%N.eqb_eq. apply (NoDup_unique do_asset (t_owners db)); [done..|]. congruence.
    + intros y Hy. destruct (is_owner_of device y) eqn:Ey; [done|by apply N.eqb_neq].
  - intros o [Hin|[<-|[]]]%in_app_or; [by apply H1|done].
  - apply NoDup_snoc; [done|]. intros y Hy Ey. apply not_true_iff_false in E. apply E, existsb_exists. exists y.
    split; [done|]. by apply N.eqb_eq.
Qed.

Lemma delete_owner_kept device : kept (delete_owner device).
Proof.
  apply steps_exec; [typeclasses eauto|]. intros db t x db' [= _ <-] [H1 H2 H3 H4]. split; try done; simpl.
  - intros o [Ho _]%filter_In. by apply H1.
  - by apply NoDup_delete.
Qed.

Lemma insert_document_kept title content author : title_ok title -> kept (insert_document title content author).
Proof.
  intros Ht. apply steps_insert_id; [typeclasses eauto|]. intros id db t x db'. destruct (negb _); [done|].
  destruct (existsb (is_user author) _) eqn:Eu; [|done]. cbn [negb]. destruct (existsb (is_document id) _) eqn:Ei; [done|].
  intros [= _ <-] [H1 H2 H3 H4]. split; try done; simpl.
  - intros d [Hin|[<-|[]]]%in_app_or; [by apply H3|]. split; [done|]. by intros u [= <-].
  - apply NoDup_snoc; [done|]. intros d Hd Ed. apply not_true_iff_false in Ei. apply Ei, existsb_exists. exists d.
    split; [done|]. by apply N.eqb_eq.
Qed.

Lemma update_document_kept id title content : (forall t, title = Some t -> title_ok t) -> kept (update_document id title content).
Proof.
  intros Ht. apply steps_exec; [typeclasses eauto|]. intros db t x db'. destruct (negb _); [done|].
  intros [= _ <-] [H1 H2 H3 H4]. split; try done; simpl.
  - intros d (e & He & ->)%update_where_In. apply H3 in He. destruct (is_document id e); [|done]. destruct He as [Hti Ha].
    split; [|done]. cbn [set_document kb_title]. destruct title as [s|]; [by apply Ht|done].
  - by rewrite fmap_update.
Qed.

Lemma delete_document_kept id : kept (exec (fun db _ => inr (count_where (is_document id) (t_documents db),
  with_documents (delete_where (is_document id) (t_documents db)) db))).
Proof.
  apply steps_exec; [typeclasses eauto|]. intros db t x db' [= _ <-] [H1 H2 H3 H4]. split; try done; simpl.
  - intros d [Hd _]%filter_In. by apply H3.
  - by apply NoDup_delete.
Qed.

(** Deleting an account takes its devices back and leaves its documents without an author. *)
Lemma delete_user_kept id : kept (delete_user id).
Proof.
  apply steps_exec; [typeclasses eauto|]. intros db t x db' [= _ <-] [H1 H2 H3 H4].
  assert (Hleft : forall k, existsb (is_user k) (t_users db) = true -> k <> id ->
    existsb (is_user k) (delete_where (fun u => N.eqb (u_id u) id) (t_users db)) = true).
  { intros k Hk Hne. apply existsb_delete; [done|]. intros u Hu%N.eqb_eq. apply N.eqb_neq. congruence. }
  split; simpl.
  - intros o [Ho Hn%negb_true_iff%N.eqb_neq]%filter_In. apply H1 in Ho as [Ha Hu]. by split; [|apply Hleft].
  - by apply NoDup_delete.
  - intros d (e & <- & He)%in_map_iff. apply H3 in He as [Ht Ha]. split; [done|]. intros u. cbn [forget_document kb_author].
    unfold null_ref. destruct (kb_author e) as [v|]; [|done]. destruct (N.eqb_spec v id); [done|]. intros [= <-]. by apply Hleft; [apply Ha|].
  - rewrite <- list_fmap_compose. exact H4.
Qed.

Lemma audit_keeps_records rec : kept (InsertAuditRecord rec).
Proof.
  unfold InsertAuditRecord. destruct (String.eqb _ _); [db_walk|]. apply steps_insert_id; [typeclasses eauto|].
  intros id db t x db'. cbv zeta. destruct (_ || _); [done|]. destruct (negb _); [done|]. intros [= _ <-] H. by destruct H.
Qed.

Lemma assign_tx_kept device user : kept (assign_tx device user).
Proof. pose proof (upsert_owner_kept device user). unfold assign_tx, read_assignment. db_walk. Qed.

Lemma ensureAsset_kept id : kept (ensureAsset id).
Proof. unfold ensureAsset. db_walk. Qed.

(** ** The routes *)

Lemma assign_kept origins r : kept (handleAssign origins r).
Proof.
  pose proof assign_tx_kept. pose proof audit_keeps_records. pose proof ensureAsset_kept. unfold handleAssign. db_walk.
Qed.

Lemma unassign_kept origins r : kept (handleUnassign origins r).
Proof.
  pose proof delete_owner_kept. pose proof audit_keeps_records. pose proof ensureAsset_kept. unfold handleUnassign. db_walk.
Qed.

Lemma create_document_kept origins r : kept (documents_handleCreate origins r).
Proof.
  unfold documents_handleCreate. destruct (require_method "POST" r); [db_walk|]. destruct (RequireMinRole _ _ _); [db_walk|].
  destruct (read_body _ _) as [body|]; [|db_walk]. unfold decode_create_document.
  destruct (unmarshal_map body) as [m|]; [|db_walk]. cbn [mbind option_bind].
  destruct (dec_string "" (field "title" m)) as [t|]; [|db_walk]. cbn [mbind option_bind].
  destruct (dec_string "" (field "content_markdown" m)) as [c|]; [|db_walk]. cbn [mbind option_bind cd_Title cd_ContentMarkdown].
  destruct (String.eqb_spec (Str.trim_space t) "") as [|Hn]; [db_walk|]. destruct (_ <? _); [db_walk|].
  pose proof (fun a => insert_document_kept (Str.trim_space t) c a (trimmed_title _ Hn)). db_walk.
Qed.

Lemma patch_document_kept origins r : kept (documents_handlePatch origins r).
Proof.
  unfold documents_handlePatch. destruct (require_method "PATCH" r); [db_walk|]. destruct (RequireMinRole _ _ _); [db_walk|].
  destruct (parseDocUUID r) as [id|]; [|db_walk]. destruct (read_body _ _) as [body|]; [|db_walk].
  destruct (decode_patch_document body) as [[t c]|]; [|db_walk]. cbn [pd_Title pd_ContentMarkdown].
  assert (Hok : kept (if match option_map Str.trim_space t with Some t => String.eqb t "" | None => false end
      then mret (writeTicketsError 400 "title cannot be empty") else
      if match c with Some c => max_document_runes <? Str.rune_count c | None => false end
      then mret (writeTicketsError 400 "content_markdown too large") else
      n ← attempt (update_document id (option_map Str.trim_space t) c);
      mret match n with
           | inl _ => writeTicketsError 500 "failed to update document"
           | inr 0%nat => writeTicketsError 404 "document not found"
           | inr _ => writeTicketsJSON 200 (JObj [("status", jstr "updated")])
           end)).
  { destruct (match option_map Str.trim_space t with Some t => String.eqb t "" | None => false end) eqn:Et; [db_walk|].
    destruct (match c with Some c => _ | None => false end); [db_walk|].
    assert (kept (update_document id (option_map Str.trim_space t) c)); [|db_walk].
    apply update_document_kept. destruct t as [t|]; [|done]. intros s [= <-]. apply trimmed_title. by apply String.eqb_neq. }
  by destruct t, c; [exact Hok..|db_walk].
Qed.

Lemma delete_account_kept origins r : kept (UsersAdmin.handleDelete origins r).
Proof. pose proof delete_user_kept. unfold UsersAdmin.handleDelete, IsLastAdmin, CountAdmins. db_walk. Qed.
End writers.

(** A device that is handed over is handed to one user, who exists; a document has a title, and
    an author who exists or none: through every route on them and the deletion of accounts. *)
Theorem records_invariant `{JsonCodec} `{UuidLib} `{JwtLib} `{NetLib} `{GoFmt} `{PasswordLib} {L} origins r :
  let kept {A} (m : go L A) := db_steps (keeps records_ok) m in
  kept (handleAssign origins r) /\ kept (handleUnassign origins r) /\ kept (documents_handleCreate origins r) /\
  kept (documents_handlePatch origins r) /\ kept (documents_handleDelete origins r) /\ kept (UsersAdmin.handleDelete origins r).
Proof.
  cbv zeta. split_and!; [apply assign_kept|apply unassign_kept|apply create_document_kept|apply patch_document_kept| |apply delete_account_kept].
  pose proof (delete_document_kept (L := L)). unfold documents_handleDelete. db_walk.
Qed.

(** ** A custodian is read back *)

Section read_back.
Context `{JC : JsonCodec} `{UL : UuidLib} `{GF : GoFmt} `{JL : JwtLib} `{NL : NetLib} {L : Type}.
Context (origins : list string).
Implicit Types w : World L.

Lemma upserted_owner device user w x w' : upsert_owner device user w = (inr x, w') ->
  existsb (is_asset device) (t_assets (w_db w')) = true /\
  List.find (is_owner_of device) (t_owners (w_db w')) = Some {| do_asset := device; do_user := user; do_at := w_now w |}.
Proof.
  intros E%exec_inr. destruct (existsb (is_asset device) _ && _) eqn:Eok; [|done]. apply andb_true_iff in Eok as [Ea _].
  cbn [negb] in E. cbv zeta in E. injection E as _ <-. split; [done|]. cbn [t_owners with_owners].
  destruct (existsb (is_owner_of device) _) eqn:Ex.
  - apply existsb_exists in Ex as (o & Ho & Eo). unfold update_where. induction (t_owners (w_db w)) as [|y l IH]; [done|].
    cbn [map List.find]. destruct (is_owner_of device y) eqn:Ey; [by unfold is_owner_of; cbn; rewrite N.eqb_refl|].
    rewrite Ey. apply IH. destruct Ho as [->|Ho]; [congruence|done].
  - assert (Hn : List.find (is_owner_of device) (t_owners (w_db w)) = None).
    { destruct (List.find _ _) as [y|] eqn:Ey; [|done]. apply find_some in Ey as [Hy Ey]. apply not_true_iff_false in Ex.
      exfalso. apply Ex, existsb_exists. eauto. }
    rewrite find_snoc by done. unfold is_owner_of. cbn. by rewrite N.eqb_refl.
Qed.

Lemma audit_keeps_owners rec w : same (fun db => (t_owners db, t_users db, t_assets db)) (w_db w) (w_db (InsertAuditRecord (L := L) rec w).2).
Proof.
  revert w. change (db_steps (same (fun db => (t_owners db, t_users db, t_assets db))) (InsertAuditRecord (L := L) rec)).
  apply (InsertAuditRecord_steps (same (fun db => (t_owners db, t_users db, t_assets db)))). by intros.
Qed.

Lemma read_assignment_inv device w a w' : read_assignment device w = (inr a, w') ->
  w_db w' = w_db w /\ current_assignment (w_db w) device = Some a.
Proof.
  intros E. pose proof (steps_select eq (fun db (_ : Z) => match current_assignment db device with Some a => inr a | None => inl ErrNoRows end) w) as Hd.
  unfold read_assignment in E. rewrite E in Hd. apply select_inr in E. destruct (current_assignment _ _); [|done]. by injection E as ->.
Qed.

Lemma assign_tx_inv device user w a w' : in_tx (assign_tx device user) w = (inr (inr a), w') ->
  existsb (is_asset device) (t_assets (w_db w')) = true /\ current_assignment (w_db w') device = Some a /\ dw_UserID a = user.
Proof.
  intros (w0 & w1 & _ & _ & E & Edb)%in_tx_inv. unfold assign_tx in E. apply bind_inv in E as (there & w2 & _ & E).
  destruct (negb there); [done|]. apply bind_inv in E as (u & w3 & E3 & E). apply bind_inv in E as (b & w4 & E4 & E).
  injection E as -> <-. apply upserted_owner in E3 as [Ha Hf]. apply read_assignment_inv in E4 as [Ed Ec]. rewrite Edb, Ed.
  split; [done|]. split; [done|]. unfold current_assignment in Ec. rewrite Hf in Ec. cbn [mbind option_bind do_user do_at] in Ec.
  destruct (List.find (is_user user) _); [|done]. cbn [mbind option_bind] in Ec. by injection Ec as <-.
Qed.

Lemma assign_tx_refused device user w q w' : in_tx (assign_tx device user) w = (inr (inl q), w') -> rs_status q = 400.
Proof.
  intros E. assert (exists v v1, assign_tx (L := L) device user v = (inr (inl q), v1)) as (v & v1 & H).
  { unfold in_tx in E. destruct (stmt _ w) as [[e|[]] w0]; [done|].
    destruct (assign_tx device user w0) as [[e|[z|z]] w2] eqn:Eb; [done|injection E as -> _; eauto|]. by destruct (stmt _ w2) as [[]]. }
  unfold assign_tx in H. apply bind_inv in H as (there & v2 & _ & H). destruct (negb there); [by injection H as <- _|].
  apply bind_inv in H as (u & v3 & _ & H). by apply bind_inv in H as (b & v4 & _ & H).
Qed.

Lemma current_same db db' device : same (fun db => (t_owners db, t_users db, t_assets db)) db db' ->
  current_assignment db' device = current_assignment db device.
Proof. unfold same, current_assignment. by intros [= -> -> _]. Qed.

Lemma handle_assign_inv r w resp w1 : handleAssign origins r w = (inr resp, w1) -> rs_status resp = 200 ->
  exists device raw user a, parseDeviceAssignmentUUID r = inr device /\
    (body ← read_body maxAssignmentJSONBody r; decode_custodian body) = Some raw /\
    uuid_parse (Str.trim_space raw) = Some user /\ dw_UserID a = user /\
    existsb (is_asset device) (t_assets (w_db w1)) = true /\
    current_assignment (w_db w1) device = Some a /\ resp = assignment_answer (Some a).
Proof.
  unfold handleAssign. intros E Hs. destruct (require_method "POST" r) as [q|[]] eqn:Em.
  { injection E as <- _. unfold require_method in Em. destruct (String.eqb _ _); [done|]. by injection Em as <-. }
  destruct (RequireMinRole origins r RoleOperator) as [q|p] eqn:Er.
  { injection E as <- _. apply RequireMinRole_refused in Er. by destruct Er; congruence. }
  unfold parseDeviceAssignmentUUID in *. destruct (uuid_parse (Str.trim_space (rq_path_id r))) as [device|]; [|by injection E as <- _].
  destruct (read_body _ r) as [body|]; [|by injection E as <- _]. cbn [mbind option_bind].
  destruct (decode_custodian body) as [raw|]; [|by injection E as <- _].
  destruct (uuid_parse (Str.trim_space raw)) as [user|] eqn:Eu; [|by injection E as <- _].
  destruct (N.eqb user uuid_nil); [by injection E as <- _|].
  apply bind_inv in E as (found & w2 & _ & E). unfold asset_or in E.
  destruct found as [e|[]]; [destruct (is_no_rows e); by injection E as <- _|].
  apply bind_inv in E as (res & w3 & Hres%attempt_inv & E). destruct res as [e|[q|a]]; [by injection E as <- _| |].
  { injection E as <- <-. apply assign_tx_refused in Hres. congruence. }
  apply bind_inv in E as (x & w4 & Hx%attempt_inv & E). injection E as <- <-.
  apply assign_tx_inv in Hres as (Ha & Hc & Hu).
  pose proof (audit_keeps_owners (custodian_audit r p "device_assigned" device
    [("assigned_user_id", jstr (uuid_string (dw_UserID a))); ("assigned_username", jstr (dw_Username a))]) w3) as Hk.
  rewrite Hx in Hk. cbn [snd] in Hk. exists device, raw, user, a. split_and!; try done.
  - unfold same in Hk. injection Hk as _ _ Eassets. by rewrite <- Eassets.
  - by rewrite (current_same _ _ _ Hk).
Qed.
End read_back.

(** What a successful assignment answers is what the device's assignment is read as from then on:
    the user of the body, by name, since that moment. *)
Theorem custodian_read_back `{JsonCodec} `{UuidLib} `{JwtLib} `{NetLib} `{GoFmt} {L} origins r r2 (w : World L) resp w1 p :
  handleAssign origins r w = (inr resp, w1) -> rs_status resp = 200 ->
  rq_method r2 = "GET" -> RequireMinRole origins r2 RoleViewer = inr p -> rq_path_id r2 = rq_path_id r ->
  w_faults w1 = [] ->
  handleGetAssignment origins r2 w1 = (inr resp, w1) /\
  exists raw a, (body ← read_body maxAssignmentJSONBody r; decode_custodian body) = Some raw /\
    uuid_parse (Str.trim_space raw) = Some (dw_UserID a) /\ resp = assignment_answer (Some a).
Proof.
  intros E Hs Hm Hr Hid Hf. destruct (handle_assign_inv _ _ _ _ _ E Hs) as (device & raw & user & a & Hd & Hraw & Hu & <- & Ha & Hc & ->).
  split; [|by exists raw, a]. unfold handleGetAssignment, require_method. rewrite Hm, String.eqb_refl, Hr.
  unfold parseDeviceAssignmentUUID in *. rewrite Hid. destruct (uuid_parse _) as [d|]; [|done]. injection Hd as ->.
  unfold ensureAsset, read_assignment, wrap, mbind, go_bind, attempt. rewrite !select_ok by done. rewrite Ha. cbn [mret go_ret].
  cbn [asset_or]. rewrite select_ok by done. by rewrite Hc.
Qed.

(** ** The summary *)

Definition of_type (k : string) (a : Asset) : bool := String.eqb (a_os_type a) k.

Definition total_of (m : gmap string Z) : Z := map_fold (fun _ v acc => v + acc) 0 m.

Lemma total_insert (m : gmap string Z) k v : m !! k = None -> total_of (<[k := v]> m) = v + total_of m.
Proof. intros H. unfold total_of. rewrite map_fold_insert_L; [done|lia|done]. Qed.

Lemma count_where_split {A} (p q : A -> bool) l : (forall x, p x = true -> q x = false) ->
  count_where (fun x => p x || q x) l = (count_where p l + count_where q l)%nat.
Proof.
  intros H. unfold count_where. induction l as [|x l IH]; [done|]. cbn [List.filter]. pose proof (H x) as Hx.
  destruct (p x); cbn [orb]; [rewrite Hx by done; cbn [length]; lia|]. destruct (q x); cbn [length]; lia.
Qed.

(** Counting the devices of the systems seen so far. *)
Lemma distribution_counts assets l :
  let m := fold_right (fun a m => <[a_os_type a := Z.of_nat (count_where (of_type (a_os_type a)) assets)]> m) ∅ l in
  total_of m = Z.of_nat (count_where (fun a => existsb (fun b => of_type (a_os_type b) a) l) assets) /\
  forall k, m !! k = if existsb (of_type k) l then Some (Z.of_nat (count_where (of_type k) assets)) else None.
Proof.
  induction l as [|b l [IH1 IH2]]; cbv zeta in *; cbn [fold_right existsb].
  - split; [|done]. unfold total_of. rewrite map_fold_empty. by rewrite (proj2 (count_where_0 _ _)).
  - set (m := fold_right _ ∅ l) in *. split.
    + destruct (existsb (of_type (a_os_type b)) l) eqn:E.
      * rewrite fin_maps.insert_id by (by rewrite IH2, E). rewrite IH1. f_equal. unfold count_where. f_equal. apply List.filter_ext.
        intros a. destruct (of_type (a_os_type b) a) eqn:Eb; [|done]. cbn [orb]. apply existsb_exists in E as (c & Hc & Ec).
        apply existsb_exists. exists c. split; [done|]. unfold of_type in *. apply String.eqb_eq in Eb, Ec. apply String.eqb_eq. congruence.
      * rewrite total_insert by (by rewrite IH2, E). rewrite IH1, count_where_split, Nat2Z.inj_add; [done|].
        intros a Ha. apply not_true_iff_false. intros (c & Hc & Ec)%existsb_exists. apply not_true_iff_false in E. apply E, existsb_exists.
        exists c. split; [done|]. unfold of_type in *. apply String.eqb_eq in Ha, Ec. apply String.eqb_eq. congruence.
    + intros k. destruct (decide (a_os_type b = k)) as [<-|Hne].
      * rewrite lookup_insert_eq. replace (of_type (a_os_type b) b) with true by (symmetry; apply String.eqb_refl). done.
      * rewrite lookup_insert_ne by done. rewrite IH2.
        replace (of_type k b) with false by (symmetry; by apply String.eqb_neq). done.
Qed.

(** The numbers of the overview add up: every device is of exactly one system of the distribution,
    and is online or offline. *)
Theorem summary_adds_up (db : Tables) (t : Z) :
  let total := Z.of_nat (length (t_assets db)) in
  let online := Z.of_nat (count_where (seen_within t analyticsOnlineThresholdSeconds) (t_assets db)) in
  total_of (os_distribution (t_assets db)) = total /\ online <= total /\
  (forall k, os_distribution (t_assets db) !! k =
     if existsb (of_type k) (t_assets db) then Some (Z.of_nat (count_where (of_type k) (t_assets db))) else None).
Proof.
  cbv zeta. destruct (distribution_counts (t_assets db) (t_assets db)) as [H1 H2]. split_and!; [|unfold count_where; apply inj_le, List.filter_length_le|exact H2].
  unfold os_distribution. etransitivity; [exact H1|]. f_equal. unfold count_where. f_equal.
  apply forallb_filter_id, forallb_forall. intros a Ha. apply existsb_exists. exists a. split; [done|apply String.eqb_refl].
Qed.
