(* ===== verification/AppFlow.v ===== *)
(** * An application from its upload to its installation

    The disk below the applications' root, and the way of one application: uploaded, assigned,
    fetched by the agent, installed, and its outcome recorded. *)

From S2P Require Import Prelude GoStd GoPath Float64 Json Ext JsonFacts World PolicyMerge Auth AuthFacts UsersAdmin DeviceCommands.
From S2P Require Import CommandFlow Alerting Compliance Enrollment MdmDownlink Packages FileProxy Profiles ProfilesFacts.
From S2P Require Import AgentHost AgentCommands AgentFiles AgentHandlers AgentFacts TransferFacts AppFiles AppPaths AppCatalog AppCatalogFacts.

#[local] Open Scope string_scope.
#[local] Open Scope list_scope.
#[local] Opaque Str.coerce_utf8 Str.to_lower Str.trim_space.

(** ** Below the root *)

(** [p] is the root or is reached from it by going down. *)
Definition below (root p : string) : Prop :=
  exists ps ns, Forall (fun x => name x) ps /\ Forall (fun x => name x) ns /\ root = rooted ps /\ p = rooted (ps ++ ns).

(** What is not below the root is as it was; but a directory on the way to the root may have
    been made. *)
Definition only_below (root : string) (d d' : Disk) : Prop :=
  (forall p, dk_files d' !! p <> dk_files d !! p -> below root p) /\
  (forall p, is_dir d' p <> is_dir d p -> below root p \/ below p root /\ is_dir d' p = true).

Lemma only_below_refl root d : only_below root d d.
Proof. by split; intros p []. Qed.

(** ** Directories *)

Lemma mkdir_dirs p d q : is_dir (os_mkdir_all p d).2 q <> is_dir d q -> In q (dirs_to p) /\ is_dir (os_mkdir_all p d).2 q = true.
Proof.
  assert (H : forall e, dk_dirs e = dk_dirs d -> is_dir (with_dirs (dirs_to p ++ dk_dirs e) e) q <> is_dir d q ->
    In q (dirs_to p) /\ is_dir (with_dirs (dirs_to p ++ dk_dirs e) e) q = true).
  { intros e E. unfold is_dir. cbn [dk_dirs with_dirs]. rewrite E, existsb_app. destruct (String.eqb q "/"); [done|]. cbn [orb].
    destruct (existsb (String.eqb q) (dirs_to p)) eqn:Ex; [|done]. intros _. split; [|done].
    apply existsb_exists in Ex as (x & Hx & ->%String.eqb_eq). done. }
  unfold os_mkdir_all, disk_op, disk_fault. destruct (dk_faults d) as [|[] fs].
  - destruct (existsb _ _); [done|by apply H].
  - done.
  - destruct (existsb _ _); [done|by apply H].
Qed.

Lemma existsb_without p q l : q <> p -> existsb (String.eqb q) (List.filter (fun x => negb (String.eqb p x)) l) = existsb (String.eqb q) l.
Proof.
  intros Hq. induction l as [|x l IH]; [done|]. cbn [List.filter existsb].
  destruct (String.eqb_spec p x) as [<-|]; cbn [negb existsb]; rewrite IH; [|done]. by rewrite (proj2 (String.eqb_neq _ _) Hq).
Qed.

Lemma remove_dirs p d q : q <> p -> is_dir (os_remove p d).2 q = is_dir d q.
Proof.
  intros Hq. unfold os_remove, disk_op, disk_fault. destruct (dk_faults d) as [|[] fs]; [|done|];
    (destruct (has_file _ p); [done|]); (destruct (_ && _); [|done]);
    unfold is_dir; cbn [snd dk_dirs with_dirs]; by rewrite existsb_without.
Qed.

Lemma open_dirs p d : dk_dirs (os_open_trunc p d).2 = dk_dirs d.
Proof. unfold os_open_trunc, disk_op, disk_fault. destruct (dk_faults d) as [|[] fs]; [|done|]; by destruct (_ || _). Qed.

Lemma write_dirs p x d : dk_dirs (os_write p x d).2 = dk_dirs d.
Proof. unfold os_write, disk_fault. by destruct (dk_faults d) as [|[] fs]. Qed.

Lemma rename_dirs a b d : dk_dirs (os_rename a b d).2 = dk_dirs d.
Proof.
  unfold os_rename, disk_op, disk_fault. destruct (dk_faults d) as [|[] fs]; [|done|]; cbn [dk_files];
    (destruct (dk_files d !! a); [|done]); by destruct (is_dir _ b).
Qed.

Lemma is_dir_same d d' q : dk_dirs d' = dk_dirs d -> is_dir d' q = is_dir d q.
Proof. unfold is_dir. by intros ->. Qed.

(** The directories above a path are its prefixes. *)
Lemma ancestors_prefixes q ps l : In q (ancestors (above ps) l) -> exists l1 l2, l = l1 ++ l2 /\ q = rooted (ps ++ l1).
Proof.
  revert ps. induction l as [|x l IH]; intros ps; [done|]. cbn [ancestors].
  change (above ps +:+ "/" +:+ x) with (above ps +:+ String "/" x). rewrite <- rooted_snoc.
  intros [<-|Hq]; [by exists [x], l|].
  assert (E : rooted (ps ++ [x]) = above (ps ++ [x])) by (by destruct ps). rewrite E in Hq.
  apply IH in Hq as (l1 & l2 & -> & ->). exists (x :: l1), l2. by rewrite <- app_assoc.
Qed.

Lemma dirs_to_prefixes q l : Forall Path.no_slash l -> In q (dirs_to (rooted l)) -> exists l1 l2, l = l1 ++ l2 /\ q = rooted l1.
Proof.
  intros Hl. unfold dirs_to. rewrite split_rooted by done. cbn [tl]. destruct l as [|x l].
  - intros [<-|[]]. by exists [], [].
  - apply (ancestors_prefixes q []).
Qed.

(** A directory on the way to a place below the root is below the root or above it. *)
Lemma prefix_below ps ns q : Forall (fun x => name x) (ps ++ ns) -> In q (dirs_to (rooted (ps ++ ns))) ->
  below (rooted ps) q \/ below q (rooted ps).
Proof.
  intros Hn Hq. apply dirs_to_prefixes in Hq as (l1 & l2 & E & ->); [|by apply names_slash].
  pose proof (proj1 (Forall_app _ _ _) Hn) as [Hps Hns].
  assert (Hl : Forall (fun x => name x) l1) by (rewrite E in Hn; by apply Forall_app in Hn as [? _]).
  symmetry in E. apply app_eq_inv in E as [(k & -> & ->)|(k & -> & ->)].
  - left. exists ps, k. apply Forall_app in Hl as [_ Hk]. by split_and!.
  - right. exists l1, k. apply Forall_app in Hps as [_ Hk]. by split_and!.
Qed.

Lemma join_snoc l x y : Str.join "/" (l ++ [x]) +:+ y = Str.join "/" (l ++ [x +:+ y]).
Proof.
  induction l as [|z l IH]; [done|]. cbn [app]. destruct l as [|u l]; cbn [app Str.join] in *; [by rewrite !Str.append_assoc|].
  by rewrite <- IH, !Str.append_assoc.
Qed.

Lemma partial_name x : name x -> name (x +:+ ".partial").
Proof.
  intros [_ Hs]. split.
  - assert (Hl : (8 <= String.length (x +:+ ".partial"))%nat) by (rewrite Str.length_append; simpl; lia).
    split_and!; intros E; rewrite E in Hl; simpl in Hl; lia.
  - unfold Path.no_slash in *. by rewrite has_byte_append, Hs.
Qed.

(** The temporary file is beside its place. *)
Lemma partial_below root ps ns : Forall (fun x => name x) ps -> Forall (fun x => name x) ns -> ns <> [] -> root = rooted ps ->
  below root (rooted (ps ++ ns) +:+ ".partial").
Proof.
  intros Hps Hns Hn ->. destruct (exists_last Hn) as (l & x & ->). apply Forall_app in Hns as [Hl Hx].
  apply Forall_cons in Hx as [Hx _].
  exists ps, (l ++ [x +:+ ".partial"]). split_and!; [done| |done|].
  { apply Forall_app. split; [done|]. constructor; [by apply partial_name|constructor]. }
  pose proof (join_snoc (ps ++ l) x ".partial") as E. rewrite <- !app_assoc in E. unfold rooted. by rewrite Str.append_assoc, E.
Qed.

Lemma names_prefix x s : name x -> names_of (x +:+ String "/" s) = x :: names_of s.
Proof.
  intros [(Hn & Hd & _) Hs]. unfold names_of. rewrite Str.split_on_app by done. cbn [List.filter].
  by rewrite (proj2 (String.eqb_neq _ _) Hn), (proj2 (String.eqb_neq _ _) Hd).
Qed.

(** An upload lies below blobs. *)
Lemma blob_names s : looksLikeUploadedBlobPath s = true -> names_of (stored_path s) <> [].
Proof.
  unfold looksLikeUploadedBlobPath, stored_path. intros [r ->]%Path.prefix_inv.
  change (trim_slash ("blobs/" +:+ r)) with ("blobs" +:+ String "/" r). by rewrite names_prefix.
Qed.

Section disk.
Context `{WD : Cwd} `{!CwdLaws} (AppsRoot root : string) (Hroot : abs (Path.clean (Str.trim_space AppsRoot)) = inl root).

Lemma safe_below stored p : safeAppsPath AppsRoot stored = Some p -> below root p.
Proof.
  intros Hp. destruct (safeAppsPath_exact AppsRoot stored root Hroot) as (ps & Hps & -> & E). rewrite E in Hp.
  destruct (acceptable stored) eqn:Ea; [|done]. injection Hp as <-. unfold acceptable in Ea. apply negb_true_iff, orb_false_iff in Ea as [_ Hc].
  exists ps, (names_of (stored_path stored)). split_and!; try done. eapply Forall_impl; [by apply names_ok|]. by intros x [? _].
Qed.

Lemma safe_partial stored p : looksLikeUploadedBlobPath stored = true -> safeAppsPath AppsRoot stored = Some p ->
  below root (p +:+ ".partial").
Proof.
  intros Hb Hp. destruct (safeAppsPath_exact AppsRoot stored root Hroot) as (ps & Hps & Er & E). rewrite E in Hp.
  destruct (acceptable stored) eqn:Ea; [|done]. injection Hp as <-. unfold acceptable in Ea. apply negb_true_iff, orb_false_iff in Ea as [_ Hc].
  apply partial_below; [done| |by apply blob_names|done]. eapply Forall_impl; [by apply names_ok|]. by intros x [? _].
Qed.

(** The place of an upload: its elements, and those of its directory. *)
Lemma safe_place stored p : looksLikeUploadedBlobPath stored = true -> safeAppsPath AppsRoot stored = Some p ->
  exists ps ns, Forall (fun x => name x) (ps ++ ns) /\ root = rooted ps /\ dir p = rooted (ps ++ ns).
Proof.
  intros Hb Hp. destruct (safeAppsPath_exact AppsRoot stored root Hroot) as (ps & Hps & Er & E). rewrite E in Hp.
  destruct (acceptable stored) eqn:Ea; [|done]. injection Hp as <-. unfold acceptable in Ea. apply negb_true_iff, orb_false_iff in Ea as [_ Hc].
  destruct (exists_last (blob_names _ Hb)) as (ns & x & En). exists ps, ns.
  assert (Hn : Forall (fun x => name x) (ns ++ [x])).
  { rewrite <- En. eapply Forall_impl; [by apply names_ok|]. by intros y [? _]. }
  apply Forall_app in Hn as [Hns Hx]. apply Forall_cons in Hx as [[_ Hx] _].
  assert (Hall : Forall (fun x => name x) (ps ++ ns)) by (by apply Forall_app). split_and!; [done|done|].
  rewrite En, app_assoc. by apply dir_rooted.
Qed.

(** An upload touches its place and the file beside it. *)
Lemma store_files a f d p : p <> a -> p <> a +:+ ".partial" -> dk_files (store_upload a f d).2 !! p = dk_files d !! p.
Proof.
  intros Ha Hp. unfold store_upload. pose proof (mkdir_files (dir a) d) as E1. destruct (os_mkdir_all _ d) as [ok d1]. cbn in E1.
  destruct ok; cbn [negb]; [|by cbn; rewrite E1].
  pose proof (open_files (a +:+ ".partial") d1 p Hp) as E2. destruct (os_open_trunc _ d1) as [ok d2]. cbn in E2.
  destruct ok; cbn [negb]; [|by cbn; rewrite E2, E1].
  pose proof (write_files (a +:+ ".partial") (fp_Data f) d2 p Hp) as E3. destruct (os_write _ _ d2) as [ok d3]. cbn in E3.
  destruct (negb ok || _); [by cbn; rewrite remove_files, E3, E2, E1|].
  destruct (_ <=? _)%Z; [by cbn; rewrite remove_files, E3, E2, E1|].
  pose proof (rename_files (a +:+ ".partial") a d3 p Hp Ha) as E4. destruct (os_rename _ _ d3) as [ok2 d4]. cbn in E4.
  destruct ok2; cbn [negb]; cbn; [by rewrite E4, E3, E2, E1|by rewrite remove_files, E4, E3, E2, E1].
Qed.

Lemma store_dirs a f d q : q <> a +:+ ".partial" -> is_dir (store_upload a f d).2 q <> is_dir d q ->
  In q (dirs_to (dir a)) /\ is_dir (store_upload a f d).2 q = true.
Proof.
  intros Hq. unfold store_upload. pose proof (mkdir_dirs (dir a) d q) as E1. destruct (os_mkdir_all _ d) as [ok d1]. cbn [snd] in E1.
  destruct ok; cbn [negb]; [|exact E1].
  pose proof (open_dirs (a +:+ ".partial") d1) as E2. destruct (os_open_trunc _ d1) as [ok d2]. cbn [snd] in E2.
  apply (is_dir_same _ _ q) in E2. rewrite <- E2 in E1. destruct ok; cbn [negb]; [|exact E1].
  pose proof (write_dirs (a +:+ ".partial") (fp_Data f) d2) as E3. destruct (os_write _ _ d2) as [ok d3]. cbn [snd] in E3.
  apply (is_dir_same _ _ q) in E3. rewrite <- E3 in E1.
  destruct (negb ok || _); [cbn [snd]; by rewrite remove_dirs|]. destruct (_ <=? _)%Z; [cbn [snd]; by rewrite remove_dirs|].
  pose proof (rename_dirs (a +:+ ".partial") a d3) as E4. destruct (os_rename _ _ d3) as [ok2 d4]. cbn [snd] in E4.
  apply (is_dir_same _ _ q) in E4. rewrite <- E4 in E1. destruct ok2; cbn [negb snd]; [exact E1|by rewrite remove_dirs].
Qed.

(** What an upload changes lies below the root or leads to it. *)
Lemma store_below stored a f d : looksLikeUploadedBlobPath stored = true -> safeAppsPath AppsRoot stored = Some a ->
  only_below root d (store_upload a f d).2.
Proof.
  intros Hb Ha. split.
  - intros p Hp. destruct (decide (p = a)) as [->|Hne]; [by eapply safe_below|].
    destruct (decide (p = a +:+ ".partial")) as [->|Hne2]; [by eapply safe_partial|]. by rewrite store_files in Hp.
  - intros q Hq. destruct (decide (q = a +:+ ".partial")) as [->|Hne]; [left; by eapply safe_partial|].
    apply store_dirs in Hq as [Hin Hd]; [|done]. destruct (safe_place stored a Hb Ha) as (ps & ns & Hn & Er & Ed).
    rewrite Ed in Hin. rewrite Er. destruct (prefix_below ps ns q Hn Hin) as [|]; [by left|by right].
Qed.

Lemma unlink_below loc d : only_below root d (unlink_blob AppsRoot loc d).
Proof.
  unfold unlink_blob. destruct (looksLikeUploadedBlobPath loc); [|apply only_below_refl].
  destruct (safeAppsPath AppsRoot loc) as [a|] eqn:Ea; [|apply only_below_refl]. split.
  - intros p Hp. destruct (decide (p = a)) as [->|Hne]; [by eapply safe_below|]. by rewrite remove_files in Hp.
  - intros p Hp. left. destruct (decide (p = a)) as [->|Hne]; [by eapply safe_below|]. by rewrite remove_dirs in Hp.
Qed.

(** When it succeeded the file is there. *)
Lemma store_content a f d d' : store_upload a f d = (None, d') -> dk_files d' !! a = Some (fp_Data f).
Proof.
  unfold store_upload. destruct (os_mkdir_all _ d) as [ok d1]. destruct ok; cbn [negb]; [|done].
  destruct (os_open_trunc _ d1) as [ok d2]. destruct ok; cbn [negb]; [|done].
  assert (E3 : (os_write (a +:+ ".partial") (fp_Data f) d2).1 = true ->
    dk_files (os_write (a +:+ ".partial") (fp_Data f) d2).2 !! (a +:+ ".partial") = Some (fp_Data f)).
  { unfold os_write, disk_fault. destruct (dk_faults d2) as [|[] fs]; cbn; [|done|]; intros _; apply lookup_insert_eq. }
  destruct (os_write _ _ d2) as [ok d3]. cbn in E3. destruct ok; cbn [negb orb]; [|done]. specialize (E3 eq_refl).
  destruct (_ && _); [done|]. destruct (_ <=? _)%Z; [done|]. unfold os_rename, disk_op, disk_fault.
  destruct (dk_faults d3) as [|[] fs]; cbn [negb]; [|done|]; cbn [dk_files]; rewrite E3; destruct (is_dir _ a); cbn [negb]; try done;
    intros [= <-]; apply lookup_insert_eq.
Qed.
End disk.

(** ** Who gets a file *)
Section artifact.
Context `{JC : JsonCodec} `{UL : UuidLib} `{WD : Cwd} {L : Type} (AppsRoot : string).

(** An open file was there, and the disk keeps its files. *)
Lemma open_content p d s d' : os_open p d = (Content s, d') -> dk_files d !! p = Some s /\ dk_files d' = dk_files d /\ dk_dirs d' = dk_dirs d.
Proof.
  unfold os_open, disk_fault. destruct (dk_faults d) as [|[] fs]; [|done|]; cbn [dk_files];
    (destruct (dk_files d !! p); [by intros [= -> <-]|]); by destruct (is_dir _ p).
Qed.

Lemma artifact_inv MTLSRequired r d (w : World L) s d' w' :
  handleArtifact AppsRoot MTLSRequired r d w = (inr (inr s, d'), w') ->
  exists app serial location p, MTLSRequired = true /\ rq_tls r = TLSClient serial /\ serial <> "" /\
    uuid_parse (Str.trim_space (rq_path_id r)) = Some app /\ authorized_location (w_db w) app serial = inr location /\
    safeAppsPath AppsRoot location = Some p /\ dk_files d !! p = Some s /\ dk_files d' = dk_files d /\ dk_dirs d' = dk_dirs d.
Proof.
  unfold handleArtifact. destruct (require_method "GET" r); [done|]. destruct MTLSRequired; [|done].
  destruct (rq_tls r) as [| |serial]; [done..|]. destruct (uuid_parse _) as [app|]; [|done].
  destruct (String.eqb_spec serial "") as [|Hs]; [done|]. intros (x & w1 & Hx%attempt_inv & Hk)%bind_inv.
  destruct x as [e|location]; [done|]. apply select_inr in Hx. destruct (looksLikeHTTPSURL location); [done|].
  destruct (safeAppsPath AppsRoot location) as [p|] eqn:Ep; [|done].
  destruct (os_open p d) as [[| |c] d1] eqn:Eo; [done..|]. apply open_content in Eo as (Ec & Ed & Edirs).
  injection Hk as <- <- <-. exists app, serial, location, p. by split_and!.
Qed.
End artifact.

(** C10: the server's disk outside the directory of the applications is not touched, but that
    the directories that lead to it are made: an upload and the deletion of an entry, whatever its
    stored path, change files and directories below it only.  A file is handed out over mutual
    TLS only, and it is the file at the stored location of the application that was asked for,
    below that directory, to a device for which an installation of that very application is
    under way; handing it out changes nothing on the disk. *)
Theorem files_stay_below_the_root `{JsonCodec} `{JsonErrors} `{UuidLib} `{JwtLib} `{CwdLaws} {L} origins AppsRoot root :
  abs (Path.clean (Str.trim_space AppsRoot)) = inl root ->
  (forall r form d (w w' : World L) resp d', handleUploadCatalog origins AppsRoot r form d w = (inr (resp, d'), w') -> only_below root d d') /\
  (forall r d (w w' : World L) resp d', handleDeleteCatalog origins AppsRoot r d w = (inr (resp, d'), w') -> only_below root d d') /\
  (forall MTLSRequired r d (w w' : World L) s d', handleArtifact AppsRoot MTLSRequired r d w = (inr (inr s, d'), w') ->
    dk_files d' = dk_files d /\ dk_dirs d' = dk_dirs d /\ MTLSRequired = true /\
    exists app serial entry x p, uuid_parse (Str.trim_space (rq_path_id r)) = Some app /\ rq_tls r = TLSClient serial /\
      List.find (is_catalog app) (t_catalog (w_db w)) = Some entry /\ safeAppsPath AppsRoot (ac_location entry) = Some p /\
      below root p /\ dk_files d !! p = Some s /\
      In x (t_device_apps (w_db w)) /\ da_app x = app /\ waiting x = true /\ of_serial (w_db w) serial (da_device x) = true).
Proof.
  intros Hroot. split_and!.
  - intros r form d w w' resp d' Hu. unfold handleUploadCatalog in Hu. pose proof (only_below_refl root d) as Hd.
    destruct (require_method "POST" r); [by injection Hu as <- <- <-|]. destruct (RequireMinRole _ _ _); [by injection Hu as <- <- <-|].
    destruct form as [form|]; [|by injection Hu as <- <- <-]. cbv zeta in Hu.
    destruct (normalizeTargetOS _); [|by injection Hu as <- <- <-]. destruct (String.eqb _ _); [by injection Hu as <- <- <-|].
    destruct (mf_file form) as [f|]; [|by injection Hu as <- <- <-]. destruct (_ <? _)%Z; [by injection Hu as <- <- <-|].
    apply bind_inv in Hu as (fileID & w1 & _ & Hu).
    destruct (safeAppsPath _ _) as [path|] eqn:Es; [|by injection Hu as <- <- <-].
    assert (Hb : only_below root d (store_upload path f d).2) by (eapply store_below; [done|apply upload_name_blob|exact Es]).
    destruct (store_upload path f d) as [[answer|] d1]; [by injection Hu as _ <- _|].
    apply bind_inv in Hu as (id & w2 & _ & Hu). by injection Hu as _ <- _.
  - intros r d w w' resp d' Hd. unfold handleDeleteCatalog in Hd. pose proof (only_below_refl root d) as Hr.
    destruct (require_method "DELETE" r); [by injection Hd as <- <- <-|]. destruct (RequireMinRole _ _ _); [by injection Hd as <- <- <-|].
    destruct (parseAppCatalogUUIDParam r) as [id|]; [|by injection Hd as <- <- <-].
    apply bind_inv in Hd as (a & w1 & _ & Hd). destruct a as [e|a]; [by injection Hd as <- <- <-|].
    apply bind_inv in Hd as (n & w2 & _ & Hd). destruct n as [e|[|n]]; [by injection Hd as <- <- <-..|].
    injection Hd as _ <- _. by apply unlink_below.
  - intros M r d w w' s d' Ha.
    apply artifact_inv in Ha as (app & serial & location & p & Hm & Ht & _ & Happ & Hl & Hp & Hs & Hd & Hdirs).
    do 3 (split; [done|]). unfold authorized_location in Hl. destruct (List.find _ _) as [a|] eqn:Ea; [|done].
    destruct (existsb _ _) eqn:Ex; [|done]. injection Hl as <-. apply existsb_exists in Ex as (x & Hin & Hx).
    apply andb_true_iff in Hx as [[Hx1%N.eqb_eq Hx2]%andb_true_iff Hx3].
    exists app, serial, a, x, p. split_and!; try done. by eapply safe_below.
Qed.

(** ** An installation from the request to the device's link *)
Section assign.
Context `{JC : JsonCodec} `{UL : UuidLib} `{GF : GoFmt} `{JL : JwtLib} `{CL : C2Laws L}.
Context (origins : list string).

Lemma human_dispatched human msg (w : World L) w' : DispatchJSONByHumanID human msg w = (inr (), w') ->
  exists b serial, List.find (fun a => String.eqb (a_human_id a) (Str.trim_space human)) (t_assets (w_db w)) = Some b /\
    a_cert_serial b = Some serial /\ outbox (w_link w') = outbox (w_link w) ++ [(Str.trim_space serial, msg)] /\
    In (Str.trim_space serial) (connected_serials (w_link w)) /\ w_db w' = w_db w.
Proof.
  intros Hd. assert (Edb : w_db w' = w_db w).
  { assert (E : db_steps eq (DispatchJSONByHumanID (L := L) human msg)) by (unfold DispatchJSONByHumanID; cbv zeta; db_walk).
    specialize (E w). by rewrite Hd in E. }
  unfold DispatchJSONByHumanID in Hd. cbv zeta in Hd. destruct (String.eqb _ _); [done|].
  apply bind_inv in Hd as (x & w1 & Hx%attempt_inv & Hd). destruct x as [e|serial]; [by destruct (is_no_rows e)|].
  assert (El : w_link w1 = w_link w).
  { assert (Ho : db_only (select (L := L) (fun db _ =>
      if negb (text_ok (Str.trim_space human)) then inl bad_text else
      match List.find (fun a => String.eqb (a_human_id a) (Str.trim_space human)) (t_assets db) with
      | None => inl ErrNoRows
      | Some a => match a_cert_serial a with Some s => inr s | None => inl (ErrMsg "cannot scan NULL into *string") end
      end))) by only_walk.
    specialize (Ho w). rewrite Hx in Ho. apply Ho. }
  apply select_inr in Hx. destruct (negb _); [done|]. destruct (List.find _ _) as [b|] eqn:Ef; [|done].
  destruct (a_cert_serial b) as [s|] eqn:Es; [|done]. injection Hx as <-. destruct (String.eqb _ _); [done|].
  apply bind_inv in Hd as (ok & w2 & Hd & Hk). destruct ok; [|done]. injection Hk as <-.
  apply dispatch_inv in Hd as (Eo & Hin & _). rewrite Str.trim_space_idem, El in *. by exists b, s.
Qed.

(** What the upsert leaves: the pair is waiting, and no other table changed. *)
Lemma upserted device app (w : World L) w' : upsert_device_app device app w = (inr (), w') ->
  existsb (fun d => is_device_app device app d && waiting d) (t_device_apps (w_db w')) = true /\
  t_assets (w_db w') = t_assets (w_db w) /\ t_catalog (w_db w') = t_catalog (w_db w).
Proof.
  intros Hu. apply exec_inr in Hu. destruct (negb _); [done|]. injection Hu as <-. split_and!; try done. cbn [t_device_apps with_device_apps].
  destruct (existsb (is_device_app device app) (t_device_apps (w_db w))) eqn:E.
  - apply existsb_exists in E as (x & Hx & Ex). apply existsb_exists.
    exists (set_device_app "pending" None (w_now w) x). split; [|by unfold is_device_app in *; cbn; rewrite Ex].
    unfold update_where. apply in_map_iff. exists x. by rewrite Ex.
  - rewrite existsb_app. apply orb_true_iff. right. cbn [existsb]. unfold is_device_app. cbn. by rewrite !N.eqb_refl.
Qed.

(** Marking it as started keeps it waiting, and so does a mark that fails. *)
Lemma still_waiting device app (w : World L) : let w' := (attempt (mark_installing device app) w).2 in
  existsb (fun d => is_device_app device app d && waiting d) (t_device_apps (w_db w)) = true ->
  existsb (fun d => is_device_app device app d && waiting d) (t_device_apps (w_db w')) = true /\
  t_assets (w_db w') = t_assets (w_db w) /\ t_catalog (w_db w') = t_catalog (w_db w) /\ w_link w' = w_link w.
Proof.
  intros w' Hw. subst w'. assert (Ho : db_only (attempt (mark_installing (L := L) device app))) by (unfold mark_installing; only_walk).
  destruct (Ho w) as [El _]. assert (Hs : forall R, PreOrder R -> (forall db t, R db (with_device_apps (update_where (is_device_app device app)
      (fun x => set_device_app "installing" (da_error x) t x) (t_device_apps db)) db)) ->
    R (w_db w) (w_db (attempt (mark_installing device app) w).2)).
  { intros R HR Hstep. apply (steps_attempt R). apply (steps_exec R). intros db t x db' [= _ <-]. apply Hstep. }
  split_and!; [| | |exact El].
  - revert Hw. apply (Hs (fun db db' => existsb _ (t_device_apps db) = true -> existsb _ (t_device_apps db') = true)).
    { split; [by intros x Hv|]. intros x y z H1 H2 Hv. by apply H2, H1. }
    intros db t (x & Hx & Ex)%existsb_exists. apply existsb_exists.
    exists (if is_device_app device app x then set_device_app "installing" (da_error x) t x else x). split.
    + cbn. unfold update_where. apply in_map_iff. by exists x.
    + apply andb_true_iff in Ex as [E1 E2]. rewrite E1. unfold is_device_app in *. cbn. by rewrite E1.
  - symmetry. by apply (Hs (fun db db' => t_assets db = t_assets db')); [split; [done|congruence]|].
  - symmetry. by apply (Hs (fun db db' => t_catalog db = t_catalog db')); [split; [done|congruence]|].
Qed.

(** A SELECT that answered has changed nothing. *)
Lemma select_same {A} (q : Tables -> Z -> err + A) (w : World L) x w' : select q w = (inr x, w') ->
  q (w_db w) (w_now w) = inr x /\ w_db w' = w_db w /\ w_link w' = w_link w.
Proof.
  intros Hq. split; [by eapply select_inr|].
  assert (E1 : db_steps (@eq Tables) (select (L := L) q)) by (apply steps_select; typeclasses eauto). specialize (E1 w).
  assert (E2 : db_only (select (L := L) q)) by only_walk. specialize (E2 w). rewrite Hq in E1, E2. split; [done|apply E2].
Qed.

(** An installation that was dispatched. *)
Record dispatched (r : Request) (db db' : Tables) (l l' : L) (device : uuid) (a : Asset) (app : AppCatalog) (path serial : string) : Prop := {
  di_device : parseDeviceAssignmentUUID r = inr device;
  di_request : exists body raw, read_body maxAppCatalogJSON r = Some body /\ decode_assign_app body = Some raw /\ uuid_parse raw = Some (ac_id app);
  di_asset : List.find (fun a => N.eqb (a_id a) device) (t_assets db) = Some a;
  di_app : List.find (is_catalog (ac_id app)) (t_catalog db) = Some app;
  di_system : assetOsMatchesTarget (a_os_type a) (ac_target_os app) = true;
  di_path : artifact_path (ac_id app) (ac_location app) = Some path;
  di_waiting : existsb (fun d => is_device_app device (ac_id app) d && waiting d) (t_device_apps db') = true;
  di_assets : t_assets db' = t_assets db;
  di_catalog : t_catalog db' = t_catalog db;
  di_serial : exists b, List.find (fun x => String.eqb (a_human_id x) (Str.trim_space (a_human_id a))) (t_assets db) = Some b /\
    Str.trim_space <$> a_cert_serial b = Some serial;
  di_sent : outbox l' = outbox l ++ [(serial, install_message (ac_id app) path (ac_install_args app) (ac_target_os app))];
  di_connected : In serial (connected_serials l)
}.

Lemma install_inv device a app (w : World L) resp w' : install_on device a app w = (inr resp, w') -> rs_status resp = 201%Z ->
  exists path serial b, artifact_path (ac_id app) (ac_location app) = Some path /\
    existsb (fun d => is_device_app device (ac_id app) d && waiting d) (t_device_apps (w_db w')) = true /\
    t_assets (w_db w') = t_assets (w_db w) /\ t_catalog (w_db w') = t_catalog (w_db w) /\
    List.find (fun x => String.eqb (a_human_id x) (Str.trim_space (a_human_id a))) (t_assets (w_db w)) = Some b /\
    Str.trim_space <$> a_cert_serial b = Some serial /\
    outbox (w_link w') = outbox (w_link w) ++ [(serial, install_message (ac_id app) path (ac_install_args app) (ac_target_os app))] /\
    In serial (connected_serials (w_link w)).
Proof.
  unfold install_on. intros (n & w1 & Hu%attempt_inv & Hk)%bind_inv Hs. destruct n as [e|[]]; [by injection Hk as <- _|].
  assert (El : w_link w1 = w_link w).
  { assert (Ho : db_only (upsert_device_app (L := L) device (ac_id app))) by (unfold upsert_device_app; only_walk).
    specialize (Ho w). rewrite Hu in Ho. apply Ho. }
  apply upserted in Hu as (Hw & Ea & Ec). destruct (artifact_path _ _) as [path|] eqn:Ep; [|by injection Hk as <- _].
  apply bind_inv in Hk as (x & w2 & Hx%attempt_inv & Hk). destruct x as [e|[]].
  { apply bind_inv in Hk as (? & ? & _ & Hk). by injection Hk as <- _. }
  apply human_dispatched in Hx as (b & serial & Hb & Es & Eo & Hin & Edb).
  apply bind_inv in Hk as (y & w3 & Hm & Hk). injection Hk as _ <-.
  pose proof (still_waiting device (ac_id app) w2) as Hst. rewrite Hm in Hst. cbn [snd] in Hst. rewrite Edb in Hst.
  destruct (Hst Hw) as (Hw3 & Ea3 & Ec3 & El3). exists path, (Str.trim_space serial), b.
  rewrite Ea3, Ec3, El3, Eo, El, Ea, Ec in *. rewrite Es. by split_and!.
Qed.

Lemma assign_app_inv r (w : World L) resp w' : handleAssignApp origins r w = (inr resp, w') -> rs_status resp = 201%Z ->
  exists device a app path serial, dispatched r (w_db w) (w_db w') (w_link w) (w_link w') device a app path serial.
Proof.
  unfold handleAssignApp. intros Hh Hs.
  destruct (require_method "POST" r) as [e|[]] eqn:Em.
  { injection Hh as <- _. unfold require_method in Em. destruct (String.eqb _ _); [done|]. by injection Em as <-. }
  destruct (RequireMinRole origins r RoleOperator) as [e|p] eqn:Er.
  { injection Hh as <- _. apply RequireMinRole_refused in Er. by destruct Er; congruence. }
  destruct (parseDeviceAssignmentUUID r) as [e|device] eqn:Ed.
  { injection Hh as <- _. unfold parseDeviceAssignmentUUID in Ed. destruct (uuid_parse _); [done|]. by injection Ed as <-. }
  destruct (read_body _ r) as [body|] eqn:Eb; [|by injection Hh as <- _].
  destruct (decode_assign_app body) as [raw|] eqn:Edc; [|by injection Hh as <- _].
  destruct (uuid_parse raw) as [appID|] eqn:Eu; [|by injection Hh as <- _].
  apply bind_inv in Hh as (x & w1 & Hx%attempt_inv & Hh).
  destruct x as [e|a]; [by injection Hh as <- _; unfold lookup_failed in Hs; destruct (is_no_rows e)|].
  apply select_same in Hx as (Ha & Edb & Elk). destruct (List.find _ _) as [a'|] eqn:Efa; [|done]. injection Ha as ->.
  destruct (blank (a_human_id a)); [by injection Hh as <- _|].
  destruct (blank (default "" (a_cert_serial a))); [by injection Hh as <- _|].
  apply bind_inv in Hh as (y & w2 & Hy%attempt_inv & Hh).
  destruct y as [e|app]; [by injection Hh as <- _; unfold lookup_failed in Hs; destruct (is_no_rows e)|].
  apply select_same in Hy as (Hc & Edb2 & Elk2). unfold catalog_by_id in Hc. destruct (List.find _ (t_catalog _)) as [app'|] eqn:Efc; [|done].
  injection Hc as ->. destruct (assetOsMatchesTarget _ _) eqn:Eos; cbn [negb] in Hh; [|by injection Hh as <- _].
  apply install_inv in Hh as (path & serial & b & Hp & Hw & Ea & Ec & Hb & Es & Eo & Hin); [|done].
  rewrite Edb2, Edb, Elk2, Elk in *. pose proof Efc as [_ Eid%N.eqb_eq]%find_some. subst appID.
  exists device, a, app, path, serial. split; try done; [by exists body, raw|by exists b].
Qed.
End assign.

(** ** The agent's answer and what becomes of it *)

Definition install_result `{UuidLib} (app : uuid) (ok : bool) (exitCode : Z) (err : string) : json :=
  JObj (jmap [("type", jstr "install_app_result"); ("app_id", jstr (uuid_string app)); ("ok", JBool ok);
              ("exit_code", JNum (F64.of_Z exitCode)); ("error", jstr err)]).

(** An exit status is a small number: JSON carries it. *)
Definition exit_code_ok (c : Z) : bool :=
  shallow (JNum (F64.of_Z c)) && match dec_int 0 (JNum (F64.of_Z c)) with Some _ => true | None => false end.

(** The agent's own codes. *)
Lemma own_codes_ok : forallb exit_code_ok [-2; -3; -4; -5]%Z = true.
Proof. vm_compute. reflexivity. Qed.

Lemma own_code_ok c : In c [-2; -3; -4; -5]%Z -> exit_code_ok c = true.
Proof. pose proof own_codes_ok as Hc. rewrite forallb_forall in Hc. apply Hc. Qed.

Section agent_side.
Context `{HO : Host} `{JC : JsonCodec} `{JE : JsonErrors} `{GF : GoFmt} `{UL : UuidLib}.
Context `{!JsonCodecLaws} `{!UuidLaws}.
Context (bridge : option InstallBridge).

Definition bridge_url : string := match bridge with Some b => ib_ServerURL b | None => "" end.

Lemma report_sent app ok c e g : reportInstall (uuid_string app) ok c e g =
  (tt, with_sent (ag_sent g ++ [install_result app ok c e]) g).
Proof. unfold reportInstall, say. by rewrite uuid_string_trim. Qed.

Lemma install_downlink app path args target g :
  Str.trim_space (Str.coerce_utf8 path) <> "" -> (forall t a, exit_code_ok (run_installer t a).1 = true) ->
  exists ok c e g',
    handleDownlink bridge (json_marshal (install_message app path args target)) g = (tt, g') /\
    ag_sent g' = ag_sent g ++ [install_result app ok c e] /\ exit_code_ok c = true /\
    (ok = true -> exists url tmp, resolveArtifactURL bridge_url (Str.trim_space (Str.coerce_utf8 path)) = inl url /\
      download url = inl tmp /\ (run_installer tmp (Str.trim_space (Str.coerce_utf8 args))).2 = None /\
      ag_actions g' = ag_actions g ++ [Install tmp (Str.trim_space (Str.coerce_utf8 args))]).
Proof.
  intros Hp Hexit. unfold install_message. set (kvs := [_; _; _; _; _]).
  assert (Hb : unmarshal_map (json_marshal (JObj (jmap kvs))) = Some (jmap kvs)).
  { apply message_back. unfold kvs. cbn [forallb fst snd]. by rewrite !shallow_str. }
  erewrite (downlink_is bridge _ "install_app"); [| |reflexivity].
  - unfold RunCatalogInstall, decode_install_app. rewrite Hb. unfold kvs. cbn [mbind option_bind]. read_fields. rewrite !dec_jstr.
    cbn [mbind option_bind]. rewrite rid_back.
    destruct (String.eqb_spec (uuid_string app) "") as [e|_]; [by eapply uuid_string_ne in e|].
    rewrite (proj2 (String.eqb_neq _ _) Hp). cbn [orb]. cbv zeta. fold bridge_url.
    destruct (String.eqb (Str.trim_space bridge_url) "").
    { rewrite report_sent. eexists false, (-3)%Z, _, _. split_and!; [done|done| |done]. apply own_code_ok. simpl. tauto. }
    destruct (resolveArtifactURL _ _) as [url|e].
    2: { rewrite report_sent. eexists false, (-4)%Z, _, _. split_and!; [done|done| |done]. apply own_code_ok. simpl. tauto. }
    destruct (download url) as [tmp|e] eqn:Edl.
    2: { rewrite report_sent. eexists false, (-5)%Z, _, _. split_and!; [done|done| |done]. apply own_code_ok. simpl. tauto. }
    pose proof (Hexit tmp (Str.trim_space (Str.coerce_utf8 args))) as Hc. unfold mbind, agent_bind, act.
    destruct (run_installer tmp _) as [code err] eqn:Er. cbn [fst] in Hc. rewrite report_sent.
    eexists _, code, _, _. split_and!; [reflexivity|done|done|]. intros Hok. exists url, tmp.
    split_and!; [done|done|by rewrite Er; destruct err|done].
  - unfold message_action. rewrite Hb. unfold kvs. cbn [mbind option_bind]. read_fields. rewrite dec_jstr. by vm_compute.
Qed.
End agent_side.

Section outcome.
Context `{JC : JsonCodec} `{UL : UuidLib} {L : Type}.
Context `{!JsonCodecLaws} `{!UuidLaws}.

(** What the answer is stored as. *)
Definition stored_outcome (ok : bool) (err : string) : string * option string :=
  install_outcome {| ia_Type := "install_app_result"; ia_AppID := ""; ia_OK := ok; ia_Error := Str.coerce_utf8 err |}.

(** The rows of the application on the devices of the serial. *)
Definition outcome_rows (app : uuid) (serial : string) (out : string * option string) (w : World L) : list DeviceApp :=
  update_where (fun d => N.eqb (da_app d) app && of_serial (w_db w) serial (da_device d)) (set_device_app out.1 out.2 (w_now w))
    (t_device_apps (w_db w)).

Lemma install_fields t a k c e :
  let m := jmap [("type", t); ("app_id", a); ("ok", k); ("exit_code", c); ("error", e)] in
  field "type" m = [t] /\ field "app_id" m = [a] /\ field "ok" m = [k] /\ field "exit_code" m = [c] /\ field "error" m = [e].
Proof. vm_compute. by split_and!. Qed.

Lemma decode_install_of raw m t a ok c x e : unmarshal_map raw = Some m -> field "type" m = [jstr t] ->
  field "app_id" m = [jstr a] -> field "ok" m = [JBool ok] -> field "exit_code" m = [c] -> field "error" m = [jstr e] ->
  dec_int 0 c = Some x ->
  decode_install_result raw = Some {| ia_Type := Str.coerce_utf8 t; ia_AppID := Str.coerce_utf8 a; ia_OK := ok;
                                      ia_Error := Str.coerce_utf8 e |}.
Proof.
  unfold decode_install_result. intros -> Et Ea Eok Ec Ee Hc. cbn [mbind option_bind]. rewrite Et, Ea, Eok, Ec, Ee.
  cbn [dec_field foldl mbind option_bind]. by rewrite Hc.
Qed.

Lemma install_result_decoded app ok c e : exit_code_ok c = true ->
  decode_install_result (json_marshal (install_result app ok c e)) =
  Some {| ia_Type := "install_app_result"; ia_AppID := uuid_string app; ia_OK := ok; ia_Error := Str.coerce_utf8 e |}.
Proof.
  unfold exit_code_ok, install_result. generalize (JNum (F64.of_Z c)). intros code [Hs Hd]%andb_true_iff.
  destruct (dec_int 0 code) as [x|] eqn:Ex; [|done].
  destruct (install_fields (jstr "install_app_result") (jstr (uuid_string app)) (JBool ok) code (jstr e)) as (Et & Ea & Eok & Ec & Ee).
  erewrite decode_install_of; [|apply message_back|exact Et|exact Ea|exact Eok|exact Ec|exact Ee|exact Ex].
  - by rewrite (coerce_plain "install_app_result"), (coerce_plain _ (uuid_string_plain app)).
  - cbn [forallb fst snd]. by rewrite !shallow_str, Hs.
Qed.

Lemma outcome_recorded app serial ok c e (w : World L) : w_faults w = [] -> exit_code_ok c = true ->
  Str.trim_space serial = serial -> serial <> "" -> text_ok serial = true ->
  match (stored_outcome ok e).2 with Some m => text_ok m = true | None => True end ->
  t_device_apps (w_db (ApplyInstallAppOutcome serial (json_marshal (install_result app ok c e)) w).2) =
  outcome_rows app serial (stored_outcome ok e) w.
Proof.
  intros Hf Hc Ht Hne Hs Hm. unfold ApplyInstallAppOutcome. rewrite install_result_decoded by done. cbn [ia_Type ia_AppID].
  change (negb (String.eqb (Str.trim_space "install_app_result") "install_app_result")) with false. cbv iota.
  rewrite uuid_string_trim, uuid_parse_string. cbv zeta. rewrite Ht, (proj2 (String.eqb_neq _ _) Hne).
  unfold mbind, go_bind, attempt, update_device_app. rewrite exec_ok by done. fold (stored_outcome ok e).
  change (install_outcome _) with (stored_outcome ok e). rewrite Hs.
  destruct (stored_outcome ok e) as [st [m|]]; cbn [snd] in *; [rewrite Hm|]; done.
Qed.
End outcome.

(** ** The whole way *)
Section way.
Context `{JC : JsonCodec} `{JE : JsonErrors} `{UL : UuidLib} `{GF : GoFmt} `{JL : JwtLib} `{WD : Cwd} `{CL : C2Laws L}.
Context `{!UuidLaws} (origins : list string) (AppsRoot : string).

Definition artifact_route (app : uuid) : string := "/v1/agent/app-artifacts/" +:+ uuid_string app.

Lemma upload_path fileID base app : artifact_path app (upload_name fileID base) = Some (artifact_route app).
Proof.
  unfold artifact_path. cbv zeta. unfold looksLikeHTTPSURL. rewrite Str.trim_space_idem. fold (looksLikeHTTPSURL (upload_name fileID base)).
  rewrite upload_name_no_url. unfold upload_name. destruct (trim_blobs (fileID +:+ "_" +:+ base)) as [r ->].
  unfold looksLikeUploadedBlobPath, backslashes.
  change (replace_byte "\" "/" ("blobs/" +:+ r)) with ("blobs/" +:+ replace_byte "\" "/" r).
  destruct (trim_blobs (replace_byte "\" "/" r)) as [r2 ->]. by rewrite prefix_self.
Qed.

Lemma artifact_route_plain app : Str.trim_space (Str.coerce_utf8 (artifact_route app)) = artifact_route app.
Proof.
  assert (Hp : forallb plain (Str.bytes (artifact_route app)) = true).
  { unfold artifact_route. unfold Str.bytes. rewrite <- (string_of_list_ascii_of_string (uuid_string app)). cbn.
    rewrite string_of_list_ascii_of_string. apply uuid_string_plain. }
  rewrite (coerce_plain _ Hp). by apply trim_plain.
Qed.

(** The id a creation was answered with. *)
Definition created_id (resp : Response) (id : uuid) : Prop :=
  resp = writeTicketsJSON 201 (JObj [("id", jstr (uuid_string id))]).

(** An upload that was answered with an id. *)
Lemma upload_inv r fm f d (w : World L) resp d1 w1 id : mf_file fm = Some f ->
  handleUploadCatalog origins AppsRoot r (Some fm) d w = (inr (resp, d1), w1) -> created_id resp id ->
  exists app fileID base p, List.find (is_catalog id) (t_catalog (w_db w1)) = Some app /\ ac_id app = id /\
    ac_location app = upload_name fileID base /\ safeAppsPath AppsRoot (ac_location app) = Some p /\
    dk_files d1 !! p = Some (fp_Data f).
Proof.
  intros Hf Hu Hid. assert (Hc : rs_status resp = 201%Z) by (by rewrite Hid). unfold handleUploadCatalog in Hu.
  destruct (require_method "POST" r) as [e|[]] eqn:Em.
  { injection Hu as <- _ _. unfold require_method in Em. destruct (String.eqb _ _); [done|]. by injection Em as <-. }
  destruct (RequireMinRole origins r RoleOperator) as [e|p] eqn:Er.
  { injection Hu as <- _ _. apply RequireMinRole_refused in Er. by destruct Er; congruence. }
  cbv zeta in Hu. destruct (normalizeTargetOS _) as [tos|]; [|by injection Hu as <- _ _].
  destruct (String.eqb _ _); [by injection Hu as <- _ _|]. rewrite Hf in Hu. destruct (_ <? _)%Z; [by injection Hu as <- _ _|].
  apply bind_inv in Hu as (fileID & w2 & _ & Hu).
  destruct (safeAppsPath _ _) as [path|] eqn:Es; [|by injection Hu as <- _ _].
  destruct (store_upload path f d) as [[answer|] d2] eqn:Est.
  { injection Hu as <- _ _. revert Est. unfold store_upload. destruct (os_mkdir_all _ d) as [ok1 e1]. destruct ok1; cbn [negb]; [|by intros [= <- _]].
    destruct (os_open_trunc _ e1) as [ok2 e2]. destruct ok2; cbn [negb]; [|by intros [= <- _]].
    destruct (os_write _ _ e2) as [ok3 e3]. destruct (negb ok3 || _); [by intros [= <- _]|].
    destruct (_ <=? _)%Z; [by intros [= <- _]|]. destruct (os_rename _ _ e3) as [ok4 e4]. destruct ok4; cbn [negb]; [done|by intros [= <- _]]. }
  apply store_content in Est. apply bind_inv in Hu as (x & w3 & Hx%attempt_inv & Hu).
  destruct x as [e|id']; [by injection Hu as <- _ _|]. injection Hu as Hr <- <-.
  assert (id' = id) as ->.
  { unfold created_id in Hid. rewrite Hid in Hr. injection Hr as E. apply (f_equal uuid_parse) in E.
    rewrite !(coerce_plain _ (uuid_string_plain _)), !uuid_parse_string in E. congruence. }
  apply insert_id_inr in Hx. destruct (negb _ || _) eqn:En; [done|]. apply orb_false_iff in En as [_ En]. injection Hx as Eid Edb.
  rewrite Eid in *. lazymatch type of Edb with with_catalog (_ ++ [?row]) _ = _ => exists row end.
  exists fileID, (sanitizeUploadBaseName (fp_Filename f)), path.
  rewrite <- Edb. cbn [t_catalog with_catalog]. split_and!; [|reflexivity|reflexivity|done|done].
  assert (E0 : forall l k, existsb (is_catalog id) l = false -> is_catalog id k = true -> List.find (is_catalog id) (l ++ [k]) = Some k).
  { induction l as [|y l IH]; intros k; cbn [app existsb List.find]; [by intros _ ->|]. intros [-> Hl]%orb_false_iff Hk. by apply IH. }
  apply E0; [done|]. apply N.eqb_refl.
Qed.

Lemma artifact_served r app serial location p s d (w : World L) : w_faults w = [] -> dk_faults d = [] ->
  rq_method r = "GET" -> rq_tls r = TLSClient serial -> serial <> "" -> rq_path_id r = uuid_string app ->
  authorized_location (w_db w) app serial = inr location -> looksLikeHTTPSURL location = false ->
  safeAppsPath AppsRoot location = Some p -> dk_files d !! p = Some s ->
  handleArtifact AppsRoot true r d w = (inr (inr s, d), w).
Proof.
  intros Hf Hd Hm Ht Hs Hr Hl Hu Hp Hc. unfold handleArtifact, require_method. rewrite Hm. cbn [String.eqb Ascii.eqb Bool.eqb].
  rewrite Ht, Hr, uuid_string_trim, uuid_parse_string, (proj2 (String.eqb_neq _ _) Hs).
  unfold mbind, go_bind, attempt. rewrite select_ok by done. rewrite Hl, Hu, Hp. unfold os_open, disk_fault. by rewrite Hd, Hc.
Qed.
End way.

(** C7: the way of an application.  A file that was uploaded (201, an id) and assigned to a device
    (201): the device's session gets exactly one message, which names the server's route for
    the file; asked there with the device's certificate the server returns the bytes that were
    uploaded; whatever the agent's system does, the agent answers the message once, says ok
    only after its installer succeeded on what it downloaded from that route, and the
    answer settles the rows of that application on that device, no other. *)
Theorem uploaded_application_is_installed `{Host} `{JsonCodecLaws} `{JsonErrors} `{UuidLaws} `{GoFmt} `{JwtLib} `{Cwd} `{C2Laws L}
    origins AppsRoot upload fm f d assign body (w w1 w2 : World L) resp1 resp2 d1 id device a serial :
  mf_file fm = Some f -> handleUploadCatalog origins AppsRoot upload (Some fm) d w = (inr (resp1, d1), w1) -> created_id resp1 id ->
  handleAssignApp origins assign w1 = (inr resp2, w2) -> rs_status resp2 = 201%Z ->
  parseDeviceAssignmentUUID assign = inr device -> read_body maxAppCatalogJSON assign = Some body ->
  decode_assign_app body = Some (uuid_string id) ->
  List.find (fun a => N.eqb (a_id a) device) (t_assets (w_db w1)) = Some a -> a_cert_serial a = Some serial ->
  List.find (fun x => String.eqb (a_human_id x) (Str.trim_space (a_human_id a))) (t_assets (w_db w1)) = Some a ->
  Str.trim_space serial = serial -> serial <> "" -> text_ok serial = true ->
  (forall t a, exit_code_ok (run_installer t a).1 = true) ->
  exists args target,
    outbox (w_link w2) = outbox (w_link w1) ++ [(serial, install_message id (artifact_route id) args target)] /\
    (forall r, rq_method r = "GET" -> rq_tls r = TLSClient serial -> rq_path_id r = uuid_string id ->
       w_faults w2 = [] -> dk_faults d1 = [] -> handleArtifact AppsRoot true r d1 w2 = (inr (inr (fp_Data f), d1), w2)) /\
    forall bridge g, exists ok c e g',
      handleDownlink bridge (json_marshal (install_message id (artifact_route id) args target)) g = (tt, g') /\
      ag_sent g' = ag_sent g ++ [install_result id ok c e] /\
      (ok = true -> exists url tmp, resolveArtifactURL (bridge_url bridge) (artifact_route id) = inl url /\ download url = inl tmp /\
        (run_installer tmp (Str.trim_space (Str.coerce_utf8 args))).2 = None /\
        ag_actions g' = ag_actions g ++ [Install tmp (Str.trim_space (Str.coerce_utf8 args))]) /\
      (w_faults w2 = [] -> match (stored_outcome ok e).2 with Some m => text_ok m = true | None => True end ->
       t_device_apps (w_db (ApplyInstallAppOutcome serial (json_marshal (install_result id ok c e)) w2).2) =
       outcome_rows id serial (stored_outcome ok e) w2).
Proof.
  intros Hfm Hu Hid Ha Hs2 Hdev Hbody Hdec Hasset Hcert Hhuman Hts Hne Hok Hexit.
  destruct (upload_inv origins AppsRoot upload fm f d w resp1 d1 w1 id Hfm Hu Hid)
    as (app & fileID & base & p & Happ & Eid & Eloc & Hp & Hc).
  destruct (assign_app_inv origins assign w1 resp2 w2 Ha Hs2) as (device' & a' & app' & path & serial' & D). destruct D.
  assert (device' = device) as -> by congruence. assert (a' = a) as -> by congruence.
  destruct di_request0 as (body' & raw & Eb & Er & Eu). assert (body' = body) as -> by congruence.
  assert (raw = uuid_string id) as -> by congruence. rewrite uuid_parse_string in Eu. injection Eu as Eid'.
  rewrite <- Eid' in di_app0. assert (app' = app) as -> by congruence. clear Eid'.
  destruct di_serial0 as (b & Eb2 & Es). assert (b = a) as -> by congruence. rewrite Hcert in Es. cbn in Es. injection Es as Es.
  assert (serial' = serial) as -> by congruence. rewrite Eloc, upload_path in di_path0. injection di_path0 as <-. rewrite Eid in *.
  exists (ac_install_args app), (ac_target_os app). split_and!; [done| |].
  - intros r Hm Ht Hr Hf Hd. eapply artifact_served; try done.
    + unfold authorized_location. rewrite di_catalog0, Happ.
      assert (Ex : existsb (fun x => N.eqb (da_app x) id && of_serial (w_db w2) serial (da_device x) && waiting x) (t_device_apps (w_db w2)) = true).
      { apply existsb_exists in di_waiting0 as (x & Hx & [[Ed%N.eqb_eq Eap]%andb_true_iff Ew]%andb_true_iff).
        apply existsb_exists. exists x. split; [done|]. rewrite Eap, Ew, andb_true_r. cbn [andb]. unfold of_serial.
        apply existsb_exists. exists a. rewrite di_assets0. pose proof Hasset as [Hin Ea]%find_some. split; [done|].
        rewrite Ed, Ea. unfold owns_serial. by rewrite Hcert, String.eqb_refl. }
      by rewrite Ex.
    + rewrite Eloc. apply upload_name_no_url.
  - intros bridge g. destruct (install_downlink bridge id (artifact_route id) (ac_install_args app) (ac_target_os app) g) as
      (ok & c & e & g' & E1 & E2 & E3 & E4); [by rewrite artifact_route_plain|done|].
    exists ok, c, e, g'. rewrite artifact_route_plain in E4. split_and!; [done|done|done|].
    intros Hf Hm. by apply outcome_recorded.
Qed.

(** The mark that follows the dispatch is unconditional: an agent that has answered before it
    has its outcome overwritten, and the row stays [installing]. *)
Lemma late_installing_mark_erases_the_outcome `{JsonCodec} `{UuidLib} {L} device app serial data (w : World L) x :
  w_faults w = [] -> let w1 := (ApplyInstallAppOutcome serial data w).2 in
  In x (t_device_apps (w_db (mark_installing device app w1).2)) -> is_device_app device app x = true -> da_status x = "installing".
Proof.
  intros Hf w1 Hx Hp. assert (Ho : db_only (ApplyInstallAppOutcome (L := L) serial data)).
  { unfold ApplyInstallAppOutcome, update_device_app. cbv zeta. only_walk. }
  destruct (Ho w) as (_ & _ & _ & Hf1). unfold mark_installing in Hx. rewrite exec_ok in Hx by (by apply Hf1).
  cbn in Hx. apply update_where_In in Hx as (y & _ & ->).
  destruct (is_device_app device app y) eqn:E; [done|]. by rewrite E in Hp.
Qed.
