(* ===== verification/Sample.v ===== *)
(** * A small server

    Concrete instances of the interfaces [Codecs] does not cover, and one world: three
    accounts, two enrolled devices of which one is connected, a pending command, an open
    alert with its incident and an enrollment token.  The witness files apply the theorems
    to it. *)

From S2P Require Import Prelude GoStd Float64 Json Ext Codecs World Hub HubFacts Auth UsersAdmin Sessions.
From S2P Require Import DeviceCommands CommandFlow Incidents IncidentDesk IncidentsApi Alerting AlertEngine Enrollment.
From S2P Require Import AndroidPolicies Telemetry Packages Scheduler Notifications.

#[export] Existing Instance bit_codec.
#[export] Existing Instance bit_codec_laws.
#[export] Existing Instance bit_uuid.
#[export] Existing Instance bit_uuid_laws.
#[export] Existing Instance bit_fmt.

#[local] Open Scope string_scope.

(** ** Interfaces *)

(** A session token is "<role>-token"; its subject is the account of that role. *)
Definition root_id : uuid := 201%N.
Definition ann_id : uuid := 202%N.
Definition bob_id : uuid := 203%N.

(** A token the server signs spells its claims, and from when until when they hold, in bits. *)
Definition signed_claims (t : string) : option (arxClaims * Z * Z) :=
  match unbits t with
  | Some (xI p) => c ← (decode p : option (string * string * string * Z * Z));
      let '(u, r, s, from, until) := c in Some ({| cl_Username := u; cl_Role := r; cl_Subject := s |}, from, until)
  | _ => None
  end.
Definition sign_claims (c : sessionClaims) : string :=
  let a := sc_claims c in bits (xI (encode (cl_Username a, cl_Role a, cl_Subject a, sc_NotBefore c, sc_ExpiresAt c))).

Lemma signed_back c : signed_claims (sign_claims c) = Some (sc_claims c, sc_NotBefore c, sc_ExpiresAt c).
Proof. unfold signed_claims, sign_claims. rewrite unbits_bits, decode_encode. by destruct c as [[]]. Qed.

#[export] Instance sample_jwt : JwtLib := {|
  jwt_parse now t :=
    if String.eqb t "admin-token" then Some {| cl_Username := "root"; cl_Role := "admin"; cl_Subject := uuid_string root_id |}
    else if String.eqb t "operator-token"
    then Some {| cl_Username := "bob"; cl_Role := "operator"; cl_Subject := uuid_string bob_id |}
    else match signed_claims t with
         | Some (c, from, until) => if ((from <=? now) && (now <? until))%Z then Some c else None
         | None => None end |}.
#[export] Instance sample_signer : JwtSigner := {| jwt_sign _ c := Some (sign_claims c) |}.

#[export] Instance sample_jwt_laws secret : JwtLaws secret.
Proof.
  split.
  - intros c. by eexists.
  - intros c tok t [= <-]. cbn [jwt_parse sample_jwt]. rewrite signed_back. unfold sign_claims. by destruct c as [[]].
  - intros c tok [= <-]. split; [done|]. apply bits_no_space.
Qed.

#[export] Instance sample_password : PasswordLib := {| bcrypt_hash p := Some ("hash:" +:+ p) |}.
#[export] Instance sample_bcrypt : BcryptLib := {| bcrypt_compare h p := String.eqb h ("hash:" +:+ p) |}.

#[export] Instance sample_bcrypt_laws : BcryptLaws.
Proof.
  split.
  - intros p h [= <-]. apply String.eqb_refl.
  - by intros p h [= <-].
  - intros p q h [= <-] _ _ _ E%String.eqb_eq. cbn in E. by injection E.
Qed.

#[export] Instance sample_net : NetLib := {| split_host_port s := Some (hd "" (Str.split_on ":" s)) |}.
#[export] Instance sample_pg : PgLib := {|
  pg_lower := Str.to_lower;
  pg_avg l := match l with x :: _ => x | [] => F64.of_Z 0 end;
  pg_text_lt a b := String.ltb a b |}.
#[export] Instance sample_cmdb : CmdbColumns := {|
  operational_status _ := "operational"; cost_center _ := ""; location _ := "" |}.
#[export] Instance sample_env : Environ := {| getenv _ := "" |}.

(** A certificate request is its common name, in the clear. *)
#[export] Instance sample_csr : CsrLib := {|
  csr := string;
  parse_csr_pem s := Some s;
  csr_signature_ok _ := true;
  csr_dns_names _ := [];
  csr_common_name s := s;
  sha256_hex s := "hash:" +:+ s |}.

(** One schedule is known; a signature names its key and its text; every delivery succeeds. *)
#[export] Instance sample_cron : CronLib := {|
  cron_standard s := String.eqb s "0 3 * * *"; cron_extended _ := Some "unrecognized" |}.
#[export] Instance sample_transport : Transport := {|
  hmac_sha256_hex k s := k +:+ ":" +:+ s; deliver _ := None |}.

(** ** The link: the laptop is connected *)

Definition laptop_link : LiveHub := exist _ _ (wf_register "SER1" NewHub _ _ wf_new eq_refl).

(** ** The tables *)

Definition minute : Z := 60 * 1000000000.
Definition t0 : Z := 1000 * hour.

Definition root : User := {| u_id := root_id; u_username := "root"; u_password_hash := "hash:r"; u_role := RoleAdmin; u_created := 0 |}.
Definition ann : User := {| u_id := ann_id; u_username := "ann"; u_password_hash := "hash:a"; u_role := RoleAdmin; u_created := 0 |}.
Definition bob : User := {| u_id := bob_id; u_username := "bob"; u_password_hash := "hash:b"; u_role := RoleOperator; u_created := 0 |}.

Definition laptop_id : uuid := 301%N.
Definition phone_id : uuid := 302%N.

(** The laptop has been silent for ten minutes. *)
Definition laptop : Asset := {|
  a_id := laptop_id; a_human_id := "arx-c-1"; a_display_name := Some "Laptop"; a_hostname := Some "laptop"; a_cert_serial := Some "SER1";
  a_os_type := "linux"; a_last_seen := Some (t0 - 10 * minute); a_metadata := [];
  a_compliance_status := "compliant"; a_compliance_reason := ""; a_quarantine_enabled := false |}.
Definition phone : Asset := {|
  a_id := phone_id; a_human_id := "arx-c-2"; a_display_name := None; a_hostname := None; a_cert_serial := Some "SER2";
  a_os_type := "android"; a_last_seen := Some (t0 - minute); a_metadata := [];
  a_compliance_status := "compliant"; a_compliance_reason := ""; a_quarantine_enabled := false |}.

Definition reboot_id : uuid := 5%N.
Definition reboot : CommandRow := {|
  cr_cmd := {| dc_ID := reboot_id; dc_DeviceID := laptop_id; dc_CommandType := DeviceCommandTypeReboot; dc_Payload := "";
               dc_Status := DeviceCommandStatusPending; dc_Output := ""; dc_CreatedAt := t0 - hour;
               dc_CompletedAt := None |};
  cr_incident := None |}.

(** The phone's offline alert is still open although it reports again. *)
Definition phone_alert : ActiveAlert := {|
  aa_ID := 6%N; aa_AlertRuleID := None; aa_Fingerprint := builtin_fp phone_id;
  aa_AlertKind := AlertKindBuiltinOffline; aa_DeviceID := Some phone_id; aa_Severity := "critical";
  aa_Title := "Device offline"; aa_Message := "arx-c-2"; aa_Details := JObj []; aa_TriggeredAt := t0 - hour;
  aa_LastNotifiedAt := Some (t0 - hour); aa_ResolvedAt := None |}.

Definition phone_incident : Incident := {|
  in_id := 7%N; in_number := "INC0000001"; in_caller := None; in_assigned := None; in_cmdb_ci := Some phone_id;
  in_state := "new"; in_impact := 1; in_urgency := 1; in_short_description := "Device offline"; in_work_notes := [];
  in_sla_due := t0; in_source_alert_fingerprint := Some (aa_Fingerprint phone_alert);
  in_created_at := t0 - hour; in_updated_at := t0 - hour |}.

Definition ticket : EnrollmentToken := {|
  et_id := 8%N; et_token_hash := "hash:sesame"; et_asset_id := None; et_expires_at := t0 + hour;
  et_is_used := false; et_used_at := None |}.

Definition tables : Tables := {|
  t_assets := [laptop; phone]; t_commands := [reboot]; t_alerts := [phone_alert]; t_rules := []; t_metrics := [];
  t_incidents := [phone_incident]; t_users := [root; ann; bob]; t_audit := []; t_tenant := [true]; t_profiles := [];
  t_assignments := []; t_group_devices := []; t_automations := []; t_packages := []; t_deployments := [];
  t_tokens := [ticket]; t_groups := []; t_android := []; t_catalog := []; t_device_apps := []; t_app_configs := [];
  t_channels := []; t_owners := []; t_resolutions := []; t_documents := [] |}.

Definition server : World LiveHub := MkWorld tables t0 20 1 [] laptop_link [].

(** The same server when its next two statements fail. *)
Definition failing : World LiveHub := set_faults [Some "connection reset"; Some "connection reset"] server.

(** ** Requests *)

Definition request (method path id token : string) (body : json) : Request := {|
  rq_method := method; rq_path := path; rq_path_id := id; rq_path_id2 := ""; rq_query _ := "";
  rq_origin := ""; rq_authorization := "Bearer " +:+ token; rq_request_id := ""; rq_subprotocol := "";
  rq_tls := NoTLS; rq_forwarded_for := ""; rq_remote_addr := "10.0.0.9:4242";
  rq_body := Some (json_marshal body); rq_principal := None; rq_time := t0 |}.

Definition command_request (serial_of : uuid) : Request :=
  request "POST" "/v1/devices/1/commands" (uuid_string serial_of) "operator-token"
    (JObj (jmap [("command_type", jstr "reboot"); ("payload", jstr "")])).

Definition command_result (id : uuid) (ok : bool) (output : string) : string :=
  json_marshal (JObj (jmap [("type", jstr "device_command_result"); ("command_id", jstr (uuid_string id));
                            ("ok", JBool ok); ("output", jstr output)])).

(** ** Reports, channels, rules, automations *)

(** What the phone sends: over its socket the message also carries its type. *)
Definition phone_members : list (string * json) :=
  [("cpu_usage_percent", JNum (F64.of_Z 12)); ("hostname", jstr "pixel"); ("os_type", jstr "android");
   ("total_ram_bytes", JNum (F64.of_Z 8000000000)); ("type", jstr "telemetry")].

Definition phone_payload : TelemetryPayload := {|
  tp_Hostname := "pixel"; tp_OsType := "android"; tp_OSFamily := ""; tp_OSVersion := "";
  tp_TotalRAMBytes := 8000000000; tp_CPUModel := ""; tp_CPULogicalCores := 0; tp_CPUUsagePercent := F64.of_Z 12;
  tp_MemoryUsedBytes := 0; tp_RootDiskTotalBytes := 0; tp_RootDiskUsedBytes := 0; tp_BatteryPercent := F64.of_Z 0;
  tp_DeviceModel := ""; tp_MACAddress := ""; tp_InstalledSoftware := None; tp_MDMPolicyEnforcement := None |}.

Definition phone_data : string := json_marshal (JObj phone_members).

Definition report_request (serial : string) : Request := {|
  rq_method := "POST"; rq_path := "/v1/telemetry"; rq_path_id := ""; rq_path_id2 := ""; rq_query _ := "";
  rq_origin := ""; rq_authorization := ""; rq_request_id := ""; rq_subprotocol := "";
  rq_tls := TLSClient serial; rq_forwarded_for := ""; rq_remote_addr := "10.0.0.7:4242";
  rq_body := Some phone_data; rq_principal := None; rq_time := t0 |}.

(** The operator has asked for the phone to be wiped. *)
Definition wipe_row : AndroidPolicy :=
  {| an_asset := phone_id; an_camera := true; an_lock_ms := 60000; an_wipe := true |}.
Definition wiping : World LiveHub := set_db (with_android [wipe_row] tables) server.

Definition mail_config (password : string) : list (string * json) :=
  [("from", jstr "mdm@example.org"); ("host", jstr "mail"); ("password", jstr password); ("port", JNum (F64.of_Z 587))].
Definition mail_channel (password : string) : NotificationChannel := {|
  nc_id := 9%N; nc_name := "Mail"; nc_type := TypeSMTP; nc_config := JObj (mail_config password); nc_secret := "";
  nc_active := true; nc_created := t0; nc_updated := t0 |}.

Definition disk_rule : AlertRule := {|
  ar_ID := 10%N; ar_Name := "Disk"; ar_TargetType := "device"; ar_Metric := "disk_usage_percent"; ar_Operator := ">=";
  ar_Threshold := F64.of_Z 90; ar_DurationSeconds := 300; ar_Severity := "warning"; ar_IsEnabled := true;
  ar_TargetDeviceID := None; ar_CreatedAt := t0; ar_UpdatedAt := t0 |}.

Definition editor : Package := {|
  pk_ID := 11%N; pk_Name := "editor"; pk_Version := "1"; pk_Type := "apt"; pk_InstallCmd := ""; pk_CreatedAt := t0;
  pk_UpdatedAt := t0 |}.

(** Deploys the editor to the laptop each night; the payload names no operation. *)
Definition nightly_payload : list (string * json) := [("package_id", jstr (uuid_string (pk_ID editor)))].
Definition nightly : Automation := {|
  au_ID := 12%N; au_Name := "Nightly"; au_CronSchedule := "0 3 * * *"; au_ActionType := "deploy_package";
  au_TargetOS := None; au_TargetAssetID := Some laptop_id; au_PayloadJSON := JObj nightly_payload; au_IsActive := true;
  au_CreatedAt := t0; au_UpdatedAt := t0 |}.

(** A server with a mail channel, a rule, a package and its nightly deployment. *)
Definition managed : World LiveHub :=
  set_db (with_automations [nightly] (with_packages [editor] (with_rules [disk_rule] (with_channels [mail_channel "old"] tables))))
    server.
