(* ===== verification/AgentWitness.v ===== *)
(** * The agent and the dashboards: the theorems at concrete inputs

    A Linux host on which everything succeeds and two files exist, as the agent of the laptop
    of [Sample]. *)

From S2P Require Import Prelude GoStd GoPath Base64 Float64 Json Ext Codecs JsonFacts World Hub HubFacts Auth.
From S2P Require Import DeviceCommands CommandFlow PolicyMerge Compliance AndroidPolicies MdmDownlink Telemetry Packages Sample.
From S2P Require Import AgentHost AgentPolicy AgentCommands AgentFiles AgentHandlers FileProxy Dashboard TransferFacts AgentFacts.
From S2P Require Import CommandRoundTrip AgentPolicyFacts AgentScripts DashboardFacts.

#[local] Open Scope string_scope.
#[local] Open Scope list_scope.

#[export] Instance sample_host : Host := {|
  goos := "linux"; write_file _ _ := None; mkdir_all _ := None; open_trunc _ := None; write_handle _ _ := None;
  close_handle _ := None; is_file p := existsb (String.eqb p) ["/usr/bin/apt-get"; "/opt/tool"]; glob _ := [];
  host_env _ := ""; temp_dir := None;
  run_script body := inl {| pc_Stdout := "ran"; pc_Stderr := ""; pc_Error := None |};
  run_argv _ := ("", None); run_installer _ _ := (0%Z, None); download _ := inl "/tmp/app"; parse_url s := inl s;
  reboot := None; shutdown := None; lock := None; create_key _ _ := None; set_value _ _ _ _ := None; close_key _ _ := None;
  platform_quarantine _ _ _ := inr "unsupported"; is_abs := Path.is_abs; join_path := Path.join; pty_write _ := None;
  read_file p _ := if String.eqb p "/var/log/syslog" then inl [("line one,", None); (" line two", Some None)] else inr "no such file";
  registry_read _ _ := inr ErrRegistryUnsupported; registry_write _ _ := None; registry_delete _ _ _ := None;
  spawn_pty _ _ _ := None; list_dir _ := inl (JArr []); list_net := inl (JArr []); set_hostname _ := None;
  iterate m := m |}.

#[export] Instance sample_errors : JsonErrors := {| json_error type input := "cannot decode into " +:+ type |}.

(** A file request of the operator, past the middleware. *)
Definition file_req (method path : string) : Request := {|
  rq_method := method; rq_path := "/v1/assets/1/files"; rq_path_id := uuid_string laptop_id; rq_path_id2 := "";
  rq_query k := if String.eqb k "path" then path else "";
  rq_origin := ""; rq_authorization := "Bearer operator-token"; rq_request_id := ""; rq_subprotocol := "";
  rq_tls := NoTLS; rq_forwarded_for := ""; rq_remote_addr := "10.0.0.9:4242"; rq_body := None;
  rq_principal := Some {| p_UserID := bob_id; p_Username := "bob"; p_Role := "operator" |}; rq_time := t0 |}.

Lemma first_is {A B} (x : A * B) a : x.1 = a -> x = (a, x.2).
Proof. destruct x. by intros <-. Qed.

(** ** Transfers *)

Definition notes : list (string * option (option string)) := [("hello, ", None); ("agent", Some None)].

Definition done_answer : option C2FileUploadResult := Some {| ur_OK := true; ur_Error := "" |}.
Definition done_response : Response :=
  writeTicketsJSON 200 (JObj [("bytes_written", JNum (F64.of_Z 12)); ("ok", JBool true)]).

Lemma upload_answered :
  (handleUpload [] (file_req "POST" "/tmp/../tmp/notes") notes done_answer server).1 = inr done_response.
Proof. vm_compute. reflexivity. Qed.

Lemma upload_reaches_the_disk_witness :
  exists u chunks g' answer,
    handle_all None (map json_marshal (upload_messages u "/tmp/../tmp/notes" chunks)) fresh_agent = (tt, g') /\
    ag_files g' = [("/tmp/notes", "hello, agent")] /\ ag_sent g' = [answer].
Proof.
  destruct (upload_reaches_the_disk [] None (file_req "POST" "/tmp/../tmp/notes") notes done_answer server _ _
    (first_is _ _ upload_answered) eq_refl)
    as (serial & u & path & chunks & Hp & _ & _ & _ & _ & Hg).
  assert (path = "/tmp/../tmp/notes") as -> by (revert Hp; vm_compute; by intros [= <-]).
  destruct (Hg fresh_agent "/tmp/notes") as (g' & answer & H1 & H2 & _ & H3 & _); try done.
  exists u, chunks, g', answer. split; [exact H1|]. split; [rewrite H2; reflexivity|exact H3].
Defined.

Definition log_chunks : list C2FileChunk :=
  [{| fc_Data := "line one,"; fc_EOF := false; fc_Err := "" |}; {| fc_Data := " line two"; fc_EOF := true; fc_Err := "" |}].

(** The agent's answers; each is taken as it arrives. *)
Definition log_answers (u : uuid) : list json :=
  map (chunk_reply u) (file_chunks [("line one,", None); (" line two", Some None)]).
Definition log_events (u : uuid) : list download_event := flat_map (fun a => [Arrives (json_marshal a); Takes]) (log_answers u).

Lemma download_answered : (handleDownload [] (file_req "GET" "/var/log/syslog") log_chunks server).1 =
  inr (inr ("attachment; filename=syslog", received_body log_chunks)).
Proof. vm_compute. reflexivity. Qed.

Lemma download_returns_the_file_witness :
  exists u, handleDownlink None (json_marshal (download_request (uuid_string u) "/var/log/syslog")) fresh_agent =
            (tt, with_sent (log_answers u) fresh_agent) /\ received_body log_chunks = "line one, line two".
Proof.
  destruct (download_returns_the_file [] None (file_req "GET" "/var/log/syslog") log_chunks server
    _ _ _ (first_is _ _ download_answered))
    as (serial & u & path & Hp & Hin & _ & Hg).
  assert (path = "/var/log/syslog") as -> by (revert Hp; vm_compute; by intros [= <-]).
  assert (serial = "SER1") as -> by (revert Hin; vm_compute; by intros [<-|[]]).
  destruct (Hg fresh_agent [("line one,", None); (" line two", Some None)]) as (answers & E & Hb); [vm_compute; reflexivity|reflexivity|].
  exists u. assert (answers = log_answers u) as ->.
  { revert E. rewrite download_downlink. unfold runFsDownload, read_file, sample_host. cbn [fd_Path fd_RequestID].
    change (String.eqb (Str.trim_space (Str.coerce_utf8 "/var/log/syslog")) "/var/log/syslog") with true. cbv iota.
    rewrite uuid_string_trim, send_chunks_ok by done. cbn [ag_sent fresh_agent]. by intros [= <-]. }
  split; [exact E|]. apply (Hb no_waiters (log_events u)); [reflexivity|reflexivity|].
  unfold download_run. symmetry.
  apply (run_takes_all "SER1" u (log_events u) (file_chunks [("line one,", None); (" line two", Some None)]) _ []); [|reflexivity..].
  cbn. by rewrite lookup_insert_eq.
Defined.

(** ** The agent *)

Definition begin_message : string :=
  json_marshal (JObj (jmap [("action", jstr "fs_upload_begin"); ("request_id", jstr "r1"); ("path", jstr "/tmp/a")])).
Definition chunk_message : string :=
  json_marshal (JObj (jmap [("action", jstr "fs_upload_chunk"); ("request_id", jstr "r1"); ("data_b64", jstr (B64.encode "xyz"))])).

Lemma upload_sessions_bounded_witness :
  let g := (handle_all None [begin_message; chunk_message] fresh_agent).2 in
  uploads_ok g /\ up_Written <$> ag_uploads g !! "r1" = Some 3%Z.
Proof. split; [apply (upload_sessions_bounded None [begin_message; chunk_message] fresh_agent); done|vm_compute; reflexivity]. Defined.


(** ** Policies *)

Definition policy : list (string * json) := [("camera_disabled", JBool true); ("firewall", JObj [("enabled", JBool true)])].

Definition laptop_profile : Profile := {|
  pf_id := 21%N; pf_name := "Laptops"; pf_platform := "linux"; pf_type := "restrictions"; pf_payload := json_marshal (JObj policy);
  pf_created := t0 |}.
Definition laptop_assignment : Assignment := {|
  as_id := 22%N; as_profile := 21%N; as_target := TargetDevice laptop_id; as_state := "applied"; as_created := t0 |}.
Definition governed : World LiveHub :=
  set_db (with_assignments [laptop_assignment] (with_profiles [laptop_profile] tables)) server.

Definition pull_request : Request := {|
  rq_method := "GET"; rq_path := "/v1/agent/policy"; rq_path_id := ""; rq_path_id2 := ""; rq_query _ := "";
  rq_origin := ""; rq_authorization := ""; rq_request_id := ""; rq_subprotocol := "";
  rq_tls := TLSClient "SER1"; rq_forwarded_for := ""; rq_remote_addr := "10.0.0.7:4242"; rq_body := None; rq_principal := None; rq_time := t0 |}.

Definition pulled : Response := match (handleAgentEffectivePolicy true pull_request governed).1 with
                                | inr resp => resp | inl _ => writeTicketsError 500 "" end.

Lemma pull_answered : (handleAgentEffectivePolicy true pull_request governed).1 = inr pulled.
Proof. vm_compute. reflexivity. Qed.

Lemma agent_enforces_the_merge_witness :
  rs_body pulled <> JNull /\ exists mr,
    doFetch (inr {| pa_Status := rs_status pulled; pa_Body := json_marshal (rs_body pulled); pa_ReadError := None |}) fresh_agent =
    enforceEffectiveMergedPayload (json_marshal (JObj (mr_EffectivePayload mr)))
      (PayloadCarriesCriticalSecurityControls (mr_EffectivePayload mr)) (noted_ok fresh_agent).
Proof.
  split; [vm_compute; discriminate|].
  destruct (agent_enforces_the_merge true pull_request governed _ _ fresh_agent (first_is _ _ pull_answered))
    as (serial & a & mr & _ & _ & _ & _ & E); [vm_compute; reflexivity..|].
  exists mr. exact E.
Defined.

Lemma linux_leaves_critical_blocks_out_witness :
  ag_files (enforceEffectiveMergedPayload (json_marshal (JObj policy)) true fresh_agent).2 = [(marker_file, "restrictions")].
Proof.
  apply (linux_leaves_critical_blocks_out policy true "" fresh_agent); vm_compute; reflexivity.
Defined.

Definition pushed : string := json_marshal (JObj [("proxy", JStr "proxy.example.org:3128")]).

Lemma pushed_builds : exists script, BuildPushConfigScript pushed = inl script.
Proof. vm_compute. by eexists. Qed.

Lemma push_config_lines_witness : exists v lines, json_unmarshal (Str.trim_space pushed) = Some v /\
  Forall (fun l => (String.length l <= 120)%nat /\ l <> "ARB64") lines /\
  B64.decode (Str.join nl lines) = Some (json_marshal v).
Proof.
  destruct pushed_builds as [script Hb].
  destruct (push_config_lines pushed script Hb) as (v & H1 & [(_ & lines & _ & _ & H2 & H3)|(Hw & _)]); [by exists v, lines|].
  discriminate Hw.
Defined.

(** ** The operator at a dashboard *)

Definition operator : Principal := {| p_UserID := bob_id; p_Username := "bob"; p_Role := "operator" |}.
Definition dash_request : Request := file_req "GET" "".
Definition dash_members (action : string) : list (string * json) :=
  [("action", jstr action); ("target_arx_id", jstr "arx-c-1")].

Lemma decent_members action : Str.valid_utf8 action = true -> decent (Some (dash_members action)).
Proof.
  intros Ha ms [= <-]. split.
  - apply jmap_wf. cbn [dash_members forallb fst snd]. by rewrite !shallow_str.
  - exists "action". intros k v [[= <- _]|[[= <- _]|[]]]; [done|]. vm_compute. discriminate.
Qed.

Lemma lock_wipe_admin_only_witness :
  p_Role operator <> RoleAdmin /\
  sends spared (RunDashboardSession dash_request operator [Some (dash_members "wipe"); Some (dash_members "net_list"); None] : go LiveHub _).
Proof.
  assert (Hr : p_Role operator <> RoleAdmin) by (vm_compute; discriminate). split; [exact Hr|].
  refine (proj1 (lock_wipe_admin_only dash_request operator _ Hr _)).
  repeat apply List.Forall_cons; [apply decent_members; vm_compute; reflexivity..|intros ? [=]|apply List.Forall_nil].
Defined.

Lemma two_spellings_wipe_witness : exists m,
  ag_actions (handleDownlink None (json_marshal m) fresh_agent).2 = [Wipe].
Proof.
  destruct (two_spellings_wipe dash_request operator "arx-c-1" "SER1" server) as (m & w' & _ & _ & _ & H).
  - vm_compute. discriminate.
  - reflexivity.
  - vm_compute. reflexivity.
  - vm_compute. reflexivity.
  - discriminate.
  - exists laptop, (dispatch_json "SER1" (JObj [("ACTION", jstr "pty_close"); ("action", jstr "wipe")]) laptop_link).2.
    split; [vm_compute; reflexivity|]. split; [reflexivity|]. split; [vm_compute; reflexivity|]. split; [discriminate|].
    apply first_is. vm_compute. reflexivity.
  - exists m. exact (H None fresh_agent).
Defined.

(** * Profiles and applications at concrete inputs

    The operator of [Sample] assigns profiles to the laptop, and uploads a package for Linux
    and assigns it there. *)

From S2P Require Import Prelude GoStd Float64 Json Ext Codecs World Hub HubFacts Auth DeviceCommands PolicyMerge MdmDownlink.
From S2P Require Import Compliance AgentPolicyFacts Profiles ProfilesFacts Sample GoPath JsonFacts Packages FileProxy.
From S2P Require Import AgentHost AgentCommands AgentHandlers AppFiles AppPaths AppCatalog AppCatalogFacts AppFlow.


Definition tables_with_profile : Tables := with_profiles [laptop_profile] tables.
Definition profile_server : World LiveHub := set_db tables_with_profile server.

Definition assign_body : json :=
  JObj (jmap [("target_kind", jstr "Device"); ("device_id", jstr (uuid_string laptop_id))]).
Definition assign_request (profile : uuid) : Request :=
  request "POST" "/v1/configuration-profiles/1/assignments" (uuid_string profile) "operator-token" assign_body.

Definition assigned_answer : Response :=
  writeTicketsJSON 201 (JObj [("assignment_id", jstr (uuid_string (gen_random_uuid 20)))]).

Lemma assign_answered : (handleAssignProfile [] (assign_request 21%N) profile_server).1 = inr assigned_answer.
Proof. vm_compute. reflexivity. Qed.

Lemma assignment_reaches_its_devices_witness :
  let db' := w_db (handleAssignProfile [] (assign_request 21%N) profile_server).2 in
  (exists pid t a, parseProfileUUID (assign_request 21%N) = inr pid /\ linked pid t tables_with_profile db' a) /\
  assigned tables_with_profile laptop_id laptop_profile = false /\ assigned db' laptop_id laptop_profile = true.
Proof.
  destruct (assignment_reaches_its_devices [] (assign_request 21%N) profile_server _ _ (first_is _ _ assign_answered) eq_refl)
    as (pid & t & a & Hp & Hl & _ & _).
  split; [by exists pid, t, a|]. split; [reflexivity|]. vm_compute. reflexivity.
Defined.

(** ** A payload that is an array *)

Definition broken_body : json :=
  JObj (jmap [("name", jstr "Broken"); ("platform", jstr "linux"); ("type", jstr "restrictions"); ("payload", JArr [])]).
Definition broken_request : Request := request "POST" "/v1/configuration-profiles" "" "operator-token" broken_body.

Definition broken_id : uuid := gen_random_uuid 20.

Definition broken_decoded : createProfileRequest :=
  {| cf_Name := "Broken"; cf_Platform := "linux"; cf_Type := "restrictions"; cf_Payload := Some (JArr []) |}.

Lemma broken_read : read_body maxConfigurationProfileJSON broken_request = Some (json_marshal broken_body).
Proof. vm_compute. reflexivity. Qed.
Lemma broken_decodes : decode_create_profile (json_marshal broken_body) = Some broken_decoded.
Proof. vm_compute. reflexivity. Qed.
Lemma assign_read : read_body maxConfigurationProfileJSON (assign_request broken_id) = Some (json_marshal assign_body).
Proof. vm_compute. reflexivity. Qed.
Lemma broken_parsed : parseProfileUUID (assign_request broken_id) = inr broken_id.
Proof. vm_compute. reflexivity. Qed.
Lemma operator_may r : r = broken_request \/ r = assign_request broken_id -> exists p, RequireMinRole [] r RoleOperator = inr p.
Proof. intros [-> | ->]; eexists; vm_compute; reflexivity. Qed.

Lemma broken_creates : creates [] broken_request broken_decoded "linux".
Proof.
  split; [reflexivity|]. split; [by apply operator_may; left|]. split.
  { exists (json_marshal broken_body). split; [exact broken_read|exact broken_decodes]. }
  split_and!; try (vm_compute; reflexivity); vm_compute; discriminate.
Qed.

Lemma broken_assigns : assigns [] (assign_request broken_id) broken_id (a_id laptop).
Proof.
  split; [reflexivity|]. split; [by apply operator_may; right|]. split; [exact broken_parsed|].
  exists (json_marshal assign_body), {| af_TargetKind := "Device"; af_DeviceID := uuid_string laptop_id; af_PrincipalGroupID := "" |}.
  split; [exact assign_read|]. split_and!; vm_compute; reflexivity.
Qed.

Lemma array_no_object : no_object (JArr []).
Proof. split; discriminate. Qed.

Lemma laptop_found : List.find (owns_serial "SER1") (t_assets (w_db server)) = Some laptop.
Proof. vm_compute. reflexivity. Qed.
Lemma laptop_linux :
  pg_lower (pg_trim "linux") = Str.to_lower (Str.trim_space (telemetryPlatformKey (pg_lower (pg_trim (a_os_type laptop))))).
Proof. vm_compute. reflexivity. Qed.
Lemma pull_serial : require_client_cert true pull_request = inr "SER1".
Proof. vm_compute. reflexivity. Qed.


(** ** A patch with a name that fits and a platform that does not *)

Definition half_body : json := JObj (jmap [("name", jstr " Kiosk "); ("platform", jstr "macos")]).
Definition half_request : Request :=
  request "PATCH" "/v1/configuration-profiles/1" (uuid_string 21%N) "operator-token" half_body.
Definition half_decoded : patchProfileRequest :=
  {| qf_Name := Some " Kiosk "; qf_Type := None; qf_Payload := None; qf_Platform := Some "macos" |}.

Lemma half_operator : exists p, RequireMinRole [] half_request RoleOperator = inr p.
Proof. eexists. vm_compute. reflexivity. Qed.
Lemma half_id : parseProfileUUID half_request = inr 21%N.
Proof. vm_compute. reflexivity. Qed.
Lemma half_read : read_body maxConfigurationProfileJSON half_request = Some (json_marshal half_body).
Proof. vm_compute. reflexivity. Qed.
Lemma half_decodes : decode_patch_profile (json_marshal half_body) = Some half_decoded.
Proof. vm_compute. reflexivity. Qed.

Lemma laptop_profile_there : there 21%N profile_server.
Proof. split; [vm_compute; reflexivity|]. split; [reflexivity|]. intros p [<-|[]]. vm_compute. reflexivity. Qed.

(** It is answered 400, and the new name is stored. *)
Lemma profile_patch_exact_witness :
  exists w', handlePatchProfile [] half_request profile_server = (inr (writeTicketsError 400 "invalid platform"), w') /\
    map pf_name (t_profiles (w_db w')) = ["Kiosk"] /\ map pf_platform (t_profiles (w_db w')) = map pf_platform [laptop_profile].
Proof.
  destruct half_operator as [p Hp].
  pose proof (profile_patch_exact [] half_request p 21%N _ _ profile_server eq_refl Hp half_id half_read half_decodes eq_refl
    laptop_profile_there) as H.
  eexists. split; [exact H|]. split; vm_compute; reflexivity.
Defined.

#[export] Instance sample_cwd : Cwd := {| getwd := inl "/srv/arx" |}.
#[export] Instance sample_cwd_laws : CwdLaws.
Proof. split. by intros d [= <-]. Qed.

Definition empty_disk : Disk := {| dk_files := ∅; dk_dirs := []; dk_faults := [] |}.
Definition package : FilePart := {| fp_Filename := "tool 1.0.deb"; fp_Size := 9; fp_Data := "contents"; fp_Error := false |}.
Definition package_form : MultipartForm := {|
  mf_value k := if String.eqb k "name" then "Tool" else if String.eqb k "target_os" then "Linux" else "";
  mf_file := Some package |}.

Definition upload_request : Request := request "POST" "/v1/app-catalog/upload" "" "operator-token" JNull.
Definition uploaded : (err + (Response * Disk)) * World LiveHub :=
  handleUploadCatalog [] "apps" upload_request (Some package_form) empty_disk server.
Definition tool_id : uuid := gen_random_uuid 21.
Definition uploaded_answer : Response := writeTicketsJSON 201 (JObj [("id", jstr (uuid_string tool_id))]).
Definition tool_package : string := "/srv/arx/apps/blobs/" +:+ uuid_string (gen_random_uuid 20) +:+ "_tool_1.0.deb".
Definition stored_disk : Disk := match uploaded.1 with inr (_, d) => d | inl _ => empty_disk end.

Lemma upload_done : uploaded.1 = inr (uploaded_answer, stored_disk).
Proof. vm_compute. reflexivity. Qed.

Lemma stored_there : dk_files stored_disk !! tool_package = Some "contents".
Proof. vm_compute. reflexivity. Qed.

Lemma apps_root : abs (Path.clean (Str.trim_space "apps")) = inl "/srv/arx/apps".
Proof. vm_compute. reflexivity. Qed.

Lemma stored_new : dk_files stored_disk !! tool_package <> dk_files empty_disk !! tool_package.
Proof. vm_compute. discriminate. Qed.

(** ** The disk *)

Lemma files_stay_below_the_root_witness : below "/srv/arx/apps" tool_package.
Proof.
  destruct (files_stay_below_the_root (L := LiveHub) [] "apps" "/srv/arx/apps" apps_root) as (Hu & _ & _).
  destruct (Hu upload_request (Some package_form) empty_disk server _ _ _ (first_is _ _ upload_done)) as [Hf _].
  apply Hf. exact stored_new.
Defined.

(** ** The whole way *)

Definition assign_app_body : json := JObj [("app_id", jstr (uuid_string tool_id))].
Definition assign_app_request : Request :=
  request "POST" "/v1/devices/1/app-deployments" (uuid_string laptop_id) "operator-token" assign_app_body.
Definition uploaded_world : World LiveHub := uploaded.2.

Definition assign_app_answer : Response := dispatch_outcome None.
Lemma assign_app_done : (handleAssignApp [] assign_app_request uploaded_world).1 = inr assign_app_answer.
Proof. vm_compute. reflexivity. Qed.

Lemma assign_app_read : read_body maxAppCatalogJSON assign_app_request = Some (json_marshal assign_app_body).
Proof. vm_compute. reflexivity. Qed.
Lemma assign_app_decodes : decode_assign_app (json_marshal assign_app_body) = Some (uuid_string tool_id).
Proof. vm_compute. reflexivity. Qed.
Lemma assign_app_device : parseDeviceAssignmentUUID assign_app_request = inr laptop_id.
Proof. vm_compute. reflexivity. Qed.
Lemma laptop_there : List.find (fun a => N.eqb (a_id a) laptop_id) (t_assets (w_db uploaded_world)) = Some laptop.
Proof. vm_compute. reflexivity. Qed.
Lemma laptop_known :
  List.find (fun x => String.eqb (a_human_id x) (Str.trim_space (a_human_id laptop))) (t_assets (w_db uploaded_world)) = Some laptop.
Proof. vm_compute. reflexivity. Qed.
Lemma sample_exit_codes t a : exit_code_ok (run_installer t a).1 = true.
Proof. vm_compute. reflexivity. Qed.

Definition artifact_request : Request := {|
  rq_method := "GET"; rq_path := "/v1/agent/app-artifacts/1"; rq_path_id := uuid_string tool_id; rq_path_id2 := ""; rq_query _ := "";
  rq_origin := ""; rq_authorization := ""; rq_request_id := ""; rq_subprotocol := "";
  rq_tls := TLSClient "SER1"; rq_forwarded_for := ""; rq_remote_addr := "10.0.0.7:4242"; rq_body := None; rq_principal := None; rq_time := t0 |}.

Definition installing : World LiveHub := (handleAssignApp [] assign_app_request uploaded_world).2.

Lemma no_faults_left : w_faults installing = [].
Proof. vm_compute. reflexivity. Qed.
Lemma no_disk_faults : dk_faults stored_disk = [].
Proof. vm_compute. reflexivity. Qed.

Definition agent_bridge : option InstallBridge := Some {| ib_ServerURL := "https://mdm.example/"; ib_CertDir := "/etc/arx" |}.

Lemma uploaded_application_is_installed_witness :
  handleArtifact "apps" true artifact_request stored_disk installing = (inr (inr "contents", stored_disk), installing) /\
  exists message ok c e g', handleDownlink agent_bridge (json_marshal message) fresh_agent = (tt, g') /\
    ag_sent g' = [install_result tool_id ok c e].
Proof.
  destruct (uploaded_application_is_installed [] "apps" upload_request package_form package empty_disk assign_app_request
    (json_marshal assign_app_body) server uploaded_world installing uploaded_answer assign_app_answer stored_disk tool_id laptop_id laptop
    "SER1" eq_refl (first_is _ _ upload_done) eq_refl (first_is _ _ assign_app_done) eq_refl assign_app_device assign_app_read
    assign_app_decodes laptop_there eq_refl laptop_known eq_refl ltac:(discriminate) eq_refl sample_exit_codes)
    as (args & target & _ & Hfetch & Hagent).
  split; [exact (Hfetch artifact_request eq_refl eq_refl eq_refl no_faults_left no_disk_faults)|].
  destruct (Hagent agent_bridge fresh_agent) as (ok & c & e & g' & E1 & E2 & _).
  by eexists _, ok, c, e, g'.
Defined.
