(* ===== verification/StorageWitness.v ===== *)
(** * The authority and the backups at concrete inputs

    A certificate library whose certificates are the three that are made here: the root, the
    intermediate and one agent's.  The server starts on an empty disk and again a day later. *)

From S2P Require Import Prelude GoStd Decimal GoPath Float64 Json Ext Codecs World Auth Enrollment AppFiles AppPaths CertAuthority Backups BackupFacts Sample AgentWitness.

#[local] Open Scope string_scope.
#[local] Open Scope list_scope.
#[local] Open Scope Z_scope.

#[export] Instance certificate_eq_dec : EqDecision Certificate.
Proof. intros x y. unfold Decision. repeat (decide equality). Defined.
#[export] Instance ec_key_eq_dec : EqDecision ec_key.
Proof. intros x y. unfold Decision. repeat (decide equality). Defined.

Definition sample_key (n : nat) : ec_key :=
  match n with
  | O => {| ek_Curve := P384; ek_Point := "p0"; ek_D := "d0" |}
  | _ => {| ek_Curve := P384; ek_Point := "p1"; ek_D := "d1" |}
  end.

Definition started_at : Z := 1700000000 * second.
Definition digest : string := "0123456789abcdef0123456789abcdef".
Definition keyid : string := "0123456789abcdef0123".

Definition root_tpl : Certificate := root_template 1 started_at keyid.
Definition int_tpl : Certificate := intermediate_template 4 started_at keyid keyid.

Definition with_raw (raw : string) (pub : public_key) (c : Certificate) : Certificate := {|
  ct_SerialNumber := ct_SerialNumber c; ct_Subject := ct_Subject c; ct_NotBefore := ct_NotBefore c; ct_NotAfter := ct_NotAfter c;
  ct_KeyUsage := ct_KeyUsage c; ct_ExtKeyUsage := ct_ExtKeyUsage c; ct_BasicConstraintsValid := ct_BasicConstraintsValid c;
  ct_IsCA := ct_IsCA c; ct_MaxPathLen := ct_MaxPathLen c; ct_MaxPathLenZero := ct_MaxPathLenZero c;
  ct_SubjectKeyId := ct_SubjectKeyId c; ct_AuthorityKeyId := ct_AuthorityKeyId c; ct_SignatureAlgorithm := ct_SignatureAlgorithm c;
  ct_DNSNames := ct_DNSNames c; ct_IPAddresses := ct_IPAddresses c; ct_URIs := ct_URIs c; ct_PublicKey := pub; ct_Raw := raw |}.

Definition root_cert : Certificate := with_raw "R" (public_of (sample_key 0)) root_tpl.
Definition int_cert : Certificate := with_raw "I" (public_of (sample_key 3)) int_tpl.

Definition sample_create (tpl : Certificate) : option string :=
  match ct_SignatureAlgorithm tpl with
  | SHA256WithRSA => None
  | _ => if decide (tpl = root_tpl) then Some "R" else if decide (tpl = int_tpl) then Some "I"
         else if ct_IsCA tpl then None else Some "L"
  end.

Definition sample_parse (der : string) : option Certificate :=
  if String.eqb der "R" then Some root_cert else if String.eqb der "I" then Some int_cert
  else if String.eqb der "L" then Some (with_raw "L" (ECDSA P384 "agent") (server_template
    {| au_storageDir := ""; au_rootCert := root_cert; au_rootKey := sample_key 0; au_intermediateCert := int_cert;
       au_intermediateKey := sample_key 3; au_rootPEM := ""; au_intermediatePEM := "" |} 7 started_at keyid [] (ECDSA P384 "agent")))
  else None.

#[export] Instance sample_x509 : X509 := {|
  ec_generate n := Some (sample_key n);
  rand_int n b := if 0 <? b then Some (Z.of_nat n mod b) else None;
  temp_suffix _ := "1";
  marshal_pkix _ := Some "spki";
  sha256_sum _ := digest;
  create_certificate _ tpl _ _ _ := sample_create tpl;
  parse_certificate := sample_parse;
  verify_chain t r i := bool_decide (r = root_cert) && (bool_decide (i = root_cert) || bool_decide (i = int_cert))
    && (ct_NotBefore r <=? t) && (ct_NotBefore i <=? t) && (t <=? ct_NotAfter r) && (t <=? ct_NotAfter i);
  marshal_pkcs8 k := if decide (k = sample_key 0) then Some "K0" else if decide (k = sample_key 3) then Some "K1" else None;
  parse_pkcs8 s := if String.eqb s "K0" then Some (inr (sample_key 0)) else if String.eqb s "K1" then Some (inr (sample_key 3)) else None;
  parse_ec_key _ := None;
  pem_encode t b := t +:+ ":" +:+ b;
  pem_decode s := if Str.has_prefix s "CERTIFICATE:" then Some ("CERTIFICATE", Str.drop 12 s, "")
    else if Str.has_prefix s "PRIVATE KEY:" then Some ("PRIVATE KEY", Str.drop 12 s, "") else None;
  parse_ip s := if String.eqb s "10.0.0.7" then Some s else None;
  csr_public_key s := if String.eqb s "rsa" then RSA 4096 "m" else ECDSA P384 "agent";
  csr_ip_addresses _ := [];
  csr_organization _ := ["Example"] |}.

Lemma drop_label b : Str.drop 12 ("CERTIFICATE:" +:+ b) = b /\ Str.drop 12 ("PRIVATE KEY:" +:+ b) = b.
Proof.
  assert (G : forall l, String.length l = 12%nat -> String.substring 12 (String.length b) (l +:+ b) = b -> Str.drop 12 (l +:+ b) = b).
  { intros l Hl E. unfold Str.drop. rewrite Str.length_append, Hl. by replace (12 + String.length b - 12)%nat with (String.length b) by lia. }
  split; apply G; [done|exact (substring_all b)|done|exact (substring_all b)].
Qed.

Lemma sample_der n tpl parent pub key der : create_certificate n tpl parent pub key = Some der ->
  der = "R" /\ tpl = root_tpl \/ der = "I" /\ tpl = int_tpl \/ der = "L" /\ ct_IsCA tpl = false.
Proof.
  cbn. unfold sample_create. destruct (ct_SignatureAlgorithm tpl); try done;
    (case_decide; [intros [= <-]; by left|]; case_decide; [intros [= <-]; right; by left|];
     destruct (ct_IsCA tpl); [done|]; intros [= <-]; right; by right).
Qed.

Lemma sample_chain t root int rc ic : root = root_tpl -> int = root_tpl /\ ic = root_cert \/ int = int_tpl /\ ic = int_cert ->
  rc = root_cert -> ct_NotBefore root <= t -> ct_NotBefore int <= t -> t + second <= ct_NotAfter root -> t + second <= ct_NotAfter int ->
  verify_chain t rc ic = true.
Proof.
  intros -> Hi ->. cbn [verify_chain sample_x509]. rewrite bool_decide_true by done.
  destruct Hi as [[-> ->]|[-> ->]]; intros H1 H2 H3 H4; unfold second in *;
    rewrite !andb_true_iff, orb_true_iff, !bool_decide_eq_true, !Z.leb_le; cbn [root_cert int_cert with_raw ct_NotBefore ct_NotAfter];
    split_and!; auto; lia.
Qed.

#[export] Instance sample_x509_laws : X509Laws.
Proof.
  split.
  - intros t b [<-|[<-|[]]]; cbn [pem_decode pem_encode sample_x509].
    + change ("CERTIFICATE" +:+ ":" +:+ b) with ("CERTIFICATE:" +:+ b). by rewrite prefix_self, (proj1 (drop_label b)).
    + change ("PRIVATE KEY" +:+ ":" +:+ b) with ("PRIVATE KEY:" +:+ b).
      change (Str.has_prefix ("PRIVATE KEY:" +:+ b) "CERTIFICATE:") with false. by rewrite prefix_self, (proj2 (drop_label b)).
  - intros k der. cbn. case_decide as E; [intros [= <-]; by rewrite E|]. case_decide as E'; [intros [= <-]; by rewrite E'|done].
  - intros der c. cbn. unfold sample_parse. repeat (case_match; [intros [= <-]; cbn; symmetry; by apply String.eqb_eq|]). done.
  - intros n tpl parent pub key der c Hc Hp _. apply sample_der in Hc as [[-> ->]|[[-> ->]|[-> ->]]]; by injection Hp as <-.
  - intros n tpl parent pub key E. cbn. unfold sample_create. by rewrite E.
  - intros k. done.
  - intros n b z. cbn. destruct (Z.ltb_spec 0 b); [|done]. intros [= <-]. by apply Z.mod_pos_bound.
  - intros n m root int rder rc ider ic pub key t Hr Pr Hi Pi Cr Ci _ _ Hlen.
    apply sample_der in Hr as [[-> ->]|[[-> ->]|[-> Er]]]; [|by cbn in Hlen|congruence]. injection Pr as <-.
    apply (sample_chain t); try done. apply sample_der in Hi as [[-> ->]|[[-> ->]|[-> Ei]]]; [left|right|congruence]; by injection Pi as <-.
Qed.

(** ** The first start, and the next *)

Definition bare : Disk := {| dk_files := ∅; dk_dirs := []; dk_faults := [] |}.
Definition first_store : Store := {| st_disk := bare; st_draw := 0; st_now := started_at |}.
Definition first_start := LoadOrInitialize "/data/pki" first_store.

Definition sample_authority : Authority := {|
  au_storageDir := "/data/pki"; au_rootCert := root_cert; au_rootKey := sample_key 0; au_intermediateCert := int_cert;
  au_intermediateKey := sample_key 3; au_rootPEM := "CERTIFICATE:R"; au_intermediatePEM := "CERTIFICATE:I" |}.

Lemma first_start_made : first_start.1 = inr sample_authority.
Proof. vm_compute. reflexivity. Qed.

(** A day later. *)
Definition next_store : Store := {| st_disk := st_disk first_start.2; st_draw := 0; st_now := started_at + Cal.day_ns |}.

Definition calm_check (ps : list string) (st : Store) : bool :=
  match dk_faults (st_disk st) with [] => true | _ => false end
  && negb (existsb (has_file (st_disk st)) (dirs_to (rooted ps)))
  && negb (has_file (st_disk st) (temp_name (rooted ps) (st_draw st))) && negb (is_dir (st_disk st) (temp_name (rooted ps) (st_draw st)))
  && negb (is_dir (st_disk st) (MTLSClientCABundlePath (rooted ps))).

Lemma calm_checked ps st : calm_check ps st = true -> calm ps st.
Proof.
  unfold calm_check. rewrite !andb_true_iff, !negb_true_iff. intros ((((H1 & H2) & H3) & H4) & H5).
  split; [by destruct (dk_faults (st_disk st))|done| |done]. by intros p ->.
Qed.

Lemma next_calm : calm ["data"; "pki"] next_store.
Proof. apply calm_checked. vm_compute. reflexivity. Qed.

Lemma pki_names : Forall (fun x => Path.plain_name x /\ Path.no_slash x) ["data"; "pki"].
Proof. repeat constructor; done. Qed.

Lemma nothing_there : Exists (fun p => dk_files (st_disk first_store) !! p = None) (authority_files (rooted ["data"; "pki"])).
Proof. left. reflexivity. Qed.

Lemma a_day_later : st_now first_store - two_minutes <= st_now next_store /\
  st_now next_store + second <= st_now first_store + 3650 * Cal.day_ns.
Proof. split; vm_compute; discriminate. Qed.

Lemma authority_survives_restart_witness : (LoadOrInitialize "/data/pki" next_store).1 = inr sample_authority.
Proof.
  destruct (authority_survives_restart "/data/pki" ["data"; "pki"] first_store sample_authority (first_start.2) next_store
    eq_refl pki_names (first_is first_start _ first_start_made) (fun _ _ => eq_refl) next_calm
    (or_intror (conj nothing_there a_day_later))) as (st3 & E & _).
  rewrite E. reflexivity.
Defined.

(** ** A certificate for the laptop *)

Definition enrolling_store : Store := {| st_disk := st_disk next_store; st_draw := 7; st_now := st_now next_store |}.
Definition laptop_certificate : IssueClientCertificateResult :=
  {| ic_ClientChainPEM := "CERTIFICATE:LCERTIFICATE:I"; ic_RootCAPEM := "CERTIFICATE:R" |}.

Lemma laptop_issued : (IssueClientCertificate sample_authority laptop_id " laptop " "req" enrolling_store).1 = inr laptop_certificate.
Proof. vm_compute. reflexivity. Qed.

Example rsa_refused : (IssueClientCertificate sample_authority laptop_id "laptop" "rsa" enrolling_store).1
  = inl (ErrMsg "pki: sign client certificate").
Proof. vm_compute. reflexivity. Qed.

Lemma client_certificate_issued_witness : exists n tpl der,
  create_certificate n tpl int_cert (ECDSA P384 "agent") (sample_key 3) = Some der /\ nm_CommonName (ct_Subject tpl) = "laptop" /\
  ct_ExtKeyUsage tpl = [ClientAuth] /\ 0 < ct_SerialNumber tpl < 2 ^ serialBits.
Proof.
  pose proof (client_certificate_issued sample_authority laptop_id " laptop " "req" enrolling_store) as G.
  rewrite (first_is _ _ laptop_issued) in G. destruct G as (_ & _ & _ & _ & n & tpl & der & Hc & _ & _ & _ & _ & He & _ & Hn & _ & _ & _ & _ & Hs & _).
  exists n, tpl, der. split; [exact Hc|]. split; [exact Hn|]. split; [exact He|exact Hs].
Defined.

(** ** Backups *)

#[local] Instance storage_cwd : Cwd := {| getwd := inl "/srv/arx" |}.
#[local] Instance storage_cwd_laws : CwdLaws.
Proof. split. by intros d [= <-]. Qed.
#[local] Instance backup_env : Environ := {| getenv k := if String.eqb k "ARX_DATABASE_URL" then "postgres://arx" else "" |}.

(** The clock stands still; [split] puts the temporary folder on a file system of its own. *)
Definition backup_tools (split : bool) : Tools := {|
  instant _ := started_at; temp_dir := "/tmp"; staging_suffix _ := "1";
  device_of p := if split && Str.has_prefix p "/tmp/" then 1%N else 0%N;
  pg_dump _ _ _ := (true, Some "dump"); archive_text l := Str.join ";" (map te_Name l) |}.

Lemma backup_tools_laws split : @ToolsLaws (backup_tools split).
Proof. split; [intros i j _; cbn; lia|done]. Qed.

Definition nameb (x : string) : bool :=
  negb (String.eqb x "") && negb (String.eqb x ".") && negb (String.eqb x "..") && negb (Str.has_byte "/" x).

Lemma nameb_name x : nameb x = true -> Path.plain_name x /\ Path.no_slash x.
Proof.
  unfold nameb. rewrite !andb_true_iff, !negb_true_iff, !String.eqb_neq. intros (((H1 & H2) & H3) & H4). by split.
Qed.

Lemma namesb l : forallb nameb l = true -> Forall (fun x => Path.plain_name x /\ Path.no_slash x) l.
Proof. rewrite forallb_forall, Forall_forall. intros Hl x Hx. by apply nameb_name, Hl, list_elem_of_In. Qed.

Definition tree_check (ns : gmap string Node) : bool := forallb (fun q =>
  let l := names_of q in
  String.eqb (rooted l) q && forallb nameb l && match rev l with [] => true | _ :: r => folder_at ns (rooted (rev r)) end) (map_to_list ns).*1.

Lemma tree_checked ns : tree_check ns = true -> tree ns.
Proof.
  unfold tree_check. rewrite forallb_forall. intros Hc.
  assert (G : forall q, is_Some (ns !! q) -> rooted (names_of q) = q /\ Forall (fun x => Path.plain_name x /\ Path.no_slash x) (names_of q) /\
    match rev (names_of q) with [] => True | _ :: r => folder_at ns (rooted (rev r)) = true end).
  { intros q [nd Hq]. assert (Hin : In q (map_to_list ns).*1).
    { apply list_elem_of_In, list_elem_of_fmap. exists (q, nd). split; [done|]. by apply elem_of_map_to_list. }
    specialize (Hc q Hin). cbv zeta in Hc. apply andb_true_iff in Hc as [[H1%String.eqb_eq H2%namesb]%andb_true_iff H3].
    split_and!; [done..|]. by destruct (rev (names_of q)). }
  split.
  - intros q Hq. destruct (G q Hq) as (E & Hn & _). by exists (names_of q).
  - intros qs x Hqs Hx Hs. destruct (G _ Hs) as (E & Hn & Hf). apply rooted_inj in E; [|done|by apply snoc_names].
    rewrite E, rev_app_distr in Hf. cbn [rev app] in Hf. by rewrite rev_involutive in Hf.
Qed.

Definition old_archive : string := "arx-backup-20200101000000UTC.tar.gz".
Definition backup_nodes : gmap string Node := list_to_map [
  ("/", folder 493 0); ("/tmp", folder 511 0); ("/srv", folder 493 0); ("/srv/arx", folder 493 0); ("/srv/arx/data", folder 493 0);
  ("/srv/arx/data/backups", folder 488 0); ("/data", folder 493 0); ("/data/pki", folder 448 0);
  ("/data/pki/root-ca.pem", file 420 0 "CERTIFICATE:R"); ("/srv/arx/data/backups/notes.txt", file 420 0 "keep");
  ("/srv/arx/data/backups/" +:+ old_archive, file 384 0 "old")].
Definition backup_machine : Machine := {| mc_nodes := backup_nodes; mc_faults := []; mc_tick := 0 |}.

Definition backup_config : Config := {|
  cf_StorageDir := "/srv/arx/data/backups"; cf_PKIRootAbs := "/data/pki"; cf_DatabaseURL := "postgres://arx"; cf_PgDumpPath := "pg_dump";
  cf_CronExpr := "0 2 * * *"; cf_RetentionDays := 7 |}.
Lemma backup_config_loaded : LoadConfigFromEnv "/data/pki" = inl backup_config.
Proof. vm_compute. reflexivity. Qed.

Lemma backup_tree : tree backup_nodes.
Proof. apply tree_checked. vm_compute. reflexivity. Qed.

Lemma old_expired : expired backup_config (started_at - 7 * Cal.day_ns) ("/srv/arx/data/backups/" +:+ old_archive) (file 384 0 "old") = true.
Proof. vm_compute. reflexivity. Qed.
Lemma old_there : backup_nodes !! ("/srv/arx/data/backups/" +:+ old_archive) = Some (file 384 0 "old").
Proof. vm_compute. reflexivity. Qed.

(** The archive of 2020 goes. *)
Lemma retention_exact_witness : exists n e m', @PruneOlderThan (backup_tools false) storage_cwd backup_config started_at backup_machine = (inr (n, e), m')
  /\ mc_nodes m' !! ("/srv/arx/data/backups/" +:+ old_archive) = None.
Proof.
  destruct (@retention_exact (backup_tools false) storage_cwd storage_cwd_laws backup_env "/data/pki" backup_config started_at backup_machine
    backup_config_loaded (tr_sound _ backup_tree)) as (n & e & m' & E & Hp & _ & Hq).
  exists n, e, m'. split; [exact E|]. destruct (Hq eq_refl eq_refl) as [_ Hx].
  destruct (Hp ("/srv/arx/data/backups/" +:+ old_archive)) as [E2|[E2 _]]; [exfalso|exact E2].
  cbn [backup_machine mc_nodes] in E2. rewrite old_there in E2. specialize (Hx _ _ E2). pose proof old_expired as Ho.
  change (cf_RetentionDays backup_config) with 7 in Hx. rewrite Ho in Hx. discriminate Hx.
Defined.

Lemma storage_names : Forall (fun x => Path.plain_name x /\ Path.no_slash x) ["srv"; "arx"; "data"; "backups"].
Proof. apply namesb. vm_compute. reflexivity. Qed.
Lemma temp_names : Forall (fun x => Path.plain_name x /\ Path.no_slash x) ["tmp"].
Proof. apply namesb. vm_compute. reflexivity. Qed.
Lemma storage_apart : apart ["srv"; "arx"; "data"; "backups"] ["tmp"].
Proof. intros r E. discriminate E. Qed.

Definition clock_check : bool := (0 <=? started_at) && (started_at <? last_stamp).
Lemma clock_checked : 0 <= started_at < last_stamp.
Proof. assert (E : clock_check = true) by (vm_compute; reflexivity). apply andb_true_iff in E as [?%Z.leb_le ?%Z.ltb_lt]. done. Qed.

(** No folder of the sample has a file's place in the storage. *)
Lemma no_archive_folder x : backupArtifactNameRX x = true ->
  folder_at backup_nodes (rooted (["srv"; "arx"; "data"; "backups"] ++ [x])) = false.
Proof.
  intros Hx. unfold folder_at. destruct (backup_nodes !! _) as [nd|] eqn:E; [|done].
  assert (G : forallb (fun y => implb (is_folder y.2) (negb (backupArtifactNameRX (Path.base y.1)))) (map_to_list backup_nodes) = true)
    by (vm_compute; reflexivity).
  rewrite forallb_forall in G. specialize (G (_, nd) (proj1 (list_elem_of_In _ _) (proj2 (elem_of_map_to_list _ _ _) E))). cbn [fst snd] in G.
  rewrite (base_rooted _ x storage_names (archive_name_plain x Hx)), Hx in G. by destruct (is_folder nd).
Qed.

Lemma backup_ready : @ready (backup_tools false) backup_config ["srv"; "arx"; "data"; "backups"] ["data"; "pki"] ["tmp"] backup_machine.
Proof.
  split; try (vm_compute; reflexivity).
  - exact backup_tree.
  - vm_compute. discriminate.
  - intros t. by eexists.
  - intros t. exact clock_checked.
  - exact no_archive_folder.
Qed.

Lemma backup_made_witness : exists nm m', @RunOnce (backup_tools false) storage_cwd backup_config backup_machine = (inr nm, m').
Proof.
  exact (@backup_made (backup_tools false) (backup_tools_laws false) storage_cwd backup_config
    ["srv"; "arx"; "data"; "backups"] ["data"; "pki"] ["tmp"] backup_machine eq_refl eq_refl eq_refl storage_names pki_names temp_names
    storage_apart backup_ready).
Defined.

#[local] Notation first_backup := (@RunOnce (backup_tools false) storage_cwd backup_config backup_machine).
Definition first_archive : string := "arx-backup-20231114221320UTC.tar.gz".
Lemma first_backup_made : first_backup.1 = inr first_archive.
Proof. vm_compute. reflexivity. Qed.

(** What the sample's archive is: the entries' names. *)
Example first_archive_text : option_map nd_Kind (mc_nodes first_backup.2 !! ("/srv/arx/data/backups/" +:+ first_archive))
  = Some (File "postgres/database.dump;embedded_pki/root-ca.pem").
Proof. vm_compute. reflexivity. Qed.

Lemma finished_backup_kept_witness : exists t text,
  mc_nodes first_backup.2 !! rooted (["srv"; "arx"; "data"; "backups"] ++ [first_archive]) = Some (file mode_600 t text).
Proof.
  destruct (@finished_backup_kept (backup_tools false) (backup_tools_laws false) storage_cwd storage_cwd_laws backup_env "/data/pki" backup_config
    ["srv"; "arx"; "data"; "backups"] ["data"; "pki"] ["tmp"] backup_machine first_archive (first_backup.2) backup_config_loaded eq_refl eq_refl
    eq_refl storage_names pki_names temp_names storage_apart backup_tree (first_is first_backup _ first_backup_made) ltac:(vm_compute; discriminate))
    as (_ & tick & dump & t0 & t & entries & now & _ & E & _).
  eexists. eexists. exact E.
Defined.

Lemma sample_devices : @other_device (backup_tools true) ["srv"; "arx"; "data"; "backups"] ["tmp"].
Proof.
  intros w nm. change (rooted (["tmp"] ++ [w; "bundle.part"])) with ("/tmp/" +:+ (w +:+ "/bundle.part")).
  cbn [device_of backup_tools andb]. by rewrite prefix_self.
Qed.

Lemma no_backup_across_devices_witness : exists e m', @RunOnce (backup_tools true) storage_cwd backup_config backup_machine = (inl e, m').
Proof.
  destruct (@no_backup_across_devices (backup_tools true) (backup_tools_laws true) storage_cwd ["srv"; "arx"; "data"; "backups"] ["tmp"] backup_config
    storage_names temp_names eq_refl eq_refl sample_devices backup_machine) as (e & m' & E & _).
  by exists e, m'.
Defined.
