(* ===== verification/ServerWitness.v ===== *)
(** * Accounts, commands, the hub, incidents, alerts, enrollment: the theorems at concrete inputs

    Each witness applies one theorem to the server of [Sample]. *)

From S2P Require Import Prelude GoStd Float64 Json Ext Codecs World Hub HubFacts Auth UsersAdmin AuthFacts DeviceCommands.
From S2P Require Import Records AuditTrail AgentWitness.
From S2P Require Import CommandFlow CommandFacts CommandDelivery Sample PolicyMerge Incidents IncidentDesk IncidentsApi IncidentFacts DeskFacts.
From S2P Require Import IncidentAutomation Compliance ComplianceFacts Alerting AlertEngine AlertFacts AlertPass Enrollment.
From S2P Require Import EnrollmentFacts Sessions.

#[local] Open Scope string_scope.

(** ** Accounts *)

Lemma rbac_mutations_need_operator_witness :
  exists p, JWTService_Parse t0 "operator-token" = Some p /\ p_Role p = RoleOperator.
Proof.
  destruct (rbac_mutations_need_operator [] (command_request laptop_id)
    (with_principal {| p_UserID := bob_id; p_Username := "bob"; p_Role := "operator" |} (command_request laptop_id)))
    as (p & Hp & _ & [Hr|[Hr _]]).
  - vm_compute. reflexivity.
  - vm_compute. discriminate.
  - vm_compute. reflexivity.
  - vm_compute. reflexivity.
  - vm_compute. reflexivity.
  - exfalso. revert Hp Hr. vm_compute. intros [= <-]. discriminate.
  - exists p. split; [exact Hp|exact Hr].
Defined.

Lemma role_check_after_middleware_witness :
  RequireMinRole [] (with_principal {| p_UserID := bob_id; p_Username := "bob"; p_Role := "operator" |}
    (command_request laptop_id)) RoleAdmin = inl (writeTicketsError 403 "forbidden").
Proof.
  destruct (role_check_after_middleware [] (command_request laptop_id)
    (with_principal {| p_UserID := bob_id; p_Username := "bob"; p_Role := "operator" |} (command_request laptop_id)) RoleAdmin)
    as (p & Hp & ->).
  - vm_compute. reflexivity.
  - vm_compute. discriminate.
  - vm_compute. reflexivity.
  - vm_compute. reflexivity.
  - assert (Ep : JWTService_Parse (rq_time (command_request laptop_id)) (DashboardBearerToken (command_request laptop_id)) =
      Some {| p_UserID := bob_id; p_Username := "bob"; p_Role := "operator" |}) by (vm_compute; reflexivity).
    rewrite Ep in Hp. injection Hp as <-. vm_compute. reflexivity.
Defined.

Definition patch_request (id : uuid) (body : json) : Request :=
  request "PATCH" "/v1/users/1" (uuid_string id) "admin-token" body.

Lemma sample_accounts_ok : accounts_ok tables.
Proof.
  split.
  - apply NoDup_ListNoDup. apply (bool_decide_unpack _). vm_compute. exact I.
  - exists root. split; [by left|done].
Qed.

Lemma an_admin_always_remains_witness :
  accounts_ok (w_db (handlePatch [] (patch_request root_id (JObj [("role", jstr "viewer")])) server).2).
Proof. exact (proj1 (an_admin_always_remains [] _ server sample_accounts_ok)). Defined.

Lemma concurrent_demotions_leave_no_admin_witness :
  let '(r, w') := (last_a ← IsLastAdmin root_id; last_b ← IsLastAdmin ann_id;
                   _ ← update_user root_id (set_role RoleViewer); _ ← update_user ann_id (set_role RoleViewer);
                   mret (last_a, last_b)) server in
  r = inr (false, false) /\ ~ has_admin (w_db w').
Proof.
  apply (concurrent_demotions_leave_no_admin root_id ann_id server).
  - reflexivity.
  - apply sample_accounts_ok.
  - discriminate.
  - intros u [<-|[<-|[<-|[]]]]; vm_compute; intuition congruence.
  - by left.
  - right. by left.
Defined.

Lemma rejected_patch_changes_role_witness :
  map u_role (t_users (w_db (handlePatch []
    (patch_request ann_id (JObj (jmap [("password", jstr " "); ("role", jstr "viewer")]))) server).2))
  = ["admin"; "viewer"; "operator"].
Proof.
  pose proof (rejected_patch_changes_role []
    (patch_request ann_id (JObj (jmap [("password", jstr " "); ("role", jstr "viewer")]))) server ann_id
    {| p_UserID := root_id; p_Username := "root"; p_Role := "admin" |}
    {| pu_Role := Some "viewer"; pu_Password := Some " " |} "viewer" "viewer" " ") as H.
  destruct (handlePatch _ _ _) as [resp w']. cbn [snd]. destruct H as [_ ->].
  all: vm_compute; first [reflexivity | tauto].
Defined.

(** ** Commands *)

Lemma sample_commands_wf : commands_wf tables.
Proof.
  intros r [<-|[]]. repeat split; try (vm_compute; reflexivity).
  - intros H. vm_compute in H. discriminate.
  - intros H. exfalso. by apply H.
  - intros H. vm_compute in H. discriminate.
  - intros H. vm_compute in H. discriminate.
Qed.

Lemma command_table_invariant_witness :
  commands_wf (w_db (handleCreate [] (command_request laptop_id) failing).2) /\
  commands_wf (w_db (ApplyDeviceCommandOutcome true "SER1" (command_result reboot_id true "done") server).2).
Proof.
  split.
  - exact (proj1 (command_table_invariant [] (command_request laptop_id) "SER1" true "" failing sample_commands_wf)).
  - exact (proj2 (proj2 (command_table_invariant [] (command_request laptop_id) "SER1" true
      (command_result reboot_id true "done") server sample_commands_wf))).
Defined.

(** The phone's session cannot settle the laptop's command. *)
Lemma outcome_touches_only_own_commands_witness :
  t_commands (w_db (ApplyDeviceCommandOutcome true "SER2" (command_result reboot_id true "done") server).2) = [reboot].
Proof.
  destruct (outcome_touches_only_own_commands true "SER2" (command_result reboot_id true "done") server) as [_ H].
  - repeat constructor. intros [].
  - revert H. generalize (t_commands (w_db (ApplyDeviceCommandOutcome true "SER2" (command_result reboot_id true "done")
      server).2)). intros rows H. change (t_commands (w_db server)) with [reboot] in H.
    apply Forall2_cons_inv_l in H as (r & l & E & H%Forall2_nil_inv_l & ->). subst l. by rewrite E.
Defined.

Lemma create_command_effect_witness :
  exists resp w', handleCreate [] (command_request laptop_id) server = (inr resp, w') /\ rs_status resp = 201 /\
    create_effect resp server w'.
Proof.
  destruct (create_command_effect [] (command_request laptop_id) server) as (resp & w' & E & H).
  - reflexivity.
  - intros r [<-|[]]. vm_compute. discriminate.
  - exists resp, w'. split; [exact E|]. split; [|exact H].
    assert (Es : match (handleCreate [] (command_request laptop_id) server).1 with
                 | inr x => rs_status x | inl _ => 0 end = 201) by (vm_compute; reflexivity).
    by rewrite E in Es.
Defined.

Lemma flush_marks_exactly_what_it_sends_witness :
  exists sent w', FlushPendingDeviceCommands "SER1" server = (inr (), w') /\
    outbox (w_link w') = map (fun p => ("SER1", row_downlink p)) sent.
Proof.
  destruct (flush_marks_exactly_what_it_sends "SER1" server) as (sent & w' & E & _ & _ & Ho).
  - reflexivity.
  - vm_compute. discriminate.
  - exists sent, w'. by split.
Defined.

(** 262143 letters and an e-acute: the cut at 262144 falls inside it. *)
Definition split_output : string := Str.of_bytes (repeat "x"%char (Z.to_nat 262143) ++ map ascii_of_N [195; 169]%N).

Lemma split_rune_output_never_recorded_witness :
  exists e, CompleteDeviceCommand reboot_id split_output server = (inl e, server).
Proof.
  destruct (split_rune_output_never_recorded reboot_id split_output server) as (e & E & _).
  - reflexivity.
  - vm_compute. reflexivity.
  - vm_compute. reflexivity.
  - by exists e.
Defined.

Lemma late_sent_mark_erases_outcome_witness :
  map (fun r => dc_Status (cr_cmd r))
    (t_commands (w_db (MarkDeviceCommandSent reboot_id (CompleteDeviceCommand reboot_id "done" server).2).2)) = ["sent"].
Proof.
  pose proof (late_sent_mark_erases_outcome reboot_id "done" true server) as H. cbv zeta iota in H.
  set (w2 := (MarkDeviceCommandSent _ _).2) in *.
  assert (El : t_commands (w_db w2) = [with_status "sent" "" (Some t0) reboot]) by (vm_compute; reflexivity).
  rewrite El in H |- *. simpl.
  destruct (H eq_refl eq_refl (or_introl eq_refl) (with_status "sent" "" (Some t0) reboot) (or_introl eq_refl) eq_refl)
    as [E _]. exact (f_equal (fun s => [s]) E).
Defined.

(** ** The hub *)

(** One agent has connected. *)
Definition connected : Sys :=
  {| y_hub := (register "SER1" NewHub).2; y_readers := {[0%nat]} ∪ ∅; y_sending := []; y_panicked := false |}.

Lemma connected_reachable : reachable connected.
Proof. eapply reach_step; [apply reach_start|]. by apply (step_connect "SER1" start 0%nat). Qed.

Lemma hub_registry_sound_witness :
  exists h2, unregister 0%nat (register "SER1" (y_hub connected)).2 = Done h2 /\ h_bySerial h2 !! "SER1" = Some 1%nat.
Proof.
  destruct (hub_registry_sound connected connected_reachable eq_refl) as (_ & _ & _ & _ & H).
  apply (H "SER1" 0%nat); reflexivity.
Defined.

(** ** Incidents *)

Lemma sample_incidents_ok : incidents_ok tables.
Proof.
  split; [|split].
  - intros i [<-|[]]. repeat split; try (vm_compute; reflexivity). by left.
  - repeat constructor. intros [].
  - repeat constructor. intros [].
Qed.

Definition offline_task : event := OpenIncident (builtin_fp laptop_id) laptop_id "Laptop offline" "silent".

Lemma incident_table_invariant_witness : incidents_ok (w_db (run_task offline_task server).2).
Proof.
  destruct (incident_table_invariant [] (command_request laptop_id) offline_task true "SER1" "" server sample_incidents_ok)
    as (_ & _ & _ & _ & H & _). exact H.
Defined.

(** The operator lists the incidents, opens the one there is, and resolves it. *)
Definition list_request : Request := request "GET" "/v1/incidents" "" "operator-token" JNull.
Definition open_request : Request := request "GET" "/v1/incidents/1" (uuid_string 7%N) "operator-token" JNull.
Definition bob_principal : Principal := {| p_UserID := bob_id; p_Username := "bob"; p_Role := RoleOperator |}.

Lemma open_reads : reads [] 7%N open_request.
Proof. split; [reflexivity|]. split; [exists bob_principal|]; vm_compute; reflexivity. Qed.

Lemma bob_lists : RequireMinRole [] list_request RoleViewer = inr bob_principal.
Proof. vm_compute. reflexivity. Qed.

Lemma listed_incident_opens_witness :
  exists row detail,
    handleListIncidents [] list_request server = (inr (writeTicketsJSON 200 (JArr [incident_row_json row])), server) /\
    lr_row row = phone_incident /\
    handleGetIncident [] open_request server = (inr (writeTicketsJSON 200 (detail_json detail)), server) /\ id_Incident detail = row.
Proof.
  destruct (listed_incident_opens [] list_request bob_principal None server (NoDup_singleton 7%N) eq_refl eq_refl bob_lists eq_refl)
    as (rows & rest & Hl & _ & Hp & Hrest & _ & _ & Ho).
  assert (Hlen : (length rows + length rest = 1)%nat).
  { apply Permutation_length in Hp. rewrite length_app, length_map in Hp. exact Hp. }
  rewrite Hrest, app_nil_r in Hp by lia. apply Permutation_sym, Permutation_length_1_inv in Hp.
  destruct rows as [|row [|]]; try discriminate. injection Hp as Hrow. exists row.
  assert (Hg : reads [] (in_id (lr_row row)) open_request) by (rewrite Hrow; exact open_reads).
  destruct (Ho row open_request (or_introl eq_refl) Hg) as (detail & Hd & Hi & _). exists detail.
  split; [exact Hl|]. split; [exact Hrow|]. split; [exact Hd|exact Hi].
Defined.

Definition resolve_body : json := JObj (jmap [("markdown", jstr "New battery"); ("summary", jstr " Replaced ")]).
Definition resolve_request : Request := request "POST" "/v1/incidents/1/resolutions" (uuid_string 7%N) "operator-token" resolve_body.

Lemma resolve_read : read_body maxIncidentJSONBody resolve_request = Some (json_marshal resolve_body).
Proof. vm_compute. reflexivity. Qed.
Lemma resolve_decodes : decode_create_resolution (json_marshal resolve_body)
  = Some {| cr_Summary := " Replaced "; cr_Markdown := "New battery" |}.
Proof. vm_compute. reflexivity. Qed.
Lemma bob_resolves : RequireMinRole [] resolve_request RoleOperator = inr bob_principal.
Proof. vm_compute. reflexivity. Qed.

Lemma resolution_read_back_witness :
  exists w' d, (handlePostResolution [] resolve_request server).2 = w' /\
    (handleGetIncident [] open_request w').1 = inr (writeTicketsJSON 200 (detail_json d)) /\
    map re_summary (id_Resolutions d) = ["Replaced"].
Proof.
  destruct (resolution_read_back [] resolve_request bob_principal 7%N _ _ open_request phone_incident server eq_refl bob_resolves
    eq_refl resolve_read resolve_decodes) as (w' & Hp & _ & Hg).
  - vm_compute. discriminate.
  - reflexivity.
  - reflexivity.
  - reflexivity.
  - reflexivity.
  - intros re [].
  - exact open_reads.
  - exists w'. eexists. split; [by rewrite Hp|]. split; [by rewrite Hg|]. reflexivity.
Defined.

Lemma resolutions_follow_their_incident_witness :
  resolutions_ok (w_db (handlePostResolution [] resolve_request server).2).
Proof.
  destruct (resolutions_follow_their_incident [] resolve_request offline_task true "SER1" "" server) as [H _].
  destruct (H (w_db (handlePostResolution [] resolve_request server).2)) as [_ Hok]; [right; right; by left|].
  apply Hok. intros re [].
Defined.

Lemma recovery_resolves_exactly_witness :
  Forall2 (recovery_of t0 [builtin_fp phone_id]) [phone_incident]
    (t_incidents (w_db (OnAlertFingerprintsResolved [builtin_fp phone_id] server).2)).
Proof.
  apply (recovery_resolves_exactly server [builtin_fp phone_id]).
  - reflexivity.
  - repeat constructor; vm_compute; reflexivity.
Defined.

Lemma alert_incident_lifecycle_witness :
  let w1 := (run_task offline_task server).2 in
  let w2 := (run_task (AlertsResolved [builtin_fp laptop_id]) (advance_clock hour w1)).2 in
  let w3 := (run_task (OpenIncident (builtin_fp laptop_id) laptop_id "Laptop gone" "again") (advance_clock hour w2)).2 in
  exists i, only_incident [phone_incident] i w3 /\ in_state i = "in_progress" /\
    journal_kinds i = [Some (jstr "alert_open"); Some (jstr "alert_recovery"); Some (jstr "alert_repeat")].
Proof.
  cbv zeta. unfold offline_task.
  destruct (alert_incident_lifecycle server (builtin_fp laptop_id) laptop_id "Laptop offline" "silent" "Laptop gone" "again"
              hour hour) as (i1 & i2 & i3 & _ & _ & _ & _ & H & Hs & _ & _ & _ & Hj).
  - split; try (vm_compute; reflexivity); try (vm_compute; discriminate).
    intros i [<-|[]]. vm_compute. reflexivity.
  - intros i [<-|[]]. vm_compute. discriminate.
  - split; vm_compute; reflexivity.
  - vm_compute. reflexivity.
  - vm_compute. reflexivity.
  - exists i3. split; [exact H|]. split; [exact Hs|exact Hj].
Defined.

Lemma incident_number_formats_witness :
  lpad_incident_number 12345678 = format_incident_number 1234567 /\
  incident_number_ok (format_incident_number 12345678) = false.
Proof.
  destruct (incident_number_formats 12345678 ltac:(lia)) as (_ & H1 & H2).
  split; [|exact H1]. apply H2. lia.
Defined.

(** ** Alerts *)

Lemma sample_alerts_ok : alerts_ok tables.
Proof.
  split_and!; [repeat constructor; intros []| |intros r []].
  intros a [<-|[]]. split_and!; vm_compute; reflexivity.
Qed.

Definition cpu_rule : AlertRule := {|
  ar_ID := 0%N; ar_Name := "Hot CPU"; ar_TargetType := "device"; ar_Metric := "cpu_usage"; ar_Operator := ">";
  ar_Threshold := F64.of_Z 90; ar_DurationSeconds := 300; ar_Severity := "warning"; ar_IsEnabled := true;
  ar_TargetDeviceID := None; ar_CreatedAt := 0; ar_UpdatedAt := 0 |}.

Lemma sample_alerts_wf : alerts_wf server.
Proof.
  split.
  - intros a [<-|[]]. vm_compute. reflexivity.
  - repeat constructor. intros [].
  - repeat constructor. intros [].
  - intros a [<-|[]]. exists 5%nat. split; [simpl; lia|vm_compute; reflexivity].
Qed.

Lemma alert_table_invariant_witness :
  alerts_ok (w_db (evaluate failing).2) /\
  alerts_ok (w_db (InsertAlertRule cpu_rule server).2) /\ length (t_rules (w_db (InsertAlertRule cpu_rule server).2)) = 1%nat.
Proof.
  split; [exact (proj1 (alert_table_invariant laptop_id 6%N cpu_rule failing sample_alerts_ok))|].
  destruct (alert_table_invariant laptop_id 6%N cpu_rule server sample_alerts_ok) as (_ & _ & _ & H & _).
  split; [exact H|vm_compute; reflexivity].
Defined.

Lemma laptop_acceptable :
  acceptable tables (builtin_fp laptop_id) AlertKindBuiltinOffline (Some laptop_id) None "critical" "Offline" "silent" (JObj []).
Proof. split; vm_compute; reflexivity. Qed.

Lemma upsert_functional_witness :
  exists o row w', UpsertUnresolvedAlert (builtin_fp laptop_id) AlertKindBuiltinOffline (Some laptop_id) None "critical"
                     "Offline" "silent" (JObj []) hour server = (inr o, w') /\
    fo_ShouldNotify o = true /\ aa_ResolvedAt row = None /\
    List.filter (has_fingerprint (builtin_fp laptop_id)) (t_alerts (w_db w')) = [row].
Proof.
  destruct (upsert_functional (builtin_fp laptop_id) AlertKindBuiltinOffline (Some laptop_id) None "critical"
              "Offline" "silent" (JObj []) hour server) as (o & row & w' & E & _ & H).
  - reflexivity.
  - exact laptop_acceptable.
  - vm_compute. reflexivity.
  - exact sample_alerts_wf.
  - exists o, row, w'. split; [exact E|]. split; [|split].
    + rewrite (ue_due _ _ _ _ _ _ _ _ _ H). vm_compute. reflexivity.
    + exact (ue_open _ _ _ _ _ _ _ _ _ H).
    + exact (ue_one _ _ _ _ _ _ _ _ _ H).
Defined.

(** Raised every half hour: notified every hour. *)
Lemma notification_cadence_witness :
  exists l, alert_storm (builtin_fp laptop_id) AlertKindBuiltinOffline (Some laptop_id) None "critical" "Offline" "silent"
              (JObj []) hour [0; 30 * minute; 30 * minute] server = (t0, true) :: l /\ cadence_from hour t0 l.
Proof.
  destruct (notification_cadence (builtin_fp laptop_id) AlertKindBuiltinOffline (Some laptop_id) None "critical"
    "Offline" "silent" (JObj []) hour 0 [30 * minute; 30 * minute] server) as (t & l & E & Et & _ & H).
  - split; vm_compute; reflexivity.
  - reflexivity.
  - exact laptop_acceptable.
  - exact sample_alerts_wf.
  - intros a [<-|[]] E. vm_compute in E. discriminate.
  - assert (t = t0) as -> by (rewrite Et; reflexivity). exists l. split; [exact E|exact H].
Defined.

(** The laptop is silent, the phone is back. *)
Lemma watchdog_pass_exact_witness :
  exists w', evaluateBuiltinOffline server = (inr (), w') /\
    open_alert w' (builtin_fp laptop_id) /\ ~ open_alert w' (builtin_fp phone_id).
Proof.
  destruct (watchdog_pass_exact server) as (w' & E & H).
  - reflexivity.
  - exact sample_alerts_wf.
  - intros a id [<-|[]] _. reflexivity.
  - apply NoDup_ListNoDup. apply (bool_decide_unpack _). vm_compute. exact I.
  - intros a [<-|[<-|[]]]; repeat split; vm_compute; reflexivity.
  - exists w'. split; [exact E|]. split.
    + apply (pr_exact _ _ H laptop); [by left|vm_compute; reflexivity].
    + intros Ho. apply (pr_exact _ _ H phone) in Ho; [|by right; left]. vm_compute in Ho. discriminate.
Defined.

Lemma heartbeat_closes_the_loop_witness :
  let w1 := (OnHeartbeat phone_id server).2 in
  exists i, t_incidents (w_db (run_tasks (new_events server w1) w1)) = [i] /\ in_state i = "resolved".
Proof.
  pose proof (heartbeat_closes_the_loop phone_id server) as H. cbv zeta in H |- *.
  set (rows := t_incidents (w_db (run_tasks _ _))) in *. clearbody rows.
  destruct H as [_ H].
  - reflexivity.
  - vm_compute. discriminate.
  - intros al [<-|[]] _. split; [vm_compute; discriminate|]. split; vm_compute; reflexivity.
  - change (t_incidents (w_db server)) with [phone_incident] in H.
    apply Forall2_cons_inv_l in H as (i & l & Hi & H%Forall2_nil_inv_l & ->). subst l. exists i. split; [reflexivity|].
    apply (Hi phone_alert); [by left|vm_compute; reflexivity..].
Defined.

(** ** Compliance *)

Definition failed_report : option EnforcementWire :=
  Some {| enf_State := "failed"; enf_Detail := "firewall off"; enf_CriticalFailed := true |}.

Lemma sample_storable : quarantine_storable.
Proof. repeat split; vm_compute; first [reflexivity|discriminate]. Qed.

Lemma sample_fresh : fresh_command_id server.
Proof. intros r [<-|[]]. vm_compute. discriminate. Qed.

Lemma compliance_report_effect_witness :
  exists w', EvaluateAfterTelemetry laptop_id "SER1" "linux" failed_report server = (inr (), w') /\
    report_effect laptop_id "SER1" "non_compliant" "firewall off" server w'.
Proof.
  destruct (compliance_report_effect laptop_id "SER1" "linux" failed_report laptop server) as (w' & E & H).
  - reflexivity.
  - vm_compute. reflexivity.
  - exact sample_storable.
  - intros s r Hv. vm_compute in Hv. injection Hv as <- <-. vm_compute. reflexivity.
  - exact sample_fresh.
  - exists w'. split; [exact E|].
    assert (Ev : verdict (status_of (w_db server) laptop_id) (has_critical laptop_id "linux" server) failed_report =
      Some ("non_compliant", "firewall off")) by (vm_compute; reflexivity).
    rewrite Ev in H. exact H.
Defined.

(** Two failures in a row, then a recovery and a failure: two quarantines. *)
Definition report_history : list (Z * option EnforcementWire) :=
  [(0, failed_report); (minute, failed_report);
   (minute, Some {| enf_State := "ok"; enf_Detail := ""; enf_CriticalFailed := false |}); (minute, failed_report)].

Lemma quarantine_once_per_failure_witness :
  let '(ss, w') := run_reports laptop_id "SER1" "linux" report_history server in
  quarantines laptop_id (w_db w') = (quarantines laptop_id tables + failures "compliant" ss)%nat.
Proof.
  apply (quarantine_once_per_failure laptop_id "SER1" "linux" report_history server).
  - exact sample_storable.
  - discriminate.
  - unfold report_history, failed_report. repeat constructor; intros prev [] s r Hv; vm_compute in Hv;
      injection Hv as <- <-; vm_compute; reflexivity.
  - split.
    + reflexivity.
    + exists laptop. vm_compute. reflexivity.
    + intros r [<-|[]]. exists 4%nat. split; [simpl; lia|vm_compute; reflexivity].
    + reflexivity.
Defined.

(** ** Enrollment *)

Lemma sample_tokens_unique : tokens_unique tables.
Proof. split; repeat constructor; intros []. Qed.

Definition chain : IssueClientCertificateResult := {| ic_ClientChainPEM := "leaf+ca"; ic_RootCAPEM := "root" |}.

Definition enrolling : Enrolling LiveHub := {| n_world := server; n_holding := []; n_enrolled := [] |}.

(** The token is claimed, and its request answered with a certificate. *)
Definition enrolled : Enrolling LiveHub := {|
  n_world := (ClaimByPresentationHash "hash:sesame" server).2; n_holding := []; n_enrolled := [8%N] |}.

Lemma enrolled_reachable : enrolls enrolling enrolled.
Proof.
  eapply enrolls_step; [eapply enrolls_step; [apply enrolls_refl|]|].
  - apply (step_claim enrolling "hash:sesame" (inr {| ct_ID := 8%N; ct_AssetID := None |})). reflexivity.
  - exact (step_finish {| n_world := _; n_holding := [{| ct_ID := 8%N; ct_AssetID := None |}]; n_enrolled := [] |}
             [] {| ct_ID := 8%N; ct_AssetID := None |} [] (inr (Some chain)) (inr {| eo_Response :=
             {| ea_ClientCert := "leaf+ca"; ea_RootCA := "root" |}; eo_TokenID := 8%N |}) _ eq_refl eq_refl).
Qed.

Lemma enrollment_single_use_witness : used_in (w_db (n_world enrolled)) 8%N.
Proof.
  destruct (enrollment_single_use enrolling enrolled) as [_ H].
  - exact sample_tokens_unique.
  - reflexivity.
  - reflexivity.
  - exact enrolled_reachable.
  - apply H. by left.
Defined.

Lemma enrollment_request_effect_witness :
  let '(r, w') := ProcessEnroll "sesame" "host-1" (fun _ _ _ => inr (Some chain)) server in
  r = inr {| eo_Response := {| ea_ClientCert := "leaf+ca"; ea_RootCA := "root" |}; eo_TokenID := 8%N |} /\
  map et_is_used (t_tokens (w_db w')) = [true].
Proof.
  pose proof (enrollment_request_effect "sesame" "host-1" (fun _ _ _ => inr (Some chain)) "host-1" server) as H.
  destruct (ProcessEnroll _ _ _ _) as [r w']. destruct H as [-> ->].
  - reflexivity.
  - exact sample_tokens_unique.
  - intros t [<-|[]] _. reflexivity.
  - split; vm_compute; first [reflexivity|discriminate].
  - split; reflexivity.
Defined.

(** ** The audit trail *)

Definition document_request : Request := request "POST" "/v1/documents" "" "operator-token"
  (JObj (jmap [("content_markdown", jstr "Call us."); ("title", jstr "Contact")])).
Definition document_route : Request -> go LiveHub Response := documents_handleCreate [].
Definition document_principal : Principal := {| p_UserID := bob_id; p_Username := "bob"; p_Role := RoleOperator |}.
Definition document_admitted : Request := with_principal document_principal (withRequestID "req-1" document_request).
Definition document_answer : Response := writeTicketsJSON 201 (JObj [("id", jstr (uuid_string (gen_random_uuid 20)))]).
Definition document_world : World LiveHub := (document_route document_admitted server).2.

Lemma document_passes : DashboardRBACMiddleware [] (withRequestID "req-1" document_request) = Next document_admitted.
Proof. vm_compute. reflexivity. Qed.
Lemma document_answered : (document_route document_admitted server).1 = inr document_answer.
Proof. vm_compute. reflexivity. Qed.
Lemma document_recordable : recordable (w_db document_world) document_principal document_admitted = true.
Proof. vm_compute. reflexivity. Qed.
Lemma document_no_faults : w_faults document_world = [].
Proof. vm_compute. reflexivity. Qed.

Lemma mutations_are_recorded_witness :
  (serve [] document_route "req-1" document_request server).1 = inr document_answer /\
  t_audit (w_db (serve [] document_route "req-1" document_request server).2)
  = [mutation_row (gen_random_uuid 21) t0 document_principal document_admitted 201].
Proof.
  destruct (mutations_are_recorded [] document_route "req-1" document_request document_admitted server _ _ eq_refl document_passes
    (first_is _ _ document_answered) document_no_faults) as (p & Hj & Hr & E).
  assert (p = document_principal) as -> by (vm_compute in Hr; by injection Hr as <-).
  change ((document_route document_admitted server).2) with document_world in E. rewrite document_recordable in E. rewrite E.
  split; [reflexivity|]. cbn [snd w_db set_db t_audit with_audit draw_id]. vm_compute. reflexivity.
Defined.

(** ** Sessions *)

Definition sample_service : JWTService := {| jw_secret := "secret"; jw_issuer := "arx-mdm"; jw_ttl := 24 * hour |}.
Definition carol_body : json := JObj (jmap [("password", jstr "s3cret"); ("role", jstr "Operator"); ("username", jstr " carol ")]).
Definition carol_request : Request := request "POST" "/v1/users" "" "admin-token" carol_body.
Definition login_body (name_ password : string) : json := JObj (jmap [("password", jstr password); ("username", jstr name_)]).
Definition login_request (name_ password : string) : Request :=
  request "POST" "/v1/auth/login" "" "" (login_body name_ password).
Definition root_principal : Principal := {| p_UserID := root_id; p_Username := "root"; p_Role := RoleAdmin |}.

Lemma root_creates : RequireMinRole [] carol_request RoleAdmin = inr root_principal.
Proof. vm_compute. reflexivity. Qed.
Lemma carol_read : read_body maxUserAdminJSON carol_request = Some (json_marshal carol_body).
Proof. vm_compute. reflexivity. Qed.
Lemma carol_decodes : decode_create (json_marshal carol_body)
  = Some {| cu_Username := " carol "; cu_Password := "s3cret"; cu_Role := "Operator" |}.
Proof. vm_compute. reflexivity. Qed.
Lemma carol_hash : HashPassword "s3cret" = Some "hash:s3cret".
Proof. vm_compute. reflexivity. Qed.
Lemma carol_login : login_of [] (login_request "carol" "s3cret") "carol" "s3cret".
Proof.
  split; [reflexivity|]. split; [reflexivity|]. exists (json_marshal (login_body "carol" "s3cret")), {| lg_Username := "carol"; lg_Password := "s3cret" |}.
  split_and!; vm_compute; reflexivity.
Qed.

Lemma created_account_signs_in_witness :
  exists id w1 tok w2, (UsersAdmin.handleCreate [] carol_request server).2 = w1 /\
    handleLogin sample_service [] (login_request "carol" "s3cret") w1 =
      (inr (writeTicketsJSON 200 (login_json tok (t0 + 24 * hour) {| p_UserID := id; p_Username := "carol"; p_Role := RoleOperator |})), w2).
Proof.
  destruct (created_account_signs_in sample_service [] carol_request root_principal _ _ RoleOperator "hash:s3cret"
    (login_request "carol" "s3cret") server eq_refl root_creates carol_read carol_decodes eq_refl carol_hash)
    as (id & w1 & tok & w2 & Hc & Hl & _).
  - vm_compute. discriminate.
  - reflexivity.
  - reflexivity.
  - exact carol_login.
  - reflexivity.
  - exists id, w1, tok, w2. split; [by rewrite Hc|exact Hl].
Defined.

Definition padded_body : json := JObj [("password", jstr " new ")].
Definition padded_request : Request := patch_request bob_id padded_body.
Lemma root_patches : RequireMinRole [] padded_request RoleAdmin = inr root_principal.
Proof. vm_compute. reflexivity. Qed.
Lemma padded_id : parseUserUUID padded_request = Some bob_id.
Proof. vm_compute. reflexivity. Qed.
Lemma padded_read : read_body maxUserAdminJSON padded_request = Some (json_marshal padded_body).
Proof. vm_compute. reflexivity. Qed.
Lemma padded_decodes : decode_patch (json_marshal padded_body) = Some {| pu_Role := None; pu_Password := Some " new " |}.
Proof. vm_compute. reflexivity. Qed.
Lemma padded_login : login_of [] (login_request "bob" " new ") "bob" " new ".
Proof.
  split; [reflexivity|]. split; [reflexivity|]. exists (json_marshal (login_body "bob" " new ")), {| lg_Username := "bob"; lg_Password := " new " |}.
  split_and!; vm_compute; reflexivity.
Qed.

Lemma padded_password_locks_out_witness :
  exists w1, (handlePatch [] padded_request server).2 = w1 /\
    handleLogin sample_service [] (login_request "bob" " new ") w1 = (inr (writeTicketsError 401 "invalid credentials"), w1).
Proof.
  destruct (padded_password_locks_out sample_service [] padded_request root_principal bob_id _ _ " new " "hash:new" bob "bob" server
    eq_refl root_patches padded_id padded_read padded_decodes eq_refl eq_refl) as (w1 & Hp & Hl & _).
  - vm_compute. discriminate.
  - vm_compute. discriminate.
  - reflexivity.
  - reflexivity.
  - vm_compute. discriminate.
  - reflexivity.
  - reflexivity.
  - discriminate.
  - reflexivity.
  - reflexivity.
  - discriminate.
  - reflexivity.
  - exists w1. split; [by rewrite Hp|]. exact (Hl _ padded_login).
Defined.

Definition lock_request : Request := request "POST" "/v1/devices/1/lock" (uuid_string laptop_id) "admin-token" JNull.

Lemma lock_answered : (handleLock [] lock_request server).1 = inr (writeTicketsJSON 202 (dispatched_json laptop_id "lock")).
Proof. vm_compute. reflexivity. Qed.

Lemma lock_and_wipe_over_rest_witness :
  outbox (w_link (handleLock [] lock_request server).2) = (outbox (w_link server) ++ [("SER1", JObj [("action", jstr "lock")])])%list.
Proof.
  destruct (lock_and_wipe_over_rest [] "lock" "device_remote_lock" lock_request server _ _ (first_is _ _ lock_answered)) as [_ H].
  destruct H as (p & a & cs & _ & _ & Ha & Hid & Hcs & _ & _ & Ho).
  assert (Hp : @security_parseDeviceID bit_uuid lock_request = inr laptop_id) by (vm_compute; reflexivity).
  rewrite Hp in Hid. injection Hid as Hid. destruct Ha as [<-|[<-|[]]]; [|discriminate]. injection Hcs as <-. exact Ho.
Defined.
