(* ===== verification/TelemetryWitness.v ===== *)
(** * Telemetry, deployments, automations, channels and rules at concrete inputs

    Each witness applies one theorem to a server of [Sample]. *)

From S2P Require Import Prelude GoStd Float64 Json Ext Codecs World Hub HubFacts Auth UsersAdmin.
From S2P Require Import DeviceCommands CommandFlow Alerting AlertEngine AlertFacts AlertPass Incidents Compliance Enrollment.
From S2P Require Import AndroidPolicies MdmDownlink Telemetry TelemetryFacts TelemetryFlow Packages Scheduler SchedulerFacts.
From S2P Require Import Notifications AlertsApi AlertsApiFacts Sample.

#[local] Open Scope string_scope.

(** ** Telemetry *)

Lemma two_assets_ok a b db : t_assets db = [a; b] -> asset_row_ok a = true -> asset_row_ok b = true ->
  assets_clash a b = false -> assets_clash b a = false -> assets_ok db.
Proof.
  intros E Ha Hb Hab Hba. unfold assets_ok. rewrite E. split; [by repeat constructor|]. intros i j x y Hi Hj.
  destruct i as [|[|i]], j as [|[|j]]; simpl in Hi, Hj; try discriminate; injection Hi as <-; injection Hj as <-; congruence.
Qed.

Lemma sample_assets_ok : assets_ok tables.
Proof. apply (two_assets_ok laptop phone); vm_compute; reflexivity. Qed.

(** The phone is known by its certificate; a tablet nobody has seen gets the next number. *)
Lemma registration_refines_identity_witness :
  (exists x w', upsertAssetFromTelemetry "SER2" phone_payload "android" wiping = (inr x, w') /\
     x = (phone_id, "arx-c-2") /\ assets_ok (w_db w')) /\
  (exists x w', upsertAssetFromTelemetry "SER9" phone_payload "android" wiping = (inr x, w') /\
     x = (21%N, "arx-c-3") /\ assets_ok (w_db w')).
Proof.
  pose proof (registration_refines_identity "SER2" phone_payload "android" wiping sample_assets_ok) as H2.
  pose proof (registration_refines_identity "SER9" phone_payload "android" wiping sample_assets_ok) as H9.
  specialize (H2 ltac:(discriminate) ltac:(discriminate)). specialize (H9 ltac:(discriminate) ltac:(discriminate)).
  assert (E2 : (upsertAssetFromTelemetry "SER2" phone_payload "android" wiping).1 = inr (phone_id, "arx-c-2"))
    by (vm_compute; reflexivity).
  assert (E9 : (upsertAssetFromTelemetry "SER9" phone_payload "android" wiping).1 = inr (21%N, "arx-c-3"))
    by (vm_compute; reflexivity).
  destruct (upsertAssetFromTelemetry "SER2" phone_payload "android" wiping) as [r2 w2]; simpl in E2; subst r2.
  destruct (upsertAssetFromTelemetry "SER9" phone_payload "android" wiping) as [r9 w9]; simpl in E9; subst r9.
  destruct H2 as (l2 & _ & _ & H2 & _), H9 as (l9 & _ & _ & H9 & _). split; [exists (phone_id, "arx-c-2"), w2|exists (21%N, "arx-c-3"), w9]; done.
Defined.

(** A phone that takes the laptop's name: its reports are refused from then on.  With its own
    name the same report is taken. *)
Definition renamed_payload : TelemetryPayload := {|
  tp_Hostname := default "" (a_hostname laptop); tp_OsType := "android"; tp_OSFamily := ""; tp_OSVersion := "";
  tp_TotalRAMBytes := 8000000000; tp_CPUModel := ""; tp_CPULogicalCores := 0; tp_CPUUsagePercent := F64.of_Z 12;
  tp_MemoryUsedBytes := 0; tp_RootDiskTotalBytes := 0; tp_RootDiskUsedBytes := 0; tp_BatteryPercent := F64.of_Z 0;
  tp_DeviceModel := ""; tp_MACAddress := ""; tp_InstalledSoftware := None; tp_MDMPolicyEnforcement := None |}.

Lemma phone_report_clean p : p = renamed_payload \/ p = phone_payload -> clean_report "SER2" p "android" server.
Proof. intros [-> | ->]; split_and!; try (vm_compute; reflexivity); vm_compute; discriminate. Qed.

Lemma fresh_asset a : In a (t_assets (w_db server)) -> a_id a <> gen_random_uuid (w_next_id server).
Proof. intros [<-|[<-|[]]]; vm_compute; discriminate. Qed.

Lemma registration_refused_exactly_witness :
  (exists e w', upsertAssetFromTelemetry "SER2" renamed_payload "android" server = (inl e, w')) /\
  ~ (torn "SER2" phone_payload (t_assets (w_db server)) \/
     unknown_device "SER2" phone_payload (t_assets (w_db server)) /\ exhausted (t_assets (w_db server))).
Proof.
  split.
  - apply (registration_refused_exactly "SER2" renamed_payload "android" server sample_assets_ok
      (phone_report_clean _ (or_introl eq_refl)) eq_refl fresh_asset).
    left. exists phone, laptop. split_and!; vm_compute; by auto.
  - intros H. apply (registration_refused_exactly "SER2" phone_payload "android" server sample_assets_ok
      (phone_report_clean _ (or_intror eq_refl)) eq_refl fresh_asset) in H as (e & w' & E).
    assert (E2 : exists x, (upsertAssetFromTelemetry "SER2" phone_payload "android" server).1 = inr x)
      by (eexists; vm_compute; reflexivity).
    destruct E2 as [x E2]. rewrite E in E2. discriminate E2.
Defined.

Lemma assets_table_typed_witness :
  assets_ok (w_db (NewTelemetryHandler true (report_request "SER9") server).2) /\
  length (t_assets (w_db (NewTelemetryHandler true (report_request "SER9") server).2)) = 3%nat.
Proof.
  split; [|vm_compute; reflexivity].
  destruct (assets_table_typed (L := LiveHub) true [] (report_request "SER9") "" "" phone_id "" "" true "" None) as [H _].
  exact (H server sample_assets_ok).
Defined.

Lemma stored_metrics_in_range_witness :
  metrics_ok (w_db (tryHandleAgentTelemetry "SER2" phone_data server).2) /\
  length (t_metrics (w_db (tryHandleAgentTelemetry "SER2" phone_data server).2)) = 1%nat.
Proof.
  split; [|vm_compute; reflexivity].
  destruct (stored_metrics_in_range (L := LiveHub) true (report_request "SER2") "SER2" phone_data) as [_ H].
  apply (H server). intros m [].
Defined.

(** A week asked of a device that has reported once: one point, in one of at most 361 buckets. *)
Definition reported : World LiveHub := (tryHandleAgentTelemetry "SER2" phone_data server).2.

Lemma history_bounded_witness :
  exists h w', LoadDeviceMetricHistory phone_id 1000 reported = (inr h, w') /\ length (mh_Series h) = 1%nat /\
    Forall point_ok (mh_Series h).
Proof.
  assert (E : match (LoadDeviceMetricHistory phone_id 1000 reported).1 with inr h => length (mh_Series h) | inl _ => 0%nat end
              = 1%nat) by (vm_compute; reflexivity).
  destruct (LoadDeviceMetricHistory phone_id 1000 reported) as [[e|h] w'] eqn:Hl; [discriminate E|].
  exists h, w'. split; [reflexivity|]. split; [exact E|].
  destruct (history_bounded phone_id 1000 reported w' h) as (_ & _ & _ & H & _).
  - intros m Hm. vm_compute in Hm. destruct Hm as [<-|[]]. vm_compute. discriminate.
  - exact Hl.
  - exact H.
Defined.

Definition answered : TelemetryProcessResult + err :=
  match (ProcessTelemetry "SER2" phone_payload wiping).1 with inr r => inl r | inl e => inr e end.

(** The wipe the operator asked for is gone, and the phone has not been told. *)
Lemma socket_report_loses_the_wipe_witness :
  exists w', tryHandleAgentTelemetry "SER2" phone_data wiping = (inr true, w') /\
    (forall x, In x (t_android (w_db w')) -> is_policy phone_id x = true -> an_wipe x = false) /\
    exists l, outbox (w_link w') = (outbox (w_link wiping) ++ l)%list /\ Forall (quarantine_message "SER2") l.
Proof.
  assert (E : match answered with inl r => tr_AssetID r | inr _ => uuid_nil end = phone_id) by (vm_compute; reflexivity).
  unfold answered in E.
  destruct (ProcessTelemetry "SER2" phone_payload wiping) as [[e|res] w'] eqn:Hp; [discriminate E|]. simpl in E.
  destruct (socket_report_loses_the_wipe "SER2" phone_data phone_members phone_payload res wipe_row wiping w')
    as (H1 & _ & H2 & H3).
  - reflexivity.
  - vm_compute. reflexivity.
  - exact Hp.
  - rewrite E. reflexivity.
  - reflexivity.
  - vm_compute. reflexivity.
  - vm_compute. reflexivity.
  - vm_compute. discriminate.
  - vm_compute. reflexivity.
  - rewrite E in H1. exists w'. split; [exact H2|]. split; [exact H1|exact H3].
Defined.

Definition closed_alert : ActiveAlert := {|
  aa_ID := aa_ID phone_alert; aa_AlertRuleID := None; aa_Fingerprint := aa_Fingerprint phone_alert;
  aa_AlertKind := AlertKindBuiltinOffline; aa_DeviceID := Some phone_id; aa_Severity := "critical";
  aa_Title := "Device offline"; aa_Message := "arx-c-2"; aa_Details := JObj []; aa_TriggeredAt := t0 - hour;
  aa_LastNotifiedAt := Some (t0 - hour); aa_ResolvedAt := Some t0 |}.

Definition phone_after : Asset :=
  refreshed_asset "SER2" phone_payload "android" (telemetry_metadata t0 phone_payload "android") t0 phone.

(** The phone reports; four minutes later the pass has nothing against it. *)
Lemma report_holds_off_the_watchdog_witness :
  exists res w1 v', ProcessTelemetry "SER2" phone_payload server = (inr res, w1) /\
    evaluateBuiltinOffline (advance_clock (4 * minute) w1) = (inr (), v') /\
    ~ open_alert v' (builtin_fp (tr_AssetID res)).
Proof.
  assert (E : match (ProcessTelemetry "SER2" phone_payload server).1 with inr r => tr_AssetID r | inl _ => uuid_nil end
              = phone_id) by (vm_compute; reflexivity).
  assert (Ew : let w1 := (ProcessTelemetry "SER2" phone_payload server).2 in
    w_faults w1 = [] /\ w_next_id w1 = 20%nat /\ w_now w1 = t0 /\ t_alerts (w_db w1) = [closed_alert] /\ t_assets (w_db w1) = [laptop; phone_after])
    by (vm_compute; split_and!; reflexivity).
  destruct (ProcessTelemetry "SER2" phone_payload server) as [[e|res] w1] eqn:Hp; [discriminate E|]. simpl in E, Ew.
  destruct Ew as (Ef & Ei & En & Ea & Es).
  assert (Hok : assets_ok (w_db (advance_clock (4 * minute) w1))).
  { apply (two_assets_ok laptop phone_after); [exact Es|vm_compute; reflexivity..]. }
  destruct (report_holds_off_the_watchdog "SER2" phone_payload res (4 * minute) server w1) as (v' & Hv & Ho).
  - exact sample_assets_ok.
  - exact Hp.
  - vm_compute. split; discriminate.
  - exact Ef.
  - split; simpl; rewrite Ea.
    + intros a [<-|[]]. unfold alert_row_ok. simpl. rewrite Es. vm_compute. reflexivity.
    + repeat constructor. intros [].
    + repeat constructor. intros [].
    + intros a [<-|[]]. exists 5%nat. split; [rewrite Ei; lia|vm_compute; reflexivity].
  - intros a id. simpl. rewrite Ea. intros [<-|[]] _. reflexivity.
  - intros a. simpl. rewrite Es. unfold watchdog_sees, last_seen_row. simpl. rewrite En.
    intros [<-|[<-|[]]]; repeat split; vm_compute; reflexivity.
  - exact Hok.
  - exists res, w1, v'. split; [reflexivity|]. split; [exact Hv|exact Ho].
Defined.

(** ** Deployments and automations *)

Definition deployment_request : Request :=
  request "POST" "/v1/deployments" "" "operator-token"
    (JObj (jmap [("asset_human_id", jstr "arx-c-1"); ("package_id", jstr (uuid_string (pk_ID editor)));
                 ("trigger_deploy", JBool true)])).

Lemma sample_packages_ok : packages_ok (w_db managed).
Proof. split; [intros p [<-|[]]; vm_compute; reflexivity|intros d []]. Qed.

(** The connected laptop takes the deployment. *)
Lemma deployments_table_invariant_witness :
  packages_ok (w_db (handleCreateDeployment [] deployment_request managed).2) /\
  map dp_status (t_deployments (w_db (handleCreateDeployment [] deployment_request managed).2)) = ["dispatched"].
Proof.
  split; [|vm_compute; reflexivity].
  destruct (deployments_table_invariant (L := LiveHub) [] deployment_request "" "" uuid_nil) as (_ & _ & _ & H & _).
  exact (H managed sample_packages_ok).
Defined.

Lemma automation_without_operation_never_deploys_witness :
  without_effect_at (dispatchAutomation (au_ID nightly)) managed /\
  check_automation {| ca_Name := "Nightly"; ca_CronSchedule := "0 3 * * *"; ca_ActionType := "deploy_package";
                      ca_TargetOS := None; ca_TargetAssetID := Some (uuid_string laptop_id);
                      ca_PayloadJSON := Some (JObj nightly_payload); ca_IsActive := None |} =
    inr (None, Some laptop_id, JObj nightly_payload).
Proof.
  destruct (automation_without_operation_never_deploys (au_ID nightly) nightly nightly_payload managed) as [H1 H2].
  - reflexivity.
  - reflexivity.
  - reflexivity.
  - left. reflexivity.
  - split; [exact H1|].
    refine (H2 "Nightly" "0 3 * * *" laptop_id (uuid_string (pk_ID editor)) _ _ _ _ _ _ _ _).
    all: vm_compute; first [discriminate | reflexivity].
Defined.

(** ** Channels and rules *)

Definition list_request (path : string) : Request := request "GET" path "" "admin-token" (JObj []).

(** Another server with another mail password. *)
Definition rekeyed : World LiveHub := set_db (with_channels [mail_channel "new"] (w_db managed)) managed.

(** A patch that turns the channel off and moves the mail host. *)
Definition host_patch : notificationChannelPatch :=
  {| ch_Name := ""; ch_SigningSecret := ""; ch_IsActive := Some false; ch_Config := Some [("host", jstr "mail2")] |}.

Lemma channel_secrets_kept_witness :
  (handleListChannels [] (list_request "/v1/notifications/channels") managed).1 =
    (handleListChannels [] (list_request "/v1/notifications/channels") rekeyed).1 /\
  password_of (patched_channel host_patch (mail_channel "old") t0 (mail_channel "old")) = Some (JStr "old").
Proof.
  destruct (channel_secrets_kept [] (list_request "/v1/notifications/channels") managed rekeyed) as [H1 H2]. split.
  - apply H1; [reflexivity..|]. constructor; [|constructor]. split; try reflexivity. right. split; [reflexivity|].
    exists (mail_config "old"), (jstr "old"), (jstr "new"). split; [|split; reflexivity]. repeat constructor.
  - apply (H2 host_patch (mail_channel "old") t0 (mail_channel "old")) with (m := mail_config "old").
    + reflexivity.
    + reflexivity.
    + repeat constructor.
    + reflexivity.
    + discriminate.
    + split; [repeat constructor|left; reflexivity].
Defined.

(** Clearing the target device with a blank string. *)
Definition blank_target : list (string * json) := [("target_device_id", jstr "")].
Definition blank_request : Request :=
  request "PATCH" "/v1/alerts/rules/1" (uuid_string (ar_ID disk_rule)) "admin-token" (JObj blank_target).

Lemma rule_patch_changes_only_named_fields_witness :
  handlePatchRule [] blank_request managed = (inr (writeAlertsErr 400 "invalid rule json"), managed) /\
  forall merged, merge_rule (ar_ID disk_rule) [("name", jstr "Full disk")] disk_rule disk_rule = inr merged ->
    ar_Threshold merged = ar_Threshold disk_rule.
Proof.
  destruct (rule_patch_changes_only_named_fields [] blank_request managed) as (_ & _ & _ & H1 & H2). split.
  - apply (H2 (ar_ID disk_rule) (json_marshal (JObj blank_target)) blank_target
      {| p_UserID := root_id; p_Username := "root"; p_Role := RoleAdmin |} ""); vm_compute; reflexivity.
  - intros merged E. destruct (H1 _ _ _ _ _ E) as (_ & _ & _ & _ & _ & _ & H & _). apply H. reflexivity.
Defined.
